(* ===== verification/_CoqProject ===== *)
-Q . S2P
Prelude.v
PushResultRing.v
Flock.v
NsSubscribe.v
FsTree.v
ServerTypes.v
InodeGenerator.v
NsManager.v
InodeIndex.v
Dentry.v
DentryView.v
DentryTree.v
DentryRename.v
DentryPath.v
DentryDemo.v
Thread.v
FlockIndex.v
DataThread.v
DataThreadSpec.v
DataThreadBatch.v
DataThreadTree.v
DataThreadDemo.v
CText.v
Proto.v
Service.v
ServiceSpec.v
Requests.v
RequestsSpec.v
ServiceSafe.v
WireDemo.v
Response.v
ResponseSpec.v
EndToEnd.v
EndToEndDemo.v
BinlogPack.v
BinlogRecord.v
BinlogScan.v
BinlogDemo.v
BinlogProducer.v
BinlogReplay.v
ReplicaConsumer.v
ReplicaDemo.v
Replication.v
ReplicationSafe.v
ReplicationDemo.v
MasterSlave.v
MasterSlaveDemo.v
Cluster.v
Election.v
ElectionAgree.v
ClusterPeers.v
ClusterDemo.v
Takeover.v
TakeoverDemo.v
ClusterTask.v
ClusterTaskSafe.v
ClusterTaskDemo.v
