(* ===== verification/Prelude.v ===== *)
(** * fastDIR: a verification library for the directory server

    fastDIR is the metadata server of the fastCFS file system: a tree of
    dentries per namespace, kept in memory, changed by the records of a binlog,
    replicated to slaves. This library models the parts of the server that
    carry its logic and proves what makes them correct.

    ** The parts and how they interact

    A client ([src/src/client/client_proto.c]) writes a request; its handler
    ([src/src/server/service_handler.c]) parses it into a binlog record that
    one of the data threads ([data_thread.c]) applies to the directory tree
    ([dentry.c]), which finds and creates namespaces ([ns_manager.c]), takes
    inode numbers ([inode_generator.c]) and keeps every dentry that is not a
    hard link in the inode table ([inode_index.c]); changes of a namespace's
    size are announced to subscribers ([ns_subscribe.c]). The record is then
    printed to the binlog ([binlog/binlog_pack.c]); the producer puts the records in
    the order of their versions ([binlog/binlog_producer.c]) and hands them to the
    queue of every slave ([binlog/binlog_local_consumer.c]). A network thread of the
    master sends a slave what it misses from the binlog files and then what is in its
    queue ([binlog/binlog_replication.c]); the slave replays it
    ([binlog/replica_consumer_thread.c], [binlog/binlog_replay.c]) and acknowledges
    each version, and the task of the request waits for the acknowledgements
    ([binlog/push_result_ring.c]). File locks ([flock.c]) hang off the dentries.

    Which server is the master is decided by an election ([cluster_relationship.c]):
    a server asks the others for their status, and the one with the newest data tells
    them in two phases that it is the master. The others join it, ping it, and are
    connected back for replication; the messages among servers and what a connection
    belongs to are [cluster_handler.c], the array of servers is [cluster_info.c].

    ** The files

    - [Prelude]: machine integers with their wrap-around, error numbers, the
      state monad of C code ([M]; [None] is undefined behaviour or fuel that ran
      out), object pools ([fresh_ptr]), linked lists in a pool ([chain]), shared
      tactics and list lemmas.
    - [PushResultRing] is [binlog/push_result_ring.c]: the state [PushContext] is
      [FDIRBinlogPushResultContext], one definition per function, loops with the
      ring's size or the queue's length as fuel. The theorems relate it to the
      multiset [pending] of unacknowledged versions.
    - [Flock] is [flock.c] and [flock.h]: [FlockState] has the entry of one dentry
      with its regions and lock tasks. Theorems: mutual exclusion of overlapping
      regions is an invariant of apply and release, waiters are woken in order of
      arrival, the system lock refines a FIFO mutex.
    - [NsSubscribe] is [ns_subscribe.c] with [service_deal_nss_fetch] of
      [service_handler.c]: no change is lost, none is reported twice.
    - [ServerTypes] is [server_types.h], [fdir_types.h], [binlog_types.h]: the state
      [Server] (dentries and namespaces by pointer, the inode table, the record in
      work, the allocator) and the interfaces to code outside the repository:
      [UniqSkiplist] (the skiplist of a directory's children, with its laws and a
      list implementation), [ServerConfig] (configuration, hash function),
      [StorageEngine], [PathSplit].
    - [InodeGenerator], [NsManager], [InodeIndex] are [inode_generator.c],
      [ns_manager.c] and [inode_index.c]: fresh inode numbers, namespaces by name
      and id, the inode table as a map, sizes and extended attributes.
    - [FsTree] is the abstract specification of the directory tree ([ATree], its
      invariant [wf], the operations [create_spec], [remove_spec], [move_spec],
      [exchange_spec]); [Dentry] is [dentry.c] as written; [DentryView] is the
      abstraction [abs] and one lemma per primitive step; [DentryTree],
      [DentryRename] and [DentryPath] are the refinement theorems for creating
      and removing, renaming, and path lookup; [DentryDemo] has them at a
      concrete server.
    - [Thread] is the state of a data thread ([data_thread.h], the rest of
      [binlog_types.h]): the server's tree, the record in work with the way it
      names its dentries, the shared data version, the lock entries, the queues.
      [FlockIndex] has the lock operations of [inode_index.c], which apply
      [Flock] to the entry of a dentry found by inode. [DataThread] is
      [data_thread.c]: finding what a record is about, the switches of
      [deal_update_record] and [deal_query_record], data versions, the two queues
      of dentries to free, the loop over a thread's records; the storage side is
      the interface [ChangeNotify]. [DataThreadSpec], [DataThreadBatch] and
      [DataThreadTree] have the theorems, [DataThreadDemo] a thread on the server
      of [DentryDemo].
    - [Proto] is the wire protocol on the client's side: the layout of the bodies
      ([common/fdir_proto.h]) and the functions of [client_proto.c] that write
      them, over the interface [ByteOrder] (numbers in network order). [Service]
      is the server's side, the parsing half of [service_handler.c]: reads of the
      task's buffer ([None] outside it), the records of the pool, one definition
      per handler up to the record that is pushed; the checks of a body's length
      are the interface [ServerFrame]. [ServiceSpec] has one lemma per parser,
      [Requests] the kinds of requests and what a record must say for each,
      [RequestsSpec] the round trip, [ServiceSafe] the same functions on bytes of
      which nothing is known. [Response] has the outputs of the handlers and the
      functions of the client that read them, with listings sent in parts, and
      [ResponseSpec] their theorems. [EndToEnd] puts client, handler, data thread
      and tree together. [WireDemo] and [EndToEndDemo] have the instances: network
      order, and requests against the server of [DentryDemo].
    - [CText], [BinlogPack], [BinlogRecord], [BinlogScan], [BinlogDemo]: C text
      (numbers printed and read, bounded reads of memory), [binlog/binlog_pack.c] as
      written over the interface [FastCommon] (output buffer and character
      converter of libfastcommon), the bytes of a packed record and their parse,
      the theorems (round trip, record boundaries, termination) and their
      instances at a concrete converter.
    - [BinlogProducer] is [binlog/binlog_producer.c]: the ring that orders the
      records, as a map from slots, with the queue records go back to.
    - [BinlogReplay] is [binlog/binlog_replay.c] over the parser of [BinlogPack] and
      the interface [DataThreads] (a batch is pushed to the data threads, which call
      back once per record). [ReplicaConsumer] is the slave's side,
      [binlog/replica_consumer_thread.c], as a step function over requests, rounds
      of the thread and sent responses; [ReplicaDemo] has both at concrete records.
    - [Replication] is the master's side: [binlog/binlog_replication.c],
      [binlog/binlog_local_consumer.c] and the acknowledgements of
      [cluster_handler.c]; [Replication] is one slave's state over the ring of
      [PushResultRing], [Master] all of them with the arrays of the network threads.
      [ReplicationSafe] has the steps of one connection ([sys_step]) and the handover
      from the files to the queue; [MasterSlave] puts it together with
      [ReplicaConsumer]; [ReplicationDemo] and [MasterSlaveDemo] have concrete runs.
    - [Cluster] is one server among the others, [Node]: [cluster_relationship.c], the
      handlers of [cluster_handler.c] that change who is the master or serve a slave's
      join and ping, and [cluster_info.c]; what other servers send is an argument.
      [Election] has the choice of a candidate, the flags and all steps of a server
      ([node_step]); [ElectionAgree] runs the two phases over a list of nodes;
      [ClusterPeers] puts a slave and its master together (ping, join); [Takeover] adds
      the inode numbers handed out before and after a slave becomes the master.
      [ClusterTask] is the dispatch of [cluster_handler.c] over all connections of a
      server: the type of a task, the union it selects, the consumer and the replications
      it points to; [ClusterTaskSafe] has its theorems. [ClusterDemo], [TakeoverDemo] and
      [ClusterTaskDemo] have three servers.

    ** What the groups of theorems show

    - The directory tree: [dentry_create_spec], [dentry_remove_spec],
      [dentry_rename_spec] say on every branch which error is returned and that
      the server then stands for the same tree, or that the operation succeeds
      and the server stands for the tree of the specification; [tree_ok] (tree
      shape, link counts, counters, the inode table) is kept. [full_path_roundtrip]
      ties printing a path to looking it up.
    - Requests on a data thread, from the dispatch to the tree:
      [create_by_path_spec] and [remove_by_path_spec] say what a client sees of
      its update in later queries, [query_names_agree] that the three ways to
      name a dentry agree. [deal_update_record_version], [deal_records_versions]
      and [batch_set_dentry_size_spec] say which data versions are handed out.
    - The wire: [request_roundtrip] says for each kind of request that the server
      reads what the client wrote, and exactly when it refuses; [request_safe]
      for the same 24 kinds that no bytes of a request make a handler read more than
      [NAME_MAX] bytes behind the body (the texts of errors aside), given room in the
      task's buffer for the names that are copied there;
      [list_dentry_complete] that a listing arrives whole; [create_then_lookup]
      follows two requests from the bytes the client sends to the bytes it reads.
    - The binlog's text: [pack_unpack_roundtrip] for every record in range whose strings
      keep the number of digits of their length when they are escaped (the birth time
      comes back as the access time),
      [detect_record_reverse_spec] and [detect_record_forward_spec] for buffers
      cut inside a record, [binlog_loops_end] for termination.
    - Replication: [producer_in_order] and [producer_delivers] (an unbroken run of
      versions, all of them, when no record runs over the end of the ring),
      [replay_exactly_once] and [replay_twice] (each record is applied once, an error
      stops behind its batch), [slave_applies_in_order] and [slave_catches_up] (the slave
      under any interleaving), [handover_complete] (no version is lost between files
      and queue), and [slave_follows_master], which composes them; the [pending]
      multiset of the ring. The last two rest on the assumption [chunk_ok] about the
      reader of the binlog files: it reports the end only when it has read everything
      pushed before the replication was bound, and not inside a buffer. The code does
      not ensure it; [rebind_loses_record] is the record that is lost without it.
    - The cluster: [elected_is_newest] and [candidate_agrees] (who is chosen, and that
      servers that see each other choose the same one), [election_agrees] and
      [election_objection] (the two phases over all servers), [node_stays_ok] (master and
      flags agree in every state), [restart_keeps_claim] (the flag that survives a
      restart), [ping_brings_statuses], [join_handshake], [takeover_fresh] (no inode
      twice over a change of the master, given the rate at which they are handed out);
      [tasks_stay_typed] (a task's type says what its union holds, over all that happens
      on the connections) and [request_undefined] (the requests without a defined
      behaviour, exactly).
    - Locks: exclusion, and the order in which waiters are woken.
    - Where the code does something else than it means to, the theorem states
      what it does: [push_result_ring_add_overruns], [rename_up_refused],
      [is_region_overlap_wraps], [string_overrun_accepted],
      [detect_last_record_end_spec], [packed_length_wrong],
      [producer_crossing_record_stalls], [rebind_loses_record], [late_ack_refused],
      [master_again_overruns],
      [batch_set_dentry_size_spec], the refusals of [request_roundtrip].

    ** Bounds and fuel

    Integers are [Z] with the width's wrap-around written where the code stores
    or converts them (LP64: [long] and [size_t] have 64 bits). Fuel is a measure
    that the theorems show to be enough: the number of objects for walks along
    pointers, the length of a list or a buffer for scans. [iterate] of [CText]
    tells a loop that still runs from one that is stuck.

    ** Not modelled

    - Threads and locks around the components: each operation is one atomic
      step, as in the code, where one data thread owns a namespace's dentries. In the
      cluster a step is a whole function, with each compare-and-swap one atomic access.
    - Files, sockets, process start and configuration; logging and error texts.
    - The storage plugin ([server/db]) but for the interfaces the tree and the
      data threads call; the messages of [push_to_db_update_queue] are for it.
    - Headers, sending and receiving, connections and their pools: libserverframe
      and libfastcommon; the client library around [client_proto.c].
    - Of [service_handler.c]: the dispatch on commands, the idempotency of
      retried requests, releasing locks, requests about servers and statistics.
    - In-place unescaping writes into the input buffer; the parser does not read
      these bytes again, and the model does not write them.
    - Of replication: reading and writing the binlog files ([binlog_reader.c],
      [binlog_read_thread.c], [binlog_write.c]), which the model takes as what the
      reader gives ([chunk_ok]); the comparison of a slave's last records with the
      master's binlog ([binlog_check_consistency]), whose result is an argument;
      allocating and freeing contexts and buffers. Of the cluster: the text of
      cluster.info, the thread that runs elections, sockets. The dump and load
      of the namespace file and the loaders of a starting server are files, too. *)

From stdpp Require Export base gmap strings list fin_maps sorting.
From Stdlib Require Export ZArith Lia Sorted.

Open Scope Z_scope.
#[export] Set Default Goal Selector "!".

(** ** Machine integers *)

(** Two's complement wrap-around of a signed integer of [w] bits. *)
Definition wrap_signed (w z : Z) : Z :=
  (z + 2 ^ (w - 1)) `mod` 2 ^ w - 2 ^ (w - 1).
Definition int32 (z : Z) : Z := wrap_signed 32 z.
Definition int64 (z : Z) : Z := wrap_signed 64 z.
Definition uint32 (z : Z) : Z := z `mod` 2 ^ 32.
Definition uint64 (z : Z) : Z := z `mod` 2 ^ 64.

Definition is_int32 (z : Z) : Prop := - 2 ^ 31 ≤ z < 2 ^ 31.
Definition is_int64 (z : Z) : Prop := - 2 ^ 63 ≤ z < 2 ^ 63.

Lemma wrap_signed_small w z :
  0 < w → - 2 ^ (w - 1) ≤ z < 2 ^ (w - 1) → wrap_signed w z = z.
Proof.
  intros Hw Hz. unfold wrap_signed.
  assert (2 ^ w = 2 * 2 ^ (w - 1)) as ->.
  { rewrite <- Z.pow_succ_r by lia. f_equal. lia. }
  rewrite Z.mod_small by lia. lia.
Qed.

Lemma int32_small z : is_int32 z → int32 z = z.
Proof. intros. apply wrap_signed_small; [lia|]. exact H. Qed.

Lemma int64_small z : is_int64 z → int64 z = z.
Proof. intros. apply wrap_signed_small; [lia|]. exact H. Qed.

(** Division and remainder for [lia]. *)
Ltac divlia := Z.to_euclidean_division_equations; lia.

Lemma uint64_small z : 0 ≤ z < 2 ^ 64 → uint64 z = z.
Proof. intros. by apply Z.mod_small. Qed.
Lemma uint32_small z : 0 ≤ z < 2 ^ 32 → uint32 z = z.
Proof. intros. by apply Z.mod_small. Qed.

Lemma int32_range n : is_int32 (int32 n).
Proof. unfold is_int32, int32, wrap_signed. change (32 - 1) with 31.
  pose proof (Z.mod_pos_bound (n + 2 ^ 31) (2 ^ 32) ltac:(lia)). lia.
Qed.
Lemma int64_range n : is_int64 (int64 n).
Proof. unfold is_int64, int64, wrap_signed. change (64 - 1) with 63.
  pose proof (Z.mod_pos_bound (n + 2 ^ 63) (2 ^ 64) ltac:(lia)). lia.
Qed.

Lemma uint64_int64 z : 0 ≤ z < 2 ^ 64 → uint64 (int64 z) = z.
Proof.
  intros Hz. unfold uint64, int64, wrap_signed.
  change (64 - 1) with 63. rewrite Zminus_mod_idemp_l.
  replace (z + 2 ^ 63 - 2 ^ 63) with z by lia. by apply Z.mod_small.
Qed.
Lemma uint32_int32 z : 0 ≤ z < 2 ^ 32 → uint32 (int32 z) = z.
Proof.
  intros Hz. unfold uint32, int32, wrap_signed.
  change (32 - 1) with 31. rewrite Zminus_mod_idemp_l.
  replace (z + 2 ^ 31 - 2 ^ 31) with z by lia. by apply Z.mod_small.
Qed.

(** ** Error numbers (Linux [errno] values used by the sources) *)

Definition EPERM := 1.
Definition ENOENT := 2.
Definition EIO := 5.
Definition EAGAIN := 11.
Definition EWOULDBLOCK := 11.
Definition ENOMEM := 12.
Definition EEXIST := 17.
Definition ENOTDIR := 20.
Definition EINVAL := 22.
Definition ENOSPC := 28.
Definition EDEADLK := 35.
Definition ENOTEMPTY := 39.
Definition ELOOP := 40.
Definition ENODATA := 61.
Definition EOVERFLOW := 75.
Definition EINPROGRESS := 115.

(** ** Stateful C code

    A computation takes the store and gives a result with the store it leaves;
    [None] is the behaviour C leaves undefined (a NULL or dangling pointer is
    followed) or, for a loop with fuel, fuel that ran out. *)

Definition M (St A : Type) : Type := St → option (A * St).

#[export] Instance M_ret {St} : MRet (M St) := λ A a s, Some (a, s).
#[export] Instance M_bind {St} : MBind (M St) :=
  λ A B f m s, match m s with Some (a, s') => f a s' | None => None end.

Definition get_st {St} : M St St := λ s, Some (s, s).
Definition gets {St A} (f : St → A) : M St A := λ s, Some (f s, s).
Definition modify {St} (f : St → St) : M St () := λ s, Some ((), f s).
Definition stuck {St A} : M St A := λ _, None.
(** Follows a pointer: stuck on NULL. *)
Definition non_null {St A} (p : option A) : M St A :=
  λ s, match p with Some x => Some (x, s) | None => None end.

Lemma bind_run {St A B} (m : M St A) (f : A → M St B) s a s' :
  m s = Some (a, s') → (m ≫= f) s = f a s'.
Proof. unfold mbind, M_bind. by intros ->. Qed.

Lemma bind_bind {St A B C} (m : M St A) (f : A → M St B) (g : B → M St C) s :
  ((m ≫= f) ≫= g) s = (m ≫= (λ a, f a ≫= g)) s.
Proof. unfold mbind, M_bind. by destruct (m s) as [[a s']|]. Qed.

Lemma bind_Some_inv {St A B} (m : M St A) (f : A → M St B) s b s2 :
  (m ≫= f) s = Some (b, s2) ↔ ∃ a s1, m s = Some (a, s1) ∧ f a s1 = Some (b, s2).
Proof.
  unfold mbind, M_bind. destruct (m s) as [[a s1]|]; split.
  - intros Hf. by exists a, s1.
  - intros (a' & s1' & [= <- <-] & Hf). done.
  - done.
  - intros (a' & s1' & [=] & _).
Qed.

(** [keeps v m]: whenever [m] returns, the part [v] of the store is what it was.
    One rule per construct; [keeps_tac] applies them to a program. *)
Definition keeps {St A B} (v : St → B) (m : M St A) : Prop :=
  ∀ s a s', m s = Some (a, s') → v s' = v s.

Section keeps.
Context {St B : Type} (v : St → B).

Lemma keeps_ret {A} (a : A) : keeps v (mret a : M St A).
Proof. by intros s ? ? [= <- <-]. Qed.
Lemma keeps_bind {A C} (m : M St A) (f : A → M St C) :
  keeps v m → (∀ a, keeps v (f a)) → keeps v (m ≫= f).
Proof.
  intros Hm Hf s c s2 (a & s1 & H1 & H2)%bind_Some_inv.
  rewrite (Hf a _ _ _ H2). by eapply Hm.
Qed.
Lemma keeps_get : keeps v get_st.
Proof. by intros s ? ? [= <- <-]. Qed.
Lemma keeps_gets {A} (f : St → A) : keeps v (gets f).
Proof. by intros s ? ? [= <- <-]. Qed.
Lemma keeps_modify f : (∀ s, v (f s) = v s) → keeps v (modify f).
Proof. by intros Hf s ? ? [= <- <-]. Qed.
Lemma keeps_stuck {A} : keeps v (@stuck St A).
Proof. by intros s ? ?. Qed.
Lemma keeps_non_null {A} (o : option A) : keeps v (non_null o : M St A).
Proof. intros s a s'. unfold non_null. destruct o; [by intros [= <- <-]|done]. Qed.
End keeps.

Create HintDb keeps_db.
#[export] Hint Resolve keeps_ret keeps_get keeps_gets keeps_stuck keeps_non_null : keeps_db.

(** Splits a program along its control flow. *)
Ltac keeps_tac :=
  repeat first
    [ progress cbv zeta
    | match goal with |- keeps _ (_ ≫= _) => apply keeps_bind; [|intros ?] end
    | solve [eauto 2 with keeps_db]
    | apply keeps_modify; intros ?; reflexivity
    | match goal with
      | |- keeps _ (match ?x with _ => _ end) => destruct x
      end ].

(** Runs the first statement of a program, whose effect [H] says. *)
Ltac run_with H := erewrite bind_run; [|exact H]; cbn beta.

(** Unfolds one monadic program on a concrete store. *)
Ltac mrun :=
  unfold mbind, mret, M_bind, M_ret, get_st, gets, modify, non_null, stuck in *;
  simpl in *.

(** ** Object pools

    The sources allocate objects from pools of libfastcommon. A pool is a map
    from the pointers in use to their objects; the pointer handed out is one
    that is not in use. *)

Definition ptr := positive.

Definition fresh_ptr {A} (m : gmap ptr A) : ptr :=
  map_fold (λ k _ acc, Pos.max (Pos.succ k) acc) 1%positive m.

Lemma fresh_ptr_above {A} (m : gmap ptr A) k :
  is_Some (m !! k) → (k < fresh_ptr m)%positive.
Proof.
  unfold fresh_ptr. revert k.
  apply (map_fold_weak_ind
    (λ r m, ∀ k, is_Some (m !! k) → (k < r)%positive)).
  - intros k. rewrite lookup_empty. by intros [? [=]].
  - intros i x m' r Hi IH k [y Hk].
    rewrite lookup_insert_Some in Hk. destruct Hk as [[-> _]|[_ Hk]].
    + lia.
    + specialize (IH k (mk_is_Some _ _ Hk)). lia.
Qed.

Lemma fresh_ptr_fresh {A} (m : gmap ptr A) : m !! fresh_ptr m = None.
Proof.
  destruct (m !! fresh_ptr m) eqn:E; [|done].
  pose proof (fresh_ptr_above m (fresh_ptr m) (mk_is_Some _ _ E)). lia.
Qed.

(** ** Singly linked lists threaded through the objects of a pool *)

Section chain.
Context {V : Type} (next : V → option ptr).

(** [chain h p l]: following [next] from [p] visits exactly [l]. *)
Fixpoint chain (h : gmap ptr V) (p : option ptr) (l : list ptr) : Prop :=
  match l with
  | [] => p = None
  | x :: l' => p = Some x ∧ ∃ v, h !! x = Some v ∧ chain h (next v) l'
  end.

Lemma chain_in_dom h p l x : chain h p l → x ∈ l → ∃ v, h !! x = Some v.
Proof.
  revert p. induction l as [|y l IH]; intros p; simpl.
  - intros _ H. inversion H.
  - intros (-> & v & Hy & Hc) [->|Hx]%elem_of_cons; eauto.
Qed.

Lemma chain_insert_ne h p l x v :
  x ∉ l → chain (<[x:=v]> h) p l ↔ chain h p l.
Proof.
  revert p. induction l as [|y l IH]; intros p Hx; simpl; [done|].
  rewrite not_elem_of_cons in Hx. destruct Hx as [Hne Hx].
  rewrite lookup_insert_ne by congruence. setoid_rewrite IH; [|done]. done.
Qed.

Lemma chain_delete_ne h p l x :
  x ∉ l → chain (delete x h) p l ↔ chain h p l.
Proof.
  revert p. induction l as [|y l IH]; intros p Hx; simpl; [done|].
  rewrite not_elem_of_cons in Hx. destruct Hx as [Hne Hx].
  rewrite lookup_delete_ne by congruence. setoid_rewrite IH; [|done]. done.
Qed.

Lemma chain_det h p l1 l2 : chain h p l1 → chain h p l2 → l1 = l2.
Proof.
  revert p l2. induction l1 as [|x l1 IH]; intros p [|y l2]; simpl.
  - done.
  - intros -> [? _]; done.
  - intros [-> _]; done.
  - intros (-> & v & Hx & H1) ([= <-] & w & Hy & H2).
    simplify_eq. f_equal. eauto.
Qed.

Lemma chain_app h p l1 l2 :
  chain h p (l1 ++ l2) →
  ∃ q, chain h q l2 ∧ (l1 = [] → q = p) ∧
       (∀ x, last l1 = Some x → ∃ v, h !! x = Some v ∧ next v = q).
Proof.
  revert p. induction l1 as [|x l1 IH]; intros p; simpl.
  - intros H. exists p. naive_solver.
  - intros (-> & v & Hx & Hc). destruct (IH _ Hc) as (q & Hq & He & Hl).
    exists q. split; [done|]. split; [done|].
    intros y. destruct l1 as [|z l1].
    + intros [= <-]. exists v. by rewrite He.
    + intros Hy. apply Hl. exact Hy.
Qed.

Lemma chain_NoDup h p l : chain h p l → NoDup l.
Proof.
  remember (length l) as n eqn:Hn. revert p l Hn.
  induction n as [n IH] using lt_wf_ind. intros p [|x l] -> Hc; [constructor|].
  destruct Hc as (-> & v & Hx & Hc).
  assert (NoDup l) as Hnd by (eapply IH; [|reflexivity|exact Hc]; simpl; lia).
  constructor; [|done]. intros Hin.
  apply list_elem_of_split in Hin as (l1 & l2 & ->).
  destruct (chain_app _ _ _ _ Hc) as (q & Hq & _ & _).
  destruct Hq as (-> & w & Hw & Hq). simplify_eq.
  pose proof (chain_det _ _ _ _ Hc Hq) as He.
  apply (f_equal length) in He. rewrite length_app in He. simpl in He. lia.
Qed.

(** The number of objects bounds the length: the fuel of a walk. *)
Lemma chain_length h p l : chain h p l → (length l ≤ size h)%nat.
Proof.
  intros Hc. pose proof (chain_NoDup _ _ _ Hc) as Hnd.
  assert (list_to_set l ⊆@{gset ptr} dom h) as Hsub.
  { intros x Hx. apply elem_of_list_to_set in Hx. apply elem_of_dom.
    destruct (chain_in_dom _ _ _ _ Hc Hx) as [v ->]. eauto. }
  apply subseteq_size in Hsub.
  rewrite size_list_to_set in Hsub by done.
  by rewrite size_dom in Hsub.
Qed.

(** Redirecting the last node of a prefix. *)
Lemma chain_relink h p l1 x v v' l2 q :
  chain h p (l1 ++ x :: l2) → h !! x = Some v → x ∉ q →
  chain h (next v') q →
  chain (<[x:=v']> h) p (l1 ++ x :: q).
Proof.
  intros Hc Hx Hq Hn. pose proof (chain_NoDup _ _ _ Hc) as Hnd.
  revert p Hc Hnd. induction l1 as [|y l1 IH]; intros p; simpl.
  - intros (-> & w & Hw & _) _. split; [done|]. exists v'.
    rewrite lookup_insert_eq. split; [done|]. by apply chain_insert_ne.
  - intros (-> & w & Hw & Hc) Hnd. split; [done|]. exists w.
    apply NoDup_cons in Hnd as [Hy Hnd].
    rewrite lookup_insert_ne; [|intros ->; apply Hy; set_solver].
    split; [done|]. by apply IH.
Qed.
End chain.

Lemma StronglySorted_impl' {A} (R R' : A → A → Prop) l :
  (∀ x y, R x y → R' x y) → StronglySorted R l → StronglySorted R' l.
Proof.
  intros H. induction 1 as [|x l Hs IH Hx]; constructor; [done|].
  eapply Forall_impl; [exact Hx|]. auto.
Qed.

Lemma StronglySorted_impl_in {A} (R R' : A → A → Prop) l :
  (∀ x y, x ∈ l → y ∈ l → R x y → R' x y) → StronglySorted R l → StronglySorted R' l.
Proof.
  intros H. induction 1 as [|x l Hs IH Hx]; constructor.
  - apply IH. intros. apply H; set_solver.
  - rewrite Forall_forall in *. intros y Hy. apply H; [set_solver|set_solver|].
    by apply Hx.
Qed.

Lemma StronglySorted_at {A} (R : A → A → Prop) l i j x y :
  StronglySorted R l → l !! i = Some x → l !! j = Some y → (i < j)%nat → R x y.
Proof.
  intros Hs. revert i j. induction Hs as [|z l Hs IH Hz]; intros i j Hi Hj Hlt; [done|].
  destruct j as [|j]; [lia|]. simpl in Hj. destruct i as [|i]; simpl in Hi.
  - injection Hi as ->. rewrite Forall_forall in Hz. apply Hz. by eapply list_elem_of_lookup_2.
  - apply (IH i j Hi Hj). lia.
Qed.

Lemma list_filter_ext_in {A} (P Q : A → Prop) `{∀ x, Decision (P x)} `{∀ x, Decision (Q x)} (l : list A) :
  (∀ x, x ∈ l → P x ↔ Q x) → filter P l = filter Q l.
Proof.
  induction l as [|x l IH]; intros HPQ; [done|]. rewrite !filter_cons.
  rewrite IH by set_solver. specialize (HPQ x ltac:(set_solver)).
  do 2 case_decide; tauto.
Qed.

Lemma list_filter_all {A} (P : A → Prop) `{∀ x, Decision (P x)} (l : list A) :
  (∀ x, x ∈ l → P x) → filter P l = l.
Proof.
  induction l as [|x l IH]; intros HP; [done|].
  rewrite filter_cons_True by (apply HP; set_solver). by rewrite IH by set_solver.
Qed.

Create HintDb fdir.
#[export] Hint Resolve chain_NoDup chain_in_dom fresh_ptr_fresh : fdir.
