(* ===== verification/PushResultRing.v ===== *)
(** * Waiting for the slaves' acknowledgements: [server/binlog/push_result_ring.c]

    The master keeps, for each slave, the data versions it has pushed and not
    yet seen acknowledged, in a ring indexed by data version, with a sorted
    linked list for the versions that do not fit the ring. Acknowledging (or
    timing out, or clearing) a version decrements the RPC counter of the task
    that waits for it, and notifies the task when the counter reaches zero.

    The definitions follow the C functions one by one over [PushContext];
    pointers into the ring are indices, list nodes are objects of the pool
    [queue_objs] linked by [pe_next]. The theorems relate them to the multiset
    [pending] of unacknowledged versions. *)

From S2P Require Import Prelude.

(** ** Data *)

Record PushResultEntry := mkPushResultEntry {
  pe_data_version : Z;
  pe_expires : Z;
  pe_waiting_task : option ptr;
  pe_next : option ptr
}.

(** [ring_entries = []] is the NULL pointer before [push_result_ring_check_init].
    [queue_avail] is how many more objects the pool of queue entries can hand
    out ([None]: no limit); [waiting_rpc_count] is the counter each service task
    keeps in its context, and [notified] the tasks woken by [sf_nio_notify]. *)
Record PushContext := mkPushContext {
  ring_entries : list PushResultEntry;
  ring_start : Z;
  ring_end : Z;
  ring_size : Z;
  queue_head : option ptr;
  queue_tail : option ptr;
  queue_objs : gmap ptr PushResultEntry;
  queue_avail : option nat;
  last_check_timeout_time : Z;
  waiting_rpc_count : gmap ptr Z;
  notified : list ptr
}.

Definition zero_entry : PushResultEntry := mkPushResultEntry 0 0 None None.

(** Field updates. *)
Definition set_ring (es : list PushResultEntry) (st en sz : Z) (s : PushContext) :=
  mkPushContext es st en sz (queue_head s) (queue_tail s) (queue_objs s)
    (queue_avail s) (last_check_timeout_time s) (waiting_rpc_count s) (notified s).
Definition set_start (i : Z) (s : PushContext) :=
  set_ring (ring_entries s) i (ring_end s) (ring_size s) s.
Definition set_end (i : Z) (s : PushContext) :=
  set_ring (ring_entries s) (ring_start s) i (ring_size s) s.
Definition set_entries (es : list PushResultEntry) (s : PushContext) :=
  set_ring es (ring_start s) (ring_end s) (ring_size s) s.
Definition set_queue (h t : option ptr) (s : PushContext) :=
  mkPushContext (ring_entries s) (ring_start s) (ring_end s) (ring_size s) h t
    (queue_objs s) (queue_avail s) (last_check_timeout_time s)
    (waiting_rpc_count s) (notified s).
Definition set_objs (o : gmap ptr PushResultEntry) (a : option nat) (s : PushContext) :=
  mkPushContext (ring_entries s) (ring_start s) (ring_end s) (ring_size s)
    (queue_head s) (queue_tail s) o a (last_check_timeout_time s)
    (waiting_rpc_count s) (notified s).
Definition set_last_check (t : Z) (s : PushContext) :=
  mkPushContext (ring_entries s) (ring_start s) (ring_end s) (ring_size s)
    (queue_head s) (queue_tail s) (queue_objs s) (queue_avail s) t
    (waiting_rpc_count s) (notified s).
Definition set_rpc (m : gmap ptr Z) (n : list ptr) (s : PushContext) :=
  mkPushContext (ring_entries s) (ring_start s) (ring_end s) (ring_size s)
    (queue_head s) (queue_tail s) (queue_objs s) (queue_avail s)
    (last_check_timeout_time s) m n.

(** ** Memory access *)

Definition load_slot (i : Z) : M PushContext PushResultEntry := λ s,
  match ring_entries s !! Z.to_nat i with
  | Some e => Some (e, s)
  | None => None
  end.

Definition store_slot (i : Z) (e : PushResultEntry) : M PushContext () := λ s,
  match ring_entries s !! Z.to_nat i with
  | Some _ => Some ((), set_entries (<[Z.to_nat i := e]> (ring_entries s)) s)
  | None => None
  end.

Definition load_node (p : ptr) : M PushContext PushResultEntry := λ s,
  match queue_objs s !! p with Some e => Some (e, s) | None => None end.

Definition store_node (p : ptr) (e : PushResultEntry) : M PushContext () := λ s,
  match queue_objs s !! p with
  | Some _ => Some ((), set_objs (<[p := e]> (queue_objs s)) (queue_avail s) s)
  | None => None
  end.

(** [fast_mblock_alloc_object] and [fast_mblock_free_object] on the pool of
    queue entries. *)
Definition alloc_node : M PushContext (option ptr) := λ s,
  match queue_avail s with
  | Some O => Some (None, s)
  | a => let p := fresh_ptr (queue_objs s) in
         Some (Some p, set_objs (<[p := zero_entry]> (queue_objs s))
                         (pred <$> a) s)
  end.

Definition free_node (p : ptr) : M PushContext () :=
  modify (λ s, set_objs (delete p (queue_objs s)) (S <$> queue_avail s) s).

Definition set_next (e : PushResultEntry) (n : option ptr) : PushResultEntry :=
  mkPushResultEntry (pe_data_version e) (pe_expires e) (pe_waiting_task e) n.

(** A slot whose version was acknowledged. *)
Definition clear_entry (e : PushResultEntry) : PushResultEntry :=
  mkPushResultEntry 0 (pe_expires e) None (pe_next e).

(** ** Operations *)

Section operations.
(** [g_current_time] and [SF_G_NETWORK_TIMEOUT]. *)
Context (g_current_time SF_G_NETWORK_TIMEOUT : Z).

Definition push_result_ring_check_init (alloc_size : Z) (malloc_ok : bool) :
    M PushContext Z :=
  s ← get_st;
  match ring_entries s with
  | _ :: _ => mret 0
  | [] =>
    if malloc_ok then
      modify (set_ring (replicate (Z.to_nat alloc_size) zero_entry) 0 0 alloc_size);;
      modify (set_queue None None);;
      mret 0
    else mret ENOMEM
  end.

Definition desc_task_waiting_rpc_count (entry : PushResultEntry) :
    M PushContext () :=
  match pe_waiting_task entry with
  | None => mret ()
  | Some task =>
    s ← get_st;
    let count := default 0 (waiting_rpc_count s !! task) - 1 in
    modify (set_rpc (<[task := count]> (waiting_rpc_count s))
              (if count =? 0 then notified s ++ [task] else notified s))
  end.

Fixpoint clear_queue_loop (fuel : nat) (current : option ptr) :
    M PushContext () :=
  match current, fuel with
  | None, _ => mret ()
  | Some _, O => stuck
  | Some deleted, S fuel' =>
    e ← load_node deleted;
    desc_task_waiting_rpc_count e;;
    free_node deleted;;
    clear_queue_loop fuel' (pe_next e)
  end.

Definition push_result_ring_clear_queue_all : M PushContext () :=
  s ← get_st;
  match queue_head s with
  | None => mret ()
  | Some _ =>
    clear_queue_loop (size (queue_objs s)) (queue_head s);;
    modify (set_queue None None)
  end.

Fixpoint clear_ring_loop (fuel : nat) (index : Z) : M PushContext () :=
  s ← get_st;
  if ring_start s =? ring_end s then mret ()
  else
    match fuel with
    | O => stuck
    | S fuel' =>
      e ← load_slot (ring_start s);
      desc_task_waiting_rpc_count e;;
      store_slot (ring_start s) (clear_entry e);;
      modify (set_start ((index + 1) `mod` ring_size s));;
      clear_ring_loop fuel' (index + 1)
    end.

Definition push_result_ring_clear_all : M PushContext () :=
  s ← get_st;
  if ring_start s =? ring_end s then push_result_ring_clear_queue_all
  else
    clear_ring_loop (Z.to_nat (ring_size s)) (ring_start s);;
    push_result_ring_clear_queue_all.

(** Returns the new head and the number of entries removed. *)
Fixpoint clear_queue_timeouts_loop (fuel : nat) (current : option ptr)
    (count : Z) : M PushContext (option ptr * Z) :=
  match current, fuel with
  | None, _ => mret (None, count)
  | Some _, O => stuck
  | Some deleted, S fuel' =>
    e ← load_node deleted;
    if pe_expires e <? g_current_time then
      desc_task_waiting_rpc_count e;;
      free_node deleted;;
      clear_queue_timeouts_loop fuel' (pe_next e) (count + 1)
    else mret (current, count)
  end.

Definition push_result_ring_clear_queue_timeouts : M PushContext Z :=
  s ← get_st;
  match queue_head s with
  | None => mret 0
  | Some h =>
    e ← load_node h;
    if g_current_time <=? pe_expires e then mret 0
    else
      '(current, count) ←
        clear_queue_timeouts_loop (size (queue_objs s)) (Some h) 0;
      modify (λ s, set_queue current
                (match current with None => None | _ => queue_tail s end) s);;
      mret count
  end.

Fixpoint clear_ring_timeouts_loop (fuel : nat) (index count : Z) :
    M PushContext Z :=
  s ← get_st;
  if ring_start s =? ring_end s then mret count
  else
    e ← load_slot (ring_start s);
    if pe_expires e <? g_current_time then
      match fuel with
      | O => stuck
      | S fuel' =>
        desc_task_waiting_rpc_count e;;
        store_slot (ring_start s) (clear_entry e);;
        modify (set_start ((index + 1) `mod` ring_size s));;
        clear_ring_timeouts_loop fuel' (index + 1) (count + 1)
      end
    else mret count.

Definition push_result_ring_clear_timeouts : M PushContext () :=
  s ← get_st;
  if last_check_timeout_time s =? g_current_time then mret ()
  else
    modify (set_last_check g_current_time);;
    clear_count ←
      (if ring_start s =? ring_end s then mret 0
       else clear_ring_timeouts_loop (Z.to_nat (ring_size s)) (ring_start s) 0);
    _ ← push_result_ring_clear_queue_timeouts;
    mret ().

Definition push_result_ring_destroy : M PushContext () :=
  s ← get_st;
  (match ring_entries s with
   | [] => mret ()
   | _ :: _ => modify (set_ring [] 0 0 0)
   end);;
  modify (set_objs ∅ (queue_avail s)).

(** The walk shared by [add_to_queue] and [remove_from_queue]: the last node
    before [current] and the first node whose version is not smaller. *)
Fixpoint queue_seek (fuel : nat) (data_version : Z) (previous : ptr)
    (current : option ptr) : M PushContext (ptr * option ptr) :=
  match current with
  | None => mret (previous, None)
  | Some c =>
    e ← load_node c;
    if pe_data_version e <? data_version then
      match fuel with
      | O => stuck
      | S fuel' => queue_seek fuel' data_version c (pe_next e)
      end
    else mret (previous, Some c)
  end.

Definition add_to_queue (data_version : Z) (waiting_task : option ptr) :
    M PushContext Z :=
  entry ← alloc_node;
  match entry with
  | None => mret ENOMEM
  | Some entry =>
    let new := mkPushResultEntry data_version
                 (g_current_time + SF_G_NETWORK_TIMEOUT) waiting_task in
    s ← get_st;
    match queue_tail s with
    | None =>
      store_node entry (new None);;
      modify (set_queue (Some entry) (Some entry));;
      mret 0
    | Some tail =>
      te ← load_node tail;
      if pe_data_version te <? data_version then
        store_node entry (new None);;
        store_node tail (set_next te (Some entry));;
        modify (set_queue (queue_head s) (Some entry));;
        mret 0
      else
        head ← non_null (queue_head s);
        he ← load_node head;
        if data_version <? pe_data_version he then
          store_node entry (new (Some head));;
          modify (set_queue (Some entry) (queue_tail s));;
          mret 0
        else
          '(previous, _) ←
            queue_seek (size (queue_objs s)) data_version head (pe_next he);
          pe ← load_node previous;
          store_node entry (new (pe_next pe));;
          store_node previous (set_next pe (Some entry));;
          mret 0
    end
  end.

(** The loop that fills the slots of all versions but the last. *)
Fixpoint ring_add_loop (n : nat) (current_version : Z) : M PushContext () :=
  match n with
  | O => mret ()
  | S n' =>
    s ← get_st;
    let i := current_version `mod` ring_size s in
    e ← load_slot i;
    store_slot i (mkPushResultEntry current_version
      (g_current_time + SF_G_NETWORK_TIMEOUT) (pe_waiting_task e) (pe_next e));;
    ring_add_loop n' (current_version + 1)
  end.

Fixpoint queue_add_loop (n : nat) (data_version : Z) : M PushContext Z :=
  match n with
  | O => mret 0
  | S n' =>
    result ← add_to_queue data_version None;
    if result =? 0 then queue_add_loop n' (data_version + 1)
    else mret result
  end.

Definition push_result_ring_add (first last : Z) (waiting_task : option ptr) :
    M PushContext Z :=
  s ← get_st;
  let size := ring_size s in
  let index := first `mod` size in
  matched ←
    (if ring_end s =? ring_start s then
       modify (set_start index);; mret true
     else if index =? ring_end s then
       previous ← load_slot ((index + size - 1) `mod` size);
       let next := (index + 1) `mod` size in
       mret (negb (next =? ring_start s) &&
             (first =? pe_data_version previous + 1))
     else mret false);
  let count := int32 (last - first) in
  if (matched : bool) then
    modify (set_end ((last + 1) `mod` size));;
    ring_add_loop (Z.to_nat count) first;;
    e ← load_slot (last `mod` size);
    store_slot (last `mod` size) (mkPushResultEntry last
      (g_current_time + SF_G_NETWORK_TIMEOUT) waiting_task (pe_next e));;
    mret 0
  else
    result ← queue_add_loop (Z.to_nat count) first;
    if result =? 0 then add_to_queue last waiting_task
    else mret result.

Definition remove_from_queue (data_version : Z) : M PushContext Z :=
  s ← get_st;
  match queue_head s with
  | None => mret ENOENT
  | Some head =>
    he ← load_node head;
    if data_version =? pe_data_version he then
      modify (set_queue (pe_next he)
                (match pe_next he with None => None | _ => queue_tail s end));;
      desc_task_waiting_rpc_count he;;
      free_node head;;
      mret 0
    else
      '(previous, current) ←
        queue_seek (size (queue_objs s)) data_version head (pe_next he);
      match current with
      | None => mret ENOENT
      | Some c =>
        ce ← load_node c;
        if data_version =? pe_data_version ce then
          pe ← load_node previous;
          store_node previous (set_next pe (pe_next ce));;
          modify (set_queue (queue_head s)
            (if decide (queue_tail s = Some c) then Some previous
             else queue_tail s));;
          desc_task_waiting_rpc_count ce;;
          free_node c;;
          mret 0
        else mret ENOENT
      end
  end.

(** Moves [start] over the slots already acknowledged. *)
Fixpoint advance_start_loop (fuel : nat) (index : Z) : M PushContext () :=
  s ← get_st;
  if ring_start s =? ring_end s then mret ()
  else
    e ← load_slot (ring_start s);
    if pe_data_version e =? 0 then
      match fuel with
      | O => stuck
      | S fuel' =>
        modify (set_start ((index + 1) `mod` ring_size s));;
        advance_start_loop fuel' (index + 1)
      end
    else mret ().

Definition push_result_ring_remove (data_version : Z) : M PushContext Z :=
  s ← get_st;
  if negb (ring_end s =? ring_start s) then
    let index := data_version `mod` ring_size s in
    entry ← load_slot index;
    if pe_data_version entry =? data_version then
      (if ring_start s =? index then
         modify (set_start ((index + 1) `mod` ring_size s));;
         advance_start_loop (Z.to_nat (ring_size s)) (index + 1)
       else mret ());;
      desc_task_waiting_rpc_count entry;;
      store_slot index (clear_entry entry);;
      mret 0
    else remove_from_queue data_version
  else remove_from_queue data_version.
End operations.

(** ** What the context holds

    [pending] lists the unacknowledged versions with the task each wakes. *)

Definition live (e : PushResultEntry) : list (Z * option ptr) :=
  if pe_data_version e =? 0 then []
  else [(pe_data_version e, pe_waiting_task e)].

Definition ring_pending (es : list PushResultEntry) : list (Z * option ptr) :=
  es ≫= live.

Definition node_pending (objs : gmap ptr PushResultEntry) (p : ptr) :
    option (Z * option ptr) :=
  (λ e, (pe_data_version e, pe_waiting_task e)) <$> objs !! p.

Definition queue_pending (objs : gmap ptr PushResultEntry) (l : list ptr) :
    list (Z * option ptr) := omap (node_pending objs) l.

Definition pending (s : PushContext) (l : list ptr) : list (Z * option ptr) :=
  ring_pending (ring_entries s) ++ queue_pending (queue_objs s) l.

(** The slot is free: version 0 and nobody waiting. *)
Definition free_slot (e : PushResultEntry) : Prop :=
  pe_data_version e = 0 ∧ pe_waiting_task e = None.

(** The ring holds versions [base .. base + cnt - 1]; every slot of the window
    has its version or was acknowledged, every other slot is free. *)
Definition window (es : list PushResultEntry) (size base cnt : Z) : Prop :=
  ∀ i, 0 ≤ i < size → ∃ e, es !! Z.to_nat ((base + i) `mod` size) = Some e ∧
    ((i < cnt ∧ pe_data_version e = base + i ∧ 0 < base + i) ∨ free_slot e).

Record ring_ok (s : PushContext) (base cnt : Z) : Prop := {
  ring_ok_len : Z.of_nat (length (ring_entries s)) = ring_size s;
  ring_ok_base : 0 ≤ base;
  ring_ok_cnt : 0 ≤ cnt < ring_size s;
  ring_ok_start : ring_start s = base `mod` ring_size s;
  ring_ok_end : ring_end s = (base + cnt) `mod` ring_size s;
  ring_ok_window : window (ring_entries s) (ring_size s) base cnt
}.

Record queue_ok (s : PushContext) (l : list ptr) : Prop := {
  queue_ok_chain : chain pe_next (queue_objs s) (queue_head s) l;
  queue_ok_tail : queue_tail s = last l;
  queue_ok_sorted : StronglySorted Z.lt (queue_pending (queue_objs s) l).*1
}.

Record push_rep (s : PushContext) (base cnt : Z) (l : list ptr) : Prop := {
  push_rep_ring : ring_ok s base cnt;
  push_rep_queue : queue_ok s l;
  push_rep_NoDup : NoDup (pending s l).*1
}.

(** RPC accounting: how many of the versions of [P] task [t] waits for. *)
Definition waits (t : ptr) (P : list (Z * option ptr)) : Z :=
  Z.of_nat (length (filter (λ x, x.2 = Some t) P)).

Definition rpc (s : PushContext) (t : ptr) : Z :=
  default 0 (waiting_rpc_count s !! t).

(** [s'] is [s] with the versions [R] settled: they are no longer pending and
    each has decremented the counter of the task that waited for it. *)
Definition settled (s s' : PushContext) (l l' : list ptr)
    (R : list (Z * option ptr)) : Prop :=
  pending s l ≡ₚ R ++ pending s' l' ∧ ∀ t, rpc s' t = rpc s t - waits t R.

(** ** Generic lemmas *)

#[export] Instance waits_Proper t : Proper ((≡ₚ) ==> eq) (waits t).
Proof. intros P Q HPQ. unfold waits. by rewrite HPQ. Qed.

Lemma waits_app t P Q : waits t (P ++ Q) = waits t P + waits t Q.
Proof. unfold waits. rewrite filter_app, length_app. lia. Qed.

Lemma waits_nil t : waits t [] = 0.
Proof. done. Qed.

Lemma waits_cons t v w P :
  waits t ((v, w) :: P) = (if decide (w = Some t) then 1 else 0) + waits t P.
Proof.
  unfold waits. rewrite filter_cons. simpl.
  destruct (decide (w = Some t)); simpl; lia.
Qed.

Lemma slot_inj size base i j :
  0 ≤ i < size → 0 ≤ j < size →
  (base + i) `mod` size = (base + j) `mod` size → i = j.
Proof.
  intros Hi Hj He.
  pose proof (Z.div_mod (base + i) size ltac:(lia)) as E1.
  pose proof (Z.div_mod (base + j) size ltac:(lia)) as E2.
  rewrite He in E1.
  generalize dependent ((base + i) / size). intros a E1.
  generalize dependent ((base + j) / size). intros b E2.
  assert (size * (a - b) = i - j) as E by lia.
  destruct (Z.lt_trichotomy a b) as [?|[->|?]]; [nia|lia|nia].
Qed.

Lemma slot_lt (size i : Z) : 0 < size → 0 ≤ i `mod` size < size.
Proof. intros. apply Z.mod_pos_bound. lia. Qed.

Lemma slot_succ (size a : Z) :
  0 < size → (a `mod` size + 1) `mod` size = (a + 1) `mod` size.
Proof. intros. by rewrite Z.add_mod_idemp_l by lia. Qed.

Lemma ring_pending_insert es i e e' :
  es !! i = Some e →
  ring_pending (<[i := e']> es) ++ live e ≡ₚ live e' ++ ring_pending es.
Proof.
  intros Hi. unfold ring_pending.
  rewrite <- (take_drop_middle es i e Hi) at 2.
  rewrite insert_take_drop by (by eapply lookup_lt_Some).
  rewrite !bind_app, !bind_cons.
  set (a := _ ≫= live). set (b := _ ≫= live).
  rewrite <- (app_assoc a), <- (app_assoc (live e')).
  rewrite (Permutation_app_comm b (live e)).
  rewrite !app_assoc. apply Permutation_app_tail.
  rewrite <- (app_assoc (live e')). rewrite (app_assoc (live e') a).
  rewrite (Permutation_app_comm (live e') a). done.
Qed.

Lemma queue_pending_ext objs objs' l :
  (∀ p, p ∈ l → node_pending objs' p = node_pending objs p) →
  queue_pending objs' l = queue_pending objs l.
Proof.
  intros H. unfold queue_pending. induction l as [|x l IH]; [done|].
  cbn. rewrite H by set_solver. rewrite IH; [done|]. set_solver.
Qed.

Lemma queue_pending_insert_ne objs p e l :
  p ∉ l → queue_pending (<[p := e]> objs) l = queue_pending objs l.
Proof.
  intros Hp. apply queue_pending_ext. intros q Hq. unfold node_pending.
  rewrite lookup_insert_ne; [done|]. congruence.
Qed.

Lemma queue_pending_delete_ne objs p l :
  p ∉ l → queue_pending (delete p objs) l = queue_pending objs l.
Proof.
  intros Hp. apply queue_pending_ext. intros q Hq. unfold node_pending.
  rewrite lookup_delete_ne; [done|]. congruence.
Qed.

Lemma queue_pending_app objs l1 l2 :
  queue_pending objs (l1 ++ l2) = queue_pending objs l1 ++ queue_pending objs l2.
Proof. apply omap_app. Qed.

Lemma queue_pending_cons objs p e l :
  objs !! p = Some e →
  queue_pending objs (p :: l)
  = (pe_data_version e, pe_waiting_task e) :: queue_pending objs l.
Proof. intros Hp. unfold queue_pending, node_pending. cbn. by rewrite Hp. Qed.

(** Redirecting [pe_next] leaves every pending version as it was. *)
Lemma queue_pending_set_next objs p e n l :
  objs !! p = Some e →
  queue_pending (<[p := set_next e n]> objs) l = queue_pending objs l.
Proof.
  intros Hp. apply queue_pending_ext. intros q _. unfold node_pending.
  destruct (decide (p = q)) as [->|].
  - by rewrite lookup_insert_eq, Hp.
  - by rewrite lookup_insert_ne.
Qed.

(** [desc_task_waiting_rpc_count] only touches the counters. *)
Definition rpc_dec (s : PushContext) (e : PushResultEntry) : PushContext :=
  match pe_waiting_task e with
  | None => s
  | Some task =>
    let count := default 0 (waiting_rpc_count s !! task) - 1 in
    set_rpc (<[task := count]> (waiting_rpc_count s))
      (if count =? 0 then notified s ++ [task] else notified s) s
  end.

Lemma desc_run e s : desc_task_waiting_rpc_count e s = Some ((), rpc_dec s e).
Proof.
  unfold desc_task_waiting_rpc_count, rpc_dec.
  by destruct (pe_waiting_task e).
Qed.

Lemma rpc_dec_rpc s e t :
  rpc (rpc_dec s e) t
  = rpc s t - (if decide (pe_waiting_task e = Some t) then 1 else 0).
Proof.
  unfold rpc, rpc_dec. destruct (pe_waiting_task e) as [u|]; simpl.
  - destruct (decide (u = t)) as [->|Hne].
    + rewrite lookup_insert_eq. by rewrite decide_True.
    + rewrite lookup_insert_ne by done. rewrite decide_False by congruence. lia.
  - lia.
Qed.

Lemma rpc_dec_frame s e :
  ring_entries (rpc_dec s e) = ring_entries s ∧
  ring_start (rpc_dec s e) = ring_start s ∧
  ring_end (rpc_dec s e) = ring_end s ∧
  ring_size (rpc_dec s e) = ring_size s ∧
  queue_head (rpc_dec s e) = queue_head s ∧
  queue_tail (rpc_dec s e) = queue_tail s ∧
  queue_objs (rpc_dec s e) = queue_objs s ∧
  queue_avail (rpc_dec s e) = queue_avail s.
Proof. unfold rpc_dec. by destruct (pe_waiting_task e). Qed.

Lemma waits_live t e :
  (pe_data_version e ≠ 0 ∨ free_slot e) →
  waits t (live e) = if decide (pe_waiting_task e = Some t) then 1 else 0.
Proof.
  unfold live, free_slot. intros [Hv|[Hv Hw]].
  - destruct (Z.eqb_spec (pe_data_version e) 0); [done|].
    rewrite waits_cons, waits_nil. lia.
  - by rewrite Hv, Hw.
Qed.

Lemma live_clear e : live (clear_entry e) = [].
Proof. done. Qed.

(** *** Windows *)

Lemma window_lookup es size base cnt i :
  window es size base cnt → 0 ≤ i < size →
  ∃ e, es !! Z.to_nat ((base + i) `mod` size) = Some e ∧
       (pe_data_version e ≠ 0 ∨ free_slot e).
Proof.
  intros Hw Hi. destruct (Hw i Hi) as (e & He & [(? & Hv & ?)|Hf]);
    exists e; split; auto. left. lia.
Qed.

(** Storing [e'] in the slot of [base + k] leaves the other slots alone. *)
Lemma window_store es size base cnt k e' cnt' :
  window es size base cnt → Z.of_nat (length es) = size → 0 ≤ k < size →
  ((k < cnt' ∧ pe_data_version e' = base + k ∧ 0 < base + k) ∨ free_slot e') →
  (cnt ≤ cnt' ∨ (∀ i, cnt' ≤ i < cnt → i = k)) →
  window (<[Z.to_nat ((base + k) `mod` size) := e']> es) size base cnt'.
Proof.
  intros Hw Hl Hk He' Hc i Hi. destruct (decide (i = k)) as [->|Hne].
  - exists e'. split; [|done]. apply list_lookup_insert_eq.
    pose proof (slot_lt size (base + k) ltac:(lia)). lia.
  - destruct (Hw i Hi) as (e & He & Hd). exists e. split.
    + rewrite list_lookup_insert_ne; [done|]. intros Heq.
      apply Hne. apply (slot_inj size base); [lia|lia|].
      pose proof (slot_lt size (base + k) ltac:(lia)). pose proof (slot_lt size (base + i) ltac:(lia)).
      lia.
    + destruct Hd as [(? & ? & ?)|?]; [|by right].
      destruct Hc as [?|Hc]; [left; lia|].
      left. split; [|lia]. destruct (decide (i < cnt')); [done|].
      exfalso. apply Hne, Hc. lia.
Qed.

Lemma window_advance es size base cnt k :
  window es size base cnt → 0 ≤ k ≤ cnt → cnt < size →
  (∀ i, 0 ≤ i < k → ∃ e, es !! Z.to_nat ((base + i) `mod` size) = Some e ∧
                         free_slot e) →
  window es size (base + k) (cnt - k).
Proof.
  intros Hw Hk Hc Hf i Hi. destruct (decide (k + i < size)).
  - destruct (Hw (k + i) ltac:(lia)) as (e & He & Hd). exists e.
    replace (base + k + i) with (base + (k + i)) by lia. split; [done|].
    destruct Hd as [(? & ? & ?)|?]; [left; lia|by right].
  - destruct (Hf (k + i - size) ltac:(lia)) as (e & He & Hd). exists e.
    replace (base + k + i) with (base + (k + i - size) + 1 * size) by lia.
    rewrite Z.mod_add by lia. split; [done|by right].
Qed.

(** *** Frames *)

Definition same_ring (s s' : PushContext) : Prop :=
  ring_entries s' = ring_entries s ∧ ring_start s' = ring_start s ∧
  ring_end s' = ring_end s ∧ ring_size s' = ring_size s.

Definition same_queue (s s' : PushContext) : Prop :=
  queue_head s' = queue_head s ∧ queue_tail s' = queue_tail s ∧
  queue_objs s' = queue_objs s.

#[export] Instance same_ring_refl : Reflexive same_ring.
Proof. by intros s. Qed.
#[export] Instance same_queue_refl : Reflexive same_queue.
Proof. by intros s. Qed.
#[export] Instance same_ring_trans : Transitive same_ring.
Proof. unfold same_ring. intros ? ? ?. intuition congruence. Qed.
#[export] Instance same_queue_trans : Transitive same_queue.
Proof. unfold same_queue. intros ? ? ?. intuition congruence. Qed.

Lemma ring_ok_same s s' base cnt :
  same_ring s s' → ring_ok s base cnt → ring_ok s' base cnt.
Proof. intros (E1 & E2 & E3 & E4) []. split; rewrite ?E1, ?E2, ?E3, ?E4; done. Qed.

Lemma queue_ok_same s s' l : same_queue s s' → queue_ok s l → queue_ok s' l.
Proof. intros (E1 & E2 & E3) []. split; rewrite ?E1, ?E2, ?E3; done. Qed.

Lemma rpc_dec_same s e :
  same_ring s (rpc_dec s e) ∧ same_queue s (rpc_dec s e).
Proof. unfold same_ring, same_queue, rpc_dec. by destruct (pe_waiting_task e). Qed.

Lemma pending_same s s' l :
  same_ring s s' → same_queue s s' → pending s' l = pending s l.
Proof. unfold pending. by intros (-> & _) (_ & _ & ->). Qed.

Lemma set_start_id s : set_start (ring_start s) s = s.
Proof. by destruct s. Qed.

Lemma load_slot_run s i e :
  ring_entries s !! Z.to_nat i = Some e → load_slot i s = Some (e, s).
Proof. unfold load_slot. by intros ->. Qed.

Lemma store_slot_run s i e e' :
  ring_entries s !! Z.to_nat i = Some e →
  store_slot i e' s = Some ((), set_entries (<[Z.to_nat i := e']> (ring_entries s)) s).
Proof. unfold store_slot. by intros ->. Qed.

Lemma load_node_run s p e :
  queue_objs s !! p = Some e → load_node p s = Some (e, s).
Proof. unfold load_node. by intros ->. Qed.

Lemma store_node_run s p e e' :
  queue_objs s !! p = Some e →
  store_node p e' s = Some ((), set_objs (<[p := e']> (queue_objs s)) (queue_avail s) s).
Proof. unfold store_node. by intros ->. Qed.

Lemma ring_get_run (s : PushContext) : get_st s = Some (s, s).
Proof. done. Qed.

Lemma ring_modify_run (f : PushContext → PushContext) s : modify f s = Some ((), f s).
Proof. done. Qed.

(** Runs the next statement of a program. *)
Ltac step :=
  erewrite bind_run;
  [| first [ apply ring_get_run | apply ring_modify_run | apply desc_run
           | apply load_slot_run; eassumption | eapply store_slot_run; eassumption
           | apply load_node_run; eassumption | eapply store_node_run; eassumption ] ];
  cbn beta.

(** ** The ring *)

Lemma start_eq_end size base j cnt :
  0 ≤ j ≤ cnt → cnt < size →
  ((base + j) `mod` size =? (base + cnt) `mod` size) = (j =? cnt).
Proof.
  intros. destruct (Z.eqb_spec j cnt) as [->|Hne].
  - apply Z.eqb_refl.
  - apply Z.eqb_neq. intros He. apply Hne. apply (slot_inj size base); lia.
Qed.

Lemma advance_start_run s base cnt j index fuel :
  window (ring_entries s) (ring_size s) base cnt →
  0 ≤ j ≤ cnt → cnt < ring_size s →
  ring_start s = (base + j) `mod` ring_size s →
  ring_end s = (base + cnt) `mod` ring_size s →
  index `mod` ring_size s = (base + j) `mod` ring_size s →
  cnt - j ≤ Z.of_nat fuel →
  ∃ k, j ≤ k ≤ cnt ∧
    advance_start_loop fuel index s
      = Some ((), set_start ((base + k) `mod` ring_size s) s) ∧
    ∀ i, j ≤ i < k → ∃ e,
      ring_entries s !! Z.to_nat ((base + i) `mod` ring_size s) = Some e ∧
      free_slot e.
Proof.
  revert s j index. induction fuel as [|fuel IH];
    intros s j index Hw Hj Hc Hst Hen Hix Hf; simpl; step;
    rewrite Hst, Hen, start_eq_end by lia;
    destruct (Z.eqb_spec j cnt) as [->|Hne];
    try (exists cnt; split; [lia|]; split;
         [by rewrite <- Hst, set_start_id|intros; lia]).
  - lia.
  - destruct (Hw j ltac:(lia)) as (e & He & Hd). step.
    destruct (Z.eqb_spec (pe_data_version e) 0) as [Hz|Hz].
    + step.
      destruct (IH (set_start ((index + 1) `mod` ring_size s) s) (j + 1) (index + 1))
        as (k & Hk & Hrun & Hfree); simpl in *; [done|lia|lia| |done| |lia|].
      * rewrite <- (slot_succ _ index), Hix, slot_succ by lia. f_equal. lia.
      * rewrite <- (slot_succ _ index), Hix, slot_succ by lia. f_equal. lia.
      * exists k. split; [lia|]. split; [exact Hrun|]. intros i Hi.
        destruct (decide (i = j)) as [->|]; [|apply Hfree; lia].
        exists e. split; [done|]. destruct Hd as [|Hd]; [lia|done].
    + exists j. split; [lia|]. split; [by rewrite <- Hst, set_start_id|].
      intros; lia.
Qed.

(** Popping the first slot of the window. *)
Definition pop_slot (base : Z) (e : PushResultEntry) (s : PushContext) : PushContext :=
  set_start ((base + 1) `mod` ring_size s)
    (set_entries (<[Z.to_nat (base `mod` ring_size s) := clear_entry e]>
                    (ring_entries s)) (rpc_dec s e)).

Lemma pop_slot_ok s base cnt e :
  ring_ok s base cnt → 0 < cnt →
  ring_entries s !! Z.to_nat (base `mod` ring_size s) = Some e →
  ring_ok (pop_slot base e s) (base + 1) (cnt - 1).
Proof.
  intros [Hl Hb Hc Hst Hen Hw] Hpos He.
  destruct (rpc_dec_frame s e) as (E1 & E2 & E3 & E4 & _).
  unfold pop_slot. split; simpl; rewrite ?length_insert, ?E3, ?E4; try done; try lia.
  - rewrite Hen. f_equal. lia.
  - assert (window (<[Z.to_nat (base `mod` ring_size s) := clear_entry e]>
                      (ring_entries s)) (ring_size s) base cnt) as Hw'.
    { replace base with (base + 0) at 1 by lia.
      apply window_store with cnt; [done|done|lia|by right|by left]. }
    apply (window_advance _ _ _ _ 1) in Hw'; [done|lia|lia|].
    intros i Hi. exists (clear_entry e). split; [|done].
    replace (base + i) with base by lia. apply list_lookup_insert_eq.
    pose proof (slot_lt (ring_size s) base ltac:(lia)). lia.
Qed.

Lemma pop_slot_settled s base cnt e l :
  ring_ok s base cnt →
  ring_entries s !! Z.to_nat (base `mod` ring_size s) = Some e →
  settled s (pop_slot base e s) l l (live e) ∧ same_queue s (pop_slot base e s).
Proof.
  intros Hr He. destruct (rpc_dec_frame s e) as (E1 & E2 & E3 & E4 & E5 & E6 & E7 & _).
  split; [|done]. split.
  - unfold pending, pop_slot; simpl. rewrite E7.
    rewrite (app_assoc (live e)). apply Permutation_app_tail.
    pose proof (ring_pending_insert _ _ _ (clear_entry e) He) as HP.
    rewrite live_clear in HP. simpl in HP.
    rewrite <- HP. apply Permutation_app_comm.
  - intros t. rewrite waits_live.
    + rewrite <- (rpc_dec_rpc s e t). done.
    + destruct (window_lookup _ _ _ _ 0 (ring_ok_window _ _ _ Hr)) as (e' & He' & Hd).
      { pose proof (ring_ok_cnt _ _ _ Hr). lia. }
      rewrite Z.add_0_r in He'. by simplify_eq.
Qed.

Lemma settled_refl s l : settled s s l l [].
Proof. split; [done|]. intros t. rewrite waits_nil. lia. Qed.

Lemma settled_trans s1 s2 s3 l1 l2 l3 R1 R2 :
  settled s1 s2 l1 l2 R1 → settled s2 s3 l2 l3 R2 →
  settled s1 s3 l1 l3 (R1 ++ R2).
Proof.
  intros [P1 W1] [P2 W2]. split.
  - by rewrite P1, P2, app_assoc.
  - intros t. rewrite W2, W1, waits_app. lia.
Qed.

Lemma clear_ring_run s base cnt index fuel l :
  ring_ok s base cnt → index `mod` ring_size s = base `mod` ring_size s →
  cnt ≤ Z.of_nat fuel →
  ∃ s' R, clear_ring_loop fuel index s = Some ((), s') ∧
    ring_ok s' (base + cnt) 0 ∧ same_queue s s' ∧ settled s s' l l R.
Proof.
  revert s base cnt index. induction fuel as [|fuel IH];
    intros s base cnt index Hr Hix Hf; pose proof Hr as [Hl Hb Hc Hst Hen Hw];
    simpl; step; rewrite Hst, Hen;
    replace (base `mod` ring_size s) with ((base + 0) `mod` ring_size s)
      by (f_equal; lia);
    rewrite start_eq_end by lia; destruct (Z.eqb_spec 0 cnt) as [<-|Hne];
    try (exists s, []; rewrite Z.add_0_r; split_and!; [done|done|done|apply settled_refl]).
  - lia.
  - destruct (Hw 0 ltac:(lia)) as (e & He & Hd).
    rewrite Z.add_0_r in *. step. step.
    pose proof (rpc_dec_frame s e) as (E1 & _ & _ & E4 & _).
    assert (ring_entries (rpc_dec s e) !! Z.to_nat (base `mod` ring_size s) = Some e)
      as He' by (rewrite E1; exact He).
    step. step. simpl. rewrite E1.
    rewrite <- (slot_succ _ index), Hix, slot_succ by lia.
    destruct (IH (pop_slot base e s) (base + 1) (cnt - 1) (index + 1))
      as (s' & R & Hrun & Hr' & Hq & Hs').
    + apply pop_slot_ok; [done|lia|done].
    + unfold pop_slot; simpl. rewrite E4.
      rewrite <- (slot_succ _ index), Hix, slot_succ by lia. done.
    + lia.
    + destruct (pop_slot_settled s base cnt e l Hr He) as [Hs Hq0].
      exists s', (live e ++ R). split_and!.
      * exact Hrun.
      * by replace (base + cnt) with (base + 1 + (cnt - 1)) by lia.
      * by transitivity (pop_slot base e s).
      * by eapply settled_trans.
Qed.

Lemma clear_ring_timeouts_run now s base cnt index n fuel l :
  ring_ok s base cnt → index `mod` ring_size s = base `mod` ring_size s →
  cnt ≤ Z.of_nat fuel →
  ∃ s' R k m, clear_ring_timeouts_loop now fuel index n s = Some (m, s') ∧
    0 ≤ k ≤ cnt ∧ ring_ok s' (base + k) (cnt - k) ∧ same_queue s s' ∧
    settled s s' l l R.
Proof.
  revert s base cnt index n. induction fuel as [|fuel IH];
    intros s base cnt index n Hr Hix Hf; pose proof Hr as [Hl Hb Hc Hst Hen Hw];
    simpl; step; rewrite Hst, Hen;
    replace (base `mod` ring_size s) with ((base + 0) `mod` ring_size s)
      by (f_equal; lia);
    rewrite start_eq_end by lia; destruct (Z.eqb_spec 0 cnt) as [<-|Hne];
    try (exists s, [], 0, n; rewrite Z.add_0_r; split_and!;
         [done|lia|lia|done|done|apply settled_refl]).
  - lia.
  - destruct (Hw 0 ltac:(lia)) as (e & He & Hd).
    rewrite Z.add_0_r in *. step.
    destruct (Z.ltb_spec (pe_expires e) now) as [Hex|Hex].
    2:{ exists s, [], 0, n. rewrite Z.add_0_r, Z.sub_0_r.
        split_and!; [done|lia|lia|done|done|apply settled_refl]. }
    step. pose proof (rpc_dec_frame s e) as (E1 & _ & _ & E4 & _).
    assert (ring_entries (rpc_dec s e) !! Z.to_nat (base `mod` ring_size s) = Some e)
      as He' by (rewrite E1; exact He).
    step. step. simpl. rewrite E1.
    rewrite <- (slot_succ _ index), Hix, slot_succ by lia.
    destruct (IH (pop_slot base e s) (base + 1) (cnt - 1) (index + 1) (n + 1))
      as (s' & R & k & m & Hrun & Hk & Hr' & Hq & Hs').
    + apply pop_slot_ok; [done|lia|done].
    + unfold pop_slot; simpl. rewrite E4.
      rewrite <- (slot_succ _ index), Hix, slot_succ by lia. done.
    + lia.
    + destruct (pop_slot_settled s base cnt e l Hr He) as [Hs Hq0].
      exists s', (live e ++ R), (k + 1), m. split_and!; try lia.
      * exact Hrun.
      * replace (base + (k + 1)) with (base + 1 + k) by lia.
        by replace (cnt - (k + 1)) with (cnt - 1 - k) by lia.
      * by transitivity (pop_slot base e s).
      * by eapply settled_trans.
Qed.

(** The versions [v .. v + n - 1], nobody waiting. *)
Fixpoint versions (v : Z) (n : nat) : list (Z * option ptr) :=
  match n with O => [] | S n' => (v, None) :: versions (v + 1) n' end.

(** Filling the first free slot after the window. *)
Lemma fill_slot es size base cnt now w :
  window es size base cnt → Z.of_nat (length es) = size →
  0 ≤ cnt < size → 0 < base + cnt →
  ∃ e, es !! Z.to_nat ((base + cnt) `mod` size) = Some e ∧ free_slot e ∧
    let es' := <[Z.to_nat ((base + cnt) `mod` size) :=
                   mkPushResultEntry (base + cnt) now w (pe_next e)]> es in
    window es' size base (cnt + 1) ∧ length es' = length es ∧
    ring_pending es' ≡ₚ (base + cnt, w) :: ring_pending es.
Proof.
  intros Hw Hl Hc Hv. destruct (Hw cnt ltac:(lia)) as (e & He & [?|Hd]); [lia|].
  exists e. cbv zeta. split_and!; [done|done|..].
  - apply window_store with cnt; [done|done|lia| |left; lia].
    left. simpl. lia.
  - apply length_insert.
  - pose proof (ring_pending_insert _ _ _
      (mkPushResultEntry (base + cnt) now w (pe_next e)) He) as HP.
    assert (live e = []) as El by (unfold live; by rewrite (proj1 Hd)).
    rewrite El, app_nil_r in HP. rewrite HP. unfold live; simpl.
    destruct (Z.eqb_spec (base + cnt) 0); [lia|done].
Qed.

Lemma ring_add_loop_run now timeout n s base cnt :
  window (ring_entries s) (ring_size s) base cnt →
  Z.of_nat (length (ring_entries s)) = ring_size s →
  0 ≤ cnt → cnt + Z.of_nat n < ring_size s → 0 < base + cnt →
  ∃ es', ring_add_loop now timeout n (base + cnt) s = Some ((), set_entries es' s) ∧
    window es' (ring_size s) base (cnt + Z.of_nat n) ∧
    length es' = length (ring_entries s) ∧
    ring_pending es' ≡ₚ versions (base + cnt) n ++ ring_pending (ring_entries s).
Proof.
  revert s cnt. induction n as [|n IH]; intros s cnt Hw Hl Hc Hn Hv; cbn [ring_add_loop].
  - exists (ring_entries s). rewrite Z.add_0_r. split_and!; try done. by destruct s.
  - step.
    destruct (fill_slot (ring_entries s) (ring_size s) base cnt (now + timeout) None)
      as (e & He & [Hz Hwt] & Hw' & Hl' & HP); [done|done|lia|done|].
    step. step. rewrite Hwt.
    set (es1 := <[_ := _]> (ring_entries s)) in *.
    destruct (IH (set_entries es1 s) (cnt + 1)) as (es' & Hrun & Hw2 & Hl2 & HP2);
      simpl in *; [done|by rewrite Hl'|lia|lia|lia|].
    exists es'. replace (base + (cnt + 1)) with (base + cnt + 1) in * by lia.
    split_and!.
    + exact Hrun.
    + by replace (cnt + Z.of_nat (S n)) with (cnt + 1 + Z.of_nat n) by lia.
    + by rewrite Hl2.
    + rewrite HP2, HP. simpl. symmetry. apply Permutation_middle.
Qed.

(** ** The sorted queue *)

Lemma StronglySorted_insert (a b : list Z) v :
  StronglySorted Z.lt (a ++ b) → Forall (λ x, x < v) a → Forall (λ x, v < x) b →
  StronglySorted Z.lt (a ++ v :: b).
Proof.
  induction a as [|x a IH]; simpl; intros Hs Ha Hb.
  - by constructor.
  - inversion Hs as [|? ? Hs' Hx]; subst. inversion Ha as [|? ? Hxv Ha']; subst.
    constructor; [by apply IH|]. rewrite Forall_app in *.
    destruct Hx. split; [done|]. by constructor.
Qed.

Lemma StronglySorted_remove (a b : list Z) v :
  StronglySorted Z.lt (a ++ v :: b) → StronglySorted Z.lt (a ++ b).
Proof.
  induction a as [|x a IH]; simpl; intros Hs; inversion Hs as [|? ? Hs' Hx]; subst.
  - done.
  - constructor; [by apply IH|]. apply Forall_app in Hx as [Ha Hb].
    apply Forall_cons in Hb as [_ Hb]. by apply Forall_app.
Qed.

Lemma StronglySorted_below (a b : list Z) :
  StronglySorted Z.lt (a ++ b) → ∀ x y, x ∈ a → y ∈ b → x < y.
Proof.
  induction a as [|z a IH]; simpl; intros Hs x y Hx Hy; [set_solver|].
  inversion Hs as [|? ? Hs' Hz]; subst.
  apply elem_of_cons in Hx as [->|Hx]; [|by eapply IH].
  rewrite Forall_forall in Hz. apply Hz. set_solver.
Qed.

(** The versions queued in the nodes [l]. *)
Abbreviation queue_versions objs l := ((queue_pending objs l).*1).

Lemma queue_versions_cons objs p e l :
  objs !! p = Some e →
  queue_versions objs (p :: l) = pe_data_version e :: queue_versions objs l.
Proof. intros H. by rewrite (queue_pending_cons _ _ _ _ H). Qed.

Lemma queue_versions_app objs l1 l2 :
  queue_versions objs (l1 ++ l2) = queue_versions objs l1 ++ queue_versions objs l2.
Proof. by rewrite queue_pending_app, fmap_app. Qed.

Lemma queue_seek_run s v prev cur l fuel :
  chain pe_next (queue_objs s) cur l →
  StronglySorted Z.lt (queue_versions (queue_objs s) l) →
  (length l ≤ fuel)%nat →
  ∃ a b, l = a ++ b ∧
    queue_seek fuel v prev cur s = Some ((default prev (last a), head b), s) ∧
    Forall (λ x, x < v) (queue_versions (queue_objs s) a) ∧
    Forall (λ x, v ≤ x) (queue_versions (queue_objs s) b).
Proof.
  revert prev cur l. induction fuel as [|fuel IH]; intros prev cur l Hc Hs Hf.
  - destruct l; [|simpl in Hf; lia]. simpl in Hc. subst. by exists [], [].
  - destruct l as [|p l]; simpl in Hc; [subst; by exists [], []|].
    destruct Hc as (-> & e & He & Hc). cbn [queue_seek]. step.
    rewrite (queue_versions_cons _ _ _ _ He) in Hs.
    inversion Hs as [|? ? Hs' Hlt]; subst.
    destruct (Z.ltb_spec (pe_data_version e) v) as [Hv|Hv].
    + destruct (IH p (pe_next e) l Hc Hs') as (a & b & -> & Hrun & Ha & Hb);
        [simpl in Hf; lia|].
      exists (p :: a), b. split_and!; [done| | |done].
      * rewrite Hrun. do 3 f_equal. destruct a as [|q a]; [done|].
        change (last (p :: q :: a)) with (last (q :: a)).
        by destruct (proj2 (last_is_Some (q :: a))) as [z ->].
      * rewrite (queue_versions_cons _ _ _ _ He). by constructor.
    + exists [], (p :: l). split_and!; [done|done|constructor|].
      rewrite (queue_versions_cons _ _ _ _ He). constructor; [done|].
      eapply Forall_impl; [exact Hlt|]. simpl. lia.
Qed.

(** A queue obtained by linking the node [p] between [l1] and [l2]. *)
Lemma queue_ok_link s h t objs a p e l1 l2 :
  queue_ok s (l1 ++ l2) →
  (∀ q, q ∈ l1 ++ l2 → node_pending objs q = node_pending (queue_objs s) q) →
  objs !! p = Some e →
  Forall (λ x, x < pe_data_version e) (queue_versions (queue_objs s) l1) →
  Forall (λ x, pe_data_version e < x) (queue_versions (queue_objs s) l2) →
  chain pe_next objs h (l1 ++ p :: l2) → t = last (l1 ++ p :: l2) →
  let s' := set_queue h t (set_objs objs a s) in
  queue_ok s' (l1 ++ p :: l2) ∧
  pending s' (l1 ++ p :: l2)
    ≡ₚ (pe_data_version e, pe_waiting_task e) :: pending s (l1 ++ l2).
Proof.
  intros [_ _ Hs] Hext He H1 H2 Hc Ht s'.
  assert (queue_pending objs l1 = queue_pending (queue_objs s) l1) as E1.
  { apply queue_pending_ext. intros. apply Hext. set_solver. }
  assert (queue_pending objs l2 = queue_pending (queue_objs s) l2) as E2.
  { apply queue_pending_ext. intros. apply Hext. set_solver. }
  assert (queue_pending objs (l1 ++ p :: l2)
          = queue_pending (queue_objs s) l1 ++
            (pe_data_version e, pe_waiting_task e) :: queue_pending (queue_objs s) l2)
    as E3 by (by rewrite queue_pending_app, (queue_pending_cons _ _ _ _ He), E1, E2).
  split; [split; simpl; [done|done|]|].
  - rewrite E3, fmap_app. rewrite queue_versions_app in Hs.
    by apply StronglySorted_insert.
  - unfold pending. simpl. rewrite E3, queue_pending_app.
    rewrite <- Permutation_middle. rewrite (app_assoc (ring_pending _)).
    by rewrite <- Permutation_middle, <- app_assoc.
Qed.

Lemma alloc_node_run s :
  alloc_node s = Some (None, s) ∧ queue_avail s = Some O ∨
  alloc_node s = Some (Some (fresh_ptr (queue_objs s)),
    set_objs (<[fresh_ptr (queue_objs s) := zero_entry]> (queue_objs s))
      (pred <$> queue_avail s) s) ∧ queue_avail s ≠ Some O.
Proof. unfold alloc_node. destruct (queue_avail s) as [[|n]|]; naive_solver. Qed.

(** Linking a new node [p] after the node [x]. *)
Lemma chain_link_after objs h l1 x xe l2 p e :
  chain pe_next objs h (l1 ++ x :: l2) → objs !! x = Some xe → objs !! p = None →
  pe_next e = pe_next xe →
  let objs' := <[x := set_next xe (Some p)]> (<[p := e]> objs) in
  chain pe_next objs' h ((l1 ++ [x]) ++ p :: l2) ∧ objs' !! p = Some e ∧
  ∀ q, q ∈ l1 ++ x :: l2 → node_pending objs' q = node_pending objs q.
Proof.
  intros Hc Hx Hp He objs'.
  assert (p ∉ l1 ++ x :: l2) as Hpl.
  { intros Hin. destruct (chain_in_dom _ _ _ _ _ Hc Hin). congruence. }
  assert (x ≠ p) as Hxp by congruence.
  pose proof (chain_NoDup _ _ _ _ Hc) as Hnd.
  apply NoDup_app in Hnd as (_ & _ & Hnd). apply NoDup_cons in Hnd as [Hxl _].
  destruct (chain_app _ _ _ _ _ Hc) as (q & Hq & _ & _).
  destruct Hq as (-> & xe' & Hx' & Hc2). simplify_eq.
  split_and!.
  - rewrite <- app_assoc. apply chain_relink with xe l2.
    + by apply chain_insert_ne.
    + by rewrite lookup_insert_ne.
    + set_solver.
    + simpl. split; [done|]. exists e. rewrite lookup_insert_eq. split; [done|].
      rewrite He. apply chain_insert_ne; [set_solver|done].
  - unfold objs'. rewrite lookup_insert_ne by done. apply lookup_insert_eq.
  - intros q Hq. unfold objs', node_pending.
    destruct (decide (x = q)) as [->|].
    + by rewrite lookup_insert_eq, Hx.
    + rewrite lookup_insert_ne by done. rewrite lookup_insert_ne; [done|].
      intros ->. done.
Qed.

Lemma queue_objs_dec l (objs : gmap ptr PushResultEntry) p h :
  chain pe_next objs h l → objs !! p = None → p ∉ l.
Proof. intros Hc Hp Hin. destruct (chain_in_dom _ _ _ _ _ Hc Hin). congruence. Qed.

Definition queued (s s' : PushContext) (l : list ptr) (P : list (Z * option ptr)) :=
  ∃ l', queue_ok s' l' ∧ same_ring s s' ∧ pending s' l' ≡ₚ P ++ pending s l ∧
        waiting_rpc_count s' = waiting_rpc_count s ∧ notified s' = notified s ∧
        (queue_avail s = None → queue_avail s' = None).

(** The new node goes after [x]. *)
Lemma queued_after s l1 x xe l2 p e a t :
  queue_ok s (l1 ++ x :: l2) → queue_objs s !! x = Some xe →
  queue_objs s !! p = None → pe_next e = pe_next xe →
  Forall (λ y, y < pe_data_version e) (queue_versions (queue_objs s) (l1 ++ [x])) →
  Forall (λ y, pe_data_version e < y) (queue_versions (queue_objs s) l2) →
  t = match l2 with [] => Some p | _ => queue_tail s end →
  (queue_avail s = None → a = None) →
  queued s (set_queue (queue_head s) t (set_objs
      (<[x := set_next xe (Some p)]> (<[p := e]> (queue_objs s))) a s))
    (l1 ++ x :: l2) [(pe_data_version e, pe_waiting_task e)].
Proof.
  intros Hq Hx Hp He H1 H2 Ht Hav.
  destruct (chain_link_after _ _ _ _ _ _ _ e (queue_ok_chain _ _ Hq) Hx Hp He)
    as (Hc' & Hp' & Hn').
  assert ((l1 ++ [x]) ++ l2 = l1 ++ x :: l2) as El by by rewrite <- app_assoc.
  rewrite <- El in Hq, Hn' |- *.
  exists ((l1 ++ [x]) ++ p :: l2).
  destruct (queue_ok_link s (queue_head s) t _ a p e _ _ Hq Hn' Hp' H1 H2 Hc')
    as [Hok HP]; [|by split_and!].
  rewrite Ht, (queue_ok_tail _ _ Hq), last_app_cons.
  destruct l2 as [|y l2]; [done|]. rewrite last_app_cons, last_cons_cons. done.
Qed.

(** The new node becomes the head. *)
Lemma queued_front s l p e a t :
  queue_ok s l → queue_objs s !! p = None → pe_next e = queue_head s →
  Forall (λ y, pe_data_version e < y) (queue_versions (queue_objs s) l) →
  t = match l with [] => Some p | _ => queue_tail s end →
  (queue_avail s = None → a = None) →
  queued s (set_queue (Some p) t (set_objs (<[p := e]> (queue_objs s)) a s))
    l [(pe_data_version e, pe_waiting_task e)].
Proof.
  intros Hq Hp He H2 Ht Hav.
  pose proof (queue_objs_dec _ _ _ _ (queue_ok_chain _ _ Hq) Hp) as Hpl.
  exists (p :: l).
  destruct (queue_ok_link s (Some p) t (<[p := e]> (queue_objs s)) a p e [] l)
    as [Hok HP]; simpl; try done.
  - intros q Hql. unfold node_pending. rewrite lookup_insert_ne; [done|congruence].
  - apply lookup_insert_eq.
  - split; [done|]. exists e. rewrite lookup_insert_eq. split; [done|].
    rewrite He. apply chain_insert_ne; [done|]. apply (queue_ok_chain _ _ Hq).
  - rewrite Ht. destruct l as [|y l]; [done|]. by rewrite (queue_ok_tail _ _ Hq).
Qed.

Lemma Forall_below (a : list Z) v y :
  Forall (λ x, x < y) a → y < v → Forall (λ x, x < v) a.
Proof. intros H ?. eapply Forall_impl; [exact H|]. simpl. lia. Qed.

(** Everything before the last element of a sorted list is below it. *)
Lemma sorted_snoc_below (a : list Z) y :
  StronglySorted Z.lt (a ++ [y]) → Forall (λ x, x < y) a.
Proof.
  intros Hs. apply Forall_forall. intros x Hx.
  apply (StronglySorted_below _ _ Hs); set_solver.
Qed.

Lemma sorted_cons_above (a : list Z) y v :
  StronglySorted Z.lt (y :: a) → v < y → Forall (λ x, v < x) (y :: a).
Proof.
  intros Hs Hv. inversion Hs as [|? ? _ H]; subst. constructor; [done|].
  eapply Forall_impl; [exact H|]. simpl. lia.
Qed.

Lemma Forall_le_ne (b : list Z) v :
  Forall (λ x, v ≤ x) b → v ∉ b → Forall (λ x, v < x) b.
Proof.
  intros H Hv. rewrite Forall_forall in *. intros x Hx.
  specialize (H x Hx). simpl in H. destruct (decide (v = x)); [subst; done|lia].
Qed.

Lemma chain_last_next objs h l0 t te :
  chain pe_next objs h (l0 ++ [t]) → objs !! t = Some te → pe_next te = None.
Proof.
  intros Hc Ht. destruct (chain_app _ _ _ _ _ Hc) as (q & (-> & te' & ? & Hn) & _).
  by simplify_eq.
Qed.

Lemma set_queue_id s o a :
  set_queue (queue_head s) (queue_tail s) (set_objs o a s) = set_objs o a s.
Proof. by destruct s. Qed.

(** The position [add_to_queue] finds when neither end fits. *)
Lemma add_middle now timeout v w s head he l a :
  queue_ok s (head :: l) → queue_objs s !! head = Some he →
  queue_objs s !! fresh_ptr (queue_objs s) = None →
  pe_data_version he < v → v ∉ queue_versions (queue_objs s) l →
  (∃ t te, last l = Some t ∧ queue_objs s !! t = Some te ∧ v ≤ pe_data_version te) →
  (queue_avail s = None → a = None) →
  let p := fresh_ptr (queue_objs s) in
  let new n := mkPushResultEntry v (now + timeout) w n in
  let s1 := set_objs (<[p := zero_entry]> (queue_objs s)) a s in
  ∃ s', ('(previous, _) ← queue_seek (size (queue_objs s1)) v head (pe_next he);
         pe ← load_node previous;
         store_node p (new (pe_next pe));;
         store_node previous (set_next pe (Some p));; mret 0) s1 = Some (0, s') ∧
    queued s s' (head :: l) [(v, w)].
Proof.
  intros Hq Hhe Hp Hlt Hv Hlast Hav p new s1. fold p in Hp.
  destruct Hq as [Hc Ht Hs] eqn:Eq. clear Eq.
  pose proof (queue_objs_dec _ _ _ _ Hc Hp) as Hpl.
  simpl in Hc. destruct Hc as (Eh & he' & ? & Hc). simplify_eq.
  rewrite (queue_versions_cons _ _ _ _ Hhe) in Hs.
  assert (queue_pending (<[p:=zero_entry]> (queue_objs s)) l
          = queue_pending (queue_objs s) l) as El.
  { apply queue_pending_insert_ne. set_solver. }
  destruct (queue_seek_run s1 v head (pe_next he) l (size (queue_objs s1)))
    as (a' & b & -> & Hrun & Ha & Hb).
  { simpl. apply chain_insert_ne; [set_solver|done]. }
  { simpl. rewrite El. by inversion Hs. }
  { simpl. pose proof (chain_length _ _ _ _ Hc).
    rewrite map_size_insert_None by done. lia. }
  run_with Hrun. cbn beta iota.
  simpl in Ha, Hb. rewrite !queue_pending_insert_ne in Ha, Hb by set_solver.
  destruct (exists_last (l := head :: a')) as (l1 & x & E1); [done|].
  assert (default head (last a') = x) as ->.
  { replace a' with (tail (l1 ++ [x])) by by rewrite <- E1.
    destruct l1 as [|y l1]; simpl in *; [congruence|]. by rewrite last_snoc. }
  assert (head :: a' ++ b = l1 ++ x :: b) as E2.
  { change (head :: a' ++ b) with ((head :: a') ++ b). by rewrite E1, <- app_assoc. }
  rewrite E2. assert (x ∈ head :: a' ++ b) as Hxin by (rewrite E2; set_solver).
  assert (is_Some (queue_objs s !! x)) as [xe Hxe].
  { destruct (chain_in_dom pe_next (queue_objs s) (queue_head s) (head :: a' ++ b) x)
      as [xe ?]; [rewrite Eh; simpl; eauto|done|eauto]. }
  assert (x ≠ p) as Hxp by congruence.
  assert (queue_objs s1 !! x = Some xe) as Hxe1
    by (simpl; by rewrite lookup_insert_ne).
  assert (queue_objs s1 !! p = Some zero_entry) as Hp1 by apply lookup_insert_eq.
  step. step. simpl.
  assert (queue_objs (set_objs (<[p:=new (pe_next xe)]> (<[p:=zero_entry]>
            (queue_objs s))) a s) !! x = Some xe) as Hxe2
    by (simpl; by rewrite !lookup_insert_ne).
  step. simpl. rewrite insert_insert_eq. eexists. split; [done|].
  pose proof (queued_after s l1 x xe b p (new (pe_next xe)) a (queue_tail s)) as HQ.
  rewrite set_queue_id in HQ. apply HQ; try done; [by rewrite <- E2| | |].
  - rewrite <- E1, (queue_versions_cons _ _ _ _ Hhe). by constructor.
  - apply Forall_le_ne; [done|]. rewrite queue_versions_app in Hv. set_solver.
  - destruct b as [|y b]; [|done]. exfalso.
    destruct Hlast as (t & te & Hl & Hte & Hle). rewrite app_nil_r in Hl.
    apply last_Some in Hl as [a0 ->].
    rewrite queue_versions_app, (queue_versions_cons _ _ _ _ Hte) in Ha.
    apply Forall_app in Ha as [_ Ha]. apply Forall_cons in Ha. lia.
Qed.

Lemma add_to_queue_run now timeout v w s l :
  queue_ok s l → v ∉ queue_versions (queue_objs s) l →
  queue_avail s = Some O ∧ add_to_queue now timeout v w s = Some (ENOMEM, s) ∨
  ∃ s', add_to_queue now timeout v w s = Some (0, s') ∧ queued s s' l [(v, w)].
Proof.
  intros Hq Hv. unfold add_to_queue.
  destruct (alloc_node_run s) as [[Ha ?]|[Ha _]]; run_with Ha; [by left|right].
  pose proof (fresh_ptr_fresh (queue_objs s)) as Hp.
  pose proof (queue_objs_dec _ _ _ _ (queue_ok_chain _ _ Hq) Hp) as Hpl.
  pose proof Hq as [Hc Ht Hs]. set (p := fresh_ptr (queue_objs s)) in *.
  set (a := pred <$> queue_avail s) in *.
  assert (queue_avail s = None → a = None) as Hav by (unfold a; by intros ->).
  set (s1 := set_objs (<[p:=zero_entry]> (queue_objs s)) a s).
  assert (queue_objs s1 !! p = Some zero_entry) as Hp1 by apply lookup_insert_eq.
  step. change (queue_tail s1) with (queue_tail s). rewrite Ht.
  destruct l as [|head l]; [simpl|].
  { step. step. simpl. rewrite insert_insert_eq. eexists. split; [done|].
    by apply (queued_front s [] p (mkPushResultEntry v (now + timeout) w None)). }
  destruct (exists_last (l := head :: l)) as (l0 & t & El); [done|].
  rewrite El, last_snoc.
  destruct (chain_in_dom _ _ _ _ t Hc) as [te Hte]; [rewrite El; set_solver|].
  assert (queue_objs s1 !! t = Some te) as Hte1
    by (simpl; rewrite lookup_insert_ne by congruence; done).
  step. destruct (Z.ltb_spec (pe_data_version te) v) as [Htv|Htv].
  - step. simpl.
    assert (queue_objs (set_objs (<[p:=mkPushResultEntry v (now + timeout) w None]>
        (<[p:=zero_entry]> (queue_objs s))) a s) !! t = Some te) as Hte2
      by (simpl; by rewrite !lookup_insert_ne by congruence).
    step. step. simpl. rewrite insert_insert_eq. eexists. split; [done|].
    rewrite El in Hq, Hc, Hs.
    apply (queued_after s l0 t te [] p (mkPushResultEntry v (now + timeout) w None));
      simpl; try done; [by erewrite chain_last_next|].
    rewrite queue_versions_app, (queue_versions_cons _ _ _ _ Hte) in Hs |- *.
    apply Forall_app. split; [|by constructor].
    by eapply Forall_below, Htv; apply sorted_snoc_below.
  - rewrite <- El. pose proof Hc as (Eh & he & Hhe & Hcl).
    assert (queue_objs s1 !! head = Some he) as Hhe1
      by (simpl; rewrite lookup_insert_ne by congruence; done).
    change (queue_head s1) with (queue_head s). rewrite Eh.
    erewrite bind_run by done. cbn beta. step.
    destruct (Z.ltb_spec v (pe_data_version he)) as [Hvh|Hvh].
    + step. step. simpl. rewrite insert_insert_eq. eexists. split; [done|].
      apply (queued_front s (head :: l) p
               (mkPushResultEntry v (now + timeout) w (Some head))); try done;
        [|by rewrite Ht, El, last_snoc].
      rewrite (queue_versions_cons _ _ _ _ Hhe) in Hs |- *.
      by apply sorted_cons_above.
    + rewrite (queue_versions_cons _ _ _ _ Hhe), not_elem_of_cons in Hv.
      apply add_middle; try done; [lia|naive_solver|].
      exists t, te. split; [|done]. destruct l as [|y l].
      * exfalso. destruct l0 as [|? []]; simplify_eq/=. lia.
      * rewrite <- (last_cons_cons head), El. apply last_snoc.
Qed.

(** A queue obtained by unlinking the node [x] between [l1] and [l2]. *)
Lemma queue_ok_unlink s s' x xe l1 l2 :
  queue_ok s (l1 ++ x :: l2) → queue_objs s !! x = Some xe → same_ring s s' →
  (∀ q, q ∈ l1 ++ l2 →
     node_pending (queue_objs s') q = node_pending (queue_objs s) q) →
  chain pe_next (queue_objs s') (queue_head s') (l1 ++ l2) →
  queue_tail s' = last (l1 ++ l2) →
  queue_ok s' (l1 ++ l2) ∧
  pending s (l1 ++ x :: l2)
    ≡ₚ (pe_data_version xe, pe_waiting_task xe) :: pending s' (l1 ++ l2).
Proof.
  intros [_ _ Hs] Hx (E1 & _) Hext Hc Ht.
  apply queue_pending_ext in Hext as E.
  rewrite queue_versions_app, (queue_versions_cons _ _ _ _ Hx) in Hs.
  split; [split; [done|done|]|].
  - rewrite E, queue_versions_app. by eapply StronglySorted_remove.
  - unfold pending. rewrite E1, E, !queue_pending_app, (queue_pending_cons _ _ _ _ Hx).
    rewrite Permutation_middle. apply Permutation_app_head.
    symmetry. apply Permutation_middle.
Qed.

Lemma rpc_settled s s' e l l' :
  waiting_rpc_count s' = waiting_rpc_count (rpc_dec s e) →
  pending s l ≡ₚ (pe_data_version e, pe_waiting_task e) :: pending s' l' →
  settled s s' l l' [(pe_data_version e, pe_waiting_task e)].
Proof.
  intros Hw HP. split; [done|]. intros t. rewrite waits_cons, waits_nil.
  unfold rpc at 1. rewrite Hw. fold (rpc (rpc_dec s e) t).
  rewrite rpc_dec_rpc. lia.
Qed.

Lemma chain_cons_inv objs h x l :
  chain pe_next objs h (x :: l) →
  h = Some x ∧ ∃ e, objs !! x = Some e ∧ chain pe_next objs (pe_next e) l.
Proof. done. Qed.

Lemma chain_unlink objs h l1 y ye x xe l2 :
  chain pe_next objs h (l1 ++ y :: x :: l2) → objs !! y = Some ye →
  objs !! x = Some xe →
  let objs' := delete x (<[y := set_next ye (pe_next xe)]> objs) in
  chain pe_next objs' h (l1 ++ y :: l2) ∧
  ∀ q, q ∈ l1 ++ y :: l2 → node_pending objs' q = node_pending objs q.
Proof.
  intros Hc Hy Hx objs'. pose proof (chain_NoDup _ _ _ _ Hc) as Hnd.
  apply NoDup_app in Hnd as (_ & Hd & Hnd).
  apply NoDup_cons in Hnd as [Hyx Hnd]. apply NoDup_cons in Hnd as [Hxl Hnd].
  assert (x ∉ l1 ++ y :: l2) as Hxn.
  { intros Hin. rewrite elem_of_app, elem_of_cons in Hin.
    destruct Hin as [Hin|[->|?]]; [|set_solver|done].
    apply (Hd x Hin). set_solver. }
  destruct (chain_app _ _ _ _ _ Hc) as (p & Hp & _).
  apply chain_cons_inv in Hp as (-> & ye' & ? & Hp). simplify_eq.
  apply chain_cons_inv in Hp as (Hn & xe' & ? & Hp). simplify_eq.
  split.
  - apply chain_delete_ne; [done|]. apply chain_relink with ye (x :: l2); auto.
    set_solver.
  - intros q Hq. unfold objs', node_pending.
    rewrite lookup_delete_ne by (intros ->; done).
    destruct (decide (y = q)) as [->|].
    + by rewrite lookup_insert_eq, Hy.
    + by rewrite lookup_insert_ne.
Qed.

Definition removed (s s' : PushContext) (l l' : list ptr) (P : list (Z * option ptr)) :=
  queue_ok s' l' ∧ same_ring s s' ∧ settled s s' l l' P.

Lemma pop_head_ok s h l e a t n r :
  queue_ok s (h :: l) → queue_objs s !! h = Some e →
  t = (match pe_next e with None => None | _ => queue_tail s end) →
  r = waiting_rpc_count (rpc_dec s e) →
  removed s (set_rpc r n (set_queue (pe_next e) t (set_objs (delete h (queue_objs s)) a s)))
    (h :: l) l [(pe_data_version e, pe_waiting_task e)].
Proof.
  intros Hq He Ht Hr. pose proof Hq as [Hc Htl Hs].
  apply chain_cons_inv in Hc as Hc'. destruct Hc' as (_ & e' & ? & Hcl). simplify_eq.
  pose proof (chain_NoDup _ _ _ _ Hc) as Hnd. apply NoDup_cons in Hnd as [Hhl _].
  match goal with |- removed _ ?x _ _ _ => set (s' := x) end.
  destruct (queue_ok_unlink s s' h e [] l Hq He) as [Hok HP]; simpl.
  - done.
  - intros q Hin. unfold node_pending. rewrite lookup_delete_ne; [done|congruence].
  - by apply chain_delete_ne.
  - destruct l as [|y l]; [by rewrite Hcl|].
    apply chain_cons_inv in Hcl as [-> _]. by rewrite Htl, last_cons_cons.
  - split; [done|]. split; [done|]. by apply rpc_settled.
Qed.

Lemma unlink_ok s l1 y ye x xe l2 a t n r :
  queue_ok s (l1 ++ y :: x :: l2) → queue_objs s !! y = Some ye →
  queue_objs s !! x = Some xe →
  t = (if decide (queue_tail s = Some x) then Some y else queue_tail s) →
  r = waiting_rpc_count (rpc_dec s xe) →
  removed s (set_rpc r n (set_queue (queue_head s) t (set_objs
      (delete x (<[y := set_next ye (pe_next xe)]> (queue_objs s))) a s)))
    (l1 ++ y :: x :: l2) (l1 ++ y :: l2) [(pe_data_version xe, pe_waiting_task xe)].
Proof.
  intros Hq Hy Hx Ht Hr. pose proof Hq as [Hc Htl Hs].
  destruct (chain_unlink _ _ _ _ _ _ _ _ Hc Hy Hx) as [Hc' Hn].
  match goal with |- removed _ ?x _ _ _ => set (s' := x) end.
  assert (∀ l, l1 ++ y :: l = (l1 ++ [y]) ++ l) as Ea by (intros; by rewrite <- app_assoc).
  rewrite (Ea (x :: l2)) in Hq |- *. rewrite (Ea l2) in Hc', Hn |- *.
  destruct (queue_ok_unlink s s' x xe (l1 ++ [y]) l2 Hq Hx) as [Hok HP]; try done.
  - simpl. rewrite Ht, Htl, (Ea (x :: l2)).
    pose proof (chain_NoDup _ _ _ _ (queue_ok_chain _ _ Hq)) as Hnd.
    destruct l2 as [|z l2] using rev_ind.
    + rewrite app_nil_r, !last_snoc. by rewrite decide_True.
    + rewrite app_comm_cons, !app_assoc, !last_snoc.
      rewrite decide_False; [done|]. intros [= ->].
      apply NoDup_app in Hnd as (_ & _ & Hnd). apply NoDup_cons in Hnd as [Hnd _].
      set_solver.
  - split; [done|]. split; [done|]. by apply rpc_settled.
Qed.

Definition notify_of (s : PushContext) (e : PushResultEntry) : list ptr :=
  notified (rpc_dec s e).

Lemma queue_pending_elem objs l v w :
  (v, w) ∈ queue_pending objs l →
  ∃ x e, x ∈ l ∧ objs !! x = Some e ∧ pe_data_version e = v ∧ pe_waiting_task e = w.
Proof.
  unfold queue_pending. rewrite list_elem_of_omap. intros (x & Hx & Hp).
  unfold node_pending in Hp. destruct (objs !! x) as [e|] eqn:E; [|done].
  exists x, e. naive_solver.
Qed.

Lemma rpc_dec_counts s s' e :
  waiting_rpc_count s' = waiting_rpc_count s →
  waiting_rpc_count (rpc_dec s' e) = waiting_rpc_count (rpc_dec s e).
Proof. unfold rpc_dec. intros H. destruct (pe_waiting_task e); simpl; by rewrite H. Qed.

Lemma removed_frame s s1 s2 l l' P :
  removed s s1 l l' P → same_ring s1 s2 → same_queue s1 s2 →
  waiting_rpc_count s2 = waiting_rpc_count s1 → removed s s2 l l' P.
Proof.
  intros (Hok & Hr & HP & HR) Hr2 Hq2 Hw. split_and!.
  - by eapply queue_ok_same.
  - by transitivity s1.
  - split; [by rewrite (pending_same s1 s2)|].
    intros t. rewrite <- HR. unfold rpc. by rewrite Hw.
Qed.

(** The statements that end both branches of [remove_from_queue]. *)
Lemma pop_head_run s h l e :
  queue_ok s (h :: l) → queue_objs s !! h = Some e →
  ∃ s', (modify (set_queue (pe_next e)
                  (match pe_next e with None => None | _ => queue_tail s end));;
         desc_task_waiting_rpc_count e;; free_node h;; mret 0) s = Some (0, s') ∧
    removed s s' (h :: l) l [(pe_data_version e, pe_waiting_task e)].
Proof.
  intros Hq He. step. step. step. eexists. split; [done|].
  set (s1 := set_queue _ _ s). destruct (rpc_dec_same s1 e) as [Hr1 Hq1].
  destruct Hr1 as (R1 & R2 & R3 & R4), Hq1 as (Q1 & Q2 & Q3).
  eapply removed_frame; [eapply (pop_head_ok s h l e None _ [] _ Hq He); done|..].
  - unfold same_ring. simpl. by rewrite R1, R2, R3, R4.
  - unfold same_queue. simpl. by rewrite Q1, Q2, Q3.
  - simpl. by apply rpc_dec_counts.
Qed.

Lemma queue_unlink_run s l1 y x xe l2 :
  queue_ok s (l1 ++ y :: x :: l2) → queue_objs s !! x = Some xe →
  ∃ s', (pe ← load_node y; store_node y (set_next pe (pe_next xe));;
         modify (set_queue (queue_head s)
           (if decide (queue_tail s = Some x) then Some y else queue_tail s));;
         desc_task_waiting_rpc_count xe;; free_node x;; mret 0) s = Some (0, s') ∧
    removed s s' (l1 ++ y :: x :: l2) (l1 ++ y :: l2)
      [(pe_data_version xe, pe_waiting_task xe)].
Proof.
  intros Hq Hx.
  destruct (chain_in_dom _ _ _ _ y (queue_ok_chain _ _ Hq)) as [ye Hy]; [set_solver|].
  step. step. step. step. step. eexists. split; [done|].
  set (t := if decide _ then _ else _).
  set (s1 := set_queue _ _ _). destruct (rpc_dec_same s1 xe) as [Hr1 Hq1].
  destruct Hr1 as (R1 & R2 & R3 & R4), Hq1 as (Q1 & Q2 & Q3).
  eapply removed_frame;
    [eapply (unlink_ok s l1 y ye x xe l2 None _ [] _ Hq Hy Hx); done|..].
  - unfold same_ring. simpl. by rewrite R1, R2, R3, R4.
  - unfold same_queue. simpl. by rewrite Q1, Q2, Q3.
  - simpl. by apply rpc_dec_counts.
Qed.

(** The queue is sorted: a version below the bound is not beyond it. *)
Lemma queue_pending_not_in objs l v w (P : Z → Prop) :
  Forall P (queue_versions objs l) → ¬ P v → (v, w) ∉ queue_pending objs l.
Proof.
  intros H HP Hin. rewrite Forall_forall in H. apply HP, H.
  exact (list_elem_of_fmap_2 fst _ _ Hin).
Qed.

Lemma seek_split (h : ptr) l a b :
  l = a ++ b → ∃ l1 y, h :: a = l1 ++ [y] ∧ default h (last a) = y ∧
    h :: l = l1 ++ y :: b.
Proof.
  intros ->. destruct (exists_last (l := h :: a)) as (l1 & y & E); [done|].
  exists l1, y. split_and!; [done| |].
  - replace a with (tail (l1 ++ [y])) by (by rewrite <- E).
    destruct l1 as [|z l1]; simpl in *; [congruence|]. by rewrite last_snoc.
  - change (h :: a ++ b) with ((h :: a) ++ b). by rewrite E, <- app_assoc.
Qed.

(** Acknowledging a version that waits in the queue. *)
Lemma remove_from_queue_found v w s l :
  queue_ok s l → (v, w) ∈ queue_pending (queue_objs s) l →
  ∃ s' l', remove_from_queue v s = Some (0, s') ∧ removed s s' l l' [(v, w)].
Proof.
  intros Hq Hin. pose proof Hq as [Hc Ht Hs].
  destruct l as [|h l]; [set_solver|].
  apply chain_cons_inv in Hc as Hc'. destruct Hc' as (Eh & he & Hhe & Hcl).
  unfold remove_from_queue. step. rewrite Eh. step.
  rewrite (queue_pending_cons _ _ _ _ Hhe), elem_of_cons in Hin.
  rewrite (queue_versions_cons _ _ _ _ Hhe) in Hs.
  inversion Hs as [|? ? Hs' Hlt]; subst.
  destruct (Z.eqb_spec v (pe_data_version he)) as [->|Hne].
  - destruct Hin as [[= ->]|Hin].
    2:{ by apply (queue_pending_not_in _ _ _ _ _ Hlt) in Hin; [|lia]. }
    destruct (pop_head_run s h l he Hq Hhe) as (s' & Hrun & Hrm). by exists s', l.
  - destruct Hin as [[= ? ?]|Hin]; [done|].
    destruct (queue_seek_run s v h (pe_next he) l (size (queue_objs s)) Hcl Hs')
      as (a & b & El & Hrun & Ha & Hb); [by eapply chain_length|].
    run_with Hrun. cbn beta iota.
    rewrite El, queue_pending_app, elem_of_app in Hin. destruct Hin as [Hin|Hin].
    { by apply (queue_pending_not_in _ _ _ _ _ Ha) in Hin; [|lia]. }
    destruct b as [|x b]; [set_solver|]. simpl.
    destruct (seek_split h l a (x :: b) El) as (l1 & y & _ & -> & El2).
    rewrite El2 in Hq, Hc |- *.
    destruct (chain_in_dom _ _ _ _ x Hc) as [xe Hxe]; [set_solver|].
    rewrite (queue_pending_cons _ _ _ _ Hxe), elem_of_cons in Hin.
    rewrite El, queue_versions_app, (queue_versions_cons _ _ _ _ Hxe) in Hs'.
    rewrite (queue_versions_cons _ _ _ _ Hxe) in Hb.
    assert ((v, w) = (pe_data_version xe, pe_waiting_task xe)) as [= -> ->].
    { destruct Hin as [|Hin]; [done|exfalso].
      apply Forall_cons in Hb as [Hb _].
      apply StronglySorted_app in Hs' as (_ & _ & Hs2).
      inversion Hs2 as [|? ? _ Hx]; subst.
      by apply (queue_pending_not_in _ _ _ _ _ Hx) in Hin; [|lia]. }
    step. rewrite Z.eqb_refl.
    destruct (queue_unlink_run s l1 y x xe b Hq Hxe) as (s' & Hrun' & Hrm).
    rewrite Eh in Hrun'. by exists s', (l1 ++ y :: b).
Qed.

Lemma remove_from_queue_absent v s l :
  queue_ok s l → v ∉ queue_versions (queue_objs s) l →
  remove_from_queue v s = Some (ENOENT, s).
Proof.
  intros Hq Hv. pose proof Hq as [Hc Ht Hs]. unfold remove_from_queue. step.
  destruct l as [|h l]; simpl in Hc; [by rewrite Hc|].
  destruct Hc as (Eh & he & Hhe & Hcl). rewrite Eh. step.
  rewrite (queue_versions_cons _ _ _ _ Hhe) in Hs, Hv.
  rewrite not_elem_of_cons in Hv. destruct Hv as [Hne Hv].
  inversion Hs as [|? ? Hs' Hlt]; subst.
  destruct (Z.eqb_spec v (pe_data_version he)); [done|].
  destruct (queue_seek_run s v h (pe_next he) l (size (queue_objs s)) Hcl Hs')
    as (a & b & El & Hrun & Ha & Hb); [by eapply chain_length|].
  run_with Hrun. cbn beta iota. destruct b as [|x b]; [done|]. simpl.
  destruct (chain_in_dom _ _ _ _ x Hcl) as [xe Hxe]; [rewrite El; set_solver|].
  step. rewrite El, queue_versions_app, (queue_versions_cons _ _ _ _ Hxe) in Hv.
  destruct (Z.eqb_spec v (pe_data_version xe)); [set_solver|done].
Qed.

(** *** Emptying the queue *)

Lemma removed_trans s1 s2 s3 l1 l2 l3 P Q :
  removed s1 s2 l1 l2 P → removed s2 s3 l2 l3 Q → removed s1 s3 l1 l3 (P ++ Q).
Proof.
  intros (? & ? & ?) (? & ? & ?). split_and!;
    [done|by transitivity s2|by eapply settled_trans].
Qed.

Lemma removed_refl s l : queue_ok s l → removed s s l l [].
Proof. intros. split_and!; [done|done|apply settled_refl]. Qed.

(** The state of the loops that free nodes: the queue starts at [cur], whatever
    the head and tail fields still say. *)
Definition queue_from (cur : option ptr) (l : list ptr) (s : PushContext) : PushContext :=
  set_queue cur (last l) s.

Lemma pop_loop_step s cur h l e :
  queue_ok (queue_from cur (h :: l) s) (h :: l) → queue_objs s !! h = Some e →
  let s1 := set_objs (delete h (queue_objs (rpc_dec s e)))
              (S <$> queue_avail (rpc_dec s e)) (rpc_dec s e) in
  removed (queue_from cur (h :: l) s) (queue_from (pe_next e) l s1) (h :: l) l
    [(pe_data_version e, pe_waiting_task e)].
Proof.
  intros Hq He s1. pose proof (queue_ok_chain _ _ Hq) as Hc.
  apply chain_cons_inv in Hc as (_ & e' & He' & Hcl). simpl in He'. simplify_eq.
  destruct (rpc_dec_same s e) as [(R1 & R2 & R3 & R4) (Q1 & Q2 & Q3)].
  eapply removed_frame;
    [eapply (pop_head_ok _ h l e None _ [] _ Hq); [done|reflexivity|reflexivity]|..].
  - unfold same_ring. simpl. by rewrite R1, R2, R3, R4.
  - unfold same_queue. simpl. rewrite Q3. split_and!; [done| |done].
    destruct l as [|y l]; simpl in Hcl; [by rewrite Hcl|].
    destruct Hcl as [-> _]. by rewrite last_cons_cons.
  - simpl. symmetry. by apply rpc_dec_counts.
Qed.

Lemma clear_queue_loop_run s cur l fuel :
  queue_ok (queue_from cur l s) l → (length l ≤ fuel)%nat →
  ∃ s' P, clear_queue_loop fuel cur s = Some ((), s') ∧
    removed (queue_from cur l s) (queue_from None [] s') l [] P.
Proof.
  revert s cur l. induction fuel as [|fuel IH]; intros s cur l Hq Hf;
    pose proof (queue_ok_chain _ _ Hq) as Hc; destruct l as [|h l];
    try (simpl in Hf; lia); simpl in Hc;
    try (rewrite Hc in *; exists s, []; split; [done|by apply removed_refl]).
  destruct Hc as (-> & e & He & Hc). cbn [clear_queue_loop].
  step. step. step.
  pose proof (pop_loop_step s (Some h) h l e Hq He) as Hrm. simpl in Hrm.
  destruct (IH _ (pe_next e) l (proj1 Hrm)) as (s' & P & Hrun & Hrm');
    [simpl in Hf; lia|].
  exists s'. eexists. split; [exact Hrun|]. by eapply removed_trans.
Qed.

Lemma clear_queue_timeouts_loop_run now s cur l fuel n :
  queue_ok (queue_from cur l s) l → (length l ≤ fuel)%nat →
  ∃ s' a l' m P, clear_queue_timeouts_loop now fuel cur n s = Some ((head l', m), s') ∧
    l = a ++ l' ∧ queue_tail s' = queue_tail s ∧
    removed (queue_from cur l s) (queue_from (head l') l' s') l l' P.
Proof.
  revert s cur l n. induction fuel as [|fuel IH]; intros s cur l n Hq Hf;
    pose proof (queue_ok_chain _ _ Hq) as Hc; destruct l as [|h l];
    try (simpl in Hf; lia); simpl in Hc;
    try (rewrite Hc in *; exists s, [], [], n, []; split_and!;
         [done|done|done|by apply removed_refl]).
  destruct Hc as (-> & e & He & Hc). cbn [clear_queue_timeouts_loop]. step.
  destruct (Z.ltb_spec (pe_expires e) now) as [Hex|Hex].
  2:{ exists s, [], (h :: l), n, []. split_and!; [done|done|done|by apply removed_refl]. }
  step. step.
  pose proof (pop_loop_step s (Some h) h l e Hq He) as Hrm. simpl in Hrm.
  destruct (IH _ (pe_next e) l (n + 1) (proj1 Hrm))
    as (s' & a & l' & m & P & Hrun & -> & Ht & Hrm'); [simpl in Hf; lia|].
  exists s', (h :: a), l', m. eexists. split_and!; [exact Hrun|done| |].
  - rewrite Ht. simpl. by destruct (rpc_dec_same s e) as [_ (_ & -> & _)].
  - by eapply removed_trans.
Qed.

Lemma queue_from_id s l : queue_tail s = last l → queue_from (queue_head s) l s = s.
Proof. unfold queue_from. intros <-. by destruct s. Qed.

Lemma clear_queue_all_run s l :
  queue_ok s l →
  ∃ s' P, push_result_ring_clear_queue_all s = Some ((), s') ∧ removed s s' l [] P.
Proof.
  intros Hq. pose proof Hq as [Hc Ht Hs]. unfold push_result_ring_clear_queue_all. step.
  destruct (queue_head s) as [h|] eqn:Eh.
  - pose proof Hq as Hq'. rewrite <- (queue_from_id s l Ht) in Hq'. rewrite Eh in Hq'.
    destruct (clear_queue_loop_run s (Some h) l (size (queue_objs s)) Hq')
      as (s' & P & Hrun & Hrm); [by eapply chain_length|].
    rewrite <- Eh, queue_from_id in Hrm by done.
    exists (queue_from None [] s'), P. split; [|done]. by run_with Hrun.
  - destruct l as [|x l]; [|by destruct Hc]. exists s, []. split; [done|].
    by apply removed_refl.
Qed.

Lemma clear_queue_timeouts_run now s l :
  queue_ok s l →
  ∃ s' l' n P, push_result_ring_clear_queue_timeouts now s = Some (n, s') ∧
    removed s s' l l' P.
Proof.
  intros Hq. pose proof Hq as [Hc Ht Hs].
  unfold push_result_ring_clear_queue_timeouts. step.
  destruct (queue_head s) as [h|] eqn:Eh.
  2:{ exists s, l, 0, []. split; [done|by apply removed_refl]. }
  destruct l as [|x l]; [done|]. pose proof Hc as ([= ->] & e & He & _). step.
  destruct (Z.leb_spec now (pe_expires e)).
  { exists s, (x :: l), 0, []. split; [done|by apply removed_refl]. }
  pose proof Hq as Hq'. rewrite <- (queue_from_id s _ Ht) in Hq'. rewrite Eh in Hq'.
  destruct (clear_queue_timeouts_loop_run now s (Some x) (x :: l) (size (queue_objs s)) 0 Hq')
    as (s' & a & l' & m & P & Hrun & El & Ht' & Hrm); [by eapply chain_length|].
  rewrite <- Eh, queue_from_id in Hrm by done.
  run_with Hrun. cbn beta iota. step.
  eexists _, l', m, P. split; [done|].
  eapply removed_frame; [exact Hrm|done| |done].
  unfold same_queue. simpl. split_and!; [done| |done].
  destruct l' as [|y l']; [done|]. simpl. by rewrite Ht', Ht, El, last_app_cons.
Qed.

(** ** Properties of the operations *)

Lemma pending_elem_NoDup s l v w :
  NoDup (pending s l).*1 → (v, w) ∈ pending s l →
  ∀ w', (v, w') ∈ pending s l → w' = w.
Proof.
  intros Hnd H1 w' H2.
  apply list_elem_of_lookup in H1 as [i Hi], H2 as [j Hj].
  assert (i = j) as ->; [|congruence].
  eapply NoDup_lookup; [exact Hnd| |]; rewrite list_lookup_fmap.
  - by rewrite Hi.
  - by rewrite Hj.
Qed.

Lemma ring_pending_slot es i e :
  es !! i = Some e → pe_data_version e ≠ 0 →
  (pe_data_version e, pe_waiting_task e) ∈ ring_pending es.
Proof.
  intros Hi Hv. apply list_elem_of_bind. exists e. split.
  - unfold live. destruct (Z.eqb_spec (pe_data_version e) 0); [done|set_solver].
  - by eapply list_elem_of_lookup_2.
Qed.

Lemma window_index size base j :
  0 < size → 0 ≤ j < size → ∃ i, 0 ≤ i < size ∧ (base + i) `mod` size = j.
Proof.
  intros Hs Hj. exists ((j - base) `mod` size).
  split; [by apply Z.mod_pos_bound|].
  rewrite Z.add_mod_idemp_r by lia. replace (base + (j - base)) with j by lia.
  by apply Z.mod_small.
Qed.

(** A pending version of the ring is in its own slot, inside the window. *)
Lemma ring_pending_elem s base cnt v w :
  ring_ok s base cnt → (v, w) ∈ ring_pending (ring_entries s) →
  ∃ i e, 0 ≤ i < cnt ∧ v = base + i ∧ 0 < v ∧
    ring_entries s !! Z.to_nat (v `mod` ring_size s) = Some e ∧
    pe_data_version e = v ∧ pe_waiting_task e = w.
Proof.
  intros [Hl Hb Hc Hst Hen Hw] Hin.
  apply list_elem_of_bind in Hin as (e & Hin & He).
  unfold live in Hin. destruct (Z.eqb_spec (pe_data_version e) 0); [set_solver|].
  apply list_elem_of_singleton in Hin as [= -> ->].
  apply list_elem_of_lookup in He as [j Hj]. pose proof (lookup_lt_Some _ _ _ Hj).
  destruct (window_index (ring_size s) base (Z.of_nat j)) as (i & Hi & Hij);
    [lia|lia|].
  destruct (Hw i Hi) as (e' & He' & Hd). rewrite Hij, Nat2Z.id in He'. simplify_eq.
  destruct Hd as [(? & Hv & ?)|[? _]]; [|done].
  exists i, e. rewrite Hv, Hij, Nat2Z.id. split_and!; try done; lia.
Qed.

(** The loop that skips acknowledged slots, seen from [push_result_ring_remove]. *)
Lemma remove_first_run s base cnt e :
  ring_ok s base cnt → 0 < cnt →
  ring_entries s !! Z.to_nat (base `mod` ring_size s) = Some e →
  ∃ k, 1 ≤ k ≤ cnt ∧
    (modify (set_start ((base `mod` ring_size s + 1) `mod` ring_size s));;
     advance_start_loop (Z.to_nat (ring_size s)) (base `mod` ring_size s + 1)) s
      = Some ((), set_start ((base + k) `mod` ring_size s) s) ∧
    ∀ i, 1 ≤ i < k → ∃ e,
      ring_entries s !! Z.to_nat ((base + i) `mod` ring_size s) = Some e ∧ free_slot e.
Proof.
  intros [Hl Hb Hc Hst Hen Hw] Hpos He.
  step. rewrite slot_succ by lia.
  destruct (advance_start_run (set_start ((base + 1) `mod` ring_size s) s) base cnt 1
    (base `mod` ring_size s + 1) (Z.to_nat (ring_size s)))
    as (k & Hk & Hrun & Hf); simpl; try done; try lia.
  - apply slot_succ. lia.
  - exists k. split_and!; [lia|lia|exact Hrun|exact Hf].
Qed.

Lemma remove_ring_ok s base cnt i e k :
  ring_ok s base cnt → 0 ≤ i < cnt →
  ring_entries s !! Z.to_nat ((base + i) `mod` ring_size s) = Some e →
  (k = 0 ∨ i = 0 ∧ 1 ≤ k ≤ cnt ∧ ∀ j, 1 ≤ j < k → ∃ e,
      ring_entries s !! Z.to_nat ((base + j) `mod` ring_size s) = Some e ∧ free_slot e) →
  ring_ok (set_start ((base + k) `mod` ring_size s)
    (set_entries (<[Z.to_nat ((base + i) `mod` ring_size s) := clear_entry e]>
       (ring_entries s)) (rpc_dec s e))) (base + k) (cnt - k).
Proof.
  intros [Hl Hb Hc Hst Hen Hw] Hi He Hk.
  destruct (rpc_dec_frame s e) as (E1 & E2 & E3 & E4 & _).
  assert (window (<[Z.to_nat ((base + i) `mod` ring_size s) := clear_entry e]>
            (ring_entries s)) (ring_size s) base cnt) as Hw'.
  { apply window_store with cnt; [done|done|lia|by right|by left]. }
  split; simpl; rewrite ?length_insert, ?E3, ?E4; try done; try lia.
  - rewrite Hen. f_equal. lia.
  - apply window_advance; [done|lia|lia|]. intros j Hj.
    destruct Hk as [->|(-> & Hk & Hf)]; [lia|].
    destruct (decide (j = 0)) as [->|].
    + exists (clear_entry e). split; [|done]. apply list_lookup_insert_eq.
      pose proof (slot_lt (ring_size s) (base + 0) ltac:(lia)). lia.
    + destruct (Hf j ltac:(lia)) as (e' & He' & ?). exists e'. split; [|done].
      rewrite list_lookup_insert_ne; [done|]. intros Heq.
      pose proof (slot_lt (ring_size s) (base + 0) ltac:(lia)).
      pose proof (slot_lt (ring_size s) (base + j) ltac:(lia)).
      assert (0 = j) by (apply (slot_inj (ring_size s) base); lia). lia.
Qed.

Lemma settled_NoDup s s' l l' P :
  settled s s' l l' P → NoDup (pending s l).*1 → NoDup (pending s' l').*1.
Proof.
  intros [HP _]. rewrite HP, fmap_app. intros H. by apply NoDup_app in H as (_ & _ & H).
Qed.

Lemma push_rep_removed s s' base cnt l l' P :
  push_rep s base cnt l → removed s s' l l' P → push_rep s' base cnt l'.
Proof.
  intros [Hr Hq Hnd] (Hq' & Hs & Hst). split.
  - by eapply ring_ok_same.
  - done.
  - by eapply settled_NoDup.
Qed.

(** Clearing the slot of a pending version settles exactly that version. *)
Lemma clear_slot_settled s i e l st :
  ring_entries s !! i = Some e → pe_data_version e ≠ 0 →
  let s' := set_start st (set_entries (<[i := clear_entry e]> (ring_entries s)) (rpc_dec s e)) in
  settled s s' l l [(pe_data_version e, pe_waiting_task e)] ∧ same_queue s s'.
Proof.
  intros Hi Hv s'. destruct (rpc_dec_same s e) as [_ Hq]. split; [|done].
  apply rpc_settled; [done|]. unfold pending. simpl.
  destruct Hq as (_ & _ & ->).
  pose proof (ring_pending_insert _ _ _ (clear_entry e) Hi) as HP.
  assert (live e = [(pe_data_version e, pe_waiting_task e)]) as El
    by (unfold live; by destruct (Z.eqb_spec (pe_data_version e) 0)).
  rewrite El in HP. rewrite app_comm_cons. apply Permutation_app_tail.
  rewrite live_clear in HP. simpl in HP. rewrite <- HP.
  symmetry. apply Permutation_cons_append.
Qed.

Lemma ring_not_empty s base cnt :
  ring_ok s base cnt → 0 < cnt → (ring_start s =? ring_end s) = false.
Proof.
  intros [_ _ Hc Hst Hen _] Hp. rewrite Hst, Hen. rewrite <- (Z.add_0_r base) at 1.
  rewrite start_eq_end by lia. apply Z.eqb_neq. lia.
Qed.

Lemma ring_empty s base cnt :
  ring_ok s base cnt → ring_start s = ring_end s → cnt = 0.
Proof.
  intros Hr He. pose proof (ring_ok_cnt _ _ _ Hr).
  destruct (decide (0 < cnt)) as [Hp|]; [|lia].
  apply (ring_not_empty _ _ _ Hr) in Hp. by rewrite He, Z.eqb_refl in Hp.
Qed.

Lemma slot_entry s base cnt v :
  ring_ok s base cnt →
  ∃ e, ring_entries s !! Z.to_nat (v `mod` ring_size s) = Some e.
Proof.
  intros [Hl _ Hc _ _ _]. apply lookup_lt_is_Some.
  pose proof (slot_lt (ring_size s) v ltac:(lia)). lia.
Qed.

Lemma rpc_dec_set_start i s e : rpc_dec (set_start i s) e = set_start i (rpc_dec s e).
Proof. unfold rpc_dec. by destruct (pe_waiting_task e). Qed.

(** The statements [push_result_ring_remove] runs when the slot has the version. *)
Lemma remove_slot_run s base cnt v i e l :
  ring_ok s base cnt → 0 ≤ i < cnt → v = base + i → pe_data_version e = v → 0 < v →
  ring_entries s !! Z.to_nat (v `mod` ring_size s) = Some e →
  ∃ s' k,
    ((if ring_start s =? v `mod` ring_size s then
        modify (set_start ((v `mod` ring_size s + 1) `mod` ring_size s));;
        advance_start_loop (Z.to_nat (ring_size s)) (v `mod` ring_size s + 1)
      else mret ());;
     desc_task_waiting_rpc_count e;;
     store_slot (v `mod` ring_size s) (clear_entry e);; mret 0) s = Some (0, s') ∧
    ring_ok s' (base + k) (cnt - k) ∧ same_queue s s' ∧
    settled s s' l l [(v, pe_waiting_task e)].
Proof.
  intros Hr Hi Hv Hev Hv0 He. pose proof Hr as [Hl Hb Hc Hst Hen Hw].
  assert (∃ k, (k = 0 ∨ i = 0 ∧ 1 ≤ k ≤ cnt ∧ ∀ j, 1 ≤ j < k → ∃ e,
      ring_entries s !! Z.to_nat ((base + j) `mod` ring_size s) = Some e ∧ free_slot e) ∧
     (if ring_start s =? v `mod` ring_size s then
          modify (set_start ((v `mod` ring_size s + 1) `mod` ring_size s));;
          advance_start_loop (Z.to_nat (ring_size s)) (v `mod` ring_size s + 1)
        else mret ()) s = Some ((), set_start ((base + k) `mod` ring_size s) s))
    as (k & Hk & Hrun).
  { destruct (Z.eqb_spec (ring_start s) (v `mod` ring_size s)) as [Eb|Eb].
    - rewrite Hst, Hv in Eb. rewrite <- (Z.add_0_r base) in Eb at 1.
      apply slot_inj in Eb; [|lia|lia]. subst i.
      rewrite Z.add_0_r in Hv. rewrite Hv in He |- *.
      destruct (remove_first_run s base cnt e Hr) as (k & Hk & Hrun & Hf); [lia|done|].
      exists k. split; [by right|done].
    - exists 0. split; [by left|]. by rewrite Z.add_0_r, <- Hst, set_start_id. }
  destruct (clear_slot_settled s _ e l ((base + k) `mod` ring_size s) He) as [Hset Hsq];
    [lia|].
  run_with Hrun. step. rewrite rpc_dec_set_start.
  destruct (rpc_dec_frame s e) as (E1 & _).
  erewrite bind_run; [|eapply store_slot_run; simpl; rewrite E1; exact He].
  eexists _, k. split; [done|]. simpl. rewrite E1. rewrite Hev in Hset.
  split_and!; [|exact Hsq|exact Hset].
  rewrite Hv in He |- *. by apply remove_ring_ok.
Qed.

(** [C31] An acknowledgement of a pending version returns 0, leaves a well-formed
    context, removes exactly that version from the pending set and decrements
    the RPC counter of exactly the task that waited for it. *)
Theorem push_result_ring_remove_pending s base cnt l v w :
  push_rep s base cnt l → 0 < v → (v, w) ∈ pending s l →
  ∃ s' base' cnt' l', push_result_ring_remove v s = Some (0, s') ∧
    push_rep s' base' cnt' l' ∧ settled s s' l l' [(v, w)].
Proof.
  intros Hrep Hv0 Hin. pose proof Hrep as [Hr Hq Hnd].
  unfold push_result_ring_remove. step. rewrite Z.eqb_sym.
  apply elem_of_app in Hin as [Hin|Hin].
  - destruct (ring_pending_elem _ _ _ _ _ Hr Hin) as (i & e & Hi & Hv & _ & He & Hev & <-).
    rewrite (ring_not_empty s base cnt Hr) by lia. simpl. step. rewrite Hev, Z.eqb_refl.
    destruct (remove_slot_run s base cnt v i e l Hr Hi Hv Hev Hv0 He)
      as (s' & k & Hrun & Hr' & Hsq & Hset).
    exists s', (base + k), (cnt - k), l. split_and!; [done| |done].
    split; [done|by eapply queue_ok_same|by eapply settled_NoDup].
  - destruct (remove_from_queue_found v w s l Hq Hin) as (s' & l' & Hrun & Hrm).
    exists s', base, cnt, l'. split_and!; [|by eapply push_rep_removed|apply Hrm].
    destruct (ring_start s =? ring_end s); simpl; [done|].
    destruct (slot_entry _ _ _ v Hr) as (e & He). step.
    destruct (Z.eqb_spec (pe_data_version e) v) as [Ev|]; [exfalso|done].
    apply ring_pending_slot in He; [|lia]. unfold pending in Hnd.
    rewrite fmap_app in Hnd. apply NoDup_app in Hnd as (_ & Hd & _).
    apply (Hd v); [rewrite <- Ev|]; [exact (list_elem_of_fmap_2 fst _ _ He)|
                                     exact (list_elem_of_fmap_2 fst _ _ Hin)].
Qed.

(** An acknowledgement of a version that is not pending is refused with
    ENOENT and changes nothing. *)
Theorem push_result_ring_remove_absent s base cnt l v :
  push_rep s base cnt l → 0 < v → v ∉ (pending s l).*1 →
  push_result_ring_remove v s = Some (ENOENT, s).
Proof.
  intros [Hr Hq Hnd] Hv0 Hv. unfold pending in Hv.
  rewrite fmap_app, not_elem_of_app in Hv. destruct Hv as [Hv1 Hv2].
  unfold push_result_ring_remove. step.
  destruct (ring_end s =? ring_start s); simpl; [by eapply remove_from_queue_absent|].
  destruct (slot_entry _ _ _ v Hr) as (e & He). step.
  destruct (Z.eqb_spec (pe_data_version e) v) as [Ev|];
    [exfalso|by eapply remove_from_queue_absent].
  apply Hv1. rewrite <- Ev. apply ring_pending_slot in He; [|lia].
  exact (list_elem_of_fmap_2 fst _ _ He).
Qed.

(** Clearing the context settles every pending version: nothing stays
    pending and every waiting task's counter drops by the versions it waited
    for. *)
Theorem push_result_ring_clear_all_settles s base cnt l :
  push_rep s base cnt l →
  ∃ s' base' R, push_result_ring_clear_all s = Some ((), s') ∧
    push_rep s' base' 0 [] ∧ pending s' [] = [] ∧ settled s s' l [] R ∧
    R ≡ₚ pending s l.
Proof.
  intros Hrep. pose proof Hrep as [Hr Hq Hnd].
  assert (∃ s1 base1 R1, (if ring_start s =? ring_end s then mret () else
      clear_ring_loop (Z.to_nat (ring_size s)) (ring_start s)) s = Some ((), s1) ∧
    ring_ok s1 base1 0 ∧ same_queue s s1 ∧ settled s s1 l l R1)
    as (s1 & base1 & R1 & Hrun1 & Hr1 & Hq1 & Hs1).
  { destruct (Z.eqb_spec (ring_start s) (ring_end s)) as [Ee|Ee].
    - exists s, base, []. rewrite (ring_empty _ _ _ Hr Ee) in Hr.
      by split_and!; [..|apply settled_refl].
    - pose proof Hr as [Hl Hb Hc Hst Hen Hw].
      destruct (clear_ring_run s base cnt (ring_start s) (Z.to_nat (ring_size s)) l Hr)
        as (s1 & R & Hrun & Hr1 & Hq1 & Hs1); [|lia|by exists s1, (base + cnt), R].
      rewrite Hst. apply Z.mod_mod. lia. }
  destruct (clear_queue_all_run s1 l) as (s2 & P & Hrun2 & Hq2 & Hr2 & Hs2);
    [by eapply queue_ok_same|].
  assert (ring_ok s2 base1 0) as Hr2' by (by eapply ring_ok_same).
  pose proof (settled_trans _ _ _ _ _ _ _ _ Hs1 Hs2) as Hs.
  assert (pending s2 [] = []) as Hp.
  { unfold pending. rewrite app_nil_r. destruct (ring_pending (ring_entries s2))
      as [|[v w] r] eqn:E; [done|exfalso].
    destruct (ring_pending_elem s2 base1 0 v w Hr2') as (i & _ & ? & _);
      [rewrite E; set_solver|lia]. }
  exists s2, base1, (R1 ++ P). split_and!; [|split|done|done|].
  - unfold push_result_ring_clear_all. step.
    destruct (ring_start s =? ring_end s); [by injection Hrun1 as <-|by run_with Hrun1].
  - done.
  - done.
  - by eapply settled_NoDup.
  - destruct Hs as [HP _]. by rewrite HP, Hp, app_nil_r.
Qed.

(** *** Adding a range of versions *)

Lemma queue_add_loop_run now timeout n v s l :
  queue_ok s l → queue_avail s = None →
  (∀ x, v ≤ x < v + Z.of_nat n → x ∉ queue_versions (queue_objs s) l) →
  ∃ s', queue_add_loop now timeout n v s = Some (0, s') ∧
    queued s s' l (versions v n).
Proof.
  revert v s l. induction n as [|n IH]; intros v s l Hq Ha Hv; cbn [queue_add_loop].
  - exists s. split; [done|]. exists l. by split_and!.
  - destruct (add_to_queue_run now timeout v None s l Hq) as [[? _]|(s1 & Hrun & Hqd)];
      [apply Hv; lia|congruence|].
    run_with Hrun. cbn beta iota. simpl.
    destruct Hqd as (l1 & Hq1 & Hr1 & HP1 & Hw1 & Hn1 & Ha1).
    assert (queue_pending (queue_objs s1) l1
            ≡ₚ (v, None) :: queue_pending (queue_objs s) l) as HPq.
    { destruct Hr1 as (E1 & _). unfold pending in HP1. rewrite E1 in HP1. simpl in HP1.
      rewrite Permutation_middle in HP1. by apply Permutation_app_inv_l in HP1. }
    destruct (IH (v + 1) s1 l1 Hq1 (Ha1 Ha)) as (s' & Hrun' & Hqd').
    { intros x Hx. rewrite HPq. simpl. rewrite not_elem_of_cons.
      split; [lia|]. apply Hv. lia. }
    exists s'. split; [done|].
    destruct Hqd' as (l' & Hq' & Hr' & HP' & Hw' & Hn' & Ha').
    exists l'. split_and!; [done|by transitivity s1| |congruence|congruence|auto].
    rewrite HP', HP1. simpl. symmetry. apply Permutation_middle.
Qed.

Lemma versions_keys v n x : x ∈ (versions v n).*1 ↔ v ≤ x < v + Z.of_nat n.
Proof.
  revert v. induction n as [|n IH]; intros v; simpl.
  - split; [set_solver|lia].
  - rewrite elem_of_cons, IH. lia.
Qed.

Lemma versions_NoDup v n : NoDup (versions v n).*1.
Proof.
  revert v. induction n as [|n IH]; intros v; simpl; [constructor|].
  constructor; [|done]. rewrite versions_keys. lia.
Qed.

(** All the versions of a range: the last one carries the waiting task. *)
Definition range (first last : Z) (w : option ptr) : list (Z * option ptr) :=
  (last, w) :: versions first (Z.to_nat (last - first)).

Lemma range_keys first last w x :
  first ≤ last → x ∈ (range first last w).*1 ↔ first ≤ x ≤ last.
Proof. intros. unfold range. simpl. rewrite elem_of_cons, versions_keys. lia. Qed.

Lemma range_NoDup first last w : first ≤ last → NoDup (range first last w).*1.
Proof.
  intros. unfold range. simpl. constructor; [|apply versions_NoDup].
  rewrite versions_keys. lia.
Qed.

(** The context after a range was added. *)
Definition added (s s' : PushContext) (l : list ptr) (P : list (Z * option ptr)) :=
  ∃ base cnt l', push_rep s' base cnt l' ∧ pending s' l' ≡ₚ P ++ pending s l ∧
    waiting_rpc_count s' = waiting_rpc_count s ∧ notified s' = notified s.

(** The statements of the matched branch, on a ring whose window ends just
    before [first]. *)
Lemma ring_fill_run now timeout s base cnt first last w :
  window (ring_entries s) (ring_size s) base cnt →
  Z.of_nat (length (ring_entries s)) = ring_size s → 0 ≤ cnt →
  first = base + cnt → 0 < first ≤ last → cnt + (last - first + 1) < ring_size s →
  ∃ es', (ring_add_loop now timeout (Z.to_nat (last - first)) first;;
     e ← load_slot (last `mod` ring_size s);
     store_slot (last `mod` ring_size s)
       (mkPushResultEntry last (now + timeout) w (pe_next e));; mret 0) s
      = Some (0, set_entries es' s) ∧
    window es' (ring_size s) base (cnt + (last - first + 1)) ∧
    length es' = length (ring_entries s) ∧
    ring_pending es' ≡ₚ range first last w ++ ring_pending (ring_entries s).
Proof.
  intros Hw Hl Hc Hf Hfl Hfit. set (n := Z.to_nat (last - first)).
  destruct (ring_add_loop_run now timeout n s base cnt Hw Hl)
    as (es1 & Hrun & Hw1 & Hl1 & HP1); [lia|lia|lia|].
  rewrite <- Hf in Hrun, HP1. run_with Hrun.
  assert (last = base + (cnt + Z.of_nat n)) as El by lia.
  destruct (fill_slot es1 (ring_size s) base (cnt + Z.of_nat n) (now + timeout) w)
    as (e & He & _ & Hw2 & Hl2 & HP2); [done|by rewrite Hl1|lia|lia|].
  rewrite <- El in He, Hw2, Hl2, HP2.
  erewrite bind_run; [|by apply load_slot_run; exact He].
  erewrite bind_run; [|by eapply store_slot_run; exact He].
  eexists. split; [done|]. simpl. split_and!.
  - by replace (cnt + (last - first + 1)) with (cnt + Z.of_nat n + 1) by lia.
  - by rewrite Hl2.
  - by rewrite HP2, HP1.
Qed.

Lemma ring_filled s es' st en base cnt cnt' l P :
  push_rep s base cnt l → 0 ≤ st → 0 ≤ cnt' < ring_size s →
  window es' (ring_size s) st cnt' → length es' = length (ring_entries s) →
  ring_pending es' ≡ₚ P ++ ring_pending (ring_entries s) →
  NoDup P.*1 → (∀ x, x ∈ P.*1 → x ∉ (pending s l).*1) →
  en = (st + cnt') `mod` ring_size s →
  added s (set_ring es' (st `mod` ring_size s) en (ring_size s) s) l P.
Proof.
  intros [[Hl Hb Hc Hst Hen Hw] Hq Hnd] Hst' Hc' Hw' Hl' HP HndP Hfresh Hen'.
  assert (pending (set_ring es' (st `mod` ring_size s) en (ring_size s) s) l
          ≡ₚ P ++ pending s l) as HPp
    by (unfold pending; simpl; by rewrite HP, app_assoc).
  exists st, cnt', l. split_and!; [split|done|done|done].
  - split; simpl; try done; lia.
  - eapply queue_ok_same, Hq. done.
  - rewrite HPp, fmap_app. apply NoDup_app. split_and!; [done| |done].
    intros x Hx. by apply Hfresh.
Qed.

Lemma queued_added s s' base cnt l P :
  push_rep s base cnt l → queued s s' l P → NoDup P.*1 →
  (∀ x, x ∈ P.*1 → x ∉ (pending s l).*1) → added s s' l P.
Proof.
  intros [Hr Hq Hnd] (l' & Hq' & Hsr & HP & Hw & Hn & _) HndP Hf.
  exists base, cnt, l'. split_and!; [split|done|done|done].
  - by eapply ring_ok_same.
  - done.
  - rewrite HP, fmap_app. apply NoDup_app. by split_and!.
Qed.

(** The branch for a range the ring does not take. *)
Lemma queue_range_run now timeout s base cnt l first last w :
  push_rep s base cnt l → first ≤ last → queue_avail s = None →
  (∀ x, first ≤ x ≤ last → x ∉ (pending s l).*1) →
  ∃ s', (result ← queue_add_loop now timeout (Z.to_nat (last - first)) first;
         if result =? 0 then add_to_queue now timeout last w else mret result) s
        = Some (0, s') ∧ added s s' l (range first last w).
Proof.
  intros Hrep Hfl Ha Hf. pose proof Hrep as [Hr Hq Hnd].
  assert (∀ x, first ≤ x ≤ last → x ∉ queue_versions (queue_objs s) l) as Hfq.
  { intros x Hx Hin. apply (Hf x Hx). unfold pending. rewrite fmap_app. set_solver. }
  destruct (queue_add_loop_run now timeout (Z.to_nat (last - first)) first s l Hq Ha)
    as (s1 & Hrun1 & l1 & Hq1 & Hr1 & HP1 & Hw1 & Hn1 & Ha1);
    [intros; apply Hfq; lia|].
  run_with Hrun1. cbn beta iota. simpl.
  assert (queue_pending (queue_objs s1) l1 ≡ₚ
          versions first (Z.to_nat (last - first)) ++ queue_pending (queue_objs s) l)
    as HPq.
  { destruct Hr1 as (E1 & _). unfold pending in HP1. rewrite E1 in HP1.
    rewrite (Permutation_app_comm (versions _ _)), <- app_assoc in HP1.
    apply Permutation_app_inv_l in HP1. rewrite HP1. apply Permutation_app_comm. }
  destruct (add_to_queue_run now timeout last w s1 l1 Hq1)
    as [[? _]|(s2 & Hrun2 & l2 & Hq2 & Hr2 & HP2 & Hw2 & Hn2 & Ha2)].
  - rewrite HPq, fmap_app, not_elem_of_app, versions_keys.
    split; [lia|apply Hfq; lia].
  - specialize (Ha1 Ha). congruence.
  - exists s2. split; [done|]. eapply queued_added; [done| |by apply range_NoDup|].
    + exists l2. split_and!; [done|by transitivity s1| |congruence|congruence|auto].
      by rewrite HP2, HP1.
    + intros x Hx. apply Hf. by rewrite range_keys in Hx.
Qed.

Lemma int32_count first last : 0 ≤ last - first < 2 ^ 31 → int32 (last - first) = last - first.
Proof. intros. apply int32_small. unfold is_int32. lia. Qed.

(** A non-empty ring takes a range only right after its window. *)
Lemma matched_first s base cnt first e :
  ring_ok s base cnt → 0 < cnt → base < first →
  first `mod` ring_size s = ring_end s →
  ring_entries s !! Z.to_nat ((first `mod` ring_size s + ring_size s - 1)
                                `mod` ring_size s) = Some e →
  first = pe_data_version e + 1 → first = base + cnt.
Proof.
  intros [Hl Hb Hc Hst Hen Hw] Hpos Hbf Hix He Hv.
  destruct (Hw (cnt - 1)) as (e' & He' & Hd); [lia|].
  rewrite Hix, Hen in He.
  replace ((base + cnt) `mod` ring_size s + ring_size s - 1)
    with ((base + cnt) `mod` ring_size s + (-1) + 1 * ring_size s) in He by lia.
  rewrite Z.mod_add, Z.add_mod_idemp_l in He by lia.
  replace (base + cnt + -1) with (base + (cnt - 1)) in He by lia. simplify_eq.
  destruct Hd as [(_ & Hd & _)|[Hd _]]; [lia|].
  assert (base = 0) as -> by lia. rewrite Hd in Hix.
  rewrite Hen, !Z.add_0_l, (Z.mod_small cnt) in Hix by lia.
  destruct (decide (ring_size s = 1)); [lia|].
  rewrite Z.mod_small in Hix by lia. lia.
Qed.

(** An empty ring can start anywhere. *)
Lemma window_shift_empty es size base base' :
  window es size base 0 → window es size base' 0.
Proof.
  intros Hw i Hi. destruct (window_index size base ((base' + i) `mod` size))
    as (j & Hj & Ej); [lia|by apply Z.mod_pos_bound; lia|].
  destruct (Hw j Hj) as (e & He & [?|Hd]); [lia|]. rewrite Ej in He.
  exists e. by split; [|right].
Qed.

(** Adding a fresh range of versions to a context whose ring has room for
    it returns 0, keeps the context well formed, and makes exactly the versions
    of the range pending, the last one with the waiting task; a single version
    needs no room, since it goes to the queue when the ring is full. *)
Theorem push_result_ring_add_range now timeout s base cnt l first last w :
  push_rep s base cnt l → 0 < first ≤ last → last - first < 2 ^ 31 →
  queue_avail s = None → (0 < cnt → base < first) →
  cnt + (last - first + 1) < ring_size s ∨ first = last ∧ 1 < ring_size s →
  (∀ x, first ≤ x ≤ last → x ∉ (pending s l).*1) →
  ∃ s', push_result_ring_add now timeout first last w s = Some (0, s') ∧
        added s s' l (range first last w).
Proof.
  intros Hrep Hfl Hlt Ha Hbf Hfit Hf. pose proof Hrep as [Hr Hq Hnd].
  pose proof Hr as [Hl Hb Hc Hst Hen Hw].
  assert (∀ x, x ∈ (range first last w).*1 → x ∉ (pending s l).*1) as Hf'.
  { intros x. rewrite range_keys by lia. apply Hf. }
  destruct (queue_range_run now timeout s base cnt l first last w)
    as (sq & Hrunq & Hadd); [done|lia|done|done|].
  unfold push_result_ring_add. step. rewrite int32_count by lia.
  destruct (Z.eqb_spec (ring_end s) (ring_start s)) as [Ee|Ee].
  - symmetry in Ee. pose proof (ring_empty _ _ _ Hr Ee) as ->.
    erewrite bind_run by done. cbn beta iota. step.
    destruct (ring_fill_run now timeout
      (set_ring (ring_entries s) (first `mod` ring_size s)
         ((last + 1) `mod` ring_size s) (ring_size s) s) first 0 first last w)
      as (es' & Hrun & Hw' & Hl' & HP); simpl; try done; try lia.
    { apply (window_shift_empty _ _ base). done. }
    eexists. split; [exact Hrun|].
    eapply (ring_filled s es' first _ base 0 (last - first + 1)); try done; try lia.
    + by apply range_NoDup; lia.
    + simpl. f_equal. lia.
  - destruct (Z.eqb_spec (first `mod` ring_size s) (ring_end s)) as [Ei|Ei];
      [|erewrite bind_run by done; cbn beta iota; by exists sq].
    assert (0 < cnt) as Hpos.
    { destruct (decide (0 < cnt)); [done|]. assert (cnt = 0) as -> by lia.
      rewrite Z.add_0_r in Hen. congruence. }
    destruct (slot_entry _ _ _ (first `mod` ring_size s + ring_size s - 1) Hr) as (e & He).
    erewrite bind_run; [|step; reflexivity]. cbn beta.
    destruct (Z.eqb_spec ((first `mod` ring_size s + 1) `mod` ring_size s)
                (ring_start s)) as [En|En]; simpl; [by exists sq|].
    destruct (Z.eqb_spec first (pe_data_version e + 1)) as [Ev|Ev]; [|by exists sq].
    pose proof (matched_first s base cnt first e Hr Hpos (Hbf Hpos) Ei He Ev) as Hbc.
    assert (cnt + 1 < ring_size s) as Hroom.
    { destruct (decide (cnt + 1 = ring_size s)) as [Ec|]; [|lia]. exfalso. apply En.
      rewrite slot_succ, Hst, Hbc by lia. rewrite <- Ec at 1.
      replace (base + cnt + 1) with (base + 1 * (cnt + 1)) by lia.
      rewrite Ec. apply Z.mod_add. lia. }
    step.
    destruct (ring_fill_run now timeout
      (set_end ((last + 1) `mod` ring_size s) s) base cnt first last w)
      as (es' & Hrun & Hw' & Hl' & HP); simpl; try done; try lia.
    eexists. split; [exact Hrun|].
    change (added s (set_ring es' (ring_start s) ((last + 1) `mod` ring_size s)
              (ring_size s) s) l (range first last w)). rewrite Hst.
    eapply (ring_filled s es' base _ base cnt (cnt + (last - first + 1))); try done; try lia.
    + by apply range_NoDup; lia.
    + simpl. f_equal. lia.
Qed.

Lemma rpc_dec_last_check s e :
  last_check_timeout_time (rpc_dec s e) = last_check_timeout_time s.
Proof. unfold rpc_dec. by destruct (pe_waiting_task e). Qed.

(** Splits a run of a sequence of statements into the runs of its statements. *)
Ltac split_run :=
  repeat match goal with
  | H : (_ ≫= _) _ = Some (_, _) |- _ =>
      apply bind_Some_inv in H as (? & ? & ? & H)
  | H : mret _ _ = Some (_, _) |- _ => injection H as <- <-
  | H : get_st _ = Some (_, _) |- _ => injection H as <- <-
  | H : modify _ _ = Some (_, _) |- _ => injection H as _ <-
  | H : desc_task_waiting_rpc_count _ _ = Some (_, _) |- _ =>
      rewrite desc_run in H; injection H as _ <-
  | H : load_slot _ _ = Some (_, _) |- _ => unfold load_slot in H; case_match
  | H : store_slot _ _ _ = Some (_, _) |- _ => unfold store_slot in H; case_match
  | H : load_node _ _ = Some (_, _) |- _ => unfold load_node in H; case_match
  | H : free_node _ _ = Some (_, _) |- _ => unfold free_node in H
  | _ => progress simplify_eq
  end.

Lemma ring_timeouts_last_check now fuel index n s m s' :
  clear_ring_timeouts_loop now fuel index n s = Some (m, s') →
  last_check_timeout_time s' = last_check_timeout_time s.
Proof.
  revert index n s. induction fuel as [|fuel IH]; intros index n s H;
    simpl in H; split_run; repeat (case_match; split_run); try done;
    apply IH in H; rewrite H; simpl; apply rpc_dec_last_check.
Qed.

Lemma queue_timeouts_loop_last_check now fuel cur n s r s' :
  clear_queue_timeouts_loop now fuel cur n s = Some (r, s') →
  last_check_timeout_time s' = last_check_timeout_time s.
Proof.
  revert cur n s. induction fuel as [|fuel IH]; intros [cur|] n s H;
    simpl in H; split_run; repeat (case_match; split_run); try done;
    apply IH in H; rewrite H; simpl; apply rpc_dec_last_check.
Qed.

Lemma queue_timeouts_last_check now s m s' :
  push_result_ring_clear_queue_timeouts now s = Some (m, s') →
  last_check_timeout_time s' = last_check_timeout_time s.
Proof.
  unfold push_result_ring_clear_queue_timeouts. intros H. split_run.
  repeat (case_match; split_run); try done;
    simpl; by eapply queue_timeouts_loop_last_check.
Qed.

(** A timeout sweep keeps the context well formed and settles what it
    removes: each expired version it drops has decremented its task's counter
    exactly once; a second sweep within the same second does nothing. *)
Theorem push_result_ring_clear_timeouts_settles now s base cnt l :
  push_rep s base cnt l →
  ∃ s' base' cnt' l' R, push_result_ring_clear_timeouts now s = Some ((), s') ∧
    push_rep s' base' cnt' l' ∧ settled s s' l l' R ∧
    push_result_ring_clear_timeouts now s' = Some ((), s').
Proof.
  intros Hrep. pose proof Hrep as [Hr Hq Hnd].
  unfold push_result_ring_clear_timeouts at 1. step.
  destruct (Z.eqb_spec (last_check_timeout_time s) now) as [En|En].
  { exists s, base, cnt, l, []. split_and!; [done|done|apply settled_refl|].
    unfold push_result_ring_clear_timeouts. step. by rewrite En, Z.eqb_refl. }
  step. set (s0 := set_last_check now s).
  assert (ring_ok s0 base cnt ∧ queue_ok s0 l) as [Hr0 Hq0]
    by (split; [by apply (ring_ok_same s)|by apply (queue_ok_same s)]).
  assert (∃ s1 base1 cnt1 n R1,
      (if ring_start s =? ring_end s then mret 0 else
        clear_ring_timeouts_loop now (Z.to_nat (ring_size s)) (ring_start s) 0) s0
        = Some (n, s1) ∧
      ring_ok s1 base1 cnt1 ∧ same_queue s0 s1 ∧ settled s0 s1 l l R1 ∧
      last_check_timeout_time s1 = now)
    as (s1 & base1 & cnt1 & n & R1 & Hrun1 & Hr1 & Hq1 & Hs1 & Hn1).
  { destruct (ring_start s =? ring_end s).
    - exists s0, base, cnt, 0, []. by split_and!; [..|apply settled_refl|].
    - pose proof Hr as [Hl Hb Hc Hst Hen Hw].
      destruct (clear_ring_timeouts_run now s0 base cnt (ring_start s) 0
        (Z.to_nat (ring_size s)) l Hr0) as (s1 & R & k & m & Hrun & Hk & Hr1 & Hq1 & Hs1);
        [|simpl; lia|].
      + rewrite Hst. simpl. apply Z.mod_mod. lia.
      + exists s1, (base + k), (cnt - k), m, R. split_and!; try done.
        by rewrite (ring_timeouts_last_check _ _ _ _ _ _ _ Hrun). }
  run_with Hrun1.
  destruct (clear_queue_timeouts_run now s1 l) as (s2 & l2 & m2 & P & Hrun2 & Hq2 & Hr2 & Hs2);
    [by eapply queue_ok_same|].
  run_with Hrun2.
  exists s2, base1, cnt1, l2, (R1 ++ P).
  pose proof (settled_trans _ _ _ _ _ _ _ _ Hs1 Hs2) as Hs.
  split_and!; [done|split|done|].
  - by eapply ring_ok_same.
  - done.
  - by eapply (settled_NoDup s0).
  - unfold push_result_ring_clear_timeouts. step.
    by rewrite (queue_timeouts_last_check _ _ _ _ Hrun2), Hn1, Z.eqb_refl.
Qed.

(** ** Concrete contexts *)

(** A ring of four slots that holds version 1 (task 7) and a queue that holds
    version 5 (task 8). *)
Definition demo : PushContext :=
  mkPushContext
    [zero_entry; mkPushResultEntry 1 100 (Some 7%positive) None; zero_entry; zero_entry]
    1 2 4 (Some 1%positive) (Some 1%positive)
    {[1%positive := mkPushResultEntry 5 100 (Some 8%positive) None]} None 0
    {[7%positive := 1; 8%positive := 1]} [].

Lemma demo_rep : push_rep demo 1 1 [1%positive].
Proof.
  split.
  - split; [done|lia|change (ring_size demo) with 4; lia|done|done|].
    + intros i Hi. change (ring_size demo) with 4 in *.
      assert (i = 0 ∨ i = 1 ∨ i = 2 ∨ i = 3) as [->|[->|[->| ->]]] by lia;
        eexists; (split; [reflexivity|]); [left|right..]; vm_compute; auto.
  - split; [|done|].
    + simpl. split; [done|]. by eexists.
    + vm_compute. repeat constructor.
  - vm_compute. apply (bool_decide_unpack (NoDup [1; 5])). vm_compute. done.
Qed.

Lemma push_result_ring_remove_pending_witness :
  ∃ s' base' cnt' l', push_result_ring_remove 5 demo = Some (0, s') ∧
    push_rep s' base' cnt' l' ∧ settled demo s' [1%positive] l' [(5, Some 8%positive)].
Proof.
  apply (push_result_ring_remove_pending demo 1 1 [1%positive] 5 (Some 8%positive)
           demo_rep); [lia|].
  vm_compute. right. left.
Defined.

Lemma push_result_ring_remove_absent_witness :
  push_result_ring_remove 3 demo = Some (ENOENT, demo).
Proof.
  apply (push_result_ring_remove_absent demo 1 1 [1%positive] 3 demo_rep); [lia|].
  vm_compute. intros H. repeat (apply elem_of_cons in H as [H|H]; [done|]).
  by apply elem_of_nil in H.
Defined.

Lemma push_result_ring_clear_all_settles_witness :
  ∃ s' base' R, push_result_ring_clear_all demo = Some ((), s') ∧
    push_rep s' base' 0 [] ∧ pending s' [] = [] ∧ settled demo s' [1%positive] [] R ∧
    R ≡ₚ pending demo [1%positive].
Proof.
  apply (push_result_ring_clear_all_settles demo 1 1 [1%positive] demo_rep).
Defined.

Lemma push_result_ring_add_range_witness :
  ∃ s', push_result_ring_add 10 30 2 3 (Some 9%positive) demo = Some (0, s') ∧
        added demo s' [1%positive] (range 2 3 (Some 9%positive)).
Proof.
  apply (push_result_ring_add_range 10 30 demo 1 1 [1%positive] 2 3 (Some 9%positive)
           demo_rep); try lia; [done|left; simpl; lia|].
  intros x Hx H. vm_compute in H.
  apply elem_of_cons in H as [->|H]; [lia|].
  apply elem_of_cons in H as [->|H]; [lia|]. by apply elem_of_nil in H.
Defined.

Lemma push_result_ring_clear_timeouts_settles_witness :
  ∃ s' base' cnt' l' R, push_result_ring_clear_timeouts 200 demo = Some ((), s') ∧
    push_rep s' base' cnt' l' ∧ settled demo s' [1%positive] l' R ∧
    push_result_ring_clear_timeouts 200 s' = Some ((), s').
Proof.
  apply (push_result_ring_clear_timeouts_settles 200 demo 1 1 [1%positive] demo_rep).
Defined.

(** Two versions in a ring of four slots, pushed one by one. *)
Definition demo_two : option (Z * PushContext) :=
  ('(_, s) ← push_result_ring_check_init 4 true
     (mkPushContext [] 0 0 0 None None ∅ None 0
        {[1%positive := 1; 2%positive := 1; 3%positive := 1]} []);
   '(_, s) ← push_result_ring_add 10 30 1 1 (Some 1%positive) s;
   push_result_ring_add 10 30 2 2 (Some 2%positive) s).

(** [push_result_ring_add] looks at one free slot only: a range of four
    versions added after versions 1 and 2 wraps around the ring of four slots
    and overwrites them. Acknowledging version 2 is then refused, task 2's
    counter stays at 1, and acknowledging versions 3 to 6 does not wake it
    either. *)
Theorem push_result_ring_add_overruns :
  ∃ s1 s2, demo_two = Some (0, s1) ∧
    push_result_ring_add 10 30 3 6 (Some 3%positive) s1 = Some (0, s2) ∧
    ring_start s1 ≠ ring_end s1 ∧
    push_result_ring_remove 2 s2 = Some (ENOENT, s2) ∧ rpc s2 2%positive = 1 ∧
    (2, Some 2%positive) ∈ pending s1 [] ∧ 2 ∉ (pending s2 []).*1.
Proof.
  destruct demo_two as [[r s1]|] eqn:E1; [|by vm_compute in E1].
  vm_compute in E1. injection E1 as <- <-.
  eexists _, _. split; [done|]. split; [vm_compute; reflexivity|].
  split_and!; [done|vm_compute; done|vm_compute; done| |].
  - vm_compute. right. left.
  - vm_compute. intros H. repeat (apply elem_of_cons in H as [H|H]; [done|]).
    by apply elem_of_nil in H.
Qed.
