(* ===== verification/Flock.v ===== *)
(** * File locks and system locks: [server/flock.c], [server/flock.h]

    Each dentry that is locked owns a [FLockEntry]: a list of byte regions
    sorted by offset, each with the tasks that hold it and the tasks that wait
    for it, a global list of tasks that wait for several regions, and the
    system lock (a FIFO mutex for append and ftruncate).

    The entry, its regions and the lock tasks live in [FlockState]; the
    intrusive lists of libfastcommon are Rocq lists of pointers. The theorems
    show mutual exclusion of overlapping regions, the result of each operation
    and that the system lock is a FIFO mutex. *)

From S2P Require Import Prelude.

(** ** Data *)

Definition LOCK_SH : Z := 1.
Definition LOCK_EX : Z := 2.

Definition FDIR_FLOCK_TASK_NOT_IN_QUEUE : Z := 0.
Definition FDIR_FLOCK_TASK_IN_LOCKED_QUEUE : Z := 1.
Definition FDIR_FLOCK_TASK_IN_REGION_WAITING_QUEUE : Z := 2.
Definition FDIR_FLOCK_TASK_IN_GLOBAL_WAITING_QUEUE : Z := 3.

Definition FDIR_SYS_TASK_STATUS_NONE : Z := 0.
Definition FDIR_SYS_TASK_STATUS_LOCKED : Z := 1.
Definition FDIR_SYS_TASK_STATUS_WAITING : Z := 2.

Record FlockOwner := mkFlockOwner { owner_pid : Z; owner_id : Z }.

Record FLockTask := mkFLockTask {
  ft_type : Z;
  ft_which_queue : Z;
  ft_owner : FlockOwner;
  ft_region : option ptr;
  ft_task : ptr;
  ft_dentry : ptr
}.

Record SysLockTask := mkSysLockTask {
  st_status : Z;
  st_task : ptr;
  st_dentry : ptr
}.

(** [fr_length = 0] means until the end of the file. *)
Record FLockRegion := mkFLockRegion {
  fr_offset : Z;
  fr_length : Z;
  fr_reads : Z;
  fr_writes : Z;
  fr_locked : list ptr;
  fr_waiting : list ptr;
  fr_ref_count : Z
}.

Record FLockEntry := mkFLockEntry {
  fe_regions : list ptr;
  fe_waiting_tasks : list ptr;
  fe_locked_task : option ptr;
  fe_sys_waiting : list ptr
}.

(** One entry with the objects it refers to; [region_avail] is how many more
    regions the pool can hand out ([None]: no limit). *)
Record FlockState := mkFlockState {
  entry : FLockEntry;
  region_objs : gmap ptr FLockRegion;
  ftask_objs : gmap ptr FLockTask;
  sys_objs : gmap ptr SysLockTask;
  region_avail : option nat;
  nio_notified : list ptr
}.

Definition flock_entry_init : FLockEntry := mkFLockEntry [] [] None [].

Definition set_entry (e : FLockEntry) (s : FlockState) : FlockState :=
  mkFlockState e (region_objs s) (ftask_objs s) (sys_objs s) (region_avail s)
    (nio_notified s).
Definition set_region_objs (m : gmap ptr FLockRegion) (s : FlockState) : FlockState :=
  mkFlockState (entry s) m (ftask_objs s) (sys_objs s) (region_avail s) (nio_notified s).
Definition set_ftask_objs (m : gmap ptr FLockTask) (s : FlockState) : FlockState :=
  mkFlockState (entry s) (region_objs s) m (sys_objs s) (region_avail s) (nio_notified s).
Definition set_sys_objs (m : gmap ptr SysLockTask) (s : FlockState) : FlockState :=
  mkFlockState (entry s) (region_objs s) (ftask_objs s) m (region_avail s) (nio_notified s).
Definition set_region_avail (a : option nat) (s : FlockState) : FlockState :=
  mkFlockState (entry s) (region_objs s) (ftask_objs s) (sys_objs s) a (nio_notified s).
Definition set_notified (l : list ptr) (s : FlockState) : FlockState :=
  mkFlockState (entry s) (region_objs s) (ftask_objs s) (sys_objs s) (region_avail s) l.

Definition set_regions (l : list ptr) (e : FLockEntry) : FLockEntry :=
  mkFLockEntry l (fe_waiting_tasks e) (fe_locked_task e) (fe_sys_waiting e).
Definition set_waiting_tasks (l : list ptr) (e : FLockEntry) : FLockEntry :=
  mkFLockEntry (fe_regions e) l (fe_locked_task e) (fe_sys_waiting e).
Definition set_sys_lock (t : option ptr) (l : list ptr) (e : FLockEntry) : FLockEntry :=
  mkFLockEntry (fe_regions e) (fe_waiting_tasks e) t l.

Definition set_which_queue (q : Z) (t : FLockTask) : FLockTask :=
  mkFLockTask (ft_type t) q (ft_owner t) (ft_region t) (ft_task t) (ft_dentry t).
Definition set_region (r : option ptr) (t : FLockTask) : FLockTask :=
  mkFLockTask (ft_type t) (ft_which_queue t) (ft_owner t) r (ft_task t) (ft_dentry t).
Definition set_status (st : Z) (t : SysLockTask) : SysLockTask :=
  mkSysLockTask st (st_task t) (st_dentry t).

Definition set_counts (r w : Z) (g : FLockRegion) : FLockRegion :=
  mkFLockRegion (fr_offset g) (fr_length g) r w (fr_locked g) (fr_waiting g)
    (fr_ref_count g).
Definition set_lists (lk wt : list ptr) (g : FLockRegion) : FLockRegion :=
  mkFLockRegion (fr_offset g) (fr_length g) (fr_reads g) (fr_writes g) lk wt
    (fr_ref_count g).
Definition set_ref_count (n : Z) (g : FLockRegion) : FLockRegion :=
  mkFLockRegion (fr_offset g) (fr_length g) (fr_reads g) (fr_writes g)
    (fr_locked g) (fr_waiting g) n.

(** ** Memory access *)

Definition load_region (p : ptr) : M FlockState FLockRegion := λ s,
  match region_objs s !! p with Some r => Some (r, s) | None => None end.
Definition load_ftask (p : ptr) : M FlockState FLockTask := λ s,
  match ftask_objs s !! p with Some t => Some (t, s) | None => None end.
Definition load_sys (p : ptr) : M FlockState SysLockTask := λ s,
  match sys_objs s !! p with Some t => Some (t, s) | None => None end.

Definition update_region (p : ptr) (f : FLockRegion → FLockRegion) : M FlockState () := λ s,
  match region_objs s !! p with
  | Some r => Some ((), set_region_objs (<[p := f r]> (region_objs s)) s)
  | None => None
  end.
Definition update_ftask (p : ptr) (f : FLockTask → FLockTask) : M FlockState () := λ s,
  match ftask_objs s !! p with
  | Some t => Some ((), set_ftask_objs (<[p := f t]> (ftask_objs s)) s)
  | None => None
  end.
Definition update_sys (p : ptr) (f : SysLockTask → SysLockTask) : M FlockState () := λ s,
  match sys_objs s !! p with
  | Some t => Some ((), set_sys_objs (<[p := f t]> (sys_objs s)) s)
  | None => None
  end.
Definition modify_entry (f : FLockEntry → FLockEntry) : M FlockState () :=
  modify (λ s, set_entry (f (entry s)) s).

Definition alloc_region (g : FLockRegion) : M FlockState (option ptr) := λ s,
  match region_avail s with
  | Some O => Some (None, s)
  | a => let p := fresh_ptr (region_objs s) in
         Some (Some p, set_region_avail (pred <$> a)
                         (set_region_objs (<[p := g]> (region_objs s)) s))
  end.

(** Taking a node out of a doubly linked list. *)
Definition list_del (p : ptr) (l : list ptr) : list ptr := filter (λ q, q ≠ p) l.

(** [fc_list_del_init(&ftask->flink)]: unlinks the task from the one list that
    holds it, a list of its region or the global waiting list. *)
Definition flink_del (p : ptr) : M FlockState () :=
  t ← load_ftask p;
  r ← non_null (ft_region t);
  update_region r (λ g, set_lists (list_del p (fr_locked g)) (list_del p (fr_waiting g)) g);;
  modify_entry (λ e, set_waiting_tasks (list_del p (fe_waiting_tasks e)) e).

(** ** Regions *)

(** Splits the region list where the new region goes, unless it exists. *)
Fixpoint get_region_loop (offset length : Z) (passed rest : list ptr) :
    M FlockState (ptr + list ptr * list ptr) :=
  match rest with
  | [] => mret (inr (passed, []))
  | region :: rest' =>
    g ← load_region region;
    if offset =? fr_offset g then
      if length =? fr_length g then mret (inl region)
      else if length <? fr_length g then mret (inr (passed, rest))
      else get_region_loop offset length (passed ++ [region]) rest'
    else if offset <? fr_offset g then mret (inr (passed, rest))
    else get_region_loop offset length (passed ++ [region]) rest'
  end.

Definition get_region (offset length : Z) : M FlockState (option ptr) :=
  s ← get_st;
  pos ← get_region_loop offset length [] (fe_regions (entry s));
  match pos with
  | inl region =>
    update_region region (λ g, set_ref_count (fr_ref_count g + 1) g);;
    mret (Some region)
  | inr (before, after) =>
    new_region ← alloc_region (mkFLockRegion offset length 0 0 [] [] 1);
    match new_region with
    | None => mret None
    | Some p =>
      modify_entry (set_regions (before ++ p :: after));;
      mret (Some p)
    end
  end.

Definition add_to_locked (ftask : ptr) : M FlockState () :=
  t ← load_ftask ftask;
  r ← non_null (ft_region t);
  update_region r (λ g,
    if ft_type t =? LOCK_SH then set_counts (fr_reads g + 1) (fr_writes g) g
    else set_counts (fr_reads g) (fr_writes g + 1) g);;
  update_ftask ftask (set_which_queue FDIR_FLOCK_TASK_IN_LOCKED_QUEUE);;
  update_region r (λ g, set_lists (fr_locked g ++ [ftask]) (fr_waiting g) g).

Definition remove_from_locked (ftask : ptr) : M FlockState () :=
  t ← load_ftask ftask;
  r ← non_null (ft_region t);
  update_region r (λ g,
    if ft_type t =? LOCK_SH then set_counts (fr_reads g - 1) (fr_writes g) g
    else set_counts (fr_reads g) (fr_writes g - 1) g);;
  update_ftask ftask (set_which_queue FDIR_FLOCK_TASK_NOT_IN_QUEUE);;
  flink_del ftask.

(** Offsets and lengths are [int64_t]: the sum wraps. *)
Definition is_region_overlap (r1 r2 : FLockRegion) : bool :=
  if fr_offset r1 <? fr_offset r2 then
    (fr_length r1 =? 0) || (fr_offset r2 <? int64 (fr_offset r1 + fr_length r1))
  else if fr_offset r1 =? fr_offset r2 then true
  else (fr_length r2 =? 0) || (fr_offset r1 <? int64 (fr_offset r2 + fr_length r2)).

(** ** Conflicts *)

(** The loop over the regions: the first conflicting task and how many regions
    conflict. *)
Fixpoint conflict_loop (type : Z) (mine : FLockRegion) (check_waiting : bool)
    (regions : list ptr) (found : option ptr) (conflict_regions : Z) :
    M FlockState (option ptr * Z) :=
  match regions with
  | [] => mret (found, conflict_regions)
  | region :: rest =>
    g ← load_region region;
    if is_region_overlap mine g then
      match check_waiting, head (fr_waiting g) with
      | true, Some wait =>
        conflict_loop type mine check_waiting rest
          (match found with None => Some wait | _ => found end) (conflict_regions + 1)
      | _, _ =>
        if (0 <? fr_writes g) || ((type =? LOCK_EX) && (0 <? fr_reads g)) then
          conflict_loop type mine check_waiting rest
            (match found with None => head (fr_locked g) | _ => found end)
            (conflict_regions + 1)
        else conflict_loop type mine check_waiting rest found conflict_regions
      end
    else if (0 <? fr_length mine) &&
            (int64 (fr_offset mine + fr_length mine) <? fr_offset g)
    then mret (found, conflict_regions)
    else conflict_loop type mine check_waiting rest found conflict_regions
  end.

Definition get_conflict_ftask_by_region (ftask : ptr) (check_waiting : bool) :
    M FlockState (option ptr * Z) :=
  s ← get_st;
  t ← load_ftask ftask;
  r ← non_null (ft_region t);
  mine ← load_region r;
  conflict_loop (ft_type t) mine check_waiting (fe_regions (entry s)) None 0.

(** The first task of the global waiting list whose region overlaps. *)
Fixpoint waiting_overlap (mine : FLockRegion) (l : list ptr) : M FlockState (option ptr) :=
  match l with
  | [] => mret None
  | wait :: rest =>
    w ← load_ftask wait;
    wr ← non_null (ft_region w);
    g ← load_region wr;
    if is_region_overlap mine g then mret (Some wait) else waiting_overlap mine rest
  end.

(** Returns the conflicting task and [global_conflict]. *)
Definition get_conflict_flock_task (ftask : ptr) : M FlockState (option ptr * bool) :=
  '(found, conflict_regions) ← get_conflict_ftask_by_region ftask true;
  t ← load_ftask ftask;
  let check_global :=
    s ← get_st;
    r ← non_null (ft_region t);
    mine ← load_region r;
    wait ← waiting_overlap mine (fe_waiting_tasks (entry s));
    match wait with
    | Some w => mret (Some w, true)
    | None =>
      match found with
      | None => mret (None, false)
      | Some f =>
        ft ← load_ftask f;
        mret (Some f, negb (bool_decide (ft_region ft = ft_region t)))
      end
    end in
  match found with
  | None => if ft_type t =? LOCK_EX then mret (None, false) else check_global
  | Some f => if 1 <? conflict_regions then mret (Some f, true) else check_global
  end.

(** ** Operations *)

Definition flock_apply (offset length : Z) (ftask : ptr) (block : bool) : M FlockState Z :=
  region ← get_region offset length;
  update_ftask ftask (set_region region);;
  match region with
  | None => mret ENOMEM
  | Some r =>
    '(holder, global_conflict) ← get_conflict_flock_task ftask;
    match holder with
    | None => add_to_locked ftask;; mret 0
    | Some h =>
      if negb block then mret EWOULDBLOCK
      else
        t ← load_ftask ftask;
        ht ← load_ftask h;
        if decide (ft_task t = ft_task ht) then mret EDEADLK
        else
          (if (global_conflict : bool) then
             update_ftask ftask (set_which_queue FDIR_FLOCK_TASK_IN_GLOBAL_WAITING_QUEUE);;
             modify_entry (λ e, set_waiting_tasks (fe_waiting_tasks e ++ [ftask]) e)
           else
             update_ftask ftask (set_which_queue FDIR_FLOCK_TASK_IN_REGION_WAITING_QUEUE);;
             update_region r (λ g, set_lists (fr_locked g) (fr_waiting g ++ [ftask]) g));;
          mret EINPROGRESS
    end
  end.

(** The caller's [ftask] and its region are its own objects: they are
    overwritten with what the conflicting task holds. *)
Definition flock_get_conflict_lock (ftask : ptr) : M FlockState Z :=
  '(holder, _) ← get_conflict_flock_task ftask;
  match holder with
  | None => mret ENOENT
  | Some h =>
    ht ← load_ftask h;
    t ← load_ftask ftask;
    r ← non_null (ft_region t);
    hr ← non_null (ft_region ht);
    g ← load_region hr;
    update_ftask ftask (λ t, mkFLockTask (ft_type ht) (ft_which_queue t) (ft_owner ht)
                               (ft_region t) (ft_task ht) (ft_dentry t));;
    update_region r (λ _, g);;
    mret 0
  end.

(** [head_of] reads the waiting list the loop drains: a region's or the
    entry's. *)
Fixpoint awake_waiting_tasks (fuel : nat) (head_of : FlockState → list ptr)
    (check_waiting : bool) (count : Z) : M FlockState Z :=
  s ← get_st;
  match head (head_of s) with
  | None => mret count
  | Some wait =>
    match fuel with
    | O => stuck
    | S fuel' =>
      '(conflict, _) ← get_conflict_ftask_by_region wait check_waiting;
      match conflict with
      | Some _ => mret count
      | None =>
        flink_del wait;;
        add_to_locked wait;;
        t ← load_ftask wait;
        modify (λ s, set_notified (nio_notified s ++ [ft_task t]) s);;
        awake_waiting_tasks fuel' head_of check_waiting (count + 1)
      end
    end
  end.

Definition region_waiting (r : ptr) (s : FlockState) : list ptr :=
  match region_objs s !! r with Some g => fr_waiting g | None => [] end.
Definition entry_waiting (s : FlockState) : list ptr := fe_waiting_tasks (entry s).

Definition awake_all (head_of : FlockState → list ptr) (check_waiting : bool) :
    M FlockState Z :=
  s ← get_st;
  awake_waiting_tasks (length (head_of s)) head_of check_waiting 0.

Definition flock_release (ftask : ptr) : M FlockState () :=
  t ← load_ftask ftask;
  if ft_which_queue t =? FDIR_FLOCK_TASK_IN_LOCKED_QUEUE then
    remove_from_locked ftask;;
    r ← non_null (ft_region t);
    g ← load_region r;
    (match fr_waiting g with
     | [] => mret ()
     | _ => _ ← awake_all (region_waiting r) false; mret ()
     end);;
    s ← get_st;
    (match entry_waiting s with
     | [] => mret ()
     | _ => _ ← awake_all entry_waiting true; mret ()
     end);;
    update_region r (λ g, set_ref_count (fr_ref_count g - 1) g)
  else if (ft_which_queue t =? FDIR_FLOCK_TASK_IN_REGION_WAITING_QUEUE) ||
          (ft_which_queue t =? FDIR_FLOCK_TASK_IN_GLOBAL_WAITING_QUEUE) then
    update_ftask ftask (set_which_queue FDIR_FLOCK_TASK_NOT_IN_QUEUE);;
    flink_del ftask;;
    r ← non_null (ft_region t);
    update_region r (λ g, set_ref_count (fr_ref_count g - 1) g)
  else mret ().

(** ** The system lock *)

Definition sys_lock_apply (sys_task : ptr) (block : bool) : M FlockState Z :=
  s ← get_st;
  match fe_locked_task (entry s) with
  | None =>
    modify_entry (λ e, set_sys_lock (Some sys_task) (fe_sys_waiting e) e);;
    update_sys sys_task (set_status FDIR_SYS_TASK_STATUS_LOCKED);;
    mret 0
  | Some holder =>
    if negb block then mret EWOULDBLOCK
    else
      t ← load_sys sys_task;
      ht ← load_sys holder;
      if decide (st_task t = st_task ht) then mret EDEADLK
      else
        update_sys sys_task (set_status FDIR_SYS_TASK_STATUS_WAITING);;
        modify_entry (λ e, set_sys_lock (fe_locked_task e)
                             (fe_sys_waiting e ++ [sys_task]) e);;
        mret EINPROGRESS
  end.

Definition sys_lock_release (sys_task : ptr) : M FlockState Z :=
  t ← load_sys sys_task;
  if st_status t =? FDIR_SYS_TASK_STATUS_WAITING then
    update_sys sys_task (set_status FDIR_SYS_TASK_STATUS_NONE);;
    modify_entry (λ e, set_sys_lock (fe_locked_task e)
                         (list_del sys_task (fe_sys_waiting e)) e);;
    mret 0
  else if negb (st_status t =? FDIR_SYS_TASK_STATUS_LOCKED) then mret EINVAL
  else
    s ← get_st;
    if decide (fe_locked_task (entry s) = Some sys_task) then
      match head (fe_sys_waiting (entry s)) with
      | Some wait =>
        update_sys wait (set_status FDIR_SYS_TASK_STATUS_LOCKED);;
        modify_entry (λ e, set_sys_lock (Some wait) (list_del wait (fe_sys_waiting e)) e);;
        w ← load_sys wait;
        modify (λ s, set_notified (nio_notified s ++ [st_task w]) s);;
        mret 0
      | None =>
        update_sys sys_task (set_status FDIR_SYS_TASK_STATUS_NONE);;
        modify_entry (λ e, set_sys_lock None (fe_sys_waiting e) e);;
        mret 0
      end
    else mret ENOENT.

(** ** Well-formed entries *)

(** Task [q] is in a queue of kind [k], for the region [r]. *)
Definition in_queue (s : FlockState) (k : Z) (r q : ptr) : Prop :=
  ∃ t, ftask_objs s !! q = Some t ∧ ft_region t = Some r ∧ ft_which_queue t = k ∧
       (ft_type t = LOCK_SH ∨ ft_type t = LOCK_EX).

Definition is_sh (s : FlockState) (q : ptr) : bool :=
  match ftask_objs s !! q with Some t => ft_type t =? LOCK_SH | None => false end.

Definition count_type (s : FlockState) (b : bool) (l : list ptr) : Z :=
  Z.of_nat (length (filter (λ q, is_sh s q = b) l)).

(** The byte range does not reach the end of [int64_t]. *)
Definition range_ok (g : FLockRegion) : Prop :=
  0 ≤ fr_offset g ∧ 0 ≤ fr_length g ∧ fr_offset g + fr_length g < 2 ^ 63.

Record region_ok (s : FlockState) (r : ptr) (g : FLockRegion) : Prop := {
  region_range : range_ok g;
  region_locked_NoDup : NoDup (fr_locked g);
  region_locked : ∀ q, q ∈ fr_locked g → in_queue s FDIR_FLOCK_TASK_IN_LOCKED_QUEUE r q;
  region_waiting_NoDup : NoDup (fr_waiting g);
  region_waiting_q : ∀ q, q ∈ fr_waiting g →
    in_queue s FDIR_FLOCK_TASK_IN_REGION_WAITING_QUEUE r q;
  region_reads : fr_reads g = count_type s true (fr_locked g);
  region_writes : fr_writes g = count_type s false (fr_locked g)
}.

Definition offset_le (s : FlockState) (r1 r2 : ptr) : Prop :=
  ∀ g1 g2, region_objs s !! r1 = Some g1 → region_objs s !! r2 = Some g2 →
    fr_offset g1 ≤ fr_offset g2.

(** Two different tasks that hold overlapping regions are both readers. *)
Definition exclusion (s : FlockState) : Prop :=
  ∀ r1 r2 g1 g2 p q, r1 ∈ fe_regions (entry s) → r2 ∈ fe_regions (entry s) →
    region_objs s !! r1 = Some g1 → region_objs s !! r2 = Some g2 →
    is_region_overlap g1 g2 = true → p ∈ fr_locked g1 → q ∈ fr_locked g2 → p ≠ q →
    is_sh s p = true ∧ is_sh s q = true.

Record flock_ok (s : FlockState) : Prop := {
  ok_regions : ∀ r, r ∈ fe_regions (entry s) →
    ∃ g, region_objs s !! r = Some g ∧ region_ok s r g;
  ok_regions_NoDup : NoDup (fe_regions (entry s));
  ok_sorted : StronglySorted (offset_le s) (fe_regions (entry s));
  ok_waiting_NoDup : NoDup (fe_waiting_tasks (entry s));
  ok_waiting : ∀ q, q ∈ fe_waiting_tasks (entry s) →
    ∃ r, r ∈ fe_regions (entry s) ∧ in_queue s FDIR_FLOCK_TASK_IN_GLOBAL_WAITING_QUEUE r q;
  ok_exclusion : exclusion s
}.

(** ** Overlap *)

(** The bytes a region covers; length 0 reaches to the end of the file. *)
Definition covers (g : FLockRegion) (b : Z) : Prop :=
  fr_offset g ≤ b ∧ (fr_length g = 0 ∨ b < fr_offset g + fr_length g).

Lemma end_small g : range_ok g → int64 (fr_offset g + fr_length g) = fr_offset g + fr_length g.
Proof. intros (? & ? & ?). apply int64_small. unfold is_int64. lia. Qed.

Lemma is_region_overlap_sym g1 g2 : is_region_overlap g1 g2 = is_region_overlap g2 g1.
Proof.
  unfold is_region_overlap. rewrite (Z.eqb_sym (fr_offset g2)).
  destruct (Z.ltb_spec (fr_offset g1) (fr_offset g2)),
    (Z.ltb_spec (fr_offset g2) (fr_offset g1)),
    (Z.eqb_spec (fr_offset g1) (fr_offset g2)); done || lia.
Qed.

(** Two regions overlap exactly when some byte of the file belongs to both,
    for ranges that do not reach the end of [int64_t]. *)
Theorem is_region_overlap_spec g1 g2 :
  range_ok g1 → range_ok g2 →
  is_region_overlap g1 g2 = true ↔ ∃ b, covers g1 b ∧ covers g2 b.
Proof.
  intros H1 H2. unfold is_region_overlap.
  rewrite !end_small by done. unfold range_ok, covers in *.
  destruct (Z.ltb_spec (fr_offset g1) (fr_offset g2)),
    (Z.eqb_spec (fr_offset g1) (fr_offset g2)); try lia.
  - rewrite orb_true_iff, Z.eqb_eq, Z.ltb_lt. split.
    + intros [?|?]; exists (fr_offset g2); lia.
    + intros (b & ? & ?). lia.
  - split; [|done]. intros _. exists (fr_offset g1). lia.
  - rewrite orb_true_iff, Z.eqb_eq, Z.ltb_lt. split.
    + intros [?|?]; exists (fr_offset g1); lia.
    + intros (b & ? & ?). lia.
Qed.

(** With an offset and a length whose sum leaves [int64_t] the test is
    wrong: a region whose end wraps around does not overlap a region inside it,
    so both can be locked exclusively. *)
Theorem is_region_overlap_wraps :
  ∃ g1 g2, 0 ≤ fr_offset g1 ∧ 0 ≤ fr_length g1 ∧ is_int64 (fr_offset g1) ∧
    is_int64 (fr_length g1) ∧ range_ok g2 ∧
    is_region_overlap g1 g2 = false ∧ ∃ b, covers g1 b ∧ covers g2 b.
Proof.
  exists (mkFLockRegion 10 (2 ^ 63 - 1) 0 0 [] [] 1), (mkFLockRegion 20 5 0 0 [] [] 1).
  unfold is_int64, range_ok, covers. simpl. split_and!; try lia; [by vm_compute|].
  exists 20. lia.
Qed.

(** ** Small lemmas *)

Lemma list_del_elem p l q : q ∈ list_del p l ↔ q ≠ p ∧ q ∈ l.
Proof. unfold list_del. by rewrite list_elem_of_filter. Qed.

Lemma list_del_NoDup p l : NoDup l → NoDup (list_del p l).
Proof. apply NoDup_filter. Qed.

Lemma list_del_id p l : p ∉ l → list_del p l = l.
Proof.
  intros Hp. unfold list_del. induction l as [|x l IH]; [done|].
  apply not_elem_of_cons in Hp as [Hne Hp].
  rewrite filter_cons_True by congruence. f_equal. by apply IH.
Qed.

Lemma list_del_length p l :
  NoDup l → p ∈ l → length (list_del p l) = pred (length l).
Proof.
  induction l as [|x l IH]; intros Hnd Hp; [by apply elem_of_nil in Hp|].
  apply NoDup_cons in Hnd as [Hx Hnd]. unfold list_del in *.
  destruct (decide (x = p)) as [->|Hne].
  - rewrite filter_cons_False by auto. fold (list_del p l). by rewrite list_del_id.
  - rewrite filter_cons_True by done. simpl.
    apply elem_of_cons in Hp as [->|Hp]; [done|]. rewrite (IH Hnd Hp).
    destruct l; [by apply elem_of_nil in Hp|done].
Qed.

Lemma count_type_app s b l1 l2 :
  count_type s b (l1 ++ l2) = count_type s b l1 + count_type s b l2.
Proof. unfold count_type. rewrite filter_app, length_app. lia. Qed.

Lemma count_type_one s b q :
  count_type s b [q] = if bool_decide (is_sh s q = b) then 1 else 0.
Proof.
  unfold count_type. rewrite filter_cons. case_decide; case_bool_decide; done.
Qed.

Lemma count_type_del s b p l :
  NoDup l → p ∈ l →
  count_type s b (list_del p l)
  = count_type s b l - (if bool_decide (is_sh s p = b) then 1 else 0).
Proof.
  induction l as [|x l IH]; intros Hnd Hp; [by apply elem_of_nil in Hp|].
  apply NoDup_cons in Hnd as [Hx Hnd].
  change (x :: l) with ([x] ++ l) at 2. rewrite count_type_app, count_type_one.
  destruct (decide (x = p)) as [->|Hne].
  - unfold list_del. rewrite filter_cons_False by auto. fold (list_del p l).
    rewrite list_del_id by done. lia.
  - apply elem_of_cons in Hp as [->|Hp]; [done|].
    unfold list_del. rewrite filter_cons_True by done. fold (list_del p l).
    change (x :: list_del p l) with ([x] ++ list_del p l).
    rewrite count_type_app, count_type_one, (IH Hnd Hp). lia.
Qed.

Lemma count_type_pos s b l : count_type s b l > 0 ↔ ∃ q, q ∈ l ∧ is_sh s q = b.
Proof.
  unfold count_type. split.
  - intros H. destruct (filter (λ q, is_sh s q = b) l) as [|q l'] eqn:E; [simpl in H; lia|].
    exists q. assert (q ∈ filter (λ q, is_sh s q = b) l) as Hq by (rewrite E; set_solver).
    apply list_elem_of_filter in Hq. tauto.
  - intros (q & Hq & Hb). assert (q ∈ filter (λ q, is_sh s q = b) l) as Hf
      by (by apply list_elem_of_filter).
    destruct (filter _ l); [by apply elem_of_nil in Hf|simpl; lia].
Qed.

Lemma count_type_nonneg s b l : 0 ≤ count_type s b l.
Proof. unfold count_type. lia. Qed.

Lemma count_type_ext s s' b l :
  (∀ q, q ∈ l → is_sh s' q = is_sh s q) → count_type s' b l = count_type s b l.
Proof.
  intros H. unfold count_type. do 2 f_equal. induction l as [|x l IH]; [done|].
  rewrite !filter_cons. rewrite H by set_solver.
  rewrite IH by (intros; apply H; set_solver). done.
Qed.

(** ** Conflicts *)

(** The region [g] lets a task of type [ty] in. *)
Definition compatible (ty : Z) (g : FLockRegion) : Prop :=
  fr_writes g = 0 ∧ (ty = LOCK_EX → fr_reads g = 0).

(** A task the entry knows: its object exists and so does its region. *)
Definition known (s : FlockState) (h : ptr) : Prop :=
  ∃ t r, ftask_objs s !! h = Some t ∧ ft_region t = Some r ∧ r ∈ fe_regions (entry s).

Lemma in_queue_known s k r q : r ∈ fe_regions (entry s) → in_queue s k r q → known s q.
Proof. intros Hr (t & ? & ? & _). by exists t, r. Qed.

Lemma load_region_run s r g : region_objs s !! r = Some g → load_region r s = Some (g, s).
Proof. unfold load_region. by intros ->. Qed.
Lemma load_ftask_run s p t : ftask_objs s !! p = Some t → load_ftask p s = Some (t, s).
Proof. unfold load_ftask. by intros ->. Qed.
Lemma update_region_run s r g f :
  region_objs s !! r = Some g →
  update_region r f s = Some ((), set_region_objs (<[r := f g]> (region_objs s)) s).
Proof. unfold update_region. by intros ->. Qed.
Lemma update_ftask_run s p t f :
  ftask_objs s !! p = Some t →
  update_ftask p f s = Some ((), set_ftask_objs (<[p := f t]> (ftask_objs s)) s).
Proof. unfold update_ftask. by intros ->. Qed.
Lemma modify_entry_run f s : modify_entry f s = Some ((), set_entry (f (entry s)) s).
Proof. done. Qed.
Lemma fget_run (s : FlockState) : get_st s = Some (s, s).
Proof. done. Qed.
Lemma f_non_null_run (s : FlockState) {A} (o : option A) x :
  o = Some x → non_null o s = Some (x, s).
Proof. by intros ->. Qed.

Ltac fstep :=
  erewrite bind_run;
  [| first [ apply fget_run | apply modify_entry_run
           | apply load_region_run; eassumption | apply load_ftask_run; eassumption
           | eapply update_region_run; eassumption | eapply update_ftask_run; eassumption
           | apply f_non_null_run; eassumption ] ];
  cbn beta.

Lemma past_end mine g g' :
  range_ok mine → 0 < fr_length mine → fr_offset mine + fr_length mine < fr_offset g →
  fr_offset g ≤ fr_offset g' → is_region_overlap mine g' = false.
Proof.
  intros Hm Hl He Ho. pose proof Hm as (? & ? & ?). unfold is_region_overlap.
  rewrite (end_small mine) by done.
  destruct (Z.ltb_spec (fr_offset mine) (fr_offset g')); [|lia].
  rewrite orb_false_iff, Z.eqb_neq, Z.ltb_ge. lia.
Qed.

Lemma head_elem {A} (l : list A) x : head l = Some x → x ∈ l.
Proof. destruct l; simpl; [done|]. intros [= ->]. set_solver. Qed.

Lemma locked_head s r g ty :
  region_ok s r g →
  (0 <? fr_writes g) || ((ty =? LOCK_EX) && (0 <? fr_reads g)) = true →
  ∃ h, head (fr_locked g) = Some h.
Proof.
  intros Hg Hb. destruct (fr_locked g) as [|h l] eqn:E; [exfalso|by exists h].
  rewrite (region_reads _ _ _ Hg), (region_writes _ _ _ Hg), E in Hb.
  unfold count_type in Hb. simpl in Hb. by rewrite andb_false_r in Hb.
Qed.

Lemma compatible_intro s r g ty :
  region_ok s r g →
  (0 <? fr_writes g) || ((ty =? LOCK_EX) && (0 <? fr_reads g)) = false →
  compatible ty g.
Proof.
  intros Hg Hb. pose proof (region_reads _ _ _ Hg). pose proof (region_writes _ _ _ Hg).
  pose proof (count_type_nonneg s true (fr_locked g)).
  pose proof (count_type_nonneg s false (fr_locked g)).
  apply orb_false_iff in Hb as [Hw Hr]. apply Z.ltb_ge in Hw. split; [lia|].
  intros ->. rewrite Z.eqb_refl in Hr. simpl in Hr. apply Z.ltb_ge in Hr. lia.
Qed.

(** The loop finds a known task unless every overlapping region lets the task
    in. *)
Lemma conflict_loop_run s ty mine cw rs found n :
  (∀ r, r ∈ rs → r ∈ fe_regions (entry s)) → flock_ok s →
  StronglySorted (offset_le s) rs → range_ok mine →
  ∃ f m, conflict_loop ty mine cw rs found n s = Some ((f, m), s) ∧
    (f = None → found = None ∧ ∀ r g, r ∈ rs → region_objs s !! r = Some g →
       is_region_overlap mine g = true → compatible ty g) ∧
    (∀ h, f = Some h → found = Some h ∨ known s h).
Proof.
  intros Hsub Hok Hs Hm. revert found n.
  induction rs as [|r rs IH]; intros found n; cbn [conflict_loop].
  { exists found, n. split; [done|]. split; [|auto]. intros. split; [done|].
    intros. set_solver. }
  destruct (ok_regions _ Hok r) as (g & Hg & Hrok); [apply Hsub; set_solver|].
  inversion Hs as [|? ? Hs' Hle]; subst.
  assert (r ∈ fe_regions (entry s)) as Hrin by (apply Hsub; set_solver).
  specialize (IH (λ r' H, Hsub r' (list_elem_of_further r' r rs H)) Hs').
  assert (∀ found' n', (∀ h, found' = Some h → found = Some h ∨ known s h) →
     (found' = None → found = None ∧ (is_region_overlap mine g = true → compatible ty g)) →
    ∃ f m, conflict_loop ty mine cw rs found' n' s = Some ((f, m), s) ∧
    (f = None → found = None ∧ ∀ r' g', r' ∈ r :: rs → region_objs s !! r' = Some g' →
       is_region_overlap mine g' = true → compatible ty g') ∧
    (∀ h, f = Some h → found = Some h ∨ known s h)) as Hnext.
  { intros found' n' H1 H2. destruct (IH found' n') as (f & m & Hrun & Hn & Hk).
    exists f, m. split; [done|]. split.
    - intros ->. destruct (Hn eq_refl) as [Ef Hall]. destruct (H2 Ef) as [? Hg'].
      split; [done|]. intros r' g' [->|Hr']%elem_of_cons Hg''; [simplify_eq; auto|eauto].
    - intros h Hh. destruct (Hk h Hh) as [?|?]; auto. }
  fstep. destruct (is_region_overlap mine g) eqn:Eo.
  - destruct cw; [destruct (head (fr_waiting g)) as [w|] eqn:Ew|].
    + apply Hnext; destruct found as [f|]; try done; auto.
      intros h [= <-]. right. eapply in_queue_known; [exact Hrin|].
      apply (region_waiting_q _ _ _ Hrok). by apply head_elem.
    + destruct ((0 <? fr_writes g) || _) eqn:Eb.
      * destruct (locked_head s r g ty Hrok Eb) as [h0 Eh]. rewrite Eh.
        apply Hnext; destruct found as [f|]; try done; auto.
        intros h [= <-]. right. eapply in_queue_known; [exact Hrin|].
        apply (region_locked _ _ _ Hrok). by apply head_elem.
      * apply Hnext; [auto|]. intros ->. split; [done|].
        intros _. by eapply compatible_intro.
    + destruct ((0 <? fr_writes g) || _) eqn:Eb.
      * destruct (locked_head s r g ty Hrok Eb) as [h0 Eh]. rewrite Eh.
        apply Hnext; destruct found as [f|]; try done; auto.
        intros h [= <-]. right. eapply in_queue_known; [exact Hrin|].
        apply (region_locked _ _ _ Hrok). by apply head_elem.
      * apply Hnext; [auto|]. intros ->. split; [done|].
        intros _. by eapply compatible_intro.
  - destruct ((0 <? fr_length mine) && _) eqn:Eb.
    + exists found, n. split; [done|]. split; [|auto]. intros Hn. split; [done|].
      apply andb_true_iff in Eb as [El Ee]. apply Z.ltb_lt in El, Ee.
      rewrite end_small in Ee by done.
      intros r' g' Hr' Hg' Hov. exfalso.
      rewrite (past_end mine g g') in Hov; try done.
      apply elem_of_cons in Hr' as [->|Hr']; [simplify_eq; lia|].
      rewrite Forall_forall in Hle. by apply (Hle r' Hr').
    + apply Hnext; [auto|]. intros ->. by split.
Qed.

(** Every overlapping region lets the task in. *)
Definition no_conflict (s : FlockState) (ty : Z) (mine : FLockRegion) : Prop :=
  ∀ r g, r ∈ fe_regions (entry s) → region_objs s !! r = Some g →
    is_region_overlap mine g = true → compatible ty g.

Section conflict.
Context (s : FlockState) (p r : ptr) (t : FLockTask) (g : FLockRegion).
Context (Hok : flock_ok s) (Hp : ftask_objs s !! p = Some t)
  (Hr : ft_region t = Some r) (Hg : region_objs s !! r = Some g) (Hm : range_ok g).

Lemma conflict_by_region_run cw :
  ∃ f n, get_conflict_ftask_by_region p cw s = Some ((f, n), s) ∧
    (f = None → no_conflict s (ft_type t) g) ∧ (∀ h, f = Some h → known s h).
Proof using All.
  unfold get_conflict_ftask_by_region. do 4 fstep.
  destruct (conflict_loop_run s (ft_type t) g cw (fe_regions (entry s)) None 0)
    as (f & n & Hrun & Hn & Hk); [done|done|by apply ok_sorted|done|].
  exists f, n. split; [done|]. split.
  - intros ->. destruct (Hn eq_refl) as [_ H]. exact H.
  - intros h ->. by destruct (Hk h eq_refl).
Qed.

Lemma waiting_overlap_run l :
  (∀ q, q ∈ l → q ∈ fe_waiting_tasks (entry s)) →
  ∃ w, waiting_overlap g l s = Some (w, s) ∧ ∀ h, w = Some h → known s h.
Proof using All.
  induction l as [|q l IH]; intros Hl; cbn [waiting_overlap]; [by exists None|].
  destruct (ok_waiting _ Hok q) as (rq & Hrq & tq & Hq & Hrt & Hw); [apply Hl; set_solver|].
  destruct (ok_regions _ Hok rq Hrq) as (gq & Hgq & _).
  do 3 fstep. destruct (is_region_overlap g gq).
  - exists (Some q). split; [done|]. intros h [= <-]. by exists tq, rq.
  - apply IH. intros. apply Hl. set_solver.
Qed.

Lemma conflict_task_run :
  ∃ f b, get_conflict_flock_task p s = Some ((f, b), s) ∧
    (f = None → no_conflict s (ft_type t) g) ∧ (∀ h, f = Some h → known s h).
Proof using All.
  unfold get_conflict_flock_task.
  destruct (conflict_by_region_run true) as (f & n & Hrun & Hn & Hk).
  run_with Hrun. cbn beta iota. fstep.
  destruct (waiting_overlap_run (fe_waiting_tasks (entry s)) ltac:(done))
    as (w & Hrw & Hwk).
  assert (∃ f' b', (s ← get_st; r ← non_null (ft_region t); mine ← load_region r;
       wait ← waiting_overlap mine (fe_waiting_tasks (entry s));
       match wait with
       | Some w => mret (Some w, true)
       | None => match f with
         | None => mret (None, false)
         | Some f => ft ← load_ftask f;
             mret (Some f, negb (bool_decide (ft_region ft = ft_region t)))
         end end) s = Some ((f', b'), s) ∧
    (f' = None → no_conflict s (ft_type t) g) ∧ (∀ h, f' = Some h → known s h)) as Hcg.
  { do 3 fstep. run_with Hrw. destruct w as [w|]; [exists (Some w), true; naive_solver|].
    destruct f as [f|]; [|exists None, false; naive_solver].
    destruct (Hk f eq_refl) as (tf & rf & Htf & _). fstep.
    eexists (Some f), _. naive_solver. }
  destruct f as [f|].
  - destruct (1 <? n); [|done]. exists (Some f), true. naive_solver.
  - destruct (ft_type t =? LOCK_EX); [|done]. exists None, false. naive_solver.
Qed.
End conflict.

(** ** Changing one task and its region *)

(** [l'] is [l] without [p], or with [p] at the end when [b]. *)
Definition moved (b : bool) (p : ptr) (l l' : list ptr) : Prop :=
  l' = list_del p l ++ (if b then [p] else []).

Lemma moved_elem b p l l' q : moved b p l l' → q ∈ l' → q = p ∧ b = true ∨ q ≠ p ∧ q ∈ l.
Proof.
  intros -> Hq. apply elem_of_app in Hq as [Hq|Hq].
  - right. by apply list_del_elem.
  - destruct b; [|set_solver]. left. set_solver.
Qed.

Lemma moved_NoDup b p l l' : moved b p l l' → NoDup l → NoDup l'.
Proof.
  intros -> Hnd. apply NoDup_app. split_and!.
  - by apply list_del_NoDup.
  - intros x Hx. apply list_del_elem in Hx. destruct b; set_solver.
  - destruct b; [apply NoDup_singleton|constructor].
Qed.

Definition queue_is (t : FLockTask) (k : Z) : bool := ft_which_queue t =? k.

(** One task [p] of the region [r] moves between queues: the lists of [r] and
    the global waiting list are rebuilt to match its new [which_queue]. *)
Record moves (s s' : FlockState) (p r : ptr) (t t' : FLockTask) (g g' : FLockRegion) : Prop := {
  mv_task : ftask_objs s !! p = Some t;
  mv_region : ft_region t = Some r;
  mv_type : ft_type t = LOCK_SH ∨ ft_type t = LOCK_EX;
  mv_same : ft_region t' = ft_region t ∧ ft_type t' = ft_type t;
  mv_g : region_objs s !! r = Some g;
  mv_r : r ∈ fe_regions (entry s);
  mv_range : fr_offset g' = fr_offset g ∧ fr_length g' = fr_length g;
  mv_tasks' : ftask_objs s' = <[p := t']> (ftask_objs s);
  mv_objs' : region_objs s' = <[r := g']> (region_objs s);
  mv_regions' : fe_regions (entry s') = fe_regions (entry s);
  mv_locked : moved (queue_is t' 1) p (fr_locked g) (fr_locked g');
  mv_waiting : moved (queue_is t' 2) p (fr_waiting g) (fr_waiting g');
  mv_global : moved (queue_is t' 3) p (fe_waiting_tasks (entry s)) (fe_waiting_tasks (entry s'));
  mv_counts : fr_reads g' = count_type s true (fr_locked g') ∧
              fr_writes g' = count_type s false (fr_locked g');
  mv_free : ft_which_queue t' = 1 → no_conflict s (ft_type t) g
}.

Section moves.
Context (s s' : FlockState) (p r : ptr) (t t' : FLockTask) (g g' : FLockRegion).
Context (Hok : flock_ok s) (Hmv : moves s s' p r t t' g g').

Lemma moves_is_sh q : is_sh s' q = is_sh s q.
Proof using Hmv.
  destruct Hmv as [Hp _ _ [_ Hty] _ _ _ Ht' _ _ _ _ _ _ _].
  unfold is_sh. rewrite Ht'. destruct (decide (p = q)) as [->|].
  - by rewrite lookup_insert_eq, Hp, Hty.
  - by rewrite lookup_insert_ne.
Qed.

Lemma moves_in_queue_ne k r0 q : q ≠ p → in_queue s k r0 q → in_queue s' k r0 q.
Proof using Hmv.
  intros Hne (tq & Hq & H). exists tq. split; [|done].
  rewrite (mv_tasks' _ _ _ _ _ _ _ _ Hmv). by rewrite lookup_insert_ne.
Qed.

Lemma moves_in_queue_p k : queue_is t' k = true → in_queue s' k r p.
Proof using Hmv.
  intros Hk. apply Z.eqb_eq in Hk.
  destruct Hmv as [Hp Hr Hty [Hr' Hty'] _ _ _ Ht' _ _ _ _ _ _ _].
  exists t'. rewrite Ht', lookup_insert_eq, Hr', Hty'. auto.
Qed.

Lemma moves_other k r0 q : r0 ≠ r → in_queue s k r0 q → q ≠ p.
Proof using Hmv.
  intros Hne (tq & Hq & Hrq & _) ->. rewrite (mv_task _ _ _ _ _ _ _ _ Hmv) in Hq.
  pose proof (mv_region _ _ _ _ _ _ _ _ Hmv). congruence.
Qed.

Lemma moves_region_r : region_ok s r g → region_ok s' r g'.
Proof using Hok Hmv.
  intros [Hrange Hln Hl Hwn Hw _ _].
  destruct Hmv as [_ _ _ _ _ _ [Ho Hlen] _ _ _ Hlk Hwt _ [Hc1 Hc2] _].
  split.
  - unfold range_ok in *. by rewrite Ho, Hlen.
  - by eapply moved_NoDup.
  - intros q Hq. destruct (moved_elem _ _ _ _ _ Hlk Hq) as [[-> ?]|[? ?]].
    + by apply moves_in_queue_p.
    + apply moves_in_queue_ne; auto.
  - by eapply moved_NoDup.
  - intros q Hq. destruct (moved_elem _ _ _ _ _ Hwt Hq) as [[-> ?]|[? ?]].
    + by apply moves_in_queue_p.
    + apply moves_in_queue_ne; auto.
  - rewrite Hc1. symmetry. apply count_type_ext. intros. apply moves_is_sh.
  - rewrite Hc2. symmetry. apply count_type_ext. intros. apply moves_is_sh.
Qed.

Lemma moves_region_ne r0 g0 : r0 ≠ r → region_ok s r0 g0 → region_ok s' r0 g0.
Proof using Hok Hmv.
  intros Hne [Hrange Hln Hl Hwn Hw Hr1 Hr2]. split; try done.
  - intros q Hq. apply moves_in_queue_ne; [eapply moves_other; eauto|auto].
  - intros q Hq. apply moves_in_queue_ne; [eapply moves_other; eauto|auto].
  - rewrite Hr1. symmetry. apply count_type_ext. intros. apply moves_is_sh.
  - rewrite Hr2. symmetry. apply count_type_ext. intros. apply moves_is_sh.
Qed.

Lemma moves_lookup r0 g0 :
  region_objs s' !! r0 = Some g0 →
  ∃ g1, region_objs s !! r0 = Some g1 ∧ fr_offset g0 = fr_offset g1 ∧
    fr_length g0 = fr_length g1 ∧
    (∀ q, q ∈ fr_locked g0 → q ≠ p → q ∈ fr_locked g1).
Proof using Hok Hmv.
  destruct Hmv as [_ _ _ _ Hg _ [Ho Hl] _ Hobjs _ Hlk _ _ _ _].
  rewrite Hobjs. destruct (decide (r = r0)) as [<-|Hne].
  - rewrite lookup_insert_eq. intros [= <-]. exists g. split_and!; try done.
    intros q Hq Hqp. by destruct (moved_elem _ _ _ _ _ Hlk Hq) as [[? _]|[_ ?]].
  - rewrite lookup_insert_ne by done. intros H. exists g0. by split_and!.
Qed.
End moves.

Lemma overlap_ext g1 g2 h1 h2 :
  fr_offset g1 = fr_offset h1 → fr_length g1 = fr_length h1 →
  fr_offset g2 = fr_offset h2 → fr_length g2 = fr_length h2 →
  is_region_overlap g1 g2 = is_region_overlap h1 h2.
Proof. unfold is_region_overlap. by intros -> -> -> ->. Qed.

(** A task let into a region with compatible tasks only. *)
Lemma compatible_sh s r g q ty :
  region_ok s r g → compatible ty g → q ∈ fr_locked g → (ty = LOCK_SH ∨ ty = LOCK_EX) →
  ty = LOCK_SH ∧ is_sh s q = true.
Proof.
  intros Hg [Hw Hr] Hq Hty. pose proof (region_reads _ _ _ Hg) as Er.
  pose proof (region_writes _ _ _ Hg) as Ew.
  assert (is_sh s q = true) as Hsh.
  { destruct (is_sh s q) eqn:E; [done|].
    assert (count_type s false (fr_locked g) > 0) by (apply count_type_pos; eauto). lia. }
  split; [|done]. destruct Hty as [->| ->]; [done|].
  assert (count_type s true (fr_locked g) > 0) by (apply count_type_pos; eauto).
  specialize (Hr eq_refl). lia.
Qed.

Section moves_ok.
Context (s s' : FlockState) (p r : ptr) (t t' : FLockTask) (g g' : FLockRegion).
Context (Hok : flock_ok s) (Hmv : moves s s' p r t t' g g').

(** [p] holds a region of [s'] only if it is [r], and nothing is in its way. *)
Lemma moves_p_locked r1 g1 :
  r1 ∈ fe_regions (entry s') → region_objs s' !! r1 = Some g1 → p ∈ fr_locked g1 →
  fr_offset g1 = fr_offset g ∧ fr_length g1 = fr_length g ∧ no_conflict s (ft_type t) g.
Proof using Hok Hmv.
  intros Hr1 Hg1 Hp1.
  pose proof Hmv as [_ _ _ _ Hg _ [Ho Hl] _ Hobjs Hregs Hlk _ _ _ Hfree].
  rewrite Hobjs in Hg1. rewrite Hregs in Hr1. destruct (decide (r = r1)) as [<-|Hne].
  - rewrite lookup_insert_eq in Hg1. injection Hg1 as <-. split_and!; [done|done|].
    destruct (moved_elem _ _ _ _ _ Hlk Hp1) as [[_ Hq]|[? _]]; [|done].
    apply Hfree. by apply Z.eqb_eq.
  - rewrite lookup_insert_ne in Hg1 by done. exfalso.
    destruct (ok_regions _ Hok r1 Hr1) as (g2 & ? & Hrok). simplify_eq.
    eapply (moves_other s s' p r t t' g g' Hmv 1 r1 p); [done| |done].
    by apply (region_locked _ _ _ Hrok).
Qed.

Lemma moves_exclusion_p r2 g1 g2 q :
  r2 ∈ fe_regions (entry s') → region_objs s' !! r2 = Some g2 →
  fr_offset g1 = fr_offset g → fr_length g1 = fr_length g →
  no_conflict s (ft_type t) g → is_region_overlap g1 g2 = true →
  q ∈ fr_locked g2 → p ≠ q → is_sh s p = true ∧ is_sh s q = true.
Proof using Hok Hmv.
  intros Hr2 Hg2 Ho Hl Hnc Hov Hq Hne.
  destruct (moves_lookup s s' p r t t' g g' Hok Hmv r2 g2 Hg2)
    as (h2 & Hh2 & Ho2 & Hl2 & Hlk2).
  rewrite (mv_regions' _ _ _ _ _ _ _ _ Hmv) in Hr2.
  rewrite (overlap_ext g1 g2 g h2) in Hov by done.
  destruct (ok_regions _ Hok r2 Hr2) as (h & ? & Hrok). simplify_eq.
  destruct (compatible_sh s r2 h2 q (ft_type t)) as [Ht Hsh];
    [done|by eapply Hnc|by apply Hlk2|by apply (mv_type _ _ _ _ _ _ _ _ Hmv)|].
  split; [|done]. unfold is_sh. rewrite (mv_task _ _ _ _ _ _ _ _ Hmv), Ht. done.
Qed.

Lemma moves_exclusion : exclusion s'.
Proof using Hok Hmv.
  intros r1 r2 g1 g2 p1 q Hr1 Hr2 Hg1 Hg2 Hov Hp1 Hq Hne.
  rewrite !(moves_is_sh s s' p r t t' g g' Hmv).
  destruct (decide (p1 = p)) as [->|Hp].
  - destruct (moves_p_locked r1 g1 Hr1 Hg1 Hp1) as (? & ? & ?).
    by eapply (moves_exclusion_p r2 g1 g2 q).
  - destruct (decide (q = p)) as [->|Hqp].
    + destruct (moves_p_locked r2 g2 Hr2 Hg2 Hq) as (? & ? & ?).
      rewrite is_region_overlap_sym in Hov.
      destruct (moves_exclusion_p r1 g2 g1 p1) as [? ?]; auto.
    + destruct (moves_lookup s s' p r t t' g g' Hok Hmv r1 g1 Hg1)
        as (h1 & Hh1 & Ho1 & Hl1 & Hlk1).
      destruct (moves_lookup s s' p r t t' g g' Hok Hmv r2 g2 Hg2)
        as (h2 & Hh2 & Ho2 & Hl2 & Hlk2).
      rewrite (mv_regions' _ _ _ _ _ _ _ _ Hmv) in Hr1, Hr2.
      rewrite (overlap_ext g1 g2 h1 h2) in Hov by done.
      eapply (ok_exclusion _ Hok r1 r2 h1 h2); eauto.
Qed.

Lemma moves_ok : flock_ok s'.
Proof using Hok Hmv.
  pose proof Hmv as [Hp Hr Hty [Hr' Hty'] Hg Hrin [Ho Hl] Ht' Hobjs Hregs _ _ Hgl _ _].
  split; rewrite ?Hregs.
  - intros r0 Hr0. destruct (ok_regions _ Hok r0 Hr0) as (g0 & Hg0 & Hrok).
    rewrite Hobjs. destruct (decide (r = r0)) as [<-|Hne].
    + exists g'. rewrite lookup_insert_eq. split; [done|]. simplify_eq.
      by eapply moves_region_r.
    + exists g0. rewrite lookup_insert_ne by done. split; [done|].
      by eapply moves_region_ne.
  - by apply ok_regions_NoDup.
  - eapply StronglySorted_impl'; [|by apply ok_sorted].
    intros r1 r2 Hle h1 h2 H1 H2.
    destruct (moves_lookup s s' p r t t' g g' Hok Hmv r1 h1 H1) as (k1 & ? & -> & _).
    destruct (moves_lookup s s' p r t t' g g' Hok Hmv r2 h2 H2) as (k2 & ? & -> & _).
    by apply Hle.
  - eapply moved_NoDup; [exact Hgl|by apply ok_waiting_NoDup].
  - intros q Hq. destruct (moved_elem _ _ _ _ _ Hgl Hq) as [[-> Hk]|[Hne Hq']].
    + exists r. split; [done|]. by eapply moves_in_queue_p.
    + destruct (ok_waiting _ Hok q Hq') as (rq & ? & ?). exists rq. split; [done|].
      by eapply moves_in_queue_ne.
  - apply moves_exclusion.
Qed.
End moves_ok.

(** ** The queue moves of the operations *)

Section not_in.
Context (s : FlockState) (p r : ptr) (t : FLockTask) (g : FLockRegion).
Context (Hok : flock_ok s) (Hp : ftask_objs s !! p = Some t)
  (Hr : r ∈ fe_regions (entry s)) (Hg : region_objs s !! r = Some g).

Lemma not_in_locked : ft_which_queue t ≠ 1 → p ∉ fr_locked g.
Proof using All.
  intros Hw Hin. destruct (ok_regions _ Hok r Hr) as (g0 & ? & Hrok). simplify_eq.
  destruct (region_locked _ _ _ Hrok p Hin) as (t0 & ? & _ & Hq & _). by simplify_eq.
Qed.

Lemma not_in_waiting : ft_which_queue t ≠ 2 → p ∉ fr_waiting g.
Proof using All.
  intros Hw Hin. destruct (ok_regions _ Hok r Hr) as (g0 & ? & Hrok). simplify_eq.
  destruct (region_waiting_q _ _ _ Hrok p Hin) as (t0 & ? & _ & Hq & _). by simplify_eq.
Qed.

Lemma not_in_global : ft_which_queue t ≠ 3 → p ∉ fe_waiting_tasks (entry s).
Proof using Hok Hp.
  intros Hw Hin. destruct (ok_waiting _ Hok p Hin) as (r0 & _ & t0 & ? & _ & Hq & _).
  by simplify_eq.
Qed.

Lemma counts_ok :
  fr_reads g = count_type s true (fr_locked g) ∧
  fr_writes g = count_type s false (fr_locked g) ∧ range_ok g.
Proof using Hok Hr Hg.
  destruct (ok_regions _ Hok r Hr) as (g0 & ? & Hrok). simplify_eq.
  split_and!; apply Hrok.
Qed.
End not_in.

(** The region after [add_to_locked] and [remove_from_locked]. *)
Definition lock_region (p : ptr) (sh : bool) (g : FLockRegion) : FLockRegion :=
  mkFLockRegion (fr_offset g) (fr_length g)
    (if sh then fr_reads g + 1 else fr_reads g) (if sh then fr_writes g else fr_writes g + 1)
    (fr_locked g ++ [p]) (fr_waiting g) (fr_ref_count g).
Definition unlock_region (p : ptr) (sh : bool) (g : FLockRegion) : FLockRegion :=
  mkFLockRegion (fr_offset g) (fr_length g)
    (if sh then fr_reads g - 1 else fr_reads g) (if sh then fr_writes g else fr_writes g - 1)
    (list_del p (fr_locked g)) (list_del p (fr_waiting g)) (fr_ref_count g).

Section queue_runs.
Context (s : FlockState) (p r : ptr) (t : FLockTask) (g : FLockRegion).
Context (Hp : ftask_objs s !! p = Some t) (Hr : ft_region t = Some r)
  (Hg : region_objs s !! r = Some g).

Lemma add_to_locked_run :
  add_to_locked p s = Some ((), mkFlockState (entry s)
    (<[r := lock_region p (ft_type t =? LOCK_SH) g]> (region_objs s))
    (<[p := set_which_queue FDIR_FLOCK_TASK_IN_LOCKED_QUEUE t]> (ftask_objs s))
    (sys_objs s) (region_avail s) (nio_notified s)).
Proof using All.
  unfold add_to_locked. fstep. fstep. fstep. fstep.
  erewrite update_region_run by apply lookup_insert_eq.
  unfold set_region_objs, set_ftask_objs; simpl. rewrite insert_insert_eq.
  by destruct (ft_type t =? LOCK_SH).
Qed.

Lemma flink_del_run :
  flink_del p s = Some ((), mkFlockState
    (set_waiting_tasks (list_del p (fe_waiting_tasks (entry s))) (entry s))
    (<[r := set_lists (list_del p (fr_locked g)) (list_del p (fr_waiting g)) g]>
       (region_objs s))
    (ftask_objs s) (sys_objs s) (region_avail s) (nio_notified s)).
Proof using All. unfold flink_del. fstep. fstep. fstep. done. Qed.

Lemma remove_from_locked_run :
  remove_from_locked p s = Some ((), mkFlockState
    (set_waiting_tasks (list_del p (fe_waiting_tasks (entry s))) (entry s))
    (<[r := unlock_region p (ft_type t =? LOCK_SH) g]> (region_objs s))
    (<[p := set_which_queue FDIR_FLOCK_TASK_NOT_IN_QUEUE t]> (ftask_objs s))
    (sys_objs s) (region_avail s) (nio_notified s)).
Proof using All.
  unfold remove_from_locked. fstep. fstep. fstep. fstep.
  unfold flink_del.
  erewrite bind_run by (apply load_ftask_run; simpl; apply lookup_insert_eq).
  cbn beta. simpl. rewrite Hr. erewrite bind_run by done. cbn beta.
  erewrite bind_run by (apply update_region_run; simpl; apply lookup_insert_eq).
  simpl. unfold set_region_objs, set_ftask_objs, set_entry; simpl.
  rewrite insert_insert_eq. by destruct (ft_type t =? LOCK_SH).
Qed.
End queue_runs.

Lemma moved_stay p l : p ∉ l → moved false p l l.
Proof. intros Hp. unfold moved. by rewrite list_del_id, app_nil_r. Qed.
Lemma moved_add p l : p ∉ l → moved true p l (l ++ [p]).
Proof. intros Hp. unfold moved. by rewrite list_del_id. Qed.
Lemma moved_del p l : moved false p l (list_del p l).
Proof. unfold moved. by rewrite app_nil_r. Qed.

Lemma is_sh_task s p t : ftask_objs s !! p = Some t → is_sh s p = (ft_type t =? LOCK_SH).
Proof. unfold is_sh. by intros ->. Qed.

Lemma lock_counts s p t g g' :
  ftask_objs s !! p = Some t →
  fr_reads g = count_type s true (fr_locked g) →
  fr_writes g = count_type s false (fr_locked g) →
  fr_locked g' = fr_locked g ++ [p] →
  fr_reads g' = (if ft_type t =? LOCK_SH then fr_reads g + 1 else fr_reads g) →
  fr_writes g' = (if ft_type t =? LOCK_SH then fr_writes g else fr_writes g + 1) →
  fr_reads g' = count_type s true (fr_locked g') ∧
  fr_writes g' = count_type s false (fr_locked g').
Proof.
  intros Hp E1 E2 -> -> ->. rewrite !count_type_app, !count_type_one, (is_sh_task _ _ _ Hp).
  destruct (ft_type t =? LOCK_SH); simpl; lia.
Qed.

(** A task that waits nowhere or waits for [r] takes the region. *)
Lemma lock_ok s s' p r t g g' :
  flock_ok s → ftask_objs s !! p = Some t → ft_region t = Some r →
  r ∈ fe_regions (entry s) → region_objs s !! r = Some g →
  (ft_type t = LOCK_SH ∨ ft_type t = LOCK_EX) → ft_which_queue t ≠ 1 →
  no_conflict s (ft_type t) g →
  ftask_objs s' = <[p := set_which_queue FDIR_FLOCK_TASK_IN_LOCKED_QUEUE t]> (ftask_objs s) →
  region_objs s' = <[r := g']> (region_objs s) →
  fe_regions (entry s') = fe_regions (entry s) →
  fe_waiting_tasks (entry s') = list_del p (fe_waiting_tasks (entry s)) →
  fr_waiting g' = list_del p (fr_waiting g) → fr_locked g' = fr_locked g ++ [p] →
  fr_offset g' = fr_offset g ∧ fr_length g' = fr_length g →
  fr_reads g' = (if ft_type t =? LOCK_SH then fr_reads g + 1 else fr_reads g) →
  fr_writes g' = (if ft_type t =? LOCK_SH then fr_writes g else fr_writes g + 1) →
  flock_ok s'.
Proof.
  intros Hok Hp Hr Hrin Hg Hty Hw Hnc Ht' Hobjs Hregs Hgl Hwt Hlk Hrange Hrd Hwr.
  destruct (counts_ok s r g Hok Hrin Hg) as (E1 & E2 & _).
  eapply (moves_ok s s' p r t (set_which_queue FDIR_FLOCK_TASK_IN_LOCKED_QUEUE t) g g' Hok). split; try done.
  - rewrite Hlk. apply moved_add. by eapply not_in_locked.
  - rewrite Hwt. apply moved_del.
  - rewrite Hgl. apply moved_del.
  - by eapply lock_counts.
Qed.

(** A task leaves the queue it is in. *)
Lemma leave_ok s s' p r t g g' :
  flock_ok s → ftask_objs s !! p = Some t → ft_region t = Some r →
  r ∈ fe_regions (entry s) → region_objs s !! r = Some g →
  (ft_type t = LOCK_SH ∨ ft_type t = LOCK_EX) →
  ftask_objs s' = <[p := set_which_queue FDIR_FLOCK_TASK_NOT_IN_QUEUE t]> (ftask_objs s) →
  region_objs s' = <[r := g']> (region_objs s) →
  fe_regions (entry s') = fe_regions (entry s) →
  fe_waiting_tasks (entry s') = list_del p (fe_waiting_tasks (entry s)) →
  fr_waiting g' = list_del p (fr_waiting g) → fr_locked g' = list_del p (fr_locked g) →
  fr_offset g' = fr_offset g ∧ fr_length g' = fr_length g →
  fr_reads g' = count_type s true (fr_locked g') →
  fr_writes g' = count_type s false (fr_locked g') →
  flock_ok s'.
Proof.
  intros Hok Hp Hr Hrin Hg Hty Ht' Hobjs Hregs Hgl Hwt Hlk Hrange Hrd Hwr.
  eapply (moves_ok s s' p r t (set_which_queue FDIR_FLOCK_TASK_NOT_IN_QUEUE t) g g' Hok). split; try done.
  - rewrite Hlk. apply moved_del.
  - rewrite Hwt. apply moved_del.
  - rewrite Hgl. apply moved_del.
Qed.

(** A task that is in no queue joins a waiting queue. *)
Lemma wait_ok s s' p r t k g g' :
  flock_ok s → ftask_objs s !! p = Some t → ft_region t = Some r →
  r ∈ fe_regions (entry s) → region_objs s !! r = Some g →
  (ft_type t = LOCK_SH ∨ ft_type t = LOCK_EX) → ft_which_queue t = 0 → k = 2 ∨ k = 3 →
  ftask_objs s' = <[p := set_which_queue k t]> (ftask_objs s) →
  region_objs s' = <[r := g']> (region_objs s) →
  fe_regions (entry s') = fe_regions (entry s) →
  fe_waiting_tasks (entry s')
    = fe_waiting_tasks (entry s) ++ (if k =? 3 then [p] else []) →
  g' = set_lists (fr_locked g) (fr_waiting g ++ (if k =? 2 then [p] else [])) g →
  flock_ok s'.
Proof.
  intros Hok Hp Hr Hrin Hg Hty Hw Hk Ht' Hobjs Hregs Hgl Eg.
  destruct (counts_ok s r g Hok Hrin Hg) as (E1 & E2 & _).
  assert (p ∉ fr_locked g) by (eapply not_in_locked; eauto; lia).
  assert (p ∉ fr_waiting g) by (eapply not_in_waiting; eauto; lia).
  assert (p ∉ fe_waiting_tasks (entry s)) by (eapply not_in_global; eauto; lia).
  eapply (moves_ok s s' p r t (set_which_queue k t) g g' Hok).
  rewrite Eg in Hobjs |- *. split; try done.
  - unfold queue_is. simpl. destruct Hk as [->| ->]; by apply moved_stay.
  - unfold queue_is. simpl. destruct Hk as [->| ->]; simpl;
      [by apply moved_add|rewrite app_nil_r; by apply moved_stay].
  - rewrite Hgl. unfold queue_is. simpl. destruct Hk as [->| ->]; simpl;
      [rewrite app_nil_r; by apply moved_stay|by apply moved_add].
  - simpl. intros ->. lia.
Qed.

(** ** Reference counts and new regions *)

Lemma region_ok_tasks s s' r g :
  ftask_objs s' = ftask_objs s → region_ok s r g → region_ok s' r g.
Proof.
  intros E [? ? ? ? ? H1 H2]. unfold count_type, is_sh, in_queue in *.
  split; unfold count_type, is_sh, in_queue; rewrite ?E; done.
Qed.

Lemma region_ok_ref s r g n : region_ok s r g → region_ok s r (set_ref_count n g).
Proof. by intros []. Qed.

Lemma lookup_ref_count (m : gmap ptr FLockRegion) r g n r0 g0 :
  m !! r = Some g → <[r := set_ref_count n g]> m !! r0 = Some g0 →
  ∃ g1, m !! r0 = Some g1 ∧ fr_offset g0 = fr_offset g1 ∧ fr_length g0 = fr_length g1 ∧
        fr_locked g0 = fr_locked g1.
Proof.
  intros Hg. destruct (decide (r = r0)) as [->|Hne].
  - rewrite lookup_insert_eq. intros [= <-]. by exists g.
  - rewrite lookup_insert_ne by done. intros H. by exists g0.
Qed.

Lemma ref_count_ok s r g n :
  flock_ok s → region_objs s !! r = Some g →
  flock_ok (set_region_objs (<[r := set_ref_count n g]> (region_objs s)) s).
Proof.
  intros [H1 H2 H3 H4 H5 H6] Hg. split; simpl; try done.
  - intros r0 Hr0. destruct (H1 r0 Hr0) as (g0 & Hg0 & Hrok).
    destruct (decide (r = r0)) as [->|Hne].
    + simplify_eq. eexists. rewrite lookup_insert_eq. split; [done|].
      by apply region_ok_ref, (region_ok_tasks s).
    + exists g0. rewrite lookup_insert_ne by done. split; [done|].
      by apply (region_ok_tasks s).
  - eapply StronglySorted_impl'; [|exact H3]. intros r1 r2 Hle h1 h2 Hh1 Hh2.
    destruct (lookup_ref_count _ _ _ _ _ _ Hg Hh1) as (k1 & ? & -> & _).
    destruct (lookup_ref_count _ _ _ _ _ _ Hg Hh2) as (k2 & ? & -> & _). by apply Hle.
  - intros r1 r2 h1 h2 p q Hr1 Hr2 Hh1 Hh2 Hov Hp Hq Hne.
    destruct (lookup_ref_count _ _ _ _ _ _ Hg Hh1) as (k1 & ? & ? & ? & El1).
    destruct (lookup_ref_count _ _ _ _ _ _ Hg Hh2) as (k2 & ? & ? & ? & El2).
    rewrite El1 in Hp. rewrite El2 in Hq. rewrite (overlap_ext h1 h2 k1 k2) in Hov by done.
    by apply (H6 r1 r2 k1 k2 p q).
Qed.

Definition new_region (offset length : Z) : FLockRegion :=
  mkFLockRegion offset length 0 0 [] [] 1.

(** Inserting an empty region where it keeps the offsets sorted. *)
Lemma new_region_ok s p a b offset length av :
  flock_ok s → fe_regions (entry s) = a ++ b → region_objs s !! p = None →
  range_ok (new_region offset length) →
  (∀ r g, r ∈ a → region_objs s !! r = Some g → fr_offset g ≤ offset) →
  (∀ r g, r ∈ b → region_objs s !! r = Some g → offset ≤ fr_offset g) →
  flock_ok (set_entry (set_regions (a ++ p :: b) (entry s))
    (set_region_avail av
      (set_region_objs (<[p := new_region offset length]> (region_objs s)) s))).
Proof.
  intros [H1 H2 H3 H4 H5 H6] Eab Hp Hrange Ha Hb. rewrite Eab in *.
  assert (p ∉ a ++ b) as Hpn.
  { intros Hin. destruct (H1 p Hin) as (g & ? & _). congruence. }
  assert (∀ r, r ∈ a ++ p :: b → r = p ∨ r ≠ p ∧ r ∈ a ++ b) as Hcase.
  { intros r Hr. rewrite elem_of_app, elem_of_cons in Hr.
    destruct (decide (r = p)); [by left|right]. split; [done|].
    rewrite elem_of_app. tauto. }
  split; simpl; try done.
  - intros r Hr. destruct (Hcase r Hr) as [->|[Hne Hin]].
    + eexists. rewrite lookup_insert_eq. split; [done|].
      split; simpl; try done; try constructor; intros q Hq; by apply elem_of_nil in Hq.
    + destruct (H1 r Hin) as (g & Hg & Hrok). exists g.
      rewrite lookup_insert_ne by done. split; [done|]. by apply (region_ok_tasks s).
  - apply NoDup_app in H2 as (Hna & Hd & Hnb). rewrite elem_of_app in Hpn.
    apply NoDup_app. split_and!; [done| |constructor; [tauto|done]].
    intros x Hx Hin. apply elem_of_cons in Hin as [->|Hin]; [tauto|].
    by apply (Hd x).
  - apply StronglySorted_app in H3 as (Hx & Hsa & Hsb).
    assert (∀ r1 r2, r1 ≠ p → r2 ≠ p → offset_le s r1 r2 →
      offset_le (set_entry (set_regions (a ++ p :: b) (entry s)) (set_region_avail av
        (set_region_objs (<[p := new_region offset length]> (region_objs s)) s))) r1 r2)
      as Hkeep.
    { intros r1 r2 N1 N2 Hle h1 h2. simpl. rewrite !lookup_insert_ne by done. apply Hle. }
    rewrite not_elem_of_app in Hpn. destruct Hpn as [Hpa Hpb].
    apply StronglySorted_app_2.
    + intros r1 r2 Hr1 Hr2. apply elem_of_cons in Hr2 as [->|Hr2].
      * intros h1 h2. simpl. rewrite lookup_insert_ne by (intros ->; done).
        rewrite lookup_insert_eq. intros Hh1 [= <-]. by eapply Ha.
      * apply Hkeep; [by intros ->|by intros ->|by apply Hx].
    + eapply StronglySorted_impl_in; [|exact Hsa].
      intros r1 r2 Hr1 Hr2. apply Hkeep; by intros ->.
    + constructor.
      * eapply StronglySorted_impl_in; [|exact Hsb].
        intros r1 r2 Hr1 Hr2. apply Hkeep; by intros ->.
      * apply Forall_forall. intros r2 Hr2 h1 h2. simpl. rewrite lookup_insert_eq.
        rewrite lookup_insert_ne by (intros ->; done). intros [= <-] Hh2.
        by eapply Hb.
  - intros q Hq. destruct (H5 q Hq) as (r & Hr & Hq'). exists r. split; [|done].
    set_solver.
  - intros r1 r2 h1 h2 p1 q Hr1 Hr2 Hh1 Hh2 Hov Hp1 Hq Hne. simpl in *.
    destruct (Hcase r1 Hr1) as [->|[N1 I1]];
      [rewrite lookup_insert_eq in Hh1; injection Hh1 as <-; simpl in Hp1; set_solver|].
    destruct (Hcase r2 Hr2) as [->|[N2 I2]];
      [rewrite lookup_insert_eq in Hh2; injection Hh2 as <-; simpl in Hq; set_solver|].
    rewrite lookup_insert_ne in Hh1, Hh2 by done. rewrite <- Eab in I1, I2. exact (H6 r1 r2 h1 h2 p1 q I1 I2 Hh1 Hh2 Hov Hp1 Hq Hne).
Qed.

Lemma get_region_loop_run s offset length rest passed :
  (∀ r, r ∈ rest → ∃ g, region_objs s !! r = Some g) →
  StronglySorted (offset_le s) rest →
  (∀ r g, r ∈ passed → region_objs s !! r = Some g → fr_offset g ≤ offset) →
  ∃ res, get_region_loop offset length passed rest s = Some (res, s) ∧
    match res with
    | inl r => r ∈ rest ∧ ∃ g, region_objs s !! r = Some g ∧ fr_offset g = offset ∧
                               fr_length g = length
    | inr (a, b) => passed ++ rest = a ++ b ∧
        (∀ r g, r ∈ a → region_objs s !! r = Some g → fr_offset g ≤ offset) ∧
        (∀ r g, r ∈ b → region_objs s !! r = Some g → offset ≤ fr_offset g)
    end.
Proof.
  intros Hdom. revert passed.
  induction rest as [|r rest IH]; intros passed Hs Hp; cbn [get_region_loop].
  { eexists. split; [done|]. simpl. split_and!; [done|done|set_solver]. }
  destruct (Hdom r) as (g & Hg); [set_solver|]. fstep.
  inversion Hs as [|? ? Hs' Hle]; subst. rewrite Forall_forall in Hle.
  assert (offset ≤ fr_offset g →
    ∀ r' g', r' ∈ r :: rest → region_objs s !! r' = Some g' → offset ≤ fr_offset g') as Hb.
  { intros Ho r' g' [->|Hr']%elem_of_cons Hg'; [by simplify_eq|].
    specialize (Hle r' Hr' g g' Hg Hg'). lia. }
  assert (fr_offset g ≤ offset → ∃ res,
     get_region_loop offset length (passed ++ [r]) rest s = Some (res, s) ∧
     match res with
     | inl r0 => r0 ∈ r :: rest ∧ ∃ g, region_objs s !! r0 = Some g ∧ fr_offset g = offset ∧
                               fr_length g = length
     | inr (a, b) => passed ++ r :: rest = a ++ b ∧
        (∀ r g, r ∈ a → region_objs s !! r = Some g → fr_offset g ≤ offset) ∧
        (∀ r g, r ∈ b → region_objs s !! r = Some g → offset ≤ fr_offset g)
     end) as Hnext.
  { intros Ho. destruct (IH (λ r' H, Hdom r' (list_elem_of_further r' r rest H))
      (passed ++ [r]) Hs') as (res & Hrun & Hres).
    - intros r' g' [Hr'|Hr']%elem_of_app Hg'; [by eapply Hp|].
      apply list_elem_of_singleton in Hr' as ->. by simplify_eq.
    - exists res. split; [done|]. destruct res as [r0|[a b]].
      + destruct Hres as [? ?]. split; [set_solver|done].
      + by rewrite <- app_assoc in Hres. }
  destruct (Z.eqb_spec offset (fr_offset g)) as [Eo|Eo].
  - destruct (Z.eqb_spec length (fr_length g)) as [El|El].
    + eexists. split; [done|]. simpl. split; [set_solver|]. by exists g.
    + destruct (Z.ltb_spec length (fr_length g)); [|apply Hnext; lia].
      eexists. split; [done|]. simpl. split_and!; [done|done|apply Hb; lia].
  - destruct (Z.ltb_spec offset (fr_offset g)); [|apply Hnext; lia].
    eexists. split; [done|]. simpl. split_and!; [done|done|apply Hb; lia].
Qed.

Lemma alloc_region_run s g :
  alloc_region g s = Some (None, s) ∧ region_avail s = Some O ∨
  alloc_region g s = Some (Some (fresh_ptr (region_objs s)),
    set_region_avail (pred <$> region_avail s)
      (set_region_objs (<[fresh_ptr (region_objs s) := g]> (region_objs s)) s)).
Proof. unfold alloc_region. destruct (region_avail s) as [[|n]|]; auto. Qed.

Lemma get_region_run s offset length :
  flock_ok s → range_ok (new_region offset length) →
  get_region offset length s = Some (None, s) ∧ region_avail s = Some O ∨
  ∃ r g s', get_region offset length s = Some (Some r, s') ∧ flock_ok s' ∧
    r ∈ fe_regions (entry s') ∧ region_objs s' !! r = Some g ∧
    fr_offset g = offset ∧ fr_length g = length ∧
    ftask_objs s' = ftask_objs s ∧ nio_notified s' = nio_notified s ∧
    fe_waiting_tasks (entry s') = fe_waiting_tasks (entry s).
Proof.
  intros Hok Hrange. unfold get_region. fstep.
  destruct (get_region_loop_run s offset length (fe_regions (entry s)) [])
    as (res & Hrun & Hres); [|by apply ok_sorted|set_solver|].
  { intros r Hr. destruct (ok_regions _ Hok r Hr) as (g & ? & _). by exists g. }
  run_with Hrun. destruct res as [r|[a b]].
  - right. destruct Hres as (Hr & g & Hg & Ho & Hl). fstep.
    exists r, (set_ref_count (fr_ref_count g + 1) g). eexists.
    split; [done|]. split_and!; try done; [by apply ref_count_ok|].
    apply lookup_insert_eq.
  - destruct Hres as (Eab & Ha & Hb). simpl in Eab.
    destruct (alloc_region_run s (new_region offset length)) as [[Hal Hav]|Hal].
    { left. split; [|done]. by run_with Hal. }
    right. pose proof (fresh_ptr_fresh (region_objs s)) as Hf.
    run_with Hal. set (p := fresh_ptr (region_objs s)) in *.
    exists p, (new_region offset length),
      (set_entry (set_regions (a ++ p :: b) (entry s))
        (set_region_avail (pred <$> region_avail s)
          (set_region_objs (<[p := new_region offset length]> (region_objs s)) s))).
    split; [reflexivity|]. split; [by apply new_region_ok|].
    simpl. rewrite lookup_insert_eq. split_and!; try done. set_solver.
Qed.

(** A task object that is in no queue can be given a region. *)
Lemma set_region_task_ok s p t r :
  flock_ok s → ftask_objs s !! p = Some t → ft_which_queue t = 0 →
  flock_ok (set_ftask_objs (<[p := set_region r t]> (ftask_objs s)) s).
Proof.
  intros Hok Hp Hw.
  set (s' := set_ftask_objs _ s).
  assert (∀ k r0 q, k ≠ 0 → in_queue s k r0 q → in_queue s' k r0 q) as Hq.
  { intros k r0 q Hk (t0 & Ht0 & H). exists t0. split; [|done]. simpl.
    rewrite lookup_insert_ne; [done|]. intros <-. simplify_eq.
    destruct H as (_ & Hk' & _). lia. }
  assert (∀ q, is_sh s' q = is_sh s q) as Hsh.
  { intros q. unfold is_sh. simpl. destruct (decide (p = q)) as [<-|].
    - by rewrite lookup_insert_eq, Hp.
    - by rewrite lookup_insert_ne. }
  destruct Hok as [H1 H2 H3 H4 H5 H6]. split; try done.
  - intros r0 Hr0. destruct (H1 r0 Hr0) as (g & Hg & [A1 A2 A3 A4 A5 A6 A7]).
    exists g. split; [done|]. split; try done.
    + intros q Hin. apply Hq; [done|]. by apply A3.
    + intros q Hin. apply Hq; [done|]. by apply A5.
    + rewrite A6. symmetry. by apply count_type_ext.
    + rewrite A7. symmetry. by apply count_type_ext.
  - intros q Hin. destruct (H5 q Hin) as (r0 & ? & ?). exists r0. split; [done|].
    by apply Hq.
  - intros r1 r2 g1 g2 p1 q ? ? ? ? ? ? ? ?. rewrite !Hsh. by apply (H6 r1 r2 g1 g2).
Qed.

(** ** Applying a lock *)

(** Task [p] holds the byte range. *)
Definition holds (s : FlockState) (p : ptr) (offset length : Z) : Prop :=
  ∃ r g, r ∈ fe_regions (entry s) ∧ region_objs s !! r = Some g ∧
    fr_offset g = offset ∧ fr_length g = length ∧ p ∈ fr_locked g.

(** Task [p] waits for the region [r] or for several regions. *)
Definition waits (s : FlockState) (p : ptr) : Prop :=
  p ∈ fe_waiting_tasks (entry s) ∨
  ∃ r g, r ∈ fe_regions (entry s) ∧ region_objs s !! r = Some g ∧ p ∈ fr_waiting g.

Definition queue_of (s : FlockState) (p : ptr) : option Z :=
  ft_which_queue <$> ftask_objs s !! p.

Section apply.
Context (s : FlockState) (p r : ptr) (t : FLockTask) (g : FLockRegion).
Context (Hok : flock_ok s) (Hp : ftask_objs s !! p = Some t) (Hr : ft_region t = Some r)
  (Hrin : r ∈ fe_regions (entry s)) (Hg : region_objs s !! r = Some g)
  (Hty : ft_type t = LOCK_SH ∨ ft_type t = LOCK_EX) (Hw : ft_which_queue t = 0).

Lemma apply_lock_run :
  no_conflict s (ft_type t) g →
  ∃ s', add_to_locked p s = Some ((), s') ∧ flock_ok s' ∧ queue_of s' p = Some 1 ∧
    holds s' p (fr_offset g) (fr_length g) ∧ nio_notified s' = nio_notified s.
Proof using All.
  intros Hnc. rewrite (add_to_locked_run s p r t g) by done.
  eexists. split; [reflexivity|].
  assert (ft_which_queue t ≠ 1) as Hw1 by lia.
  assert (p ∉ fr_waiting g) as Hnw by (eapply not_in_waiting; eauto; lia).
  assert (p ∉ fe_waiting_tasks (entry s)) as Hng by (eapply not_in_global; eauto; lia).
  split_and!.
  - eapply (lock_ok s _ p r t g (lock_region p (ft_type t =? LOCK_SH) g));
      try done; simpl; by rewrite list_del_id.
  - unfold queue_of. simpl. by rewrite lookup_insert_eq.
  - exists r, (lock_region p (ft_type t =? LOCK_SH) g). simpl.
    rewrite lookup_insert_eq. split_and!; try done. set_solver.
  - done.
Qed.

Lemma apply_wait_run (b : bool) :
  ∃ s', (if b then
      update_ftask p (set_which_queue FDIR_FLOCK_TASK_IN_GLOBAL_WAITING_QUEUE);;
      modify_entry (λ e, set_waiting_tasks (fe_waiting_tasks e ++ [p]) e)
    else
      update_ftask p (set_which_queue FDIR_FLOCK_TASK_IN_REGION_WAITING_QUEUE);;
      update_region r (λ g, set_lists (fr_locked g) (fr_waiting g ++ [p]) g)) s
    = Some ((), s') ∧ flock_ok s' ∧ queue_of s' p = Some (if b then 3 else 2) ∧
    waits s' p ∧ nio_notified s' = nio_notified s.
Proof using All.
  destruct b.
  - fstep. rewrite modify_entry_run. eexists. split; [reflexivity|]. split_and!.
    + eapply (wait_ok s _ p r t 3 g (set_lists (fr_locked g) (fr_waiting g ++ []) g));
        try done; [by right|].
      simpl. symmetry. apply insert_id. rewrite app_nil_r, Hg. by destruct g.
    + unfold queue_of. simpl. by rewrite lookup_insert_eq.
    + left. simpl. set_solver.
    + done.
  - fstep. rewrite (update_region_run _ r g) by done. eexists.
    split; [reflexivity|]. split_and!.
    + eapply (wait_ok s _ p r t 2 g (set_lists (fr_locked g) (fr_waiting g ++ [p]) g));
        try done; [by left|]. simpl. by rewrite app_nil_r.
    + unfold queue_of. simpl. by rewrite lookup_insert_eq.
    + right. exists r. eexists. simpl. rewrite lookup_insert_eq.
      split_and!; [done|done|]. set_solver.
    + done.
Qed.
End apply.

(** [C32] Applying a lock to a well-formed entry always returns, keeps the entry
    well formed (so that the holders of overlapping ranges stay all readers or
    one writer) and puts the task where the result says: it holds exactly the
    range asked for on success, it waits when the call is in progress, and it
    is in no queue on an error; a task is told to wait only when it may block,
    and no other task is notified. *)
Theorem flock_apply_spec s p t offset length block :
  flock_ok s → ftask_objs s !! p = Some t → ft_which_queue t = 0 →
  (ft_type t = LOCK_SH ∨ ft_type t = LOCK_EX) → range_ok (new_region offset length) →
  ∃ rc s', flock_apply offset length p block s = Some (rc, s') ∧ flock_ok s' ∧
    nio_notified s' = nio_notified s ∧
    (rc = 0 ∧ queue_of s' p = Some 1 ∧ holds s' p offset length ∨
     rc = EINPROGRESS ∧ block = true ∧ waits s' p ∧
       (queue_of s' p = Some 2 ∨ queue_of s' p = Some 3) ∨
     queue_of s' p = Some 0 ∧
       (rc = ENOMEM ∧ region_avail s = Some O ∨ rc = EWOULDBLOCK ∧ block = false ∨
        rc = EDEADLK ∧ block = true)).
Proof.
  intros Hok Hp Hw Hty Hrange. unfold flock_apply.
  destruct (get_region_run s offset length Hok Hrange)
    as [[Hrun Hav]|(r & g & s1 & Hrun & Hok1 & Hr & Hg & Ho & Hl & Et & En & _)].
  { run_with Hrun. fstep. eexists _, _. split; [reflexivity|].
    split; [by apply set_region_task_ok|]. split; [done|]. right. right.
    split; [|by left]. unfold queue_of. simpl. by rewrite lookup_insert_eq, <- Hw. }
  assert (range_ok g) as Hrg by (unfold range_ok in *; simpl in *; by rewrite Ho, Hl).
  run_with Hrun. rewrite <- Et in Hp. fstep.
  set (t1 := set_region (Some r) t).
  pose proof (set_region_task_ok s1 p t (Some r) Hok1 Hp Hw) as Hok2.
  assert (ftask_objs (set_ftask_objs (<[p:=t1]> (ftask_objs s1)) s1) !! p = Some t1) as Hp2
    by (simpl; apply lookup_insert_eq).
  fold t1 in Hok2. set (s2 := set_ftask_objs _ s1) in *.
  destruct (conflict_task_run s2 p r t1 g) as (f & b & Hc & Hn & Hk); try done.
  run_with Hc. cbn beta iota. destruct f as [h|].
  - destruct block; cbn [negb].
    + destruct (Hk h eq_refl) as (th & rh & Hth & _). fstep. fstep.
      destruct (decide (ft_task t1 = ft_task th)).
      * eexists _, _. split; [reflexivity|]. split; [done|]. split; [done|].
        right. right. split; [|by right; right]. unfold queue_of. by rewrite Hp2, <- Hw.
      * destruct (apply_wait_run s2 p r t1 g Hok2 Hp2 eq_refl Hr Hg Hty Hw b)
          as (s3 & Hrun3 & Hok3 & Hq & Hwt & Hnt).
        run_with Hrun3. exists EINPROGRESS, s3. split; [reflexivity|]. split; [done|].
        split; [by rewrite Hnt|]. right. left. split_and!; try done.
        destruct b; auto.
    + eexists _, _. split; [reflexivity|]. split; [done|]. split; [done|].
      right. right. split; [|by right; left]. unfold queue_of. by rewrite Hp2, <- Hw.
  - destruct (apply_lock_run s2 p r t1 g Hok2 Hp2 eq_refl Hr Hg Hty Hw (Hn eq_refl))
      as (s3 & Hrun3 & Hok3 & Hq & Hh & Hnt).
    run_with Hrun3. exists 0, s3. split; [reflexivity|]. split; [done|].
    split; [by rewrite Hnt|]. left. subst. by split_and!.
Qed.

(** ** Waking up waiting tasks *)

(** The lists [awake_waiting_tasks] drains. *)
Inductive waiting_list (s : FlockState) : (FlockState → list ptr) → Prop :=
  | wl_region r : r ∈ fe_regions (entry s) → waiting_list s (region_waiting r)
  | wl_entry : waiting_list s entry_waiting.

(** What one round of the loop does to the task at the head of its list. *)
Definition woken (p r : ptr) (t : FLockTask) (g : FLockRegion) (s : FlockState) : FlockState :=
  mkFlockState
    (set_waiting_tasks (list_del p (fe_waiting_tasks (entry s))) (entry s))
    (<[r := lock_region p (ft_type t =? LOCK_SH)
              (set_lists (list_del p (fr_locked g)) (list_del p (fr_waiting g)) g)]>
       (region_objs s))
    (<[p := set_which_queue FDIR_FLOCK_TASK_IN_LOCKED_QUEUE t]> (ftask_objs s))
    (sys_objs s) (region_avail s) (nio_notified s ++ [ft_task t]).

Lemma waiting_list_NoDup s hd : flock_ok s → waiting_list s hd → NoDup (hd s).
Proof.
  intros Hok [r Hr|]; [|by apply ok_waiting_NoDup].
  unfold region_waiting. destruct (ok_regions _ Hok r Hr) as (g & -> & Hrok).
  apply Hrok.
Qed.

(** A task of such a list has an object, a region and a type, and holds nothing. *)
Lemma waiting_list_task s hd q :
  flock_ok s → waiting_list s hd → q ∈ hd s →
  ∃ t r g, ftask_objs s !! q = Some t ∧ ft_region t = Some r ∧ r ∈ fe_regions (entry s) ∧
    region_objs s !! r = Some g ∧ (ft_type t = LOCK_SH ∨ ft_type t = LOCK_EX) ∧
    ft_which_queue t ≠ 1 ∧ range_ok g.
Proof.
  intros Hok Hwl Hq.
  assert (∃ k r, k ≠ 1 ∧ r ∈ fe_regions (entry s) ∧ in_queue s k r q) as
    (k & r & Hk & Hr & t & Ht & Htr & Htq & Hty).
  { destruct Hwl as [r Hr|].
    - unfold region_waiting in Hq. destruct (ok_regions _ Hok r Hr) as (g & Hg & Hrok).
      rewrite Hg in Hq. exists 2, r. split_and!; [done|done|]. by apply (region_waiting_q _ _ _ Hrok).
    - destruct (ok_waiting _ Hok q Hq) as (r & Hr & Hin). exists 3, r. by split_and!. }
  destruct (ok_regions _ Hok r Hr) as (g & Hg & Hrok).
  exists t, r, g. split_and!; try done; [congruence|apply Hrok].
Qed.

Section awake.
Context (s : FlockState) (p r : ptr) (t : FLockTask) (g : FLockRegion).
Context (Hok : flock_ok s) (Hp : ftask_objs s !! p = Some t) (Hr : ft_region t = Some r)
  (Hrin : r ∈ fe_regions (entry s)) (Hg : region_objs s !! r = Some g)
  (Hty : ft_type t = LOCK_SH ∨ ft_type t = LOCK_EX) (Hw : ft_which_queue t ≠ 1).

Lemma woken_run {B} (k : M FlockState B) :
  (flink_del p;; add_to_locked p;; t0 ← load_ftask p;
   modify (λ s, set_notified (nio_notified s ++ [ft_task t0]) s);; k) s
  = k (woken p r t g s).
Proof using Hp Hr Hg.
  erewrite bind_run by (apply (flink_del_run s p r t g); done). cbn beta.
  erewrite bind_run
    by (apply (add_to_locked_run _ p r t); [done|done|simpl; apply lookup_insert_eq]).
  cbn beta. simpl.
  erewrite bind_run by (apply load_ftask_run; simpl; apply lookup_insert_eq).
  cbn beta. unfold modify. erewrite bind_run by done. cbn beta.
  unfold woken, set_notified. simpl. by rewrite insert_insert_eq.
Qed.

Lemma woken_ok : no_conflict s (ft_type t) g → flock_ok (woken p r t g s).
Proof using All.
  intros Hnc.
  eapply (lock_ok s _ p r t g
    (lock_region p (ft_type t =? LOCK_SH)
       (set_lists (list_del p (fr_locked g)) (list_del p (fr_waiting g)) g)));
    try done. simpl. rewrite list_del_id; [done|]. by eapply not_in_locked.
Qed.

Lemma woken_waiting_list hd : waiting_list s hd → waiting_list (woken p r t g s) hd.
Proof using All. intros [r0 Hr0|]; [by apply wl_region|apply wl_entry]. Qed.

Lemma woken_list hd : waiting_list s hd → hd (woken p r t g s) = list_del p (hd s).
Proof using All.
  intros [r0 Hr0|]; [|done]. unfold region_waiting. simpl.
  destruct (decide (r = r0)) as [<-|Hne].
  - by rewrite lookup_insert_eq, Hg.
  - rewrite lookup_insert_ne by done.
    destruct (ok_regions _ Hok r0 Hr0) as (g0 & -> & Hrok). symmetry. apply list_del_id.
    intros Hin. destruct (region_waiting_q _ _ _ Hrok p Hin) as (t0 & ? & ? & _).
    congruence.
Qed.

Lemma woken_holds q o l : holds s q o l → holds (woken p r t g s) q o l.
Proof using All.
  intros (r0 & g0 & Hr0 & Hg0 & Ho & Hl & Hq). unfold holds. simpl.
  destruct (decide (r = r0)) as [<-|Hne].
  - simplify_eq. exists r. eexists. rewrite lookup_insert_eq. split_and!; [done..|].
    simpl. rewrite list_del_id by (by eapply not_in_locked). set_solver.
  - exists r0, g0. rewrite lookup_insert_ne by done. by split_and!.
Qed.

Lemma woken_holds_p : holds (woken p r t g s) p (fr_offset g) (fr_length g).
Proof using All.
  exists r. eexists. simpl. rewrite lookup_insert_eq. split_and!; [done..|].
  simpl. set_solver.
Qed.
End awake.

(** The connection to notify for a lock task. *)
Definition task_of (s : FlockState) (q : ptr) : option ptr := ft_task <$> ftask_objs s !! q.

(** The state [s'] comes from [s] by waking the tasks [l], in this order. *)
Record awoken (s s' : FlockState) (hd : FlockState → list ptr) (l : list ptr) : Prop := {
  aw_ok : flock_ok s';
  aw_split : hd s = l ++ hd s';
  aw_locked : ∀ q, q ∈ l → ∃ o n, holds s' q o n;
  aw_holds : ∀ q o n, holds s q o n → holds s' q o n;
  aw_notified : nio_notified s' = nio_notified s ++ omap (task_of s) l;
  aw_others : ∀ q, q ∉ l → ftask_objs s' !! q = ftask_objs s !! q;
  aw_regions : fe_regions (entry s') = fe_regions (entry s);
  aw_waiting : ∀ q, q ∈ entry_waiting s' → q ∈ entry_waiting s;
  aw_tasks : ∀ q, task_of s' q = task_of s q
}.

Lemma awoken_refl s hd : flock_ok s → awoken s s hd [].
Proof. split; try done; [set_solver|by rewrite app_nil_r]. Qed.

Lemma awoken_step s s' p r t g hd l :
  flock_ok s → ftask_objs s !! p = Some t → ft_region t = Some r →
  r ∈ fe_regions (entry s) → region_objs s !! r = Some g →
  (ft_type t = LOCK_SH ∨ ft_type t = LOCK_EX) → ft_which_queue t ≠ 1 →
  waiting_list s hd → head (hd s) = Some p →
  awoken (woken p r t g s) s' hd l → awoken s s' hd (p :: l).
Proof.
  intros Hok Hp Hr Hrin Hg Hty Hw Hwl Hhd [A1 A2 A3 A4 A5 A6 A7 A8 A9].
  assert (∀ q, task_of (woken p r t g s) q = task_of s q) as Htk.
  { intros q. unfold task_of. simpl. destruct (decide (p = q)) as [<-|Hne].
    - by rewrite lookup_insert_eq, Hp.
    - by rewrite lookup_insert_ne. }
  pose proof (waiting_list_NoDup s hd Hok Hwl) as Hnd.
  rewrite (woken_list s p r t g) in A2 by done.
  destruct (hd s) as [|p' rest] eqn:E; [done|]. simpl in Hhd. injection Hhd as ->.
  apply NoDup_cons in Hnd as [Hnp Hnd].
  unfold list_del in A2. rewrite filter_cons_False in A2 by auto.
  fold (list_del p rest) in A2. rewrite list_del_id in A2 by done.
  split; try done.
  - by rewrite E, A2.
  - intros q [->|Hq]%elem_of_cons; [|by apply A3].
    eexists _, _. by eapply A4, woken_holds_p.
  - intros q o n Hh. by eapply A4, woken_holds.
  - rewrite A5. simpl. unfold task_of at 2. rewrite Hp. simpl. rewrite <- app_assoc.
    simpl. do 2 f_equal. apply list_omap_ext, Forall_Forall2_diag, Forall_forall.
    intros q _. apply Htk.
  - intros q Hq. apply not_elem_of_cons in Hq as [? ?]. rewrite A6 by done. simpl.
    by rewrite lookup_insert_ne.
  - intros q Hq. specialize (A8 q Hq). unfold entry_waiting in *. simpl in A8.
    by apply list_del_elem in A8 as [_ ?].
  - intros q. by rewrite A9, Htk.
Qed.

Lemma awake_run hd cw fuel : ∀ s c, flock_ok s → waiting_list s hd →
  (length (hd s) ≤ fuel)%nat →
  ∃ s' l, awake_waiting_tasks fuel hd cw c s = Some (c + Z.of_nat (length l), s') ∧
    awoken s s' hd l ∧
    (hd s' = [] ∨ ∃ w rest f n, hd s' = w :: rest ∧
       get_conflict_ftask_by_region w cw s' = Some ((Some f, n), s')).
Proof.
  induction fuel as [|fuel IH]; intros s c Hok Hwl Hf; cbn [awake_waiting_tasks]; fstep.
  { destruct (hd s) eqn:E; [|simpl in Hf; lia]. exists s, []. rewrite Z.add_0_r.
    split; [done|]. split; [by apply awoken_refl|by left]. }
  destruct (hd s) as [|w rest] eqn:E; cbn [head].
  { exists s, []. rewrite Z.add_0_r. split; [done|]. split; [by apply awoken_refl|by left]. }
  destruct (waiting_list_task s hd w Hok Hwl) as
    (t & r & g & Ht & Hr & Hrin & Hg & Hty & Hw & Hrg); [rewrite E; set_solver|].
  destruct (conflict_by_region_run s w r t g Hok Ht Hr Hg Hrg cw) as (f & n & Hc & Hn & _).
  run_with Hc. cbn beta iota. destruct f as [f|].
  { exists s, []. rewrite Z.add_0_r. split; [done|]. split; [by apply awoken_refl|].
    right. by exists w, rest, f, n. }
  rewrite (woken_run s w r t g) by done.
  specialize (Hn eq_refl).
  destruct (IH (woken w r t g s) (c + 1)) as (s' & l & Hrun & Haw & Hend).
  - by apply woken_ok.
  - by apply woken_waiting_list.
  - rewrite (woken_list s w r t g) by done. rewrite list_del_length.
    + rewrite E. simpl in *. lia.
    + by apply waiting_list_NoDup.
    + rewrite E. set_solver.
  - exists s', (w :: l). split; [|split; [|done]].
    + rewrite Hrun. do 2 f_equal. simpl length. lia.
    + eapply awoken_step; try done. by rewrite E.
Qed.

(** Waking the waiters of a region (or of the whole entry) terminates in as
    many rounds as there are waiters, wakes a prefix of the waiting list in
    arrival order, notifies exactly those tasks in that order, makes each of
    them hold its region while every earlier holder keeps its own, and stops
    only when the list is empty or its first task still conflicts: no waiter
    that could run is left asleep at the head. *)
Theorem awake_all_fifo s hd cw :
  flock_ok s → waiting_list s hd →
  ∃ s' l, awake_all hd cw s = Some (Z.of_nat (length l), s') ∧ awoken s s' hd l ∧
    (hd s' = [] ∨ ∃ w rest f n, hd s' = w :: rest ∧
       get_conflict_ftask_by_region w cw s' = Some ((Some f, n), s')).
Proof.
  intros Hok Hwl. unfold awake_all. fstep. by apply (awake_run hd cw).
Qed.

(** ** Releasing a lock *)

(** Task [p] is where its [which_queue] says. *)
Definition placed (s : FlockState) (p : ptr) (t : FLockTask) : Prop :=
  ft_which_queue t = 0 ∨
  ∃ r g, ft_region t = Some r ∧ r ∈ fe_regions (entry s) ∧ region_objs s !! r = Some g ∧
    (ft_which_queue t = 1 ∧ p ∈ fr_locked g ∨ ft_which_queue t = 2 ∧ p ∈ fr_waiting g ∨
     ft_which_queue t = 3 ∧ p ∈ fe_waiting_tasks (entry s)).

Lemma awake_unless_empty s hd cw :
  flock_ok s → waiting_list s hd →
  ∃ s' l, match hd s with [] => mret () | _ => _ ← awake_all hd cw; mret () end s
          = Some ((), s') ∧ awoken s s' hd l.
Proof.
  intros Hok Hwl. destruct (hd s) as [|w rest] eqn:E.
  - exists s, []. split; [done|by apply awoken_refl].
  - unfold awake_all.
    destruct (awake_run hd cw (length (hd s)) s 0 Hok Hwl ltac:(lia))
      as (s' & l & Hrun & Haw & _).
    exists s', l. split; [|done]. erewrite bind_run; [done|]. fstep. exact Hrun.
Qed.

Lemma placed_type s p t :
  flock_ok s → ftask_objs s !! p = Some t → placed s p t → ft_which_queue t ≠ 0 →
  ft_type t = LOCK_SH ∨ ft_type t = LOCK_EX.
Proof.
  intros Hok Hp [?|(r & g & Hr & Hrin & Hg & Hq)] Hw; [done|].
  assert (∃ k r0, in_queue s k r0 p) as (k & r0 & t0 & ? & _ & _ & ?); [|by simplify_eq].
  destruct (ok_regions _ Hok r Hrin) as (g0 & ? & Hrok). simplify_eq.
  destruct Hq as [[_ Hq]|[[_ Hq]|[_ Hq]]].
  - exists 1, r. by apply (region_locked _ _ _ Hrok).
  - exists 2, r. by apply (region_waiting_q _ _ _ Hrok).
  - destruct (ok_waiting _ Hok p Hq) as (r1 & _ & H). by exists 3, r1.
Qed.

Section release.
Context (s : FlockState) (p r : ptr) (t : FLockTask) (g : FLockRegion).
Context (Hok : flock_ok s) (Hp : ftask_objs s !! p = Some t) (Hr : ft_region t = Some r)
  (Hrin : r ∈ fe_regions (entry s)) (Hg : region_objs s !! r = Some g)
  (Hty : ft_type t = LOCK_SH ∨ ft_type t = LOCK_EX).

(** The state after the task left its queue; [locked]: it held the region. *)
Definition left_state (locked : bool) : FlockState :=
  mkFlockState
    (set_waiting_tasks (list_del p (fe_waiting_tasks (entry s))) (entry s))
    (<[r := if locked then unlock_region p (ft_type t =? LOCK_SH) g
            else set_lists (list_del p (fr_locked g)) (list_del p (fr_waiting g)) g]>
       (region_objs s))
    (<[p := set_which_queue FDIR_FLOCK_TASK_NOT_IN_QUEUE t]> (ftask_objs s))
    (sys_objs s) (region_avail s) (nio_notified s).

Lemma left_ok (b : bool) : (if b then p ∈ fr_locked g else ft_which_queue t ≠ 1) →
  flock_ok (left_state b).
Proof using All.
  intros Hb. destruct (counts_ok s r g Hok Hrin Hg) as (E1 & E2 & _).
  destruct (ok_regions _ Hok r Hrin) as (g0 & ? & Hrok). simplify_eq.
  eapply (leave_ok s _ p r t g
    (if b then unlock_region p (ft_type t =? LOCK_SH) g
     else set_lists (list_del p (fr_locked g)) (list_del p (fr_waiting g)) g));
    try done; destruct b; try done; simpl.
  - rewrite count_type_del, (is_sh_task s p t) by (try done; apply Hrok).
    destruct (ft_type t =? LOCK_SH); simpl; lia.
  - rewrite list_del_id; [done|by eapply not_in_locked].
  - rewrite count_type_del, (is_sh_task s p t) by (try done; apply Hrok).
    destruct (ft_type t =? LOCK_SH); simpl; lia.
  - rewrite list_del_id; [done|by eapply not_in_locked].
Qed.

Lemma left_holds b q o n : q ≠ p → holds s q o n → holds (left_state b) q o n.
Proof using Hg.
  intros Hne (r0 & g0 & Hr0 & Hg0 & Ho & Hl & Hq). unfold holds. simpl.
  destruct (decide (r = r0)) as [<-|Hnr].
  - simplify_eq. exists r. eexists. rewrite lookup_insert_eq.
    split_and!; [done|done|by destruct b..|].
    destruct b; simpl; by apply list_del_elem.
  - exists r0, g0. rewrite lookup_insert_ne by done. by split_and!.
Qed.

Lemma left_run : flink_del p
  (set_ftask_objs (<[p := set_which_queue FDIR_FLOCK_TASK_NOT_IN_QUEUE t]> (ftask_objs s)) s)
  = Some ((), left_state false).
Proof using All.
  by rewrite (flink_del_run _ p r (set_which_queue FDIR_FLOCK_TASK_NOT_IN_QUEUE t) g)
    by (try done; apply lookup_insert_eq).
Qed.
End release.

Lemma holds_ref_count s r g n q o l :
  region_objs s !! r = Some g → holds s q o l →
  holds (set_region_objs (<[r := set_ref_count n g]> (region_objs s)) s) q o l.
Proof.
  intros Hg (r0 & g0 & Hr0 & Hg0 & Ho & Hl & Hq). unfold holds. simpl.
  destruct (decide (r = r0)) as [<-|Hne].
  - simplify_eq. exists r. eexists. rewrite lookup_insert_eq. by split_and!.
  - exists r0, g0. rewrite lookup_insert_ne by done. by split_and!.
Qed.

Lemma awoken_region s s' hd l r :
  awoken s s' hd l → r ∈ fe_regions (entry s) →
  r ∈ fe_regions (entry s') ∧ ∃ g, region_objs s' !! r = Some g.
Proof.
  intros [A1 _ _ _ _ _ A7 _ _] Hr. rewrite <- A7 in Hr. split; [done|].
  destruct (ok_regions _ A1 r Hr) as (g & ? & _). by exists g.
Qed.

(** The tasks [l1] and [l2] woken by a release of [r]: the waiters of the
    region first, then those of the entry. *)
Lemma release_wake_run s r :
  flock_ok s → r ∈ fe_regions (entry s) →
  ∃ s' l1 l2,
    (∀ k : M FlockState (), (_ ← match region_waiting r s with
         | [] => mret () | _ => _ ← awake_all (region_waiting r) false; mret () end;
     s ← get_st;
     _ ← match entry_waiting s with
         | [] => mret () | _ => _ ← awake_all entry_waiting true; mret () end;
     k) s = k s') ∧ flock_ok s' ∧ fe_regions (entry s') = fe_regions (entry s) ∧
    (∀ q o n, holds s q o n → holds s' q o n) ∧
    (∀ q, q ∈ l1 ++ l2 → ∃ o n, holds s' q o n) ∧
    (∀ q, q ∉ l1 ++ l2 → ftask_objs s' !! q = ftask_objs s !! q) ∧
    nio_notified s' = nio_notified s ++ omap (task_of s) (l1 ++ l2) ∧
    (∀ q, q ∈ l1 ++ l2 → q ∈ region_waiting r s ∨ q ∈ entry_waiting s).
Proof.
  intros Hok Hr.
  destruct (awake_unless_empty s (region_waiting r) false Hok (wl_region s r Hr))
    as (s1 & l1 & Hrun1 & [A1 A2 A3 A4 A5 A6 A7 A8 A9]).
  destruct (awake_unless_empty s1 entry_waiting true A1 (wl_entry s1))
    as (s2 & l2 & Hrun2 & [B1 B2 B3 B4 B5 B6 B7 B8 B9]).
  exists s2, l1, l2. split; [intros k; run_with Hrun1; fstep; by run_with Hrun2|].
  split_and!; [done|by rewrite B7|auto| | | |].
  - intros q [Hq|Hq]%elem_of_app; [|by apply B3].
    destruct (A3 q Hq) as (o & n & H). exists o, n. by apply B4.
  - intros q Hq. apply not_elem_of_app in Hq as [? ?]. by rewrite B6, A6.
  - rewrite B5, A5, omap_app, <- app_assoc. do 2 f_equal.
    apply list_omap_ext, Forall_Forall2_diag, Forall_forall. auto.
  - intros q [Hq|Hq]%elem_of_app.
    + left. rewrite A2. set_solver.
    + right. apply A8. rewrite B2. set_solver.
Qed.

(** Dropping the reference to a region changes nothing else. *)
Lemma unref_run s r :
  flock_ok s → r ∈ fe_regions (entry s) →
  ∃ s', update_region r (λ g, set_ref_count (fr_ref_count g - 1) g) s = Some ((), s') ∧
    flock_ok s' ∧ ftask_objs s' = ftask_objs s ∧ nio_notified s' = nio_notified s ∧
    (∀ q o n, holds s q o n → holds s' q o n).
Proof.
  intros Hok Hr. destruct (ok_regions _ Hok r Hr) as (g & Hg & _).
  rewrite (update_region_run s r g) by done. eexists. split; [reflexivity|].
  split_and!; [by apply ref_count_ok|done|done|]. intros. by apply holds_ref_count.
Qed.

(** [C33] Releasing a lock task that is where its queue says always returns and
    keeps the entry well formed; the task is in no queue afterwards, every
    other holder keeps its range, and the tasks notified are waiters of the
    region or of the entry that now hold their range (none when the task only
    waited). *)
Theorem flock_release_spec s p t :
  flock_ok s → ftask_objs s !! p = Some t → placed s p t →
  ∃ s' l, flock_release p s = Some ((), s') ∧ flock_ok s' ∧ queue_of s' p = Some 0 ∧
    (∀ q o n, q ≠ p → holds s q o n → holds s' q o n) ∧
    nio_notified s' = nio_notified s ++ omap (task_of s) l ∧
    (∀ q, q ∈ l → waits s q ∧ ∃ o n, holds s' q o n) ∧
    (ft_which_queue t ≠ 1 → l = []).
Proof.
  intros Hok Hp Hpl. unfold flock_release. fstep.
  pose proof Hpl as [Hw|(r & g & Hr & Hrin & Hg & Hq)].
  { rewrite Hw. simpl. exists s, []. rewrite app_nil_r. split_and!; try done.
    - unfold queue_of. by rewrite Hp, <- Hw.
    - set_solver. }
  assert (ft_type t = LOCK_SH ∨ ft_type t = LOCK_EX) as Hty
    by (eapply placed_type; eauto; lia).
  destruct Hq as [[Hw Hq]|Hq].
  - rewrite Hw. cbn [Z.eqb FDIR_FLOCK_TASK_IN_LOCKED_QUEUE Pos.eqb].
    erewrite bind_run by (by apply (remove_from_locked_run s p r t g)). cbn beta.
    change (mkFlockState _ _ _ _ _ _) with (left_state s p r t g true).
    pose proof (left_ok s p r t g Hok Hp Hr Hrin Hg Hty true Hq) as Hok1.
    fstep. erewrite bind_run by (apply load_region_run, lookup_insert_eq). cbn beta.
    destruct (release_wake_run (left_state s p r t g true) r Hok1 Hrin)
      as (s2 & l1 & l2 & Hrun & Hok2 & Hregs & Hh & Hl & Hno & Hnt & Hin).
    unfold region_waiting at 1 in Hrun. simpl region_objs in Hrun.
    rewrite lookup_insert_eq in Hrun. rewrite Hrun.
    destruct (unref_run s2 r Hok2) as (s3 & -> & Hok3 & Et & En & Hh3); [by rewrite Hregs|].
    assert (∀ q, q ∈ l1 ++ l2 → waits s q ∧ q ≠ p) as Hwait.
    { intros q Hql. destruct (Hin q Hql) as [Hqr|Hqe].
      - unfold region_waiting in Hqr. simpl in Hqr. rewrite lookup_insert_eq in Hqr.
        simpl in Hqr. apply list_del_elem in Hqr as [? ?]. split; [|done].
        right. by exists r, g.
      - unfold entry_waiting in Hqe. simpl in Hqe. apply list_del_elem in Hqe as [? ?].
        split; [by left|done]. }
    exists s3, (l1 ++ l2). split_and!; try done.
    + unfold queue_of. rewrite Et, Hno by (intros H; by apply Hwait in H as [_ ?]).
      simpl. by rewrite lookup_insert_eq.
    + intros q o n Hne Hhq. by apply Hh3, Hh, left_holds.
    + rewrite En, Hnt. simpl. f_equal. apply list_omap_ext, Forall_Forall2_diag, Forall_forall.
      intros q Hql. apply Hwait in Hql as [_ Hne]. unfold task_of. simpl.
      by rewrite lookup_insert_ne.
    + intros q Hql. split; [by apply Hwait|].
      destruct (Hl q Hql) as (o & n & H). exists o, n. by apply Hh3.
  - assert (ft_which_queue t ≠ 1) as Hw by lia.
    rewrite (proj2 (Z.eqb_neq _ FDIR_FLOCK_TASK_IN_LOCKED_QUEUE)) by done.
    assert ((ft_which_queue t =? FDIR_FLOCK_TASK_IN_REGION_WAITING_QUEUE) ||
      (ft_which_queue t =? FDIR_FLOCK_TASK_IN_GLOBAL_WAITING_QUEUE) = true) as ->.
    { destruct Hq as [[-> _]|[-> _]]; reflexivity. }
    fstep. erewrite bind_run by (by apply (left_run s p r t g)). cbn beta. fstep.
    pose proof (left_ok s p r t g Hok Hp Hr Hrin Hg Hty false Hw) as Hok1.
    destruct (unref_run (left_state s p r t g false) r Hok1 Hrin)
      as (s3 & -> & Hok3 & Et & En & Hh3).
    exists s3, []. rewrite app_nil_r. split_and!; try done.
    + unfold queue_of. rewrite Et. simpl. by rewrite lookup_insert_eq.
    + intros q o n Hne Hhq. by apply Hh3, left_holds.
    + set_solver.
Qed.

(** ** The system lock is a FIFO mutex *)

(** The holder and the waiters, in the order they get the lock. *)
Definition sys_queue (s : FlockState) : list ptr :=
  match fe_locked_task (entry s) with
  | Some h => h :: fe_sys_waiting (entry s)
  | None => fe_sys_waiting (entry s)
  end.

(** A task waits exactly when it is in the waiting list, the holder is locked,
    and nobody waits for a free lock. *)
Record sys_ok (s : FlockState) : Prop := {
  so_free : fe_locked_task (entry s) = None → fe_sys_waiting (entry s) = [];
  so_NoDup : NoDup (sys_queue s);
  so_objs : ∀ q, q ∈ sys_queue s → ∃ t, sys_objs s !! q = Some t;
  so_locked : ∀ h t, fe_locked_task (entry s) = Some h → sys_objs s !! h = Some t →
    st_status t = FDIR_SYS_TASK_STATUS_LOCKED;
  so_waiting : ∀ q t, sys_objs s !! q = Some t →
    st_status t = FDIR_SYS_TASK_STATUS_WAITING ↔ q ∈ fe_sys_waiting (entry s)
}.

(** The specification: a queue whose first task holds the lock. [same] tells
    that the caller's connection already holds it. *)
Definition mutex_apply (p : ptr) (block same : bool) (q : list ptr) : Z * list ptr :=
  match q with
  | [] => (0, [p])
  | _ => if negb block then (EWOULDBLOCK, q)
         else if same then (EDEADLK, q) else (EINPROGRESS, q ++ [p])
  end.

(** Releasing returns the task that gets the lock, if it is handed over. *)
Definition mutex_release (p : ptr) (q : list ptr) : list ptr * option ptr :=
  match q with
  | h :: rest => if decide (h = p) then (rest, head rest) else (list_del p q, None)
  | [] => ([], None)
  end.

Lemma load_sys_run s p t : sys_objs s !! p = Some t → load_sys p s = Some (t, s).
Proof. unfold load_sys. by intros ->. Qed.
Lemma update_sys_run s p t f :
  sys_objs s !! p = Some t →
  update_sys p f s = Some ((), set_sys_objs (<[p := f t]> (sys_objs s)) s).
Proof. unfold update_sys. by intros ->. Qed.

Definition conn_of (s : FlockState) (q : ptr) : option ptr := st_task <$> sys_objs s !! q.

(** [C34] [sys_lock_apply] refines the FIFO mutex: a free lock is taken, a held
    one makes the task wait at the end of the queue, unless it must not block
    or its connection is the holder's. *)
Theorem sys_lock_apply_refines s p t block :
  sys_ok s → sys_objs s !! p = Some t → p ∉ sys_queue s →
  ∃ rc s', sys_lock_apply p block s = Some (rc, s') ∧ sys_ok s' ∧
    (rc, sys_queue s') = mutex_apply p block
      (bool_decide (fe_locked_task (entry s) ≫= conn_of s = Some (st_task t))) (sys_queue s) ∧
    nio_notified s' = nio_notified s.
Proof.
  intros [H1 H2 H3 H4 H5] Hp Hn. unfold sys_lock_apply. fstep. unfold sys_queue in *.
  destruct (fe_locked_task (entry s)) as [h|] eqn:El; simpl.
  - destruct block; simpl; [|eexists _, _; split; [reflexivity|]; rewrite El; split_and!;
      try done; split; unfold sys_queue; rewrite ?El; done].
    destruct (H3 h) as [th Hh]; [set_solver|].
    erewrite bind_run by (by apply load_sys_run). cbn beta.
    erewrite bind_run by (by apply load_sys_run). cbn beta.
    unfold conn_of. rewrite Hh. simpl.
    destruct (decide (st_task t = st_task th)) as [E|E].
    + rewrite bool_decide_true by congruence.
      eexists _, _. split; [reflexivity|]. rewrite El. split_and!; try done.
      split; unfold sys_queue; rewrite ?El; done.
    + rewrite bool_decide_false by congruence.
      erewrite bind_run by (by apply update_sys_run). cbn beta. fstep.
      eexists _, _. split; [reflexivity|]. split_and!; simpl; rewrite ?El; try done.
      apply not_elem_of_cons in Hn as [Hnh Hnw].
      split; unfold sys_queue; simpl; rewrite ?El; try done.
      * change (h :: fe_sys_waiting (entry s) ++ [p])
          with ((h :: fe_sys_waiting (entry s)) ++ [p]).
        apply NoDup_app. split_and!; [done|set_solver|apply NoDup_singleton].
      * intros q Hq. destruct (decide (p = q)) as [<-|Hne];
          [rewrite lookup_insert_eq; by eexists|].
        rewrite lookup_insert_ne by done. apply H3. set_solver.
      * intros h' t' [= <-]. rewrite lookup_insert_ne by done. eauto.
      * intros q t'. destruct (decide (p = q)) as [<-|Hne].
        -- rewrite lookup_insert_eq. intros [= <-]. simpl. set_solver.
        -- rewrite lookup_insert_ne by done. intros Hq. rewrite (H5 q t' Hq). set_solver.
  - fstep. erewrite bind_run by (by apply update_sys_run). cbn beta.
    rewrite (H1 eq_refl) in *. eexists _, _. split; [reflexivity|].
    split_and!; simpl; rewrite ?(H1 eq_refl); try done.
    split; unfold sys_queue; simpl; rewrite ?(H1 eq_refl); try done.
    + apply NoDup_singleton.
    + intros q ->%list_elem_of_singleton. rewrite lookup_insert_eq. by eexists.
    + intros h t' [= <-]. rewrite lookup_insert_eq. by intros [= <-].
    + intros q t'. destruct (decide (p = q)) as [<-|Hne].
      * rewrite lookup_insert_eq. intros [= <-]. simpl. set_solver.
      * rewrite lookup_insert_ne by done. apply H5.
Qed.

Lemma list_del_head p l : p ∉ l → list_del p (p :: l) = l.
Proof.
  intros Hp. unfold list_del. rewrite filter_cons_False by auto.
  fold (list_del p l). by apply list_del_id.
Qed.

Lemma list_del_cons_ne p h l : h ≠ p → list_del p (h :: l) = h :: list_del p l.
Proof. intros Hne. unfold list_del. by rewrite filter_cons_True. Qed.

(** A waiting task gives up. *)
Lemma sys_ok_leave s p t h :
  sys_ok s → sys_objs s !! p = Some t → fe_locked_task (entry s) = Some h → p ≠ h →
  sys_ok (set_entry (set_sys_lock (Some h) (list_del p (fe_sys_waiting (entry s))) (entry s))
    (set_sys_objs (<[p := set_status FDIR_SYS_TASK_STATUS_NONE t]> (sys_objs s)) s)).
Proof.
  intros [H1 H2 H3 H4 H5] Hp El Hne. unfold sys_queue in *. rewrite El in *.
  split; unfold sys_queue; simpl; try done.
  - rewrite <- list_del_cons_ne by done. by apply list_del_NoDup.
  - intros q Hq. destruct (decide (p = q)) as [<-|Hpq];
      [rewrite lookup_insert_eq; by eexists|].
    rewrite lookup_insert_ne by done. apply H3.
    apply elem_of_cons in Hq as [->|Hq]; [set_solver|]. apply list_del_elem in Hq. set_solver.
  - intros h' t' [= <-]. rewrite lookup_insert_ne by done. eauto.
  - intros q t'. rewrite list_del_elem. destruct (decide (p = q)) as [<-|Hpq].
    + rewrite lookup_insert_eq. intros [= <-]. simpl. naive_solver.
    + rewrite lookup_insert_ne by done. intros Hq. rewrite (H5 q t' Hq). naive_solver.
Qed.

(** The lock is handed to the first waiter. *)
Lemma sys_ok_hand_over s h w tw rest :
  sys_ok s → fe_locked_task (entry s) = Some h → fe_sys_waiting (entry s) = w :: rest →
  sys_objs s !! w = Some tw →
  sys_ok (set_entry (set_sys_lock (Some w) rest (entry s))
    (set_sys_objs (<[w := set_status FDIR_SYS_TASK_STATUS_LOCKED tw]> (sys_objs s)) s)).
Proof.
  intros [H1 H2 H3 H4 H5] El Ew Hw. unfold sys_queue in *. rewrite El, Ew in *.
  apply NoDup_cons in H2 as [Hh H2]. pose proof H2 as [Hwr Hnd]%NoDup_cons.
  split; unfold sys_queue; simpl; try done.
  - intros q Hq. destruct (decide (w = q)) as [<-|Hwq];
      [rewrite lookup_insert_eq; by eexists|].
    rewrite lookup_insert_ne by done. apply H3. set_solver.
  - intros h' t' [= <-]. rewrite lookup_insert_eq. by intros [= <-].
  - intros q t'. destruct (decide (w = q)) as [<-|Hwq].
    + rewrite lookup_insert_eq. intros [= <-]. simpl. naive_solver.
    + rewrite lookup_insert_ne by done. intros Hq. rewrite (H5 q t' Hq). set_solver.
Qed.

(** The last task frees the lock. *)
Lemma sys_ok_free s h t :
  sys_ok s → fe_locked_task (entry s) = Some h → fe_sys_waiting (entry s) = [] →
  sys_objs s !! h = Some t →
  sys_ok (set_entry (set_sys_lock None [] (entry s))
    (set_sys_objs (<[h := set_status FDIR_SYS_TASK_STATUS_NONE t]> (sys_objs s)) s)).
Proof.
  intros [H1 H2 H3 H4 H5] El Ew Hh. rewrite Ew in *.
  split; unfold sys_queue; simpl; try done; [constructor|set_solver|].
  intros q t'. destruct (decide (h = q)) as [<-|Hne].
  - rewrite lookup_insert_eq. intros [= <-]. simpl. set_solver.
  - rewrite lookup_insert_ne by done. apply H5.
Qed.

(** [sys_lock_release] refines the FIFO mutex: the holder hands the lock to
    the task that has waited longest, which alone is notified, a waiter leaves
    the queue, and a task that is not in the queue is refused with an error
    and changes nothing. *)
Theorem sys_lock_release_refines s p t :
  sys_ok s → sys_objs s !! p = Some t →
  ∃ rc s', sys_lock_release p s = Some (rc, s') ∧ sys_ok s' ∧
    (if decide (p ∈ sys_queue s) then
       rc = 0 ∧ sys_queue s' = fst (mutex_release p (sys_queue s)) ∧
       nio_notified s' = nio_notified s ++
         match snd (mutex_release p (sys_queue s)) with
         | Some w => omap (conn_of s) [w] | None => [] end
     else (rc = EINVAL ∨ rc = ENOENT) ∧ s' = s).
Proof.
  intros Hok Hp. pose proof Hok as [H1 H2 H3 H4 H5]. unfold sys_lock_release.
  erewrite bind_run by (by apply load_sys_run). cbn beta.
  destruct (Z.eqb_spec (st_status t) FDIR_SYS_TASK_STATUS_WAITING) as [E|E].
  - assert (p ∈ fe_sys_waiting (entry s)) as Hin by (by apply (H5 p t)).
    destruct (fe_locked_task (entry s)) as [h|] eqn:El;
      [|rewrite H1 in Hin by done; set_solver].
    assert (sys_queue s = h :: fe_sys_waiting (entry s)) as Eq
      by (unfold sys_queue; by rewrite El).
    assert (p ≠ h) as Hne by (intros ->; rewrite Eq in H2; apply NoDup_cons in H2; tauto).
    erewrite bind_run by (by apply update_sys_run). cbn beta. fstep.
    eexists _, _. split; [reflexivity|]. simpl. rewrite El.
    split; [by eapply sys_ok_leave|].
    rewrite Eq, decide_True by set_solver. split; [done|]. simpl.
    rewrite decide_False by done. rewrite list_del_cons_ne, app_nil_r by done.
    split; [|done]. unfold sys_queue. simpl. done.
  - assert (p ∉ fe_sys_waiting (entry s)) as Hnin by (by rewrite <- (H5 p t)).
    destruct (Z.eqb_spec (st_status t) FDIR_SYS_TASK_STATUS_LOCKED) as [E'|E']; simpl.
    2: { exists EINVAL, s. split; [done|]. split; [done|].
         rewrite decide_False; [by split; [left|]|]. unfold sys_queue.
         destruct (fe_locked_task (entry s)) as [h|] eqn:El; [|done].
         apply not_elem_of_cons. split; [|done]. intros ->. by rewrite (H4 h t) in E'. }
    fstep. destruct (decide (fe_locked_task (entry s) = Some p)) as [El|El].
    2: { exists ENOENT, s. split; [done|]. split; [done|].
         rewrite decide_False; [by split; [right|]|]. unfold sys_queue.
         destruct (fe_locked_task (entry s)) as [h|] eqn:Eh; [|done].
         apply not_elem_of_cons. split; [congruence|done]. }
    assert (sys_queue s = p :: fe_sys_waiting (entry s)) as Eq
      by (unfold sys_queue; by rewrite El).
    destruct (decide (p ∈ sys_queue s)) as [_|Hn]; [|exfalso; rewrite Eq in Hn; set_solver].
    assert (mutex_release p (sys_queue s)
            = (fe_sys_waiting (entry s), head (fe_sys_waiting (entry s)))) as ->
      by (rewrite Eq; simpl; by rewrite decide_True).
    cbn [fst snd].
    destruct (fe_sys_waiting (entry s)) as [|w rest] eqn:Ew; cbn [head].
    + erewrite bind_run by (by apply update_sys_run). cbn beta. fstep.
      eexists _, _. split; [reflexivity|]. simpl. rewrite Ew. rewrite app_nil_r.
      split; [by apply sys_ok_free|done].
    + destruct (H3 w) as [tw Hw]; [rewrite Eq; set_solver|].
      erewrite bind_run by (by apply update_sys_run). cbn beta. fstep. simpl. rewrite Ew.
      rewrite Eq in H2. apply NoDup_cons in H2 as [_ H2]. apply NoDup_cons in H2 as [Hwr _].
      rewrite list_del_head by done.
      erewrite bind_run by (apply load_sys_run; simpl; apply lookup_insert_eq). cbn beta.
      eexists _, _. split; [reflexivity|]. simpl. unfold conn_of. rewrite Hw. simpl.
      split; [|done]. eapply (sys_ok_hand_over s p w tw rest) in Hok; try done.
      by destruct Hok.
Qed.

(** ** The theorems at a concrete entry *)

(** Task 1 writes bytes 0-9, task 2 waits for the same bytes, task 3 waits for
    bytes 5-14 and task 4 is free. *)
Definition demo_task (q : Z) (r : option ptr) (conn : ptr) : FLockTask :=
  mkFLockTask LOCK_EX q (mkFlockOwner 100 (Zpos conn)) r conn 1%positive.

Definition demo : FlockState :=
  mkFlockState (mkFLockEntry [1%positive; 2%positive] [3%positive] (Some 1%positive)
                  [2%positive])
    (<[1%positive := mkFLockRegion 0 10 0 1 [1%positive] [2%positive] 2]>
      (<[2%positive := mkFLockRegion 5 10 0 0 [] [] 1]> ∅))
    (<[1%positive := demo_task 1 (Some 1%positive) 11%positive]>
      (<[2%positive := demo_task 2 (Some 1%positive) 12%positive]>
        (<[3%positive := demo_task 3 (Some 2%positive) 13%positive]>
          (<[4%positive := demo_task 0 None 14%positive]> ∅))))
    (<[1%positive := mkSysLockTask FDIR_SYS_TASK_STATUS_LOCKED 11%positive 1%positive]>
      (<[2%positive := mkSysLockTask FDIR_SYS_TASK_STATUS_WAITING 12%positive 1%positive]>
        (<[3%positive := mkSysLockTask FDIR_SYS_TASK_STATUS_NONE 13%positive 1%positive]> ∅)))
    None [].

Ltac split_elem :=
  repeat match goal with
  | H : _ ∈ [] |- _ => by apply elem_of_nil in H
  | H : _ ∈ _ :: _ |- _ => apply elem_of_cons in H as [->|H]
  end.

Ltac queue_of_demo := eexists; split; [reflexivity|]; split_and!; [done|done|by right].

Lemma demo_ok : flock_ok demo.
Proof.
  split; simpl.
  - intros r Hr. split_elem; eexists; (split; [reflexivity|]); split; simpl;
      try (by unfold range_ok; simpl; lia); try apply NoDup_nil_2; try apply NoDup_singleton;
      try (intros q Hq; split_elem; queue_of_demo); by vm_compute.
  - apply NoDup_cons. split; [set_solver|apply NoDup_singleton].
  - repeat constructor. intros g1 g2. vm_compute. intros [= <-] [= <-]. done.
  - apply NoDup_singleton.
  - intros q Hq. split_elem. exists 2%positive. split; [set_solver|]. queue_of_demo.
  - intros r1 r2 g1 g2 p q Hr1 Hr2 Hg1 Hg2 _ Hp Hq Hne. simpl in *.
    split_elem; vm_compute in Hg1, Hg2; simplify_eq; simpl in *; split_elem; done.
Qed.

Lemma demo_sys_ok : sys_ok demo.
Proof.
  split; simpl.
  - done.
  - apply NoDup_cons. split; [set_solver|apply NoDup_singleton].
  - intros q Hq. unfold sys_queue in Hq. simpl in Hq. split_elem; by eexists.
  - intros h t [= <-]. vm_compute. by intros [= <-].
  - intros q t Hq. rewrite list_elem_of_singleton.
    apply lookup_insert_Some in Hq as [[<- <-]|[? Hq]]; [done|].
    apply lookup_insert_Some in Hq as [[<- <-]|[? Hq]]; [done|].
    apply lookup_insert_Some in Hq as [[<- <-]|[? Hq]]; [done|].
    by rewrite lookup_empty in Hq.
Qed.

Lemma is_region_overlap_spec_witness :
  is_region_overlap (new_region 0 10) (new_region 5 10) = true ∧
  ∃ b, covers (new_region 0 10) b ∧ covers (new_region 5 10) b.
Proof.
  split; [reflexivity|].
  apply (is_region_overlap_spec (new_region 0 10) (new_region 5 10)); [| |reflexivity];
    unfold range_ok; simpl; lia.
Defined.

Lemma flock_apply_spec_witness :
  ∃ rc s', flock_apply 20 5 4%positive true demo = Some (rc, s') ∧ rc = 0 ∧
    holds s' 4%positive 20 5.
Proof.
  destruct (flock_apply_spec demo 4%positive (demo_task 0 None 14%positive) 20 5 true)
    as (rc & s' & Hrun & _ & _ & Hres);
    [exact demo_ok|reflexivity|reflexivity|by right|unfold range_ok; simpl; lia|].
  exists rc, s'. split; [exact Hrun|]. vm_compute in Hrun.
  assert (rc = 0) as E by congruence. split; [exact E|].
  destruct Hres as [(_ & _ & H)|[(E' & _)|(_ & H)]]; [exact H|rewrite E in E'; discriminate|].
  rewrite E in H. unfold ENOMEM, EWOULDBLOCK, EDEADLK in H. lia.
Defined.

Lemma awake_all_fifo_witness :
  ∃ s' l, awake_all entry_waiting true demo = Some (Z.of_nat (length l), s') ∧
    awoken demo s' entry_waiting l.
Proof.
  destruct (awake_all_fifo demo entry_waiting true demo_ok (wl_entry demo))
    as (s' & l & Hrun & Haw & _).
  exists s', l. split; [exact Hrun|exact Haw].
Defined.

Lemma flock_release_spec_witness :
  ∃ s', flock_release 1%positive demo = Some ((), s') ∧ flock_ok s' ∧
    queue_of s' 1%positive = Some 0 ∧ nio_notified s' = [12%positive].
Proof.
  destruct (flock_release_spec demo 1%positive (demo_task 1 (Some 1%positive) 11%positive))
    as (s' & l & Hrun & Hok & Hq & _); [exact demo_ok|reflexivity| |].
  { right. exists 1%positive, (mkFLockRegion 0 10 0 1 [1%positive] [2%positive] 2).
    split; [reflexivity|]. split; [set_solver|]. split; [reflexivity|]. left.
    split; [reflexivity|]. simpl. set_solver. }
  exists s'. split; [exact Hrun|]. split; [exact Hok|]. split; [exact Hq|].
  vm_compute in Hrun. by injection Hrun as <-.
Defined.

Lemma sys_lock_apply_refines_witness :
  ∃ rc s', sys_lock_apply 3%positive true demo = Some (rc, s') ∧ rc = EINPROGRESS ∧
    sys_queue s' = [1%positive; 2%positive; 3%positive].
Proof.
  destruct (sys_lock_apply_refines demo 3%positive
    (mkSysLockTask FDIR_SYS_TASK_STATUS_NONE 13%positive 1%positive) true) as (rc & s' & Hrun & _ & Heq & _);
    [exact demo_sys_ok|reflexivity|unfold sys_queue; simpl; set_solver|].
  exists rc, s'. split; [exact Hrun|]. vm_compute in Heq. injection Heq as -> Hq.
  split; [reflexivity|exact Hq].
Defined.

Lemma sys_lock_release_refines_witness :
  ∃ s', sys_lock_release 1%positive demo = Some (0, s') ∧ sys_queue s' = [2%positive] ∧
    nio_notified s' = [12%positive].
Proof.
  destruct (sys_lock_release_refines demo 1%positive
    (mkSysLockTask FDIR_SYS_TASK_STATUS_LOCKED 11%positive 1%positive)) as (rc & s' & Hrun & _ & Hres);
    [exact demo_sys_ok|reflexivity|].
  rewrite decide_True in Hres by (unfold sys_queue; simpl; set_solver).
  destruct Hres as (-> & Hq & Hn). exists s'. split; [exact Hrun|].
  split; [exact Hq|exact Hn].
Defined.
