(* ===== verification/NsSubscribe.v ===== *)
(** * Namespace change subscriptions: [server/ns_subscribe.c]

    A subscriber (the fastCFS quota daemon) owns one entry of every namespace
    and two queues of such entries: the holding queue, where a change of the
    namespace's used bytes puts the entry, and the sending queue, which
    [service_deal_nss_fetch] of [server/service_handler.c] empties into
    responses. An [in_queue] flag per entry and queue keeps an entry from being
    queued twice.

    An entry is named by its namespace, as the subscriber's index selects it
    within the namespace; the queues of libfastcommon are lists. The theorems
    show that no change is lost and none is reported twice. *)

From S2P Require Import Prelude.

Definition FDIR_NS_SUBSCRIBE_QUEUE_INDEX_HOLDING : Z := 0.
Definition FDIR_NS_SUBSCRIBE_QUEUE_INDEX_SENDING : Z := 1.
Definition FDIR_MAX_NS_SUBSCRIBERS : Z := 8.

(** ** Data *)

(** Subscribers are their indexes; [in_queue] has the flags that are 1, by
    namespace, subscriber and queue. *)
Record SubscribeCtx := mkSubscribeCtx {
  freelist : list Z;
  subscribers : list Z;
  sub_queues : gmap (Z * Z) (list ptr);
  in_queue : gset (ptr * Z * Z)
}.

Definition queue (s : SubscribeCtx) (i q : Z) : list ptr :=
  default [] (sub_queues s !! (i, q)).

Definition set_queue (i q : Z) (l : list ptr) (s : SubscribeCtx) : SubscribeCtx :=
  mkSubscribeCtx (freelist s) (subscribers s) (<[(i, q) := l]> (sub_queues s)) (in_queue s).
Definition set_flags (f : gset (ptr * Z * Z)) (s : SubscribeCtx) : SubscribeCtx :=
  mkSubscribeCtx (freelist s) (subscribers s) (sub_queues s) f.
Definition set_subscribers (fr l : list Z) (s : SubscribeCtx) : SubscribeCtx :=
  mkSubscribeCtx fr l (sub_queues s) (in_queue s).

(** ** Operations *)

Definition ns_subscribe_init : SubscribeCtx :=
  mkSubscribeCtx (seqZ 0 FDIR_MAX_NS_SUBSCRIBERS) [] ∅ ∅.

Definition ns_subscribe_register (s : SubscribeCtx) : option Z * SubscribeCtx :=
  match freelist s with
  | [] => (None, s)
  | i :: fr => (Some i, set_subscribers fr (subscribers s ++ [i]) s)
  end.

(** The flags of the entries of [l]. *)
Definition flags_of (i q : Z) (l : list ptr) : gset (ptr * Z * Z) :=
  list_to_set ((λ n, (n, i, q)) <$> l).

(** Empties one queue and clears the flags of its entries. *)
Definition clear_queue (i q : Z) (s : SubscribeCtx) : SubscribeCtx :=
  let l := queue s i q in
  set_flags (in_queue s ∖ flags_of i q l) (set_queue i q [] s).

Definition ns_subscribe_unregister (i : Z) (s : SubscribeCtx) : SubscribeCtx :=
  let s := set_subscribers (freelist s) (filter (λ j, j ≠ i) (subscribers s)) s in
  let s := clear_queue i FDIR_NS_SUBSCRIBE_QUEUE_INDEX_HOLDING s in
  let s := clear_queue i FDIR_NS_SUBSCRIBE_QUEUE_INDEX_SENDING s in
  set_subscribers (i :: freelist s) (subscribers s) s.

(** The compare-and-swap of [in_queue] from 0 to 1, then the push. *)
Definition push_entry (ns : ptr) (s : SubscribeCtx) (i : Z) : SubscribeCtx :=
  let q := FDIR_NS_SUBSCRIBE_QUEUE_INDEX_HOLDING in
  if decide ((ns, i, q) ∈ in_queue s) then s
  else set_queue i q (queue s i q ++ [ns]) (set_flags ({[(ns, i, q)]} ∪ in_queue s) s).

Definition ns_subscribe_notify_all (ns : ptr) (s : SubscribeCtx) : SubscribeCtx :=
  foldl (push_entry ns) s (subscribers s).

(** Sets the flags of the entries of [l] that are not in the queue [q] yet and
    gives those entries, in order. *)
Fixpoint mark_loop (i q : Z) (l moved : list ptr) (s : SubscribeCtx) :
    list ptr * SubscribeCtx :=
  match l with
  | [] => (moved, s)
  | ns :: l' =>
    if decide ((ns, i, q) ∈ in_queue s) then mark_loop i q l' moved s
    else mark_loop i q l' (moved ++ [ns]) (set_flags ({[(ns, i, q)]} ∪ in_queue s) s)
  end.

(** [fdir_namespace_push_all_to_holding_queue] of [server/ns_manager.c]:
    [namespaces] is the array of all namespaces. *)
Definition fdir_namespace_push_all_to_holding_queue (namespaces : list ptr) (i : Z)
    (s : SubscribeCtx) : SubscribeCtx :=
  let q := FDIR_NS_SUBSCRIBE_QUEUE_INDEX_HOLDING in
  match mark_loop i q namespaces [] s with
  | ([], s') => s'
  | (moved, s') => set_queue i q (queue s' i q ++ moved) s'
  end.

Fixpoint move_loop (i : Z) (l moved : list ptr) (s : SubscribeCtx) :
    list ptr * SubscribeCtx :=
  let h := FDIR_NS_SUBSCRIBE_QUEUE_INDEX_HOLDING in
  let q := FDIR_NS_SUBSCRIBE_QUEUE_INDEX_SENDING in
  match l with
  | [] => (moved, s)
  | ns :: l' =>
    if decide ((ns, i, q) ∈ in_queue s)
    then move_loop i l' moved (set_flags (in_queue s ∖ {[(ns, i, h)]}) s)
    else move_loop i l' (moved ++ [ns])
           (set_flags (({[(ns, i, q)]} ∪ in_queue s) ∖ {[(ns, i, h)]}) s)
  end.

Definition ns_subscribe_holding_to_sending_queue (i : Z) (s : SubscribeCtx) :
    SubscribeCtx :=
  let h := FDIR_NS_SUBSCRIBE_QUEUE_INDEX_HOLDING in
  let q := FDIR_NS_SUBSCRIBE_QUEUE_INDEX_SENDING in
  match move_loop i (queue s i h) [] (set_queue i h [] s) with
  | ([], s') => s'
  | (moved, s') => set_queue i q (queue s' i q ++ moved) s'
  end.

(** The response [service_deal_nss_fetch] builds: the entries that fit [room]
    bytes, each of [FDIR_NSS_PART_SIZE] bytes and the name, and the rest. *)
Definition FDIR_NSS_PART_SIZE : Z := 9.

Section fetch.
(** The name's length and the used bytes of a namespace. *)
Context (name_len used_bytes : ptr → Z).

Fixpoint fetch_loop (i room : Z) (l : list ptr) (out : list (ptr * Z)) (s : SubscribeCtx) :
    list (ptr * Z) * list ptr * SubscribeCtx :=
  match l with
  | [] => (out, [], s)
  | ns :: l' =>
    let room' := room - (FDIR_NSS_PART_SIZE + name_len ns) in
    if room' <? 0 then (out, l, s)
    else fetch_loop i room' l' (out ++ [(ns, used_bytes ns)])
           (set_flags (in_queue s ∖ {[(ns, i, FDIR_NS_SUBSCRIBE_QUEUE_INDEX_SENDING)]}) s)
  end.

(** The entries reported, [is_last] and the new state. *)
Definition service_deal_nss_fetch (i room : Z) (s : SubscribeCtx) :
    list (ptr * Z) * bool * SubscribeCtx :=
  let q := FDIR_NS_SUBSCRIBE_QUEUE_INDEX_SENDING in
  let s := match queue s i q with
           | [] => ns_subscribe_holding_to_sending_queue i s
           | _ => s
           end in
  match fetch_loop i room (queue s i q) [] (set_queue i q [] s) with
  | (out, [], s') => (out, true, s')
  | (out, rest, s') => (out, false, set_queue i q (rest ++ queue s' i q) s')
  end.
End fetch.

(** ** Invariant *)

(** The flags are the queues, and a free subscriber has nothing queued. *)
Record sub_ok (s : SubscribeCtx) : Prop := {
  sub_NoDup : ∀ i q, NoDup (queue s i q);
  sub_flags : ∀ n i q, n ∈ queue s i q ↔ (n, i, q) ∈ in_queue s;
  sub_slots : freelist s ++ subscribers s ≡ₚ seqZ 0 FDIR_MAX_NS_SUBSCRIBERS;
  sub_free : ∀ i q, i ∈ freelist s → q = 0 ∨ q = 1 → queue s i q = []
}.

(** The namespaces the subscriber has still to be told about. *)
Definition outstanding (s : SubscribeCtx) (i : Z) (n : ptr) : Prop :=
  n ∈ queue s i FDIR_NS_SUBSCRIBE_QUEUE_INDEX_HOLDING ∨
  n ∈ queue s i FDIR_NS_SUBSCRIBE_QUEUE_INDEX_SENDING.

Lemma queue_set i q l s i' q' :
  queue (set_queue i q l s) i' q' = if decide ((i', q') = (i, q)) then l else queue s i' q'.
Proof.
  unfold queue. simpl. case_decide as E.
  - rewrite E. by rewrite lookup_insert_eq.
  - rewrite lookup_insert_ne; [done|congruence].
Qed.

Lemma queue_set_eq i q l s : queue (set_queue i q l s) i q = l.
Proof. rewrite queue_set. by rewrite decide_True. Qed.

(** Changing one queue of a subscriber that is not free, with its flags. *)
Lemma sub_ok_set s i q l f :
  sub_ok s → NoDup l → i ∉ freelist s →
  (∀ n, (n, i, q) ∈ f ↔ n ∈ l) →
  (∀ n i' q', (i', q') ≠ (i, q) → (n, i', q') ∈ f ↔ (n, i', q') ∈ in_queue s) →
  sub_ok (set_queue i q l (set_flags f s)).
Proof.
  intros [H1 H2 H3 H4] Hl Hi Hf Hne. split; simpl; try done.
  - intros i' q'. rewrite queue_set. case_decide; [done|]. apply H1.
  - intros n i' q'. rewrite queue_set. case_decide as E.
    + injection E as -> ->. symmetry. apply Hf.
    + rewrite Hne by done. apply H2.
  - intros i' q' Hin Hq. rewrite queue_set. case_decide as E.
    + injection E as -> ->. done.
    + by apply H4.
Qed.

Lemma sub_ok_ext s t :
  (∀ j q, queue s j q = queue t j q) → in_queue s = in_queue t →
  subscribers s = subscribers t → freelist s = freelist t → sub_ok t → sub_ok s.
Proof.
  intros Hq E1 E2 E3 [H1 H2 H3 H4]. split; intros *; rewrite ?Hq, ?E1, ?E2, ?E3; auto.
Qed.

Lemma subscriber_not_free s i : sub_ok s → i ∈ subscribers s → i ∉ freelist s.
Proof.
  intros [_ _ H3 _] Hi Hf.
  assert (NoDup (freelist s ++ subscribers s)) as Hnd by (rewrite H3; apply NoDup_seqZ).
  apply NoDup_app in Hnd as (_ & Hnd & _). by apply (Hnd i).
Qed.

(** ** Putting a change into the holding queues *)

Lemma push_entry_ok ns s i :
  sub_ok s → i ∈ subscribers s → sub_ok (push_entry ns s i).
Proof.
  intros Hok Hi. unfold push_entry. case_decide as Hin; [done|].
  change (queue s i FDIR_NS_SUBSCRIBE_QUEUE_INDEX_HOLDING)
    with (queue s i 0). apply sub_ok_set; [done| |by eapply subscriber_not_free| |].
  - apply NoDup_app. split_and!; [by apply sub_NoDup| |apply NoDup_singleton].
    intros n Hn ->%list_elem_of_singleton. by rewrite <- (sub_flags s Hok) in Hin.
  - intros n. rewrite elem_of_app, list_elem_of_singleton, (sub_flags s Hok), elem_of_union.
    rewrite elem_of_singleton. naive_solver.
  - intros n i' q' Hne. rewrite elem_of_union, elem_of_singleton. naive_solver.
Qed.

Lemma push_entry_outstanding ns s i j n :
  sub_ok s → outstanding (push_entry ns s i) j n ↔ outstanding s j n ∨ (j = i ∧ n = ns).
Proof.
  intros Hok. unfold push_entry, outstanding. case_decide as Hin.
  - apply (sub_flags s Hok) in Hin. naive_solver.
  - rewrite !queue_set. change (queue (set_flags _ s)) with (queue s).
    destruct (decide (j = i)) as [->|Hne].
    + rewrite decide_True by done. rewrite decide_False by (unfold
        FDIR_NS_SUBSCRIBE_QUEUE_INDEX_SENDING, FDIR_NS_SUBSCRIBE_QUEUE_INDEX_HOLDING;
        congruence).
      rewrite elem_of_app, list_elem_of_singleton. naive_solver.
    + rewrite !decide_False by congruence. naive_solver.
Qed.

(** [C37] A change of a namespace is announced to every registered subscriber and
    to nobody else, whatever was already queued, and the flags stay in step
    with the queues, so that no entry is queued twice. *)
Theorem ns_subscribe_notify_all_spec ns s :
  sub_ok s →
  sub_ok (ns_subscribe_notify_all ns s) ∧
  subscribers (ns_subscribe_notify_all ns s) = subscribers s ∧
  ∀ j n, outstanding (ns_subscribe_notify_all ns s) j n ↔
    outstanding s j n ∨ (j ∈ subscribers s ∧ n = ns).
Proof.
  intros Hok. unfold ns_subscribe_notify_all.
  assert (∀ l s, sub_ok s → (∀ i, i ∈ l → i ∈ subscribers s) →
    sub_ok (foldl (push_entry ns) s l) ∧
    subscribers (foldl (push_entry ns) s l) = subscribers s ∧
    ∀ j n, outstanding (foldl (push_entry ns) s l) j n ↔
      outstanding s j n ∨ (j ∈ l ∧ n = ns)) as H; [|by apply H].
  clear s Hok. induction l as [|i l IH]; intros s Hok Hl; simpl; [set_solver|].
  assert (subscribers (push_entry ns s i) = subscribers s) as Es
    by (unfold push_entry; by case_decide).
  destruct (IH (push_entry ns s i)) as (H1 & H2 & H3).
  - apply push_entry_ok; [done|]. apply Hl. set_solver.
  - intros j Hj. rewrite Es. apply Hl. set_solver.
  - split; [done|]. split; [by rewrite H2|]. intros j n.
    rewrite H3, push_entry_outstanding by done. set_solver.
Qed.

Lemma elem_of_flags i q l n i' q' :
  (n, i', q') ∈ flags_of i q l ↔ n ∈ l ∧ i' = i ∧ q' = q.
Proof.
  unfold flags_of. rewrite elem_of_list_to_set, list_elem_of_fmap. split.
  - intros (m & [= -> -> ->] & Hm). done.
  - intros (Hn & -> & ->). by exists n.
Qed.

(** Equality of sets of flags. *)
Ltac flags_eq :=
  apply set_eq; intros [[? ?] ?];
  repeat first [ rewrite elem_of_union | rewrite elem_of_difference
               | rewrite elem_of_singleton | rewrite elem_of_flags | rewrite elem_of_cons ];
  naive_solver.

Lemma mark_loop_run i q l : ∀ moved s, NoDup l →
  mark_loop i q l moved s
  = (moved ++ filter (λ n, (n, i, q) ∉ in_queue s) l,
     set_flags (flags_of i q l ∪ in_queue s) s).
Proof.
  induction l as [|n l IH]; intros moved s Hnd; cbn [mark_loop].
  { rewrite app_nil_r. unfold flags_of. simpl. rewrite (left_id_L ∅ (∪)). by destruct s. }
  apply NoDup_cons in Hnd as [Hn Hnd]. rewrite filter_cons.
  case_decide as Hin.
  - rewrite IH by done. rewrite decide_False by tauto. do 2 f_equal. flags_eq.
  - rewrite IH by done. rewrite decide_True by done. rewrite <- app_assoc. simpl.
    f_equal; [|unfold set_flags; simpl; f_equal; flags_eq].
    do 2 f_equal. apply list_filter_ext_in. intros m Hm. simpl.
    rewrite elem_of_union, elem_of_singleton. naive_solver.
Qed.

(** ** From the holding to the sending queue *)

Lemma move_loop_run i l : ∀ moved s, NoDup l →
  move_loop i l moved s
  = (moved ++ filter (λ n, (n, i, FDIR_NS_SUBSCRIBE_QUEUE_INDEX_SENDING) ∉ in_queue s) l,
     set_flags ((flags_of i FDIR_NS_SUBSCRIBE_QUEUE_INDEX_SENDING l ∪ in_queue s)
                  ∖ flags_of i FDIR_NS_SUBSCRIBE_QUEUE_INDEX_HOLDING l) s).
Proof.
  induction l as [|n l IH]; intros moved s Hnd; cbn [move_loop].
  { rewrite app_nil_r. unfold flags_of. simpl.
    rewrite (left_id_L ∅ (∪)), difference_empty_L. by destruct s. }
  apply NoDup_cons in Hnd as [Hn Hnd]. rewrite filter_cons.
  unfold FDIR_NS_SUBSCRIBE_QUEUE_INDEX_SENDING, FDIR_NS_SUBSCRIBE_QUEUE_INDEX_HOLDING in *.
  case_decide as Hin.
  - rewrite IH by done. rewrite decide_False by tauto.
    f_equal; [|unfold set_flags; simpl; f_equal; flags_eq].
    f_equal. apply list_filter_ext_in. intros m Hm. simpl.
    rewrite elem_of_difference, elem_of_singleton. naive_solver.
  - rewrite IH by done. rewrite decide_True by done. rewrite <- app_assoc. simpl.
    f_equal; [|unfold set_flags; simpl; f_equal; flags_eq].
    do 2 f_equal. apply list_filter_ext_in. intros m Hm. simpl.
    rewrite elem_of_difference, elem_of_union, !elem_of_singleton. naive_solver.
Qed.

(** Two queues of one subscriber are rebuilt with their flags. *)
Lemma sub_ok_set2 s i l0 l1 f :
  sub_ok s → NoDup l0 → NoDup l1 → i ∉ freelist s →
  (∀ n, (n, i, 0) ∈ f ↔ n ∈ l0) → (∀ n, (n, i, 1) ∈ f ↔ n ∈ l1) →
  (∀ n i' q', (i', q') ≠ (i, 0) → (i', q') ≠ (i, 1) →
     (n, i', q') ∈ f ↔ (n, i', q') ∈ in_queue s) →
  sub_ok (set_queue i 1 l1 (set_queue i 0 l0 (set_flags f s))).
Proof.
  intros [H1 H2 H3 H4] Hl0 Hl1 Hi Hf0 Hf1 Hne.
  split; simpl; try done.
  - intros i' q'. rewrite !queue_set. repeat case_decide; try done. apply H1.
  - intros n i' q'. rewrite !queue_set.
    case_decide as E1; [injection E1 as -> ->; symmetry; apply Hf1|].
    case_decide as E0; [injection E0 as -> ->; symmetry; apply Hf0|].
    rewrite Hne by done. apply H2.
  - intros i' q' Hin Hq. rewrite !queue_set.
    repeat case_decide; simplify_eq; try done; by apply H4.
Qed.

Lemma holding_to_sending_run s i :
  sub_ok s →
  ns_subscribe_holding_to_sending_queue i s
  = set_queue i 1 (queue s i 1 ++ filter (λ n, (n, i, 1) ∉ in_queue s) (queue s i 0))
      (set_queue i 0 []
        (set_flags ((flags_of i 1 (queue s i 0) ∪ in_queue s) ∖ flags_of i 0 (queue s i 0)) s))
  ∨ ns_subscribe_holding_to_sending_queue i s
    = set_queue i 0 []
        (set_flags ((flags_of i 1 (queue s i 0) ∪ in_queue s) ∖ flags_of i 0 (queue s i 0)) s)
    ∧ filter (λ n, (n, i, 1) ∉ in_queue s) (queue s i 0) = [].
Proof.
  intros Hok. unfold ns_subscribe_holding_to_sending_queue.
  rewrite move_loop_run by (by apply sub_NoDup).
  unfold FDIR_NS_SUBSCRIBE_QUEUE_INDEX_SENDING, FDIR_NS_SUBSCRIBE_QUEUE_INDEX_HOLDING.
  change (in_queue (set_queue i 0 [] s)) with (in_queue s). simpl app.
  change (set_flags ?f (set_queue i 0 [] s)) with (set_queue i 0 [] (set_flags f s)).
  destruct (filter _ _) as [|n m] eqn:E; [by right|left].
  rewrite queue_set, decide_False by done. done.
Qed.

(** Moving keeps what is outstanding. *)
Lemma holding_to_sending_ok s i :
  sub_ok s → i ∈ subscribers s →
  let s' := ns_subscribe_holding_to_sending_queue i s in
  sub_ok s' ∧ subscribers s' = subscribers s ∧ queue s' i 0 = [] ∧
  (∀ n, n ∈ queue s' i 1 ↔ outstanding s i n) ∧
  (∀ j q, j ≠ i → queue s' j q = queue s j q).
Proof.
  intros Hok Hi s'. set (F := filter (λ n, (n, i, 1) ∉ in_queue s) (queue s i 0)).
  assert (∀ n, n ∈ F ↔ n ∈ queue s i 0 ∧ n ∉ queue s i 1) as HF.
  { intros n. unfold F. rewrite list_elem_of_filter, <- (sub_flags s Hok). tauto. }
  set (t := set_queue i 1 (queue s i 1 ++ F) (set_queue i 0 []
        (set_flags ((flags_of i 1 (queue s i 0) ∪ in_queue s) ∖ flags_of i 0 (queue s i 0)) s))).
  assert (sub_ok t) as Ht.
  { pose proof (sub_flags s Hok) as Hfl.
    apply sub_ok_set2; [done|constructor| |by eapply subscriber_not_free| | |].
    - apply NoDup_app. split_and!; [by apply sub_NoDup| |].
      + intros n Hn Hn'%HF. tauto.
      + apply NoDup_filter. by apply sub_NoDup.
    - intros n. rewrite elem_of_difference, elem_of_union, !elem_of_flags, <- Hfl. set_solver.
    - intros n. rewrite elem_of_difference, elem_of_union, !elem_of_flags, <- Hfl.
      rewrite elem_of_app, HF. destruct (decide (n ∈ queue s i 1)); naive_solver.
    - intros n i' q' H0 H1. rewrite elem_of_difference, elem_of_union, !elem_of_flags.
      naive_solver. }
  assert (∀ j q, queue s' j q = queue t j q) as Hq.
  { intros j q. unfold s', t. destruct (holding_to_sending_run s i Hok) as [->|[-> E]]; [done|].
    fold F in E. rewrite E, app_nil_r. symmetry. rewrite (queue_set i 1).
    case_decide as Ej; [|done]. injection Ej as -> ->.
    by rewrite queue_set, decide_False. }
  assert (in_queue s' = in_queue t ∧ subscribers s' = subscribers t ∧ freelist s' = freelist t)
    as (E1 & E2 & E3)
    by (unfold s'; destruct (holding_to_sending_run s i Hok) as [->|[-> _]]; done).
  split_and!.
  - by apply (sub_ok_ext s' t).
  - by rewrite E2.
  - rewrite Hq. unfold t. rewrite queue_set, decide_False by done. apply queue_set_eq.
  - intros n. rewrite Hq. unfold t. rewrite queue_set_eq, elem_of_app, HF.
    unfold outstanding. change FDIR_NS_SUBSCRIBE_QUEUE_INDEX_HOLDING with 0.
    change FDIR_NS_SUBSCRIBE_QUEUE_INDEX_SENDING with 1.
    destruct (decide (n ∈ queue s i 1)); tauto.
  - intros j q Hne. rewrite Hq. unfold t. by rewrite !queue_set, !decide_False by congruence.
Qed.

(** ** Reporting *)

(** The state after refilling an empty sending queue. *)
Definition refilled (i : Z) (s : SubscribeCtx) : SubscribeCtx :=
  match queue s i 1 with
  | [] => ns_subscribe_holding_to_sending_queue i s
  | _ => s
  end.

Lemma refilled_ok s i :
  sub_ok s → i ∈ subscribers s →
  sub_ok (refilled i s) ∧ subscribers (refilled i s) = subscribers s ∧
  (∀ n, outstanding (refilled i s) i n ↔ outstanding s i n) ∧
  (∀ j q, j ≠ i → queue (refilled i s) j q = queue s j q) ∧
  (queue (refilled i s) i 1 = [] → ∀ n, ¬ outstanding s i n).
Proof.
  intros Hok Hi. unfold refilled. destruct (queue s i 1) as [|m l] eqn:E.
  - destruct (holding_to_sending_ok s i Hok Hi) as (H1 & H2 & H3 & H4 & H5).
    split_and!; try done.
    + intros n. unfold outstanding at 1. change FDIR_NS_SUBSCRIBE_QUEUE_INDEX_HOLDING with 0.
      change FDIR_NS_SUBSCRIBE_QUEUE_INDEX_SENDING with 1. rewrite H3, H4. set_solver.
    + intros E' n Hn. apply H4 in Hn. rewrite E' in Hn. set_solver.
  - split_and!; try done. by rewrite E.
Qed.

(** The state after reporting [sent]. *)
Lemma reported_ok s i sent rest :
  sub_ok s → i ∈ subscribers s → queue s i 1 = sent ++ rest →
  sub_ok (set_queue i 1 rest (set_flags (in_queue s ∖ flags_of i 1 sent) s)).
Proof.
  intros Hok Hi E. pose proof (sub_NoDup s Hok i 1) as Hnd. rewrite E in Hnd.
  apply NoDup_app in Hnd as (_ & Hd & Hnd).
  apply sub_ok_set; [done|done|by eapply subscriber_not_free| |].
  - intros n. rewrite elem_of_difference, elem_of_flags, <- (sub_flags s Hok), E, elem_of_app.
    specialize (Hd n). naive_solver.
  - intros n i' q' Hne. rewrite elem_of_difference, elem_of_flags. naive_solver.
Qed.

Section fetch.
Context (name_len used_bytes : ptr → Z).

(** The bytes of a response. *)
Definition resp_bytes (l : list ptr) : Z :=
  foldr (λ n acc, FDIR_NSS_PART_SIZE + name_len n + acc) 0 l.

Lemma fetch_loop_run i l : ∀ room out s,
  ∃ sent rest, l = sent ++ rest ∧
    fetch_loop name_len used_bytes i room l out s
    = (out ++ ((λ n, (n, used_bytes n)) <$> sent), rest,
       set_flags (in_queue s ∖ flags_of i 1 sent) s) ∧
    (resp_bytes sent ≤ room ∨ sent = []) ∧
    (∀ n r, rest = n :: r → room < resp_bytes (sent ++ [n])).
Proof.
  induction l as [|n l IH]; intros room out s; cbn [fetch_loop].
  { exists [], []. split_and!; [done| |by right|done].
    unfold flags_of. simpl. rewrite app_nil_r, difference_empty_L. by destruct s. }
  destruct (Z.ltb_spec (room - (FDIR_NSS_PART_SIZE + name_len n)) 0).
  { exists [], (n :: l). split_and!; [done| |by right|].
    - unfold flags_of. simpl. rewrite app_nil_r, difference_empty_L. by destruct s.
    - intros ? ? [= <- <-]. simpl. lia. }
  destruct (IH (room - (FDIR_NSS_PART_SIZE + name_len n)) (out ++ [(n, used_bytes n)])
    (set_flags (in_queue s ∖ {[(n, i, 1)]}) s)) as (sent & rest & -> & Hrun & Hb & Hr).
  exists (n :: sent), rest. split; [done|]. split_and!.
  - unfold FDIR_NS_SUBSCRIBE_QUEUE_INDEX_SENDING. rewrite Hrun, <- app_assoc.
    f_equal. unfold set_flags. simpl. f_equal. flags_eq.
  - left. simpl. destruct Hb as [Hb| ->]; [|simpl]; lia.
  - intros m r E. specialize (Hr m r E). simpl. lia.
Qed.

Lemma fetch_run s i room :
  ∃ sent rest, queue (refilled i s) i 1 = sent ++ rest ∧
    (resp_bytes sent ≤ room ∨ sent = []) ∧
    (∀ n r, rest = n :: r → room < resp_bytes (sent ++ [n])) ∧
    ∃ s', service_deal_nss_fetch name_len used_bytes i room s
          = ((λ n, (n, used_bytes n)) <$> sent, bool_decide (rest = []), s') ∧
      (∀ j q, queue s' j q = queue (set_queue i 1 rest (refilled i s)) j q) ∧
      in_queue s' = in_queue (refilled i s) ∖ flags_of i 1 sent ∧
      subscribers s' = subscribers (refilled i s) ∧ freelist s' = freelist (refilled i s).
Proof using All.
  unfold service_deal_nss_fetch. change FDIR_NS_SUBSCRIBE_QUEUE_INDEX_SENDING with 1.
  fold (refilled i s).
  destruct (fetch_loop_run i (queue (refilled i s) i 1) room []
    (set_queue i 1 [] (refilled i s))) as (sent & rest & E & -> & Hb & Hr).
  exists sent, rest. split_and!; [done|done|done|]. simpl app.
  destruct rest as [|n r]; [by eexists|].
  eexists. rewrite bool_decide_false by done. split; [reflexivity|]. split_and!; try done.
  intros j q. rewrite !queue_set. change (queue (set_flags ?f ?t)) with (queue t).
  case_decide as Ej.
  - by rewrite queue_set_eq, app_nil_r.
  - by rewrite queue_set, decide_False.
Qed.

(** A fetch reports namespaces that are outstanding, each with its current
    used bytes and once, within the room of the response; what it reports is
    no longer outstanding, everything else still is, other subscribers are
    untouched, and [is_last] says that the sending queue is empty. When
    something is outstanding and the first name fits, something is reported. *)
Theorem service_deal_nss_fetch_spec s i room :
  sub_ok s → i ∈ subscribers s → 0 ≤ room →
  ∃ sent is_last s',
    service_deal_nss_fetch name_len used_bytes i room s
    = ((λ n, (n, used_bytes n)) <$> sent, is_last, s') ∧
    sub_ok s' ∧ NoDup sent ∧ resp_bytes sent ≤ room ∧
    (∀ n, outstanding s i n ↔ n ∈ sent ∨ outstanding s' i n) ∧
    (∀ n, n ∈ sent → n ∉ queue s' i 1) ∧
    (∀ j n, j ≠ i → outstanding s' j n ↔ outstanding s j n) ∧
    (is_last = true → queue s' i 1 = []) ∧
    ((∃ n, outstanding s i n) → (∀ n, FDIR_NSS_PART_SIZE + name_len n ≤ room) → sent ≠ []).
Proof using All.
  intros Hok Hi Hroom.
  destruct (refilled_ok s i Hok Hi) as (Hok1 & Hsub & Hout & Hoth & Hemp).
  destruct (fetch_run s i room) as
    (sent & rest & E & Hb & Hr & s' & Hrun & Hq & Hfl & Hs1 & Hs2).
  assert (∀ q, queue s' i q = if decide (q = 1) then rest else queue (refilled i s) i q) as Hqi.
  { intros q. rewrite Hq, queue_set. repeat case_decide; simplify_eq; done. }
  exists sent, (bool_decide (rest = [])), s'. split; [done|].
  assert (NoDup sent ∧ ∀ n, n ∈ sent → n ∉ rest) as [Hnd Hdisj].
  { pose proof (sub_NoDup _ Hok1 i 1) as H. rewrite E in H.
    apply NoDup_app in H as (? & ? & ?). by split. }
  assert (∀ n, outstanding s i n ↔ n ∈ sent ∨ outstanding s' i n) as Ho.
  { intros n. rewrite <- Hout. unfold outstanding.
    change FDIR_NS_SUBSCRIBE_QUEUE_INDEX_HOLDING with 0.
    change FDIR_NS_SUBSCRIBE_QUEUE_INDEX_SENDING with 1.
    rewrite !Hqi, E, elem_of_app. simpl. tauto. }
  split_and!; try done.
  - apply (sub_ok_ext s' (set_queue i 1 rest
      (set_flags (in_queue (refilled i s) ∖ flags_of i 1 sent) (refilled i s)))); try done.
    apply reported_ok; [done|by rewrite Hsub|done].
  - destruct Hb as [?| ->]; [done|simpl; lia].
  - intros n Hn. rewrite Hqi. simpl. by apply Hdisj.
  - intros j n Hne. unfold outstanding. rewrite !Hq, !queue_set, !decide_False by congruence.
    by rewrite !Hoth.
  - intros Hl%bool_decide_eq_true. by rewrite Hqi.
  - intros [n Hn] Hfit ->. simpl in E. destruct rest as [|m r].
    + by apply (Hemp E n).
    + specialize (Hr m r eq_refl). simpl in Hr. specialize (Hfit m). lia.
Qed.
End fetch.

(** ** Subscribing and leaving *)

(** A new subscriber takes the first free slot; its queues are empty. *)
Lemma register_ok s i fr :
  sub_ok s → freelist s = i :: fr →
  sub_ok (set_subscribers fr (subscribers s ++ [i]) s) ∧ i ∉ subscribers s ∧
  ∀ q, q = 0 ∨ q = 1 → queue s i q = [].
Proof.
  intros [H1 H2 H3 H4] E. rewrite E in *.
  assert (NoDup ((i :: fr) ++ subscribers s)) as Hnd by (rewrite H3; apply NoDup_seqZ).
  split_and!.
  - split; simpl; try done.
    + rewrite <- H3. simpl. rewrite app_assoc. by rewrite Permutation_app_comm.
    + intros j q Hj. apply H4. set_solver.
  - apply NoDup_cons in Hnd as [Hi _]. set_solver.
  - intros q. apply H4. set_solver.
Qed.

Lemma push_all_ok namespaces s i :
  sub_ok s → i ∈ subscribers s → NoDup namespaces →
  (∀ q, q = 0 ∨ q = 1 → queue s i q = []) →
  let s' := fdir_namespace_push_all_to_holding_queue namespaces i s in
  sub_ok s' ∧ subscribers s' = subscribers s ∧
  (∀ n, outstanding s' i n ↔ n ∈ namespaces) ∧ (∀ j q, j ≠ i → queue s' j q = queue s j q).
Proof.
  intros Hok Hi Hnd Hemp s'.
  assert (∀ n, (n, i, 0) ∉ in_queue s) as Hfl.
  { intros n Hin. apply (sub_flags s Hok) in Hin. rewrite Hemp in Hin by auto. set_solver. }
  set (t := set_queue i 0 namespaces (set_flags (flags_of i 0 namespaces ∪ in_queue s) s)).
  assert (sub_ok t) as Ht.
  { apply sub_ok_set; [done|done|by eapply subscriber_not_free| |].
    - intros n. rewrite elem_of_union, elem_of_flags. naive_solver.
    - intros n i' q' Hne. rewrite elem_of_union, elem_of_flags. naive_solver. }
  assert (mark_loop i 0 namespaces [] s
          = (namespaces, set_flags (flags_of i 0 namespaces ∪ in_queue s) s)) as Hm.
  { rewrite mark_loop_run by done. f_equal. simpl.
    rewrite (list_filter_ext_in _ (λ _, True)) by (by split).
    clear. induction namespaces as [|n l IH]; [done|]. rewrite filter_cons_True by done.
    by rewrite IH. }
  assert (∀ j q, queue s' j q = queue t j q) as Hq.
  { intros j q. unfold s', fdir_namespace_push_all_to_holding_queue, t.
    change FDIR_NS_SUBSCRIBE_QUEUE_INDEX_HOLDING with 0. rewrite Hm.
    destruct namespaces as [|n l].
    - rewrite queue_set. case_decide as E; [|done]. injection E as -> ->. apply Hemp. auto.
    - change (queue (set_flags ?f s) i 0) with (queue s i 0). by rewrite Hemp by auto. }
  assert (in_queue s' = in_queue t ∧ subscribers s' = subscribers s ∧ freelist s' = freelist t)
    as (E1 & E2 & E3).
  { unfold s', fdir_namespace_push_all_to_holding_queue.
    change FDIR_NS_SUBSCRIBE_QUEUE_INDEX_HOLDING with 0. rewrite Hm.
    by destruct namespaces. }
  split_and!; [by apply (sub_ok_ext s' t)|done| |].
  - intros n. unfold outstanding. rewrite !Hq. unfold t. rewrite !queue_set.
    rewrite decide_True by done. rewrite decide_False by done.
    change (queue (set_flags ?f s) i ?q) with (queue s i q). rewrite Hemp by (by right).
    rewrite elem_of_nil. tauto.
  - intros j q Hne. rewrite Hq. unfold t. by rewrite queue_set, decide_False by congruence.
Qed.

(** A client that subscribes gets a slot nobody uses and is told about every
    existing namespace and about nothing older; it is refused exactly when
    all [FDIR_MAX_NS_SUBSCRIBERS] slots are taken, and no other subscriber
    notices. *)
Theorem subscribe_spec namespaces s :
  sub_ok s → NoDup namespaces →
  match ns_subscribe_register s with
  | (None, s') => s' = s ∧ Z.of_nat (length (subscribers s)) = FDIR_MAX_NS_SUBSCRIBERS
  | (Some i, s1) =>
    let s' := fdir_namespace_push_all_to_holding_queue namespaces i s1 in
    sub_ok s' ∧ i ∉ subscribers s ∧ subscribers s' = subscribers s ++ [i] ∧
    (∀ n, outstanding s' i n ↔ n ∈ namespaces) ∧
    (∀ j n, j ≠ i → outstanding s' j n ↔ outstanding s j n)
  end.
Proof.
  intros Hok Hnd. unfold ns_subscribe_register.
  destruct (freelist s) as [|i fr] eqn:E.
  - split; [done|]. pose proof (sub_slots s Hok) as H. rewrite E in H. simpl in H.
    apply Permutation_length in H. rewrite H. done.
  - destruct (register_ok s i fr Hok E) as (H1 & H2 & H3).
    destruct (push_all_ok namespaces _ i H1 ltac:(simpl; set_solver) Hnd H3)
      as (G1 & G2 & G3 & G4).
    split_and!; try done. intros j n Hne. unfold outstanding. by rewrite !G4.
Qed.

Lemma clear_queue_queue i q s j r :
  queue (clear_queue i q s) j r = if decide ((j, r) = (i, q)) then [] else queue s j r.
Proof.
  unfold clear_queue. change (queue (set_flags ?f ?t)) with (queue t). apply queue_set.
Qed.

Lemma clear_queue_ok i q s : sub_ok s → i ∉ freelist s → sub_ok (clear_queue i q s).
Proof.
  intros Hok Hi. pose proof (sub_flags s Hok) as Hfl.
  apply (sub_ok_ext _ (set_queue i q []
    (set_flags (in_queue s ∖ flags_of i q (queue s i q)) s))); try done.
  apply sub_ok_set; [done|constructor|done| |].
  - intros n. rewrite elem_of_difference, elem_of_flags, <- Hfl. set_solver.
  - intros n i' q' Hne. rewrite elem_of_difference, elem_of_flags. naive_solver.
Qed.

Lemma unregister_slots s i :
  sub_ok s → i ∈ subscribers s → (∀ q, q = 0 ∨ q = 1 → queue s i q = []) →
  sub_ok (set_subscribers (i :: freelist s) (filter (λ j, j ≠ i) (subscribers s)) s).
Proof.
  intros [H1 H2 H3 H4] Hi Hq. split; simpl; try done.
  - rewrite <- H3. assert (NoDup (freelist s ++ subscribers s)) as Hnd
      by (rewrite H3; apply NoDup_seqZ).
    apply NoDup_app in Hnd as (_ & _ & Hnd).
    apply list_elem_of_split in Hi as (l1 & l2 & E). rewrite E in *.
    apply NoDup_app in Hnd as (_ & Hd & Hnd). apply NoDup_cons in Hnd as [Hi2 _].
    assert (filter (λ j, j ≠ i) (l1 ++ i :: l2) = l1 ++ l2) as ->.
    { rewrite filter_app, filter_cons_False by auto. f_equal; apply list_filter_all.
      - intros j Hj ->. apply (Hd i Hj). set_solver.
      - intros j Hj ->. done. }
    rewrite !app_assoc. apply Permutation_middle.
  - intros j q [->|Hj]%elem_of_cons ?; [by apply Hq|by apply H4].
Qed.

(** Leaving gives the slot back with nothing queued and no flag set, so that
    the next subscriber starts afresh; nobody else notices. *)
Theorem ns_subscribe_unregister_spec s i :
  sub_ok s → i ∈ subscribers s →
  let s' := ns_subscribe_unregister i s in
  sub_ok s' ∧ (∀ j, j ∈ subscribers s' ↔ j ∈ subscribers s ∧ j ≠ i) ∧
  head (freelist s') = Some i ∧ (∀ n q, q = 0 ∨ q = 1 → (n, i, q) ∉ in_queue s') ∧
  (∀ j n, j ≠ i → outstanding s' j n ↔ outstanding s j n).
Proof.
  intros Hok Hi s'. set (c := clear_queue i 1 (clear_queue i 0 s)).
  assert (s' = set_subscribers (i :: freelist c) (filter (λ j, j ≠ i) (subscribers c)) c)
    as Es by reflexivity.
  assert (i ∉ freelist s) as Hf by (by eapply subscriber_not_free).
  assert (sub_ok c) as Hc by (by apply clear_queue_ok, Hf; apply clear_queue_ok).
  assert (∀ q, q = 0 ∨ q = 1 → queue c i q = []) as Hq.
  { intros q Hq. unfold c. rewrite !clear_queue_queue.
    destruct Hq as [->| ->]; [rewrite decide_False, decide_True by done|
      rewrite decide_True by done]; done. }
  rewrite Es. split; [by apply unregister_slots|]. split_and!; [|done| |].
  - intros j. simpl. rewrite list_elem_of_filter. tauto.
  - intros n q Hqq Hin. apply (sub_flags c Hc) in Hin. rewrite Hq in Hin by done. set_solver.
  - intros j n Hne. unfold outstanding. change (queue (set_subscribers ?a ?b c)) with (queue c).
    unfold c. by rewrite !clear_queue_queue, !decide_False by congruence.
Qed.

(** ** The theorems at a concrete state *)

(** Subscriber 0 has been told about namespaces 1 and 2 and namespace 3 has
    changed since; the other slots are free. *)
Definition demo : SubscribeCtx :=
  mkSubscribeCtx [1; 2; 3; 4; 5; 6; 7] [0]
    (<[(0, 0) := [3%positive]]> (<[(0, 1) := [1%positive; 2%positive]]> ∅))
    {[(3%positive, 0, 0); (1%positive, 0, 1); (2%positive, 0, 1)]}.

Lemma demo_queue i q :
  queue demo i q = if decide ((i, q) = (0, 0)) then [3%positive]
                   else if decide ((i, q) = (0, 1)) then [1%positive; 2%positive] else [].
Proof.
  unfold queue, demo. simpl. repeat case_decide; simplify_eq; try done.
  by rewrite !lookup_insert_ne by congruence.
Qed.

Lemma demo_sub_ok : sub_ok demo.
Proof.
  split.
  - intros i q. rewrite demo_queue.
    repeat case_decide; repeat constructor; set_solver.
  - intros n i q. rewrite demo_queue. simpl. rewrite !elem_of_union, !elem_of_singleton.
    repeat case_decide; simplify_eq; set_solver.
  - change ([1; 2; 3; 4; 5; 6; 7] ++ [0] ≡ₚ seqZ 0 8). apply (bool_decide_unpack _). by vm_compute.
  - intros i q Hi _. rewrite demo_queue. repeat case_decide; simplify_eq; try done;
      simpl in Hi; set_solver.
Qed.

Lemma ns_subscribe_notify_all_spec_witness :
  sub_ok (ns_subscribe_notify_all 1%positive demo) ∧
  outstanding (ns_subscribe_notify_all 1%positive demo) 0 1%positive.
Proof.
  destruct (ns_subscribe_notify_all_spec 1%positive demo demo_sub_ok) as (H1 & _ & H3).
  split; [exact H1|]. apply H3. right. split; [set_solver|reflexivity].
Defined.

Lemma service_deal_nss_fetch_spec_witness :
  ∃ sent is_last s', service_deal_nss_fetch (λ _, 4) (λ _, 100) 0 20 demo
    = ((λ n, (n, 100)) <$> sent, is_last, s') ∧ sub_ok s' ∧ sent ≠ [].
Proof.
  destruct (service_deal_nss_fetch_spec (λ _, 4) (λ _, 100) demo 0 20 demo_sub_ok)
    as (sent & l & s' & Hrun & Hok & _ & _ & _ & _ & _ & _ & Hne); [set_solver|lia|].
  exists sent, l, s'. split; [exact Hrun|]. split; [exact Hok|]. apply Hne.
  - exists 3%positive. left. rewrite demo_queue. set_solver.
  - intros n. unfold FDIR_NSS_PART_SIZE. lia.
Defined.

Lemma subscribe_spec_witness :
  let s1 := snd (ns_subscribe_register demo) in
  sub_ok (fdir_namespace_push_all_to_holding_queue [1%positive; 2%positive] 1 s1).
Proof.
  assert (NoDup [1%positive; 2%positive]) as Hnd by (apply (bool_decide_unpack _); reflexivity).
  destruct (subscribe_spec [1%positive; 2%positive] demo demo_sub_ok Hnd) as (H & _). exact H.
Defined.

Lemma ns_subscribe_unregister_spec_witness :
  sub_ok (ns_subscribe_unregister 0 demo) ∧
  head (freelist (ns_subscribe_unregister 0 demo)) = Some 0.
Proof.
  destruct (ns_subscribe_unregister_spec demo 0 demo_sub_ok) as (H1 & _ & H2 & _); [set_solver|].
  split; [exact H1|exact H2].
Defined.
