(* ===== verification/FsTree.v ===== *)
(** * The specification of the directory tree

    What [server/dentry.c] implements, without its representation: nodes with a
    name, a parent, a set of children and a link count, the roots of the
    namespaces and the number of directories and files of each. The primitive
    changes ([p_new], [p_attach], [p_detach], [p_place], [p_mount], [p_unmount],
    [p_reap]) are composed into the specifications of create, remove, rename
    and exchange.

    [wf A F] is the invariant of the tree; the nodes of [F] are floating: in the
    middle of an operation they are in no directory. One equation covers the
    link count of every kind of node ([w_nlink]). *)

From S2P Require Import Prelude.

(** ** Data *)

Record ANode := mkANode {
  an_inode : Z;
  an_name : string;
  an_parent : option ptr;
  an_ns : ptr;
  an_dir : bool;
  an_link : bool;            (* a hard link to [an_src] *)
  an_src : option ptr;
  an_nlink : Z;
  an_kids : gset ptr
}.

(** [roots] and [counts] are indexed by namespace. *)
Record ATree := mkATree {
  nodes : gmap ptr ANode;
  roots : gmap ptr ptr;
  counts : gmap ptr (Z * Z)
}.

Definition with_nodes m (A : ATree) : ATree := mkATree m (roots A) (counts A).
Definition with_roots m (A : ATree) : ATree := mkATree (nodes A) m (counts A).
Definition with_counts m (A : ATree) : ATree := mkATree (nodes A) (roots A) m.

Definition n_nlink (k : Z) (n : ANode) : ANode :=
  mkANode (an_inode n) (an_name n) (an_parent n) (an_ns n) (an_dir n) (an_link n) (an_src n)
    (an_nlink n + k) (an_kids n).
Definition n_kids (f : gset ptr → gset ptr) (n : ANode) : ANode :=
  mkANode (an_inode n) (an_name n) (an_parent n) (an_ns n) (an_dir n) (an_link n) (an_src n)
    (an_nlink n) (f (an_kids n)).
Definition n_place parent name (n : ANode) : ANode :=
  mkANode (an_inode n) name parent (an_ns n) (an_dir n) (an_link n) (an_src n) (an_nlink n)
    (an_kids n).

Definition upd_node (p : ptr) (f : ANode → ANode) (A : ATree) : ATree :=
  with_nodes (alter f p (nodes A)) A.
Definition del_node (p : ptr) (A : ATree) : ATree := with_nodes (delete p (nodes A)) A.

(** Counting the node [n] [k] times more in its namespace. *)
Definition add_count (n : ANode) (k : Z) (A : ATree) : ATree :=
  with_counts (alter (λ c, if an_dir n then (fst c + k, snd c) else (fst c, snd c + k))
                 (an_ns n) (counts A)) A.

(** ** Primitives *)

(** Node [c] becomes a child of [p], or is no longer one. *)
Definition p_attach (c p : ptr) (A : ATree) : ATree :=
  upd_node c (n_nlink 1) (upd_node p (λ n, n_kids (λ k, {[c]} ∪ k) (n_nlink 1 n)) A).
Definition p_detach (c p : ptr) (A : ATree) : ATree :=
  upd_node c (n_nlink (-1)) (upd_node p (λ n, n_kids (λ k, k ∖ {[c]}) (n_nlink (-1) n)) A).

(** Node [c] becomes the root of namespace [a], or is no longer it. *)
Definition p_mount (c a : ptr) (A : ATree) : ATree :=
  upd_node c (n_nlink 1) (with_roots (<[a := c]> (roots A)) A).
Definition p_unmount (c a : ptr) (A : ATree) : ATree :=
  upd_node c (n_nlink (-1)) (with_roots (delete a (roots A)) A).

(** A floating node is given the directory and the name it will have. *)
Definition p_place (c p : ptr) (name : string) : ATree → ATree :=
  upd_node c (n_place (Some p) name).

(** A hard link is a reference to its source. *)
Definition link_ref (n : ANode) (k : Z) (A : ATree) : ATree :=
  match an_link n, an_src n with
  | true, Some src => upd_node src (n_nlink k) A
  | _, _ => A
  end.

(** A new node, and one that goes. *)
Definition p_new (c : ptr) (n : ANode) (A : ATree) : ATree :=
  add_count n 1 (with_nodes (<[c := n]> (nodes (link_ref n 1 A))) A).
Definition p_free (c : ptr) (n : ANode) (A : ATree) : ATree :=
  link_ref n (-1) (add_count n (-1) (del_node c A)).

(** Node [c] goes when no reference is left, and with a hard link its source
    may. *)
Definition p_reap_file (c : ptr) (A : ATree) : ATree :=
  match nodes A !! c with
  | Some n => if an_nlink n =? 0 then p_free c n A else A
  | None => A
  end.
Definition p_reap (c : ptr) (A : ATree) : ATree :=
  match nodes A !! c with
  | Some n =>
    match an_link n, an_src n with
    | true, Some src => p_reap_file src (p_reap_file c A)
    | _, _ => p_reap_file c A
    end
  | None => A
  end.

(** ** Operations *)

Definition create_spec (c p : ptr) (n : ANode) (A : ATree) : ATree := p_attach c p (p_new c n A).
Definition create_root_spec (c : ptr) (n : ANode) (A : ATree) : ATree :=
  p_mount c (an_ns n) (p_new c n A).
Definition remove_spec (c p : ptr) (A : ATree) : ATree := p_reap c (p_detach c p A).
Definition remove_root_spec (c a : ptr) (A : ATree) : ATree := p_reap c (p_unmount c a A).
Definition move_spec (src sp dp : ptr) (name : string) (overwritten : option ptr)
    (A : ATree) : ATree :=
  let A := match overwritten with Some o => remove_spec o dp A | None => A end in
  p_attach src dp (p_place src dp name (p_detach src sp A)).
Definition exchange_spec (src sp dest dp : ptr) (sname dname : string) (A : ATree) : ATree :=
  let A := p_detach dest dp (p_detach src sp A) in
  let A := p_attach src dp (p_place src dp dname A) in
  p_attach dest sp (p_place dest sp sname A).

(** Directory [p] maps [name] to the child of that name. *)
Definition child_at (A : ATree) (p : ptr) (name : string) (c : ptr) : Prop :=
  ∃ n e, nodes A !! p = Some n ∧ c ∈ an_kids n ∧ nodes A !! c = Some e ∧ an_name e = name.

(** ** Invariant *)

Definition kids_at (A : ATree) (p : ptr) : gset ptr :=
  match nodes A !! p with Some n => an_kids n | None => ∅ end.

(** The node is in a directory or is the root of its namespace. *)
Definition attached (A : ATree) (c : ptr) : Prop :=
  match nodes A !! c with
  | Some n => match an_parent n with
              | Some p => c ∈ kids_at A p
              | None => roots A !! an_ns n = Some c
              end
  | None => False
  end.

#[global] Instance attached_dec A c : Decision (attached A c).
Proof. unfold attached. destruct (nodes A !! c) as [n|]; [destruct (an_parent n)|]; apply _. Defined.

(** How many nodes satisfy [P]. *)
Definition n_count (P : ANode → bool) (m : gmap ptr ANode) : Z :=
  Z.of_nat (size (filter (λ x : ptr * ANode, P (snd x) = true) m)).

(** The hard links of [c]. *)
Definition is_link_of (c : ptr) (n : ANode) : bool :=
  an_link n && bool_decide (an_src n = Some c).
Definition links (A : ATree) (c : ptr) : Z := n_count (is_link_of c) (nodes A).

(** The nodes of a namespace, directories or files. *)
Definition is_member (a : ptr) (dir : bool) (n : ANode) : bool :=
  bool_decide (an_ns n = a) && eqb (an_dir n) dir.
Definition members (A : ATree) (a : ptr) (dir : bool) : Z := n_count (is_member a dir) (nodes A).

(** References to [c]: its own place, its children's [..], its hard links. *)
Definition refs (A : ATree) (c : ptr) : Z :=
  (if decide (attached A c) then 1 else 0) + Z.of_nat (size (kids_at A c)) +
  links A c.

Record wf (A : ATree) (F : gset ptr) : Prop := {
  w_kid : ∀ p n c, nodes A !! p = Some n → c ∈ an_kids n →
    ∃ e, nodes A !! c = Some e ∧ an_parent e = Some p ∧ an_ns e = an_ns n;
  w_leaf : ∀ p n, nodes A !! p = Some n → an_dir n = false → an_kids n = ∅;
  w_names : ∀ p n c1 c2 e1 e2, nodes A !! p = Some n → c1 ∈ an_kids n → c2 ∈ an_kids n →
    nodes A !! c1 = Some e1 → nodes A !! c2 = Some e2 → an_name e1 = an_name e2 → c1 = c2;
  w_up : ∀ p n, nodes A !! p = Some n → an_dir n = true ∨ an_link n = true → p ∉ F →
    attached A p;
  w_root : ∀ a r, roots A !! a = Some r →
    ∃ n, nodes A !! r = Some n ∧ an_parent n = None ∧ an_ns n = a;
  w_link : ∀ q n, nodes A !! q = Some n → an_link n = true →
    an_dir n = false ∧ ∃ c e, an_src n = Some c ∧ nodes A !! c = Some e ∧
      an_dir e = false ∧ an_link e = false;
  w_nlink : ∀ c n, nodes A !! c = Some n → an_nlink n = refs A c;
  w_live : ∀ c n, nodes A !! c = Some n → c ∉ F → 0 < an_nlink n;
  w_chain : ∀ p n, nodes A !! p = Some n → an_dir n = true → p ∉ F →
    ∃ l, chain an_parent (nodes A) (Some p) l;
  w_counts : ∀ a c, counts A !! a = Some c →
    c = (members A a true, members A a false)
}.

(** ** Changes that keep the kind of every node *)

Lemma upd_lookup A p f q :
  nodes (upd_node p f A) !! q = if decide (q = p) then f <$> nodes A !! q else nodes A !! q.
Proof.
  unfold upd_node. simpl. case_decide as E; [subst; apply lookup_alter_eq|].
  by rewrite lookup_alter_ne.
Qed.

Definition node_key (n : ANode) := (an_ns n, an_dir n, an_link n, an_src n).

Definition same_keys (A A' : ATree) : Prop :=
  ∀ p, node_key <$> nodes A' !! p = node_key <$> nodes A !! p.

Lemma same_keys_refl A : same_keys A A.
Proof. done. Qed.
Lemma same_keys_trans A B C : same_keys A B → same_keys B C → same_keys A C.
Proof. intros H1 H2 p. by rewrite H2, H1. Qed.

Lemma same_keys_upd A p f :
  (∀ n, node_key (f n) = node_key n) → same_keys A (upd_node p f A).
Proof.
  intros Hf q. rewrite upd_lookup. case_decide; [|done].
  destruct (nodes A !! q); simpl; [by rewrite Hf|done].
Qed.

Lemma same_keys_inv A A' p n' : same_keys A A' → nodes A' !! p = Some n' →
  ∃ n, nodes A !! p = Some n ∧ node_key n' = node_key n.
Proof.
  intros Hs Hp. specialize (Hs p). rewrite Hp in Hs. simpl in Hs. symmetry in Hs.
  apply fmap_Some in Hs as (n & Hn & E). eauto.
Qed.

Lemma same_keys_fwd A A' p n : same_keys A A' → nodes A !! p = Some n →
  ∃ n', nodes A' !! p = Some n' ∧ node_key n' = node_key n.
Proof.
  intros Hs Hp. specialize (Hs p). rewrite Hp in Hs. simpl in Hs.
  apply fmap_Some in Hs as (n' & Hn & E). eauto.
Qed.

Lemma n_count_ext (P : ANode → bool) (m1 m2 : gmap ptr ANode) :
  (∀ p, node_key <$> m1 !! p = node_key <$> m2 !! p) →
  (∀ n1 n2, node_key n1 = node_key n2 → P n1 = P n2) →
  n_count P m1 = n_count P m2.
Proof.
  intros Hm HP. unfold n_count. rewrite <- !size_dom. do 2 f_equal.
  apply set_eq. intros p. rewrite !elem_of_dom. specialize (Hm p).
  split; intros [n Hn]; apply map_lookup_filter_Some in Hn as [Hn HPn]; simpl in HPn;
    rewrite Hn in Hm; simpl in Hm; [symmetry in Hm|];
    apply fmap_Some in Hm as (n2 & Hn2 & E); exists n2; apply map_lookup_filter_Some;
    (split; [done|]); simpl; rewrite <- HPn; symmetry; by apply HP.
Qed.

Lemma n_count_insert P m p n :
  m !! p = None → n_count P (<[p := n]> m) = n_count P m + (if P n then 1 else 0).
Proof.
  intros Hp. unfold n_count. destruct (P n) eqn:E.
  - rewrite map_filter_insert_True by done. rewrite map_size_insert_None; [lia|].
    apply map_lookup_filter_None. by left.
  - rewrite map_filter_insert_False by (simpl; congruence). rewrite delete_id by done. lia.
Qed.

Lemma n_count_delete P m p n :
  m !! p = Some n → n_count P m = n_count P (delete p m) + (if P n then 1 else 0).
Proof.
  intros Hp. rewrite <- (n_count_insert P (delete p m) p n) by apply lookup_delete_eq. by rewrite insert_delete_id.
Qed.

Lemma n_count_pos P m p n : m !! p = Some n → P n = true → 0 < n_count P m.
Proof.
  intros Hp HP. rewrite (n_count_delete P m p n Hp), HP. unfold n_count. lia.
Qed.

Lemma n_count_zero P m : (∀ p n, m !! p = Some n → P n = false) → n_count P m = 0.
Proof.
  intros HP. unfold n_count. replace (filter _ m) with (∅ : gmap ptr ANode); [done|].
  symmetry. apply map_eq. intros p. rewrite lookup_empty. apply map_lookup_filter_None.
  right. intros n Hp. simpl. by rewrite (HP p n Hp).
Qed.

Lemma same_keys_links A A' c : same_keys A A' → links A' c = links A c.
Proof.
  intros Hs. apply n_count_ext; [done|]. unfold is_link_of. by intros n1 n2 [= _ _ -> ->].
Qed.

Lemma same_keys_members A A' a b : same_keys A A' → members A' a b = members A a b.
Proof.
  intros Hs. apply n_count_ext; [done|]. unfold is_member. by intros n1 n2 [= -> -> _ _].
Qed.

Lemma same_keys_link A A' q n : same_keys A A' →
  (∀ q n, nodes A !! q = Some n → an_link n = true →
    an_dir n = false ∧ ∃ c e, an_src n = Some c ∧ nodes A !! c = Some e ∧
      an_dir e = false ∧ an_link e = false) →
  nodes A' !! q = Some n → an_link n = true →
  an_dir n = false ∧ ∃ c e, an_src n = Some c ∧ nodes A' !! c = Some e ∧
    an_dir e = false ∧ an_link e = false.
Proof.
  intros Hs Hl Hq Hn. destruct (same_keys_inv _ _ _ _ Hs Hq) as (n0 & Hn0 & [= _ E1 E2 E3]).
  destruct (Hl q n0 Hn0) as (Hd & c & e & Hc & He & Hd' & Hl'); [congruence|].
  destruct (same_keys_fwd _ _ _ _ Hs He) as (e' & He' & [= _ E4 E5 _]).
  split; [congruence|]. exists c, e'. repeat split; congruence.
Qed.

Lemma chain_ext (h h' : gmap ptr ANode) p l :
  (∀ x, x ∈ l → an_parent <$> h' !! x = an_parent <$> h !! x) →
  chain an_parent h p l → chain an_parent h' p l.
Proof.
  revert p. induction l as [|x l IH]; intros p Hx; simpl; [done|].
  intros (-> & v & Hv & Hc). split; [done|].
  specialize (Hx x ltac:(set_solver)) as E. rewrite Hv in E. simpl in E.
  apply fmap_Some in E as (v' & Hv' & E). exists v'. split; [done|]. rewrite <- E.
  apply IH; [|done]. intros y Hy. apply Hx. set_solver.
Qed.

(** ** Changes that keep everything but children and link counts *)

Definition shape (n : ANode) := (node_key n, an_parent n, an_name n, an_inode n).

Definition same_shape (A A' : ATree) : Prop :=
  ∀ p, shape <$> nodes A' !! p = shape <$> nodes A !! p.

Lemma same_shape_trans A B C : same_shape A B → same_shape B C → same_shape A C.
Proof. intros H1 H2 p. by rewrite H2, H1. Qed.

Lemma same_shape_upd A p f : (∀ n, shape (f n) = shape n) → same_shape A (upd_node p f A).
Proof.
  intros Hf q. rewrite upd_lookup. case_decide; [|done].
  destruct (nodes A !! q); simpl; [by rewrite Hf|done].
Qed.

Lemma same_shape_keys A A' : same_shape A A' → same_keys A A'.
Proof.
  intros Hs p. specialize (Hs p). unfold shape in Hs.
  destruct (nodes A' !! p), (nodes A !! p); simpl in *; congruence.
Qed.

Lemma same_shape_inv A A' p n' : same_shape A A' → nodes A' !! p = Some n' →
  ∃ n, nodes A !! p = Some n ∧ an_parent n' = an_parent n ∧ an_name n' = an_name n ∧
    an_ns n' = an_ns n ∧ an_dir n' = an_dir n ∧ an_link n' = an_link n.
Proof.
  intros Hs Hp. specialize (Hs p). rewrite Hp in Hs. simpl in Hs. symmetry in Hs.
  apply fmap_Some in Hs as (n & Hn & E). exists n. injection E. intros. repeat split; congruence.
Qed.

Lemma same_shape_fwd A A' p n : same_shape A A' → nodes A !! p = Some n →
  ∃ n', nodes A' !! p = Some n' ∧ an_parent n' = an_parent n ∧ an_name n' = an_name n ∧
    an_ns n' = an_ns n ∧ an_dir n' = an_dir n ∧ an_link n' = an_link n.
Proof.
  intros Hs Hp. specialize (Hs p). rewrite Hp in Hs. simpl in Hs.
  apply fmap_Some in Hs as (n' & Hn & E). exists n'. injection E. intros. repeat split; congruence.
Qed.

Lemma kids_at_eq A p n : nodes A !! p = Some n → kids_at A p = an_kids n.
Proof. unfold kids_at. by intros ->. Qed.

Lemma kids_at_Some A p c : c ∈ kids_at A p → ∃ n, nodes A !! p = Some n ∧ c ∈ an_kids n.
Proof. unfold kids_at. destruct (nodes A !! p) as [n|]; [eauto|set_solver]. Qed.

(** Links to one child per name, from the directory's side. *)
Definition kid_ok (A : ATree) (p c : ptr) : Prop :=
  ∃ d e, nodes A !! p = Some d ∧ an_dir d = true ∧ nodes A !! c = Some e ∧
    an_parent e = Some p ∧ an_ns e = an_ns d.

Lemma wf_kid_ok A F p c : wf A F → c ∈ kids_at A p → kid_ok A p c.
Proof.
  intros Hwf Hc. destruct (kids_at_Some _ _ _ Hc) as (d & Hd & Hk).
  destruct (w_kid _ _ Hwf _ _ _ Hd Hk) as (e & He & Hp & Hn). exists d, e.
  repeat split; try done. destruct (an_dir d) eqn:E; [done|].
  rewrite (w_leaf _ _ Hwf _ _ Hd E) in Hk. set_solver.
Qed.

Lemma kid_attached A F p c : wf A F → c ∈ kids_at A p → attached A c.
Proof.
  intros Hwf Hc. destruct (wf_kid_ok _ _ _ _ Hwf Hc) as (d & e & _ & _ & He & Hp & _).
  unfold attached. by rewrite He, Hp.
Qed.

Lemma root_attached A F a r : wf A F → roots A !! a = Some r → attached A r.
Proof.
  intros Hwf Hr. destruct (w_root _ _ Hwf _ _ Hr) as (n & Hn & Hp & Ha).
  unfold attached. by rewrite Hn, Hp, Ha.
Qed.

Definition p_attached_or (A : ATree) (F : gset ptr) (q : ptr) : Prop := attached A q ∨ q ∈ F.

(** The invariant after such a change, from what changes. *)
Lemma wf_same_shape A A' F F' :
  wf A F → same_shape A A' → counts A' = counts A →
  (∀ p c, c ∈ kids_at A' p → kid_ok A p c) →
  (∀ p c1 c2 e1 e2, c1 ∈ kids_at A' p → c2 ∈ kids_at A' p →
    nodes A !! c1 = Some e1 → nodes A !! c2 = Some e2 → an_name e1 = an_name e2 → c1 = c2) →
  (∀ q, p_attached_or A F q → p_attached_or A' F' q) →
  (∀ a r, roots A' !! a = Some r →
    ∃ n, nodes A !! r = Some n ∧ an_parent n = None ∧ an_ns n = a) →
  (∀ q n n', nodes A !! q = Some n → nodes A' !! q = Some n' →
    an_nlink n' - an_nlink n = refs A' q - refs A q) →
  (∀ q, is_Some (nodes A !! q) → q ∉ F' → 0 < refs A' q) →
  (∀ q n, nodes A !! q = Some n → an_dir n = true → q ∈ F → q ∉ F' →
    ∃ l, chain an_parent (nodes A) (Some q) l) →
  wf A' F'.
Proof.
  intros Hwf Hs Hc Hkid Hnames Hup Hroot Hnl Hlive Hch.
  pose proof (same_shape_keys _ _ Hs) as Hk.
  assert (∀ c n, nodes A' !! c = Some n → an_nlink n = refs A' c) as Hrefs.
  { intros q n' Hq. destruct (same_shape_inv _ _ _ _ Hs Hq) as (n & Hn & _).
    pose proof (Hnl _ _ _ Hn Hq). pose proof (w_nlink _ _ Hwf _ _ Hn). lia. }
  constructor.
  - intros p n c Hp Hn. rewrite <- (kids_at_eq _ _ _ Hp) in Hn.
    destruct (Hkid _ _ Hn) as (d & e & Hd & _ & He & Ep & En).
    destruct (same_shape_fwd _ _ _ _ Hs He) as (e' & He' & E1 & _ & E2 & _).
    destruct (same_shape_inv _ _ _ _ Hs Hp) as (d' & Hd' & _ & _ & E3 & _).
    simplify_eq. exists e'. repeat split; congruence.
  - intros p n Hp Hd. apply set_eq. intros c. split; [|set_solver].
    rewrite <- (kids_at_eq _ _ _ Hp). intros (d & e & Hd' & Hdir & _)%Hkid.
    destruct (same_shape_inv _ _ _ _ Hs Hp) as (n0 & H0 & _ & _ & _ & E & _). congruence.
  - intros p n c1 c2 e1 e2 Hp H1 H2 He1 He2 E. rewrite <- (kids_at_eq _ _ _ Hp) in H1, H2.
    destruct (same_shape_inv _ _ _ _ Hs He1) as (f1 & Hf1 & _ & E1 & _).
    destruct (same_shape_inv _ _ _ _ Hs He2) as (f2 & Hf2 & _ & E2 & _).
    apply (Hnames p _ _ _ _ H1 H2 Hf1 Hf2). congruence.
  - intros p n Hp Hk' HF. destruct (same_shape_inv _ _ _ _ Hs Hp) as (n0 & H0 & _ & _ & _ & E1 & E2).
    destruct (Hup p) as [?|?]; [|done|done]. rewrite E1, E2 in Hk'.
    destruct (decide (p ∈ F)); [by right|left; by eapply w_up].
  - intros a r Hr. destruct (Hroot _ _ Hr) as (n & Hn & Hp & Ha).
    destruct (same_shape_fwd _ _ _ _ Hs Hn) as (n' & Hn' & E1 & _ & E2 & _).
    exists n'. repeat split; congruence.
  - intros q n. apply (same_keys_link A A'); [done|]. apply Hwf.
  - done.
  - intros q n Hq HF. rewrite (Hrefs _ _ Hq). apply Hlive; [|done].
    destruct (same_shape_inv _ _ _ _ Hs Hq) as (n0 & H0 & _). eauto.
  - intros p n Hp Hd HF. destruct (same_shape_inv _ _ _ _ Hs Hp) as (n0 & H0 & _ & _ & _ & E & _).
    assert (∃ l, chain an_parent (nodes A) (Some p) l) as [l Hl].
    { rewrite E in Hd. destruct (decide (p ∈ F)); [by eapply Hch|by eapply w_chain]. }
    exists l. eapply chain_ext; [|done]. intros x _. specialize (Hs x).
    unfold shape in Hs. destruct (nodes A' !! x), (nodes A !! x); simpl in *; congruence.
  - intros a c Ha. rewrite Hc in Ha. rewrite !(same_keys_members _ _ _ _ Hk). by eapply w_counts.
Qed.

(** Where a node is, as a function of what determines it. *)
Lemma attached_ext A A' q :
  same_shape A A' → (∀ r, q ∈ kids_at A' r ↔ q ∈ kids_at A r) →
  (∀ a, roots A' !! a = Some q ↔ roots A !! a = Some q) →
  attached A' q ↔ attached A q.
Proof.
  intros Hs Hk Hr. unfold attached. specialize (Hs q). unfold shape, node_key in Hs.
  destruct (nodes A' !! q) as [n'|], (nodes A !! q) as [n|]; simpl in *; try done.
  injection Hs as -> _ _ _ -> _ _. destruct (an_parent n) as [r|]; [apply Hk|apply Hr].
Qed.

Lemma refs_eq A A' q (da dk : Z) :
  same_shape A A' →
  (if decide (attached A' q) then 1 else 0) = (if decide (attached A q) then 1 else 0) + da →
  Z.of_nat (size (kids_at A' q)) = Z.of_nat (size (kids_at A q)) + dk →
  refs A' q = refs A q + da + dk.
Proof.
  intros Hs H1 H2. unfold refs. rewrite H1, H2.
  rewrite (same_keys_links _ _ _ (same_shape_keys _ _ Hs)). lia.
Qed.

Lemma links_pos A c : 0 ≤ links A c.
Proof. unfold links, n_count. lia. Qed.

Lemma refs_attached A q : attached A q → 0 < refs A q.
Proof. intros Ha. unfold refs. pose proof (links_pos A q). rewrite decide_True by done. lia. Qed.

Lemma refs_kid A q c : c ∈ kids_at A q → 0 < refs A q.
Proof.
  intros Hc. unfold refs. pose proof (links_pos A q).
  assert (size (kids_at A q) ≠ 0%nat). { intros E%size_empty_inv. set_solver. }
  case_decide; lia.
Qed.

Lemma refs_live A F q : wf A F → is_Some (nodes A !! q) → q ∉ F → 0 < refs A q.
Proof. intros Hwf [n Hn] HF. erewrite <- w_nlink by done. by eapply w_live. Qed.

(** ** Attaching to a directory *)

Section attach.
Context (A : ATree) (F : gset ptr) (c p : ptr) (n d : ANode).
Context (Hwf : wf A F) (Ha : ¬ attached A c).
Context (Hc : nodes A !! c = Some n) (Hn : an_parent n = Some p).
Context (Hp : nodes A !! p = Some d) (Hd : an_dir d = true) (HF : p ∉ F).

Lemma attach_ne : c ≠ p.
Proof using All. intros ->. destruct Ha. eapply w_up; eauto. Qed.

Lemma attach_shape : same_shape A (p_attach c p A).
Proof using Type. unfold p_attach. eapply same_shape_trans; by apply same_shape_upd. Qed.

Lemma attach_lookup q :
  nodes (p_attach c p A) !! q
  = (λ m, n_kids (λ k, (if decide (q = p) then {[c]} else ∅) ∪ k)
       (n_nlink ((if decide (q = c) then 1 else 0) + (if decide (q = p) then 1 else 0)) m))
    <$> nodes A !! q.
Proof using All.
  pose proof attach_ne. unfold p_attach. rewrite !upd_lookup. destruct (nodes A !! q) as [[]|];
    repeat case_decide; subst; simpl; try done; unfold n_kids, n_nlink; simpl;
    f_equal; f_equal; try lia; set_solver.
Qed.

Lemma attach_kids q :
  kids_at (p_attach c p A) q = (if decide (q = p) then {[c]} else ∅) ∪ kids_at A q.
Proof using All.
  unfold kids_at. rewrite attach_lookup. destruct (nodes A !! q) eqn:E; [done|].
  simpl. case_decide; [congruence|set_solver].
Qed.

Lemma attach_attached q : attached (p_attach c p A) q ↔ q = c ∨ attached A q.
Proof using All.
  destruct (decide (q = c)) as [->|Hq].
  - split; [auto|]. intros _. unfold attached. rewrite attach_lookup, Hc. simpl.
    rewrite Hn. rewrite attach_kids, decide_True by done. set_solver.
  - rewrite (attached_ext A (p_attach c p A) q); [tauto|apply attach_shape| |done].
    intros r. rewrite attach_kids. case_decide; set_solver.
Qed.

Lemma attach_refs q :
  refs (p_attach c p A) q
  = refs A q + (if decide (q = c) then 1 else 0) + (if decide (q = p) then 1 else 0).
Proof using All.
  apply refs_eq; [apply attach_shape|..].
  - pose proof (attach_attached q) as E. repeat case_decide; subst; try lia; tauto.
  - rewrite attach_kids. case_decide; [|by rewrite (left_id_L ∅ (∪)), Z.add_0_r].
    rewrite size_union, size_singleton; [lia|]. intros x Hx%elem_of_singleton Hk. subst.
    destruct Ha. by eapply kid_attached.
Qed.

(** [c] is put in directory [p], where its name is free. *)
Lemma attach_wf :
  an_ns n = an_ns d → (∀ e, ¬ child_at A p (an_name n) e) →
  wf (p_attach c p A) (F ∖ {[c]}).
Proof using All.
  intros Hns Hnm. apply (wf_same_shape A _ F); [done|apply attach_shape|done|..].
  - intros q e. rewrite attach_kids. intros [Hq|He]%elem_of_union; [|by eapply wf_kid_ok].
    case_decide; [|set_solver]. apply elem_of_singleton in Hq as ->. subst.
    exists d, n. repeat split; congruence.
  - intros q c1 c2 e1 e2 H1 H2 He1 He2 E. rewrite attach_kids in H1, H2.
    assert (∀ e m, e ∈ kids_at A p → nodes A !! e = Some m → an_name m = an_name n → False)
      as Hfree.
    { intros e m Hk Hm En. apply (Hnm e). destruct (kids_at_Some _ _ _ Hk) as (? & ? & ?).
      exists d, m. repeat split; try done. congruence. }
    apply elem_of_union in H1 as [H1|H1], H2 as [H2|H2]; try (case_decide; [|set_solver]); subst.
    + set_solver.
    + apply elem_of_singleton in H1 as ->. simplify_eq. edestruct Hfree; eauto.
    + apply elem_of_singleton in H2 as ->. simplify_eq. edestruct Hfree; eauto.
    + destruct (kids_at_Some _ _ _ H1) as (m & Hm & K1). rewrite (kids_at_eq _ _ _ Hm) in H2.
      by eapply (w_names _ _ Hwf q).
  - intros q. unfold p_attached_or. rewrite attach_attached. intros [?|?]; [tauto|].
    destruct (decide (q = c)); [tauto|right; set_solver].
  - intros a r Hr. by apply (w_root _ _ Hwf).
  - intros q m m' Hm Hm'. rewrite attach_lookup, Hm in Hm'. injection Hm' as <-.
    rewrite attach_refs. simpl. lia.
  - intros q Hq HqF. rewrite attach_refs. destruct (decide (q = c)) as [->|].
    + unfold refs. pose proof (links_pos A c). repeat case_decide; lia.
    + pose proof (refs_live _ _ _ Hwf Hq ltac:(set_solver)). repeat case_decide; lia.
  - intros q m Hm Hdir Hq1 Hq2. destruct (decide (q = c)) as [->|]; [|set_solver].
    destruct (w_chain _ _ Hwf _ _ Hp Hd HF) as [l Hl]. exists (c :: l).
    simpl. split; [done|]. exists n. split; [done|]. by rewrite Hn.
Qed.
End attach.

(** ** Detaching from a directory *)

Section detach.
Context (A : ATree) (F : gset ptr) (c p : ptr).
Context (Hwf : wf A F) (Hc : c ∈ kids_at A p).

Lemma detach_shape : same_shape A (p_detach c p A).
Proof using Type. unfold p_detach. eapply same_shape_trans; by apply same_shape_upd. Qed.

Lemma detach_lookup q :
  nodes (p_detach c p A) !! q
  = (λ m, n_kids (λ k, k ∖ (if decide (q = p) then {[c]} else ∅))
       (n_nlink (- (if decide (q = c) then 1 else 0) - (if decide (q = p) then 1 else 0)) m))
    <$> nodes A !! q.
Proof using Type.
  clear Hwf Hc F. unfold p_detach. rewrite !upd_lookup. destruct (nodes A !! q) as [[]|];
    repeat case_decide; subst; simpl; try done; unfold n_kids, n_nlink; simpl;
    f_equal; f_equal; try lia; set_solver.
Qed.

Lemma detach_kids q :
  kids_at (p_detach c p A) q = kids_at A q ∖ (if decide (q = p) then {[c]} else ∅).
Proof using Type.
  clear Hwf Hc F. unfold kids_at. rewrite detach_lookup. destruct (nodes A !! q) eqn:E; [done|set_solver].
Qed.

Lemma detach_attached q : attached (p_detach c p A) q ↔ q ≠ c ∧ attached A q.
Proof using All.
  destruct (wf_kid_ok _ _ _ _ Hwf Hc) as (d & e & Hd & _ & He & Hp & _).
  destruct (decide (q = c)) as [->|Hq].
  - split; [|tauto]. unfold attached at 1. rewrite detach_lookup, He. simpl.
    rewrite Hp, detach_kids, decide_True by done. set_solver.
  - rewrite (attached_ext A (p_detach c p A) q); [tauto|apply detach_shape| |done].
    intros r. rewrite detach_kids. case_decide; set_solver.
Qed.

Lemma detach_refs q :
  refs (p_detach c p A) q
  = refs A q - (if decide (q = c) then 1 else 0) - (if decide (q = p) then 1 else 0).
Proof using All.
  pose proof (kid_attached _ _ _ _ Hwf Hc) as Ha.
  rewrite (refs_eq A (p_detach c p A) q (- (if decide (q = c) then 1 else 0))
            (- (if decide (q = p) then 1 else 0))); [lia|apply detach_shape|..].
  - pose proof (detach_attached q) as E. repeat case_decide; subst; try lia; tauto.
  - rewrite detach_kids. case_decide; [subst|by rewrite difference_empty_L, Z.add_0_r].
    assert (size (kids_at A p) ≠ 0%nat). { intros E%size_empty_inv. set_solver. }
    rewrite size_difference by set_solver. rewrite size_singleton. lia.
Qed.

Lemma detach_wf : wf (p_detach c p A) (F ∪ {[c]}).
Proof using All.
  apply (wf_same_shape A _ F); [done|apply detach_shape|done|..].
  - intros q e. rewrite detach_kids. intros He. eapply wf_kid_ok; [done|set_solver].
  - intros q c1 c2 e1 e2 H1 H2. rewrite detach_kids in H1, H2.
    apply elem_of_difference in H1 as [H1 _], H2 as [H2 _].
    destruct (kids_at_Some _ _ _ H1) as (m & Hm & K1). rewrite (kids_at_eq _ _ _ Hm) in H2.
    by eapply (w_names _ _ Hwf q).
  - intros q. unfold p_attached_or. rewrite detach_attached. intros [?|?]; [|right; set_solver].
    destruct (decide (q = c)); [right; set_solver|tauto].
  - intros a r Hr. by apply (w_root _ _ Hwf).
  - intros q m m' Hm Hm'. rewrite detach_lookup, Hm in Hm'. injection Hm' as <-.
    rewrite detach_refs. simpl. lia.
  - intros q Hq HqF. rewrite detach_refs. rewrite decide_False by set_solver.
    case_decide as E; [subst q|pose proof (refs_live _ _ _ Hwf Hq ltac:(set_solver)); lia].
    destruct (wf_kid_ok _ _ _ _ Hwf Hc) as (d & _ & Hd & Hdir & _).
    assert (attached A p) as Hp by (eapply w_up; eauto; set_solver).
    assert (size (kids_at A p) ≠ 0%nat). { intros E%size_empty_inv. set_solver. }
    unfold refs. rewrite decide_True by done. pose proof (links_pos A p). lia.
  - set_solver.
Qed.
End detach.

(** ** Roots *)

Lemma p_mount_eq c a A :
  p_mount c a A = upd_node c (n_nlink 1) (with_roots (partial_alter (λ _, Some c) a (roots A)) A).
Proof. done. Qed.
Lemma p_unmount_eq c a A :
  p_unmount c a A = upd_node c (n_nlink (-1)) (with_roots (partial_alter (λ _, None) a (roots A)) A).
Proof. done. Qed.

Section mount.
Context (A : ATree) (F : gset ptr) (c a : ptr) (n : ANode).
Context (Hwf : wf A F) (Hc : nodes A !! c = Some n) (Hn : an_parent n = None) (Hns : an_ns n = a).

(** Both changes of a root: [o] is the new one. *)
Let A' (o : option ptr) (k : Z) : ATree :=
  upd_node c (n_nlink k) (with_roots (partial_alter (λ _, o) a (roots A)) A).

Lemma mount_shape o k : same_shape A (A' o k).
Proof using Type.
  clear Hwf Hc Hn Hns. unfold A'.
  eapply (same_shape_trans _ (with_roots (partial_alter (λ _, o) a (roots A)) A)); [done|].
  by apply same_shape_upd.
Qed.

Lemma mount_lookup o k q :
  nodes (A' o k) !! q = n_nlink (if decide (q = c) then k else 0) <$> nodes A !! q.
Proof using Type.
  clear Hwf Hc Hn Hns. unfold A'. rewrite upd_lookup. simpl. case_decide; [done|].
  destruct (nodes A !! q) as [[]|]; simpl; [|done]. unfold n_nlink. simpl. do 2 f_equal. lia.
Qed.

Lemma mount_kids o k q : kids_at (A' o k) q = kids_at A q.
Proof using Type.
  clear Hwf Hc Hn Hns. unfold kids_at. rewrite mount_lookup. by destruct (nodes A !! q).
Qed.

Lemma mount_attached o k q :
  (∀ r, roots A !! a = Some r → r = c) → o = Some c ∨ o = None →
  attached (A' o k) q ↔ if decide (q = c) then o = Some c else attached A q.
Proof using All.
  intros Hr Ho. case_decide as Hq; [subst q|].
  - unfold attached. rewrite mount_lookup, Hc. simpl. rewrite Hn, Hns. unfold A'. simpl.
    by rewrite lookup_partial_alter_eq.
  - apply attached_ext; [apply mount_shape| |].
    + intros r. by rewrite mount_kids.
    + intros b. unfold A'. simpl. destruct (decide (a = b)) as [->|].
      * rewrite lookup_partial_alter_eq. naive_solver.
      * by rewrite lookup_partial_alter_ne.
Qed.

Lemma mount_refs o k q :
  (∀ r, roots A !! a = Some r → r = c) → o = Some c ∨ o = None →
  refs (A' o k) q = refs A q + (if decide (q = c) then (if decide (o = Some c) then 1 else 0) -
    (if decide (attached A c) then 1 else 0) else 0).
Proof using All.
  intros Hr Ho. rewrite (refs_eq A (A' o k) q (if decide (q = c) then
    (if decide (o = Some c) then 1 else 0) - (if decide (attached A c) then 1 else 0) else 0) 0).
  - lia.
  - apply mount_shape.
  - pose proof (mount_attached o k q Hr Ho) as E. repeat case_decide; subst; try tauto; lia.
  - rewrite mount_kids. lia.
Qed.

Lemma mount_change_wf o k F' :
  (∀ r, roots A !! a = Some r → r = c) → o = Some c ∨ o = None →
  k = (if decide (o = Some c) then 1 else 0) - (if decide (attached A c) then 1 else 0) →
  F ∖ {[c]} ⊆ F' → (o = None → c ∈ F') →
  wf (A' o k) F'.
Proof using All.
  intros Hr Ho Hk HF HF'. apply (wf_same_shape A _ F); [done|apply mount_shape|done|..].
  - intros q e. rewrite mount_kids. by apply (wf_kid_ok A F).
  - intros q c1 c2 e1 e2 H1 H2. rewrite mount_kids in H1, H2.
    destruct (kids_at_Some _ _ _ H1) as (m & Hm & K1). rewrite (kids_at_eq _ _ _ Hm) in H2.
    by eapply (w_names _ _ Hwf q).
  - intros q. unfold p_attached_or. rewrite mount_attached by done.
    destruct (decide (q = c)) as [->|Hq].
    + destruct Ho as [->| ->]; [tauto|]. intros _. right. by apply HF'.
    + intros [?|?]; [tauto|]. right. set_solver.
  - intros b r. unfold A'. simpl. destruct (decide (a = b)) as [->|].
    + rewrite lookup_partial_alter_eq. intros E. exists n. naive_solver.
    + rewrite lookup_partial_alter_ne by done. apply (w_root _ _ Hwf).
  - intros q m m' Hm Hm'. rewrite mount_lookup, Hm in Hm'. injection Hm' as <-.
    rewrite mount_refs by done. simpl. destruct (decide (q = c)); lia.
  - intros q Hq HqF. destruct (decide (q = c)) as [->|Hqc].
    + apply refs_attached. apply mount_attached; [done..|]. rewrite decide_True by done. naive_solver.
    + rewrite mount_refs by done. rewrite decide_False by done.
      pose proof (refs_live _ _ _ Hwf Hq ltac:(set_solver)). lia.
  - intros q m Hm Hdir Hq1 Hq2. destruct (decide (q = c)) as [->|]; [|set_solver].
    exists [c]. simpl. split; [done|]. exists n. done.
Qed.

Lemma mount_wf : roots A !! a = None → ¬ attached A c → wf (p_mount c a A) (F ∖ {[c]}).
Proof using All.
  intros Hr Ha. apply (mount_change_wf (Some c) 1); try done; [congruence|tauto|].
  by rewrite decide_True, decide_False.
Qed.

Lemma unmount_wf : roots A !! a = Some c → wf (p_unmount c a A) (F ∪ {[c]}).
Proof using All.
  intros Hr. apply (mount_change_wf None (-1)); [congruence|tauto| |set_solver|set_solver].
  by rewrite decide_False, decide_True by (done || by apply (root_attached A F a c)).
Qed.
End mount.

(** ** Placing a floating node *)

Section place.
Context (A : ATree) (F : gset ptr) (c p : ptr) (name : string) (n : ANode) (lp : list ptr).
Context (Hwf : wf A F) (Ha : ¬ attached A c) (HF : c ∈ F) (Hc : nodes A !! c = Some n).
Context (Hlp : chain an_parent (nodes A) (Some p) lp) (Hcp : c ∉ lp).

Lemma place_lookup q :
  nodes (p_place c p name A) !! q
  = if decide (q = c) then Some (n_place (Some p) name n) else nodes A !! q.
Proof using Hc.
  unfold p_place. rewrite upd_lookup. case_decide; [subst|done]. by rewrite Hc.
Qed.

Lemma place_keys : same_keys A (p_place c p name A).
Proof using Type. by apply same_keys_upd. Qed.

Lemma place_kids q : kids_at (p_place c p name A) q = kids_at A q.
Proof using Hc.
  unfold kids_at. rewrite place_lookup. case_decide; [subst; by rewrite Hc|done].
Qed.

Lemma not_kid r : c ∉ kids_at A r.
Proof using Hwf Ha. intros Hk. by destruct Ha; eapply kid_attached. Qed.

Lemma place_attached q : attached (p_place c p name A) q ↔ attached A q.
Proof using All.
  unfold attached. rewrite place_lookup. case_decide; [subst|].
  - rewrite Hc. simpl. rewrite place_kids. split; [intros Hk; by destruct (not_kid p)|].
    intros Ha'. destruct Ha. unfold attached. by rewrite Hc.
  - destruct (nodes A !! q) as [m|]; [|done]. destruct (an_parent m); [by rewrite place_kids|done].
Qed.

Lemma place_refs q : refs (p_place c p name A) q = refs A q.
Proof using All.
  unfold refs. rewrite place_kids, (same_keys_links _ _ _ place_keys). do 2 f_equal.
  pose proof (place_attached q). do 2 case_decide; tauto.
Qed.

Lemma place_chain q l : chain an_parent (nodes A) (Some q) l →
  ∃ l', chain an_parent (nodes (p_place c p name A)) (Some q) l'.
Proof using Hc Hlp Hcp.
  assert (nodes (p_place c p name A) = <[c := n_place (Some p) name n]> (nodes A)) as ->.
  { apply map_eq. intros x. rewrite place_lookup. case_decide; subst;
      by rewrite ?lookup_insert_eq, ?lookup_insert_ne. }
  intros Hl. destruct (decide (c ∈ l)) as [Hin|Hin].
  - apply list_elem_of_split in Hin as (l1 & l2 & ->). exists (l1 ++ c :: lp).
    by eapply chain_relink.
  - exists l. by apply chain_insert_ne.
Qed.

Lemma place_wf : wf (p_place c p name A) F.
Proof using All.
  constructor.
  - intros q m e Hq He. rewrite <- (kids_at_eq _ _ _ Hq), place_kids in He.
    destruct (wf_kid_ok _ _ _ _ Hwf He) as (d & x & Hd & Hdir & Hx & Hpx & Hnx).
    exists x. rewrite place_lookup, decide_False by (intros ->; by apply (not_kid q)).
    repeat split; try done. rewrite place_lookup in Hq. case_decide; simplify_eq; done.
  - intros q m Hq Hdir. rewrite <- (kids_at_eq _ _ _ Hq), place_kids.
    rewrite place_lookup in Hq. case_decide; simplify_eq.
    + rewrite (kids_at_eq _ _ _ Hc). by apply (w_leaf _ _ Hwf c).
    + rewrite (kids_at_eq _ _ _ Hq). by apply (w_leaf _ _ Hwf q).
  - intros q m c1 c2 e1 e2 Hq H1 H2. rewrite <- (kids_at_eq _ _ _ Hq), place_kids in H1, H2.
    rewrite !place_lookup. rewrite !decide_False by (intros ->; by eapply not_kid).
    destruct (kids_at_Some _ _ _ H1) as (d & Hd & K1). rewrite (kids_at_eq _ _ _ Hd) in H2.
    by eapply (w_names _ _ Hwf q).
  - intros q m Hq Hk HqF. rewrite place_attached. rewrite place_lookup in Hq.
    case_decide; [subst; done|]. by eapply w_up.
  - intros a r Hr. destruct (w_root _ _ Hwf _ _ Hr) as (m & Hm & Hpar & Hna).
    rewrite place_lookup. case_decide; [|eauto]. subst. destruct Ha. by eapply root_attached.
  - intros q m. apply (same_keys_link A); [apply place_keys|]. apply Hwf.
  - intros q m Hq. rewrite place_refs. rewrite place_lookup in Hq.
    case_decide; simplify_eq; simpl; by apply (w_nlink _ _ Hwf).
  - intros q m Hq HqF. rewrite place_lookup in Hq. case_decide; [subst; done|].
    by eapply w_live.
  - intros q m Hq Hdir HqF. rewrite place_lookup in Hq. case_decide; [subst; done|].
    destruct (w_chain _ _ Hwf _ _ Hq Hdir HqF) as [l Hl]. by eapply place_chain.
  - intros a x Hx. rewrite !(same_keys_members _ _ _ _ place_keys). by eapply w_counts.
Qed.
End place.

(** ** New nodes *)

Definition link_delta (n : ANode) (q : ptr) : Z := if is_link_of q n then 1 else 0.

Lemma link_ref_lookup n k A q :
  nodes (link_ref n k A) !! q = n_nlink (link_delta n q * k) <$> nodes A !! q.
Proof.
  assert (∀ m : option ANode, n_nlink 0 <$> m = m) as Hid.
  { intros [[]|]; [|done]. unfold n_nlink. simpl. by rewrite Z.add_0_r. }
  unfold link_ref, link_delta, is_link_of. destruct (an_link n); simpl; [|by rewrite Hid].
  destruct (an_src n) as [src|]; [|by rewrite Hid].
  rewrite upd_lookup. destruct (decide (q = src)) as [->|Hq].
  - rewrite bool_decide_eq_true_2 by done. by rewrite Z.mul_1_l.
  - rewrite bool_decide_eq_false_2 by congruence. by rewrite Hid.
Qed.

Lemma link_ref_roots n k A : roots (link_ref n k A) = roots A.
Proof. unfold link_ref. by destruct (an_link n), (an_src n). Qed.

Lemma link_ref_counts n k A : counts (link_ref n k A) = counts A.
Proof. unfold link_ref. by destruct (an_link n), (an_src n). Qed.

Lemma add_count_lookup n k A a x :
  counts (add_count n k A) !! a = Some x →
  ∃ y, counts A !! a = Some y ∧
    x = (fst y + (if is_member a true n then k else 0), snd y + (if is_member a false n then k else 0)).
Proof.
  unfold add_count, is_member. simpl. intros E.
  destruct (decide (a = an_ns n)) as [->|Hne].
  - rewrite lookup_alter_eq in E. apply fmap_Some in E as ([y1 y2] & Hy & ->).
    exists (y1, y2). split; [done|]. rewrite bool_decide_eq_true_2 by done.
    destruct (an_dir n); simpl; f_equal; lia.
  - rewrite lookup_alter_ne in E by done. exists x. split; [done|].
    rewrite bool_decide_eq_false_2 by done. destruct x; simpl. f_equal; lia.
Qed.

(** What a new node must be: without children, and in the kind of a hard link
    only when it leads to a file. *)
Definition new_ok (A : ATree) (n : ANode) : Prop :=
  an_kids n = ∅ ∧ an_nlink n = 0 ∧
  (an_link n = true → an_dir n = false ∧ ∃ s e, an_src n = Some s ∧ nodes A !! s = Some e ∧
     an_dir e = false ∧ an_link e = false).

Section new.
Context (A : ATree) (F : gset ptr) (c : ptr) (n : ANode).
Context (Hwf : wf A F) (Hc : nodes A !! c = None) (Hn : new_ok A n).

Lemma new_not_src : is_link_of c n = false.
Proof using Hc Hn.
  destruct (is_link_of c n) eqn:E; [|done]. unfold is_link_of in E.
  apply andb_true_iff in E as [E1 E2%bool_decide_eq_true].
  destruct Hn as (_ & _ & Hl). destruct (Hl E1) as (_ & s & e & Hs & He & _). congruence.
Qed.

Lemma new_lookup q :
  nodes (p_new c n A) !! q
  = if decide (q = c) then Some n else n_nlink (link_delta n q) <$> nodes A !! q.
Proof using Type.
  unfold p_new. simpl. case_decide; [subst; apply lookup_insert_eq|].
  rewrite lookup_insert_ne by done. rewrite link_ref_lookup. by rewrite Z.mul_1_r.
Qed.

Lemma new_kids q : kids_at (p_new c n A) q = kids_at A q.
Proof using Hc Hn.
  unfold kids_at. rewrite new_lookup. case_decide; [subst|by destruct (nodes A !! q)].
  rewrite Hc. apply Hn.
Qed.

Lemma new_not_kid r : c ∉ kids_at A r.
Proof using Hwf Hc.
  intros Hk. destruct (wf_kid_ok _ _ _ _ Hwf Hk) as (d & x & _ & _ & Hx & _). congruence.
Qed.

Lemma new_attached q : attached (p_new c n A) q ↔ attached A q.
Proof using All.
  unfold attached. rewrite new_lookup. case_decide; [subst|].
  - rewrite Hc. split; [|done]. destruct (an_parent n); [rewrite new_kids; apply new_not_kid|].
    unfold p_new. simpl. intros Hr.
    destruct (w_root _ _ Hwf _ _ Hr) as (m & Hm & _). congruence.
  - destruct (nodes A !! q) as [m|]; [|done]. simpl.
    destruct (an_parent m); [by rewrite new_kids|done].
Qed.

Lemma new_count (P : ANode → bool) :
  (∀ n1 n2, node_key n1 = node_key n2 → P n1 = P n2) →
  n_count P (nodes (p_new c n A)) = n_count P (nodes A) + (if P n then 1 else 0).
Proof using Hc.
  intros HP. unfold p_new. simpl. rewrite n_count_insert.
  - f_equal. apply n_count_ext; [|done]. intros q. rewrite link_ref_lookup.
    by destruct (nodes A !! q).
  - by rewrite link_ref_lookup, Hc.
Qed.

Lemma new_refs q : refs (p_new c n A) q = refs A q + link_delta n q.
Proof using All.
  unfold refs, links. rewrite new_kids, new_count.
  - pose proof (new_attached q). unfold link_delta. do 2 case_decide; try tauto; lia.
  - unfold is_link_of. by intros n1 n2 [= _ _ -> ->].
Qed.

Lemma new_refs_c : refs A c = 0.
Proof using Hwf Hc.
  assert (¬ attached A c) as Ha.
  { unfold attached. rewrite Hc. simpl. tauto. }
  unfold refs, kids_at, links. case_decide; [done|]. rewrite Hc.
  rewrite size_empty, n_count_zero; [done|]. intros q m Hq. unfold is_link_of.
  destruct (an_link m) eqn:E; [|done]. apply bool_decide_eq_false_2.
  destruct (w_link _ _ Hwf _ _ Hq E) as (_ & s & e & Hs & He & _). congruence.
Qed.

Lemma new_inv q m : nodes (p_new c n A) !! q = Some m →
  (q = c ∧ m = n) ∨ ∃ m0, q ≠ c ∧ nodes A !! q = Some m0 ∧ m = n_nlink (link_delta n q) m0.
Proof using Type.
  rewrite new_lookup. case_decide; [subst; intros [= <-]; by left|]. intros E.
  apply fmap_Some in E as (m0 & ? & ->). eauto.
Qed.

Lemma new_fwd q m : nodes A !! q = Some m →
  nodes (p_new c n A) !! q = Some (n_nlink (link_delta n q) m).
Proof using Hc.
  intros Hq. rewrite new_lookup. case_decide; [congruence|]. by rewrite Hq.
Qed.

Lemma new_wf : wf (p_new c n A) (F ∪ {[c]}).
Proof using All.
  constructor.
  - intros q m e Hq He. rewrite <- (kids_at_eq _ _ _ Hq), new_kids in He.
    destruct (wf_kid_ok _ _ _ _ Hwf He) as (d & x & Hd & _ & Hx & Hpx & Hnx).
    exists (n_nlink (link_delta n e) x). split; [by apply new_fwd|]. split; [done|].
    rewrite (new_fwd _ _ Hd) in Hq. by simplify_eq.
  - intros q m Hq Hdir. rewrite <- (kids_at_eq _ _ _ Hq), new_kids.
    destruct (new_inv _ _ Hq) as [(-> & ->)|(m0 & _ & H0 & ->)].
    + unfold kids_at. by rewrite Hc.
    + rewrite (kids_at_eq _ _ _ H0). by apply (w_leaf _ _ Hwf q).
  - intros q m c1 c2 e1 e2 Hq H1 H2 He1 He2 E. rewrite <- (kids_at_eq _ _ _ Hq), new_kids in H1, H2.
    destruct (new_inv _ _ He1) as [(-> & ->)|(f1 & _ & Hf1 & ->)]; [by destruct (new_not_kid q)|].
    destruct (new_inv _ _ He2) as [(-> & ->)|(f2 & _ & Hf2 & ->)]; [by destruct (new_not_kid q)|].
    destruct (kids_at_Some _ _ _ H1) as (d & Hd & K1). rewrite (kids_at_eq _ _ _ Hd) in H2.
    by apply (w_names _ _ Hwf q d c1 c2 f1 f2).
  - intros q m Hq Hk HqF. rewrite new_attached.
    destruct (new_inv _ _ Hq) as [(-> & ->)|(m0 & _ & H0 & ->)]; [set_solver|].
    eapply w_up; eauto. set_solver.
  - intros a r Hr. destruct (w_root _ _ Hwf a r) as (m & Hm & Hpar & Hna); [done|].
    eexists. split; [by apply new_fwd|]. done.
  - intros q m Hq Hl. destruct (new_inv _ _ Hq) as [(-> & ->)|(m0 & _ & H0 & ->)].
    + destruct Hn as (_ & _ & Hs). destruct (Hs Hl) as (Hd & s & e & Es & He & Hde & Hle).
      split; [done|]. exists s. eexists. split; [done|]. split; [by apply new_fwd|]. done.
    + destruct (w_link _ _ Hwf q m0 H0 Hl) as (Hd & s & e & Es & He & Hde & Hle).
      split; [done|]. exists s. eexists. split; [done|]. split; [by apply new_fwd|]. done.
  - intros q m Hq. rewrite new_refs.
    destruct (new_inv _ _ Hq) as [(-> & ->)|(m0 & _ & H0 & ->)].
    + rewrite new_refs_c. unfold link_delta. rewrite new_not_src. apply Hn.
    + simpl. by rewrite (w_nlink _ _ Hwf _ _ H0).
  - intros q m Hq HqF. destruct (new_inv _ _ Hq) as [(-> & ->)|(m0 & _ & H0 & ->)]; [set_solver|].
    simpl. pose proof (w_live _ _ Hwf _ _ H0 ltac:(set_solver)).
    unfold link_delta. destruct (is_link_of q n); lia.
  - intros q m Hq Hdir HqF.
    destruct (new_inv _ _ Hq) as [(-> & ->)|(m0 & _ & H0 & ->)]; [set_solver|].
    destruct (w_chain _ _ Hwf _ _ H0 Hdir ltac:(set_solver)) as [l Hl]. exists l.
    eapply chain_ext; [|done]. intros x Hx. destruct (chain_in_dom _ _ _ _ _ Hl Hx) as [y Hy].
    by rewrite (new_fwd _ _ Hy), Hy.
  - intros a x Hx. unfold p_new in Hx. apply add_count_lookup in Hx as (y & Hy & ->).
    rewrite (w_counts _ _ Hwf _ _ Hy). unfold members. simpl.
    rewrite !new_count; [done|unfold is_member; by intros n1 n2 [= -> -> _ _]..].
Qed.
End new.

(** ** Nodes that go *)

(** Without children, a floating node is in no directory's chain. *)
Lemma chain_avoids A c q n l :
  wf A {[c]} → kids_at A c = ∅ → nodes A !! q = Some n → an_dir n = true → q ≠ c →
  chain an_parent (nodes A) (Some q) l → c ∉ l.
Proof.
  intros Hwf Hk. revert q n. induction l as [|x l IH]; intros q n Hq Hd Hne; [set_solver|].
  simpl. intros ([= <-] & m & Hm & Hl). simplify_eq. apply not_elem_of_cons. split; [done|].
  pose proof (w_up _ _ Hwf _ _ Hq (or_introl Hd) ltac:(set_solver)) as Ha.
  unfold attached in Ha. rewrite Hq in Ha. destruct (an_parent n) as [p|] eqn:Ep.
  - destruct (wf_kid_ok _ _ _ _ Hwf Ha) as (d & _ & Hp & Hdir & _).
    eapply (IH p); [done..| |done]. intros ->. rewrite Hk in Ha. set_solver.
  - destruct l; [set_solver|]. by destruct Hl.
Qed.

Section free.
Context (A : ATree) (c : ptr) (n : ANode).
Context (Hwf : wf A {[c]}) (Hc : nodes A !! c = Some n) (Hn : an_nlink n = 0).

Lemma free_refs_c : ¬ attached A c ∧ kids_at A c = ∅ ∧ links A c = 0.
Proof using All.
  pose proof (w_nlink _ _ Hwf _ _ Hc) as E. rewrite Hn in E.
  pose proof (links_pos A c). unfold refs in E.
  case_decide; [lia|]. split; [done|]. split; [|lia]. apply leibniz_equiv, size_empty_inv. lia.
Qed.

Lemma free_not_src q m : nodes A !! q = Some m → is_link_of c m = false.
Proof using All.
  intros Hq. destruct (is_link_of c m) eqn:E; [|done].
  pose proof (n_count_pos _ _ _ _ Hq E). destruct free_refs_c as (_ & _ & Hl).
  unfold links in Hl. lia.
Qed.

Lemma free_lookup q :
  nodes (p_free c n A) !! q
  = if decide (q = c) then None else n_nlink (- link_delta n q) <$> nodes A !! q.
Proof using Type.
  clear Hwf Hc Hn. unfold p_free. rewrite link_ref_lookup. simpl. case_decide as E.
  - by rewrite E, lookup_delete_eq.
  - rewrite lookup_delete_ne by done.
    by replace (link_delta n q * -1) with (- link_delta n q) by lia.
Qed.

Lemma free_inv q m : nodes (p_free c n A) !! q = Some m →
  ∃ m0, q ≠ c ∧ nodes A !! q = Some m0 ∧ m = n_nlink (- link_delta n q) m0.
Proof using Type.
  clear Hwf Hc Hn. rewrite free_lookup. case_decide; [done|]. intros E.
  apply fmap_Some in E as (m0 & ? & ->). eauto.
Qed.

Lemma free_fwd q m : nodes A !! q = Some m → q ≠ c →
  nodes (p_free c n A) !! q = Some (n_nlink (- link_delta n q) m).
Proof using Type.
  clear Hwf Hc Hn. intros Hq Hne. rewrite free_lookup, decide_False by done. by rewrite Hq.
Qed.

Lemma free_kids q : kids_at (p_free c n A) q = kids_at A q.
Proof using All.
  unfold kids_at. rewrite free_lookup. case_decide; [subst|by destruct (nodes A !! q)].
  symmetry. apply free_refs_c.
Qed.

Lemma free_attached q : attached (p_free c n A) q ↔ attached A q.
Proof using All.
  destruct (decide (q = c)) as [->|Hq].
  - split; [|intros Ha; by destruct free_refs_c].
    unfold attached. rewrite free_lookup, decide_True by done. done.
  - unfold attached. rewrite free_lookup, decide_False by done.
    destruct (nodes A !! q) as [m|]; [|done]. simpl.
    destruct (an_parent m); [by rewrite free_kids|].
    unfold p_free. by rewrite link_ref_roots.
Qed.

Lemma free_count (P : ANode → bool) :
  (∀ n1 n2, node_key n1 = node_key n2 → P n1 = P n2) →
  n_count P (nodes (p_free c n A)) = n_count P (nodes A) - (if P n then 1 else 0).
Proof using Hc.
  intros HP. rewrite (n_count_delete P (nodes A) c n Hc).
  rewrite (n_count_ext P (nodes (p_free c n A)) (delete c (nodes A))); [lia| |done].
  intros q. unfold p_free. rewrite link_ref_lookup. simpl.
  by destruct (delete c (nodes A) !! q).
Qed.

Lemma free_refs q : refs (p_free c n A) q = refs A q - link_delta n q.
Proof using All.
  unfold refs, links. rewrite free_kids, free_count.
  - pose proof (free_attached q). unfold link_delta. do 2 case_decide; try tauto; lia.
  - unfold is_link_of. by intros n1 n2 [= _ _ -> ->].
Qed.

Lemma free_wf F' :
  (∀ q, link_delta n q = 1 → q ∈ F') → wf (p_free c n A) F'.
Proof using All.
  intros HF. destruct free_refs_c as (Hna & Hk & _). constructor.
  - intros q m e Hq He. rewrite <- (kids_at_eq _ _ _ Hq), free_kids in He.
    destruct (wf_kid_ok _ _ _ _ Hwf He) as (d & x & Hd & _ & Hx & Hpx & Hnx).
    destruct (free_inv _ _ Hq) as (m0 & Hqc & H0 & ->). simplify_eq.
    eexists. split; [apply free_fwd; [done|]|done].
    intros ->. apply Hna. by eapply kid_attached.
  - intros q m Hq Hdir. rewrite <- (kids_at_eq _ _ _ Hq), free_kids.
    destruct (free_inv _ _ Hq) as (m0 & _ & H0 & ->).
    rewrite (kids_at_eq _ _ _ H0). by apply (w_leaf _ _ Hwf q).
  - intros q m c1 c2 e1 e2 Hq H1 H2 He1 He2 E. rewrite <- (kids_at_eq _ _ _ Hq), free_kids in H1, H2.
    destruct (free_inv _ _ He1) as (f1 & _ & Hf1 & ->), (free_inv _ _ He2) as (f2 & _ & Hf2 & ->).
    destruct (kids_at_Some _ _ _ H1) as (d & Hd & K1). rewrite (kids_at_eq _ _ _ Hd) in H2.
    by apply (w_names _ _ Hwf q d c1 c2 f1 f2).
  - intros q m Hq Hkind _. rewrite free_attached. destruct (free_inv _ _ Hq) as (m0 & Hqc & H0 & ->).
    eapply w_up; eauto. set_solver.
  - intros a r. unfold p_free at 1. rewrite link_ref_roots. intros Hr.
    destruct (w_root _ _ Hwf a r) as (m & Hm & Hpar & Hns); [done|].
    eexists. split; [apply free_fwd; [done|]|done].
    intros ->. apply Hna. by eapply root_attached.
  - intros q m Hq Hl. destruct (free_inv _ _ Hq) as (m0 & Hqc & H0 & ->).
    destruct (w_link _ _ Hwf q m0 H0 Hl) as (Hd & s & e & Es & He & Hde & Hle).
    split; [done|]. exists s. eexists. split; [done|]. split; [apply free_fwd; [done|]|done].
    intros ->. pose proof (free_not_src _ _ H0) as E. unfold is_link_of in E. simpl in Hl.
    rewrite Hl, Es in E. by rewrite bool_decide_eq_true_2 in E.
  - intros q m Hq. rewrite free_refs. destruct (free_inv _ _ Hq) as (m0 & _ & H0 & ->).
    simpl. rewrite (w_nlink _ _ Hwf _ _ H0). lia.
  - intros q m Hq HqF. destruct (free_inv _ _ Hq) as (m0 & Hqc & H0 & ->).
    simpl. pose proof (w_live _ _ Hwf _ _ H0 ltac:(set_solver)).
    specialize (HF q). unfold link_delta in *. destruct (is_link_of q n); [|lia].
    destruct HqF. by apply HF.
  - intros q m Hq Hdir _. destruct (free_inv _ _ Hq) as (m0 & Hqc & H0 & ->).
    destruct (w_chain _ _ Hwf _ _ H0 Hdir ltac:(set_solver)) as [l Hl]. exists l.
    pose proof (chain_avoids _ _ _ _ _ Hwf Hk H0 Hdir Hqc Hl) as Hcl.
    eapply chain_ext; [|done]. intros x Hx. destruct (chain_in_dom _ _ _ _ _ Hl Hx) as [y Hy].
    rewrite (free_fwd _ _ Hy), Hy by (intros ->; done). done.
  - intros a x Hx. unfold p_free in Hx. rewrite link_ref_counts in Hx.
    apply add_count_lookup in Hx as (y & Hy & ->).
    rewrite (w_counts _ _ Hwf _ _ Hy). unfold members. simpl.
    rewrite !free_count by (unfold is_member; by intros n1 n2 [= -> -> _ _]).
    f_equal; destruct (is_member _ _ n); lia.
Qed.
End free.

Lemma wf_settle A c n :
  wf A {[c]} → nodes A !! c = Some n → an_nlink n ≠ 0 → an_dir n = false → an_link n = false →
  wf A ∅.
Proof.
  intros Hwf Hc Hn Hd Hl. constructor; try apply Hwf.
  - intros p m Hp Hk _. destruct (decide (p = c)) as [->|]; [simplify_eq; naive_solver congruence|].
    eapply w_up; eauto. set_solver.
  - intros q m Hq _. destruct (decide (q = c)) as [->|]; [|by eapply w_live; eauto; set_solver].
    simplify_eq. pose proof (w_nlink _ _ Hwf _ _ Hc) as E. unfold refs in E.
    pose proof (links_pos A c). case_decide; lia.
  - intros p m Hp Hdir _. destruct (decide (p = c)) as [->|]; [congruence|].
    eapply w_chain; eauto. set_solver.
Qed.

Lemma reap_file_wf A c n :
  wf A {[c]} → nodes A !! c = Some n → an_link n = false →
  an_dir n = false ∨ an_nlink n = 0 → wf (p_reap_file c A) ∅.
Proof.
  intros Hwf Hc Hl Hd. unfold p_reap_file. rewrite Hc. destruct (an_nlink n =? 0) eqn:E.
  - apply Z.eqb_eq in E. apply free_wf; [done..|]. intros q. unfold link_delta, is_link_of.
    by rewrite Hl.
  - apply Z.eqb_neq in E. eapply wf_settle; eauto. tauto.
Qed.

(** A floating node without children goes unless it has hard links. *)
Lemma reap_wf A c n :
  wf A {[c]} → ¬ attached A c → nodes A !! c = Some n → an_kids n = ∅ →
  wf (p_reap c A) ∅.
Proof.
  intros Hwf Ha Hc Hk. unfold p_reap. rewrite Hc.
  pose proof (w_nlink _ _ Hwf _ _ Hc) as Hn. unfold refs in Hn.
  rewrite decide_False, (kids_at_eq _ _ _ Hc), Hk, size_empty in Hn by done.
  assert (an_dir n = true ∨ an_link n = true → links A c = 0) as Hz.
  { intros Hkind. apply n_count_zero. intros q m Hq. unfold is_link_of.
    destruct (an_link m) eqn:El; [|done]. apply bool_decide_eq_false_2. intros Es.
    destruct (w_link _ _ Hwf _ _ Hq El) as (_ & s & e & Es' & He & Hd & Hl).
    simplify_eq. destruct Hkind; congruence. }
  destruct (an_link n) eqn:El.
  - destruct (w_link _ _ Hwf _ _ Hc El) as (Hd & s & e & Es & He & Hde & Hle).
    rewrite Es. unfold p_reap_file at 2. rewrite Hc.
    replace (an_nlink n =? 0) with true by (symmetry; apply Z.eqb_eq; rewrite Hz in Hn; auto).
    assert (s ≠ c) as Hsc by congruence.
    eapply (reap_file_wf _ _ (n_nlink (- link_delta n s) e)); [|by apply free_fwd|done|by left].
    apply free_wf; [done..|rewrite Hz in Hn; auto|].
    intros q. unfold link_delta, is_link_of. rewrite El, Es. simpl. case_bool_decide; [|done].
    intros _. simplify_eq. set_solver.
  - assert (wf (p_reap_file c A) ∅) by (eapply reap_file_wf; eauto;
      destruct (an_dir n); [right; rewrite Hz in Hn; auto|by left]).
    by destruct (an_src n).
Qed.

(** ** How the operations change the tree *)

Definition name_at (A : ATree) (c : ptr) : option string := an_name <$> nodes A !! c.

Lemma child_at_alt A p name c : child_at A p name c ↔ c ∈ kids_at A p ∧ name_at A c = Some name.
Proof.
  unfold child_at, name_at. rewrite fmap_Some. split.
  - intros (n & e & Hp & Hc & He & Hn). rewrite (kids_at_eq _ _ _ Hp). naive_solver.
  - intros (Hk & e & He & Hn). destruct (kids_at_Some _ _ _ Hk) as (n & ? & ?). naive_solver.
Qed.

(** [A'] has nodes of [A] only. *)
Definition evolves (A A' : ATree) : Prop :=
  ∀ q m', nodes A' !! q = Some m' → ∃ m, nodes A !! q = Some m ∧ shape m' = shape m.

Lemma same_shape_evolves A A' : same_shape A A' → evolves A A'.
Proof.
  intros Hs q m' Hq. specialize (Hs q). rewrite Hq in Hs. simpl in Hs. symmetry in Hs.
  apply fmap_Some in Hs as (m & ? & ?). eauto.
Qed.

Lemma evolves_refl A : evolves A A.
Proof. intros q m Hq. eauto. Qed.

Lemma evolves_trans A B C : evolves A B → evolves B C → evolves A C.
Proof.
  intros H1 H2 q m Hq. destruct (H2 _ _ Hq) as (m1 & Hq1 & E1).
  destruct (H1 _ _ Hq1) as (m2 & ? & ?). exists m2. split; congruence.
Qed.

Lemma evolves_chain A A' p l :
  evolves A A' → chain an_parent (nodes A') p l → chain an_parent (nodes A) p l.
Proof.
  intros He. revert p. induction l as [|x l IH]; intros p; simpl; [done|].
  intros (-> & m' & Hm' & Hl). split; [done|]. destruct (He _ _ Hm') as (m & Hm & E).
  exists m. split; [done|]. injection E as _ _ _ _ E _ _. rewrite <- E. by apply IH.
Qed.

Lemma same_shape_name A A' c : same_shape A A' → name_at A' c = name_at A c.
Proof.
  intros Hs. specialize (Hs c). unfold name_at, shape in *.
  destruct (nodes A' !! c), (nodes A !! c); simpl in *; congruence.
Qed.

(** ** Reaping only takes what is in no directory *)

Lemma free_keeps A c n q m :
  nodes A !! c = Some n → wf A {[c]} → an_nlink n = 0 → attached A q → nodes A !! q = Some m →
  ∃ m', nodes (p_free c n A) !! q = Some m' ∧ shape m' = shape m.
Proof.
  intros Hc Hwf Hn Ha Hq. eexists. split; [apply free_fwd; [done|]|done].
  intros ->. by destruct (free_refs_c _ _ _ Hwf Hc Hn).
Qed.

Lemma free_evolves A c n : evolves A (p_free c n A).
Proof. intros q m' Hq. destruct (free_inv _ _ _ _ _ Hq) as (m & _ & ? & ->). eauto. Qed.

(** [A'] is [A] less nodes that are in no directory. *)
Definition pruned (A A' : ATree) : Prop :=
  evolves A A' ∧ (∀ q, kids_at A' q = kids_at A q) ∧ (∀ q, attached A' q ↔ attached A q) ∧
  roots A' = roots A ∧
  ∀ q m, attached A q → nodes A !! q = Some m → ∃ m', nodes A' !! q = Some m' ∧ shape m' = shape m.

Lemma pruned_refl A : pruned A A.
Proof. repeat split; eauto using evolves_refl. Qed.

Lemma pruned_trans A B C : pruned A B → pruned B C → pruned A C.
Proof.
  intros (E1 & K1 & T1 & R1 & S1) (E2 & K2 & T2 & R2 & S2).
  split; [by eapply evolves_trans|]. split; [intros; by rewrite K2, K1|].
  split; [intros; by rewrite T2, T1|]. split; [congruence|].
  intros q m Ha Hq. destruct (S1 _ _ Ha Hq) as (m1 & H1 & Em).
  destruct (S2 q m1) as (m2 & H2 & Em2); [by apply T1|done|]. exists m2. split; congruence.
Qed.

Lemma free_pruned A c n :
  wf A {[c]} → nodes A !! c = Some n → an_nlink n = 0 → pruned A (p_free c n A).
Proof.
  intros Hwf Hc Hn. split; [apply free_evolves|]. split; [by apply free_kids|].
  split; [by apply free_attached|]. split; [unfold p_free; by rewrite link_ref_roots|].
  intros q m. by apply free_keeps.
Qed.

Lemma reap_file_pruned A c : wf A {[c]} → pruned A (p_reap_file c A).
Proof.
  intros Hwf. unfold p_reap_file. destruct (nodes A !! c) as [n|] eqn:Hc; [|apply pruned_refl].
  destruct (an_nlink n =? 0) eqn:E; [|apply pruned_refl].
  apply free_pruned; [done..|]. by apply Z.eqb_eq.
Qed.

Lemma reap_pruned A c n :
  wf A {[c]} → nodes A !! c = Some n → ¬ attached A c → pruned A (p_reap c A).
Proof.
  intros Hwf Hc Ha. unfold p_reap. rewrite Hc.
  pose proof (reap_file_pruned A c Hwf) as H1.
  destruct (an_link n) eqn:El; [|by destruct (an_src n)].
  destruct (w_link _ _ Hwf _ _ Hc El) as (Hd & s & e & Es & He & Hde & Hle). rewrite Es.
  eapply pruned_trans; [done|].
  assert (p_reap_file c A = if an_nlink n =? 0 then p_free c n A else A) as ->
    by (unfold p_reap_file; by rewrite Hc).
  destruct (an_nlink n =? 0) eqn:E.
  - apply Z.eqb_eq in E. apply reap_file_pruned. apply free_wf; [done..|].
    intros q. unfold link_delta, is_link_of. rewrite El, Es. simpl. case_bool_decide; [|done].
    intros _. simplify_eq. set_solver.
  - unfold p_reap_file. rewrite He. apply Z.eqb_neq in E. destruct E.
    pose proof (w_nlink _ _ Hwf _ _ Hc) as E. rewrite E. unfold refs. rewrite decide_False by done.
    rewrite (kids_at_eq _ _ _ Hc), (w_leaf _ _ Hwf _ _ Hc Hd), size_empty.
    unfold links. rewrite n_count_zero; [done|]. intros q m Hq. unfold is_link_of.
    destruct (an_link m) eqn:Em; [|done]. apply bool_decide_eq_false_2. intros Ec.
    destruct (w_link _ _ Hwf _ _ Hq Em) as (_ & s' & e' & Es' & He' & _ & Hl'). congruence.
Qed.

Lemma pruned_child A A' F p name c :
  wf A F → pruned A A' → child_at A' p name c ↔ child_at A p name c.
Proof.
  intros Hwf (He & Hk & _ & _ & Hs). rewrite !child_at_alt, Hk.
  assert (c ∈ kids_at A p → name_at A' c = name_at A c) as Hn; [|naive_solver congruence].
  intros Hc. pose proof (kid_attached _ _ _ _ Hwf Hc) as Ha.
  destruct (wf_kid_ok _ _ _ _ Hwf Hc) as (_ & e & _ & _ & Hce & _).
  destruct (Hs _ _ Ha Hce) as (e' & He' & E). unfold name_at. rewrite Hce, He'. simpl.
  injection E as _ _ _ _ _ E _. by rewrite E.
Qed.

(** ** The operations *)

Lemma attach_child A F c p n d q name e :
  wf A F → ¬ attached A c → nodes A !! c = Some n → an_parent n = Some p →
  nodes A !! p = Some d → an_dir d = true → p ∉ F →
  child_at (p_attach c p A) q name e ↔
    (q = p ∧ name = an_name n ∧ e = c) ∨ child_at A q name e.
Proof.
  intros Hwf Ha Hc Hn Hp Hd HF. rewrite !child_at_alt.
  rewrite (attach_kids A F c p n d Hwf Ha Hc Hn Hp Hd HF q).
  rewrite (same_shape_name _ _ _ (attach_shape A c p)).
  assert (name_at A c = Some (an_name n)) as Hnm by (unfold name_at; by rewrite Hc).
  destruct (decide (q = p)) as [->|Hq]; rewrite elem_of_union, ?elem_of_singleton, ?elem_of_empty;
    naive_solver congruence.
Qed.

Lemma detach_child A F c p q name e :
  wf A F → c ∈ kids_at A p →
  child_at (p_detach c p A) q name e ↔ child_at A q name e ∧ e ≠ c.
Proof.
  intros Hwf Hc. rewrite !child_at_alt, detach_kids.
  rewrite (same_shape_name _ _ _ (detach_shape A c p)).
  assert (c ∈ kids_at A q → q = p) as Hqp.
  { intros Hq. destruct (wf_kid_ok _ _ _ _ Hwf Hc) as (? & e1 & _ & _ & H1 & E1 & _).
    destruct (wf_kid_ok _ _ _ _ Hwf Hq) as (? & e2 & _ & _ & H2 & E2 & _). congruence. }
  destruct (decide (q = p)) as [->|Hq]; rewrite elem_of_difference, ?elem_of_singleton;
    set_solver.
Qed.

Lemma place_child A F c p name n q nm e :
  wf A F → ¬ attached A c → nodes A !! c = Some n →
  child_at (p_place c p name A) q nm e ↔ child_at A q nm e.
Proof.
  intros Hwf Ha Hc. rewrite !child_at_alt, (place_kids A c p name n Hc).
  pose proof (not_kid A F c Hwf Ha q) as Hk. unfold name_at.
  rewrite (place_lookup A c p name n Hc). case_decide; [subst; tauto|done].
Qed.

Lemma new_child A F c n q nm e :
  wf A F → nodes A !! c = None → new_ok A n →
  child_at (p_new c n A) q nm e ↔ child_at A q nm e.
Proof.
  intros Hwf Hc Hn. rewrite !child_at_alt, new_kids by done.
  pose proof (new_not_kid A F c Hwf Hc q) as Hk. unfold name_at. rewrite new_lookup.
  case_decide; [subst; tauto|]. by destruct (nodes A !! e).
Qed.

(** Creating a node in a directory that has none of its name. *)
Lemma create_spec_wf A c p n d :
  wf A ∅ → nodes A !! c = None → new_ok A n → an_parent n = Some p →
  nodes A !! p = Some d → an_dir d = true → an_ns n = an_ns d →
  (∀ e, ¬ child_at A p (an_name n) e) →
  wf (create_spec c p n A) ∅ ∧
  ∀ q nm e, child_at (create_spec c p n A) q nm e ↔
    (q = p ∧ nm = an_name n ∧ e = c) ∨ child_at A q nm e.
Proof.
  intros Hwf Hc Hn Hpar Hp Hd Hns Hfree. unfold create_spec.
  pose proof (new_wf A ∅ c n Hwf Hc Hn) as Hwf1.
  assert (p ≠ c) as Hpc by congruence.
  assert (¬ attached (p_new c n A) c) as Ha.
  { rewrite (new_attached A ∅ c n Hwf Hc Hn). unfold attached. rewrite Hc. simpl. tauto. }
  assert (nodes (p_new c n A) !! c = Some n) as Hc1 by (by rewrite new_lookup, decide_True).
  pose proof (new_fwd A c n Hc p d Hp) as Hp1. split.
  - replace (∅ : gset ptr) with ((∅ ∪ {[c]}) ∖ {[c]} : gset ptr) by set_solver.
    eapply attach_wf; eauto; [set_solver|]. intros e. by rewrite (new_child A ∅).
  - intros q nm e. rewrite (attach_child _ (∅ ∪ {[c]}) c p n); eauto; [|set_solver].
    by rewrite (new_child A ∅).
Qed.

(** Creating the root of a namespace without one. *)
Lemma create_root_spec_wf A c n :
  wf A ∅ → nodes A !! c = None → new_ok A n → an_parent n = None →
  roots A !! an_ns n = None →
  wf (create_root_spec c n A) ∅ ∧
  ∀ q nm e, child_at (create_root_spec c n A) q nm e ↔ child_at A q nm e.
Proof.
  intros Hwf Hc Hn Hpar Hr. unfold create_root_spec.
  pose proof (new_wf A ∅ c n Hwf Hc Hn) as Hwf1.
  assert (¬ attached (p_new c n A) c) as Ha.
  { rewrite (new_attached A ∅ c n Hwf Hc Hn). unfold attached. rewrite Hc. simpl. tauto. }
  assert (nodes (p_new c n A) !! c = Some n) as Hc1 by (by rewrite new_lookup, decide_True).
  split.
  - replace (∅ : gset ptr) with ((∅ ∪ {[c]}) ∖ {[c]} : gset ptr) by set_solver.
    by eapply mount_wf.
  - intros q nm e. rewrite <- (new_child A ∅ c n q nm e Hwf Hc Hn), !child_at_alt.
    rewrite p_mount_eq, (mount_kids _ c (an_ns n) (Some c) 1).
    by rewrite (same_shape_name _ _ _ (mount_shape _ c (an_ns n) (Some c) 1)).
Qed.

(** Removing a child without children. *)
Section remove.
Context (A : ATree) (c p : ptr).
Context (Hwf : wf A ∅) (Hc : c ∈ kids_at A p) (Hk : kids_at A c = ∅).

Lemma remove_detached :
  wf (p_detach c p A) {[c]} ∧ ¬ attached (p_detach c p A) c ∧
  ∃ n, nodes (p_detach c p A) !! c = Some n ∧ an_kids n = ∅.
Proof using All.
  pose proof (detach_wf A ∅ c p Hwf Hc) as H1.
  rewrite (left_id_L ∅ (∪)) in H1. split; [done|].
  rewrite (detach_attached A ∅ c p Hwf Hc). split; [tauto|].
  destruct (wf_kid_ok _ _ _ _ Hwf Hc) as (_ & e & _ & _ & He & _).
  rewrite detach_lookup, He. eexists. split; [done|]. simpl.
  rewrite (kids_at_eq _ _ _ He) in Hk. rewrite Hk. set_solver.
Qed.

Lemma remove_pruned : pruned (p_detach c p A) (remove_spec c p A).
Proof using All. destruct remove_detached as (H1 & H2 & n & H3 & H4). by eapply reap_pruned. Qed.

Lemma remove_spec_wf :
  wf (remove_spec c p A) ∅ ∧
  ∀ q nm e, child_at (remove_spec c p A) q nm e ↔ child_at A q nm e ∧ e ≠ c.
Proof using All.
  destruct remove_detached as (H1 & H2 & n & H3 & H4). split; [by eapply reap_wf|].
  intros q nm e. rewrite (pruned_child _ _ {[c]} q nm e H1 remove_pruned).
  by apply (detach_child A ∅).
Qed.

Lemma remove_evolves : evolves A (remove_spec c p A).
Proof using All.
  eapply evolves_trans; [apply same_shape_evolves, detach_shape|]. apply remove_pruned.
Qed.

Lemma remove_kids q :
  kids_at (remove_spec c p A) q = kids_at A q ∖ (if decide (q = p) then {[c]} else ∅).
Proof using All. destruct remove_pruned as (_ & E & _). by rewrite E, detach_kids. Qed.

(** The nodes in other places are still there. *)
Lemma remove_keeps q m :
  attached A q → q ≠ c → nodes A !! q = Some m →
  ∃ m', nodes (remove_spec c p A) !! q = Some m' ∧ shape m' = shape m.
Proof using All.
  intros Ha Hq Hm. destruct remove_pruned as (_ & _ & _ & _ & Hs).
  pose proof (detach_shape A c p q) as E. rewrite Hm in E. simpl in E.
  apply fmap_Some in E as (m1 & Hm1 & E). destruct (Hs q m1) as (m2 & Hm2 & E2); [|done|].
  - by apply (detach_attached A ∅).
  - exists m2. split; [done|]. congruence.
Qed.
End remove.

Lemma remove_root_spec_wf A c a n :
  wf A ∅ → roots A !! a = Some c → nodes A !! c = Some n → an_kids n = ∅ →
  wf (remove_root_spec c a A) ∅ ∧ roots (remove_root_spec c a A) = delete a (roots A) ∧
  ∀ q nm e, child_at (remove_root_spec c a A) q nm e ↔ child_at A q nm e.
Proof.
  intros Hwf Hr Hc Hk. destruct (w_root _ _ Hwf _ _ Hr) as (n' & Hn' & Hpar & Hns).
  assert (n' = n) as -> by congruence. subst a.
  pose proof (unmount_wf A ∅ c _ _ Hwf Hc Hpar eq_refl Hr) as H1.
  rewrite (left_id_L ∅ (∪)) in H1.
  assert (¬ attached (p_unmount c (an_ns n) A) c) as Ha.
  { rewrite (mount_attached A ∅ c (an_ns n) n Hwf Hc Hpar eq_refl None (-1)) by (naive_solver congruence).
    by rewrite decide_True. }
  pose proof (mount_lookup A c (an_ns n) None (-1) c) as Hl. rewrite decide_True, Hc in Hl by done.
  pose proof (reap_pruned _ _ _ H1 Hl Ha) as Hpr.
  split; [by eapply reap_wf|]. split; [by destruct Hpr as (_ & _ & _ & Er & _)|].
  intros q nm e. unfold remove_root_spec. rewrite (pruned_child _ _ {[c]} q nm e H1 Hpr).
  rewrite !child_at_alt, p_unmount_eq, (mount_kids _ c (an_ns n) None (-1)).
  by rewrite (same_shape_name _ _ _ (mount_shape _ c (an_ns n) None (-1))).
Qed.

(** [x] is [p] or a directory above it. *)
Definition is_ancestor (A : ATree) (x p : ptr) : Prop :=
  ∃ l, chain an_parent (nodes A) (Some p) l ∧ x ∈ l.

Lemma evolves_shape A A' q m' :
  evolves A A' → nodes A' !! q = Some m' →
  ∃ m, nodes A !! q = Some m ∧ an_dir m' = an_dir m ∧ an_ns m' = an_ns m.
Proof.
  intros He Hq. destruct (He _ _ Hq) as (m & Hm & E). exists m.
  injection E as E1 E2 E3 E4 E5 E6 E7. repeat split; congruence.
Qed.

(** Moving a detached node below another directory. *)
Section relocate.
Context (A : ATree) (F : gset ptr) (c dp : ptr) (name : string) (n d : ANode).
Context (Hwf : wf A F) (HF : c ∈ F) (Ha : ¬ attached A c).
Context (Hc : nodes A !! c = Some n) (Hd : nodes A !! dp = Some d) (Hdir : an_dir d = true).
Context (Hdp : dp ∉ F) (Hns : an_ns n = an_ns d) (Hanc : ¬ is_ancestor A c dp).

Definition relocate : ATree := p_attach c dp (p_place c dp name A).

Lemma relocate_place :
  wf (p_place c dp name A) F ∧ ¬ attached (p_place c dp name A) c ∧
  nodes (p_place c dp name A) !! c = Some (n_place (Some dp) name n) ∧
  nodes (p_place c dp name A) !! dp = Some d.
Proof using All.
  destruct (w_chain _ _ Hwf _ _ Hd Hdir Hdp) as [l Hl].
  assert (c ∉ l) as Hcl. { intros Hin. apply Hanc. by exists l. }
  split; [by eapply place_wf|]. split; [by rewrite (place_attached A F c dp name n)|].
  rewrite !(place_lookup A c dp name n Hc), decide_True by done. split; [done|].
  rewrite decide_False; [done|]. intros ->. done.
Qed.

Lemma relocate_child q nm e :
  child_at relocate q nm e ↔ (q = dp ∧ nm = name ∧ e = c) ∨ child_at A q nm e.
Proof using All.
  destruct relocate_place as (H1 & H2 & H3 & H4). unfold relocate.
  rewrite (attach_child _ F c dp (n_place (Some dp) name n) d) by done.
  by rewrite (place_child A F c dp name n q nm e).
Qed.

Lemma relocate_wf : (∀ e, ¬ child_at A dp name e) → wf relocate (F ∖ {[c]}).
Proof using All.
  intros Hfree. destruct relocate_place as (H1 & H2 & H3 & H4). unfold relocate.
  eapply attach_wf; try done. intros e. by rewrite (place_child A F c dp name n).
Qed.

Lemma relocate_kids q :
  kids_at relocate q = (if decide (q = dp) then {[c]} else ∅) ∪ kids_at A q.
Proof using All.
  destruct relocate_place as (H1 & H2 & H3 & H4). unfold relocate.
  rewrite (attach_kids _ F c dp _ d H1 H2 H3 eq_refl H4 Hdir Hdp).
  by rewrite (place_kids A c dp name n Hc).
Qed.

Lemma relocate_attached q : attached relocate q ↔ q = c ∨ attached A q.
Proof using All.
  destruct relocate_place as (H1 & H2 & H3 & H4). unfold relocate.
  rewrite (attach_attached _ F c dp _ d H1 H2 H3 eq_refl H4 Hdir Hdp).
  destruct (w_chain _ _ Hwf _ _ Hd Hdir Hdp) as [l Hl].
  rewrite (place_attached A F c dp name n l); try done.
  intros Hin. apply Hanc. by exists l.
Qed.

Lemma relocate_lookup q : q ≠ c → shape <$> nodes relocate !! q = shape <$> nodes A !! q.
Proof using All.
  intros Hq. destruct relocate_place as (H1 & H2 & H3 & H4). unfold relocate.
  rewrite (attach_shape (p_place c dp name A) c dp q), (place_lookup A c dp name n Hc).
  by rewrite decide_False.
Qed.
End relocate.

(** Renaming a child into a directory: the target is free or a child without
    children, which goes. *)
Section move.
Context (A : ATree) (src sp dp : ptr) (name : string) (ow : option ptr) (d n : ANode).
Context (Hwf : wf A ∅) (Hsrc : src ∈ kids_at A sp) (Hd : nodes A !! dp = Some d).
Context (Hdir : an_dir d = true) (Hn : nodes A !! src = Some n) (Hns : an_ns n = an_ns d).
Context (Hanc : ¬ is_ancestor A src dp).
Context (How : match ow with
               | Some o => child_at A dp name o ∧ o ≠ src ∧ kids_at A o = ∅
               | None => ∀ e, ¬ child_at A dp name e
               end).

Let A1 := match ow with Some o => remove_spec o dp A | None => A end.

Lemma move_first :
  wf A1 ∅ ∧ evolves A A1 ∧ src ∈ kids_at A1 sp ∧
  (∃ d1 n1, nodes A1 !! dp = Some d1 ∧ shape d1 = shape d ∧ nodes A1 !! src = Some n1 ∧
    shape n1 = shape n) ∧
  ∀ q nm e, child_at A1 q nm e ↔ child_at A q nm e ∧ Some e ≠ ow.
Proof using All.
  unfold A1. destruct ow as [o|].
  - destruct How as (Ho & Hne & Hk). pose proof Ho as [Hok _]%child_at_alt.
    destruct (remove_spec_wf A o dp Hwf Hok Hk) as [H1 H2]. split; [done|].
    split; [by apply remove_evolves|].
    split. { rewrite remove_kids by done. case_decide; set_solver. }
    split.
    + pose proof (w_up _ _ Hwf _ _ Hd (or_introl Hdir) ltac:(set_solver)) as Hda.
      destruct (remove_keeps A o dp Hwf Hok Hk dp d Hda) as (d1 & ? & ?); [|done|].
      { intros ->. rewrite Hk in Hok. set_solver. }
      destruct (remove_keeps A o dp Hwf Hok Hk src n) as (n1 & ? & ?); [|done..|by exists d1, n1].
      by eapply kid_attached.
    + intros q nm e. rewrite H2. naive_solver congruence.
  - split; [done|]. split; [apply evolves_refl|]. split; [done|]. split; [by exists d, n|].
    naive_solver.
Qed.

Lemma move_spec_wf :
  wf (move_spec src sp dp name ow A) ∅ ∧
  ∀ q nm e, child_at (move_spec src sp dp name ow A) q nm e ↔
    (q = dp ∧ nm = name ∧ e = src) ∨ (child_at A q nm e ∧ e ≠ src ∧ Some e ≠ ow).
Proof using All.
  destruct move_first as (H1 & He & Hs1 & (d1 & n1 & Hd1 & Ed & Hn1 & En) & Hch).
  injection Ed as Ed1 Ed2 _ _ _ _ _. injection En as En1 _ _ _ _ _ _.
  change (move_spec src sp dp name ow A) with (relocate (p_detach src sp A1) src dp name).
  pose proof (detach_wf A1 ∅ src sp H1 Hs1) as H2.
  assert (¬ is_ancestor (p_detach src sp A1) src dp) as Hanc2.
  { intros (l & Hl & Hin). apply Hanc. exists l. split; [|done].
    eapply evolves_chain; [|done]. eapply evolves_trans; [done|].
    apply same_shape_evolves, detach_shape. }
  assert (¬ attached (p_detach src sp A1) src) as Ha2.
  { rewrite (detach_attached A1 ∅ src sp H1 Hs1). tauto. }
  pose proof (detach_lookup A1 src sp src) as Hn2. rewrite Hn1 in Hn2. simpl in Hn2.
  pose proof (detach_lookup A1 src sp dp) as Hd2. rewrite Hd1 in Hd2. simpl in Hd2.
  assert (dp ∉ (∅ ∪ {[src]} : gset ptr)) as Hdp.
  { rewrite (left_id_L ∅ (∪)), elem_of_singleton. intros ->. apply Hanc.
    destruct (w_chain _ _ Hwf _ _ Hd Hdir ltac:(set_solver)) as [l Hl]. exists l.
    split; [done|]. destruct l; simpl in Hl; [done|]. destruct Hl as [[= <-] _]. set_solver. }
  assert (∀ q nm e, child_at (p_detach src sp A1) q nm e ↔
    child_at A q nm e ∧ e ≠ src ∧ Some e ≠ ow) as Hch2.
  { intros q nm e. rewrite (detach_child A1 ∅), Hch by done. tauto. }
  split.
  - replace (∅ : gset ptr) with ((∅ ∪ {[src]}) ∖ {[src]} : gset ptr) by set_solver.
    eapply relocate_wf; try done; [set_solver|simpl; congruence|simpl; congruence|].
    intros e. rewrite Hch2. intros (Hce & Hes & Heo). destruct ow as [o|].
    + destruct How as (Ho & _ & _). apply Heo. f_equal. clear - Hwf Ho Hce.
      destruct Hce as (x & ex & Hx & Hk & Hex & E), Ho as (y & ey & Hy & Hk' & Hey & E').
      simplify_eq. eapply (w_names _ _ Hwf dp); eauto.
    + by apply (How e).
  - intros q nm e. rewrite (relocate_child _ (∅ ∪ {[src]})), Hch2; try done;
      [set_solver|simpl; congruence|simpl; congruence].
Qed.
End move.

Lemma kid_not_above A F c p : wf A F → c ∈ kids_at A p → ¬ is_ancestor A c p.
Proof.
  intros Hwf Hc (l & Hl & Hin). destruct (wf_kid_ok _ _ _ _ Hwf Hc) as (_ & e & _ & _ & He & Hp & _).
  assert (chain an_parent (nodes A) (Some c) (c :: l)) as Hcl.
  { simpl. split; [done|]. exists e. split; [done|]. by rewrite Hp. }
  apply chain_NoDup in Hcl. by apply NoDup_cons in Hcl as [? _].
Qed.

Lemma ancestor_ext A A' p x l :
  chain an_parent (nodes A) (Some p) l →
  (∀ y, y ∈ l → an_parent <$> nodes A' !! y = an_parent <$> nodes A !! y) →
  is_ancestor A' x p → is_ancestor A x p.
Proof.
  intros Hl He (l' & Hl' & Hin). exists l. split; [done|].
  by rewrite (chain_det _ _ _ _ _ (chain_ext _ _ _ _ He Hl) Hl').
Qed.

Lemma shape_parent (A A' : ATree) q :
  shape <$> nodes A' !! q = shape <$> nodes A !! q →
  an_parent <$> nodes A' !! q = an_parent <$> nodes A !! q.
Proof.
  unfold shape. destruct (nodes A' !! q), (nodes A !! q); simpl; congruence.
Qed.

(** Exchanging two children, neither of which is above the other's directory. *)
Section exchange.
Context (A : ATree) (src sp dest dp : ptr) (sname dname : string) (d1 d2 : ANode).
Context (Hwf : wf A ∅) (Hs : child_at A sp sname src) (Hd : child_at A dp dname dest).
Context (Hne : src ≠ dest) (Hsp : nodes A !! sp = Some d1) (Hdp : nodes A !! dp = Some d2).
Context (Hns : an_ns d1 = an_ns d2).
Context (Hanc1 : ¬ is_ancestor A src dp) (Hanc2 : ¬ is_ancestor A dest sp).

Let A2 := p_detach dest dp (p_detach src sp A).
Let A4 := relocate A2 src dp dname.

Lemma exchange_detach :
  wf A2 {[src; dest]} ∧ same_shape A A2 ∧ ¬ attached A2 src ∧ ¬ attached A2 dest ∧
  ∀ q nm e, child_at A2 q nm e ↔ child_at A q nm e ∧ e ≠ src ∧ e ≠ dest.
Proof using All.
  pose proof Hs as [Hks _]%child_at_alt. pose proof Hd as [Hkd _]%child_at_alt.
  pose proof (detach_wf A ∅ src sp Hwf Hks) as H1.
  assert (dest ∈ kids_at (p_detach src sp A) dp) as Hkd1.
  { rewrite detach_kids. case_decide; set_solver. }
  pose proof (detach_wf _ _ dest dp H1 Hkd1) as H2. unfold A2.
  split. { by rewrite (left_id_L ∅ (∪)) in H2. }
  split. { eapply same_shape_trans; apply detach_shape. }
  pose proof (detach_attached A ∅ src sp Hwf Hks) as T1.
  pose proof (detach_attached _ _ dest dp H1 Hkd1) as T2.
  split; [rewrite T2, T1; tauto|]. split; [rewrite T2; tauto|].
  intros q nm e. rewrite (detach_child _ (∅ ∪ {[src]})), (detach_child A ∅) by done. tauto.
Qed.

(** A directory that keeps its place is none of the two. *)
Lemma not_above_ne x p m : nodes A !! p = Some m → ¬ is_ancestor A x p → an_dir m = true → p ≠ x.
Proof using All.
  intros Hp Hx Hdir ->. apply Hx. destruct (w_chain _ _ Hwf _ _ Hp Hdir ltac:(set_solver)) as [l Hl].
  exists l. split; [done|]. destruct l; simpl in Hl; [done|]. destruct Hl as [[= <-] _]. set_solver.
Qed.

Lemma exchange_dirs :
  an_dir d1 = true ∧ an_dir d2 = true ∧ sp ≠ src ∧ sp ≠ dest ∧ dp ≠ src ∧ dp ≠ dest ∧
  ∃ n1 n2, nodes A !! src = Some n1 ∧ nodes A !! dest = Some n2 ∧ an_ns n1 = an_ns d1 ∧
    an_ns n2 = an_ns d2.
Proof using All.
  pose proof Hs as [Hks _]%child_at_alt. pose proof Hd as [Hkd _]%child_at_alt.
  destruct (wf_kid_ok _ _ _ _ Hwf Hks) as (d1' & n1 & E1 & Hdir1 & En1 & _ & N1).
  destruct (wf_kid_ok _ _ _ _ Hwf Hkd) as (d2' & n2 & E2 & Hdir2 & En2 & _ & N2).
  simplify_eq. split; [done|]. split; [done|].
  pose proof (kid_not_above _ _ _ _ Hwf Hks). pose proof (kid_not_above _ _ _ _ Hwf Hkd).
  split; [by eapply not_above_ne|]. split; [by eapply not_above_ne|].
  split; [by eapply not_above_ne|]. split; [by eapply not_above_ne|].
  exists n1, n2. done.
Qed.

Lemma shape_fields (B : ATree) q m :
  same_shape A B → nodes A !! q = Some m →
  ∃ m', nodes B !! q = Some m' ∧ an_dir m' = an_dir m ∧ an_ns m' = an_ns m.
Proof using Type.
  clear. intros Hsh Hq. destruct (same_shape_fwd _ _ _ _ Hsh Hq) as (m' & ? & _ & _ & ? & ? & _).
  eauto.
Qed.

Lemma exchange_first :
  wf A4 {[dest]} ∧ ¬ attached A4 dest ∧ ¬ is_ancestor A4 dest sp ∧
  (∀ q m, q ≠ src → nodes A !! q = Some m →
     ∃ m', nodes A4 !! q = Some m' ∧ an_dir m' = an_dir m ∧ an_ns m' = an_ns m) ∧
  ∀ q nm e, child_at A4 q nm e ↔
    (q = dp ∧ nm = dname ∧ e = src) ∨ (child_at A q nm e ∧ e ≠ src ∧ e ≠ dest).
Proof using All.
  destruct exchange_detach as (H2 & Hsh & Ha1 & Ha2 & Hch).
  destruct exchange_dirs as (Hdir1 & Hdir2 & N1 & N2 & N3 & N4 & n1 & n2 & E1 & E2 & En1 & En2).
  destruct (shape_fields _ _ _ Hsh E1) as (m1 & M1 & _ & Mn1).
  destruct (shape_fields _ _ _ Hsh Hdp) as (e2 & D2 & Dd2 & Dn2).
  assert (¬ is_ancestor A2 src dp) as Hanc.
  { intros (l & Hl & Hin). apply Hanc1. exists l. split; [|done].
    by eapply evolves_chain; [apply same_shape_evolves|]. }
  unfold A4. split.
  { replace ({[dest]} : gset ptr) with ({[src; dest]} ∖ {[src]} : gset ptr) by set_solver.
    eapply relocate_wf; try done; [set_solver|congruence|set_solver|congruence|].
    intros e. rewrite Hch. intros (Hce & _ & Hed). apply Hed. clear - Hwf Hce Hd.
    destruct Hce as (x & ex & Hx & Hk & Hex & E), Hd as (y & ey & Hy & Hk' & Hey & E').
    simplify_eq. eapply (w_names _ _ Hwf dp); eauto. }
  split.
  { rewrite (relocate_attached _ {[src; dest]} src dp dname m1 e2); try done;
      [naive_solver|set_solver|congruence|set_solver|congruence]. }
  assert (∀ q, q ≠ src → shape <$> nodes (relocate A2 src dp dname) !! q = shape <$> nodes A !! q)
    as Hl.
  { intros q Hq. rewrite (relocate_lookup _ {[src; dest]} src dp dname m1 e2); try done;
      [set_solver|congruence|set_solver|congruence]. }
  split.
  { destruct (w_chain _ _ Hwf _ _ Hsp Hdir1 ltac:(set_solver)) as [l Hlc].
    intros Hx. apply Hanc2. eapply (ancestor_ext A _ sp dest l Hlc); [|done].
    intros y Hy. apply shape_parent, Hl. intros ->.
    pose proof Hs as [Hks _]%child_at_alt. apply (kid_not_above _ _ _ _ Hwf Hks). by exists l. }
  split.
  { intros q m Hq Hm. specialize (Hl q Hq). rewrite Hm in Hl. simpl in Hl.
    apply fmap_Some in Hl as (m' & Hm' & E). exists m'. injection E as ? ? ? ? ? ? ?. done. }
  intros q nm e. rewrite (relocate_child _ {[src; dest]} src dp dname m1 e2), Hch; try done;
    [set_solver|congruence|set_solver|congruence].
Qed.

Lemma exchange_spec_wf :
  wf (exchange_spec src sp dest dp sname dname A) ∅ ∧
  ∀ q nm e, child_at (exchange_spec src sp dest dp sname dname A) q nm e ↔
    (q = dp ∧ nm = dname ∧ e = src) ∨ (q = sp ∧ nm = sname ∧ e = dest) ∨
    (child_at A q nm e ∧ e ≠ src ∧ e ≠ dest).
Proof using All.
  change (exchange_spec src sp dest dp sname dname A) with (relocate A4 dest sp sname).
  destruct exchange_first as (H4 & Ha & Hanc & Hf & Hch).
  destruct exchange_dirs as (Hdir1 & Hdir2 & N1 & N2 & N3 & N4 & n1 & n2 & E1 & E2 & En1 & En2).
  destruct (Hf _ _ (not_eq_sym Hne) E2) as (m2 & M2 & _ & Mn2).
  destruct (Hf _ _ N1 Hsp) as (e1 & D1 & Dd1 & Dn1). split.
  - replace (∅ : gset ptr) with ({[dest]} ∖ {[dest]} : gset ptr) by set_solver.
    eapply relocate_wf; try done; [set_solver|congruence|set_solver|congruence|].
    intros e. rewrite Hch. clear - Hwf Hs Hd Hne. intros [(-> & -> & ->)|(Hce & Hes & _)].
    + destruct Hs as (x & ex & Hx & Hk & Hex & E), Hd as (y & ey & Hy & Hk' & Hey & E').
      simplify_eq. apply Hne. by eapply (w_names _ _ Hwf dp).
    + apply Hes. destruct Hce as (x & ex & Hx & Hk & Hex & E), Hs as (y & ey & Hy & Hk' & Hey & E').
      simplify_eq. eapply (w_names _ _ Hwf sp); eauto.
  - intros q nm e.
    rewrite (relocate_child _ {[dest]} dest sp sname m2 e1), Hch; try done;
      [tauto|set_solver|congruence|set_solver|congruence].
Qed.
End exchange.
