(* ===== verification/ServerTypes.v ===== *)
(** * The directory server's shared data: [server/server_types.h],
    [common/fdir_types.h], [server/binlog/binlog_types.h]

    Dentries, namespaces, the binlog record being processed and the globals the
    components share, with the accessors every component uses. Dentries and
    namespaces are objects of a heap: the inode table, the namespaces and the
    directories refer to the same dentries by pointer.

    Two interfaces: [UniqSkiplist] is what the server relies on of libfastcommon's
    skiplist, which holds a directory's children; [ServerConfig] has the
    constants of the configuration and the library's hash function. *)

From Stdlib Require Import Ascii.
From S2P Require Import Prelude NsSubscribe.

(** ** Modes and flags *)

Definition S_IFMT : Z := 61440.   (* 0170000 *)
Definition S_IFDIR : Z := 16384.  (* 0040000 *)
Definition S_IFLNK : Z := 40960.  (* 0120000 *)
Definition S_IFREG : Z := 32768.  (* 0100000 *)
Definition FDIR_DENTRY_MODE_FLAGS_HARD_LINK : Z := Z.shiftl 1 22.

Definition S_ISDIR (mode : Z) : bool := Z.land mode S_IFMT =? S_IFDIR.
Definition S_ISLNK (mode : Z) : bool := Z.land mode S_IFMT =? S_IFLNK.
Definition FDIR_IS_DENTRY_HARD_LINK (mode : Z) : bool :=
  negb (Z.land mode FDIR_DENTRY_MODE_FLAGS_HARD_LINK =? 0).

Definition RENAME_NOREPLACE : Z := 1.
Definition RENAME_EXCHANGE : Z := 2.
Definition XATTR_CREATE : Z := 1.
Definition XATTR_REPLACE : Z := 2.

Definition BINLOG_OP_NONE_INT := 0.
Definition BINLOG_OP_CREATE_DENTRY_INT := 1.
Definition BINLOG_OP_REMOVE_DENTRY_INT := 2.
Definition BINLOG_OP_RENAME_DENTRY_INT := 3.
Definition BINLOG_OP_UPDATE_DENTRY_INT := 4.
Definition BINLOG_OP_SET_XATTR_INT := 5.
Definition BINLOG_OP_REMOVE_XATTR_INT := 6.

Definition FDIR_MAX_PATH_COUNT : nat := 128.
Definition FDIR_DENTRY_LOADED_FLAGS_ALL : Z := 15.

Definition FDIR_DENTRY_FIELD_MODIFIED_FLAG_FILE_SIZE : Z := 1.
Definition FDIR_DENTRY_FIELD_MODIFIED_FLAG_INC_ALLOC : Z := 2.
Definition FDIR_DENTRY_FIELD_MODIFIED_FLAG_SPACE_END : Z := 4.
Definition FDIR_DENTRY_FIELD_MODIFIED_FLAG_MTIME : Z := 8.
Definition FDIR_DENTRY_FIELD_MODIFIED_FLAG_FORCE : Z := 16.

(** ** Interfaces *)

(** [libfastcommon/uniq_skiplist.h]: an ordered set of objects without equal
    keys. [key] is what the comparison function reads of an object ([dentry_compare]
    reads the name); [find] looks for a key, the other operations for the key
    of an object. The laws hold as long as the objects inside have different
    keys, which is what the structure promises. *)
Class UniqSkiplist := {
  skiplist : Type;
  sl_elements : skiplist → list ptr;
  uniq_skiplist_new : skiplist;
  uniq_skiplist_find : (ptr → string) → skiplist → string → option ptr;
  (** The boolean: whether there is memory for the new element. *)
  uniq_skiplist_insert : (ptr → string) → bool → skiplist → ptr → Z * skiplist;
  (** The element removed, to be freed when [need_free]; [None] is [ENOENT]. *)
  uniq_skiplist_delete : (ptr → string) → skiplist → ptr → option (ptr * skiplist);
  (** The element replaced by the given one. *)
  uniq_skiplist_replace : (ptr → string) → skiplist → ptr → option (ptr * skiplist);
  uniq_skiplist_empty : skiplist → bool;
  uniq_skiplist_count : skiplist → Z;

  sl_new_law : sl_elements uniq_skiplist_new = [];
  sl_find_law : ∀ key l n p, NoDup (key <$> sl_elements l) →
    uniq_skiplist_find key l n = Some p ↔ p ∈ sl_elements l ∧ key p = n;
  sl_insert_law : ∀ key l p, NoDup (key <$> sl_elements l) →
    key p ∉ key <$> sl_elements l →
    ∃ l', uniq_skiplist_insert key true l p = (0, l') ∧ sl_elements l' ≡ₚ p :: sl_elements l;
  sl_insert_nomem_law : ∀ key l p, NoDup (key <$> sl_elements l) →
    key p ∉ key <$> sl_elements l → uniq_skiplist_insert key false l p = (ENOMEM, l);
  sl_insert_dup_law : ∀ key ok l p, NoDup (key <$> sl_elements l) →
    key p ∈ key <$> sl_elements l → uniq_skiplist_insert key ok l p = (EEXIST, l);
  sl_delete_law : ∀ key l p q, NoDup (key <$> sl_elements l) →
    q ∈ sl_elements l → key q = key p →
    ∃ l', uniq_skiplist_delete key l p = Some (q, l') ∧ sl_elements l ≡ₚ q :: sl_elements l';
  sl_delete_none_law : ∀ key l p, NoDup (key <$> sl_elements l) →
    key p ∉ key <$> sl_elements l → uniq_skiplist_delete key l p = None;
  sl_replace_law : ∀ key l p q, NoDup (key <$> sl_elements l) →
    q ∈ sl_elements l → key q = key p →
    ∃ l' rest, uniq_skiplist_replace key l p = Some (q, l') ∧
      sl_elements l ≡ₚ q :: rest ∧ sl_elements l' ≡ₚ p :: rest;
  sl_replace_none_law : ∀ key l p, NoDup (key <$> sl_elements l) →
    key p ∉ key <$> sl_elements l → uniq_skiplist_replace key l p = None;
  sl_empty_law : ∀ l, uniq_skiplist_empty l = true ↔ sl_elements l = [];
  sl_count_law : ∀ l, uniq_skiplist_count l = Z.of_nat (length (sl_elements l))
}.

(** Configuration ([server_global.h]) and [simple_hash] of libfastcommon. *)
Class ServerConfig := {
  INODE_HASHTABLE_CAPACITY : Z;
  namespace_hashtable_capacity : Z;
  simple_hash : string → Z;
  CLUSTER_ID : Z;
  inode_capacity_pos : 0 < INODE_HASHTABLE_CAPACITY;
  namespace_capacity_pos : 0 < namespace_hashtable_capacity
}.

(** [split_string_ex] of libfastcommon at ['/'], without empty parts and at most
    [FDIR_MAX_PATH_COUNT] of them: it undoes putting a slash before each part. *)
Definition path_of (parts : list string) : string :=
  foldr (λ part rest, String.append "/" (String.append part rest)) "" parts.
Fixpoint no_slash (s : string) : Prop :=
  match s with
  | EmptyString => True
  | String c rest => c ≠ "/"%char ∧ no_slash rest
  end.
Class PathSplit := {
  split_path : string → list string;
  split_path_law : ∀ parts, Forall (λ part, part ≠ "" ∧ no_slash part) parts →
    (length parts ≤ FDIR_MAX_PATH_COUNT)%nat → split_path (path_of parts) = parts
}.

(** ** Data *)

Record DEntryStat := mkDEntryStat {
  st_mode : Z;
  st_uid : Z;
  st_gid : Z;
  st_btime : Z;
  st_atime : Z;
  st_ctime : Z;
  st_mtime : Z;
  st_nlink : Z;
  st_size : Z;
  st_alloc : Z;
  st_space_end : Z
}.

Definition zero_stat : DEntryStat := mkDEntryStat 0 0 0 0 0 0 0 0 0 0 0.

(** The union of a symbolic link's target and a hard link's source. *)
Inductive DLink :=
  | DNone
  | DLinkTo (target : string)
  | DSrc (src_dentry : ptr).

(** [SFKeyValueArray]: [kv_alloc] slots, the first [length kv_elts] in use. *)
Record KvArray := mkKvArray {
  kv_alloc : Z;
  kv_elts : list (string * string)
}.

Section types.
Context `{UniqSkiplist}.

Record ServerDentry := mkServerDentry {
  d_inode : Z;
  d_name : string;
  d_loaded_flags : Z;
  d_reffer_count : Z;
  d_stat : DEntryStat;
  d_link : DLink;
  d_kv_array : option KvArray;
  d_children : option skiplist;
  d_parent : option ptr;
  d_ns_entry : ptr;
  d_ht_next : option ptr
}.
End types.

Record NsCounts := mkNsCounts { count_dir : Z; count_file : Z }.

Record NamespaceEntry := mkNamespaceEntry {
  ns_id : Z;
  ns_hash_code : Z;
  ns_name : string;
  ns_root : option ptr;
  ns_counts : NsCounts;
  ns_used_bytes : Z;
  ns_thread : ptr;
  ns_next : option ptr
}.

(** The manager of the namespaces ([fdir_manager]). *)
Record NsManager := mkNsManager {
  nm_buckets : gmap Z ptr;
  nm_array : list ptr;
  nm_array_alloc : Z;
  nm_current_id : Z
}.

Record DentryCounters := mkDentryCounters { c_ns : Z; c_dir : Z; c_file : Z }.

(** The fields a record may modify, one bit each. *)
Record StatModifyFlags := mkStatModifyFlags {
  o_mode : bool;
  o_atime : bool;
  o_ctime : bool;
  o_mtime : bool;
  o_gid : bool;
  o_uid : bool;
  o_size : bool;
  o_inc_alloc : bool;
  o_space_end : bool
}.

Definition no_options : StatModifyFlags :=
  mkStatModifyFlags false false false false false false false false false.

Record RecordDEntry := mkRecordDEntry {
  re_pname : string;
  re_parent : option ptr;
  re_dentry : option ptr
}.

Inductive DABinlogOpType := op_type_remove | op_type_update.

(** [me] is also [rename.dest] and [hdlink.dest]: the union puts them at the
    same place. *)
Record BinlogRecord := mkBinlogRecord {
  r_inode : Z;
  r_ns : string;
  r_flags : Z;
  r_modified : Z;              (* options.flags as the request sends it *)
  r_options : StatModifyFlags;
  r_me : RecordDEntry;
  r_src : RecordDEntry;        (* rename.src *)
  r_overwritten : option ptr;
  r_hdlink_src : option ptr;
  r_affected : list (ptr * DABinlogOpType);
  r_stat : DEntryStat;
  r_link : string;
  r_xattr : string * string
}.

(** [ServerDelayFreeNode]: an object to free and when, in an [int]. *)
Record FreeNode := mkFreeNode { fn_expires : Z; fn_ptr : ptr }.

Section state.
Context `{UniqSkiplist}.

(** [mem_avail] is how many more allocations succeed ([None]: all);
    [free_queue] the dentries handed to the delayed free queue, which frees
    them [FDIR_DELAY_FREE_SECONDS] later ([data_thread.c]). *)
Record Server := mkServer {
  dentries : gmap ptr ServerDentry;
  namespaces : gmap ptr NamespaceEntry;
  inode_buckets : gmap Z ptr;
  ns_manager : NsManager;
  inode_sn : Z;
  counters : gmap ptr DentryCounters;
  subs : SubscribeCtx;
  record : BinlogRecord;
  current_time : Z;
  mem_avail : option nat;
  free_queue : list FreeNode
}.
End state.

(** The storage engine, an optional plugin ([STORAGE_ENABLED]): with it, dentries
    are loaded on demand from the database ([server/db/dentry_loader.c]) and
    the names of new namespaces are written to a file. The theorems are about
    servers without it. *)
Class StorageEngine `{UniqSkiplist} := {
  STORAGE_ENABLED : bool;
  (** The data thread and the dentry to complete. *)
  dentry_check_load : ptr → ptr → M Server Z;
  dentry_load_inode : ptr → Z → M Server (Z * option ptr);
  dentry_load_xattr : ptr → ptr → M Server Z;
  (** The file operations of [write_binlog] in [ns_manager.c]. *)
  ns_write_binlog_file : ptr → M Server Z
}.

(** ** Field updates *)

Definition with_st_mode v (x : DEntryStat) : DEntryStat :=
  mkDEntryStat v (st_uid x) (st_gid x) (st_btime x) (st_atime x) (st_ctime x) (st_mtime x)
      (st_nlink x) (st_size x) (st_alloc x) (st_space_end x).
Definition with_st_uid v (x : DEntryStat) : DEntryStat :=
  mkDEntryStat (st_mode x) v (st_gid x) (st_btime x) (st_atime x) (st_ctime x) (st_mtime x)
      (st_nlink x) (st_size x) (st_alloc x) (st_space_end x).
Definition with_st_gid v (x : DEntryStat) : DEntryStat :=
  mkDEntryStat (st_mode x) (st_uid x) v (st_btime x) (st_atime x) (st_ctime x) (st_mtime x)
      (st_nlink x) (st_size x) (st_alloc x) (st_space_end x).
Definition with_st_btime v (x : DEntryStat) : DEntryStat :=
  mkDEntryStat (st_mode x) (st_uid x) (st_gid x) v (st_atime x) (st_ctime x) (st_mtime x)
      (st_nlink x) (st_size x) (st_alloc x) (st_space_end x).
Definition with_st_atime v (x : DEntryStat) : DEntryStat :=
  mkDEntryStat (st_mode x) (st_uid x) (st_gid x) (st_btime x) v (st_ctime x) (st_mtime x)
      (st_nlink x) (st_size x) (st_alloc x) (st_space_end x).
Definition with_st_ctime v (x : DEntryStat) : DEntryStat :=
  mkDEntryStat (st_mode x) (st_uid x) (st_gid x) (st_btime x) (st_atime x) v (st_mtime x)
      (st_nlink x) (st_size x) (st_alloc x) (st_space_end x).
Definition with_st_mtime v (x : DEntryStat) : DEntryStat :=
  mkDEntryStat (st_mode x) (st_uid x) (st_gid x) (st_btime x) (st_atime x) (st_ctime x) v
      (st_nlink x) (st_size x) (st_alloc x) (st_space_end x).
Definition with_st_nlink v (x : DEntryStat) : DEntryStat :=
  mkDEntryStat (st_mode x) (st_uid x) (st_gid x) (st_btime x) (st_atime x) (st_ctime x)
      (st_mtime x) v (st_size x) (st_alloc x) (st_space_end x).
Definition with_st_size v (x : DEntryStat) : DEntryStat :=
  mkDEntryStat (st_mode x) (st_uid x) (st_gid x) (st_btime x) (st_atime x) (st_ctime x)
      (st_mtime x) (st_nlink x) v (st_alloc x) (st_space_end x).
Definition with_st_alloc v (x : DEntryStat) : DEntryStat :=
  mkDEntryStat (st_mode x) (st_uid x) (st_gid x) (st_btime x) (st_atime x) (st_ctime x)
      (st_mtime x) (st_nlink x) (st_size x) v (st_space_end x).
Definition with_st_space_end v (x : DEntryStat) : DEntryStat :=
  mkDEntryStat (st_mode x) (st_uid x) (st_gid x) (st_btime x) (st_atime x) (st_ctime x)
      (st_mtime x) (st_nlink x) (st_size x) (st_alloc x) v.

Definition with_ns_id v (x : NamespaceEntry) : NamespaceEntry :=
  mkNamespaceEntry v (ns_hash_code x) (ns_name x) (ns_root x) (ns_counts x) (ns_used_bytes x)
      (ns_thread x) (ns_next x).
Definition with_ns_hash_code v (x : NamespaceEntry) : NamespaceEntry :=
  mkNamespaceEntry (ns_id x) v (ns_name x) (ns_root x) (ns_counts x) (ns_used_bytes x)
      (ns_thread x) (ns_next x).
Definition with_ns_name v (x : NamespaceEntry) : NamespaceEntry :=
  mkNamespaceEntry (ns_id x) (ns_hash_code x) v (ns_root x) (ns_counts x) (ns_used_bytes x)
      (ns_thread x) (ns_next x).
Definition with_ns_root v (x : NamespaceEntry) : NamespaceEntry :=
  mkNamespaceEntry (ns_id x) (ns_hash_code x) (ns_name x) v (ns_counts x) (ns_used_bytes x)
      (ns_thread x) (ns_next x).
Definition with_ns_counts v (x : NamespaceEntry) : NamespaceEntry :=
  mkNamespaceEntry (ns_id x) (ns_hash_code x) (ns_name x) (ns_root x) v (ns_used_bytes x)
      (ns_thread x) (ns_next x).
Definition with_ns_used_bytes v (x : NamespaceEntry) : NamespaceEntry :=
  mkNamespaceEntry (ns_id x) (ns_hash_code x) (ns_name x) (ns_root x) (ns_counts x) v
      (ns_thread x) (ns_next x).
Definition with_ns_thread v (x : NamespaceEntry) : NamespaceEntry :=
  mkNamespaceEntry (ns_id x) (ns_hash_code x) (ns_name x) (ns_root x) (ns_counts x)
      (ns_used_bytes x) v (ns_next x).
Definition with_ns_next v (x : NamespaceEntry) : NamespaceEntry :=
  mkNamespaceEntry (ns_id x) (ns_hash_code x) (ns_name x) (ns_root x) (ns_counts x)
      (ns_used_bytes x) (ns_thread x) v.

Definition with_c_ns v (x : DentryCounters) : DentryCounters :=
  mkDentryCounters v (c_dir x) (c_file x).
Definition with_c_dir v (x : DentryCounters) : DentryCounters :=
  mkDentryCounters (c_ns x) v (c_file x).
Definition with_c_file v (x : DentryCounters) : DentryCounters :=
  mkDentryCounters (c_ns x) (c_dir x) v.

Definition with_re_pname v (x : RecordDEntry) : RecordDEntry :=
  mkRecordDEntry v (re_parent x) (re_dentry x).
Definition with_re_parent v (x : RecordDEntry) : RecordDEntry :=
  mkRecordDEntry (re_pname x) v (re_dentry x).
Definition with_re_dentry v (x : RecordDEntry) : RecordDEntry :=
  mkRecordDEntry (re_pname x) (re_parent x) v.

Definition with_r_inode v (x : BinlogRecord) : BinlogRecord :=
  mkBinlogRecord v (r_ns x) (r_flags x) (r_modified x) (r_options x) (r_me x) (r_src x)
      (r_overwritten x) (r_hdlink_src x) (r_affected x) (r_stat x) (r_link x) (r_xattr x).
Definition with_r_ns v (x : BinlogRecord) : BinlogRecord :=
  mkBinlogRecord (r_inode x) v (r_flags x) (r_modified x) (r_options x) (r_me x) (r_src x)
      (r_overwritten x) (r_hdlink_src x) (r_affected x) (r_stat x) (r_link x) (r_xattr x).
Definition with_r_flags v (x : BinlogRecord) : BinlogRecord :=
  mkBinlogRecord (r_inode x) (r_ns x) v (r_modified x) (r_options x) (r_me x) (r_src x)
      (r_overwritten x) (r_hdlink_src x) (r_affected x) (r_stat x) (r_link x) (r_xattr x).
Definition with_r_modified v (x : BinlogRecord) : BinlogRecord :=
  mkBinlogRecord (r_inode x) (r_ns x) (r_flags x) v (r_options x) (r_me x) (r_src x)
      (r_overwritten x) (r_hdlink_src x) (r_affected x) (r_stat x) (r_link x) (r_xattr x).
Definition with_r_options v (x : BinlogRecord) : BinlogRecord :=
  mkBinlogRecord (r_inode x) (r_ns x) (r_flags x) (r_modified x) v (r_me x) (r_src x)
      (r_overwritten x) (r_hdlink_src x) (r_affected x) (r_stat x) (r_link x) (r_xattr x).
Definition with_r_me v (x : BinlogRecord) : BinlogRecord :=
  mkBinlogRecord (r_inode x) (r_ns x) (r_flags x) (r_modified x) (r_options x) v (r_src x)
      (r_overwritten x) (r_hdlink_src x) (r_affected x) (r_stat x) (r_link x) (r_xattr x).
Definition with_r_src v (x : BinlogRecord) : BinlogRecord :=
  mkBinlogRecord (r_inode x) (r_ns x) (r_flags x) (r_modified x) (r_options x) (r_me x) v
      (r_overwritten x) (r_hdlink_src x) (r_affected x) (r_stat x) (r_link x) (r_xattr x).
Definition with_r_overwritten v (x : BinlogRecord) : BinlogRecord :=
  mkBinlogRecord (r_inode x) (r_ns x) (r_flags x) (r_modified x) (r_options x) (r_me x)
      (r_src x) v (r_hdlink_src x) (r_affected x) (r_stat x) (r_link x) (r_xattr x).
Definition with_r_hdlink_src v (x : BinlogRecord) : BinlogRecord :=
  mkBinlogRecord (r_inode x) (r_ns x) (r_flags x) (r_modified x) (r_options x) (r_me x)
      (r_src x) (r_overwritten x) v (r_affected x) (r_stat x) (r_link x) (r_xattr x).
Definition with_r_affected v (x : BinlogRecord) : BinlogRecord :=
  mkBinlogRecord (r_inode x) (r_ns x) (r_flags x) (r_modified x) (r_options x) (r_me x)
      (r_src x) (r_overwritten x) (r_hdlink_src x) v (r_stat x) (r_link x) (r_xattr x).
Definition with_r_stat v (x : BinlogRecord) : BinlogRecord :=
  mkBinlogRecord (r_inode x) (r_ns x) (r_flags x) (r_modified x) (r_options x) (r_me x)
      (r_src x) (r_overwritten x) (r_hdlink_src x) (r_affected x) v (r_link x) (r_xattr x).
Definition with_r_link v (x : BinlogRecord) : BinlogRecord :=
  mkBinlogRecord (r_inode x) (r_ns x) (r_flags x) (r_modified x) (r_options x) (r_me x)
      (r_src x) (r_overwritten x) (r_hdlink_src x) (r_affected x) (r_stat x) v (r_xattr x).
Definition with_r_xattr v (x : BinlogRecord) : BinlogRecord :=
  mkBinlogRecord (r_inode x) (r_ns x) (r_flags x) (r_modified x) (r_options x) (r_me x)
      (r_src x) (r_overwritten x) (r_hdlink_src x) (r_affected x) (r_stat x) (r_link x) v.

Section updates.
Context `{UniqSkiplist}.

Definition with_d_inode v (x : ServerDentry) : ServerDentry :=
  mkServerDentry v (d_name x) (d_loaded_flags x) (d_reffer_count x) (d_stat x) (d_link x)
    (d_kv_array x) (d_children x) (d_parent x) (d_ns_entry x) (d_ht_next x).
Definition with_d_name v (x : ServerDentry) : ServerDentry :=
  mkServerDentry (d_inode x) v (d_loaded_flags x) (d_reffer_count x) (d_stat x) (d_link x)
    (d_kv_array x) (d_children x) (d_parent x) (d_ns_entry x) (d_ht_next x).
Definition with_d_loaded_flags v (x : ServerDentry) : ServerDentry :=
  mkServerDentry (d_inode x) (d_name x) v (d_reffer_count x) (d_stat x) (d_link x)
    (d_kv_array x) (d_children x) (d_parent x) (d_ns_entry x) (d_ht_next x).
Definition with_d_reffer_count v (x : ServerDentry) : ServerDentry :=
  mkServerDentry (d_inode x) (d_name x) (d_loaded_flags x) v (d_stat x) (d_link x)
    (d_kv_array x) (d_children x) (d_parent x) (d_ns_entry x) (d_ht_next x).
Definition with_d_stat v (x : ServerDentry) : ServerDentry :=
  mkServerDentry (d_inode x) (d_name x) (d_loaded_flags x) (d_reffer_count x) v (d_link x)
    (d_kv_array x) (d_children x) (d_parent x) (d_ns_entry x) (d_ht_next x).
Definition with_d_link v (x : ServerDentry) : ServerDentry :=
  mkServerDentry (d_inode x) (d_name x) (d_loaded_flags x) (d_reffer_count x) (d_stat x) v
    (d_kv_array x) (d_children x) (d_parent x) (d_ns_entry x) (d_ht_next x).
Definition with_d_kv_array v (x : ServerDentry) : ServerDentry :=
  mkServerDentry (d_inode x) (d_name x) (d_loaded_flags x) (d_reffer_count x) (d_stat x)
    (d_link x) v (d_children x) (d_parent x) (d_ns_entry x) (d_ht_next x).
Definition with_d_children v (x : ServerDentry) : ServerDentry :=
  mkServerDentry (d_inode x) (d_name x) (d_loaded_flags x) (d_reffer_count x) (d_stat x)
    (d_link x) (d_kv_array x) v (d_parent x) (d_ns_entry x) (d_ht_next x).
Definition with_d_parent v (x : ServerDentry) : ServerDentry :=
  mkServerDentry (d_inode x) (d_name x) (d_loaded_flags x) (d_reffer_count x) (d_stat x)
    (d_link x) (d_kv_array x) (d_children x) v (d_ns_entry x) (d_ht_next x).
Definition with_d_ns_entry v (x : ServerDentry) : ServerDentry :=
  mkServerDentry (d_inode x) (d_name x) (d_loaded_flags x) (d_reffer_count x) (d_stat x)
    (d_link x) (d_kv_array x) (d_children x) (d_parent x) v (d_ht_next x).
Definition with_d_ht_next v (x : ServerDentry) : ServerDentry :=
  mkServerDentry (d_inode x) (d_name x) (d_loaded_flags x) (d_reffer_count x) (d_stat x)
    (d_link x) (d_kv_array x) (d_children x) (d_parent x) (d_ns_entry x) v.

Definition with_dentries v (x : Server) : Server :=
  mkServer v (namespaces x) (inode_buckets x) (ns_manager x) (inode_sn x) (counters x)
    (subs x) (record x) (current_time x) (mem_avail x) (free_queue x).
Definition with_namespaces v (x : Server) : Server :=
  mkServer (dentries x) v (inode_buckets x) (ns_manager x) (inode_sn x) (counters x) (subs x)
    (record x) (current_time x) (mem_avail x) (free_queue x).
Definition with_inode_buckets v (x : Server) : Server :=
  mkServer (dentries x) (namespaces x) v (ns_manager x) (inode_sn x) (counters x) (subs x)
    (record x) (current_time x) (mem_avail x) (free_queue x).
Definition with_ns_manager v (x : Server) : Server :=
  mkServer (dentries x) (namespaces x) (inode_buckets x) v (inode_sn x) (counters x) (subs x)
    (record x) (current_time x) (mem_avail x) (free_queue x).
Definition with_inode_sn v (x : Server) : Server :=
  mkServer (dentries x) (namespaces x) (inode_buckets x) (ns_manager x) v (counters x)
    (subs x) (record x) (current_time x) (mem_avail x) (free_queue x).
Definition with_counters v (x : Server) : Server :=
  mkServer (dentries x) (namespaces x) (inode_buckets x) (ns_manager x) (inode_sn x) v
    (subs x) (record x) (current_time x) (mem_avail x) (free_queue x).
Definition with_subs v (x : Server) : Server :=
  mkServer (dentries x) (namespaces x) (inode_buckets x) (ns_manager x) (inode_sn x)
    (counters x) v (record x) (current_time x) (mem_avail x) (free_queue x).
Definition with_record v (x : Server) : Server :=
  mkServer (dentries x) (namespaces x) (inode_buckets x) (ns_manager x) (inode_sn x)
    (counters x) (subs x) v (current_time x) (mem_avail x) (free_queue x).
Definition with_current_time v (x : Server) : Server :=
  mkServer (dentries x) (namespaces x) (inode_buckets x) (ns_manager x) (inode_sn x)
    (counters x) (subs x) (record x) v (mem_avail x) (free_queue x).
Definition with_mem_avail v (x : Server) : Server :=
  mkServer (dentries x) (namespaces x) (inode_buckets x) (ns_manager x) (inode_sn x)
    (counters x) (subs x) (record x) (current_time x) v (free_queue x).
Definition with_free_queue v (x : Server) : Server :=
  mkServer (dentries x) (namespaces x) (inode_buckets x) (ns_manager x) (inode_sn x)
    (counters x) (subs x) (record x) (current_time x) (mem_avail x) v.
End updates.

(** ** Memory access *)

Section access.
Context `{UniqSkiplist}.

(** The dentries of the delayed free queue. *)
Definition freed (s : Server) : list ptr := fn_ptr <$> free_queue s.

Definition load_dentry (p : ptr) : M Server ServerDentry := λ s,
  match dentries s !! p with Some d => Some (d, s) | None => None end.
Definition load_ns (p : ptr) : M Server NamespaceEntry := λ s,
  match namespaces s !! p with Some n => Some (n, s) | None => None end.
Definition update_dentry_at (p : ptr) (f : ServerDentry → ServerDentry) : M Server () := λ s,
  match dentries s !! p with
  | Some d => Some ((), with_dentries (<[p := f d]> (dentries s)) s)
  | None => None
  end.
Definition update_ns_at (p : ptr) (f : NamespaceEntry → NamespaceEntry) : M Server () := λ s,
  match namespaces s !! p with
  | Some n => Some ((), with_namespaces (<[p := f n]> (namespaces s)) s)
  | None => None
  end.
Definition modify_stat (p : ptr) (f : DEntryStat → DEntryStat) : M Server () :=
  update_dentry_at p (λ d, with_d_stat (f (d_stat d)) d).
Definition modify_rec (f : BinlogRecord → BinlogRecord) : M Server () :=
  modify (λ s, with_record (f (record s)) s).
Definition get_rec : M Server BinlogRecord := gets record.

(** One allocation. *)
Definition try_alloc : M Server bool := λ s,
  match mem_avail s with
  | Some O => Some (false, s)
  | a => Some (true, with_mem_avail (pred <$> a) s)
  end.

(** The key of a dentry in its directory's skiplist ([dentry_compare]). *)
Definition name_of (s : Server) (p : ptr) : string :=
  match dentries s !! p with Some d => d_name d | None => EmptyString end.

(** Atomic additions to the counters of a data thread. *)
Definition add_counters (thread : ptr) (ns dir file : Z) : M Server () := λ s,
  let c := default (mkDentryCounters 0 0 0) (counters s !! thread) in
  Some ((), with_counters
    (<[thread := mkDentryCounters (c_ns c + ns) (c_dir c + dir) (c_file c + file)]>
       (counters s)) s).
(** ... and to the counts of a namespace. *)
Definition add_ns_counts (p : ptr) (dir file : Z) : M Server () :=
  update_ns_at p (λ n, with_ns_counts
    (mkNsCounts (count_dir (ns_counts n) + dir) (count_file (ns_counts n) + file)) n).

Lemma load_dentry_run s p d : dentries s !! p = Some d → load_dentry p s = Some (d, s).
Proof. unfold load_dentry. by intros ->. Qed.
Lemma load_ns_run s p n : namespaces s !! p = Some n → load_ns p s = Some (n, s).
Proof. unfold load_ns. by intros ->. Qed.
Lemma update_dentry_run s p d f :
  dentries s !! p = Some d →
  update_dentry_at p f s = Some ((), with_dentries (<[p := f d]> (dentries s)) s).
Proof. unfold update_dentry_at. by intros ->. Qed.
Lemma update_ns_run s p n f :
  namespaces s !! p = Some n →
  update_ns_at p f s = Some ((), with_namespaces (<[p := f n]> (namespaces s)) s).
Proof. unfold update_ns_at. by intros ->. Qed.
Lemma modify_stat_run s p d f :
  dentries s !! p = Some d →
  modify_stat p f s
  = Some ((), with_dentries (<[p := with_d_stat (f (d_stat d)) d]> (dentries s)) s).
Proof. unfold modify_stat, update_dentry_at. by intros ->. Qed.
Lemma get_run (s : Server) : get_st s = Some (s, s).
Proof. done. Qed.
Lemma gets_run {A} (f : Server → A) s : gets f s = Some (f s, s).
Proof. done. Qed.
Lemma get_rec_run s : get_rec s = Some (record s, s).
Proof. done. Qed.
Lemma modify_run f (s : Server) : modify f s = Some ((), f s).
Proof. done. Qed.
Lemma modify_rec_run f s : modify_rec f s = Some ((), with_record (f (record s)) s).
Proof. done. Qed.
Lemma non_null_run (s : Server) {A} (o : option A) x :
  o = Some x → non_null o s = Some (x, s).
Proof. by intros ->. Qed.
Lemma add_ns_counts_run s p n dir file :
  namespaces s !! p = Some n →
  add_ns_counts p dir file s = Some ((), with_namespaces (<[p := with_ns_counts
    (mkNsCounts (count_dir (ns_counts n) + dir) (count_file (ns_counts n) + file)) n]>
    (namespaces s)) s).
Proof. unfold add_ns_counts, update_ns_at. by intros ->. Qed.

Lemma name_of_eq s s' p : dentries s' !! p = dentries s !! p → name_of s' p = name_of s p.
Proof. unfold name_of. by intros ->. Qed.
End access.

(** Runs the first statement of a program over [Server]. *)
Ltac sstep :=
  erewrite bind_run;
  [| first [ apply get_run | apply gets_run | apply get_rec_run | apply modify_rec_run
           | apply modify_run
           | apply load_dentry_run; eassumption | apply load_ns_run; eassumption
           | eapply modify_stat_run; eassumption
           | eapply update_dentry_run; eassumption | eapply update_ns_run; eassumption
           | eapply add_ns_counts_run; eassumption
           | apply non_null_run; first [eassumption | reflexivity] ] ];
  cbn beta.

(** ** The interfaces can be implemented

    A list without order: the laws of [UniqSkiplist] ask for no more. The
    examples of the development run on it. *)

Module ListSkiplist.
Definition find (key : ptr → string) (l : list ptr) (n : string) : option ptr :=
  head (filter (λ p, key p = n) l).
Definition insert (key : ptr → string) (ok : bool) (l : list ptr) (p : ptr) : Z * list ptr :=
  if decide (key p ∈ key <$> l) then (EEXIST, l)
  else if ok then (0, l ++ [p]) else (ENOMEM, l).
Definition delete (key : ptr → string) (l : list ptr) (p : ptr) : option (ptr * list ptr) :=
  match find key l (key p) with
  | Some q => Some (q, filter (λ x, x ≠ q) l)
  | None => None
  end.
Definition replace (key : ptr → string) (l : list ptr) (p : ptr) : option (ptr * list ptr) :=
  match find key l (key p) with
  | Some q => Some (q, (λ x, if decide (x = q) then p else x) <$> l)
  | None => None
  end.

Lemma find_Some key l n p :
  NoDup (key <$> l) → find key l n = Some p ↔ p ∈ l ∧ key p = n.
Proof.
  intros Hnd. unfold find. split.
  - intros E. assert (p ∈ filter (λ p, key p = n) l) as Hp.
    { destruct (filter _ l); simpl in E; [done|]. injection E as ->. set_solver. }
    apply list_elem_of_filter in Hp. tauto.
  - intros [Hp <-]. induction l as [|x l IH]; [by apply elem_of_nil in Hp|].
    apply NoDup_cons in Hnd as [Hx Hnd]. rewrite filter_cons. case_decide as E.
    + simpl. apply elem_of_cons in Hp as [->|Hp]; [done|]. exfalso. apply Hx.
      apply list_elem_of_fmap. by exists p.
    + apply elem_of_cons in Hp as [->|Hp]; [done|]. by apply IH.
Qed.

Lemma find_None key l n : n ∉ key <$> l → find key l n = None.
Proof.
  intros Hn. unfold find. destruct (filter (λ p, key p = n) l) as [|q r] eqn:E; [done|].
  assert (q ∈ filter (λ p, key p = n) l) as Hq by (rewrite E; set_solver).
  apply list_elem_of_filter in Hq as [<- Hq]. exfalso. apply Hn.
  apply list_elem_of_fmap. by exists q.
Qed.

Lemma remove_perm (l : list ptr) q : NoDup l → q ∈ l → l ≡ₚ q :: filter (λ x, x ≠ q) l.
Proof.
  intros Hnd Hq. apply list_elem_of_split in Hq as (l1 & l2 & ->).
  apply NoDup_app in Hnd as (_ & Hd & Hnd). apply NoDup_cons in Hnd as [Hq _].
  rewrite filter_app, filter_cons_False by auto.
  rewrite !list_filter_all; [by rewrite Permutation_middle|..]; intros x Hx ->; [done|].
  apply (Hd q Hx). set_solver.
Qed.

Lemma replace_perm (l : list ptr) p q : NoDup l → q ∈ l →
  (λ x, if decide (x = q) then p else x) <$> l ≡ₚ p :: filter (λ x, x ≠ q) l.
Proof.
  intros Hnd Hq. apply list_elem_of_split in Hq as (l1 & l2 & ->).
  apply NoDup_app in Hnd as (_ & Hd & Hnd). apply NoDup_cons in Hnd as [Hq _].
  assert (∀ l : list ptr, q ∉ l → (λ x, if decide (x = q) then p else x) <$> l = l ∧
            filter (λ x, x ≠ q) l = l) as Hid.
  { induction l as [|y l IH]; intros Hy; [done|].
    apply not_elem_of_cons in Hy as [Hy Hl]. destruct (IH Hl) as [E1 E2]. rewrite fmap_cons.
    rewrite filter_cons_True, E1, E2 by done. by rewrite decide_False. }
  destruct (Hid l1) as [E1 F1]; [intros Hx; apply (Hd q Hx); set_solver|].
  destruct (Hid l2 Hq) as [E2 F2].
  rewrite fmap_app, fmap_cons, filter_app, filter_cons_False by auto.
  rewrite E1, E2, F1, F2, decide_True by done. by rewrite Permutation_middle.
Qed.

#[refine] Definition list_skiplist : UniqSkiplist := {|
  skiplist := list ptr;
  sl_elements := λ l, l;
  uniq_skiplist_new := [];
  uniq_skiplist_find := find;
  uniq_skiplist_insert := insert;
  uniq_skiplist_delete := delete;
  uniq_skiplist_replace := replace;
  uniq_skiplist_empty := λ l, match l with [] => true | _ => false end;
  uniq_skiplist_count := λ l, Z.of_nat (length l)
|}.
Proof.
  - done.
  - apply find_Some.
  - intros key l p _ Hp. exists (l ++ [p]). unfold insert.
    rewrite decide_False by done. split; [done|]. by rewrite Permutation_app_comm.
  - intros key l p _ Hp. unfold insert. by rewrite decide_False.
  - intros key ok l p _ Hp. unfold insert. by rewrite decide_True.
  - intros key l p q Hnd Hq E. exists (filter (λ x, x ≠ q) l). unfold delete.
    rewrite (proj2 (find_Some key l (key p) q Hnd)) by done. split; [done|].
    apply remove_perm; [by eapply NoDup_fmap_1|done].
  - intros key l p _ Hp. unfold delete. by rewrite find_None.
  - intros key l p q Hnd Hq E. eexists _, (filter (λ x, x ≠ q) l). unfold replace.
    rewrite (proj2 (find_Some key l (key p) q Hnd)) by done. split; [reflexivity|].
    split; [apply remove_perm|apply replace_perm]; try done; by eapply NoDup_fmap_1.
  - intros key l p _ Hp. unfold replace. by rewrite find_None.
  - by intros [].
  - done.
Defined.

#[refine] Definition small_config : ServerConfig := {|
  INODE_HASHTABLE_CAPACITY := 4;
  namespace_hashtable_capacity := 4;
  simple_hash := λ n, Z.of_nat (String.length n);
  CLUSTER_ID := 1
|}.
Proof. all: done. Defined.

(** The parts of a path, the empty ones too. *)
Fixpoint pieces (s : string) : string * list string :=
  match s with
  | EmptyString => (EmptyString, [])
  | String c rest =>
    let '(h, t) := pieces rest in
    if decide (c = "/"%char) then (EmptyString, h :: t) else (String c h, t)
  end.

Lemma pieces_part part rest h t :
  no_slash part → pieces rest = (h, t) → pieces (String.append part rest) = (String.append part h, t).
Proof.
  intros Hp Hr. induction part as [|c part IH]; simpl in *; [done|].
  destruct Hp as [Hc Hp]. rewrite IH by done. by rewrite decide_False.
Qed.

Lemma append_nil s : String.append s EmptyString = s.
Proof. induction s as [|c s IH]; [done|]. exact (f_equal (String c) IH). Qed.

Lemma pieces_path parts : Forall no_slash parts → pieces (path_of parts) = (EmptyString, parts).
Proof.
  induction 1 as [|part parts Hp _ IH]; [done|].
  change (path_of (part :: parts)) with (String "/" (String.append part (path_of parts))).
  cbn [pieces]. rewrite (pieces_part _ _ _ _ Hp IH). rewrite decide_True by done.
  by rewrite append_nil.
Qed.

#[refine] Definition slash_split : PathSplit := {|
  split_path := λ s, let '(h, t) := pieces s in
    take FDIR_MAX_PATH_COUNT (filter (λ part, part ≠ EmptyString) (h :: t))
|}.
Proof.
  intros parts Hp Hl. rewrite pieces_path.
  - rewrite filter_cons_False by (intros E; by apply E). rewrite list_filter_all.
    + by apply take_ge.
    + intros part Hin. rewrite Forall_forall in Hp. by apply Hp.
  - eapply Forall_impl; [exact Hp|]. by intros part [_ ?].
Defined.

(** No storage engine. *)
Definition no_storage : @StorageEngine list_skiplist := {|
  STORAGE_ENABLED := false;
  dentry_check_load := λ _ _, mret 0;
  dentry_load_inode := λ _ _, mret (ENOENT, None);
  dentry_load_xattr := λ _ _, mret 0;
  ns_write_binlog_file := λ _, mret 0
|}.

(** An empty server. *)
Definition empty_server : @Server list_skiplist :=
  @mkServer list_skiplist ∅ ∅ ∅ (mkNsManager ∅ [] 0 0) 0 ∅ ns_subscribe_init
    (mkBinlogRecord 0 "" 0 0 no_options (mkRecordDEntry "" None None)
       (mkRecordDEntry "" None None) None None [] zero_stat "" ("", "")) 1000 None [].
End ListSkiplist.
