(* ===== verification/InodeGenerator.v ===== *)
(** * Inode numbers: [server/inode_generator.h], [server/inode_generator.c]

    An inode is the cluster's id in the high bits and a sequence number in the
    low ones; the sequence number is saved to a file every second and restored
    at start, after which [inode_generator_skip] jumps over the numbers that may
    have been handed out since the last save. *)

From S2P Require Import Prelude NsSubscribe ServerTypes.

Definition FDIR_CLUSTER_ID_BITS : Z := 10.
Definition FDIR_CLUSTER_ID_MAX : Z := Z.shiftl 1 FDIR_CLUSTER_ID_BITS - 1.
Definition INODE_SN_MAX_QPS : Z := 1000 * 1000.

(** [INODE_CLUSTER_PART], set by [inode_generator_init]. *)
Definition inode_cluster_part (cluster_id : Z) : Z :=
  int64 (Z.shiftl cluster_id (63 - FDIR_CLUSTER_ID_BITS)).

(** The number [inode_generator_next] gives for a sequence number. *)
Definition inode_of (cluster_id sn : Z) : Z :=
  Z.lor (inode_cluster_part cluster_id) sn.

(** The bits left to the sequence number. *)
Definition sn_limit : Z := 2 ^ (63 - FDIR_CLUSTER_ID_BITS).

Section generator.
Context `{UniqSkiplist} `{ServerConfig}.

Definition inode_generator_next : M Server Z := λ s,
  let sn := int64 (inode_sn s + 1) in
  Some (inode_of CLUSTER_ID sn, with_inode_sn sn s).

Definition inode_generator_skip : M Server () := λ s,
  Some ((), with_inode_sn (int64 (inode_sn s + INODE_SN_MAX_QPS)) s).

(** [inode_generator_init] with the number in the file, if there is one; the
    file's text is read by [strtoll]. *)
Definition inode_generator_init (saved : option Z) : M Server () := λ s,
  Some ((), with_inode_sn (default 0 saved) s).
End generator.

Lemma cluster_part_eq id :
  0 ≤ id ≤ FDIR_CLUSTER_ID_MAX → inode_cluster_part id = id * sn_limit.
Proof.
  intros Hid. unfold inode_cluster_part, sn_limit. rewrite Z.shiftl_mul_pow2 by done.
  apply int64_small. unfold is_int64. change FDIR_CLUSTER_ID_MAX with 1023 in Hid.
  change FDIR_CLUSTER_ID_BITS with 10. lia.
Qed.

Lemma inode_of_eq id sn :
  0 ≤ id ≤ FDIR_CLUSTER_ID_MAX → 0 ≤ sn < sn_limit → inode_of id sn = id * sn_limit + sn.
Proof.
  intros Hid Hsn. unfold inode_of. rewrite cluster_part_eq by done.
  assert (Z.land (id * sn_limit) sn = 0) as Hz.
  { apply Z.bits_inj'. intros n Hn. rewrite Z.land_spec, Z.bits_0. unfold sn_limit in *.
    destruct (Z.lt_ge_cases n (63 - FDIR_CLUSTER_ID_BITS)).
    - by rewrite Z.mul_pow2_bits_low.
    - rewrite <- (Z.mod_small sn (2 ^ (63 - FDIR_CLUSTER_ID_BITS))) by lia.
      rewrite Z.mod_pow2_bits_high, andb_false_r by (split; [done|lia]). done. }
  pose proof (Z.add_lor_land (id * sn_limit) sn). lia.
Qed.

(** [C39] Within the sequence numbers a cluster can use, two inodes are equal
    only if they come from the same cluster and the same sequence number, and
    an inode is positive and fits [int64_t]: 0 means "no inode". *)
Theorem inode_of_inj id1 sn1 id2 sn2 :
  0 ≤ id1 ≤ FDIR_CLUSTER_ID_MAX → 0 ≤ id2 ≤ FDIR_CLUSTER_ID_MAX →
  0 < sn1 < sn_limit → 0 < sn2 < sn_limit →
  (inode_of id1 sn1 = inode_of id2 sn2 → id1 = id2 ∧ sn1 = sn2) ∧
  0 < inode_of id1 sn1 < 2 ^ 63.
Proof.
  intros H1 H2 Hs1 Hs2. rewrite !inode_of_eq by lia.
  assert (sn_limit = 2 ^ 53) as E by reflexivity. change FDIR_CLUSTER_ID_MAX with 1023 in *.
  rewrite E in *. split; lia.
Qed.

Lemma inode_of_inj_witness :
  inode_of 3 7 = 3 * sn_limit + 7 ∧ (inode_of 3 7 = inode_of 3 8 → False).
Proof.
  split; [reflexivity|]. intros E.
  destruct (inode_of_inj 3 7 3 8) as [Hinj _];
    [split; reflexivity || discriminate|split; reflexivity || discriminate
    |split; reflexivity|split; reflexivity|].
  destruct (Hinj E) as [_ E']. discriminate E'.
Defined.

Section generator.
Context `{UniqSkiplist} `{ServerConfig}.

(** The inodes handed out by [n] calls, in order. *)
Fixpoint next_inodes (n : nat) : M Server (list Z) :=
  match n with
  | O => mret []
  | S n' => i ← inode_generator_next; l ← next_inodes n'; mret (i :: l)
  end.

Lemma next_inodes_run n : ∀ s,
  0 ≤ CLUSTER_ID ≤ FDIR_CLUSTER_ID_MAX → 0 ≤ inode_sn s →
  inode_sn s + Z.of_nat n < sn_limit →
  next_inodes n s = Some ((λ k, CLUSTER_ID * sn_limit + k) <$>
    seqZ (inode_sn s + 1) (Z.of_nat n), with_inode_sn (inode_sn s + Z.of_nat n) s).
Proof.
  induction n as [|n IH]; intros s Hid Hs Hn; cbn [next_inodes].
  { rewrite Z.add_0_r. by destruct s. }
  assert (sn_limit = 2 ^ 53) as El by reflexivity.
  assert (int64 (inode_sn s + 1) = inode_sn s + 1) as E
    by (apply int64_small; unfold is_int64; lia).
  unfold inode_generator_next. erewrite bind_run by reflexivity. cbn beta. rewrite E.
  rewrite (seqZ_cons _ (Z.of_nat (S n))) by lia. rewrite fmap_cons, <- inode_of_eq by lia.
  replace (Z.pred (Z.of_nat (S n))) with (Z.of_nat n) by lia.
  replace (Z.succ (inode_sn s + 1)) with (inode_sn s + 1 + 1) by lia.
  erewrite bind_run by (apply IH; cbn [inode_sn with_inode_sn]; [done|lia|lia]). cbn beta.
  unfold mret, M_ret. do 2 f_equal. unfold with_inode_sn. cbn [inode_sn]. f_equal. lia.
Qed.

(** The skip is enough for a server whose number is at most [INODE_SN_MAX_QPS] behind
    that of the server it follows; [Takeover] says when that holds. *)
Theorem skip_fresh s0 n s1 m :
  0 ≤ CLUSTER_ID ≤ FDIR_CLUSTER_ID_MAX → 0 ≤ inode_sn s0 → 0 ≤ inode_sn s1 →
  inode_sn s0 + Z.of_nat n ≤ inode_sn s1 + INODE_SN_MAX_QPS →
  inode_sn s1 + INODE_SN_MAX_QPS + Z.of_nat m < sn_limit →
  ∃ before s0' after s1', next_inodes n s0 = Some (before, s0') ∧
    (inode_generator_skip;; next_inodes m) s1 = Some (after, s1') ∧
    NoDup (before ++ after) ∧ length before = n ∧ length after = m.
Proof using Type.
  intros Hid H0' H1' Hle Hlim.
  assert (sn_limit = 2 ^ 53) as El by reflexivity.
  assert (INODE_SN_MAX_QPS = 1000000) as Eq by reflexivity.
  assert (int64 (inode_sn s1 + INODE_SN_MAX_QPS) = inode_sn s1 + INODE_SN_MAX_QPS) as E
    by (apply int64_small; unfold is_int64; lia).
  unfold inode_generator_skip. erewrite (bind_run _ _ s1) by reflexivity. cbn beta. rewrite E.
  eexists _, _, _, _. split; [apply next_inodes_run; lia|].
  split; [apply next_inodes_run; cbn [inode_sn with_inode_sn]; lia|].
  cbn [inode_sn with_inode_sn]. split_and!.
  - rewrite <- fmap_app. apply NoDup_fmap_2; [intros x y; lia|].
    apply NoDup_app. split_and!; [apply NoDup_seqZ| |apply NoDup_seqZ].
    intros x Hx Hy. apply elem_of_seqZ in Hx, Hy. lia.
  - rewrite length_fmap, length_seqZ. lia.
  - rewrite length_fmap, length_seqZ. lia.
Qed.
End generator.
