(* ===== verification/NsManager.v ===== *)
(** * Namespaces: [server/ns_manager.c], [server/ns_manager.h]

    A namespace is a tree with its own root. The manager finds it by name in a
    hash table (chains through [ns_next]) and by id in an array that is sorted
    because ids only grow; a namespace is created when the first dentry is
    created in it and is never removed.

    The theorems show that the table and the array stay the same set of
    namespaces, that lookups by name and by id find exactly what is there, and
    what creation does on every branch. *)

From S2P Require Import Prelude NsSubscribe ServerTypes.

Section ns_manager.
Context `{UniqSkiplist} `{ServerConfig} `{!StorageEngine}.

(** ** Operations *)

Definition ns_bucket_of (name : string) : Z :=
  simple_hash name `mod` namespace_hashtable_capacity.

Definition update_ns_manager (f : NsManager → NsManager) : M Server () :=
  modify (λ s, with_ns_manager (f (ns_manager s)) s).

(** Walks the bucket's chain. *)
Fixpoint ns_walk (fuel : nat) (entry : option ptr) (name : string) : M Server (option ptr) :=
  match entry with
  | None => mret None
  | Some p =>
    match fuel with
    | O => stuck
    | S fuel' =>
      n ← load_ns p;
      if decide (name = ns_name n) then mret (Some p)
      else ns_walk fuel' (ns_next n) name
    end
  end.

Definition ns_search (name : string) : M Server (option ptr) :=
  s ← get_st;
  ns_walk (size (namespaces s)) (nm_buckets (ns_manager s) !! ns_bucket_of name) name.

Definition realloc_namespace_array : M Server Z :=
  s ← get_st;
  let a := nm_array_alloc (ns_manager s) in
  ok ← try_alloc;
  if (ok : bool) then
    update_ns_manager (λ m, mkNsManager (nm_buckets m) (nm_array m)
                              (if a =? 0 then 128 else a * 2) (nm_current_id m));;
    mret 0
  else mret ENOMEM.

(** The new entry and the error number. *)
Definition create_namespace (thread_ctx : ptr) (bucket id : Z) (name : string)
    (hash_code : Z) : M Server (option ptr * Z) :=
  s ← get_st;
  rc ← (if Z.of_nat (length (nm_array (ns_manager s))) =? nm_array_alloc (ns_manager s)
        then realloc_namespace_array else mret 0);
  if negb (rc =? 0) then mret (None, rc)
  else
    ok ← try_alloc;
    if negb ok then mret (None, ENOMEM)
    else
      ok ← try_alloc;  (* dentry_strdup of the name *)
      if negb ok then mret (None, ENOMEM)
      else
        s ← get_st;
        let p := fresh_ptr (namespaces s) in
        modify (λ s, with_namespaces
          (<[p := mkNamespaceEntry id hash_code name None (mkNsCounts 0 0) 0 thread_ctx
                    (nm_buckets (ns_manager s) !! bucket)]> (namespaces s)) s);;
        update_ns_manager (λ m, mkNsManager (<[bucket := p]> (nm_buckets m))
          (nm_array m ++ [p]) (nm_array_alloc m) (nm_current_id m));;
        add_counters thread_ctx 1 0 0;;
        mret (Some p, 0).

Definition write_binlog (entry : ptr) : M Server Z :=
  if negb STORAGE_ENABLED then mret 0 else ns_write_binlog_file entry.

(** The namespace (NULL on an error) and the error number. The second search is
    under the manager's lock. *)
Definition fdir_namespace_get (thread_ctx : option ptr) (ns : string) (create_ns : bool) :
    M Server (option ptr * Z) :=
  entry ← ns_search ns;
  match entry with
  | Some p => mret (Some p, 0)
  | None =>
    if negb create_ns then mret (None, ENOENT)
    else
      entry ← ns_search ns;
      match entry with
      | Some p => mret (Some p, 0)
      | None =>
        update_ns_manager (λ m, mkNsManager (nm_buckets m) (nm_array m)
                                  (nm_array_alloc m) (int32 (nm_current_id m + 1)));;
        s ← get_st;
        t ← non_null thread_ctx;
        '(entry, err) ← create_namespace t (ns_bucket_of ns)
          (nm_current_id (ns_manager s)) ns (simple_hash ns);
        match entry with
        | None => mret (None, err)
        | Some p =>
          err ← write_binlog p;
          mret (if err =? 0 then (Some p, 0) else (None, err))
        end
      end
  end.

Definition namespace_compare_by_id (id1 id2 : Z) : Z := int32 (id1 - id2).

(** [bsearch] over the ids of the array. *)
Fixpoint bsearch (fuel : nat) (l u : nat) (id : Z) : M Server (option ptr) :=
  if decide (u ≤ l)%nat then mret None
  else
    match fuel with
    | O => stuck
    | S fuel' =>
      let idx := Nat.div2 (l + u) in
      s ← get_st;
      p ← non_null (nm_array (ns_manager s) !! idx);
      n ← load_ns p;
      let cmp := namespace_compare_by_id id (ns_id n) in
      if cmp <? 0 then bsearch fuel' l idx id
      else if 0 <? cmp then bsearch fuel' (S idx) u id
      else mret (Some p)
    end.

Definition fdir_namespace_get_by_id (id : Z) : M Server (option ptr) :=
  s ← get_st;
  let count := length (nm_array (ns_manager s)) in
  let search := bsearch count 0 count id in
  if (1 <=? id) && (id <=? Z.of_nat count) then
    p ← non_null (nm_array (ns_manager s) !! Z.to_nat (id - 1));
    n ← load_ns p;
    if ns_id n =? id then mret (Some p) else search
  else search.

Definition fdir_namespace_inc_alloc_bytes (p : ptr) (inc_alloc : Z) : M Server () :=
  update_ns_at p (λ n, with_ns_used_bytes (int64 (ns_used_bytes n + inc_alloc)) n);;
  modify (λ s, with_subs (ns_subscribe_notify_all p (subs s)) s).

(** The inodes in use and the used bytes. *)
Definition fdir_namespace_stat (ns : string) : M Server (Z * (Z * Z)) :=
  '(entry, _) ← fdir_namespace_get None ns false;
  match entry with
  | None => mret (ENOENT, (0, 0))
  | Some p =>
    n ← load_ns p;
    mret (0, (int64 (count_dir (ns_counts n) + count_file (ns_counts n)), ns_used_bytes n))
  end.
End ns_manager.

(** ** Invariant *)

Section invariant.
Context `{UniqSkiplist} `{ServerConfig} `{!StorageEngine}.

Definition id_lt (s : Server) (p q : ptr) : Prop :=
  ∀ n m, namespaces s !! p = Some n → namespaces s !! q = Some m → ns_id n < ns_id m.

(** The chain of bucket [b]. *)
Definition ns_bucket_ok (s : Server) (b : Z) : Prop :=
  ∃ l, chain ns_next (namespaces s) (nm_buckets (ns_manager s) !! b) l ∧
    ∀ p n, namespaces s !! p = Some n → p ∈ l ↔ ns_bucket_of (ns_name n) = b.

Record ns_ok (s : Server) : Prop := {
  nk_buckets : ∀ b, ns_bucket_ok s b;
  nk_names : ∀ p q n m, namespaces s !! p = Some n → namespaces s !! q = Some m →
    ns_name n = ns_name m → p = q;
  nk_array : ∀ p, p ∈ nm_array (ns_manager s) ↔ is_Some (namespaces s !! p);
  nk_NoDup : NoDup (nm_array (ns_manager s));
  nk_sorted : StronglySorted (id_lt s) (nm_array (ns_manager s));
  nk_ids : ∀ p n, namespaces s !! p = Some n → 0 < ns_id n ≤ nm_current_id (ns_manager s);
  nk_current : 0 ≤ nm_current_id (ns_manager s) < 2 ^ 31
}.

(** ** Lookups *)

Lemma ns_walk_run s name l : ∀ fuel p,
  chain ns_next (namespaces s) p l → (length l ≤ fuel)%nat →
  ∃ r, ns_walk fuel p name s = Some (r, s) ∧
    match r with
    | Some q => q ∈ l ∧ ∃ n, namespaces s !! q = Some n ∧ ns_name n = name
    | None => ∀ q n, q ∈ l → namespaces s !! q = Some n → ns_name n ≠ name
    end.
Proof.
  induction l as [|x l IH]; intros fuel p Hc Hf.
  { simpl in Hc. subst p. exists None. split; [by destruct fuel|]. set_solver. }
  destruct Hc as (-> & n & Hn & Hc). destruct fuel as [|fuel]; [simpl in Hf; lia|].
  cbn [ns_walk]. sstep. case_decide as E.
  { exists (Some x). split; [done|]. split; [set_solver|]. by exists n. }
  destruct (IH fuel (ns_next n) Hc) as (r & Hrun & Hr); [simpl in Hf; lia|].
  exists r. split; [done|]. destruct r as [q|].
  - destruct Hr as [? ?]. split; [set_solver|done].
  - intros q m [->|Hq]%elem_of_cons Hm; [simplify_eq; congruence|eauto].
Qed.

Lemma ns_search_run s name :
  ns_ok s →
  ∃ r, ns_search name s = Some (r, s) ∧
    match r with
    | Some q => ∃ n, namespaces s !! q = Some n ∧ ns_name n = name
    | None => ∀ q n, namespaces s !! q = Some n → ns_name n ≠ name
    end.
Proof.
  intros Hok. unfold ns_search. sstep.
  destruct (nk_buckets s Hok (ns_bucket_of name)) as (l & Hc & Hl).
  destruct (ns_walk_run s name l (size (namespaces s)) _ Hc) as (r & Hrun & Hr).
  { by apply (chain_length ns_next _ _ _ Hc). }
  exists r. split; [done|]. destruct r as [q|]; [by destruct Hr|].
  intros q n Hq E. apply (Hr q n); [|done|done]. apply (Hl q n Hq). by rewrite E.
Qed.

(** ** Creation *)

(** The namespaces after [p] was created for [name]. *)
Definition created (s : Server) (p : ptr) (name : string) (thread : ptr) (s' : Server) : Prop :=
  namespaces s !! p = None ∧
  namespaces s' = <[p := mkNamespaceEntry (nm_current_id (ns_manager s) + 1)
    (simple_hash name) name None (mkNsCounts 0 0) 0 thread
    (nm_buckets (ns_manager s) !! ns_bucket_of name)]> (namespaces s) ∧
  nm_buckets (ns_manager s') = <[ns_bucket_of name := p]> (nm_buckets (ns_manager s)) ∧
  nm_array (ns_manager s') = nm_array (ns_manager s) ++ [p] ∧
  nm_current_id (ns_manager s') = nm_current_id (ns_manager s) + 1.

Lemma created_bucket s p name thread s' b :
  ns_ok s → created s p name thread s' →
  (∀ q n, namespaces s !! q = Some n → ns_name n ≠ name) → ns_bucket_ok s' b.
Proof.
  intros Hok (Hp & Ens & Eb & _) Hfresh.
  destruct (nk_buckets s Hok b) as (l & Hc & Hl).
  assert (p ∉ l) as Hpl.
  { intros Hin. destruct (chain_in_dom _ _ _ _ _ Hc Hin) as [n Hn]. congruence. }
  destruct (decide (b = ns_bucket_of name)) as [->|Hne].
  - exists (p :: l). rewrite Eb, lookup_insert_eq. split.
    + simpl. split; [done|]. rewrite Ens, lookup_insert_eq. eexists. split; [done|]. simpl.
      by apply chain_insert_ne.
    + intros q n Hq. rewrite Ens in Hq. rewrite elem_of_cons.
      destruct (decide (p = q)) as [<-|Hpq].
      * rewrite lookup_insert_eq in Hq. injection Hq as <-. simpl. tauto.
      * rewrite lookup_insert_ne in Hq by done. rewrite (Hl q n Hq). intuition congruence.
  - exists l. rewrite Eb, lookup_insert_ne by done. split.
    + rewrite Ens. by apply chain_insert_ne.
    + intros q n Hq. rewrite Ens in Hq. destruct (decide (p = q)) as [<-|Hpq].
      * rewrite lookup_insert_eq in Hq. injection Hq as <-. simpl. split; [done|congruence].
      * rewrite lookup_insert_ne in Hq by done. by apply Hl.
Qed.

Lemma created_ok s p name thread s' :
  ns_ok s → created s p name thread s' → nm_current_id (ns_manager s) + 1 < 2 ^ 31 →
  (∀ q n, namespaces s !! q = Some n → ns_name n ≠ name) → ns_ok s'.
Proof.
  intros Hok Hcr Hlim Hfresh. pose proof Hcr as (Hp & Ens & _ & Ea & Eid).
  assert (p ∉ nm_array (ns_manager s)) as Hpa.
  { rewrite (nk_array s Hok), Hp. by intros [? [=]]. }
  split.
  - intros b. by eapply created_bucket.
  - intros q r n m Hq Hr E. rewrite Ens in Hq, Hr.
    apply lookup_insert_Some in Hq as [[<- <-]|[? Hq]];
      apply lookup_insert_Some in Hr as [[<- <-]|[? Hr]]; simpl in *.
    + done.
    + by destruct (Hfresh r m Hr).
    + by destruct (Hfresh q n Hq).
    + by apply (nk_names s Hok q r n m).
  - intros q. rewrite Ea, Ens, elem_of_app, list_elem_of_singleton, (nk_array s Hok).
    destruct (decide (p = q)) as [<-|Hne].
    + rewrite lookup_insert_eq. split; eauto.
    + rewrite lookup_insert_ne by done. naive_solver.
  - rewrite Ea. apply NoDup_app. split_and!; [by apply nk_NoDup| |apply NoDup_singleton].
    intros q Hq ->%list_elem_of_singleton. done.
  - rewrite Ea. apply StronglySorted_app_2.
    + intros q r Hq ->%list_elem_of_singleton n m Hn Hm. rewrite Ens in Hn, Hm.
      rewrite lookup_insert_eq in Hm. injection Hm as <-. simpl.
      rewrite lookup_insert_ne in Hn by (intros ->; done).
      pose proof (nk_ids s Hok q n Hn). lia.
    + eapply StronglySorted_impl_in; [|by apply nk_sorted].
      intros q r Hq Hr Hlt n m. rewrite Ens, !lookup_insert_ne by (intros ->; done). apply Hlt.
    + repeat constructor.
  - intros q n Hq. rewrite Ens in Hq. rewrite Eid.
    pose proof (nk_current s Hok).
    apply lookup_insert_Some in Hq as [[<- <-]|[? Hq]]; simpl; [lia|].
    pose proof (nk_ids s Hok q n Hq). lia.
  - rewrite Eid. pose proof (nk_current s Hok). lia.
Qed.

(** The namespaces and the table are the same; ids may have been used up. *)
Definition same_ns (s s' : Server) : Prop :=
  namespaces s' = namespaces s ∧
  nm_buckets (ns_manager s') = nm_buckets (ns_manager s) ∧
  nm_array (ns_manager s') = nm_array (ns_manager s) ∧
  nm_current_id (ns_manager s) ≤ nm_current_id (ns_manager s') < 2 ^ 31.

Lemma same_ns_ok s s' : same_ns s s' → ns_ok s → ns_ok s'.
Proof.
  intros (E1 & E2 & E3 & E4) [K1 K2 K3 K4 K5 K6 K7].
  split; rewrite ?E1, ?E2, ?E3; try done.
  - intros b. destruct (K1 b) as (l & ? & ?). exists l. by rewrite E1, E2.
  - eapply StronglySorted_impl', K5. intros p q Hlt n m. rewrite E1. apply Hlt.
  - intros p n Hp. specialize (K6 p n Hp). lia.
  - lia.
Qed.

Lemma try_alloc_run s :
  ∃ b, try_alloc s = Some (b : bool, with_mem_avail (if b then pred <$> mem_avail s
                                                     else mem_avail s) s).
Proof.
  unfold try_alloc. destruct (mem_avail s) as [[|n]|] eqn:E.
  - exists false. rewrite <- E. by destruct s.
  - exists true. done.
  - exists true. done.
Qed.

Lemma grow_array_run s :
  ∃ rc s1, (if Z.of_nat (length (nm_array (ns_manager s))) =?
        nm_array_alloc (ns_manager s) then realloc_namespace_array else mret 0) s
      = Some (rc, s1) ∧ (rc = 0 ∨ rc = ENOMEM) ∧ namespaces s1 = namespaces s ∧
      nm_buckets (ns_manager s1) = nm_buckets (ns_manager s) ∧
      nm_array (ns_manager s1) = nm_array (ns_manager s) ∧
      nm_current_id (ns_manager s1) = nm_current_id (ns_manager s).
Proof.
  destruct (_ =? _); [|exists 0, s; split; [reflexivity|]; auto].
  unfold realloc_namespace_array. sstep. destruct (try_alloc_run s) as [b Hb]. run_with Hb.
  destruct b.
  - eexists 0, _. split; [reflexivity|]. auto.
  - eexists ENOMEM, _. split; [reflexivity|]. auto.
Qed.

Lemma create_namespace_run s thread name :
  ∃ r err s', create_namespace thread (ns_bucket_of name) (nm_current_id (ns_manager s)) name
      (simple_hash name) s = Some ((r, err), s') ∧
    match r with
    | Some p => err = 0 ∧ p = fresh_ptr (namespaces s) ∧
        namespaces s' = <[p := mkNamespaceEntry (nm_current_id (ns_manager s))
          (simple_hash name) name None (mkNsCounts 0 0) 0 thread
          (nm_buckets (ns_manager s) !! ns_bucket_of name)]> (namespaces s) ∧
        nm_buckets (ns_manager s') = <[ns_bucket_of name := p]> (nm_buckets (ns_manager s)) ∧
        nm_array (ns_manager s') = nm_array (ns_manager s) ++ [p] ∧
        nm_current_id (ns_manager s') = nm_current_id (ns_manager s)
    | None => err = ENOMEM ∧ namespaces s' = namespaces s ∧
        nm_buckets (ns_manager s') = nm_buckets (ns_manager s) ∧
        nm_array (ns_manager s') = nm_array (ns_manager s) ∧
        nm_current_id (ns_manager s') = nm_current_id (ns_manager s)
    end.
Proof.
  unfold create_namespace. sstep.
  destruct (grow_array_run s) as (rc & s1 & Hrun & Hrc & E1 & E2 & E3 & E4).
  run_with Hrun. destruct Hrc as [->| ->]; [|exists None, ENOMEM, s1; split; [reflexivity|]; by split_and!].
  cbn [Z.eqb negb]. destruct (try_alloc_run s1) as [b Hb]. run_with Hb.
  destruct b; [|eexists None, ENOMEM, _; split; [reflexivity|]; by split_and!].
  cbn [negb]. set (s2 := with_mem_avail _ s1).
  destruct (try_alloc_run s2) as [b Hb2]. run_with Hb2.
  destruct b; [|eexists None, ENOMEM, _; split; [reflexivity|]; by split_and!].
  cbn [negb]. sstep. eexists (Some (fresh_ptr (namespaces s))), 0, _.
  split; [unfold s2; simpl; rewrite E1; reflexivity|].
  simpl. rewrite E1, E2, E3, E4. by split_and!.
Qed.

(** Getting a namespace by name always returns. It gives the one namespace
    of that name if there is one; otherwise, when asked to create it, a new
    one with a fresh id at the end of the array, or ENOMEM; and ENOENT when
    it must not create. Nothing else changes and the manager stays
    consistent. *)
Theorem fdir_namespace_get_spec s thread name create :
  STORAGE_ENABLED = false → ns_ok s → nm_current_id (ns_manager s) + 1 < 2 ^ 31 →
  ∃ r err s', fdir_namespace_get (Some thread) name create s = Some ((r, err), s') ∧
    ns_ok s' ∧
    match r with
    | Some p => err = 0 ∧ (∃ n, namespaces s' !! p = Some n ∧ ns_name n = name) ∧
        (s' = s ∨ create = true ∧ created s p name thread s' ∧
           ∀ q n, namespaces s !! q = Some n → ns_name n ≠ name)
    | None => same_ns s s' ∧ (∀ q n, namespaces s !! q = Some n → ns_name n ≠ name) ∧
        err = (if create then ENOMEM else ENOENT)
    end.
Proof.
  intros Hst Hok Hlim. unfold fdir_namespace_get.
  destruct (ns_search_run s name Hok) as (r & Hrun & Hr). run_with Hrun.
  destruct r as [p|].
  { exists (Some p), 0, s. split; [done|]. split; [done|]. split; [done|]. split; [done|].
    by left. }
  pose proof (nk_current s Hok) as Hcur.
  destruct create; cbn [negb].
  2: { exists None, ENOENT, s. split; [done|]. split; [done|].
       split; [unfold same_ns; split_and!; try done; lia|]. by split. }
  run_with Hrun. unfold update_ns_manager. sstep. sstep. sstep.
  assert (int32 (nm_current_id (ns_manager s) + 1) = nm_current_id (ns_manager s) + 1) as Eid
    by (apply int32_small; unfold is_int32; lia).
  rewrite Eid. set (s1 := with_ns_manager _ s).
  destruct (create_namespace_run s1 thread name) as (r & err & s2 & Hrun2 & Hr2).
  run_with Hrun2. cbn beta iota. destruct r as [p|].
  - destruct Hr2 as (-> & Ep & E1 & E2 & E3 & E4). unfold write_binlog. rewrite Hst.
    cbn [negb]. erewrite bind_run by reflexivity. cbn beta.
    exists (Some p), 0, s2. split; [reflexivity|].
    assert (created s p name thread s2) as Hcr.
    { split_and!; [rewrite Ep; apply fresh_ptr_fresh|exact E1|exact E2|exact E3|exact E4]. }
    split; [by apply (created_ok s p name thread s2)|]. split; [done|].
    split; [|by right].
    eexists. rewrite E1, lookup_insert_eq. by split.
  - destruct Hr2 as (-> & E1 & E2 & E3 & E4). exists None, ENOMEM, s2.
    assert (same_ns s s2) as Hs by (unfold same_ns; split_and!; try done; rewrite E4; simpl; lia).
    split; [reflexivity|]. split; [by apply (same_ns_ok s s2)|]. by split_and!.
Qed.

(** ** Lookup by id *)

Lemma array_ns s i p : ns_ok s → nm_array (ns_manager s) !! i = Some p →
  ∃ n, namespaces s !! p = Some n.
Proof. intros Hok Hi. apply (nk_array s Hok). by eapply list_elem_of_lookup_2. Qed.

(** Every index that has the id is between [l] and [u]. *)
Definition id_between (s : Server) (id : Z) (l u : nat) : Prop :=
  ∀ i p n, nm_array (ns_manager s) !! i = Some p → namespaces s !! p = Some n →
    ns_id n = id → (l ≤ i < u)%nat.

Lemma bsearch_run s id : ns_ok s → 0 ≤ id < 2 ^ 31 →
  ∀ fuel l u, (u - l ≤ fuel)%nat → (u ≤ length (nm_array (ns_manager s)))%nat →
  id_between s id l u →
  ∃ r, bsearch fuel l u id s = Some (r, s) ∧
    match r with
    | Some p => ∃ n, namespaces s !! p = Some n ∧ ns_id n = id
    | None => ∀ p n, namespaces s !! p = Some n → ns_id n ≠ id
    end.
Proof.
  intros Hok Hid. pose proof (nk_current s Hok) as Hcur.
  induction fuel as [|fuel IH]; intros l u Hf Hu Hb; cbn [bsearch].
  all: destruct (decide (u ≤ l)%nat) as [Hul|Hul].
  1, 3: exists None; split; [done|]; intros p n Hp E;
    assert (p ∈ nm_array (ns_manager s)) as Hin by (apply (nk_array s Hok); by eexists);
    apply list_elem_of_lookup in Hin as [i Hi]; specialize (Hb i p n Hi Hp E); lia.
  { lia. }
  pose proof (Nat.div2_odd (l + u)) as Hdiv.
  assert (l ≤ Nat.div2 (l + u) < u)%nat as Hidx
    by (destruct (Nat.odd (l + u)); simpl in Hdiv; lia).
  set (idx := Nat.div2 (l + u)) in *.
  destruct (lookup_lt_is_Some_2 (nm_array (ns_manager s)) idx) as [p Hp]; [lia|].
  destruct (array_ns s idx p Hok Hp) as [n Hn].
  pose proof (nk_ids s Hok p n Hn) as Hnid.
  sstep. sstep. sstep.
  assert (namespace_compare_by_id id (ns_id n) = id - ns_id n) as ->
    by (apply int32_small; unfold is_int32; lia).
  destruct (Z.ltb_spec (id - ns_id n) 0) as [Hlt|Hge].
  - apply IH; [lia|lia|]. intros i q m Hi Hq E. split; [by destruct (Hb i q m Hi Hq E)|].
    destruct (le_lt_dec idx i) as [Hle|]; [exfalso|done].
    destruct (decide (i = idx)) as [->|Hne]; [simplify_eq; lia|].
    pose proof (StronglySorted_at _ _ idx i p q (nk_sorted s Hok) Hp Hi ltac:(lia) n m Hn Hq).
    lia.
  - destruct (Z.ltb_spec 0 (id - ns_id n)) as [Hgt|Heq].
    + apply IH; [lia|lia|]. intros i q m Hi Hq E. split; [|by destruct (Hb i q m Hi Hq E)].
      destruct (le_lt_dec (S idx) i) as [|Hle]; [done|exfalso].
      destruct (decide (i = idx)) as [->|Hne]; [simplify_eq; lia|].
      pose proof (StronglySorted_at _ _ i idx q p (nk_sorted s Hok) Hi Hp ltac:(lia) m n Hq Hn).
      lia.
    + exists (Some p). split; [done|]. exists n. split; [done|lia].
Qed.

(** The lookup by id, which tries the slot of the id and then a binary
    search, finds the namespace of that id when there is one and NULL
    otherwise, also when ids were skipped by failed creations. *)
Theorem fdir_namespace_get_by_id_spec s id :
  ns_ok s → 0 ≤ id < 2 ^ 31 →
  ∃ r, fdir_namespace_get_by_id id s = Some (r, s) ∧
    ∀ p, r = Some p ↔ ∃ n, namespaces s !! p = Some n ∧ ns_id n = id.
Proof.
  intros Hok Hid. unfold fdir_namespace_get_by_id. sstep.
  set (l := length (nm_array (ns_manager s))).
  assert (∀ p q n m, namespaces s !! p = Some n → namespaces s !! q = Some m →
    ns_id n = ns_id m → p = q) as Hinj.
  { intros p q n m Hp Hq E.
    assert (p ∈ nm_array (ns_manager s)) as Hip by (apply (nk_array s Hok); by eexists).
    assert (q ∈ nm_array (ns_manager s)) as Hiq by (apply (nk_array s Hok); by eexists).
    apply list_elem_of_lookup in Hip as [i Hi], Hiq as [j Hj].
    destruct (lt_eq_lt_dec i j) as [[Hlt|<-]|Hlt]; [|by simplify_eq|].
    - pose proof (StronglySorted_at _ _ i j p q (nk_sorted s Hok) Hi Hj Hlt n m Hp Hq). lia.
    - pose proof (StronglySorted_at _ _ j i q p (nk_sorted s Hok) Hj Hi Hlt m n Hq Hp). lia. }
  destruct (bsearch_run s id Hok Hid l 0 l) as (r & Hrun & Hr); [lia|done| |].
  { intros i p n Hi _ _. apply lookup_lt_Some in Hi. unfold l. lia. }
  assert (∀ p, r = Some p ↔ ∃ n, namespaces s !! p = Some n ∧ ns_id n = id) as Hspec.
  { intros p. split.
    - intros ->. done.
    - intros (n & Hn & E). destruct r as [q|]; [|by destruct (Hr p n)].
      destruct Hr as (m & Hm & Em). f_equal. eapply Hinj; eauto. congruence. }
  destruct ((1 <=? id) && (id <=? Z.of_nat l)) eqn:Eb; [|by exists r].
  apply andb_true_iff in Eb as [E1%Z.leb_le E2%Z.leb_le].
  destruct (lookup_lt_is_Some_2 (nm_array (ns_manager s)) (Z.to_nat (id - 1))) as [p Hp];
    [unfold l in *; lia|].
  destruct (array_ns s _ p Hok Hp) as [n Hn]. sstep. sstep.
  destruct (Z.eqb_spec (ns_id n) id) as [E|E]; [|by exists r].
  exists (Some p). split; [done|]. intros q. split; [intros [= <-]; by exists n|].
  intros (m & Hm & Em). f_equal. eapply Hinj; eauto. congruence.
Qed.
End invariant.

(** ** Adding to a namespace's counters *)

Section counters.
Context `{UniqSkiplist} `{ServerConfig} `{!StorageEngine}.

Lemma inc_alloc_bytes_run s p n inc :
  namespaces s !! p = Some n →
  fdir_namespace_inc_alloc_bytes p inc s = Some ((),
    with_subs (ns_subscribe_notify_all p (subs s))
      (with_namespaces (<[p := with_ns_used_bytes (int64 (ns_used_bytes n + inc)) n]>
                          (namespaces s)) s)).
Proof. intros Hp. unfold fdir_namespace_inc_alloc_bytes. sstep. done. Qed.
End counters.

(** ** The theorems at a concrete server *)

Section witness.
Import ListSkiplist.
Existing Instance list_skiplist.
Existing Instance small_config.
Existing Instance no_storage.

(** Namespaces "fs" (id 1) and "nas" (id 3: the creation of number 2 failed). *)
Definition two_namespaces : Server :=
  with_namespaces
    (<[1%positive := mkNamespaceEntry 1 2 "fs" None (mkNsCounts 0 0) 0 1%positive None]>
      (<[2%positive := mkNamespaceEntry 3 3 "nas" None (mkNsCounts 0 0) 0 1%positive None]> ∅))
    (with_ns_manager (mkNsManager (<[2 := 1%positive]> (<[3 := 2%positive]> ∅))
       [1%positive; 2%positive] 128 3) empty_server).

Lemma two_namespaces_at p n :
  namespaces two_namespaces !! p = Some n →
  p = 1%positive ∧ n = mkNamespaceEntry 1 2 "fs" None (mkNsCounts 0 0) 0 1%positive None ∨
  p = 2%positive ∧ n = mkNamespaceEntry 3 3 "nas" None (mkNsCounts 0 0) 0 1%positive None.
Proof.
  simpl. intros Hp. apply lookup_insert_Some in Hp as [[<- <-]|[_ Hp]]; [by left|].
  apply lookup_insert_Some in Hp as [[<- <-]|[_ Hp]]; [by right|].
  by rewrite lookup_empty in Hp.
Qed.

Lemma two_namespaces_ok : ns_ok two_namespaces.
Proof.
  split.
  - intros b. destruct (decide (b = 2)) as [->|H2]; [|destruct (decide (b = 3)) as [->|H3]].
    + exists [1%positive]. split; [simpl; split; [done|]; by eexists|].
      intros p n [[-> ->]|[-> ->]]%two_namespaces_at; set_solver.
    + exists [2%positive]. split; [simpl; split; [done|]; by eexists|].
      intros p n [[-> ->]|[-> ->]]%two_namespaces_at; set_solver.
    + exists []. split; [simpl; by rewrite !lookup_insert_ne by done|].
      intros p n [[-> ->]|[-> ->]]%two_namespaces_at; rewrite elem_of_nil;
        (split; [done|]); intros E; vm_compute in E; congruence.
  - intros p q n m [[-> ->]|[-> ->]]%two_namespaces_at [[-> ->]|[-> ->]]%two_namespaces_at;
      done.
  - intros p. split.
    + intros Hp. repeat (apply elem_of_cons in Hp as [->|Hp]); [by eexists..|set_solver].
    + intros [n [[-> _]|[-> _]]%two_namespaces_at]; set_solver.
  - apply (bool_decide_unpack _). by vm_compute.
  - repeat constructor. intros n m [[? ->]|[? ->]]%two_namespaces_at
      [[? ->]|[? ->]]%two_namespaces_at; done.
  - intros p n [[-> ->]|[-> ->]]%two_namespaces_at; done.
  - done.
Qed.

Lemma fdir_namespace_get_spec_witness :
  ∃ p s', fdir_namespace_get (Some 1%positive) "new" true two_namespaces
          = Some ((Some p, 0), s') ∧ ns_ok s' ∧
    created two_namespaces p "new" 1%positive s'.
Proof.
  destruct (fdir_namespace_get_spec two_namespaces 1%positive "new" true) as (r & err & s' & Hrun & Hok & Hr);
    [reflexivity|exact two_namespaces_ok|reflexivity|].
  destruct r as [p|].
  - destruct Hr as (-> & _ & Hr). exists p, s'. split; [exact Hrun|]. split; [exact Hok|].
    destruct Hr as [->|(_ & Hcr & _)]; [|exact Hcr]. vm_compute in Hrun. discriminate Hrun.
  - vm_compute in Hrun. discriminate Hrun.
Defined.

Lemma fdir_namespace_get_by_id_spec_witness :
  fdir_namespace_get_by_id 3 two_namespaces = Some (Some 2%positive, two_namespaces).
Proof.
  destruct (fdir_namespace_get_by_id_spec two_namespaces 3) as (r & Hrun & Hr);
    [exact two_namespaces_ok|split; [discriminate|reflexivity]|].
  rewrite Hrun. do 2 f_equal. apply Hr. eexists. split; reflexivity.
Defined.
End witness.
