(* ===== verification/InodeIndex.v ===== *)
(** * The inode table and a dentry's attributes: [server/inode_index.c]

    Every dentry but hard links is found by inode in a hash table whose buckets
    are chains through [ht_next], sorted by inode. The same file updates the
    attributes of a dentry: its size and times, and its extended attributes,
    kept in an array that grows by powers of two.

    The theorems show that the table is a partial map from inodes to dentries
    ([index_ok], [in_index]) with insertion, deletion and lookup as its
    operations, that updates of a dentry's status change what the request asks
    for, and that extended attributes behave as a finite map. *)

From S2P Require Import Prelude NsSubscribe ServerTypes NsManager.

Section inode_index.
Context `{UniqSkiplist} `{ServerConfig} `{!StorageEngine}.

(** ** The hash table *)

Definition inode_bucket_of (inode : Z) : Z := uint64 inode `mod` INODE_HASHTABLE_CAPACITY.

(** The comparison of two inodes: a subtraction of [int64_t]. *)
Definition inode_cmp (i j : Z) : Z := int64 (i - j).

Fixpoint find_for_update_loop (fuel : nat) (inode : Z) (previous : ptr) :
    M Server (option ptr * option ptr) :=
  pd ← load_dentry previous;
  match d_ht_next pd with
  | None => mret (None, Some previous)
  | Some next =>
    match fuel with
    | O => stuck
    | S fuel' =>
      nd ← load_dentry next;
      let cmpr := inode_cmp inode (d_inode nd) in
      if cmpr =? 0 then mret (Some next, Some previous)
      else if cmpr <? 0 then mret (None, Some previous)
      else find_for_update_loop fuel' inode next
    end
  end.

(** The dentry of that inode and the one before it in the chain. *)
Definition find_dentry_for_update (bucket inode : Z) : M Server (option ptr * option ptr) :=
  s ← get_st;
  match inode_buckets s !! bucket with
  | None => mret (None, None)
  | Some first =>
    d ← load_dentry first;
    let cmpr := inode_cmp inode (d_inode d) in
    if cmpr =? 0 then mret (Some first, None)
    else if cmpr <? 0 then mret (None, None)
    else find_for_update_loop (size (dentries s)) inode first
  end.

Fixpoint find_inode_loop (fuel : nat) (inode : Z) (dentry : option ptr) :
    M Server (option ptr) :=
  match dentry with
  | None => mret None
  | Some p =>
    match fuel with
    | O => stuck
    | S fuel' =>
      d ← load_dentry p;
      let cmpr := inode_cmp inode (d_inode d) in
      if cmpr =? 0 then mret (Some p)
      else if cmpr <? 0 then mret None
      else find_inode_loop fuel' inode (d_ht_next d)
    end
  end.

Definition find_inode_entry (bucket inode : Z) : M Server (option ptr) :=
  s ← get_st;
  find_inode_loop (size (dentries s)) inode (inode_buckets s !! bucket).

(** [NULL] is written by deleting the bucket. *)
Definition set_bucket (bucket : Z) (p : option ptr) : M Server () :=
  modify (λ s, with_inode_buckets
    (match p with
     | Some p => <[bucket := p]> (inode_buckets s)
     | None => delete bucket (inode_buckets s)
     end) s).

Definition inode_index_add_dentry (dentry : ptr) : M Server Z :=
  d ← load_dentry dentry;
  let bucket := inode_bucket_of (d_inode d) in
  '(found, previous) ← find_dentry_for_update bucket (d_inode d);
  match found with
  | Some _ => mret EEXIST
  | None =>
    match previous with
    | None =>
      s ← get_st;
      update_dentry_at dentry (with_d_ht_next (inode_buckets s !! bucket));;
      set_bucket bucket (Some dentry)
    | Some prev =>
      pd ← load_dentry prev;
      update_dentry_at dentry (with_d_ht_next (d_ht_next pd));;
      update_dentry_at prev (with_d_ht_next (Some dentry))
    end;;
    mret 0
  end.

Definition inode_index_del_dentry (dentry : ptr) : M Server Z :=
  d ← load_dentry dentry;
  let bucket := inode_bucket_of (d_inode d) in
  '(found, previous) ← find_dentry_for_update bucket (d_inode d);
  match found with
  | None => mret ENOENT
  | Some deleted =>
    dd ← load_dentry deleted;
    match previous with
    | None => set_bucket bucket (d_ht_next dd)
    | Some prev => update_dentry_at prev (with_d_ht_next (d_ht_next dd))
    end;;
    (if 0 <? st_alloc (d_stat dd)
     then fdir_namespace_inc_alloc_bytes (d_ns_entry dd) (- st_alloc (d_stat dd))
     else mret ());;
    mret 0
  end.

Definition inode_index_find_dentry (inode : Z) : M Server (option ptr) :=
  find_inode_entry (inode_bucket_of inode) inode.

(** The error number and the dentry. *)
Definition inode_index_get_dentry (thread_ctx : ptr) (inode : Z) :
    M Server (Z * option ptr) :=
  dentry ← inode_index_find_dentry inode;
  match dentry with
  | Some p => mret (0, Some p)
  | None =>
    if STORAGE_ENABLED then dentry_load_inode thread_ctx inode else mret (ENOENT, None)
  end.

(** ** Status updates *)

(** [dentry_set_inc_alloc_bytes] of [server/dentry.c]. *)
Definition dentry_set_inc_alloc_bytes (dentry : ptr) (inc_alloc : Z) : M Server () :=
  modify_stat dentry (λ st, with_st_alloc (int64 (st_alloc st + inc_alloc)) st);;
  d ← load_dentry dentry;
  fdir_namespace_inc_alloc_bytes (d_ns_entry d) inc_alloc.

Definition set_option (f : StatModifyFlags → StatModifyFlags) : M Server () :=
  modify_rec (λ r, with_r_options (f (r_options r)) r).
Definition set_rec_stat (f : DEntryStat → DEntryStat) : M Server () :=
  modify_rec (λ r, with_r_stat (f (r_stat r)) r).
Definition has_flag (flags f : Z) : bool := negb (Z.land flags f =? 0).

Definition with_o_size b (o : StatModifyFlags) : StatModifyFlags :=
  mkStatModifyFlags (o_mode o) (o_atime o) (o_ctime o) (o_mtime o) (o_gid o) (o_uid o)
    b (o_inc_alloc o) (o_space_end o).
Definition with_o_mtime b (o : StatModifyFlags) : StatModifyFlags :=
  mkStatModifyFlags (o_mode o) (o_atime o) (o_ctime o) b (o_gid o) (o_uid o)
    (o_size o) (o_inc_alloc o) (o_space_end o).
Definition with_o_space_end b (o : StatModifyFlags) : StatModifyFlags :=
  mkStatModifyFlags (o_mode o) (o_atime o) (o_ctime o) (o_mtime o) (o_gid o) (o_uid o)
    (o_size o) (o_inc_alloc o) b.
Definition with_o_inc_alloc b (o : StatModifyFlags) : StatModifyFlags :=
  mkStatModifyFlags (o_mode o) (o_atime o) (o_ctime o) (o_mtime o) (o_gid o) (o_uid o)
    (o_size o) b (o_space_end o).

(** [record->me.dentry = dentry]. *)
Definition set_me_dentry (p : option ptr) : M Server () :=
  modify_rec (λ r, with_r_me (with_re_dentry p (r_me r)) r).

(** The three fields [inode_index_check_set_dentry_size] sets, one Definition
    per [if] of the function. *)
Definition check_set_size (p : ptr) (force : bool) : M Server () :=
  d ← load_dentry p;
  r ← get_rec;
  if force || (st_size (d_stat d) <? st_size (r_stat r)) then
    if negb (st_size (d_stat d) =? st_size (r_stat r)) then
      modify_stat p (with_st_size (st_size (r_stat r)));;
      set_option (with_o_size true)
    else mret ()
  else mret ().

Definition check_set_mtime (p : ptr) : M Server () :=
  d ← load_dentry p;
  s ← get_st;
  if negb (st_mtime (d_stat d) =? current_time s) then
    modify_stat p (with_st_mtime (current_time s));;
    set_rec_stat (with_st_mtime (current_time s));;
    set_option (with_o_mtime true)
  else mret ().

Definition check_set_space_end (p : ptr) (force : bool) : M Server () :=
  d ← load_dentry p;
  r ← get_rec;
  if force || (st_space_end (d_stat d) <? st_size (r_stat r)) then
    if negb (st_space_end (d_stat d) =? st_size (r_stat r)) then
      modify_stat p (with_st_space_end (st_size (r_stat r)));;
      set_rec_stat (with_st_space_end (st_size (r_stat r)));;
      set_option (with_o_space_end true)
    else mret ()
  else mret ().

Definition inode_index_check_set_dentry_size (thread_ctx : ptr) : M Server Z :=
  r ← get_rec;
  '(result, dentry) ← inode_index_get_dentry thread_ctx (r_inode r);
  set_me_dentry dentry;;
  if negb (result =? 0) then mret result
  else
    p ← non_null dentry;
    let flags := r_modified r in
    let force := has_flag flags FDIR_DENTRY_FIELD_MODIFIED_FLAG_FORCE in
    modify_rec (λ r, with_r_modified 0 (with_r_options no_options r));;
    flags ← (if has_flag flags FDIR_DENTRY_FIELD_MODIFIED_FLAG_FILE_SIZE then
               check_set_size p force;;
               mret (Z.lor flags FDIR_DENTRY_FIELD_MODIFIED_FLAG_MTIME)
             else mret flags);
    (if has_flag flags FDIR_DENTRY_FIELD_MODIFIED_FLAG_MTIME
     then check_set_mtime p else mret ());;
    (if has_flag flags FDIR_DENTRY_FIELD_MODIFIED_FLAG_SPACE_END
     then check_set_space_end p force else mret ());;
    (if has_flag flags FDIR_DENTRY_FIELD_MODIFIED_FLAG_INC_ALLOC then
       r ← get_rec;
       dentry_set_inc_alloc_bytes p (st_alloc (r_stat r));;
       set_option (with_o_inc_alloc true)
     else mret ());;
    mret 0.

(** One conditional assignment of [update_dentry]. *)
Definition update_field (p : ptr) (opt : bool) (f : DEntryStat → DEntryStat) : M Server () :=
  if opt then modify_stat p f else mret ().

Definition update_dentry (p : ptr) : M Server () :=
  r ← get_rec;
  let o := r_options r in
  let st := r_stat r in
  update_field p (o_mode o) (with_st_mode (st_mode st));;
  update_field p (o_atime o) (with_st_atime (st_atime st));;
  update_field p (o_ctime o) (with_st_ctime (st_ctime st));;
  update_field p (o_mtime o) (with_st_mtime (st_mtime st));;
  update_field p (o_uid o) (with_st_uid (st_uid st));;
  update_field p (o_gid o) (with_st_gid (st_gid st));;
  update_field p (o_size o) (with_st_size (st_size st));;
  update_field p (o_space_end o) (with_st_space_end (st_space_end st));;
  (if o_inc_alloc o then dentry_set_inc_alloc_bytes p (st_alloc st) else mret ()).

Definition inode_index_update_dentry (thread_ctx : ptr) : M Server Z :=
  r ← get_rec;
  '(result, dentry) ← inode_index_get_dentry thread_ctx (r_inode r);
  set_me_dentry dentry;;
  if negb (result =? 0) then mret result
  else
    p ← non_null dentry;
    update_dentry p;;
    mret 0.

(** ** Extended attributes *)

(** The index of the first pair with that key. *)
Definition kv_find (name : string) (elts : list (string * string)) : option nat :=
  fst <$> list_find (λ kv, name = fst kv) elts.

(** The error number and the index of the pair. *)
Definition get_xattr (dentry : ptr) (name : string) : M Server (Z * option nat) :=
  rc ← (if STORAGE_ENABLED then
          d ← load_dentry dentry;
          n ← load_ns (d_ns_entry d);
          dentry_load_xattr (ns_thread n) dentry
        else mret 0);
  if negb (rc =? 0) then mret (rc, None)
  else
    d ← load_dentry dentry;
    match d_kv_array d with
    | Some a =>
      match kv_find name (kv_elts a) with
      | Some i => mret (0, Some i)
      | None => mret (ENODATA, None)
      end
    | None => mret (ENODATA, None)
    end.

(** [dentry_get_kvarray_allocator_by_capacity] of [server/dentry.c]: the index
    of the allocator. *)
Definition dentry_get_kvarray_allocator_by_capacity (alloc_elts : Z) : option Z :=
  if alloc_elts =? 2 then Some 0
  else if alloc_elts =? 4 then Some 1
  else if alloc_elts =? 8 then Some 2
  else if alloc_elts =? 16 then Some 3
  else if alloc_elts =? 32 then Some 4
  else if alloc_elts =? 64 then Some 5
  else None.

(** The slots of an array of allocator [i] ([init_kvarray_allocators] and
    [kvarray_alloc_init] of [server/dentry.c]). *)
Definition kvarray_capacity (i : Z) : Z := 2 ^ (i + 1).

Definition set_kv_array (dentry : ptr) (a : KvArray) : M Server () :=
  update_dentry_at dentry (with_d_kv_array (Some a)).

Definition inode_index_remove_xattr (dentry : ptr) (name : string) : M Server Z :=
  '(result, kv) ← get_xattr dentry name;
  if negb (result =? 0) then mret result
  else
    i ← non_null kv;
    d ← load_dentry dentry;
    a ← non_null (d_kv_array d);
    set_kv_array dentry (mkKvArray (kv_alloc a) (base.delete i (kv_elts a)));;
    mret 0.

(** Makes sure there is a slot after the last pair: 0 or the error number. *)
Definition check_alloc_kvpair (dentry : ptr) : M Server Z :=
  d ← load_dentry dentry;
  match (match d_kv_array d with
         | None => Some (Some 0)
         | Some a =>
           if Z.of_nat (length (kv_elts a)) =? kv_alloc a then
             Some <$> dentry_get_kvarray_allocator_by_capacity (kv_alloc a * 2)
           else Some None
         end) with
  | None => mret EOVERFLOW
  | Some None => mret 0
  | Some (Some allocator) =>
    ok ← try_alloc;
    if negb ok then mret ENOMEM
    else
      set_kv_array dentry (mkKvArray (kvarray_capacity allocator)
        (match d_kv_array d with Some a => kv_elts a | None => [] end));;
      mret 0
  end.

(** Appends a pair in the slot [check_alloc_kvpair] found. *)
Definition append_kvpair (dentry : ptr) (kv : string * string) : M Server () :=
  d ← load_dentry dentry;
  a ← non_null (d_kv_array d);
  set_kv_array dentry (mkKvArray (kv_alloc a) (kv_elts a ++ [kv])).

Definition inode_index_set_xattr (dentry : ptr) : M Server Z :=
  r ← get_rec;
  '(result, kv) ← get_xattr dentry (fst (r_xattr r));
  if result =? 0 then
    if r_flags r =? XATTR_CREATE then mret EEXIST
    else
      ok ← try_alloc;  (* dentry_strdup of the value *)
      if negb ok then mret ENOMEM
      else
        i ← non_null kv;
        d ← load_dentry dentry;
        a ← non_null (d_kv_array d);
        set_kv_array dentry (mkKvArray (kv_alloc a)
          (alter (λ kv, (fst kv, snd (r_xattr r))) i (kv_elts a)));;
        mret 0
  else if negb (result =? ENODATA) then mret result
  else if r_flags r =? XATTR_REPLACE then mret result
  else
    rc ← check_alloc_kvpair dentry;
    if negb (rc =? 0) then mret rc
    else
      ok ← try_alloc;  (* dentry_strdup of the key *)
      if negb ok then mret ENOMEM
      else
        ok ← try_alloc;  (* dentry_strdup of the value *)
        if negb ok then mret ENOMEM
        else append_kvpair dentry (r_xattr r);; mret 0.

Definition inode_index_get_xattr (dentry : ptr) (name : string) :
    M Server (Z * option string) :=
  '(result, kv) ← get_xattr dentry name;
  if result =? 0 then
    i ← non_null kv;
    d ← load_dentry dentry;
    a ← non_null (d_kv_array d);
    kv ← non_null (kv_elts a !! i);
    mret (0, Some (snd kv))
  else mret (result, None).

(** Copies the pairs of a request or of a loaded dentry. *)
Fixpoint inode_index_xattrs_copy (kvs : list (string * string)) (dentry : ptr) :
    M Server Z :=
  match kvs with
  | [] => mret 0
  | kv :: rest =>
    rc ← check_alloc_kvpair dentry;
    if negb (rc =? 0) then mret rc
    else
      ok ← try_alloc;
      if negb ok then mret ENOMEM
      else
        ok ← try_alloc;
        if negb ok then mret ENOMEM
        else append_kvpair dentry kv;; inode_index_xattrs_copy rest dentry
  end.
End inode_index.

(** ** The table as a map from inodes to dentries *)

Section index.
Context `{UniqSkiplist} `{ServerConfig} `{!StorageEngine}.

Definition inode_ok (i : Z) : Prop := 0 ≤ i < 2 ^ 63.

Definition inode_lt (s : Server) (p q : ptr) : Prop :=
  ∀ d e, dentries s !! p = Some d → dentries s !! q = Some e → d_inode d < d_inode e.

(** The chain of bucket [b] is [l], sorted by inode. *)
Record bucket_ok (s : Server) (b : Z) (l : list ptr) : Prop := {
  bk_chain : chain d_ht_next (dentries s) (inode_buckets s !! b) l;
  bk_sorted : StronglySorted (inode_lt s) l;
  bk_inodes : ∀ p d, p ∈ l → dentries s !! p = Some d →
    inode_bucket_of (d_inode d) = b ∧ inode_ok (d_inode d)
}.

Definition index_ok (s : Server) : Prop := ∀ b, ∃ l, bucket_ok s b l.
Definition in_index (s : Server) (p : ptr) : Prop := ∃ b l, bucket_ok s b l ∧ p ∈ l.

Lemma bucket_det s b l1 l2 : bucket_ok s b l1 → bucket_ok s b l2 → l1 = l2.
Proof. intros [Hc1 _ _] [Hc2 _ _]. by eapply chain_det. Qed.

Lemma bucket_elem s b l p : bucket_ok s b l → p ∈ l →
  ∃ d, dentries s !! p = Some d ∧ inode_bucket_of (d_inode d) = b ∧ inode_ok (d_inode d).
Proof.
  intros Hb Hp. destruct (chain_in_dom _ _ _ _ _ (bk_chain _ _ _ Hb) Hp) as [d Hd].
  exists d. split; [done|]. by apply (bk_inodes _ _ _ Hb p).
Qed.

Lemma in_index_dentry s p : in_index s p →
  ∃ d, dentries s !! p = Some d ∧ inode_ok (d_inode d).
Proof.
  intros (b & l & Hb & Hp). destruct (bucket_elem _ _ _ _ Hb Hp) as (d & ? & _ & ?).
  by exists d.
Qed.

(** A dentry of the table is in the bucket of its inode. *)
Lemma in_index_bucket s p d l :
  in_index s p → dentries s !! p = Some d → bucket_ok s (inode_bucket_of (d_inode d)) l →
  p ∈ l.
Proof.
  intros (b & l' & Hb & Hp) Hd Hl. destruct (bucket_elem _ _ _ _ Hb Hp) as (d' & Hd' & E & _).
  simplify_eq. by rewrite (bucket_det _ _ _ _ Hl Hb).
Qed.

(** No two dentries of the table have the same inode. *)
Lemma in_index_inj s p q d e :
  index_ok s → in_index s p → in_index s q → dentries s !! p = Some d →
  dentries s !! q = Some e → d_inode d = d_inode e → p = q.
Proof.
  intros Hok Hp Hq Hd He E. destruct (Hok (inode_bucket_of (d_inode d))) as [l Hl].
  pose proof (in_index_bucket s p d l Hp Hd Hl) as Hpl.
  rewrite E in Hl. pose proof (in_index_bucket s q e l Hq He Hl) as Hql.
  apply list_elem_of_lookup in Hpl as [i Hi], Hql as [j Hj].
  destruct (lt_eq_lt_dec i j) as [[Hlt|<-]|Hlt]; [|by simplify_eq|].
  - pose proof (StronglySorted_at _ _ i j p q (bk_sorted _ _ _ Hl) Hi Hj Hlt d e Hd He). lia.
  - pose proof (StronglySorted_at _ _ j i q p (bk_sorted _ _ _ Hl) Hj Hi Hlt e d He Hd). lia.
Qed.

(** [s'] has the dentries of [s] with the same inodes and chains. *)
Definition ht_keep (s s' : Server) : Prop :=
  inode_buckets s' = inode_buckets s ∧
  ∀ p d, dentries s !! p = Some d → ∃ d', dentries s' !! p = Some d' ∧
    d_inode d' = d_inode d ∧ d_ht_next d' = d_ht_next d.

Lemma chain_keep s s' p l :
  ht_keep s s' → chain d_ht_next (dentries s) p l → chain d_ht_next (dentries s') p l.
Proof.
  intros [_ Hk]. revert p. induction l as [|x l IH]; intros p; simpl; [done|].
  intros (-> & d & Hd & Hc). split; [done|]. destruct (Hk x d Hd) as (d' & ? & _ & E).
  exists d'. split; [done|]. rewrite E. by apply IH.
Qed.

Lemma bucket_keep s s' b l : ht_keep s s' → bucket_ok s b l → bucket_ok s' b l.
Proof.
  intros Hk Hb. pose proof Hk as [E Hd]. split.
  - rewrite E. apply (chain_keep s), Hb. done.
  - eapply StronglySorted_impl_in, Hb. intros p q Hp Hq Hlt d e Hd' He'.
    destruct (bucket_elem _ _ _ _ Hb Hp) as (d0 & Hd0 & _).
    destruct (bucket_elem _ _ _ _ Hb Hq) as (e0 & He0 & _).
    destruct (Hd p d0 Hd0) as (? & ? & E1 & _), (Hd q e0 He0) as (? & ? & E2 & _).
    simplify_eq. rewrite E1, E2. by apply Hlt.
  - intros p d' Hp Hd'. destruct (bucket_elem _ _ _ _ Hb Hp) as (d0 & Hd0 & ? & ?).
    destruct (Hd p d0 Hd0) as (? & ? & E1 & _). simplify_eq. by rewrite E1.
Qed.

Lemma index_keep s s' :
  ht_keep s s' → index_ok s → index_ok s' ∧ ∀ p, in_index s' p ↔ in_index s p.
Proof.
  intros Hk Hok. split.
  - intros b. destruct (Hok b) as [l Hl]. exists l. by eapply bucket_keep.
  - intros p. split.
    + intros (b & l & Hb & Hp). destruct (Hok b) as [l' Hl']. exists b, l'. split; [done|].
      by rewrite (bucket_det s' b l' l (bucket_keep _ _ _ _ Hk Hl') Hb).
    + intros (b & l & Hb & Hp). exists b, l. split; [|done]. by eapply bucket_keep.
Qed.

(** ** The walk along a chain *)

Lemma inode_cmp_small i j : inode_ok i → inode_ok j → inode_cmp i j = i - j.
Proof. unfold inode_ok. intros. apply int64_small. unfold is_int64. lia. Qed.

(** The chain splits at the place of the inode [i]. *)
Definition split_at (s : Server) (i : Z) (l1 l2 : list ptr) (found : option ptr) : Prop :=
  (∀ p d, p ∈ l1 → dentries s !! p = Some d → d_inode d < i) ∧
  match l2 with
  | [] => found = None
  | q :: _ => ∃ d, dentries s !! q = Some d ∧
      (found = Some q ∧ d_inode d = i ∨ found = None ∧ i < d_inode d)
  end.

Lemma find_for_update_run s i l : inode_ok i → ∀ fuel prev pd,
  (∀ p d, p ∈ l → dentries s !! p = Some d → inode_ok (d_inode d)) →
  dentries s !! prev = Some pd → chain d_ht_next (dentries s) (d_ht_next pd) l →
  (length l ≤ fuel)%nat →
  ∃ l1 l2 found, l = l1 ++ l2 ∧ split_at s i l1 l2 found ∧
    find_for_update_loop fuel i prev s = Some ((found, last (prev :: l1)), s).
Proof.
  intros Hi. induction l as [|x l IH]; intros fuel prev pd Hin Hp Hc Hf.
  { simpl in Hc. exists [], [], None. split_and!; [done| |].
    - split; [set_solver|done].
    - destruct fuel; cbn [find_for_update_loop]; sstep; by rewrite Hc. }
  destruct Hc as (E & d & Hd & Hc). destruct fuel as [|fuel]; [simpl in Hf; lia|].
  cbn [find_for_update_loop]. sstep. rewrite E. sstep.
  assert (inode_ok (d_inode d)) as Hdi by (apply (Hin x); [set_solver|done]).
  rewrite inode_cmp_small by done. destruct (Z.eqb_spec (i - d_inode d) 0) as [Ez|Ez].
  { exists [], (x :: l), (Some x). split_and!; [done| |done].
    split; [set_solver|]. exists d. split; [done|]. left. split; [done|lia]. }
  destruct (Z.ltb_spec (i - d_inode d) 0) as [El|El].
  { exists [], (x :: l), None. split_and!; [done| |done].
    split; [set_solver|]. exists d. split; [done|]. right. split; [done|lia]. }
  destruct (IH fuel x d) as (l1 & l2 & found & -> & [Hl1 Hl2] & Hrun);
    [intros q e Hq; apply (Hin q); set_solver|done|done|simpl in Hf; lia|].
  exists (x :: l1), l2, found. split; [done|]. split; [|by rewrite Hrun].
  split; [|done]. intros p d' [->|Hp']%elem_of_cons Hd'; [simplify_eq; lia|eauto].
Qed.

Lemma find_update_run s i b l :
  bucket_ok s b l → inode_ok i →
  ∃ l1 l2 found, l = l1 ++ l2 ∧ split_at s i l1 l2 found ∧
    find_dentry_for_update b i s = Some ((found, last l1), s).
Proof.
  intros Hb Hi. unfold find_dentry_for_update. sstep.
  pose proof (bk_chain _ _ _ Hb) as Hc. destruct l as [|x l].
  { simpl in Hc. rewrite Hc. exists [], [], None. split_and!; [done| |done].
    split; [set_solver|done]. }
  pose proof (chain_length _ _ _ _ Hc) as Hlen.
  destruct Hc as (-> & d & Hd & Hc). sstep.
  assert (inode_ok (d_inode d)) as Hdi by (eapply (bk_inodes _ _ _ Hb x); [set_solver|done]).
  rewrite inode_cmp_small by done. destruct (Z.eqb_spec (i - d_inode d) 0) as [Ez|Ez].
  { exists [], (x :: l), (Some x). split_and!; [done| |done].
    split; [set_solver|]. exists d. split; [done|]. left. split; [done|lia]. }
  destruct (Z.ltb_spec (i - d_inode d) 0) as [El|El].
  { exists [], (x :: l), None. split_and!; [done| |done].
    split; [set_solver|]. exists d. split; [done|]. right. split; [done|lia]. }
  destruct (find_for_update_run s i l Hi (size (dentries s)) x d)
    as (l1 & l2 & found & -> & [Hl1 Hl2] & Hrun); [|done|done|simpl in Hlen; lia|].
  { intros p e Hp He. eapply (bk_inodes _ _ _ Hb p); [set_solver|done]. }
  exists (x :: l1), l2, found. split; [done|]. split; [|by rewrite Hrun].
  split; [|done]. intros p d' [->|Hp']%elem_of_cons Hd'; [simplify_eq; lia|eauto].
Qed.

(** ** Lookup *)

Lemma find_loop_run s i l : inode_ok i → ∀ fuel p,
  (∀ p d, p ∈ l → dentries s !! p = Some d → inode_ok (d_inode d)) →
  StronglySorted (inode_lt s) l →
  chain d_ht_next (dentries s) p l → (length l ≤ fuel)%nat →
  ∃ r, find_inode_loop fuel i p s = Some (r, s) ∧
    match r with
    | Some q => q ∈ l ∧ ∃ d, dentries s !! q = Some d ∧ d_inode d = i
    | None => ∀ q d, q ∈ l → dentries s !! q = Some d → d_inode d ≠ i
    end.
Proof.
  intros Hi. induction l as [|x l IH]; intros fuel p Hin Hs Hc Hf.
  { simpl in Hc. subst p. exists None. split; [by destruct fuel|]. set_solver. }
  destruct Hc as (-> & d & Hd & Hc). destruct fuel as [|fuel]; [simpl in Hf; lia|].
  cbn [find_inode_loop]. sstep.
  assert (inode_ok (d_inode d)) as Hdi by (apply (Hin x); [set_solver|done]).
  rewrite inode_cmp_small by done. destruct (Z.eqb_spec (i - d_inode d) 0) as [Ez|Ez].
  { exists (Some x). split; [done|]. split; [set_solver|]. exists d. split; [done|lia]. }
  inversion Hs as [|? ? Hs' Hlt]; subst. rewrite Forall_forall in Hlt.
  destruct (Z.ltb_spec (i - d_inode d) 0) as [El|El].
  { exists None. split; [done|]. intros q e [->|Hq]%elem_of_cons He; [simplify_eq; lia|].
    specialize (Hlt q Hq d e Hd He). lia. }
  destruct (IH fuel (d_ht_next d)) as (r & Hrun & Hr);
    [intros q e Hq; apply (Hin q); set_solver|done|done|simpl in Hf; lia|].
  exists r. split; [done|]. destruct r as [q|].
  - destruct Hr as [? ?]. split; [set_solver|done].
  - intros q e [->|Hq]%elem_of_cons He; [simplify_eq; lia|eauto].
Qed.

Lemma find_dentry_run s i :
  index_ok s → inode_ok i →
  ∃ r, inode_index_find_dentry i s = Some (r, s) ∧
    ∀ p, r = Some p ↔ in_index s p ∧ ∃ d, dentries s !! p = Some d ∧ d_inode d = i.
Proof.
  intros Hok Hi. unfold inode_index_find_dentry, find_inode_entry. sstep.
  destruct (Hok (inode_bucket_of i)) as [l Hl].
  destruct (find_loop_run s i l Hi (size (dentries s)) _
    ltac:(intros p d Hp Hd; by apply (bk_inodes _ _ _ Hl p)) (bk_sorted _ _ _ Hl)
    (bk_chain _ _ _ Hl)) as (r & Hrun & Hr); [by eapply chain_length, bk_chain|].
  exists r. split; [done|]. intros p. split.
  - intros ->. destruct Hr as (Hp & d & Hd & E). split; [|by exists d].
    by exists (inode_bucket_of i), l.
  - intros (Hp & d & Hd & E).
    assert (p ∈ l) as Hpl by (eapply in_index_bucket; eauto; by rewrite E).
    destruct r as [q|]; [|by destruct (Hr p d)]. destruct Hr as (Hq & e & He & Ee).
    f_equal. eapply (in_index_inj s q p e d Hok); try done; [by exists (inode_bucket_of i), l|].
    congruence.
Qed.

(** ** Frames *)

(** Only the table changes: buckets and chain pointers. *)
Record table_frame (s s' : Server) : Prop := {
  tf_server : s' = with_inode_buckets (inode_buckets s') (with_dentries (dentries s') s);
  tf_dentries : ∀ p, with_d_ht_next None <$> dentries s' !! p
                     = with_d_ht_next None <$> dentries s !! p
}.

Lemma table_frame_inode s s' p d' :
  table_frame s s' → dentries s' !! p = Some d' →
  ∃ d, dentries s !! p = Some d ∧ d' = with_d_ht_next (d_ht_next d') d.
Proof.
  intros [_ Hf] Hp. specialize (Hf p). rewrite Hp in Hf. simpl in Hf.
  destruct (dentries s !! p) as [d|]; [|done]. exists d. split; [done|].
  assert (with_d_ht_next None d' = with_d_ht_next None d) as E by (apply (inj Some); exact Hf).
  destruct d, d'. injection E. intros. by subst.
Qed.

Lemma insert_frame (m : gmap ptr ServerDentry) p d n q :
  m !! p = Some d →
  with_d_ht_next None <$> <[p := with_d_ht_next n d]> m !! q = with_d_ht_next None <$> m !! q.
Proof.
  intros Hp. destruct (decide (p = q)) as [<-|Hne].
  - by rewrite lookup_insert_eq, Hp.
  - by rewrite lookup_insert_ne.
Qed.

(** The other buckets are as before. *)
Lemma other_bucket_ok_gen s s' b' l' :
  bucket_ok s b' l' →
  inode_buckets s' !! b' = inode_buckets s !! b' →
  (∀ q, q ∈ l' → dentries s' !! q = dentries s !! q) → bucket_ok s' b' l'.
Proof.
  intros Hb Eb Hd. split.
  - rewrite Eb. pose proof (bk_chain _ _ _ Hb) as Hc. revert Hc Hd. clear.
    generalize (inode_buckets s !! b'). induction l' as [|x l' IH]; intros o; simpl; [done|].
    intros (-> & e & He & Hc) Hd. split; [done|]. exists e.
    rewrite Hd by set_solver. split; [done|]. apply IH; [done|].
    intros. apply Hd. set_solver.
  - eapply StronglySorted_impl_in, Hb. intros q r Hq Hr Hlt e f.
    rewrite !Hd by done. apply Hlt.
  - intros q e Hq. rewrite Hd by done. by apply (bk_inodes _ _ _ Hb).
Qed.

(** ** Insertion *)

Section add.
Context (s : Server) (p : ptr) (d : ServerDentry) (l1 l2 : list ptr).
Let b := inode_bucket_of (d_inode d).
Context (Hok : index_ok s) (Hp : dentries s !! p = Some d) (Hi : inode_ok (d_inode d))
  (Hl : bucket_ok s b (l1 ++ l2)) (Hsplit : split_at s (d_inode d) l1 l2 None).

Lemma add_fresh : p ∉ l1 ++ l2.
Proof using All.
  destruct Hsplit as [H1' H2']. intros [Hin|Hin]%elem_of_app.
  - specialize (H1' p d Hin Hp). lia.
  - destruct l2 as [|q l2']; [set_solver|].
    destruct H2' as (e & He & [[? _]|[_ Hlt]]); [done|].
    pose proof (bk_sorted _ _ _ Hl) as Hs. apply StronglySorted_app in Hs as (_ & _ & Hs).
    apply elem_of_cons in Hin as [->|Hin]; [simplify_eq; lia|].
    inversion Hs as [|? ? _ Hf]; subst. rewrite Forall_forall in Hf.
    specialize (Hf p Hin e d He Hp). lia.
Qed.

(** Any state with the new chain in bucket [b] is a well-formed table. *)
Lemma add_bucket_ok s' :
  table_frame s s' → chain d_ht_next (dentries s') (inode_buckets s' !! b) (l1 ++ p :: l2) →
  bucket_ok s' b (l1 ++ p :: l2).
Proof using All.
  intros Hf Hc. pose proof (bk_sorted _ _ _ Hl) as Hs.
  apply StronglySorted_app in Hs as (Hx & Hs1 & Hs2).
  assert (∀ q r, inode_lt s q r → inode_lt s' q r) as Hlt.
  { intros q r Hqr e f He Hf'.
    destruct (table_frame_inode _ _ _ _ Hf He) as (e0 & He0 & ->).
    destruct (table_frame_inode _ _ _ _ Hf Hf') as (f0 & Hf0 & ->). simpl; by apply Hqr. }
  destruct Hsplit as [H1' H2'].
  assert (∀ q, q ∈ l1 → inode_lt s q p) as Hl1p.
  { intros q Hq e f He Hf'. simplify_eq. by eapply H1'. }
  assert (∀ q, q ∈ l2 → inode_lt s p q) as Hl2p.
  { intros q Hq f e Hf' He. simplify_eq. destruct l2 as [|x l2']; [set_solver|].
    destruct H2' as (x' & Hx' & [[? _]|[_ Hlt']]); [done|].
    apply elem_of_cons in Hq as [->|Hq]; [by simplify_eq|].
    inversion Hs2 as [|? ? _ Hfa]; subst. rewrite Forall_forall in Hfa.
    specialize (Hfa q Hq x' e Hx' He). lia. }
  split; [done| |].
  - apply StronglySorted_app_2.
    + intros q r Hq Hr. apply Hlt. apply elem_of_cons in Hr as [->|Hr]; auto.
    + by eapply StronglySorted_impl', Hs1.
    + constructor; [by eapply StronglySorted_impl', Hs2|].
      apply Forall_forall. intros r Hr. by apply Hlt, Hl2p.
  - intros q e Hq He. destruct (table_frame_inode _ _ _ _ Hf He) as (e0 & He0 & ->).
    simpl. apply elem_of_app in Hq as [Hq|[->|Hq]%elem_of_cons].
    + apply (bk_inodes _ _ _ Hl q); [set_solver|done].
    + simplify_eq. done.
    + apply (bk_inodes _ _ _ Hl q); [set_solver|done].
Qed.

Lemma add_index_ok s' :
  table_frame s s' →
  chain d_ht_next (dentries s') (inode_buckets s' !! b) (l1 ++ p :: l2) →
  (∀ b', b' ≠ b → inode_buckets s' !! b' = inode_buckets s !! b') →
  (∀ q, q ≠ p → q ∉ l1 → dentries s' !! q = dentries s !! q) →
  index_ok s' ∧ (∀ q, in_index s' q ↔ in_index s q ∨ q = p).
Proof using All.
  intros Hf Hch Hb Hd. pose proof (add_bucket_ok s' Hf Hch) as Hnew.
  assert (∀ b' l', b' ≠ b → bucket_ok s b' l' → bucket_ok s' b' l') as Hoth.
  { intros b' l' Hne Hb'. apply (other_bucket_ok_gen s s' b'); auto.
    intros q Hq. destruct (bucket_elem _ _ _ _ Hb' Hq) as (e & He & Eb & _). apply Hd.
    - intros ->. simplify_eq.
    - intros Hq1. destruct (bucket_elem _ _ _ q Hl) as (e' & He' & Eb' & _); [set_solver|].
      simplify_eq. }
  split.
  - intros b'. destruct (decide (b' = b)) as [->|Hne]; [by eexists|].
    destruct (Hok b') as [l' Hl']. exists l'. by apply Hoth.
  - intros q. split.
    + intros (b' & l' & Hl' & Hq). destruct (decide (b' = b)) as [->|Hne].
      * rewrite (bucket_det _ _ _ _ Hl' Hnew) in Hq.
        destruct (decide (q = p)) as [->|]; [by right|left].
        exists b, (l1 ++ l2). split; [done|set_solver].
      * left. destruct (Hok b') as [l'' Hl'']. exists b', l''. split; [done|].
        by rewrite (bucket_det _ _ _ _ (Hoth b' l'' Hne Hl'') Hl').
    + intros [(b' & l' & Hl' & Hq)| ->].
      * destruct (decide (b' = b)) as [->|Hne].
        -- exists b, (l1 ++ p :: l2). split; [done|].
           rewrite (bucket_det _ _ _ _ Hl' Hl) in Hq. set_solver.
        -- exists b', l'. split; [by apply Hoth|done].
      * exists b, (l1 ++ p :: l2). split; [done|set_solver].
Qed.
End add.

(** What [find_dentry_for_update] finds. *)
Lemma found_spec s i l1 l2 found :
  index_ok s → bucket_ok s (inode_bucket_of i) (l1 ++ l2) → split_at s i l1 l2 found →
  ∀ q, found = Some q ↔ in_index s q ∧ ∃ e, dentries s !! q = Some e ∧ d_inode e = i.
Proof.
  intros Hok Hl Hsp q. split.
  - intros ->. destruct Hsp as [_ Hl2]. destruct l2 as [|x l2]; [done|].
    destruct Hl2 as (e & He & [[[= ->] E]|[? _]]); [|done].
    split; [|by exists e].
    exists (inode_bucket_of i), (l1 ++ x :: l2). split; [done|set_solver].
  - intros (Hq & e & He & E).
    assert (q ∈ l1 ++ l2) as Hql by (eapply in_index_bucket; eauto; by rewrite E).
    destruct Hsp as [Hl1 Hl2]. apply elem_of_app in Hql as [Hql|Hql];
      [specialize (Hl1 q e Hql He); lia|].
    destruct l2 as [|x l2]; [set_solver|]. destruct Hl2 as (y & Hy & Hl2).
    pose proof (bk_sorted _ _ _ Hl) as Hs. apply StronglySorted_app in Hs as (_ & _ & Hs).
    inversion Hs as [|? ? _ Hf]; subst. rewrite Forall_forall in Hf.
    apply elem_of_cons in Hql as [->|Hql].
    + simplify_eq. destruct Hl2 as [[-> _]|[_ Hlt]]; [done|lia].
    + specialize (Hf q Hql y e Hy He). destruct Hl2 as [[_ ?]|[_ ?]]; lia.
Qed.

(** What an insertion leaves. *)
Lemma add_dentry_run s p d :
  index_ok s → dentries s !! p = Some d → inode_ok (d_inode d) →
  ∃ found, (∀ q, found = Some q ↔ in_index s q ∧
             ∃ e, dentries s !! q = Some e ∧ d_inode e = d_inode d) ∧
  match found with
  | Some _ => inode_index_add_dentry p s = Some (EEXIST, s)
  | None => ∃ s', inode_index_add_dentry p s = Some (0, s') ∧ table_frame s s' ∧
      index_ok s' ∧ (∀ q, in_index s' q ↔ in_index s q ∨ q = p)
  end.
Proof.
  intros Hok Hp Hi. set (b := inode_bucket_of (d_inode d)).
  destruct (Hok b) as [l Hl].
  destruct (find_update_run s (d_inode d) b l Hl Hi) as (l1 & l2 & found & -> & Hsp & Hrun).
  exists found. split; [by eapply found_spec|].
  unfold inode_index_add_dentry. sstep. fold b. run_with Hrun. cbn beta iota.
  destruct found as [q|]; [done|].
  pose proof (add_fresh s p d l1 l2 Hok Hp Hi Hl Hsp) as Hfresh.
  pose proof (bk_chain _ _ _ Hl) as Hc.
  pose proof (add_index_ok s p d l1 l2 Hok Hp Hi Hl Hsp) as Hfin. fold b in Hfin.
  destruct (last l1) as [prev|] eqn:El.
  - apply last_Some in El as [l1' ->].
    destruct (bucket_elem _ _ _ prev Hl) as (pd & Hpd & _); [set_solver|].
    assert (prev ≠ p) as Hne by (intros ->; set_solver).
    rewrite bind_bind. sstep. rewrite bind_bind. sstep.
    erewrite bind_run by (apply update_dentry_run; simpl; by rewrite lookup_insert_ne).
    cbn beta. eexists. split; [reflexivity|].
    set (m := <[p := with_d_ht_next (d_ht_next pd) d]> (dentries s)).
    assert (m !! prev = Some pd) as Hmp by (unfold m; by rewrite lookup_insert_ne).
    assert (table_frame s (with_dentries (<[prev := with_d_ht_next (Some p) pd]> m)
      (with_dentries m s))) as Hf.
    { split; [done|]. intros q. simpl. rewrite insert_frame by done.
      unfold m. by rewrite insert_frame. }
    split; [exact Hf|]. apply Hfin; [exact Hf| |done|].
    + simpl. rewrite <- app_assoc. simpl.
      apply (chain_relink d_ht_next m (inode_buckets s !! b) l1' prev pd _ l2 (p :: l2));
        [|done| |].
      * rewrite <- app_assoc in Hc, Hfresh. by apply chain_insert_ne.
      * pose proof (chain_NoDup _ _ _ _ Hc) as Hnd. apply NoDup_app in Hnd as (_ & Hd & _).
        intros [->|Hin]%elem_of_cons; [done|]. by apply (Hd prev); [set_solver|].
      * simpl. split; [done|]. unfold m at 1. rewrite lookup_insert_eq. eexists.
        split; [done|]. simpl. unfold m. apply chain_insert_ne; [set_solver|].
        destruct (chain_app _ _ _ _ _ Hc) as (q & Hq & _ & Hlast).
        destruct (Hlast prev) as (pd' & Hpd' & <-); [by rewrite last_snoc|]. by simplify_eq.
    + intros q Hq Hq1. simpl. rewrite lookup_insert_ne by set_solver. unfold m.
      by rewrite lookup_insert_ne.
  - apply last_None in El as ->. simpl app in *.
    rewrite bind_bind. sstep. rewrite bind_bind. sstep. unfold set_bucket. sstep.
    eexists. split; [reflexivity|].
    match goal with |- table_frame _ ?t ∧ _ => set (s' := t) end.
    assert (table_frame s s') as Hf.
    { split; [done|]. intros q. simpl. by apply insert_frame. }
    split; [exact Hf|]. apply Hfin; [exact Hf| | |].
    + simpl. rewrite lookup_insert_eq. split; [done|]. rewrite lookup_insert_eq. eexists.
      split; [done|]. simpl. by apply chain_insert_ne.
    + intros b' Hne. simpl. by rewrite lookup_insert_ne.
    + intros q Hq _. simpl. by rewrite lookup_insert_ne.
Qed.

(** ** Deletion *)

Lemma frame_inode_lt s s' q r : table_frame s s' → inode_lt s q r → inode_lt s' q r.
Proof.
  intros Hf Hqr e f He Hf'.
  destruct (table_frame_inode _ _ _ _ Hf He) as (e0 & He0 & ->).
  destruct (table_frame_inode _ _ _ _ Hf Hf') as (f0 & Hf0 & ->). simpl. by apply Hqr.
Qed.

Section del.
Context (s : Server) (b : Z) (q : ptr) (l1 l2 : list ptr).
Context (Hok : index_ok s) (Hl : bucket_ok s b (l1 ++ q :: l2)).

Lemma del_bucket_ok s' :
  table_frame s s' → chain d_ht_next (dentries s') (inode_buckets s' !! b) (l1 ++ l2) →
  bucket_ok s' b (l1 ++ l2).
Proof using All.
  intros Hf Hc. pose proof (bk_sorted _ _ _ Hl) as Hs.
  apply StronglySorted_app in Hs as (Hx & Hs1 & Hs2).
  inversion Hs2 as [|? ? Hs2' _]; subst. split; [done| |].
  - apply StronglySorted_app_2.
    + intros x y Hx' Hy. eapply frame_inode_lt; [done|]. apply Hx; set_solver.
    + eapply StronglySorted_impl', Hs1. intros. by eapply frame_inode_lt.
    + eapply StronglySorted_impl', Hs2'. intros. by eapply frame_inode_lt.
  - intros x e Hx' He. destruct (table_frame_inode _ _ _ _ Hf He) as (e0 & He0 & ->).
    simpl; apply (bk_inodes _ _ _ Hl x); [set_solver|done].
Qed.

Lemma del_index_ok s' :
  table_frame s s' → chain d_ht_next (dentries s') (inode_buckets s' !! b) (l1 ++ l2) →
  (∀ b', b' ≠ b → inode_buckets s' !! b' = inode_buckets s !! b') →
  (∀ x, x ∉ l1 → dentries s' !! x = dentries s !! x) →
  index_ok s' ∧ (∀ x, in_index s' x ↔ in_index s x ∧ x ≠ q).
Proof using All.
  intros Hf Hch Hb Hd. pose proof (del_bucket_ok s' Hf Hch) as Hnew.
  assert (∀ b' l', b' ≠ b → bucket_ok s b' l' → bucket_ok s' b' l') as Hoth.
  { intros b' l' Hne Hb'. apply (other_bucket_ok_gen s s' b'); auto.
    intros x Hx. apply Hd. intros Hx1.
    destruct (bucket_elem _ _ _ _ Hb' Hx) as (e & He & Eb & _).
    destruct (bucket_elem _ _ _ x Hl) as (e' & He' & Eb' & _); [set_solver|].
    simplify_eq. }
  assert (NoDup (l1 ++ q :: l2)) as Hnd by eapply chain_NoDup, (bk_chain _ _ _ Hl).
  assert (q ∉ l1 ++ l2) as Hq.
  { apply NoDup_app in Hnd as (_ & Hx & Hnd). apply NoDup_cons in Hnd as [? _].
    intros [?|?]%elem_of_app; [|done]. by apply (Hx q); [|set_solver]. }
  split.
  - intros b'. destruct (decide (b' = b)) as [->|Hne]; [by eexists|].
    destruct (Hok b') as [l' Hl']. exists l'. by apply Hoth.
  - intros x. split.
    + intros (b' & l' & Hl' & Hx). destruct (decide (b' = b)) as [->|Hne].
      * rewrite (bucket_det _ _ _ _ Hl' Hnew) in Hx.
        split; [exists b, (l1 ++ q :: l2); split; [done|set_solver]|set_solver].
      * destruct (Hok b') as [l'' Hl''].
        rewrite <- (bucket_det _ _ _ _ (Hoth b' l'' Hne Hl'') Hl') in Hx.
        split; [by exists b', l''|]. intros ->.
        destruct (bucket_elem _ _ _ _ Hl'' Hx) as (e & He & Eb & _).
        destruct (bucket_elem _ _ _ q Hl) as (e' & He' & Eb' & _); [set_solver|].
        simplify_eq.
    + intros [(b' & l' & Hl' & Hx) Hne]. destruct (decide (b' = b)) as [->|Hb'].
      * exists b, (l1 ++ l2). split; [done|].
        rewrite (bucket_det _ _ _ _ Hl' Hl) in Hx. set_solver.
      * exists b', l'. split; [by apply Hoth|done].
Qed.
End del.

(** Unlinking the dentry [q] after [previous]. *)
Lemma ht_unlink_run s b q dd l1 l2 :
  index_ok s → bucket_ok s b (l1 ++ q :: l2) → dentries s !! q = Some dd →
  ∃ s', (match last l1 with
         | None => set_bucket b (d_ht_next dd)
         | Some prev => update_dentry_at prev (with_d_ht_next (d_ht_next dd))
         end) s = Some ((), s') ∧ table_frame s s' ∧ index_ok s' ∧
    (∀ x, in_index s' x ↔ in_index s x ∧ x ≠ q) ∧ dentries s' !! q = Some dd.
Proof.
  intros Hok Hl Hq. pose proof (bk_chain _ _ _ Hl) as Hc.
  pose proof (chain_NoDup _ _ _ _ Hc) as Hnd.
  destruct (chain_app _ _ _ _ _ Hc) as (o & (-> & dd' & Hdd & Hc2) & Hnil & Hlast).
  simplify_eq.
  pose proof (del_index_ok s b q l1 l2 Hok Hl) as Hfin.
  destruct (last l1) as [prev|] eqn:El.
  - apply last_Some in El as [l1' ->].
    destruct (bucket_elem _ _ _ prev Hl) as (pd & Hpd & _); [set_solver|].
    assert (prev ≠ q) as Hne.
    { intros ->. apply NoDup_app in Hnd as (_ & Hx & _). by apply (Hx q); set_solver. }
    rewrite (update_dentry_run s prev pd) by done. eexists. split; [reflexivity|].
    match goal with |- table_frame _ ?t ∧ _ => set (s' := t) end.
    assert (table_frame s s') as Hf.
    { split; [done|]. intros x. simpl. by apply insert_frame. }
    destruct (Hfin s' Hf) as [G1 G2].
    + simpl. rewrite <- !app_assoc in Hc |- *. simpl in *.
      eapply (chain_relink d_ht_next _ _ l1' prev pd _ (q :: l2) l2); [done|done| |done].
      apply NoDup_app in Hnd as (_ & Hx & _). intros Hin. apply (Hx prev); set_solver.
    + done.
    + intros x Hx. simpl. rewrite lookup_insert_ne; [done|set_solver].
    + split_and!; try done. simpl. by rewrite lookup_insert_ne.
  - apply last_None in El as ->. simpl app in *. unfold set_bucket.
    rewrite modify_run. eexists. split; [reflexivity|].
    match goal with |- table_frame _ ?t ∧ _ => set (s' := t) end.
    assert (table_frame s s') as Hf by done.
    destruct (Hfin s' Hf) as [G1 G2]; try done.
    + simpl. destruct (d_ht_next dd) as [n|] eqn:En.
      * by rewrite lookup_insert_eq.
      * by rewrite lookup_delete_eq.
    + intros b' Hb'. simpl. destruct (d_ht_next dd).
      * by rewrite lookup_insert_ne.
      * by rewrite lookup_delete_ne.
Qed.

(** The namespace's used bytes after a dentry leaves the table. *)
Definition release_alloc (dd : ServerDentry) (s : Server) : Server :=
  match namespaces s !! d_ns_entry dd with
  | Some n =>
    if 0 <? st_alloc (d_stat dd) then
      with_subs (ns_subscribe_notify_all (d_ns_entry dd) (subs s))
        (with_namespaces (<[d_ns_entry dd := with_ns_used_bytes
           (int64 (ns_used_bytes n + - st_alloc (d_stat dd))) n]> (namespaces s)) s)
    else s
  | None => s
  end.

Lemma index_with_ns s s' :
  inode_buckets s' = inode_buckets s → dentries s' = dentries s →
  index_ok s → index_ok s' ∧ ∀ p, in_index s' p ↔ in_index s p.
Proof.
  intros Eb Ed Hok. apply index_keep; [|done]. split; [done|].
  intros p d Hp. exists d. by rewrite Ed.
Qed.

Lemma release_alloc_frame dd s :
  inode_buckets (release_alloc dd s) = inode_buckets s ∧
  dentries (release_alloc dd s) = dentries s.
Proof.
  unfold release_alloc. destruct (namespaces s !! _); [|done]. by destruct (_ <? _).
Qed.

(** What a deletion leaves. *)
Lemma del_dentry_run s p d :
  index_ok s → dentries s !! p = Some d → inode_ok (d_inode d) →
  (∀ q dd, in_index s q → dentries s !! q = Some dd → is_Some (namespaces s !! d_ns_entry dd)) →
  ∃ found, (∀ q, found = Some q ↔ in_index s q ∧
             ∃ e, dentries s !! q = Some e ∧ d_inode e = d_inode d) ∧
  match found with
  | None => inode_index_del_dentry p s = Some (ENOENT, s)
  | Some q => ∃ dd s1, dentries s !! q = Some dd ∧
      inode_index_del_dentry p s = Some (0, release_alloc dd s1) ∧
      table_frame s s1 ∧ index_ok (release_alloc dd s1) ∧
      (∀ x, in_index (release_alloc dd s1) x ↔ in_index s x ∧ x ≠ q)
  end.
Proof.
  intros Hok Hp Hi Hns. set (b := inode_bucket_of (d_inode d)).
  destruct (Hok b) as [l Hl].
  destruct (find_update_run s (d_inode d) b l Hl Hi) as (l1 & l2 & found & -> & Hsp & Hrun).
  pose proof (found_spec s _ l1 l2 found Hok Hl Hsp) as Hfound.
  exists found. split; [done|].
  unfold inode_index_del_dentry. sstep. fold b. run_with Hrun. cbn beta iota.
  destruct found as [q|]; [|done].
  destruct (proj1 (Hfound q) eq_refl) as (Hq & dd & Hdd & E).
  destruct Hsp as [_ Hl2]. destruct l2 as [|x l2]; [done|].
  destruct Hl2 as (e & He & [[[= <-] _]|[? _]]); [|done].
  destruct (ht_unlink_run s b q dd l1 l2 Hok Hl Hdd) as (s1 & Hun & Hf & Hok1 & Hin & Hdd1).
  sstep. run_with Hun. exists dd, s1. split; [done|].
  destruct (release_alloc_frame dd s1) as [Eb Ed].
  destruct (index_with_ns s1 (release_alloc dd s1) Eb Ed Hok1) as [Hok2 Hin2].
  split; [|split; [done|split; [done|]]; intros y; by rewrite Hin2].
  destruct (Hns q dd Hq Hdd) as [n Hn].
  assert (namespaces s1 !! d_ns_entry dd = Some n) as Hn1
    by (rewrite (tf_server _ _ Hf); exact Hn).
  unfold release_alloc. rewrite Hn1. destruct (0 <? st_alloc (d_stat dd)); [|done].
  by erewrite bind_run by (by apply inc_alloc_bytes_run).
Qed.

(** Adding a dentry to a well-formed inode table succeeds exactly when no
    dentry of the table has its inode; then the table has one dentry more,
    found from now on, and nothing but the chain pointers changes. *)
Theorem inode_index_add_dentry_spec s p d :
  index_ok s → dentries s !! p = Some d → inode_ok (d_inode d) →
  ∃ rc s', inode_index_add_dentry p s = Some (rc, s') ∧ index_ok s' ∧ table_frame s s' ∧
    (rc = 0 ∧ (∀ q e, in_index s q → dentries s !! q = Some e → d_inode e ≠ d_inode d) ∧
       (∀ q, in_index s' q ↔ in_index s q ∨ q = p) ∨
     rc = EEXIST ∧ s' = s ∧
       ∃ q e, in_index s q ∧ dentries s !! q = Some e ∧ d_inode e = d_inode d).
Proof.
  intros Hok Hp Hi. destruct (add_dentry_run s p d Hok Hp Hi) as ([q|] & Hf & Hrun).
  - exists EEXIST, s. split_and!; try done; [by destruct s|]. right.
    destruct (proj1 (Hf q) eq_refl) as (Hq & e & He & E). split_and!; try done. by exists q, e.
  - destruct Hrun as (s' & Hrun & Hfr & Hok' & Hin). exists 0, s'. split_and!; try done.
    left. split_and!; try done. intros q e Hq He E.
    assert (None = Some q) as [=] by (apply Hf; eauto).
Qed.

(** Deleting a dentry removes from the table the dentry of that inode (which
    is the dentry itself when it is in the table), and no other; it returns
    ENOENT exactly when no dentry has the inode. The space the dentry had
    allocated is given back to its namespace. *)
Theorem inode_index_del_dentry_spec s p d :
  index_ok s → dentries s !! p = Some d → inode_ok (d_inode d) →
  (∀ q dd, in_index s q → dentries s !! q = Some dd → is_Some (namespaces s !! d_ns_entry dd)) →
  (∃ q dd n s', in_index s q ∧ dentries s !! q = Some dd ∧ d_inode dd = d_inode d ∧
     inode_index_del_dentry p s = Some (0, s') ∧ index_ok s' ∧
     (∀ x, in_index s' x ↔ in_index s x ∧ x ≠ q) ∧ (in_index s p → q = p) ∧
     namespaces s !! d_ns_entry dd = Some n ∧
     ns_used_bytes <$> namespaces s' !! d_ns_entry dd
     = Some (if 0 <? st_alloc (d_stat dd)
             then int64 (ns_used_bytes n - st_alloc (d_stat dd)) else ns_used_bytes n)) ∨
  (inode_index_del_dentry p s = Some (ENOENT, s) ∧
   ∀ q e, in_index s q → dentries s !! q = Some e → d_inode e ≠ d_inode d).
Proof.
  intros Hok Hp Hi Hns. destruct (del_dentry_run s p d Hok Hp Hi Hns) as ([q|] & Hf & Hrun).
  - left. destruct Hrun as (dd & s1 & Hdd & Hrun & Hfr & Hok' & Hin).
    destruct (proj1 (Hf q) eq_refl) as (Hq & e & He & E). assert (e = dd) as -> by congruence.
    destruct (Hns q dd Hq He) as [n Hn].
    exists q, dd, n, (release_alloc dd s1). split_and!; try done.
    + intros Hpi. by eapply (in_index_inj s q p).
    + assert (namespaces s1 !! d_ns_entry dd = Some n) as Hn1
        by (rewrite (tf_server _ _ Hfr); exact Hn).
      unfold release_alloc. rewrite Hn1. destruct (0 <? _); simpl.
      * by rewrite lookup_insert_eq.
      * by rewrite Hn1.
  - right. split; [done|]. intros q e Hq He E.
    assert (None = Some q) as [=] by (apply Hf; eauto).
Qed.

(** Without the storage engine, an inode is found exactly when a dentry of
    the table has it, and the dentry found is that one; looking up changes
    nothing. *)
Theorem inode_index_get_dentry_spec s thread i :
  STORAGE_ENABLED = false → index_ok s → inode_ok i →
  (∃ p d, inode_index_get_dentry thread i s = Some ((0, Some p), s) ∧ in_index s p ∧
     dentries s !! p = Some d ∧ d_inode d = i) ∨
  (inode_index_get_dentry thread i s = Some ((ENOENT, None), s) ∧
   ∀ p d, in_index s p → dentries s !! p = Some d → d_inode d ≠ i).
Proof.
  intros Hst Hok Hi. unfold inode_index_get_dentry. rewrite Hst.
  destruct (find_dentry_run s i Hok Hi) as ([p|] & Hrun & Hf); run_with Hrun.
  - left. destruct (proj1 (Hf p) eq_refl) as (Hp & d & Hd & E). by exists p, d.
  - right. split; [done|]. intros p d Hp Hd E.
    assert (None = Some p) as [=] by (apply Hf; eauto).
Qed.
End index.

(** ** Status updates *)

(** What a record's options and status make of a dentry's status: the binlog
    holds the options and the status, and a slave applies them. *)
Definition update_stat (o : StatModifyFlags) (req st : DEntryStat) : DEntryStat :=
  mkDEntryStat
    (if o_mode o then st_mode req else st_mode st)
    (if o_uid o then st_uid req else st_uid st)
    (if o_gid o then st_gid req else st_gid st)
    (st_btime st)
    (if o_atime o then st_atime req else st_atime st)
    (if o_ctime o then st_ctime req else st_ctime st)
    (if o_mtime o then st_mtime req else st_mtime st)
    (st_nlink st)
    (if o_size o then st_size req else st_size st)
    (if o_inc_alloc o then int64 (st_alloc st + st_alloc req) else st_alloc st)
    (if o_space_end o then st_space_end req else st_space_end st).

(** What a client asks for when it sets the size of a file: the flags say which
    fields; size and end of space only grow unless [FORCE] is given. *)
Definition set_dsize (flags now : Z) (req st : DEntryStat) : DEntryStat :=
  let force := has_flag flags FDIR_DENTRY_FIELD_MODIFIED_FLAG_FORCE in
  let fsize := has_flag flags FDIR_DENTRY_FIELD_MODIFIED_FLAG_FILE_SIZE in
  mkDEntryStat (st_mode st) (st_uid st) (st_gid st) (st_btime st) (st_atime st) (st_ctime st)
    (if fsize || has_flag flags FDIR_DENTRY_FIELD_MODIFIED_FLAG_MTIME then now else st_mtime st)
    (st_nlink st)
    (if fsize then (if force then st_size req else Z.max (st_size st) (st_size req))
     else st_size st)
    (if has_flag flags FDIR_DENTRY_FIELD_MODIFIED_FLAG_INC_ALLOC
     then int64 (st_alloc st + st_alloc req) else st_alloc st)
    (if has_flag flags FDIR_DENTRY_FIELD_MODIFIED_FLAG_SPACE_END
     then (if force then st_size req else Z.max (st_space_end st) (st_size req))
     else st_space_end st).

Section updates.
Context `{UniqSkiplist} `{ServerConfig} `{!StorageEngine}.

(** The state with the status of [p] changed. *)
Definition with_stat (s : Server) (p : ptr) (d : ServerDentry) (st : DEntryStat) : Server :=
  with_dentries (<[p := with_d_stat st d]> (dentries s)) s.

Lemma with_stat_lookup s p d st : dentries (with_stat s p d st) !! p = Some (with_d_stat st d).
Proof. simpl. apply lookup_insert_eq. Qed.

Lemma modify_with_stat s p d st f :
  modify_stat p f (with_stat s p d st) = Some ((), with_stat s p d (f st)).
Proof.
  rewrite (modify_stat_run _ p (with_d_stat st d)) by apply with_stat_lookup.
  unfold with_stat. simpl. unfold with_dentries. simpl. by rewrite insert_insert_eq.
Qed.

Lemma update_field_run s p d st (b : bool) f :
  update_field p b f (with_stat s p d st) = Some ((), with_stat s p d (if b then f st else st)).
Proof. unfold update_field. destruct b; [apply modify_with_stat|done]. Qed.

Lemma with_stat_same s p d : dentries s !! p = Some d → s = with_stat s p d (d_stat d).
Proof.
  intros Hp. unfold with_stat. rewrite insert_id; [by destruct s|].
  rewrite Hp. by destruct d.
Qed.

(** The namespace after its used bytes and subscribers were updated. *)
Definition add_used (ns : ptr) (n : NamespaceEntry) (inc : Z) (s : Server) : Server :=
  with_subs (ns_subscribe_notify_all ns (subs s))
    (with_namespaces (<[ns := with_ns_used_bytes (int64 (ns_used_bytes n + inc)) n]>
                        (namespaces s)) s).

Lemma inc_alloc_run s p d st n inc :
  namespaces s !! d_ns_entry d = Some n →
  dentry_set_inc_alloc_bytes p inc (with_stat s p d st)
  = Some ((), add_used (d_ns_entry d) n inc
                (with_stat s p d (with_st_alloc (int64 (st_alloc st + inc)) st))).
Proof.
  intros Hn. unfold dentry_set_inc_alloc_bytes.
  erewrite bind_run by apply modify_with_stat. cbn beta.
  erewrite bind_run by (apply load_dentry_run, with_stat_lookup). cbn beta.
  by rewrite (inc_alloc_bytes_run _ _ n) by done.
Qed.

Lemma update_dentry_at_run s p d n :
  dentries s !! p = Some d → namespaces s !! d_ns_entry d = Some n →
  let st' := update_stat (r_options (record s)) (r_stat (record s)) (d_stat d) in
  update_dentry p s = Some ((),
    if o_inc_alloc (r_options (record s))
    then add_used (d_ns_entry d) n (st_alloc (r_stat (record s))) (with_stat s p d st')
    else with_stat s p d st').
Proof.
  intros Hp Hn. unfold update_dentry. sstep.
  set (o := r_options (record s)). set (req := r_stat (record s)).
  rewrite (with_stat_same s p d Hp) at 1.
  do 8 (erewrite bind_run by apply update_field_run; cbn beta).
  destruct (o_inc_alloc o) eqn:Ei.
  - rewrite (inc_alloc_run s p d _ n) by done. do 3 f_equal. unfold update_stat.
    rewrite Ei. destruct (d_stat d). unfold with_st_alloc. simpl.
    destruct (o_mode o), (o_atime o), (o_ctime o), (o_mtime o), (o_uid o), (o_gid o),
      (o_size o), (o_space_end o); reflexivity.
  - unfold mret, M_ret. do 3 f_equal. unfold update_stat. rewrite Ei. destruct (d_stat d).
    destruct (o_mode o), (o_atime o), (o_ctime o), (o_mtime o), (o_uid o), (o_gid o),
      (o_size o), (o_space_end o); reflexivity.
Qed.

(** Setting the size: the state between two steps of the function. *)
Definition dsize_state (s : Server) (p : ptr) (d : ServerDentry) (rec : BinlogRecord)
    (o : StatModifyFlags) (req st : DEntryStat) : Server :=
  with_record (with_r_options o (with_r_stat req rec)) (with_stat s p d st).

Lemma dsize_lookup s p d rec o req st :
  dentries (dsize_state s p d rec o req st) !! p = Some (with_d_stat st d).
Proof. apply with_stat_lookup. Qed.

Lemma dsize_modify s p d rec o req st f :
  modify_stat p f (dsize_state s p d rec o req st)
  = Some ((), dsize_state s p d rec o req (f st)).
Proof.
  rewrite (modify_stat_run _ p (with_d_stat st d)) by apply dsize_lookup.
  unfold dsize_state, with_stat, with_dentries, with_record. simpl. by rewrite insert_insert_eq.
Qed.

Definition size_changes (force : bool) (old new : Z) : bool :=
  (force || (old <? new)) && negb (old =? new).

Lemma check_set_size_run s p d rec o req st force :
  let b := size_changes force (st_size st) (st_size req) in
  check_set_size p force (dsize_state s p d rec o req st)
  = Some ((), dsize_state s p d rec (if b then with_o_size true o else o) req
                (if b then with_st_size (st_size req) st else st)).
Proof.
  unfold check_set_size, size_changes.
  erewrite bind_run by (apply load_dentry_run, dsize_lookup). cbn beta. sstep. simpl.
  destruct (force || (st_size st <? st_size req)); [|done].
  destruct (st_size st =? st_size req); [done|]. simpl.
  by erewrite bind_run by apply dsize_modify.
Qed.

Lemma check_set_mtime_run s p d rec o req st :
  let b := negb (st_mtime st =? current_time s) in
  check_set_mtime p (dsize_state s p d rec o req st)
  = Some ((), dsize_state s p d rec (if b then with_o_mtime true o else o)
                (if b then with_st_mtime (current_time s) req else req)
                (if b then with_st_mtime (current_time s) st else st)).
Proof.
  unfold check_set_mtime.
  erewrite bind_run by (apply load_dentry_run, dsize_lookup). cbn beta. sstep. simpl.
  destruct (st_mtime st =? current_time s); [done|]. simpl.
  by erewrite bind_run by apply dsize_modify.
Qed.

Lemma check_set_space_end_run s p d rec o req st force :
  let b := size_changes force (st_space_end st) (st_size req) in
  check_set_space_end p force (dsize_state s p d rec o req st)
  = Some ((), dsize_state s p d rec (if b then with_o_space_end true o else o)
                (if b then with_st_space_end (st_size req) req else req)
                (if b then with_st_space_end (st_size req) st else st)).
Proof.
  unfold check_set_space_end, size_changes.
  erewrite bind_run by (apply load_dentry_run, dsize_lookup). cbn beta. sstep. simpl.
  destruct (force || (st_space_end st <? st_size req)); [|done].
  destruct (st_space_end st =? st_size req); [done|]. simpl.
  by erewrite bind_run by apply dsize_modify.
Qed.

Lemma dsize_inc_alloc s p d n rec o req st :
  namespaces s !! d_ns_entry d = Some n →
  (r ← get_rec; dentry_set_inc_alloc_bytes p (st_alloc (r_stat r));;
   set_option (with_o_inc_alloc true)) (dsize_state s p d rec o req st)
  = Some ((), add_used (d_ns_entry d) n (st_alloc req)
      (dsize_state s p d rec (with_o_inc_alloc true o) req
         (with_st_alloc (int64 (st_alloc st + st_alloc req)) st))).
Proof.
  intros Hn. sstep. unfold dentry_set_inc_alloc_bytes. rewrite bind_bind.
  erewrite bind_run by apply dsize_modify. cbn beta. rewrite bind_bind.
  erewrite bind_run by (apply load_dentry_run, dsize_lookup). cbn beta.
  by erewrite bind_run by (by apply (inc_alloc_bytes_run _ _ n)).
Qed.

(** The status after setting the size, as the steps compute it. *)
Definition dsize_steps (flags now : Z) (req st : DEntryStat) :
    StatModifyFlags * DEntryStat * DEntryStat :=
  let force := has_flag flags FDIR_DENTRY_FIELD_MODIFIED_FLAG_FORCE in
  let fsize := has_flag flags FDIR_DENTRY_FIELD_MODIFIED_FLAG_FILE_SIZE in
  let b1 := fsize && size_changes force (st_size st) (st_size req) in
  let b2 := (fsize || has_flag flags FDIR_DENTRY_FIELD_MODIFIED_FLAG_MTIME) &&
            negb (st_mtime st =? now) in
  let b3 := has_flag flags FDIR_DENTRY_FIELD_MODIFIED_FLAG_SPACE_END &&
            size_changes force (st_space_end st) (st_size req) in
  let b4 := has_flag flags FDIR_DENTRY_FIELD_MODIFIED_FLAG_INC_ALLOC in
  let req' := mkDEntryStat (st_mode req) (st_uid req) (st_gid req) (st_btime req)
    (st_atime req) (st_ctime req) (if b2 then now else st_mtime req) (st_nlink req)
    (st_size req) (st_alloc req) (if b3 then st_size req else st_space_end req) in
  let o := mkStatModifyFlags false false false b2 false false b1 b4 b3 in
  (o, req', update_stat o req' st).

Lemma size_changes_max force old new :
  (if size_changes force old new then new else old)
  = if force then new else Z.max old new.
Proof.
  unfold size_changes. destruct force; simpl.
  - destruct (Z.eqb_spec old new); simpl; lia.
  - destruct (Z.ltb_spec old new), (Z.eqb_spec old new); simpl; lia.
Qed.

Lemma dsize_steps_spec flags now req st :
  snd (dsize_steps flags now req st) = set_dsize flags now req st.
Proof.
  unfold dsize_steps, set_dsize, update_stat. simpl.
  f_equal.
  - destruct (has_flag flags _ || has_flag flags _); simpl; [|done].
    by destruct (Z.eqb_spec (st_mtime st) now).
  - destruct (has_flag flags FDIR_DENTRY_FIELD_MODIFIED_FLAG_FILE_SIZE); simpl; [|done].
    apply size_changes_max.
  - destruct (has_flag flags FDIR_DENTRY_FIELD_MODIFIED_FLAG_SPACE_END); simpl; [|done].
    rewrite <- (size_changes_max _ (st_space_end st)). by destruct (size_changes _ _ _).
Qed.

Lemma has_flag_lor flags f g :
  has_flag (Z.lor flags g) f = has_flag flags f || has_flag g f.
Proof.
  unfold has_flag. rewrite Z.land_lor_distr_l. rewrite <- negb_andb. f_equal.
  destruct (Z.eqb_spec (Z.land flags f) 0) as [->|Hf]; [by rewrite Z.lor_0_l|]. simpl.
  apply Z.eqb_neq. intros [E _]%Z.lor_eq_0_iff. done.
Qed.

Lemma flags_after_size flags f :
  f = FDIR_DENTRY_FIELD_MODIFIED_FLAG_MTIME ∨
  f = FDIR_DENTRY_FIELD_MODIFIED_FLAG_SPACE_END ∨
  f = FDIR_DENTRY_FIELD_MODIFIED_FLAG_INC_ALLOC →
  let fsize := has_flag flags FDIR_DENTRY_FIELD_MODIFIED_FLAG_FILE_SIZE in
  has_flag (if fsize then Z.lor flags FDIR_DENTRY_FIELD_MODIFIED_FLAG_MTIME else flags) f
  = has_flag flags f || (fsize && bool_decide (f = FDIR_DENTRY_FIELD_MODIFIED_FLAG_MTIME)).
Proof.
  intros Hf fsize. destruct fsize; simpl; [|by rewrite orb_false_r].
  rewrite has_flag_lor. f_equal. by destruct Hf as [->|[->| ->]].
Qed.

Section steps.
Context (s : Server) (p : ptr) (d : ServerDentry) (rec : BinlogRecord) (n : NamespaceEntry).
Context (Hn : namespaces s !! d_ns_entry d = Some n).
Let T := dsize_state s p d rec.

Lemma step_size (b : bool) force flags o req st :
  let c := b && size_changes force (st_size st) (st_size req) in
  (if b then check_set_size p force;;
             mret (Z.lor flags FDIR_DENTRY_FIELD_MODIFIED_FLAG_MTIME)
   else mret flags) (T o req st)
  = Some (if b then Z.lor flags FDIR_DENTRY_FIELD_MODIFIED_FLAG_MTIME else flags,
          T (if c then with_o_size true o else o) req
            (if c then with_st_size (st_size req) st else st)).
Proof using All.
  destruct b; [|done]. by erewrite bind_run by apply check_set_size_run.
Qed.

Lemma step_mtime (b : bool) o req st :
  let c := b && negb (st_mtime st =? current_time s) in
  (if b then check_set_mtime p else mret ()) (T o req st)
  = Some ((), T (if c then with_o_mtime true o else o)
                (if c then with_st_mtime (current_time s) req else req)
                (if c then with_st_mtime (current_time s) st else st)).
Proof using All. destruct b; [|done]. apply check_set_mtime_run. Qed.

Lemma step_space_end (b force : bool) o req st :
  let c := b && size_changes force (st_space_end st) (st_size req) in
  (if b then check_set_space_end p force else mret ()) (T o req st)
  = Some ((), T (if c then with_o_space_end true o else o)
                (if c then with_st_space_end (st_size req) req else req)
                (if c then with_st_space_end (st_size req) st else st)).
Proof using All. destruct b; [|done]. apply check_set_space_end_run. Qed.

Lemma step_inc_alloc (b : bool) o req st :
  (if b then r ← get_rec; dentry_set_inc_alloc_bytes p (st_alloc (r_stat r));;
             set_option (with_o_inc_alloc true)
   else mret ()) (T o req st)
  = Some ((), (if b then add_used (d_ns_entry d) n (st_alloc req) else id)
      (T (if b then with_o_inc_alloc true o else o) req
         (if b then with_st_alloc (int64 (st_alloc st + st_alloc req)) st else st))).
Proof using All. destruct b; [|done]. by apply dsize_inc_alloc. Qed.
End steps.

Lemma check_set_dentry_size_run s thread p d n :
  STORAGE_ENABLED = false → index_ok s → in_index s p → dentries s !! p = Some d →
  r_inode (record s) = d_inode d → namespaces s !! d_ns_entry d = Some n →
  let flags := r_modified (record s) in
  let rec := with_r_modified 0 (with_r_me (with_re_dentry (Some p) (r_me (record s)))
               (record s)) in
  let req := r_stat (record s) in
  ∀ o' req' st', dsize_steps flags (current_time s) req (d_stat d) = (o', req', st') →
  inode_index_check_set_dentry_size thread s
  = Some (0, (if has_flag flags FDIR_DENTRY_FIELD_MODIFIED_FLAG_INC_ALLOC
              then add_used (d_ns_entry d) n (st_alloc req) else id)
               (dsize_state s p d rec o' req' st')).
Proof.
  intros Hst Hok Hin Hp Hri Hn flags rec req o' req' st' [= <- <- <-].
  unfold inode_index_check_set_dentry_size. sstep.
  destruct (in_index_dentry s p Hin) as (d0 & Hd0 & Hi). simplify_eq.
  destruct (find_dentry_run s (d_inode d) Hok Hi) as (r & Hrun & Hf).
  assert (r = Some p) as -> by (apply Hf; eauto).
  assert (inode_index_get_dentry thread (r_inode (record s)) s = Some ((0, Some p), s)) as Hget
    by (unfold inode_index_get_dentry; rewrite Hri; by run_with Hrun).
  run_with Hget. cbn beta iota. unfold set_me_dentry. sstep. cbn [Z.eqb negb]. sstep. sstep.
  match goal with |- _ ?t = _ => assert (t = dsize_state s p d rec no_options req (d_stat d)) as -> end.
  { unfold dsize_state. rewrite <- (with_stat_same s p d Hp). by destruct s, record. }
  erewrite bind_run by (apply (step_size s p d rec n Hn)). cbn beta.
  rewrite !flags_after_size by auto.
  erewrite bind_run by (apply (step_mtime s p d rec n Hn)). cbn beta.
  erewrite bind_run by (apply (step_space_end s p d rec n Hn)). cbn beta.
  erewrite bind_run by (apply (step_inc_alloc s p d rec n Hn)). cbn beta.
  unfold mret, M_ret. do 2 f_equal.
  rewrite (bool_decide_true _ eq_refl), !bool_decide_false, andb_true_r, andb_false_r,
    !orb_false_r by done.
  rewrite (orb_comm (has_flag flags FDIR_DENTRY_FIELD_MODIFIED_FLAG_MTIME)).
  fold flags.
  destruct (has_flag flags FDIR_DENTRY_FIELD_MODIFIED_FLAG_FILE_SIZE &&
            size_changes _ (st_size (d_stat d)) _); simpl;
    (destruct ((has_flag flags FDIR_DENTRY_FIELD_MODIFIED_FLAG_FILE_SIZE ||
               has_flag flags FDIR_DENTRY_FIELD_MODIFIED_FLAG_MTIME) && _); simpl;
     (destruct (has_flag flags FDIR_DENTRY_FIELD_MODIFIED_FLAG_SPACE_END && _); simpl;
      destruct (has_flag flags FDIR_DENTRY_FIELD_MODIFIED_FLAG_INC_ALLOC);
      unfold req, update_stat, with_st_size, with_st_mtime, with_st_space_end, with_st_alloc;
      destruct (d_stat d), (r_stat (record s)); reflexivity)).
Qed.

Lemma index_get_run s thread p d :
  index_ok s → in_index s p → dentries s !! p = Some d →
  inode_index_get_dentry thread (d_inode d) s = Some ((0, Some p), s).
Proof.
  intros Hok Hin Hp. destruct (in_index_dentry s p Hin) as (d0 & Hd0 & Hi). simplify_eq.
  destruct (find_dentry_run s (d_inode d) Hok Hi) as (r & Hrun & Hf).
  assert (r = Some p) as -> by (apply Hf; eauto).
  unfold inode_index_get_dentry. by run_with Hrun.
Qed.

Lemma index_update_run s thread p d n :
  index_ok s → in_index s p → dentries s !! p = Some d →
  r_inode (record s) = d_inode d → namespaces s !! d_ns_entry d = Some n →
  let st' := update_stat (r_options (record s)) (r_stat (record s)) (d_stat d) in
  ∃ s', inode_index_update_dentry thread s = Some (0, s') ∧
    dentries s' = <[p := with_d_stat st' d]> (dentries s) ∧
    ns_used_bytes <$> namespaces s' !! d_ns_entry d
    = Some (if o_inc_alloc (r_options (record s))
            then int64 (ns_used_bytes n + st_alloc (r_stat (record s))) else ns_used_bytes n).
Proof.
  intros Hok Hin Hp Hri Hn st'. unfold inode_index_update_dentry. sstep. rewrite Hri.
  erewrite bind_run by (by apply index_get_run). cbn beta iota.
  unfold set_me_dentry. sstep. cbn [Z.eqb negb]. sstep.
  erewrite bind_run by (by apply (update_dentry_at_run _ p d n)). cbn beta.
  eexists. split; [reflexivity|]. simpl. destruct (o_inc_alloc (r_options (record s))).
  - split; [done|]. simpl. by rewrite lookup_insert_eq.
  - split; [done|]. simpl. by rewrite Hn.
Qed.

(** Setting the size of a file that is in the table always succeeds; its
    size and end of space become the requested size, or grow to it when
    [FORCE] is not given, its modification time becomes the current time when
    the size or the time is to be set, the allocated space grows by the
    requested amount, which is charged to the namespace, and every other
    field and every other dentry stays the same. *)
Theorem inode_index_check_set_dentry_size_spec s thread p d n :
  STORAGE_ENABLED = false → index_ok s → in_index s p → dentries s !! p = Some d →
  r_inode (record s) = d_inode d → namespaces s !! d_ns_entry d = Some n →
  let flags := r_modified (record s) in
  let req := r_stat (record s) in
  ∃ s', inode_index_check_set_dentry_size thread s = Some (0, s') ∧
    dentries s' = <[p := with_d_stat (set_dsize flags (current_time s) req (d_stat d)) d]>
                    (dentries s) ∧
    ns_used_bytes <$> namespaces s' !! d_ns_entry d
    = Some (if has_flag flags FDIR_DENTRY_FIELD_MODIFIED_FLAG_INC_ALLOC
            then int64 (ns_used_bytes n + st_alloc req) else ns_used_bytes n) ∧
    re_dentry (r_me (record s')) = Some p.
Proof.
  intros Hst Hok Hin Hp Hri Hn flags req.
  destruct (dsize_steps flags (current_time s) req (d_stat d)) as [[o' req'] st'] eqn:E.
  eexists. split; [by eapply check_set_dentry_size_run|].
  fold flags req. rewrite <- dsize_steps_spec, E. simpl.
  destruct (has_flag flags FDIR_DENTRY_FIELD_MODIFIED_FLAG_INC_ALLOC); simpl.
  - by rewrite lookup_insert_eq.
  - by rewrite Hn.
Qed.

(** A replica that applies the record the master logged for a size change,
    to the same file with the same status, gets the master's new status and
    charges its namespace the same: what the master decided (the flags, the
    current time, the comparison with the old size) is all in the record's
    options and status. *)
Theorem set_dentry_size_replicates s thread p d n t thread' q e m :
  STORAGE_ENABLED = false → index_ok s → in_index s p → dentries s !! p = Some d →
  r_inode (record s) = d_inode d → namespaces s !! d_ns_entry d = Some n →
  index_ok t → in_index t q → dentries t !! q = Some e → d_inode e = d_inode d →
  d_stat e = d_stat d → namespaces t !! d_ns_entry e = Some m →
  ns_used_bytes m = ns_used_bytes n →
  ∃ s' t', inode_index_check_set_dentry_size thread s = Some (0, s') ∧
    inode_index_update_dentry thread' (with_record (record s') t) = Some (0, t') ∧
    d_stat <$> dentries t' !! q = d_stat <$> dentries s' !! p ∧
    ns_used_bytes <$> namespaces t' !! d_ns_entry e
    = ns_used_bytes <$> namespaces s' !! d_ns_entry d.
Proof.
  intros Hst Hok Hin Hp Hri Hn Hokt Hint Hq Ei Est Hm Eu.
  set (flags := r_modified (record s)). set (req := r_stat (record s)).
  destruct (dsize_steps flags (current_time s) req (d_stat d)) as [[o' req'] st'] eqn:E.
  pose proof (check_set_dentry_size_run s thread p d n Hst Hok Hin Hp Hri Hn o' req' st' E)
    as Hrun.
  match type of Hrun with _ = Some (0, ?x) => set (s' := x) in * end.
  assert (record s' = record (dsize_state s p d
    (with_r_modified 0 (with_r_me (with_re_dentry (Some p) (r_me (record s))) (record s)))
    o' req' st')) as Erec by (unfold s'; by destruct (has_flag _ _)).
  assert (dentries s' = <[p := with_d_stat st' d]> (dentries s)) as Ed
    by (unfold s'; by destruct (has_flag _ _)).
  destruct (index_with_ns t (with_record (record s') t) eq_refl eq_refl Hokt) as [Hokt' Hint'].
  destruct (index_update_run (with_record (record s') t) thread' q e m) as
    (t' & Hrun' & Edt & Eut); [done|by apply Hint'|done| |done|].
  { simpl. rewrite Erec. simpl. by rewrite Hri. }
  exists s', t'. split_and!; [done|done| |].
  - rewrite Edt, Ed, !lookup_insert_eq. simpl. f_equal. rewrite Erec, Est.
    unfold dsize_steps in E. by injection E as <- <- <-.
  - rewrite Eut. cbn [record with_record]. rewrite Erec. unfold s'.
    unfold dsize_steps in E. injection E as <- <- <-.
    simpl. fold flags.
    destruct (has_flag flags FDIR_DENTRY_FIELD_MODIFIED_FLAG_INC_ALLOC); simpl.
    + rewrite lookup_insert_eq. simpl. by rewrite Eu.
    + by rewrite Hn, Eu.
Qed.
End updates.

(** ** Extended attributes as a finite map *)

Section kv.
Implicit Types l : list (string * string).

(** The pairs of a dentry, and the map they stand for. *)
Definition kv_map l : gmap string string := list_to_map l.

Lemma kv_find_Some l k i :
  kv_find k l = Some i → ∃ v, l !! i = Some (k, v).
Proof.
  unfold kv_find. intros E. apply fmap_Some in E as ([j [k' v]] & Hf & ->).
  apply list_find_Some in Hf as (Hj & Hk & _). simpl in *. subst k'. by exists v.
Qed.

Lemma kv_find_None l k : kv_find k l = None → k ∉ l.*1.
Proof.
  unfold kv_find. intros E. apply fmap_None in E. apply list_find_None in E.
  intros Hk. apply list_elem_of_fmap in Hk as ([k' v] & -> & Hin).
  rewrite Forall_forall in E. by apply (E _ Hin).
Qed.

Lemma kv_map_lookup l k v i :
  NoDup l.*1 → l !! i = Some (k, v) → kv_map l !! k = Some v.
Proof.
  intros Hnd Hi. apply elem_of_list_to_map_1; [done|]. by eapply list_elem_of_lookup_2.
Qed.

Lemma kv_map_None l k : kv_map l !! k = None ↔ k ∉ l.*1.
Proof. symmetry. apply not_elem_of_list_to_map. Qed.

Lemma kv_map_snoc l k v : k ∉ l.*1 → kv_map (l ++ [(k, v)]) = <[k := v]> (kv_map l).
Proof. intros Hk. unfold kv_map. by rewrite list_to_map_snoc. Qed.

Lemma kv_map_split l1 l2 k v :
  NoDup (l1 ++ (k, v) :: l2).*1 →
  kv_map (l1 ++ (k, v) :: l2) = <[k := v]> (kv_map (l1 ++ l2)) ∧
  kv_map (l1 ++ l2) !! k = None.
Proof.
  intros Hnd. split.
  - unfold kv_map. rewrite (list_to_map_proper _ ((k, v) :: l1 ++ l2)); [done|done|].
    symmetry. apply Permutation_middle.
  - rewrite kv_map_None, fmap_app. rewrite fmap_app, fmap_cons in Hnd. simpl in Hnd.
    apply NoDup_app in Hnd as (_ & Hd & Hnd). apply NoDup_cons in Hnd as [Hk _].
    intros [Hin|Hin]%elem_of_app; [|done]. apply (Hd k Hin). set_solver.
Qed.

Lemma kv_map_alter l k v v' i :
  NoDup l.*1 → l !! i = Some (k, v) →
  let l' := alter (λ kv, (fst kv, v')) i l in
  kv_map l' = <[k := v']> (kv_map l) ∧ l'.*1 = l.*1 ∧ length l' = length l.
Proof.
  intros Hnd Hi l'. destruct (list_elem_of_split_length _ _ _ Hi) as (l1 & l2 & -> & ->).
  assert (l' = l1 ++ (k, v') :: l2) as ->.
  { unfold l'. rewrite <- (Nat.add_0_r (length l1)). by rewrite alter_app_r. }
  split_and!.
  - destruct (kv_map_split l1 l2 k v Hnd) as [-> _]. rewrite insert_insert_eq.
    by apply kv_map_split; rewrite fmap_app in Hnd |- *.
  - by rewrite !fmap_app.
  - by rewrite !length_app.
Qed.

Lemma kv_map_delete l k v i :
  NoDup l.*1 → l !! i = Some (k, v) →
  kv_map (base.delete i l) = delete k (kv_map l) ∧ NoDup (base.delete i l).*1 ∧
  S (length (base.delete i l)) = length l.
Proof.
  intros Hnd Hi. destruct (list_elem_of_split_length _ _ _ Hi) as (l1 & l2 & -> & ->).
  rewrite delete_middle. split_and!.
  - destruct (kv_map_split l1 l2 k v Hnd) as [-> Hk]. by rewrite delete_insert_id.
  - rewrite fmap_app, fmap_cons in Hnd. rewrite fmap_app.
    apply NoDup_app in Hnd as (H1 & Hd & H2). apply NoDup_cons in H2 as [_ H2].
    apply NoDup_app. split_and!; [done| |done]. intros x Hx Hx2. apply (Hd x Hx). set_solver.
  - rewrite !length_app. simpl. lia.
Qed.
End kv.

Definition pairs (a : option KvArray) : list (string * string) :=
  match a with Some a => kv_elts a | None => [] end.

(** Different keys, room for the pairs, and a capacity some allocator has. *)
Definition kv_ok (a : option KvArray) : Prop :=
  match a with
  | None => True
  | Some a => NoDup (kv_elts a).*1 ∧ Z.of_nat (length (kv_elts a)) ≤ kv_alloc a ∧
      kv_alloc a ∈ [2; 4; 8; 16; 32; 64]
  end.

Definition FDIR_XATTR_KVARRAY_MAX_ELEMENTS : Z := 64.

Section xattr.
Context `{UniqSkiplist} `{ServerConfig} `{!StorageEngine}.
Context (Hstorage : STORAGE_ENABLED = false).

Definition xattrs (d : ServerDentry) : gmap string string := kv_map (pairs (d_kv_array d)).

(** The state with another array for [p], after some allocations. *)
Definition kv_state (s : Server) (p : ptr) (d : ServerDentry) (a : option KvArray)
    (m : option nat) : Server :=
  with_mem_avail m (with_dentries (<[p := with_d_kv_array a d]> (dentries s)) s).

Lemma kv_state_lookup s p d a m :
  dentries (kv_state s p d a m) !! p = Some (with_d_kv_array a d).
Proof using Type. simpl. apply lookup_insert_eq. Qed.

Lemma kv_state_same s p d :
  dentries s !! p = Some d → s = kv_state s p d (d_kv_array d) (mem_avail s).
Proof using Type.
  intros Hp. unfold kv_state. rewrite insert_id; [by destruct s|]. rewrite Hp. by destruct d.
Qed.

Lemma set_kv_run s p d a m a' :
  set_kv_array p a' (kv_state s p d a m) = Some ((), kv_state s p d (Some a') m).
Proof using Type.
  unfold set_kv_array.
  rewrite (update_dentry_run _ p (with_d_kv_array a d)) by apply kv_state_lookup.
  unfold kv_state, with_mem_avail, with_dentries. simpl. by rewrite insert_insert_eq.
Qed.

Lemma alloc_run s p d a m :
  ∃ (ok : bool) m', try_alloc (kv_state s p d a m) = Some (ok, kv_state s p d a m').
Proof using Type.
  destruct (try_alloc_run (kv_state s p d a m)) as [ok Hok]. exists ok. eexists.
  rewrite Hok. reflexivity.
Qed.

Lemma get_xattr_run s p d name :
  dentries s !! p = Some d →
  match kv_find name (pairs (d_kv_array d)) with
  | Some i => get_xattr p name s = Some ((0, Some i), s)
  | None => get_xattr p name s = Some ((ENODATA, None), s)
  end.
Proof using All.
  intros Hp. unfold get_xattr. rewrite Hstorage.
  erewrite bind_run by reflexivity. cbn [Z.eqb negb].
  assert ((d ← load_dentry p;
    match d_kv_array d with
    | Some a => match kv_find name (kv_elts a) with
                | Some i => mret (0, Some i) | None => mret (ENODATA, None) end
    | None => mret (ENODATA, None) end) s
    = Some (match kv_find name (pairs (d_kv_array d)) with
            | Some i => (0, Some i) | None => (ENODATA, None) end, s)) as ->.
  { sstep. destruct (d_kv_array d) as [a|]; simpl; [|done]. by destruct (kv_find _ _). }
  by destruct (kv_find _ _).
Qed.

(** A slot for one more pair. *)
Lemma check_alloc_run s p d a m :
  kv_ok a →
  ∃ rc a' m', check_alloc_kvpair p (kv_state s p d a m) = Some (rc, kv_state s p d a' m') ∧
    pairs a' = pairs a ∧ kv_ok a' ∧
    (rc = 0 ∧ (∃ b, a' = Some b ∧ Z.of_nat (length (kv_elts b)) < kv_alloc b) ∨
     rc = ENOMEM ∨
     rc = EOVERFLOW ∧ Z.of_nat (length (pairs a)) = FDIR_XATTR_KVARRAY_MAX_ELEMENTS).
Proof using Type.
  intros Hok. unfold check_alloc_kvpair.
  erewrite bind_run by (apply load_dentry_run, kv_state_lookup). cbn beta.
  cbn [d_kv_array with_d_kv_array]. destruct a as [a|].
  - destruct Hok as (Hnd & Hlen & Hal).
    destruct (Z.eqb_spec (Z.of_nat (length (kv_elts a))) (kv_alloc a)) as [E|E].
    2: { eexists 0, (Some a), m. split; [reflexivity|]. split_and!; try done. left.
         split; [done|]. exists a. split; [done|]. lia. }
    assert (dentry_get_kvarray_allocator_by_capacity (kv_alloc a * 2) = None ∧ kv_alloc a = 64 ∨
      ∃ i, dentry_get_kvarray_allocator_by_capacity (kv_alloc a * 2) = Some i ∧
        kvarray_capacity i = kv_alloc a * 2 ∧ kvarray_capacity i ∈ [2; 4; 8; 16; 32; 64])
      as [[-> E64]|(i & -> & Hcap & Hin)].
    { repeat (apply elem_of_cons in Hal as [->|Hal];
        [first [left; split; reflexivity | right; eexists; split; [reflexivity|];
           split; [reflexivity|apply (bool_decide_unpack _); reflexivity]]|]).
      by apply elem_of_nil in Hal. }
    { exists EOVERFLOW, (Some a), m. simpl. split; [reflexivity|]. split_and!; try done.
      right. right. split; [done|]. simpl. rewrite E, E64. done. }
    cbn [fmap option_fmap option_map].
    destruct (alloc_run s p d (Some a) m) as (ok & m' & Hal'). run_with Hal'.
    destruct ok; cbn [negb].
    + erewrite bind_run by apply set_kv_run. cbn beta. eexists 0, _, m'.
      split; [reflexivity|]. split; [done|]. simpl. split; [split_and!; [done|lia|done]|].
      left. split; [done|]. eexists. split; [reflexivity|]. simpl. rewrite Hcap.
      repeat (apply elem_of_cons in Hal as [Ea|Hal]; [lia|]). by apply elem_of_nil in Hal.
    + exists ENOMEM, (Some a), m'. split; [reflexivity|]. split_and!; try done. by right; left.
  - destruct (alloc_run s p d None m) as (ok & m' & Hal'). run_with Hal'. destruct ok; cbn [negb].
    + erewrite bind_run by apply set_kv_run. cbn beta. eexists 0, _, m'.
      split; [reflexivity|]. split; [done|]. simpl.
      split; [split_and!; [constructor|done|apply (bool_decide_unpack _); reflexivity]|].
      left. split; [done|]. eexists. split; [reflexivity|]. done.
    + exists ENOMEM, None, m'. split; [reflexivity|]. split_and!; try done. by right; left.
Qed.

Lemma kv_find_map l name :
  NoDup l.*1 →
  match kv_find name l with
  | Some i => ∃ v, l !! i = Some (name, v) ∧ kv_map l !! name = Some v
  | None => kv_map l !! name = None
  end.
Proof using Type.
  intros Hnd. destruct (kv_find name l) as [i|] eqn:E.
  - destruct (kv_find_Some _ _ _ E) as [v Hi]. exists v. split; [done|].
    by eapply kv_map_lookup.
  - by apply kv_map_None, kv_find_None.
Qed.

Lemma kv_ok_NoDup a : kv_ok a → NoDup (pairs a).*1.
Proof using Type. destruct a as [a|]; simpl; [by intros (? & _)|constructor]. Qed.

(** Replacing the value of a pair. *)
Lemma replace_value_run s p d m i k v v' :
  kv_ok (d_kv_array d) → pairs (d_kv_array d) !! i = Some (k, v) →
  ∃ a', (d ← load_dentry p; a ← non_null (d_kv_array d);
    set_kv_array p (mkKvArray (kv_alloc a)
      (alter (λ kv, (fst kv, v')) i (kv_elts a)));; mret 0) (kv_state s p d (d_kv_array d) m)
    = Some (0, kv_state s p d a' m) ∧ kv_ok a' ∧
    kv_map (pairs a') = <[k := v']> (kv_map (pairs (d_kv_array d))).
Proof using Type.
  intros Hok Hi. destruct (d_kv_array d) as [a|] eqn:Ea; [|done].
  erewrite bind_run by (apply load_dentry_run, kv_state_lookup). cbn beta.
  cbn [d_kv_array with_d_kv_array]. sstep.
  erewrite bind_run by apply set_kv_run. cbn beta.
  destruct Hok as (Hnd & Hlen & Hal).
  destruct (kv_map_alter (kv_elts a) k v v' i Hnd Hi) as (E1 & E2 & E3).
  eexists. split; [reflexivity|]. simpl. split; [|done].
  split_and!; [by rewrite E2|by rewrite E3|done].
Qed.

(** Appending a pair. *)
Lemma append_run s p d b m k v :
  kv_ok (Some b) → Z.of_nat (length (kv_elts b)) < kv_alloc b → k ∉ (kv_elts b).*1 →
  ∃ a', (append_kvpair p (k, v);; mret 0) (kv_state s p d (Some b) m)
    = Some (0, kv_state s p d a' m) ∧ kv_ok a' ∧
    kv_map (pairs a') = <[k := v]> (kv_map (kv_elts b)).
Proof using Type.
  intros (Hnd & Hlen & Hal) Hlt Hk. unfold append_kvpair.
  rewrite bind_bind. erewrite bind_run by (apply load_dentry_run, kv_state_lookup).
  cbn beta. cbn [d_kv_array with_d_kv_array]. rewrite bind_bind. sstep.
  erewrite bind_run by apply set_kv_run. cbn beta. eexists. split; [reflexivity|].
  simpl. split; [|by apply kv_map_snoc]. split_and!; [|rewrite length_app; simpl; lia|done].
  rewrite fmap_app. simpl. apply NoDup_app. split_and!; [done| |apply NoDup_singleton].
  intros x Hx ->%list_elem_of_singleton. done.
Qed.

(** Setting an attribute that is not there. *)
Lemma set_new_run s p d a m k v :
  kv_ok a → k ∉ (pairs a).*1 →
  ∃ rc a' m', (rc ← check_alloc_kvpair p;
    if negb (rc =? 0) then mret rc
    else
      ok ← try_alloc;
      if negb ok then mret ENOMEM
      else
        ok ← try_alloc;
        if negb ok then mret ENOMEM
        else append_kvpair p (k, v);; mret 0) (kv_state s p d a m)
    = Some (rc, kv_state s p d a' m') ∧ kv_ok a' ∧
    (rc = 0 ∧ kv_map (pairs a') = <[k := v]> (kv_map (pairs a)) ∨
     kv_map (pairs a') = kv_map (pairs a) ∧ (rc = ENOMEM ∨ rc = EOVERFLOW ∧
       Z.of_nat (length (pairs a)) = FDIR_XATTR_KVARRAY_MAX_ELEMENTS)).
Proof using Type.
  intros Hok Hk. destruct (check_alloc_run s p d a m Hok) as (rc & a1 & m1 & Hrun & Ep & Hok1 & Hrc).
  run_with Hrun. destruct Hrc as [(-> & b & -> & Hlt)|[->|(-> & Hmax)]].
  2: { exists ENOMEM, a1, m1. split; [reflexivity|]. split; [done|]. right. rewrite Ep. auto. }
  2: { exists EOVERFLOW, a1, m1. split; [reflexivity|]. split; [done|]. right. rewrite Ep. auto. }
  cbn [Z.eqb negb].
  destruct (alloc_run s p d (Some b) m1) as (ok & m2 & Hal). run_with Hal. destruct ok; cbn [negb].
  2: { exists ENOMEM, (Some b), m2. split; [reflexivity|]. split; [done|]. right. rewrite Ep. auto. }
  destruct (alloc_run s p d (Some b) m2) as (ok & m3 & Hal3). run_with Hal3. destruct ok; cbn [negb].
  2: { exists ENOMEM, (Some b), m3. split; [reflexivity|]. split; [done|]. right. rewrite Ep. auto. }
  simpl in Ep. destruct (append_run s p d b m3 k v Hok1 Hlt) as (a' & Ha & Hok' & Emap);
    [by rewrite Ep|].
  exists 0, a', m3. split; [exact Ha|]. split; [done|]. left. by rewrite Emap, Ep.
Qed.

Lemma set_xattr_run s p d a m :
  kv_ok a →
  let k := fst (r_xattr (record s)) in
  let f := r_flags (record s) in
  let l := pairs a in
  ∃ rc a' m', inode_index_set_xattr p (kv_state s p d a m) = Some (rc, kv_state s p d a' m') ∧
    kv_ok a' ∧
    (rc = 0 ∧ kv_map (pairs a') = <[k := snd (r_xattr (record s))]> (kv_map l) ∧
       (is_Some (kv_map l !! k) → f ≠ XATTR_CREATE) ∧
       (kv_map l !! k = None → f ≠ XATTR_REPLACE) ∨
     kv_map (pairs a') = kv_map l ∧
       (rc = EEXIST ∧ f = XATTR_CREATE ∧ is_Some (kv_map l !! k) ∨
        rc = ENODATA ∧ f = XATTR_REPLACE ∧ kv_map l !! k = None ∨
        rc = EOVERFLOW ∧ kv_map l !! k = None ∧
          Z.of_nat (length l) = FDIR_XATTR_KVARRAY_MAX_ELEMENTS ∨
        rc = ENOMEM)).
Proof using All.
  intros Hok k f l. unfold inode_index_set_xattr. sstep. cbn [record kv_state with_mem_avail
    with_dentries]. fold k f.
  pose proof (get_xattr_run _ p _ k (kv_state_lookup s p d a m)) as Hget.
  cbn [d_kv_array with_d_kv_array] in Hget. fold l in Hget.
  pose proof (kv_find_map l k (kv_ok_NoDup _ Hok)) as Hmap.
  destruct (kv_find k l) as [i|] eqn:Ek.
  - destruct Hmap as (v & Hi & Hv). run_with Hget. cbn [Z.eqb].
    destruct (Z.eqb_spec f XATTR_CREATE) as [Ef|Ef].
    { exists EEXIST, a, m. split; [reflexivity|]. split; [done|]. right. split; [done|].
      left. by rewrite Hv. }
    destruct (alloc_run s p d a m) as (ok & m1 & Hal). run_with Hal. destruct ok; cbn [negb].
    2: { exists ENOMEM, a, m1. split; [reflexivity|]. split; [done|]. right. auto. }
    sstep. destruct (replace_value_run s p (with_d_kv_array a d) m1 i k v
      (snd (r_xattr (record s))) Hok Hi) as (a' & Ha & Hok' & Emap).
    exists 0, a', m1. split; [exact Ha|]. split; [done|]. left. split_and!; try done.
    by rewrite Hv.
  - run_with Hget. cbn [Z.eqb ENODATA negb]. cbn [Pos.eqb].
    destruct (Z.eqb_spec f XATTR_REPLACE) as [Ef|Ef].
    { exists ENODATA, a, m. split; [reflexivity|]. split; [done|]. right. split; [done|].
      right. by left. }
    destruct (set_new_run s p d a m k (snd (r_xattr (record s))) Hok) as
      (rc & a' & m' & Hrun & Hok' & Hres); [by apply kv_map_None|].
    exists rc, a', m'. split; [unfold k in Hrun; by rewrite <- surjective_pairing in Hrun|].
    split; [done|]. destruct Hres as [[-> Emap]|[Emap [->|[-> Hmax]]]].
    + left. split_and!; try done. rewrite Hmap. by intros [? [=]].
    + right. split; [done|]. auto.
    + right. split; [done|]. auto 6.
Qed.

(** Setting an extended attribute updates the dentry's map of attributes at
    that name and nowhere else when it succeeds, and leaves the map unchanged
    when it fails: EEXIST when the name must be new and is not, ENODATA when it
    must exist and does not, EOVERFLOW when the dentry has the maximum of 64
    attributes, ENOMEM. The names stay different and the array's capacity
    stays one an allocator has. *)
Theorem inode_index_set_xattr_spec s p d :
  dentries s !! p = Some d → kv_ok (d_kv_array d) →
  let k := fst (r_xattr (record s)) in
  let f := r_flags (record s) in
  ∃ rc a' m', inode_index_set_xattr p s = Some (rc, kv_state s p d a' m') ∧ kv_ok a' ∧
    (rc = 0 ∧ kv_map (pairs a') = <[k := snd (r_xattr (record s))]> (xattrs d) ∧
       (is_Some (xattrs d !! k) → f ≠ XATTR_CREATE) ∧
       (xattrs d !! k = None → f ≠ XATTR_REPLACE) ∨
     kv_map (pairs a') = xattrs d ∧
       (rc = EEXIST ∧ f = XATTR_CREATE ∧ is_Some (xattrs d !! k) ∨
        rc = ENODATA ∧ f = XATTR_REPLACE ∧ xattrs d !! k = None ∨
        rc = EOVERFLOW ∧ xattrs d !! k = None ∧
          Z.of_nat (length (pairs (d_kv_array d))) = FDIR_XATTR_KVARRAY_MAX_ELEMENTS ∨
        rc = ENOMEM)).
Proof using All.
  intros Hp Hok k f.
  destruct (set_xattr_run s p d (d_kv_array d) (mem_avail s) Hok) as (rc & a' & m' & Hrun & Hok' & H').
  rewrite <- (kv_state_same s p d Hp) in Hrun. exists rc, a', m'. by split_and!.
Qed.

(** Removing an extended attribute deletes it from the map when it is there
    and returns ENODATA when it is not; reading one gives the map's value or
    ENODATA and changes nothing. *)
Theorem inode_index_remove_get_xattr_spec s p d name :
  dentries s !! p = Some d → kv_ok (d_kv_array d) →
  match xattrs d !! name with
  | Some v =>
    inode_index_get_xattr p name s = Some ((0, Some v), s) ∧
    ∃ a', inode_index_remove_xattr p name s = Some (0, kv_state s p d a' (mem_avail s)) ∧
      kv_ok a' ∧ kv_map (pairs a') = delete name (xattrs d)
  | None =>
    inode_index_get_xattr p name s = Some ((ENODATA, None), s) ∧
    inode_index_remove_xattr p name s = Some (ENODATA, s)
  end.
Proof using All.
  intros Hp Hok. unfold inode_index_get_xattr, inode_index_remove_xattr.
  pose proof (get_xattr_run s p d name Hp) as Hget.
  pose proof (kv_find_map (pairs (d_kv_array d)) name (kv_ok_NoDup _ Hok)) as Hmap.
  fold (xattrs d) in Hmap. destruct (kv_find name (pairs (d_kv_array d))) as [i|].
  - destruct Hmap as (v & Hi & ->). destruct (d_kv_array d) as [a|] eqn:Ea; [|done].
    simpl in Hi. split.
    + run_with Hget. cbn [Z.eqb]. sstep. sstep. sstep. by sstep.
    + run_with Hget. cbn [Z.eqb negb]. sstep. sstep. sstep. unfold set_kv_array. sstep.
      destruct Hok as (Hnd & Hlen & Hal).
      destruct (kv_map_delete (kv_elts a) name v i Hnd Hi) as (E1 & E2 & E3).
      eexists. split; [unfold kv_state; destruct s; reflexivity|]. simpl.
      split; [split_and!; [done|lia|done]|]. rewrite E1. unfold xattrs. by rewrite Ea.
  - rewrite Hmap. split; by run_with Hget.
Qed.
End xattr.

(** ** The theorems at a concrete server *)

Section witness.
Import ListSkiplist.
Existing Instance list_skiplist.
Existing Instance small_config.
Existing Instance no_storage.

Definition file_dentry (inode : Z) (next : option ptr) : ServerDentry :=
  mkServerDentry inode "f" 15 1 (with_st_alloc 4096 (with_st_mode S_IFREG zero_stat)) DNone
    (Some (mkKvArray 2 [("user.a", "1")])) None None 1%positive next.

(** Inodes 5 and 9 share a bucket; inode 6 is not in the table yet. *)
Definition three_files : Server :=
  with_record (mkBinlogRecord 9 "fs" 0 (1 + 2) no_options (mkRecordDEntry "" None None)
       (mkRecordDEntry "" None None) None None [] (with_st_alloc 512 (with_st_size 100 zero_stat))
       "" ("user.b", "2"))
  (with_inode_buckets (<[1 := 1%positive]> ∅)
    (with_dentries (<[1%positive := file_dentry 5 (Some 2%positive)]>
      (<[2%positive := file_dentry 9 None]> (<[3%positive := file_dentry 6 None]> ∅)))
    (with_namespaces (<[1%positive :=
       mkNamespaceEntry 1 2 "fs" None (mkNsCounts 0 3) 8192 1%positive None]> ∅)
     empty_server))).

Lemma three_files_at p d :
  dentries three_files !! p = Some d →
  p = 1%positive ∧ d = file_dentry 5 (Some 2%positive) ∨ p = 2%positive ∧ d = file_dentry 9 None ∨
  p = 3%positive ∧ d = file_dentry 6 None.
Proof.
  simpl. intros Hp. apply lookup_insert_Some in Hp as [[<- <-]|[_ Hp]]; [by left|].
  apply lookup_insert_Some in Hp as [[<- <-]|[_ Hp]]; [by right; left|].
  apply lookup_insert_Some in Hp as [[<- <-]|[_ Hp]]; [by right; right|].
  by rewrite lookup_empty in Hp.
Qed.

Lemma three_files_bucket : bucket_ok three_files 1 [1%positive; 2%positive].
Proof.
  split.
  - simpl. split; [done|]. eexists. split; [reflexivity|]. simpl. split; [done|]. by eexists.
  - repeat constructor. intros d e [[_ ->]|[[? _]|[? _]]]%three_files_at
      [[? _]|[[_ ->]|[? _]]]%three_files_at; done.
  - intros p d Hp [[-> ->]|[[-> ->]|[-> ->]]]%three_files_at; [by vm_compute|by vm_compute|].
    set_solver.
Qed.

Lemma three_files_ok : index_ok three_files.
Proof.
  intros b. destruct (decide (b = 1)) as [->|Hne].
  - eexists. apply three_files_bucket.
  - exists []. split; [simpl; by rewrite lookup_insert_ne|constructor|set_solver].
Qed.

Lemma three_files_in p : in_index three_files p ↔ p = 1%positive ∨ p = 2%positive.
Proof.
  split.
  - intros (b & l & Hl & Hp). destruct (decide (b = 1)) as [->|Hne].
    + rewrite (bucket_det _ _ _ _ Hl three_files_bucket) in Hp. set_solver.
    + assert (bucket_ok three_files b []) as Hb
        by (split; [simpl; by rewrite lookup_insert_ne|constructor|set_solver]).
      rewrite (bucket_det _ _ _ _ Hl Hb) in Hp. set_solver.
  - intros Hp. exists 1, [1%positive; 2%positive]. split; [apply three_files_bucket|set_solver].
Qed.

Lemma three_files_ns q dd :
  in_index three_files q → dentries three_files !! q = Some dd →
  is_Some (namespaces three_files !! d_ns_entry dd).
Proof. intros _ [[-> ->]|[[-> ->]|[-> ->]]]%three_files_at; by eexists. Qed.

Lemma inode_index_add_dentry_spec_witness :
  ∃ s', inode_index_add_dentry 3%positive three_files = Some (0, s') ∧ index_ok s' ∧
    in_index s' 3%positive.
Proof.
  destruct (inode_index_add_dentry_spec three_files 3%positive (file_dentry 6 None))
    as (rc & s' & Hrun & Hok & _ & Hres);
    [exact three_files_ok|reflexivity|vm_compute; split; [discriminate|reflexivity]|].
  exists s'. destruct Hres as [(-> & _ & Hin)|(-> & _)].
  - split; [exact Hrun|]. split; [exact Hok|]. apply Hin. right. reflexivity.
  - vm_compute in Hrun. discriminate Hrun.
Defined.

Lemma inode_index_del_dentry_spec_witness :
  ∃ s', inode_index_del_dentry 2%positive three_files = Some (0, s') ∧ index_ok s' ∧
    (∀ x, in_index s' x ↔ in_index three_files x ∧ x ≠ 2%positive).
Proof.
  destruct (inode_index_del_dentry_spec three_files 2%positive (file_dentry 9 None))
    as [(q & dd & n & s' & _ & _ & _ & Hrun & Hok & Hin & Heq & _)|[Hrun _]];
    [exact three_files_ok|reflexivity|vm_compute; split; [discriminate|reflexivity]
    |exact three_files_ns| |].
  - exists s'. rewrite (Heq (proj2 (three_files_in 2%positive) (or_intror eq_refl))) in Hin.
    split; [exact Hrun|]. split; [exact Hok|exact Hin].
  - vm_compute in Hrun. discriminate Hrun.
Defined.

Lemma inode_index_get_dentry_spec_witness :
  inode_index_get_dentry 1%positive 9 three_files = Some ((0, Some 2%positive), three_files).
Proof.
  destruct (inode_index_get_dentry_spec three_files 1%positive 9)
    as [(p & d & Hrun & Hin & Hp & E)|[_ Hno]];
    [reflexivity|exact three_files_ok|split; [discriminate|reflexivity]| |].
  - apply three_files_at in Hp as [[-> ->]|[[-> ->]|[-> ->]]]; try discriminate E. exact Hrun.
  - exfalso. apply (Hno 2%positive (file_dentry 9 None)); [|reflexivity|reflexivity].
    apply three_files_in. right. reflexivity.
Defined.

Lemma inode_index_check_set_dentry_size_spec_witness :
  ∃ s', inode_index_check_set_dentry_size 1%positive three_files = Some (0, s') ∧
    st_size ∘ d_stat <$> dentries s' !! 2%positive = Some 100.
Proof.
  destruct (inode_index_check_set_dentry_size_spec three_files 1%positive 2%positive
    (file_dentry 9 None) (mkNamespaceEntry 1 2 "fs" None (mkNsCounts 0 3) 8192 1%positive None))
    as (s' & Hrun & Hd & _);
    [reflexivity|exact three_files_ok|apply three_files_in; right; reflexivity
    |reflexivity|reflexivity|reflexivity|].
  exists s'. split; [exact Hrun|]. rewrite Hd. reflexivity.
Defined.

Lemma set_dentry_size_replicates_witness :
  ∃ s' t', inode_index_check_set_dentry_size 1%positive three_files = Some (0, s') ∧
    inode_index_update_dentry 1%positive (with_record (record s') three_files) = Some (0, t') ∧
    d_stat <$> dentries t' !! 2%positive = d_stat <$> dentries s' !! 2%positive.
Proof.
  destruct (set_dentry_size_replicates three_files 1%positive 2%positive (file_dentry 9 None)
    (mkNamespaceEntry 1 2 "fs" None (mkNsCounts 0 3) 8192 1%positive None)
    three_files 1%positive 2%positive (file_dentry 9 None)
    (mkNamespaceEntry 1 2 "fs" None (mkNsCounts 0 3) 8192 1%positive None))
    as (s' & t' & H1 & H2 & H3 & _);
    [reflexivity|exact three_files_ok|apply three_files_in; right; reflexivity
    |reflexivity|reflexivity|reflexivity|exact three_files_ok
    |apply three_files_in; right; reflexivity|reflexivity|reflexivity|reflexivity
    |reflexivity|reflexivity|].
  exists s', t'. split; [exact H1|]. split; [exact H2|exact H3].
Defined.

Lemma file_kv_ok inode next : kv_ok (d_kv_array (file_dentry inode next)).
Proof.
  simpl. split_and!; [apply NoDup_singleton|done|]. apply (bool_decide_unpack _). reflexivity.
Qed.

Lemma inode_index_set_xattr_spec_witness :
  ∃ a' m', inode_index_set_xattr 1%positive three_files
    = Some (0, kv_state three_files 1%positive (file_dentry 5 (Some 2%positive)) a' m') ∧
    kv_map (pairs a') !! "user.b" = Some "2".
Proof.
  destruct (@inode_index_set_xattr_spec _ _ no_storage eq_refl three_files 1%positive
    (file_dentry 5 (Some 2%positive)) eq_refl (file_kv_ok _ _)) as (rc & a' & m' & Hrun & _ & Hres).
  exists a', m'. destruct Hres as [(-> & Em & _)|[_ Hres]].
  - split; [exact Hrun|]. rewrite Em. reflexivity.
  - vm_compute in Hrun. exfalso. assert (rc = 0) as -> by congruence.
    destruct Hres as [(? & _)|[(? & _)|[(? & _)|?]]]; discriminate.
Defined.

Lemma inode_index_remove_get_xattr_spec_witness :
  inode_index_get_xattr 1%positive "user.a" three_files = Some ((0, Some "1"), three_files).
Proof.
  exact (proj1 (@inode_index_remove_get_xattr_spec _ _ no_storage eq_refl three_files 1%positive
    (file_dentry 5 (Some 2%positive)) "user.a" eq_refl (file_kv_ok _ _))).
Defined.
End witness.
