(* ===== verification/Dentry.v ===== *)
(** * Dentries: [server/dentry.c], [server/dentry.h]

    The operations on the directory tree: finding a dentry by path or by its
    parent and name, creating, removing and renaming, listing a directory and
    printing a dentry's path. A directory's children are in a skiplist; a hard
    link refers to its source, which counts the references in [nlink]; a dentry
    that is removed goes to the delayed free queue.

    This file has the operations, as the code has them. [DentryTree.v] shows
    that they implement the tree of [FsTree.v]; [DentryPath.v] is about paths. *)

From S2P Require Import Prelude NsSubscribe ServerTypes InodeGenerator NsManager InodeIndex.

Definition FDIR_DELAY_FREE_SECONDS : Z := 300.

Section dentry.
Context `{UniqSkiplist} `{ServerConfig} `{!StorageEngine} `{!PathSplit}.

(** ** Freeing *)

(** [uniq_skiplist_free] frees the elements of the list without delay. *)
Fixpoint dentry_do_free (fuel : nat) (p : ptr) (dec_count : Z) : M Server () :=
  d ← load_dentry p;
  let n := int32 (d_reffer_count d - dec_count) in
  update_dentry_at p (with_d_reffer_count n);;
  if negb (n =? 0) then mret ()
  else
    match fuel with
    | O => stuck
    | S fuel' =>
      match d_children d with
      | Some l => foldr (λ q m, dentry_do_free fuel' q 1;; m) (mret ()) (sl_elements l)
      | None => mret ()
      end;;
      modify (λ s, with_dentries (delete p (dentries s)) s)
    end.

Definition dentry_free (p : ptr) : M Server () :=
  s ← get_st; dentry_do_free (size (dentries s)) p 1.

(** [server_add_to_delay_free_queue] of [data_thread.c]. *)
Definition server_add_to_delay_free_queue (p : ptr) (delay_seconds : Z) : M Server Z :=
  ok ← try_alloc;
  if (ok : bool) then
    modify (λ s, with_free_queue
      (free_queue s ++ [mkFreeNode (int32 (current_time s + delay_seconds)) p]) s);; mret 0
  else mret ENOMEM.

(** The result is not looked at: without memory for the node the dentry is never
    freed. *)
Definition dentry_free_func (p : ptr) (delay_seconds : Z) : M Server () :=
  if 0 <? delay_seconds then server_add_to_delay_free_queue p delay_seconds;; mret ()
  else dentry_free p.

Definition dentry_hold (p : ptr) : M Server () :=
  update_dentry_at p (λ d, with_d_reffer_count (int32 (d_reffer_count d + 1)) d).

(** ** A directory's children *)

(** The skiplist's free function is [dentry_free_func] with
    [FDIR_DELAY_FREE_SECONDS]. *)
Definition children_of (dir : ptr) : M Server skiplist :=
  d ← load_dentry dir; non_null (d_children d).
Definition set_children (dir : ptr) (l : skiplist) : M Server () :=
  update_dentry_at dir (with_d_children (Some l)).

Definition children_insert (dir p : ptr) : M Server Z :=
  l ← children_of dir;
  ok ← try_alloc;
  s ← get_st;
  let '(rc, l') := uniq_skiplist_insert (name_of s) ok l p in
  set_children dir l';; mret rc.

Definition children_delete (dir p : ptr) (need_free : bool) : M Server Z :=
  l ← children_of dir;
  s ← get_st;
  match uniq_skiplist_delete (name_of s) l p with
  | None => mret ENOENT
  | Some (q, l') =>
    set_children dir l';;
    (if need_free then dentry_free_func q FDIR_DELAY_FREE_SECONDS else mret ());; mret 0
  end.

Definition children_replace (dir p : ptr) (need_free : bool) : M Server Z :=
  l ← children_of dir;
  s ← get_st;
  match uniq_skiplist_replace (name_of s) l p with
  | None => mret ENOENT
  | Some (q, l') =>
    set_children dir l';;
    (if need_free then dentry_free_func q FDIR_DELAY_FREE_SECONDS else mret ());; mret 0
  end.

(** ** Finding *)

Definition check_load (thread p : ptr) : M Server Z :=
  if STORAGE_ENABLED then dentry_check_load thread p else mret 0.

(** The error number and the child. *)
Definition find_child (thread parent : ptr) (name : string) : M Server (Z * option ptr) :=
  rc ← check_load thread parent;
  if negb (rc =? 0) then mret (rc, None)
  else
    d ← load_dentry parent;
    if negb (S_ISDIR (st_mode (d_stat d))) then mret (ENOTDIR, None)
    else
      l ← non_null (d_children d);
      s ← get_st;
      match uniq_skiplist_find (name_of s) l name with
      | None => mret (ENOENT, None)
      | Some child =>
        rc ← check_load thread child;
        if negb (rc =? 0) then mret (rc, None) else mret (0, Some child)
      end.

(** Follows [paths] from [dentry]. *)
Fixpoint find_loop (thread : ptr) (dentry : option ptr) (paths : list string) :
    M Server (Z * option ptr) :=
  match paths with
  | [] => mret (0, dentry)
  | name :: rest =>
    p ← non_null dentry;
    '(rc, child) ← find_child thread p name;
    if negb (rc =? 0) then mret (rc, child) else find_loop thread child rest
  end.

Definition do_find_ex (ns_entry : ptr) (paths : list string) : M Server (Z * option ptr) :=
  n ← load_ns ns_entry; find_loop (ns_thread n) (ns_root n) paths.

Definition is_absolute (path : string) : bool :=
  match path with
  | EmptyString => false
  | String c _ => bool_decide (String c EmptyString = "/")
  end.

(** The error number, the parent and the name; no name when the code leaves it
    [NULL] or unset. *)
Definition dentry_find_parent (ns path : string) :
    M Server (Z * option ptr * option string) :=
  if negb (is_absolute path) then mret (EINVAL, None, None)
  else
    '(ns_entry, result) ← fdir_namespace_get None ns false;
    match ns_entry with
    | None =>
      mret (result, None, if (String.length path =? 1)%nat then Some EmptyString else None)
    | Some ne =>
      n ← load_ns ne;
      match ns_root n with
      | None => mret (ENOENT, None, Some EmptyString)
      | Some root =>
        let paths := split_path path in
        match last paths with
        | None => mret (0, None, Some EmptyString)
        | Some my_name =>
          '(rc, parent) ← (if (length paths =? 1)%nat then mret (0, Some root)
                           else do_find_ex ne (removelast paths));
          if negb (rc =? 0) then mret (rc, parent, Some my_name)
          else
            p ← non_null parent;
            d ← load_dentry p;
            if negb (S_ISDIR (st_mode (d_stat d))) then mret (ENOTDIR, None, Some my_name)
            else mret (0, Some p, Some my_name)
        end
      end
    end.

(** The error number, the parent and the dentry. *)
Definition dentry_find_parent_and_me (ns path : string) :
    M Server (Z * option ptr * option ptr) :=
  if negb (is_absolute path) then mret (EINVAL, None, None)
  else
    '(ns_entry, result) ← fdir_namespace_get None ns false;
    match ns_entry with
    | None => mret (result, None, None)
    | Some ne =>
      n ← load_ns ne;
      match ns_root n with
      | None => mret (ENOENT, None, None)
      | Some root =>
        let paths := split_path path in
        match last paths with
        | None => mret (0, None, Some root)
        | Some my_name =>
          '(rc, parent) ← (if (length paths =? 1)%nat then mret (0, Some root)
                           else do_find_ex ne (removelast paths));
          if negb (rc =? 0) then mret (rc, parent, None)
          else
            p ← non_null parent;
            '(rc, me) ← find_child (ns_thread n) p my_name;
            mret (rc, Some p, me)
        end
      end
    end.

Definition set_me_found (child : option ptr) : M Server () :=
  modify_rec (λ r, with_r_me (with_re_dentry child (r_me r)) r).

(** The error number and the namespace; the dentry is left in the record. *)
Definition dentry_find_me (thread : ptr) (create_ns : bool) : M Server (Z * option ptr) :=
  r ← get_rec;
  let me := r_me r in
  match re_parent me with
  | None =>
    '(ns_entry, result) ← fdir_namespace_get (Some thread) (r_ns r) create_ns;
    match ns_entry with
    | None => mret (result, None)
    | Some ne =>
      n ← load_ns ne;
      match ns_root n with
      | None => mret (if decide (re_pname me = EmptyString) then ENOENT else EINVAL, Some ne)
      | Some root =>
        if decide (re_pname me = EmptyString) then set_me_found (Some root);; mret (0, Some ne)
        else mret (EINVAL, Some ne)
      end
    end
  | Some parent =>
    pd ← load_dentry parent;
    n ← load_ns (d_ns_entry pd);
    '(rc, child) ← find_child (ns_thread n) parent (re_pname me);
    set_me_found child;; mret (rc, Some (d_ns_entry pd))
  end.

(** The source of a hard link, [SET_HARD_LINK_DENTRY]. *)
Definition real_dentry (p : ptr) : M Server (option ptr) :=
  d ← load_dentry p;
  mret (if FDIR_IS_DENTRY_HARD_LINK (st_mode (d_stat d))
        then match d_link d with DSrc src => Some src | _ => None end
        else Some p).

Definition dentry_find_ex (ns path : string) (hdlink_follow : bool) :
    M Server (Z * option ptr) :=
  '(rc, _, me) ← dentry_find_parent_and_me ns path;
  if negb (rc =? 0) then mret (rc, me)
  else if hdlink_follow then p ← non_null me; q ← real_dentry p; mret (0, q)
  else mret (0, me).

Definition dentry_find (ns path : string) : M Server (Z * option ptr) :=
  dentry_find_ex ns path true.

Definition dentry_find_by_pname (parent : ptr) (name : string) : M Server (Z * option ptr) :=
  d ← load_dentry parent;
  n ← load_ns (d_ns_entry d);
  '(rc, child) ← find_child (ns_thread n) parent name;
  if rc =? 0 then p ← non_null child; q ← real_dentry p; mret (0, q) else mret (rc, child).

(** [inode_index_get_dentry_by_pname] of [server/inode_index.c]. *)
Definition inode_index_get_dentry_by_pname (thread : ptr) (parent_inode : Z) (name : string) :
    M Server (Z * option ptr) :=
  '(rc, parent) ← inode_index_get_dentry thread parent_inode;
  if negb (rc =? 0) then mret (rc, None)
  else p ← non_null parent; dentry_find_by_pname p name.

(** ** Creating *)

Definition affected_add (p : ptr) (op : DABinlogOpType) : M Server () :=
  modify_rec (λ r, with_r_affected (r_affected r ++ [(p, op)]) r).

Definition inc_nlink (p : ptr) : M Server () :=
  modify_stat p (λ st, with_st_nlink (int32 (st_nlink st + 1)) st).
Definition dec_nlink (p : ptr) : M Server () :=
  modify_stat p (λ st, with_st_nlink (int32 (st_nlink st - 1)) st).

(** An object of the dentry pool; its namespace, which the code sets with the
    other fields, is set here. *)
Definition zero_dentry (ns_entry : ptr) : ServerDentry :=
  mkServerDentry 0 EmptyString 0 0 zero_stat DNone None None None ns_entry None.

Definition dentry_alloc (ns_entry : ptr) : M Server (option ptr) :=
  ok ← try_alloc;
  if (ok : bool) then
    s ← get_st;
    let p := fresh_ptr (dentries s) in
    modify (λ s, with_dentries (<[p := zero_dentry ns_entry]> (dentries s)) s);;
    mret (Some p)
  else mret None.

(** The fields [dentry_create] fills in. *)
Definition fill_stat (st : DEntryStat) : DEntryStat :=
  mkDEntryStat (st_mode st) (st_uid st) (st_gid st) (st_btime st) (st_atime st) (st_ctime st)
    (st_mtime st) 1 (st_size st) 0 0.

Definition count_dentry (thread ns_entry : ptr) (is_dir : bool) (k : Z) : M Server () :=
  if is_dir then add_counters thread 0 k 0;; add_ns_counts ns_entry k 0
  else add_counters thread 0 0 k;; add_ns_counts ns_entry 0 k.

(** Links the new dentry [current] to where it belongs: the source of a hard
    link or the inode table, then the root or the parent's children. *)
Definition create_link (current ns_entry : ptr) : M Server Z :=
  r ← get_rec;
  d ← load_dentry current;
  result ← (match FDIR_IS_DENTRY_HARD_LINK (st_mode (d_stat d)), d_link d with
            | true, DSrc src => inc_nlink src;; affected_add src op_type_update;; mret 0
            | true, _ => stuck
            | false, _ =>
              rc ← inode_index_add_dentry current;
              (if rc =? 0 then mret () else dentry_free current);; mret rc
            end);
  if negb (result =? 0) then mret result
  else
    match d_parent d with
    | None => update_ns_at ns_entry (with_ns_root (Some current));; mret 0
    | Some parent =>
      rc ← children_insert parent current;
      (if rc =? 0 then inc_nlink parent else mret ());; mret rc
    end.

(** The steps of [dentry_create] that allocate the new dentry and fill it in: the
    error number and the dentry. *)
Definition create_fill (ns_entry : ptr) : M Server (Z * option ptr) :=
  r ← get_rec;
  let mode := st_mode (r_stat r) in
  o ← dentry_alloc ns_entry;
  match o with
  | None => mret (ENOMEM, None)
  | Some current =>
    update_dentry_at current (with_d_reffer_count 1);;
    ok ← (if S_ISDIR mode then try_alloc else mret true);
    if negb ok then mret (ENOMEM, None)
    else
      update_dentry_at current (λ d, with_d_children
        (if S_ISDIR mode then Some uniq_skiplist_new else None)
        (with_d_parent (re_parent (r_me r)) d));;
      ok ← try_alloc;  (* dentry_strdup of the name *)
      if negb ok then mret (ENOMEM, None)
      else
        update_dentry_at current (with_d_name (re_pname (r_me r)));;
        ok ← (if negb (FDIR_IS_DENTRY_HARD_LINK mode) && S_ISLNK mode then try_alloc
              else mret true);
        if negb ok then mret (ENOMEM, None)
        else
          link ← (if FDIR_IS_DENTRY_HARD_LINK mode
                  then src ← non_null (r_hdlink_src r); mret (DSrc src)
                  else mret (if S_ISLNK mode then DLinkTo (r_link r) else DNone));
          update_dentry_at current (with_d_link link);;
          inode ← (if r_inode r =? 0 then inode_generator_next else mret (r_inode r));
          update_dentry_at current (λ d, with_d_inode inode
            (with_d_stat (fill_stat (r_stat r))
              (with_d_loaded_flags FDIR_DENTRY_LOADED_FLAGS_ALL d)));;
          mret (0, Some current)
  end.

(** The steps of [dentry_create] after the lookup. *)
Definition create_found (thread ns_entry : ptr) : M Server Z :=
  r ← get_rec;
  '(rc, o) ← create_fill ns_entry;
  if negb (rc =? 0) then mret rc
  else
    current ← non_null o;
    result ← create_link current ns_entry;
    if negb (result =? 0) then mret result
    else
      set_me_found (Some current);;
      d ← load_dentry current;
      (if r_inode r =? 0 then modify_rec (with_r_inode (d_inode d)) else mret ());;
      count_dentry thread ns_entry (S_ISDIR (st_mode (r_stat r))) 1;;
      mret 0.

Definition dentry_create (thread : ptr) : M Server Z :=
  r ← get_rec;
  let mode := st_mode (r_stat r) in
  if (Z.land mode S_IFMT =? 0) && negb (FDIR_IS_DENTRY_HARD_LINK mode) then mret EINVAL
  else
    '(rc, ns) ← dentry_find_me thread true;
    if negb (rc =? ENOENT) then mret (if rc =? 0 then EEXIST else rc)
    else ns_entry ← non_null ns; create_found thread ns_entry.

(** ** Removing *)

Definition remove_src_dentry (thread p : ptr) : M Server Z :=
  result ← inode_index_del_dentry p;
  if negb (result =? 0) then mret result
  else
    d ← load_dentry p;
    count_dentry thread (d_ns_entry d) (S_ISDIR (st_mode (d_stat d))) (-1);;
    dentry_free_func p FDIR_DELAY_FREE_SECONDS;;
    mret 0.

(** The error number and whether the dentry is to be freed. *)
Definition do_remove_dentry (thread p : ptr) : M Server (Z * bool) :=
  d ← load_dentry p;
  '(result, free_dentry) ←
    (if FDIR_IS_DENTRY_HARD_LINK (st_mode (d_stat d)) then
       src ← non_null (match d_link d with DSrc src => Some src | _ => None end);
       dec_nlink src;;
       sd ← load_dentry src;
       if st_nlink (d_stat sd) =? 0 then
         rc ← remove_src_dentry thread src;
         if negb (rc =? 0) then mret (rc, false)
         else affected_add src op_type_remove;; affected_add p op_type_remove;; mret (0, true)
       else affected_add src op_type_update;; affected_add p op_type_remove;; mret (0, true)
     else
       dec_nlink p;;
       d ← load_dentry p;
       if st_nlink (d_stat d) =? 0 then
         rc ← inode_index_del_dentry p;
         if negb (rc =? 0) then mret (rc, false)
         else affected_add p op_type_remove;; mret (0, true)
       else affected_add p op_type_update;; mret (0, false));
  if negb (result =? 0) then mret (result, free_dentry)
  else
    (if free_dentry : bool then
       d ← load_dentry p;
       count_dentry thread (d_ns_entry d) (S_ISDIR (st_mode (d_stat d))) (-1)
     else mret ());;
    mret (0, free_dentry).

(** A directory with children. *)
Definition has_children (p : ptr) : M Server bool :=
  d ← load_dentry p;
  if S_ISDIR (st_mode (d_stat d)) then
    l ← non_null (d_children d); mret (negb (uniq_skiplist_empty l))
  else mret false.

Definition dentry_remove (thread : ptr) : M Server Z :=
  '(rc, ns) ← dentry_find_me thread false;
  if negb (rc =? 0) then mret rc
  else
    r ← get_rec;
    p ← non_null (re_dentry (r_me r));
    ne ← non_null ns;
    busy ← has_children p;
    if (busy : bool) then mret ENOTEMPTY
    else
      d ← load_dentry p;
      modify_rec (with_r_inode (d_inode d));;
      '(rc, free_dentry) ← do_remove_dentry thread p;
      if negb (rc =? 0) then mret rc
      else
        match re_parent (r_me r) with
        | None =>
          update_ns_at ne (with_ns_root None);;
          (if free_dentry : bool then dentry_free_func p FDIR_DELAY_FREE_SECONDS else mret ());;
          mret 0
        | Some parent =>
          rc ← children_delete parent p free_dentry;
          if rc =? 0 then dec_nlink parent;; mret 0 else mret rc
        end.

(** ** Renaming *)

(** [parent] and the directories above it. *)
Fixpoint ancestor_loop (fuel : nat) (dentry : ptr) (parent : option ptr) : M Server bool :=
  match parent with
  | None => mret false
  | Some p =>
    if decide (p = dentry) then mret true
    else
      match fuel with
      | O => stuck
      | S fuel' => d ← load_dentry p; ancestor_loop fuel' dentry (d_parent d)
      end
  end.
Definition dentry_is_ancestor (dentry : ptr) (parent : option ptr) : M Server bool :=
  s ← get_st; ancestor_loop (size (dentries s)) dentry parent.

Definition set_src_found (child : option ptr) : M Server () :=
  modify_rec (λ r, with_r_src (with_re_dentry child (r_src r)) r).

Definition has_bit (flags f : Z) : bool := negb (Z.land flags f =? 0).

Definition rename_check (thread : ptr) : M Server Z :=
  r ← get_rec;
  match re_parent (r_src r), re_parent (r_me r) with
  | Some sp, Some dp =>
    '(rc, src) ← find_child thread sp (re_pname (r_src r));
    set_src_found src;;
    if negb (rc =? 0) then mret rc
    else
      '(rc, dest) ← find_child thread dp (re_pname (r_me r));
      set_me_found dest;;
      if negb (rc =? 0) then
        mret (if has_bit (r_flags r) RENAME_EXCHANGE then rc
              else if rc =? ENOENT then 0 else rc)
      else if has_bit (r_flags r) RENAME_NOREPLACE then mret EEXIST
      else if has_bit (r_flags r) RENAME_EXCHANGE then mret 0
      else
        s ← non_null src; d ← non_null dest;
        sd ← load_dentry s; dd ← load_dentry d;
        if negb (Z.land (st_mode (d_stat dd)) S_IFMT =? Z.land (st_mode (d_stat sd)) S_IFMT)
        then mret EINVAL
        else
          busy ← has_children d;
          mret (if (busy : bool) then ENOTEMPTY else 0)
  | _, _ => mret EINVAL
  end.

(** The error number and the name to restore; with [name_changed] unset it is
    the name the dentry keeps. *)
Definition set_and_store_dentry_name (p : ptr) (new_name : string) (name_changed : bool) :
    M Server (Z * option string) :=
  d ← load_dentry p;
  if negb name_changed then mret (0, Some (d_name d))
  else
    ok ← try_alloc;
    if negb ok then mret (ENOMEM, None)
    else update_dentry_at p (with_d_name new_name);; mret (0, Some (d_name d)).

Definition restore_dentry_name (p : ptr) (old_name : option string) : M Server () :=
  match old_name with
  | Some n => update_dentry_at p (with_d_name n)
  | None => stuck
  end.

(** The steps of [exchange_dentry] between the deletion and the roll back: the
    error number and [old_src_pair.ptr]. *)
Definition exchange_steps (sp src dp dest : ptr) (sname dname : string) (name_changed : bool) :
    M Server (Z * option string) :=
  '(rc, old_src) ← set_and_store_dentry_name src dname name_changed;
  if negb (rc =? 0) then mret (rc, old_src)
  else
    rc ← children_replace dp src false;
    if negb (rc =? 0) then mret (rc, old_src)
    else
      '(rc, old_dest) ← set_and_store_dentry_name dest sname name_changed;
      if negb (rc =? 0) then children_replace dp dest false;; mret (rc, old_src)
      else
        rc ← children_insert sp dest;
        if negb (rc =? 0) then
          (if name_changed then restore_dentry_name dest old_dest else mret ());;
          children_replace dp dest false;;
          mret (rc, old_src)
        else
          update_dentry_at src (with_d_parent (Some dp));;
          update_dentry_at dest (with_d_parent (Some sp));;
          sd ← load_dentry src;
          modify_rec (with_r_inode (d_inode sd));;
          mret (0, old_src).

Definition exchange_dentry (name_changed : bool) : M Server Z :=
  r ← get_rec;
  sp ← non_null (re_parent (r_src r)); src ← non_null (re_dentry (r_src r));
  dp ← non_null (re_parent (r_me r)); dest ← non_null (re_dentry (r_me r));
  rc ← children_delete sp src false;
  if negb (rc =? 0) then mret rc
  else
    '(rc, old_src) ← exchange_steps sp src dp dest (re_pname (r_src r)) (re_pname (r_me r))
                       name_changed;
    if negb (rc =? 0) then
      (if name_changed && bool_decide (is_Some old_src) then restore_dentry_name src old_src
       else mret ());;
      children_insert sp src;;
      mret rc
    else mret 0.

(** Puts [src] in the place of the dentry overwritten or in a new place. *)
Definition move_place (thread dp src : ptr) (dest : option ptr) : M Server Z :=
  match dest with
  | Some o =>
    '(rc, free_dentry) ← do_remove_dentry thread o;
    if rc =? 0 then children_replace dp src free_dentry else mret rc
  | None => children_insert dp src
  end.

Definition move_steps (thread sp src dp : ptr) (dest : option ptr) (dname : string)
    (name_changed : bool) : M Server Z :=
  '(rc, old_src) ← set_and_store_dentry_name src dname name_changed;
  if negb (rc =? 0) then mret rc
  else
    modify_rec (with_r_overwritten dest);;
    rc ← move_place thread dp src dest;
    if negb (rc =? 0) then
      (if name_changed then restore_dentry_name src old_src else mret ());; mret rc
    else
      (match dest with
       | Some _ => dec_nlink sp
       | None => if decide (dp = sp) then mret () else dec_nlink sp;; inc_nlink dp
       end);;
      update_dentry_at src (with_d_parent (Some dp));;
      sd ← load_dentry src;
      modify_rec (with_r_inode (d_inode sd));;
      mret 0.

Definition move_dentry (thread : ptr) (name_changed : bool) : M Server Z :=
  r ← get_rec;
  sp ← non_null (re_parent (r_src r)); src ← non_null (re_dentry (r_src r));
  dp ← non_null (re_parent (r_me r));
  rc ← children_delete sp src false;
  if negb (rc =? 0) then mret rc
  else
    rc ← move_steps thread sp src dp (re_dentry (r_me r)) (re_pname (r_me r)) name_changed;
    if negb (rc =? 0) then children_insert sp src;; mret rc
    else mret 0.

Definition dentry_rename (thread : ptr) : M Server Z :=
  rc ← rename_check thread;
  if negb (rc =? 0) then mret rc
  else
    r ← get_rec;
    if decide (re_dentry (r_me r) = re_dentry (r_src r)) then mret EEXIST
    else
      src ← non_null (re_dentry (r_src r));
      loop ← (if decide (re_parent (r_me r) = re_parent (r_src r)) then mret false
              else
                up ← dentry_is_ancestor src (re_parent (r_me r));
                if (up : bool) then mret true
                else
                  top ← non_null (match re_dentry (r_me r) with
                                  | Some d => Some d
                                  | None => re_parent (r_me r)
                                  end);
                  dentry_is_ancestor top (re_parent (r_src r)));
      if (loop : bool) then mret ELOOP
      else
        let name_changed := negb (bool_decide (re_pname (r_me r) = re_pname (r_src r))) in
        if has_bit (r_flags r) RENAME_EXCHANGE then exchange_dentry name_changed
        else move_dentry thread name_changed.

(** ** Listing and paths *)

(** [FDIRServerDentryArray]: [array->alloc] slots, the entries in use. *)
Record DentryArray := mkDentryArray { da_alloc : Z; da_entries : list ptr }.

Fixpoint grow_alloc (fuel : nat) (new_alloc target : Z) : Z :=
  match fuel with
  | O => new_alloc
  | S fuel' => if new_alloc <? target then grow_alloc fuel' (int32 (new_alloc * 2)) target
               else new_alloc
  end.

Definition check_alloc_dentry_array (a : DentryArray) (target_count : Z) :
    M Server (Z * DentryArray) :=
  if target_count <=? da_alloc a then mret (0, a)
  else
    let new_alloc := grow_alloc 32 (if 0 <? da_alloc a then da_alloc a else 4 * 1024)
                       target_count in
    ok ← try_alloc;
    if negb ok then mret (ENOMEM, a) else mret (0, mkDentryArray new_alloc (da_entries a)).

(** The array's entries before are overwritten when a directory is listed and
    kept before a file's own. *)
Definition dentry_list (p : ptr) (a : DentryArray) : M Server (Z * DentryArray) :=
  d ← load_dentry p;
  if negb (S_ISDIR (st_mode (d_stat d))) then
    '(rc, a) ← check_alloc_dentry_array a 1;
    if negb (rc =? 0) then mret (rc, a)
    else mret (0, mkDentryArray (da_alloc a) (da_entries a ++ [p]))
  else
    l ← non_null (d_children d);
    '(rc, a) ← check_alloc_dentry_array a (uniq_skiplist_count l);
    if negb (rc =? 0) then mret (rc, a)
    else mret (0, mkDentryArray (da_alloc a) (sl_elements l)).

Definition dentry_list_by_path (ns path : string) (a : DentryArray) :
    M Server (Z * DentryArray) :=
  let a := mkDentryArray (da_alloc a) [] in
  '(rc, p) ← dentry_find_ex ns path false;
  if negb (rc =? 0) then mret (rc, a) else p ← non_null p; dentry_list p a.

(** The names from the dentry up to the root, at most [n], and the dentry the
    walk stopped at. *)
Fixpoint parts_loop (n : nat) (current : ptr) (parts : list string) :
    M Server (list string * ptr) :=
  d ← load_dentry current;
  match n, d_parent d with
  | S n', Some parent => parts_loop n' parent (d_name d :: parts)
  | _, _ => mret (parts, current)
  end.

(** Writes the parts to a buffer of [room] bytes, of which [len] are in use. *)
Fixpoint put_parts (room len : Z) (parts : list string) : option string :=
  match parts with
  | [] => Some EmptyString
  | part :: rest =>
    let n := Z.of_nat (String.length part) in
    if room <? len + n + 2 then None
    else
      match put_parts room (len + n + 1) rest with
      | Some s => Some (String.append "/" (String.append part s))
      | None => None
      end
  end.

(** The error number and the path. *)
Definition dentry_get_full_path (p : ptr) (alloc_size : Z) : M Server (Z * option string) :=
  '(parts, top) ← parts_loop FDIR_MAX_PATH_COUNT p [];
  d ← load_dentry top;
  if (length parts =? FDIR_MAX_PATH_COUNT)%nat && bool_decide (is_Some (d_parent d))
  then mret (EOVERFLOW, None)
  else
    match put_parts alloc_size 0 parts with
    | None => mret (ENOSPC, None)
    | Some path => mret (0, Some path)
    end.
End dentry.
