(* ===== verification/DentryView.v ===== *)
(** * The directory tree of a server

    [abs s] is the tree of [FsTree.v] that the dentries and namespaces of the
    server [s] stand for; dentries in the delayed free queue are gone.
    [view s A I r] says that [s] stands for the tree [A], that its inode table
    has the dentries of [I] and that it processes the record [r]; each step of
    the operations of [Dentry.v] has a lemma that says how it changes the view.
    [DentryTree.v] composes them. *)

From S2P Require Import Prelude NsSubscribe FsTree ServerTypes InodeGenerator NsManager.
From S2P Require Import InodeIndex Dentry.

Section abs.
Context `{UniqSkiplist} `{ServerConfig} `{!StorageEngine} `{!PathSplit}.

(** ** Abstraction *)

Definition kids_of (d : ServerDentry) : gset ptr :=
  match d_children d with Some l => list_to_set (sl_elements l) | None => ∅ end.
Definition src_of (d : ServerDentry) : option ptr :=
  match d_link d with DSrc src => Some src | _ => None end.
Definition is_dir (d : ServerDentry) : bool := S_ISDIR (st_mode (d_stat d)).
Definition is_link (d : ServerDentry) : bool := FDIR_IS_DENTRY_HARD_LINK (st_mode (d_stat d)).

Definition node_of (d : ServerDentry) : ANode :=
  mkANode (d_inode d) (d_name d) (d_parent d) (d_ns_entry d) (is_dir d) (is_link d) (src_of d)
    (st_nlink (d_stat d)) (kids_of d).

Definition abs_nodes (ds : gmap ptr ServerDentry) (fq : list ptr) : gmap ptr ANode :=
  node_of <$> filter (λ x : ptr * ServerDentry, x.1 ∉ fq) ds.
Definition abs_roots (m : gmap ptr NamespaceEntry) : gmap ptr ptr := omap ns_root m.
Definition abs_counts (m : gmap ptr NamespaceEntry) : gmap ptr (Z * Z) :=
  (λ n, (count_dir (ns_counts n), count_file (ns_counts n))) <$> m.

Definition abs (s : Server) : ATree :=
  mkATree (abs_nodes (dentries s) (freed s)) (abs_roots (namespaces s))
    (abs_counts (namespaces s)).

Lemma abs_lookup ds fq p :
  abs_nodes ds fq !! p = if decide (p ∈ fq) then None else node_of <$> ds !! p.
Proof.
  unfold abs_nodes. rewrite lookup_fmap, map_lookup_filter. destruct (ds !! p) as [d|]; simpl.
  - case_guard; case_decide; simpl; done || tauto.
  - by case_decide.
Qed.

(** A dentry in use. *)
Definition live (s : Server) (p : ptr) (d : ServerDentry) : Prop :=
  dentries s !! p = Some d ∧ p ∉ freed s.

Lemma live_node s p d : live s p d → nodes (abs s) !! p = Some (node_of d).
Proof. intros [Hp Hq]. simpl. rewrite abs_lookup, decide_False by done. by rewrite Hp. Qed.

Lemma node_live s p n : nodes (abs s) !! p = Some n → ∃ d, live s p d ∧ n = node_of d.
Proof.
  simpl. rewrite abs_lookup. case_decide; [done|]. intros E.
  apply fmap_Some in E as (d & ? & ->). exists d. done.
Qed.

Lemma live_det s p d e : live s p d → dentries s !! p = Some e → d = e.
Proof. intros [? _] ?. congruence. Qed.

(** ** The invariant *)

(** The dentries of the inode table: all but hard links. *)
Definition indexed (A : ATree) (p : ptr) : Prop :=
  ∃ n, nodes A !! p = Some n ∧ an_link n = false.

(** A dentry on its own; a directory has its skiplist, without duplicates. *)
Record dentry_ok (nss : gmap ptr NamespaceEntry) (d : ServerDentry) : Prop := {
  do_children : is_dir d = true → ∃ l, d_children d = Some l ∧ NoDup (sl_elements l);
  do_nlink : is_int32 (st_nlink (d_stat d));
  do_inode : inode_ok (d_inode d);
  do_ns : is_Some (nss !! d_ns_entry d)
}.

(** The server [s] stands for the tree [A], its inode table has the dentries of
    [I], and it processes the record [r] with memory left. *)
Record view (s : Server) (A : ATree) (I : ptr → Prop) (r : BinlogRecord) : Prop := {
  v_abs : abs s = A;
  v_index : index_ok s;
  v_in_index : ∀ p, in_index s p ↔ I p;
  v_local : ∀ p d, live s p d → dentry_ok (namespaces s) d;
  v_freed : ∀ p, p ∈ freed s → is_Some (dentries s !! p);
  v_record : record s = r;
  v_mem : mem_avail s = None
}.

Record tree_ok (s : Server) : Prop := {
  t_wf : wf (abs s) ∅;
  t_view : view s (abs s) (indexed (abs s)) (record s)
}.

(** Children exist and have different names. *)
Definition names_ok (A : ATree) (p : ptr) : Prop :=
  (∀ c, c ∈ kids_at A p → is_Some (nodes A !! c)) ∧
  ∀ c1 c2, c1 ∈ kids_at A p → c2 ∈ kids_at A p → name_at A c1 = name_at A c2 → c1 = c2.

Lemma wf_names_ok A F p : wf A F → names_ok A p.
Proof.
  intros Hwf. split.
  - intros c Hc. destruct (wf_kid_ok _ _ _ _ Hwf Hc) as (_ & e & _ & _ & He & _). eauto.
  - intros c1 c2 J1 J2 E. destruct (kids_at_Some _ _ _ J1) as (n & Hn & K1).
    rewrite (kids_at_eq _ _ _ Hn) in J2. unfold name_at in E.
    destruct (w_kid _ _ Hwf _ _ _ Hn K1) as (e1 & He1 & _).
    destruct (w_kid _ _ Hwf _ _ _ Hn J2) as (e2 & He2 & _).
    rewrite He1, He2 in E. simpl in E. injection E as E. by apply (w_names _ _ Hwf p n c1 c2 e1 e2).
Qed.

Section view.
Context (s : Server) (A : ATree) (I : ptr → Prop) (r : BinlogRecord) (Hv : view s A I r).

Lemma view_live p n : nodes A !! p = Some n → ∃ d, live s p d ∧ node_of d = n.
Proof using All.
  rewrite <- (v_abs _ _ _ _ Hv). intros Hn. destruct (node_live _ _ _ Hn) as (d & ? & ->). eauto.
Qed.

Lemma view_node p d : live s p d → nodes A !! p = Some (node_of d).
Proof using All. rewrite <- (v_abs _ _ _ _ Hv). apply live_node. Qed.

Lemma view_name c : is_Some (nodes A !! c) → name_at A c = Some (name_of s c).
Proof using All.
  intros [n Hn]. destruct (view_live _ _ Hn) as (d & [Hd _] & <-). unfold name_at, name_of.
  by rewrite Hn, Hd.
Qed.

Lemma view_ns p n : nodes A !! p = Some n → is_Some (namespaces s !! an_ns n).
Proof using All.
  intros Hn. destruct (view_live _ _ Hn) as (d & Hd & <-). apply (v_local _ _ _ _ Hv p d Hd).
Qed.

Lemma view_ext J : (∀ q, I q ↔ J q) → view s A J r.
Proof using All. intros E. destruct Hv. split; try done. intros q. by rewrite <- E. Qed.

(** A directory's skiplist. *)
Lemma view_dir p n : nodes A !! p = Some n → an_dir n = true →
  ∃ d l, live s p d ∧ node_of d = n ∧ d_children d = Some l ∧ NoDup (sl_elements l) ∧
    ∀ c, c ∈ sl_elements l ↔ c ∈ kids_at A p.
Proof using All.
  intros Hn Hdir. destruct (view_live _ _ Hn) as (d & Hd & E).
  destruct (do_children _ _ (v_local _ _ _ _ Hv p d Hd)) as (l & Hl & Hnd); [by rewrite <- E in Hdir|].
  exists d, l. split_and!; try done. intros c. rewrite (kids_at_eq _ _ _ Hn), <- E. simpl.
  unfold kids_of. rewrite Hl. by rewrite elem_of_list_to_set.
Qed.

Lemma view_keys p (l : list ptr) :
  names_ok A p → (∀ c, c ∈ l → c ∈ kids_at A p) → NoDup l → NoDup (name_of s <$> l).
Proof using All.
  intros [Hex Hinj] Hl Hnd. apply NoDup_fmap_2_strong; [|done]. intros x y Hx Hy E.
  apply Hinj; [auto..|]. rewrite !view_name by auto. by rewrite E.
Qed.

(** Looking a name up among the children. *)
Lemma view_find p n l name :
  nodes A !! p = Some n → names_ok A p → NoDup (sl_elements l) →
  (∀ c, c ∈ sl_elements l ↔ c ∈ kids_at A p) →
  match uniq_skiplist_find (name_of s) l name with
  | Some c => child_at A p name c
  | None => ∀ c, ¬ child_at A p name c
  end.
Proof using All.
  intros Hn Hnames Hnd Hl.
  pose proof (view_keys p (sl_elements l) Hnames (λ c, proj1 (Hl c)) Hnd) as Hk.
  pose proof (λ c, sl_find_law (name_of s) l name c Hk) as Hf.
  assert (∀ c, child_at A p name c ↔ uniq_skiplist_find (name_of s) l name = Some c) as Hc.
  { intros c. rewrite Hf, child_at_alt, <- Hl. split.
    - intros [Hin E]. split; [done|]. rewrite view_name in E by (apply Hnames, Hl, Hin).
      by injection E.
    - intros [Hin E]. split; [done|]. rewrite view_name by (apply Hnames, Hl, Hin). by rewrite E. }
  destruct (uniq_skiplist_find (name_of s) l name) as [c|]; [by apply Hc|].
  intros c Hch%Hc. done.
Qed.
End view.

(** ** Changes of one dentry *)

Lemma abs_nodes_insert ds fq p d :
  p ∉ fq → abs_nodes (<[p := d]> ds) fq = <[p := node_of d]> (abs_nodes ds fq).
Proof.
  intros Hp. apply map_eq. intros q. rewrite abs_lookup. destruct (decide (q = p)) as [->|Hq].
  - by rewrite decide_False, !lookup_insert_eq.
  - by rewrite !lookup_insert_ne, abs_lookup by done.
Qed.

Lemma upd_node_insert A p n f :
  nodes A !! p = Some n → upd_node p f A = with_nodes (<[p := f n]> (nodes A)) A.
Proof.
  intros Hp. unfold upd_node. f_equal. apply map_eq. intros q.
  destruct (decide (q = p)) as [->|Hq].
  - by rewrite lookup_alter_eq, lookup_insert_eq, Hp.
  - by rewrite lookup_alter_ne, lookup_insert_ne.
Qed.

(** A change outside the chains of the inode table. *)
Lemma index_other s s' p :
  index_ok s → ¬ in_index s p → inode_buckets s' = inode_buckets s →
  (∀ q, q ≠ p → dentries s' !! q = dentries s !! q) →
  index_ok s' ∧ ∀ q, in_index s' q ↔ in_index s q.
Proof.
  intros Hok Hp Hb Hd.
  assert (∀ b l, bucket_ok s b l → bucket_ok s' b l) as Hkeep.
  { intros b l Hl. assert (p ∉ l) as Hpl. { intros Hin. apply Hp. by exists b, l. }
    split.
    - rewrite Hb. apply (chain_insert_ne d_ht_next (dentries s') _ l p (zero_dentry 1%positive));
        [done|]. pose proof (bk_chain _ _ _ Hl) as Hc.
      apply (chain_insert_ne d_ht_next (dentries s) _ l p (zero_dentry 1%positive)) in Hc; [|done].
      replace (<[p := zero_dentry 1%positive]> (dentries s'))
        with (<[p := zero_dentry 1%positive]> (dentries s)); [done|].
      apply map_eq. intros q. destruct (decide (q = p)) as [->|Hq].
      + by rewrite !lookup_insert_eq.
      + rewrite !lookup_insert_ne by done. by rewrite Hd.
    - eapply StronglySorted_impl_in, Hl. intros x y Hx Hy Hlt d e Hdx Hey.
      rewrite Hd in Hdx, Hey by (intros ->; done). by apply Hlt.
    - intros q d Hq Hdq. rewrite Hd in Hdq by (intros ->; done). by apply (bk_inodes _ _ _ Hl q). }
  split.
  - intros b. destruct (Hok b) as [l Hl]. exists l. by apply Hkeep.
  - intros q. split.
    + intros (b & l & Hl & Hq). destruct (Hok b) as [l' Hl']. exists b, l'. split; [done|].
      by rewrite (bucket_det s' b l' l (Hkeep _ _ Hl') Hl).
    + intros (b & l & Hl & Hq). exists b, l. split; [by apply Hkeep|done].
Qed.

Lemma view_put s A I r p d d' :
  view s A I r → live s p d →
  (d_ht_next d' = d_ht_next d ∧ d_inode d' = d_inode d) ∨ ¬ I p →
  dentry_ok (namespaces s) d' →
  view (with_dentries (<[p := d']> (dentries s)) s) (with_nodes (<[p := node_of d']> (nodes A)) A)
    I r.
Proof.
  intros Hv [Hp Hfq] Hht Hd'. set (s' := with_dentries _ s).
  assert (index_ok s' ∧ ∀ q, in_index s' q ↔ in_index s q) as [Hix Hin].
  { destruct Hht as [[E1 E2]|Hni].
    - apply index_keep; [|apply Hv]. split; [done|]. intros q e Hq. simpl.
      destruct (decide (q = p)) as [->|Hqp].
      + exists d'. rewrite lookup_insert_eq. by simplify_eq.
      + exists e. by rewrite lookup_insert_ne.
    - apply (index_other s s' p); [apply Hv|by rewrite (v_in_index _ _ _ _ Hv)|done|].
      intros q Hq. simpl. by rewrite lookup_insert_ne. }
  split; try apply Hv.
  - rewrite <- (v_abs _ _ _ _ Hv). unfold abs, with_nodes. simpl.
    by rewrite abs_nodes_insert.
  - done.
  - intros q. rewrite Hin. apply Hv.
  - intros q e [Hq Hqf]. simpl in Hq. destruct (decide (q = p)) as [->|Hqp].
    + rewrite lookup_insert_eq in Hq. by simplify_eq.
    + rewrite lookup_insert_ne in Hq by done. by apply (v_local _ _ _ _ Hv q).
  - intros q Hq. simpl. destruct (decide (q = p)) as [->|Hqp].
    + by rewrite lookup_insert_eq.
    + rewrite lookup_insert_ne by done. by apply (v_freed _ _ _ _ Hv).
Qed.

(** As a change of the node. *)
Lemma view_update s A I r p d f g :
  view s A I r → live s p d →
  (d_ht_next (f d) = d_ht_next d ∧ d_inode (f d) = d_inode d) ∨ ¬ I p →
  dentry_ok (namespaces s) (f d) → node_of (f d) = g (node_of d) →
  ∃ s', update_dentry_at p f s = Some ((), s') ∧ view s' (upd_node p g A) I r.
Proof.
  intros Hv Hd Hht Hok E. eexists. split; [apply update_dentry_run, Hd|].
  rewrite (upd_node_insert A p (node_of d)) by (by eapply view_node). rewrite <- E.
  by eapply view_put.
Qed.

Lemma n_nlink_with d k :
  node_of (with_d_stat (with_st_nlink (st_nlink (d_stat d) + k) (d_stat d)) d)
  = n_nlink k (node_of d).
Proof. done. Qed.

Lemma view_nlink s A I r p n k :
  view s A I r → nodes A !! p = Some n → is_int32 (an_nlink n + k) →
  ∃ s', modify_stat p (λ st, with_st_nlink (int32 (st_nlink st + k)) st) s = Some ((), s') ∧
    view s' (upd_node p (n_nlink k) A) I r.
Proof.
  intros Hv Hn Hk. destruct (view_live _ _ _ _ Hv _ _ Hn) as (d & Hd & <-). simpl in Hk.
  pose proof (v_local _ _ _ _ Hv p d Hd) as [? ? ? ?].
  apply (view_update s A I r p d _ (n_nlink k) Hv Hd).
  - by left.
  - split; simpl; try done. by rewrite int32_small.
  - simpl. rewrite int32_small by done. apply n_nlink_with.
Qed.

Lemma view_inc s A I r p n :
  view s A I r → nodes A !! p = Some n → an_nlink n < 2 ^ 31 - 1 →
  ∃ s', inc_nlink p s = Some ((), s') ∧ view s' (upd_node p (n_nlink 1) A) I r.
Proof.
  intros Hv Hn Hk. apply (view_nlink s A I r p n 1 Hv Hn).
  destruct (view_live _ _ _ _ Hv _ _ Hn) as (d & Hd & <-).
  pose proof (do_nlink _ _ (v_local _ _ _ _ Hv p d Hd)). unfold is_int32 in *. simpl in *. lia.
Qed.

Lemma view_dec s A I r p n :
  view s A I r → nodes A !! p = Some n → 0 < an_nlink n →
  ∃ s', dec_nlink p s = Some ((), s') ∧ view s' (upd_node p (n_nlink (-1)) A) I r.
Proof.
  intros Hv Hn Hk. apply (view_nlink s A I r p n (-1) Hv Hn).
  destruct (view_live _ _ _ _ Hv _ _ Hn) as (d & Hd & <-).
  pose proof (do_nlink _ _ (v_local _ _ _ _ Hv p d Hd)). unfold is_int32 in *. simpl in *. lia.
Qed.

Definition n_name (name : string) (n : ANode) : ANode :=
  mkANode (an_inode n) name (an_parent n) (an_ns n) (an_dir n) (an_link n) (an_src n)
    (an_nlink n) (an_kids n).
Definition n_parent (p : option ptr) (n : ANode) : ANode :=
  mkANode (an_inode n) (an_name n) p (an_ns n) (an_dir n) (an_link n) (an_src n)
    (an_nlink n) (an_kids n).

Lemma view_set_name s A I r p n name :
  view s A I r → nodes A !! p = Some n →
  ∃ s', update_dentry_at p (with_d_name name) s = Some ((), s') ∧
    view s' (upd_node p (n_name name) A) I r.
Proof.
  intros Hv Hn. destruct (view_live _ _ _ _ Hv _ _ Hn) as (d & Hd & <-).
  pose proof (v_local _ _ _ _ Hv p d Hd) as [? ? ? ?].
  apply (view_update s A I r p d _ _ Hv Hd); [by left|by split|done].
Qed.

Lemma view_set_parent s A I r p n q :
  view s A I r → nodes A !! p = Some n →
  ∃ s', update_dentry_at p (with_d_parent q) s = Some ((), s') ∧
    view s' (upd_node p (n_parent q) A) I r.
Proof.
  intros Hv Hn. destruct (view_live _ _ _ _ Hv _ _ Hn) as (d & Hd & <-).
  pose proof (v_local _ _ _ _ Hv p d Hd) as [? ? ? ?].
  apply (view_update s A I r p d _ _ Hv Hd); [by left|by split|done].
Qed.

Lemma view_set_children s A I r p n l :
  view s A I r → nodes A !! p = Some n → NoDup (sl_elements l) →
  ∃ s', set_children p l s = Some ((), s') ∧
    view s' (upd_node p (n_kids (λ _, list_to_set (sl_elements l))) A) I r.
Proof.
  intros Hv Hn Hl. destruct (view_live _ _ _ _ Hv _ _ Hn) as (d & Hd & <-).
  pose proof (v_local _ _ _ _ Hv p d Hd) as [? ? ? ?].
  apply (view_update s A I r p d _ _ Hv Hd); [by left| |done].
  split; simpl; try done. intros _. by exists l.
Qed.

(** ** Changes elsewhere *)

Lemma view_record s A I r f :
  view s A I r → ∃ s', modify_rec f s = Some ((), s') ∧ view s' A I (f r).
Proof.
  intros Hv. eexists. split; [apply modify_rec_run|].
  assert (ht_keep s (with_record (f (record s)) s)) as Hk by (split; [done|]; eauto).
  destruct (index_keep _ _ Hk (v_index _ _ _ _ Hv)) as [Hix Hin].
  destruct Hv as [Ha _ Hi Hl Hf Hr Hm]. split; try done.
  - intros q. by rewrite Hin.
  - by rewrite <- Hr.
Qed.

Lemma view_alloc s A I r : view s A I r → try_alloc s = Some (true, s).
Proof.
  intros Hv. pose proof (v_mem _ _ _ _ Hv) as E. unfold try_alloc. rewrite E.
  destruct s. simpl in E. by subst.
Qed.

(** A change that keeps dentries and the inode table. *)
Lemma view_other s s' A A' I r :
  view s A I r → dentries s' = dentries s → inode_buckets s' = inode_buckets s →
  free_queue s' = free_queue s → record s' = record s → mem_avail s' = mem_avail s →
  (∀ a, is_Some (namespaces s !! a) → is_Some (namespaces s' !! a)) → abs s' = A' →
  view s' A' I r.
Proof.
  intros [Ha Hx Hi Hl Hf Hr Hm] Ed Eb Ef Er Em Hns HA'.
  assert (ht_keep s s') as Hk by (split; [done|]; rewrite Ed; eauto).
  destruct (index_keep _ _ Hk Hx) as [Hix Hin]. split; try done.
  - intros q. by rewrite Hin.
  - intros p d [Hp Hq]. rewrite Ed in Hp. unfold freed in Hq. rewrite Ef in Hq.
    destruct (Hl p d) as [? ? ? ?]; [done|]. split; auto.
  - intros p. unfold freed. rewrite Ef, Ed. apply Hf.
  - by rewrite Er.
  - by rewrite Em.
Qed.

Lemma abs_roots_insert m a n :
  abs_roots (<[a := n]> m) = partial_alter (λ _, ns_root n) a (abs_roots m).
Proof.
  apply map_eq. intros b. unfold abs_roots. rewrite lookup_omap.
  destruct (decide (b = a)) as [->|Hb].
  - by rewrite lookup_insert_eq, lookup_partial_alter_eq.
  - rewrite lookup_insert_ne, lookup_partial_alter_ne by done. by rewrite lookup_omap.
Qed.

Lemma abs_counts_insert m a n :
  abs_counts (<[a := n]> m)
  = <[a := (count_dir (ns_counts n), count_file (ns_counts n))]> (abs_counts m).
Proof. unfold abs_counts. by rewrite fmap_insert. Qed.

Lemma insert_same {V} (m : gmap ptr V) k x : m !! k = Some x → <[k := x]> m = m.
Proof. apply insert_id. Qed.

Lemma view_root s A I r a n o :
  view s A I r → namespaces s !! a = Some n →
  ∃ s', update_ns_at a (with_ns_root o) s = Some ((), s') ∧
    view s' (with_roots (partial_alter (λ _, o) a (roots A)) A) I r.
Proof.
  intros Hv Hn. eexists. split; [by apply update_ns_run|]. eapply view_other; try done.
  - intros b Hb. simpl. destruct (decide (b = a)) as [->|]; [by rewrite lookup_insert_eq|].
    by rewrite lookup_insert_ne.
  - rewrite <- (v_abs _ _ _ _ Hv). unfold abs, with_roots. simpl. f_equal.
    + by rewrite abs_roots_insert.
    + rewrite abs_counts_insert. simpl. apply insert_same. unfold abs_counts.
      by rewrite lookup_fmap, Hn.
Qed.

Lemma view_count s A I r thread n k :
  view s A I r → is_Some (namespaces s !! an_ns n) →
  ∃ s', count_dentry thread (an_ns n) (an_dir n) k s = Some ((), s') ∧
    view s' (add_count n k A) I r.
Proof.
  intros Hv [ne Hne].
  assert (∀ dir file, (dir, file) = (if an_dir n then (k, 0) else (0, k)) →
    ∃ s', (add_counters thread 0 dir file;; add_ns_counts (an_ns n) dir file) s = Some ((), s') ∧
      view s' (add_count n k A) I r) as Hgen.
  { intros dir file E. erewrite bind_run by reflexivity. cbn beta.
    eexists. split; [by apply add_ns_counts_run|]. eapply view_other; try done.
    - intros b Hb. simpl. destruct (decide (b = an_ns n)) as [->|]; [by rewrite lookup_insert_eq|].
      by rewrite lookup_insert_ne.
    - rewrite <- (v_abs _ _ _ _ Hv). unfold abs, add_count, with_counts. simpl. f_equal.
      + rewrite abs_roots_insert. simpl. apply map_eq. intros b. unfold abs_roots.
        destruct (decide (b = an_ns n)) as [->|].
        * by rewrite lookup_partial_alter_eq, lookup_omap, Hne.
        * by rewrite lookup_partial_alter_ne.
      + rewrite abs_counts_insert. simpl. apply map_eq. intros b. unfold abs_counts.
        destruct (decide (b = an_ns n)) as [->|].
        * rewrite lookup_insert_eq, lookup_alter_eq, lookup_fmap, Hne. simpl.
          destruct (an_dir n); injection E as -> ->; repeat f_equal; lia.
        * by rewrite lookup_insert_ne, lookup_alter_ne. }
  unfold count_dentry. destruct (an_dir n); by apply Hgen.
Qed.

(** ** The inode table *)

Lemma table_frame_view s s' A I I' r :
  view s A I r → table_frame s s' → index_ok s' → (∀ q, in_index s' q ↔ I' q) →
  view s' A I' r.
Proof.
  intros [Ha Hx Hi Hl Hf Hr Hm] [Es Ed] Hix Hin.
  assert (∀ p d', dentries s' !! p = Some d' → ∃ d, dentries s !! p = Some d ∧
    with_d_ht_next None d' = with_d_ht_next None d) as Hinv.
  { intros p d' Hp. specialize (Ed p). rewrite Hp in Ed. simpl in Ed. symmetry in Ed.
    apply fmap_Some in Ed as (d & ? & ?). eauto. }
  rewrite Es in *. simpl in *. split; try done.
  - rewrite <- Ha. unfold abs. simpl. f_equal. apply map_eq. intros p. rewrite !abs_lookup.
    change (freed (with_inode_buckets _ _)) with (freed s).
    case_decide; [done|]. specialize (Ed p).
    assert (∀ d, node_of (with_d_ht_next None d) = node_of d) as E by done.
    destruct (dentries s' !! p) as [d'|], (dentries s !! p) as [d|]; simpl in *; try done.
    apply (inj Some) in Ed. by rewrite <- (E d'), Ed, E.
  - intros p d' [Hp Hq]. simpl in Hp. destruct (Hinv p d' Hp) as (d & Hd & E).
    destruct (Hl p d) as [K1 K2 K3 K4]; [done|]. injection E as E1 E2 E3 E4 E5 E6 E7 E8 E9 E10.
    split; simpl; unfold is_dir in *; rewrite ?E1, ?E5, ?E8, ?E10; done.
  - intros p Hp. simpl. destruct (Hf p Hp) as [d Hd]. specialize (Ed p). rewrite Hd in Ed.
    simpl in Ed. apply fmap_Some in Ed as (d' & ? & _). eauto.
Qed.

Lemma view_index_add s A I r p n :
  view s A I r → nodes A !! p = Some n →
  (∀ q, I q → ∃ m, nodes A !! q = Some m ∧ an_inode m ≠ an_inode n) →
  ∃ s', inode_index_add_dentry p s = Some (0, s') ∧ view s' A (λ q, I q ∨ q = p) r.
Proof.
  intros Hv Hn Hfresh. destruct (view_live _ _ _ _ Hv _ _ Hn) as (d & [Hd Hq] & <-).
  pose proof (v_local _ _ _ _ Hv p d (conj Hd Hq)) as [_ _ Hi _].
  destruct (add_dentry_run s p d (v_index _ _ _ _ Hv) Hd Hi) as ([x|] & Hfound & Hrun).
  - destruct (proj1 (Hfound x) eq_refl) as (Hx & e & He & E).
    apply (v_in_index _ _ _ _ Hv) in Hx. destruct (Hfresh x Hx) as (m & Hm & Hne).
    destruct (view_live _ _ _ _ Hv _ _ Hm) as (e' & [He' _] & <-). simpl in Hne. congruence.
  - destruct Hrun as (s' & Hrun & Hfr & Hix & Hin). exists s'. split; [done|].
    eapply table_frame_view; try done. intros q. by rewrite Hin, (v_in_index _ _ _ _ Hv).
Qed.

Lemma abs_used m a n v :
  m !! a = Some n → abs_roots (<[a := with_ns_used_bytes v n]> m) = abs_roots m ∧
    abs_counts (<[a := with_ns_used_bytes v n]> m) = abs_counts m.
Proof.
  intros Hn. split.
  - rewrite abs_roots_insert. simpl. apply map_eq. intros b. destruct (decide (b = a)) as [->|].
    + rewrite lookup_partial_alter_eq. unfold abs_roots. by rewrite lookup_omap, Hn.
    + by rewrite lookup_partial_alter_ne.
  - rewrite abs_counts_insert. simpl. apply insert_same. unfold abs_counts.
    by rewrite lookup_fmap, Hn.
Qed.

Lemma view_release s A I r dd :
  view s A I r → index_ok (release_alloc dd s) → view (release_alloc dd s) A I r.
Proof.
  intros Hv Hix. unfold release_alloc in *. destruct (namespaces s !! d_ns_entry dd) as [n|] eqn:Hn;
    [|done]. destruct (0 <? st_alloc (d_stat dd)); [|done].
  eapply view_other; try done.
  - intros b Hb. simpl. destruct (decide (b = d_ns_entry dd)) as [->|].
    + by rewrite lookup_insert_eq.
    + by rewrite lookup_insert_ne.
  - rewrite <- (v_abs _ _ _ _ Hv). unfold abs. simpl.
    by destruct (abs_used (namespaces s) (d_ns_entry dd) n
      (int64 (ns_used_bytes n + - st_alloc (d_stat dd))) Hn) as [-> ->].
Qed.

Lemma view_index_del s A I r p n :
  view s A I r → nodes A !! p = Some n → I p → (∀ q, I q → is_Some (nodes A !! q)) →
  ∃ s', inode_index_del_dentry p s = Some (0, s') ∧ view s' A (λ q, I q ∧ q ≠ p) r.
Proof.
  intros Hv Hn Hp Hall. destruct (view_live _ _ _ _ Hv _ _ Hn) as (d & [Hd Hq] & <-).
  pose proof (v_local _ _ _ _ Hv p d (conj Hd Hq)) as [_ _ Hi _].
  pose proof (v_in_index _ _ _ _ Hv) as HI.
  destruct (del_dentry_run s p d (v_index _ _ _ _ Hv) Hd Hi) as (o & Hfound & Hrun).
  { intros q dd Hqi Hdd. apply HI in Hqi. destruct (Hall q Hqi) as [m Hm].
    destruct (view_live _ _ _ _ Hv _ _ Hm) as (e & He & <-).
    destruct (v_local _ _ _ _ Hv q e He) as [_ _ _ Hns]. destruct He as [He _]. by simplify_eq. }
  assert (o = Some p) as -> by (apply Hfound; split; [by apply HI|by exists d]).
  destruct Hrun as (dd & s1 & Hdd & Hrun & Hfr & Hix & Hin).
  exists (release_alloc dd s1). split; [done|].
  apply view_release; [|done]. destruct (release_alloc_frame dd s1) as [Eb Ed].
  assert (ht_keep (release_alloc dd s1) s1) as Hk.
  { split; [done|]. rewrite Ed. eauto. }
  destruct (index_keep _ _ Hk Hix) as [Hix1 Hin1].
  eapply table_frame_view; [done..|]. intros q. by rewrite Hin1, Hin, HI.
Qed.

(** ** Freeing and allocating *)

Lemma view_free s A I r p n :
  view s A I r → nodes A !! p = Some n →
  ∃ s', dentry_free_func p FDIR_DELAY_FREE_SECONDS s = Some ((), s') ∧
    view s' (del_node p A) I r.
Proof.
  intros Hv Hn. destruct (view_live _ _ _ _ Hv _ _ Hn) as (d & [Hd Hq] & <-).
  unfold dentry_free_func, server_add_to_delay_free_queue. cbn [Z.ltb Z.compare FDIR_DELAY_FREE_SECONDS].
  rewrite bind_bind. run_with (view_alloc s A I r Hv). cbn iota. rewrite bind_bind.
  eexists. split; [reflexivity|]. set (s' := with_free_queue _ s).
  assert (freed s' = freed s ++ [p]) as Ef by (unfold freed; simpl; by rewrite fmap_app).
  assert (ht_keep s s') as Hk by (split; [done|]; eauto).
  destruct (index_keep _ _ Hk (v_index _ _ _ _ Hv)) as [Hix Hin].
  destruct Hv as [Ha Hx Hi Hl Hf Hr Hm]. split; try done.
  - rewrite <- Ha. unfold abs, del_node, with_nodes. simpl. f_equal. apply map_eq. intros q.
    rewrite abs_lookup, Ef. destruct (decide (q = p)) as [->|Hqp].
    + rewrite lookup_delete_eq, decide_True by set_solver. done.
    + rewrite lookup_delete_ne, abs_lookup by done. do 2 case_decide; set_solver.
  - intros q. by rewrite Hin.
  - intros q e [He Hqf]. apply (Hl q). split; [done|]. intros Hin'. apply Hqf. rewrite Ef. set_solver.
  - intros q Hqf. rewrite Ef in Hqf. apply elem_of_app in Hqf as [Hqf|Hqf]; [by apply Hf|].
    apply list_elem_of_singleton in Hqf as ->. simpl. eauto.
Qed.

(** The tree with the dentry [d] at [p]. *)
Definition put (p : ptr) (d : ServerDentry) (A : ATree) : ATree :=
  with_nodes (<[p := node_of d]> (nodes A)) A.

Lemma put_put p d d' A : put p d' (put p d A) = put p d' A.
Proof. unfold put. simpl. by rewrite insert_insert_eq. Qed.

Lemma view_new s A I r ns :
  view s A I r → is_Some (namespaces s !! ns) →
  let p := fresh_ptr (dentries s) in
  ∃ s', dentry_alloc ns s = Some (Some p, s') ∧ view s' (put p (zero_dentry ns) A) I r ∧
    live s' p (zero_dentry ns) ∧ nodes A !! p = None ∧ ¬ I p.
Proof.
  intros Hv Hns p. pose proof (fresh_ptr_fresh (dentries s)) as Hp. fold p in Hp.
  unfold dentry_alloc. run_with (view_alloc s A I r Hv). cbn iota. sstep. sstep.
  eexists. split; [reflexivity|]. set (s' := with_dentries _ s).
  assert (p ∉ freed s) as Hfq.
  { intros Hin. destruct (v_freed _ _ _ _ Hv p Hin) as [d Hd]. congruence. }
  assert (¬ in_index s p) as Hni.
  { intros Hin. destruct (in_index_dentry s p Hin) as (d & Hd & _). congruence. }
  destruct (index_other s s' p (v_index _ _ _ _ Hv) Hni) as [Hix Hin]; [done| |].
  { intros q Hq. simpl. fold p. by rewrite lookup_insert_ne. }
  assert (nodes A !! p = None) as HAp.
  { rewrite <- (v_abs _ _ _ _ Hv). simpl. rewrite abs_lookup. case_decide; [done|]. by rewrite Hp. }
  split; [|split; [split; [simpl; fold p; by rewrite lookup_insert_eq|done]|]].
  - destruct Hv as [Ha Hx Hi Hl Hf Hr Hm]. split; try done.
    + rewrite <- Ha. unfold abs, put, with_nodes. simpl. fold p. by rewrite abs_nodes_insert.
    + intros q. by rewrite Hin.
    + intros q e [Hq Hqf]. simpl in Hq. fold p in Hq.
      destruct (decide (q = p)) as [->|Hqp].
      * rewrite lookup_insert_eq in Hq. simplify_eq. split; simpl; try done.
      * rewrite lookup_insert_ne in Hq by done. by apply (Hl q).
    + intros q Hq. simpl. fold p. destruct (decide (q = p)) as [->|].
      * by rewrite lookup_insert_eq.
      * rewrite lookup_insert_ne by done. by apply Hf.
  - split; [done|]. by rewrite <- (v_in_index _ _ _ _ Hv).
Qed.

(** Filling in a new dentry. *)
Lemma view_fill s A I r p d f :
  view s (put p d A) I r → live s p d → ¬ I p → d_ns_entry (f d) = d_ns_entry d →
  (is_dir (f d) = true → ∃ l, d_children (f d) = Some l ∧ NoDup (sl_elements l)) →
  is_int32 (st_nlink (d_stat (f d))) → inode_ok (d_inode (f d)) →
  ∃ s', update_dentry_at p f s = Some ((), s') ∧ view s' (put p (f d) A) I r ∧ live s' p (f d).
Proof.
  intros Hv [Hp Hq] Hni Ens Hch Hnl Hi. eexists. split; [by apply update_dentry_run|]. split.
  - rewrite <- (put_put p d (f d) A). apply (view_put s _ I r p d); [done|done|by right|].
    destruct (v_local _ _ _ _ Hv p d (conj Hp Hq)) as [_ _ _ Hns]. split; try done.
    by rewrite Ens.
  - split; [simpl; by rewrite lookup_insert_eq|done].
Qed.

(** ** A directory's children *)

Lemma upd_node_ext A p n f g :
  nodes A !! p = Some n → f n = g n → upd_node p f A = upd_node p g A.
Proof. intros Hn E. rewrite !(upd_node_insert A p n) by done. by rewrite E. Qed.

Lemma n_kids_ext f g n : f (an_kids n) = g (an_kids n) → n_kids f n = n_kids g n.
Proof. unfold n_kids. by intros ->. Qed.

Lemma children_of_run s p d l :
  dentries s !! p = Some d → d_children d = Some l → children_of p s = Some (l, s).
Proof. intros Hd Hl. unfold children_of. sstep. by rewrite Hl. Qed.

(** The skiplist's new elements as a change of the node. *)
Lemma view_children s A I r dir n l' f :
  view s A I r → nodes A !! dir = Some n → NoDup (sl_elements l') →
  (∀ c, c ∈ sl_elements l' ↔ c ∈ f (an_kids n)) →
  ∃ s', set_children dir l' s = Some ((), s') ∧ view s' (upd_node dir (n_kids f) A) I r.
Proof.
  intros Hv Hn Hnd Hf. destruct (view_set_children s A I r dir n l' Hv Hn Hnd) as (s' & Hrun & Hv').
  exists s'. split; [done|].
  rewrite (upd_node_ext A dir n (n_kids f) (n_kids (λ _, list_to_set (sl_elements l'))) Hn); [done|].
  apply n_kids_ext. apply set_eq. intros c. by rewrite elem_of_list_to_set, Hf.
Qed.

Lemma finish_free (b : bool) q s1 A1 I r m :
  view s1 A1 I r → nodes A1 !! q = Some m →
  ∃ s', ((if b then dentry_free_func q FDIR_DELAY_FREE_SECONDS else mret ());; mret 0) s1
      = Some (0, s') ∧ view s' (if b then del_node q A1 else A1) I r.
Proof.
  intros Hv1 Hq. destruct b.
  - destruct (view_free s1 A1 I r q m Hv1 Hq) as (s' & Hrun & Hv'). exists s'. split; [|done].
    by run_with Hrun.
  - exists s1. done.
Qed.

Section children.
Context (s : Server) (A : ATree) (I : ptr → Prop) (r : BinlogRecord) (dir p : ptr) (dn n : ANode).
Context (Hv : view s A I r) (Hdn : nodes A !! dir = Some dn) (Hdir : an_dir dn = true).
Context (Hnames : names_ok A dir) (Hn : nodes A !! p = Some n).

Lemma name_of_p : name_of s p = an_name n.
Proof using All.
  assert (is_Some (nodes A !! p)) as Hp by eauto.
  pose proof (view_name _ _ _ _ Hv p Hp) as E. unfold name_at in E. rewrite Hn in E.
  by injection E.
Qed.

Lemma dir_skiplist : ∃ l, children_of dir s = Some (l, s) ∧ NoDup (sl_elements l) ∧
  NoDup (name_of s <$> sl_elements l) ∧ ∀ c, c ∈ sl_elements l ↔ c ∈ an_kids dn.
Proof using All.
  destruct (view_dir _ _ _ _ Hv _ _ Hdn Hdir) as (d & l & [Hd _] & _ & Hl & Hnd & Hel).
  exists l. split; [by eapply children_of_run|]. split; [done|]. split.
  - eapply (view_keys _ _ _ _ Hv dir); [done| |done]. intros c. apply Hel.
  - intros c. by rewrite Hel, (kids_at_eq _ _ _ Hdn).
Qed.

Lemma key_elem l c : (∀ c, c ∈ sl_elements l ↔ c ∈ an_kids dn) →
  c ∈ sl_elements l → name_at A c = Some (name_of s c).
Proof using All.
  intros Hel Hc. apply (view_name _ _ _ _ Hv). apply Hnames.
  by rewrite (kids_at_eq _ _ _ Hdn), <- Hel.
Qed.

Lemma view_children_insert :
  (∀ c, ¬ child_at A dir (an_name n) c) →
  ∃ s', children_insert dir p s = Some (0, s') ∧
    view s' (upd_node dir (n_kids (λ k, {[p]} ∪ k)) A) I r.
Proof using All.
  intros Hfree. destruct dir_skiplist as (l & Hrun & Hnd & Hkeys & Hel).
  assert (name_of s p ∉ name_of s <$> sl_elements l) as Hkey.
  { intros (c & E & Hc)%list_elem_of_fmap. apply (Hfree c). rewrite child_at_alt.
    rewrite (kids_at_eq _ _ _ Hdn), <- Hel. split; [done|].
    by rewrite (key_elem l c Hel Hc), <- E, name_of_p. }
  destruct (sl_insert_law (name_of s) l p Hkeys Hkey) as (l' & Hins & Hperm).
  assert (p ∉ sl_elements l) as Hp. { intros Hin. apply Hkey. apply list_elem_of_fmap. eauto. }
  destruct (view_children s A I r dir dn l' (λ k, {[p]} ∪ k) Hv Hdn) as (s' & Hset & Hv').
  - rewrite Hperm. by constructor.
  - intros c. rewrite Hperm, elem_of_cons, Hel. set_solver.
  - exists s'. split; [|done]. unfold children_insert. run_with Hrun.
    run_with (view_alloc s A I r Hv). sstep. rewrite Hins. by run_with Hset.
Qed.

Lemma view_children_delete (b : bool) :
  p ∈ kids_at A dir →
  ∃ s', children_delete dir p b s = Some (0, s') ∧
    view s' (let A1 := upd_node dir (n_kids (λ k, k ∖ {[p]})) A in
             if b then del_node p A1 else A1) I r.
Proof using All.
  intros Hp. destruct dir_skiplist as (l & Hrun & Hnd & Hkeys & Hel).
  rewrite (kids_at_eq _ _ _ Hdn), <- Hel in Hp.
  destruct (sl_delete_law (name_of s) l p p Hkeys Hp eq_refl) as (l' & Hdel & Hperm).
  rewrite Hperm in Hnd. apply NoDup_cons in Hnd as [Hpl Hnd].
  destruct (view_children s A I r dir dn l' (λ k, k ∖ {[p]}) Hv Hdn Hnd) as (s1 & Hset & Hv1).
  { intros c. rewrite elem_of_difference, elem_of_singleton, <- Hel, Hperm, elem_of_cons.
    set_solver. }
  destruct (finish_free b p s1 _ I r (if decide (p = dir) then n_kids (λ k, k ∖ {[p]}) n else n) Hv1)
    as (s' & Hfin & Hv').
  { rewrite upd_lookup, Hn. by case_decide. }
  exists s'. split; [|done]. unfold children_delete. run_with Hrun. sstep. rewrite Hdel.
  run_with Hset. done.
Qed.

Lemma view_children_replace (b : bool) q m :
  p ∉ kids_at A dir → q ∈ kids_at A dir → nodes A !! q = Some m → an_name m = an_name n →
  ∃ s', children_replace dir p b s = Some (0, s') ∧
    view s' (let A1 := upd_node dir (n_kids (λ k, {[p]} ∪ k ∖ {[q]})) A in
             if b then del_node q A1 else A1) I r.
Proof using All.
  intros Hp Hq Hm E. destruct dir_skiplist as (l & Hrun & Hnd & Hkeys & Hel).
  rewrite (kids_at_eq _ _ _ Hdn), <- Hel in Hp, Hq.
  assert (name_of s q = name_of s p) as Hkey.
  { pose proof (key_elem l q Hel Hq) as Eq. unfold name_at in Eq. rewrite Hm in Eq.
    rewrite name_of_p. injection Eq as Eq. congruence. }
  destruct (sl_replace_law (name_of s) l p q Hkeys Hq Hkey) as (l' & rest & Hrep & Hperm & Hperm').
  rewrite Hperm in Hnd. apply NoDup_cons in Hnd as [Hqr Hnd].
  destruct (view_children s A I r dir dn l' (λ k, {[p]} ∪ k ∖ {[q]}) Hv Hdn) as (s1 & Hset & Hv1).
  { rewrite Hperm'. constructor; [|done]. intros Hin. apply Hp. rewrite Hperm. set_solver. }
  { intros c. rewrite Hperm', elem_of_union, elem_of_singleton, elem_of_difference,
      elem_of_singleton, <- Hel, Hperm, !elem_of_cons. set_solver. }
  destruct (finish_free b q s1 _ I r (if decide (q = dir) then
    n_kids (λ k, {[p]} ∪ k ∖ {[q]}) m else m) Hv1) as (s' & Hfin & Hv').
  { rewrite upd_lookup, Hm. by case_decide. }
  exists s'. split; [|done]. unfold children_replace. run_with Hrun. sstep. rewrite Hrep.
  run_with Hset. done.
Qed.
End children.

(** ** Finding *)

Lemma find_child_run s A I r thread p n name :
  STORAGE_ENABLED = false → view s A I r → nodes A !! p = Some n → names_ok A p →
  ∃ rc child, find_child thread p name s = Some ((rc, child), s) ∧
    match child with
    | Some c => rc = 0 ∧ an_dir n = true ∧ child_at A p name c
    | None => rc = (if an_dir n then ENOENT else ENOTDIR) ∧
              (an_dir n = true → ∀ c, ¬ child_at A p name c)
    end.
Proof.
  intros Hst Hv Hn Hnames. destruct (view_live _ _ _ _ Hv _ _ Hn) as (d & [Hd Hq] & E).
  unfold find_child, check_load. rewrite Hst. erewrite bind_run by reflexivity. cbn beta.
  cbn [Z.eqb negb]. sstep. destruct (S_ISDIR (st_mode (d_stat d))) eqn:Hdir; cbn [negb].
  2: { exists ENOTDIR, None. split; [done|]. rewrite <- E. simpl. unfold is_dir. by rewrite Hdir. }
  assert (an_dir n = true) as Hnd by (rewrite <- E; exact Hdir).
  destruct (view_dir _ _ _ _ Hv _ _ Hn Hnd) as (d' & l & [Hd' _] & _ & Hl & Hnodup & Hel).
  assert (d' = d) as -> by congruence.
  erewrite bind_run by (by rewrite Hl). cbn beta. sstep.
  pose proof (view_find _ _ _ _ Hv p n l name Hn Hnames Hnodup Hel) as Hf.
  destruct (uniq_skiplist_find (name_of s) l name) as [c|].
  - erewrite bind_run by reflexivity. cbn beta. cbn [Z.eqb negb].
    exists 0, (Some c). by rewrite Hnd.
  - exists ENOENT, None. by rewrite Hnd.
Qed.
End abs.
