(* ===== verification/DentryTree.v ===== *)
(** * [server/dentry.c] implements the directory tree

    The theorems show that creating, removing and renaming succeed exactly when
    the code's checks say so, that they then change the tree as specified in
    [FsTree.v], and that they keep the server well formed ([tree_ok]): the
    tree's invariant, with the link counts and the namespaces' counts, and an
    inode table that has exactly the dentries that are not hard links. *)

From S2P Require Import Prelude NsSubscribe FsTree ServerTypes InodeGenerator NsManager.
From S2P Require Import InodeIndex Dentry DentryView.

(** Lookups of a tree after a row of changes. *)
Ltac node_lookup :=
  repeat first [rewrite lookup_alter_eq | rewrite lookup_alter_ne by congruence
               | rewrite lookup_delete_eq | rewrite lookup_delete_ne by congruence].

Section tree.
Context `{UniqSkiplist} `{ServerConfig} `{!StorageEngine} `{!PathSplit}.

Lemma view_tree_ok s A I r :
  view s A I r → wf A ∅ → (∀ p, I p ↔ indexed A p) → tree_ok s ∧ abs s = A ∧ record s = r.
Proof.
  intros Hv Hwf HI. pose proof (v_abs _ _ _ _ Hv) as E. split; [|split; [done|apply Hv]].
  split; rewrite E; [done|]. destruct Hv as [Ha Hx Hi Hl Hf Hr Hm]. split; try done.
  intros p. by rewrite Hi, HI.
Qed.

(** The lemma on the view for the next statement. *)
Lemma atree_eq A B :
  (∀ q, nodes A !! q = nodes B !! q) → roots A = roots B → counts A = counts B → A = B.
Proof.
  destruct A as [n1 r1 c1], B as [n2 r2 c2]. simpl. intros En -> ->. f_equal. by apply map_eq.
Qed.

Definition me_found (child : option ptr) (r : BinlogRecord) : BinlogRecord :=
  with_r_me (with_re_dentry child (r_me r)) r.

(** The parent's child of the record's name. *)
Lemma find_me_run s A I r thread create_ns p n :
  STORAGE_ENABLED = false → view s A I r → re_parent (r_me r) = Some p →
  nodes A !! p = Some n → names_ok A p →
  ∃ rc child s', dentry_find_me thread create_ns s = Some ((rc, Some (an_ns n)), s') ∧
    view s' A I (me_found child r) ∧ dentries s' = dentries s ∧ namespaces s' = namespaces s ∧
    inode_sn s' = inode_sn s ∧
    match child with
    | Some c => rc = 0 ∧ an_dir n = true ∧ child_at A p (re_pname (r_me r)) c
    | None => rc = (if an_dir n then ENOENT else ENOTDIR) ∧
              (an_dir n = true → ∀ c, ¬ child_at A p (re_pname (r_me r)) c)
    end.
Proof.
  intros Hst Hv Hpar Hn Hnames. destruct (view_live _ _ _ _ Hv _ _ Hn) as (d & Hd & E).
  destruct (do_ns _ _ (v_local _ _ _ _ Hv p d Hd)) as [ne Hne]. destruct Hd as [Hd Hq].
  unfold dentry_find_me. sstep. rewrite (v_record _ _ _ _ Hv). cbn zeta. rewrite Hpar.
  sstep. sstep.
  destruct (find_child_run s A I r (ns_thread ne) p n (re_pname (r_me r)) Hst Hv Hn Hnames)
    as (rc & child & Hrun & Hres).
  run_with Hrun. cbn beta iota.
  destruct (view_record s A I r (me_found child) Hv) as (s' & Hrec & Hv').
  exists rc, child, s'. split.
  { unfold set_me_found. run_with Hrec. by rewrite <- E. }
  split; [done|]. rewrite modify_rec_run in Hrec. injection Hrec as <-. done.
Qed.

(** ** Creating *)

(** The node [dentry_create] makes of the record [r]. *)
Definition created_dentry (r : BinlogRecord) (inode : Z) (p : option ptr) (ns : ptr) : ServerDentry :=
  let mode := st_mode (r_stat r) in
  mkServerDentry inode (re_pname (r_me r)) FDIR_DENTRY_LOADED_FLAGS_ALL 1 (fill_stat (r_stat r))
    (if FDIR_IS_DENTRY_HARD_LINK mode
     then match r_hdlink_src r with Some src => DSrc src | None => DNone end
     else if S_ISLNK mode then DLinkTo (r_link r) else DNone)
    None (if S_ISDIR mode then Some uniq_skiplist_new else None) p ns None.

Definition new_node (r : BinlogRecord) (inode : Z) (p : option ptr) (ns : ptr) : ANode :=
  n_nlink (-1) (node_of (created_dentry r inode p ns)).

(** The source of the hard link the record asks for. *)
Definition link_target_ok (A : ATree) (r : BinlogRecord) : Prop :=
  FDIR_IS_DENTRY_HARD_LINK (st_mode (r_stat r)) = true →
  S_ISDIR (st_mode (r_stat r)) = false ∧
  ∃ src m, r_hdlink_src r = Some src ∧ nodes A !! src = Some m ∧ an_dir m = false ∧
    an_link m = false ∧ an_nlink m < 2 ^ 31 - 1.

Lemma new_node_ok A r inode p ns : link_target_ok A r → new_ok A (new_node r inode p ns).
Proof.
  intros Hl. split_and!.
  - unfold new_node, node_of, created_dentry, kids_of. simpl.
    destruct (S_ISDIR (st_mode (r_stat r))); [|done]. simpl. by rewrite sl_new_law.
  - done.
  - simpl. unfold is_link. simpl. intros E. destruct (Hl E) as (Hd & src & m & Hs & Hm & ? & ? & _).
    split; [done|]. exists src, m. unfold src_of. simpl. by rewrite E, Hs.
Qed.

Lemma add_count_nodes n k A : nodes (add_count n k A) = nodes A.
Proof. done. Qed.

Lemma put_lookup c d A q :
  nodes (put c d A) !! q = if decide (q = c) then Some (node_of d) else nodes A !! q.
Proof.
  unfold put. simpl. case_decide; [subst; apply lookup_insert_eq|by apply lookup_insert_ne].
Qed.

Lemma n_nlink_0 n : n_nlink 0 n = n.
Proof. destruct n. unfold n_nlink. simpl. by rewrite Z.add_0_r. Qed.

(** The tree after the steps of the code is the one specified. *)
Lemma create_steps_eq A c p n0 d :
  nodes A !! c = None → new_ok A n0 → node_of d = n_nlink 1 n0 → is_Some (nodes A !! p) →
  add_count (node_of d) 1 (upd_node p (n_nlink 1) (upd_node p (n_kids (λ k, {[c]} ∪ k))
    (link_ref (node_of d) 1 (put c d A)))) = create_spec c p n0 A.
Proof.
  intros Hc Hn0 E [m Hm]. pose proof (new_not_src A c n0 Hc Hn0) as Hsrc.
  assert (c ≠ p) as Hcp by congruence. unfold create_spec.
  assert (∀ q, link_delta (node_of d) q = link_delta n0 q) as Hld by (intros; by rewrite E).
  apply atree_eq.
  - intros q. unfold p_attach. rewrite add_count_nodes.
    rewrite !upd_lookup, link_ref_lookup, new_lookup, put_lookup, Hld, Z.mul_1_r.
    destruct (decide (q = c)) as [->|Hqc].
    + destruct (decide (c = p)); [done|]. unfold link_delta. rewrite Hsrc, E. simpl. f_equal.
      apply n_nlink_0.
    + destruct (decide (q = p)) as [->|Hqp]; [|done]. by rewrite Hm.
  - simpl. by rewrite link_ref_roots.
  - rewrite E. simpl. by rewrite link_ref_counts.
Qed.

(** The children of [p] are the same, with the same names. *)
Definition same_dir (A A' : ATree) (p : ptr) : Prop :=
  kids_at A' p = kids_at A p ∧ ∀ e, e ∈ kids_at A p → name_at A' e = name_at A e.

Lemma name_at_Some A c : is_Some (nodes A !! c) ↔ is_Some (name_at A c).
Proof. unfold name_at. by rewrite fmap_is_Some. Qed.

Lemma same_dir_names A A' p : same_dir A A' p → names_ok A p → names_ok A' p.
Proof.
  intros [Hk Hn] [Hex Hinj]. unfold names_ok. rewrite Hk. split.
  - intros c Hc. rewrite name_at_Some, (Hn c Hc), <- name_at_Some. auto.
  - intros c1 c2 K1 K2. rewrite (Hn c1 K1), (Hn c2 K2). auto.
Qed.

Lemma same_dir_child A A' p name c : same_dir A A' p → child_at A' p name c ↔ child_at A p name c.
Proof.
  intros [Hk Hn]. rewrite !child_at_alt, Hk. split; intros [Hc E]; (split; [done|]).
  - by rewrite <- (Hn c Hc).
  - by rewrite (Hn c Hc).
Qed.

Lemma same_dir_put A c d p :
  nodes A !! c = None → names_ok A p → p ≠ c → same_dir A (put c d A) p.
Proof.
  intros Hc [Hex _] Hp. split.
  - unfold kids_at. by rewrite put_lookup, decide_False.
  - intros e He. unfold name_at. rewrite put_lookup, decide_False; [done|].
    intros ->. destruct (Hex c He). congruence.
Qed.

Lemma same_dir_link n k A p : same_dir A (link_ref n k A) p.
Proof.
  split.
  - unfold kids_at. rewrite link_ref_lookup. by destruct (nodes A !! p).
  - intros e _. unfold name_at. rewrite link_ref_lookup. by destruct (nodes A !! e).
Qed.

Lemma same_dir_trans A B C p : same_dir A B p → same_dir B C p → same_dir A C p.
Proof.
  intros [K1 N1] [K2 N2]. split; [congruence|]. intros e He. rewrite N2, N1; [done..|].
  by rewrite K1.
Qed.

(** The first half of [create_link]: the source of a hard link, or the inode
    table. *)
Lemma create_ref_run s A I r c d :
  view s (put c d A) I r → ¬ I c → nodes A !! c = None → (∀ q, I q ↔ indexed A q) →
  (is_link d = true → ∃ src m, d_link d = DSrc src ∧ nodes A !! src = Some m ∧
    an_nlink m < 2 ^ 31 - 1) →
  (∀ q m, nodes A !! q = Some m → an_link m = false → an_inode m ≠ d_inode d) →
  ∃ s' I' r',
    (match FDIR_IS_DENTRY_HARD_LINK (st_mode (d_stat d)), d_link d with
     | true, DSrc src => inc_nlink src;; affected_add src op_type_update;; mret 0
     | true, _ => stuck
     | false, _ =>
       rc ← inode_index_add_dentry c;
       (if rc =? 0 then mret () else dentry_free c);; mret rc
     end) s = Some (0, s') ∧
    view s' (link_ref (node_of d) 1 (put c d A)) I' r' ∧
    (∀ q, I' q ↔ I q ∨ (q = c ∧ is_link d = false)) ∧
    r_me r' = r_me r ∧ r_inode r' = r_inode r.
Proof.
  intros Hv Hc HAc HI Hlink Hfresh. unfold link_ref. cbn [an_link an_src node_of].
  change (FDIR_IS_DENTRY_HARD_LINK (st_mode (d_stat d))) with (is_link d).
  destruct (is_link d) eqn:El.
  - destruct (Hlink eq_refl) as (src & m & Esrc & Hm & Hmax). unfold src_of. rewrite Esrc.
    assert (nodes (put c d A) !! src = Some m) as Hm'.
    { rewrite put_lookup, decide_False; [done|]. intros ->. congruence. }
    destruct (view_inc _ _ _ _ _ _ Hv Hm' Hmax) as (s1 & Hrun1 & Hv1).
    destruct (view_record s1 _ I r (λ r, with_r_affected (r_affected r ++ [(src, op_type_update)]) r)
                Hv1) as (s2 & Hrun2 & Hv2).
    exists s2, I. eexists. split; [|split; [exact Hv2|]].
    + run_with Hrun1. unfold affected_add. by run_with Hrun2.
    + split; [|done]. intros q. naive_solver.
  - destruct (view_index_add _ _ _ _ c (node_of d) Hv) as (s1 & Hrun1 & Hv1).
    + by rewrite put_lookup, decide_True.
    + intros q Hq. destruct (proj1 (HI q) Hq) as (m & Hm & Hl). exists m.
      rewrite put_lookup, decide_False by (intros ->; done). split; [done|]. by apply (Hfresh q).
    + exists s1. eexists _, r. split; [|split; [exact Hv1|]].
      * run_with Hrun1. done.
      * split; [|done]. intros q. naive_solver.
Qed.

(** [create_link] for a dentry with a parent. *)
Lemma create_link_run s A I r c d p n ns :
  view s (put c d A) I r → dentries s !! c = Some d → ¬ I c → nodes A !! c = None →
  (∀ q, I q ↔ indexed A q) →
  d_parent d = Some p → nodes A !! p = Some n → an_dir n = true → names_ok A p →
  an_nlink n < 2 ^ 31 - 1 →
  (∀ e, ¬ child_at A p (d_name d) e) →
  (is_link d = true → ∃ src m, d_link d = DSrc src ∧ nodes A !! src = Some m ∧
    an_dir m = false ∧ an_nlink m < 2 ^ 31 - 1) →
  (∀ q m, nodes A !! q = Some m → an_link m = false → an_inode m ≠ d_inode d) →
  ∃ s' I' r', create_link c ns s = Some (0, s') ∧
    view s' (upd_node p (n_nlink 1) (upd_node p (n_kids (λ k, {[c]} ∪ k))
      (link_ref (node_of d) 1 (put c d A)))) I' r' ∧
    (∀ q, I' q ↔ I q ∨ (q = c ∧ is_link d = false)) ∧
    r_me r' = r_me r ∧ r_inode r' = r_inode r.
Proof.
  intros Hv Hd Hc HAc HI Hpar Hn Hdir Hnames Hmax Hfree Hlink Hfresh.
  assert (p ≠ c) as Hpc by congruence.
  destruct (create_ref_run s A I r c d Hv Hc HAc HI) as (s1 & I1 & r1 & Hrun1 & Hv1 & HI1 & E1 & E2).
  { intros El. destruct (Hlink El) as (src & m & ? & ? & _ & ?). eauto. }
  { done. }
  set (A1 := link_ref (node_of d) 1 (put c d A)) in *.
  assert (link_delta (node_of d) p = 0) as Hdp.
  { unfold link_delta, is_link_of. cbn [an_link an_src node_of]. destruct (is_link d); [|done].
    destruct (Hlink eq_refl) as (src & m & Es & Hm & Hmd & _). unfold src_of. rewrite Es.
    rewrite bool_decide_eq_false_2; [done|]. intros [= ->]. congruence. }
  assert (link_delta (node_of d) c = 0) as Hdc.
  { unfold link_delta, is_link_of. cbn [an_link an_src node_of]. destruct (is_link d); [|done].
    destruct (Hlink eq_refl) as (src & m & Es & Hm & _). unfold src_of. rewrite Es.
    rewrite bool_decide_eq_false_2; [done|]. intros [= ->]. congruence. }
  assert (nodes A1 !! p = Some n) as Hn1.
  { unfold A1. rewrite link_ref_lookup, Hdp, put_lookup, decide_False, Hn by done. simpl.
    by rewrite n_nlink_0. }
  assert (nodes A1 !! c = Some (node_of d)) as Hc1.
  { unfold A1. rewrite link_ref_lookup, Hdc, put_lookup, decide_True by done.
    exact (f_equal Some (n_nlink_0 (node_of d))). }
  assert (same_dir A A1 p) as Hsame.
  { eapply same_dir_trans; [by apply same_dir_put|apply same_dir_link]. }
  destruct (view_children_insert s1 A1 I1 r1 p c n (node_of d) Hv1 Hn1 Hdir) as (s2 & Hrun2 & Hv2).
  { by eapply same_dir_names. }
  { done. }
  { intros e. rewrite (same_dir_child _ _ _ _ _ Hsame). apply Hfree. }
  destruct (view_inc s2 _ I1 r1 p (n_kids (λ k, {[c]} ∪ k) n) Hv2) as (s3 & Hrun3 & Hv3).
  { by rewrite upd_lookup, decide_True, Hn1. }
  { done. }
  exists s3, I1, r1. split; [|done]. unfold create_link. sstep. sstep.
  erewrite bind_run; [|exact Hrun1]. cbn beta. cbn [Z.eqb negb]. rewrite Hpar.
  run_with Hrun2. cbn [Z.eqb]. by run_with Hrun3.
Qed.

Lemma indexed_keys A A' q : same_keys A A' → indexed A' q ↔ indexed A q.
Proof.
  intros Hs. unfold indexed. split; intros (n & Hn & E).
  - destruct (same_keys_inv _ _ _ _ Hs Hn) as (m & Hm & Ek). injection Ek as _ _ Ek _.
    exists m. split; congruence.
  - destruct (same_keys_fwd _ _ _ _ Hs Hn) as (m & Hm & Ek). injection Ek as _ _ Ek _.
    exists m. split; congruence.
Qed.

Lemma indexed_new A c n q :
  nodes A !! c = None → indexed (p_new c n A) q ↔ indexed A q ∨ (q = c ∧ an_link n = false).
Proof.
  intros Hc. unfold indexed. rewrite new_lookup. case_decide as E; [subst q|].
  - rewrite Hc. naive_solver.
  - destruct (nodes A !! q) as [m|]; simpl; naive_solver.
Qed.

Lemma create_indexed A c p n q :
  nodes A !! c = None →
  indexed (create_spec c p n A) q ↔ indexed A q ∨ (q = c ∧ an_link n = false).
Proof.
  intros Hc. unfold create_spec.
  rewrite (indexed_keys (p_new c n A) _ q); [by apply indexed_new|].
  apply same_shape_keys, attach_shape.
Qed.

Lemma create_root_indexed A c n q :
  nodes A !! c = None →
  indexed (create_root_spec c n A) q ↔ indexed A q ∨ (q = c ∧ an_link n = false).
Proof.
  intros Hc. unfold create_root_spec.
  rewrite (indexed_keys (p_new c n A) (p_mount c _ _) q); [by apply indexed_new|].
  apply same_shape_keys. rewrite p_mount_eq. apply mount_shape.
Qed.

Lemma alloc_if s A I r (b : bool) :
  view s A I r → (if b then try_alloc else mret true) s = Some (true, s).
Proof. intros Hv. destruct b; [by eapply view_alloc|done]. Qed.

(** The inode of the new dentry. *)
Definition next_inode (s : Server) (r : BinlogRecord) : Z :=
  if r_inode r =? 0 then inode_of CLUSTER_ID (int64 (inode_sn s + 1)) else r_inode r.

Lemma view_next_inode s A I r :
  view s A I r →
  ∃ s', (if r_inode r =? 0 then inode_generator_next else mret (r_inode r)) s
      = Some (next_inode s r, s') ∧ view s' A I r ∧ dentries s' = dentries s ∧
    free_queue s' = free_queue s.
Proof.
  intros Hv. unfold next_inode. destruct (r_inode r =? 0).
  - eexists. split; [reflexivity|]. split; [|done]. eapply view_other; try done. by apply Hv.
  - exists s. done.
Qed.

Definition mode_ok (r : BinlogRecord) : bool :=
  negb (Z.land (st_mode (r_stat r)) S_IFMT =? 0) || FDIR_IS_DENTRY_HARD_LINK (st_mode (r_stat r)).

Lemma update_sn p f s s' : update_dentry_at p f s = Some ((), s') → inode_sn s' = inode_sn s.
Proof. unfold update_dentry_at. destruct (dentries s !! p); [|done]. by intros [= <-]. Qed.

Lemma alloc_sn ns o s s' : dentry_alloc ns s = Some (o, s') → inode_sn s' = inode_sn s.
Proof.
  unfold dentry_alloc, try_alloc. unfold mbind, M_bind, mret, M_ret.
  destruct (mem_avail s) as [[|k]|]; simpl; by intros [= _ <-].
Qed.

Lemma live_keep s s' p d :
  live s p d → dentries s' = dentries s → free_queue s' = free_queue s → live s' p d.
Proof. intros [Hd Hq] E1 E2. split; unfold freed in *; by rewrite ?E1, ?E2. Qed.

Lemma link_field_run (s : Server) r :
  (FDIR_IS_DENTRY_HARD_LINK (st_mode (r_stat r)) = true → is_Some (r_hdlink_src r)) →
  (if FDIR_IS_DENTRY_HARD_LINK (st_mode (r_stat r))
   then src ← non_null (r_hdlink_src r); mret (DSrc src)
   else mret (if S_ISLNK (st_mode (r_stat r)) then DLinkTo (r_link r) else DNone)) s
  = Some (d_link (created_dentry r 0 None 1%positive), s).
Proof.
  intros Hl. simpl. destruct (FDIR_IS_DENTRY_HARD_LINK _); [|done].
  destruct (Hl eq_refl) as [src ->]. done.
Qed.

(** The new dentry, filled in. *)
Lemma create_fill_run s A I r ns :
  view s A I r → is_Some (namespaces s !! ns) → inode_ok (next_inode s r) →
  (FDIR_IS_DENTRY_HARD_LINK (st_mode (r_stat r)) = true → is_Some (r_hdlink_src r)) →
  let c := fresh_ptr (dentries s) in
  let d := created_dentry r (next_inode s r) (re_parent (r_me r)) ns in
  ∃ s', create_fill ns s = Some ((0, Some c), s') ∧ view s' (put c d A) I r ∧
    dentries s' !! c = Some d ∧ nodes A !! c = None ∧ ¬ I c.
Proof.
  intros Hv Hns Hi Hl c d. unfold create_fill. sstep. rewrite (v_record _ _ _ _ Hv).
  destruct (view_new s A I r ns Hv Hns) as (s1 & Hrun1 & Hv1 & Hd1 & HAc & HIc).
  fold c in Hrun1, Hv1, Hd1, HAc, HIc. run_with Hrun1.
  destruct (view_fill s1 A I r c _ (with_d_reffer_count 1) Hv1 Hd1 HIc)
    as (s2 & Hrun2 & Hv2 & Hd2); [done..|].
  run_with Hrun2. run_with (alloc_if s2 _ I r (S_ISDIR (st_mode (r_stat r))) Hv2). cbn [negb].
  destruct (view_fill s2 A I r c _ (λ d, with_d_children
    (if S_ISDIR (st_mode (r_stat r)) then Some uniq_skiplist_new else None)
    (with_d_parent (re_parent (r_me r)) d)) Hv2 Hd2 HIc) as (s3 & Hrun3 & Hv3 & Hd3); [done..|].
  run_with Hrun3. run_with (view_alloc s3 _ I r Hv3). cbn [negb].
  destruct (view_fill s3 A I r c _ (with_d_name (re_pname (r_me r))) Hv3 Hd3 HIc)
    as (s4 & Hrun4 & Hv4 & Hd4); [done..|].
  run_with Hrun4. run_with (alloc_if s4 _ I r (negb (FDIR_IS_DENTRY_HARD_LINK (st_mode (r_stat r)))
                      && S_ISLNK (st_mode (r_stat r))) Hv4). cbn [negb].
  run_with (link_field_run s4 r Hl).
  destruct (view_fill s4 A I r c _ (with_d_link (d_link (created_dentry r 0 None 1%positive)))
    Hv4 Hd4 HIc) as (s5 & Hrun5 & Hv5 & Hd5); [done..|].
  run_with Hrun5.
  assert (next_inode s5 r = next_inode s r) as Ei.
  { unfold next_inode. by rewrite (update_sn _ _ _ _ Hrun5), (update_sn _ _ _ _ Hrun4),
      (update_sn _ _ _ _ Hrun3), (update_sn _ _ _ _ Hrun2), (alloc_sn _ _ _ _ Hrun1). }
  destruct (view_next_inode s5 _ I r Hv5) as (s6 & Hrun6 & Hv6 & Ed6 & Hfq6). rewrite Ei in Hrun6.
  run_with Hrun6.
  destruct (view_fill s6 A I r c _ (λ d, with_d_inode (next_inode s r)
    (with_d_stat (fill_stat (r_stat r)) (with_d_loaded_flags FDIR_DENTRY_LOADED_FLAGS_ALL d)))
    Hv6 (live_keep _ _ _ _ Hd5 Ed6 Hfq6) HIc) as (s7 & Hrun7 & Hv7 & Hd7); [done| | |done|].
  { simpl. unfold is_dir. simpl. intros ->. eexists. split; [done|]. rewrite sl_new_law. constructor. }
  { done. }
  run_with Hrun7. exists s7. split; [done|]. split; [exact Hv7|]. split; [apply Hd7|done].
Qed.

(** What the caller provides for a new dentry: the source of a hard link, an
    inode of its own, and no link count at its maximum. *)
Record create_req (A : ATree) (r : BinlogRecord) (inode : Z) : Prop := {
  cr_link : link_target_ok A r;
  cr_room : ∀ p m, re_parent (r_me r) = Some p → nodes A !! p = Some m → an_nlink m < 2 ^ 31 - 1;
  cr_inode : inode_ok inode;
  cr_fresh : ∀ q m, nodes A !! q = Some m → an_link m = false → an_inode m ≠ inode
}.

(** A found namespace and the step that links the new dentry give the rest. *)
Section create_found.
Context (s : Server) (A A2 : ATree) (r : BinlogRecord) (thread ns : ptr).
Context (Hv : view s A (indexed A) r) (Hns : is_Some (namespaces s !! ns)).
Context (Hlink : link_target_ok A r) (Hino : inode_ok (next_inode s r)).

Let c := fresh_ptr (dentries s).
Let d := created_dentry r (next_inode s r) (re_parent (r_me r)) ns.
Let I' := λ q, indexed A q ∨ (q = c ∧ is_link d = false).

Context (HA2 : nodes A2 !! c = Some (node_of d)).
Context (Hrun : ∀ s1, view s1 (put c d A) (indexed A) r → dentries s1 !! c = Some d →
  nodes A !! c = None → is_Some (namespaces s1 !! ns) →
  ∃ s2 I2 r2, create_link c ns s1 = Some (0, s2) ∧ view s2 A2 I2 r2 ∧ (∀ q, I2 q ↔ I' q) ∧
    r_me r2 = r_me r ∧ r_inode r2 = r_inode r).

Lemma create_found_run :
  nodes A !! c = None ∧
  ∃ s' r', create_found thread ns s = Some (0, s') ∧ view s' (add_count (node_of d) 1 A2) I' r' ∧
    re_dentry (r_me r') = Some c ∧ r_inode r' = next_inode s r.
Proof using All.
  destruct (create_fill_run s A _ r ns Hv Hns Hino) as (s1 & Hrun1 & Hv1 & Hd1 & HAc & _).
  { intros El. destruct (Hlink El) as (_ & src & m & -> & _). eauto. }
  fold c in Hrun1, Hv1, Hd1, HAc. fold d in Hv1, Hd1. split; [done|].
  destruct (Hrun s1 Hv1 Hd1 HAc) as (s2 & I2 & r2 & Hrun2 & Hv2 & HI2 & E1 & E2).
  { apply (view_ns s1 _ _ r Hv1 c (node_of d)). by rewrite put_lookup, decide_True. }
  apply (view_ext _ _ _ _ Hv2) in HI2 as Hv2'. clear Hv2.
  destruct (view_record s2 _ I' r2 (me_found (Some c)) Hv2') as (s3 & Hrun3 & Hv3).
  destruct (view_live _ _ _ _ Hv3 c (node_of d) HA2) as (d' & [Hd' _] & Ed').
  assert (d_inode d' = next_inode s r) as Ei by exact (f_equal an_inode Ed').
  assert (∃ s4 r4, (if r_inode r =? 0 then modify_rec (with_r_inode (d_inode d')) else mret ()) s3
      = Some ((), s4) ∧ view s4 A2 I' r4 ∧ re_dentry (r_me r4) = Some c ∧
      r_inode r4 = next_inode s r) as (s4 & r4 & Hrun4 & Hv4 & E3 & E4).
  { destruct (r_inode r =? 0) eqn:E0.
    - destruct (view_record s3 A2 I' _ (with_r_inode (d_inode d')) Hv3) as (s4 & Hrun4 & Hv4).
      exists s4. eexists. split; [exact Hrun4|]. split; [exact Hv4|]. done.
    - exists s3. eexists. split; [done|]. split; [exact Hv3|]. split; [done|].
      unfold next_inode. rewrite E0. exact E2. }
  destruct (view_count s4 A2 I' r4 thread (node_of d) 1 Hv4) as (s5 & Hrun5 & Hv5).
  { by eapply view_ns. }
  exists s5, r4. split; [|done]. unfold create_found. sstep. rewrite (v_record _ _ _ _ Hv).
  run_with Hrun1. cbn [Z.eqb negb]. sstep. run_with Hrun2. cbn [Z.eqb negb].
  unfold set_me_found. run_with Hrun3. sstep. run_with Hrun4. run_with Hrun5. done.
Qed.
End create_found.

(** In a directory. *)
Lemma create_child_run s A r thread p n :
  view s A (indexed A) r → wf A ∅ → re_parent (r_me r) = Some p → nodes A !! p = Some n →
  an_dir n = true → (∀ e, ¬ child_at A p (re_pname (r_me r)) e) →
  create_req A r (next_inode s r) →
  let c := fresh_ptr (dentries s) in
  let n0 := new_node r (next_inode s r) (Some p) (an_ns n) in
  nodes A !! c = None ∧
  ∃ s' r', create_found thread (an_ns n) s = Some (0, s') ∧
    view s' (create_spec c p n0 A) (λ q, indexed A q ∨ (q = c ∧ an_link n0 = false)) r' ∧
    re_dentry (r_me r') = Some c ∧ r_inode r' = next_inode s r.
Proof.
  intros Hv Hwf Hpar Hn Hdir Hfree [Hlink Hroom Hino Hfresh] c n0.
  set (d := created_dentry r (next_inode s r) (Some p) (an_ns n)).
  assert (nodes A !! c = None) as HAc.
  { pose proof (fresh_ptr_fresh (dentries s)) as Hf. fold c in Hf.
    rewrite <- (v_abs _ _ _ _ Hv). simpl. rewrite abs_lookup, Hf. by case_decide. }
  assert (link_delta (node_of d) c = 0) as Hdc.
  { pose proof (new_not_src A c n0 HAc (new_node_ok A r _ _ _ Hlink)) as E.
    change (is_link_of c (node_of d) = false) in E. unfold link_delta. by rewrite E. }
  assert (p ≠ c) as Hpc by congruence.
  rewrite <- (create_steps_eq A c p n0 d HAc (new_node_ok A r _ _ _ Hlink) eq_refl
      (mk_is_Some _ _ Hn)).
  set (A2 := upd_node p _ _).
  assert (nodes A2 !! c = Some (node_of d)) as HA2.
  { unfold A2. rewrite !upd_lookup, !(decide_False (P := c = p)) by done.
    rewrite link_ref_lookup, Hdc, put_lookup, decide_True by done.
    exact (f_equal Some (n_nlink_0 (node_of d))). }
  pose proof (create_found_run s A A2 r thread (an_ns n) Hv (view_ns _ _ _ _ Hv p n Hn) Hlink Hino)
    as Hfin. rewrite Hpar in Hfin. apply Hfin; [exact HA2|]. clear Hfin.
  intros s1 Hv1 Hd1 _ _. fold c d in Hv1, Hd1 |- *.
  apply (create_link_run s1 A _ r c d p n (an_ns n)); try done.
  { intros (m & Hm & _). congruence. }
  { by apply (wf_names_ok A ∅). }
  { by eapply Hroom. }
  intros El. destruct (Hlink El) as (_ & src & m & Es & Hm & Hmd & _ & Hmax).
  exists src, m. split; [|done]. unfold d. simpl. unfold is_link, d in El. simpl in El.
  by rewrite El, Es.
Qed.

(** The outcome of [dentry_create] in a directory. *)
Lemma dentry_create_run s thread p n :
  STORAGE_ENABLED = false → tree_ok s → re_parent (r_me (record s)) = Some p →
  nodes (abs s) !! p = Some n → create_req (abs s) (record s) (next_inode s (record s)) →
  let name := re_pname (r_me (record s)) in
  ∃ rc s', dentry_create thread s = Some (rc, s') ∧ tree_ok s' ∧
    (abs s' = abs s ∧
       (mode_ok (record s) = false ∧ rc = EINVAL ∨
        mode_ok (record s) = true ∧ an_dir n = false ∧ rc = ENOTDIR ∨
        mode_ok (record s) = true ∧ (∃ e, child_at (abs s) p name e) ∧ rc = EEXIST) ∨
     ∃ c, rc = 0 ∧ mode_ok (record s) = true ∧ an_dir n = true ∧
       nodes (abs s) !! c = None ∧ (∀ e, ¬ child_at (abs s) p name e) ∧
       abs s' = create_spec c p
         (new_node (record s) (next_inode s (record s)) (Some p) (an_ns n)) (abs s) ∧
       re_dentry (r_me (record s')) = Some c ∧
       r_inode (record s') = next_inode s (record s)).
Proof.
  intros Hst [Hwf Hv] Hpar Hn Hreq name. set (A := abs s) in *. set (r := record s) in *.
  unfold dentry_create. sstep. fold r.
  replace ((Z.land (st_mode (r_stat r)) S_IFMT =? 0) && _) with (negb (mode_ok r))
    by (unfold mode_ok; by rewrite negb_orb, negb_involutive).
  destruct (mode_ok r) eqn:Hmode; cbn [negb].
  2: { exists EINVAL, s. split; [done|]. split; [by split|]. left. split; [done|]. by left. }
  destruct (find_me_run s A _ r thread true p n Hst Hv Hpar Hn (wf_names_ok A ∅ p Hwf))
    as (rc & child & s1 & Hrun1 & Hv1 & Ed1 & En1 & Esn1 & Hres).
  run_with Hrun1.
  assert (tree_ok s1 ∧ abs s1 = A) as [Hok1 EA1].
  { by destruct (view_tree_ok _ _ _ _ Hv1 Hwf (λ _, iff_refl _)) as (? & ? & _). }
  destruct child as [e|].
  { destruct Hres as (-> & Hd & He). exists EEXIST, s1. split; [done|]. split; [done|].
    left. split; [done|]. right; right. eauto. }
  destruct Hres as [-> Hfree]. destruct (an_dir n) eqn:Hdir; cbn [Z.eqb negb].
  2: { exists ENOTDIR, s1. split; [done|]. split; [done|]. left. split; [done|]. auto. }
  specialize (Hfree eq_refl). change (ENOENT =? ENOENT) with true. cbn [negb]. sstep.
  set (r1 := me_found None r) in *.
  assert (next_inode s1 r1 = next_inode s r) as Ei.
  { unfold next_inode. simpl. by rewrite Esn1. }
  destruct (create_child_run s1 A r1 thread p n Hv1 Hwf Hpar Hn Hdir Hfree) as
    (Hc & s' & r' & Hrun & Hv' & E1 & E2).
  { destruct Hreq as [K1 K2 K3 K4]. rewrite Ei. by split. }
  rewrite Ei in *. set (c := fresh_ptr (dentries s1)) in *.
  change (new_node r1 (next_inode s r)) with (new_node r (next_inode s r)) in *.
  set (n0 := new_node r (next_inode s r) (Some p) (an_ns n)) in *.
  destruct (create_spec_wf A c p n0 n Hwf Hc) as [Hwf' Hch']; try done.
  { apply new_node_ok, Hreq. }
  destruct (view_tree_ok _ _ _ _ Hv' Hwf') as (Hok' & EA' & Er').
  { intros q. by rewrite create_indexed. }
  exists 0, s'. split; [done|]. split; [done|]. right. exists c. rewrite EA', Er'. by split_and!.
Qed.

(** [C2] In a directory, [dentry_create] refuses a request without a file type
    (EINVAL), a parent that is no directory (ENOTDIR) and a name that is in use
    (EEXIST), and leaves the tree as it was. Otherwise it creates the one new
    dentry the request asks for: the new name leads to it and every other name
    to what it led to, the parent's link count, the source's of a hard link,
    and the namespace's count go up by one, and the record has the new inode.
    The server stays well formed. *)
Theorem dentry_create_spec s thread p n :
  STORAGE_ENABLED = false → tree_ok s → re_parent (r_me (record s)) = Some p →
  nodes (abs s) !! p = Some n → create_req (abs s) (record s) (next_inode s (record s)) →
  let name := re_pname (r_me (record s)) in
  ∃ rc s', dentry_create thread s = Some (rc, s') ∧ tree_ok s' ∧
    (abs s' = abs s ∧
       (mode_ok (record s) = false ∧ rc = EINVAL ∨
        mode_ok (record s) = true ∧ an_dir n = false ∧ rc = ENOTDIR ∨
        mode_ok (record s) = true ∧ (∃ e, child_at (abs s) p name e) ∧ rc = EEXIST) ∨
     ∃ c, rc = 0 ∧ mode_ok (record s) = true ∧ an_dir n = true ∧
       nodes (abs s) !! c = None ∧ (∀ e, ¬ child_at (abs s) p name e) ∧
       abs s' = create_spec c p
         (new_node (record s) (next_inode s (record s)) (Some p) (an_ns n)) (abs s) ∧
       (∀ q nm e, child_at (abs s') q nm e ↔
          (q = p ∧ nm = name ∧ e = c) ∨ child_at (abs s) q nm e) ∧
       re_dentry (r_me (record s')) = Some c ∧
       r_inode (record s') = next_inode s (record s)).
Proof.
  intros Hst Hok Hpar Hn Hreq name.
  destruct (dentry_create_run s thread p n Hst Hok Hpar Hn Hreq)
    as (rc & s' & Hrun & Hok' & [Hno|(c & -> & Hm & Hd & Hc & Hfree & EA & Hme & Hi)]).
  { exists rc, s'. split; [done|]. split; [done|]. by left. }
  exists 0, s'. split; [done|]. split; [done|]. right. exists c. split_and!; try done.
  rewrite EA. eapply create_spec_wf; try done; [apply Hok|]. apply new_node_ok, Hreq.
Qed.

(** ** The root of a namespace *)

Lemma namespace_get_found s t a n b :
  ns_ok s → namespaces s !! a = Some n →
  fdir_namespace_get t (ns_name n) b s = Some ((Some a, 0), s).
Proof.
  intros Hok Ha. destruct (ns_search_run s (ns_name n) Hok) as ([q|] & Hrun & Hq).
  - destruct Hq as (m & Hm & E). rewrite (nk_names s Hok q a m n Hm Ha E) in Hrun.
    unfold fdir_namespace_get. by run_with Hrun.
  - by destruct (Hq a n).
Qed.

Lemma view_ns_root s A I r a n :
  view s A I r → namespaces s !! a = Some n → roots A !! a = ns_root n.
Proof.
  intros Hv Ha. rewrite <- (v_abs _ _ _ _ Hv). simpl. unfold abs_roots. by rewrite lookup_omap, Ha.
Qed.

(** The lookup of a record without a parent: the root, under the empty name. *)
Lemma find_root_run s A I r thread create_ns a n :
  view s A I r → ns_ok s → re_parent (r_me r) = None → namespaces s !! a = Some n →
  ns_name n = r_ns r →
  ∃ rc s', dentry_find_me thread create_ns s = Some ((rc, Some a), s') ∧
    (if decide (re_pname (r_me r) = EmptyString) then
       match roots A !! a with
       | Some c => rc = 0 ∧ view s' A I (me_found (Some c) r)
       | None => rc = ENOENT ∧ s' = s
       end
     else rc = EINVAL ∧ s' = s) ∧ namespaces s' = namespaces s ∧ dentries s' = dentries s.
Proof.
  intros Hv Hok Hpar Ha En. rewrite (view_ns_root _ _ _ _ _ _ Hv Ha).
  unfold dentry_find_me. sstep. rewrite (v_record _ _ _ _ Hv). cbn zeta. rewrite Hpar, <- En.
  run_with (namespace_get_found s (Some thread) a n create_ns Hok Ha). cbn iota. sstep.
  destruct (ns_root n) as [c|]; destruct (decide (re_pname (r_me r) = EmptyString)).
  - destruct (view_record s A I r (me_found (Some c)) Hv) as (s' & Hrec & Hv').
    exists 0, s'. split; [unfold set_me_found; by run_with Hrec|]. split; [done|].
    rewrite modify_rec_run in Hrec. injection Hrec as <-. done.
  - by exists EINVAL, s.
  - by exists ENOENT, s.
  - by exists EINVAL, s.
Qed.

Lemma create_root_run s A r thread a :
  view s A (indexed A) r → wf A ∅ → re_parent (r_me r) = None → roots A !! a = None →
  is_Some (namespaces s !! a) → create_req A r (next_inode s r) →
  let c := fresh_ptr (dentries s) in
  let n0 := new_node r (next_inode s r) None a in
  nodes A !! c = None ∧
  ∃ s' r', create_found thread a s = Some (0, s') ∧
    view s' (create_root_spec c n0 A) (λ q, indexed A q ∨ (q = c ∧ an_link n0 = false)) r' ∧
    re_dentry (r_me r') = Some c ∧ r_inode r' = next_inode s r.
Proof.
  intros Hv Hwf Hpar Hroot Hns [Hlink Hroom Hino Hfresh] c n0.
  set (d := created_dentry r (next_inode s r) None a).
  assert (nodes A !! c = None) as HAc.
  { pose proof (fresh_ptr_fresh (dentries s)) as Hf. fold c in Hf.
    rewrite <- (v_abs _ _ _ _ Hv). simpl. rewrite abs_lookup, Hf. by case_decide. }
  assert (link_delta (node_of d) c = 0) as Hdc.
  { pose proof (new_not_src A c n0 HAc (new_node_ok A r _ _ _ Hlink)) as E.
    change (is_link_of c (node_of d) = false) in E. unfold link_delta. by rewrite E. }
  set (A1 := link_ref (node_of d) 1 (put c d A)).
  set (A2 := with_roots (partial_alter (λ _, Some c) a (roots A1)) A1).
  assert (add_count (node_of d) 1 A2 = create_root_spec c n0 A) as <-.
  { apply atree_eq.
    - intros q.
      assert (nodes (create_root_spec c n0 A) !! q =
        if decide (q = c) then n_nlink 1 <$> nodes (p_new c n0 A) !! q
        else nodes (p_new c n0 A) !! q) as ->.
      { unfold create_root_spec, p_mount. by rewrite upd_lookup. }
      rewrite add_count_nodes. change (nodes A2) with (nodes A1). unfold A1.
      rewrite link_ref_lookup, put_lookup, new_lookup. change (link_delta (node_of d) q) with (link_delta n0 q).
      rewrite Z.mul_1_r. destruct (decide (q = c)) as [->|Hqc]; [|done].
      change (link_delta n0 c) with (link_delta (node_of d) c). rewrite Hdc. simpl. f_equal.
    - simpl. unfold A1. by rewrite link_ref_roots.
    - simpl. unfold A1. by rewrite link_ref_counts. }
  assert (nodes A2 !! c = Some (node_of d)) as HA2.
  { unfold A2, A1. simpl. rewrite link_ref_lookup, Hdc, put_lookup, decide_True by done.
    exact (f_equal Some (n_nlink_0 (node_of d))). }
  pose proof (create_found_run s A A2 r thread a Hv Hns Hlink Hino) as Hfin. rewrite Hpar in Hfin.
  apply Hfin; [exact HA2|]. clear Hfin. intros s1 Hv1 Hd1 _ Hns1. fold c d in Hv1, Hd1 |- *.
  destruct (create_ref_run s1 A _ r c d Hv1) as (s2 & I2 & r2 & Hrun2 & Hv2 & HI2 & E1 & E2);
    try done.
  { intros (m & Hm & _). congruence. }
  { intros El. destruct (Hlink El) as (_ & src & m & Es & Hm & _ & _ & Hmax). exists src, m.
    split; [|done]. unfold d. simpl. unfold is_link, d in El. simpl in El. by rewrite El, Es. }
  fold A1 in Hv2.
  destruct (view_ns _ _ _ _ Hv2 c (node_of d) HA2) as [ne Hne].
  destruct (view_root s2 A1 I2 r2 a ne (Some c) Hv2 Hne) as (s3 & Hrun3 & Hv3).
  exists s3, I2, r2. split; [|done]. unfold create_link. sstep. sstep.
  erewrite bind_run; [|exact Hrun2]. cbn beta. cbn [Z.eqb negb].
  change (d_parent d) with (@None ptr). cbn iota. by run_with Hrun3.
Qed.

(** Without a parent, [dentry_create] creates the root of a namespace that
    has none, under the empty name, and refuses another name (EINVAL) or a
    second root (EEXIST) without changing the tree. *)
Theorem dentry_create_root_spec s thread a n :
  tree_ok s → ns_ok s → re_parent (r_me (record s)) = None →
  namespaces s !! a = Some n → ns_name n = r_ns (record s) →
  create_req (abs s) (record s) (next_inode s (record s)) → mode_ok (record s) = true →
  ∃ rc s', dentry_create thread s = Some (rc, s') ∧ tree_ok s' ∧
    if decide (re_pname (r_me (record s)) = EmptyString) then
      match ns_root n with
      | Some _ => rc = EEXIST ∧ abs s' = abs s
      | None => rc = 0 ∧ ∃ c, nodes (abs s) !! c = None ∧
          abs s' = create_root_spec c
            (new_node (record s) (next_inode s (record s)) None a) (abs s) ∧
          roots (abs s') !! a = Some c ∧ r_inode (record s') = next_inode s (record s) ∧
          ∀ q nm e, child_at (abs s') q nm e ↔ child_at (abs s) q nm e
      end
    else rc = EINVAL ∧ abs s' = abs s.
Proof.
  intros [Hwf Hv] Hok Hpar Ha En Hreq Hmode. set (A := abs s) in *. set (r := record s) in *.
  unfold dentry_create. sstep. fold r.
  replace ((Z.land (st_mode (r_stat r)) S_IFMT =? 0) && _) with (negb (mode_ok r))
    by (unfold mode_ok; by rewrite negb_orb, negb_involutive).
  rewrite Hmode. cbn [negb].
  destruct (find_root_run s A _ r thread true a n Hv Hok Hpar Ha En)
    as (rc & s1 & Hrun1 & Hres & _ & _).
  run_with Hrun1. rewrite (view_ns_root _ _ _ _ _ _ Hv Ha) in Hres. case_decide as Hname.
  2: { destruct Hres as [-> ->]. exists EINVAL, s. by split_and!. }
  destruct (ns_root n) as [c|] eqn:Hroot.
  { destruct Hres as [-> Hv1]. destruct (view_tree_ok _ _ _ _ Hv1 Hwf (λ _, iff_refl _))
      as (Hok1 & EA1 & _). exists EEXIST, s1. by split_and!. }
  destruct Hres as [-> ->]. change (ENOENT =? ENOENT) with true. cbn [negb]. sstep.
  assert (roots A !! a = None) as Hrt by (by rewrite (view_ns_root _ _ _ _ _ _ Hv Ha)).
  destruct (create_root_run s A r thread a Hv Hwf Hpar Hrt (mk_is_Some _ _ Ha) Hreq)
    as (Hc & s' & r' & Hrun & Hv' & E1 & E2).
  set (c := fresh_ptr (dentries s)) in *.
  set (n0 := new_node r (next_inode s r) None a) in *.
  destruct (create_root_spec_wf A c n0 Hwf Hc) as [Hwf' Hch']; try done.
  { apply new_node_ok, Hreq. }
  destruct (view_tree_ok _ _ _ _ Hv' Hwf') as (Hok' & EA' & Er').
  { intros q. by rewrite create_root_indexed. }
  exists 0, s'. split; [done|]. split; [done|]. split; [done|]. exists c.
  rewrite EA', Er'. split_and!; try done.
  simpl. by rewrite lookup_insert_eq.
Qed.

(** ** Removing *)

Lemma has_children_run s A I r p n :
  view s A I r → nodes A !! p = Some n → (an_dir n = false → an_kids n = ∅) →
  has_children p s = Some (negb (bool_decide (an_kids n = ∅)), s).
Proof.
  intros Hv Hn Hleaf. destruct (view_live _ _ _ _ Hv _ _ Hn) as (d & [Hd Hq] & E).
  unfold has_children. sstep. destruct (S_ISDIR (st_mode (d_stat d))) eqn:Hdir.
  - assert (an_dir n = true) as Hnd by (rewrite <- E; exact Hdir).
    destruct (view_dir _ _ _ _ Hv _ _ Hn Hnd) as (d' & l & [Hd' _] & _ & Hl & _ & Hel).
    assert (d' = d) as -> by congruence. rewrite Hl. sstep.
    rewrite (kids_at_eq _ _ _ Hn) in Hel.
    assert (uniq_skiplist_empty l = bool_decide (an_kids n = ∅)) as ->; [|done].
    apply eq_bool_prop_intro. rewrite bool_decide_spec, Is_true_true, sl_empty_law. split.
    + intros E0. rewrite E0 in Hel. set_solver.
    + intros E0. apply elem_of_nil_inv. intros c Hc%Hel. set_solver.
  - rewrite Hleaf by (rewrite <- E; exact Hdir). by rewrite bool_decide_eq_true_2.
Qed.

(** The steps of [do_remove_dentry] on the tree; [m] is the source of a hard
    link. *)
Definition src_removed (src : ptr) (m : ANode) (A : ATree) : ATree :=
  let A := upd_node src (n_nlink (-1)) A in
  if an_nlink m =? 1 then del_node src (add_count m (-1) A) else A.

Definition is_freed (n : ANode) : bool := an_link n || (an_nlink n =? 1).

Definition dropped (c : ptr) (n : ANode) (A : ATree) : ATree :=
  match an_link n, an_src n with
  | true, Some src =>
    match nodes A !! src with Some m => src_removed src m A | None => A end
  | _, _ => upd_node c (n_nlink (-1)) A
  end.
Definition do_removed (c : ptr) (n : ANode) (A : ATree) : ATree :=
  if is_freed n then add_count n (-1) (dropped c n A) else dropped c n A.

(** The dentries that go. *)
Definition gone (A : ATree) (c : ptr) (n : ANode) (q : ptr) : Prop :=
  (q = c ∧ is_freed n = true) ∨
  (an_link n = true ∧ an_src n = Some q ∧ ∃ m, nodes A !! q = Some m ∧ an_nlink m = 1).

(** What the tree's invariant gives for a dentry to remove. *)
Record removable (A : ATree) (c : ptr) (n : ANode) : Prop := {
  rm_node : nodes A !! c = Some n;
  rm_nlink : 0 < an_nlink n;
  rm_link : an_link n = true → an_nlink n = 1 ∧ ∃ src m, an_src n = Some src ∧
    nodes A !! src = Some m ∧ an_link m = false ∧ 0 < an_nlink m ∧ src ≠ c ∧ an_dir m = false ∧
    (an_nlink m = 1 → ∀ p, src ∉ kids_at A p);
  rm_dir : an_dir n = true → an_nlink n = 1
}.

Lemma kid_removable A p c n :
  wf A ∅ → nodes A !! c = Some n → c ∈ kids_at A p → an_kids n = ∅ → removable A c n.
Proof.
  intros Hwf Hn Hc Hk. pose proof (w_nlink _ _ Hwf _ _ Hn) as Hnl. unfold refs in Hnl.
  rewrite decide_True, (kids_at_eq _ _ _ Hn), Hk, size_empty in Hnl by (by eapply kid_attached).
  assert (∀ q m, an_dir n = true ∨ an_link n = true → nodes A !! q = Some m →
    is_link_of c m = false) as Hno.
  { intros q m Hor Hq. unfold is_link_of. destruct (an_link m) eqn:El; [|done].
    apply bool_decide_eq_false_2. intros Es.
    destruct (w_link _ _ Hwf _ _ Hq El) as (_ & c' & e & Es' & He & Hde & Hle).
    assert (c' = c) as -> by congruence. assert (e = n) as -> by congruence.
    destruct Hor; congruence. }
  assert (an_dir n = true ∨ an_link n = true → links A c = 0) as Hl0.
  { intros Hor. apply n_count_zero. intros q m Hq. by apply (Hno q). }
  split; [done|by apply (w_live _ _ Hwf _ _ Hn)| |].
  - intros El. split; [rewrite Hnl, Hl0 by auto; lia|].
    destruct (w_link _ _ Hwf _ _ Hn El) as (_ & src & m & Es & Hm & Hdm & Hlm).
    exists src, m. split_and!; try done.
    + by apply (w_live _ _ Hwf _ _ Hm).
    + intros ->. congruence.
    + intros E1 q Hq. pose proof (w_nlink _ _ Hwf _ _ Hm) as Hnm. unfold refs in Hnm.
      rewrite decide_True in Hnm by (by eapply kid_attached).
      pose proof (n_count_pos (is_link_of src) (nodes A) c n Hn) as Hpos. unfold links in Hnm.
      specialize (Hpos ltac:(unfold is_link_of; rewrite El; by apply bool_decide_eq_true_2)). lia.
  - intros Hd. rewrite Hnl, Hl0 by auto. lia.
Qed.

Lemma add_count_key n n' k A : node_key n' = node_key n → add_count n' k A = add_count n k A.
Proof. intros [= E1 E2 _ _]. unfold add_count. by rewrite E1, E2. Qed.

(** Counting the dentry at [p]. *)
Lemma count_run s A I r thread p n k :
  view s A I r → nodes A !! p = Some n →
  ∃ s', (d ← load_dentry p; count_dentry thread (d_ns_entry d) (S_ISDIR (st_mode (d_stat d))) k) s
      = Some ((), s') ∧ view s' (add_count n k A) I r.
Proof.
  intros Hv Hn. destruct (view_live _ _ _ _ Hv _ _ Hn) as (d & [Hd _] & <-).
  destruct (view_count s A I r thread (node_of d) k Hv) as (s' & Hrun & Hv').
  { by eapply view_ns. }
  exists s'. split; [|done]. by sstep.
Qed.

Lemma affected_run s A I r p op :
  view s A I r → ∃ s' l, affected_add p op s = Some ((), s') ∧ view s' A I (with_r_affected l r).
Proof.
  intros Hv. destruct (view_record s A I r
    (λ r, with_r_affected (r_affected r ++ [(p, op)]) r) Hv) as (s' & Hrun & Hv').
  eexists s', _. split; [exact Hrun|exact Hv'].
Qed.

Lemma remove_src_run s A I r thread src m :
  view s A I r → nodes A !! src = Some m → I src → (∀ q, I q → is_Some (nodes A !! q)) →
  ∃ s', remove_src_dentry thread src s = Some (0, s') ∧
    view s' (del_node src (add_count m (-1) A)) (λ q, I q ∧ q ≠ src) r.
Proof.
  intros Hv Hm Hin Hall.
  destruct (view_index_del s A I r src m Hv Hm Hin Hall) as (s1 & Hrun1 & Hv1).
  destruct (count_run s1 A _ r thread src m (-1) Hv1 Hm) as (s2 & Hrun2 & Hv2).
  destruct (view_free s2 _ _ r src m Hv2 Hm) as (s3 & Hrun3 & Hv3).
  exists s3. split; [|done]. unfold remove_src_dentry. run_with Hrun1. cbn [Z.eqb negb].
  rewrite <- bind_bind. run_with Hrun2. by run_with Hrun3.
Qed.

(** The first half of [do_remove_dentry] for a hard link. *)
Lemma drop_link_run s A I r thread c src m :
  view s A I r → nodes A !! src = Some m → an_link m = false → 0 < an_nlink m →
  (∀ q, I q ↔ indexed A q) →
  ∃ s' l, (dec_nlink src;;
       sd ← load_dentry src;
       if st_nlink (d_stat sd) =? 0 then
         rc ← remove_src_dentry thread src;
         if negb (rc =? 0) then mret (rc, false)
         else affected_add src op_type_remove;; affected_add c op_type_remove;; mret (0, true)
       else affected_add src op_type_update;; affected_add c op_type_remove;; mret (0, true)) s
    = Some ((0, true), s') ∧
    view s' (src_removed src m A) (λ q, I q ∧ ¬ (q = src ∧ an_nlink m = 1)) (with_r_affected l r).
Proof.
  intros Hv Hm Hl Hpos HI.
  destruct (view_dec s A I r src m Hv Hm Hpos) as (s1 & Hrun1 & Hv1). run_with Hrun1.
  set (A1 := upd_node src (n_nlink (-1)) A) in *.
  assert (nodes A1 !! src = Some (n_nlink (-1) m)) as Hm1.
  { unfold A1. by rewrite upd_lookup, decide_True, Hm. }
  destruct (view_live _ _ _ _ Hv1 _ _ Hm1) as (d & [Hd _] & Ed). sstep.
  assert (st_nlink (d_stat d) = an_nlink m - 1) as -> by exact (f_equal an_nlink Ed).
  unfold src_removed. fold A1.
  destruct (Z.eqb_spec (an_nlink m) 1) as [E|E].
  - rewrite E. change (1 - 1 =? 0) with true. cbn iota.
    destruct (remove_src_run s1 A1 I r thread src _ Hv1 Hm1) as (s2 & Hrun2 & Hv2).
    { apply HI. by exists m. }
    { intros q Hq. apply HI in Hq as (x & Hx & _). unfold A1. rewrite upd_lookup, Hx.
      case_decide; eauto. }
    run_with Hrun2. cbn [Z.eqb negb].
    destruct (affected_run s2 _ _ r src op_type_remove Hv2) as (s3 & l3 & Hrun3 & Hv3). run_with Hrun3.
    destruct (affected_run s3 _ _ _ c op_type_remove Hv3) as (s4 & l4 & Hrun4 & Hv4). run_with Hrun4.
    exists s4, l4. split; [done|]. rewrite (add_count_key m (n_nlink (-1) m)) in Hv4 by done.
    eapply view_ext; [exact Hv4|]. tauto.
  - replace (an_nlink m - 1 =? 0) with false by (symmetry; apply Z.eqb_neq; lia).
    destruct (affected_run s1 _ _ r src op_type_update Hv1) as (s3 & l3 & Hrun3 & Hv3). run_with Hrun3.
    destruct (affected_run s3 _ _ _ c op_type_remove Hv3) as (s4 & l4 & Hrun4 & Hv4). run_with Hrun4.
    exists s4, l4. split; [done|]. eapply view_ext; [exact Hv4|]. tauto.
Qed.

(** ... and for any other dentry. *)
Lemma drop_self_run s A I r c n :
  view s A I r → nodes A !! c = Some n → an_link n = false → 0 < an_nlink n →
  (∀ q, I q ↔ indexed A q) →
  ∃ s' l, (dec_nlink c;;
       d ← load_dentry c;
       if st_nlink (d_stat d) =? 0 then
         rc ← inode_index_del_dentry c;
         if negb (rc =? 0) then mret (rc, false)
         else affected_add c op_type_remove;; mret (0, true)
       else affected_add c op_type_update;; mret (0, false)) s
    = Some ((0, an_nlink n =? 1), s') ∧
    view s' (upd_node c (n_nlink (-1)) A) (λ q, I q ∧ ¬ (q = c ∧ an_nlink n = 1))
      (with_r_affected l r).
Proof.
  intros Hv Hn Hl Hpos HI.
  destruct (view_dec s A I r c n Hv Hn Hpos) as (s1 & Hrun1 & Hv1). run_with Hrun1.
  set (A1 := upd_node c (n_nlink (-1)) A) in *.
  assert (nodes A1 !! c = Some (n_nlink (-1) n)) as Hn1.
  { unfold A1. by rewrite upd_lookup, decide_True, Hn. }
  destruct (view_live _ _ _ _ Hv1 _ _ Hn1) as (d & [Hd _] & Ed). sstep.
  assert (st_nlink (d_stat d) = an_nlink n - 1) as -> by exact (f_equal an_nlink Ed).
  destruct (Z.eqb_spec (an_nlink n) 1) as [E|E].
  - rewrite E. change (1 - 1 =? 0) with true. cbn iota.
    destruct (view_index_del s1 A1 I r c _ Hv1 Hn1) as (s2 & Hrun2 & Hv2).
    { apply HI. by exists n. }
    { intros q Hq. apply HI in Hq as (x & Hx & _). unfold A1. rewrite upd_lookup, Hx.
      case_decide; eauto. }
    run_with Hrun2. cbn [Z.eqb negb].
    destruct (affected_run s2 _ _ r c op_type_remove Hv2) as (s3 & l3 & Hrun3 & Hv3). run_with Hrun3.
    exists s3, l3. split; [done|]. eapply view_ext; [exact Hv3|]. tauto.
  - replace (an_nlink n - 1 =? 0) with false by (symmetry; apply Z.eqb_neq; lia).
    destruct (affected_run s1 _ _ r c op_type_update Hv1) as (s3 & l3 & Hrun3 & Hv3). run_with Hrun3.
    exists s3, l3. split; [done|]. eapply view_ext; [exact Hv3|]. tauto.
Qed.

Lemma do_remove_run s A I r thread c n :
  view s A I r → removable A c n → (∀ q, I q ↔ indexed A q) →
  ∃ s' l, do_remove_dentry thread c s = Some ((0, is_freed n), s') ∧
    view s' (do_removed c n A) (λ q, I q ∧ ¬ gone A c n q) (with_r_affected l r).
Proof.
  intros Hv [Hn Hpos Hlk _] HI. destruct (view_live _ _ _ _ Hv _ _ Hn) as (d & [Hd _] & Ed).
  unfold do_remove_dentry. sstep. unfold do_removed, dropped, is_freed, gone, is_freed.
  assert (FDIR_IS_DENTRY_HARD_LINK (st_mode (d_stat d)) = an_link n) as ->
    by exact (f_equal an_link Ed).
  destruct (an_link n) eqn:El.
  - destruct (Hlk eq_refl) as (E1 & src & m & Es & Hm & Hlm & Hpm & Hne & Hdm & _).
    assert (match d_link d with DSrc src => Some src | _ => None end = Some src) as ->.
    { rewrite <- Ed in Es. exact Es. }
    rewrite bind_bind. sstep.
    destruct (drop_link_run s A I r thread c src m Hv Hm Hlm Hpm HI) as (s1 & l & Hrun1 & Hv1).
    erewrite bind_run; [|exact Hrun1]. cbn beta iota. cbn [Z.eqb negb].
    assert (nodes (src_removed src m A) !! c = Some n) as Hn1.
    { unfold src_removed. destruct (_ =? 1); simpl.
      - rewrite lookup_delete_ne, lookup_alter_ne by done. done.
      - by rewrite lookup_alter_ne by done. }
    destruct (count_run s1 _ _ _ thread c n (-1) Hv1 Hn1) as (s2 & Hrun2 & Hv2).
    run_with Hrun2. exists s2, l. split; [done|]. rewrite Es, Hm. cbn [orb].
    eapply view_ext; [exact Hv2|]. intros q. split.
    + intros [Hq Hno]. split; [done|]. intros [[-> _]|(_ & [= <-] & m' & Hm' & E)].
      * apply HI in Hq as (x & Hx & ?). congruence.
      * apply Hno. split; congruence.
    + intros [Hq Hno]. split; [done|]. intros [-> E]. apply Hno. right. eauto.
  - destruct (drop_self_run s A I r c n Hv Hn El Hpos HI) as (s1 & l & Hrun1 & Hv1).
    erewrite bind_run; [|exact Hrun1]. cbn beta iota. cbn [Z.eqb negb orb].
    destruct (Z.eqb_spec (an_nlink n) 1) as [E|E].
    + destruct (count_run s1 _ _ _ thread c (n_nlink (-1) n) (-1) Hv1) as (s2 & Hrun2 & Hv2).
      { by rewrite upd_lookup, decide_True, Hn. }
      run_with Hrun2. exists s2, l. split; [done|].
      rewrite (add_count_key n (n_nlink (-1) n)) in Hv2 by done.
      eapply view_ext; [exact Hv2|]. intros q. naive_solver.
    + exists s1, l. split; [done|]. eapply view_ext; [exact Hv1|]. intros q. naive_solver.
Qed.

Lemma n_nlink_add j k n : n_nlink j (n_nlink k n) = n_nlink (k + j) n.
Proof. destruct n. unfold n_nlink. simpl. by rewrite Z.add_assoc. Qed.

Lemma add_count_comm n m j k A : add_count n j (add_count m k A) = add_count m k (add_count n j A).
Proof.
  apply atree_eq; try done. simpl. apply map_eq. intros a. rewrite !lookup_alter.
  destruct (decide (an_ns n = an_ns m)) as [E|E].
  - rewrite <- E. rewrite !(decide_True (P := an_ns n = an_ns n)) by done. case_decide; [|done].
    destruct (counts A !! an_ns n) as [[x y]|]; simpl; [|done].
    destruct (an_dir n), (an_dir m); simpl; do 2 f_equal; lia.
  - repeat case_decide; congruence.
Qed.

(** After the parent's part of the work, the tree is the one specified. *)
Lemma remove_steps_eq A c p n dn :
  removable A c n → nodes A !! p = Some dn → an_dir dn = true → c ≠ p → an_kids n = ∅ →
  upd_node p (n_nlink (-1))
    (let A1 := upd_node p (n_kids (λ k, k ∖ {[c]})) (do_removed c n A) in
     if is_freed n then del_node c A1 else A1) = remove_spec c p A.
Proof.
  intros [Hn Hpos Hlk _] Hp Hdir Hcp Hk. unfold remove_spec.
  assert (nodes (p_detach c p A) !! c = Some (n_nlink (-1) n)) as Hc1.
  { unfold p_detach. rewrite !upd_lookup, decide_True, decide_False, Hn by done. done. }
  unfold p_reap. rewrite Hc1. unfold do_removed, dropped, is_freed. cbn [an_link an_src n_nlink].
  destruct (an_link n) eqn:El.
  - destruct (Hlk eq_refl) as (E1 & src & m & Es & Hm & Hlm & Hpm & Hsc & Hdm & _).
    rewrite Es, Hm. cbn [orb]. assert (src ≠ p) as Hsp by congruence.
    unfold p_reap_file at 2. rewrite Hc1. cbn [an_nlink n_nlink]. rewrite E1.
    change (1 + -1 =? 0) with true. cbn iota. unfold p_free, link_ref at 1.
    cbn [an_link an_src n_nlink]. rewrite El, Es.
    unfold p_reap_file. rewrite upd_lookup, decide_True by done. simpl.
    rewrite lookup_delete_ne, !lookup_alter_ne, Hm by done. simpl.
    unfold src_removed.
    replace (an_nlink m + -1 =? 0) with (an_nlink m =? 1)
      by (apply eq_bool_prop_intro; rewrite !Is_true_true, !Z.eqb_eq; lia).
    unfold p_free, link_ref. cbn [an_link an_src n_nlink]. rewrite Hlm.
    destruct (an_nlink m =? 1).
    + rewrite (add_count_key m (n_nlink (-1) m)), (add_count_key n (n_nlink (-1) n)) by done.
      apply atree_eq; [|done|].
      * intros q. simpl. unfold p_detach.
        destruct (decide (q = p)) as [->|Hqp]; [|destruct (decide (q = src)) as [->|Hqs];
          [|destruct (decide (q = c)) as [->|Hqc]]].
        all: node_lookup; try done.
        by rewrite Hp.
      * pose proof (add_count_comm n m (-1) (-1) A) as E. apply (f_equal counts) in E. exact E.
    + rewrite (add_count_key n (n_nlink (-1) n)) by done. apply atree_eq; [|done..].
      intros q. simpl.
        destruct (decide (q = p)) as [->|Hqp]; [|destruct (decide (q = src)) as [->|Hqs];
          [|destruct (decide (q = c)) as [->|Hqc]]].
        all: node_lookup; try done.
        by rewrite Hp.
  - unfold p_reap_file. rewrite Hc1. cbn [an_nlink n_nlink orb].
    replace (an_nlink n + -1 =? 0) with (an_nlink n =? 1)
      by (apply eq_bool_prop_intro; rewrite !Is_true_true, !Z.eqb_eq; lia).
    assert (∀ X Y : ATree, match an_src n with Some _ | None => X end = X) as Hm by (by destruct (an_src n)).
    unfold p_free, link_ref. cbn [an_link n_nlink]. rewrite El.
    rewrite (add_count_key n (n_nlink (-1) n)) by done.
    destruct (an_nlink n =? 1).
    + apply atree_eq; [|done..]. intros q. simpl.
        destruct (decide (q = p)) as [->|Hqp]; [|destruct (decide (q = c)) as [->|Hqc]].
        all: node_lookup; try done.
        by rewrite Hp.
    + apply atree_eq; [|done..]. intros q. simpl.
        destruct (decide (q = p)) as [->|Hqp]; [|destruct (decide (q = c)) as [->|Hqc]].
        all: node_lookup; try done.
        by rewrite Hp.
Qed.

(** The source of a hard link goes with it. *)
Definition src_gone (A : ATree) (n : ANode) (q : ptr) : Prop :=
  an_link n = true ∧ an_src n = Some q ∧ ∃ m, nodes A !! q = Some m ∧ an_nlink m = 1.

Lemma do_removed_lookup A c n q :
  removable A c n →
  (src_gone A n q ∧ nodes (do_removed c n A) !! q = None) ∨
  (¬ src_gone A n q ∧ ∃ k, (q ≠ c → (an_link n = true → an_src n ≠ Some q) → k = 0) ∧
     nodes (do_removed c n A) !! q = n_nlink k <$> nodes A !! q).
Proof.
  intros [Hn Hpos Hlk _]. unfold do_removed, dropped.
  assert (∀ (b : bool) n k B, nodes (if b then add_count n k B else B) = nodes B) as E
    by by intros [].
  rewrite E. unfold src_gone. destruct (an_link n) eqn:El.
  - destruct (Hlk eq_refl) as (E1 & src & m & Es & Hm & _). rewrite Es, Hm. unfold src_removed.
    destruct (decide (q = src)) as [->|Hq].
    + destruct (Z.eqb_spec (an_nlink m) 1) as [E2|E2]; simpl.
      * left. split; [eauto|]. apply lookup_delete_eq.
      * right. split; [naive_solver congruence|]. exists (-1).
        split; [intros _ Hf; by destruct Hf|]. by rewrite lookup_alter_eq.
    + right. split; [naive_solver congruence|]. exists 0. split; [done|].
      destruct (an_nlink m =? 1); simpl; node_lookup;
        (destruct (nodes A !! q); simpl; [by rewrite n_nlink_0|done]).
  - right. split; [naive_solver congruence|]. simpl. destruct (decide (q = c)) as [->|Hq].
    + exists (-1). split; [done|]. by node_lookup.
    + exists 0. split; [done|]. node_lookup.
      destruct (nodes A !! q); simpl; [by rewrite n_nlink_0|done].
Qed.

Lemma do_removed_dir A c n p dn :
  removable A c n → nodes A !! p = Some dn → an_dir dn = true → c ≠ p →
  nodes (do_removed c n A) !! p = Some dn ∧ same_dir A (do_removed c n A) p ∧
  ∃ k, nodes (do_removed c n A) !! c = Some (n_nlink k n).
Proof.
  intros Hr Hp Hdir Hcp. pose proof (rm_node _ _ _ Hr) as Hn. pose proof (rm_link _ _ _ Hr) as Hlk.
  assert (∀ q, q = p ∨ q = c → an_link n = true → an_src n ≠ Some q) as Hns.
  { intros q Hq El Eq. destruct (Hlk El) as (_ & src & m & Es & Hm & Hlm & _ & Hne & Hdm & _).
    assert (q = src) as -> by congruence. destruct Hq as [-> | ->]; congruence. }
  destruct (do_removed_lookup A c n p Hr) as [[Hg _]|(_ & k & Hk & E)].
  { destruct Hg as (El & Es & _). by destruct (Hns p (or_introl eq_refl) El). }
  rewrite Hk, Hp in E by auto. simpl in E. rewrite n_nlink_0 in E. split; [done|]. split.
  - split; [by rewrite (kids_at_eq _ _ _ E), (kids_at_eq _ _ _ Hp)|]. intros e He.
    destruct (do_removed_lookup A c n e Hr) as [[Hg _]|(_ & j & _ & Ee)].
    + destruct Hg as (El & Es & m & Hm & E1).
      destruct (Hlk El) as (_ & src & m' & Es' & Hm' & _ & _ & _ & _ & Hno).
      assert (e = src) as -> by congruence. destruct (Hno ltac:(congruence) p He).
    + unfold name_at. rewrite Ee. by destruct (nodes A !! e).
  - destruct (do_removed_lookup A c n c Hr) as [[Hg _]|(_ & j & _ & Ec)].
    + destruct Hg as (El & Es & _). by destruct (Hns c (or_intror eq_refl) El).
    + exists j. by rewrite Ec, Hn.
Qed.

(** The dentries of the inode table afterwards. *)
Lemma remove_indexed A c p n dn q :
  removable A c n → nodes A !! p = Some dn → an_dir dn = true → c ≠ p → an_kids n = ∅ →
  indexed (remove_spec c p A) q ↔ indexed A q ∧ ¬ gone A c n q.
Proof.
  intros Hr Hp Hdir Hcp Hk. rewrite <- (remove_steps_eq A c p n dn Hr Hp Hdir Hcp Hk).
  set (D := do_removed c n A). set (T := upd_node p (n_nlink (-1)) _).
  assert (∀ q, ∃ f, (∀ m, an_link (f m) = an_link m) ∧ nodes T !! q =
    if is_freed n && bool_decide (q = c) then None else f <$> nodes D !! q) as Hl.
  { intros x. unfold T. destruct (decide (x = p)) as [->|Hx].
    - exists (λ m, n_nlink (-1) (n_kids (λ k, k ∖ {[c]}) m)). split; [done|].
      rewrite bool_decide_eq_false_2, andb_false_r by done. simpl.
      destruct (is_freed n); simpl; node_lookup; by destruct (nodes D !! p).
    - exists (λ m, m). split; [done|]. rewrite option_fmap_id.
      destruct (is_freed n); simpl; node_lookup; [|done]. case_bool_decide as E.
      + subst. by node_lookup.
      + by node_lookup. }
  unfold indexed. destruct (Hl q) as (f & Hf & ->).
  change (gone A c n q) with ((q = c ∧ is_freed n = true) ∨ src_gone A n q).
  unfold D. destruct (do_removed_lookup A c n q Hr) as [[Hg ->]|(Hg & k & _ & ->)].
  { destruct (_ && _); simpl; naive_solver. }
  destruct (is_freed n) eqn:Ef; simpl; [case_bool_decide as E|].
  - split; [naive_solver|]. intros [_ Hno]. destruct Hno. by left.
  - destruct (nodes A !! q) as [m|]; simpl; [|naive_solver]. split.
    + intros (x & [= <-] & Ex). rewrite Hf in Ex. split; [by exists m|]. tauto.
    + intros [(x & [= <-] & Ex) _]. eexists. split; [done|]. by rewrite Hf.
  - destruct (nodes A !! q) as [m|]; simpl; [|naive_solver]. split.
    + intros (x & [= <-] & Ex). rewrite Hf in Ex. split; [by exists m|]. intros [[_ ?]|?]; done.
    + intros [(x & [= <-] & Ex) _]. eexists. split; [done|]. by rewrite Hf.
Qed.

(** The steps of [dentry_remove] after its checks. *)
Lemma remove_child_run s A r thread c p n dn :
  view s A (indexed A) r → wf A ∅ → c ∈ kids_at A p → nodes A !! c = Some n → an_kids n = ∅ →
  nodes A !! p = Some dn →
  ∃ s' l, ('(rc, free_dentry) ← do_remove_dentry thread c;
      if negb (rc =? 0) then mret rc
      else
        rc ← children_delete p c free_dentry;
        if rc =? 0 then dec_nlink p;; mret 0 else mret rc) s = Some (0, s') ∧
    view s' (remove_spec c p A) (indexed (remove_spec c p A)) (with_r_affected l r).
Proof.
  intros Hv Hwf Hc Hn Hk Hp. destruct (wf_kid_ok _ _ _ _ Hwf Hc) as (dn' & _ & Hp' & Hdir & _).
  assert (dn' = dn) as -> by congruence. clear Hp'.
  pose proof (kid_removable A p c n Hwf Hn Hc Hk) as Hr.
  assert (c ≠ p) as Hcp.
  { intros ->. rewrite (kids_at_eq _ _ _ Hn), Hk in Hc. set_solver. }
  destruct (do_remove_run s A _ r thread c n Hv Hr (λ _, iff_refl _)) as (s1 & l & Hrun1 & Hv1).
  destruct (do_removed_dir A c n p dn Hr Hp Hdir Hcp) as (Hp1 & Hsame & k & Hc1).
  destruct (view_children_delete s1 _ _ _ p c dn (n_nlink k n) Hv1 Hp1 Hdir)
    with (b := is_freed n) as (s2 & Hrun2 & Hv2).
  { apply (same_dir_names _ _ _ Hsame), (wf_names_ok A ∅ p Hwf). }
  { exact Hc1. }
  { by rewrite (proj1 Hsame). }
  match type of Hv2 with view _ ?T _ _ => set (A2 := T) in Hv2 end.
  assert (nodes A2 !! p = Some (n_kids (λ k, k ∖ {[c]}) dn)) as Hp2.
  { unfold A2. cbn zeta. destruct (is_freed n); simpl; node_lookup; by rewrite Hp1. }
  destruct (view_dec s2 A2 _ _ p _ Hv2 Hp2) as (s3 & Hrun3 & Hv3).
  { simpl. by apply (w_live _ _ Hwf _ _ Hp). }
  exists s3, l. split.
  - run_with Hrun1. cbn beta iota. cbn [Z.eqb negb]. run_with Hrun2. cbn [Z.eqb]. by run_with Hrun3.
  - apply (view_ext _ _ (λ q, indexed A q ∧ ¬ gone A c n q)).
    + rewrite <- (remove_steps_eq A c p n dn Hr Hp Hdir Hcp Hk). exact Hv3.
    + intros q. by rewrite (remove_indexed A c p n dn q Hr Hp Hdir Hcp Hk).
Qed.

(** The outcome of [dentry_remove] in a directory. *)
Lemma dentry_remove_run s thread p n :
  STORAGE_ENABLED = false → tree_ok s → re_parent (r_me (record s)) = Some p →
  nodes (abs s) !! p = Some n →
  let name := re_pname (r_me (record s)) in
  ∃ rc s', dentry_remove thread s = Some (rc, s') ∧ tree_ok s' ∧
    (abs s' = abs s ∧
       (an_dir n = false ∧ rc = ENOTDIR ∨
        an_dir n = true ∧ (∀ e, ¬ child_at (abs s) p name e) ∧ rc = ENOENT ∨
        (∃ c, child_at (abs s) p name c ∧ kids_at (abs s) c ≠ ∅) ∧ rc = ENOTEMPTY) ∨
     ∃ c cn, rc = 0 ∧ child_at (abs s) p name c ∧ kids_at (abs s) c = ∅ ∧
       abs s' = remove_spec c p (abs s) ∧
       nodes (abs s) !! c = Some cn ∧ r_inode (record s') = an_inode cn).
Proof.
  intros Hst [Hwf Hv] Hpar Hn name. set (A := abs s) in *. set (r := record s) in *.
  destruct (find_me_run s A _ r thread false p n Hst Hv Hpar Hn (wf_names_ok A ∅ p Hwf))
    as (rc & child & s1 & Hrun1 & Hv1 & _ & _ & _ & Hres).
  unfold dentry_remove. run_with Hrun1. cbn beta iota.
  destruct (view_tree_ok _ _ _ _ Hv1 Hwf (λ _, iff_refl _)) as (Hok1 & EA1 & Er1).
  destruct child as [c|].
  2: { destruct Hres as [-> Hfree].
    exists (if an_dir n then ENOENT else ENOTDIR), s1. split; [by destruct (an_dir n)|].
    split; [done|]. left. split; [done|]. destruct (an_dir n); [right; left|left]; auto. }
  destruct Hres as (-> & Hdir & Hc). cbn [Z.eqb negb]. sstep. rewrite Er1.
  cbn [me_found r_me with_r_me re_dentry with_re_dentry]. sstep. sstep.
  pose proof Hc as (dn & cn & Hdn & Hck & Hcn & _). assert (dn = n) as -> by congruence.
  run_with (has_children_run s1 A _ _ c cn Hv1 Hcn (w_leaf _ _ Hwf _ _ Hcn)).
  case_bool_decide as Hk; cbn [negb].
  2: { exists ENOTEMPTY, s1. split; [done|]. split; [done|]. left. split; [done|]. right; right.
       split; [|done]. exists c. by rewrite (kids_at_eq _ _ _ Hcn). }
  destruct (view_live _ _ _ _ Hv1 _ _ Hcn) as (d & [Hd _] & Ed). sstep.
  assert (d_inode d = an_inode cn) as -> by exact (f_equal an_inode Ed).
  destruct (view_record s1 A _ _ (with_r_inode (an_inode cn)) Hv1) as (s2 & Hrun2 & Hv2).
  run_with Hrun2.
  destruct (remove_child_run s2 A _ thread c p cn n Hv2 Hwf) as (s3 & l & Hrun3 & Hv3); try done.
  { by rewrite (kids_at_eq _ _ _ Hn). }
  replace (re_parent _) with (Some p) by (rewrite <- Hpar; done).
  destruct (remove_spec_wf A c p Hwf) as [Hwf3 Hch3].
  { by rewrite (kids_at_eq _ _ _ Hn). }
  { by rewrite (kids_at_eq _ _ _ Hcn). }
  destruct (view_tree_ok _ _ _ _ Hv3 Hwf3 (λ _, iff_refl _)) as (Hok3 & EA3 & Er3).
  exists 0, s3. split; [exact Hrun3|]. split; [done|]. right. exists c, cn.
  rewrite EA3, Er3, (kids_at_eq _ _ _ Hcn). by split_and!.
Qed.

(** [C3] [dentry_remove] refuses to remove from what is no directory (ENOTDIR),
    a name that is not there (ENOENT) and a directory with children
    (ENOTEMPTY), and leaves the tree as it was. Otherwise the child goes: its
    name leads nowhere and every other name to what it led to, link counts and
    the namespace's count go down; a file goes with its last reference, and
    the source of a hard link with its last link. The server stays well
    formed. *)
Theorem dentry_remove_spec s thread p n :
  STORAGE_ENABLED = false → tree_ok s → re_parent (r_me (record s)) = Some p →
  nodes (abs s) !! p = Some n →
  let name := re_pname (r_me (record s)) in
  ∃ rc s', dentry_remove thread s = Some (rc, s') ∧ tree_ok s' ∧
    (abs s' = abs s ∧
       (an_dir n = false ∧ rc = ENOTDIR ∨
        an_dir n = true ∧ (∀ e, ¬ child_at (abs s) p name e) ∧ rc = ENOENT ∨
        (∃ c, child_at (abs s) p name c ∧ kids_at (abs s) c ≠ ∅) ∧ rc = ENOTEMPTY) ∨
     ∃ c cn, rc = 0 ∧ child_at (abs s) p name c ∧ kids_at (abs s) c = ∅ ∧
       abs s' = remove_spec c p (abs s) ∧
       (∀ q nm e, child_at (abs s') q nm e ↔ child_at (abs s) q nm e ∧ e ≠ c) ∧
       nodes (abs s) !! c = Some cn ∧ r_inode (record s') = an_inode cn).
Proof.
  intros Hst Hok Hpar Hn name.
  destruct (dentry_remove_run s thread p n Hst Hok Hpar Hn)
    as (rc & s' & Hrun & Hok' & [Hno|(c & cn & -> & Hc & Hk & EA & Hcn & Hi)]).
  { exists rc, s'. split; [done|]. split; [done|]. by left. }
  exists 0, s'. split; [done|]. split; [done|]. right. exists c, cn. split_and!; try done.
  pose proof Hc as [Hck _]%child_at_alt. rewrite EA. by apply remove_spec_wf; [apply Hok|..].
Qed.
End tree.
