(* ===== verification/DentryRename.v ===== *)
(** * Renaming and exchanging: [dentry_rename] of [server/dentry.c]

    [dentry_rename] moves a dentry, overwrites another one or exchanges two.
    The theorems show when it refuses and that it otherwise changes the tree as
    [move_spec] or [exchange_spec] of [FsTree.v] says; the check for loops is
    what keeps the tree a tree. *)

From S2P Require Import Prelude NsSubscribe FsTree ServerTypes InodeGenerator NsManager.
From S2P Require Import InodeIndex Dentry DentryView DentryTree.

Lemma anode_eq n m :
  shape n = shape m → an_nlink n = an_nlink m → an_kids n = an_kids m → n = m.
Proof. destruct n, m. unfold shape, node_key. simpl. by intros [= -> -> -> -> -> -> ->] -> ->. Qed.

(** Distinguishes the places of a rename. *)
Ltac place_cases q a b c d :=
  destruct (decide (q = a)) as [->|]; [|destruct (decide (q = b)) as [->|];
    [|destruct (decide (q = c)) as [->|]; [|destruct (decide (q = d)) as [->|]]]].

(** ... and compares the nodes there. *)
Ltac place_eq :=
  match goal with |- context [nodes ?D !! ?q] => destruct (nodes D !! q); [|done] end;
  simpl; f_equal; apply anode_eq; try done; simpl; lia || (apply set_eq; set_solver).

Section rename.
Context `{UniqSkiplist} `{ServerConfig} `{!StorageEngine} `{!PathSplit}.

(** ** Ancestors *)

Lemma ancestor_loop_run s A I r x l : view s A I r → ∀ fuel q,
  chain an_parent (nodes A) q l → (length l ≤ fuel)%nat →
  ancestor_loop fuel x q s = Some (bool_decide (x ∈ l), s).
Proof.
  intros Hv. induction l as [|y l IH]; intros fuel q Hc Hf.
  { simpl in Hc. subst q. by destruct fuel. }
  destruct Hc as (-> & n & Hn & Hc). destruct fuel as [|fuel]; simpl in Hf; [lia|].
  cbn [ancestor_loop]. destruct (decide (y = x)) as [->|Hyx].
  { rewrite bool_decide_eq_true_2 by set_solver. done. }
  destruct (view_live _ _ _ _ Hv _ _ Hn) as (d & [Hd _] & <-). sstep. simpl in Hc.
  rewrite (IH fuel (d_parent d) Hc) by lia. do 2 f_equal. apply bool_decide_ext. set_solver.
Qed.

Lemma nodes_size s A I r : view s A I r → (size (nodes A) ≤ size (dentries s))%nat.
Proof.
  intros Hv. rewrite <- (v_abs _ _ _ _ Hv). simpl. unfold abs_nodes. rewrite map_size_fmap.
  rewrite <- !size_dom. apply subseteq_size. intros p. rewrite !elem_of_dom.
  intros [d Hd%map_lookup_filter_Some]. naive_solver.
Qed.

(** The directories above [p]. *)
Lemma is_ancestor_run s A I r x p n :
  view s A I r → wf A ∅ → nodes A !! p = Some n → an_dir n = true →
  ∃ b, dentry_is_ancestor x (Some p) s = Some (b, s) ∧ (b = true ↔ is_ancestor A x p).
Proof.
  intros Hv Hwf Hn Hdir. destruct (w_chain _ _ Hwf _ _ Hn Hdir ltac:(set_solver)) as [l Hl].
  exists (bool_decide (x ∈ l)). split.
  - unfold dentry_is_ancestor. sstep. eapply ancestor_loop_run; [done..|].
    etransitivity; [by eapply chain_length|]. by eapply nodes_size.
  - rewrite bool_decide_eq_true. split; [by exists l|]. intros (l' & Hl' & Hin).
    by rewrite (chain_det _ _ _ _ _ Hl Hl').
Qed.

(** ** The checks *)

Definition kind_at (s : Server) (c : ptr) : option Z :=
  (λ d, Z.land (st_mode (d_stat d)) S_IFMT) <$> dentries s !! c.

Definition exchanging (r : BinlogRecord) : bool := has_bit (r_flags r) RENAME_EXCHANGE.
Definition no_replace (r : BinlogRecord) : bool := has_bit (r_flags r) RENAME_NOREPLACE.

(** Why a request to rename [sname] of directory [sp] to [dname] of [dp] is refused. *)
Inductive rename_refused (A : ATree) (kind : ptr → option Z) (r : BinlogRecord)
    (sp : ptr) (sname : string) (dp : ptr) (dname : string) : Z → Prop :=
  | rr_src_parent n : nodes A !! sp = Some n → an_dir n = false →
      rename_refused A kind r sp sname dp dname ENOTDIR
  | rr_src : (∀ e, ¬ child_at A sp sname e) → rename_refused A kind r sp sname dp dname ENOENT
  | rr_dest_parent n : nodes A !! dp = Some n → an_dir n = false →
      rename_refused A kind r sp sname dp dname ENOTDIR
  | rr_exchange : exchanging r = true → (∀ e, ¬ child_at A dp dname e) →
      rename_refused A kind r sp sname dp dname ENOENT
  | rr_no_replace b : no_replace r = true → child_at A dp dname b →
      rename_refused A kind r sp sname dp dname EEXIST
  | rr_kind a b : exchanging r = false → child_at A sp sname a → child_at A dp dname b →
      kind a ≠ kind b → rename_refused A kind r sp sname dp dname EINVAL
  | rr_not_empty b : exchanging r = false → child_at A dp dname b → kids_at A b ≠ ∅ →
      rename_refused A kind r sp sname dp dname ENOTEMPTY
  | rr_same a : child_at A sp sname a → child_at A dp dname a →
      rename_refused A kind r sp sname dp dname EEXIST
  | rr_below a : sp ≠ dp → child_at A sp sname a → is_ancestor A a dp →
      rename_refused A kind r sp sname dp dname ELOOP
  | rr_above b : sp ≠ dp → child_at A dp dname b → is_ancestor A b sp →
      rename_refused A kind r sp sname dp dname ELOOP
  | rr_dest_above : sp ≠ dp → (∀ e, ¬ child_at A dp dname e) → is_ancestor A dp sp →
      rename_refused A kind r sp sname dp dname ELOOP.

(** The record with the two dentries found. *)
Definition found_rec (src dest : option ptr) (r : BinlogRecord) : BinlogRecord :=
  with_r_me (with_re_dentry dest (r_me r)) (with_r_src (with_re_dentry src (r_src r)) r).

(** What the checks leave for the target. *)
Definition target_ok (A : ATree) (kind : ptr → option Z) (r : BinlogRecord) (a dp : ptr)
    (dname : string) (dest : option ptr) : Prop :=
  match dest with
  | Some b => child_at A dp dname b ∧ no_replace r = false ∧
      (exchanging r = false → kind a = kind b ∧ kids_at A b = ∅)
  | None => (∀ e, ¬ child_at A dp dname e) ∧ exchanging r = false
  end.

Lemma record_run s A I r f :
  view s A I r → ∃ s', modify_rec f s = Some ((), s') ∧ view s' A I (f r) ∧
    dentries s' = dentries s.
Proof.
  intros Hv. destruct (view_record s A I r f Hv) as (s' & Hrun & Hv'). exists s'.
  split; [done|]. split; [done|]. rewrite modify_rec_run in Hrun. by injection Hrun as <-.
Qed.

(** The last check, for a target that is there. *)
Lemma kind_check_run s A I r a b an bn :
  view s A I r → nodes A !! a = Some an → nodes A !! b = Some bn →
  (an_dir bn = false → an_kids bn = ∅) →
  ∃ rc, (sd ← load_dentry a; dd ← load_dentry b;
        if negb (Z.land (st_mode (d_stat dd)) S_IFMT =? Z.land (st_mode (d_stat sd)) S_IFMT)
        then mret EINVAL
        else
          busy ← has_children b;
          mret (if (busy : bool) then ENOTEMPTY else 0)) s = Some (rc, s) ∧
    (rc = EINVAL ∧ kind_at s a ≠ kind_at s b ∨ rc = ENOTEMPTY ∧ kids_at A b ≠ ∅ ∨
     rc = 0 ∧ kind_at s a = kind_at s b ∧ kids_at A b = ∅).
Proof.
  intros Hv Ha Hb Hleaf. destruct (view_live _ _ _ _ Hv _ _ Ha) as (d & [Hd _] & _).
  destruct (view_live _ _ _ _ Hv _ _ Hb) as (e & [He _] & _). sstep. sstep.
  unfold kind_at. rewrite Hd, He. simpl.
  destruct (Z.eqb_spec (Z.land (st_mode (d_stat e)) S_IFMT) (Z.land (st_mode (d_stat d)) S_IFMT))
    as [E|E]; cbn [negb].
  2: { exists EINVAL. split; [done|]. left. split; [done|]. congruence. }
  run_with (has_children_run s A I r b bn Hv Hb Hleaf). rewrite (kids_at_eq _ _ _ Hb).
  case_bool_decide as Hk; cbn [negb].
  - exists 0. split; [done|]. right; right. split_and!; [done|congruence|done].
  - exists ENOTEMPTY. split; [done|]. right; left. done.
Qed.

Section check.
Context (s : Server) (r : BinlogRecord) (A : ATree) (thread sp dp : ptr) (sn dn : ANode).
Context (Hst : STORAGE_ENABLED = false) (Hv : view s A (indexed A) r) (Hwf : wf A ∅).
Context (Hsp : re_parent (r_src r) = Some sp) (Hdp : re_parent (r_me r) = Some dp).
Context (Hsn : nodes A !! sp = Some sn) (Hdn : nodes A !! dp = Some dn).

Let sname := re_pname (r_src r).
Let dname := re_pname (r_me r).

Lemma rename_check_run :
  ∃ rc s', rename_check thread s = Some (rc, s') ∧ dentries s' = dentries s ∧
    ((rc ≠ 0 ∧ rename_refused A (kind_at s) r sp sname dp dname rc ∧
        ∃ r', view s' A (indexed A) r') ∨
     ∃ a dest, rc = 0 ∧ view s' A (indexed A) (found_rec (Some a) dest r) ∧
       child_at A sp sname a ∧ an_dir dn = true ∧
       target_ok A (kind_at s) r a dp dname dest).
Proof using All.
  unfold rename_check. sstep. rewrite (v_record _ _ _ _ Hv). rewrite Hsp, Hdp.
  destruct (find_child_run s A _ r thread sp sn sname Hst Hv Hsn (wf_names_ok A ∅ sp Hwf))
    as (rc1 & src & Hrun1 & Hres1). run_with Hrun1. cbn beta iota.
  destruct (record_run s A _ r (λ r, with_r_src (with_re_dentry src (r_src r)) r) Hv)
    as (s1 & Hrec1 & Hv1 & Ed1). unfold set_src_found. run_with Hrec1.
  destruct src as [a|].
  2: { destruct Hres1 as [-> Hno]. exists (if an_dir sn then ENOENT else ENOTDIR), s1.
       split; [by destruct (an_dir sn)|]. split; [done|]. left. split; [by destruct (an_dir sn)|].
       split; [|eauto]. destruct (an_dir sn) eqn:Es; [apply rr_src; auto|by eapply rr_src_parent]. }
  destruct Hres1 as (-> & _ & Ha). cbn [Z.eqb negb].
  destruct (find_child_run s1 A _ _ thread dp dn dname Hst Hv1 Hdn (wf_names_ok A ∅ dp Hwf))
    as (rc2 & dest & Hrun2 & Hres2). run_with Hrun2. cbn beta iota.
  destruct (record_run s1 A _ _ (λ r, with_r_me (with_re_dentry dest (r_me r)) r) Hv1)
    as (s2 & Hrec2 & Hv2 & Ed2). unfold set_me_found. run_with Hrec2. rewrite Ed1 in Ed2.
  change (with_r_me _ _) with (found_rec (Some a) dest r) in Hv2.
  fold (exchanging r) (no_replace r).
  destruct dest as [b|].
  2: { destruct Hres2 as [-> Hno]. destruct (an_dir dn) eqn:Ed.
       - change (ENOENT =? 0) with false. cbn [negb]. destruct (exchanging r) eqn:Ex.
         + exists ENOENT, s2. split; [done|]. split; [done|]. left. split; [done|].
           split; [apply rr_exchange; auto|eauto].
         + exists 0, s2. split; [done|]. split; [done|]. right. exists a, None. split_and!; try done.
           split; auto.
       - change (ENOTDIR =? 0) with false. cbn [negb]. exists ENOTDIR, s2.
         split; [by destruct (exchanging r)|]. split; [done|]. left. split; [done|].
         split; [by eapply rr_dest_parent|eauto]. }
  destruct Hres2 as (-> & Ed & Hb). cbn [Z.eqb negb].
  destruct (no_replace r) eqn:En.
  { exists EEXIST, s2. split; [done|]. split; [done|]. left. split; [done|].
    split; [by eapply rr_no_replace|eauto]. }
  destruct (exchanging r) eqn:Ex.
  { exists 0, s2. split; [done|]. split; [done|]. right. exists a, (Some b). split_and!; try done.
    split; [done|]. split; [done|]. rewrite Ex. intros [=]. }
  pose proof Ha as (_ & an & _ & _ & Han & _). pose proof Hb as (_ & bn & _ & _ & Hbn & _).
  sstep. sstep.
  destruct (kind_check_run s2 A _ _ a b an bn Hv2 Han Hbn (w_leaf _ _ Hwf _ _ Hbn))
    as (rc & Hrun & Hres).
  exists rc, s2. split; [exact Hrun|]. split; [done|]. unfold kind_at in Hres. rewrite Ed2 in Hres.
  fold (kind_at s a) (kind_at s b) in Hres. destruct Hres as [[-> Hk]|[[-> Hk]|(-> & Hk & Hk')]].
  - left. split; [done|]. split; [by eapply rr_kind|eauto].
  - left. split; [done|]. split; [by eapply rr_not_empty|eauto].
  - right. exists a, (Some b). split_and!; try done.
Qed.

(** The check for loops. *)
Lemma loop_check_run s2 r2 a dest :
  view s2 A (indexed A) r2 → child_at A sp sname a → an_dir dn = true →
  match dest with Some b => child_at A dp dname b | None => ∀ e, ¬ child_at A dp dname e end →
  ∃ b, (if decide (Some dp = Some sp) then mret false
        else
          up ← dentry_is_ancestor a (Some dp);
          if (up : bool) then mret true
          else
            top ← non_null (match dest with Some d => Some d | None => Some dp end);
            dentry_is_ancestor top (Some sp)) s2 = Some (b, s2) ∧
    if b then rename_refused A (kind_at s) r sp sname dp dname ELOOP
    else ¬ is_ancestor A a dp ∧ match dest with Some b => ¬ is_ancestor A b sp | None => True end.
Proof using All.
  intros Hv2 Ha Hdir Hdest. pose proof Ha as [Hka _]%child_at_alt.
  destruct (decide (Some dp = Some sp)) as [E|E].
  { exists false. split; [done|]. injection E as ->. split; [by eapply kid_not_above|].
    destruct dest as [b|]; [|done]. apply child_at_alt in Hdest as [Hkb _]. by eapply kid_not_above. }
  assert (sp ≠ dp) as Hne by congruence.
  destruct (wf_kid_ok _ _ _ _ Hwf Hka) as (sn' & _ & Hsn' & Hsdir & _).
  assert (sn' = sn) as -> by congruence.
  destruct (is_ancestor_run s2 A _ _ a dp dn Hv2 Hwf Hdn Hdir) as (b1 & Hrun1 & Hb1). run_with Hrun1.
  destruct b1. { exists true. split; [done|]. eapply rr_below; [done|done|by apply Hb1]. }
  assert (¬ is_ancestor A a dp) as Hna by (intros ?%Hb1; done).
  destruct dest as [b|]; sstep.
  - destruct (is_ancestor_run s2 A _ _ b sp sn Hv2 Hwf Hsn Hsdir) as (b2 & Hrun2 & Hb2).
    exists b2. split; [exact Hrun2|]. destruct b2.
    + by eapply rr_above; [done|done|apply Hb2].
    + split; [done|]. by intros ?%Hb2.
  - destruct (is_ancestor_run s2 A _ _ dp sp sn Hv2 Hwf Hsn Hsdir) as (b2 & Hrun2 & Hb2).
    exists b2. split; [exact Hrun2|]. destruct b2; [apply rr_dest_above; [done|done|by apply Hb2]|done].
Qed.
End check.

(** ** The dentry to move, out of its directory and under its new name *)

Lemma names_ok_sub A A' p :
  names_ok A p → (∀ e, e ∈ kids_at A' p → e ∈ kids_at A p ∧ name_at A' e = name_at A e) →
  names_ok A' p.
Proof.
  intros [Hex Hinj] Hsub. split.
  - intros c Hc. destruct (Hsub c Hc) as [Hk E]. rewrite name_at_Some, E, <- name_at_Some. auto.
  - intros c1 c2 K1 K2. destruct (Hsub c1 K1) as [? ->], (Hsub c2 K2) as [? ->]. auto.
Qed.

Lemma upd_node_id A p n f : nodes A !! p = Some n → f n = n → upd_node p f A = A.
Proof.
  intros Hn E. rewrite (upd_node_insert A p n f Hn), E. destruct A as [m ? ?]. unfold with_nodes.
  simpl in *. by rewrite insert_id.
Qed.

Lemma set_name_run s A I r c n name (changed : bool) :
  view s A I r → nodes A !! c = Some n → (changed = false → name = an_name n) →
  ∃ s' old, set_and_store_dentry_name c name changed s = Some ((0, Some old), s') ∧
    view s' (upd_node c (n_name name) A) I r.
Proof.
  intros Hv Hn Hch. destruct (view_live _ _ _ _ Hv _ _ Hn) as (d & [Hd _] & Ed).
  unfold set_and_store_dentry_name. sstep. destruct changed; cbn [negb].
  - run_with (view_alloc s A I r Hv). cbn [negb].
    destruct (view_set_name s A I r c n name Hv Hn) as (s' & Hrun & Hv'). run_with Hrun.
    exists s', (d_name d). done.
  - exists s, (d_name d). split; [done|]. rewrite (upd_node_id A c n); [done..|].
    rewrite Hch by done. by destruct n.
Qed.

Section detached.
Context (A : ATree) (src sp : ptr) (an : ANode) (sname dname : string).
Context (Hwf : wf A ∅) (Hsrc : child_at A sp sname src) (Han : nodes A !! src = Some an).

Definition taken : ATree :=
  upd_node src (n_name dname) (upd_node sp (n_kids (λ k, k ∖ {[src]})) A).

Lemma taken_lookup q :
  nodes taken !! q = (λ n, (if decide (q = src) then n_name dname else λ n, n)
    ((if decide (q = sp) then n_kids (λ k, k ∖ {[src]}) else λ n, n) n)) <$> nodes A !! q.
Proof using All.
  unfold taken. rewrite !upd_lookup. destruct (nodes A !! q); repeat case_decide; done.
Qed.

Lemma taken_kids q : kids_at taken q = kids_at A q ∖ (if decide (q = sp) then {[src]} else ∅).
Proof using All.
  unfold kids_at. rewrite taken_lookup. destruct (nodes A !! q) as [n|]; simpl; [|set_solver].
  repeat case_decide; simpl; set_solver.
Qed.

Lemma taken_not_kid q : src ∉ kids_at taken q.
Proof using All.
  rewrite taken_kids. intros [Hq Hn]%elem_of_difference. apply Hn.
  destruct (wf_kid_ok _ _ _ _ Hwf Hq) as (_ & e & _ & _ & He & Hp & _).
  apply child_at_alt in Hsrc as [Hk _].
  destruct (wf_kid_ok _ _ _ _ Hwf Hk) as (_ & e' & _ & _ & He' & Hp' & _).
  rewrite decide_True by congruence. set_solver.
Qed.

Lemma taken_name e : e ≠ src → name_at taken e = name_at A e.
Proof using All.
  intros He. unfold name_at. rewrite taken_lookup, decide_False by done.
  destruct (nodes A !! e); simpl; [by case_decide|done].
Qed.

Lemma taken_sub q e : e ∈ kids_at taken q → e ∈ kids_at A q ∧ name_at taken e = name_at A e.
Proof using All.
  intros He. assert (e ≠ src) as Hne by (intros ->; by apply (taken_not_kid q)).
  rewrite taken_kids in He. split; [set_solver|]. by apply taken_name.
Qed.

Lemma taken_names q : names_ok taken q.
Proof using All. eapply names_ok_sub; [by eapply (wf_names_ok A ∅ q)|]. apply taken_sub. Qed.

Lemma taken_child q nm e : child_at taken q nm e → child_at A q nm e ∧ e ≠ src.
Proof using All.
  rewrite !child_at_alt. intros [Hk E]. destruct (taken_sub q e Hk) as [? <-].
  split; [done|]. intros ->. by apply (taken_not_kid q).
Qed.

Lemma taken_keeps q nm e : child_at A q nm e → e ≠ src → child_at taken q nm e.
Proof using All.
  rewrite !child_at_alt. intros [Hk E] He. rewrite taken_name by done. split; [|done].
  rewrite taken_kids. case_decide; set_solver.
Qed.

Lemma taken_node q n : nodes A !! q = Some n → ∃ n', nodes taken !! q = Some n' ∧
  node_key n' = node_key n ∧ an_nlink n' = an_nlink n.
Proof using All.
  intros Hq. rewrite taken_lookup, Hq. eexists. split; [done|]. by repeat case_decide.
Qed.

Lemma taken_indexed q : indexed taken q ↔ indexed A q.
Proof using All.
  apply indexed_keys. intros c. rewrite taken_lookup.
  destruct (nodes A !! c); simpl; [|done]. by repeat case_decide.
Qed.

(** The first steps of the code. *)
Lemma take_run s r sn (changed : bool) :
  view s A (indexed A) r → nodes A !! sp = Some sn → sp ≠ src →
  changed = negb (bool_decide (dname = sname)) →
  ∃ s1 s2 old, children_delete sp src false s = Some (0, s1) ∧
    set_and_store_dentry_name src dname changed s1 = Some ((0, Some old), s2) ∧
    view s2 taken (indexed taken) r.
Proof using All.
  intros Hv Hsn Hne Hch. pose proof Hsrc as [Hk Hname]%child_at_alt.
  destruct (wf_kid_ok _ _ _ _ Hwf Hk) as (sn' & _ & Hsn' & Hdir & _).
  assert (sn' = sn) as -> by congruence.
  destruct (view_children_delete s A _ r sp src sn an Hv Hsn Hdir (wf_names_ok A ∅ sp Hwf) Han)
    with (b := false) as (s1 & Hrun1 & Hv1); [done|]. cbn zeta iota in Hv1.
  assert (nodes (upd_node sp (n_kids (λ k, k ∖ {[src]})) A) !! src = Some an) as Han1.
  { by rewrite upd_lookup, decide_False by done. }
  destruct (set_name_run s1 _ _ r src an dname changed Hv1 Han1) as (s2 & old & Hrun2 & Hv2).
  { intros ->. symmetry in Hch. apply negb_false_iff, bool_decide_eq_true in Hch as ->.
    unfold name_at in Hname. rewrite Han in Hname. by injection Hname. }
  exists s1, s2, old. split; [done|]. split; [done|]. eapply view_ext; [exact Hv2|].
  intros q. by rewrite taken_indexed.
Qed.
End detached.

(** ** Moving *)

Lemma upd_node_comm p q f g A :
  (∀ n, f (g n) = g (f n)) → upd_node p f (upd_node q g A) = upd_node q g (upd_node p f A).
Proof.
  intros Hc. apply atree_eq; try done. intros x. rewrite !upd_lookup.
  destruct (nodes A !! x); repeat case_decide; simpl; congruence.
Qed.

Lemma upd_add_count p f n k A : upd_node p f (add_count n k A) = add_count n k (upd_node p f A).
Proof. done. Qed.

Lemma upd_del_node p q f A :
  upd_node p f (del_node q A) = del_node q (upd_node p f A).
Proof.
  apply atree_eq; try done. intros x. simpl. rewrite !lookup_alter, !lookup_delete.
  repeat case_decide; subst; rewrite ?lookup_alter_eq, ?lookup_alter_ne by done; try done.
Qed.

(** Removing a dentry and changing another field of a node commute. *)
Lemma do_removed_upd c n A p f :
  (∀ k m, f (n_nlink k m) = n_nlink k (f m)) →
  (∀ m, node_key (f m) = node_key m ∧ an_nlink (f m) = an_nlink m) →
  do_removed c n (upd_node p f A) = upd_node p f (do_removed c n A).
Proof.
  intros Hf Hkey.
  assert (dropped c n (upd_node p f A) = upd_node p f (dropped c n A)) as E.
  2: { unfold do_removed. rewrite E. by destruct (is_freed n). }
  unfold dropped. destruct (an_link n); [destruct (an_src n) as [src|]|];
    try (by apply upd_node_comm; intros; rewrite Hf).
  rewrite upd_lookup. destruct (nodes A !! src) as [m|] eqn:Hm; [|by repeat case_decide].
  assert (∀ m', node_key m' = node_key m ∧ an_nlink m' = an_nlink m →
      src_removed src m' (upd_node p f A) = upd_node p f (src_removed src m A)) as Hgen;
    [|case_decide; simpl; apply Hgen; [apply Hkey|done]].
  intros m' [Ek En]. unfold src_removed. rewrite En, (add_count_key m m') by done.
  rewrite (upd_node_comm src p) by (intros; by rewrite Hf).
  destruct (an_nlink m =? 1); [by rewrite upd_del_node|done].
Qed.

Section move.
Context (A : ATree) (src sp dp : ptr) (an sn dn : ANode) (sname dname : string).
Context (Hwf : wf A ∅) (Hsrc : child_at A sp sname src).
Context (Han : nodes A !! src = Some an) (Hsn : nodes A !! sp = Some sn).
Context (Hdn : nodes A !! dp = Some dn) (Hdir : an_dir dn = true).
Context (Hanc : ¬ is_ancestor A src dp).

Let B := taken A src sp dname.

Lemma src_places : sp ≠ src ∧ dp ≠ src.
Proof using All.
  pose proof Hsrc as [Hk _]%child_at_alt.
  destruct (wf_kid_ok _ _ _ _ Hwf Hk) as (sn' & _ & Hsn' & Hsdir & _).
  assert (sn' = sn) as -> by congruence.
  assert (∀ p n, nodes A !! p = Some n → an_dir n = true → ¬ is_ancestor A src p → p ≠ src) as Hne.
  { intros p n Hp Hd Hno ->. apply Hno.
    destruct (w_chain _ _ Hwf _ _ Hp Hd ltac:(set_solver)) as [l Hl]. exists l. split; [done|].
    destruct l; simpl in Hl; [done|]. destruct Hl as [[= <-] _]. set_solver. }
  split; eapply Hne; eauto. by eapply kid_not_above.
Qed.

(** Into a place of its own. *)
Lemma move_free_eq :
  upd_node src (n_parent (Some dp))
    (if decide (dp = sp) then upd_node dp (n_kids (λ k, {[src]} ∪ k)) B
     else upd_node dp (n_nlink 1) (upd_node sp (n_nlink (-1))
       (upd_node dp (n_kids (λ k, {[src]} ∪ k)) B)))
  = move_spec src sp dp dname None A.
Proof using All.
  destruct src_places as [N1 N2]. unfold move_spec, B, taken, p_attach, p_place, p_detach.
  destruct (decide (dp = sp)) as [->|Hne].
  - apply atree_eq; [|done..]; intros q; simpl; place_cases q sp src sp sp; node_lookup; try done.
    all: place_eq.
  - apply atree_eq; [|done..]; intros q; simpl; place_cases q sp src dp dp; node_lookup; try done.
    all: place_eq.
Qed.

(** In the place of [o]. *)
Lemma move_over_eq o n :
  removable A o n → child_at A dp dname o → o ≠ src → an_kids n = ∅ → o ≠ sp →
  upd_node src (n_parent (Some dp)) (upd_node sp (n_nlink (-1))
    (let A1 := upd_node dp (n_kids (λ k, {[src]} ∪ k ∖ {[o]})) (do_removed o n B) in
     if is_freed n then del_node o A1 else A1))
  = move_spec src sp dp dname (Some o) A.
Proof using All.
  intros Hr Ho Hos Hk Hosp. destruct src_places as [N1 N2].
  assert (o ≠ dp) as Hod.
  { intros ->. apply child_at_alt in Ho as [Hin _].
    rewrite (kids_at_eq _ _ _ (rm_node _ _ _ Hr)), Hk in Hin. set_solver. }
  unfold move_spec. rewrite <- (remove_steps_eq A o dp n dn Hr Hdn Hdir Hod Hk).
  unfold B, taken. rewrite !do_removed_upd by done. set (D := do_removed o n A).
  unfold p_attach, p_place, p_detach.
  destruct (decide (dp = sp)) as [->|Hne]; destruct (is_freed n);
    (apply atree_eq; [|done..]); intros q; simpl.
  1-2: place_cases q o sp src sp; node_lookup; try done; place_eq.
  all: place_cases q o sp src dp; node_lookup; try done; place_eq.
Qed.

Lemma move_keys ow :
  same_keys (match ow with Some o => remove_spec o dp A | None => A end)
    (move_spec src sp dp dname ow A).
Proof using All.
  unfold move_spec. set (X := match ow with Some _ => _ | None => _ end).
  eapply same_keys_trans; [|apply same_shape_keys, attach_shape].
  eapply same_keys_trans; [|by apply same_keys_upd].
  apply same_shape_keys, detach_shape.
Qed.

Lemma move_finish_run s T I r m :
  view s T I r → nodes T !! src = Some m →
  ∃ s', (update_dentry_at src (with_d_parent (Some dp));;
         sd ← load_dentry src; modify_rec (with_r_inode (d_inode sd));; mret 0) s = Some (0, s') ∧
    view s' (upd_node src (n_parent (Some dp)) T) I (with_r_inode (an_inode m) r).
Proof using All.
  intros Hv Hm. destruct (view_set_parent s T I r src m (Some dp) Hv Hm) as (s1 & Hrun1 & Hv1).
  assert (nodes (upd_node src (n_parent (Some dp)) T) !! src = Some (n_parent (Some dp) m)) as Hm1.
  { by rewrite upd_lookup, decide_True, Hm. }
  destruct (view_live _ _ _ _ Hv1 _ _ Hm1) as (d & [Hd _] & Ed).
  destruct (view_record s1 _ _ _ (with_r_inode (d_inode d)) Hv1) as (s2 & Hrun2 & Hv2).
  exists s2. split; [run_with Hrun1; sstep; by run_with Hrun2|].
  assert (d_inode d = an_inode m) as <- by exact (f_equal an_inode Ed). exact Hv2.
Qed.

Lemma B_src : nodes B !! src = Some (n_name dname an).
Proof using All.
  destruct src_places as [N1 N2]. unfold B. rewrite (taken_lookup A src sp an sname dname) by done.
  rewrite Han. simpl. by rewrite decide_True, decide_False by done.
Qed.

Lemma B_dir p n : nodes A !! p = Some n → p ≠ src → ∃ n', nodes B !! p = Some n' ∧
  an_dir n' = an_dir n ∧ an_nlink n' = an_nlink n.
Proof using All.
  intros Hp Hne. destruct (taken_node A src sp an sname dname Hwf Hsrc Han p n Hp)
    as (n' & Hn' & [= _ E _ _] & E2). by exists n'.
Qed.

(** To a free name. *)
Lemma move_free_run s r :
  view s B (indexed B) r → (∀ e, ¬ child_at A dp dname e) → (dp ≠ sp → an_nlink dn < 2 ^ 31 - 1) →
  ∃ s1 s2, children_insert dp src s = Some (0, s1) ∧
    (if decide (dp = sp) then mret () else dec_nlink sp;; inc_nlink dp) s1 = Some ((), s2) ∧
    view s2 (if decide (dp = sp) then upd_node dp (n_kids (λ k, {[src]} ∪ k)) B
      else upd_node dp (n_nlink 1) (upd_node sp (n_nlink (-1))
        (upd_node dp (n_kids (λ k, {[src]} ∪ k)) B))) (indexed B) r.
Proof using All.
  intros Hv Hfree Hroom. destruct src_places as [N1 N2].
  destruct (B_dir dp dn Hdn N2) as (dn' & Hdn' & Ed & El).
  destruct (B_dir sp sn Hsn N1) as (sn' & Hsn' & _ & Esl).
  destruct (view_children_insert s B _ r dp src dn' (n_name dname an) Hv Hdn') as (s1 & Hrun1 & Hv1).
  { congruence. }
  { by eapply taken_names. }
  { exact B_src. }
  { intros e He. apply (taken_child A src sp an sname dname) in He as [He _]; try done.
    by apply (Hfree e). }
  exists s1. destruct (decide (dp = sp)) as [E|E].
  - exists s1. done.
  - destruct (view_dec s1 _ _ _ sp sn' Hv1) as (s2 & Hrun2 & Hv2).
    { by rewrite upd_lookup, decide_False by done. }
    { rewrite Esl. by apply (w_live _ _ Hwf _ _ Hsn). }
    destruct (view_inc s2 _ _ _ dp (n_kids (λ k, {[src]} ∪ k) dn') Hv2) as (s3 & Hrun3 & Hv3).
    { rewrite !upd_lookup, decide_False, decide_True, Hdn' by done. done. }
    { simpl. rewrite El. auto. }
    exists s3. split; [done|]. split; [by run_with Hrun2|done].
Qed.

Lemma removable_taken o n : removable A o n → o ≠ src → o ≠ sp → removable B o n.
Proof using All.
  intros [Hn Hpos Hlk Hd] Hos Hop. unfold B. split; try done.
  - rewrite (taken_lookup A src sp an sname dname) by done. rewrite Hn. simpl.
    by rewrite !decide_False by done.
  - intros El. destruct (Hlk El) as (E1 & x & m & Ex & Hm & Hlm & Hpm & Hne & Hdm & Hno).
    split; [done|].
    destruct (taken_node A src sp an sname dname Hwf Hsrc Han x m Hm)
      as (m' & Hm' & [= _ K1 K2 _] & K3).
    exists x, m'. split_and!; try done; try congruence; try lia.
    intros E p Hp. apply (taken_sub A src sp an sname dname) in Hp as [Hp _]; try done.
    apply (Hno ltac:(congruence) p Hp).
Qed.

Lemma gone_taken o n q : gone B o n q ↔ gone A o n q.
Proof using All.
  unfold gone. do 2 f_equiv. f_equiv. unfold B.
  rewrite (taken_lookup A src sp an sname dname) by done. destruct (nodes A !! q) as [m|]; simpl.
  - split; intros (m' & [= <-] & E); eexists; (split; [done|]); revert E; by repeat case_decide.
  - split; by intros (m' & ? & _).
Qed.

(** Over [o]. *)
Lemma move_over_run s r thread o n :
  view s B (indexed B) r → removable A o n → child_at A dp dname o → o ≠ src → an_kids n = ∅ →
  o ≠ sp →
  let T := upd_node sp (n_nlink (-1))
      (let A1 := upd_node dp (n_kids (λ k, {[src]} ∪ k ∖ {[o]})) (do_removed o n B) in
       if is_freed n then del_node o A1 else A1) in
  ∃ s1 s2 l m, move_place thread dp src (Some o) s = Some (0, s1) ∧
    dec_nlink sp s1 = Some ((), s2) ∧
    view s2 T (λ q, indexed A q ∧ ¬ gone A o n q) (with_r_affected l r) ∧
    nodes T !! src = Some m ∧ an_inode m = an_inode an.
Proof using All.
  intros Hv Hr Ho Hos Hk Hosp T. destruct src_places as [N1 N2].
  pose proof (removable_taken o n Hr Hos Hosp) as HrB.
  assert (o ≠ dp) as Hod.
  { intros ->. apply child_at_alt in Ho as [Hin _].
    rewrite (kids_at_eq _ _ _ (rm_node _ _ _ Hr)), Hk in Hin. set_solver. }
  destruct (do_remove_run s B _ r thread o n Hv HrB (λ _, iff_refl _)) as (s1 & l & Hrun1 & Hv1).
  destruct (B_dir dp dn Hdn N2) as (dn' & Hdn' & Ed & El).
  destruct (B_dir sp sn Hsn N1) as (sn' & Hsn' & Esd & Esl).
  destruct (do_removed_dir B o n dp dn' HrB Hdn' ltac:(congruence) Hod) as (Hdn1 & Hsame & k & Ho1).
  pose proof Hsrc as [Hks _]%child_at_alt.
  destruct (wf_kid_ok _ _ _ _ Hwf Hks) as (sn'' & _ & Hsn'' & Hsdir & _).
  destruct (do_removed_dir B o n sp sn' HrB Hsn' ltac:(congruence) Hosp) as (Hsn1 & _ & _).
  assert (∃ m, nodes (do_removed o n B) !! src = Some m ∧ an_name m = dname ∧
    an_inode m = an_inode an) as (m & Hm & Em & Eim).
  { pose proof (kid_attached _ _ _ _ Hwf Hks) as Hatt.
    destruct (do_removed_lookup B o n src HrB) as [[(E1 & E2 & x & Hx & E3) _]|(_ & j & _ & E)].
    - destruct (rm_link _ _ _ Hr E1) as (_ & y & my & Ey & Hy & _ & _ & _ & _ & Hno).
      assert (y = src) as -> by congruence. rewrite B_src in Hx. injection Hx as <-.
      destruct (Hno ltac:(simpl in E3; congruence) sp Hks).
    - rewrite B_src in E. eexists. by split. }
  assert (o ∈ kids_at B dp) as HoB.
  { pose proof (taken_keeps A src sp an sname dname Hwf Hsrc Han dp dname o Ho Hos) as E.
    by apply child_at_alt in E as [? _]. }
  destruct (view_children_replace s1 _ _ _ dp src dn' m Hv1 Hdn1) with (b := is_freed n)
    (q := o) (m := n_nlink k n) as (s2 & Hrun2 & Hv2); try done.
  { congruence. }
  { eapply same_dir_names; [done|]. by eapply taken_names. }
  { rewrite (proj1 Hsame). by eapply taken_not_kid. }
  { by rewrite (proj1 Hsame). }
  { rewrite Em. destruct Ho as (? & e & _ & _ & He & Ee). simpl.
    pose proof (rm_node _ _ _ Hr). congruence. }
  destruct (view_dec s2 _ _ _ sp (if decide (sp = dp) then n_kids (λ k, {[src]} ∪ k ∖ {[o]}) sn'
    else sn') Hv2) as (s3 & Hrun3 & Hv3).
  { assert (nodes (upd_node dp (n_kids (λ k, {[src]} ∪ k ∖ {[o]})) (do_removed o n B)) !! sp =
      Some (if decide (sp = dp) then n_kids (λ k, {[src]} ∪ k ∖ {[o]}) sn' else sn')) as E.
    { rewrite upd_lookup, Hsn1. by case_decide. }
    cbn zeta. destruct (is_freed n); [|done]. simpl. rewrite lookup_delete_ne by done. exact E. }
  { assert (0 < an_nlink sn'); [|by case_decide]. rewrite Esl. by apply (w_live _ _ Hwf _ _ Hsn). }
  exists s2, s3, l, m. split; [|split; [done|split; [|split; [|done]]]].
  - unfold move_place. run_with Hrun1. cbn beta iota. cbn [Z.eqb]. exact Hrun2.
  - eapply view_ext; [exact Hv3|]. intros q. cbn beta. rewrite gone_taken. unfold B.
    by rewrite (taken_indexed A src sp an sname dname).
  - unfold T. rewrite upd_lookup, decide_False by done. cbn zeta.
    destruct (is_freed n); simpl; node_lookup; exact Hm.
Qed.

Lemma move_indexed dest q :
  match dest with
  | Some o => ∃ n, removable A o n ∧ an_kids n = ∅ ∧ child_at A dp dname o
  | None => True
  end →
  indexed (move_spec src sp dp dname dest A) q ↔
    indexed A q ∧ match dest with
                  | Some o => ∀ n, nodes A !! o = Some n → ¬ gone A o n q
                  | None => True
                  end.
Proof using All.
  intros Hdest. rewrite (indexed_keys _ _ q (move_keys dest)).
  destruct dest as [o|]; [|tauto]. destruct Hdest as (n & Hr & Hk & Ho).
  assert (o ≠ dp) as Hod.
  { intros ->. apply child_at_alt in Ho as [Hin _].
    rewrite (kids_at_eq _ _ _ (rm_node _ _ _ Hr)), Hk in Hin. set_solver. }
  rewrite (remove_indexed A o dp n dn q Hr Hdn Hdir Hod Hk). pose proof (rm_node _ _ _ Hr).
  split; intros [K1 K2]; (split; [done|]); [intros; by simplify_eq|by apply K2].
Qed.

(** [move_steps] and [move_dentry], after the checks. *)
Lemma move_steps_run s r thread dest (changed : bool) old s2 :
  set_and_store_dentry_name src dname changed s = Some ((0, Some old), s2) →
  view s2 B (indexed B) r → (dp ≠ sp → an_nlink dn < 2 ^ 31 - 1) →
  match dest with
  | Some o => child_at A dp dname o ∧ kids_at A o = ∅ ∧ o ≠ src
  | None => ∀ e, ¬ child_at A dp dname e
  end →
  ∃ s' r', move_steps thread sp src dp dest dname changed s = Some (0, s') ∧
    view s' (move_spec src sp dp dname dest A) (indexed (move_spec src sp dp dname dest A)) r' ∧
    r_inode r' = an_inode an.
Proof using All.
  intros Hrun2 Hv2 Hroom Hdest. destruct src_places as [N1 N2].
  destruct (view_record s2 B _ r (with_r_overwritten dest) Hv2) as (s3 & Hrun3 & Hv3).
  unfold move_steps. run_with Hrun2. cbn beta iota. cbn [Z.eqb negb]. run_with Hrun3.
  destruct dest as [o|].
  - destruct Hdest as (Ho & Hk & Hos). pose proof Ho as [Hok _]%child_at_alt.
    pose proof Ho as (_ & n & _ & _ & Hn & _). rewrite (kids_at_eq _ _ _ Hn) in Hk.
    pose proof (kid_removable A dp o n Hwf Hn Hok Hk) as Hr.
    assert (o ≠ sp) as Hosp.
    { intros ->. pose proof Hsrc as [Hks _]%child_at_alt. rewrite (kids_at_eq _ _ _ Hn), Hk in Hks.
      set_solver. }
    destruct (move_over_run s3 _ thread o n Hv3 Hr Ho Hos Hk Hosp)
      as (s4 & s5 & l & m & Hrun4 & Hrun5 & Hv5 & Hm & Em).
    run_with Hrun4. cbn [Z.eqb negb]. run_with Hrun5.
    destruct (move_finish_run s5 _ _ _ m Hv5 Hm) as (s6 & Hrun6 & Hv6).
    rewrite (move_over_eq o n Hr Ho Hos Hk Hosp) in Hv6.
    exists s6, (with_r_inode (an_inode m)
      (with_r_affected l (with_r_overwritten (Some o) r))). split; [exact Hrun6|].
    split; [|exact Em].
    eapply view_ext; [exact Hv6|]. intros q. rewrite (move_indexed (Some o)) by eauto.
    cbn beta. split; intros [K1 K2]; (split; [done|]); [intros; by simplify_eq|by apply K2].
  - destruct (move_free_run s3 _ Hv3 Hdest Hroom) as (s4 & s5 & Hrun4 & Hrun5 & Hv5).
    unfold move_place. run_with Hrun4. cbn [Z.eqb negb]. run_with Hrun5.
    set (T := if decide (dp = sp) then _ else _) in Hv5.
    assert (nodes T !! src = Some (n_name dname an)) as Hm.
    { unfold T. destruct (decide (dp = sp)); rewrite !upd_lookup, !(decide_False (P := src = _))
        by congruence; exact B_src. }
    destruct (move_finish_run s5 T _ _ _ Hv5 Hm) as (s6 & Hrun6 & Hv6).
    unfold T in Hv6. rewrite move_free_eq in Hv6.
    exists s6, (with_r_inode (an_inode an) (with_r_overwritten None r)).
    split; [exact Hrun6|]. split; [|done].
    eapply view_ext; [exact Hv6|]. intros q. rewrite (move_indexed None) by done. unfold B.
    rewrite (taken_indexed A src sp an sname dname) by done. tauto.
Qed.

Lemma move_run s r thread dest :
  view s A (indexed A) r → re_parent (r_src r) = Some sp → re_dentry (r_src r) = Some src →
  re_pname (r_src r) = sname → re_parent (r_me r) = Some dp → re_dentry (r_me r) = dest →
  re_pname (r_me r) = dname → (dp ≠ sp → an_nlink dn < 2 ^ 31 - 1) →
  match dest with
  | Some o => child_at A dp dname o ∧ kids_at A o = ∅ ∧ o ≠ src
  | None => ∀ e, ¬ child_at A dp dname e
  end →
  ∃ s' r', move_dentry thread (negb (bool_decide (dname = sname))) s = Some (0, s') ∧
    view s' (move_spec src sp dp dname dest A) (indexed (move_spec src sp dp dname dest A)) r' ∧
    r_inode r' = an_inode an.
Proof using All.
  intros Hv F1 F2 F3 F4 F5 F6 Hroom Hdest. destruct src_places as [N1 N2].
  destruct (take_run A src sp an sname dname Hwf Hsrc Han s r sn _ Hv Hsn N1 eq_refl)
    as (s1 & s2 & old & Hrun1 & Hrun2 & Hv2). fold B in Hv2.
  destruct (move_steps_run s1 r thread dest _ old s2 Hrun2 Hv2 Hroom Hdest)
    as (s3 & r3 & Hrun3 & Hv3 & Er3).
  exists s3, r3. split; [|done].
  unfold move_dentry. sstep. rewrite (v_record _ _ _ _ Hv), F1, F2, F4, F5, F6. do 3 sstep.
  run_with Hrun1. cbn [Z.eqb negb]. run_with Hrun3. done.
Qed.
End move.

(** ** Exchanging *)

Lemma same_name A p c1 c2 nm :
  wf A ∅ → child_at A p nm c1 → child_at A p nm c2 → c1 = c2.
Proof.
  rewrite !child_at_alt. intros Hwf [K1 E1] [K2 E2].
  destruct (wf_names_ok A ∅ p Hwf) as [_ Hinj]. apply Hinj; congruence.
Qed.

Section exchange.
Context (A : ATree) (src sp dest dp : ptr) (an bn sn dn : ANode) (sname dname : string).
Context (Hwf : wf A ∅) (Hsrc : child_at A sp sname src) (Hdest : child_at A dp dname dest).
Context (Hne : src ≠ dest).
Context (Han : nodes A !! src = Some an) (Hbn : nodes A !! dest = Some bn).
Context (Hsn : nodes A !! sp = Some sn) (Hdn : nodes A !! dp = Some dn).
Context (Hanc1 : ¬ is_ancestor A src dp) (Hanc2 : ¬ is_ancestor A dest sp).

Let B := taken A src sp dname.
Let C := upd_node dp (n_kids (λ k, {[src]} ∪ k ∖ {[dest]})) B.
Let D := upd_node dest (n_name sname) C.
Let E := upd_node sp (n_kids (λ k, {[dest]} ∪ k)) D.

Lemma exchange_places :
  sp ≠ src ∧ dp ≠ src ∧ sp ≠ dest ∧ dp ≠ dest ∧ an_dir sn = true ∧ an_dir dn = true ∧
  an_name an = sname ∧ an_name bn = dname.
Proof using All.
  pose proof Hsrc as [Hk E1]%child_at_alt. pose proof Hdest as [Hkd E2]%child_at_alt.
  destruct (wf_kid_ok _ _ _ _ Hwf Hk) as (sn' & _ & Hsn' & Hsd & _).
  destruct (wf_kid_ok _ _ _ _ Hwf Hkd) as (dn' & _ & Hdn' & Hdd & _).
  assert (sn' = sn) as -> by congruence. assert (dn' = dn) as -> by congruence.
  destruct (src_places A src sp dp an sn dn sname dname Hwf Hsrc Han Hsn Hdn Hdd Hanc1).
  destruct (src_places A dest dp sp bn dn sn dname sname Hwf Hdest Hbn Hdn Hsn Hsd Hanc2).
  unfold name_at in *. rewrite Han in E1. rewrite Hbn in E2. injection E1 as E1. injection E2 as E2.
  by split_and!.
Qed.

Lemma exchange_eq :
  upd_node dest (n_parent (Some sp)) (upd_node src (n_parent (Some dp)) E)
  = exchange_spec src sp dest dp sname dname A.
Proof using All.
  destruct exchange_places as (N1 & N2 & N3 & N4 & _). unfold E, D, C, B, taken, exchange_spec.
  unfold p_attach, p_place, p_detach.
  destruct (decide (dp = sp)) as [->|Hdp]; (apply atree_eq; [|done..]); intros q; simpl.
  - place_cases q src dest sp sp; node_lookup; try done; place_eq.
  - place_cases q src dest sp dp; node_lookup; try done; place_eq.
Qed.

Lemma D_child c : c ∈ kids_at D sp →
  (c = src ∧ sp = dp ∧ name_at D c = Some dname) ∨
  (c ≠ src ∧ c ≠ dest ∧ c ∈ kids_at A sp ∧ name_at D c = name_at A c).
Proof using All.
  destruct exchange_places as (N1 & N2 & N3 & N4 & _). intros Hc.
  assert (nodes B !! src = Some (n_name dname an)) as HB.
  { unfold B. rewrite (taken_lookup A src sp an sname dname) by done. rewrite Han. simpl.
    by rewrite decide_True, decide_False by done. }
  assert (∀ q, kids_at D q = if decide (q = dp) then {[src]} ∪ kids_at B q ∖ {[dest]}
    else kids_at B q) as Hkids.
  { intros q. unfold D, C, kids_at. rewrite !upd_lookup.
    destruct (decide (q = dp)) as [->|].
    - rewrite decide_False by done.
      destruct (B_dir A src sp dp an sn dn sname dname Hwf Hsrc Han Hsn Hdn) with (p := dp) (n := dn)
        as (dn' & Hdn' & _); try done; [by apply exchange_places|].
      fold B in Hdn'. by rewrite Hdn'.
    - destruct (nodes B !! q) as [x|]; case_decide; done. }
  assert (∀ e, name_at D e = if decide (e = dest) then Some sname
    else if decide (e = src) then Some dname else name_at A e) as Hname.
  { intros e. unfold D, C, name_at. rewrite !upd_lookup. destruct (decide (e = dest)) as [->|].
    - unfold B. rewrite decide_False by done.
      rewrite (taken_lookup A src sp an sname dname) by done. by rewrite Hbn.
    - destruct (decide (e = src)) as [->|].
      + rewrite decide_False by done. by rewrite HB.
      + pose proof (taken_name A src sp an sname dname Hwf Hsrc Han e ltac:(done)) as Et.
        unfold name_at in Et. rewrite <- Et. fold B. case_decide; by destruct (nodes B !! e). }
  pose proof Hdest as [Hkd _]%child_at_alt.
  assert (c ∈ kids_at B sp → c ≠ src ∧ c ∈ kids_at A sp) as Hsub.
  { intros Hin. split; [intros ->; by apply (taken_not_kid A src sp an sname dname Hwf Hsrc Han) in Hin|].
    by apply (taken_sub A src sp an sname dname Hwf Hsrc Han) in Hin as [? _]. }
  rewrite Hkids in Hc. rewrite Hname. destruct (decide (sp = dp)) as [Esp|Esp].
  - destruct (decide (c = src)) as [->|Hcs].
    + left. by rewrite decide_False by done.
    + right. assert (c ∈ kids_at B sp ∧ c ≠ dest) as [Hin Hcd] by set_solver.
      rewrite decide_False by done. by destruct (Hsub Hin).
  - right. destruct (Hsub Hc) as [Hcs Hin]. assert (c ≠ dest) as Hcd.
    { intros ->. destruct (wf_kid_ok _ _ _ _ Hwf Hin) as (_ & e1 & _ & _ & He1 & Hp1 & _).
      destruct (wf_kid_ok _ _ _ _ Hwf Hkd) as (_ & e2 & _ & _ & He2 & Hp2 & _). congruence. }
    by rewrite !decide_False by done.
Qed.

Lemma D_names : names_ok D sp.
Proof using All.
  split.
  - intros c Hc. rewrite name_at_Some. destruct (D_child c Hc) as [(_ & _ & ->)|(_ & _ & Hin & ->)];
      [eauto|]. rewrite <- name_at_Some. by apply (wf_names_ok A ∅ sp Hwf).
  - intros c1 c2 H1' H2' En.
    destruct (D_child c1 H1') as [(-> & Esp & E1)|(N1 & M1 & K1 & E1)],
      (D_child c2 H2') as [(-> & Esp' & E2)|(N2 & M2 & K2 & E2)]; try done.
    + destruct M2. apply (same_name A dp c2 dest dname Hwf); [|done]. rewrite child_at_alt, <- Esp.
      split; [done|congruence].
    + destruct M1. apply (same_name A dp c1 dest dname Hwf); [|done]. rewrite child_at_alt, <- Esp'.
      split; [done|congruence].
    + apply (wf_names_ok A ∅ sp Hwf); congruence.
Qed.

Lemma D_free e : ¬ child_at D sp sname e.
Proof using All.
  rewrite child_at_alt. intros [Hk En]. destruct (D_child e Hk) as [(-> & Esp & E1)|(N1 & M1 & K1 & E1)].
  - destruct Hne. apply (same_name A dp src dest dname Hwf); [|done]. rewrite <- Esp.
    replace dname with sname by congruence. done.
  - destruct N1. apply (same_name A sp e src sname Hwf); [|done]. rewrite child_at_alt.
    split; [done|congruence].
Qed.

Lemma exchange_keys : same_keys A (exchange_spec src sp dest dp sname dname A).
Proof using Type.
  clear. unfold exchange_spec.
  do 2 (eapply same_keys_trans; [|apply same_shape_keys, attach_shape];
        eapply same_keys_trans; [|unfold p_place; by apply same_keys_upd]).
  eapply same_keys_trans; [|apply same_shape_keys, detach_shape].
  apply same_shape_keys, detach_shape.
Qed.

Lemma exchange_steps_run s r (changed : bool) old s2 :
  set_and_store_dentry_name src dname changed s = Some ((0, Some old), s2) →
  view s2 B (indexed B) r → changed = negb (bool_decide (dname = sname)) →
  ∃ s' r', exchange_steps sp src dp dest sname dname changed s = Some ((0, Some old), s') ∧
    view s' (exchange_spec src sp dest dp sname dname A)
      (indexed (exchange_spec src sp dest dp sname dname A)) r' ∧ r_inode r' = an_inode an.
Proof using All.
  intros Hrun2 Hv2 Hch. destruct exchange_places as (N1 & N2 & N3 & N4 & D1 & D2 & Ean & Ebn).
  pose proof (B_src A src sp dp an sn dn sname dname Hwf Hsrc Han Hsn Hdn D2 Hanc1) as HBs.
  destruct (B_dir A src sp dp an sn dn sname dname Hwf Hsrc Han Hsn Hdn D2 Hanc1 dp dn Hdn N2)
    as (dn' & Hdn' & Ed & _).
  destruct (B_dir A src sp dp an sn dn sname dname Hwf Hsrc Han Hsn Hdn D2 Hanc1 sp sn Hsn N1)
    as (sn' & Hsn' & Es & _).
  fold B in HBs, Hdn', Hsn'.
  assert (nodes B !! dest = Some bn) as HBd.
  { unfold B. rewrite (taken_lookup A src sp an sname dname) by done. rewrite Hbn. simpl.
    by rewrite !decide_False by done. }
  destruct (view_children_replace s2 B _ r dp src dn' _ Hv2 Hdn' ltac:(congruence)
    (taken_names A src sp an sname dname Hwf Hsrc Han dp) HBs false dest bn)
    as (s3 & Hrun3 & Hv3); try done.
  { by eapply taken_not_kid. }
  { pose proof (taken_keeps A src sp an sname dname Hwf Hsrc Han dp dname dest Hdest ltac:(done)) as K.
    by apply child_at_alt in K as [? _]. }
  cbn zeta iota in Hv3. fold C in Hv3.
  assert (nodes C !! dest = Some bn) as HCd.
  { unfold C. by rewrite upd_lookup, decide_False by done. }
  destruct (set_name_run s3 C _ r dest bn sname changed Hv3 HCd) as (s4 & old' & Hrun4 & Hv4).
  { intros ->. symmetry in Hch. apply negb_false_iff, bool_decide_eq_true in Hch. congruence. }
  fold D in Hv4.
  assert (nodes D !! dest = Some (n_name sname bn)) as HDd.
  { unfold D. by rewrite upd_lookup, decide_True, HCd. }
  assert (∃ x, nodes D !! sp = Some x ∧ an_dir x = true) as (x & Hx & Ex).
  { unfold D, C. rewrite !upd_lookup, (decide_False (P := sp = dest)), Hsn' by done.
    destruct (decide (sp = dp)); eexists; (split; [reflexivity|]); simpl; congruence. }
  destruct (view_children_insert s4 D _ r sp dest x _ Hv4 Hx Ex D_names HDd D_free)
    as (s5 & Hrun5 & Hv5). fold E in Hv5.
  assert (∃ y, nodes E !! src = Some y ∧ an_inode y = an_inode an) as (y & Hy & Ey).
  { unfold E, D, C. rewrite !upd_lookup, HBs. rewrite !(decide_False (P := src = _)) by congruence.
    by eexists. }
  destruct (view_set_parent s5 E _ r src y (Some dp) Hv5 Hy) as (s6 & Hrun6 & Hv6).
  assert (∃ z, nodes E !! dest = Some z) as [z Hz].
  { unfold E. rewrite upd_lookup, HDd. destruct (decide _); eexists; reflexivity. }
  destruct (view_set_parent s6 _ _ r dest z (Some sp) Hv6) as (s7 & Hrun7 & Hv7).
  { by rewrite upd_lookup, decide_False by done. }
  assert (nodes (upd_node dest (n_parent (Some sp)) (upd_node src (n_parent (Some dp)) E)) !! src
    = Some (n_parent (Some dp) y)) as Hy7.
  { by rewrite !upd_lookup, decide_False, decide_True, Hy by done. }
  destruct (view_live _ _ _ _ Hv7 _ _ Hy7) as (d & [Hd _] & Ed7).
  destruct (view_record s7 _ _ r (with_r_inode (d_inode d)) Hv7) as (s8 & Hrun8 & Hv8).
  exists s8, (with_r_inode (d_inode d) r). split; [|split].
  - unfold exchange_steps. run_with Hrun2. cbn beta iota. cbn [Z.eqb negb]. run_with Hrun3.
    cbn [Z.eqb negb]. run_with Hrun4. cbn beta iota. cbn [Z.eqb negb]. run_with Hrun5. cbn [Z.eqb negb].
    run_with Hrun6. run_with Hrun7. sstep. by run_with Hrun8.
  - rewrite exchange_eq in Hv8. eapply view_ext; [exact Hv8|]. intros q. unfold B.
    rewrite (taken_indexed A src sp an sname dname) by done. symmetry. apply indexed_keys.
    apply exchange_keys.
  - simpl. rewrite <- Ey. exact (f_equal an_inode Ed7).
Qed.

(** [exchange_dentry], after the checks. *)
Lemma exchange_run s r :
  view s A (indexed A) r → re_parent (r_src r) = Some sp → re_dentry (r_src r) = Some src →
  re_pname (r_src r) = sname → re_parent (r_me r) = Some dp → re_dentry (r_me r) = Some dest →
  re_pname (r_me r) = dname →
  ∃ s' r', exchange_dentry (negb (bool_decide (dname = sname))) s = Some (0, s') ∧
    view s' (exchange_spec src sp dest dp sname dname A)
      (indexed (exchange_spec src sp dest dp sname dname A)) r' ∧ r_inode r' = an_inode an.
Proof using All.
  intros Hv F1 F2 F3 F4 F5 F6. destruct exchange_places as (N1 & _).
  destruct (take_run A src sp an sname dname Hwf Hsrc Han s r sn _ Hv Hsn N1 eq_refl)
    as (s1 & s2 & old & Hrun1 & Hrun2 & Hv2). fold B in Hv2.
  destruct (exchange_steps_run s1 r _ old s2 Hrun2 Hv2 eq_refl) as (s3 & r3 & Hrun3 & Hv3 & Er3).
  exists s3, r3. split; [|done].
  unfold exchange_dentry. sstep. rewrite (v_record _ _ _ _ Hv), F1, F2, F3, F4, F5, F6. do 4 sstep.
  run_with Hrun1. cbn [Z.eqb negb]. run_with Hrun3. done.
Qed.
End exchange.

(** [C1] [dentry_rename] refuses a request only for one of the reasons of
    [rename_refused] - the directory or the source is missing, the target is
    there and must not be, is of another kind or not empty, both are the same
    dentry, or a directory would get below itself - and then changes nothing.
    Otherwise it moves the source, which takes the target's place, or exchanges
    the two: afterwards the new name leads to the source, with an exchange the
    old name to the target, and every other name to what it led to. The server
    stays well formed: the directories still form a tree. *)
Theorem dentry_rename_spec s thread sp dp sn dn :
  STORAGE_ENABLED = false → tree_ok s →
  re_parent (r_src (record s)) = Some sp → re_parent (r_me (record s)) = Some dp →
  nodes (abs s) !! sp = Some sn → nodes (abs s) !! dp = Some dn →
  an_ns sn = an_ns dn → an_nlink dn < 2 ^ 31 - 1 →
  let A := abs s in
  let r := record s in
  let sname := re_pname (r_src r) in
  let dname := re_pname (r_me r) in
  ∃ rc s', dentry_rename thread s = Some (rc, s') ∧ tree_ok s' ∧
    ((rename_refused A (kind_at s) r sp sname dp dname rc ∧ abs s' = A) ∨
     ∃ a an dest, rc = 0 ∧ child_at A sp sname a ∧ nodes A !! a = Some an ∧
       target_ok A (kind_at s) r a dp dname dest ∧ dest ≠ Some a ∧
       r_inode (record s') = an_inode an ∧
       match exchanging r, dest with
       | true, Some b => abs s' = exchange_spec a sp b dp sname dname A ∧
           ∀ q nm e, child_at (abs s') q nm e ↔
             (q = dp ∧ nm = dname ∧ e = a) ∨ (q = sp ∧ nm = sname ∧ e = b) ∨
             (child_at A q nm e ∧ e ≠ a ∧ e ≠ b)
       | true, None => False
       | false, _ => abs s' = move_spec a sp dp dname dest A ∧
           ∀ q nm e, child_at (abs s') q nm e ↔
             (q = dp ∧ nm = dname ∧ e = a) ∨ (child_at A q nm e ∧ e ≠ a ∧ Some e ≠ dest)
       end).
Proof.
  intros Hst [Hwf Hv] Hsp Hdp Hsn Hdn Hns Hroom A r sname dname. fold A in Hwf, Hv, Hsn, Hdn.
  fold r in Hv, Hsp, Hdp. unfold dentry_rename.
  destruct (rename_check_run s r A thread sp dp sn dn Hst Hv Hwf Hsp Hdp Hsn Hdn)
    as (rc & s1 & Hrun1 & Ed1 & [(Hrc & Href & r1 & Hv1)|(a & dest & -> & Hv1 & Ha & Hdir & Htgt)]).
  { destruct (view_tree_ok _ _ _ _ Hv1 Hwf (λ _, iff_refl _)) as (Hok1 & EA1 & _).
    exists rc, s1. split; [|split; [done|by left]]. run_with Hrun1.
    by replace (rc =? 0) with false by (symmetry; by apply Z.eqb_neq). }
  destruct (view_tree_ok _ _ _ _ Hv1 Hwf (λ _, iff_refl _)) as (Hok1 & EA1 & Er1).
  run_with Hrun1. cbn [Z.eqb negb]. sstep. rewrite Er1.
  cbn [found_rec with_r_me with_r_src r_me r_src re_dentry re_parent re_pname with_re_dentry r_flags].
  destruct (decide (dest = Some a)) as [->|Hda].
  { exists EEXIST, s1. split; [done|]. split; [done|]. left. split; [|done].
    destruct Htgt as [Hb _]. by eapply rr_same. }
  sstep. rewrite Hsp, Hdp.
  destruct (loop_check_run s r A thread sp dp sn dn Hst Hv Hwf Hsp Hdp Hsn Hdn s1 _ a dest Hv1 Ha Hdir)
    as (b & Hrun2 & Hloop).
  { destruct dest; apply Htgt. }
  erewrite bind_run; [|exact Hrun2]. cbn beta. destruct b.
  { exists ELOOP, s1. split; [done|]. split; [done|]. by left. }
  destruct Hloop as [Hanc Hanc2]. cbn iota. fold sname dname.
  change (has_bit (r_flags r) RENAME_EXCHANGE) with (exchanging r).
  pose proof Ha as (_ & an & _ & _ & Han & _).
  destruct (exchanging r) eqn:Ex.
  - destruct dest as [b|]; [|destruct Htgt; congruence].
    pose proof Htgt as [Hb _]. pose proof Hb as (_ & bn & _ & _ & Hbn & _).
    assert (a ≠ b) as Hab by congruence.
    destruct (exchange_run A a sp b dp an bn sn dn sname dname Hwf Ha Hb Hab Han Hbn Hsn Hdn
      Hanc Hanc2 s1 _ Hv1 Hsp eq_refl eq_refl Hdp eq_refl eq_refl) as (s2 & r2 & Hrun & Hv2 & Er2).
    destruct (exchange_spec_wf A a sp b dp sname dname sn dn Hwf Ha Hb Hab Hsn Hdn Hns Hanc Hanc2)
      as [Hwf2 Hch2].
    destruct (view_tree_ok _ _ _ _ Hv2 Hwf2 (λ _, iff_refl _)) as (Hok2 & EA2 & Er).
    exists 0, s2. split; [exact Hrun|]. split; [done|]. right. exists a, an, (Some b).
    rewrite EA2, Er. by split_and!.
  - destruct (move_run A a sp dp an sn dn sname dname Hwf Ha Han Hsn Hdn Hdir Hanc s1 _ thread dest
      Hv1 Hsp eq_refl eq_refl Hdp eq_refl eq_refl) as (s2 & r2 & Hrun & Hv2 & Er2); [done| |].
    { destruct dest as [b|]; [|apply Htgt]. destruct Htgt as (Hb & _ & Hk).
      destruct (Hk Ex) as [_ Hk']. split_and!; [done..|congruence]. }
    pose proof Ha as [Hka _]%child_at_alt.
    destruct (wf_kid_ok _ _ _ _ Hwf Hka) as (sn' & an' & Hsn' & _ & Han' & _ & Hn').
    destruct (move_spec_wf A a sp dp dname dest dn an Hwf Hka Hdn Hdir Han) as [Hwf2 Hch2];
      [congruence|done| |].
    { destruct dest as [b|]; [|apply Htgt]. destruct Htgt as (Hb & _ & Hk).
      destruct (Hk Ex) as [_ Hk']. split_and!; [done|congruence|done]. }
    destruct (view_tree_ok _ _ _ _ Hv2 Hwf2 (λ _, iff_refl _)) as (Hok2 & EA2 & Er).
    exists 0, s2. split; [exact Hrun|]. split; [done|]. right. exists a, an, dest.
    rewrite EA2, Er. by split_and!.
Qed.

(** A dentry is never moved to a free name in a directory above its own,
    [mv /d/f /x] for example: the check meant for the target tests the target's
    directory instead when there is no target, and that is above the source's.
    The request fails with ELOOP although no loop would arise. *)
Theorem rename_up_refused s thread sp dp sn dn a :
  STORAGE_ENABLED = false → tree_ok s →
  re_parent (r_src (record s)) = Some sp → re_parent (r_me (record s)) = Some dp →
  nodes (abs s) !! sp = Some sn → nodes (abs s) !! dp = Some dn → an_dir dn = true →
  child_at (abs s) sp (re_pname (r_src (record s))) a →
  (∀ e, ¬ child_at (abs s) dp (re_pname (r_me (record s))) e) →
  exchanging (record s) = false → sp ≠ dp → is_ancestor (abs s) dp sp →
  ∃ s', dentry_rename thread s = Some (ELOOP, s') ∧ abs s' = abs s.
Proof.
  intros Hst [Hwf Hv] Hsp Hdp Hsn Hdn Hdir Ha Hfree Hex Hne Hup. set (A := abs s) in *.
  set (r := record s) in *. unfold dentry_rename.
  destruct (rename_check_run s r A thread sp dp sn dn Hst Hv Hwf Hsp Hdp Hsn Hdn)
    as (rc & s1 & Hrun1 & Ed1 & [(Hrc & Href & r1 & Hv1)|(a' & dest & -> & Hv1 & Ha' & _ & Htgt)]).
  { exists s1. split; [|by apply (v_abs _ _ _ _ Hv1)]. run_with Hrun1.
    replace (rc =? 0) with false by (symmetry; by apply Z.eqb_neq). cbn [negb].
    assert (rc = ELOOP) as ->; [|done].
    pose proof Ha as (sn' & _ & Hsn' & Hk & _). assert (sn' = sn) as -> by congruence.
    destruct Href as [n Hn Hd|Hno|n Hn Hd| | |? b|b|b| |b|]; try done; try congruence.
    - assert (n = sn) as -> by congruence. rewrite (w_leaf _ _ Hwf sp sn Hsn Hd) in Hk. set_solver.
    - by destruct (Hno a).
    - by destruct (Hfree b).
    - by destruct (Hfree b).
    - by destruct (Hfree b).
    - by destruct (Hfree b). }
  assert (dest = None) as ->.
  { destruct dest as [b|]; [|done]. destruct Htgt as [Hb _]. by destruct (Hfree b). }
  exists s1. split; [|by apply (v_abs _ _ _ _ Hv1)].
  run_with Hrun1. cbn [Z.eqb negb]. sstep. rewrite (v_record _ _ _ _ Hv1).
  cbn [found_rec with_r_me with_r_src r_me r_src re_dentry re_parent re_pname with_re_dentry r_flags].
  rewrite decide_False by done. sstep. rewrite Hsp, Hdp.
  rewrite decide_False by congruence.
  pose proof Ha' as [Hk _]%child_at_alt.
  destruct (wf_kid_ok _ _ _ _ Hwf Hk) as (sn' & _ & Hsn' & Hsdir & _).
  destruct (is_ancestor_run s1 A _ _ a' dp dn Hv1 Hwf Hdn Hdir) as (b1 & Hrun2 & _).
  destruct (is_ancestor_run s1 A _ _ dp sp sn' Hv1 Hwf Hsn' Hsdir) as (b2 & Hrun3 & Hb2).
  rewrite (proj2 Hb2 Hup) in Hrun3. rewrite bind_bind. run_with Hrun2. destruct b1; [done|].
  rewrite bind_bind. sstep. run_with Hrun3. done.
Qed.
End rename.
