(* ===== verification/DentryPath.v ===== *)
(** * Paths: lookups by path and the path of a dentry

    [dentry_find_ex] follows a path through the tree, and
    [dentry_get_full_path] prints the path of a dentry; the one undoes the
    other. Both are functions of [server/dentry.c]. *)

From S2P Require Import Prelude NsSubscribe FsTree ServerTypes InodeGenerator NsManager.
From S2P Require Import InodeIndex Dentry DentryView DentryTree DentryRename.

(** From [p], the names lead to [c]. *)
Inductive path_to (A : ATree) : ptr → list string → ptr → Prop :=
  | path_nil p : path_to A p [] p
  | path_cons p name q rest c :
      child_at A p name q → path_to A q rest c → path_to A p (name :: rest) c.

Lemma path_nil_iff A p c : path_to A p [] c ↔ p = c.
Proof. split; [by inversion 1|intros ->; constructor]. Qed.

Lemma path_cons_iff A p name rest c :
  path_to A p (name :: rest) c ↔ ∃ q, child_at A p name q ∧ path_to A q rest c.
Proof. split; [inversion 1; eauto|]. intros (q & Hq & Hc). by econstructor. Qed.

Lemma path_det A p names c1 c2 : wf A ∅ → path_to A p names c1 → path_to A p names c2 → c1 = c2.
Proof.
  intros Hwf H1. induction H1 as [p|p name q rest c1 Hq _ IH].
  - by rewrite path_nil_iff.
  - intros (q' & Hq' & Hc)%path_cons_iff. apply IH. by rewrite (same_name A p q q' name).
Qed.

Lemma path_app A p names1 names2 c :
  path_to A p (names1 ++ names2) c ↔ ∃ q, path_to A p names1 q ∧ path_to A q names2 c.
Proof.
  revert p. induction names1 as [|n names1 IH]; intros p; simpl.
  - setoid_rewrite path_nil_iff. naive_solver.
  - setoid_rewrite path_cons_iff. setoid_rewrite IH. naive_solver.
Qed.

Lemma path_node A p names c :
  path_to A p names c → is_Some (nodes A !! p) → is_Some (nodes A !! c).
Proof.
  induction 1 as [p|p name q rest c (_ & e & _ & _ & He & _) _ IH]; [done|]. intros _. eauto.
Qed.

Lemma path_single A p n c : path_to A p [n] c ↔ child_at A p n c.
Proof. rewrite path_cons_iff. setoid_rewrite path_nil_iff. naive_solver. Qed.

Section path.
Context `{UniqSkiplist} `{ServerConfig} `{!StorageEngine} `{!PathSplit}.

(** ** Finding *)

(** A lookup fails with ENOENT or, when it meets a file, ENOTDIR. *)
Definition lookup_result (A : ATree) (p : ptr) (names : list string) (rc : Z) (o : option ptr) :
    Prop :=
  (rc = 0 ∧ ∃ c, o = Some c ∧ path_to A p names c) ∨
  ((rc = ENOENT ∨ rc = ENOTDIR) ∧ ∀ c, ¬ path_to A p names c).

Lemma find_child_result s A I r thread p n name :
  STORAGE_ENABLED = false → view s A I r → wf A ∅ → nodes A !! p = Some n →
  ∃ rc o, find_child thread p name s = Some ((rc, o), s) ∧ lookup_result A p [name] rc o.
Proof.
  intros Hst Hv Hwf Hn.
  destruct (find_child_run s A I r thread p n name Hst Hv Hn (wf_names_ok A ∅ p Hwf))
    as (rc & child & Hrun & Hres).
  exists rc, child. split; [done|]. destruct child as [c|].
  - destruct Hres as (-> & _ & Hc). left. split; [done|]. exists c. by rewrite path_single.
  - destruct Hres as [-> Hno]. right. split; [destruct (an_dir n); auto|].
    intros c Hc%path_single. destruct (an_dir n) eqn:Hd; [by eapply Hno|].
    pose proof Hc as [Hk _]%child_at_alt.
    rewrite (kids_at_eq _ _ _ Hn), (w_leaf _ _ Hwf _ _ Hn Hd) in Hk. set_solver.
Qed.

Lemma find_loop_result s A I r thread names :
  STORAGE_ENABLED = false → view s A I r → wf A ∅ → ∀ p n, nodes A !! p = Some n →
  ∃ rc o, find_loop thread (Some p) names s = Some ((rc, o), s) ∧ lookup_result A p names rc o.
Proof.
  intros Hst Hv Hwf. induction names as [|name names IH]; intros p n Hn.
  - exists 0, (Some p). split; [done|]. left. split; [done|]. exists p. split; [done|constructor].
  - destruct (find_child_result s A I r thread p n name Hst Hv Hwf Hn) as (rc & o & Hrun & Hres).
    cbn [find_loop]. sstep. run_with Hrun. cbn beta iota. destruct Hres as [[-> (c & -> & Hc)]|[Hrc Hno]].
    + cbn [Z.eqb negb]. apply path_single in Hc. pose proof Hc as (_ & cn & _ & _ & Hcn & _).
      destruct (IH c cn Hcn) as (rc' & o' & Hrun' & Hres'). exists rc', o'. split; [done|].
      destruct Hres' as [[-> (x & -> & Hx)]|[Hrc' Hno']].
      * left. split; [done|]. exists x. split; [done|]. apply path_cons_iff. eauto.
      * right. split; [done|]. intros x (q & Hq & Hx)%path_cons_iff. apply (Hno' x).
        by rewrite (same_name A p c q name Hwf).
    + exists rc, o. split; [by destruct Hrc as [-> | ->]|]. right. split; [done|].
      intros x (q & Hq & _)%path_cons_iff. apply (Hno q). by apply path_single.
Qed.

Section lookup.
Context (s : Server) (A : ATree) (r : BinlogRecord) (I : ptr → Prop).
Context (Hst : STORAGE_ENABLED = false) (Hv : view s A I r) (Hwf : wf A ∅) (Hok : ns_ok s).
Context (a : ptr) (ne : NamespaceEntry) (root : ptr).
Context (Hne : namespaces s !! a = Some ne) (Hroot : ns_root ne = Some root).

Lemma root_node : ∃ n, nodes A !! root = Some n.
Proof using All.
  destruct (w_root _ _ Hwf a root) as (n & Hn & _); [|by exists n].
  by rewrite (view_ns_root _ _ _ _ _ _ Hv Hne).
Qed.

Lemma find_parent_and_me_result path :
  is_absolute path = true →
  ∃ rc parent o, dentry_find_parent_and_me (ns_name ne) path s = Some ((rc, parent, o), s) ∧
    lookup_result A root (split_path path) rc o.
Proof using All.
  intros Habs. unfold dentry_find_parent_and_me. rewrite Habs. cbn [negb].
  run_with (namespace_get_found s None a ne false Hok Hne). cbn iota. sstep. rewrite Hroot. cbn zeta.
  destruct root_node as [rn Hrn]. destruct (last (split_path path)) as [name|] eqn:Hlast.
  2: { apply last_None in Hlast. exists 0, None, (Some root). split; [done|]. left.
       split; [done|]. exists root. split; [done|]. rewrite Hlast. constructor. }
  apply last_Some in Hlast as [front Hfront]. rewrite Hfront, removelast_last.
  assert (∃ rc o, (if (length (front ++ [name]) =? 1)%nat then mret (0, Some root)
      else do_find_ex a front) s = Some ((rc, o), s) ∧ lookup_result A root front rc o)
    as (rc & o & Hrun & Hres).
  { rewrite length_app. simpl. destruct (Nat.eqb_spec (length front + 1) 1) as [E|E].
    - exists 0, (Some root). split; [done|]. left. split; [done|]. exists root. split; [done|].
      destruct front; [constructor|simpl in E; lia].
    - unfold do_find_ex. sstep. rewrite Hroot. by eapply find_loop_result. }
  run_with Hrun. cbn beta iota. destruct Hres as [[-> (p & -> & Hp)]|[Hrc Hno]].
  - cbn [Z.eqb negb]. sstep.
    assert (∃ pn, nodes A !! p = Some pn) as [pn Hpn].
    { apply (path_node _ _ _ _ Hp). by exists rn. }
    destruct (find_child_result s A I r (ns_thread ne) p pn name Hst Hv Hwf Hpn)
      as (rc & o & Hrun2 & Hres2).
    run_with Hrun2. exists rc, (Some p), o. split; [done|].
    destruct Hres2 as [[-> (c & -> & Hc)]|[Hrc Hno]].
    + left. split; [done|]. exists c. split; [done|]. apply path_app. eauto.
    + right. split; [done|]. intros x (q & Hq & Hx)%path_app.
      rewrite (path_det _ _ _ _ _ Hwf Hq Hp) in Hx. by apply (Hno x).
  - exists rc, o, None. split; [by destruct Hrc as [-> | ->]|]. right. split; [done|].
    intros x (q & Hq & _)%path_app. by apply (Hno q).
Qed.

(** The directory of a path and the name in it. *)
Lemma find_parent_result path front name :
  is_absolute path = true → split_path path = front ++ [name] →
  ∃ rc parent, dentry_find_parent (ns_name ne) path s = Some ((rc, parent, Some name), s) ∧
    ((rc = 0 ∧ ∃ p n, parent = Some p ∧ path_to A root front p ∧ nodes A !! p = Some n ∧
        an_dir n = true) ∨
     ((rc = ENOENT ∨ rc = ENOTDIR) ∧
        ∀ p n, path_to A root front p → nodes A !! p = Some n → an_dir n = false)).
Proof using All.
  intros Habs Hsp. unfold dentry_find_parent. rewrite Habs. cbn [negb].
  run_with (namespace_get_found s None a ne false Hok Hne). cbn iota. sstep. rewrite Hroot. cbn zeta.
  rewrite Hsp, last_snoc, removelast_last. destruct root_node as [rn Hrn].
  assert (∃ rc o, (if (length (front ++ [name]) =? 1)%nat then mret (0, Some root)
      else do_find_ex a front) s = Some ((rc, o), s) ∧ lookup_result A root front rc o)
    as (rc & o & Hrun & Hres).
  { rewrite length_app. simpl. destruct (Nat.eqb_spec (length front + 1) 1) as [E|E].
    - exists 0, (Some root). split; [done|]. left. split; [done|]. exists root. split; [done|].
      destruct front; [constructor|simpl in E; lia].
    - unfold do_find_ex. sstep. rewrite Hroot. by eapply find_loop_result. }
  run_with Hrun. cbn beta iota. destruct Hres as [[-> (p & -> & Hp)]|[Hrc Hno]].
  - cbn [Z.eqb negb]. destruct (path_node _ _ _ _ Hp (mk_is_Some _ _ Hrn)) as [n Hn].
    destruct (view_live _ _ _ _ Hv _ _ Hn) as (d & [Hd _] & Ed). sstep. sstep.
    change (S_ISDIR (st_mode (d_stat d))) with (an_dir (node_of d)). rewrite Ed.
    destruct (an_dir n) eqn:Hdir; cbn [negb].
    + exists 0, (Some p). split; [done|]. left. split; [done|]. by exists p, n.
    + exists ENOTDIR, None. split; [done|]. right. split; [by right|]. intros q m Hq Hm.
      rewrite (path_det _ _ _ _ _ Hwf Hq Hp) in Hm. congruence.
  - exists rc, o. split; [by destruct Hrc as [-> | ->]|]. right. split; [done|].
    intros q m Hq. by destruct (Hno q).
Qed.

Lemma find_ex_result path :
  is_absolute path = true →
  ∃ rc o, dentry_find_ex (ns_name ne) path false s = Some ((rc, o), s) ∧
    lookup_result A root (split_path path) rc o.
Proof using All.
  intros Habs. destruct (find_parent_and_me_result path Habs) as (rc & parent & o & Hrun & Hres).
  exists rc, o. split; [|done]. unfold dentry_find_ex. run_with Hrun. cbn beta iota.
  destruct (rc =? 0) eqn:E; cbn [negb]; [apply Z.eqb_eq in E; by subst|done].
Qed.

(** Lookups that follow hard links. *)
Lemma find_follow_run path c n :
  is_absolute path = true → path_to A root (split_path path) c → nodes A !! c = Some n →
  an_link n = false → dentry_find (ns_name ne) path s = Some ((0, Some c), s).
Proof using All.
  intros Habs Hc Hn Hl. destruct (find_parent_and_me_result path Habs) as (rc & parent & o & Hrun & Hres).
  unfold dentry_find, dentry_find_ex. run_with Hrun. cbn beta iota.
  destruct Hres as [[-> (c' & -> & Hc')]|[_ Hno]]; [|by destruct (Hno c)].
  rewrite (path_det _ _ _ _ _ Hwf Hc' Hc). cbn [Z.eqb negb].
  destruct (view_live _ _ _ _ Hv _ _ Hn) as (d & [Hd _] & <-). sstep.
  unfold real_dentry. rewrite bind_bind. sstep.
  change (FDIR_IS_DENTRY_HARD_LINK _) with (an_link (node_of d)). by rewrite Hl.
Qed.

Lemma find_follow_none path :
  is_absolute path = true → (∀ c, ¬ path_to A root (split_path path) c) →
  ∃ rc o, dentry_find (ns_name ne) path s = Some ((rc, o), s) ∧ (rc = ENOENT ∨ rc = ENOTDIR).
Proof using All.
  intros Habs Hno. destruct (find_parent_and_me_result path Habs) as (rc & parent & o & Hrun & Hres).
  exists rc, o. unfold dentry_find, dentry_find_ex. run_with Hrun. cbn beta iota.
  destruct Hres as [[_ (c & _ & Hc)]|[Hrc _]]; [by destruct (Hno c)|].
  split; [by destruct Hrc as [-> | ->]|done].
Qed.
End lookup.

(** Looking a path up never changes the tree and gives the dentry the
    path's names lead to from the namespace's root - its source, when it is a
    hard link and the caller follows these - or, when they lead nowhere, ENOENT
    or ENOTDIR. *)
Theorem dentry_find_ex_spec s a ne root path follow :
  STORAGE_ENABLED = false → tree_ok s → ns_ok s → namespaces s !! a = Some ne →
  ns_root ne = Some root → is_absolute path = true →
  ∃ rc o, dentry_find_ex (ns_name ne) path follow s = Some ((rc, o), s) ∧
    ((rc = 0 ∧ ∃ c n, path_to (abs s) root (split_path path) c ∧ nodes (abs s) !! c = Some n ∧
        o = if follow && an_link n then an_src n else Some c) ∨
     ((rc = ENOENT ∨ rc = ENOTDIR) ∧ ∀ c, ¬ path_to (abs s) root (split_path path) c)).
Proof.
  intros Hst [Hwf Hv] Hok Hne Hroot Habs.
  destruct (find_parent_and_me_result s _ _ _ Hst Hv Hwf Hok a ne root Hne Hroot path Habs)
    as (rc & parent & o & Hrun & Hres).
  destruct (root_node s _ _ _ Hst Hv Hwf Hok a ne root Hne Hroot) as [rn Hrn].
  unfold dentry_find_ex. run_with Hrun. cbn beta iota.
  destruct Hres as [[-> (c & -> & Hc)]|[Hrc Hno]].
  - cbn [Z.eqb negb]. destruct (path_node _ _ _ _ Hc (mk_is_Some _ _ Hrn)) as [n Hn].
    destruct follow.
    + destruct (view_live _ _ _ _ Hv _ _ Hn) as (d & [Hd _] & <-). unfold real_dentry.
      eexists 0, _. split; [sstep; rewrite bind_bind; sstep; reflexivity|]. left. split; [done|]. exists c, (node_of d).
      split; [done|]. split; [done|]. simpl. unfold is_link, src_of. by case_match.
    + exists 0, (Some c). split; [done|]. left. split; [done|]. by exists c, n.
  - exists rc, o. split; [by destruct Hrc as [-> | ->]|]. by right.
Qed.

(** ** The path of a dentry *)

(** Up from [c] to the root, and what [parts_loop] finds on the way. *)
Lemma up_run s A I r : view s A I r → wf A ∅ → ∀ l c n,
  chain an_parent (nodes A) (Some c) l → nodes A !! c = Some n → attached A c →
  ∃ names root, path_to A root names c ∧ roots A !! an_ns n = Some root ∧
    (∀ k acc, (length names ≤ k)%nat → ∃ d, dentries s !! root = Some d ∧ d_parent d = None ∧
       parts_loop k c acc s = Some ((names ++ acc, root), s)) ∧
    (∀ k acc, (k < length names)%nat → ∃ parts top d, dentries s !! top = Some d ∧
       is_Some (d_parent d) ∧ length parts = (k + length acc)%nat ∧
       parts_loop k c acc s = Some ((parts, top), s)).
Proof.
  intros Hv Hwf. induction l as [|x l IH]; intros c n Hl Hn Hatt; [done|].
  destruct Hl as ([= <-] & n' & Hn' & Hl). assert (n' = n) as -> by congruence. clear Hn'.
  destruct (view_live _ _ _ _ Hv _ _ Hn) as (d & [Hd _] & Ed).
  assert (d_parent d = an_parent n) as Edp by exact (f_equal an_parent Ed).
  pose proof Hatt as Hatt'. unfold attached in Hatt'. rewrite Hn in Hatt'.
  destruct (an_parent n) as [p|] eqn:Hp.
  - destruct (wf_kid_ok _ _ _ _ Hwf Hatt') as (pn & n' & Hpn & Hdir & Hn' & _ & Ens).
    assert (n' = n) as -> by congruence.
    pose proof (w_up _ _ Hwf _ _ Hpn (or_introl Hdir) ltac:(set_solver)) as Hpatt.
    destruct (IH p pn Hl Hpn Hpatt) as (names & root & Hpath & Hroot & Hrun & Hlong).
    assert (an_name n = d_name d) as En by (symmetry; exact (f_equal an_name Ed)).
    exists (names ++ [an_name n]), root. split_and!.
    + apply path_app. exists p. split; [done|]. apply path_single, child_at_alt. split; [done|].
      unfold name_at. by rewrite Hn.
    + by rewrite Ens.
    + intros k acc Hk. rewrite length_app in Hk. simpl in Hk. destruct k as [|k]; [lia|].
      destruct (Hrun k (d_name d :: acc)) as (dr & Hdr & Hpr & Hloop); [lia|].
      exists dr. split; [done|]. split; [done|]. cbn [parts_loop]. sstep. rewrite Edp, Hloop.
      by rewrite <- app_assoc, En.
    + intros k acc Hk. rewrite length_app in Hk. simpl in Hk. destruct k as [|k].
      * exists acc, c, d. split; [done|]. split; [rewrite Edp; eauto|]. split; [done|].
        cbn [parts_loop]. by sstep.
      * destruct (Hlong k (d_name d :: acc)) as (parts & top & dt & Hdt & Hpt & Hlen & Hloop); [lia|].
        exists parts, top, dt. split; [done|]. split; [done|]. split; [simpl in Hlen; lia|].
        cbn [parts_loop]. sstep. by rewrite Edp, Hloop.
  - exists [], c. split; [constructor|]. split; [done|]. split; [|simpl; lia].
    intros k acc _. exists d. split; [done|]. split; [done|].
    destruct k; cbn [parts_loop]; sstep; by rewrite ?Edp.
Qed.

Definition path_len (parts : list string) : Z := Z.of_nat (String.length (path_of parts)).

Lemma string_length_app s1 s2 :
  String.length (String.append s1 s2) = (String.length s1 + String.length s2)%nat.
Proof. induction s1 as [|ch s1 IH]; simpl; [done|]. by rewrite <- IH. Qed.

Lemma put_parts_spec room parts : ∀ len,
  put_parts room len parts =
  if decide (parts = [] ∨ len + path_len parts + 1 ≤ room) then Some (path_of parts) else None.
Proof.
  induction parts as [|part parts IH]; intros len; cbn [put_parts].
  { rewrite decide_True by auto. done. }
  assert (path_len (part :: parts) = 1 + Z.of_nat (String.length part) + path_len parts) as El.
  { unfold path_len.
    change (path_of (part :: parts)) with (String.append "/" (String.append part (path_of parts))).
    rewrite !string_length_app. simpl. lia. }
  assert (0 ≤ path_len parts) by (unfold path_len; lia). rewrite IH.
  destruct (Z.ltb_spec room (len + Z.of_nat (String.length part) + 2)).
  - rewrite decide_False; [done|]. intros [?|?]; [done|lia].
  - destruct (decide (parts = [] ∨ _)) as [Hd|Hd].
    + rewrite decide_True; [done|]. right. destruct Hd as [->|Hd]; [|lia].
      rewrite El. unfold path_len. simpl. lia.
    + rewrite decide_False; [done|]. intros [?|?]; [done|]. apply Hd. right. lia.
Qed.

Lemma full_path_run s A I r c n room :
  view s A I r → wf A ∅ → nodes A !! c = Some n → attached A c →
  (∃ l, chain an_parent (nodes A) (Some c) l) →
  ∃ names root rc o, path_to A root names c ∧ roots A !! an_ns n = Some root ∧
    dentry_get_full_path c room s = Some ((rc, o), s) ∧
    if decide (FDIR_MAX_PATH_COUNT < length names)%nat then rc = EOVERFLOW ∧ o = None
    else if decide (names = [] ∨ path_len names + 1 ≤ room) then rc = 0 ∧ o = Some (path_of names)
    else rc = ENOSPC ∧ o = None.
Proof.
  intros Hv Hwf Hn Hatt [l Hl].
  destruct (up_run s A I r Hv Hwf l c n Hl Hn Hatt) as (names & root & Hpath & Hroot & Hrun & Hlong).
  exists names, root. unfold dentry_get_full_path. destruct (decide _) as [Hlen|Hlen].
  - destruct (Hlong FDIR_MAX_PATH_COUNT [] Hlen) as (parts & top & d & Hd & Hp & El & Hloop).
    exists EOVERFLOW, None. split; [done|]. split; [done|]. split; [|done].
    run_with Hloop. cbn beta iota. sstep. rewrite El, Nat.add_0_r, Nat.eqb_refl.
    by rewrite bool_decide_eq_true_2.
  - destruct (Hrun FDIR_MAX_PATH_COUNT []) as (d & Hd & Hp & Hloop); [lia|].
    rewrite app_nil_r in Hloop. run_with Hloop. cbn beta iota. sstep. rewrite Hp.
    rewrite (bool_decide_eq_false_2 (is_Some None)), andb_false_r by by intros [? [=]].
    rewrite put_parts_spec, Z.add_0_l. destruct (decide _).
    + exists 0, (Some (path_of names)). done.
    + exists ENOSPC, None. done.
Qed.

Lemma attached_chain A c n : wf A ∅ → nodes A !! c = Some n → attached A c →
  ∃ l, chain an_parent (nodes A) (Some c) l.
Proof.
  intros Hwf Hn Hatt. unfold attached in Hatt. rewrite Hn in Hatt.
  destruct (an_parent n) as [p|] eqn:Hp.
  - destruct (wf_kid_ok _ _ _ _ Hwf Hatt) as (pn & _ & Hpn & Hdir & _).
    destruct (w_chain _ _ Hwf _ _ Hpn Hdir ltac:(set_solver)) as [l Hl].
    exists (c :: l). split; [done|]. exists n. by rewrite Hp.
  - exists [c]. split; [done|]. exists n. by rewrite Hp.
Qed.

(** The full path of a dentry that is in its directory is made of the names
    that lead from the root of its namespace to it, each after a slash;
    EOVERFLOW when there are more than [FDIR_MAX_PATH_COUNT] of them and
    ENOSPC when the path and its terminating zero do not fit the buffer. *)
Theorem dentry_get_full_path_spec s c n room :
  tree_ok s → nodes (abs s) !! c = Some n → attached (abs s) c →
  ∃ names root rc o, path_to (abs s) root names c ∧ roots (abs s) !! an_ns n = Some root ∧
    dentry_get_full_path c room s = Some ((rc, o), s) ∧
    if decide (FDIR_MAX_PATH_COUNT < length names)%nat then rc = EOVERFLOW ∧ o = None
    else if decide (names = [] ∨ path_len names + 1 ≤ room) then rc = 0 ∧ o = Some (path_of names)
    else rc = ENOSPC ∧ o = None.
Proof.
  intros [Hwf Hv] Hn Hatt. eapply full_path_run; [done..|]. by eapply attached_chain.
Qed.

(** Names as the server takes them from requests. *)
Definition valid_names (A : ATree) : Prop :=
  ∀ q m, nodes A !! q = Some m → is_Some (an_parent m) → an_name m ≠ "" ∧ no_slash (an_name m).

Lemma path_names A p names c :
  wf A ∅ → valid_names A → path_to A p names c → Forall (λ part, part ≠ "" ∧ no_slash part) names.
Proof.
  intros Hwf Hval. induction 1 as [p|p name q rest c Hq _ IH]; constructor; [|done].
  pose proof Hq as [Hk _]%child_at_alt.
  destruct (wf_kid_ok _ _ _ _ Hwf Hk) as (_ & e & _ & _ & He & Hp & _).
  destruct Hq as (_ & e' & _ & _ & He' & <-). assert (e' = e) as -> by congruence.
  apply (Hval q e He). by exists p.
Qed.

(** [C4] The path that [dentry_get_full_path] prints for a dentry below the root
    leads back to it: looked up in its namespace it gives the dentry. *)
Theorem full_path_roundtrip s c n room path a ne :
  STORAGE_ENABLED = false → tree_ok s → ns_ok s → valid_names (abs s) →
  nodes (abs s) !! c = Some n → attached (abs s) c → is_Some (an_parent n) →
  namespaces s !! an_ns n = Some ne → a = an_ns n →
  dentry_get_full_path c room s = Some ((0, Some path), s) →
  dentry_find_ex (ns_name ne) path false s = Some ((0, Some c), s).
Proof.
  intros Hst [Hwf Hv] Hok Hval Hn Hatt Hpar Hne -> Hfull.
  destruct (full_path_run s _ _ _ c n room Hv Hwf Hn Hatt (attached_chain _ _ _ Hwf Hn Hatt))
    as (names & root & rc & o & Hpath & Hroot & Hrun & Hres).
  rewrite Hfull in Hrun. injection Hrun as <- <-.
  destruct (decide _) as [?|Hlen]; [by destruct Hres|].
  destruct (decide _) as [_|_]; [|by destruct Hres]. destruct Hres as [_ [= ->]].
  assert (ns_root ne = Some root) as Hnr by (by rewrite <- (view_ns_root _ _ _ _ _ _ Hv Hne)).
  assert (names ≠ []) as Hnil.
  { intros ->. apply path_nil_iff in Hpath as ->.
    destruct (w_root _ _ Hwf _ _ Hroot) as (m & Hm & Hmp & _).
    assert (m = n) as -> by congruence. rewrite Hmp in Hpar. by destruct Hpar. }
  destruct (find_ex_result s _ _ _ Hst Hv Hwf Hok (an_ns n) ne root Hne Hnr (path_of names))
    as (rc & o & Hrun & Hres).
  { by destruct names. }
  rewrite split_path_law in Hres; [|by eapply path_names|lia].
  destruct Hres as [[-> (c' & -> & Hc)]|[_ Hno]]; [|by destruct (Hno c)].
  by rewrite (path_det _ _ _ _ _ Hwf Hpath Hc).
Qed.
End path.
