(* ===== verification/DentryDemo.v ===== *)
(** * The directory operations on a concrete server

    A server with one namespace, grown by creating dentries one by one, and the
    theorems of [DentryTree.v], [DentryRename.v] and [DentryPath.v] on it. *)

From S2P Require Import Prelude NsSubscribe FsTree ServerTypes InodeGenerator NsManager.
From S2P Require Import InodeIndex Dentry DentryView DentryTree DentryRename DentryPath.

Section demo.
Import ListSkiplist.
Existing Instance list_skiplist.
Existing Instance small_config.
Existing Instance slash_split.
Existing Instance no_storage.

(** ** Growing a server *)

Lemma empty_wf n c : (∀ a x, c !! a = Some x → x = (0, 0)) → n = ∅ → wf (mkATree n ∅ c) ∅.
Proof.
  intros Hc ->. split; simpl; try (intros *; rewrite lookup_empty; done).
  intros a x Hx. rewrite (Hc a x Hx). done.
Qed.

(** Names and inodes in use are checked by evaluation. *)
Definition fresh_in (A : ATree) (name : string) (inode : Z) : bool :=
  bool_decide (map_Forall (λ _ m, an_name m ≠ name ∧ an_inode m ≠ inode ∧
    an_nlink m < 2 ^ 31 - 1) (nodes A)).

Lemma fresh_in_spec A name inode :
  fresh_in A name inode = true →
  (∀ p e, ¬ child_at A p name e) ∧
  (∀ q m, nodes A !! q = Some m → an_inode m ≠ inode ∧ an_nlink m < 2 ^ 31 - 1).
Proof.
  intros Hf%bool_decide_eq_true. split.
  - intros p e (_ & m & _ & _ & He & E). by destruct (Hf e m He).
  - intros q m Hq. by destruct (Hf q m Hq) as (_ & ? & ?).
Qed.

Lemma plain_req A r inode :
  fresh_in A (re_pname (r_me r)) inode = true →
  FDIR_IS_DENTRY_HARD_LINK (st_mode (r_stat r)) = false → inode_ok inode → create_req A r inode.
Proof.
  intros [_ Hf]%fresh_in_spec Hl Hi. split.
  - unfold link_target_ok. by rewrite Hl.
  - intros p m _ Hp. by apply (Hf p).
  - done.
  - intros q m Hq _. by apply (Hf q).
Qed.

Lemma record_tree_ok s r : tree_ok s → tree_ok (with_record r s) ∧ abs (with_record r s) = abs s.
Proof.
  intros [Hwf Hv]. destruct (view_record s _ _ _ (λ _, r) Hv) as (s' & Hrun & Hv').
  rewrite modify_rec_run in Hrun. injection Hrun as <-.
  by destruct (view_tree_ok _ _ _ _ Hv' Hwf (λ _, iff_refl _)) as (? & ? & _).
Qed.

(** Creates what the record asks for in namespace 1. *)
Definition grow (r : BinlogRecord) (s : Server) : Server :=
  match create_found 1%positive 1%positive (with_record r s) with
  | Some (_, s') => s'
  | None => s
  end.

Lemma grow_child s r p n :
  tree_ok s → re_parent (r_me r) = Some p → nodes (abs s) !! p = Some n → an_dir n = true →
  an_ns n = 1%positive →
  fresh_in (abs s) (re_pname (r_me r)) (next_inode (with_record r s) r) = true →
  FDIR_IS_DENTRY_HARD_LINK (st_mode (r_stat r)) = false →
  inode_ok (next_inode (with_record r s) r) → tree_ok (grow r s).
Proof.
  intros Hok Hpar Hn Hdir Hns Hfr Hl Hi. destruct (record_tree_ok s r Hok) as [[Hwf Hv] EA].
  rewrite EA in Hwf, Hv. change (record (with_record r s)) with r in Hv.
  destruct (create_child_run (with_record r s) _ r 1%positive p n Hv Hwf Hpar Hn Hdir)
    as (Hc & s' & r' & Hrun & Hv' & _).
  { intros e. by apply (fresh_in_spec _ _ _ Hfr). }
  { by apply plain_req. }
  unfold grow. rewrite Hns in Hrun, Hv'. rewrite Hrun.
  destruct (create_spec_wf (abs s) _ p (new_node r (next_inode (with_record r s) r) (Some p) 1%positive)
    n Hwf Hc) as [Hwf' _]; try done.
  { apply new_node_ok. unfold link_target_ok. by rewrite Hl. }
  { intros e. by apply (fresh_in_spec _ _ _ Hfr). }
  destruct (view_tree_ok _ _ _ _ Hv' Hwf') as (? & _); [|done].
  intros q. by rewrite create_indexed.
Qed.

Lemma grow_root s r a n :
  tree_ok s → re_parent (r_me r) = None → a = 1%positive → namespaces s !! a = Some n →
  ns_root n = None → fresh_in (abs s) (re_pname (r_me r)) (next_inode (with_record r s) r) = true →
  FDIR_IS_DENTRY_HARD_LINK (st_mode (r_stat r)) = false →
  inode_ok (next_inode (with_record r s) r) → tree_ok (grow r s).
Proof.
  intros Hok Hpar -> Hn Hroot Hfr Hl Hi. destruct (record_tree_ok s r Hok) as [[Hwf Hv] EA].
  rewrite EA in Hwf, Hv. change (record (with_record r s)) with r in Hv.
  assert (roots (abs s) !! 1%positive = None) as Hrt.
  { simpl. unfold abs_roots. by rewrite lookup_omap, Hn. }
  destruct (create_root_run (with_record r s) _ r 1%positive 1%positive Hv Hwf Hpar Hrt)
    as (Hc & s' & r' & Hrun & Hv' & _).
  { by exists n. }
  { by apply plain_req. }
  unfold grow. rewrite Hrun.
  destruct (create_root_spec_wf (abs s) _ (new_node r (next_inode (with_record r s) r) None 1%positive)
    Hwf Hc) as [Hwf' _]; try done.
  { apply new_node_ok. unfold link_target_ok. by rewrite Hl. }
  destruct (view_tree_ok _ _ _ _ Hv' Hwf') as (? & _); [|done].
  intros q. by rewrite create_root_indexed.
Qed.

(** ** The server *)

Definition request (mode : Z) (parent : option ptr) (name : string) : BinlogRecord :=
  mkBinlogRecord 0 "fs" 0 0 no_options (mkRecordDEntry name parent None)
    (mkRecordDEntry "" None None) None None []
    (mkDEntryStat mode 0 0 0 0 0 0 0 0 0 0) "" ("", "").
Definition mkdir := request (S_IFDIR + 493).
Definition mkfile := request (S_IFREG + 420).

(** One namespace, without a root. *)
Definition blank : Server :=
  with_namespaces
    (<[1%positive := mkNamespaceEntry 1 2 "fs" None (mkNsCounts 0 0) 0 1%positive None]> ∅)
    (with_ns_manager (mkNsManager (<[2 := 1%positive]> ∅) [1%positive] 128 1) empty_server).

Lemma blank_at a n : namespaces blank !! a = Some n →
  a = 1%positive ∧ n = mkNamespaceEntry 1 2 "fs" None (mkNsCounts 0 0) 0 1%positive None.
Proof.
  simpl. intros Ha. apply lookup_insert_Some in Ha as [[<- <-]|[_ Ha]]; [done|].
  by rewrite lookup_empty in Ha.
Qed.

Lemma blank_ok : tree_ok blank.
Proof.
  assert (index_ok blank ∧ ∀ p, ¬ in_index blank p) as [Hix Hin].
  { assert (∀ b, bucket_ok blank b []) as Hb.
    { intros b. split; [done|constructor|]. intros p d Hp. set_solver. }
    split; [intros b; by exists []|]. intros p (b & l & Hl & Hp).
    rewrite (bucket_det _ _ _ _ Hl (Hb b)) in Hp. set_solver. }
  assert (wf (abs blank) ∅) as Hwf.
  { apply (empty_wf (nodes (abs blank)) (counts (abs blank))); [|done].
    intros a x. simpl. unfold abs_counts. intros (n & <- & Hn)%lookup_fmap_Some.
    by destruct (blank_at a n Hn) as [_ ->]. }
  split; [done|]. split; try done.
  - intros p. split; [by intros ?%Hin|]. intros (n & Hn & _). done.
  - intros p d [Hp _]. done.
  - intros p Hp. set_solver.
Qed.

Lemma one_ns_ok s n :
  namespaces s = <[1%positive := n]> ∅ → ns_name n = "fs" → ns_id n = 1 → ns_next n = None →
  ns_manager s = mkNsManager (<[2 := 1%positive]> ∅) [1%positive] 128 1 → ns_ok s.
Proof.
  intros E En Ei Ex Em.
  assert (∀ a x, namespaces s !! a = Some x → a = 1%positive ∧ x = n) as Hat.
  { rewrite E. intros a x Ha. apply lookup_insert_Some in Ha as [[<- <-]|[_ Ha]]; [done|].
    by rewrite lookup_empty in Ha. }
  split.
  - intros b. unfold ns_bucket_ok. rewrite Em. destruct (decide (b = 2)) as [->|Hb].
    + exists [1%positive]. split.
      * simpl. split; [done|]. exists n. by rewrite E, lookup_insert_eq.
      * intros p x [-> ->]%Hat. rewrite En. set_solver.
    + exists []. split; [simpl; by rewrite lookup_insert_ne|].
      intros p x [-> ->]%Hat. rewrite elem_of_nil, En. split; [done|]. intros Eb.
      vm_compute in Eb. congruence.
  - by intros p q x m [-> ->]%Hat [-> ->]%Hat.
  - intros p. rewrite Em, E. simpl. split.
    + intros ->%list_elem_of_singleton. rewrite lookup_insert_eq. eauto.
    + rewrite <- E. intros [x [-> _]%Hat]. set_solver.
  - rewrite Em. apply NoDup_singleton.
  - rewrite Em. repeat constructor.
  - rewrite Em. intros p x [-> ->]%Hat. simpl. lia.
  - by rewrite Em.
Qed.

Lemma blank_ns_ok : ns_ok blank.
Proof. by eapply one_ns_ok. Qed.

(** [/], [/d], [/d/f], [/e] and [/g] at 1 .. 5. *)
Definition root_only : Server := grow (mkdir None "") blank.
Definition with_d : Server := grow (mkdir (Some 1%positive) "d") root_only.
Definition with_f : Server := grow (mkfile (Some 2%positive) "f") with_d.
Definition with_e : Server := grow (mkdir (Some 1%positive) "e") with_f.
Definition five_dentries : Server := grow (mkfile (Some 1%positive) "g") with_e.

Ltac grow_one IH :=
  eapply grow_child; [exact IH|reflexivity|vm_compute; reflexivity|reflexivity|reflexivity|
    vm_compute; reflexivity|reflexivity|split; [vm_compute; discriminate|reflexivity]].

Lemma root_only_ok : tree_ok root_only.
Proof.
  eapply grow_root; [exact blank_ok|done|done|done|done|vm_compute; reflexivity|done|].
  split; [vm_compute; discriminate|reflexivity].
Qed.
Lemma with_d_ok : tree_ok with_d. Proof. grow_one root_only_ok. Qed.
Lemma with_f_ok : tree_ok with_f. Proof. grow_one with_d_ok. Qed.
Lemma with_e_ok : tree_ok with_e. Proof. grow_one with_f_ok. Qed.
Lemma five_dentries_ok : tree_ok five_dentries. Proof. grow_one with_e_ok. Qed.

(** ** The theorems there *)

Definition asks (r : BinlogRecord) : Server := with_record r five_dentries.

(** A rename from [sname] of [sp] to [dname] of [dp]. *)
Definition rename_request (flags : Z) (sp : ptr) (sname : string) (dp : ptr) (dname : string) :=
  mkBinlogRecord 0 "fs" flags 0 no_options (mkRecordDEntry dname (Some dp) None)
    (mkRecordDEntry sname (Some sp) None) None None [] zero_stat "" ("", "").

Lemma asks_ok r : tree_ok (asks r).
Proof. apply record_tree_ok, five_dentries_ok. Qed.

Lemma rc_of (P : Prop) (m : M Server Z) s rc s' (rc' : Z) :
  m s = Some (rc, s') → option_map fst (m s) = Some rc' → rc ≠ rc' → P.
Proof. intros -> [= ->]. done. Qed.

Lemma child_here A p nm c :
  bool_decide (c ∈ kids_at A p) = true → name_at A c = Some nm → child_at A p nm c.
Proof. intros Hc%bool_decide_eq_true E. by apply child_at_alt. Qed.

Ltac find_node := vm_compute; reflexivity.
Ltac find_child := apply child_here; vm_compute; reflexivity.
Ltac other_result Hrun := eapply (rc_of _ _ _ _ _ _ Hrun); [vm_compute; reflexivity|discriminate].

(** [mkdir /] on a namespace without a root. *)
Lemma dentry_create_root_spec_witness :
  ∃ s' c, dentry_create 1%positive (with_record (mkdir None "") blank) = Some (0, s') ∧
    tree_ok s' ∧ roots (abs s') !! 1%positive = Some c.
Proof.
  edestruct (dentry_create_root_spec (with_record (mkdir None "") blank) 1%positive 1%positive)
    as (rc & s' & Hrun & Hok & Hres);
    [apply record_tree_ok, blank_ok|
      apply (same_ns_ok blank); [split_and!; try done|exact blank_ns_ok]|reflexivity|reflexivity|reflexivity| |
     reflexivity|].
  { apply plain_req; [find_node|reflexivity|split; [vm_compute; discriminate|reflexivity]]. }
  destruct Hres as (-> & c & _ & _ & Hc & _). exists s', c.
  split; [exact Hrun|]. split; [exact Hok|exact Hc].
Defined.

(** Creating [/d/h]; [/d/f] is still there. *)
Lemma dentry_create_spec_witness :
  ∃ s' c, dentry_create 1%positive (asks (mkfile (Some 2%positive) "h")) = Some (0, s') ∧
    tree_ok s' ∧ child_at (abs s') 2%positive "h" c ∧ child_at (abs s') 2%positive "f" 3%positive.
Proof.
  edestruct (dentry_create_spec (asks (mkfile (Some 2%positive) "h")) 1%positive 2%positive)
    as (rc & s' & Hrun & Hok & Hres); [reflexivity|apply asks_ok|reflexivity|find_node| |].
  { apply plain_req; [find_node|reflexivity|split; [vm_compute; discriminate|reflexivity]]. }
  destruct Hres as [[_ [[_ ->]|[(_ & _ & ->)|(_ & _ & ->)]]]|(c & -> & _ & _ & _ & _ & _ & Hch & _)];
    [other_result Hrun..|].
  exists s', c. split; [exact Hrun|]. split; [exact Hok|]. split; apply Hch.
  - left. split; [reflexivity|split; reflexivity].
  - right. find_child.
Defined.

(** Removing [/d/f]; [/g] is still there. *)
Lemma dentry_remove_spec_witness :
  ∃ s', dentry_remove 1%positive (asks (mkfile (Some 2%positive) "f")) = Some (0, s') ∧
    tree_ok s' ∧ (∀ e, ¬ child_at (abs s') 2%positive "f" e) ∧
    child_at (abs s') 1%positive "g" 5%positive.
Proof.
  edestruct (dentry_remove_spec (asks (mkfile (Some 2%positive) "f")) 1%positive 2%positive)
    as (rc & s' & Hrun & Hok & Hres); [reflexivity|apply asks_ok|reflexivity|find_node|].
  destruct Hres as [[_ [[_ ->]|[(_ & _ & ->)|(_ & ->)]]]|(c & cn & -> & Hc & _ & _ & Hch & _)];
    [other_result Hrun..|].
  exists s'. split; [exact Hrun|]. split; [exact Hok|].
  assert (c = 3%positive) as ->.
  { eapply same_name; [apply asks_ok|exact Hc|find_child]. }
  split.
  - intros e [He Hne]%Hch. apply Hne.
    eapply same_name; [apply asks_ok|exact He|find_child].
  - apply Hch. split; [find_child|discriminate].
Defined.

(** [mv /g /d/f], which overwrites [/d/f]. *)
Lemma dentry_rename_spec_witness :
  ∃ s', dentry_rename 1%positive (asks (rename_request 0 1%positive "g" 2%positive "f"))
      = Some (0, s') ∧ tree_ok s' ∧ child_at (abs s') 2%positive "f" 5%positive ∧
    ∀ e, ¬ child_at (abs s') 1%positive "g" e.
Proof.
  edestruct (dentry_rename_spec (asks (rename_request 0 1%positive "g" 2%positive "f"))
    1%positive 1%positive 2%positive) as (rc & s' & Hrun & Hok & Hres);
    [reflexivity|apply asks_ok|reflexivity|reflexivity|find_node|find_node|reflexivity|
     reflexivity|].
  destruct Hres as [[Href _]|(a & an & dest & -> & Ha & _ & _ & _ & _ & _ & Hch)].
  { destruct Href; other_result Hrun. }
  assert (a = 5%positive) as ->.
  { eapply same_name; [apply asks_ok|exact Ha|find_child]. }
  exists s'. split; [exact Hrun|]. split; [exact Hok|]. split.
  - apply Hch. left. split; [reflexivity|split; reflexivity].
  - intros e [[E _]|(He & Hne & _)]%Hch; [discriminate E|]. apply Hne.
    eapply same_name; [apply asks_ok|exact He|find_child].
Defined.

(** [mv /d/f /x]. *)
Lemma x_free e : ¬ child_at (abs five_dentries) 1%positive "x" e.
Proof.
  assert (fresh_in (abs five_dentries) "x" 0 = true) as Hf by find_node.
  apply (proj1 (fresh_in_spec _ _ _ Hf)).
Qed.

Lemma root_above_d : is_ancestor (abs five_dentries) 1%positive 2%positive.
Proof.
  exists [2%positive; 1%positive]. split; [|set_solver]. cbn [chain]. split; [reflexivity|].
  eexists. split; [find_node|]. split; [reflexivity|]. eexists. split; [find_node|]. reflexivity.
Qed.

Lemma asks_abs r : abs (asks r) = abs five_dentries.
Proof. apply record_tree_ok, five_dentries_ok. Qed.

Lemma rename_up_refused_witness :
  ∃ s', dentry_rename 1%positive (asks (rename_request 0 2%positive "f" 1%positive "x"))
      = Some (ELOOP, s') ∧ abs s' = abs five_dentries.
Proof.
  edestruct (rename_up_refused (asks (rename_request 0 2%positive "f" 1%positive "x"))
    1%positive 2%positive 1%positive) with (a := 3%positive) as (s' & Hrun & E);
    [reflexivity|apply asks_ok|reflexivity|reflexivity|find_node|find_node|reflexivity|
     find_child| |reflexivity|discriminate| |].
  - rewrite asks_abs. exact x_free.
  - rewrite asks_abs. exact root_above_d.
  - exists s'. split; [exact Hrun|]. by rewrite E, asks_abs.
Defined.

Lemma five_dentries_ns_ok : ns_ok five_dentries.
Proof.
  apply (one_ns_ok five_dentries
    (mkNamespaceEntry 1 2 "fs" (Some 1%positive) (mkNsCounts 3 2) 0 1%positive None));
    vm_compute; reflexivity.
Qed.

Lemma dentry_find_ex_spec_witness :
  dentry_find_ex "fs" "/d/f" false five_dentries = Some ((0, Some 3%positive), five_dentries) ∧
  path_to (abs five_dentries) 1%positive ["d"; "f"] 3%positive.
Proof.
  edestruct (dentry_find_ex_spec five_dentries 1%positive
    (mkNamespaceEntry 1 2 "fs" (Some 1%positive) (mkNsCounts 3 2) 0 1%positive None) 1%positive
    "/d/f" false) as (rc & o & Hrun & Hres);
    [reflexivity|exact five_dentries_ok|exact five_dentries_ns_ok|find_node|reflexivity|
     reflexivity|].
  assert (path_to (abs five_dentries) 1%positive ["d"; "f"] 3%positive) as Hp.
  { apply path_cons_iff. exists 2%positive. split; [find_child|]. apply path_single. find_child. }
  split; [|exact Hp].
  destruct Hres as [[-> (c & n & Hc & _ & ->)]|[_ Hno]]; [|destruct (Hno _ Hp)].
  assert (c = 3%positive) as ->; [|exact Hrun].
  exact (path_det _ _ _ _ _ (t_wf _ five_dentries_ok) Hc Hp).
Defined.

Lemma f_attached : attached (abs five_dentries) 3%positive.
Proof.
  unfold attached. vm_compute (nodes (abs five_dentries) !! 3%positive). cbn [an_parent].
  apply (bool_decide_unpack _). by vm_compute.
Qed.

Lemma dentry_get_full_path_spec_witness :
  ∃ rc, dentry_get_full_path 3%positive 5 five_dentries = Some ((rc, Some "/d/f"), five_dentries).
Proof.
  edestruct (dentry_get_full_path_spec five_dentries 3%positive) as (names & root & rc & o & Hp & Hr & Hrun & _);
    [exact five_dentries_ok|find_node|exact f_attached|].
  exists rc. rewrite Hrun. apply (f_equal (option_map (λ x, snd (fst x)))) in Hrun.
  vm_compute in Hrun. injection Hrun as <-. reflexivity.
Defined.

Lemma five_dentries_names : valid_names (abs five_dentries).
Proof.
  intros q m Hq Hp.
  assert (bool_decide (map_Forall (λ _ m, an_parent m = None ∨ an_name m ∈ ["d"; "f"; "e"; "g"])
    (nodes (abs five_dentries))) = true) as Hall by find_node.
  apply bool_decide_eq_true in Hall. destruct (Hall q m Hq) as [E|E].
  - rewrite E in Hp. by destruct Hp.
  - clear Hall Hq Hp. revert E. generalize (an_name m) as name. intros name E.
    repeat (apply elem_of_cons in E as [->|E]; [by vm_compute|]). by apply elem_of_nil in E.
Qed.

Lemma full_path_roundtrip_witness :
  dentry_find_ex "fs" "/d/f" false five_dentries = Some ((0, Some 3%positive), five_dentries).
Proof.
  eapply (full_path_roundtrip five_dentries 3%positive _ 100 "/d/f" 1%positive
    (mkNamespaceEntry 1 2 "fs" (Some 1%positive) (mkNsCounts 3 2) 0 1%positive None));
    [reflexivity|exact five_dentries_ok|exact five_dentries_ns_ok|exact five_dentries_names|
     find_node|exact f_attached|eexists; reflexivity|find_node|reflexivity|].
  vm_compute. reflexivity.
Defined.
End demo.
