(* ===== verification/Thread.v ===== *)
(** * A data thread: [server/data_thread.h], [server/binlog/binlog_types.h]

    The records of the requests are processed by the data threads, each of which
    owns the namespaces whose hash code it serves. The state here has what one
    thread works with: the server's tree, the part of the record that says which
    operation is asked for and how its dentries are named, the data version the
    threads share, the lock entries of the dentries, and the thread's queues. *)

From S2P Require Import Prelude NsSubscribe Flock ServerTypes NsManager InodeIndex.
From S2P Require Import Dentry.

Definition SERVICE_OP_SET_DSIZE_INT : Z := 101.
Definition SERVICE_OP_BATCH_SET_DSIZE_INT : Z := 102.
Definition SERVICE_OP_SYS_LOCK_APPLY_INT : Z := 111.
Definition SERVICE_OP_FLOCK_APPLY_INT : Z := 112.
Definition SERVICE_OP_SYS_LOCK_RELEASE_INT : Z := 113.
Definition SERVICE_OP_STAT_DENTRY_INT : Z := 121.
Definition SERVICE_OP_READ_LINK_INT : Z := 122.
Definition SERVICE_OP_LOOKUP_INODE_INT : Z := 123.
Definition SERVICE_OP_LIST_DENTRY_INT : Z := 124.
Definition SERVICE_OP_GET_XATTR_INT : Z := 125.
Definition SERVICE_OP_LIST_XATTR_INT : Z := 126.

Definition FDIR_DATA_ERROR_MODE_STRICT : Z := 1.
Definition FDIR_DATA_ERROR_MODE_LOOSE : Z := 2.

(** How a record names its dentries: by path, by the parent's inode and a
    name, or by inode. *)
Inductive DEntryType :=
  | dentry_type_fullname
  | dentry_type_pname
  | dentry_type_inode.

#[export] Instance DEntryType_eq_dec : EqDecision DEntryType.
Proof. solve_decision. Defined.

Record FullName := mkFullName { fn_ns : string; fn_path : string }.

Record FlockParams := mkFlockParams {
  fp_type : Z; fp_owner : FlockOwner; fp_offset : Z; fp_length : Z
}.

(** One record of a batch ([record->parray]) and the version it gets. *)
Record BatchItem := mkBatchItem { bi_record : BinlogRecord; bi_data_version : Z }.
Record BatchCounts := mkBatchCounts { bc_total : Z; bc_success : Z; bc_updated : Z }.

(** The rest of [FDIRBinlogRecord]: what the dispatch reads and sets. [q_me_fullname]
    is [me.fullname], also [rename.dest.fullname]; [q_name_at] is where in the
    task's buffer the name [me.pname.name] is; a lock task is a pair of its
    dentry and its object in the dentry's lock entry. *)
Record QueuedRecord := mkQueuedRecord {
  q_operation : Z;
  q_data_version : Z;
  q_dentry_type : DEntryType;
  q_me_fullname : FullName;
  q_src_fullname : FullName;
  q_parent_inode : Z;
  q_src_parent_inode : Z;
  q_hdlink_fullname : FullName;
  q_hdlink_inode : Z;
  q_path_enabled : bool;
  q_name_at : Z;
  q_batch : list BatchItem;
  q_counts : BatchCounts;
  q_blocked : bool;
  q_flock : FlockParams;
  q_ftask : option (ptr * ptr);
  q_stask : option (ptr * ptr);
  q_notify : bool
}.

(** The parts of a request's task that are read: the sizes of its buffer, where
    the request's body begins and how long it is, whether the client is gone,
    and the system lock of the session ([SYS_LOCK_TASK]). *)
Record FastTask := mkFastTask {
  task_size : Z;
  body_at : Z;
  body_len : Z;
  task_canceled : bool;
  sys_lock_task : option (ptr * ptr)
}.

(** What [record->notify.func] is told: the operation and version of the record,
    the result and [is_error]. *)
Record Notice := mkNotice {
  nt_operation : Z; nt_data_version : Z; nt_result : Z; nt_is_error : bool
}.

Section thread.
Context `{UniqSkiplist}.

(** [th_current_version] is [DATA_CURRENT_VERSION], which all threads share;
    [th_locks] has the lock entry of each dentry that has one
    ([dentry->flock_entry]); [th_immediate] is the queue of dentries to release. *)
Record DataThread := mkDataThread {
  th_server : Server;
  th_rec : QueuedRecord;
  th_current_version : Z;
  th_last_version : Z;
  th_error_mode : Z;
  th_locks : gmap ptr FlockState;
  th_immediate : list (Z * ptr);
  th_last_check_time : Z;
  th_task : FastTask;
  th_list_cache : DentryArray;
  th_notified : list Notice
}.

Definition with_q_operation (v : Z) (x : QueuedRecord) : QueuedRecord := mkQueuedRecord v
  (q_data_version x) (q_dentry_type x) (q_me_fullname x) (q_src_fullname x) (q_parent_inode x)
  (q_src_parent_inode x) (q_hdlink_fullname x) (q_hdlink_inode x) (q_path_enabled x) (q_name_at
  x) (q_batch x) (q_counts x) (q_blocked x) (q_flock x) (q_ftask x) (q_stask x) (q_notify x).
Definition with_q_data_version (v : Z) (x : QueuedRecord) : QueuedRecord := mkQueuedRecord
  (q_operation x) v (q_dentry_type x) (q_me_fullname x) (q_src_fullname x) (q_parent_inode x)
  (q_src_parent_inode x) (q_hdlink_fullname x) (q_hdlink_inode x) (q_path_enabled x) (q_name_at
  x) (q_batch x) (q_counts x) (q_blocked x) (q_flock x) (q_ftask x) (q_stask x) (q_notify x).
Definition with_q_dentry_type (v : DEntryType) (x : QueuedRecord) : QueuedRecord :=
  mkQueuedRecord (q_operation x) (q_data_version x) v (q_me_fullname x) (q_src_fullname x)
  (q_parent_inode x) (q_src_parent_inode x) (q_hdlink_fullname x) (q_hdlink_inode x)
  (q_path_enabled x) (q_name_at x) (q_batch x) (q_counts x) (q_blocked x) (q_flock x) (q_ftask
  x) (q_stask x) (q_notify x).
Definition with_q_me_fullname (v : FullName) (x : QueuedRecord) : QueuedRecord := mkQueuedRecord
  (q_operation x) (q_data_version x) (q_dentry_type x) v (q_src_fullname x) (q_parent_inode x)
  (q_src_parent_inode x) (q_hdlink_fullname x) (q_hdlink_inode x) (q_path_enabled x) (q_name_at
  x) (q_batch x) (q_counts x) (q_blocked x) (q_flock x) (q_ftask x) (q_stask x) (q_notify x).
Definition with_q_src_fullname (v : FullName) (x : QueuedRecord) : QueuedRecord :=
  mkQueuedRecord (q_operation x) (q_data_version x) (q_dentry_type x) (q_me_fullname x) v
  (q_parent_inode x) (q_src_parent_inode x) (q_hdlink_fullname x) (q_hdlink_inode x)
  (q_path_enabled x) (q_name_at x) (q_batch x) (q_counts x) (q_blocked x) (q_flock x) (q_ftask
  x) (q_stask x) (q_notify x).
Definition with_q_parent_inode (v : Z) (x : QueuedRecord) : QueuedRecord := mkQueuedRecord
  (q_operation x) (q_data_version x) (q_dentry_type x) (q_me_fullname x) (q_src_fullname x) v
  (q_src_parent_inode x) (q_hdlink_fullname x) (q_hdlink_inode x) (q_path_enabled x) (q_name_at
  x) (q_batch x) (q_counts x) (q_blocked x) (q_flock x) (q_ftask x) (q_stask x) (q_notify x).
Definition with_q_src_parent_inode (v : Z) (x : QueuedRecord) : QueuedRecord := mkQueuedRecord
  (q_operation x) (q_data_version x) (q_dentry_type x) (q_me_fullname x) (q_src_fullname x)
  (q_parent_inode x) v (q_hdlink_fullname x) (q_hdlink_inode x) (q_path_enabled x) (q_name_at x)
  (q_batch x) (q_counts x) (q_blocked x) (q_flock x) (q_ftask x) (q_stask x) (q_notify x).
Definition with_q_hdlink_fullname (v : FullName) (x : QueuedRecord) : QueuedRecord :=
  mkQueuedRecord (q_operation x) (q_data_version x) (q_dentry_type x) (q_me_fullname x)
  (q_src_fullname x) (q_parent_inode x) (q_src_parent_inode x) v (q_hdlink_inode x)
  (q_path_enabled x) (q_name_at x) (q_batch x) (q_counts x) (q_blocked x) (q_flock x) (q_ftask
  x) (q_stask x) (q_notify x).
Definition with_q_hdlink_inode (v : Z) (x : QueuedRecord) : QueuedRecord := mkQueuedRecord
  (q_operation x) (q_data_version x) (q_dentry_type x) (q_me_fullname x) (q_src_fullname x)
  (q_parent_inode x) (q_src_parent_inode x) (q_hdlink_fullname x) v (q_path_enabled x)
  (q_name_at x) (q_batch x) (q_counts x) (q_blocked x) (q_flock x) (q_ftask x) (q_stask x)
  (q_notify x).
Definition with_q_path_enabled (v : bool) (x : QueuedRecord) : QueuedRecord := mkQueuedRecord
  (q_operation x) (q_data_version x) (q_dentry_type x) (q_me_fullname x) (q_src_fullname x)
  (q_parent_inode x) (q_src_parent_inode x) (q_hdlink_fullname x) (q_hdlink_inode x) v
  (q_name_at x) (q_batch x) (q_counts x) (q_blocked x) (q_flock x) (q_ftask x) (q_stask x)
  (q_notify x).
Definition with_q_name_at (v : Z) (x : QueuedRecord) : QueuedRecord := mkQueuedRecord
  (q_operation x) (q_data_version x) (q_dentry_type x) (q_me_fullname x) (q_src_fullname x)
  (q_parent_inode x) (q_src_parent_inode x) (q_hdlink_fullname x) (q_hdlink_inode x)
  (q_path_enabled x) v (q_batch x) (q_counts x) (q_blocked x) (q_flock x) (q_ftask x) (q_stask
  x) (q_notify x).
Definition with_q_batch (v : list BatchItem) (x : QueuedRecord) : QueuedRecord := mkQueuedRecord
  (q_operation x) (q_data_version x) (q_dentry_type x) (q_me_fullname x) (q_src_fullname x)
  (q_parent_inode x) (q_src_parent_inode x) (q_hdlink_fullname x) (q_hdlink_inode x)
  (q_path_enabled x) (q_name_at x) v (q_counts x) (q_blocked x) (q_flock x) (q_ftask x) (q_stask
  x) (q_notify x).
Definition with_q_counts (v : BatchCounts) (x : QueuedRecord) : QueuedRecord := mkQueuedRecord
  (q_operation x) (q_data_version x) (q_dentry_type x) (q_me_fullname x) (q_src_fullname x)
  (q_parent_inode x) (q_src_parent_inode x) (q_hdlink_fullname x) (q_hdlink_inode x)
  (q_path_enabled x) (q_name_at x) (q_batch x) v (q_blocked x) (q_flock x) (q_ftask x) (q_stask
  x) (q_notify x).
Definition with_q_blocked (v : bool) (x : QueuedRecord) : QueuedRecord := mkQueuedRecord
  (q_operation x) (q_data_version x) (q_dentry_type x) (q_me_fullname x) (q_src_fullname x)
  (q_parent_inode x) (q_src_parent_inode x) (q_hdlink_fullname x) (q_hdlink_inode x)
  (q_path_enabled x) (q_name_at x) (q_batch x) (q_counts x) v (q_flock x) (q_ftask x) (q_stask
  x) (q_notify x).
Definition with_q_flock (v : FlockParams) (x : QueuedRecord) : QueuedRecord := mkQueuedRecord
  (q_operation x) (q_data_version x) (q_dentry_type x) (q_me_fullname x) (q_src_fullname x)
  (q_parent_inode x) (q_src_parent_inode x) (q_hdlink_fullname x) (q_hdlink_inode x)
  (q_path_enabled x) (q_name_at x) (q_batch x) (q_counts x) (q_blocked x) v (q_ftask x) (q_stask
  x) (q_notify x).
Definition with_q_ftask (v : option (ptr * ptr)) (x : QueuedRecord) : QueuedRecord :=
  mkQueuedRecord (q_operation x) (q_data_version x) (q_dentry_type x) (q_me_fullname x)
  (q_src_fullname x) (q_parent_inode x) (q_src_parent_inode x) (q_hdlink_fullname x)
  (q_hdlink_inode x) (q_path_enabled x) (q_name_at x) (q_batch x) (q_counts x) (q_blocked x)
  (q_flock x) v (q_stask x) (q_notify x).
Definition with_q_stask (v : option (ptr * ptr)) (x : QueuedRecord) : QueuedRecord :=
  mkQueuedRecord (q_operation x) (q_data_version x) (q_dentry_type x) (q_me_fullname x)
  (q_src_fullname x) (q_parent_inode x) (q_src_parent_inode x) (q_hdlink_fullname x)
  (q_hdlink_inode x) (q_path_enabled x) (q_name_at x) (q_batch x) (q_counts x) (q_blocked x)
  (q_flock x) (q_ftask x) v (q_notify x).
Definition with_q_notify (v : bool) (x : QueuedRecord) : QueuedRecord := mkQueuedRecord
  (q_operation x) (q_data_version x) (q_dentry_type x) (q_me_fullname x) (q_src_fullname x)
  (q_parent_inode x) (q_src_parent_inode x) (q_hdlink_fullname x) (q_hdlink_inode x)
  (q_path_enabled x) (q_name_at x) (q_batch x) (q_counts x) (q_blocked x) (q_flock x) (q_ftask
  x) (q_stask x) v.

Definition with_th_server (v : Server) (x : DataThread) : DataThread := mkDataThread v (th_rec
  x) (th_current_version x) (th_last_version x) (th_error_mode x) (th_locks x) (th_immediate x)
  (th_last_check_time x) (th_task x) (th_list_cache x) (th_notified x).
Definition with_th_rec (v : QueuedRecord) (x : DataThread) : DataThread := mkDataThread
  (th_server x) v (th_current_version x) (th_last_version x) (th_error_mode x) (th_locks x)
  (th_immediate x) (th_last_check_time x) (th_task x) (th_list_cache x) (th_notified x).
Definition with_th_current_version (v : Z) (x : DataThread) : DataThread := mkDataThread
  (th_server x) (th_rec x) v (th_last_version x) (th_error_mode x) (th_locks x) (th_immediate x)
  (th_last_check_time x) (th_task x) (th_list_cache x) (th_notified x).
Definition with_th_last_version (v : Z) (x : DataThread) : DataThread := mkDataThread (th_server
  x) (th_rec x) (th_current_version x) v (th_error_mode x) (th_locks x) (th_immediate x)
  (th_last_check_time x) (th_task x) (th_list_cache x) (th_notified x).
Definition with_th_error_mode (v : Z) (x : DataThread) : DataThread := mkDataThread (th_server
  x) (th_rec x) (th_current_version x) (th_last_version x) v (th_locks x) (th_immediate x)
  (th_last_check_time x) (th_task x) (th_list_cache x) (th_notified x).
Definition with_th_locks (v : gmap ptr FlockState) (x : DataThread) : DataThread := mkDataThread
  (th_server x) (th_rec x) (th_current_version x) (th_last_version x) (th_error_mode x) v
  (th_immediate x) (th_last_check_time x) (th_task x) (th_list_cache x) (th_notified x).
Definition with_th_immediate (v : list (Z * ptr)) (x : DataThread) : DataThread := mkDataThread
  (th_server x) (th_rec x) (th_current_version x) (th_last_version x) (th_error_mode x)
  (th_locks x) v (th_last_check_time x) (th_task x) (th_list_cache x) (th_notified x).
Definition with_th_last_check_time (v : Z) (x : DataThread) : DataThread := mkDataThread
  (th_server x) (th_rec x) (th_current_version x) (th_last_version x) (th_error_mode x)
  (th_locks x) (th_immediate x) v (th_task x) (th_list_cache x) (th_notified x).
Definition with_th_task (v : FastTask) (x : DataThread) : DataThread := mkDataThread (th_server
  x) (th_rec x) (th_current_version x) (th_last_version x) (th_error_mode x) (th_locks x)
  (th_immediate x) (th_last_check_time x) v (th_list_cache x) (th_notified x).
Definition with_th_list_cache (v : DentryArray) (x : DataThread) : DataThread := mkDataThread
  (th_server x) (th_rec x) (th_current_version x) (th_last_version x) (th_error_mode x)
  (th_locks x) (th_immediate x) (th_last_check_time x) (th_task x) v (th_notified x).
Definition with_th_notified (v : list Notice) (x : DataThread) : DataThread := mkDataThread
  (th_server x) (th_rec x) (th_current_version x) (th_last_version x) (th_error_mode x)
  (th_locks x) (th_immediate x) (th_last_check_time x) (th_task x) (th_list_cache x) v.

Definition with_sys_lock_task (v : option (ptr * ptr)) (x : FastTask) : FastTask := mkFastTask
  (task_size x) (body_at x) (body_len x) (task_canceled x) v.

Definition get_q : M DataThread QueuedRecord := gets th_rec.
Definition modify_q (f : QueuedRecord → QueuedRecord) : M DataThread () :=
  modify (λ t, with_th_rec (f (th_rec t)) t).

(** Runs an operation of the tree. *)
Definition on_server {A} (m : M Server A) : M DataThread A := λ t,
  match m (th_server t) with Some (a, s) => Some (a, with_th_server s t) | None => None end.

Lemma on_server_run {A} (m : M Server A) t a s :
  m (th_server t) = Some (a, s) → on_server m t = Some (a, with_th_server s t).
Proof. unfold on_server. by intros ->. Qed.
End thread.

