(* ===== verification/FlockIndex.v ===== *)
(** * Locks of a dentry: the lock wrappers of [server/inode_index.c]

    A lock is applied for by inode. The dentry gets a lock entry when it has its
    first lock task ([flock.c] works on that entry, see [Flock]) and is held as
    long as the task lives: it counts one more reference, which the release
    hands to the queue of [data_thread.c] that frees without delay. *)

From S2P Require Import Prelude NsSubscribe Flock ServerTypes InodeIndex Dentry.
From S2P Require Import Thread.

Section flock_index.
Context `{UniqSkiplist} `{ServerConfig} `{!StorageEngine}.

(** ** Objects of a lock entry *)

Definition new_flock_entry : FlockState := mkFlockState flock_entry_init ∅ ∅ ∅ None [].

(** Allocates from the pool of the bucket's lock context. *)
Definition flock_alloc {A} (objs : FlockState → gmap ptr A)
    (set_objs : gmap ptr A → FlockState → FlockState) (obj : A) :
    M FlockState (option ptr) := λ s,
  match region_avail s with
  | Some O => Some (None, s)
  | a => let p := fresh_ptr (objs s) in
         Some (Some p, set_region_avail (pred <$> a) (set_objs (<[p := obj]> (objs s)) s))
  end.

Definition flock_alloc_ftask (obj : FLockTask) : M FlockState (option ptr) :=
  flock_alloc ftask_objs set_ftask_objs obj.
Definition flock_alloc_sys_task (obj : SysLockTask) : M FlockState (option ptr) :=
  flock_alloc sys_objs set_sys_objs obj.
Definition flock_free_ftask (f : ptr) : M FlockState () :=
  modify (λ s, set_ftask_objs (delete f (ftask_objs s)) s).
Definition flock_free_sys_task (t : ptr) : M FlockState () :=
  modify (λ s, set_sys_objs (delete t (sys_objs s)) s).

(** ** On a thread *)

(** Runs an operation of [flock.c] on the entry of a dentry; the memory is the
    server's. *)
Definition on_entry {A} (p : ptr) (m : M FlockState A) : M DataThread A := λ t,
  match th_locks t !! p with
  | None => None
  | Some e =>
    match m (set_region_avail (mem_avail (th_server t)) e) with
    | Some (a, e') =>
      Some (a, with_th_server (with_mem_avail (region_avail e') (th_server t))
                 (with_th_locks (<[p := e']> (th_locks t)) t))
    | None => None
    end
  end.

(** Makes sure that [dentry->flock_entry] is there; false: no memory. *)
Definition check_alloc_entry (p : ptr) : M DataThread bool :=
  t ← get_st;
  match th_locks t !! p with
  | Some _ => mret true
  | None =>
    ok ← on_server try_alloc;
    (if (ok : bool) then modify (λ t, with_th_locks (<[p := new_flock_entry]> (th_locks t)) t)
     else mret ());;
    mret ok
  end.

(** [server_add_to_immediate_free_queue_ex] of [data_thread.c]. *)
Definition server_add_to_immediate_free_queue_ex (dec_count : Z) (p : ptr) : M DataThread Z :=
  ok ← on_server try_alloc;
  if (ok : bool) then
    modify (λ t, with_th_immediate (th_immediate t ++ [(dec_count, p)]) t);; mret 0
  else mret ENOMEM.

(** [dentry_release_ex] of [dentry.c]. *)
Definition dentry_release_ex (p : ptr) (dec_count : Z) : M DataThread () :=
  server_add_to_immediate_free_queue_ex dec_count p;; mret ().
Definition dentry_release (p : ptr) : M DataThread () := dentry_release_ex p 1.

(** Holds the dentry for a task that has the lock or waits for it, frees the
    task otherwise; the common end of the two functions that apply for a lock. *)
Definition settle_task (p task : ptr) (free : M FlockState ()) (result : Z) :
    M DataThread (Z * option (ptr * ptr)) :=
  if (result =? 0) || (result =? EINPROGRESS) then
    on_server (dentry_hold p);; mret (result, Some (p, task))
  else on_entry p free;; mret (result, None).

Definition inode_index_flock_apply (thread_ctx : ptr) (inode : Z) (params : FlockParams)
    (block : bool) (task : ptr) : M DataThread (Z * option (ptr * ptr)) :=
  '(rc, dentry) ← on_server (inode_index_get_dentry thread_ctx inode);
  if negb (rc =? 0) then mret (rc, None)
  else
    p ← non_null dentry;
    ok ← check_alloc_entry p;
    if negb ok then mret (ENOMEM, None)
    else
      ftask ← on_entry p (flock_alloc_ftask (mkFLockTask (fp_type params)
                FDIR_FLOCK_TASK_NOT_IN_QUEUE (fp_owner params) None task p));
      match ftask with
      | None => mret (ENOMEM, None)
      | Some f =>
        result ← on_entry p (flock_apply (fp_offset params) (fp_length params) f block);
        settle_task p f (flock_free_ftask f) result
      end.

Definition inode_index_flock_release (ftask : ptr * ptr) : M DataThread () :=
  let '(p, f) := ftask in
  t ← get_st;
  (match th_locks t !! p with Some _ => on_entry p (flock_release f) | None => mret () end);;
  dentry_release p;;
  on_entry p (flock_free_ftask f).

Definition inode_index_sys_lock_apply (thread_ctx : ptr) (inode : Z) (block : bool)
    (task : ptr) : M DataThread (Z * option (ptr * ptr)) :=
  '(rc, dentry) ← on_server (inode_index_get_dentry thread_ctx inode);
  if negb (rc =? 0) then mret (rc, None)
  else
    p ← non_null dentry;
    ok ← check_alloc_entry p;
    if negb ok then mret (ENOMEM, None)
    else
      sys_task ← on_entry p (flock_alloc_sys_task
                   (mkSysLockTask FDIR_SYS_TASK_STATUS_NONE task p));
      match sys_task with
      | None => mret (ENOMEM, None)
      | Some k =>
        result ← on_entry p (sys_lock_apply k block);
        settle_task p k (flock_free_sys_task k) result
      end.

Definition inode_index_sys_lock_release (sys_task : ptr * ptr) : M DataThread Z :=
  let '(p, k) := sys_task in
  t ← get_st;
  result ← (match th_locks t !! p with
            | Some _ => on_entry p (sys_lock_release k)
            | None => mret ENOENT
            end);
  dentry_release p;;
  on_entry p (flock_free_sys_task k);;
  mret result.
End flock_index.
