(* ===== verification/DataThread.v ===== *)
(** * The data threads: [server/data_thread.c], [server/data_thread.h]

    A data thread takes records from its queue one by one. An update is applied
    to the tree, gets a data version - a new one, or the one it comes with when
    it is replayed from the binlog - and its request is told the result; a query
    only reads. Dentries that were removed or released are freed after each
    batch of records.

    This file has the operations, as the code has them; [DataThreadSpec] has the
    theorems. *)

From S2P Require Import Prelude NsSubscribe Flock ServerTypes NsManager InodeIndex.
From S2P Require Import Dentry Thread FlockIndex.

(** [sizeof(FDIRProtoStatDEntryResp)] ([common/fdir_proto.h]): an inode of 8
    bytes, eight fields of 4 and three of 8. *)
Definition sizeof_StatDEntryResp : Z := 64.

Definition ECANCELED : Z := 125.
Definition EPROTONOSUPPORT : Z := 93.

Definition slen (s : string) : Z := Z.of_nat (String.length s).
Definition FDIR_IS_ROOT_PATH (path : string) : bool := bool_decide (path = "/"%string).

(** [options.flags] after the modified fields were set one by one. *)
Definition options_flags (o : StatModifyFlags) : bool :=
  o_mode o || o_atime o || o_ctime o || o_mtime o || o_gid o || o_uid o || o_size o ||
  o_inc_alloc o || o_space_end o.

(** The storage plugin's side of an update: [push_to_db_update_queue], which
    hands the changed dentries to [db/change_notify.c], and the same for the
    records of a batch. Called only when [STORAGE_ENABLED]. *)
Class ChangeNotify `{UniqSkiplist} := {
  push_to_db_update_queue : M DataThread Z;
  push_batch_set_dsize_to_db_update_queue : M DataThread Z
}.

Section data_thread.
Context `{UniqSkiplist} `{ServerConfig} `{!StorageEngine} `{!PathSplit} `{!ChangeNotify}.

(** ** Freeing *)

(** Lock entries go with their dentries ([inode_index_free_flock_entry]). *)
Definition free_flock_entries : M DataThread () :=
  modify (λ t, with_th_locks
    (filter (λ x : ptr * FlockState, is_Some (dentries (th_server t) !! x.1)) (th_locks t)) t).

(** [dentry_free_ex]. *)
Definition thread_dentry_free (p : ptr) (dec_count : Z) : M DataThread () :=
  t ← get_st;
  on_server (dentry_do_free (size (dentries (th_server t))) p dec_count);;
  free_flock_entries.

(** The nodes at the head of the queue that have expired. *)
Fixpoint expired_loop (now : Z) (queue : list FreeNode) : M DataThread (list FreeNode) :=
  match queue with
  | [] => mret []
  | node :: rest =>
    if fn_expires node <? now then
      thread_dentry_free (fn_ptr node) 1;; expired_loop now rest
    else mret (node :: rest)
  end.

Definition deal_delay_free_queue : M DataThread () :=
  t ← get_st;
  let now := current_time (th_server t) in
  let queue := free_queue (th_server t) in
  if (th_last_check_time t =? now) || bool_decide (queue = []) then mret ()
  else
    modify (with_th_last_check_time now);;
    rest ← expired_loop now queue;
    on_server (modify (with_free_queue rest)).

Fixpoint immediate_loop (queue : list (Z * ptr)) : M DataThread () :=
  match queue with
  | [] => mret ()
  | (dec_count, p) :: rest => thread_dentry_free p dec_count;; immediate_loop rest
  end.

Definition deal_immediate_free_queue : M DataThread () :=
  t ← get_st;
  modify (with_th_immediate []);;
  immediate_loop (th_immediate t).

(** ** Finding what a record is about *)

Definition set_me_parent (p : option ptr) : M DataThread () :=
  on_server (modify_rec (λ r, with_r_me (with_re_parent p (r_me r)) r)).
Definition set_me_name (name : option string) : M DataThread () :=
  match name with
  | Some n => on_server (modify_rec (λ r, with_r_me (with_re_pname n (r_me r)) r))
  | None => mret ()
  end.
Definition set_src_parent (p : option ptr) : M DataThread () :=
  on_server (modify_rec (λ r, with_r_src (with_re_parent p (r_src r)) r)).
Definition set_src_name (name : option string) : M DataThread () :=
  match name with
  | Some n => on_server (modify_rec (λ r, with_r_src (with_re_pname n (r_src r)) r))
  | None => mret ()
  end.
Definition set_inode (inode : Z) : M DataThread () := on_server (modify_rec (with_r_inode inode)).

(** The inode of a dentry, 0 for none. *)
Definition inode_or_0 (p : option ptr) : M DataThread Z :=
  match p with
  | Some p => d ← on_server (load_dentry p); mret (d_inode d)
  | None => mret 0
  end.

(** Where [service_set_record_pname_info] of [service_handler.c] copies the
    namespace and the name in the task's buffer: after the request's body or,
    when this does not fit, over it, where the strings themselves may be; the
    model stops there. *)
Definition pname_info_at (k : FastTask) (r : BinlogRecord) : option (Z + Z) :=
  let len := slen (r_ns r) + slen (re_pname (r_me r)) in
  let over_body := (sizeof_StatDEntryResp <? body_len k) &&
                   negb (body_len k + len <? task_size k) in
  let p := body_at k + (if (sizeof_StatDEntryResp <? body_len k) && negb over_body
                        then body_len k else sizeof_StatDEntryResp) in
  if task_size k <? p + len then Some (inl EOVERFLOW)
  else if over_body then None
  else Some (inr (p + slen (r_ns r))).

Definition service_set_record_pname_info : M DataThread Z :=
  t ← get_st;
  modify_q (with_q_path_enabled true);;
  match pname_info_at (th_task t) (record (th_server t)) with
  | None => stuck
  | Some (inl result) => mret result
  | Some (inr name_at) => modify_q (with_q_name_at name_at);; mret 0
  end.

(** [service_set_record_link]: copies the link after the name. *)
Definition service_set_record_link : M DataThread Z :=
  t ← get_st;
  let r := record (th_server t) in
  let link_str := q_name_at (th_rec t) + slen (re_pname (r_me r)) in
  mret (if task_size (th_task t) <? link_str + slen (r_link r) then EOVERFLOW else 0).

Definition check_parent (thread_ctx : ptr) : M DataThread Z :=
  q ← get_q;
  if q_parent_inode q =? 0 then set_me_parent None;; mret 0
  else
    '(rc, parent) ← on_server (inode_index_get_dentry thread_ctx (q_parent_inode q));
    set_me_parent parent;; mret rc.

Definition find_or_check_parent (thread_ctx : ptr) : M DataThread Z :=
  q ← get_q;
  if negb (bool_decide (q_dentry_type q = dentry_type_fullname)) then check_parent thread_ctx
  else
    let path := fn_path (q_me_fullname q) in
    let is_create := q_operation q =? BINLOG_OP_CREATE_DENTRY_INT in
    '(rc, parent, name) ← on_server (dentry_find_parent (fn_ns (q_me_fullname q)) path);
    set_me_parent parent;; set_me_name name;;
    if negb (rc =? 0) && negb ((rc =? ENOENT) && is_create && FDIR_IS_ROOT_PATH path)
    then mret rc
    else if (rc =? 0) && is_create && FDIR_IS_ROOT_PATH path then mret EEXIST
    else
      inode ← inode_or_0 parent;
      modify_q (with_q_parent_inode inode);;
      on_server (set_me_dentry None);;
      service_set_record_pname_info.

(** [set_pname_by_fullname] of the two entries of a rename. *)
Definition set_src_by_fullname : M DataThread Z :=
  q ← get_q;
  '(rc, parent, name) ← on_server (dentry_find_parent (fn_ns (q_src_fullname q))
                                     (fn_path (q_src_fullname q)));
  set_src_parent parent;; set_src_name name;;
  if negb (rc =? 0) then mret rc
  else
    match parent with
    | None => mret EINVAL
    | Some _ => inode ← inode_or_0 parent; modify_q (with_q_src_parent_inode inode);; mret 0
    end.

Definition set_dest_by_fullname : M DataThread Z :=
  q ← get_q;
  '(rc, parent, name) ← on_server (dentry_find_parent (fn_ns (q_me_fullname q))
                                     (fn_path (q_me_fullname q)));
  set_me_parent parent;; set_me_name name;;
  if negb (rc =? 0) then mret rc
  else
    match parent with
    | None => mret EINVAL
    | Some _ => inode ← inode_or_0 parent; modify_q (with_q_parent_inode inode);; mret 0
    end.

Definition set_hdlink_src_dentry (thread_ctx : ptr) : M DataThread Z :=
  q ← get_q;
  let by_path := bool_decide (q_dentry_type q = dentry_type_fullname) in
  '(rc, src) ← (if by_path
                then on_server (dentry_find (fn_ns (q_hdlink_fullname q))
                                  (fn_path (q_hdlink_fullname q)))
                else on_server (inode_index_get_dentry thread_ctx (q_hdlink_inode q)));
  on_server (modify_rec (with_r_hdlink_src src));;
  if negb (rc =? 0) then mret rc
  else
    p ← non_null src;
    d ← on_server (load_dentry p);
    (if by_path then modify_q (with_q_hdlink_inode (d_inode d)) else mret ());;
    let mode := st_mode (d_stat d) in
    if S_ISDIR mode || FDIR_IS_DENTRY_HARD_LINK mode then mret EPERM
    else
      on_server (modify_rec (λ r, with_r_stat
        (with_st_mode (Z.lor (st_mode (r_stat r)) (Z.land mode S_IFMT)) (r_stat r)) r));;
      mret 0.

(** The source's name is copied behind the destination's, without a look at the
    size of the buffer. *)
Definition copy_src_name : M DataThread () :=
  t ← get_st;
  let r := record (th_server t) in
  let src_name := q_name_at (th_rec t) + slen (re_pname (r_me r)) in
  if task_size (th_task t) <? src_name + slen (re_pname (r_src r)) then stuck else mret ().

Definition rename_find_parents (thread_ctx : ptr) : M DataThread Z :=
  q ← get_q;
  if bool_decide (q_dentry_type q = dentry_type_fullname) then
    rc ← set_src_by_fullname;
    if negb (rc =? 0) then mret rc
    else
      rc ← set_dest_by_fullname;
      if negb (rc =? 0) then mret rc else service_set_record_pname_info
  else
    '(rc, parent) ← on_server (inode_index_get_dentry thread_ctx (q_src_parent_inode q));
    set_src_parent parent;;
    if negb (rc =? 0) then mret rc
    else
      '(rc, parent) ← on_server (inode_index_get_dentry thread_ctx (q_parent_inode q));
      set_me_parent parent;; mret rc.

Definition deal_record_rename_op (thread_ctx : ptr) : M DataThread Z :=
  rc ← rename_find_parents thread_ctx;
  if negb (rc =? 0) then mret rc
  else
    q ← get_q;
    (if bool_decide (q_dentry_type q = dentry_type_inode) then mret () else copy_src_name);;
    on_server (dentry_rename thread_ctx).

Definition xattr_update_prepare (thread_ctx : ptr) : M DataThread Z :=
  q ← get_q;
  r ← on_server get_rec;
  if bool_decide (q_dentry_type q = dentry_type_inode) then
    '(rc, dentry) ← on_server (inode_index_get_dentry thread_ctx (r_inode r));
    on_server (set_me_dentry dentry);; mret rc
  else
    '(rc, dentry) ← on_server (dentry_find (fn_ns (q_me_fullname q))
                                 (fn_path (q_me_fullname q)));
    on_server (set_me_dentry dentry);;
    if negb (rc =? 0) then mret rc
    else
      p ← non_null dentry;
      d ← on_server (load_dentry p);
      set_inode (d_inode d);;
      set_me_name (Some (d_name d));;
      inode ← inode_or_0 (d_parent d);
      modify_q (with_q_parent_inode inode);;
      mret 0.

(** ** Sizes *)

(** [inode_index_check_set_dentry_size] clears [options.flags], the flags of
    the path information with it, once the dentry is found. *)
Definition check_set_dentry_size (thread_ctx : ptr) : M DataThread Z :=
  rc ← on_server (inode_index_check_set_dentry_size thread_ctx);
  (if rc =? 0 then modify_q (with_q_path_enabled false) else mret ());;
  mret rc.

(** Whether [options.flags] is set: the request's flags until they are cleared,
    the modified fields afterwards. *)
Definition flags_set (r : BinlogRecord) : bool :=
  negb (r_modified r =? 0) || options_flags (r_options r).

(** The first loop of [batch_set_dentry_size]: the items as they are left, how
    many were found and how many changed. *)
Fixpoint batch_check_loop (thread_ctx : ptr) (items : list BatchItem) :
    M DataThread (list BatchItem * Z * Z) :=
  match items with
  | [] => mret ([], 0, 0)
  | item :: rest =>
    on_server (modify (with_record (bi_record item)));;
    rc ← on_server (inode_index_check_set_dentry_size thread_ctx);
    r ← on_server get_rec;
    '(items', success, updated) ← batch_check_loop thread_ctx rest;
    mret (mkBatchItem r (bi_data_version item) :: items',
          success + (if rc =? 0 then 1 else 0),
          updated + (if (rc =? 0) && flags_set r then 1 else 0))
  end.

(** The second loop: the next version for each item whose flags are set. *)
Fixpoint batch_assign_loop (current_version : Z) (items : list BatchItem) : list BatchItem :=
  match items with
  | [] => []
  | item :: rest =>
    if flags_set (bi_record item) then
      let v := uint64 (current_version + 1) in
      mkBatchItem (bi_record item) v :: batch_assign_loop v rest
    else item :: batch_assign_loop current_version rest
  end.

(** [__sync_add_and_fetch(&DATA_CURRENT_VERSION, n)]. *)
Definition add_current_version (n : Z) : M DataThread Z :=
  modify (λ t, with_th_current_version (uint64 (th_current_version t + n)) t);;
  gets th_current_version.

Definition batch_set_dentry_size (thread_ctx : ptr) : M DataThread Z :=
  q ← get_q;
  r ← on_server get_rec;
  '(items, success, updated) ← batch_check_loop thread_ctx (q_batch q);
  on_server (modify (with_record r));;
  modify_q (λ q, with_q_batch items
    (with_q_counts (mkBatchCounts (bc_total (q_counts q)) success updated) q));;
  if success =? 0 then mret ENOENT
  else if updated =? 0 then mret 0
  else
    version ← add_current_version updated;
    modify_q (λ q, with_q_batch (batch_assign_loop (uint64 (version - updated)) items)
      (with_q_data_version version q));;
    mret 0.

(** ** Updates *)

(** [service_sys_lock_release] of [service_handler.h], with [need_check]. *)
Definition service_sys_lock_release : M DataThread Z :=
  t ← get_st;
  if task_canceled (th_task t) then mret ECANCELED
  else
    match sys_lock_task (th_task t) with
    | None => mret ENOENT
    | Some task =>
      rc ← inode_index_sys_lock_release task;
      modify (λ t, with_th_task (with_sys_lock_task None (th_task t)) t);;
      mret rc
    end.

Definition deal_create_op (thread_ctx : ptr) : M DataThread (Z * Z) :=
  rc ← find_or_check_parent thread_ctx;
  if negb (rc =? 0) then mret (rc, 0)
  else
    q ← get_q;
    r ← on_server get_rec;
    let mode := st_mode (r_stat r) in
    rc ← (if FDIR_IS_DENTRY_HARD_LINK mode then set_hdlink_src_dentry thread_ctx
          else if S_ISLNK mode && bool_decide (q_dentry_type q = dentry_type_fullname)
          then service_set_record_link
          else mret 0);
    if negb (rc =? 0) then mret (rc, 0)
    else
      rc ← on_server (dentry_create thread_ctx);
      mret (rc, EEXIST).

Definition deal_remove_op (thread_ctx : ptr) : M DataThread (Z * Z) :=
  rc ← find_or_check_parent thread_ctx;
  if negb (rc =? 0) then mret (rc, 0)
  else
    rc ← on_server (dentry_remove thread_ctx);
    mret (rc, ENOENT).

(** The data version of a change of size that changed something. *)
Definition deal_set_dsize_op (thread_ctx : ptr) : M DataThread (Z * Z) :=
  rc ← check_set_dentry_size thread_ctx;
  r ← on_server get_rec;
  (if (rc =? 0) && flags_set r then
     version ← add_current_version 1; modify_q (with_q_data_version version)
   else mret ());;
  mret (rc, 0).

(** The switch of [deal_update_record]: the result and the error number that
    is ignored when records are replayed. *)
Definition update_switch (thread_ctx : ptr) : M DataThread (Z * Z) :=
  q ← get_q;
  let op := q_operation q in
  if op =? BINLOG_OP_CREATE_DENTRY_INT then deal_create_op thread_ctx
  else if op =? BINLOG_OP_REMOVE_DENTRY_INT then deal_remove_op thread_ctx
  else if op =? BINLOG_OP_RENAME_DENTRY_INT then
    rc ← deal_record_rename_op thread_ctx; mret (rc, 0)
  else if op =? BINLOG_OP_UPDATE_DENTRY_INT then
    rc ← on_server (inode_index_update_dentry thread_ctx); mret (rc, 0)
  else if op =? BINLOG_OP_SET_XATTR_INT then
    rc ← xattr_update_prepare thread_ctx;
    if rc =? 0 then
      r ← on_server get_rec;
      p ← non_null (re_dentry (r_me r));
      rc ← on_server (inode_index_set_xattr p); mret (rc, 0)
    else mret (rc, 0)
  else if op =? BINLOG_OP_REMOVE_XATTR_INT then
    rc ← xattr_update_prepare thread_ctx;
    if rc =? 0 then
      r ← on_server get_rec;
      p ← non_null (re_dentry (r_me r));
      rc ← on_server (inode_index_remove_xattr p (fst (r_xattr r))); mret (rc, ENODATA)
    else mret (rc, ENODATA)
  else if op =? SERVICE_OP_SYS_LOCK_RELEASE_INT then
    rc ← service_sys_lock_release;
    if negb (rc =? 0) then mret (rc, 0)
    else
      modify_q (with_q_operation SERVICE_OP_SET_DSIZE_INT);;
      deal_set_dsize_op thread_ctx
  else if op =? SERVICE_OP_SET_DSIZE_INT then deal_set_dsize_op thread_ctx
  else if op =? SERVICE_OP_BATCH_SET_DSIZE_INT then
    rc ← batch_set_dentry_size thread_ctx; mret (rc, ENOENT)
  else mret (0, 0).

(** What [deal_update_record] does about the data version after the switch:
    [is_error]. *)
Definition settle_version (result ignore_errno : Z) : M DataThread bool :=
  t ← get_st;
  let q := th_rec t in
  if (q_operation q =? SERVICE_OP_BATCH_SET_DSIZE_INT) ||
     (q_operation q =? SERVICE_OP_SET_DSIZE_INT) then
    (if q_operation q =? SERVICE_OP_SET_DSIZE_INT
     then modify_q (with_q_operation BINLOG_OP_UPDATE_DENTRY_INT) else mret ());;
    mret (negb (result =? 0))
  else if (result =? 0) && (q_data_version q =? 0) then
    version ← add_current_version 1;
    modify_q (with_q_data_version version);; mret false
  else
    let is_error := negb (result =? 0) &&
      negb ((result =? ignore_errno) && (th_error_mode t =? FDIR_DATA_ERROR_MODE_LOOSE)) in
    (if (0 <? q_data_version q) && negb is_error && (th_current_version t <? q_data_version q)
     then modify (with_th_current_version (q_data_version q)) else mret ());;
    mret is_error.

(** The storage plugin's part; the thread's process ends when it fails. *)
Definition notify_storage (result : Z) : M DataThread Z :=
  q ← get_q;
  if (result =? 0) && STORAGE_ENABLED && (0 <? q_data_version q) then
    modify (λ t, if th_last_version t <? q_data_version q
                 then with_th_last_version (q_data_version q) t else t);;
    (if q_operation q =? SERVICE_OP_BATCH_SET_DSIZE_INT
     then push_batch_set_dsize_to_db_update_queue else push_to_db_update_queue)
  else mret result.

(** [record->notify.func]. *)
Definition notify (result : Z) (is_error : bool) : M DataThread () :=
  modify (λ t, with_th_notified (th_notified t ++
    [mkNotice (q_operation (th_rec t)) (q_data_version (th_rec t)) result is_error]) t).

Definition deal_update_record (thread_ctx : ptr) : M DataThread Z :=
  on_server (modify_rec (with_r_affected []));;
  '(result, ignore_errno) ← update_switch thread_ctx;
  is_error ← settle_version result ignore_errno;
  result ← notify_storage result;
  q ← get_q;
  (if q_notify q then notify result is_error else mret ());;
  mret result.

(** ** Queries *)

Definition deal_list_dentry (thread_ctx : ptr) : M DataThread Z :=
  t ← get_st;
  r ← on_server get_rec;
  let q := th_rec t in
  if bool_decide (q_dentry_type q = dentry_type_inode) then
    '(rc, dentry) ← on_server (inode_index_get_dentry thread_ctx (r_inode r));
    on_server (set_me_dentry dentry);;
    if negb (rc =? 0) then mret rc
    else
      p ← non_null dentry;
      '(rc, a) ← on_server (dentry_list p (th_list_cache t));
      modify (with_th_list_cache a);; mret rc
  else
    '(rc, a) ← on_server (dentry_list_by_path (fn_ns (q_me_fullname q))
                            (fn_path (q_me_fullname q)) (th_list_cache t));
    modify (with_th_list_cache a);; mret rc.

Definition deal_flock_apply (thread_ctx task : ptr) : M DataThread Z :=
  q ← get_q;
  r ← on_server get_rec;
  '(result, ftask) ← inode_index_flock_apply thread_ctx (r_inode r) (q_flock q)
                       (q_blocked q) task;
  modify_q (with_q_ftask ftask);; mret result.

Definition deal_sys_lock_apply (thread_ctx task : ptr) : M DataThread Z :=
  q ← get_q;
  r ← on_server get_rec;
  '(result, stask) ← inode_index_sys_lock_apply thread_ctx (r_inode r) (q_blocked q) task;
  modify_q (with_q_stask stask);; mret result.

(** The dentry a query is about, however it is named. *)
Definition query_dentry (thread_ctx : ptr) : M DataThread (Z * option ptr) :=
  q ← get_q;
  r ← on_server get_rec;
  match q_dentry_type q with
  | dentry_type_inode => on_server (inode_index_get_dentry thread_ctx (r_inode r))
  | dentry_type_pname =>
    on_server (inode_index_get_dentry_by_pname thread_ctx (q_parent_inode q)
                 (re_pname (r_me r)))
  | dentry_type_fullname =>
    on_server (dentry_find (fn_ns (q_me_fullname q)) (fn_path (q_me_fullname q)))
  end.

Definition deal_dentry_query (thread_ctx : ptr) : M DataThread Z :=
  q ← get_q;
  '(rc, dentry) ← query_dentry thread_ctx;
  on_server (set_me_dentry dentry);;
  if negb (rc =? 0) then mret rc
  else
    p ← non_null dentry;
    if q_operation q =? SERVICE_OP_GET_XATTR_INT then
      r ← on_server get_rec;
      '(rc, value) ← on_server (inode_index_get_xattr p (fst (r_xattr r)));
      (match value with
       | Some v => on_server (modify_rec (λ r, with_r_xattr (fst (r_xattr r), v) r))
       | None => mret ()
       end);;
      mret rc
    else if (q_operation q =? SERVICE_OP_LIST_XATTR_INT) && STORAGE_ENABLED then
      on_server (dentry_load_xattr thread_ctx p)
    else mret rc.

Definition is_dentry_query (op : Z) : bool :=
  (op =? SERVICE_OP_STAT_DENTRY_INT) || (op =? SERVICE_OP_READ_LINK_INT) ||
  (op =? SERVICE_OP_LOOKUP_INODE_INT) || (op =? SERVICE_OP_GET_XATTR_INT) ||
  (op =? SERVICE_OP_LIST_XATTR_INT).

Definition deal_query_record (thread_ctx task : ptr) : M DataThread Z :=
  q ← get_q;
  let op := q_operation q in
  result ← (if is_dentry_query op then deal_dentry_query thread_ctx
            else if op =? SERVICE_OP_LIST_DENTRY_INT then deal_list_dentry thread_ctx
            else if op =? SERVICE_OP_FLOCK_APPLY_INT then deal_flock_apply thread_ctx task
            else if op =? SERVICE_OP_SYS_LOCK_APPLY_INT then deal_sys_lock_apply thread_ctx task
            else mret EPROTONOSUPPORT);
  notify result (negb (result =? 0));;
  mret result.

(** ** The thread's loop *)

(** A record of the queue with its task. *)
Record QueueItem := mkQueueItem {
  qi_is_update : bool;
  qi_rec : QueuedRecord;
  qi_record : BinlogRecord;
  qi_task : FastTask;
  qi_notify_task : ptr
}.

Definition deal_record (thread_ctx : ptr) (item : QueueItem) : M DataThread Z :=
  modify (λ t, with_th_task (qi_task item) (with_th_rec (qi_rec item) t));;
  on_server (modify (with_record (qi_record item)));;
  if qi_is_update item then deal_update_record thread_ctx
  else deal_query_record thread_ctx (qi_notify_task item).

Fixpoint deal_records (thread_ctx : ptr) (items : list QueueItem) : M DataThread () :=
  match items with
  | [] => mret ()
  | item :: rest => deal_record thread_ctx item;; deal_records thread_ctx rest
  end.

(** One round of [data_thread_func]: the records that were in the queue. *)
Definition data_thread_round (thread_ctx : ptr) (items : list QueueItem) : M DataThread () :=
  deal_records thread_ctx items;;
  deal_delay_free_queue;;
  deal_immediate_free_queue.
End data_thread.

(** ** The version that is safe in the storage *)

(** [update_notify] of a thread: the records that wait and the last version. *)
Record UpdateNotify := mkUpdateNotify { un_waiting_records : Z; un_last_version : Z }.

(** [data_thread_get_last_data_version]: one turn of its loop. *)
Definition last_version_step (acc : Z * Z) (ctx : UpdateNotify) : Z * Z :=
  let '(min_version, max_version) := acc in
  if 0 <? un_waiting_records ctx then
    (if un_last_version ctx <? min_version then un_last_version ctx else min_version, max_version)
  else
    (min_version, if max_version <? un_last_version ctx then un_last_version ctx else max_version).

Definition INT64_MAX : Z := 2 ^ 63 - 1.

Definition data_thread_get_last_data_version (contexts : list UpdateNotify) : Z :=
  let '(min_version, max_version) := fold_left last_version_step contexts (INT64_MAX, 0) in
  if negb (min_version =? INT64_MAX) then min_version else max_version.
