(* ===== verification/DataThreadSpec.v ===== *)
(** * What the data threads promise

    The data versions: which one an update gets on every branch of
    [deal_update_record], and that the versions a thread hands out are distinct
    and increase. *)

From S2P Require Import Prelude NsSubscribe Flock ServerTypes NsManager InodeIndex.
From S2P Require Import Dentry Thread FlockIndex DataThread.

Section spec.
Context `{UniqSkiplist} `{ServerConfig} `{!StorageEngine} `{!PathSplit} `{!ChangeNotify}.

(** ** What an operation of the switch leaves alone *)

(** The part of a thread's state that belongs to the versions. *)
Definition version_part (t : DataThread) : Z * list Notice * Z * bool * Z * Z :=
  (th_current_version t, th_notified t, q_data_version (th_rec t), q_notify (th_rec t),
   q_operation (th_rec t), th_error_mode t).

Lemma keeps_on_server {A} (m : M Server A) : keeps version_part (on_server m).
Proof.
  intros t a t'. unfold on_server. destruct (m (th_server t)) as [[? ?]|]; [|done].
  by intros [= <- <-].
Qed.
Lemma keeps_modify_q f :
  (∀ q, (q_data_version (f q), q_notify (f q), q_operation (f q))
        = (q_data_version q, q_notify q, q_operation q)) →
  keeps version_part (modify_q f).
Proof.
  intros Hf t a t' [= <- <-]. specialize (Hf (th_rec t)). injection Hf as E1 E2 E3.
  unfold version_part. simpl. by rewrite E1, E2, E3.
Qed.
Lemma keeps_on_entry {A} p (m : M FlockState A) : keeps version_part (on_entry p m).
Proof.
  intros t a t'. unfold on_entry. destruct (th_locks t !! p); [|done].
  destruct (m _) as [[? ?]|]; [|done]. by intros [= <- <-].
Qed.
Hint Resolve keeps_on_server keeps_on_entry : keeps_db.
Hint Extern 1 (keeps version_part (modify_q _)) =>
  apply keeps_modify_q; intros ?; reflexivity : keeps_db.

Lemma keeps_get_q : keeps version_part get_q.
Proof. apply keeps_gets. Qed.
Hint Resolve keeps_get_q : keeps_db.

Lemma keeps_find_or_check_parent c : keeps version_part (find_or_check_parent c).
Proof.
  unfold find_or_check_parent, check_parent, service_set_record_pname_info, inode_or_0,
    set_me_parent, set_me_name. keeps_tac.
Qed.
Lemma keeps_hdlink c : keeps version_part (set_hdlink_src_dentry c).
Proof. unfold set_hdlink_src_dentry. keeps_tac. Qed.
Hint Resolve keeps_find_or_check_parent keeps_hdlink : keeps_db.

Lemma keeps_create_op c : keeps version_part (deal_create_op c).
Proof. unfold deal_create_op, service_set_record_link. keeps_tac. Qed.
Lemma keeps_remove_op c : keeps version_part (deal_remove_op c).
Proof. unfold deal_remove_op. keeps_tac. Qed.
Lemma keeps_rename_op c : keeps version_part (deal_record_rename_op c).
Proof.
  unfold deal_record_rename_op, rename_find_parents, set_src_by_fullname, set_dest_by_fullname,
    service_set_record_pname_info, inode_or_0, set_me_parent, set_me_name, set_src_parent,
    set_src_name, copy_src_name. keeps_tac.
Qed.
Lemma keeps_xattr_prepare c : keeps version_part (xattr_update_prepare c).
Proof. unfold xattr_update_prepare, inode_or_0, set_inode, set_me_name. keeps_tac. Qed.
Lemma keeps_sys_lock_release : keeps version_part service_sys_lock_release.
Proof.
  unfold service_sys_lock_release, inode_index_sys_lock_release, dentry_release,
    dentry_release_ex, server_add_to_immediate_free_queue_ex. keeps_tac.
Qed.
Lemma keeps_check_dsize c : keeps version_part (check_set_dentry_size c).
Proof. unfold check_set_dentry_size. keeps_tac. Qed.
Lemma keeps_batch_check c items : keeps version_part (batch_check_loop c items).
Proof. induction items as [|item items IH]; simpl; keeps_tac. Qed.
Hint Resolve keeps_create_op keeps_remove_op keeps_rename_op keeps_xattr_prepare
  keeps_sys_lock_release keeps_check_dsize keeps_batch_check : keeps_db.

(** ** The versions after the switch *)

(** Operations that change only a dentry's size take their version themselves. *)
Definition is_size_op (op : Z) : bool :=
  (op =? SERVICE_OP_SYS_LOCK_RELEASE_INT) || (op =? SERVICE_OP_SET_DSIZE_INT) ||
  (op =? SERVICE_OP_BATCH_SET_DSIZE_INT).

(** The error number of an operation that is ignored when a record is replayed. *)
Definition ignored_errno (op : Z) : Z :=
  if op =? BINLOG_OP_CREATE_DENTRY_INT then EEXIST
  else if op =? BINLOG_OP_REMOVE_DENTRY_INT then ENOENT
  else if op =? BINLOG_OP_REMOVE_XATTR_INT then ENODATA else 0.

Lemma kept {A} (m : M DataThread A) t a t' :
  keeps version_part m → m t = Some (a, t') → version_part t' = version_part t.
Proof. intros Hk Hm. by apply Hk in Hm. Qed.

Lemma create_op_errno c t rc ig t' :
  deal_create_op c t = Some ((rc, ig), t') → ig = 0 ∨ ig = EEXIST.
Proof.
  unfold deal_create_op. intros (? & ? & _ & Hm)%bind_Some_inv.
  destruct (negb _); [injection Hm; auto|].
  apply bind_Some_inv in Hm as (? & ? & _ & Hm). apply bind_Some_inv in Hm as (? & ? & _ & Hm).
  apply bind_Some_inv in Hm as (? & ? & _ & Hm). destruct (negb _); [injection Hm; auto|].
  apply bind_Some_inv in Hm as (? & ? & _ & Hm). injection Hm. auto.
Qed.

Lemma remove_op_errno c t rc ig t' :
  deal_remove_op c t = Some ((rc, ig), t') → ig = 0 ∨ ig = ENOENT.
Proof.
  unfold deal_remove_op. intros (? & ? & _ & Hm)%bind_Some_inv.
  destruct (negb _); [injection Hm; auto|].
  apply bind_Some_inv in Hm as (? & ? & _ & Hm). injection Hm. auto.
Qed.

(** An operation that is none of the size operations leaves versions alone. *)
Lemma switch_other c t rc ig t' :
  update_switch c t = Some ((rc, ig), t') → is_size_op (q_operation (th_rec t)) = false →
  version_part t' = version_part t ∧ (ig = 0 ∨ ig = ignored_errno (q_operation (th_rec t))).
Proof.
  unfold is_size_op, update_switch. rewrite bind_run with (a := th_rec t) (s' := t) by done.
  set (op := q_operation (th_rec t)). intros Hm ((E1 & E2)%orb_false_iff & E3)%orb_false_iff.
  rewrite E1, E2, E3 in Hm. unfold ignored_errno.
  destruct (op =? BINLOG_OP_CREATE_DENTRY_INT).
  { split; [by eapply kept; [apply keeps_create_op|]|by eapply create_op_errno]. }
  destruct (op =? BINLOG_OP_REMOVE_DENTRY_INT).
  { split; [by eapply kept; [apply keeps_remove_op|]|by eapply remove_op_errno]. }
  revert Hm. repeat case_match; intros Hm; try discriminate;
    (split; [eapply kept; [|exact Hm]; keeps_tac|]);
    repeat (apply bind_Some_inv in Hm as (? & ? & _ & Hm); revert Hm; try case_match; intros Hm);
    injection Hm; auto.
Qed.

(** ** Sizes *)

(** What stays: the thread's notices, the record's operation and whether its
    task is told. *)
Definition frame_part (t : DataThread) : list Notice * bool * Z :=
  (th_notified t, q_notify (th_rec t), th_error_mode t).

Lemma version_frame t t' : version_part t' = version_part t → frame_part t' = frame_part t.
Proof. unfold version_part, frame_part. by intros [= ? -> ? -> ? ->]. Qed.

(** A record's version and the threads' current version: both untouched, or a
    fresh version that is [n] after the one before. *)
Definition untouched (t t' : DataThread) : Prop :=
  th_current_version t' = th_current_version t ∧
  q_data_version (th_rec t') = q_data_version (th_rec t).
Definition took (n : Z) (t t' : DataThread) : Prop :=
  th_current_version t' = uint64 (th_current_version t + n) ∧
  q_data_version (th_rec t') = th_current_version t'.

Lemma dsize_op_versions c t rc ig t' :
  deal_set_dsize_op c t = Some ((rc, ig), t') →
  frame_part t' = frame_part t ∧ q_operation (th_rec t') = q_operation (th_rec t) ∧ ig = 0 ∧
  (untouched t t' ∨ rc = 0 ∧ took 1 t t').
Proof.
  unfold deal_set_dsize_op. intros (rc1 & t1 & H1' & Hm)%bind_Some_inv.
  apply (kept _ _ _ _ (keeps_check_dsize c)) in H1'.
  apply bind_Some_inv in Hm as (r & t2 & H2' & Hm).
  apply (kept _ _ _ _ (keeps_on_server _)) in H2'. rewrite H1' in H2'.
  apply bind_Some_inv in Hm as (u & t3 & H3' & Hm). injection Hm as <- <- <-.
  unfold version_part in H2'. injection H2' as E1 E2 E3 E4 E5 E6. unfold frame_part, untouched, took.
  destruct (rc1 =? 0) eqn:Erc; simpl in H3'.
  - destruct (flags_set r); [|injection H3' as <- <-; split_and!; try congruence; left; split; congruence].
    unfold add_current_version in H3'.
    injection H3' as <- <-. simpl. split_and!; try congruence. right.
    apply Z.eqb_eq in Erc. rewrite E1. done.
  - injection H3' as <- <-. split_and!; try congruence. left. split; congruence.
Qed.

Lemma batch_check_counts c items : ∀ t its success updated t',
  batch_check_loop c items t = Some ((its, success, updated), t') →
  0 ≤ updated ≤ success ∧ success ≤ Z.of_nat (length items).
Proof.
  induction items as [|item items IH]; intros t its su up t' Hm; simpl in Hm.
  { injection Hm as <- <- <- <-. simpl. lia. }
  apply bind_Some_inv in Hm as (? & ? & _ & Hm). apply bind_Some_inv in Hm as (rc & ? & _ & Hm).
  apply bind_Some_inv in Hm as (r & ? & _ & Hm).
  apply bind_Some_inv in Hm as ([[its1 su1] up1] & ? & Hr & Hm). apply IH in Hr.
  injection Hm as <- <- <- <-. cbn [length]. destruct (rc =? 0), (flags_set r); simpl; lia.
Qed.

Lemma batch_versions c t rc t' :
  batch_set_dentry_size c t = Some (rc, t') →
  frame_part t' = frame_part t ∧ q_operation (th_rec t') = q_operation (th_rec t) ∧
  (untouched t t' ∨
   ∃ n, 1 ≤ n ≤ Z.of_nat (length (q_batch (th_rec t))) ∧ rc = 0 ∧ took n t t').
Proof.
  unfold batch_set_dentry_size. rewrite bind_run with (a := th_rec t) (s' := t) by done.
  intros (r & t1 & H1' & Hm)%bind_Some_inv. apply (kept _ _ _ _ (keeps_on_server _)) in H1'.
  apply bind_Some_inv in Hm as ([[its su] up] & t2 & H2' & Hm).
  pose proof (batch_check_counts _ _ _ _ _ _ _ H2') as Hc.
  apply (kept _ _ _ _ (keeps_batch_check _ _)) in H2'. rewrite H1' in H2'.
  apply bind_Some_inv in Hm as (? & t3 & H3' & Hm). apply (kept _ _ _ _ (keeps_on_server _)) in H3'.
  rewrite H2' in H3'. apply bind_Some_inv in Hm as (? & t4 & [= _ <-] & Hm).
  unfold version_part in H3'. injection H3' as E1 E2 E3 E4 E5 E6. unfold frame_part, untouched, took.
  destruct (su =? 0); [injection Hm as <- <-; simpl; split_and!; try congruence; left; split; simpl; congruence|].
  destruct (up =? 0) eqn:Eu; [injection Hm as <- <-; simpl; split_and!; try congruence; left; split; simpl; congruence|].
  unfold add_current_version in Hm. injection Hm as <- <-. simpl.
  split_and!; try congruence. right. exists up. apply Z.eqb_neq in Eu. split; [lia|].
  split; [done|]. rewrite E1. done.
Qed.

(** ** The effect of one update *)

(** How many versions a record may take. *)
Definition weight (q : QueuedRecord) : Z := 1 + Z.of_nat (length (q_batch q)).

(** What an update does to the versions: [rc] is its result, [v] the version of
    its record afterwards. *)
Record version_effect (t : DataThread) (rc : Z) (is_error : bool) (t' : DataThread) : Prop := {
  ve_size : is_size_op (q_operation (th_rec t)) = true →
    is_error = negb (rc =? 0) ∧
    (untouched t t' ∨ rc = 0 ∧ ∃ n, 1 ≤ n ≤ weight (th_rec t) ∧ took n t t');
  ve_done : is_size_op (q_operation (th_rec t)) = false → rc = 0 →
    is_error = false ∧
    if q_data_version (th_rec t) =? 0 then took 1 t t'
    else q_data_version (th_rec t') = q_data_version (th_rec t) ∧
      th_current_version t' = Z.max (th_current_version t) (q_data_version (th_rec t));
  ve_failed : is_size_op (q_operation (th_rec t)) = false → rc ≠ 0 →
    q_data_version (th_rec t') = q_data_version (th_rec t) ∧
    th_current_version t' = (if is_error then th_current_version t
      else Z.max (th_current_version t) (q_data_version (th_rec t))) ∧
    (is_error = false → th_error_mode t = FDIR_DATA_ERROR_MODE_LOOSE ∧
       rc = ignored_errno (q_operation (th_rec t)))
}.

(** [settle_version] where the operation did not take a version itself. *)
Lemma settle_other t rc ig is_error t' :
  settle_version rc ig t = Some (is_error, t') →
  (q_operation (th_rec t) =? SERVICE_OP_BATCH_SET_DSIZE_INT) = false →
  (q_operation (th_rec t) =? SERVICE_OP_SET_DSIZE_INT) = false →
  0 ≤ th_current_version t → 0 ≤ q_data_version (th_rec t) →
  frame_part t' = frame_part t ∧
  if rc =? 0 then is_error = false ∧
    if q_data_version (th_rec t) =? 0 then took 1 t t'
    else q_data_version (th_rec t') = q_data_version (th_rec t) ∧
      th_current_version t' = Z.max (th_current_version t) (q_data_version (th_rec t))
  else q_data_version (th_rec t') = q_data_version (th_rec t) ∧
    is_error = negb ((rc =? ig) && (th_error_mode t =? FDIR_DATA_ERROR_MODE_LOOSE)) ∧
    th_current_version t' = (if is_error then th_current_version t
      else Z.max (th_current_version t) (q_data_version (th_rec t))).
Proof.
  unfold settle_version. rewrite bind_run with (a := t) (s' := t) by done. cbv zeta.
  intros Hm E1 E2 Hc Hv. rewrite E1, E2 in Hm. cbn [orb] in Hm.
  set (v0 := q_data_version (th_rec t)) in *.
  destruct (rc =? 0), (v0 =? 0) eqn:E0; cbn [andb negb] in Hm.
  { unfold add_current_version in Hm. injection Hm as <- <-. done. }
  all: apply bind_Some_inv in Hm as (? & t1 & Hm1 & Hm); injection Hm as <- <-.
  all: try rewrite andb_true_r in Hm1.
  - apply Z.eqb_neq in E0.
    destruct (Z.ltb_spec 0 v0), (Z.ltb_spec (th_current_version t) v0); cbn [andb] in Hm1;
      injection Hm1 as _ <-; simpl; split_and!; try done; fold v0; lia.
  - apply Z.eqb_eq in E0. rewrite E0 in Hm1. cbn in Hm1. injection Hm1 as _ <-.
    split_and!; try done. destruct (negb _); lia.
  - set (b := negb (_ && _)) in *. destruct b; cbn in Hm1.
    + rewrite andb_false_r in Hm1. cbn in Hm1. injection Hm1 as _ <-. done.
    + rewrite andb_true_r in Hm1.
      destruct (Z.ltb_spec 0 v0), (Z.ltb_spec (th_current_version t) v0); cbn [andb] in Hm1;
        injection Hm1 as _ <-; simpl; split_and!; try done; fold v0; lia.
Qed.

(** ... and where it did. *)
Lemma settle_size t rc ig is_error t' :
  settle_version rc ig t = Some (is_error, t') →
  q_operation (th_rec t) = SERVICE_OP_BATCH_SET_DSIZE_INT ∨
    q_operation (th_rec t) = SERVICE_OP_SET_DSIZE_INT →
  frame_part t' = frame_part t ∧ is_error = negb (rc =? 0) ∧ untouched t t'.
Proof.
  unfold settle_version. rewrite bind_run with (a := t) (s' := t) by done. cbv zeta.
  intros Hm [E|E]; rewrite E in Hm; cbn in Hm; by injection Hm as <- <-.
Qed.

(** The switch: versions are untouched or, by the size operations, taken. *)
Lemma switch_size c t rc ig t' :
  update_switch c t = Some ((rc, ig), t') → is_size_op (q_operation (th_rec t)) = true →
  frame_part t' = frame_part t ∧
  (untouched t t' ∨ rc = 0 ∧ ∃ n, 1 ≤ n ≤ weight (th_rec t) ∧ took n t t') ∧
  (q_operation (th_rec t') = SERVICE_OP_BATCH_SET_DSIZE_INT ∨
   q_operation (th_rec t') = SERVICE_OP_SET_DSIZE_INT ∨
   q_operation (th_rec t') = SERVICE_OP_SYS_LOCK_RELEASE_INT ∧ rc ≠ 0 ∧ ig = 0 ∧ untouched t t').
Proof.
  unfold is_size_op, update_switch, weight. rewrite bind_run with (a := th_rec t) (s' := t) by done.
  intros Hm [[E|E]%orb_true_iff|E]%orb_true_iff; apply Z.eqb_eq in E; rewrite E in Hm; cbn in Hm.
  - apply bind_Some_inv in Hm as (rc1 & t1 & Hr & Hm).
    apply (kept _ _ _ _ keeps_sys_lock_release) in Hr as Hk.
    pose proof (version_frame _ _ Hk) as Hfr. unfold version_part in Hk.
    injection Hk as K1 K2 K3 K4 K5 K6. destruct (rc1 =? 0) eqn:E1; cbn [negb] in Hm.
    + apply bind_Some_inv in Hm as (? & t2 & [= _ <-] & Hm).
      apply dsize_op_versions in Hm as (Hf & Ho & -> & Hd). unfold frame_part, untouched, took in *.
      simpl in *. split; [congruence|]. split; [|rewrite Ho; auto].
      destruct Hd as [[D1 D2]|(-> & D1 & D2)]; [left; split; congruence|].
      right. split; [done|]. exists 1. split; [lia|]. split; congruence.
    + injection Hm as <- <- <-. split; [done|]. split; [left; by split|]. right. right.
      apply Z.eqb_neq in E1. unfold untouched. split_and!; congruence.
  - apply dsize_op_versions in Hm as (Hf & Ho & -> & Hd). split; [done|].
    split; [|rewrite Ho; auto]. destruct Hd as [?|(-> & ?)]; [by left|].
    right. split; [done|]. exists 1. split; [lia|done].
  - apply bind_Some_inv in Hm as (rc1 & t1 & Hr & Hm). injection Hm as <- <- <-.
    apply batch_versions in Hr as (Hf & Ho & Hd). split; [done|].
    split; [|rewrite Ho; auto]. destruct Hd as [?|(n & ? & -> & ?)]; [by left|].
    right. split; [done|]. exists n. split; [lia|done].
Qed.

Lemma reset_affected t u t' :
  on_server (modify_rec (with_r_affected [])) t = Some (u, t') →
  version_part t' = version_part t ∧ th_rec t' = th_rec t.
Proof. by intros [= _ <-]. Qed.

(** The notice of a record that is done. *)
Definition notice (t' : DataThread) (rc : Z) (is_error : bool) : Notice :=
  mkNotice (q_operation (th_rec t')) (q_data_version (th_rec t')) rc is_error.

Lemma update_effect c t rc t' :
  STORAGE_ENABLED = false → deal_update_record c t = Some (rc, t') →
  0 ≤ th_current_version t → 0 ≤ q_data_version (th_rec t) →
  ∃ is_error, version_effect t rc is_error t' ∧ th_error_mode t' = th_error_mode t ∧
    th_notified t' = th_notified t ++
      (if q_notify (th_rec t) then [notice t' rc is_error] else []).
Proof.
  intros Hst Hm Hc Hv. unfold deal_update_record in Hm.
  apply bind_Some_inv in Hm as (u & t0 & [Hr0 Eq0]%reset_affected & Hm).
  apply bind_Some_inv in Hm as ([rc1 ig] & t1 & Hsw & Hm). cbn beta iota in Hm.
  apply bind_Some_inv in Hm as (is_error & t2 & Hset & Hm).
  apply bind_Some_inv in Hm as (rc2 & t3 & Hsto & Hm).
  unfold notify_storage in Hsto. rewrite bind_run with (a := th_rec t2) (s' := t2) in Hsto by done.
  rewrite Hst, andb_false_r in Hsto. cbn [andb] in Hsto. injection Hsto as <- <-.
  rewrite bind_run with (a := th_rec t2) (s' := t2) in Hm by done.
  apply bind_Some_inv in Hm as (u2 & t4 & Hnot & Hm). injection Hm as <- <-.
  unfold notify, modify, mret, M_ret in Hnot.
  pose proof (version_frame _ _ Hr0) as Hf0. unfold version_part in Hr0.
  injection Hr0 as K1 K2 K3 K4 K5 K6.
  assert (untouched t2 t4 ∧ frame_part t2 = frame_part t ∧ version_effect t rc1 is_error t2) as Heff.
  { assert (untouched t2 t4) as Hu by (destruct (q_notify (th_rec t2)); by injection Hnot as _ <-).
    split; [done|]. destruct (is_size_op (q_operation (th_rec t))) eqn:Esz.
    - apply switch_size in Hsw as (Hf1 & Hd & Hop); [|by rewrite Eq0].
      assert (frame_part t2 = frame_part t1 ∧ is_error = negb (rc1 =? 0) ∧ untouched t1 t2)
        as (Hf2 & He & [Hu1 Hu2]).
      { destruct Hop as [Ho|[Ho|(Ho & Hrc & -> & U1 & U2)]];
          [eapply settle_size; eauto..|].
        apply settle_other in Hset as [Hf2 Hres]; [|by rewrite Ho|by rewrite Ho|congruence|congruence].
        apply Z.eqb_neq in Hrc. rewrite Hrc in Hres |- *. destruct Hres as (R1 & -> & R3).
        cbn in R3 |- *. split_and!; done. }
      split; [congruence|]. split; [|congruence..]. intros _. split; [done|].
      unfold untouched, took in *. rewrite Eq0 in Hd. rewrite Hu1, Hu2, <- K1. exact Hd.
    - apply switch_other in Hsw as [Hk Hig]; [|by rewrite Eq0].
      pose proof (version_frame _ _ Hk) as Hf1. unfold version_part in Hk.
      injection Hk as L1 L2 L3 L4 L5 L6. rewrite Eq0 in *.
      unfold is_size_op in Esz. apply orb_false_iff in Esz as [[Ea Eb]%orb_false_iff Ec].
      apply settle_other in Hset as [Hf2 Hres]; [|congruence..].
      split; [congruence|]. destruct (Z.eqb_spec rc1 0) as [->|Hrc].
      + split; [unfold is_size_op; rewrite Ea, Eb, Ec; done| |done]. intros _ _.
        unfold took in *. rewrite L1, L3, K1 in Hres. exact Hres.
      + split; [unfold is_size_op; rewrite Ea, Eb, Ec; done|done|]. intros _ _.
        destruct Hres as (R1 & R2 & R3). rewrite L1, L3, K1 in *. split; [done|]. split; [done|].
        intros ->. symmetry in R2. apply negb_false_iff, andb_true_iff in R2 as [R2 R4].
        apply Z.eqb_eq in R2, R4. split; [congruence|]. destruct Hig as [->| ->]; [done|done]. }
  destruct Heff as ([U1 U2] & Hf & [V1 V2 V3]). exists is_error.
  unfold frame_part in Hf. injection Hf as F1 F2 F3.
  split; [|split].
  - unfold untouched, took in *. split; unfold untouched, took; rewrite ?U1, ?U2; assumption.
  - destruct (q_notify (th_rec t2)); injection Hnot as _ <-; simpl; congruence.
  - rewrite F2 in Hnot. destruct (q_notify (th_rec t)); injection Hnot as _ <-; simpl; [by rewrite F1|].
    by rewrite app_nil_r.
Qed.

(** ** The effect of a query *)

Lemma keeps_flock_apply c task : keeps version_part (deal_flock_apply c task).
Proof.
  unfold deal_flock_apply, inode_index_flock_apply, check_alloc_entry, settle_task. keeps_tac.
Qed.
Lemma keeps_sys_lock_apply c task : keeps version_part (deal_sys_lock_apply c task).
Proof.
  unfold deal_sys_lock_apply, inode_index_sys_lock_apply, check_alloc_entry, settle_task. keeps_tac.
Qed.
Lemma keeps_list c : keeps version_part (deal_list_dentry c).
Proof. unfold deal_list_dentry. keeps_tac. Qed.
Lemma keeps_query_dentry c : keeps version_part (query_dentry c).
Proof. unfold query_dentry. keeps_tac. Qed.
Hint Resolve keeps_query_dentry : keeps_db.
Lemma keeps_dentry_query c : keeps version_part (deal_dentry_query c).
Proof. unfold deal_dentry_query. keeps_tac. Qed.
Hint Resolve keeps_flock_apply keeps_sys_lock_apply keeps_list keeps_dentry_query : keeps_db.

Lemma query_effect c task t rc t' :
  deal_query_record c task t = Some (rc, t') →
  untouched t t' ∧ th_notified t' = th_notified t ++ [notice t' rc (negb (rc =? 0))].
Proof.
  unfold deal_query_record. rewrite bind_run with (a := th_rec t) (s' := t) by done.
  intros (rc1 & t1 & Hr & Hm)%bind_Some_inv.
  assert (version_part t1 = version_part t) as Hk by (eapply kept; [|exact Hr]; keeps_tac).
  unfold notify in Hm. injection Hm as <- <-. injection Hk as K1 K2 K3 K4 K5 K6.
  unfold untouched, notice. simpl. by rewrite K1, K2, K3.
Qed.

(** ** What the threads promise *)

(** [C22] The data version of an update, on every branch. An update that succeeds
    gets the next version when it comes without one; a replayed record keeps its
    own, and the current version is then at least that. A failed update takes no
    version; it is reported as an error unless records are replayed (the loose
    mode) and the error says that the record had been applied before (EEXIST,
    ENOENT or ENODATA). A change of size takes versions only when it changes
    something. The record's task is told the version, the result and whether
    it is an error. *)
Theorem deal_update_record_version c t rc t' :
  STORAGE_ENABLED = false → deal_update_record c t = Some (rc, t') →
  let q := th_rec t in let v0 := q_data_version q in let v := q_data_version (th_rec t') in
  let cur := th_current_version t in let cur' := th_current_version t' in
  0 ≤ cur → 0 ≤ v0 → cur + weight q < 2 ^ 64 →
  ∃ is_error, cur ≤ cur' ∧
    th_notified t' = th_notified t ++ (if q_notify q then [notice t' rc is_error] else []) ∧
    if is_size_op (q_operation q) then
      is_error = negb (rc =? 0) ∧
      (v = v0 ∧ cur' = cur ∨ rc = 0 ∧ v = cur' ∧ cur < cur' ≤ cur + weight q)
    else if rc =? 0 then
      is_error = false ∧
      if v0 =? 0 then v = cur + 1 ∧ cur' = cur + 1 else v = v0 ∧ cur' = Z.max cur v0
    else
      v = v0 ∧
      (is_error = true ∧ cur' = cur ∨
       is_error = false ∧ th_error_mode t = FDIR_DATA_ERROR_MODE_LOOSE ∧
         rc = ignored_errno (q_operation q) ∧ cur' = Z.max cur v0).
Proof.
  intros Hst Hm q v0 v cur cur' Hc Hv Hw. subst q v0 v cur cur'.
  destruct (update_effect c t rc t' Hst Hm Hc Hv) as (is_error & [V1 V2 V3] & _ & Hn).
  exists is_error. unfold untouched, took, weight in *.
  destruct (is_size_op (q_operation (th_rec t))).
  - destruct (V1 eq_refl) as [-> [[U1 U2]|(-> & n & Hn' & T1 & T2)]].
    + split; [lia|]. auto.
    + rewrite uint64_small in T1 by lia. split; [lia|]. split; [done|]. split; [done|]. right. lia.
  - destruct (Z.eqb_spec rc 0) as [Hz|Hz].
    + destruct (V2 eq_refl Hz) as [-> Hres]. destruct (q_data_version (th_rec t) =? 0).
      * destruct Hres as [T1 T2]. rewrite uint64_small in T1 by lia. split_and!; [lia|done..|lia|lia].
      * split_and!; [lia|done|done|lia|lia].
    + destruct (V3 eq_refl Hz) as (R1 & R2 & R3). destruct is_error.
      * split; [lia|]. auto 6.
      * destruct (R3 eq_refl). split; [lia|]. auto 8.
Qed.

(** The versions that requests were told. *)
Definition versions (l : list Notice) : list Z := filter (λ v, 0 < v) (nt_data_version <$> l).

(** A request of a client comes without a version. *)
Definition fresh_item (i : QueueItem) : Prop := q_data_version (qi_rec i) = 0.

Definition total_weight (items : list QueueItem) : Z :=
  foldr (λ i n, weight (qi_rec i) + n) 0 items.

Lemma total_weight_nonneg items : 0 ≤ total_weight items.
Proof. induction items as [|i items IH]; simpl; [lia|]. unfold weight. lia. Qed.

Lemma record_effect c item t rc t' :
  STORAGE_ENABLED = false → deal_record c item t = Some (rc, t') → fresh_item item →
  0 ≤ th_current_version t → th_current_version t + weight (qi_rec item) < 2 ^ 64 →
  ∃ ns, th_notified t' = th_notified t ++ ns ∧
    th_current_version t ≤ th_current_version t' ≤ th_current_version t + weight (qi_rec item) ∧
    (versions ns = [] ∨
     versions ns = [th_current_version t'] ∧ th_current_version t < th_current_version t').
Proof.
  intros Hst Hm Hfr Hc Hw. unfold deal_record in Hm.
  apply bind_Some_inv in Hm as (? & t1 & [= _ <-] & Hm).
  apply bind_Some_inv in Hm as (? & t1 & [= _ <-] & Hm). unfold fresh_item in Hfr.
  destruct (qi_is_update item).
  - apply update_effect in Hm as (e & [V1 V2 V3] & _ & Hn); simpl in *; [|done|done|lia].
    assert (th_current_version t' = th_current_version t ∧ q_data_version (th_rec t') = 0 ∨
      ∃ n, 1 ≤ n ≤ weight (qi_rec item) ∧ took n t t') as Hd.
    { unfold untouched, took in *. simpl in *. rewrite Hfr in *.
      destruct (is_size_op _).
      - destruct (V1 eq_refl) as (_ & [Hd|(_ & Hd)]); [by left|by right].
      - destruct (decide (rc = 0)) as [Hz|Hz].
        + destruct (V2 eq_refl Hz) as [_ Hd]. right. exists 1. split; [unfold weight; lia|done].
        + destruct (V3 eq_refl Hz) as (R1 & R2 & _). left. split; [|done].
          rewrite R2. destruct e; lia. }
    exists (if q_notify (qi_rec item) then [notice t' rc e] else []). split; [done|].
    unfold versions, notice. destruct Hd as [[U1 U2]|(n & Hn' & T1 & T2)].
    + split; [unfold weight in *; lia|]. left. destruct (q_notify _); [|done].
      simpl. by rewrite U2.
    + rewrite uint64_small in T1 by lia. split; [lia|]. destruct (q_notify _); [|by left].
      right. simpl. rewrite T2. rewrite filter_cons_True by lia. split; [done|lia].
  - apply query_effect in Hm as [[U1 U2] Hn]. simpl in *. eexists. split; [exact Hn|].
    split; [unfold weight in *; lia|]. left. unfold versions. simpl. rewrite U2, Hfr. done.
Qed.

(** The versions a data thread hands to requests are distinct and increase in
    the order of its queue; they lie above the current version before and up to
    the one afterwards, which never decreases. This holds for any mix of
    updates and queries of clients, successful or not. *)
Theorem deal_records_versions c items : ∀ t t',
  STORAGE_ENABLED = false → deal_records c items t = Some ((), t') →
  Forall fresh_item items → 0 ≤ th_current_version t →
  th_current_version t + total_weight items < 2 ^ 64 →
  ∃ ns, th_notified t' = th_notified t ++ ns ∧
    th_current_version t ≤ th_current_version t' ∧
    StronglySorted Z.lt (versions ns) ∧
    Forall (λ v, th_current_version t < v ≤ th_current_version t') (versions ns).
Proof.
  induction items as [|item items IH]; intros t t' Hst Hm Hfr Hc Hw.
  { injection Hm as <-. exists []. rewrite app_nil_r. repeat constructor. lia. }
  cbn [deal_records] in Hm. apply bind_Some_inv in Hm as (rc & t1 & H1' & Hm).
  apply Forall_cons in Hfr as [Hf Hfr]. simpl in Hw.
  pose proof (total_weight_nonneg items).
  destruct (record_effect c item t rc t1 Hst H1' Hf Hc) as (ns1 & E1 & Hle & Hv); [lia|].
  destruct (IH t1 t' Hst Hm Hfr) as (ns2 & E2 & Hle2 & Hs & Hall); [lia|lia|].
  exists (ns1 ++ ns2). rewrite E2, E1, <- app_assoc. split; [done|]. split; [lia|].
  unfold versions in *. rewrite fmap_app, filter_app.
  destruct Hv as [->|[-> Hlt]]; simpl.
  - split; [done|]. eapply Forall_impl; [exact Hall|]. simpl. lia.
  - split; [constructor; [done|]|constructor; [lia|]];
      (eapply Forall_impl; [exact Hall|]); simpl; lia.
Qed.
End spec.
