(* ===== verification/DataThreadBatch.v ===== *)
(** * Sizes in batches: [batch_set_dentry_size] of [server/data_thread.c]

    A request may set the sizes of many files at once. The data versions of the
    files that change are consecutive when every file of the batch exists; the
    theorem says what they are in general. *)

From S2P Require Import Prelude NsSubscribe Flock ServerTypes NsManager InodeIndex.
From S2P Require Import Dentry Thread FlockIndex DataThread DataThreadSpec.

Section batch.
Context `{UniqSkiplist} `{ServerConfig} `{!StorageEngine} `{!PathSplit} `{!ChangeNotify}.

(** Whether the table has the inode. *)
Definition found (s : Server) (i : Z) : bool :=
  match inode_index_find_dentry i s with Some (Some _, _) => true | _ => false end.

(** The inode table, and the namespaces of its dentries. *)
Record table_ok (s : Server) : Prop := {
  tb_index : index_ok s;
  tb_ns : ∀ p d, in_index s p → dentries s !! p = Some d → is_Some (namespaces s !! d_ns_entry d)
}.

(** [s'] finds what [s] finds. *)
Definition same_table (s s' : Server) : Prop :=
  table_ok s' ∧ ∀ i, inode_ok i → found s' i = found s i.

Lemma found_cases s i : index_ok s → inode_ok i →
  (found s i = true ∧ ∃ p d, in_index s p ∧ dentries s !! p = Some d ∧ d_inode d = i) ∨
  (found s i = false ∧ inode_index_find_dentry i s = Some (None, s) ∧
    ∀ p d, in_index s p → dentries s !! p = Some d → d_inode d ≠ i).
Proof.
  intros Hok Hi. destruct (find_dentry_run s i Hok Hi) as (r & Hrun & Hr).
  unfold found. rewrite Hrun. destruct r as [p|].
  - left. split; [done|]. destruct (proj1 (Hr p) eq_refl) as (Hp & d & Hd & E). eauto.
  - right. split; [done|]. split; [done|]. intros p d Hp Hd E.
    assert (None = Some p) as [=] by (apply Hr; eauto).
Qed.

(** A change of the status of dentries. *)
Lemma keep_same_table s s' :
  table_ok s → ht_keep s s' →
  (∀ p d', dentries s' !! p = Some d' → ∃ d, dentries s !! p = Some d ∧
     d_ns_entry d' = d_ns_entry d) →
  (∀ a, is_Some (namespaces s !! a) → is_Some (namespaces s' !! a)) → same_table s s'.
Proof.
  intros [Hix Hns] Hk Hd Hn. destruct (index_keep s s' Hk Hix) as [Hix' Hin]. split.
  - split; [done|]. intros p d' Hp Hp'. destruct (Hd p d' Hp') as (d & Hd' & ->).
    apply Hn. apply (Hns p d); [by apply Hin|done].
  - intros i Hi. destruct (found_cases s i Hix Hi) as [(-> & p & d & Hp & Hpd & E)|(-> & _ & Hno)],
      (found_cases s' i Hix' Hi) as [(-> & q & e & Hq & Hqe & E')|(-> & _ & Hno')]; try done; exfalso.
    + destruct Hk as [_ Hk]. destruct (Hk p d Hpd) as (d' & Hd' & Ei & _).
      apply (Hno' p d'); [by apply Hin|done|congruence].
    + apply Hin in Hq. destruct (in_index_dentry s q Hq) as (d & Hqd & _).
      destruct Hk as [_ Hk]. destruct (Hk q d Hqd) as (d' & Hd' & Ei & _).
      apply (Hno q d); [done..|congruence].
Qed.

Lemma same_table_record s r : table_ok s → same_table s (with_record r s).
Proof. intros Hs. apply keep_same_table; try done; [split; [done|]; eauto|]. simpl. eauto. Qed.

Lemma same_table_trans s1 s2 s3 : same_table s1 s2 → same_table s2 s3 → same_table s1 s3.
Proof. intros [_ F1] [Hs F2]. split; [done|]. intros i Hi. by rewrite F2, F1. Qed.

(** One item, whether its inode is there or not. *)
Lemma check_dsize_cases s c :
  STORAGE_ENABLED = false → table_ok s → inode_ok (r_inode (record s)) →
  ∃ rc s', inode_index_check_set_dentry_size c s = Some (rc, s') ∧ same_table s s' ∧
    r_inode (record s') = r_inode (record s) ∧
    if found s (r_inode (record s)) then rc = 0
    else rc = ENOENT ∧ flags_set (record s') = flags_set (record s).
Proof.
  intros Hst Htb Hi. pose proof Htb as [Hix Hns].
  destruct (found_cases s _ Hix Hi) as [(-> & p & d & Hp & Hd & E)|(-> & Hfind & _)].
  - destruct (Hns p d Hp Hd) as [n Hn].
    destruct (dsize_steps (r_modified (record s)) (current_time s) (r_stat (record s)) (d_stat d))
      as [[o' req'] st'] eqn:Es.
    eexists 0, _. split; [by eapply check_set_dentry_size_run|].
    split; [|by destruct (has_flag _ _)].
    apply keep_same_table; [done|split| |].
    + by destruct (has_flag _ _).
    + intros q e He. destruct (decide (q = p)) as [->|Hq].
      * exists (with_d_stat st' d). simplify_eq.
        by destruct (has_flag _ _); simpl; rewrite lookup_insert_eq.
      * exists e. by destruct (has_flag _ _); simpl; rewrite lookup_insert_ne.
    + intros q e He. destruct (decide (q = p)) as [->|Hq].
      * exists d. split; [done|]. destruct (has_flag _ _); simpl in He;
          rewrite lookup_insert_eq in He; by injection He as <-.
      * exists e. destruct (has_flag _ _); simpl in He; by rewrite lookup_insert_ne in He.
    + intros a Ha. destruct (has_flag _ _); [|done]. simpl.
      destruct (decide (a = d_ns_entry d)) as [->|]; [by rewrite lookup_insert_eq|].
      by rewrite lookup_insert_ne.
  - unfold inode_index_check_set_dentry_size. eexists ENOENT, _.
    split.
    + sstep. unfold inode_index_get_dentry. rewrite bind_bind. run_with Hfind. cbn iota.
      rewrite Hst. reflexivity.
    + split; [by apply same_table_record|done].
Qed.

(** ** The loop *)

Definition item_inode (i : BatchItem) : Z := r_inode (bi_record i).
Definition flagged (i : BatchItem) : Prop := flags_set (bi_record i) = true.
#[global] Instance flagged_dec i : Decision (flagged i) := decide (_ = true).

(** Items whose inode is not there, of which something is asked. *)
Definition missing (s : Server) (items : list BatchItem) : list BatchItem :=
  filter (λ i, found s (item_inode i) = false ∧ flagged i) items.

Definition count {A} (l : list A) : Z := Z.of_nat (length l).

Lemma missing_same s s' items :
  same_table s s' → Forall (λ i, inode_ok (item_inode i)) items → missing s' items = missing s items.
Proof.
  intros [_ Hf] Hi. rewrite Forall_forall in Hi. apply list_filter_ext_in.
  intros i Hin. by rewrite Hf by auto.
Qed.

Lemma batch_check_run c items : ∀ t,
  STORAGE_ENABLED = false → table_ok (th_server t) → Forall (λ i, inode_ok (item_inode i)) items →
  ∃ its success updated s', batch_check_loop c items t
      = Some ((its, success, updated), with_th_server s' t) ∧
    same_table (th_server t) s' ∧ item_inode <$> its = item_inode <$> items ∧
    bi_data_version <$> its = bi_data_version <$> items ∧
    success = count (filter (λ i, found (th_server t) (item_inode i) = true) items) ∧
    count (filter flagged its) = updated + count (missing (th_server t) items).
Proof.
  induction items as [|item items IH]; intros t Hst Htb Hi; cbn [batch_check_loop].
  { exists [], 0, 0, (th_server t). split; [by destruct t|]. split; [by split|done]. }
  apply Forall_cons in Hi as [Hi1 Hi].
  pose proof (same_table_record (th_server t) (bi_record item) Htb) as Hs1.
  set (s1 := with_record (bi_record item) (th_server t)) in *. pose proof Hs1 as [Htb1 Hf1].
  destruct (check_dsize_cases s1 c Hst Htb1 Hi1) as (rc & s2 & Hrun & Hs2 & Ei & Hrc).
  rewrite bind_run with (a := ()) (s' := with_th_server s1 t) by done.
  rewrite bind_run with (a := rc) (s' := with_th_server s2 t)
    by exact (on_server_run _ (with_th_server s1 t) _ _ Hrun).
  rewrite bind_run with (a := record s2) (s' := with_th_server s2 t) by done.
  pose proof (same_table_trans _ _ _ Hs1 Hs2) as Hs12.
  destruct (IH (with_th_server s2 t) Hst (proj1 Hs2) Hi)
    as (its & su & up & s3 & Hloop & Hs3 & Ein & Ev & Esu & Ecnt).
  rewrite bind_run with (a := (its, su, up)) (s' := with_th_server s3 t) by (by rewrite Hloop).
  eexists _, _, _, s3. split; [reflexivity|]. simpl in Hs3, Esu, Ecnt.
  split; [by eapply same_table_trans|]. change (item_inode item) with (r_inode (record s1)) in *.
  split; [rewrite !fmap_cons; f_equal; [exact Ei|done]|].
  split; [rewrite !fmap_cons; by f_equal|].
  rewrite (missing_same _ _ _ Hs12 Hi) in Ecnt.
  assert (filter (λ i, found s2 (item_inode i) = true) items
          = filter (λ i, found (th_server t) (item_inode i) = true) items) as E2.
  { apply list_filter_ext_in. intros i Hin. rewrite Forall_forall in Hi.
    by rewrite (proj2 Hs12) by auto. }
  rewrite E2 in Esu. rewrite (Hf1 _ Hi1) in Hrc.
  unfold missing, count in *. rewrite !filter_cons.
  change (item_inode item) with (r_inode (record s1)).
  destruct (found (th_server t) (r_inode (record s1))).
  - rewrite Hrc, (decide_True (P := true = true)), (decide_False (P := _ ∧ _)) by naive_solver.
    cbn [length Z.eqb andb]. split; [lia|]. destruct (flags_set (record s2)) eqn:Ef.
    + rewrite decide_True by exact Ef. cbn [length]. lia.
    + rewrite decide_False by (unfold flagged; simpl; congruence). lia.
  - destruct Hrc as [-> Efl]. rewrite (decide_False (P := false = true)) by done.
    cbn [Z.eqb andb]. split; [simpl; lia|].
    change (record s1) with (bi_record item) in Efl. destruct (flags_set (bi_record item)) eqn:Ef.
    + rewrite !decide_True by done. cbn [length]. simpl. lia.
    + rewrite !decide_False by (unfold flagged; simpl; naive_solver congruence). simpl. lia.
Qed.

(** ** The versions *)

Lemma assign_spec items : ∀ v,
  0 ≤ v → v + count (filter flagged items) < 2 ^ 64 →
  let its := batch_assign_loop v items in
  bi_data_version <$> filter flagged its = seqZ (v + 1) (count (filter flagged items)) ∧
  bi_record <$> its = bi_record <$> items ∧
  filter (λ i, ¬ flagged i) its = filter (λ i, ¬ flagged i) items.
Proof.
  induction items as [|i items IH]; intros v Hv Hb; cbn [batch_assign_loop]; [done|].
  unfold count in *. rewrite !filter_cons in Hb |- *. destruct (flags_set (bi_record i)) eqn:Ef.
  - rewrite decide_True in Hb |- * by exact Ef. cbn [length] in Hb |- *.
    rewrite uint64_small by lia. destruct (IH (v + 1)) as (E1 & E2 & E3); [lia|lia|].
    rewrite !filter_cons, decide_True by exact Ef.
    rewrite !(decide_False (P := ¬ flagged _)) by (intros Hn; by apply Hn).
    split; [|split; [by rewrite !fmap_cons, E2|done]].
    rewrite fmap_cons, E1, (seqZ_cons (v + 1)) by lia. simpl. do 2 f_equal; lia.
  - assert (¬ flagged i) as Hn by (unfold flagged; congruence).
    rewrite decide_False in Hb |- * by done. destruct (IH v Hv Hb) as (E1 & E2 & E3).
    rewrite !filter_cons, (decide_False (P := flagged i)), !decide_True by done.
    split; [done|]. split; [by rewrite !fmap_cons, E2|by rewrite E3].
Qed.

(** Setting the sizes of a batch of files: ENOENT, without new versions, when
    none of them exists. Otherwise it succeeds, and when it changed something,
    the items with flags get consecutive versions from the one after the current
    version, in order; all other items keep theirs. The current version only
    goes up by the items that changed: [missing] items of the batch, whose flags
    are those of the request, get versions too, so that versions beyond the
    current one are handed out. It is the last version of the batch exactly
    when nothing is missing. *)
Theorem batch_set_dentry_size_spec c t :
  STORAGE_ENABLED = false → table_ok (th_server t) →
  let batch := q_batch (th_rec t) in let cur := th_current_version t in
  Forall (λ i, inode_ok (item_inode i)) batch →
  0 ≤ cur → cur + count batch < 2 ^ 64 →
  let hits := filter (λ i, found (th_server t) (item_inode i) = true) batch in
  let miss := count (missing (th_server t) batch) in
  ∃ rc t', batch_set_dentry_size c t = Some (rc, t') ∧
    same_table (th_server t) (th_server t') ∧
    let its := q_batch (th_rec t') in let cur' := th_current_version t' in
    let n := count (filter flagged its) in
    item_inode <$> its = item_inode <$> batch ∧
    rc = (if decide (hits = []) then ENOENT else 0) ∧
    cur' = (if decide (hits = []) then cur else cur + (n - miss)) ∧
    if decide (hits = [] ∨ n = miss) then bi_data_version <$> its = bi_data_version <$> batch
    else q_data_version (th_rec t') = cur' ∧
      bi_data_version <$> filter flagged its = seqZ (cur + 1) n.
Proof.
  intros Hst Htb batch cur Hi Hc Hb hits miss.
  destruct (batch_check_run c batch t Hst Htb Hi)
    as (its & su & up & s1 & Hrun & Hs1 & Ein & Ev & Esu & Ecnt).
  fold hits in Esu. fold miss in Ecnt. unfold batch_set_dentry_size.
  rewrite bind_run with (a := th_rec t) (s' := t) by done. fold batch.
  rewrite bind_run with (a := record (th_server t)) (s' := t) by (by destruct t).
  run_with Hrun. cbn beta iota.
  rewrite bind_run with (a := ()) (s' := with_th_server (with_record (record (th_server t)) s1) t) by done.
  rewrite bind_run with (a := ()) (s' := with_th_rec (with_q_batch its (with_q_counts
    (mkBatchCounts (bc_total (q_counts (th_rec t))) su up) (th_rec t)))
    (with_th_server (with_record (record (th_server t)) s1) t)) by done.
  pose proof (same_table_trans _ _ _ Hs1 (same_table_record s1 (record (th_server t)) (proj1 Hs1))) as Hs2.
  assert (su = 0 ↔ hits = []) as Hhit by (rewrite Esu; unfold count; destruct hits; simpl; split; [done|done|lia|done]).
  assert (length its = length batch) as El by (by rewrite <- (length_fmap item_inode), Ein, length_fmap).
  assert (count (filter flagged its) ≤ count batch) as Hle.
  { unfold count. pose proof (length_filter flagged its). lia. }
  destruct (Z.eqb_spec su 0) as [E0|E0].
  { eexists ENOENT, _. split; [reflexivity|]. split; [exact Hs2|]. simpl.
    apply Hhit in E0. rewrite !decide_True by auto. done. }
  assert (hits ≠ []) as Hne by tauto.
  destruct (Z.eqb_spec up 0) as [Eu|Eu].
  { eexists 0, _. split; [reflexivity|]. split; [exact Hs2|]. simpl. unfold cur.
    rewrite !(decide_False (P := hits = [])) by done.
    split; [done|]. split; [done|]. split; [lia|]. by rewrite decide_True by (right; lia). }
  pose proof (batch_check_counts _ _ _ _ _ _ _ Hrun) as Hup.
  assert (0 ≤ miss) as Hm by (unfold miss, count; lia).
  unfold add_current_version. eexists 0, _. split; [reflexivity|]. split; [exact Hs2|]. simpl.
  fold cur. rewrite (uint64_small (cur + up)) by lia.
  replace (cur + up - up) with cur by lia. rewrite (uint64_small cur) by lia.
  destruct (assign_spec its cur) as (E1 & E2 & _); [done|lia|].
  assert (count (filter flagged (batch_assign_loop cur its)) = count (filter flagged its)) as Ek.
  { apply (f_equal length) in E1. rewrite length_fmap, length_seqZ in E1. unfold count in *. lia. }
  assert (item_inode <$> batch_assign_loop cur its = item_inode <$> its) as Ei.
  { apply (f_equal (fmap r_inode)) in E2. by rewrite <- !list_fmap_compose in E2. }
  rewrite Ek, !(decide_False (P := hits = [])) by done.
  rewrite decide_False by (intros [?|?]; [done|lia]).
  split; [congruence|]. split; [done|]. split; [lia|]. done.
Qed.
End batch.
