(* ===== verification/DataThreadTree.v ===== *)
(** * Updates and queries by path on a data thread

    What a client sees: a file or directory created by its path is found under
    that path afterwards, one that is removed is not, and a query gives the same
    dentry however the client names it. The theorems compose the dispatch of
    [DataThread] with the refinement theorems of the tree. *)

From S2P Require Import Prelude NsSubscribe FsTree Flock ServerTypes InodeGenerator.
From S2P Require Import NsManager InodeIndex Dentry DentryView DentryTree DentryRename.
From S2P Require Import DentryPath Thread FlockIndex DataThread DataThreadSpec.

Section frame.
Context `{UniqSkiplist} `{ServerConfig} `{!StorageEngine} `{!PathSplit}.

(** ** What operations on dentries leave of the namespaces *)

(** The namespaces' names, ids and table. *)
Definition ns_key (s : Server) : NsManager * gmap ptr (Z * string * option ptr) :=
  (ns_manager s, (λ n, (ns_id n, ns_name n, ns_next n)) <$> namespaces s).

Lemma ns_key_lookup s s' p :
  ns_key s' = ns_key s →
  (λ n, (ns_id n, ns_name n, ns_next n)) <$> namespaces s' !! p
  = (λ n, (ns_id n, ns_name n, ns_next n)) <$> namespaces s !! p.
Proof. intros [= _ E]. by rewrite <- !lookup_fmap, E. Qed.

Lemma ns_key_fwd s s' p n :
  ns_key s' = ns_key s → namespaces s !! p = Some n →
  ∃ n', namespaces s' !! p = Some n' ∧ ns_id n' = ns_id n ∧ ns_name n' = ns_name n ∧
    ns_next n' = ns_next n.
Proof.
  intros E Hn. pose proof (ns_key_lookup s s' p E) as El. rewrite Hn in El. simpl in El.
  apply fmap_Some in El as (n' & Hn' & [= E1 E2 E3]). eauto.
Qed.

Lemma ns_key_chain s s' p l :
  ns_key s' = ns_key s → chain ns_next (namespaces s) p l → chain ns_next (namespaces s') p l.
Proof.
  intros E. revert p. induction l as [|x l IH]; intros p; simpl; [done|].
  intros (-> & n & Hn & Hc). split; [done|].
  destruct (ns_key_fwd s s' x n E Hn) as (n' & Hn' & _ & _ & En). exists n'. split; [done|].
  rewrite En. by apply IH.
Qed.

Lemma ns_key_ok s s' : ns_key s' = ns_key s → ns_ok s → ns_ok s'.
Proof.
  intros E [K1 K2 K3 K4 K5 K6 K7]. pose proof (eq_sym E) as E'.
  assert (ns_manager s' = ns_manager s) as Em by (by injection E).
  split; rewrite ?Em; try done.
  - intros b. destruct (K1 b) as (l & Hc & Hl). exists l. rewrite Em. split; [by eapply ns_key_chain|].
    intros p n' Hp. destruct (ns_key_fwd s' s p n' E' Hp) as (n & Hn & _ & <- & _). by apply Hl.
  - intros p q n m Hp Hq En. destruct (ns_key_fwd s' s p n E' Hp) as (n1 & Hn1 & _ & E1 & _).
    destruct (ns_key_fwd s' s q m E' Hq) as (m1 & Hm1 & _ & E2 & _).
    apply (K2 p q n1 m1); congruence.
  - intros p. rewrite K3. split; intros [n Hn].
    + destruct (ns_key_fwd s s' p n E Hn) as (n' & -> & _). eauto.
    + destruct (ns_key_fwd s' s p n E' Hn) as (n' & -> & _). eauto.
  - eapply StronglySorted_impl', K5. intros p q Hlt n m Hp Hq.
    destruct (ns_key_fwd s' s p n E' Hp) as (n1 & Hn1 & E1 & _).
    destruct (ns_key_fwd s' s q m E' Hq) as (m1 & Hm1 & E2 & _).
    rewrite <- E1, <- E2. by apply Hlt.
  - intros p n Hp. destruct (ns_key_fwd s' s p n E' Hp) as (n1 & Hn1 & E1 & _).
    rewrite <- E1. by apply (K6 p).
Qed.

Lemma keeps_load_dentry p : keeps ns_key (load_dentry p).
Proof. intros s d s'. unfold load_dentry. destruct (dentries s !! p); [|done]. by intros [= <- <-]. Qed.
Lemma keeps_load_ns p : keeps ns_key (load_ns p).
Proof. intros s d s'. unfold load_ns. destruct (namespaces s !! p); [|done]. by intros [= <- <-]. Qed.
Lemma keeps_update_dentry p f : keeps ns_key (update_dentry_at p f).
Proof.
  intros s d s'. unfold update_dentry_at. destruct (dentries s !! p); [|done]. by intros [= <- <-].
Qed.
Lemma keeps_update_ns p f :
  (∀ n, (ns_id (f n), ns_name (f n), ns_next (f n)) = (ns_id n, ns_name n, ns_next n)) →
  keeps ns_key (update_ns_at p f).
Proof.
  intros Hf s d s'. unfold update_ns_at. destruct (namespaces s !! p) as [n|] eqn:Hn; [|done].
  intros [= <- <-]. unfold ns_key. simpl. f_equal. rewrite fmap_insert, Hf.
  apply insert_id. by rewrite lookup_fmap, Hn.
Qed.
Lemma keeps_try_alloc : keeps ns_key try_alloc.
Proof.
  intros s b s'. unfold try_alloc. destruct (mem_avail s) as [[|]|]; by intros [= <- <-].
Qed.
Lemma keeps_add_counters th a b c : keeps ns_key (add_counters th a b c).
Proof. by intros s u s' [= <- <-]. Qed.
End frame.

#[export] Hint Resolve keeps_load_dentry keeps_load_ns keeps_update_dentry keeps_try_alloc
  keeps_add_counters : keeps_db.
#[export] Hint Extern 1 (keeps ns_key (update_ns_at _ _)) =>
  apply keeps_update_ns; intros ?; reflexivity : keeps_db.

Section frame_ops.
Context `{UniqSkiplist} `{ServerConfig} `{!StorageEngine} `{!PathSplit}.

Lemma keeps_do_free fuel : ∀ p k, keeps ns_key (dentry_do_free fuel p k).
Proof.
  induction fuel as [|fuel IH]; intros p k; cbn [dentry_do_free]; keeps_tac.
  induction (sl_elements s) as [|q l IHl]; simpl; keeps_tac.
Qed.
Hint Resolve keeps_do_free : keeps_db.

Lemma keeps_free_func p k : keeps ns_key (dentry_free_func p k).
Proof. unfold dentry_free_func, dentry_free, server_add_to_delay_free_queue. keeps_tac. Qed.
Hint Resolve keeps_free_func : keeps_db.

Lemma keeps_children p q b :
  keeps ns_key (children_insert p q) ∧ keeps ns_key (children_delete p q b).
Proof.
  unfold children_insert, children_delete, children_of, set_children. split; keeps_tac.
Qed.

Lemma keeps_find_update fuel i : ∀ p, keeps ns_key (find_for_update_loop fuel i p).
Proof. induction fuel as [|fuel IH]; intros p; cbn [find_for_update_loop]; keeps_tac. Qed.
Hint Resolve keeps_find_update : keeps_db.

Lemma keeps_index p : keeps ns_key (inode_index_add_dentry p) ∧ keeps ns_key (inode_index_del_dentry p).
Proof.
  unfold inode_index_add_dentry, inode_index_del_dentry, find_dentry_for_update, set_bucket,
    fdir_namespace_inc_alloc_bytes. split; keeps_tac.
Qed.

Lemma keeps_count th a (b : bool) k : keeps ns_key (count_dentry th a b k).
Proof. unfold count_dentry, add_ns_counts. keeps_tac. Qed.
Hint Resolve keeps_count : keeps_db.
Hint Extern 1 (keeps ns_key (inode_index_add_dentry _)) => apply keeps_index : keeps_db.
Hint Extern 1 (keeps ns_key (inode_index_del_dentry _)) => apply keeps_index : keeps_db.
Hint Extern 1 (keeps ns_key (children_insert _ _)) => apply (keeps_children _ _ false) : keeps_db.
Hint Extern 1 (keeps ns_key (children_delete _ _ _)) => apply keeps_children : keeps_db.

Lemma keeps_inode_next : keeps ns_key inode_generator_next.
Proof. by intros s i s' [= <- <-]. Qed.
Hint Resolve keeps_inode_next : keeps_db.

Lemma keeps_create_found th a : keeps ns_key (create_found th a).
Proof.
  unfold create_found, create_fill, create_link, dentry_alloc, dentry_free, set_me_found,
    inc_nlink, modify_stat, affected_add, modify_rec, get_rec.
  keeps_tac.
Qed.

Lemma keeps_do_remove th p : keeps ns_key (do_remove_dentry th p).
Proof.
  unfold do_remove_dentry, remove_src_dentry, dec_nlink, modify_stat, affected_add, modify_rec.
  keeps_tac.
Qed.

Lemma keeps_find_child th p name :
  STORAGE_ENABLED = false → keeps ns_key (find_child th p name).
Proof. intros Hst. unfold find_child, check_load. rewrite Hst. keeps_tac. Qed.

Lemma find_me_keeps s th b x s' p :
  STORAGE_ENABLED = false → re_parent (r_me (record s)) = Some p →
  dentry_find_me th b s = Some (x, s') → ns_key s' = ns_key s.
Proof.
  intros Hst Hp. unfold dentry_find_me. sstep. cbn zeta. rewrite Hp. intros Hm.
  eapply (_ : keeps ns_key _), Hm.
  Unshelve. pose proof keeps_find_child. unfold set_me_found, modify_rec. keeps_tac.
Qed.

Lemma create_keeps_ns s th rc s' p :
  STORAGE_ENABLED = false → re_parent (r_me (record s)) = Some p →
  dentry_create th s = Some (rc, s') → ns_key s' = ns_key s.
Proof.
  intros Hst Hp. unfold dentry_create. sstep. cbn zeta. destruct (_ && _); [by intros [= _ <-]|].
  intros ([rc1 ns] & s1 & Hf & Hm)%bind_Some_inv. apply find_me_keeps with (p := p) in Hf as <-; [|done..].
  eapply (_ : keeps ns_key _), Hm.
  Unshelve. pose proof keeps_create_found. keeps_tac.
Qed.

Lemma remove_keeps_ns s th rc s' p :
  STORAGE_ENABLED = false → re_parent (r_me (record s)) = Some p →
  dentry_remove th s = Some (rc, s') → ns_key s' = ns_key s.
Proof.
  intros Hst Hp. unfold dentry_remove.
  intros ([rc1 ns] & s1 & Hf & Hm)%bind_Some_inv. apply find_me_keeps with (p := p) in Hf as <-; [|done..].
  eapply (_ : keeps ns_key _), Hm.
  Unshelve. pose proof keeps_do_remove.
  unfold has_children, modify_rec, dec_nlink, modify_stat, get_rec. keeps_tac.
Qed.
End frame_ops.

Section by_path.
Context `{UniqSkiplist} `{ServerConfig} `{!StorageEngine} `{!PathSplit} `{!ChangeNotify}.

(** ** Running a thread

    An operation works on the record [q] and the server [s] of a thread [t]. *)

Definition at_ (t : DataThread) (q : QueuedRecord) (s : Server) : DataThread :=
  with_th_rec q (with_th_server s t).

Lemma at_id t : at_ t (th_rec t) (th_server t) = t.
Proof. by destruct t. Qed.
Lemma at_server {A} (m : M Server A) t q s x s' :
  m s = Some (x, s') → on_server m (at_ t q s) = Some (x, at_ t q s').
Proof. unfold on_server. simpl. by intros ->. Qed.
Lemma at_get_q t q s : get_q (at_ t q s) = Some (q, at_ t q s).
Proof. done. Qed.
Lemma at_modify_q f t q s : modify_q f (at_ t q s) = Some ((), at_ t (f q) s).
Proof. done. Qed.
Lemma at_get t q s : get_st (at_ t q s) = Some (at_ t q s, at_ t q s).
Proof. done. Qed.

(** ** A server whose record changes *)

Lemma tree_ok_record s r : tree_ok s → tree_ok (with_record r s) ∧ abs (with_record r s) = abs s.
Proof.
  intros [Hwf Hv]. destruct (view_record s _ _ _ (λ _, r) Hv) as (s' & Hrun & Hv').
  rewrite modify_rec_run in Hrun. injection Hrun as <-.
  by destruct (view_tree_ok _ _ _ _ Hv' Hwf (λ _, iff_refl _)) as (? & ? & _).
Qed.

Lemma path_to_eq A B p names c :
  (∀ q nm e, child_at A q nm e → child_at B q nm e) → path_to A p names c → path_to B p names c.
Proof. intros Hch. induction 1 as [|p name q rest c Hq _ IH]; econstructor; eauto. Qed.

(** The task's buffer has room for the namespace and the name. *)
Definition room_for (k : FastTask) (len : Z) : Prop :=
  if sizeof_StatDEntryResp <? body_len k
  then body_len k + len < task_size k ∧ body_at k + body_len k + len ≤ task_size k
  else body_at k + sizeof_StatDEntryResp + len ≤ task_size k.

Lemma pname_info_room k r :
  room_for k (slen (r_ns r) + slen (re_pname (r_me r))) → ∃ pos, pname_info_at k r = Some (inr pos).
Proof.
  unfold pname_info_at, room_for. set (len := slen _ + slen _).
  destruct (sizeof_StatDEntryResp <? body_len k); cbn [andb negb].
  - intros [R1 R2]. rewrite (proj2 (Z.ltb_lt _ _) R1). cbn [negb].
    rewrite (proj2 (Z.ltb_ge _ _)) by lia. by eexists.
  - intros R. rewrite (proj2 (Z.ltb_ge _ _)) by lia. by eexists.
Qed.

Lemma pname_info_run t q s :
  room_for (th_task t) (slen (r_ns (record s)) + slen (re_pname (r_me (record s)))) →
  ∃ pos, service_set_record_pname_info (at_ t q s)
    = Some (0, at_ t (with_q_name_at pos (with_q_path_enabled true q)) s).
Proof.
  intros [pos Hpos]%pname_info_room. exists pos. unfold service_set_record_pname_info.
  erewrite bind_run by apply at_get. erewrite bind_run by apply at_modify_q.
  cbn [th_server th_task at_ with_th_rec with_th_server]. rewrite Hpos.
  by erewrite bind_run by apply at_modify_q.
Qed.

(** A request that names its dentry by a path other than the root. *)
Record by_path (t : DataThread) (a : ptr) (ne : NamespaceEntry) (root : ptr) (path : string)
    (front : list string) (name : string) : Prop := {
  bp_tree : tree_ok (th_server t);
  bp_ns : ns_ok (th_server t);
  bp_entry : namespaces (th_server t) !! a = Some ne;
  bp_root : ns_root ne = Some root;
  bp_type : q_dentry_type (th_rec t) = dentry_type_fullname;
  bp_fullname : q_me_fullname (th_rec t) = mkFullName (ns_name ne) path;
  bp_absolute : is_absolute path = true;
  bp_split : split_path path = front ++ [name];
  bp_not_root : path ≠ "/"%string;
  bp_room : room_for (th_task t) (slen (r_ns (record (th_server t))) + slen name)
}.

(** The record once its directory [p] is found. *)
Definition located (p : ptr) (name : string) (r : BinlogRecord) : BinlogRecord :=
  with_r_me (mkRecordDEntry name (Some p) None) r.

Lemma find_parent_by_path c t a ne root path front name :
  STORAGE_ENABLED = false → by_path t a ne root path front name →
  let s := th_server t in
  ∃ rc r1 q1, find_or_check_parent c t = Some (rc, at_ t q1 (with_record r1 s)) ∧
    q_dentry_type q1 = q_dentry_type (th_rec t) ∧
    ((rc = 0 ∧ ∃ p n, r1 = located p name (record s) ∧
        path_to (abs s) root front p ∧ nodes (abs s) !! p = Some n ∧ an_dir n = true) ∨
     ((rc = ENOENT ∨ rc = ENOTDIR) ∧
        ∀ p n, path_to (abs s) root front p → nodes (abs s) !! p = Some n → an_dir n = false)).
Proof.
  intros Hst [[Hwf Hv] Hns Hne Hroot Hty Hfn Habs Hsp Hnr Hroom] s.
  replace (find_or_check_parent c t) with (find_or_check_parent c (at_ t (th_rec t) s))
    by (by rewrite at_id).
  unfold find_or_check_parent. erewrite bind_run by apply at_get_q.
  rewrite Hty, Hfn, bool_decide_true by done. cbn [negb fn_path fn_ns]. cbv zeta.
  destruct (find_parent_result s (abs s) (record s) _ Hst Hv Hwf Hns a ne root Hne Hroot
    path front name Habs Hsp) as (rc & parent & Hrun & Hres).
  erewrite bind_run by (by apply at_server). cbn beta iota. unfold set_me_parent, set_me_name.
  erewrite bind_run by (by apply at_server). erewrite bind_run by (by apply at_server).
  assert (FDIR_IS_ROOT_PATH path = false) as -> by (unfold FDIR_IS_ROOT_PATH; by case_bool_decide).
  rewrite !andb_false_r. cbn [negb]. rewrite andb_true_r.
  destruct Hres as [(-> & p & n & -> & Hp & Hn & Hdir)|[Hrc Hno]].
  - cbn [Z.eqb negb]. destruct (view_live _ _ _ _ Hv _ _ Hn) as (d & [Hd _] & _).
    unfold inode_or_0. rewrite bind_bind.
    erewrite bind_run by (apply at_server; by apply load_dentry_run).
    erewrite bind_run by done. erewrite bind_run by apply at_modify_q.
    unfold set_me_dentry. erewrite bind_run by (by apply at_server).
    edestruct (pname_info_run t) as [pos Hpos]; [|rewrite Hpos]; [exact Hroom|].
    eexists 0, _, _. split; [reflexivity|]. split; [done|]. left. split; [done|]. exists p, n.
    split; [|done]. unfold located. simpl. by destruct (record s).
  - assert ((rc =? 0) = false) as -> by (by destruct Hrc as [-> | ->]). cbn [negb].
    eexists rc, _, (th_rec t). split; [reflexivity|]. split; [done|]. by right.
Qed.

(** ** After the switch *)

Lemma settle_server rc ig t : ∃ e t', settle_version rc ig t = Some (e, t') ∧ th_server t' = th_server t.
Proof.
  unfold settle_version. erewrite bind_run by done. cbv zeta.
  repeat case_match; eexists _, _; split; reflexivity.
Qed.

(** What follows the switch leaves the server alone. *)
Lemma update_finish c t s0 rc ig t1 :
  STORAGE_ENABLED = false → s0 = with_record (with_r_affected [] (record (th_server t))) (th_server t) →
  update_switch c (at_ t (th_rec t) s0) = Some ((rc, ig), t1) →
  ∃ t', deal_update_record c t = Some (rc, t') ∧ th_server t' = th_server t1.
Proof.
  intros Hst -> Hsw. unfold deal_update_record.
  erewrite bind_run; [|unfold on_server; rewrite modify_rec_run; reflexivity].
  replace (with_th_server _ t) with (at_ t (th_rec t)
    (with_record (with_r_affected [] (record (th_server t))) (th_server t))) by (by destruct t).
  erewrite bind_run by exact Hsw. cbn beta iota.
  destruct (settle_server rc ig t1) as (e & t2 & Hset & Es).
  erewrite bind_run by exact Hset.
  assert (notify_storage rc t2 = Some (rc, t2)) as Hn.
  { unfold notify_storage. erewrite bind_run by done. by rewrite Hst, andb_false_r. }
  erewrite bind_run by exact Hn. erewrite bind_run by done.
  destruct (q_notify (th_rec t2)); eexists; (split; [reflexivity|exact Es]).
Qed.

Lemma by_path_record t a ne root path front name q r :
  by_path t a ne root path front name → q_dentry_type q = q_dentry_type (th_rec t) →
  q_me_fullname q = q_me_fullname (th_rec t) → r_ns r = r_ns (record (th_server t)) →
  by_path (at_ t q (with_record r (th_server t))) a ne root path front name.
Proof.
  intros [] E1 E2 E3. split; try done; simpl; try congruence.
  - by apply tree_ok_record.
  - by eapply ns_key_ok; [|exact bp_ns0].
Qed.

(** ** Creating by path *)

(** The record of a client that creates a file or a directory. *)
Record create_asked (s : Server) : Prop := {
  ca_mode : mode_ok (record s) = true;
  ca_plain : FDIR_IS_DENTRY_HARD_LINK (st_mode (r_stat (record s))) = false;
  ca_no_link : S_ISLNK (st_mode (r_stat (record s))) = false;
  ca_inode : inode_ok (next_inode s (record s));
  ca_fresh : ∀ q m, nodes (abs s) !! q = Some m →
    an_inode m ≠ next_inode s (record s) ∧ an_nlink m < 2 ^ 31 - 1
}.

Lemma create_asked_req s r :
  create_asked s → r_stat r = r_stat (record s) → r_inode r = r_inode (record s) →
  create_req (abs (with_record r s)) r (next_inode (with_record r s) r).
Proof.
  intros [_ Hl _ Hi Hf] Es Ei.
  assert (next_inode (with_record r s) r = next_inode s (record s)) as ->.
  { unfold next_inode. by rewrite Ei. }
  change (abs (with_record r s)) with (abs s). split; try done.
  - unfold link_target_ok. by rewrite Es, Hl.
  - intros p m _ Hp. by apply (Hf p).
  - intros q m Hq _. by apply (Hf q).
Qed.

(** The server after a request to create at the path [names] below [root]. *)
Definition create_outcome (A A' : ATree) (root : ptr) (front : list string) (name : string)
    (r : BinlogRecord) (inode rc : Z) (r' : BinlogRecord) : Prop :=
  (A' = A ∧ (rc = ENOENT ∨ rc = ENOTDIR) ∧
     ∀ p n, path_to A root front p → nodes A !! p = Some n → an_dir n = false) ∨
  (A' = A ∧ rc = EEXIST ∧ ∃ e, path_to A root (front ++ [name]) e) ∨
  (rc = 0 ∧ (∀ e, ¬ path_to A root (front ++ [name]) e) ∧
   ∃ e p d, path_to A' root (front ++ [name]) e ∧ path_to A root front p ∧
     nodes A !! e = None ∧ nodes A !! p = Some d ∧ an_dir d = true ∧
     A' = create_spec e p (new_node r inode (Some p) (an_ns d)) A ∧
     re_dentry (r_me r') = Some e ∧ r_inode r' = inode).

Lemma create_by_path_run c t a ne root path front name :
  STORAGE_ENABLED = false → by_path t a ne root path front name →
  q_operation (th_rec t) = BINLOG_OP_CREATE_DENTRY_INT → create_asked (th_server t) →
  let s := th_server t in
  ∃ rc t', deal_update_record c t = Some (rc, t') ∧ tree_ok (th_server t') ∧
    ns_key (th_server t') = ns_key s ∧
    create_outcome (abs s) (abs (th_server t')) root front name
      (with_r_me (with_re_pname name (r_me (record s))) (record s))
      (next_inode s (record s)) rc (record (th_server t')).
Proof.
  intros Hst Hbp Hop Hca s. pose proof (bp_tree _ _ _ _ _ _ _ Hbp) as [Hwf _].
  set (r0 := with_r_affected [] (record s)).
  pose proof (by_path_record _ _ _ _ _ _ _ (th_rec t) r0 Hbp eq_refl eq_refl eq_refl) as Hbp0.
  destruct (find_parent_by_path c _ _ _ _ _ _ _ Hst Hbp0) as (rc & r1 & q1 & Hrun & Eq & Hres).
  cbn [th_server at_ with_th_rec with_th_server record with_record th_rec] in Hrun, Eq, Hres.
  change (abs (with_record r0 (th_server t))) with (abs s) in Hres.
  assert (∃ rc ig t1, update_switch c (at_ t (th_rec t) (with_record r0 s)) = Some ((rc, ig), t1) ∧
    tree_ok (th_server t1) ∧ ns_key (th_server t1) = ns_key s ∧
    create_outcome (abs s) (abs (th_server t1)) root front name
      (with_r_me (with_re_pname name (r_me (record s))) (record s))
      (next_inode s (record s)) rc (record (th_server t1))) as (rc' & ig & t1 & Hsw & Hok & Hk & Hout).
  2: { destruct (update_finish c t _ _ _ _ Hst eq_refl Hsw) as (t' & Hup & Es).
       exists rc', t'. split; [exact Hup|]. by rewrite Es. }
  unfold update_switch. erewrite bind_run by apply at_get_q. cbv zeta. rewrite Hop. cbn [Z.eqb Pos.eqb].
  change (BINLOG_OP_CREATE_DENTRY_INT =? BINLOG_OP_CREATE_DENTRY_INT) with true. cbn iota.
  unfold deal_create_op. erewrite bind_run by exact Hrun.
  destruct Hres as [(-> & p & n & -> & Hp & Hn & Hdir)|[Hrc Hno]].
  2: { replace (rc =? 0) with false by (by destruct Hrc as [-> | ->]). cbn [negb].
       eexists _, _, _. split; [reflexivity|]. cbn [th_server at_ with_th_rec with_th_server].
       split; [exact (proj1 (tree_ok_record s r1 (bp_tree _ _ _ _ _ _ _ Hbp)))|].
       split; [done|]. by left. }
  set (r1 := located p name r0). set (s1 := with_record r1 s). cbn [Z.eqb negb].
  erewrite bind_run by apply at_get_q. erewrite bind_run by (by apply at_server).
  change (r_stat (record (with_record r1 _))) with (r_stat (record (th_server t))).
  rewrite (ca_plain _ Hca), (ca_no_link _ Hca). cbn [andb]. erewrite bind_run by done.
  cbn [Z.eqb negb].
  destruct (dentry_create_run s1 c p n Hst (proj1 (tree_ok_record s r1 (bp_tree _ _ _ _ _ _ _ Hbp)))
    eq_refl Hn (create_asked_req s r1 Hca eq_refl eq_refl)) as (rc & s' & Hcr & Hok' & Hout).
  erewrite bind_run by (by apply at_server). eexists _, _, _. split; [reflexivity|].
  cbn [th_server at_ with_th_rec with_th_server]. split; [done|].
  split; [exact (create_keeps_ns s1 c rc s' p Hst eq_refl Hcr)|].
  change (abs s1) with (abs s) in Hout.
  assert (∀ e, path_to (abs s) root (front ++ [name]) e ↔ child_at (abs s) p name e) as Hlast.
  { intros e. rewrite path_app. split.
    - intros (p' & Hp' & He%path_single). by rewrite (path_det _ _ _ _ _ Hwf Hp Hp').
    - intros He. exists p. split; [done|]. by apply path_single. }
  destruct Hout as [[EA [[Hm _]|[(_ & Hd & _)|(_ & [e He] & ->)]]]|
                    (e & -> & _ & _ & Hfree & Hno & EA & Hme & Hi)].
  - exfalso. pose proof (ca_mode _ Hca). change (mode_ok (record (th_server t)) = false) in Hm.
    congruence.
  - congruence.
  - right. left. split; [done|]. split; [done|]. exists e. by apply Hlast.
  - right. right. split; [done|]. split; [intros e' He'; by apply (Hno e'), Hlast|].
    destruct (create_spec_wf (abs s) e p (new_node (record s1) (next_inode s1 (record s1))
      (Some p) (an_ns n)) n Hwf Hfree) as [_ Hch]; try done.
    { apply new_node_ok. eapply (create_asked_req s r1 Hca); reflexivity. }
    rewrite EA. exists e, p, n. split_and!; try done.
    apply path_app. exists p. split.
    + eapply path_to_eq, Hp. intros q nm x Hx. apply Hch. by right.
    + apply path_single, Hch. by left.
Qed.

(** ** Queries *)

(** Queries that only look a dentry up. *)
Definition is_stat (op : Z) : bool :=
  (op =? SERVICE_OP_STAT_DENTRY_INT) || (op =? SERVICE_OP_READ_LINK_INT) ||
  (op =? SERVICE_OP_LOOKUP_INODE_INT).

(** The query [q] on a thread ends with [rc] and finds [o]. *)
Definition answers (c task : ptr) (t : DataThread) (q : QueuedRecord) (rc : Z) (o : option ptr) :
    Prop :=
  ∃ t', deal_query_record c task (with_th_rec q t) = Some (rc, t') ∧
    re_dentry (r_me (record (th_server t'))) = o.

(** The dentry goes to the record, the rest of the server stays. *)
Lemma stat_query_run c task t q rc o :
  is_stat (q_operation q) = true →
  query_dentry c (with_th_rec q t) = Some ((rc, o), with_th_rec q t) →
  (rc = 0 → is_Some o) →
  ∃ t' r, deal_query_record c task (with_th_rec q t) = Some (rc, t') ∧
    th_server t' = with_record r (th_server t) ∧ re_dentry (r_me r) = o.
Proof.
  intros Hop Hq Ho. unfold deal_query_record. erewrite bind_run by done. cbv zeta.
  cbn [th_rec with_th_rec].
  assert (is_dentry_query (q_operation q) = true ∧ (q_operation q =? SERVICE_OP_GET_XATTR_INT) = false ∧
    (q_operation q =? SERVICE_OP_LIST_XATTR_INT) = false) as (-> & E1 & E2).
  { unfold is_stat, is_dentry_query in *.
    apply orb_true_iff in Hop as [[E|E]%orb_true_iff|E]; apply Z.eqb_eq in E; by rewrite E. }
  unfold deal_dentry_query. rewrite !bind_bind. erewrite bind_run by done.
  rewrite !bind_bind. erewrite bind_run by exact Hq. cbn beta iota. rewrite bind_bind.
  unfold set_me_dentry. erewrite bind_run; [|unfold on_server; rewrite modify_rec_run; reflexivity].
  cbn [th_rec with_th_rec]. destruct (Z.eqb_spec rc 0) as [Hz|Hz]; cbn [negb].
  - destruct (Ho Hz) as [p ->]. rewrite bind_bind. erewrite bind_run by done. rewrite E1, E2.
    cbn [andb]. erewrite bind_run by done. do 2 eexists. split; [reflexivity|]. by split.
  - erewrite bind_run by done. do 2 eexists. split; [reflexivity|]. by split.
Qed.
Lemma stat_answers c task t q rc o :
  is_stat (q_operation q) = true →
  query_dentry c (with_th_rec q t) = Some ((rc, o), with_th_rec q t) →
  (rc = 0 → is_Some o) → answers c task t q rc o.
Proof.
  intros Hop Hq Ho. destruct (stat_query_run c task t q rc o Hop Hq Ho) as (t' & r & Hrun & Es & Er).
  exists t'. split; [done|]. by rewrite Es.
Qed.

(** A query names the dentry [d] of a server: by a path, by its inode, or by its
    directory's inode and its name. *)
Inductive names_dentry (s : Server) (ne : NamespaceEntry) (path : string) (n : ANode)
    (q : QueuedRecord) : Prop :=
  | names_path :
      q_dentry_type q = dentry_type_fullname → q_me_fullname q = mkFullName (ns_name ne) path →
      names_dentry s ne path n q
  | names_inode :
      q_dentry_type q = dentry_type_inode → r_inode (record s) = an_inode n →
      names_dentry s ne path n q
  | names_pname p pn :
      q_dentry_type q = dentry_type_pname → an_parent n = Some p → nodes (abs s) !! p = Some pn →
      q_parent_inode q = an_inode pn → re_pname (r_me (record s)) = an_name n →
      names_dentry s ne path n q.

Section agree.
Context (t : DataThread) (a : ptr) (ne : NamespaceEntry) (root : ptr) (path : string).
Context (d : ptr) (n : ANode).
Let s := th_server t.
Context (Hst : STORAGE_ENABLED = false) (Htree : tree_ok s) (Hns : ns_ok s).
Context (Hne : namespaces s !! a = Some ne) (Hroot : ns_root ne = Some root).
Context (Habs : is_absolute path = true).
Context (Hd : path_to (abs s) root (split_path path) d) (Hn : nodes (abs s) !! d = Some n).
Context (Hl : an_link n = false).

(** By inode, for the dentries of the table. *)
Lemma get_by_inode c p m : nodes (abs s) !! p = Some m → an_link m = false →
  inode_index_get_dentry c (an_inode m) s = Some ((0, Some p), s).
Proof using H2 Htree.
  intros Hm Hlm. destruct Htree as [_ Hv]. destruct (view_live _ _ _ _ Hv _ _ Hm) as (e & [He _] & <-).
  apply (index_get_run s c p e); [apply Hv| |done]. apply (v_in_index _ _ _ _ Hv). by eexists.
Qed.

Lemma path_parent p : an_parent n = Some p → child_at (abs s) p (an_name n) d.
Proof using All.
  intros Hp. destruct Htree as [Hwf Hv].
  destruct (split_path path) as [|x names _] eqn:E using rev_ind.
  - apply path_nil_iff in Hd as <-.
    destruct (w_root _ _ Hwf a root) as (m & Hm & Hpar & _).
    { by rewrite (view_ns_root _ _ _ _ _ _ Hv Hne). }
    congruence.
  - apply path_app in Hd as (p' & _ & Hc%path_single). pose proof Hc as [Hk _]%child_at_alt.
    destruct (wf_kid_ok _ _ _ _ Hwf Hk) as (_ & m & _ & _ & Hm & Hpar & _).
    destruct Hc as (pn & m' & Hpn & Hk' & Hm' & _). assert (m = n) as -> by congruence.
    assert (p' = p) as -> by congruence. by exists pn, n.
Qed.

Lemma query_dentry_run c q : names_dentry s ne path n q →
  query_dentry c (with_th_rec q t) = Some ((0, Some d), with_th_rec q t).
Proof using All.
  intros Hnm. unfold query_dentry.
  erewrite bind_run by done. erewrite bind_run by (by apply (at_server _ t q s)).
  destruct Hnm as [Ety Efn|Ety Ei|p pn Ety Hp Hpn Ei Enm]; cbn [th_rec with_th_rec]; rewrite Ety.
  - rewrite Efn. destruct Htree as [Hwf Hv]. apply (at_server _ t q s).
    by eapply find_follow_run with (n := n).
  - apply (at_server _ t q s). rewrite Ei. by apply get_by_inode.
  - apply (at_server _ t q s). pose proof (path_parent p Hp) as Hch. destruct Htree as [Hwf Hv].
    pose proof Hch as [Hk _]%child_at_alt.
    destruct (wf_kid_ok _ _ _ _ Hwf Hk) as (pn' & _ & Hpn' & Hdir & _). assert (pn' = pn) as -> by congruence.
    assert (an_link pn = false) as Hlp.
    { destruct (an_link pn) eqn:E; [|done]. destruct (w_link _ _ Hwf _ _ Hpn E) as [? _]. congruence. }
    unfold inode_index_get_dentry_by_pname. rewrite Ei. run_with (get_by_inode c p pn Hpn Hlp).
    cbn [Z.eqb negb]. erewrite bind_run by done. unfold dentry_find_by_pname.
    destruct (view_live _ _ _ _ Hv _ _ Hpn) as (pd & [Hpd _] & Epd).
    destruct (view_ns _ _ _ _ Hv _ _ Hpn) as [nse Hnse]. rewrite <- Epd in Hnse. simpl in Hnse.
    sstep. sstep. rewrite Enm.
    destruct (find_child_result s _ _ _ (ns_thread nse) p pn (an_name n) Hst Hv Hwf Hpn)
      as (rc & o & Hrun & Hres).
    run_with Hrun. destruct Hres as [[-> (e & -> & He%path_single)]|[_ Hno]].
    + rewrite (same_name (abs s) p e d _ Hwf He Hch). cbn [Z.eqb].
      destruct (view_live _ _ _ _ Hv _ _ Hn) as (dd & [Hdd _] & Edd). sstep.
      unfold real_dentry. rewrite bind_bind. sstep.
      change (FDIR_IS_DENTRY_HARD_LINK _) with (an_link (node_of dd)). by rewrite Edd, Hl.
    + by destruct (Hno d); apply path_single.
Qed.
Lemma query_answers c task q :
  is_stat (q_operation q) = true → names_dentry s ne path n q → answers c task t q 0 (Some d).
Proof using All.
  intros Hop Hnm. apply stat_answers; [done|by apply query_dentry_run|by eexists].
Qed.
End agree.

(** [C38] Queries agree: a client that names a dentry by its path, by its inode
    or by its directory's inode and its name gets the same dentry, the one the
    path's names lead to. *)
Theorem query_names_agree c task t a ne root path d n q :
  STORAGE_ENABLED = false → tree_ok (th_server t) → ns_ok (th_server t) →
  namespaces (th_server t) !! a = Some ne → ns_root ne = Some root → is_absolute path = true →
  path_to (abs (th_server t)) root (split_path path) d → nodes (abs (th_server t)) !! d = Some n →
  an_link n = false → is_stat (q_operation q) = true → names_dentry (th_server t) ne path n q →
  answers c task t q 0 (Some d).
Proof. intros. by eapply query_answers. Qed.

(** ** The namespace afterwards *)

Lemma roots_kept s s' a ne root :
  tree_ok s → tree_ok s' → ns_key s' = ns_key s → roots (abs s') = roots (abs s) →
  namespaces s !! a = Some ne → ns_root ne = Some root →
  ∃ ne', namespaces s' !! a = Some ne' ∧ ns_name ne' = ns_name ne ∧ ns_root ne' = Some root.
Proof.
  intros [_ Hv] [_ Hv'] Hk Er Hne Hroot.
  destruct (ns_key_fwd s s' a ne Hk Hne) as (ne' & Hne' & _ & En & _). exists ne'.
  split; [done|]. split; [done|].
  by rewrite <- (view_ns_root _ _ _ _ _ _ Hv' Hne'), Er, (view_ns_root _ _ _ _ _ _ Hv Hne).
Qed.

Lemma names_dentry_ns s ne ne' path n q :
  ns_name ne' = ns_name ne → names_dentry s ne path n q → names_dentry s ne' path n q.
Proof.
  intros E [Ety Efn|Ety Ei|p pn Ety Hp Hpn Ei Enm].
  - apply names_path; [done|]. by rewrite E.
  - by apply names_inode.
  - by eapply names_pname.
Qed.

Lemma create_spec_new A c p n d :
  nodes A !! c = None → nodes A !! p = Some d →
  nodes (create_spec c p n A) !! c = Some (n_nlink 1 n).
Proof.
  intros Hc Hp. unfold create_spec, p_attach. rewrite !upd_lookup.
  rewrite decide_True, decide_False by congruence.
  unfold p_new. simpl. by rewrite lookup_insert_eq.
Qed.

(** [C20] A client creates a file or a directory by its path. Without a directory
    to put it in it gets ENOENT or ENOTDIR, for a path in use EEXIST, and the tree
    stays as it was. Otherwise it gets a dentry of the kind it asked for with a
    new inode; every name that led somewhere still leads there, and the client
    finds the new dentry: a query for the path, for its inode or for its name in
    the directory answers with it. *)
Theorem create_by_path_spec c task t a ne root path front name :
  STORAGE_ENABLED = false → by_path t a ne root path front name →
  q_operation (th_rec t) = BINLOG_OP_CREATE_DENTRY_INT → create_asked (th_server t) →
  let s := th_server t in
  ∃ rc t', deal_update_record c t = Some (rc, t') ∧ tree_ok (th_server t') ∧
    ns_ok (th_server t') ∧ let A := abs s in let A' := abs (th_server t') in
    ((A' = A ∧ (rc = ENOENT ∨ rc = ENOTDIR) ∧
        ∀ p n, path_to A root front p → nodes A !! p = Some n → an_dir n = false) ∨
     (A' = A ∧ rc = EEXIST ∧ ∃ e, path_to A root (split_path path) e) ∨
     (rc = 0 ∧ (∀ e, ¬ path_to A root (split_path path) e) ∧
      (∀ q nm x, child_at A q nm x → child_at A' q nm x) ∧
      ∃ e n, path_to A' root (split_path path) e ∧ nodes A' !! e = Some n ∧
        an_inode n = next_inode s (record s) ∧
        an_dir n = S_ISDIR (st_mode (r_stat (record s))) ∧
        ∀ q, is_stat (q_operation q) = true → names_dentry (th_server t') ne path n q →
          answers c task t' q 0 (Some e))).
Proof.
  intros Hst Hbp Hop Hca s.
  destruct (create_by_path_run c t a ne root path front name Hst Hbp Hop Hca)
    as (rc & t' & Hrun & Hok & Hk & Hout).
  exists rc, t'. split; [done|]. split; [done|]. split; [by eapply ns_key_ok; [|apply Hbp]|].
  cbv zeta. rewrite (bp_split _ _ _ _ _ _ _ Hbp).
  destruct Hout as [Hno|[Hno|(-> & Hfree & e & p & d & He & Hp & HeA & HpA & Hdir & EA & _ & _)]]; [by left|by right; left|].
  right. right. split; [done|]. split; [done|]. pose proof (bp_tree _ _ _ _ _ _ _ Hbp) as [Hwf Hv].
  set (n0 := new_node _ _ _ _) in EA.
  destruct (create_spec_wf (abs s) e p n0 d Hwf HeA) as [_ Hch]; try done.
  { apply new_node_ok. unfold link_target_ok. simpl. by rewrite (ca_plain _ Hca). }
  { intros x Hx. apply (Hfree x), path_app. exists p. split; [done|]. by apply path_single. }
  split; [intros q nm x Hx; rewrite EA; apply Hch; by right|].
  exists e, (n_nlink 1 n0). split; [done|].
  assert (nodes (abs (th_server t')) !! e = Some (n_nlink 1 n0)) as Hn'
    by (rewrite EA; by eapply create_spec_new).
  split; [done|]. split; [done|]. split; [done|]. intros q Hq Hnm.
  destruct (roots_kept s (th_server t') a ne root (bp_tree _ _ _ _ _ _ _ Hbp) Hok Hk)
    as (ne' & Hne' & En & Hroot'); [by rewrite EA|apply Hbp|apply Hbp|].
  eapply query_answers with (path := path); try done; [by eapply ns_key_ok; [|apply Hbp]|apply Hbp| | |].
  - by rewrite (bp_split _ _ _ _ _ _ _ Hbp).
  - simpl. exact (ca_plain _ Hca).
  - by eapply names_dentry_ns.
Qed.

(** ** Removing by path *)

Lemma remove_roots c p A : roots (remove_spec c p A) = roots A.
Proof.
  unfold remove_spec, p_reap, p_reap_file, p_free, link_ref. repeat case_match; done.
Qed.

Lemma remove_by_path_run c t a ne root path front name :
  STORAGE_ENABLED = false → by_path t a ne root path front name →
  q_operation (th_rec t) = BINLOG_OP_REMOVE_DENTRY_INT →
  let s := th_server t in let A := abs s in
  ∃ rc t', deal_update_record c t = Some (rc, t') ∧ tree_ok (th_server t') ∧
    ns_key (th_server t') = ns_key s ∧
    ((abs (th_server t') = A ∧ (rc = ENOENT ∨ rc = ENOTDIR) ∧
        (∀ e, ¬ path_to A root (front ++ [name]) e)) ∨
     (abs (th_server t') = A ∧ rc = ENOTEMPTY ∧
        ∃ e, path_to A root (front ++ [name]) e ∧ kids_at A e ≠ ∅) ∨
     (rc = 0 ∧ ∃ e p, path_to A root (front ++ [name]) e ∧ kids_at A e = ∅ ∧
        path_to A root front p ∧ child_at A p name e ∧ abs (th_server t') = remove_spec e p A)).
Proof.
  intros Hst Hbp Hop s A. pose proof (bp_tree _ _ _ _ _ _ _ Hbp) as [Hwf _].
  set (r0 := with_r_affected [] (record s)).
  pose proof (by_path_record _ _ _ _ _ _ _ (th_rec t) r0 Hbp eq_refl eq_refl eq_refl) as Hbp0.
  destruct (find_parent_by_path c _ _ _ _ _ _ _ Hst Hbp0) as (rc & r1 & q1 & Hrun & Eq & Hres).
  cbn [th_server at_ with_th_rec with_th_server record with_record th_rec] in Hrun, Eq, Hres.
  change (abs (with_record r0 (th_server t))) with A in Hres.
  assert (∀ rc t1, update_switch c (at_ t (th_rec t) (with_record r0 s)) = Some ((rc, ENOENT), t1) ∨
      update_switch c (at_ t (th_rec t) (with_record r0 s)) = Some ((rc, 0), t1) →
    ∃ t', deal_update_record c t = Some (rc, t') ∧ th_server t' = th_server t1) as Hfin.
  { intros rc' t1 [Hsw|Hsw]; eapply update_finish; eauto. }
  unfold update_switch in Hfin. erewrite bind_run in Hfin by apply at_get_q. cbv zeta in Hfin.
  rewrite Hop in Hfin.
  change (BINLOG_OP_REMOVE_DENTRY_INT =? BINLOG_OP_CREATE_DENTRY_INT) with false in Hfin.
  change (BINLOG_OP_REMOVE_DENTRY_INT =? BINLOG_OP_REMOVE_DENTRY_INT) with true in Hfin.
  cbn iota in Hfin. unfold deal_remove_op in Hfin. erewrite bind_run in Hfin by exact Hrun.
  assert (∀ p, path_to A root front p → ∀ e, path_to A root (front ++ [name]) e ↔ child_at A p name e)
    as Hlast.
  { intros p Hp e. rewrite path_app. split.
    - intros (p' & Hp' & He%path_single). by rewrite (path_det _ _ _ _ _ Hwf Hp Hp').
    - intros He. exists p. split; [done|]. by apply path_single. }
  destruct Hres as [(-> & p & n & -> & Hp & Hn & Hdir)|[Hrc Hno]].
  2: { replace (rc =? 0) with false in Hfin by (by destruct Hrc as [-> | ->]). cbn [negb] in Hfin.
       edestruct (Hfin rc) as (t' & Hup & Es); [right; reflexivity|]. exists rc, t'. split; [done|].
       cbn [th_server at_ with_th_rec with_th_server] in Es. rewrite Es.
       split; [exact (proj1 (tree_ok_record s r1 (bp_tree _ _ _ _ _ _ _ Hbp)))|].
       split; [done|]. left. split; [done|]. split; [done|].
       intros e (q & Hq & (m & _ & Hm & Hk & _)%path_single)%path_app.
       pose proof (w_leaf _ _ Hwf q m Hm (Hno q m Hq Hm)) as Hleaf. set_solver. }
  cbn [Z.eqb negb] in Hfin. set (s1 := with_record (located p name r0) s).
  destruct (dentry_remove_run s1 c p n Hst (proj1 (tree_ok_record s _ (bp_tree _ _ _ _ _ _ _ Hbp)))
    eq_refl Hn) as (rc & s' & Hrm & Hok' & Hout).
  edestruct (Hfin rc) as (t' & Hup & Es).
  { left. erewrite bind_run by (by apply at_server). reflexivity. }
  exists rc, t'. split; [done|]. cbn [th_server at_ with_th_rec with_th_server] in Es. rewrite Es.
  split; [done|]. split; [exact (remove_keeps_ns s1 c rc s' p Hst eq_refl Hrm)|].
  change (abs s1) with A in Hout. setoid_rewrite (Hlast p Hp).
  destruct Hout as [[EA [[Hd _]|[(_ & Hfree & ->)|[[e [He Hk]] ->]]]]|(e & m & -> & He & Hk & EA & _)].
  - congruence.
  - left. auto.
  - right. left. eauto.
  - right. right. split; [done|]. exists e, p. auto.
Qed.

(** [C21] A client removes by path. A path that leads nowhere gives ENOENT or
    ENOTDIR, a directory with children ENOTEMPTY, and the tree stays as it was.
    Otherwise the path leads nowhere afterwards, for a query of the client too,
    and every name of another dentry leads to what it led to. *)
Theorem remove_by_path_spec c task t a ne root path front name :
  STORAGE_ENABLED = false → by_path t a ne root path front name →
  q_operation (th_rec t) = BINLOG_OP_REMOVE_DENTRY_INT →
  ∃ rc t', deal_update_record c t = Some (rc, t') ∧ tree_ok (th_server t') ∧
    ns_ok (th_server t') ∧ let A := abs (th_server t) in let A' := abs (th_server t') in
    ((A' = A ∧ (rc = ENOENT ∨ rc = ENOTDIR) ∧ (∀ e, ¬ path_to A root (split_path path) e)) ∨
     (A' = A ∧ rc = ENOTEMPTY ∧ ∃ e, path_to A root (split_path path) e ∧ kids_at A e ≠ ∅) ∨
     (rc = 0 ∧ (∀ e, ¬ path_to A' root (split_path path) e) ∧
      (∃ e, path_to A root (split_path path) e ∧
        ∀ q nm x, child_at A' q nm x ↔ child_at A q nm x ∧ x ≠ e) ∧
      ∀ q, is_stat (q_operation q) = true → q_dentry_type q = dentry_type_fullname →
        q_me_fullname q = mkFullName (ns_name ne) path →
        ∃ rc o, answers c task t' q rc o ∧ (rc = ENOENT ∨ rc = ENOTDIR))).
Proof.
  intros Hst Hbp Hop.
  destruct (remove_by_path_run c t a ne root path front name Hst Hbp Hop)
    as (rc & t' & Hrun & Hok & Hk & Hout).
  assert (ns_ok (th_server t')) as Hns by (eapply ns_key_ok; [done|apply Hbp]).
  exists rc, t'. split; [done|]. split; [done|]. split; [done|]. cbv zeta.
  rewrite (bp_split _ _ _ _ _ _ _ Hbp).
  destruct Hout as [Hno|[Hno|(-> & e & p & He & Hkids & Hp & Hc & EA)]]; [by left|by right; left|].
  right. right. split; [done|]. pose proof (bp_tree _ _ _ _ _ _ _ Hbp) as [Hwf Hv].
  pose proof Hc as [Hck _]%child_at_alt.
  destruct (remove_spec_wf _ e p Hwf Hck Hkids) as [_ Hch]. rewrite <- EA in Hch.
  assert (∀ x, ¬ path_to (abs (th_server t')) root (front ++ [name]) x) as Hgone.
  { intros x (q & Hq & [Hx Hne]%path_single%Hch)%path_app.
    apply (path_to_eq _ (abs (th_server t))) in Hq; [|intros ???; by intros [? _]%Hch].
    rewrite (path_det _ _ _ _ _ Hwf Hq Hp) in Hx. by rewrite (same_name _ p x e name Hwf Hx Hc) in Hne. }
  split; [done|]. split; [by exists e|]. intros q Hq Hty Hfn.
  destruct (roots_kept _ (th_server t') a ne root (bp_tree _ _ _ _ _ _ _ Hbp) Hok Hk)
    as (ne' & Hne' & En & Hroot'); [by rewrite EA, remove_roots|apply Hbp|apply Hbp|].
  pose proof Hok as [Hwf' Hv'].
  destruct (find_follow_none (th_server t') _ _ _ Hst Hv' Hwf' Hns a ne' root Hne' Hroot' path
    (bp_absolute _ _ _ _ _ _ _ Hbp)) as (rc & o & Hfind & Hrc).
  { by rewrite (bp_split _ _ _ _ _ _ _ Hbp). }
  exists rc, o. split; [|done]. apply stat_answers; [done| |by destruct Hrc as [-> | ->]].
  unfold query_dentry. erewrite bind_run by done.
  erewrite bind_run by (by apply (at_server _ t' q (th_server t'))).
  cbn [th_rec with_th_rec]. rewrite Hty, Hfn. cbn [fn_ns fn_path]. rewrite <- En.
  by apply (at_server _ t' q (th_server t')).
Qed.
End by_path.
