(* ===== verification/DataThreadDemo.v ===== *)
(** * A data thread on a concrete server

    The theorems of [DataThreadSpec], [DataThreadBatch] and [DataThreadTree] on
    the server of [DentryDemo]: [/], [/d], [/d/f], [/e] and [/g]. *)

From S2P Require Import Prelude NsSubscribe FsTree Flock ServerTypes InodeGenerator.
From S2P Require Import NsManager InodeIndex Dentry DentryView DentryTree DentryPath.
From S2P Require Import DentryDemo Thread FlockIndex DataThread DataThreadSpec.
From S2P Require Import DataThreadBatch DataThreadTree.

Section demo.
Import ListSkiplist.
Existing Instance list_skiplist.
Existing Instance small_config.
Existing Instance slash_split.
Existing Instance no_storage.

Definition no_notify : ChangeNotify := {|
  push_to_db_update_queue := mret 0;
  push_batch_set_dsize_to_db_update_queue := mret 0
|}.
Existing Instance no_notify.

(** ** Threads *)

Definition queued (op : Z) (ty : DEntryType) (path : string) (batch : list BatchItem) :
    QueuedRecord :=
  mkQueuedRecord op 0 ty (mkFullName "fs" path) (mkFullName "" "") 0 0 (mkFullName "" "") 0
    false 0 batch (mkBatchCounts 0 0 0) false (mkFlockParams 0 (mkFlockOwner 0 0) 0 0)
    None None true.

Definition small_task : FastTask := mkFastTask 4096 40 100 false None.

(** A thread that serves [five_dentries] and is about to process [q] for [r];
    six versions have been used. *)
Definition thread_for (q : QueuedRecord) (r : BinlogRecord) : DataThread :=
  mkDataThread (asks r) q 6 0 FDIR_DATA_ERROR_MODE_STRICT ∅ [] 0 small_task
    (mkDentryArray 0 []) [].

Definition no_record : BinlogRecord := mkfile None "".

Definition creates (path : string) : DataThread :=
  thread_for (queued BINLOG_OP_CREATE_DENTRY_INT dentry_type_fullname path []) no_record.
Definition removes (path : string) : DataThread :=
  thread_for (queued BINLOG_OP_REMOVE_DENTRY_INT dentry_type_fullname path []) no_record.
Definition stats (path : string) : QueuedRecord :=
  queued SERVICE_OP_STAT_DENTRY_INT dentry_type_fullname path [].

Definition fs_entry : NamespaceEntry :=
  mkNamespaceEntry 1 2 "fs" (Some 1%positive) (mkNsCounts 3 2) 0 1%positive None.

Lemma record_ns_ok s r : ns_ok s → ns_ok (with_record r s).
Proof. by apply ns_key_ok. Qed.
Lemma asks_ns_ok r : ns_ok (asks r).
Proof. apply record_ns_ok, five_dentries_ns_ok. Qed.

Lemma a_path op path front name :
  split_path path = front ++ [name] → is_absolute path = true → path ≠ "/"%string →
  String.length name = 1%nat →
  by_path (thread_for (queued op dentry_type_fullname path []) no_record) 1%positive fs_entry
    1%positive path front name.
Proof.
  intros Hs Ha Hn Hl.
  split; [apply asks_ok|apply asks_ns_ok|vm_compute; reflexivity|reflexivity..|exact Ha|exact Hs|exact Hn|].
  unfold room_for. vm_compute (sizeof_StatDEntryResp <? _). unfold slen. rewrite Hl. simpl. lia.
Qed.

(** Inode numbers, checked by evaluation. *)
Lemma nothing_asked s :
  fresh_in (abs s) "?" (next_inode s (record s)) = true → mode_ok (record s) = true →
  FDIR_IS_DENTRY_HARD_LINK (st_mode (r_stat (record s))) = false →
  S_ISLNK (st_mode (r_stat (record s))) = false → inode_ok (next_inode s (record s)) →
  create_asked s.
Proof. intros [_ Hf]%fresh_in_spec ? ? ? ?. by split. Qed.

(** ** Updates by path *)

(** [touch /d/h], and [stat /d/h] finds it. *)
Lemma create_by_path_spec_witness :
  ∃ t' e, deal_update_record 1%positive (creates "/d/h") = Some (0, t') ∧
    answers 1%positive 1%positive t' (stats "/d/h") 0 (Some e).
Proof.
  edestruct (create_by_path_spec 1%positive 1%positive (creates "/d/h") 1%positive fs_entry
    1%positive "/d/h" ["d"] "h") as (rc & t' & Hrun & _ & _ & Hres);
    [reflexivity|by apply a_path|reflexivity| |].
  { apply nothing_asked; [vm_compute; reflexivity|reflexivity|reflexivity|reflexivity|].
    split; [vm_compute; discriminate|reflexivity]. }
  pose proof (f_equal (option_map fst) Hrun) as Hrc. vm_compute (option_map fst (deal_update_record _ _)) in Hrc.
  injection Hrc as <-. exists t'.
  destruct Hres as [(_ & [[=]|[=]] & _)|[(_ & [=] & _)|(_ & _ & _ & e & n & _ & _ & _ & _ & Hq)]].
  exists e. split; [exact Hrun|]. apply Hq; [reflexivity|]. by apply names_path.
Defined.

(** [rm /d/f], and [stat /d/f] does not find it any more. *)
Lemma remove_by_path_spec_witness :
  ∃ t' rc o, deal_update_record 1%positive (removes "/d/f") = Some (0, t') ∧
    answers 1%positive 1%positive t' (stats "/d/f") rc o ∧ (rc = ENOENT ∨ rc = ENOTDIR).
Proof.
  edestruct (remove_by_path_spec 1%positive 1%positive (removes "/d/f") 1%positive fs_entry
    1%positive "/d/f" ["d"] "f") as (rc & t' & Hrun & _ & _ & Hres);
    [reflexivity|by apply a_path|reflexivity|].
  pose proof (f_equal (option_map fst) Hrun) as Hrc. vm_compute (option_map fst (deal_update_record _ _)) in Hrc.
  injection Hrc as <-. exists t'.
  destruct Hres as [(_ & [[=]|[=]] & _)|[(_ & [=] & _)|(_ & _ & _ & Hq)]].
  destruct (Hq (stats "/d/f")) as (rc & o & Ha & Hrc); [reflexivity..|].
  exists rc, o. split; [exact Hrun|]. by split.
Defined.

(** [stat] of the inode of [/d/f]. *)
Lemma query_names_agree_witness :
  let n := abs five_dentries in
  ∃ t', deal_query_record 1%positive 1%positive
      (with_th_rec (queued SERVICE_OP_STAT_DENTRY_INT dentry_type_inode "" [])
        (thread_for (stats "") (with_r_inode
          (match nodes n !! 3%positive with Some f => an_inode f | None => 0 end) no_record)))
      = Some (0, t') ∧ re_dentry (r_me (record (th_server t'))) = Some 3%positive.
Proof.
  intros n. eapply (query_names_agree 1%positive 1%positive _ 1%positive fs_entry 1%positive "/d/f"
    3%positive); [reflexivity|apply asks_ok|apply asks_ns_ok|reflexivity|reflexivity|reflexivity| |
    vm_compute; reflexivity|reflexivity|reflexivity|].
  - apply path_cons_iff. exists 2%positive. split.
    + apply child_here; vm_compute; reflexivity.
    + apply path_single, child_here; vm_compute; reflexivity.
  - apply names_inode; vm_compute; reflexivity.
Defined.

(** ** Versions *)

Lemma ran {A} (o : option A) : match o with Some _ => true | None => false end = true → ∃ x, o = Some x.
Proof. destruct o; [by eexists|done]. Qed.

(** The seventh version is the one [/d/h] gets. *)
Lemma deal_update_record_version_witness :
  ∃ t', deal_update_record 1%positive (creates "/d/h") = Some (0, t') ∧
    q_data_version (th_rec t') = 7 ∧ th_notified t' = [mkNotice BINLOG_OP_CREATE_DENTRY_INT 7 0 false].
Proof.
  destruct (ran (deal_update_record 1%positive (creates "/d/h"))) as [[rc t'] E];
    [vm_compute; reflexivity|].
  pose proof (f_equal (option_map (λ x, (fst x, q_operation (th_rec (snd x))))) E) as Hrc.
  vm_compute (option_map _ (deal_update_record _ _)) in Hrc. injection Hrc as <- Eop.
  destruct (deal_update_record_version 1%positive (creates "/d/h") 0 t') as (e & _ & Hn & He);
    [reflexivity|exact E|simpl; lia|simpl; lia|vm_compute; reflexivity|].
  destruct He as [-> [Ev _]]. exists t'. split; [exact E|]. split; [exact Ev|].
  rewrite Hn. unfold notice. by rewrite Ev, <- Eop.
Defined.

Definition item_of (t : DataThread) (update : bool) : QueueItem :=
  mkQueueItem update (th_rec t) (record (th_server t)) (th_task t) 1%positive.

(** Two updates and a query between them. *)
Definition some_items : list QueueItem :=
  [item_of (creates "/d/h") true;
   item_of (thread_for (stats "/d/h") no_record) false;
   item_of (removes "/g") true].

Lemma deal_records_versions_witness :
  ∃ t', deal_records 1%positive some_items (creates "/") = Some ((), t') ∧
    StronglySorted Z.lt (versions (th_notified t')) ∧ versions (th_notified t') = [7; 8].
Proof.
  destruct (ran (deal_records 1%positive some_items (creates "/"))) as [[[] t'] E];
    [vm_compute; reflexivity|].
  destruct (deal_records_versions 1%positive some_items (creates "/") t') as (ns & Hn & _ & Hs & _);
    [reflexivity|exact E|repeat constructor|simpl; lia|vm_compute; reflexivity|].
  exists t'. split; [exact E|]. rewrite Hn. split; [exact Hs|].
  rewrite <- Hn. apply (f_equal (option_map (λ x, versions (th_notified (snd x))))) in E.
  vm_compute in E. by injection E.
Defined.

(** ** Batches *)

Lemma tree_table_ok s : tree_ok s → table_ok s.
Proof.
  intros [Hwf Hv]. split; [apply Hv|]. intros p d Hp Hd.
  apply (v_in_index _ _ _ _ Hv) in Hp as (n & Hn & _).
  destruct (view_live _ _ _ _ Hv _ _ Hn) as (d' & [Hd' _] & Ed). simplify_eq.
  exact (view_ns _ _ _ _ Hv _ _ Hn).
Qed.

(** The request to set the size of the file with the inode [i] to 100. *)
Definition sets_size (i : Z) : BatchItem :=
  mkBatchItem (mkBinlogRecord i "fs" 0 1 no_options (mkRecordDEntry "" None None)
    (mkRecordDEntry "" None None) None None [] (with_st_size 100 zero_stat) "" ("", "")) 0.

Definition inode_at (p : ptr) : Z :=
  match dentries five_dentries !! p with Some d => d_inode d | None => 0 end.

Definition batch_thread (items : list BatchItem) : DataThread :=
  thread_for (queued SERVICE_OP_BATCH_SET_DSIZE_INT dentry_type_inode "" items) no_record.

(** [/d/f] and [/g] get the versions 7 and 8. *)
Definition two_sizes : list BatchItem := [sets_size (inode_at 3%positive); sets_size (inode_at 5%positive)].

Lemma batch_set_dentry_size_spec_witness :
  ∃ t', batch_set_dentry_size 1%positive (batch_thread two_sizes) = Some (0, t') ∧
    th_current_version t' = 8 ∧ bi_data_version <$> filter flagged (q_batch (th_rec t')) = [7; 8].
Proof.
  edestruct (batch_set_dentry_size_spec 1%positive (batch_thread two_sizes))
    as (rc & t' & Hrun & _ & _ & Hrc & _ & Hv);
    [reflexivity|apply tree_table_ok, asks_ok| |simpl; lia|vm_compute; reflexivity|].
  { repeat constructor; vm_compute; try reflexivity; discriminate. }
  pose proof (f_equal (option_map (λ x, (fst x, th_current_version (snd x),
    count (filter flagged (q_batch (th_rec (snd x))))))) Hrun) as Hs.
  vm_compute (option_map _ (batch_set_dentry_size _ _)) in Hs. injection Hs as <- Ecur En.
  exists t'. split; [exact Hrun|]. split; [by symmetry|]. rewrite <- En in Hv.
  rewrite decide_False in Hv; [by destruct Hv as [_ ->]|].
  intros [Hh|Hm]; [|vm_compute in Hm; discriminate Hm].
  rewrite decide_True in Hrc by exact Hh. discriminate Hrc.
Defined.
End demo.
