(* ===== verification/CText.v ===== *)
(** * C text: bytes in memory, decimal numbers

    What the sources use of the C standard library on character data: numbers
    printed by [snprintf] ("%d", "%u", "%ld", "%04d"), [strtol]/[strtoll], and
    reads of a memory area ([memcmp], [memchr], [fc_memrchr]) where a read
    outside the area is [None]. *)

From Stdlib Require Import Ascii.
From S2P Require Import Prelude.

Definition text := list ascii.
Definition lit (s : string) : text := String.list_ascii_of_string s.
Definition zlen {A} (l : list A) : Z := Z.of_nat (length l).

(** The value of an unsigned and of a signed char. *)
Definition code (c : ascii) : Z := Z.of_N (N_of_ascii c).
Definition schar (c : ascii) : Z := if code c <? 128 then code c else code c - 256.

Definition digit (d : Z) : ascii := ascii_of_N (Z.to_N (48 + d)).
Definition is_digit (c : ascii) : bool := (48 <=? code c) && (code c <=? 57).
Definition is_space (c : ascii) : bool :=
  (code c =? 32) || ((9 <=? code c) && (code c <=? 13)).

(** ** Printing *)

Fixpoint digits_of (fuel : nat) (n : Z) : text :=
  match fuel with
  | O => []
  | S fuel' => if n <? 10 then [digit n] else digits_of fuel' (n / 10) ++ [digit (n `mod` 10)]
  end.

(** "%u" and the digits of "%ld": a 64-bit number has at most 20 digits. *)
Definition print_nat (n : Z) : text := digits_of 20 n.
(** "%d", "%ld" *)
Definition print_int (n : Z) : text :=
  if n <? 0 then lit "-" ++ print_nat (- n) else print_nat n.
(** "%04d" of a number that is not negative *)
Definition print_04 (n : Z) : text :=
  let t := print_nat n in replicate (4 - length t) (digit 0) ++ t.

(** ** strtol, strtoll in base 10

    Takes the bytes from the start of the string to the end of the memory it
    lies in; gives the value and what is left from the first character that
    is not converted, or [None] when the scan runs off the memory. *)

Fixpoint span (p : ascii → bool) (s : text) : text * text :=
  match s with
  | [] => ([], [])
  | c :: s' => if p c then let r := span p s' in (c :: r.1, r.2) else ([], s)
  end.

Definition digits_value (ds : text) : Z :=
  fold_left (λ acc c, 10 * acc + (code c - 48)) ds 0.

Definition clamp64 (z : Z) : Z := Z.max (- 2 ^ 63) (Z.min (2 ^ 63 - 1) z).

Definition strip_sign (s : text) : bool * text :=
  match s with
  | c :: s' => if code c =? 45 then (true, s') else if code c =? 43 then (false, s') else (false, s)
  | [] => (false, s)
  end.

Definition strtoll (s : text) : option (Z * text) :=
  let sg := strip_sign (span is_space s).2 in
  let r := span is_digit sg.2 in
  match r.2 with
  | [] => None
  | _ :: _ =>
      Some (match r.1 with
            | [] => (0, s)
            | ds => (clamp64 (if sg.1 then - digits_value ds else digits_value ds), r.2)
            end)
  end.

(** ** Memory *)

(** The byte at offset [i]. *)
Definition byte_at (mem : text) (i : Z) : option ascii :=
  if i <? 0 then None else mem !! Z.to_nat i.

(** The [n] bytes at offset [i]. *)
Definition bytes_at (mem : text) (i n : Z) : option text :=
  if (i <? 0) || (n <? 0) || (zlen mem <? i + n) then None
  else Some (take (Z.to_nat n) (drop (Z.to_nat i) mem)).

(** [strtoll] at an offset: the value and the offset of [endptr]. *)
Definition strtoll_at (mem : text) (i : Z) : option (Z * Z) :=
  if (i <? 0) || (zlen mem <? i) then None
  else match strtoll (drop (Z.to_nat i) mem) with
       | Some (n, rest) => Some (n, zlen mem - zlen rest)
       | None => None
       end.

Fixpoint find_char (c : ascii) (s : text) : option nat :=
  match s with
  | [] => None
  | x :: s' => if Ascii.eqb x c then Some O else option_map S (find_char c s')
  end.

(** [memchr(mem + i, c, n)]: the offset found, if any. *)
Definition memchr (mem : text) (i n : Z) (c : ascii) : option (option Z) :=
  match bytes_at mem i n with
  | None => None
  | Some s => Some (option_map (λ k, i + Z.of_nat k) (find_char c s))
  end.

(** [fc_memrchr(mem + i, c, n)]: the offset of the last [c] among these [n]
    bytes. *)
Fixpoint find_last (c : ascii) (s : text) : option nat :=
  match s with
  | [] => None
  | x :: s' =>
      match find_last c s' with
      | Some k => Some (S k)
      | None => if Ascii.eqb x c then Some O else None
      end
  end.
Definition memrchr (mem : text) (i n : Z) (c : ascii) : option (option Z) :=
  match bytes_at mem i n with
  | None => None
  | Some s => Some (option_map (λ k, i + Z.of_nat k) (find_last c s))
  end.

(** Bytes written over others ([memcpy] and [sprintf] into a buffer). *)
Definition overwrite (off : Z) (t : text) (s : text) : text :=
  take (Z.to_nat off) s ++ t ++ drop (Z.to_nat off + length t) s.

(** ** Loops

    The state of a loop goes to the next state or the loop ends with a result;
    [None] is a step whose behaviour is undefined. [iterate] makes at most
    [fuel] turns: [Some (inl s)] is a loop that still runs, in state [s]. *)
Fixpoint iterate {St R} (step : St → option (St + R)) (fuel : nat) (s : St)
    : option (St + R) :=
  match fuel with
  | O => Some (inl s)
  | S fuel' => match step s with
               | Some (inl s') => iterate step fuel' s'
               | r => r
               end
  end.
Definition run_loop {St R} (step : St → option (St + R)) (fuel : nat) (s : St) : option R :=
  match iterate step fuel s with Some (inr r) => Some r | _ => None end.

(** ** Lemmas *)

Lemma zlen_app {A} (l k : list A) : zlen (l ++ k) = zlen l + zlen k.
Proof. unfold zlen. rewrite length_app. lia. Qed.
Lemma zlen_cons {A} (x : A) l : zlen (x :: l) = 1 + zlen l.
Proof. unfold zlen. cbn [length]. lia. Qed.
Lemma zlen_nil {A} : zlen (@nil A) = 0.
Proof. done. Qed.
Lemma zlen_nonneg {A} (l : list A) : 0 ≤ zlen l.
Proof. unfold zlen. lia. Qed.
#[export] Hint Rewrite @zlen_app @zlen_cons @zlen_nil : zlen.

Lemma code_digit d : 0 ≤ d < 10 → code (digit d) = 48 + d.
Proof.
  intros Hd. unfold code, digit. rewrite N_ascii_embedding by lia. lia.
Qed.

Lemma is_digit_digit d : 0 ≤ d < 10 → is_digit (digit d) = true.
Proof.
  intros Hd. unfold is_digit. rewrite code_digit by done.
  apply andb_true_iff. split; apply Z.leb_le; lia.
Qed.

Lemma digits_of_digits fuel n : 0 ≤ n → Forall (λ c, is_digit c = true) (digits_of fuel n).
Proof.
  revert n. induction fuel as [|fuel IH]; intros n Hn; cbn [digits_of]; [done|].
  destruct (Z.ltb_spec n 10).
  - repeat constructor. apply is_digit_digit. lia.
  - apply Forall_app. split; [apply IH; divlia|].
    repeat constructor. apply is_digit_digit. divlia.
Qed.

Lemma digits_value_app ds c :
  digits_value (ds ++ [c]) = 10 * digits_value ds + (code c - 48).
Proof. unfold digits_value. by rewrite fold_left_app. Qed.

Lemma digits_of_value fuel n :
  0 ≤ n < 10 ^ Z.of_nat fuel → digits_value (digits_of fuel n) = n.
Proof.
  revert n. induction fuel as [|fuel IH]; intros n Hn; cbn [digits_of].
  - unfold digits_value. simpl in *. lia.
  - destruct (Z.ltb_spec n 10).
    + unfold digits_value. cbn [fold_left]. rewrite code_digit by lia. lia.
    + rewrite digits_value_app, IH, code_digit; [divlia| |]; [divlia|].
      rewrite Nat2Z.inj_succ, Z.pow_succ_r in Hn by lia. divlia.
Qed.

Lemma digits_of_length fuel n : (length (digits_of fuel n) ≤ fuel)%nat.
Proof.
  revert n. induction fuel as [|fuel IH]; intros n; cbn [digits_of]; [done|].
  destruct (n <? 10); [simpl; lia|]. rewrite length_app. specialize (IH (n / 10)).
  simpl. lia.
Qed.

Lemma digits_of_nonempty fuel n : digits_of (S fuel) n ≠ [].
Proof.
  cbn [digits_of]. destruct (n <? 10); [done|]. intros H%app_nil. by destruct H.
Qed.

Lemma print_int_length n : zlen (print_int n) ≤ 21.
Proof.
  unfold print_int, print_nat, zlen.
  pose proof (digits_of_length 20 n). pose proof (digits_of_length 20 (- n)).
  destruct (n <? 0); rewrite ?length_app; simpl (length (lit _)); lia.
Qed.

Lemma span_all p s c rest :
  Forall (λ c, p c = true) s → p c = false → span p (s ++ c :: rest) = (s, c :: rest).
Proof.
  induction 1 as [|x s Hx _ IH]; intros Hc; cbn [app span].
  - by rewrite Hc.
  - rewrite Hx, IH by done. done.
Qed.

Lemma is_digit_not_space c : is_digit c = true → is_space c = false.
Proof.
  unfold is_digit, is_space. intros [H1%Z.leb_le H2%Z.leb_le]%andb_true_iff.
  apply orb_false_iff. split; [apply Z.eqb_neq; lia|].
  apply andb_false_iff. right. apply Z.leb_gt. lia.
Qed.

Lemma clamp64_small z : is_int64 z → clamp64 z = z.
Proof. unfold is_int64, clamp64. lia. Qed.

Lemma strip_sign_digit c s : is_digit c = true → strip_sign (c :: s) = (false, c :: s).
Proof.
  unfold is_digit. intros [H1%Z.leb_le H2%Z.leb_le]%andb_true_iff. cbn [strip_sign].
  destruct (Z.eqb_spec (code c) 45); [lia|]. destruct (Z.eqb_spec (code c) 43); [lia|]. done.
Qed.

(** The digits of a number, read back. *)
Lemma strtoll_digits ds c rest :
  Forall (λ c, is_digit c = true) ds → ds ≠ [] → is_digit c = false →
  strtoll (ds ++ c :: rest) = Some (clamp64 (digits_value ds), c :: rest).
Proof.
  intros Hds Hne Hc. destruct ds as [|d ds]; [done|].
  assert (Hd : is_digit d = true) by by inversion Hds.
  unfold strtoll. cbn [app span]. rewrite (is_digit_not_space d) by done.
  cbn [snd]. rewrite strip_sign_digit by done. cbn [fst snd].
  rewrite (app_comm_cons ds (c :: rest) d), span_all by done. done.
Qed.

Lemma strtoll_minus ds c rest :
  Forall (λ c, is_digit c = true) ds → ds ≠ [] → is_digit c = false →
  strtoll (lit "-" ++ ds ++ c :: rest) = Some (clamp64 (- digits_value ds), c :: rest).
Proof.
  intros Hds Hne Hc. unfold strtoll.
  change (span is_space (lit "-" ++ ds ++ c :: rest)) with
    (@nil ascii, "-"%char :: ds ++ c :: rest).
  cbn [snd]. change (strip_sign ("-"%char :: ds ++ c :: rest)) with (true, ds ++ c :: rest).
  cbn [fst snd]. rewrite span_all by done. cbn [fst snd]. by destruct ds.
Qed.

Lemma strtoll_print_int n c rest :
  is_int64 n → is_digit c = false →
  strtoll (print_int n ++ c :: rest) = Some (n, c :: rest).
Proof.
  unfold is_int64. intros Hn Hc. unfold print_int, print_nat.
  assert (H20 : 2 ^ 64 < 10 ^ Z.of_nat 20) by done.
  destruct (Z.ltb_spec n 0).
  - rewrite <- app_assoc, strtoll_minus; [|apply digits_of_digits; lia|
      apply digits_of_nonempty|done].
    rewrite digits_of_value by lia. by rewrite Z.opp_involutive, clamp64_small.
  - rewrite strtoll_digits; [|apply digits_of_digits; lia|apply digits_of_nonempty|done].
    rewrite digits_of_value by lia. by rewrite clamp64_small.
Qed.

(** ** Reads of a memory written as what is before the offset and what is after *)

Lemma byte_at_app s c rest i : i = zlen s → byte_at (s ++ c :: rest) i = Some c.
Proof.
  intros ->. unfold byte_at. destruct (Z.ltb_spec (zlen s) 0); [pose proof (zlen_nonneg s); lia|].
  unfold zlen. rewrite Nat2Z.id. by apply list_lookup_middle.
Qed.

Lemma bytes_at_app s t rest i n :
  i = zlen s → n = zlen t → bytes_at (s ++ t ++ rest) i n = Some t.
Proof.
  intros -> ->. unfold bytes_at.
  pose proof (zlen_nonneg s). pose proof (zlen_nonneg t). pose proof (zlen_nonneg rest).
  rewrite !zlen_app.
  destruct (Z.ltb_spec (zlen s) 0); [lia|]. destruct (Z.ltb_spec (zlen t) 0); [lia|].
  destruct (Z.ltb_spec (zlen s + (zlen t + zlen rest)) (zlen s + zlen t)); [lia|].
  cbn [orb]. unfold zlen. rewrite !Nat2Z.id, drop_app_length, take_app_length. done.
Qed.

Lemma bytes_at_head t rest n : n = zlen t → bytes_at (t ++ rest) 0 n = Some t.
Proof. exact (bytes_at_app [] t rest 0 n eq_refl). Qed.

Lemma bytes_at_prefix mem rest i n t :
  bytes_at mem i n = Some t → bytes_at (mem ++ rest) i n = Some t.
Proof.
  unfold bytes_at. rewrite zlen_app. pose proof (zlen_nonneg rest).
  destruct (Z.ltb_spec i 0); [done|]. destruct (Z.ltb_spec n 0); [done|].
  destruct (Z.ltb_spec (zlen mem) (i + n)); [done|]. cbn [orb].
  destruct (Z.ltb_spec (zlen mem + zlen rest) (i + n)); [lia|].
  intros [= <-]. unfold zlen in *. rewrite drop_app_le by lia.
  rewrite take_app_le; [done|]. rewrite length_drop. lia.
Qed.

Lemma bytes_at_0 s n : 0 ≤ n ≤ zlen s → bytes_at s 0 n = Some (take (Z.to_nat n) s).
Proof.
  intros Hn. unfold bytes_at. cbn [Z.ltb Z.compare orb].
  destruct (Z.ltb_spec n 0); [lia|]. destruct (Z.ltb_spec (zlen s) (0 + n)); [lia|]. done.
Qed.

Lemma strtoll_at_app s t i :
  i = zlen s →
  strtoll_at (s ++ t) i =
  match strtoll t with Some (n, rest) => Some (n, zlen s + zlen t - zlen rest) | None => None end.
Proof.
  intros ->. unfold strtoll_at.
  pose proof (zlen_nonneg s). pose proof (zlen_nonneg t). rewrite zlen_app.
  destruct (Z.ltb_spec (zlen s) 0); [lia|].
  destruct (Z.ltb_spec (zlen s + zlen t) (zlen s)); [lia|]. cbn [orb].
  unfold zlen at 1. rewrite Nat2Z.id, drop_app_length. done.
Qed.

(** A printed number at an offset, followed by something else than a digit. *)
Lemma strtoll_at_print s n c rest i :
  i = zlen s → is_int64 n → is_digit c = false →
  strtoll_at (s ++ print_int n ++ c :: rest) i = Some (n, i + zlen (print_int n)).
Proof.
  intros -> Hn Hc. rewrite (strtoll_at_app _ _ _ eq_refl), strtoll_print_int by done.
  f_equal. f_equal. rewrite zlen_app. lia.
Qed.

Lemma find_char_None c s : find_char c s = None ↔ c ∉ s.
Proof.
  induction s as [|x s IH]; cbn [find_char]; [split; [intros _; by apply not_elem_of_nil|done]|].
  rewrite not_elem_of_cons. destruct (Ascii.eqb_spec x c) as [->|Hne].
  - split; [done|]. by intros [? _].
  - destruct (find_char c s); cbn [option_map]; split; intros H; try done.
    + destruct H as [_ H]. by apply IH in H.
    + split; [congruence|]. by apply IH.
Qed.

Lemma find_char_app c s rest : c ∉ s → find_char c (s ++ c :: rest) = Some (length s).
Proof.
  induction s as [|x s IH]; cbn [app find_char length].
  - by rewrite Ascii.eqb_refl.
  - rewrite not_elem_of_cons. intros [Hne Hs]. rewrite IH by done.
    destruct (Ascii.eqb_spec x c); [congruence|done].
Qed.

Lemma find_last_None c s : find_last c s = None ↔ c ∉ s.
Proof.
  induction s as [|x s IH]; cbn [find_last]; [split; [intros _; by apply not_elem_of_nil|done]|].
  rewrite not_elem_of_cons. destruct (find_last c s).
  - split; [done|]. intros [_ H]. by apply IH in H.
  - destruct (Ascii.eqb_spec x c) as [->|Hne].
    + split; [done|]. by intros [? _].
    + split; [|done]. intros _. split; [congruence|]. by apply IH.
Qed.

Lemma find_last_app c s rest : c ∉ rest → find_last c (s ++ c :: rest) = Some (length s).
Proof.
  intros Hrest. induction s as [|x s IH]; cbn [app find_last length].
  - apply find_last_None in Hrest. by rewrite Hrest, Ascii.eqb_refl.
  - by rewrite IH.
Qed.

Lemma memrchr_app pre s c rest post i n :
  c ∉ rest → i = zlen pre → n = zlen (s ++ c :: rest) →
  memrchr (pre ++ (s ++ c :: rest) ++ post) i n c = Some (Some (i + zlen s)).
Proof.
  intros Hc -> ->. unfold memrchr. rewrite (bytes_at_app _ _ _ _ _ eq_refl eq_refl).
  by rewrite find_last_app.
Qed.

Lemma memrchr_None pre s post i n c :
  c ∉ s → i = zlen pre → n = zlen s → memrchr (pre ++ s ++ post) i n c = Some None.
Proof.
  intros Hc -> ->. unfold memrchr. rewrite (bytes_at_app _ _ _ _ _ eq_refl eq_refl).
  apply find_last_None in Hc. by rewrite Hc.
Qed.

Lemma memchr_app pre s c rest post i n :
  c ∉ s → i = zlen pre → n = zlen (s ++ c :: rest) →
  memchr (pre ++ (s ++ c :: rest) ++ post) i n c = Some (Some (i + zlen s)).
Proof.
  intros Hc -> ->. unfold memchr. rewrite (bytes_at_app _ _ _ _ _ eq_refl eq_refl).
  by rewrite find_char_app.
Qed.

Lemma overwrite_app s t u r off :
  off = zlen s → length t = length u → overwrite off t (s ++ u ++ r) = s ++ t ++ r.
Proof.
  intros -> Hl. unfold overwrite, zlen. rewrite Nat2Z.id, take_app_length, Hl.
  rewrite <- drop_drop, drop_app_length, drop_app_length. done.
Qed.

(** A loop whose turns decrease a measure ends within the measure's turns. *)
Lemma iterate_ends {St R} (step : St → option (St + R)) (m : St → nat) (inv : St → Prop) fuel s :
  (∀ s s', inv s → step s = Some (inl s') → inv s' ∧ (m s' < m s)%nat) →
  inv s → (m s < fuel)%nat → ∀ s', iterate step fuel s ≠ Some (inl s').
Proof.
  intros Hstep. revert s. induction fuel as [|fuel IH]; intros s Hi Hm s'; [lia|].
  cbn [iterate]. destruct (step s) as [[s1|r]|] eqn:E; [|done..].
  destruct (Hstep _ _ Hi E). apply IH; [done|lia].
Qed.

Lemma iterate_more {St R} (step : St → option (St + R)) fuel k s r :
  iterate step fuel s = Some (inr r) → iterate step (fuel + k) s = Some (inr r).
Proof.
  revert s. induction fuel as [|fuel IH]; intros s; cbn [iterate Nat.add]; [done|].
  destruct (step s) as [[s1|r1]|]; [apply IH|done..].
Qed.

Lemma run_loop_done {St R} (step : St → option (St + R)) fuel s r :
  step s = Some (inr r) → run_loop step (S fuel) s = Some r.
Proof. intros E. unfold run_loop. cbn [iterate]. by rewrite E. Qed.

Lemma run_loop_step {St R} (step : St → option (St + R)) fuel s s' :
  step s = Some (inl s') → run_loop step (S fuel) s = run_loop step fuel s'.
Proof. intros E. unfold run_loop. cbn [iterate]. by rewrite E. Qed.

(** ** Numbers of four digits *)

Lemma digits_value_zeros k ds : digits_value (replicate k (digit 0) ++ ds) = digits_value ds.
Proof.
  unfold digits_value. induction k as [|k IH]; [done|].
  cbn [replicate app fold_left]. change (code (digit 0)) with 48. exact IH.
Qed.

Lemma digits_of_short fuel n k :
  0 ≤ n < 10 ^ Z.of_nat k → (0 < k)%nat → (length (digits_of fuel n) ≤ k)%nat.
Proof.
  revert n k. induction fuel as [|fuel IH]; intros n k Hn Hk; cbn [digits_of length]; [lia|].
  destruct (Z.ltb_spec n 10); [simpl; lia|].
  destruct k as [|[|k]]; [lia|change (10 ^ Z.of_nat 1) with 10 in Hn; lia|].
  rewrite length_app. cbn [length].
  rewrite Nat2Z.inj_succ, Z.pow_succ_r in Hn by lia.
  specialize (IH (n / 10) (S k)). enough (length (digits_of fuel (n / 10)) ≤ S k)%nat by lia.
  apply IH; [|lia]. divlia.
Qed.

Lemma print_04_length n : 0 ≤ n ≤ 9999 → length (print_04 n) = 4%nat.
Proof.
  intros Hn. unfold print_04, print_nat. rewrite length_app, length_replicate.
  pose proof (digits_of_short 20 n 4 ltac:(change (10 ^ Z.of_nat 4) with 10000; lia)
    ltac:(lia)). lia.
Qed.

Lemma print_04_digits n : 0 ≤ n → Forall (λ c, is_digit c = true) (print_04 n).
Proof.
  intros Hn. unfold print_04. apply Forall_app. split.
  - apply Forall_replicate. by apply is_digit_digit.
  - by apply digits_of_digits.
Qed.

Lemma strtoll_print_04 n c rest :
  0 ≤ n ≤ 9999 → is_digit c = false →
  strtoll (print_04 n ++ c :: rest) = Some (n, c :: rest).
Proof.
  intros Hn Hc. rewrite strtoll_digits; [|apply print_04_digits; lia| |done].
  - unfold print_04, print_nat. rewrite digits_value_zeros, digits_of_value.
    { rewrite clamp64_small; [done|]. unfold is_int64. lia. }
    split; [lia|]. apply Z.le_lt_trans with 9999; [lia|done].
  - intros E. pose proof (print_04_length n Hn). rewrite E in *. simpl in *. lia.
Qed.

Lemma print_int_nonempty n : 1 ≤ zlen (print_int n).
Proof.
  unfold print_int, print_nat, zlen.
  pose proof (digits_of_nonempty 19 n). pose proof (digits_of_nonempty 19 (- n)).
  destruct (n <? 0); rewrite ?length_app; destruct (digits_of 20 _); try done; simpl; lia.
Qed.

Lemma digit_not c : is_digit c = false → ∀ ds, Forall (λ c, is_digit c = true) ds → c ∉ ds.
Proof. intros Hc ds Hds Hin. rewrite Forall_forall in Hds. by rewrite (Hds c Hin) in Hc. Qed.

Lemma print_int_plain c n : is_digit c = false → c ≠ "-"%char → c ∉ print_int n.
Proof.
  intros Hc Hm. unfold print_int, print_nat. destruct (Z.ltb_spec n 0).
  - change (lit "-" ++ digits_of 20 (- n)) with ("-"%char :: digits_of 20 (- n)).
    apply not_elem_of_cons. split; [done|]. apply digit_not; [done|]. apply digits_of_digits. lia.
  - apply digit_not; [done|]. by apply digits_of_digits.
Qed.

Lemma print_04_plain c n : 0 ≤ n → is_digit c = false → c ∉ print_04 n.
Proof. intros Hn Hc. apply digit_not; [done|]. by apply print_04_digits. Qed.

Lemma memrchr_head s c rest post n :
  c ∉ rest → n = zlen (s ++ c :: rest) →
  memrchr ((s ++ c :: rest) ++ post) 0 n c = Some (Some (zlen s)).
Proof. intros. by apply (memrchr_app []). Qed.

Lemma memchr_head s c rest post n :
  c ∉ s → n = zlen (s ++ c :: rest) →
  memchr ((s ++ c :: rest) ++ post) 0 n c = Some (Some (zlen s)).
Proof. intros. by apply (memchr_app []). Qed.

Lemma take_not_elem (c : ascii) n s : c ∉ s → c ∉ take n s.
Proof. intros Hs Hin. apply Hs. rewrite <- (take_drop n s). by apply elem_of_app; left. Qed.
Lemma drop_not_elem (c : ascii) n s : c ∉ s → c ∉ drop n s.
Proof. intros Hs Hin. apply Hs. rewrite <- (take_drop n s). by apply elem_of_app; right. Qed.

(** ** Bounds of what the scans find *)

Lemma find_last_Some c s k :
  find_last c s = Some k → s = take k s ++ c :: drop (S k) s ∧ c ∉ drop (S k) s.
Proof.
  revert k. induction s as [|x s IH]; intros k; cbn [find_last]; [done|].
  destruct (find_last c s) as [k'|] eqn:E.
  - intros [= <-]. destruct (IH k' eq_refl) as [IH1 IH2]. cbn [take drop app].
    split; [by f_equal|done].
  - destruct (Ascii.eqb_spec x c) as [->|]; [|done]. intros [= <-]. cbn [take drop app].
    split; [done|]. by apply find_last_None.
Qed.

Lemma find_char_lt c s k : find_char c s = Some k → (k < length s)%nat.
Proof.
  revert k. induction s as [|x s IH]; intros k; cbn [find_char length]; [done|].
  destruct (Ascii.eqb x c); [intros [= <-]; lia|].
  destruct (find_char c s) as [k'|]; cbn [option_map]; [|done].
  intros [= <-]. specialize (IH k' eq_refl). lia.
Qed.

Lemma find_last_lt c s k : find_last c s = Some k → (k < length s)%nat.
Proof.
  intros [H _]%find_last_Some. apply (f_equal length) in H.
  rewrite length_app in H. cbn [length] in H. rewrite length_take, length_drop in H. lia.
Qed.

Lemma bytes_at_Some mem i n s :
  bytes_at mem i n = Some s → 0 ≤ i ∧ 0 ≤ n ∧ i + n ≤ zlen mem ∧ zlen s = n.
Proof.
  unfold bytes_at. destruct (Z.ltb_spec i 0); [done|]. destruct (Z.ltb_spec n 0); [done|].
  destruct (Z.ltb_spec (zlen mem) (i + n)); [done|]. cbn [orb]. intros [= <-].
  split_and!; try lia. unfold zlen in *. rewrite length_take, length_drop. lia.
Qed.

Lemma byte_at_Some mem i c : byte_at mem i = Some c → 0 ≤ i < zlen mem.
Proof.
  unfold byte_at. destruct (Z.ltb_spec i 0); [done|]. intros Hl%lookup_lt_Some.
  unfold zlen. lia.
Qed.

Lemma memchr_Some mem i n c k : memchr mem i n c = Some (Some k) → i ≤ k < i + n.
Proof.
  unfold memchr. destruct (bytes_at mem i n) as [s|] eqn:E; [|done].
  apply bytes_at_Some in E as (_ & _ & _ & Hs).
  destruct (find_char c s) as [j|] eqn:Ej; cbn [option_map]; [|done].
  intros [= <-]. apply find_char_lt in Ej. unfold zlen in Hs. lia.
Qed.

Lemma memrchr_Some mem i n c k : memrchr mem i n c = Some (Some k) → i ≤ k < i + n.
Proof.
  unfold memrchr. destruct (bytes_at mem i n) as [s|] eqn:E; [|done].
  apply bytes_at_Some in E as (_ & _ & _ & Hs).
  destruct (find_last c s) as [j|] eqn:Ej; cbn [option_map]; [|done].
  intros [= <-]. apply find_last_lt in Ej. unfold zlen in Hs. lia.
Qed.

Lemma span_length p s : (length (span p s).2 ≤ length s)%nat.
Proof.
  induction s as [|c s IH]; cbn [span]; [done|]. destruct (p c); simpl; lia.
Qed.

Lemma strip_sign_length s : (length (strip_sign s).2 ≤ length s)%nat.
Proof. destruct s as [|c s]; cbn [strip_sign]; [done|]. repeat case_match; simpl; lia. Qed.

(** [endptr] is not before the start of the number. *)
Lemma strtoll_at_Some mem i n e : strtoll_at mem i = Some (n, e) → 0 ≤ i ≤ e.
Proof.
  unfold strtoll_at. destruct (Z.ltb_spec i 0); [done|].
  destruct (Z.ltb_spec (zlen mem) i); [done|]. cbn [orb].
  destruct (strtoll _) as [[n' rest]|] eqn:E; [|done]. intros [= <- <-].
  enough (length rest ≤ length (drop (Z.to_nat i) mem))%nat as Hl.
  { rewrite length_drop in Hl. unfold zlen in *. lia. }
  revert E. generalize (drop (Z.to_nat i) mem) as s. intros s. unfold strtoll.
  pose proof (span_length is_space s). pose proof (strip_sign_length (span is_space s).2).
  pose proof (span_length is_digit (strip_sign (span is_space s).2).2).
  destruct (span is_digit _) as [ds r]; cbn [fst snd] in *.
  destruct r as [|c r]; [done|]. destruct ds; intros [= <- <-]; lia.
Qed.

Lemma suffix_drop (t s : text) :
  t `suffix_of` s ↔ (length t ≤ length s)%nat ∧ drop (length s - length t) s = t.
Proof.
  split.
  - intros [x ->]. rewrite length_app. split; [lia|].
    replace (length x + length t - length t)%nat with (length x) by lia.
    by rewrite drop_app_length.
  - intros [Hl Hd]. exists (take (length s - length t) s). 
    rewrite <- (take_drop (length s - length t) s) at 1. by rewrite Hd.
Qed.
