(* ===== verification/Proto.v ===== *)
(** * The wire protocol: [common/fdir_proto.h], [client/client_proto.c]

    A request is a command with a body of bytes: numbers in network order and
    strings with their lengths before them. This file has the layout of the
    bodies and the functions of the client that write them; [Service] has the
    functions of the server that read them. *)

From Stdlib Require Import Ascii.
From S2P Require Import Prelude NsSubscribe Flock ServerTypes InodeIndex Dentry.
From S2P Require Import Thread DataThread CText.

(** ** Numbers on the wire *)

(** [short2buff], [int2buff] and [long2buff] of libfastcommon with their
    inverses, and the bytes of a buffer that is not initialised. *)
Class ByteOrder := {
  short2buff : Z → text;
  int2buff : Z → text;
  long2buff : Z → text;
  buff2short : text → Z;
  buff2int : text → Z;
  buff2long : text → Z;
  uninit : nat → text;
  short2buff_len : ∀ n, length (short2buff n) = 2%nat;
  int2buff_len : ∀ n, length (int2buff n) = 4%nat;
  long2buff_len : ∀ n, length (long2buff n) = 8%nat;
  uninit_len : ∀ n, length (uninit n) = n;
  buff2short_law : ∀ n, - 2 ^ 15 ≤ n < 2 ^ 15 → buff2short (short2buff n) = n;
  buff2int_law : ∀ n, is_int32 n → buff2int (int2buff n) = n;
  buff2long_law : ∀ n, is_int64 n → buff2long (long2buff n) = n
}.

(** An unsigned char. *)
Definition chr (n : Z) : ascii := ascii_of_N (Z.to_N (n `mod` 256)).
Definition str (t : text) : string := String.string_of_list_ascii t.

Definition NAME_MAX : Z := 255.
Definition PATH_MAX : Z := 4096.
Definition FDIR_XATTR_MAX_VALUE_SIZE : Z := 256.
Definition FDIR_BATCH_SET_MAX_DENTRY_COUNT : Z := 256.
Definition ENAMETOOLONG : Z := 36.

(** The sizes of the fixed parts, in the order of [fdir_proto.h]; all members
    are arrays of characters. *)
Definition sizeof_DEntryInfo : Z := 3.
Definition sizeof_InodeInfo : Z := 9.
Definition sizeof_NameInfo : Z := 1.
Definition sizeof_CreateDEntryFront : Z := 12.
Definition sizeof_DEntryByPName : Z := 10.
Definition sizeof_SymlinkDEntryFront : Z := 16.
Definition sizeof_HDlinkByPNameFront : Z := 24.
Definition sizeof_RenameDEntryFront : Z := 4.
Definition sizeof_SetDentrySizeReq : Z := 29.
Definition sizeof_BatchSetDentrySizeReqHeader : Z := 5.
Definition sizeof_BatchSetDentrySizeReqBody : Z := 28.
Definition sizeof_DEntryStat : Z := 56.
Definition sizeof_ModifyDentryStatReq : Z := 73.
Definition sizeof_FlockDEntryReq : Z := 41.
Definition sizeof_SysLockDEntryReq : Z := 17.
Definition sizeof_SetXAttrFields : Z := 8.

(** ** What the client is asked for *)

Record OwnerModePair := mkOwnerModePair { omp_mode : Z; omp_uid : Z; omp_gid : Z }.
Record PName := mkPName { pn_parent_inode : Z; pn_name : string }.
Record SetDEntrySizeInfo := mkSetDEntrySizeInfo {
  ds_inode : Z; ds_file_size : Z; ds_inc_alloc : Z; ds_force : bool; ds_flags : Z
}.

#[export] Instance reply_ret : MRet (sum Z) := λ A a, inr a.
#[export] Instance reply_bind : MBind (sum Z) := λ A B f m,
  match m with inl rc => inl rc | inr a => f a end.

Section client.
Context `{!ByteOrder}.

Definition length_ok (s : string) (max : Z) : bool := (0 <? slen s) && (slen s <=? max).

(** A test of an argument: the error it gives, or nothing. *)
Definition expect (ok : bool) (rc : Z) : Z + () := if ok then inr () else inl rc.

Definition client_check_set_proto_dentry (fullname : FullName) : Z + text :=
  expect (length_ok (fn_ns fullname) NAME_MAX) EINVAL;;
  expect (length_ok (fn_path fullname) PATH_MAX) EINVAL;;
  mret (chr (slen (fn_ns fullname)) :: short2buff (slen (fn_path fullname)) ++
        lit (fn_ns fullname) ++ lit (fn_path fullname)).

Definition client_check_set_proto_pname (ns : string) (pname : PName) : Z + text :=
  expect (length_ok ns NAME_MAX) EINVAL;;
  expect (length_ok (pn_name pname) NAME_MAX) EINVAL;;
  mret (long2buff (pn_parent_inode pname) ++
        chr (slen ns) :: chr (slen (pn_name pname)) :: lit ns ++ lit (pn_name pname)).

Definition client_check_set_proto_inode_info (ns : string) (inode : Z) : Z + text :=
  expect (length_ok ns NAME_MAX) EINVAL;;
  mret (long2buff inode ++ chr (slen ns) :: lit ns).

Definition client_check_set_proto_name_info (name : string) : Z + text :=
  expect (length_ok name NAME_MAX) EINVAL;;
  mret (chr (slen name) :: lit name).

(** [CLIENT_PROTO_SET_OMP]; an owner is an unsigned number. *)
Definition set_omp (omp : OwnerModePair) : text :=
  int2buff (omp_mode omp) ++ int2buff (int32 (omp_uid omp)) ++ int2buff (int32 (omp_gid omp)).

Definition fdir_client_proto_create_dentry (fullname : FullName) (omp : OwnerModePair) : Z + text :=
  dentry ← client_check_set_proto_dentry fullname;
  mret (set_omp omp ++ dentry).

Definition fdir_client_proto_create_dentry_by_pname (ns : string) (pname : PName)
    (omp : OwnerModePair) : Z + text :=
  p ← client_check_set_proto_pname ns pname;
  mret (set_omp omp ++ p).

(** The front of a request for a symbolic link: two bytes of it are padding. *)
Definition symlink_front (link : string) (omp : OwnerModePair) : text :=
  set_omp omp ++ uninit 2 ++ short2buff (slen link) ++ lit link.

Definition fdir_client_proto_symlink_dentry (link : string) (fullname : FullName)
    (omp : OwnerModePair) : Z + text :=
  expect (length_ok link PATH_MAX) EINVAL;;
  dentry ← client_check_set_proto_dentry fullname;
  mret (symlink_front link omp ++ dentry).

Definition fdir_client_proto_symlink_dentry_by_pname (link : string) (ns : string)
    (pname : PName) (omp : OwnerModePair) : Z + text :=
  expect (length_ok link PATH_MAX) EINVAL;;
  p ← client_check_set_proto_pname ns pname;
  mret (symlink_front link omp ++ p).

Definition fdir_client_proto_link_dentry (src dest : FullName) (omp : OwnerModePair) : Z + text :=
  s ← client_check_set_proto_dentry src;
  d ← client_check_set_proto_dentry dest;
  mret (set_omp omp ++ s ++ d).

Definition fdir_client_proto_link_dentry_by_pname (src_inode : Z) (ns : string)
    (pname : PName) (omp : OwnerModePair) : Z + text :=
  p ← client_check_set_proto_pname ns pname;
  mret (set_omp omp ++ uninit 4 ++ long2buff src_inode ++ p).

Definition fdir_client_proto_remove_dentry_ex (fullname : FullName) : Z + text :=
  client_check_set_proto_dentry fullname.

Definition fdir_client_proto_remove_dentry_by_pname_ex (ns : string) (pname : PName) : Z + text :=
  client_check_set_proto_pname ns pname.

Definition fdir_client_proto_rename_dentry_ex (src dest : FullName) (flags : Z) : Z + text :=
  s ← client_check_set_proto_dentry src;
  d ← client_check_set_proto_dentry dest;
  mret (int2buff flags ++ s ++ d).

Definition fdir_client_proto_rename_dentry_by_pname_ex (src_ns : string) (src_pname : PName)
    (dest_ns : string) (dest_pname : PName) (flags : Z) : Z + text :=
  s ← client_check_set_proto_pname src_ns src_pname;
  d ← client_check_set_proto_pname dest_ns dest_pname;
  mret (int2buff flags ++ s ++ d).

(** The three ways a query names its dentry. *)
Definition setup_req_by_dentry_fullname (fullname : FullName) : Z + text :=
  client_check_set_proto_dentry fullname.
Definition setup_req_by_dentry_pname (ns : string) (pname : PName) : Z + text :=
  client_check_set_proto_pname ns pname.
Definition setup_req_by_dentry_inode (ns : string) (inode : Z) : Z + text :=
  expect (length_ok ns NAME_MAX) EINVAL;;
  mret (long2buff inode ++ chr (slen ns) :: lit ns).

(** ** Sizes and status *)

(** [FDIR_CLIENT_PROTO_PACK_DENTRY_SIZE] *)
Definition pack_dentry_size (ds : SetDEntrySizeInfo) : text :=
  long2buff (int64 (ds_inode ds)) ++ long2buff (ds_file_size ds) ++ long2buff (ds_inc_alloc ds) ++
  int2buff (if ds_force ds then Z.lor (ds_flags ds) FDIR_DENTRY_FIELD_MODIFIED_FLAG_FORCE
            else ds_flags ds).

Definition fdir_client_proto_set_dentry_size (ns : string) (ds : SetDEntrySizeInfo) : Z + text :=
  expect (length_ok ns NAME_MAX) EINVAL;;
  mret (pack_dentry_size ds ++ chr (slen ns) :: lit ns).

Definition fdir_client_proto_batch_set_dentry_size (ns : string)
    (dsizes : list SetDEntrySizeInfo) : Z + text :=
  let count := zlen dsizes in
  expect (length_ok ns NAME_MAX) EINVAL;;
  expect ((0 <? count) && (count <=? FDIR_BATCH_SET_MAX_DENTRY_COUNT)) EINVAL;;
  mret (int2buff count ++ (chr (slen ns) :: lit ns) ++ concat (pack_dentry_size <$> dsizes)).

(** [FDIR_UNSET_DENTRY_HARD_LINK], [FDIR_SET_DENTRY_HARD_LINK] *)
Definition FDIR_UNSET_DENTRY_HARD_LINK (mode : Z) : Z :=
  Z.land mode (Z.lnot FDIR_DENTRY_MODE_FLAGS_HARD_LINK).
Definition FDIR_SET_DENTRY_HARD_LINK (mode : Z) : Z :=
  Z.lor mode FDIR_DENTRY_MODE_FLAGS_HARD_LINK.

Definition fdir_proto_pack_dentry_stat_ex (stat : DEntryStat) (server_side : bool) : text :=
  int2buff (if server_side then FDIR_UNSET_DENTRY_HARD_LINK (st_mode stat) else st_mode stat) ++
  int2buff (int32 (st_uid stat)) ++ int2buff (int32 (st_gid stat)) ++ int2buff (st_btime stat) ++
  int2buff (st_atime stat) ++ int2buff (st_ctime stat) ++ int2buff (st_mtime stat) ++
  int2buff (st_nlink stat) ++ long2buff (st_size stat) ++ long2buff (st_alloc stat) ++
  long2buff (st_space_end stat).

(** The number in the [n] bytes at [off] of a struct. *)
Definition field_int (t : text) (off : nat) : Z := buff2int (take 4 (drop off t)).
Definition field_long (t : text) (off : nat) : Z := buff2long (take 8 (drop off t)).

Definition fdir_proto_unpack_dentry_stat (proto : text) : DEntryStat :=
  mkDEntryStat (field_int proto 0) (uint32 (field_int proto 4)) (uint32 (field_int proto 8))
    (field_int proto 12) (field_int proto 16) (field_int proto 20) (field_int proto 24)
    (field_int proto 28) (field_long proto 32) (field_long proto 40) (field_long proto 48).

Definition fdir_client_proto_modify_dentry_stat (ns : string) (inode flags : Z)
    (stat : DEntryStat) : Z + text :=
  expect (length_ok ns NAME_MAX) EINVAL;;
  mret (long2buff inode ++ long2buff flags ++ fdir_proto_pack_dentry_stat_ex stat false ++
        chr (slen ns) :: lit ns).

(** ** Extended attributes *)

(** [fdir_validate_xattr] of [common/fdir_func.c]. *)
Definition fdir_validate_xattr (xattr : string * string) : Z + () :=
  expect (0 <? slen (fst xattr)) EINVAL;;
  expect (slen (fst xattr) <=? NAME_MAX) ENAMETOOLONG;;
  expect (slen (snd xattr) <=? FDIR_XATTR_MAX_VALUE_SIZE) ENAMETOOLONG.

Definition pack_set_xattr_fields (xattr : string * string) (flags : Z) : text :=
  chr (slen (fst xattr)) :: short2buff (slen (snd xattr)) ++ short2buff flags ++ uninit 3 ++
  lit (fst xattr) ++ lit (snd xattr).

Definition fdir_client_proto_set_xattr_by_path (fullname : FullName) (xattr : string * string)
    (flags : Z) : Z + text :=
  fdir_validate_xattr xattr;;
  dentry ← client_check_set_proto_dentry fullname;
  mret (pack_set_xattr_fields xattr flags ++ dentry).

Definition fdir_client_proto_set_xattr_by_inode (ns : string) (inode : Z)
    (xattr : string * string) (flags : Z) : Z + text :=
  fdir_validate_xattr xattr;;
  ino ← client_check_set_proto_inode_info ns inode;
  mret (pack_set_xattr_fields xattr flags ++ ino).

(** Also [fdir_client_proto_get_xattr_by_path], which sends the same body. *)
Definition fdir_client_proto_remove_xattr_by_path (fullname : FullName) (name : string) : Z + text :=
  n ← client_check_set_proto_name_info name;
  dentry ← client_check_set_proto_dentry fullname;
  mret (n ++ dentry).

(** Also [fdir_client_proto_get_xattr_by_inode]. *)
Definition fdir_client_proto_remove_xattr_by_inode (ns : string) (inode : Z) (name : string) :
    Z + text :=
  n ← client_check_set_proto_name_info name;
  ino ← client_check_set_proto_inode_info ns inode;
  mret (n ++ ino).

(** ** Locks *)

Definition fdir_client_flock_dentry_ex2 (ns : string) (inode operation offset len owner_id pid : Z) :
    Z + text :=
  ino ← client_check_set_proto_inode_info ns inode;
  mret (long2buff offset ++ long2buff len ++ long2buff owner_id ++ int2buff pid ++
        int2buff operation ++ ino).

Definition fdir_client_dentry_sys_lock (ns : string) (inode flags : Z) : Z + text :=
  ino ← client_check_set_proto_inode_info ns inode;
  mret (int2buff flags ++ uninit 4 ++ ino).
End client.
