(* ===== verification/Service.v ===== *)
(** * Requests: the parsing half of [server/service_handler.c]

    A task of the network layer has a request's command and body. The handler of
    the command takes a record from a pool, fills it from the body and pushes it
    to the queue of a data thread, or replies with an error number.

    Reads of the body are reads of the task's buffer: [None] outside it. The
    pool hands out records as the last request left them. A string of a record
    is a pointer into the buffer in the code, here it is the bytes; they are
    taken when the handler has checked that they lie in the body. *)

From Stdlib Require Import Ascii.
From S2P Require Import Prelude NsSubscribe Flock ServerTypes InodeIndex Dentry.
From S2P Require Import Thread DataThread CText Proto.

Definition LOCK_NB : Z := 4.
Definition LOCK_UN : Z := 8.
Definition EBUSY : Z := 16.

(** Functions of libserverframe that compare the body's length with what is
    expected; each gives 0 or an error number. *)
Class ServerFrame := {
  server_expect_body_length : Z → Z → Z;
  server_check_min_body_length : Z → Z → Z;
  server_check_body_length : Z → Z → Z → Z;
  expect_body_length_law : ∀ len expected,
    server_expect_body_length len expected = 0 ↔ len = expected;
  check_min_body_length_law : ∀ len min,
    server_check_min_body_length len min = 0 ↔ min ≤ len;
  check_body_length_law : ∀ len min max,
    server_check_body_length len min max = 0 ↔ min ≤ len ≤ max
}.

(** A [FDIRBinlogRecord] of the pool: what the tree's operations read, what the
    dispatch reads, the hash code. *)
Record SvcRecord := mkSvcRecord { sr_rec : BinlogRecord; sr_q : QueuedRecord; sr_hash_code : Z }.

(** The task: [task->data], the place of the request's body in it ([FastTask]),
    the time, [RECORD], the free records, the command of the response, and the
    record that was pushed with whether it is an update. *)
Record ServiceTask := mkServiceTask {
  sv_data : text;
  sv_task : FastTask;
  sv_now : Z;
  sv_record : option SvcRecord;
  sv_pool : list SvcRecord;
  sv_pushed : option (bool * SvcRecord)
}.

Definition with_sv_record (v : option SvcRecord) (x : ServiceTask) : ServiceTask :=
  mkServiceTask (sv_data x) (sv_task x) (sv_now x) v (sv_pool x) (sv_pushed x).
Definition with_sv_pool (v : list SvcRecord) (x : ServiceTask) : ServiceTask :=
  mkServiceTask (sv_data x) (sv_task x) (sv_now x) (sv_record x) v (sv_pushed x).
Definition with_sv_pushed (v : option (bool * SvcRecord)) (x : ServiceTask) : ServiceTask :=
  mkServiceTask (sv_data x) (sv_task x) (sv_now x) (sv_record x) (sv_pool x) v.

(** What a handler returns: the task goes on when the data thread is done
    ([TASK_STATUS_CONTINUE]), or it is done with a status. *)
Inductive Reply := Continue | Status (rc : Z).

Section service.
Context `{!ByteOrder} `{!ServerFrame} `{!ServerConfig}.

(** ** Reading the body *)

Definition rd (off n : Z) : M ServiceTask text := λ t,
  match bytes_at (sv_data t) (body_at (sv_task t) + off) n with
  | Some b => Some (b, t)
  | None => None
  end.
Definition rd_byte (off : Z) : M ServiceTask Z := b ← rd off 1; mret (code (hd zero b)).
Definition rd_short (off : Z) : M ServiceTask Z := b ← rd off 2; mret (buff2short b).
Definition rd_int (off : Z) : M ServiceTask Z := b ← rd off 4; mret (buff2int b).
Definition rd_long (off : Z) : M ServiceTask Z := b ← rd off 8; mret (buff2long b).
Definition rd_string (off n : Z) : M ServiceTask string := b ← rd off n; mret (str b).

Definition req_body_len : M ServiceTask Z := gets (λ t, body_len (sv_task t)).

(** ** The record *)

Definition alloc_record_object : M ServiceTask Z :=
  t ← get_st;
  match sv_pool t with
  | [] => modify (with_sv_record None);; mret EBUSY
  | r :: rest =>
    modify (λ t, with_sv_pool rest (with_sv_record (Some (mkSvcRecord (sr_rec r)
      (with_q_parent_inode 0 (sr_q r)) (sr_hash_code r))) t));;
    mret 0
  end.

Definition free_record_object : M ServiceTask () :=
  modify (λ t,
    match sv_record t with
    | Some r => with_sv_pool (r :: sv_pool t) (with_sv_record None t)
    | None => t
    end).

Definition set_record (f : SvcRecord → SvcRecord) : M ServiceTask () :=
  t ← get_st;
  r ← non_null (sv_record t);
  modify (with_sv_record (Some (f r))).
Definition set_rec (f : BinlogRecord → BinlogRecord) : M ServiceTask () :=
  set_record (λ r, mkSvcRecord (f (sr_rec r)) (sr_q r) (sr_hash_code r)).
Definition set_q (f : QueuedRecord → QueuedRecord) : M ServiceTask () :=
  set_record (λ r, mkSvcRecord (sr_rec r) (f (sr_q r)) (sr_hash_code r)).
Definition get_record : M ServiceTask SvcRecord := t ← get_st; non_null (sv_record t).

(** [RECORD->ns] and its hash code. *)
Definition set_ns (ns : string) : M ServiceTask () :=
  set_record (λ r, mkSvcRecord (with_r_ns ns (sr_rec r)) (sr_q r) (simple_hash ns)).

(** [options.flags = 0]: all the bits the record's options have. *)
Definition clear_options : M ServiceTask () :=
  set_rec (λ r, with_r_options no_options (with_r_modified 0 r));;
  set_q (λ q, with_q_blocked false (with_q_path_enabled false q)).

Definition set_pname (name : string) : M ServiceTask () :=
  set_rec (λ r, with_r_me (with_re_pname name (r_me r)) r).

Definition push_record_to_data_thread_queue (is_update : bool) : M ServiceTask Reply :=
  r ← get_record;
  modify (λ t, with_sv_pushed (Some (is_update, mkSvcRecord (sr_rec r)
    (with_q_notify true (sr_q r)) (sr_hash_code r))) t);;
  mret Continue.

(** The operation, then the push. *)
Definition push_op (is_update : bool) (op : Z) : M ServiceTask Reply :=
  set_q (with_q_operation op);; push_record_to_data_thread_queue is_update.

(** Goes on when a step gave 0 and replies with its error otherwise. *)
Definition or_status (m : M ServiceTask Z) (k : M ServiceTask Reply) : M ServiceTask Reply :=
  rc ← m; if rc =? 0 then k else mret (Status rc).

(** ** Names *)

(** The lengths of the namespace and the path of a full name at [start]. *)
Definition server_parse_dentry_info (start : Z) : M ServiceTask (Z * (Z * Z)) :=
  ns_len ← rd_byte start;
  path_len ← rd_short (start + 1);
  let lens := (ns_len, path_len) in
  if ns_len <=? 0 then mret (EINVAL, lens)
  else if NAME_MAX <? ns_len then mret (EINVAL, lens)
  else if path_len <=? 0 then mret (EINVAL, lens)
  else if PATH_MAX <? path_len then mret (EINVAL, lens)
  else
    c ← rd_byte (start + sizeof_DEntryInfo + ns_len);
    mret (if c =? code "/" then 0 else EINVAL, lens).

(** The full name there, once the lengths are known to be those of the body. *)
Definition rd_fullname (start : Z) (lens : Z * Z) : M ServiceTask FullName :=
  ns ← rd_string (start + sizeof_DEntryInfo) (fst lens);
  path ← rd_string (start + sizeof_DEntryInfo + fst lens) (snd lens);
  mret (mkFullName ns path).

Definition server_check_and_parse_dentry (front_part_size : Z) : M ServiceTask Z :=
  rc ← alloc_record_object;
  if negb (rc =? 0) then mret rc
  else
    blen ← req_body_len;
    let fixed_part_size := front_part_size + sizeof_DEntryInfo in
    let rc := server_check_body_length blen (fixed_part_size + 2)
                (fixed_part_size + NAME_MAX + PATH_MAX) in
    if negb (rc =? 0) then mret rc
    else
      '(rc, lens) ← server_parse_dentry_info front_part_size;
      if negb (rc =? 0) then mret rc
      else if negb (fixed_part_size + fst lens + snd lens =? blen) then mret EINVAL
      else
        fullname ← rd_fullname front_part_size lens;
        set_rec (with_r_inode 0);;
        set_q (λ q, with_q_dentry_type dentry_type_fullname (with_q_me_fullname fullname q));;
        set_ns (fn_ns fullname);;
        mret 0.

Definition check_name_length (length : Z) : Z :=
  if length <=? 0 then EINVAL else if NAME_MAX <? length then EINVAL else 0.

(** The lengths of the namespace and the name at [front_part_size], and the
    inode of the parent. *)
Definition server_parse_pname (front_part_size : Z) : M ServiceTask (Z * (Z * Z * Z)) :=
  ns_len ← rd_byte (front_part_size + 8);
  if negb (check_name_length ns_len =? 0) then mret (check_name_length ns_len, (ns_len, 0, 0))
  else
    name_len ← rd_byte (front_part_size + 9);
    if negb (check_name_length name_len =? 0) then mret (check_name_length name_len, (ns_len, 0, 0))
    else
      parent_inode ← rd_long front_part_size;
      mret (0, (ns_len, name_len, parent_inode)).

Definition server_check_and_parse_pname (front_part_size : Z) :
    M ServiceTask (Z * (Z * Z * Z)) :=
  blen ← req_body_len;
  let fixed_part_size := front_part_size + sizeof_DEntryByPName in
  let rc := server_check_body_length blen (fixed_part_size + 2)
              (fixed_part_size + 2 * NAME_MAX) in
  if negb (rc =? 0) then mret (rc, (0, 0, 0))
  else
    '(rc, p) ← server_parse_pname front_part_size;
    if negb (rc =? 0) then mret (rc, p)
    else if negb (fixed_part_size + fst (fst p) + snd (fst p) =? blen) then mret (EINVAL, p)
    else mret (0, p).

(** The namespace and the name of the parsed [p]. *)
Definition rd_pname (start : Z) (p : Z * Z * Z) : M ServiceTask (string * PName) :=
  let '(ns_len, name_len, parent_inode) := p in
  ns ← rd_string (start + sizeof_DEntryByPName) ns_len;
  name ← rd_string (start + sizeof_DEntryByPName + ns_len) name_len;
  mret (ns, mkPName parent_inode name).

Definition check_and_parse_inode_info (front_part_size : Z) : M ServiceTask (Z * (Z * Z)) :=
  ns_len ← rd_byte (front_part_size + 8);
  if negb (check_name_length ns_len =? 0) then mret (check_name_length ns_len, (ns_len, 0))
  else
    inode ← rd_long front_part_size;
    mret (0, (ns_len, inode)).

(** [service_set_record_pname_info] on the task of the request. *)
Definition set_record_pname_info : M ServiceTask Z :=
  t ← get_st;
  r ← get_record;
  set_q (with_q_path_enabled true);;
  match pname_info_at (sv_task t) (sr_rec r) with
  | None => stuck
  | Some (inl result) => mret result
  | Some (inr name_at) => set_q (with_q_name_at name_at);; mret 0
  end.

(** [service_set_record_link] *)
Definition set_record_link : M ServiceTask Z :=
  t ← get_st;
  r ← get_record;
  let link_str := q_name_at (sr_q r) + slen (re_pname (r_me (sr_rec r))) in
  mret (if task_size (sv_task t) <? link_str + slen (r_link (sr_rec r)) then EOVERFLOW else 0).

Definition server_parse_dentry_for_update (front_part_size : Z) : M ServiceTask Z :=
  rc ← server_check_and_parse_dentry front_part_size;
  if negb (rc =? 0) then free_record_object;; mret rc
  else clear_options;; set_q (with_q_data_version 0);; mret 0.

Definition server_parse_pname_for_query_ex (front_part_size : Z) : M ServiceTask Z :=
  rc ← alloc_record_object;
  if negb (rc =? 0) then mret rc
  else
    set_q (with_q_dentry_type dentry_type_pname);;
    '(rc, p) ← server_check_and_parse_pname front_part_size;
    if negb (rc =? 0) then free_record_object;; mret rc
    else
      '(ns, pname) ← rd_pname front_part_size p;
      set_pname (pn_name pname);;
      set_q (with_q_parent_inode (pn_parent_inode pname));;
      set_ns ns;;
      set_rec (with_r_inode 0);;
      mret 0.

Definition server_parse_pname_for_update (front_part_size : Z) : M ServiceTask Z :=
  rc ← server_parse_pname_for_query_ex front_part_size;
  if negb (rc =? 0) then mret rc
  else
    clear_options;;
    set_q (with_q_data_version 0);;
    set_rec (λ r, with_r_me (with_re_dentry None (r_me r)) r);;
    set_record_pname_info.

(** This one does not set [dentry_type]: it stays what the record had before. *)
Definition server_parse_inode_for_update (front_part_size : Z) : M ServiceTask Z :=
  '(rc, p) ← check_and_parse_inode_info front_part_size;
  if negb (rc =? 0) then mret rc
  else
    blen ← req_body_len;
    if negb (blen =? front_part_size + sizeof_InodeInfo + fst p) then mret EINVAL
    else
      rc ← alloc_record_object;
      if negb (rc =? 0) then mret rc
      else
        ns ← rd_string (front_part_size + sizeof_InodeInfo) (fst p);
        clear_options;;
        set_q (with_q_data_version 0);;
        set_rec (with_r_inode (snd p));;
        set_ns ns;;
        set_pname "";;
        mret 0.

Definition server_check_and_parse_inode : M ServiceTask Z :=
  ns_len ← rd_byte 8;
  blen ← req_body_len;
  let rc := server_expect_body_length blen (sizeof_InodeInfo + ns_len) in
  if negb (rc =? 0) then mret rc
  else
    rc ← alloc_record_object;
    if negb (rc =? 0) then mret rc
    else
      ns ← rd_string sizeof_InodeInfo ns_len;
      set_ns ns;;
      set_q (with_q_dentry_type dentry_type_inode);;
      inode ← rd_long 0;
      set_rec (with_r_inode inode);;
      set_pname "";;
      mret 0.

(** ** Creating *)

Definition parse_create_dentry_mode : M ServiceTask (Z * Z) :=
  mode ← rd_int 0;
  mret (if Z.land mode S_IFMT =? 0 then EINVAL else if S_ISLNK mode then EINVAL else 0, mode).

(** The status a new dentry starts with; the rest of [RECORD->stat] is not set. *)
Definition create_stat (mode uid gid now : Z) (st : DEntryStat) : DEntryStat :=
  mkDEntryStat mode uid gid now now now now (st_nlink st) 0 (st_alloc st) (st_space_end st).
Definition create_options (o : StatModifyFlags) : StatModifyFlags :=
  mkStatModifyFlags true true true true true true (o_size o) (o_inc_alloc o) (o_space_end o).

Definition init_record_for_create_ex (mode : Z) (is_hdlink : bool) : M ServiceTask () :=
  uid ← rd_int 4;
  gid ← rd_int 8;
  now ← gets sv_now;
  let mode' := if is_hdlink then FDIR_SET_DENTRY_HARD_LINK (Z.land mode (Z.lnot S_IFMT))
               else FDIR_UNSET_DENTRY_HARD_LINK mode in
  set_q (with_q_operation BINLOG_OP_CREATE_DENTRY_INT);;
  set_rec (λ r, with_r_options (create_options (r_options r))
    (with_r_stat (create_stat mode' (uint32 uid) (uint32 gid) now (r_stat r)) r)).

Definition service_deal_create_dentry : M ServiceTask Reply :=
  or_status (server_parse_dentry_for_update sizeof_CreateDEntryFront) (
    '(rc, mode) ← parse_create_dentry_mode;
    or_status (mret rc) (
      init_record_for_create_ex mode false;;
      push_record_to_data_thread_queue true)).

Definition service_deal_create_by_pname : M ServiceTask Reply :=
  or_status (server_parse_pname_for_update sizeof_CreateDEntryFront) (
    '(rc, mode) ← parse_create_dentry_mode;
    or_status (mret rc) (
      init_record_for_create_ex mode false;;
      push_record_to_data_thread_queue true)).

(** The length of the link and the mode. *)
Definition parse_symlink_dentry_front : M ServiceTask (Z * (Z * Z)) :=
  blen ← req_body_len;
  if blen <=? sizeof_SymlinkDEntryFront + sizeof_DEntryInfo then mret (EINVAL, (0, 0))
  else
    link_len ← rd_short 14;
    if (link_len <=? 0) || (PATH_MAX <=? link_len) then mret (EINVAL, (0, 0))
    else
      mode ← rd_int 0;
      mret (0, (link_len, Z.lor (Z.land mode (Z.lnot S_IFMT)) S_IFLNK)).

Definition init_record_for_symlink (link_len mode : Z) : M ServiceTask () :=
  init_record_for_create_ex mode false;;
  link ← rd_string sizeof_SymlinkDEntryFront link_len;
  set_rec (with_r_link link).

Definition service_deal_symlink_dentry : M ServiceTask Reply :=
  '(rc, (link_len, mode)) ← parse_symlink_dentry_front;
  or_status (mret rc) (
    or_status (server_parse_dentry_for_update (sizeof_SymlinkDEntryFront + link_len)) (
      init_record_for_symlink link_len mode;;
      push_record_to_data_thread_queue true)).

Definition service_deal_symlink_by_pname : M ServiceTask Reply :=
  '(rc, (link_len, mode)) ← parse_symlink_dentry_front;
  or_status (mret rc) (
    or_status (server_parse_pname_for_update (sizeof_SymlinkDEntryFront + link_len)) (
      init_record_for_symlink link_len mode;;
      rc ← set_record_link;
      if negb (rc =? 0) then free_record_object;; mret (Status rc)
      else push_record_to_data_thread_queue true)).

Definition service_deal_hdlink_dentry : M ServiceTask Reply :=
  blen ← req_body_len;
  let sizeof_req := sizeof_CreateDEntryFront + 2 * sizeof_DEntryInfo in
  or_status (mret (server_check_body_length blen (sizeof_req + 4)
                     (sizeof_req + 2 * (NAME_MAX + PATH_MAX)))) (
    '(rc, lens) ← server_parse_dentry_info sizeof_CreateDEntryFront;
    or_status (mret rc) (
      or_status (server_parse_dentry_for_update
                   (sizeof_CreateDEntryFront + sizeof_DEntryInfo + fst lens + snd lens)) (
        src ← rd_fullname sizeof_CreateDEntryFront lens;
        r ← get_record;
        if negb (bool_decide (r_ns (sr_rec r) = fn_ns src)) then
          free_record_object;; mret (Status EINVAL)
        else
          set_q (with_q_hdlink_fullname src);;
          mode ← rd_int 0;
          init_record_for_create_ex mode true;;
          push_record_to_data_thread_queue true))).

Definition service_deal_hdlink_by_pname : M ServiceTask Reply :=
  blen ← req_body_len;
  if blen <=? sizeof_HDlinkByPNameFront + sizeof_DEntryByPName then mret (Status EINVAL)
  else
    src_inode ← rd_long 16;
    mode ← rd_int 0;
    or_status (server_parse_pname_for_update sizeof_HDlinkByPNameFront) (
      set_q (with_q_hdlink_inode src_inode);;
      init_record_for_create_ex mode true;;
      push_record_to_data_thread_queue true).

(** ** Removing and renaming *)

Definition service_deal_remove_dentry : M ServiceTask Reply :=
  or_status (server_parse_dentry_for_update 0) (push_op true BINLOG_OP_REMOVE_DENTRY_INT).

Definition service_deal_remove_by_pname : M ServiceTask Reply :=
  or_status (server_parse_pname_for_update 0) (push_op true BINLOG_OP_REMOVE_DENTRY_INT).

(** The end of a rename: the source is set, the namespaces are compared. *)
Definition finish_rename (src_ns : string) : M ServiceTask Reply :=
  flags ← rd_int 0;
  set_rec (with_r_flags flags);;
  r ← get_record;
  if negb (bool_decide (r_ns (sr_rec r) = src_ns)) then
    free_record_object;; mret (Status EINVAL)
  else
    set_rec (with_r_overwritten None);;
    push_op true BINLOG_OP_RENAME_DENTRY_INT.

Definition service_deal_rename_dentry : M ServiceTask Reply :=
  blen ← req_body_len;
  let sizeof_req := sizeof_RenameDEntryFront + 2 * sizeof_DEntryInfo in
  or_status (mret (server_check_body_length blen (sizeof_req + 4)
                     (sizeof_req + 2 * (NAME_MAX + PATH_MAX)))) (
    '(rc, lens) ← server_parse_dentry_info sizeof_RenameDEntryFront;
    or_status (mret rc) (
      or_status (server_parse_dentry_for_update
                   (sizeof_RenameDEntryFront + sizeof_DEntryInfo + fst lens + snd lens)) (
        src ← rd_fullname sizeof_RenameDEntryFront lens;
        set_q (with_q_src_fullname src);;
        finish_rename (fn_ns src)))).

Definition service_deal_rename_by_pname : M ServiceTask Reply :=
  blen ← req_body_len;
  let sizeof_req := sizeof_RenameDEntryFront + 2 * sizeof_DEntryByPName in
  or_status (mret (server_check_body_length blen (sizeof_req + 4)
                     (sizeof_req + 2 * (NAME_MAX + PATH_MAX)))) (
    '(rc, p) ← server_parse_pname sizeof_RenameDEntryFront;
    or_status (mret rc) (
      or_status (server_parse_pname_for_update
                   (sizeof_RenameDEntryFront + sizeof_DEntryByPName + fst (fst p) + snd (fst p))) (
        '(src_ns, src) ← rd_pname sizeof_RenameDEntryFront p;
        set_rec (λ r, with_r_src (with_re_pname (pn_name src) (r_src r)) r);;
        set_q (with_q_src_parent_inode (pn_parent_inode src));;
        finish_rename src_ns))).

(** ** Extended attributes *)

(** The lengths of the name and the value. *)
Definition parse_xattr_fields : M ServiceTask (Z * (Z * Z)) :=
  name_len ← rd_byte 0;
  value_len ← rd_short 1;
  let lens := (name_len, value_len) in
  if name_len <=? 0 then mret (EINVAL, lens)
  else if NAME_MAX <? name_len then mret (ENAMETOOLONG, lens)
  else
    name ← rd sizeof_SetXAttrFields name_len;
    if bool_decide (zero ∈ name) then mret (EINVAL, lens)
    else if value_len <? 0 then mret (EINVAL, lens)
    else if FDIR_XATTR_MAX_VALUE_SIZE <? value_len then mret (ENAMETOOLONG, lens)
    else mret (0, lens).

(** The attribute there, [RECORD->flags] and the push. *)
Definition service_do_setxattr (lens : Z * Z) : M ServiceTask Reply :=
  flags ← rd_short 3;
  name ← rd_string sizeof_SetXAttrFields (fst lens);
  value ← rd_string (sizeof_SetXAttrFields + fst lens) (snd lens);
  set_rec (with_r_flags flags);;
  set_rec (with_r_xattr (name, value));;
  push_op true BINLOG_OP_SET_XATTR_INT.

Definition parse_dentry_for_xattr_update (front_part_size : Z) : M ServiceTask Z :=
  rc ← server_check_and_parse_dentry front_part_size;
  if negb (rc =? 0) then mret rc
  else clear_options;; set_q (with_q_data_version 0);; mret 0.

Definition service_deal_set_xattr_by_path : M ServiceTask Reply :=
  blen ← req_body_len;
  let sizeof_req := sizeof_SetXAttrFields + sizeof_DEntryInfo in
  or_status (mret (server_check_min_body_length blen (sizeof_req + 3))) (
    '(rc, lens) ← parse_xattr_fields;
    or_status (mret rc) (
      if blen <? sizeof_req + fst lens + snd lens + 2 then mret (Status EINVAL)
      else
        or_status (parse_dentry_for_xattr_update
                     (sizeof_SetXAttrFields + fst lens + snd lens))
          (service_do_setxattr lens))).

Definition service_deal_set_xattr_by_inode : M ServiceTask Reply :=
  blen ← req_body_len;
  let sizeof_req := sizeof_SetXAttrFields + sizeof_InodeInfo in
  or_status (mret (server_check_body_length blen (sizeof_req + 2)
                     (sizeof_req + 1 + NAME_MAX + FDIR_XATTR_MAX_VALUE_SIZE))) (
    '(rc, lens) ← parse_xattr_fields;
    or_status (mret rc) (
      if blen <? sizeof_req + fst lens + snd lens + 1 then mret (Status EINVAL)
      else
        or_status (server_parse_inode_for_update
                     (sizeof_SetXAttrFields + fst lens + snd lens))
          (service_do_setxattr lens))).

(** The length of the name. *)
Definition parse_xattr_name_info (fixed_size : Z) : M ServiceTask (Z * Z) :=
  blen ← req_body_len;
  let rc := server_check_min_body_length blen (fixed_size + 1) in
  if negb (rc =? 0) then mret (rc, 0)
  else name_len ← rd_byte 0; mret (0, name_len).

(** [RECORD->xattr.key]; the value is the one the record had. *)
Definition set_xattr_key (name_len : Z) : M ServiceTask () :=
  name ← rd_string sizeof_NameInfo name_len;
  set_rec (λ r, with_r_xattr (name, snd (r_xattr r)) r).

Definition service_deal_remove_xattr_by_path : M ServiceTask Reply :=
  blen ← req_body_len;
  let sizeof_req := sizeof_NameInfo + sizeof_DEntryInfo in
  or_status (mret (server_check_min_body_length blen (sizeof_req + 3))) (
    '(rc, name_len) ← parse_xattr_name_info (sizeof_req + 1);
    or_status (mret rc) (
      if blen <? sizeof_req + name_len + 2 then mret (Status EINVAL)
      else
        or_status (parse_dentry_for_xattr_update (sizeof_NameInfo + name_len)) (
          set_xattr_key name_len;;
          push_op true BINLOG_OP_REMOVE_XATTR_INT))).

Definition service_deal_remove_xattr_by_inode : M ServiceTask Reply :=
  blen ← req_body_len;
  let sizeof_req := sizeof_NameInfo + sizeof_InodeInfo in
  or_status (mret (server_check_body_length blen (sizeof_req + 2)
                     (sizeof_req + 1 + NAME_MAX))) (
    '(rc, name_len) ← parse_xattr_name_info (sizeof_req + 1);
    or_status (mret rc) (
      if blen <? sizeof_req + name_len + 1 then mret (Status EINVAL)
      else
        or_status (server_parse_inode_for_update (sizeof_NameInfo + name_len)) (
          set_xattr_key name_len;;
          push_op true BINLOG_OP_REMOVE_XATTR_INT))).

Definition service_get_xattr_by_path : M ServiceTask Reply :=
  '(rc, name_len) ← parse_xattr_name_info (sizeof_NameInfo + sizeof_DEntryInfo + 1);
  or_status (mret rc) (
    or_status (server_check_and_parse_dentry (sizeof_NameInfo + name_len)) (
      set_xattr_key name_len;;
      push_op false SERVICE_OP_GET_XATTR_INT)).

Definition service_get_xattr_by_inode : M ServiceTask Reply :=
  let sizeof_req := sizeof_NameInfo + sizeof_InodeInfo in
  '(rc, name_len) ← parse_xattr_name_info (sizeof_req + 1);
  or_status (mret rc) (
    let ino := sizeof_NameInfo + name_len in
    ns_len ← rd_byte (ino + 8);
    blen ← req_body_len;
    if negb (sizeof_req + name_len + ns_len =? blen) then mret (Status EINVAL)
    else
      or_status alloc_record_object (
        inode ← rd_long ino;
        set_rec (with_r_inode inode);;
        ns ← rd_string (ino + sizeof_InodeInfo) ns_len;
        set_ns ns;;
        set_xattr_key name_len;;
        set_q (with_q_dentry_type dentry_type_inode);;
        push_op false SERVICE_OP_GET_XATTR_INT)).

(** ** Queries that only name a dentry

    [service_deal_stat_dentry_by_path] and the like: they differ in the
    operation. *)

Definition service_deal_query_by_path (op : Z) : M ServiceTask Reply :=
  or_status (server_check_and_parse_dentry 0) (push_op false op).
Definition service_deal_query_by_pname (op : Z) : M ServiceTask Reply :=
  or_status (server_parse_pname_for_query_ex 0) (push_op false op).
Definition service_deal_query_by_inode (op : Z) : M ServiceTask Reply :=
  or_status server_check_and_parse_inode (push_op false op).

Definition service_deal_stat_dentry_by_path := service_deal_query_by_path SERVICE_OP_STAT_DENTRY_INT.
Definition service_deal_readlink_by_path := service_deal_query_by_path SERVICE_OP_READ_LINK_INT.
Definition service_deal_lookup_inode_by_path :=
  service_deal_query_by_path SERVICE_OP_LOOKUP_INODE_INT.
Definition service_deal_list_dentry_by_path := service_deal_query_by_path SERVICE_OP_LIST_DENTRY_INT.
Definition service_list_xattr_by_path := service_deal_query_by_path SERVICE_OP_LIST_XATTR_INT.
Definition service_deal_stat_dentry_by_pname :=
  service_deal_query_by_pname SERVICE_OP_STAT_DENTRY_INT.
Definition service_deal_readlink_by_pname := service_deal_query_by_pname SERVICE_OP_READ_LINK_INT.
Definition service_deal_lookup_inode_by_pname :=
  service_deal_query_by_pname SERVICE_OP_LOOKUP_INODE_INT.
Definition service_deal_stat_dentry_by_inode :=
  service_deal_query_by_inode SERVICE_OP_STAT_DENTRY_INT.
Definition service_deal_readlink_by_inode := service_deal_query_by_inode SERVICE_OP_READ_LINK_INT.
Definition service_deal_list_dentry_by_inode :=
  service_deal_query_by_inode SERVICE_OP_LIST_DENTRY_INT.
Definition service_list_xattr_by_inode := service_deal_query_by_inode SERVICE_OP_LIST_XATTR_INT.

(** ** Sizes and status *)

(** [SERVICE_UNPACK_DENTRY_SIZE_INFO] *)
Definition unpack_dentry_size_info (start : Z) : M ServiceTask SetDEntrySizeInfo :=
  inode ← rd_long start;
  file_size ← rd_long (start + 8);
  inc_alloc ← rd_long (start + 16);
  flags ← rd_int (start + 24);
  mret (mkSetDEntrySizeInfo (uint64 inode) file_size inc_alloc false flags).

Definition dsize_stat (ds : SetDEntrySizeInfo) (st : DEntryStat) : DEntryStat :=
  mkDEntryStat (st_mode st) (st_uid st) (st_gid st) (st_btime st) (st_atime st) (st_ctime st)
    (st_mtime st) (st_nlink st) (ds_file_size ds) (ds_inc_alloc ds) (st_space_end st).

(** [options.flags = dsize->flags]: the flags of the request, which
    [inode_index_check_set_dentry_size] reads. *)
Definition dsize_record (ds : SetDEntrySizeInfo) (r : BinlogRecord) : BinlogRecord :=
  with_r_stat (dsize_stat ds (r_stat r))
    (with_r_options no_options (with_r_modified (ds_flags ds) (with_r_inode (int64 (ds_inode ds)) r))).

Definition init_record_by_dsize (ds : SetDEntrySizeInfo) : M ServiceTask () :=
  set_q (with_q_data_version 0);; set_rec (dsize_record ds).

Definition service_deal_set_dentry_size : M ServiceTask Reply :=
  blen ← req_body_len;
  or_status (mret (server_check_body_length blen (sizeof_SetDentrySizeReq + 1)
                     (sizeof_SetDentrySizeReq + NAME_MAX))) (
    ns_len ← rd_byte 28;
    if ns_len <=? 0 then mret (Status EINVAL)
    else if negb (sizeof_SetDentrySizeReq + ns_len =? blen) then mret (Status EINVAL)
    else
      dsize ← unpack_dentry_size_info 0;
      or_status alloc_record_object (
        init_record_by_dsize dsize;;
        ns ← rd_string sizeof_SetDentrySizeReq ns_len;
        set_ns ns;;
        set_q (with_q_dentry_type dentry_type_inode);;
        push_op true SERVICE_OP_SET_DSIZE_INT)).

(** The loop of [service_deal_batch_set_dentry_size]: [None] when the pool has
    no record left for an item. *)
Fixpoint batch_items (count : nat) (rbody : Z) : M ServiceTask (option (list BatchItem)) :=
  match count with
  | O => mret (Some [])
  | S count =>
    dsize ← unpack_dentry_size_info rbody;
    t ← get_st;
    match sv_pool t with
    | [] => mret None
    | r :: rest =>
      modify (with_sv_pool rest);;
      items ← batch_items count (rbody + sizeof_BatchSetDentrySizeReqBody);
      mret (cons (mkBatchItem (dsize_record dsize (sr_rec r)) 0) <$> items)
    end
  end.

Definition service_deal_batch_set_dentry_size : M ServiceTask Reply :=
  blen ← req_body_len;
  or_status (mret (server_check_min_body_length blen
      (sizeof_BatchSetDentrySizeReqHeader + 1 + sizeof_BatchSetDentrySizeReqBody))) (
    ns_len ← rd_byte 4;
    if ns_len <=? 0 then mret (Status EINVAL)
    else
      count ← rd_int 0;
      if (count <=? 0) || (FDIR_BATCH_SET_MAX_DENTRY_COUNT <? count) then mret (Status EINVAL)
      else if negb (blen =? sizeof_BatchSetDentrySizeReqHeader + ns_len +
                            sizeof_BatchSetDentrySizeReqBody * count) then mret (Status EINVAL)
      else
        or_status alloc_record_object (
          items ← batch_items (Z.to_nat count) (sizeof_BatchSetDentrySizeReqHeader + ns_len);
          match items with
          | None => mret (Status EBUSY)
          | Some items =>
            ns ← rd_string sizeof_BatchSetDentrySizeReqHeader ns_len;
            set_q (λ q, with_q_batch items (with_q_counts (mkBatchCounts count
                     (bc_success (q_counts q)) (bc_updated (q_counts q))) q));;
            set_ns ns;;
            set_rec (with_r_inode 0);;
            set_q (λ q, with_q_data_version 0 (with_q_dentry_type dentry_type_inode q));;
            push_op true SERVICE_OP_BATCH_SET_DSIZE_INT
          end)).

(** The bits of [FDIRStatModifyFlags] in [options.flags]: the bit fields follow
    the 32-bit [path_info] from bit 32 on, one bit each. *)
Definition options_of_flags (flags : Z) : StatModifyFlags :=
  mkStatModifyFlags (Z.testbit flags 34) (Z.testbit flags 35) (Z.testbit flags 37)
    (Z.testbit flags 38) (Z.testbit flags 39) (Z.testbit flags 40) (Z.testbit flags 41)
    (Z.testbit flags 42) (Z.testbit flags 43).
(** [dstat_mflags_mask], as [service_handler_init] sets it: mode, atime, ctime,
    mtime, gid, uid and size. *)
Definition dstat_mflags_mask : Z :=
  2 ^ 34 + 2 ^ 35 + 2 ^ 37 + 2 ^ 38 + 2 ^ 39 + 2 ^ 40 + 2 ^ 41.

Definition service_deal_modify_dentry_stat : M ServiceTask Reply :=
  blen ← req_body_len;
  or_status (mret (server_check_body_length blen (sizeof_ModifyDentryStatReq + 1)
                     (sizeof_ModifyDentryStatReq + NAME_MAX))) (
    ns_len ← rd_byte 72;
    if ns_len <=? 0 then mret (Status EINVAL)
    else if negb (sizeof_ModifyDentryStatReq + ns_len =? blen) then mret (Status EINVAL)
    else
      inode ← rd_long 0;
      flags ← rd_long 8;
      let masked_flags := Z.land flags dstat_mflags_mask in
      if masked_flags =? 0 then mret (Status EINVAL)
      else
        proto ← rd 16 sizeof_DEntryStat;
        or_status alloc_record_object (
          set_q (λ q, with_q_data_version 0 (with_q_dentry_type dentry_type_inode q));;
          clear_options;;
          set_rec (λ r, with_r_stat (fdir_proto_unpack_dentry_stat proto)
            (with_r_options (options_of_flags masked_flags) (with_r_inode inode r)));;
          ns ← rd_string sizeof_ModifyDentryStatReq ns_len;
          set_ns ns;;
          push_op true BINLOG_OP_UPDATE_DENTRY_INT)).

(** ** Locks *)

(** A [short] from an [int]. *)
Definition int16 (z : Z) : Z := wrap_signed 16 z.

(** Applying for a lock; [LOCK_UN] is [flock_unlock_dentry], which looks among
    the locks of the session and is not part of this model. *)
Definition service_deal_flock_dentry (unlock : M ServiceTask Reply) : M ServiceTask Reply :=
  ns_len ← rd_byte 40;
  blen ← req_body_len;
  or_status (mret (server_expect_body_length blen (sizeof_FlockDEntryReq + ns_len))) (
    inode ← rd_long 32;
    offset ← rd_long 0;
    length ← rd_long 8;
    owner_id ← rd_long 16;
    pid ← rd_int 24;
    operation ← rd_int 28;
    let operation := int16 operation in
    if negb (Z.land operation LOCK_UN =? 0) then unlock
    else if (Z.land operation LOCK_EX =? 0) && (Z.land operation LOCK_SH =? 0) then
      mret (Status EINVAL)
    else
      let type := if negb (Z.land operation LOCK_EX =? 0) then LOCK_EX else LOCK_SH in
      or_status alloc_record_object (
        set_rec (with_r_inode inode);;
        ns ← rd_string sizeof_FlockDEntryReq ns_len;
        set_ns ns;;
        set_q (λ q, with_q_ftask None
          (with_q_flock (mkFlockParams type (mkFlockOwner pid owner_id) offset length)
            (with_q_blocked (Z.land operation LOCK_NB =? 0) q)));;
        push_op false SERVICE_OP_FLOCK_APPLY_INT)).

Definition service_deal_sys_lock_dentry : M ServiceTask Reply :=
  ns_len ← rd_byte 16;
  blen ← req_body_len;
  or_status (mret (server_expect_body_length blen (sizeof_SysLockDEntryReq + ns_len))) (
    t ← get_st;
    match sys_lock_task (sv_task t) with
    | Some _ => mret (Status EEXIST)
    | None =>
      or_status alloc_record_object (
        inode ← rd_long 8;
        set_rec (with_r_inode inode);;
        ns ← rd_string sizeof_SysLockDEntryReq ns_len;
        set_ns ns;;
        flags ← rd_int 0;
        set_q (λ q, with_q_stask None (with_q_blocked (Z.land flags LOCK_NB =? 0) q));;
        push_op false SERVICE_OP_SYS_LOCK_APPLY_INT)
    end).
End service.
