(* ===== verification/ServiceSpec.v ===== *)
(** * What requests arrive as

    A request that the client writes is read by the server as the record that
    the client asked for. *)

From Stdlib Require Import Ascii.
From S2P Require Import Prelude NsSubscribe Flock ServerTypes InodeIndex Dentry.
From S2P Require Import Thread DataThread CText Proto Service.

Create HintDb len_db.

(** ** Bytes and lengths *)

Lemma zlen_lit s : zlen (lit s) = slen s.
Proof.
  unfold zlen, lit, slen. f_equal. induction s as [|c s IH]; simpl; [done|]. by rewrite IH.
Qed.
Lemma str_lit s : str (lit s) = s.
Proof. apply String.string_of_list_ascii_of_string. Qed.
Lemma slen_nonneg s : 0 ≤ slen s.
Proof. unfold slen. lia. Qed.
Lemma code_chr n : 0 ≤ n < 256 → code (chr n) = n.
Proof.
  intros Hn. unfold code, chr. rewrite Z.mod_small by lia. rewrite N_ascii_embedding by lia. lia.
Qed.
Lemma length_ok_spec s max : length_ok s max = true ↔ 0 < slen s ≤ max.
Proof. unfold length_ok. rewrite andb_true_iff, Z.ltb_lt, Z.leb_le. done. Qed.

Section wire.
Context `{!ByteOrder}.
Lemma zlen_short n : zlen (short2buff n) = 2.
Proof. unfold zlen. by rewrite short2buff_len. Qed.
Lemma zlen_int n : zlen (int2buff n) = 4.
Proof. unfold zlen. by rewrite int2buff_len. Qed.
Lemma zlen_long n : zlen (long2buff n) = 8.
Proof. unfold zlen. by rewrite long2buff_len. Qed.
Lemma zlen_uninit n : zlen (uninit n) = Z.of_nat n.
Proof. unfold zlen. by rewrite uninit_len. Qed.
End wire.

#[export] Hint Rewrite @zlen_app @zlen_cons @zlen_nil @zlen_lit @zlen_short @zlen_int @zlen_long
  @zlen_uninit : len_db.
Ltac lens := autorewrite with len_db in *; unfold set_omp in *; autorewrite with len_db in *; lia.

(** Runs a first statement that only looks at the task or sets parts of it. *)
Ltac sv := erewrite bind_run by reflexivity; cbn beta iota zeta.

Lemma expect_inr b rc x : expect b rc = inr x → b = true.
Proof. by destruct b, x. Qed.

Section spec.
Context `{!ByteOrder} `{!ServerFrame} `{!ServerConfig}.

(** The bytes [b] are at the offset [off] of the body, which is at [k] in [mem]. *)
Definition has_at (mem : text) (k off : Z) (b : text) : Prop :=
  0 ≤ k + off ∧ bytes_at mem (k + off) (zlen b) = Some b.
Definition has (t : ServiceTask) : Z → text → Prop := has_at (sv_data t) (body_at (sv_task t)).

Lemma has_app t off a b : has t off (a ++ b) → has t off a ∧ has t (off + zlen a) b.
Proof.
  unfold has, has_at. set (k := body_at (sv_task t)). intros [H0' Hb].
  unfold bytes_at in *. pose proof (zlen_nonneg a). pose proof (zlen_nonneg b).
  rewrite zlen_app in Hb.
  destruct (Z.ltb_spec (k + off) 0); [lia|]. destruct (Z.ltb_spec (zlen a + zlen b) 0); [lia|].
  destruct (Z.ltb_spec (zlen (sv_data t)) (k + off + (zlen a + zlen b))); [done|]. cbn [orb] in Hb.
  injection Hb as Hb.
  assert (drop (Z.to_nat (k + off)) (sv_data t)
    = a ++ b ++ drop (length a + length b) (drop (Z.to_nat (k + off)) (sv_data t))) as E.
  { rewrite <- (take_drop (Z.to_nat (zlen a + zlen b)) (drop (Z.to_nat (k + off)) (sv_data t))) at 1.
    rewrite Hb, <- app_assoc. do 3 f_equal. unfold zlen. lia. }
  split; (split; [lia|]).
  - destruct (Z.ltb_spec (zlen a) 0); [lia|].
    destruct (Z.ltb_spec (zlen (sv_data t)) (k + off + zlen a)); [lia|]. cbn [orb]. f_equal.
    rewrite E. apply take_app_length'. unfold zlen. lia.
  - destruct (Z.ltb_spec (k + (off + zlen a)) 0); [lia|]. destruct (Z.ltb_spec (zlen b) 0); [lia|].
    destruct (Z.ltb_spec (zlen (sv_data t)) (k + (off + zlen a) + zlen b)); [lia|]. cbn [orb]. f_equal.
    replace (Z.to_nat (k + (off + zlen a))) with (Z.to_nat (k + off) + length a)%nat by (unfold zlen; lia).
    rewrite <- drop_drop, E, drop_app_length. apply take_app_length'. unfold zlen. lia.
Qed.

Lemma has_cons t off c b : has t off (c :: b) → has t off [c] ∧ has t (off + 1) b.
Proof. exact (has_app t off [c] b). Qed.

Lemma rd_has t off b off' n : has t off b → off' = off → n = zlen b → rd off' n t = Some (b, t).
Proof. intros [_ Hb] -> ->. unfold rd. by rewrite Hb. Qed.
Lemma rd_byte_has t off c off' : has t off [c] → off' = off → rd_byte off' t = Some (code c, t).
Proof. intros Hb ->. unfold rd_byte. by erewrite bind_run by (by eapply rd_has). Qed.
Lemma rd_short_has t off n off' : has t off (short2buff n) → off' = off → - 2 ^ 15 ≤ n < 2 ^ 15 →
  rd_short off' t = Some (n, t).
Proof.
  intros Hb -> Hn. unfold rd_short. erewrite bind_run by (eapply rd_has; [done..|]; lens).
  by rewrite buff2short_law.
Qed.
Lemma rd_int_has t off n off' : has t off (int2buff n) → off' = off → is_int32 n →
  rd_int off' t = Some (n, t).
Proof.
  intros Hb -> Hn. unfold rd_int. erewrite bind_run by (eapply rd_has; [done..|]; lens).
  by rewrite buff2int_law.
Qed.
Lemma rd_long_has t off n off' : has t off (long2buff n) → off' = off → is_int64 n →
  rd_long off' t = Some (n, t).
Proof.
  intros Hb -> Hn. unfold rd_long. erewrite bind_run by (eapply rd_has; [done..|]; lens).
  by rewrite buff2long_law.
Qed.
Lemma rd_string_has t off s off' n : has t off (lit s) → off' = off → n = slen s →
  rd_string off' n t = Some (s, t).
Proof.
  intros Hb -> ->. unfold rd_string. erewrite bind_run by (eapply rd_has; [done..|]; lens).
  by rewrite str_lit.
Qed.

(** ** The parts of a body *)

Record name_ok (max : Z) (s : string) : Prop := { nk_pos : 0 < slen s; nk_max : slen s ≤ max }.

Lemma set_dentry_inv f b : client_check_set_proto_dentry f = inr b →
  name_ok NAME_MAX (fn_ns f) ∧ name_ok PATH_MAX (fn_path f) ∧
  b = chr (slen (fn_ns f)) :: short2buff (slen (fn_path f)) ++ lit (fn_ns f) ++ lit (fn_path f).
Proof.
  unfold client_check_set_proto_dentry, expect.
  destruct (length_ok (fn_ns f) NAME_MAX) eqn:E1; [|done].
  destruct (length_ok (fn_path f) PATH_MAX) eqn:E2; [|done].
  apply length_ok_spec in E1 as [], E2 as []. intros [= <-]. by repeat split.
Qed.
Lemma set_pname_inv ns p b : client_check_set_proto_pname ns p = inr b →
  name_ok NAME_MAX ns ∧ name_ok NAME_MAX (pn_name p) ∧
  b = long2buff (pn_parent_inode p) ++ chr (slen ns) :: chr (slen (pn_name p)) :: lit ns ++ lit (pn_name p).
Proof.
  unfold client_check_set_proto_pname, expect.
  destruct (length_ok ns NAME_MAX) eqn:E1; [|done].
  destruct (length_ok (pn_name p) NAME_MAX) eqn:E2; [|done].
  apply length_ok_spec in E1 as [], E2 as []. intros [= <-]. by repeat split.
Qed.
Lemma set_inode_inv ns i b : client_check_set_proto_inode_info ns i = inr b →
  name_ok NAME_MAX ns ∧ b = long2buff i ++ chr (slen ns) :: lit ns.
Proof.
  unfold client_check_set_proto_inode_info, expect.
  destruct (length_ok ns NAME_MAX) eqn:E1; [|done].
  apply length_ok_spec in E1 as []. intros [= <-]. by repeat split.
Qed.
Lemma set_name_inv n b : client_check_set_proto_name_info n = inr b →
  name_ok NAME_MAX n ∧ b = chr (slen n) :: lit n.
Proof.
  unfold client_check_set_proto_name_info, expect.
  destruct (length_ok n NAME_MAX) eqn:E1; [|done].
  apply length_ok_spec in E1 as []. intros [= <-]. by repeat split.
Qed.

(** A full name at [off] in the body, in its pieces. *)
Record has_fullname_at (mem : text) (k : Z) (off : Z) (f : FullName) : Prop := {
  hf_ns : name_ok NAME_MAX (fn_ns f);
  hf_path : name_ok PATH_MAX (fn_path f);
  hf_ns_len : has_at mem k off [chr (slen (fn_ns f))];
  hf_path_len : has_at mem k (off + 1) (short2buff (slen (fn_path f)));
  hf_ns_str : has_at mem k (off + 3) (lit (fn_ns f));
  hf_path_str : has_at mem k (off + 3 + slen (fn_ns f)) (lit (fn_path f))
}.
Definition has_fullname (t : ServiceTask) := has_fullname_at (sv_data t) (body_at (sv_task t)).

Lemma has_fullname_intro t off f b :
  client_check_set_proto_dentry f = inr b → has t off b →
  has_fullname t off f ∧ zlen b = 3 + slen (fn_ns f) + slen (fn_path f).
Proof.
  intros (H1' & H2' & ->)%set_dentry_inv [Ha [Hb [Hc Hd]%has_app]%has_app]%has_cons.
  split; [|lens]. rewrite zlen_short in Hc, Hd. rewrite zlen_lit in Hd.
  replace (off + 1 + 2) with (off + 3) in * by lia. by split.
Qed.

Record has_pname_at (mem : text) (k : Z) (off : Z) (ns : string) (p : PName) : Prop := {
  hp_ns : name_ok NAME_MAX ns;
  hp_name : name_ok NAME_MAX (pn_name p);
  hp_parent : has_at mem k off (long2buff (pn_parent_inode p));
  hp_ns_len : has_at mem k (off + 8) [chr (slen ns)];
  hp_name_len : has_at mem k (off + 9) [chr (slen (pn_name p))];
  hp_ns_str : has_at mem k (off + 10) (lit ns);
  hp_name_str : has_at mem k (off + 10 + slen ns) (lit (pn_name p))
}.
Definition has_pname (t : ServiceTask) := has_pname_at (sv_data t) (body_at (sv_task t)).

Lemma has_pname_intro t off ns p b :
  client_check_set_proto_pname ns p = inr b → has t off b →
  has_pname t off ns p ∧ zlen b = 10 + slen ns + slen (pn_name p).
Proof.
  intros (H1' & H2' & ->)%set_pname_inv
    [Ha [Hb [Hc [Hd He]%has_app]%has_cons]%has_cons]%has_app.
  split; [|lens]. rewrite zlen_long in *. rewrite zlen_lit in He.
  replace (off + 8 + 1) with (off + 9) in * by lia.
  replace (off + 9 + 1) with (off + 10) in * by lia. by split.
Qed.

Record has_inode_at (mem : text) (k : Z) (off : Z) (ns : string) (i : Z) : Prop := {
  hi_ns : name_ok NAME_MAX ns;
  hi_inode : has_at mem k off (long2buff i);
  hi_ns_len : has_at mem k (off + 8) [chr (slen ns)];
  hi_ns_str : has_at mem k (off + 9) (lit ns)
}.
Definition has_inode (t : ServiceTask) := has_inode_at (sv_data t) (body_at (sv_task t)).

Lemma has_inode_intro t off ns i b :
  client_check_set_proto_inode_info ns i = inr b → has t off b →
  has_inode t off ns i ∧ zlen b = 9 + slen ns.
Proof.
  intros (H1' & ->)%set_inode_inv [Ha [Hb Hc]%has_cons]%has_app.
  split; [|lens]. rewrite zlen_long in *. replace (off + 8 + 1) with (off + 9) in * by lia. by split.
Qed.

(** ** The parsers *)

Lemma first_char s : 0 < slen s → ∃ c rest, lit s = c :: rest ∧
  is_absolute s = (code c =? code "/").
Proof.
  destruct s as [|c s]; [unfold slen; simpl; lia|]. intros _. exists c, (lit s). split; [done|].
  unfold is_absolute. destruct (decide (c = "/"%char)) as [->|Hc]; [done|].
  rewrite bool_decide_false by congruence. symmetry. apply Z.eqb_neq. intros E. apply Hc.
  unfold code in E. rewrite <- (ascii_N_embedding c), <- (ascii_N_embedding "/"). f_equal. lia.
Qed.

Lemma parse_dentry_info_run t off f : has_fullname t off f →
  server_parse_dentry_info off t =
    Some ((if is_absolute (fn_path f) then 0 else EINVAL, (slen (fn_ns f), slen (fn_path f))), t).
Proof.
  intros [[? ?] [? ?] Ha Hb Hc Hd]. unfold server_parse_dentry_info, NAME_MAX, PATH_MAX in *.
  erewrite bind_run by (by eapply rd_byte_has). rewrite code_chr by lia.
  erewrite bind_run by (eapply rd_short_has; [done|done|lia]). cbn zeta.
  destruct (Z.leb_spec (slen (fn_ns f)) 0); [lia|]. destruct (Z.ltb_spec 255 (slen (fn_ns f))); [lia|].
  destruct (Z.leb_spec (slen (fn_path f)) 0); [lia|].
  destruct (Z.ltb_spec 4096 (slen (fn_path f))); [lia|].
  destruct (first_char (fn_path f)) as (c & rest & E & ->); [done|].
  rewrite E in Hd. apply has_cons in Hd as [Hd _].
  erewrite bind_run by (eapply rd_byte_has; [exact Hd|unfold sizeof_DEntryInfo; lia]). done.
Qed.

Lemma rd_fullname_run t off f : has_fullname t off f →
  rd_fullname off (slen (fn_ns f), slen (fn_path f)) t = Some (f, t).
Proof.
  intros [[? ?] [? ?] Ha Hb Hc Hd]. unfold rd_fullname, sizeof_DEntryInfo. cbn [fst snd].
  erewrite bind_run by (eapply rd_string_has; [exact Hc|lia|done]).
  erewrite bind_run by (eapply rd_string_has; [exact Hd|lia|done]). by destruct f.
Qed.

(** The record when it names its dentry by path. *)
Definition by_fullname (f : FullName) (r : SvcRecord) : SvcRecord :=
  mkSvcRecord (with_r_ns (fn_ns f) (with_r_inode 0 (sr_rec r)))
    (with_q_dentry_type dentry_type_fullname (with_q_me_fullname f
      (with_q_parent_inode 0 (sr_q r)))) (simple_hash (fn_ns f)).


(** [t] with the record [r] taken from the pool. *)
Definition taken (r : SvcRecord) (pool : list SvcRecord) (t : ServiceTask) : ServiceTask :=
  with_sv_record (Some r) (with_sv_pool pool t).

(** As it comes from the pool. *)
Definition fresh (r : SvcRecord) : SvcRecord :=
  mkSvcRecord (sr_rec r) (with_q_parent_inode 0 (sr_q r)) (sr_hash_code r).

Lemma alloc_record_run t r pool : sv_pool t = r :: pool →
  alloc_record_object t = Some (0, taken (fresh r) pool t).
Proof. intros E. unfold alloc_record_object. sv. rewrite E. by sv. Qed.

Lemma record_set f t r pool : set_record f (taken r pool t) = Some (tt, taken (f r) pool t).
Proof. done. Qed.

Lemma body_length_ok blen min max : min ≤ blen ≤ max → server_check_body_length blen min max = 0.
Proof. apply check_body_length_law. Qed.
Lemma min_length_ok blen min : min ≤ blen → server_check_min_body_length blen min = 0.
Proof. apply check_min_body_length_law. Qed.
Lemma expect_length_ok blen n : blen = n → server_expect_body_length blen n = 0.
Proof. apply expect_body_length_law. Qed.

Lemma check_dentry_run t off f r pool :
  sv_pool t = r :: pool → has_fullname t off f → 
  body_len (sv_task t) = off + 3 + slen (fn_ns f) + slen (fn_path f) →
  if is_absolute (fn_path f)
  then server_check_and_parse_dentry off t = Some (0, taken (by_fullname f r) pool t)
  else server_check_and_parse_dentry off t = Some (EINVAL, taken (fresh r) pool t).
Proof.
  intros Hp Hf Hl. unfold server_check_and_parse_dentry, req_body_len, sizeof_DEntryInfo.
  pose proof Hf as [[? ?] [? ?] _ _ _ _]. unfold NAME_MAX, PATH_MAX in *.
  run_with (alloc_record_run t r pool Hp). cbn [Z.eqb negb]. sv.
  rewrite body_length_ok by (cbn; lia). cbn [Z.eqb negb].
  erewrite bind_run by (by apply parse_dentry_info_run). cbn beta iota.
  destruct (is_absolute (fn_path f)); [|done]. cbn [Z.eqb negb fst snd].
  destruct (Z.eqb_spec (off + 3 + slen (fn_ns f) + slen (fn_path f))
    (body_len (sv_task (taken (fresh r) pool t)))) as [_|n]; [|by destruct n].
  cbn [negb]. erewrite bind_run by (by apply rd_fullname_run). done.
Qed.

Lemma check_length_ok n : 0 < n ≤ NAME_MAX → check_name_length n = 0.
Proof.
  intros ?. unfold check_name_length. destruct (Z.leb_spec n 0); [lia|].
  destruct (Z.ltb_spec NAME_MAX n); [lia|done].
Qed.

Lemma parse_pname_run t off ns p : has_pname t off ns p → is_int64 (pn_parent_inode p) →
  server_parse_pname off t = Some ((0, (slen ns, slen (pn_name p), pn_parent_inode p)), t).
Proof.
  intros [[? ?] [? ?] Ha Hb Hc Hd He] Hi. unfold server_parse_pname.
  assert (NAME_MAX = 255) as E by done.
  erewrite bind_run by (eapply rd_byte_has; [exact Hb|done]). rewrite code_chr by lia.
  rewrite check_length_ok by lia. cbn [Z.eqb negb].
  erewrite bind_run by (eapply rd_byte_has; [exact Hc|done]). rewrite code_chr by lia.
  rewrite check_length_ok by lia. cbn [Z.eqb negb].
  by erewrite bind_run by (eapply rd_long_has; [exact Ha|done|done]).
Qed.

Lemma rd_pname_run t off ns p : has_pname t off ns p →
  rd_pname off (slen ns, slen (pn_name p), pn_parent_inode p) t = Some ((ns, p), t).
Proof.
  intros [[? ?] [? ?] Ha Hb Hc Hd He]. unfold rd_pname, sizeof_DEntryByPName.
  erewrite bind_run by (eapply rd_string_has; [exact Hd|lia|done]).
  erewrite bind_run by (eapply rd_string_has; [exact He|lia|done]). by destruct p.
Qed.

Lemma check_pname_run t off ns p : has_pname t off ns p → is_int64 (pn_parent_inode p) →
  body_len (sv_task t) = off + 10 + slen ns + slen (pn_name p) →
  server_check_and_parse_pname off t =
    Some ((0, (slen ns, slen (pn_name p), pn_parent_inode p)), t).
Proof.
  intros Hn Hi Hl. unfold server_check_and_parse_pname, req_body_len, sizeof_DEntryByPName.
  pose proof Hn as [[? ?] [? ?] _ _ _ _ _]. sv. rewrite body_length_ok by (cbn; lia).
  cbn [Z.eqb negb]. erewrite bind_run by (by apply parse_pname_run). cbn beta iota.
  cbn [Z.eqb negb fst snd]. rewrite Hl, Z.eqb_refl. done.
Qed.

(** The record when it names its dentry by its parent and its name. *)
Definition by_pname (ns : string) (p : PName) (r : SvcRecord) : SvcRecord :=
  mkSvcRecord (with_r_inode 0 (with_r_ns ns
      (with_r_me (with_re_pname (pn_name p) (r_me (sr_rec r))) (sr_rec r))))
    (with_q_parent_inode (pn_parent_inode p) (with_q_dentry_type dentry_type_pname
      (with_q_parent_inode 0 (sr_q r)))) (simple_hash ns).

Lemma pname_query_run t off ns p r pool :
  sv_pool t = r :: pool → has_pname t off ns p → is_int64 (pn_parent_inode p) →
  body_len (sv_task t) = off + 10 + slen ns + slen (pn_name p) →
  server_parse_pname_for_query_ex off t = Some (0, taken (by_pname ns p r) pool t).
Proof.
  intros Hp Hn Hi Hl. unfold server_parse_pname_for_query_ex.
  run_with (alloc_record_run t r pool Hp). cbn [Z.eqb negb]. sv.
  erewrite bind_run by (by apply check_pname_run). cbn beta iota. cbn [Z.eqb negb].
  by erewrite bind_run by (by apply rd_pname_run).
Qed.

(** What [server_parse_dentry_for_update] and the like add. *)
Definition for_update (r : SvcRecord) : SvcRecord :=
  mkSvcRecord (with_r_options no_options (with_r_modified 0 (sr_rec r)))
    (with_q_data_version 0 (with_q_blocked false (with_q_path_enabled false (sr_q r))))
    (sr_hash_code r).

Lemma dentry_update_run t off f r pool :
  sv_pool t = r :: pool → has_fullname t off f →
  body_len (sv_task t) = off + 3 + slen (fn_ns f) + slen (fn_path f) →
  if is_absolute (fn_path f)
  then server_parse_dentry_for_update off t = Some (0, taken (for_update (by_fullname f r)) pool t)
  else server_parse_dentry_for_update off t =
         Some (EINVAL, with_sv_record None (with_sv_pool (fresh r :: pool) t)).
Proof.
  intros Hp Hf Hl. pose proof (check_dentry_run t off f r pool Hp Hf Hl) as Hr.
  unfold server_parse_dentry_for_update. destruct (is_absolute (fn_path f)); by run_with Hr.
Qed.
Lemma xattr_update_run t off f r pool :
  sv_pool t = r :: pool → has_fullname t off f →
  body_len (sv_task t) = off + 3 + slen (fn_ns f) + slen (fn_path f) →
  if is_absolute (fn_path f)
  then parse_dentry_for_xattr_update off t = Some (0, taken (for_update (by_fullname f r)) pool t)
  else parse_dentry_for_xattr_update off t = Some (EINVAL, taken (fresh r) pool t).
Proof.
  intros Hp Hf Hl. pose proof (check_dentry_run t off f r pool Hp Hf Hl) as Hr.
  unfold parse_dentry_for_xattr_update. destruct (is_absolute (fn_path f)); by run_with Hr.
Qed.

(** The buffer of the task has room for a namespace, a name and a link behind
    the body. *)
Definition has_room (t : ServiceTask) : Prop :=
  0 < body_at (sv_task t) ∧
  body_at (sv_task t) + Z.max (body_len (sv_task t)) sizeof_StatDEntryResp
    + 2 * NAME_MAX + PATH_MAX ≤ task_size (sv_task t).

Lemma pname_place_room k r :
  let len := slen (r_ns r) + slen (re_pname (r_me r)) in
  0 < body_at k →
  body_at k + Z.max (body_len k) sizeof_StatDEntryResp + len ≤ task_size k →
  pname_info_at k r =
    Some (inr (body_at k + Z.max (body_len k) sizeof_StatDEntryResp + slen (r_ns r))).
Proof.
  intros len Hk Hroom. unfold pname_info_at. fold len.
  assert (0 ≤ len) by (subst len; pose proof (slen_nonneg (r_ns r));
    pose proof (slen_nonneg (re_pname (r_me r))); lia).
  destruct (Z.ltb_spec sizeof_StatDEntryResp (body_len k)) as [Hlt|Hge].
  - destruct (Z.ltb_spec (body_len k + len) (task_size k)); [|lia]. cbn [andb negb].
    destruct (Z.ltb_spec (task_size k) (body_at k + body_len k + len)); [lia|].
    do 3 f_equal. lia.
  - cbn [andb]. destruct (Z.ltb_spec (task_size k) (body_at k + sizeof_StatDEntryResp + len)); [lia|].
    do 3 f_equal. lia.
Qed.

(** Where [service_set_record_pname_info] puts the name. *)
Definition name_place (t : ServiceTask) (ns : string) : Z :=
  body_at (sv_task t) + Z.max (body_len (sv_task t)) sizeof_StatDEntryResp + slen ns.
Definition pname_update (t : ServiceTask) (ns : string) (r : SvcRecord) : SvcRecord :=
  mkSvcRecord (with_r_me (with_re_dentry None (r_me (sr_rec r))) (sr_rec r))
    (with_q_name_at (name_place t ns) (with_q_path_enabled true (sr_q r))) (sr_hash_code r).

Lemma pname_update_run t off ns p r pool :
  sv_pool t = r :: pool → has_pname t off ns p → is_int64 (pn_parent_inode p) → has_room t →
  body_len (sv_task t) = off + 10 + slen ns + slen (pn_name p) →
  server_parse_pname_for_update off t =
    Some (0, taken (pname_update t ns (for_update (by_pname ns p r))) pool t).
Proof.
  intros Hp Hn Hi [Hk Hroom] Hl. pose proof Hn as [[? ?] [? ?] _ _ _ _ _].
  unfold server_parse_pname_for_update.
  run_with (pname_query_run t off ns p r pool Hp Hn Hi Hl). cbn [Z.eqb negb].
  do 3 sv. unfold set_record_pname_info. do 3 sv.
  match goal with |- context [pname_info_at ?k ?rr] =>
    rewrite (pname_place_room k rr); [done|done|cbn; unfold PATH_MAX in *; lia] end.
Qed.

(** ** Requests by inode *)

Lemma check_inode_info_run t off ns i : has_inode t off ns i → is_int64 i →
  check_and_parse_inode_info off t = Some ((0, (slen ns, i)), t).
Proof.
  intros [[? ?] Ha Hb Hc] Hi. unfold check_and_parse_inode_info.
  assert (NAME_MAX = 255) as E by done.
  erewrite bind_run by (eapply rd_byte_has; [exact Hb|done]). rewrite code_chr by lia.
  rewrite check_length_ok by lia. cbn [Z.eqb negb].
  by erewrite bind_run by (eapply rd_long_has; [exact Ha|done|done]).
Qed.

(** The record of an update by inode, and that of a query. *)
Definition by_inode_update (ns : string) (i : Z) (r : SvcRecord) : SvcRecord :=
  mkSvcRecord (with_r_me (with_re_pname "" (r_me (sr_rec r))) (with_r_ns ns (with_r_inode i
      (sr_rec (for_update (fresh r)))))) (sr_q (for_update (fresh r))) (simple_hash ns).
Definition by_inode (ns : string) (i : Z) (r : SvcRecord) : SvcRecord :=
  mkSvcRecord (with_r_me (with_re_pname "" (r_me (sr_rec r))) (with_r_inode i (with_r_ns ns
      (sr_rec r)))) (with_q_dentry_type dentry_type_inode (with_q_parent_inode 0 (sr_q r)))
    (simple_hash ns).

Lemma inode_update_run t off ns i r pool :
  sv_pool t = r :: pool → has_inode t off ns i → is_int64 i →
  body_len (sv_task t) = off + 9 + slen ns →
  server_parse_inode_for_update off t = Some (0, taken (by_inode_update ns i r) pool t).
Proof.
  intros Hp Hn Hi Hl. pose proof Hn as [[? ?] _ _ Hs]. unfold server_parse_inode_for_update.
  unfold sizeof_InodeInfo. erewrite bind_run by (by apply check_inode_info_run). cbn beta iota.
  cbn [Z.eqb negb fst snd]. sv. rewrite Hl, Z.eqb_refl. cbn [negb].
  run_with (alloc_record_run t r pool Hp). cbn [Z.eqb negb].
  erewrite bind_run by (eapply rd_string_has; [exact Hs|lia|done]). done.
Qed.

Lemma inode_query_run t ns i r pool :
  sv_pool t = r :: pool → has_inode t 0 ns i → is_int64 i →
  body_len (sv_task t) = 9 + slen ns →
  server_check_and_parse_inode t = Some (0, taken (by_inode ns i r) pool t).
Proof.
  intros Hp [[? ?] Ha Hb Hc] Hi Hl. unfold server_check_and_parse_inode, sizeof_InodeInfo.
  assert (NAME_MAX = 255) as E by done.
  erewrite bind_run by (eapply rd_byte_has; [exact Hb|done]). rewrite code_chr by lia. sv.
  rewrite expect_length_ok by (cbn; lia). cbn [Z.eqb negb].
  run_with (alloc_record_run t r pool Hp). cbn [Z.eqb negb].
  erewrite bind_run by (eapply rd_string_has; [exact Hc|lia|done]). do 2 sv.
  erewrite bind_run by (eapply rd_long_has; [exact Ha|done|done]). done.
Qed.
End spec.
