(* ===== verification/Requests.v ===== *)
(** * Requests from the client to the data threads

    [ClientReq] has the requests that the client sends, [client_body] the bytes
    it writes for them, [server_handler] the handler the server runs on these.
    What the record of a request must say is [asks_for], when the server refuses
    a request that the client has written is [refused]. *)

From Stdlib Require Import Ascii.
From S2P Require Import Prelude NsSubscribe Flock ServerTypes InodeIndex Dentry.
From S2P Require Import Thread DataThread CText Proto Service ServiceSpec.

Inductive ClientReq :=
  | CreateDentry (fullname : FullName) (omp : OwnerModePair)
  | CreateByPname (ns : string) (pname : PName) (omp : OwnerModePair)
  | SymlinkDentry (link : string) (fullname : FullName) (omp : OwnerModePair)
  | SymlinkByPname (link : string) (ns : string) (pname : PName) (omp : OwnerModePair)
  | LinkDentry (src dest : FullName) (omp : OwnerModePair)
  | LinkByPname (src_inode : Z) (ns : string) (pname : PName) (omp : OwnerModePair)
  | RemoveDentry (fullname : FullName)
  | RemoveByPname (ns : string) (pname : PName)
  | RenameDentry (src dest : FullName) (flags : Z)
  | RenameByPname (src_ns : string) (src : PName) (dest_ns : string) (dest : PName) (flags : Z)
  | QueryByPath (op : Z) (fullname : FullName)
  | QueryByPname (op : Z) (ns : string) (pname : PName)
  | QueryByInode (op : Z) (ns : string) (inode : Z)
  | SetDentrySize (ns : string) (ds : SetDEntrySizeInfo)
  | BatchSetDentrySize (ns : string) (dsizes : list SetDEntrySizeInfo)
  | ModifyDentryStat (ns : string) (inode flags : Z) (stat : DEntryStat)
  | SetXattrByPath (fullname : FullName) (xattr : string * string) (flags : Z)
  | SetXattrByInode (ns : string) (inode : Z) (xattr : string * string) (flags : Z)
  | RemoveXattrByPath (fullname : FullName) (name : string)
  | RemoveXattrByInode (ns : string) (inode : Z) (name : string)
  | GetXattrByPath (fullname : FullName) (name : string)
  | GetXattrByInode (ns : string) (inode : Z) (name : string)
  | FlockDentry (ns : string) (inode operation offset len owner_id pid : Z)
  | SysLockDentry (ns : string) (inode flags : Z).

Section requests.
Context `{!ByteOrder} `{!ServerFrame} `{!ServerConfig}.

Definition client_body (req : ClientReq) : Z + text :=
  match req with
  | CreateDentry f omp => fdir_client_proto_create_dentry f omp
  | CreateByPname ns p omp => fdir_client_proto_create_dentry_by_pname ns p omp
  | SymlinkDentry link f omp => fdir_client_proto_symlink_dentry link f omp
  | SymlinkByPname link ns p omp => fdir_client_proto_symlink_dentry_by_pname link ns p omp
  | LinkDentry src dest omp => fdir_client_proto_link_dentry src dest omp
  | LinkByPname i ns p omp => fdir_client_proto_link_dentry_by_pname i ns p omp
  | RemoveDentry f => fdir_client_proto_remove_dentry_ex f
  | RemoveByPname ns p => fdir_client_proto_remove_dentry_by_pname_ex ns p
  | RenameDentry src dest flags => fdir_client_proto_rename_dentry_ex src dest flags
  | RenameByPname src_ns src dest_ns dest flags =>
    fdir_client_proto_rename_dentry_by_pname_ex src_ns src dest_ns dest flags
  | QueryByPath _ f => setup_req_by_dentry_fullname f
  | QueryByPname _ ns p => setup_req_by_dentry_pname ns p
  | QueryByInode _ ns i => setup_req_by_dentry_inode ns i
  | SetDentrySize ns ds => fdir_client_proto_set_dentry_size ns ds
  | BatchSetDentrySize ns dsizes => fdir_client_proto_batch_set_dentry_size ns dsizes
  | ModifyDentryStat ns i flags stat => fdir_client_proto_modify_dentry_stat ns i flags stat
  | SetXattrByPath f x flags => fdir_client_proto_set_xattr_by_path f x flags
  | SetXattrByInode ns i x flags => fdir_client_proto_set_xattr_by_inode ns i x flags
  | RemoveXattrByPath f name | GetXattrByPath f name =>
    fdir_client_proto_remove_xattr_by_path f name
  | RemoveXattrByInode ns i name | GetXattrByInode ns i name =>
    fdir_client_proto_remove_xattr_by_inode ns i name
  | FlockDentry ns i operation offset len owner_id pid =>
    fdir_client_flock_dentry_ex2 ns i operation offset len owner_id pid
  | SysLockDentry ns i flags => fdir_client_dentry_sys_lock ns i flags
  end.

(** [unlock] is the end of a request that releases a lock. *)
Definition server_handler (unlock : M ServiceTask Reply) (req : ClientReq) :
    M ServiceTask Reply :=
  match req with
  | CreateDentry _ _ => service_deal_create_dentry
  | CreateByPname _ _ _ => service_deal_create_by_pname
  | SymlinkDentry _ _ _ => service_deal_symlink_dentry
  | SymlinkByPname _ _ _ _ => service_deal_symlink_by_pname
  | LinkDentry _ _ _ => service_deal_hdlink_dentry
  | LinkByPname _ _ _ _ => service_deal_hdlink_by_pname
  | RemoveDentry _ => service_deal_remove_dentry
  | RemoveByPname _ _ => service_deal_remove_by_pname
  | RenameDentry _ _ _ => service_deal_rename_dentry
  | RenameByPname _ _ _ _ _ => service_deal_rename_by_pname
  | QueryByPath op _ => service_deal_query_by_path op
  | QueryByPname op _ _ => service_deal_query_by_pname op
  | QueryByInode op _ _ => service_deal_query_by_inode op
  | SetDentrySize _ _ => service_deal_set_dentry_size
  | BatchSetDentrySize _ _ => service_deal_batch_set_dentry_size
  | ModifyDentryStat _ _ _ _ => service_deal_modify_dentry_stat
  | SetXattrByPath _ _ _ => service_deal_set_xattr_by_path
  | SetXattrByInode _ _ _ _ => service_deal_set_xattr_by_inode
  | RemoveXattrByPath _ _ => service_deal_remove_xattr_by_path
  | RemoveXattrByInode _ _ _ => service_deal_remove_xattr_by_inode
  | GetXattrByPath _ _ => service_get_xattr_by_path
  | GetXattrByInode _ _ _ => service_get_xattr_by_inode
  | FlockDentry _ _ _ _ _ _ _ => service_deal_flock_dentry unlock
  | SysLockDentry _ _ _ => service_deal_sys_lock_dentry
  end.

(** Whether the record goes to the updates. *)
Definition is_update (req : ClientReq) : bool :=
  match req with
  | QueryByPath _ _ | QueryByPname _ _ _ | QueryByInode _ _ _
  | GetXattrByPath _ _ | GetXattrByInode _ _ _
  | FlockDentry _ _ _ _ _ _ _ | SysLockDentry _ _ _ => false
  | _ => true
  end.

(** ** Arguments at their C types *)

Definition is_uint32 (n : Z) : Prop := 0 ≤ n < 2 ^ 32.
Definition is_int16 (n : Z) : Prop := - 2 ^ 15 ≤ n < 2 ^ 15.

Record typed_omp (omp : OwnerModePair) : Prop := {
  to_mode : is_int32 (omp_mode omp);
  to_uid : is_uint32 (omp_uid omp);
  to_gid : is_uint32 (omp_gid omp)
}.
Record typed_dsize (ds : SetDEntrySizeInfo) : Prop := {
  td_inode : 0 ≤ ds_inode ds < 2 ^ 64;
  td_file_size : is_int64 (ds_file_size ds);
  td_inc_alloc : is_int64 (ds_inc_alloc ds);
  td_flags : is_int32 (ds_flags ds)
}.
Record typed_stat (st : DEntryStat) : Prop := {
  ts_mode : is_int32 (st_mode st);
  ts_uid : is_uint32 (st_uid st);
  ts_gid : is_uint32 (st_gid st);
  ts_btime : is_int32 (st_btime st);
  ts_atime : is_int32 (st_atime st);
  ts_ctime : is_int32 (st_ctime st);
  ts_mtime : is_int32 (st_mtime st);
  ts_nlink : is_int32 (st_nlink st);
  ts_size : is_int64 (st_size st);
  ts_alloc : is_int64 (st_alloc st);
  ts_space_end : is_int64 (st_space_end st)
}.

Definition typed (req : ClientReq) : Prop :=
  match req with
  | CreateDentry _ omp | SymlinkDentry _ _ omp | LinkDentry _ _ omp => typed_omp omp
  | CreateByPname _ p omp | SymlinkByPname _ _ p omp =>
    is_int64 (pn_parent_inode p) ∧ typed_omp omp
  | LinkByPname i _ p omp => is_int64 i ∧ is_int64 (pn_parent_inode p) ∧ typed_omp omp
  | RemoveByPname _ p | QueryByPname _ _ p => is_int64 (pn_parent_inode p)
  | RenameDentry _ _ flags => is_int32 flags
  | RenameByPname _ src _ dest flags =>
    is_int64 (pn_parent_inode src) ∧ is_int64 (pn_parent_inode dest) ∧ is_int32 flags
  | QueryByInode _ _ i | RemoveXattrByInode _ i _ | GetXattrByInode _ i _ => is_int64 i
  | SetDentrySize _ ds => typed_dsize ds
  | BatchSetDentrySize _ dsizes => Forall typed_dsize dsizes
  | ModifyDentryStat _ i flags stat => is_int64 i ∧ is_int64 flags ∧ typed_stat stat
  | SetXattrByPath _ _ flags => is_int16 flags
  | SetXattrByInode _ i _ flags => is_int64 i ∧ is_int16 flags
  | FlockDentry _ i operation offset len owner_id pid =>
    is_int64 i ∧ is_int32 operation ∧ is_int64 offset ∧ is_int64 len ∧ is_int64 owner_id ∧
    is_int32 pid
  | SysLockDentry _ i flags => is_int64 i ∧ is_int32 flags
  | _ => True
  end.

(** ** What the server refuses *)

Definition relative (f : FullName) : bool := negb (is_absolute (fn_path f)).
Definition no_type (mode : Z) : bool := (Z.land mode S_IFMT =? 0) || S_ISLNK mode.
Definition has_zero (name : string) : bool := bool_decide (zero ∈ lit name).
Definition unlocks (operation : Z) : bool := negb (Z.land (int16 operation) LOCK_UN =? 0).

Definition refused (locked : bool) (req : ClientReq) : bool :=
  match req with
  | CreateDentry f omp => relative f || no_type (omp_mode omp)
  | CreateByPname _ _ omp => no_type (omp_mode omp)
  | SymlinkDentry link f _ => (slen link =? PATH_MAX) || relative f
  | SymlinkByPname link _ _ _ => slen link =? PATH_MAX
  | LinkDentry src dest _ | RenameDentry src dest _ =>
    relative src || relative dest || negb (bool_decide (fn_ns dest = fn_ns src))
  | RenameByPname src_ns _ dest_ns _ _ => negb (bool_decide (dest_ns = src_ns))
  | RemoveDentry f | QueryByPath _ f | RemoveXattrByPath f _ | GetXattrByPath f _ => relative f
  | ModifyDentryStat _ _ flags _ => Z.land flags dstat_mflags_mask =? 0
  | SetXattrByPath f x _ => has_zero (fst x) || relative f
  | SetXattrByInode ns _ x _ =>
    (1 + NAME_MAX + FDIR_XATTR_MAX_VALUE_SIZE <? slen (fst x) + slen (snd x) + slen ns) ||
    has_zero (fst x)
  | RemoveXattrByInode ns _ name => 1 + NAME_MAX <? slen name + slen ns
  | FlockDentry _ _ operation _ _ _ _ =>
    (Z.land (int16 operation) LOCK_EX =? 0) && (Z.land (int16 operation) LOCK_SH =? 0)
  | SysLockDentry _ _ _ => locked
  | _ => false
  end.

(** ** What the record must say *)

Definition of_ns (ns : string) (r : SvcRecord) : Prop :=
  r_ns (sr_rec r) = ns ∧ sr_hash_code r = simple_hash ns.
Definition names_path (f : FullName) (r : SvcRecord) : Prop :=
  q_dentry_type (sr_q r) = dentry_type_fullname ∧ q_me_fullname (sr_q r) = f ∧
  r_inode (sr_rec r) = 0 ∧ of_ns (fn_ns f) r.
Definition names_pname (ns : string) (p : PName) (r : SvcRecord) : Prop :=
  q_dentry_type (sr_q r) = dentry_type_pname ∧ q_parent_inode (sr_q r) = pn_parent_inode p ∧
  re_pname (r_me (sr_rec r)) = pn_name p ∧ r_inode (sr_rec r) = 0 ∧ of_ns ns r.
(** An update or a lock by inode; queries have the type as well. *)
Definition names_inode (ns : string) (i : Z) (r : SvcRecord) : Prop :=
  r_inode (sr_rec r) = i ∧ of_ns ns r.
Definition of_inode_type (r : SvcRecord) : Prop := q_dentry_type (sr_q r) = dentry_type_inode.

Definition op_is (op : Z) (r : SvcRecord) : Prop := q_operation (sr_q r) = op.
(** The version is still to be given, no field is modified yet. *)
Definition new_update (op : Z) (r : SvcRecord) : Prop :=
  op_is op r ∧ q_data_version (sr_q r) = 0 ∧ r_modified (sr_rec r) = 0.

(** Its name is where the data thread can send it from, behind the body. *)
Definition name_kept (t : ServiceTask) (ns : string) (r : SvcRecord) : Prop :=
  q_path_enabled (sr_q r) = true ∧ q_name_at (sr_q r) = name_place t ns ∧
  re_dentry (r_me (sr_rec r)) = None.

Definition fresh_stat (mode : Z) (omp : OwnerModePair) (now : Z) (r : SvcRecord) : Prop :=
  let st := r_stat (sr_rec r) in
  st_mode st = mode ∧ st_uid st = omp_uid omp ∧ st_gid st = omp_gid omp ∧ st_size st = 0 ∧
  st_btime st = now ∧ st_atime st = now ∧ st_ctime st = now ∧ st_mtime st = now.
Definition creates (mode : Z) (omp : OwnerModePair) (now : Z) (r : SvcRecord) : Prop :=
  new_update BINLOG_OP_CREATE_DENTRY_INT r ∧ fresh_stat mode omp now r ∧
  r_options (sr_rec r) = mkStatModifyFlags true true true true true true false false false.

(** The mode of a symbolic link, and of a hard link whose type comes from its
    source. *)
Definition symlink_mode (mode : Z) : Z :=
  FDIR_UNSET_DENTRY_HARD_LINK (Z.lor (Z.land mode (Z.lnot S_IFMT)) S_IFLNK).
Definition hdlink_mode (mode : Z) : Z :=
  FDIR_SET_DENTRY_HARD_LINK (Z.land mode (Z.lnot S_IFMT)).

(** The flags of a size as they are sent. *)
Definition sent_flags (ds : SetDEntrySizeInfo) : Z :=
  if ds_force ds then Z.lor (ds_flags ds) FDIR_DENTRY_FIELD_MODIFIED_FLAG_FORCE
  else ds_flags ds.
Definition sizes (ds : SetDEntrySizeInfo) (r : BinlogRecord) : Prop :=
  r_inode r = int64 (ds_inode ds) ∧ st_size (r_stat r) = ds_file_size ds ∧
  st_alloc (r_stat r) = ds_inc_alloc ds ∧ r_modified r = sent_flags ds ∧ r_options r = no_options.

Definition asks_for (t : ServiceTask) (req : ClientReq) (r : SvcRecord) : Prop :=
  let now := sv_now t in
  match req with
  | CreateDentry f omp =>
    names_path f r ∧ creates (FDIR_UNSET_DENTRY_HARD_LINK (omp_mode omp)) omp now r
  | CreateByPname ns p omp =>
    names_pname ns p r ∧ name_kept t ns r ∧
    creates (FDIR_UNSET_DENTRY_HARD_LINK (omp_mode omp)) omp now r
  | SymlinkDentry link f omp =>
    names_path f r ∧ creates (symlink_mode (omp_mode omp)) omp now r ∧ r_link (sr_rec r) = link
  | SymlinkByPname link ns p omp =>
    names_pname ns p r ∧ name_kept t ns r ∧ creates (symlink_mode (omp_mode omp)) omp now r ∧
    r_link (sr_rec r) = link
  | LinkDentry src dest omp =>
    names_path dest r ∧ creates (hdlink_mode (omp_mode omp)) omp now r ∧
    q_hdlink_fullname (sr_q r) = src
  | LinkByPname i ns p omp =>
    names_pname ns p r ∧ name_kept t ns r ∧ creates (hdlink_mode (omp_mode omp)) omp now r ∧
    q_hdlink_inode (sr_q r) = i
  | RemoveDentry f =>
    names_path f r ∧ new_update BINLOG_OP_REMOVE_DENTRY_INT r
  | RemoveByPname ns p =>
    names_pname ns p r ∧ name_kept t ns r ∧ new_update BINLOG_OP_REMOVE_DENTRY_INT r
  | RenameDentry src dest flags =>
    names_path dest r ∧ q_src_fullname (sr_q r) = src ∧ r_flags (sr_rec r) = flags ∧
    r_overwritten (sr_rec r) = None ∧ new_update BINLOG_OP_RENAME_DENTRY_INT r
  | RenameByPname _ src ns dest flags =>
    names_pname ns dest r ∧ name_kept t ns r ∧
    q_src_parent_inode (sr_q r) = pn_parent_inode src ∧
    re_pname (r_src (sr_rec r)) = pn_name src ∧ r_flags (sr_rec r) = flags ∧
    r_overwritten (sr_rec r) = None ∧ new_update BINLOG_OP_RENAME_DENTRY_INT r
  | QueryByPath op f => names_path f r ∧ op_is op r
  | QueryByPname op ns p => names_pname ns p r ∧ op_is op r
  | QueryByInode op ns i => names_inode ns i r ∧ of_inode_type r ∧ op_is op r
  | SetDentrySize ns ds =>
    sizes ds (sr_rec r) ∧ of_ns ns r ∧ of_inode_type r ∧ op_is SERVICE_OP_SET_DSIZE_INT r ∧
    q_data_version (sr_q r) = 0
  | BatchSetDentrySize ns dsizes =>
    Forall2 (λ ds item, sizes ds (bi_record item) ∧ bi_data_version item = 0)
      dsizes (q_batch (sr_q r)) ∧
    bc_total (q_counts (sr_q r)) = zlen dsizes ∧ names_inode ns 0 r ∧ of_inode_type r ∧
    op_is SERVICE_OP_BATCH_SET_DSIZE_INT r ∧ q_data_version (sr_q r) = 0
  | ModifyDentryStat ns i flags stat =>
    names_inode ns i r ∧ of_inode_type r ∧ r_stat (sr_rec r) = stat ∧
    r_options (sr_rec r) = options_of_flags (Z.land flags dstat_mflags_mask) ∧
    new_update BINLOG_OP_UPDATE_DENTRY_INT r
  | SetXattrByPath f x flags =>
    names_path f r ∧ r_xattr (sr_rec r) = x ∧ r_flags (sr_rec r) = flags ∧
    new_update BINLOG_OP_SET_XATTR_INT r
  | SetXattrByInode ns i x flags =>
    names_inode ns i r ∧ r_xattr (sr_rec r) = x ∧ r_flags (sr_rec r) = flags ∧
    new_update BINLOG_OP_SET_XATTR_INT r
  | RemoveXattrByPath f name =>
    names_path f r ∧ fst (r_xattr (sr_rec r)) = name ∧ new_update BINLOG_OP_REMOVE_XATTR_INT r
  | RemoveXattrByInode ns i name =>
    names_inode ns i r ∧ fst (r_xattr (sr_rec r)) = name ∧ new_update BINLOG_OP_REMOVE_XATTR_INT r
  | GetXattrByPath f name =>
    names_path f r ∧ fst (r_xattr (sr_rec r)) = name ∧ op_is SERVICE_OP_GET_XATTR_INT r
  | GetXattrByInode ns i name =>
    names_inode ns i r ∧ of_inode_type r ∧ fst (r_xattr (sr_rec r)) = name ∧
    op_is SERVICE_OP_GET_XATTR_INT r
  | FlockDentry ns i operation offset len owner_id pid =>
    names_inode ns i r ∧ op_is SERVICE_OP_FLOCK_APPLY_INT r ∧ q_ftask (sr_q r) = None ∧
    q_flock (sr_q r) = mkFlockParams
      (if Z.land (int16 operation) LOCK_EX =? 0 then LOCK_SH else LOCK_EX)
      (mkFlockOwner pid owner_id) offset len ∧
    q_blocked (sr_q r) = (Z.land (int16 operation) LOCK_NB =? 0)
  | SysLockDentry ns i flags =>
    names_inode ns i r ∧ op_is SERVICE_OP_SYS_LOCK_APPLY_INT r ∧ q_stask (sr_q r) = None ∧
    q_blocked (sr_q r) = (Z.land flags LOCK_NB =? 0)
  end.
End requests.
