(* ===== verification/RequestsSpec.v ===== *)
(** * The server reads what the client wrote

    One lemma per request on the run of its handler, then the theorem on all of
    them. *)

From Stdlib Require Import Ascii.
From S2P Require Import Prelude NsSubscribe Flock ServerTypes InodeIndex Dentry.
From S2P Require Import Thread DataThread CText Proto Service ServiceSpec.
From S2P Require Import Requests.

Lemma sum_bind_inv {A B} (m : Z + A) (f : A → Z + B) b :
  (m ≫= f) = inr b → ∃ a, m = inr a ∧ f a = inr b.
Proof. destruct m as [rc|a]; [done|]. intros. by exists a. Qed.
Lemma inr_inv {A} (a b : A) : mret a = (inr b : Z + A) → a = b.
Proof. by intros [= <-]. Qed.
Lemma expect_inv ok rc x : expect ok rc = inr x → ok = true.
Proof. by destruct ok. Qed.

(** Takes apart a function of the client that has given a body. *)
Ltac client H :=
  repeat (let x := fresh "x" in let E := fresh "E" in apply sum_bind_inv in H as (x & E & H));
  lazymatch type of H with
  | mret _ = inr ?b => apply inr_inv in H; subst b
  | _ => idtac
  end.

(** Takes apart what is known of the bytes of a body. *)
Ltac split_has :=
  unfold set_omp, symlink_front, pack_dentry_size, pack_set_xattr_fields in *;
  repeat match goal with
  | H : has _ _ (_ ++ _) |- _ => apply has_app in H as [? H]
  | H : has _ _ (_ :: _ ++ _) |- _ => apply has_cons in H as [? H]
  | H : has _ _ (_ :: lit _) |- _ => apply has_cons in H as [? H]
  | H : has _ _ (_ :: _ :: _) |- _ => apply has_cons in H as [? H]
  end;
  autorewrite with len_db in *.

(** ** The status on the wire *)

Lemma list_of_four {A} (l : list A) : length l = 4%nat → ∃ a b c d, l = [a; b; c; d].
Proof. destruct l as [|a [|b [|c [|d [|]]]]]; try done. by exists a, b, c, d. Qed.
Lemma list_of_eight {A} (l : list A) : length l = 8%nat →
  ∃ a b c d e f g h, l = [a; b; c; d; e; f; g; h].
Proof.
  destruct l as [|a [|b [|c [|d [|e [|f [|g [|h [|]]]]]]]]]; try done. by exists a, b, c, d, e, f, g, h.
Qed.

Section stat.
Context `{!ByteOrder}.

Lemma pack_stat_len st b : zlen (fdir_proto_pack_dentry_stat_ex st b) = 56.
Proof. unfold fdir_proto_pack_dentry_stat_ex. lens. Qed.

(** The server takes the flag of a hard link out of the mode. *)
Definition sent_stat (st : DEntryStat) (server_side : bool) : DEntryStat :=
  if server_side then with_st_mode (FDIR_UNSET_DENTRY_HARD_LINK (st_mode st)) st else st.

Lemma unpack_pack st b : typed_stat (sent_stat st b) →
  fdir_proto_unpack_dentry_stat (fdir_proto_pack_dentry_stat_ex st b) = sent_stat st b.
Proof.
  intros [Hm Hu Hg Hb Ha Hc Hmt Hn Hs Hal Hsp].
  assert (fdir_proto_pack_dentry_stat_ex st b = fdir_proto_pack_dentry_stat_ex (sent_stat st b) false)
    as -> by (by destruct b). revert Hm Hu Hg Hb Ha Hc Hmt Hn Hs Hal Hsp.
  generalize (sent_stat st b). clear st b. intros [m u g bt at' ct mt n s al sp]. cbn. intros.
  unfold fdir_proto_pack_dentry_stat_ex. cbn [st_mode st_uid st_gid st_btime st_atime st_ctime st_mtime
    st_nlink st_size st_alloc st_space_end].
  assert (∀ z, ∃ a b c d, int2buff z = [a; b; c; d]) as E4 by (intros; apply list_of_four, int2buff_len).
  assert (∀ z, ∃ a b c d e f g h, long2buff z = [a; b; c; d; e; f; g; h]) as E8
    by (intros; apply list_of_eight, long2buff_len).
  pose proof (buff2int_law m Hm) as Lm. pose proof (buff2int_law (int32 u) (int32_range u)) as Lu.
  pose proof (buff2int_law (int32 g) (int32_range g)) as Lg. pose proof (buff2int_law bt Hb) as Lb.
  pose proof (buff2int_law at' Ha) as La. pose proof (buff2int_law ct Hc) as Lc.
  pose proof (buff2int_law mt Hmt) as Lmt. pose proof (buff2int_law n Hn) as Ln.
  pose proof (buff2long_law s Hs) as Ls. pose proof (buff2long_law al Hal) as Lal.
  pose proof (buff2long_law sp Hsp) as Lsp.
  destruct (E4 m) as (? & ? & ? & ? & Em), (E4 (int32 u)) as (? & ? & ? & ? & Eu),
    (E4 (int32 g)) as (? & ? & ? & ? & Eg), (E4 bt) as (? & ? & ? & ? & Eb),
    (E4 at') as (? & ? & ? & ? & Ea), (E4 ct) as (? & ? & ? & ? & Ec),
    (E4 mt) as (? & ? & ? & ? & Emt), (E4 n) as (? & ? & ? & ? & En).
  destruct (E8 s) as (? & ? & ? & ? & ? & ? & ? & ? & Es), (E8 al) as (? & ? & ? & ? & ? & ? & ? & ? & Eal),
    (E8 sp) as (? & ? & ? & ? & ? & ? & ? & ? & Esp).
  rewrite Em, Eu, Eg, Eb, Ea, Ec, Emt, En, Es, Eal, Esp in *. cbn.
  unfold fdir_proto_unpack_dentry_stat, field_int, field_long. cbn.
  rewrite Lm, Lu, Lg, Lb, La, Lc, Lmt, Ln, Ls, Lal, Lsp. by rewrite !uint32_int32.
Qed.

Lemma unpack_pack_stat st : typed_stat st →
  fdir_proto_unpack_dentry_stat (fdir_proto_pack_dentry_stat_ex st false) = st.
Proof. exact (unpack_pack st false). Qed.
End stat.

Section spec.
Context `{!ByteOrder} `{!ServerFrame} `{!ServerConfig}.

(** The body [b] is what the task has got, and nothing was pushed yet. *)
Record got (t : ServiceTask) (b : text) : Prop := {
  g_body : has t 0 b;
  g_len : body_len (sv_task t) = zlen b;
  g_room : has_room t;
  g_pushed : sv_pushed t = None
}.

(** A handler refuses the request, or pushes a record that is as [asks] says. *)
Definition refuses (res : option (Reply * ServiceTask)) : Prop :=
  ∃ rc t', res = Some (Status rc, t') ∧ rc ≠ 0 ∧ sv_pushed t' = None.
Definition pushes (upd : bool) (asks : SvcRecord → Prop) (res : option (Reply * ServiceTask)) :
    Prop :=
  ∃ r t', res = Some (Continue, t') ∧ sv_pushed t' = Some (upd, r) ∧ q_notify (sr_q r) = true ∧
          asks r.

Lemma or_status_ok m k t t' : m t = Some (0, t') → or_status m k t = k t'.
Proof. intros Hm. unfold or_status. by run_with Hm. Qed.
Lemma or_status_ret rc k (t : ServiceTask) : rc = 0 → or_status (mret rc) k t = k t.
Proof. by intros ->. Qed.
Lemma or_status_fails m k t rc t' : m t = Some (rc, t') → rc ≠ 0 → sv_pushed t' = None →
  refuses (or_status m k t).
Proof.
  intros Hm Hrc Hp. exists rc, t'. split; [|done]. unfold or_status. run_with Hm.
  by destruct (Z.eqb_spec rc 0).
Qed.

(** What the end of a handler leaves. *)
Lemma pushes_taken upd asks r pool t :
  asks (mkSvcRecord (sr_rec r) (with_q_notify true (sr_q r)) (sr_hash_code r)) →
  pushes upd asks (push_record_to_data_thread_queue upd (taken r pool t)).
Proof. intros Ha. do 2 eexists. split; [reflexivity|]. by split. Qed.

(** The record of a new dentry. *)
Definition created (mode : Z) (omp : OwnerModePair) (now : Z) (r : SvcRecord) : SvcRecord :=
  mkSvcRecord (with_r_options (create_options (r_options (sr_rec r)))
      (with_r_stat (create_stat mode (omp_uid omp) (omp_gid omp) now (r_stat (sr_rec r)))
        (sr_rec r)))
    (with_q_operation BINLOG_OP_CREATE_DENTRY_INT (sr_q r)) (sr_hash_code r).

Lemma omp_has t omp b : has t 0 (set_omp omp ++ b) →
  has t 0 (int2buff (omp_mode omp)) ∧ has t 4 (int2buff (int32 (omp_uid omp))) ∧
  has t 8 (int2buff (int32 (omp_gid omp))) ∧ has t 12 b.
Proof. intros Hb. split_has. done. Qed.

Lemma init_create_run t omp mode hd r pool :
  has t 4 (int2buff (int32 (omp_uid omp))) → has t 8 (int2buff (int32 (omp_gid omp))) →
  typed_omp omp →
  init_record_for_create_ex mode hd (taken r pool t) = Some (tt, taken (created
    (if hd then hdlink_mode mode else FDIR_UNSET_DENTRY_HARD_LINK mode) omp (sv_now t) r) pool t).
Proof.
  intros H4 H8 [_ Hu Hg]. unfold init_record_for_create_ex, created.
  erewrite bind_run by (eapply rd_int_has; [exact H4|done|apply int32_range]).
  erewrite bind_run by (eapply rd_int_has; [exact H8|done|apply int32_range]).
  rewrite !uint32_int32 by done. by destruct hd.
Qed.

Lemma create_mode_run t omp r pool : has t 0 (int2buff (omp_mode omp)) → typed_omp omp →
  parse_create_dentry_mode (taken r pool t) =
    Some ((if no_type (omp_mode omp) then EINVAL else 0, omp_mode omp), taken r pool t).
Proof.
  intros H0' [Hm _ _]. unfold parse_create_dentry_mode, no_type.
  erewrite bind_run by (eapply rd_int_has; [exact H0'|done|done]).
  destruct (Z.land (omp_mode omp) S_IFMT =? 0); [done|]. by destruct (S_ISLNK (omp_mode omp)).
Qed.

Section request.
Context (t : ServiceTask) (r : SvcRecord) (pool : list SvcRecord) (Hp : sv_pool t = r :: pool).

(** The end of the requests that create a dentry, once the record names it. *)
Definition create_end : M ServiceTask Reply :=
  '(rc, mode) ← parse_create_dentry_mode;
  or_status (mret rc) (
    init_record_for_create_ex mode false;; push_record_to_data_thread_queue true).

Lemma create_end_run omp r' asks :
  sv_pushed t = None → has t 0 (int2buff (omp_mode omp)) →
  has t 4 (int2buff (int32 (omp_uid omp))) → has t 8 (int2buff (int32 (omp_gid omp))) →
  typed_omp omp →
  (let c := created (FDIR_UNSET_DENTRY_HARD_LINK (omp_mode omp)) omp (sv_now t) r' in
   asks (mkSvcRecord (sr_rec c) (with_q_notify true (sr_q c)) (sr_hash_code c))) →
  if no_type (omp_mode omp) then refuses (create_end (taken r' pool t))
  else pushes true asks (create_end (taken r' pool t)).
Proof.
  intros Hn Hm Hu Hg Ht Ha. unfold create_end. run_with (create_mode_run t omp r' pool Hm Ht).
  cbn beta iota. destruct (no_type (omp_mode omp)); [by eapply or_status_fails|].
  rewrite or_status_ret by done.
  run_with (init_create_run t omp (omp_mode omp) false r' pool Hu Hg Ht). by apply pushes_taken.
Qed.

Lemma create_run f omp b :
  fdir_client_proto_create_dentry f omp = inr b → got t b → typed_omp omp →
  if relative f || no_type (omp_mode omp) then refuses (service_deal_create_dentry t)
  else pushes true (asks_for t (CreateDentry f omp)) (service_deal_create_dentry t).
Proof.
  intros Hb [Hg Hl _ Hn] Ht. client Hb. apply omp_has in Hg as (? & ? & ? & Hd).
  destruct (has_fullname_intro _ _ _ _ E Hd) as [Hf Hlen].
  pose proof (dentry_update_run t 12 f r pool Hp Hf ltac:(lens)) as Hr.
  unfold service_deal_create_dentry, relative. destruct (is_absolute (fn_path f)); cbn [negb orb].
  2: { by eapply or_status_fails. }
  rewrite (or_status_ok _ _ _ _ Hr). by apply create_end_run.
Qed.

Lemma create_by_pname_run ns p omp b :
  fdir_client_proto_create_dentry_by_pname ns p omp = inr b → got t b →
  is_int64 (pn_parent_inode p) ∧ typed_omp omp →
  if no_type (omp_mode omp) then refuses (service_deal_create_by_pname t)
  else pushes true (asks_for t (CreateByPname ns p omp)) (service_deal_create_by_pname t).
Proof.
  intros Hb [Hg Hl Hroom Hn] [Hi Ht]. client Hb. apply omp_has in Hg as (? & ? & ? & Hd).
  destruct (has_pname_intro _ _ _ _ _ E Hd) as [Hf Hlen].
  pose proof (pname_update_run t 12 ns p r pool Hp Hf Hi Hroom ltac:(lens)) as Hr.
  unfold service_deal_create_by_pname. rewrite (or_status_ok _ _ _ _ Hr). by apply create_end_run.
Qed.

(** *** Symbolic links *)

Lemma symlink_has link omp d : has t 0 (symlink_front link omp ++ d) →
  has t 0 (int2buff (omp_mode omp)) ∧ has t 4 (int2buff (int32 (omp_uid omp))) ∧
  has t 8 (int2buff (int32 (omp_gid omp))) ∧ has t 14 (short2buff (slen link)) ∧
  has t 16 (lit link) ∧ has t (16 + slen link) d.
Proof.
  unfold symlink_front. rewrite <- !app_assoc. intros (? & ? & ? & Hb)%omp_has. split_has. done.
Qed.

Lemma symlink_front_run link omp :
  has t 0 (int2buff (omp_mode omp)) → has t 14 (short2buff (slen link)) → typed_omp omp →
  0 < slen link ≤ PATH_MAX → 16 + 3 < body_len (sv_task t) →
  parse_symlink_dentry_front t =
    Some (if slen link =? PATH_MAX then (EINVAL, (0, 0))
          else (0, (slen link, Z.lor (Z.land (omp_mode omp) (Z.lnot S_IFMT)) S_IFLNK)), t).
Proof.
  intros Hm Hs [Ht _ _] Hlen Hl. unfold parse_symlink_dentry_front, req_body_len. sv.
  destruct (Z.leb_spec (body_len (sv_task t)) (sizeof_SymlinkDEntryFront + sizeof_DEntryInfo)) as [n|_].
  { unfold sizeof_SymlinkDEntryFront, sizeof_DEntryInfo in n. lia. }
  unfold PATH_MAX in *. erewrite bind_run by (eapply rd_short_has; [exact Hs|done|lia]).
  destruct (Z.leb_spec (slen link) 0); [lia|]. cbn [orb].
  destruct (Z.eqb_spec (slen link) 4096), (Z.leb_spec 4096 (slen link)); try lia; [done|].
  by erewrite bind_run by (eapply rd_int_has; [exact Hm|done|done]).
Qed.

Definition with_link (link : string) (x : SvcRecord) : SvcRecord :=
  mkSvcRecord (with_r_link link (sr_rec x)) (sr_q x) (sr_hash_code x).
Lemma init_symlink_run link omp mode x :
  has t 4 (int2buff (int32 (omp_uid omp))) → has t 8 (int2buff (int32 (omp_gid omp))) →
  has t 16 (lit link) → typed_omp omp →
  init_record_for_symlink (slen link) mode (taken x pool t) = Some (tt, taken (with_link link
    (created (FDIR_UNSET_DENTRY_HARD_LINK mode) omp (sv_now t) x)) pool t).
Proof.
  intros Hu Hg Hs Ht. unfold init_record_for_symlink.
  run_with (init_create_run t omp mode false x pool Hu Hg Ht).
  by erewrite bind_run by (eapply rd_string_has; [exact Hs|done|done]).
Qed.

Lemma set_link_run x :
  q_name_at (sr_q x) + slen (re_pname (r_me (sr_rec x))) + slen (r_link (sr_rec x))
    ≤ task_size (sv_task t) →
  set_record_link (taken x pool t) = Some (0, taken x pool t).
Proof.
  intros Hle. unfold set_record_link. do 2 sv. apply Z.ltb_ge in Hle. cbn. by rewrite Hle.
Qed.

Lemma symlink_run link f omp b :
  fdir_client_proto_symlink_dentry link f omp = inr b → got t b → typed_omp omp →
  if (slen link =? PATH_MAX) || relative f then refuses (service_deal_symlink_dentry t)
  else pushes true (asks_for t (SymlinkDentry link f omp)) (service_deal_symlink_dentry t).
Proof.
  intros Hb [Hg Hl _ Hn] Ht. client Hb. apply expect_inv, length_ok_spec in E.
  apply symlink_has in Hg as (Hm & Hu & Hgid & Hs & Hlink & Hd).
  destruct (has_fullname_intro _ _ _ _ E0 Hd) as [Hf Hlen].
  pose proof Hf as [[? ?] [? ?] _ _ _ _]. unfold symlink_front in Hl.
  unfold service_deal_symlink_dentry.
  run_with (symlink_front_run link omp Hm Hs Ht E ltac:(lens)).
  destruct (slen link =? PATH_MAX); cbn beta iota; [by eapply or_status_fails|].
  rewrite or_status_ret by done. unfold sizeof_SymlinkDEntryFront.
  pose proof (dentry_update_run t _ f r pool Hp Hf ltac:(lens)) as Hr.
  unfold relative. destruct (is_absolute (fn_path f)); cbn [negb orb].
  2: { by eapply or_status_fails. }
  rewrite (or_status_ok _ _ _ _ Hr).
  run_with (init_symlink_run link omp (Z.lor (Z.land (omp_mode omp) (Z.lnot S_IFMT)) S_IFLNK)
    (for_update (by_fullname f r)) Hu Hgid Hlink Ht).
  by apply pushes_taken.
Qed.

Lemma symlink_by_pname_run link ns p omp b :
  fdir_client_proto_symlink_dentry_by_pname link ns p omp = inr b → got t b →
  is_int64 (pn_parent_inode p) ∧ typed_omp omp →
  if slen link =? PATH_MAX then refuses (service_deal_symlink_by_pname t)
  else pushes true (asks_for t (SymlinkByPname link ns p omp)) (service_deal_symlink_by_pname t).
Proof.
  intros Hb [Hg Hl Hroom Hn] [Hi Ht]. client Hb. apply expect_inv, length_ok_spec in E.
  apply symlink_has in Hg as (Hm & Hu & Hgid & Hs & Hlink & Hd).
  destruct (has_pname_intro _ _ _ _ _ E0 Hd) as [Hf Hlen].
  pose proof Hf as [[? ?] [? ?] _ _ _ _ _]. unfold symlink_front in Hl.
  unfold service_deal_symlink_by_pname.
  run_with (symlink_front_run link omp Hm Hs Ht E ltac:(lens)).
  destruct (slen link =? PATH_MAX); cbn beta iota; [by eapply or_status_fails|].
  rewrite or_status_ret by done. unfold sizeof_SymlinkDEntryFront.
  pose proof (pname_update_run t _ ns p r pool Hp Hf Hi Hroom ltac:(lens)) as Hr.
  rewrite (or_status_ok _ _ _ _ Hr).
  run_with (init_symlink_run link omp (Z.lor (Z.land (omp_mode omp) (Z.lnot S_IFMT)) S_IFLNK)
    (pname_update t ns (for_update (by_pname ns p r))) Hu Hgid Hlink Ht).
  pose proof (set_link_run (with_link link (created (symlink_mode (omp_mode omp)) omp (sv_now t)
    (pname_update t ns (for_update (by_pname ns p r)))))) as Hset.
  destruct Hroom as [_ Hroom]. unfold NAME_MAX in *. cbn in Hset. unfold name_place in Hset.
  specialize (Hset ltac:(lia)).
  run_with Hset. cbn [Z.eqb negb]. by apply pushes_taken.
Qed.

(** *** Hard links and renames *)

Lemma two_names_has src dest front s d :
  has t 0 (front ++ s ++ d) → client_check_set_proto_dentry src = inr s →
  client_check_set_proto_dentry dest = inr d →
  has_fullname t (zlen front) src ∧
  has_fullname t (zlen front + 3 + slen (fn_ns src) + slen (fn_path src)) dest ∧
  zlen s = 3 + slen (fn_ns src) + slen (fn_path src) ∧
  zlen d = 3 + slen (fn_ns dest) + slen (fn_path dest).
Proof.
  intros [_ [Hs Hd]%has_app]%has_app Es Ed. destruct (has_fullname_intro _ _ _ _ Es Hs) as [Hf Hl].
  rewrite Hl in Hd. destruct (has_fullname_intro _ _ _ _ Ed Hd) as [Hf' Hl'].
  split; [done|]. split; [|done].
  by replace (zlen front + _ + _ + _) with
    (0 + zlen front + (3 + slen (fn_ns src) + slen (fn_path src))) by lia.
Qed.

Lemma link_run src dest omp b :
  fdir_client_proto_link_dentry src dest omp = inr b → got t b → typed_omp omp →
  if relative src || relative dest || negb (bool_decide (fn_ns dest = fn_ns src))
  then refuses (service_deal_hdlink_dentry t)
  else pushes true (asks_for t (LinkDentry src dest omp)) (service_deal_hdlink_dentry t).
Proof.
  intros Hb [Hg Hl _ Hn] Ht. client Hb.
  destruct (two_names_has _ _ _ _ _ Hg E E0) as (Hs & Hd & Ls & Ld).
  apply omp_has in Hg as (Hm & Hu & Hgid & _).
  replace (zlen (set_omp omp)) with 12 in * by lens.
  pose proof Hs as [[? ?] [? ?] _ _ _ _]. pose proof Hd as [[? ?] [? ?] _ _ _ _].
  assert (body_len (sv_task t) = 12 + zlen x + zlen x0) as Hl' by lens.
  unfold service_deal_hdlink_dentry, req_body_len, sizeof_CreateDEntryFront, sizeof_DEntryInfo.
  unfold NAME_MAX, PATH_MAX in *. sv.
  rewrite or_status_ret by (apply body_length_ok; lia).
  erewrite bind_run by (by apply parse_dentry_info_run). cbn beta iota. unfold relative.
  destruct (is_absolute (fn_path src)); cbn [negb orb]; [|by eapply or_status_fails].
  rewrite or_status_ret by done. cbn [fst snd].
  pose proof (dentry_update_run t _ dest r pool Hp Hd ltac:(lia)) as Hr.
  destruct (is_absolute (fn_path dest)); cbn [negb orb].
  2: { by eapply or_status_fails. }
  rewrite (or_status_ok _ _ _ _ Hr). erewrite bind_run by (by apply rd_fullname_run). sv. cbn.
  destruct (bool_decide_reflect (fn_ns dest = fn_ns src)); cbn [negb].
  - sv. erewrite bind_run by (eapply rd_int_has; [exact Hm|done|apply Ht]).
    erewrite bind_run by (by apply (init_create_run t omp)). by apply pushes_taken.
  - by do 2 eexists.
Qed.

Lemma link_by_pname_run i ns p omp b :
  fdir_client_proto_link_dentry_by_pname i ns p omp = inr b → got t b →
  is_int64 i ∧ is_int64 (pn_parent_inode p) ∧ typed_omp omp →
  pushes true (asks_for t (LinkByPname i ns p omp)) (service_deal_hdlink_by_pname t).
Proof.
  intros Hb [Hg Hl Hroom Hn] (Hi & Hpi & Ht). client Hb.
  apply omp_has in Hg as (Hm & Hu & Hgid & [_ [Hsrc Hd]%has_app]%has_app).
  rewrite zlen_uninit in *. rewrite zlen_long in Hd. cbn in Hsrc, Hd.
  destruct (has_pname_intro _ _ _ _ _ E Hd) as [Hf Hlen]. pose proof Hf as [[? ?] [? ?] _ _ _ _ _].
  assert (body_len (sv_task t) = 24 + 10 + slen ns + slen (pn_name p)) as Hl' by lens.
  unfold service_deal_hdlink_by_pname, req_body_len. sv.
  destruct (Z.leb_spec (body_len (sv_task t)) (sizeof_HDlinkByPNameFront + sizeof_DEntryByPName)) as [n|_].
  { unfold sizeof_HDlinkByPNameFront, sizeof_DEntryByPName in n. lia. }
  erewrite bind_run by (eapply rd_long_has; [exact Hsrc|done|done]).
  erewrite bind_run by (eapply rd_int_has; [exact Hm|done|apply Ht]).
  rewrite (or_status_ok _ _ _ _ (pname_update_run t 24 ns p r pool Hp Hf Hpi Hroom Hl')). sv.
  erewrite bind_run by (by apply (init_create_run t omp)). by apply pushes_taken.
Qed.

Lemma remove_run f b :
  fdir_client_proto_remove_dentry_ex f = inr b → got t b →
  if relative f then refuses (service_deal_remove_dentry t)
  else pushes true (asks_for t (RemoveDentry f)) (service_deal_remove_dentry t).
Proof.
  intros Hb [Hg Hl _ Hn]. destruct (has_fullname_intro _ _ _ _ Hb Hg) as [Hf Hlen].
  pose proof (dentry_update_run t 0 f r pool Hp Hf ltac:(lia)) as Hr.
  unfold service_deal_remove_dentry, relative. destruct (is_absolute (fn_path f)); cbn [negb].
  - rewrite (or_status_ok _ _ _ _ Hr). unfold push_op. sv. by apply pushes_taken.
  - by eapply or_status_fails.
Qed.

Lemma remove_by_pname_run ns p b :
  fdir_client_proto_remove_dentry_by_pname_ex ns p = inr b → got t b →
  is_int64 (pn_parent_inode p) →
  pushes true (asks_for t (RemoveByPname ns p)) (service_deal_remove_by_pname t).
Proof.
  intros Hb [Hg Hl Hroom Hn] Hi. destruct (has_pname_intro _ _ _ _ _ Hb Hg) as [Hf Hlen].
  unfold service_deal_remove_by_pname.
  rewrite (or_status_ok _ _ _ _ (pname_update_run t 0 ns p r pool Hp Hf Hi Hroom ltac:(lia))).
  unfold push_op. sv. by apply pushes_taken.
Qed.

Lemma rename_run src dest flags b :
  fdir_client_proto_rename_dentry_ex src dest flags = inr b → got t b → is_int32 flags →
  if relative src || relative dest || negb (bool_decide (fn_ns dest = fn_ns src))
  then refuses (service_deal_rename_dentry t)
  else pushes true (asks_for t (RenameDentry src dest flags)) (service_deal_rename_dentry t).
Proof.
  intros Hb [Hg Hl _ Hn] Ht. client Hb.
  destruct (two_names_has _ _ _ _ _ Hg E E0) as (Hs & Hd & Ls & Ld).
  apply has_app in Hg as [Hm _]. rewrite zlen_int in *.
  pose proof Hs as [[? ?] [? ?] _ _ _ _]. pose proof Hd as [[? ?] [? ?] _ _ _ _].
  assert (body_len (sv_task t) = 4 + zlen x + zlen x0) as Hl' by lens.
  unfold service_deal_rename_dentry, req_body_len, sizeof_RenameDEntryFront, sizeof_DEntryInfo.
  unfold NAME_MAX, PATH_MAX in *. sv.
  rewrite or_status_ret by (apply body_length_ok; lia).
  erewrite bind_run by (by apply parse_dentry_info_run). cbn beta iota. unfold relative.
  destruct (is_absolute (fn_path src)); cbn [negb orb]; [|by eapply or_status_fails].
  rewrite or_status_ret by done. cbn [fst snd].
  pose proof (dentry_update_run t _ dest r pool Hp Hd ltac:(lia)) as Hr.
  destruct (is_absolute (fn_path dest)); cbn [negb orb].
  2: { by eapply or_status_fails. }
  rewrite (or_status_ok _ _ _ _ Hr). erewrite bind_run by (by apply rd_fullname_run). sv.
  unfold finish_rename. erewrite bind_run by (eapply rd_int_has; [exact Hm|done|done]). do 2 sv. cbn.
  destruct (bool_decide_reflect (fn_ns dest = fn_ns src)); cbn [negb].
  - unfold push_op. do 2 sv. by apply pushes_taken.
  - by do 2 eexists.
Qed.

Lemma rename_by_pname_run src_ns src dest_ns dest flags b :
  fdir_client_proto_rename_dentry_by_pname_ex src_ns src dest_ns dest flags = inr b → got t b →
  is_int64 (pn_parent_inode src) ∧ is_int64 (pn_parent_inode dest) ∧ is_int32 flags →
  if negb (bool_decide (dest_ns = src_ns)) then refuses (service_deal_rename_by_pname t)
  else pushes true (asks_for t (RenameByPname src_ns src dest_ns dest flags))
         (service_deal_rename_by_pname t).
Proof.
  intros Hb [Hg Hl Hroom Hn] (Hsi & Hdi & Ht). client Hb.
  apply has_app in Hg as [Hm [Hs Hd]%has_app]. rewrite zlen_int in *.
  destruct (has_pname_intro _ _ _ _ _ E Hs) as [Hsf Ls]. rewrite Ls in Hd.
  destruct (has_pname_intro _ _ _ _ _ E0 Hd) as [Hdf Ld].
  pose proof Hsf as [[? ?] [? ?] _ _ _ _ _]. pose proof Hdf as [[? ?] [? ?] _ _ _ _ _].
  assert (body_len (sv_task t) = 4 + zlen x + zlen x0) as Hl' by lens.
  unfold service_deal_rename_by_pname, req_body_len, sizeof_RenameDEntryFront.
  unfold sizeof_DEntryByPName, NAME_MAX, PATH_MAX in *. sv.
  rewrite or_status_ret by (apply body_length_ok; lia).
  erewrite bind_run by (by apply parse_pname_run). cbn beta iota.
  rewrite or_status_ret by done. cbn [fst snd].
  pose proof (pname_update_run t (0 + 4 + (10 + slen src_ns + slen (pn_name src))) dest_ns dest
    r pool Hp Hdf Hdi Hroom ltac:(lia)) as Hr.
  replace (0 + 4 + (10 + slen src_ns + slen (pn_name src))) with
    (4 + 10 + slen src_ns + slen (pn_name src)) in Hr by lia.
  rewrite (or_status_ok _ _ _ _ Hr). erewrite bind_run by (by apply rd_pname_run). cbn beta iota. do 2 sv.
  unfold finish_rename. erewrite bind_run by (eapply rd_int_has; [exact Hm|done|done]). do 2 sv. cbn.
  destruct (bool_decide_reflect (dest_ns = src_ns)); cbn [negb].
  - unfold push_op. do 2 sv. by apply pushes_taken.
  - by do 2 eexists.
Qed.

(** *** Queries *)

Lemma query_path_run op f b :
  setup_req_by_dentry_fullname f = inr b → got t b →
  if relative f then refuses (service_deal_query_by_path op t)
  else pushes false (asks_for t (QueryByPath op f)) (service_deal_query_by_path op t).
Proof.
  intros Hb [Hg Hl _ Hn]. destruct (has_fullname_intro _ _ _ _ Hb Hg) as [Hf Hlen].
  pose proof (check_dentry_run t 0 f r pool Hp Hf ltac:(lia)) as Hr.
  unfold service_deal_query_by_path, relative. destruct (is_absolute (fn_path f)); cbn [negb].
  - rewrite (or_status_ok _ _ _ _ Hr). unfold push_op. sv. by apply pushes_taken.
  - by eapply or_status_fails.
Qed.

Lemma query_pname_run op ns p b :
  setup_req_by_dentry_pname ns p = inr b → got t b → is_int64 (pn_parent_inode p) →
  pushes false (asks_for t (QueryByPname op ns p)) (service_deal_query_by_pname op t).
Proof.
  intros Hb [Hg Hl _ Hn] Hi. destruct (has_pname_intro _ _ _ _ _ Hb Hg) as [Hf Hlen].
  unfold service_deal_query_by_pname.
  rewrite (or_status_ok _ _ _ _ (pname_query_run t 0 ns p r pool Hp Hf Hi ltac:(lia))).
  unfold push_op. sv. by apply pushes_taken.
Qed.

Lemma query_inode_run op ns i b :
  setup_req_by_dentry_inode ns i = inr b → got t b → is_int64 i →
  pushes false (asks_for t (QueryByInode op ns i)) (service_deal_query_by_inode op t).
Proof.
  intros Hb [Hg Hl _ Hn] Hi. destruct (has_inode_intro _ _ _ _ _ Hb Hg) as [Hf Hlen].
  unfold service_deal_query_by_inode.
  rewrite (or_status_ok _ _ _ _ (inode_query_run t ns i r pool Hp Hf Hi ltac:(lia))).
  unfold push_op. sv. by apply pushes_taken.
Qed.

(** *** Sizes and status *)

Lemma or_int32 a b : is_int32 a → 0 ≤ b < 2 ^ 31 → is_int32 (Z.lor a b).
Proof.
  intros Ha Hb. set (c := Z.lor a b).
  assert (Z.shiftr c 31 = Z.lor (Z.shiftr a 31) (Z.shiftr b 31)) as E by apply Z.shiftr_lor.
  rewrite !Z.shiftr_div_pow2 in E by lia. rewrite (Z.div_small b) in E by lia.
  rewrite Z.lor_0_r in E. unfold is_int32 in *. change (2 ^ 31) with 2147483648 in *.
  pose proof (Z.div_mod a 2147483648 ltac:(lia)). pose proof (Z.mod_pos_bound a 2147483648 ltac:(lia)).
  pose proof (Z.div_mod c 2147483648 ltac:(lia)). pose proof (Z.mod_pos_bound c 2147483648 ltac:(lia)).
  lia.
Qed.

Definition sent (ds : SetDEntrySizeInfo) : SetDEntrySizeInfo :=
  mkSetDEntrySizeInfo (ds_inode ds) (ds_file_size ds) (ds_inc_alloc ds) false (sent_flags ds).

Lemma unpack_dsize_run t' off ds : has t' off (pack_dentry_size ds) → typed_dsize ds →
  unpack_dentry_size_info off t' = Some (sent ds, t').
Proof.
  intros Hd [Hi Hs Ha Hf]. unfold pack_dentry_size in Hd.
  apply has_app in Hd as [Hin [Hsz [Hinc Hfl]%has_app]%has_app]. rewrite !zlen_long in *.
  unfold unpack_dentry_size_info.
  erewrite bind_run by (eapply rd_long_has; [exact Hin|done|apply int64_range]).
  erewrite bind_run by (eapply rd_long_has; [exact Hsz|done|done]).
  erewrite bind_run by (eapply rd_long_has; [exact Hinc|lia|done]).
  assert (is_int32 (sent_flags ds)).
  { unfold sent_flags. destruct (ds_force ds); [|done]. by apply or_int32. }
  erewrite bind_run by (eapply rd_int_has; [exact Hfl|lia|done]).
  by rewrite uint64_int64.
Qed.

Lemma sizes_record ds x : sizes ds (dsize_record (sent ds) x).
Proof. done. Qed.

Lemma set_size_run ns ds b :
  fdir_client_proto_set_dentry_size ns ds = inr b → got t b → typed_dsize ds →
  pushes true (asks_for t (SetDentrySize ns ds)) (service_deal_set_dentry_size t).
Proof.
  intros Hb [Hg Hl _ Hn] Ht. client Hb. apply expect_inv, length_ok_spec in E.
  apply has_app in Hg as [Hd [Hnl Hns]%has_cons].
  assert (zlen (pack_dentry_size ds) = 28) as El by (unfold pack_dentry_size; lens).
  rewrite El in *. assert (body_len (sv_task t) = 29 + slen ns) as Hl' by lens.
  unfold NAME_MAX in *. unfold service_deal_set_dentry_size, req_body_len, sizeof_SetDentrySizeReq.
  sv. rewrite or_status_ret by (apply body_length_ok; unfold NAME_MAX; lia).
  erewrite bind_run by (eapply rd_byte_has; [exact Hnl|done]). rewrite code_chr by lia.
  destruct (Z.leb_spec (slen ns) 0); [lia|]. rewrite Hl', Z.eqb_refl. cbn [negb].
  erewrite bind_run by (by apply (unpack_dsize_run t 0)).
  rewrite (or_status_ok _ _ _ _ (alloc_record_run t r pool Hp)). sv.
  erewrite bind_run by (eapply rd_string_has; [exact Hns|done|done]). unfold push_op. do 3 sv.
  by apply pushes_taken.
Qed.

Lemma batch_items_run x dsizes : ∀ off pool,
  has t off (concat (pack_dentry_size <$> dsizes)) → Forall typed_dsize dsizes →
  (length dsizes ≤ length pool)%nat →
  ∃ items pool', batch_items (length dsizes) off (taken x pool t) =
      Some (Some items, taken x pool' t) ∧
    Forall2 (λ ds item, sizes ds (bi_record item) ∧ bi_data_version item = 0) dsizes items.
Proof.
  induction dsizes as [|ds dsizes IH]; intros off pl Hb Ht Hlen; [by exists [], pl|].
  apply Forall_cons in Ht as [Hds Ht]. destruct pl as [|x' pl]; [simpl in Hlen; lia|].
  rewrite fmap_cons in Hb. cbn [concat] in Hb. apply has_app in Hb as [Hd Hrest].
  replace (zlen (pack_dentry_size ds)) with 28 in Hrest by (unfold pack_dentry_size; lens).
  destruct (IH (off + sizeof_BatchSetDentrySizeReqBody) pl Hrest Ht) as (items & pl' & Hrun & Hall).
  { simpl in Hlen. lia. }
  eexists (_ :: items), pl'. cbn [batch_items length]. split.
  - erewrite bind_run by (by apply unpack_dsize_run). sv.
    change (sv_pool (taken x (x' :: pl) t)) with (x' :: pl). cbn beta iota. sv. by run_with Hrun.
  - constructor; [|done]. split; [apply sizes_record|done].
Qed.

Lemma batch_run ns dsizes b :
  fdir_client_proto_batch_set_dentry_size ns dsizes = inr b → got t b → Forall typed_dsize dsizes →
  (length dsizes ≤ length pool)%nat →
  pushes true (asks_for t (BatchSetDentrySize ns dsizes)) (service_deal_batch_set_dentry_size t).
Proof.
  intros Hb [Hg Hl _ Hn] Ht Hpool. client Hb. apply expect_inv, length_ok_spec in E.
  apply expect_inv, andb_true_iff in E0 as [Hpos Hmax]. apply Z.ltb_lt in Hpos.
  apply Z.leb_le in Hmax.
  apply has_app in Hg as [Hc Hg]. cbn [app] in Hg.
  apply has_cons in Hg as [Hnl [Hns Hd]%has_app]. rewrite zlen_int, zlen_lit in *. cbn in Hnl, Hns, Hd.
  assert (zlen (concat (pack_dentry_size <$> dsizes)) = 28 * zlen dsizes) as El.
  { clear. induction dsizes as [|ds l IH]; [done|]. rewrite fmap_cons. cbn [concat].
    rewrite zlen_app, IH, zlen_cons. unfold pack_dentry_size. lens. }
  assert (body_len (sv_task t) = 5 + slen ns + 28 * zlen dsizes) as Hl' by lens.
  unfold NAME_MAX, FDIR_BATCH_SET_MAX_DENTRY_COUNT in *.
  unfold service_deal_batch_set_dentry_size, req_body_len, sizeof_BatchSetDentrySizeReqHeader,
    sizeof_BatchSetDentrySizeReqBody, FDIR_BATCH_SET_MAX_DENTRY_COUNT.
  sv. rewrite or_status_ret by (apply min_length_ok; lia).
  erewrite bind_run by (eapply rd_byte_has; [exact Hnl|done]). rewrite code_chr by lia.
  destruct (Z.leb_spec (slen ns) 0); [lia|].
  erewrite bind_run by (eapply rd_int_has; [exact Hc|done|unfold is_int32; lia]).
  destruct (Z.leb_spec (zlen dsizes) 0); [lia|]. destruct (Z.ltb_spec 256 (zlen dsizes)); [lia|].
  cbn [orb]. rewrite Hl', Z.eqb_refl. cbn [negb].
  rewrite (or_status_ok _ _ _ _ (alloc_record_run t r pool Hp)).
  destruct (batch_items_run (fresh r) dsizes (5 + slen ns) pool Hd Ht Hpool)
    as (items & pool' & Hrun & Hall).
  replace (Z.to_nat (zlen dsizes)) with (length dsizes) by (unfold zlen; lia).
  run_with Hrun. cbn beta iota.
  erewrite bind_run by (eapply rd_string_has; [exact Hns|done|done]). unfold push_op. do 5 sv.
  apply pushes_taken. by repeat split.
Qed.

Lemma modify_request_run ns i flags stat b :
  fdir_client_proto_modify_dentry_stat ns i flags stat = inr b → got t b →
  is_int64 i ∧ is_int64 flags ∧ typed_stat stat →
  if Z.land flags dstat_mflags_mask =? 0 then refuses (service_deal_modify_dentry_stat t)
  else pushes true (asks_for t (ModifyDentryStat ns i flags stat)) (service_deal_modify_dentry_stat t).
Proof.
  intros Hb [Hg Hl _ Hn] (Hi & Hf & Ht). client Hb. apply expect_inv, length_ok_spec in E.
  apply has_app in Hg as [Hino [Hfl [Hst [Hnl Hns]%has_cons]%has_app]%has_app].
  rewrite !zlen_long, pack_stat_len in *. cbn in Hfl, Hst, Hnl, Hns.
  assert (body_len (sv_task t) = 73 + slen ns) as Hl'.
  { rewrite Hl, !zlen_app, !zlen_long, pack_stat_len, zlen_cons, zlen_lit. lia. }
  unfold NAME_MAX in *. unfold service_deal_modify_dentry_stat, req_body_len.
  unfold sizeof_ModifyDentryStatReq, sizeof_DEntryStat.
  sv. rewrite or_status_ret by (apply body_length_ok; unfold NAME_MAX; lia).
  erewrite bind_run by (eapply rd_byte_has; [exact Hnl|done]). rewrite code_chr by lia.
  destruct (Z.leb_spec (slen ns) 0); [lia|]. rewrite Hl', Z.eqb_refl. cbn [negb].
  erewrite bind_run by (eapply rd_long_has; [exact Hino|done|done]).
  erewrite bind_run by (eapply rd_long_has; [exact Hfl|done|done]).
  destruct (Z.eqb_spec (Z.land flags dstat_mflags_mask) 0) as [E'|E'].
  { by do 2 eexists. }
  erewrite bind_run by (eapply rd_has; [exact Hst|done|by rewrite pack_stat_len]).
  rewrite (or_status_ok _ _ _ _ (alloc_record_run t r pool Hp)). rewrite unpack_pack_stat by done.
  do 3 sv. erewrite bind_run by (eapply rd_string_has; [exact Hns|done|done]). unfold push_op. do 2 sv.
  by apply pushes_taken.
Qed.

(** *** Extended attributes *)

Lemma validate_inv x u : fdir_validate_xattr x = inr u →
  0 < slen (fst x) ≤ NAME_MAX ∧ slen (snd x) ≤ FDIR_XATTR_MAX_VALUE_SIZE.
Proof.
  intros Hv. unfold fdir_validate_xattr in Hv. client Hv.
  apply expect_inv, Z.ltb_lt in E. apply expect_inv, Z.leb_le in E0.
  apply expect_inv, Z.leb_le in Hv. lia.
Qed.

Record has_xattr (x : string * string) (flags : Z) : Prop := {
  hx_name_len : has t 0 [chr (slen (fst x))];
  hx_value_len : has t 1 (short2buff (slen (snd x)));
  hx_flags : has t 3 (short2buff flags);
  hx_name : has t 8 (lit (fst x));
  hx_value : has t (8 + slen (fst x)) (lit (snd x))
}.
Lemma xattr_has x flags b : has t 0 (pack_set_xattr_fields x flags ++ b) →
  has_xattr x flags ∧ has t (8 + slen (fst x) + slen (snd x)) b.
Proof.
  unfold pack_set_xattr_fields. intros [[Hnl Hx]%has_cons Hb]%has_app.
  apply has_app in Hx as [Hvl [Hfl [_ [Hk Hv]%has_app]%has_app]%has_app].
  rewrite ?zlen_short, ?zlen_uninit, ?zlen_lit in *. split; [by split|].
  rewrite zlen_cons, !zlen_app, !zlen_short, zlen_uninit, !zlen_lit in Hb.
  by replace (8 + slen (fst x) + slen (snd x)) with
    (0 + (1 + (2 + (2 + (Z.of_nat 3 + (slen (fst x) + slen (snd x))))))) by lia.
Qed.
Lemma xattr_len x flags : zlen (pack_set_xattr_fields x flags) = 8 + slen (fst x) + slen (snd x).
Proof. unfold pack_set_xattr_fields. lens. Qed.

Lemma xattr_fields_run x flags : has_xattr x flags → 0 < slen (fst x) ≤ NAME_MAX →
  slen (snd x) ≤ FDIR_XATTR_MAX_VALUE_SIZE →
  parse_xattr_fields t =
    Some ((if has_zero (fst x) then EINVAL else 0, (slen (fst x), slen (snd x))), t).
Proof.
  intros [Hnl Hvl Hfl Hk Hv] Hn Hm. unfold parse_xattr_fields, has_zero.
  pose proof (slen_nonneg (snd x)). unfold NAME_MAX, FDIR_XATTR_MAX_VALUE_SIZE in *.
  erewrite bind_run by (eapply rd_byte_has; [exact Hnl|done]). rewrite code_chr by lia.
  erewrite bind_run by (eapply rd_short_has; [exact Hvl|done|lia]). cbn zeta.
  destruct (Z.leb_spec (slen (fst x)) 0); [lia|]. destruct (Z.ltb_spec 255 (slen (fst x))); [lia|].
  erewrite bind_run by (eapply rd_has; [exact Hk|done|by rewrite zlen_lit]).
  destruct (bool_decide (zero ∈ lit (fst x))); [done|].
  destruct (Z.ltb_spec (slen (snd x)) 0); [lia|]. by destruct (Z.ltb_spec 256 (slen (snd x))); [lia|].
Qed.

(** The record with the attribute. *)
Definition with_xattr (x : string * string) (flags : Z) (y : SvcRecord) : SvcRecord :=
  mkSvcRecord (with_r_xattr x (with_r_flags flags (sr_rec y))) (sr_q y) (sr_hash_code y).

Lemma do_setxattr_run x flags y asks : has_xattr x flags → is_int16 flags →
  asks (mkSvcRecord (sr_rec (with_xattr x flags y))
    (with_q_notify true (with_q_operation BINLOG_OP_SET_XATTR_INT (sr_q y))) (sr_hash_code y)) →
  pushes true asks (service_do_setxattr (slen (fst x), slen (snd x)) (taken y pool t)).
Proof.
  intros [Hnl Hvl Hfl Hk Hv] Hf Ha. unfold service_do_setxattr. cbn [fst snd].
  erewrite bind_run by (eapply rd_short_has; [exact Hfl|done|done]).
  erewrite bind_run by (eapply rd_string_has; [exact Hk|done|done]).
  erewrite bind_run by (eapply rd_string_has; [exact Hv|done|done]).
  unfold push_op. do 3 sv. apply pushes_taken. by destruct x.
Qed.

Lemma set_xattr_path_run f x flags b :
  fdir_client_proto_set_xattr_by_path f x flags = inr b → got t b → is_int16 flags →
  if has_zero (fst x) || relative f then refuses (service_deal_set_xattr_by_path t)
  else pushes true (asks_for t (SetXattrByPath f x flags)) (service_deal_set_xattr_by_path t).
Proof.
  intros Hb [Hg Hl _ Hn] Hf. client Hb. apply validate_inv in E as [Hk Hv].
  apply xattr_has in Hg as [Hx Hd]. destruct (has_fullname_intro _ _ _ _ E0 Hd) as [Hfn Hlen].
  pose proof Hfn as [[? ?] [? ?] _ _ _ _]. rewrite zlen_app, xattr_len in Hl.
  pose proof (slen_nonneg (snd x)).
  unfold service_deal_set_xattr_by_path, req_body_len, sizeof_SetXAttrFields, sizeof_DEntryInfo. sv.
  rewrite or_status_ret by (apply min_length_ok; lia).
  run_with (xattr_fields_run x flags Hx Hk Hv). cbn beta iota.
  destruct (has_zero (fst x)); [by eapply or_status_fails|]. rewrite or_status_ret by done.
  cbn [fst snd orb]. match goal with |- context [?a <? ?c] => destruct (Z.ltb_spec a c); [lia|] end.
  pose proof (xattr_update_run t _ f r pool Hp Hfn ltac:(lia)) as Hr.
  unfold relative. destruct (is_absolute (fn_path f)); cbn [negb].
  - rewrite (or_status_ok _ _ _ _ Hr). by apply (do_setxattr_run x flags).
  - by eapply or_status_fails.
Qed.

Lemma set_xattr_inode_run ns i x flags b :
  fdir_client_proto_set_xattr_by_inode ns i x flags = inr b → got t b →
  is_int64 i ∧ is_int16 flags →
  if (1 + NAME_MAX + FDIR_XATTR_MAX_VALUE_SIZE <? slen (fst x) + slen (snd x) + slen ns) ||
     has_zero (fst x)
  then refuses (service_deal_set_xattr_by_inode t)
  else pushes true (asks_for t (SetXattrByInode ns i x flags)) (service_deal_set_xattr_by_inode t).
Proof.
  intros Hb [Hg Hl _ Hn] [Hi Hf]. client Hb. apply validate_inv in E as [Hk Hv].
  apply xattr_has in Hg as [Hx Hd]. destruct (has_inode_intro _ _ _ _ _ E0 Hd) as [Hin Hlen].
  pose proof Hin as [[? ?] _ _ _]. rewrite zlen_app, xattr_len in Hl. pose proof (slen_nonneg (snd x)).
  unfold service_deal_set_xattr_by_inode, req_body_len, sizeof_SetXAttrFields, sizeof_InodeInfo. sv.
  destruct (Z.ltb_spec (1 + NAME_MAX + FDIR_XATTR_MAX_VALUE_SIZE)
    (slen (fst x) + slen (snd x) + slen ns)) as [Hlong|Hshort]; cbn [orb].
  { eapply or_status_fails; [reflexivity| |done]. intros Hrc%check_body_length_law. lia. }
  rewrite or_status_ret by (apply body_length_ok; lia).
  run_with (xattr_fields_run x flags Hx Hk Hv). cbn beta iota.
  destruct (has_zero (fst x)); [by eapply or_status_fails|]. rewrite or_status_ret by done.
  cbn [fst snd]. match goal with |- context [?a <? ?c] => destruct (Z.ltb_spec a c); [lia|] end.
  rewrite (or_status_ok _ _ _ _ (inode_update_run t _ ns i r pool Hp Hin Hi ltac:(lia))).
  by apply (do_setxattr_run x flags).
Qed.

(** The requests that only have the attribute's name. *)
Record has_name (name : string) (b : text) : Prop := {
  hn_ok : name_ok NAME_MAX name;
  hn_len : has t 0 [chr (slen name)];
  hn_str : has t 1 (lit name);
  hn_rest : has t (1 + slen name) b
}.
Lemma has_name_intro name n b : client_check_set_proto_name_info name = inr n →
  has t 0 (n ++ b) → has_name name b ∧ zlen n = 1 + slen name.
Proof.
  intros [Hok ->]%set_name_inv [[Hl Hs]%has_cons Hb]%has_app. split; [|lens].
  rewrite zlen_cons, zlen_lit in Hb. by split.
Qed.

Lemma name_info_run name b fixed : has_name name b → fixed + 1 ≤ body_len (sv_task t) →
  parse_xattr_name_info fixed t = Some ((0, slen name), t).
Proof.
  intros [[? ?] Hl _ _] Hle. unfold parse_xattr_name_info, req_body_len, NAME_MAX in *. sv.
  rewrite min_length_ok by lia. cbn [Z.eqb negb].
  erewrite bind_run by (eapply rd_byte_has; [exact Hl|done]). by rewrite code_chr by lia.
Qed.

(** The record with the attribute's name. *)
Definition with_key (name : string) (y : SvcRecord) : SvcRecord :=
  mkSvcRecord (with_r_xattr (name, snd (r_xattr (sr_rec y))) (sr_rec y)) (sr_q y) (sr_hash_code y).
Lemma xattr_key_run name b y : has_name name b →
  set_xattr_key (slen name) (taken y pool t) = Some (tt, taken (with_key name y) pool t).
Proof.
  intros [_ _ Hs _]. unfold set_xattr_key. by erewrite bind_run by (eapply rd_string_has; [exact Hs|done|done]).
Qed.

Lemma remove_xattr_path_run f name b :
  fdir_client_proto_remove_xattr_by_path f name = inr b → got t b →
  if relative f then refuses (service_deal_remove_xattr_by_path t)
  else pushes true (asks_for t (RemoveXattrByPath f name)) (service_deal_remove_xattr_by_path t).
Proof.
  intros Hb [Hg Hl _ Hn]. client Hb. destruct (has_name_intro _ _ _ E Hg) as [Hx Ln].
  destruct (has_fullname_intro _ _ _ _ E0 (hn_rest _ _ Hx)) as [Hf Ld].
  pose proof Hf as [[? ?] [? ?] _ _ _ _]. pose proof Hx as [[? ?] _ _ _]. rewrite zlen_app in Hl.
  unfold service_deal_remove_xattr_by_path, req_body_len, sizeof_NameInfo, sizeof_DEntryInfo. sv.
  rewrite or_status_ret by (apply min_length_ok; lia).
  run_with (name_info_run name _ (1 + 3 + 1) Hx ltac:(lia)). cbn beta iota.
  rewrite or_status_ret by done.
  match goal with |- context [?a <? ?c] => destruct (Z.ltb_spec a c); [lia|] end.
  pose proof (xattr_update_run t _ f r pool Hp Hf ltac:(lia)) as Hr.
  unfold relative. destruct (is_absolute (fn_path f)); cbn [negb].
  - rewrite (or_status_ok _ _ _ _ Hr). run_with (xattr_key_run name _ (for_update (by_fullname f r)) Hx).
    unfold push_op. sv. by apply pushes_taken.
  - by eapply or_status_fails.
Qed.

Lemma remove_xattr_inode_run ns i name b :
  fdir_client_proto_remove_xattr_by_inode ns i name = inr b → got t b → is_int64 i →
  if 1 + NAME_MAX <? slen name + slen ns then refuses (service_deal_remove_xattr_by_inode t)
  else pushes true (asks_for t (RemoveXattrByInode ns i name)) (service_deal_remove_xattr_by_inode t).
Proof.
  intros Hb [Hg Hl _ Hn] Hi. client Hb. destruct (has_name_intro _ _ _ E Hg) as [Hx Ln].
  destruct (has_inode_intro _ _ _ _ _ E0 (hn_rest _ _ Hx)) as [Hf Ld].
  pose proof Hf as [[? ?] _ _ _]. pose proof Hx as [[? ?] _ _ _]. rewrite zlen_app in Hl.
  unfold service_deal_remove_xattr_by_inode, req_body_len, sizeof_NameInfo, sizeof_InodeInfo. sv.
  destruct (Z.ltb_spec (1 + NAME_MAX) (slen name + slen ns)) as [Hlong|Hshort].
  { eapply or_status_fails; [reflexivity| |done]. intros Hrc%check_body_length_law. lia. }
  rewrite or_status_ret by (apply body_length_ok; lia).
  run_with (name_info_run name _ (1 + 9 + 1) Hx ltac:(lia)). cbn beta iota.
  rewrite or_status_ret by done.
  match goal with |- context [?a <? ?c] => destruct (Z.ltb_spec a c); [lia|] end.
  rewrite (or_status_ok _ _ _ _ (inode_update_run t _ ns i r pool Hp Hf Hi ltac:(lia))).
  run_with (xattr_key_run name _ (by_inode_update ns i r) Hx). unfold push_op. sv. by apply pushes_taken.
Qed.

Lemma get_xattr_path_run f name b :
  fdir_client_proto_remove_xattr_by_path f name = inr b → got t b →
  if relative f then refuses (service_get_xattr_by_path t)
  else pushes false (asks_for t (GetXattrByPath f name)) (service_get_xattr_by_path t).
Proof.
  intros Hb [Hg Hl _ Hn]. client Hb. destruct (has_name_intro _ _ _ E Hg) as [Hx Ln].
  destruct (has_fullname_intro _ _ _ _ E0 (hn_rest _ _ Hx)) as [Hf Ld].
  pose proof Hf as [[? ?] [? ?] _ _ _ _]. pose proof Hx as [[? ?] _ _ _]. rewrite zlen_app in Hl.
  unfold service_get_xattr_by_path, sizeof_NameInfo, sizeof_DEntryInfo.
  run_with (name_info_run name _ (1 + 3 + 1) Hx ltac:(lia)). cbn beta iota.
  rewrite or_status_ret by done.
  pose proof (check_dentry_run t _ f r pool Hp Hf ltac:(lia)) as Hr.
  unfold relative. destruct (is_absolute (fn_path f)); cbn [negb].
  - rewrite (or_status_ok _ _ _ _ Hr). run_with (xattr_key_run name _ (by_fullname f r) Hx).
    unfold push_op. sv. by apply pushes_taken.
  - by eapply or_status_fails.
Qed.

Lemma get_xattr_inode_run ns i name b :
  fdir_client_proto_remove_xattr_by_inode ns i name = inr b → got t b → is_int64 i →
  pushes false (asks_for t (GetXattrByInode ns i name)) (service_get_xattr_by_inode t).
Proof.
  intros Hb [Hg Hl _ Hn] Hi. client Hb. destruct (has_name_intro _ _ _ E Hg) as [Hx Ln].
  destruct (has_inode_intro _ _ _ _ _ E0 (hn_rest _ _ Hx)) as [Hf Ld].
  pose proof Hf as [[? ?] Hino Hnl Hns]. pose proof Hx as [[? ?] _ _ _]. rewrite zlen_app in Hl.
  assert (NAME_MAX = 255) as EM by done.
  unfold service_get_xattr_by_inode, req_body_len, sizeof_NameInfo, sizeof_InodeInfo.
  run_with (name_info_run name _ (1 + 9 + 1) Hx ltac:(lia)). cbn beta iota.
  rewrite or_status_ret by done.
  erewrite bind_run by (eapply rd_byte_has; [exact Hnl|done]). rewrite code_chr by lia. sv.
  match goal with |- context [?a =? ?c] => destruct (Z.eqb_spec a c); [|lia] end. cbn [negb].
  rewrite (or_status_ok _ _ _ _ (alloc_record_run t r pool Hp)).
  erewrite bind_run by (eapply rd_long_has; [exact Hino|done|done]). sv.
  erewrite bind_run by (eapply rd_string_has; [exact Hns|done|done]). sv.
  erewrite bind_run by (by eapply xattr_key_run). unfold push_op. do 2 sv. by apply pushes_taken.
Qed.

(** *** Locks *)

Lemma flock_run unlock ns i operation offset len owner_id pid b :
  fdir_client_flock_dentry_ex2 ns i operation offset len owner_id pid = inr b → got t b →
  typed (FlockDentry ns i operation offset len owner_id pid) → unlocks operation = false →
  if (Z.land (int16 operation) LOCK_EX =? 0) && (Z.land (int16 operation) LOCK_SH =? 0)
  then refuses (service_deal_flock_dentry unlock t)
  else pushes false (asks_for t (FlockDentry ns i operation offset len owner_id pid))
         (service_deal_flock_dentry unlock t).
Proof.
  intros Hb [Hg Hl _ Hn] (Hi & Hop & Hoff & Hlen & How & Hpid) Hun. client Hb.
  apply has_app in Hg as [Hof [Hln [Hid [Hpd [Ho Hd]%has_app]%has_app]%has_app]%has_app].
  rewrite ?zlen_long, ?zlen_int in *. cbn in Hln, Hid, Hpd, Ho, Hd.
  destruct (has_inode_intro _ _ _ _ _ E Hd) as [Hf Ld]. pose proof Hf as [[? ?] Hino Hnl Hns].
  assert (body_len (sv_task t) = 41 + slen ns) as Hl' by lens. assert (NAME_MAX = 255) as EM by done.
  unfold service_deal_flock_dentry, req_body_len, sizeof_FlockDEntryReq.
  erewrite bind_run by (eapply rd_byte_has; [exact Hnl|done]). rewrite code_chr by lia. sv.
  rewrite or_status_ret by (apply expect_length_ok; lia).
  erewrite bind_run by (eapply rd_long_has; [exact Hino|done|done]).
  erewrite bind_run by (eapply rd_long_has; [exact Hof|done|done]).
  erewrite bind_run by (eapply rd_long_has; [exact Hln|done|done]).
  erewrite bind_run by (eapply rd_long_has; [exact Hid|done|done]).
  erewrite bind_run by (eapply rd_int_has; [exact Hpd|done|done]).
  erewrite bind_run by (eapply rd_int_has; [exact Ho|done|done]). cbn zeta.
  unfold unlocks in Hun. rewrite Hun.
  destruct (Z.land (int16 operation) LOCK_EX =? 0) eqn:Eex,
    (Z.land (int16 operation) LOCK_SH =? 0) eqn:Esh; cbn [andb negb]; [by do 2 eexists|..];
  (rewrite (or_status_ok _ _ _ _ (alloc_record_run t r pool Hp)); sv;
   erewrite bind_run by (eapply rd_string_has; [exact Hns|done|done]); unfold push_op; do 3 sv;
   apply pushes_taken; unfold asks_for; rewrite Eex; done).
Qed.

Lemma sys_lock_run ns i flags b :
  fdir_client_dentry_sys_lock ns i flags = inr b → got t b → is_int64 i ∧ is_int32 flags →
  if bool_decide (is_Some (sys_lock_task (sv_task t))) then refuses (service_deal_sys_lock_dentry t)
  else pushes false (asks_for t (SysLockDentry ns i flags)) (service_deal_sys_lock_dentry t).
Proof.
  intros Hb [Hg Hl _ Hn] [Hi Hfl]. client Hb.
  apply has_app in Hg as [Hflags [_ Hd]%has_app]. rewrite zlen_int, ?zlen_uninit in *. cbn in Hd.
  destruct (has_inode_intro _ _ _ _ _ E Hd) as [Hf Ld]. pose proof Hf as [[? ?] Hino Hnl Hns].
  assert (body_len (sv_task t) = 17 + slen ns) as Hl' by lens. assert (NAME_MAX = 255) as EM by done.
  unfold service_deal_sys_lock_dentry, req_body_len, sizeof_SysLockDEntryReq.
  erewrite bind_run by (eapply rd_byte_has; [exact Hnl|done]). rewrite code_chr by lia. sv.
  rewrite or_status_ret by (apply expect_length_ok; lia). sv.
  destruct (sys_lock_task (sv_task t)) as [x'|] eqn:Es.
  - rewrite bool_decide_true by done. by do 2 eexists.
  - rewrite bool_decide_false by (by intros [? ?]).
    rewrite (or_status_ok _ _ _ _ (alloc_record_run t r pool Hp)).
    erewrite bind_run by (eapply rd_long_has; [exact Hino|done|done]). sv.
    erewrite bind_run by (eapply rd_string_has; [exact Hns|done|done]). sv.
    erewrite bind_run by (eapply rd_int_has; [exact Hflags|done|done]). unfold push_op. do 2 sv.
    by apply pushes_taken.
Qed.
End request.

(** ** All requests *)

(** The records a request takes from the pool. *)
Definition records_needed (req : ClientReq) : nat :=
  match req with BatchSetDentrySize _ dsizes => S (length dsizes) | _ => 1 end.

(** The requests that ask for something to be done; releasing a lock is not a
    record for a data thread. *)
Definition is_release (req : ClientReq) : bool :=
  match req with FlockDentry _ _ operation _ _ _ _ => unlocks operation | _ => false end.

(** [C6] A request that the client writes is read by the server as what was
    asked for. When the body the client's function built is what the task has
    got, the pool has records and the buffer has room behind the body, the
    handler of the request never reads outside the buffer or dereferences
    null, and either it refuses the request, exactly when [refused] says so,
    or it pushes one record to the queue of updates or of queries, which
    [asks_for] the same operation on the same dentry with the same arguments. *)
Theorem request_roundtrip unlock req t body :
  client_body req = inr body → got t body → typed req → is_release req = false →
  (records_needed req ≤ length (sv_pool t))%nat →
  if refused (bool_decide (is_Some (sys_lock_task (sv_task t)))) req
  then refuses (server_handler unlock req t)
  else pushes (is_update req) (asks_for t req) (server_handler unlock req t).
Proof.
  intros Hb Hg Ht Hrel Hpool. destruct (sv_pool t) as [|r pool] eqn:Hp.
  { destruct req; simpl in Hpool; lia. }
  destruct req; cbn [server_handler client_body refused typed is_update is_release] in *.
  - by eapply create_run.
  - by eapply create_by_pname_run.
  - by eapply symlink_run.
  - by eapply symlink_by_pname_run.
  - by eapply link_run.
  - by eapply link_by_pname_run.
  - by eapply remove_run.
  - by eapply remove_by_pname_run.
  - by eapply rename_run.
  - by eapply rename_by_pname_run.
  - by eapply query_path_run.
  - by eapply query_pname_run.
  - by eapply query_inode_run.
  - by eapply set_size_run.
  - eapply batch_run; [done..|]. simpl in Hpool. lia.
  - by eapply modify_request_run.
  - by eapply set_xattr_path_run.
  - by eapply set_xattr_inode_run.
  - by eapply remove_xattr_path_run.
  - by eapply remove_xattr_inode_run.
  - by eapply get_xattr_path_run.
  - by eapply get_xattr_inode_run.
  - by eapply flock_run.
  - by eapply sys_lock_run.
Qed.
End spec.
