(* ===== verification/ServiceSafe.v ===== *)
(** * No request makes the server read outside its buffer

    The bytes of a body are whatever a client sent. Here every function that
    parses requests gets a specification that does not assume anything about
    them: the lengths it has read lead to reads inside the buffer, a record is
    there when it is written to. *)

From Stdlib Require Import Ascii.
From S2P Require Import Prelude NsSubscribe Flock ServerTypes InodeIndex Dentry.
From S2P Require Import Thread DataThread CText Proto Service ServiceSpec.
From S2P Require Import Requests.

(** [runs P m Q]: from a state with [P] the program [m] is not stuck, and what
    it gives and leaves has [Q]. *)
Definition runs {A} (P : ServiceTask → Prop) (m : M ServiceTask A)
    (Q : A → ServiceTask → Prop) : Prop :=
  ∀ t, P t → ∃ a t', m t = Some (a, t') ∧ Q a t'.

Lemma runs_ret {A} (a : A) (P : ServiceTask → Prop) (Q : A → ServiceTask → Prop) :
  (∀ t, P t → Q a t) → runs P (mret a) Q.
Proof. intros HQ t Ht. exists a, t. split; [done|]. by apply HQ. Qed.
Lemma runs_bind {A B} (m : M ServiceTask A) (f : A → M ServiceTask B) P Q R :
  runs P m R → (∀ a, runs (R a) (f a) Q) → runs P (m ≫= f) Q.
Proof.
  intros Hm Hf t Ht. destruct (Hm t Ht) as (a & t' & Hrun & Ha).
  destruct (Hf a t' Ha) as (b & t'' & Hrun' & Hb). exists b, t''. split; [|done]. by run_with Hrun.
Qed.
Lemma runs_assoc {A B C} (m : M ServiceTask A) (f : A → M ServiceTask B)
    (g : B → M ServiceTask C) P Q :
  runs P (m ≫= λ x, f x ≫= g) Q → runs P ((m ≫= f) ≫= g) Q.
Proof.
  intros Hm t Ht. destruct (Hm t Ht) as (c & t' & Hrun & Hc). exists c, t'. by rewrite bind_bind.
Qed.
Lemma runs_weaken {A} (m : M ServiceTask A) P P' (Q Q' : A → ServiceTask → Prop) :
  runs P m Q → (∀ t, P' t → P t) → (∀ a t, Q a t → Q' a t) → runs P' m Q'.
Proof.
  intros Hm HP HQ t Ht. destruct (Hm t (HP t Ht)) as (a & t' & Hrun & Ha). eauto.
Qed.
(** What is known of values and not of the state. *)
Lemma runs_pure {A} (m : M ServiceTask A) P (φ : Prop) Q :
  (φ → runs P m Q) → runs (λ t, P t ∧ φ) m Q.
Proof. intros Hm t [Ht Hφ]. by apply Hm. Qed.

Section safe.
Context `{!ByteOrder} `{!ServerFrame} `{!ServerConfig}.
Context (data : text) (task : FastTask) (pushed : option (bool * SvcRecord)).
Context (Hsize : body_at task + body_len task + NAME_MAX ≤ zlen data) (Hlen : 0 ≤ body_len task).
Context (Hat : 0 < body_at task).
Context (Hroom : body_at task + Z.max (body_len task) sizeof_StatDEntryResp
                   + 2 * NAME_MAX + PATH_MAX ≤ task_size task).

(** The task of the request; [busy] has a record as well. *)
Definition idle (t : ServiceTask) : Prop :=
  sv_data t = data ∧ sv_task t = task ∧ sv_pushed t = pushed.
Definition busy (t : ServiceTask) : Prop := idle t ∧ is_Some (sv_record t).

Lemma busy_idle t : busy t → idle t.
Proof. by intros []. Qed.

(** ** Reading *)

(** [off] and [n] are in the body, or less than a name's length behind it. *)
Definition inside (off n : Z) : Prop :=
  0 ≤ off ∧ 0 ≤ n ∧ off + n ≤ body_len task + NAME_MAX.

Lemma rd_runs (P : ServiceTask → Prop) off n : (∀ t, P t → idle t) → inside off n →
  runs P (rd off n) (λ b t, P t ∧ zlen b = n).
Proof.
  intros HP (Ho & Hn & Hle) t Ht. destruct (HP t Ht) as (Hd & Hk & _). unfold rd, bytes_at.
  rewrite Hd, Hk. destruct (Z.ltb_spec (body_at task + off) 0); [lia|].
  destruct (Z.ltb_spec n 0); [lia|].
  destruct (Z.ltb_spec (zlen data) (body_at task + off + n)); [lia|]. cbn [orb].
  do 2 eexists. split; [reflexivity|]. split; [done|].
  unfold zlen in *. rewrite length_take, length_drop. lia.
Qed.
Lemma rd_byte_runs P off : (∀ t, P t → idle t) → inside off 1 →
  runs P (rd_byte off) (λ n t, P t ∧ 0 ≤ n < 256).
Proof.
  intros HP Hin. eapply runs_bind; [by apply rd_runs|]. intros b. apply runs_ret.
  intros t [Ht _]. split; [done|]. unfold code. pose proof (N_ascii_bounded (hd zero b)). lia.
Qed.
Lemma rd_number_runs {A} P off n (f : text → A) : (∀ t, P t → idle t) → inside off n →
  runs P (b ← rd off n; mret (f b)) (λ _ t, P t).
Proof.
  intros HP Hin. eapply runs_bind; [by apply rd_runs|]. intros b. apply runs_ret. by intros t [].
Qed.
Lemma rd_string_runs P off n : (∀ t, P t → idle t) → inside off n →
  runs P (rd_string off n) (λ s t, P t ∧ slen s = n).
Proof.
  intros HP Hin. eapply runs_bind; [by apply rd_runs|]. intros b. apply runs_ret.
  intros t [Ht Hb]. split; [done|]. unfold slen, str, zlen in *. rewrite <- Hb. f_equal.
  clear. induction b as [|c b IH]; [done|]. simpl. by rewrite IH.
Qed.
Lemma body_len_runs P : (∀ t, P t → idle t) →
  runs P req_body_len (λ n t, P t ∧ n = body_len task).
Proof.
  intros HP t Ht. destruct (HP t Ht) as (_ & Hk & _). unfold req_body_len.
  exists (body_len (sv_task t)), t. split; [done|]. by rewrite Hk.
Qed.
Lemma get_st_runs P : runs P get_st (λ _ t, P t).
Proof. intros t Ht. by exists t, t. Qed.

(** ** The record *)

Lemma alloc_runs : runs idle alloc_record_object
  (λ rc t, idle t ∧ (rc = 0 → is_Some (sv_record t))).
Proof.
  intros t (? & ? & ?). unfold alloc_record_object. sv. destruct (sv_pool t) as [|r pool]; sv.
  - do 2 eexists. by split.
  - do 2 eexists. split; [reflexivity|]. by split.
Qed.
Lemma free_runs : runs idle free_record_object (λ _ t, idle t).
Proof.
  intros t (? & ? & ?). unfold free_record_object. do 2 eexists. split; [reflexivity|].
  by destruct (sv_record t).
Qed.
Lemma set_record_runs f : runs busy (set_record f) (λ _ t, busy t).
Proof.
  intros t [(? & ? & ?) [r Hr]]. unfold set_record. sv. rewrite Hr. sv.
  do 2 eexists. split; [reflexivity|]. by split.
Qed.
Lemma get_record_runs : runs busy get_record (λ _ t, busy t).
Proof.
  intros t [Hi [r Hr]]. unfold get_record. sv. rewrite Hr. do 2 eexists.
  split; [reflexivity|]. by split.
Qed.

(** ** Checks and parsers *)

(** A function that gives 0 has got a record, and has found that the body goes as far
    as [off]. *)
Definition got_record (off rc : Z) (t : ServiceTask) : Prop :=
  idle t ∧ (rc = 0 → is_Some (sv_record t) ∧ off ≤ body_len task).
(** A handler has pushed a record, or it has pushed nothing. *)
Definition answered (upd : bool) (reply : Reply) (t : ServiceTask) : Prop :=
  match reply with
  | Continue => ∃ r, sv_pushed t = Some (upd, r) ∧ q_notify (sr_q r) = true
  | Status _ => sv_pushed t = pushed
  end.

Lemma got_busy off t : got_record off 0 t → busy t ∧ off ≤ body_len task.
Proof. intros [Hi Hr]. destruct (Hr eq_refl) as [? ?]. split; [by split|done]. Qed.
Lemma check_runs P m k off off' : runs P m (got_record off) →
  (off ≤ body_len task → runs busy k (got_record off')) →
  runs P (rc ← m; if negb (rc =? 0) then mret rc else k) (got_record off').
Proof.
  intros Hm Hk. eapply runs_bind; [exact Hm|]. intros rc. destruct (Z.eqb_spec rc 0) as [->|n]; cbn [negb].
  - eapply runs_weaken; [apply runs_pure, Hk|exact (got_busy off)|done].
  - apply runs_ret. by intros t [].
Qed.
Lemma or_status_runs P upd m k off : runs P m (got_record off) →
  (off ≤ body_len task → runs busy k (answered upd)) → runs P (or_status m k) (answered upd).
Proof.
  intros Hm Hk. eapply runs_bind; [exact Hm|]. intros rc. destruct (Z.eqb_spec rc 0) as [->|n].
  - eapply runs_weaken; [apply runs_pure, Hk|exact (got_busy off)|done].
  - apply runs_ret. by intros t [(_ & _ & ?) _].
Qed.
Lemma or_alloc_runs upd k : runs busy k (answered upd) →
  runs idle (or_status alloc_record_object k) (answered upd).
Proof.
  intros Hk. apply (or_status_runs _ _ _ _ 0); [|done]. eapply runs_weaken; [apply alloc_runs|done|].
  intros rc t [Hi Hr]. split; [done|]. intros ?. split; [by apply Hr|done].
Qed.
Lemma check_alloc_runs k off : runs busy k (got_record off) →
  runs idle (rc ← alloc_record_object; if negb (rc =? 0) then mret rc else k) (got_record off).
Proof.
  intros Hk. apply (check_runs _ _ _ 0); [|done]. eapply runs_weaken; [apply alloc_runs|done|].
  intros rc t [Hi Hr]. split; [done|]. intros ?. split; [by apply Hr|done].
Qed.
Lemma or_ret_runs P upd rc k : (∀ t, P t → idle t) → (rc = 0 → runs P k (answered upd)) →
  runs P (or_status (mret rc) k) (answered upd).
Proof.
  intros HP Hk. eapply (runs_bind _ _ _ _ (λ rc' t, P t ∧ rc' = rc)); [by apply runs_ret|].
  intros rc'. apply runs_pure. intros ->. destruct (Z.eqb_spec rc 0) as [e|n]; [by apply Hk|].
  apply runs_ret. intros t Ht. by destruct (HP t Ht) as (_ & _ & ?).
Qed.
Lemma push_runs upd : runs busy (push_record_to_data_thread_queue upd) (answered upd).
Proof.
  intros t [Hi [r Hr]]. unfold push_record_to_data_thread_queue, get_record. rewrite bind_bind. sv.
  rewrite Hr. do 2 sv. do 2 eexists. split; [reflexivity|]. by eexists.
Qed.
Lemma push_op_runs upd op : runs busy (push_op upd op) (answered upd).
Proof. eapply runs_bind; [apply set_record_runs|]. intros []. apply push_runs. Qed.
Lemma refuse_runs P upd rc : (∀ t, P t → idle t) → runs P (mret (Status rc)) (answered upd).
Proof. intros HP. apply runs_ret. intros t Ht. by destruct (HP t Ht) as (_ & _ & ?). Qed.

(** The names of sizes and limits, for comparing offsets. *)
Ltac numbers := unfold inside, sizeof_CreateDEntryFront, sizeof_SymlinkDEntryFront,
  sizeof_HDlinkByPNameFront, sizeof_RenameDEntryFront, sizeof_DEntryInfo, sizeof_DEntryByPName,
  sizeof_InodeInfo, sizeof_NameInfo, sizeof_SetXAttrFields, sizeof_SetDentrySizeReq,
  sizeof_BatchSetDentrySizeReqHeader, sizeof_BatchSetDentrySizeReqBody, sizeof_StatDEntryResp,
  sizeof_ModifyDentryStatReq, sizeof_DEntryStat, sizeof_FlockDEntryReq, sizeof_SysLockDEntryReq,
  NAME_MAX, PATH_MAX, FDIR_XATTR_MAX_VALUE_SIZE in *; cbn [fst snd] in *; lia.
Ltac stays := first [exact busy_idle | by intros ? ? | done].
(** One read or one test. *)
Ltac vc := lazymatch goal with
  | |- runs _ (rd_byte _ ≫= _) _ => eapply runs_bind;
      [apply rd_byte_runs; [stays|numbers] | intros ?; apply runs_pure; intros ?; cbn zeta]
  | |- runs _ (rd_short _ ≫= _) _ => eapply runs_bind;
      [apply (rd_number_runs _ _ 2 buff2short); [stays|numbers] | intros ?; cbn beta zeta]
  | |- runs _ (rd_int _ ≫= _) _ => eapply runs_bind;
      [apply (rd_number_runs _ _ 4 buff2int); [stays|numbers] | intros ?; cbn beta zeta]
  | |- runs _ (rd_long _ ≫= _) _ => eapply runs_bind;
      [apply (rd_number_runs _ _ 8 buff2long); [stays|numbers] | intros ?; cbn beta zeta]
  | |- runs _ (rd_string _ _ ≫= _) _ => eapply runs_bind;
      [apply rd_string_runs; [stays|numbers] | intros ?; apply runs_pure; intros ?; cbn zeta]
  | |- runs _ (rd _ _ ≫= _) _ => eapply runs_bind;
      [apply rd_runs; [stays|numbers] | intros ?; apply runs_pure; intros ?; cbn zeta]
  | |- runs _ (req_body_len ≫= _) _ => eapply runs_bind;
      [apply body_len_runs; stays | intros ?; apply runs_pure; intros ->; cbn zeta]
  | |- runs _ (get_record ≫= _) _ => eapply runs_bind;
      [apply get_record_runs | intros ?; cbn beta zeta]
  | |- runs _ (set_record _ ≫= _) _ => eapply runs_bind;
      [apply set_record_runs | intros ?; cbn beta zeta]
  | |- runs _ (set_rec _ ≫= _) _ => eapply runs_bind;
      [apply set_record_runs | intros ?; cbn beta zeta]
  | |- runs _ (set_q _ ≫= _) _ => eapply runs_bind;
      [apply set_record_runs | intros ?; cbn beta zeta]
  | |- runs _ (set_ns _ ≫= _) _ => eapply runs_bind;
      [apply set_record_runs | intros ?; cbn beta zeta]
  | |- runs _ (set_pname _ ≫= _) _ => eapply runs_bind;
      [apply set_record_runs | intros ?; cbn beta zeta]
  | |- runs _ ((_ ≫= _) ≫= _) _ => apply runs_assoc
  | |- runs _ (if ?a <=? ?b then _ else _) _ => destruct (Z.leb_spec a b)
  | |- runs _ (if ?a <? ?b then _ else _) _ => destruct (Z.ltb_spec a b)
  | |- runs _ (if ?a =? ?b then _ else _) _ => destruct (Z.eqb_spec a b)
  | |- runs _ (if negb (?a =? ?b) then _ else _) _ => destruct (Z.eqb_spec a b); cbn [negb]
  | |- runs _ (if (?a <=? ?b) || _ then _ else _) _ => destruct (Z.leb_spec a b); cbn [orb]
  | |- runs _ (if (?a =? ?b) && _ then _ else _) _ => destruct (Z.eqb_spec a b); cbn [andb]
  | |- runs _ (if negb (bool_decide _) then _ else _) _ => case_bool_decide; cbn [negb]
  | |- runs _ (if bool_decide _ then _ else _) _ => case_bool_decide
  end.

Lemma body_ok len min max : server_check_body_length len min max = 0 → min ≤ len ≤ max.
Proof. apply check_body_length_law. Qed.
Lemma min_ok len min : server_check_min_body_length len min = 0 → min ≤ len.
Proof. apply check_min_body_length_law. Qed.
Lemma expect_ok len n : server_expect_body_length len n = 0 → len = n.
Proof. apply expect_body_length_law. Qed.

(** The lengths of a full name, when it is accepted. *)
Definition name_lens (x : Z * (Z * Z)) : Prop :=
  fst x = 0 → 0 < fst (snd x) ≤ NAME_MAX ∧ 0 < snd (snd x) ≤ PATH_MAX.
Definition pname_lens (x : Z * (Z * Z * Z)) : Prop :=
  fst x = 0 → 0 < fst (fst (snd x)) ≤ NAME_MAX ∧ 0 < snd (fst (snd x)) ≤ NAME_MAX.

Lemma dentry_info_runs P off : (∀ t, P t → idle t) → 0 ≤ off ≤ 4400 →
  off + sizeof_DEntryInfo + 1 ≤ body_len task →
  runs P (server_parse_dentry_info off) (λ x t, P t ∧ name_lens x).
Proof.
  intros HP Hoff Hin. unfold server_parse_dentry_info. repeat vc;
    try (apply runs_ret; intros t Ht; split; [exact Ht|by intros [=]]).
Qed.
Lemma fullname_runs P off lens : (∀ t, P t → idle t) → 0 ≤ off →
  0 ≤ fst lens → 0 ≤ snd lens → off + 3 + fst lens + snd lens ≤ body_len task →
  runs P (rd_fullname off lens) (λ _ t, P t).
Proof. intros HP ? ? ? ?. unfold rd_fullname. repeat vc. by apply runs_ret. Qed.

Lemma name_length_ok n : check_name_length n = 0 → 0 < n ≤ NAME_MAX.
Proof.
  unfold check_name_length. destruct (Z.leb_spec n 0); [done|]. by destruct (Z.ltb_spec NAME_MAX n).
Qed.
Lemma pname_runs P off : (∀ t, P t → idle t) → 0 ≤ off ≤ 4400 →
  off + sizeof_DEntryByPName ≤ body_len task →
  runs P (server_parse_pname off) (λ x t, P t ∧ pname_lens x).
Proof.
  intros HP Hoff Hin. unfold server_parse_pname.
  vc. vc. 2: { apply runs_ret. by intros t Ht. }
  vc. vc. 2: { apply runs_ret. by intros t Ht. }
  vc. apply runs_ret. intros t Ht. split; [exact Ht|]. intros _.
  split; by apply name_length_ok.
Qed.

Lemma fail_runs P rc off : (∀ t, P t → idle t) → rc ≠ 0 → runs (A:=Z) P (mret rc) (got_record off).
Proof. intros HP Hrc. apply runs_ret. intros t Ht. split; [by apply HP|done]. Qed.
Lemma succeed_runs rc off : off ≤ body_len task → runs (A:=Z) busy (mret rc) (got_record off).
Proof. intros Hoff. apply runs_ret. by intros t [? ?]. Qed.
(** The end of a function that has refused the request. *)
Ltac refused := first [apply fail_runs; [stays|done] | apply refuse_runs; stays].

Lemma clear_options_runs : runs busy clear_options (λ _ t, busy t).
Proof. unfold clear_options. vc. apply set_record_runs. Qed.
Lemma free_and_runs (rc : Z) : runs (A:=Z) idle (free_record_object;; mret rc) (λ rc' t, idle t ∧ rc' = rc).
Proof. eapply runs_bind; [apply free_runs|]. intros []. by apply runs_ret. Qed.
Lemma free_fail_runs P rc off : (∀ t, P t → idle t) → rc ≠ 0 →
  runs (A:=Z) P (free_record_object;; mret rc) (got_record off).
Proof.
  intros HP Hrc. eapply runs_weaken; [apply (free_and_runs rc)|exact HP|].
  intros rc' t [Hi ->]. by split.
Qed.
Lemma free_refuse_runs P upd rc : (∀ t, P t → idle t) →
  runs (A:=Reply) P (free_record_object;; mret (Status rc)) (answered upd).
Proof.
  intros HP. eapply runs_bind; [eapply runs_weaken; [apply free_runs|exact HP|done]|].
  intros []. apply refuse_runs. by intros t.
Qed.

Lemma check_dentry_runs off : 0 ≤ off ≤ 4400 →
  runs idle (server_check_and_parse_dentry off) (got_record off).
Proof.
  intros Hoff. unfold server_check_and_parse_dentry. apply check_alloc_runs.
  do 2 vc. 2: refused. apply body_ok in e.
  eapply runs_bind; [apply dentry_info_runs; [stays|lia|numbers]|].
  intros [rc [nl pl]]. apply runs_pure. intros Hlens. vc. 2: refused.
  destruct (Hlens e0) as [? ?]. vc. 2: refused.
  eapply runs_bind; [apply fullname_runs; [stays|numbers..]|]. intros f. cbn beta.
  repeat vc. apply succeed_runs. numbers.
Qed.

Lemma dentry_update_runs off : 0 ≤ off ≤ 4400 →
  runs idle (server_parse_dentry_for_update off) (got_record off).
Proof.
  intros Hoff. unfold server_parse_dentry_for_update.
  eapply runs_bind; [by apply check_dentry_runs|]. intros rc. vc.
  - subst rc. eapply runs_weaken; [apply runs_pure|exact (got_busy off)|done]. intros Hle.
    eapply runs_bind; [apply clear_options_runs|]. intros []. cbn beta. vc. by apply succeed_runs.
  - apply free_fail_runs; [by intros t [? ?]|done].
Qed.
Lemma xattr_update_runs off : 0 ≤ off ≤ 4400 →
  runs idle (parse_dentry_for_xattr_update off) (got_record off).
Proof.
  intros Hoff. unfold parse_dentry_for_xattr_update.
  eapply check_runs; [by apply check_dentry_runs|]. intros Hle.
  eapply runs_bind; [apply clear_options_runs|]. intros []. cbn beta. vc. by apply succeed_runs.
Qed.

Lemma check_pname_runs P off : (∀ t, P t → idle t) → 0 ≤ off ≤ 4400 →
  runs P (server_check_and_parse_pname off) (λ x t, P t ∧ pname_lens x ∧
    (fst x = 0 → off + 10 + fst (fst (snd x)) + snd (fst (snd x)) = body_len task)).
Proof.
  intros HP Hoff. unfold server_check_and_parse_pname. vc. vc.
  2: { apply runs_ret. by intros t Ht. }
  apply body_ok in e.
  eapply runs_bind; [apply pname_runs; [done|done|numbers]|].
  intros [rc [[nl pl] i]]. apply runs_pure. intros Hlens.
  vc. 2: { apply runs_ret. by intros t Ht. }
  vc. 2: { apply runs_ret. by intros t Ht. }
  apply runs_ret. intros t Ht. split; [done|]. split; [by intros _; apply Hlens|done].
Qed.
Lemma rd_pname_runs P off p : (∀ t, P t → idle t) → 0 ≤ off →
  0 ≤ fst (fst p) → 0 ≤ snd (fst p) → off + 10 + fst (fst p) + snd (fst p) ≤ body_len task →
  runs P (rd_pname off p)
    (λ x t, P t ∧ slen (fst x) = fst (fst p) ∧ slen (pn_name (snd x)) = snd (fst p)).
Proof.
  destruct p as [[nl pl] i]. intros HP ? ? ? ?. unfold rd_pname. repeat vc. by apply runs_ret.
Qed.

(** The names of the record have their lengths. *)
Definition short_names (t : ServiceTask) : Prop :=
  ∀ r, sv_record t = Some r →
    slen (r_ns (sr_rec r)) ≤ NAME_MAX ∧ slen (re_pname (r_me (sr_rec r))) ≤ NAME_MAX.
Definition got_named (off rc : Z) (t : ServiceTask) : Prop :=
  got_record off rc t ∧ (rc = 0 → short_names t).

Lemma set_names_runs ns name i off : slen ns ≤ NAME_MAX → slen name ≤ NAME_MAX →
  off ≤ body_len task →
  runs (A:=Z) busy (set_pname name;; set_q (with_q_parent_inode i);; set_ns ns;;
    set_rec (with_r_inode 0);; mret 0) (got_named off).
Proof.
  intros ? ? ? t [Hi [r Hr]]. destruct t as [d k now rec pl pu]. cbn in Hr. subst rec.
  do 4 sv. do 2 eexists. split; [reflexivity|]. split; [by split|]. intros _ ? [= <-]. done.
Qed.
Lemma pname_query_runs off : 0 ≤ off ≤ 4400 →
  runs idle (server_parse_pname_for_query_ex off) (got_named off).
Proof.
  intros Hoff. unfold server_parse_pname_for_query_ex.
  eapply runs_bind; [apply alloc_runs|]. intros rc. vc.
  2: { apply runs_ret. by intros t [Ht _]. }
  eapply (runs_weaken _ busy); [|by intros t [? Hr]; split; [|apply Hr]|done].
  vc. eapply runs_bind; [by apply check_pname_runs; [stays|]|].
  intros [rc' p]. apply runs_pure. intros [Hlens Hsum]. vc.
  - destruct (Hlens e0) as [? ?]. specialize (Hsum e0).
    eapply runs_bind; [apply rd_pname_runs; [stays|numbers..]|].
    intros [ns pn]. apply runs_pure. intros [? ?]. apply set_names_runs; numbers.
  - eapply runs_weaken; [apply (free_and_runs rc')|exact busy_idle|].
    intros rc2 t [? ->]. split; [by split; [|intros ?]|by intros ?].
Qed.

(** Names that fit are copied behind the body. *)
Lemma set_pname_info_runs :
  runs (λ t, busy t ∧ short_names t) set_record_pname_info (λ _ t, busy t).
Proof.
  intros t [[Hi [r Hr]] Hn]. destruct (Hn r Hr) as [? ?]. unfold short_names in Hn.
  destruct t as [d k now rec pl pu]. cbn in Hr. subst rec. destruct Hi as (Ed & Ek & Ep).
  cbn in Ed, Ek, Ep. subst. unfold set_record_pname_info. do 3 sv. rewrite pname_place_room.
  - do 2 eexists. split; [reflexivity|]. by repeat split.
  - done.
  - cbn. numbers.
Qed.

Lemma pname_update_runs off : 0 ≤ off ≤ 4400 →
  runs idle (server_parse_pname_for_update off) (got_record off).
Proof.
  intros Hoff. unfold server_parse_pname_for_update.
  eapply runs_bind; [by apply pname_query_runs|]. intros rc. vc.
  2: { apply runs_ret. by intros t [? _]. }
  intros t [[Hi Hr] Hn]. destruct (Hr e) as [[r Er] Hle]. specialize (Hn e r Er) as [? ?].
  destruct t as [d k now rec pl pu]. cbn in Er. subst rec. do 3 sv.
  eapply (runs_weaken _ _ _ _ (got_record off) set_pname_info_runs).
  - intros t Ht. exact Ht.
  - intros a t [? ?]. by split.
  - split; [by split|]. intros ? [= <-]. by split.
Qed.

Lemma inode_info_runs P off : (∀ t, P t → idle t) → 0 ≤ off ≤ body_len task →
  runs P (check_and_parse_inode_info off) (λ x t, P t ∧ (fst x = 0 → 0 < fst (snd x) ≤ NAME_MAX)).
Proof.
  intros HP Hoff. unfold check_and_parse_inode_info. vc. vc. 2: { apply runs_ret. by intros t Ht. }
  vc. apply runs_ret. intros t Ht. split; [done|]. intros _. by apply name_length_ok.
Qed.
Lemma inode_update_runs off : 0 ≤ off ≤ body_len task →
  runs idle (server_parse_inode_for_update off) (got_record off).
Proof.
  intros Hoff. unfold server_parse_inode_for_update.
  eapply runs_bind; [by apply inode_info_runs; [stays|]|]. intros [rc [nl i]]. apply runs_pure.
  intros Hl. vc. 2: refused. destruct (Hl e) as [? ?]. do 2 vc. 2: refused.
  apply check_alloc_runs. vc.
  eapply runs_bind; [apply clear_options_runs|]. intros []. cbn beta. repeat vc. apply succeed_runs. numbers.
Qed.
Lemma inode_query_runs : runs idle server_check_and_parse_inode (got_record 0).
Proof.
  unfold server_check_and_parse_inode. do 3 vc. 2: refused. apply expect_ok in e.
  apply check_alloc_runs. repeat vc. by apply succeed_runs.
Qed.
Lemma set_link_runs : runs busy set_record_link (λ _ t, busy t).
Proof.
  intros t [Hi [r Hr]]. destruct t as [d k now rec pl pu]. cbn in Hr. subst rec.
  unfold set_record_link. do 2 sv. do 2 eexists. split; [reflexivity|]. by split.
Qed.

(** ** The handlers *)

Lemma get_now_runs P : runs P (gets sv_now) (λ _ t, P t).
Proof. intros t Ht. by exists (sv_now t), t. Qed.
Lemma init_create_runs mode hd : runs busy (init_record_for_create_ex mode hd) (λ _ t, busy t).
Proof.
  unfold init_record_for_create_ex. do 2 vc.
  eapply runs_bind; [apply get_now_runs|]. intros now. vc. apply set_record_runs.
Qed.
Lemma create_mode_runs : runs busy parse_create_dentry_mode (λ _ t, busy t).
Proof. unfold parse_create_dentry_mode. vc. by apply runs_ret. Qed.
Lemma create_push_runs mode hd upd :
  runs busy (init_record_for_create_ex mode hd;; push_record_to_data_thread_queue upd) (answered upd).
Proof. eapply runs_bind; [apply init_create_runs|]. intros []. apply push_runs. Qed.
Lemma create_rest_runs :
  runs busy ('(rc, mode) ← parse_create_dentry_mode;
    or_status (mret rc) (init_record_for_create_ex mode false;;
      push_record_to_data_thread_queue true)) (answered true).
Proof.
  eapply runs_bind; [apply create_mode_runs|]. intros [rc mode]. cbn beta.
  apply or_ret_runs; [stays|]. intros _. apply create_push_runs.
Qed.

Lemma symlink_front_runs : runs idle parse_symlink_dentry_front
  (λ x t, idle t ∧ (fst x = 0 → 0 < fst (snd x) < PATH_MAX)).
Proof.
  unfold parse_symlink_dentry_front. do 2 vc. { by apply runs_ret. }
  do 2 vc. { by apply runs_ret. } vc. { by apply runs_ret. } vc. apply runs_ret. by intros t Ht.
Qed.
Lemma init_symlink_runs link_len mode :
  0 ≤ link_len → sizeof_SymlinkDEntryFront + link_len ≤ body_len task →
  runs busy (init_record_for_symlink link_len mode) (λ _ t, busy t).
Proof.
  intros Hl Hle. unfold init_record_for_symlink. eapply runs_bind; [apply init_create_runs|].
  intros []. cbn beta. vc. apply set_record_runs.
Qed.

Lemma create_runs : runs idle service_deal_create_dentry (answered true).
Proof. eapply or_status_runs; [by apply dentry_update_runs|]. intros _. apply create_rest_runs. Qed.
Lemma create_by_pname_runs : runs idle service_deal_create_by_pname (answered true).
Proof. eapply or_status_runs; [by apply pname_update_runs|]. intros _. apply create_rest_runs. Qed.
Lemma symlink_runs : runs idle service_deal_symlink_dentry (answered true).
Proof.
  unfold service_deal_symlink_dentry. eapply runs_bind; [apply symlink_front_runs|].
  intros [rc [nl mode]]. apply runs_pure. intros Hl. apply or_ret_runs; [stays|]. intros e.
  specialize (Hl e). eapply or_status_runs; [apply dentry_update_runs; numbers|]. intros Hle.
  eapply runs_bind; [apply init_symlink_runs; numbers|]. intros []. apply push_runs.
Qed.
Lemma symlink_by_pname_runs : runs idle service_deal_symlink_by_pname (answered true).
Proof.
  unfold service_deal_symlink_by_pname. eapply runs_bind; [apply symlink_front_runs|].
  intros [rc [nl mode]]. apply runs_pure. intros Hl. apply or_ret_runs; [stays|]. intros e.
  specialize (Hl e). eapply or_status_runs; [apply pname_update_runs; numbers|]. intros Hle.
  eapply runs_bind; [apply init_symlink_runs; numbers|]. intros []. cbn beta.
  eapply runs_bind; [apply set_link_runs|]. intros rc'. cbn beta. vc; [apply push_runs|].
  by apply free_refuse_runs, busy_idle.
Qed.

(** Goes on behind a check of the body's length. *)
Ltac after_check := apply or_ret_runs; [stays|]; let e := fresh "Hblen" in intros e;
  first [apply body_ok in e | apply min_ok in e | apply expect_ok in e | idtac].
(** Goes on when a record is there. *)
Ltac or_parse L := eapply or_status_runs; [apply L; numbers|]; let e := fresh "Hgot" in intros e.

Lemma hdlink_runs : runs idle service_deal_hdlink_dentry (answered true).
Proof.
  unfold service_deal_hdlink_dentry. vc. after_check.
  eapply runs_bind; [apply dentry_info_runs; [stays|numbers..]|]. intros [rc [nl pl]]. apply runs_pure.
  intros Hl. after_check. destruct (Hl Hblen0) as [? ?]. or_parse dentry_update_runs.
  eapply runs_bind; [apply fullname_runs; [stays|numbers..]|]. intros f. cbn beta. do 2 vc.
  - do 2 vc. apply create_push_runs.
  - apply free_refuse_runs, busy_idle.
Qed.
Lemma hdlink_by_pname_runs : runs idle service_deal_hdlink_by_pname (answered true).
Proof.
  unfold service_deal_hdlink_by_pname. do 2 vc; [refused|]. do 2 vc.
  or_parse pname_update_runs. vc. apply create_push_runs.
Qed.

Lemma remove_runs : runs idle service_deal_remove_dentry (answered true).
Proof. unfold service_deal_remove_dentry. or_parse dentry_update_runs. apply push_op_runs. Qed.
Lemma remove_by_pname_runs : runs idle service_deal_remove_by_pname (answered true).
Proof. unfold service_deal_remove_by_pname. or_parse pname_update_runs. apply push_op_runs. Qed.

Lemma finish_rename_runs ns : runs busy (finish_rename ns) (answered true).
Proof.
  unfold finish_rename. do 4 vc.
  - vc. apply push_op_runs.
  - apply free_refuse_runs, busy_idle.
Qed.
Lemma rename_runs : runs idle service_deal_rename_dentry (answered true).
Proof.
  unfold service_deal_rename_dentry. vc. after_check.
  eapply runs_bind; [apply dentry_info_runs; [stays|numbers..]|]. intros [rc [nl pl]]. apply runs_pure.
  intros Hl. after_check. destruct (Hl Hblen0) as [? ?]. or_parse dentry_update_runs.
  eapply runs_bind; [apply fullname_runs; [stays|numbers..]|]. intros f. cbn beta. vc.
  apply finish_rename_runs.
Qed.
Lemma rename_by_pname_runs : runs idle service_deal_rename_by_pname (answered true).
Proof.
  unfold service_deal_rename_by_pname. vc. after_check.
  eapply runs_bind; [apply pname_runs; [stays|numbers..]|]. intros [rc [[nl pl] i]]. apply runs_pure.
  intros Hl. after_check. destruct (Hl Hblen0) as [? ?]. or_parse pname_update_runs.
  eapply runs_bind; [apply rd_pname_runs; [stays|numbers..]|]. intros [ns p].
  eapply runs_weaken; [|intros t [Ht _]; exact Ht|done]. do 2 vc. apply finish_rename_runs.
Qed.

Lemma xattr_fields_runs : sizeof_SetXAttrFields ≤ body_len task → runs idle parse_xattr_fields
  (λ x t, idle t ∧ (fst x = 0 →
    0 < fst (snd x) ≤ NAME_MAX ∧ 0 ≤ snd (snd x) ≤ FDIR_XATTR_MAX_VALUE_SIZE)).
Proof.
  intros ?. unfold parse_xattr_fields. repeat vc; by apply runs_ret.
Qed.
Lemma setxattr_runs lens : 0 ≤ fst lens → 0 ≤ snd lens →
  sizeof_SetXAttrFields + fst lens + snd lens ≤ body_len task →
  runs busy (service_do_setxattr lens) (answered true).
Proof. intros ? ? ?. unfold service_do_setxattr. do 5 vc. apply push_op_runs. Qed.
Lemma set_xattr_path_runs : runs idle service_deal_set_xattr_by_path (answered true).
Proof.
  unfold service_deal_set_xattr_by_path. vc. after_check.
  eapply runs_bind; [apply xattr_fields_runs; numbers|]. intros [rc lens]. apply runs_pure. intros Hl.
  after_check. destruct (Hl Hblen0) as [? ?]. vc; [refused|]. or_parse xattr_update_runs.
  apply setxattr_runs; numbers.
Qed.
Lemma set_xattr_inode_runs : runs idle service_deal_set_xattr_by_inode (answered true).
Proof.
  unfold service_deal_set_xattr_by_inode. vc. after_check.
  eapply runs_bind; [apply xattr_fields_runs; numbers|]. intros [rc lens]. apply runs_pure. intros Hl.
  after_check. destruct (Hl Hblen0) as [? ?]. vc; [refused|]. or_parse inode_update_runs.
  apply setxattr_runs; numbers.
Qed.

Lemma name_info_runs fixed : runs idle (parse_xattr_name_info fixed)
  (λ x t, idle t ∧ 0 ≤ snd x < 256 ∧ (fst x = 0 → fixed + 1 ≤ body_len task)).
Proof.
  unfold parse_xattr_name_info. do 2 vc; [apply min_ok in e; vc|]; by apply runs_ret.
Qed.
Lemma xattr_key_runs n : 0 ≤ n → sizeof_NameInfo + n ≤ body_len task →
  runs busy (set_xattr_key n) (λ _ t, busy t).
Proof. intros ? ?. unfold set_xattr_key. vc. apply set_record_runs. Qed.
Lemma key_push_runs n upd op : 0 ≤ n → sizeof_NameInfo + n ≤ body_len task →
  runs busy (set_xattr_key n;; push_op upd op) (answered upd).
Proof. intros ? ?. eapply runs_bind; [by apply xattr_key_runs|]. intros []. apply push_op_runs. Qed.

Lemma remove_xattr_path_runs : runs idle service_deal_remove_xattr_by_path (answered true).
Proof.
  unfold service_deal_remove_xattr_by_path. vc. after_check.
  eapply runs_bind; [apply name_info_runs|]. intros [rc n]. apply runs_pure. intros [Hl Hmin].
  after_check. vc; [refused|]. or_parse xattr_update_runs. apply key_push_runs; numbers.
Qed.
Lemma remove_xattr_inode_runs : runs idle service_deal_remove_xattr_by_inode (answered true).
Proof.
  unfold service_deal_remove_xattr_by_inode. vc. after_check.
  eapply runs_bind; [apply name_info_runs|]. intros [rc n]. apply runs_pure. intros [Hl Hmin].
  after_check. vc; [refused|]. or_parse inode_update_runs. apply key_push_runs; numbers.
Qed.
Lemma get_xattr_path_runs : runs idle service_get_xattr_by_path (answered false).
Proof.
  unfold service_get_xattr_by_path. eapply runs_bind; [apply name_info_runs|]. intros [rc n].
  apply runs_pure. intros [Hl Hmin]. after_check. specialize (Hmin Hblen). or_parse check_dentry_runs. apply key_push_runs; numbers.
Qed.
Lemma get_xattr_inode_runs : runs idle service_get_xattr_by_inode (answered false).
Proof.
  unfold service_get_xattr_by_inode. eapply runs_bind; [apply name_info_runs|]. intros [rc n].
  apply runs_pure. intros [Hl Hmin]. after_check. specialize (Hmin Hblen). do 3 vc. 2: refused.
  apply or_alloc_runs. do 4 vc.
  eapply runs_bind; [apply xattr_key_runs; numbers|]. intros []. cbn beta. vc. apply push_op_runs.
Qed.

Lemma query_runs op f : runs idle f (got_record 0) →
  runs idle (or_status f (push_op false op)) (answered false).
Proof. intros Hf. eapply or_status_runs; [exact Hf|]. intros _. apply push_op_runs. Qed.
Lemma query_pname_runs : runs idle (server_parse_pname_for_query_ex 0) (got_record 0).
Proof.
  eapply runs_weaken; [by apply pname_query_runs|done|]. by intros rc t [? _].
Qed.

Lemma unpack_dsize_runs P off : (∀ t, P t → idle t) → inside off 28 →
  runs P (unpack_dentry_size_info off) (λ _ t, P t).
Proof.
  intros HP Hin. unfold unpack_dentry_size_info. repeat vc. by apply runs_ret.
Qed.
Lemma set_size_runs : runs idle service_deal_set_dentry_size (answered true).
Proof.
  unfold service_deal_set_dentry_size. vc. after_check. do 2 vc; [refused|]. vc. 2: refused.
  eapply runs_bind; [apply unpack_dsize_runs; [stays|numbers]|]. intros ds. cbn beta.
  apply or_alloc_runs. unfold init_record_by_dsize. repeat vc. apply push_op_runs.
Qed.
Lemma batch_items_runs count : ∀ off, 0 ≤ off →
  off + 28 * Z.of_nat count ≤ body_len task →
  runs busy (batch_items count off) (λ _ t, busy t).
Proof.
  induction count as [|count IH]; intros off Hoff Hle; [by apply runs_ret|]. cbn [batch_items].
  eapply runs_bind; [apply unpack_dsize_runs; [stays|numbers]|]. intros ds. cbn beta.
  eapply runs_bind; [apply get_st_runs|]. intros t. cbn beta.
  destruct (sv_pool t) as [|r rest]; [by apply runs_ret|].
  eapply (runs_bind _ _ _ _ (λ _ t, busy t)).
  - intros t' [Hi Hr]. by exists tt, (with_sv_pool rest t').
  - intros []. cbn beta. eapply runs_bind; [apply IH; numbers|]. intros items. by apply runs_ret.
Qed.
Lemma batch_runs : runs idle service_deal_batch_set_dentry_size (answered true).
Proof.
  unfold service_deal_batch_set_dentry_size. vc. after_check. do 2 vc; [refused|]. vc. vc; [refused|].
  vc; [refused|]. vc. 2: refused. apply or_alloc_runs.
  eapply runs_bind; [apply batch_items_runs; numbers|]. intros [items|]; [|refused].
  do 5 vc. apply push_op_runs.
Qed.
Lemma modify_runs : runs idle service_deal_modify_dentry_stat (answered true).
Proof.
  unfold service_deal_modify_dentry_stat. vc. after_check. do 2 vc; [refused|]. vc. 2: refused.
  do 3 vc; [refused|]. vc. apply or_alloc_runs. vc.
  eapply runs_bind; [apply clear_options_runs|]. intros []. cbn beta. do 3 vc. apply push_op_runs.
Qed.

Lemma flock_runs unlock : runs idle unlock (answered false) →
  runs idle (service_deal_flock_dentry unlock) (answered false).
Proof.
  intros Hun. unfold service_deal_flock_dentry. do 2 vc. after_check. repeat vc; try done; try refused;
    (apply or_alloc_runs; repeat vc; apply push_op_runs).
Qed.
Lemma sys_lock_runs : runs idle service_deal_sys_lock_dentry (answered false).
Proof.
  unfold service_deal_sys_lock_dentry. do 2 vc. after_check.
  eapply runs_bind; [apply get_st_runs|]. intros t. cbn beta.
  destruct (sys_lock_task (sv_task t)); [refused|]. apply or_alloc_runs.
  repeat vc. apply push_op_runs.
Qed.
End safe.

(** [C19] A request of any bytes is read safely, by the handlers of the 24 kinds of
    [ClientReq] (not by those of [getlk], the release of the system lock, the next part
    of a listing, the statistics of a namespace and the client's join). On whatever body
    it gets and with any records in the pool, a handler reads inside the body, and at
    most [NAME_MAX] bytes behind it ([server_parse_dentry_info] looks at the first byte
    of a path before the lengths are compared with the body's): no byte behind that need
    exist. Error texts are not modelled; the one of [server_parse_dentry_info] for a path
    without a slash prints as many bytes as the length says. It writes to a record only when it has one. It answers with a status and
    pushes nothing, or it pushes one record, to the updates or the queries as its
    command says, to be continued by the data thread. The condition [has_room] is on
    the size of the task's buffer only, where [service_set_record_pname_info] copies two
    names behind the body; it says nothing of bytes that could be read. *)
Theorem request_safe `{!ByteOrder} `{!ServerFrame} `{!ServerConfig} unlock req t :
  body_at (sv_task t) + body_len (sv_task t) + NAME_MAX ≤ zlen (sv_data t) →
  0 ≤ body_len (sv_task t) → has_room t →
  (∀ s, sv_pushed s = None → ∃ rc s', unlock s = Some (Status rc, s') ∧ sv_pushed s' = None) →
  sv_pushed t = None →
  ∃ reply t', server_handler unlock req t = Some (reply, t') ∧
    match reply with
    | Status _ => sv_pushed t' = None
    | Continue => ∃ r, sv_pushed t' = Some (is_update req, r) ∧ q_notify (sr_q r) = true
    end.
Proof.
  intros Hsize Hlen [Hat Hroom] Hun Hp.
  assert (runs (idle (sv_data t) (sv_task t) None) (server_handler unlock req)
    (answered None (is_update req))) as Hr.
  2: { by apply Hr. }
  destruct req; cbn [server_handler is_update].
  - by apply create_runs.
  - by apply create_by_pname_runs.
  - by apply symlink_runs.
  - by apply symlink_by_pname_runs.
  - by apply hdlink_runs.
  - by apply hdlink_by_pname_runs.
  - by apply remove_runs.
  - by apply remove_by_pname_runs.
  - by apply rename_runs.
  - by apply rename_by_pname_runs.
  - by apply query_runs, check_dentry_runs.
  - by apply query_runs, query_pname_runs.
  - by apply query_runs, inode_query_runs.
  - by apply set_size_runs.
  - by apply batch_runs.
  - by apply modify_runs.
  - by apply set_xattr_path_runs.
  - by apply set_xattr_inode_runs.
  - by apply remove_xattr_path_runs.
  - by apply remove_xattr_inode_runs.
  - by apply get_xattr_path_runs.
  - by apply get_xattr_inode_runs.
  - apply flock_runs; try done. intros s (_ & _ & Hs). destruct (Hun s Hs) as (rc & s' & Hrun & Hs').
    by exists (Status rc), s'.
  - by apply sys_lock_runs.
Qed.
