(* ===== verification/WireDemo.v ===== *)
(** * Requests on concrete bytes

    Numbers in network order, the checks of a body's length, a buffer with a
    request in it: the theorems of the wire protocol applied to them. *)

From Stdlib Require Import Ascii.
From S2P Require Import Prelude NsSubscribe Flock ServerTypes InodeIndex Dentry.
From S2P Require Import Thread DataThread CText Proto Service ServiceSpec.
From S2P Require Import Requests RequestsSpec ServiceSafe.

(** ** Network order *)

(** The lower [k] bytes of [n], the highest first, and back. *)
Fixpoint net_order (k : nat) (n : Z) : text :=
  match k with
  | O => []
  | S k => net_order k (n / 256) ++ [chr n]
  end.
Definition from_net (t : text) : Z := foldl (λ acc c, acc * 256 + code c) 0 t.

Lemma code_chr_mod n : code (chr n) = n `mod` 256.
Proof.
  unfold code, chr. pose proof (Z.mod_pos_bound n 256 eq_refl). rewrite N_ascii_embedding by lia. lia.
Qed.

Lemma from_net_order k n : from_net (net_order k n) = n `mod` 256 ^ Z.of_nat k.
Proof.
  revert n. induction k as [|k IH]; intros n; [by rewrite Z.mod_1_r|].
  cbn [net_order]. unfold from_net. rewrite foldl_app. fold (from_net (net_order k (n / 256))).
  rewrite IH. cbn [foldl]. rewrite code_chr_mod, Nat2Z.inj_succ, Z.pow_succ_r by lia.
  rewrite Z.rem_mul_r by lia. lia.
Qed.

Lemma net_order_len k n : length (net_order k n) = k.
Proof.
  revert n. induction k as [|k IH]; intros n; [done|]. cbn [net_order].
  rewrite length_app, IH. simpl. lia.
Qed.

Lemma wrap_net k bits n : 256 ^ Z.of_nat k = 2 ^ bits → 0 < bits →
  - 2 ^ (bits - 1) ≤ n < 2 ^ (bits - 1) →
  wrap_signed bits (from_net (net_order k n)) = n.
Proof.
  intros E Hb Hn. rewrite from_net_order, E. unfold wrap_signed.
  assert (2 ^ bits = 2 * 2 ^ (bits - 1)) as Ep.
  { rewrite <- Z.pow_succ_r by lia. f_equal. lia. }
  rewrite Z.add_mod_idemp_l by (rewrite Ep; lia).
  rewrite Z.mod_small by (rewrite Ep; lia). lia.
Qed.

#[export] Instance network_order : ByteOrder := {|
  short2buff := net_order 2;
  int2buff := net_order 4;
  long2buff := net_order 8;
  buff2short t := wrap_signed 16 (from_net t);
  buff2int t := wrap_signed 32 (from_net t);
  buff2long t := wrap_signed 64 (from_net t);
  uninit n := replicate n zero;
  short2buff_len := net_order_len 2;
  int2buff_len := net_order_len 4;
  long2buff_len := net_order_len 8;
  uninit_len n := length_replicate n zero;
  buff2short_law n := wrap_net 2 16 n eq_refl eq_refl;
  buff2int_law n := wrap_net 4 32 n eq_refl eq_refl;
  buff2long_law n := wrap_net 8 64 n eq_refl eq_refl
|}.

(** ** The checks of a length *)

Lemma check_length_law (b : bool) (P : Prop) : (b = true ↔ P) → (if b then 0 else EINVAL) = 0 ↔ P.
Proof. intros <-. by destruct b. Qed.

#[export, refine] Instance length_checks : ServerFrame := {|
  server_expect_body_length len expected := if len =? expected then 0 else EINVAL;
  server_check_min_body_length len min := if min <=? len then 0 else EINVAL;
  server_check_body_length len min max := if (min <=? len) && (len <=? max) then 0 else EINVAL
|}.
Proof.
  - intros len expected. apply check_length_law. apply Z.eqb_eq.
  - intros len min. apply check_length_law. apply Z.leb_le.
  - intros len min max. apply check_length_law. by rewrite andb_true_iff, !Z.leb_le.
Defined.

(** ** Requests *)

Section demo.
Import ListSkiplist.
Existing Instance small_config.

(** A buffer with 10 bytes of header, the body and room behind it. *)
Definition task_with (body : text) (pool : list SvcRecord) : ServiceTask :=
  mkServiceTask (replicate 10 zero ++ body ++ replicate 5000 zero)
    (mkFastTask (zlen body + 5010) 10 (zlen body) false None) 1700000000 None pool None.

(** A record that the last request, a query by inode, left. *)
Definition used_record : SvcRecord := mkSvcRecord
  (mkBinlogRecord 7 "old" 0 0 no_options (mkRecordDEntry "" None None) (mkRecordDEntry "" None None)
     None None [] zero_stat "" (EmptyString, EmptyString))
  (mkQueuedRecord SERVICE_OP_STAT_DENTRY_INT 0 dentry_type_inode (mkFullName "" "")
     (mkFullName "" "") 3 0 (mkFullName "" "") 0 false 0 [] (mkBatchCounts 0 0 0) false
     (mkFlockParams 0 (mkFlockOwner 0 0) 0 0) None None false) 3.

Lemma got_body body pool : got (task_with body pool) body.
Proof.
  pose proof (zlen_nonneg body). split; [|done| |done].
  - split; [done|]. unfold task_with. cbn [sv_data sv_task body_at]. by apply bytes_at_app.
  - split; [done|]. cbn. unfold sizeof_StatDEntryResp, NAME_MAX, PATH_MAX. lia.
Qed.

Definition wire_body (req : ClientReq) : text :=
  match client_body req with inr b => b | inl _ => [] end.
(** What the server makes of a request. *)
Definition served (req : ClientReq) (pool : list SvcRecord) : option (Reply * ServiceTask) :=
  server_handler stuck req (task_with (wire_body req) pool).

Definition new_file : ClientReq :=
  CreateByPname "fs" (mkPName 70000 "notes.txt") (mkOwnerModePair 33188 1000 4294967295).
Definition move_out : ClientReq :=
  RenameDentry (mkFullName "fs" "/a") (mkFullName "other" "/a") 0.

(** A new file by its parent's inode is asked for; a rename into another
    namespace is refused. *)
Lemma request_roundtrip_witness :
  pushes true (asks_for (task_with (wire_body new_file) [used_record]) new_file)
    (served new_file [used_record]) ∧
  refuses (served move_out [used_record]).
Proof.
  split.
  - apply (request_roundtrip stuck new_file _ (wire_body new_file)).
    + vm_compute. reflexivity.
    + apply got_body.
    + split; [done|]. by split.
    + done.
    + simpl. lia.
  - apply (request_roundtrip stuck move_out _ (wire_body move_out)).
    + vm_compute. reflexivity.
    + apply got_body.
    + done.
    + done.
    + simpl. lia.
Defined.

(** Three bytes that claim a namespace of 255 and a path of 65535 bytes, for a
    rename of two names. *)
Definition garbage : text := replicate 3 (chr 255).

Lemma request_safe_witness :
  ∃ reply t', server_handler (mret (Status 0)) move_out (task_with garbage [used_record]) =
      Some (reply, t') ∧
    match reply with
    | Status _ => sv_pushed t' = None
    | Continue => ∃ r, sv_pushed t' = Some (true, r) ∧ q_notify (sr_q r) = true
    end.
Proof.
  apply (request_safe (mret (Status 0)) move_out (task_with garbage [used_record])).
  - vm_compute. discriminate.
  - vm_compute. discriminate.
  - apply got_body.
  - intros s Hs. by exists 0, s.
  - reflexivity.
Defined.
End demo.
