(* ===== verification/Response.v ===== *)
(** * Responses: the outputs of [server/service_handler.c] and their readers

    When a data thread is done with a record, [record_deal_done_notify] writes
    the body of the response into the task's buffer; the functions of
    [client/client_proto.c] read it. A listing that does not fit is sent in
    parts: the server keeps the array and how much of it was sent, the client
    asks for the next part with the token it got. *)

From Stdlib Require Import Ascii.
From S2P Require Import Prelude NsSubscribe Flock ServerTypes InodeIndex Dentry.
From S2P Require Import Thread DataThread CText Proto Service.

Definition ETIMEDOUT : Z := 110.
Definition ENOLINK : Z := 67.

Definition sizeof_ListDEntryNextBody : Z := 16.
Definition sizeof_ListDEntryRespBodyHeader : Z := 16.
Definition sizeof_ListDEntryRespBodyPart : Z := 65.
Definition sizeof_LookupInodeResp : Z := 8.
Definition sizeof_SysLockDEntryResp : Z := 16.

(** What the client gets of a dentry ([FDIRDEntryInfo]), and of one in a listing
    ([FDIRClientDentry]). *)
Record DEntryInfo := mkDEntryInfo { di_inode : Z; di_stat : DEntryStat }.
Record ClientDentry := mkClientDentry { cd_dentry : DEntryInfo; cd_name : string }.

(** [TASK_CTX.service.dentry_list_cache] *)
Record ListCache := mkListCache {
  lc_array : list ptr;
  lc_offset : Z;
  lc_expires : Z;
  lc_token : Z
}.

Section server.
Context `{UniqSkiplist} `{!ByteOrder} `{!ServerFrame}.

(** ** Single dentries *)

Definition dstat_output (inode : Z) (stat : DEntryStat) : text :=
  long2buff inode ++ fdir_proto_pack_dentry_stat_ex stat true.

(** [FDIR_GET_REAL_DENTRY] with a look at the object. *)
Definition load_real (p : ptr) : M Server ServerDentry :=
  q ← real_dentry p;
  q ← non_null q;
  load_dentry q.

Definition dentry_stat_output (p : ptr) : M Server text :=
  d ← load_real p;
  mret (dstat_output (d_inode d) (d_stat d)).

(** The error number and the body. *)
Definition readlink_output (p : ptr) : M Server (Z * text) :=
  d ← load_dentry p;
  if negb (S_ISLNK (st_mode (d_stat d))) then mret (ENOLINK, [])
  else
    match d_link d with
    | DLinkTo target => mret (0, lit target)
    | _ => stuck
    end.

Definition lookup_inode_output (p : ptr) : M Server text :=
  d ← load_dentry p;
  mret (long2buff (d_inode d)).

(** The names of the attributes, each with a zero behind it, as far as they fit
    in [room] bytes. *)
Fixpoint listxattr_loop (room : Z) (elts : list (string * string)) : text :=
  match elts with
  | [] => []
  | (key, _) :: rest =>
    if room <=? slen key then []
    else lit key ++ zero :: listxattr_loop (room - slen key - 1) rest
  end.
Definition service_do_listxattr (room : Z) (p : ptr) : M Server text :=
  d ← load_dentry p;
  mret (match d_kv_array d with
        | Some kv => listxattr_loop room (kv_elts kv)
        | None => []
        end).

Definition sys_lock_dentry_output (p : ptr) : M Server text :=
  d ← load_dentry p;
  mret (long2buff (st_size (d_stat d)) ++ long2buff (st_space_end (d_stat d))).

(** ** Listings *)

(** The session of a client: the server, the cache, the token that was used
    last, the size of the task's buffer and where the body of a response is in
    it. *)
Record Session := mkSession {
  se_server : Server;
  se_cache : ListCache;
  se_next_token : Z;
  se_size : Z;
  se_resp_at : Z
}.
Definition with_se_cache (c : ListCache) (s : Session) : Session :=
  mkSession (se_server s) c (se_next_token s) (se_size s) (se_resp_at s).
Definition with_se_next_token (n : Z) (s : Session) : Session :=
  mkSession (se_server s) (se_cache s) n (se_size s) (se_resp_at s).
Definition at_session {A} (m : M Server A) : M Session A := λ s,
  match m (se_server s) with
  | Some (a, srv) =>
    Some (a, mkSession srv (se_cache s) (se_next_token s) (se_size s) (se_resp_at s))
  | None => None
  end.

Definition list_part (src : ServerDentry) (name : string) : text :=
  long2buff (d_inode src) ++ fdir_proto_pack_dentry_stat_ex (d_stat src) true ++
  chr (slen name) :: lit name.

(** The loop of [server_list_dentry_output]: the parts that fit in [room] bytes
    and how many they are. *)
Fixpoint list_parts (room : Z) (entries : list ptr) : M Server (text * Z) :=
  match entries with
  | [] => mret ([], 0)
  | p :: rest =>
    src ← load_real p;
    d ← load_dentry p;
    let len := sizeof_ListDEntryRespBodyPart + slen (d_name d) in
    if room <? len then mret ([], 0)
    else
      '(parts, count) ← list_parts (room - len) rest;
      mret (list_part src (d_name d) ++ parts, count + 1)
  end.

Definition server_list_dentry_output : M Session text :=
  s ← get_st;
  let c := se_cache s in
  let remain_count := zlen (lc_array c) - lc_offset c in
  '(parts, count) ← at_session (list_parts
    (se_size s - (se_resp_at s + sizeof_ListDEntryRespBodyHeader))
    (drop (Z.to_nat (lc_offset c)) (lc_array c)));
  if count <? remain_count then
    let token := int64 (se_next_token s + 1) in
    modify (with_se_next_token token);;
    modify (with_se_cache (mkListCache (lc_array c) (lc_offset c + count)
              (current_time (se_server s) + 60) token));;
    mret (long2buff token ++ int2buff count ++ chr 0 :: uninit 3 ++ parts)
  else
    mret (long2buff 0 ++ int2buff count ++ chr 1 :: uninit 3 ++ parts).

(** [SERVICE_OP_LIST_DENTRY_INT] of [record_deal_done_notify]. *)
Definition list_done : M Session text :=
  s ← get_st;
  let c := se_cache s in
  modify (with_se_cache (mkListCache (lc_array c) 0 (lc_expires c) (lc_token c)));;
  server_list_dentry_output.

(** A request for the next part, of the body [req]. *)
Definition service_deal_list_dentry_next (req : text) : M Session (Z + text) :=
  let rc := server_expect_body_length (zlen req) sizeof_ListDEntryNextBody in
  s ← get_st;
  let c := se_cache s in
  if negb (rc =? 0) then mret (inl rc)
  else if lc_expires c <? current_time (se_server s) then mret (inl ETIMEDOUT)
  else if negb (buff2long (take 8 req) =? lc_token c) then mret (inl EINVAL)
  else if negb (buff2int (take 4 (drop 8 req)) =? lc_offset c) then mret (inl EINVAL)
  else body ← server_list_dentry_output; mret (inr body).

(** ** The client *)

Definition proto_unpack_dentry (proto_stat : text) : DEntryInfo :=
  mkDEntryInfo (buff2long (take 8 proto_stat))
    (fdir_proto_unpack_dentry_stat (take (Z.to_nat sizeof_DEntryStat) (drop 8 proto_stat))).

(** [do_readlink] with a buffer of [size] bytes. *)
Definition do_readlink (body : text) (size : Z) : Z + string :=
  if size <=? zlen body then inl EOVERFLOW else inr (str body).

(** The parts at [pos] of the buffer, of which [body_len] bytes are the body;
    [None] is a read outside the buffer. *)
Fixpoint parse_parts (count : nat) (body_len : Z) (buff : text) (pos : Z) :
    option (Z + list ClientDentry * Z) :=
  match count with
  | O => Some (inr ([], pos))
  | S count =>
    len ← bytes_at buff (pos + 64) 1;
    let name_len := code (hd zero len) in
    let entry_len := sizeof_ListDEntryRespBodyPart + name_len in
    if body_len <? pos + entry_len then Some (inl EINVAL)
    else
      part ← bytes_at buff pos entry_len;
      let cd := mkClientDentry (proto_unpack_dentry part) (str (drop 65 part)) in
      rest ← parse_parts count body_len buff (pos + entry_len);
      Some (match rest with
            | inl rc => inl rc
            | inr (cds, pos') => inr (cd :: cds, pos')
            end)
  end.

(** The new entries of the array and the next token ([None]: the listing is
    complete). Allocations succeed. *)
Definition parse_list_dentry_response_body (buff : text) (body_len : Z) :
    option (Z + list ClientDentry * option text) :=
  if body_len <? sizeof_ListDEntryRespBodyHeader then Some (inl EINVAL)
  else
    header ← bytes_at buff 0 sizeof_ListDEntryRespBodyHeader;
    let count := buff2int (take 4 (drop 8 header)) in
    let is_last := negb (code (hd zero (drop 12 header)) =? 0) in
    parts ← parse_parts (Z.to_nat count) body_len buff sizeof_ListDEntryRespBodyHeader;
    Some (match parts with
          | inl rc => inl rc
          | inr (cds, pos) =>
            if negb (pos =? body_len) then inl EINVAL
            else inr (cds, if is_last then None else Some (take 8 header))
          end).

(** The body [do_list_dentry_next] sends when it has [count] entries. *)
Definition list_next_body (next_token : text) (count : Z) : text :=
  next_token ++ int2buff count ++ replicate 4 zero.

(** The loop of [deal_list_dentry_response] against the server: [array] is what
    it has so far. *)
Fixpoint list_loop (fuel : nat) (array : list ClientDentry) (next_token : option text) :
    M Session (Z + list ClientDentry) :=
  match next_token with
  | None => mret (inr array)
  | Some token =>
    match fuel with
    | O => stuck
    | S fuel =>
      r ← service_deal_list_dentry_next (list_next_body token (zlen array));
      match r with
      | inl rc => mret (inl rc)
      | inr body =>
        match parse_list_dentry_response_body body (zlen body) with
        | None => stuck
        | Some (inl rc) => mret (inl rc)
        | Some (inr (cds, token)) => list_loop fuel (array ++ cds) token
        end
      end
    end
  end.

(** [list_dentry] after the server has listed into the cache. *)
Definition list_dentry (fuel : nat) : M Session (Z + list ClientDentry) :=
  body ← list_done;
  match parse_list_dentry_response_body body (zlen body) with
  | None => stuck
  | Some (inl rc) => mret (inl rc)
  | Some (inr (cds, token)) => list_loop fuel cds token
  end.
End server.
