(* ===== verification/ResponseSpec.v ===== *)
(** * The client gets what the server has

    The status of a dentry arrives as it is stored, without the flag of a hard
    link; a listing arrives whole and in order, however many parts it takes. *)

From Stdlib Require Import Ascii.
From S2P Require Import Prelude NsSubscribe Flock ServerTypes InodeIndex Dentry.
From S2P Require Import Thread DataThread CText Proto Service ServiceSpec.
From S2P Require Import Requests RequestsSpec Response.

Section spec.
Context `{UniqSkiplist} `{!ByteOrder} `{!ServerFrame}.

(** ** One entry *)

(** An entry that fits the fields of the wire. *)
Record wire_ok (e : ClientDentry) : Prop := {
  wo_inode : is_int64 (di_inode (cd_dentry e));
  wo_stat : typed_stat (di_stat (cd_dentry e));
  wo_name : slen (cd_name e) ≤ NAME_MAX
}.

(** What a client is to see of the dentry [p], and that it does. *)
Definition listed (srv : Server) (p : ptr) (e : ClientDentry) : Prop :=
  ∃ src d, load_real p srv = Some (src, srv) ∧ dentries srv !! p = Some d ∧
    e = mkClientDentry (mkDEntryInfo (d_inode src) (sent_stat (d_stat src) true)) (d_name d) ∧
    wire_ok e.

Definition part_of (e : ClientDentry) : text :=
  long2buff (di_inode (cd_dentry e)) ++
  fdir_proto_pack_dentry_stat_ex (di_stat (cd_dentry e)) false ++
  chr (slen (cd_name e)) :: lit (cd_name e).

Lemma part_len e : zlen (part_of e) = 65 + slen (cd_name e).
Proof. unfold part_of. rewrite !zlen_app, zlen_long, pack_stat_len, zlen_cons, zlen_lit. lia. Qed.

Lemma pack_sent st : fdir_proto_pack_dentry_stat_ex (sent_stat st true) false =
  fdir_proto_pack_dentry_stat_ex st true.
Proof. done. Qed.

Lemma unpack_dentry_run i st b rest : is_int64 i → typed_stat (sent_stat st b) →
  proto_unpack_dentry (long2buff i ++ fdir_proto_pack_dentry_stat_ex st b ++ rest) =
    mkDEntryInfo i (sent_stat st b).
Proof.
  intros Hi Hst. unfold proto_unpack_dentry.
  rewrite take_app_length' by (by rewrite long2buff_len). rewrite drop_app_length' by (by rewrite long2buff_len).
  pose proof (pack_stat_len st b) as E. unfold zlen in E.
  rewrite take_app_length' by (unfold sizeof_DEntryStat; lia).
  by rewrite buff2long_law, unpack_pack.
Qed.
Lemma unpack_part e : wire_ok e →
  proto_unpack_dentry (part_of e) = cd_dentry e ∧ drop 65 (part_of e) = lit (cd_name e).
Proof.
  intros [Hi Hs Hn]. unfold part_of. split.
  - rewrite unpack_dentry_run by done. by destruct e as [[? ?] ?].
  - pose proof (pack_stat_len (di_stat (cd_dentry e)) false) as E. unfold zlen in E.
    rewrite (app_assoc (long2buff _)), (cons_middle (chr _)), app_assoc.
    apply drop_app_length'. rewrite !length_app, long2buff_len. simpl. lia.
Qed.

(** ** Many entries *)

Definition parts_of (es : list ClientDentry) : text := concat (part_of <$> es).

(** The longest part. *)
Definition part_room : Z := sizeof_ListDEntryRespBodyPart + NAME_MAX.

Lemma list_parts_run srv ps es : Forall2 (listed srv) ps es → ∀ room,
  ∃ k, list_parts room ps srv = Some ((parts_of (take k es), Z.of_nat k), srv) ∧
    (k ≤ length es)%nat ∧ (part_room ≤ room → es ≠ [] → (0 < k)%nat).
Proof.
  induction 1 as [|p e ps es (src & d & Hsrc & Hd & -> & Hw) Hall IH]; intros room.
  { exists 0%nat. by repeat split. }
  cbn [list_parts]. unfold load_dentry at 1.
  destruct (Z.ltb_spec room (sizeof_ListDEntryRespBodyPart + slen (d_name d))) as [Hlt|Hge].
  - exists 0%nat. split; [|split; [simpl; lia|]].
    + run_with Hsrc. erewrite bind_run by (by rewrite Hd). cbn zeta.
      by rewrite (proj2 (Z.ltb_lt _ _) Hlt).
    + destruct Hw as [_ _ Hn]. cbn in Hn. unfold part_room. lia.
  - destruct (IH (room - (sizeof_ListDEntryRespBodyPart + slen (d_name d)))) as (k & Hrun & Hk & _).
    exists (S k). split; [|split; [simpl; lia|lia]].
    run_with Hsrc. erewrite bind_run by (by rewrite Hd). cbn zeta.
    rewrite (proj2 (Z.ltb_ge _ _) Hge). run_with Hrun. cbn beta iota.
    unfold mret, M_ret. do 3 f_equal. lia.
Qed.

Lemma parse_parts_run body_len post es : ∀ pre,
  Forall wire_ok es → zlen pre + zlen (parts_of es) ≤ body_len →
  parse_parts (length es) body_len (pre ++ parts_of es ++ post) (zlen pre) =
    Some (inr (es, zlen pre + zlen (parts_of es))).
Proof.
  induction es as [|e es IH]; intros pre Hok Hlen.
  { cbn. by rewrite Z.add_0_r. }
  apply Forall_cons in Hok as [He Hok]. cbn [parse_parts length]. unfold parts_of in *.
  rewrite fmap_cons in *. cbn [concat] in *. fold (parts_of es) in *. rewrite zlen_app, part_len in *.
  pose proof (zlen_nonneg (parts_of es)). pose proof (slen_nonneg (cd_name e)).
  pose proof (wo_name _ He). unfold NAME_MAX in *.
  assert (bytes_at (pre ++ (part_of e ++ parts_of es) ++ post) (zlen pre + 64) 1 =
    Some [chr (slen (cd_name e))]) as ->.
  { unfold part_of. rewrite <- !app_assoc. rewrite (app_assoc (long2buff _)), (app_assoc pre).
    cbn [app]. rewrite (app_comm_cons _ _ _). apply (bytes_at_app _ [_]); [|done].
    rewrite !zlen_app, zlen_long, pack_stat_len. lia. }
  cbn [mbind option_bind hd]. rewrite code_chr by lia. unfold sizeof_ListDEntryRespBodyPart.
  destruct (Z.ltb_spec body_len (zlen pre + (65 + slen (cd_name e)))); [lia|].
  assert (bytes_at (pre ++ (part_of e ++ parts_of es) ++ post) (zlen pre) (65 + slen (cd_name e)) =
    Some (part_of e)) as ->.
  { rewrite <- app_assoc. apply bytes_at_app; [done|]. by rewrite part_len. }
  cbn [mbind option_bind]. destruct (unpack_part e He) as [-> ->]. rewrite str_lit.
  specialize (IH (pre ++ part_of e) Hok). rewrite zlen_app, part_len in IH.
  rewrite <- !app_assoc in *. rewrite IH by lia. cbn [mbind option_bind].
  rewrite <- Z.add_assoc. by destruct e.
Qed.

(** ** One response *)

(** The session's cache is the array [ps], which the client is to see as [es]. *)
Record session_ok (s : Session) (ps : list ptr) (es : list ClientDentry) : Prop := {
  so_array : lc_array (se_cache s) = ps;
  so_listed : Forall2 (listed (se_server s)) ps es;
  so_room : sizeof_ListDEntryRespBodyHeader + part_room ≤ se_size s - se_resp_at s;
  so_count : zlen es < 2 ^ 31
}.

Definition list_body (token count last : Z) (es : list ClientDentry) : text :=
  long2buff token ++ int2buff count ++ chr last :: uninit 3 ++ parts_of es.

Lemma listed_ok srv ps es : Forall2 (listed srv) ps es → Forall wire_ok es.
Proof. induction 1 as [|p e ps es (src & d & _ & _ & _ & Hw)]; by constructor. Qed.

Lemma list_body_len token count last es : zlen (list_body token count last es) = 16 + zlen (parts_of es).
Proof. unfold list_body. lens. Qed.
Lemma list_body_header token count last es : ∃ pad, length pad = 3%nat ∧
  bytes_at (list_body token count last es) 0 16 =
    Some (long2buff token ++ int2buff count ++ chr last :: pad).
Proof.
  exists (uninit 3). split; [apply uninit_len|]. unfold list_body.
  replace (long2buff token ++ int2buff count ++ chr last :: uninit 3 ++ parts_of es) with
    ((long2buff token ++ int2buff count ++ chr last :: uninit 3) ++ parts_of es).
  - apply bytes_at_head. lens.
  - by rewrite <- !app_assoc.
Qed.

Lemma parse_list_run token last es : Forall wire_ok es → zlen es < 2 ^ 31 → 0 ≤ last < 256 →
  let body := list_body token (zlen es) last es in
  parse_list_dentry_response_body body (zlen body) =
    Some (inr (es, if last =? 0 then Some (long2buff token) else None)).
Proof.
  intros Hok Hlen Hlast body. subst body. unfold parse_list_dentry_response_body.
  rewrite list_body_len. pose proof (zlen_nonneg (parts_of es)). pose proof (zlen_nonneg es).
  unfold sizeof_ListDEntryRespBodyHeader. destruct (Z.ltb_spec (16 + zlen (parts_of es)) 16); [lia|].
  destruct (list_body_header token (zlen es) last es) as (pad & Hpad & ->).
  cbn [mbind option_bind].
  replace (drop 12 (long2buff token ++ int2buff (zlen es) ++ chr last :: pad)) with (chr last :: pad).
  2: { rewrite app_assoc, drop_app_length'; [done|]. rewrite length_app, long2buff_len, int2buff_len. done. }
  rewrite drop_app_length' by (by rewrite long2buff_len).
  rewrite (take_app_length' (int2buff _)) by (by rewrite int2buff_len).
  rewrite buff2int_law by (unfold is_int32; lia).
  rewrite take_app_length' by (by rewrite long2buff_len). cbn [hd]. rewrite code_chr by done.
  replace (Z.to_nat (zlen es)) with (length es) by (unfold zlen; lia).
  pose proof (parse_parts_run (16 + zlen (parts_of es)) [] es
    (long2buff token ++ int2buff (zlen es) ++ chr last :: uninit 3) Hok) as Hp.
  replace (zlen (long2buff token ++ int2buff (zlen es) ++ chr last :: uninit 3)) with 16 in Hp by lens.
  rewrite app_nil_r, <- !app_assoc in Hp. cbn [app] in Hp. unfold list_body. rewrite Hp by lia.
  cbn [mbind option_bind]. rewrite Z.eqb_refl. cbn [negb]. by destruct (last =? 0).
Qed.

Definition at_offset (o token : Z) (s : Session) : Prop :=
  lc_offset (se_cache s) = o ∧ lc_token (se_cache s) = token ∧ is_int64 token ∧
  current_time (se_server s) ≤ lc_expires (se_cache s).

(** What an output gives from the offset [o]: the rest, or some of it. *)
Lemma list_output_run s ps es o : session_ok s ps es → lc_offset (se_cache s) = Z.of_nat o →
  (o ≤ length es)%nat →
  ∃ body s' k, server_list_dentry_output s = Some (body, s') ∧ session_ok s' ps es ∧
    se_server s' = se_server s ∧
    ((k = length (drop o es) ∧
      parse_list_dentry_response_body body (zlen body) = Some (inr (drop o es, None))) ∨
     ∃ token, (0 < k < length (drop o es))%nat ∧
      parse_list_dentry_response_body body (zlen body) =
        Some (inr (take k (drop o es), Some (long2buff token))) ∧
      at_offset (Z.of_nat (o + k)) token s').
Proof.
  intros [Ha Hl Hr Hc] Ho Hle. unfold server_list_dentry_output. sv.
  assert (length ps = length es) as El by (by eapply Forall2_length).
  assert (Forall2 (listed (se_server s)) (drop o ps) (drop o es)) as Hd by (by apply Forall2_drop).
  destruct (list_parts_run _ _ _ Hd (se_size s - (se_resp_at s + sizeof_ListDEntryRespBodyHeader)))
    as (k & Hrun & Hk & Hpos).
  assert (at_session (list_parts (se_size s - (se_resp_at s + sizeof_ListDEntryRespBodyHeader))
      (drop (Z.to_nat (lc_offset (se_cache s))) (lc_array (se_cache s)))) s =
    Some ((parts_of (take k (drop o es)), Z.of_nat k), s)) as Hat.
  { unfold at_session. rewrite Ha, Ho, Nat2Z.id, Hrun. by destruct s. }
  run_with Hat. cbn beta iota. rewrite Ha, Ho.
  assert (zlen ps - Z.of_nat o = Z.of_nat (length (drop o es))) as ->.
  { unfold zlen. rewrite length_drop. lia. }
  assert (zlen (drop o es) < 2 ^ 31) as Hc' by (unfold zlen in *; rewrite length_drop; lia).
  pose proof (listed_ok _ _ _ Hd) as Hok.
  destruct (Z.ltb_spec (Z.of_nat k) (Z.of_nat (length (drop o es)))).
  - do 2 sv. do 2 eexists. exists k. split; [reflexivity|]. split; [by split|]. split; [done|]. right.
    exists (int64 (se_next_token s + 1)). split; [|split].
    + split; [|lia]. apply Hpos; [unfold part_room in *; lia|]. destruct (drop o es); [simpl in *; lia|done].
    + assert (zlen (take k (drop o es)) = Z.of_nat k) as Ek by (unfold zlen; rewrite length_take; lia).
      pose proof (parse_list_run (int64 (se_next_token s + 1)) 0 (take k (drop o es))
        (Forall_take _ _ _ Hok) ltac:(unfold zlen in *; lia) ltac:(lia)) as Hp.
      cbn zeta in Hp. rewrite Ek in Hp. exact Hp.
    + unfold at_offset. cbn [se_cache se_server lc_offset lc_token lc_expires with_se_cache with_se_next_token].
      split; [lia|]. split; [done|]. split; [apply int64_range|lia].
  - assert (k = length (drop o es)) as -> by lia. rewrite take_ge by lia.
    do 2 eexists. exists (length (drop o es)). split; [reflexivity|]. split; [by split|]. split; [done|]. left. split; [done|].
    exact (parse_list_run 0 1 (drop o es) Hok Hc' ltac:(lia)).
Qed.

(** ** All responses *)

Lemma next_run s ps es o token : session_ok s ps es → at_offset (Z.of_nat o) token s →
  Z.of_nat o < 2 ^ 31 →
  ∀ body s', server_list_dentry_output s = Some (body, s') →
  service_deal_list_dentry_next (list_next_body (long2buff token) (Z.of_nat o)) s = Some (inr body, s').
Proof.
  intros Hs (Ho & Ht & Hi & He) Hlt body s' Hrun. unfold service_deal_list_dentry_next, list_next_body. sv.
  rewrite expect_length_ok by (unfold sizeof_ListDEntryNextBody; rewrite !zlen_app, zlen_long, zlen_int; done).
  cbn [Z.eqb negb]. destruct (Z.ltb_spec (lc_expires (se_cache s)) (current_time (se_server s))); [lia|].
  rewrite take_app_length' by (by rewrite long2buff_len).
  rewrite drop_app_length' by (by rewrite long2buff_len).
  rewrite take_app_length' by (by rewrite int2buff_len).
  rewrite buff2long_law by done. rewrite buff2int_law by (unfold is_int32; lia).
  rewrite Ht, Ho, !Z.eqb_refl. cbn [negb]. by run_with Hrun.
Qed.

Lemma list_loop_run ps es fuel : ∀ s o token, session_ok s ps es →
  at_offset (Z.of_nat o) token s → (o < length es)%nat → (length es - o ≤ fuel)%nat →
  ∃ s', list_loop fuel (take o es) (Some (long2buff token)) s = Some (inr es, s') ∧
    se_server s' = se_server s.
Proof.
  induction fuel as [|fuel IH]; intros s o token Hs Hat Ho Hf; [lia|]. cbn [list_loop].
  pose proof (so_count _ _ _ Hs) as Hc.
  destruct (list_output_run s ps es o Hs (proj1 Hat) ltac:(lia)) as (body & s1 & k & Hrun & Hs1 & Esrv & Hk).
  replace (zlen (take o es)) with (Z.of_nat o) by (unfold zlen; rewrite length_take; lia).
  erewrite bind_run by (eapply next_run; [done..|unfold zlen in *; lia|exact Hrun]). cbn beta iota.
  destruct Hk as [[-> ->]|(token' & [Hk1 Hk2] & -> & Hat')].
  - rewrite take_drop. exists s1. split; [|done]. by destruct fuel.
  - rewrite length_drop in Hk2.
    replace (take o es ++ take k (drop o es)) with (take (o + k) es).
    + destruct (IH s1 (o + k)%nat token' Hs1 Hat' ltac:(lia) ltac:(lia)) as (s2 & Hrun2 & Esrv2).
      exists s2. split; [done|]. by rewrite Esrv2.
    + by rewrite take_take_drop.
Qed.

(** [C18] A listing arrives whole. The cache of the session has the dentries
    [ps], all live, whose status and name are [es]; the buffer has room for a
    header and one entry of the longest name. Then the client that lists, and
    asks for the next part as long as there is one, ends after at most as many
    requests as there are entries, with exactly [es] in their order, and the
    tree is as it was. *)
Theorem list_dentry_complete s ps es fuel :
  session_ok s ps es → (length es ≤ fuel)%nat →
  ∃ s', list_dentry fuel s = Some (inr es, s') ∧ se_server s' = se_server s.
Proof.
  intros Hs Hf. unfold list_dentry, list_done. rewrite bind_bind. sv. rewrite bind_bind. sv.
  match goal with |- context [(server_list_dentry_output ≫= _) ?s0] => set (s1 := s0) end.
  assert (session_ok s1 ps es) as Hs1 by (by destruct Hs).
  destruct (list_output_run s1 ps es 0 Hs1 eq_refl ltac:(lia)) as (body & s2 & k & Hrun & Hs2 & Esrv & Hk).
  run_with Hrun. cbn beta iota. rewrite drop_0 in Hk.
  destruct Hk as [[-> ->]|(token & [Hk1 Hk2] & -> & Hat)].
  - exists s2. split; [|done]. by destruct fuel.
  - destruct (list_loop_run ps es fuel s2 k token Hs2 Hat Hk2 ltac:(lia)) as (s3 & Hrun3 & Esrv3).
    exists s3. split; [done|]. by rewrite Esrv3.
Qed.
End spec.
