(* ===== verification/EndToEnd.v ===== *)
(** * From the bytes of a request to the bytes of a response

    The wire protocol, the handlers, the data thread and the tree together: a
    client creates a file or a directory by its path, a client looks the path
    up. *)

From S2P Require Import Prelude NsSubscribe Flock FsTree ServerTypes InodeGenerator NsManager.
From S2P Require Import InodeIndex Dentry DentryView DentryTree DentryPath Thread.
From S2P Require Import FlockIndex DataThread DataThreadSpec DataThreadTree CText Proto.
From S2P Require Import Service ServiceSpec Requests RequestsSpec Response.

Section end_to_end.
Context `{UniqSkiplist} `{ServerConfig} `{!StorageEngine} `{!PathSplit} `{!ChangeNotify}.
Context `{!ByteOrder} `{!ServerFrame}.

(** The data thread takes the record [r] from its queue, of a request in the
    task [k]. *)
Definition thread_takes (r : SvcRecord) (k : FastTask) (t : DataThread) : DataThread :=
  with_th_task k (with_th_rec (sr_q r) (with_th_server (with_record (sr_rec r) (th_server t)) t)).

(** An update from its request on: what the data thread returns and leaves, or
    nothing when the handler refuses. *)
Definition do_update (c : ptr) (handler : M ServiceTask Reply) (sv : ServiceTask) (t : DataThread) :
    option (Z * DataThread) :=
  match handler sv with
  | Some (Continue, sv') =>
    match sv_pushed sv' with
    | Some (true, r) => deal_update_record c (thread_takes r (sv_task sv) t)
    | _ => None
    end
  | _ => None
  end.

(** Looking an inode up, from the request to the client's reading of the
    response. *)
Definition do_lookup (c task : ptr) (handler : M ServiceTask Reply) (sv : ServiceTask)
    (t : DataThread) : option (Z + Z) :=
  match handler sv with
  | Some (Continue, sv') =>
    match sv_pushed sv' with
    | Some (false, r) =>
      '(rc, t') ← deal_query_record c task (thread_takes r (sv_task sv) t);
      if negb (rc =? 0) then Some (inl rc)
      else
        p ← re_dentry (r_me (record (th_server t')));
        '(body, _) ← lookup_inode_output p (th_server t');
        Some (inr (buff2long body))
    | _ => None
    end
  | Some (Status rc, _) => Some (inl rc)
  | None => None
  end.

(** What a thread needs to serve a namespace, and what a new dentry needs. *)
Record serves (t : DataThread) (a : ptr) (ne : NamespaceEntry) (root : ptr) : Prop := {
  sn_tree : tree_ok (th_server t);
  sn_ns : ns_ok (th_server t);
  sn_entry : namespaces (th_server t) !! a = Some ne;
  sn_root : ns_root ne = Some root
}.
(** The inode the server gives next. *)
Definition generated (t : DataThread) : Z :=
  inode_of CLUSTER_ID (int64 (inode_sn (th_server t) + 1)).
Record has_inodes (t : DataThread) : Prop := {
  hi_ok : inode_ok (generated t);
  hi_fresh : ∀ q m, nodes (abs (th_server t)) !! q = Some m →
    an_inode m ≠ generated t ∧ an_nlink m < 2 ^ 31 - 1
}.

Lemma takes_serves r k t a ne root : serves t a ne root → serves (thread_takes r k t) a ne root.
Proof.
  intros [Ht Hn He Hr].
  split; [exact (proj1 (tree_ok_record _ _ Ht))|by apply (ns_key_ok (th_server t))|done..].
Qed.
Lemma takes_abs r k t : tree_ok (th_server t) → abs (th_server (thread_takes r k t)) = abs (th_server t).
Proof. intros Ht. exact (proj2 (tree_ok_record _ _ Ht)). Qed.

(** The record of a request that creates by path is what the tree needs. *)
Lemma takes_by_path sv t a ne root f omp r front name :
  asks_for sv (CreateDentry f omp) r → has_room sv → serves t a ne root → ns_name ne = fn_ns f →
  relative f = false → split_path (fn_path f) = front ++ [name] → fn_path f ≠ "/"%string →
  slen (fn_ns f) ≤ NAME_MAX → slen name ≤ NAME_MAX →
  by_path (thread_takes r (sv_task sv) t) a ne root (fn_path f) front name.
Proof.
  intros [(Hty & Hfn & _ & Hns & _) _] [Hat Hroom] Hs En Hrel Hsp Hnr Hl1 Hl2.
  destruct (takes_serves r (sv_task sv) t a ne root Hs) as [? ? ? ?].
  apply negb_false_iff in Hrel. split; try done.
  - cbn. rewrite Hfn, En. by destruct f.
  - cbn. rewrite Hns. unfold room_for, NAME_MAX, PATH_MAX in *. pose proof (slen_nonneg (fn_ns f)).
    pose proof (slen_nonneg name). destruct (Z.ltb_spec sizeof_StatDEntryResp (body_len (sv_task sv))); lia.
Qed.

(** The mode of the record has the type the client asked for. *)
Lemma unset_type m : Z.land (FDIR_UNSET_DENTRY_HARD_LINK m) S_IFMT = Z.land m S_IFMT.
Proof. unfold FDIR_UNSET_DENTRY_HARD_LINK. by rewrite <- Z.land_assoc. Qed.
Lemma unset_plain m : FDIR_IS_DENTRY_HARD_LINK (FDIR_UNSET_DENTRY_HARD_LINK m) = false.
Proof.
  unfold FDIR_IS_DENTRY_HARD_LINK, FDIR_UNSET_DENTRY_HARD_LINK. rewrite <- Z.land_assoc.
  by rewrite Z.land_0_r.
Qed.

Lemma takes_create_asked sv t f omp r :
  asks_for sv (CreateDentry f omp) r → tree_ok (th_server t) → has_inodes t →
  no_type (omp_mode omp) = false → create_asked (th_server (thread_takes r (sv_task sv) t)).
Proof.
  intros [(_ & _ & Hi & _) (_ & (Hm & _) & _)] Ht [Hok Hfr] [Hno Hnl]%orb_false_iff.
  assert (next_inode (th_server (thread_takes r (sv_task sv) t)) (sr_rec r) = generated t) as Eg.
  { unfold next_inode. by rewrite Hi. }
  split.
  - unfold mode_ok. cbn. rewrite Hm, unset_type, Hno. done.
  - cbn. rewrite Hm. apply unset_plain.
  - cbn. unfold S_ISLNK in *. by rewrite Hm, unset_type.
  - change (inode_ok (next_inode (th_server (thread_takes r (sv_task sv) t)) (sr_rec r))). by rewrite Eg.
  - rewrite takes_abs by done.
    change (record (th_server (thread_takes r (sv_task sv) t))) with (sr_rec r). by rewrite Eg.
Qed.

(** The inode of a dentry the tree has, on the wire. *)
Lemma lookup_output_run s e n : tree_ok s → nodes (abs s) !! e = Some n → is_int64 (an_inode n) →
  ∃ body, lookup_inode_output e s = Some (body, s) ∧ buff2long body = an_inode n.
Proof.
  intros [_ Hv] Hn Hi. destruct (view_live _ _ _ _ Hv _ _ Hn) as (d & [Hd _] & <-).
  exists (long2buff (d_inode d)). unfold lookup_inode_output. sstep. split; [done|].
  by apply buff2long_law.
Qed.

Lemma lookup_run c task sv t a ne root f b e n :
  STORAGE_ENABLED = false → serves t a ne root → ns_name ne = fn_ns f →
  setup_req_by_dentry_fullname f = inr b → got sv b → sv_pool sv ≠ [] → relative f = false →
  path_to (abs (th_server t)) root (split_path (fn_path f)) e →
  nodes (abs (th_server t)) !! e = Some n → an_link n = false → is_int64 (an_inode n) →
  do_lookup c task service_deal_lookup_inode_by_path sv t = Some (inr (an_inode n)).
Proof.
  intros Hst Hs En Hb Hg Hpool Hrel He Hn Hl Hi. destruct (sv_pool sv) as [|r0 pool] eqn:Ep; [done|].
  pose proof (query_path_run sv r0 pool Ep SERVICE_OP_LOOKUP_INODE_INT f b Hb Hg) as Hq.
  rewrite Hrel in Hq.
  destruct Hq as (r & sv' & Hh & Hpush & _ & (Hty & Hfn & _ & _) & Hop).
  unfold do_lookup, service_deal_lookup_inode_by_path. rewrite Hh, Hpush.
  set (T := thread_takes r (sv_task sv) t).
  destruct (takes_serves r (sv_task sv) t a ne root Hs) as [HT Hns Hne Hroot].
  pose proof (takes_abs r (sv_task sv) t (sn_tree _ _ _ _ Hs)) as EA.
  assert (query_dentry c (with_th_rec (sr_q r) T) = Some ((0, Some e), with_th_rec (sr_q r) T)) as Hqd.
  { apply negb_false_iff in Hrel.
    apply (query_dentry_run T a ne root (fn_path f) e n Hst HT Hns Hne Hroot Hrel); [| |done|].
    - unfold T. by rewrite EA.
    - unfold T. by rewrite EA.
    - apply DataThreadTree.names_path; [done|]. rewrite Hfn, En. by destruct f. }
  assert (is_stat (q_operation (sr_q r)) = true) as Hstat by (by rewrite Hop).
  destruct (stat_query_run c task T (sr_q r) 0 (Some e) Hstat Hqd ltac:(by eexists))
    as (t' & r' & Hrun & Es & Er).
  change (with_th_rec (sr_q r) T) with T in Hrun. rewrite Hrun. cbn [mbind option_bind Z.eqb negb].
  rewrite Es. cbn [record with_record]. rewrite Er. cbn [mbind option_bind].
  destruct (tree_ok_record _ r' HT) as [HT' EA']. fold T in EA, HT', EA'.
  destruct (lookup_output_run (with_record r' (th_server T)) e n HT') as (body & -> & <-); [|done|done].
  by rewrite EA', EA.
Qed.

(** [C5] From bytes to bytes. A client sends the request to create [f], the
    thread that serves the namespace does it. Either it says ENOENT, ENOTDIR or
    EEXIST and the tree is as it was, or it says 0, and from then on a client
    that sends the request to look [f] up reads from the response the inode
    the server had generated. *)
Theorem create_then_lookup c task sv sv2 t a ne root f omp b b2 front name :
  STORAGE_ENABLED = false → serves t a ne root → ns_name ne = fn_ns f → has_inodes t →
  fdir_client_proto_create_dentry f omp = inr b → got sv b → sv_pool sv ≠ [] →
  setup_req_by_dentry_fullname f = inr b2 → got sv2 b2 → sv_pool sv2 ≠ [] →
  typed_omp omp → relative f = false → no_type (omp_mode omp) = false →
  split_path (fn_path f) = front ++ [name] → fn_path f ≠ "/"%string → slen name ≤ NAME_MAX →
  ∃ rc t', do_update c service_deal_create_dentry sv t = Some (rc, t') ∧ tree_ok (th_server t') ∧
    ((abs (th_server t') = abs (th_server t) ∧ (rc = ENOENT ∨ rc = ENOTDIR ∨ rc = EEXIST)) ∨
     (rc = 0 ∧ do_lookup c task service_deal_lookup_inode_by_path sv2 t' = Some (inr (generated t)))).
Proof.
  intros Hst Hs En Hino Hb Hg Hpool Hb2 Hg2 Hpool2 Ht Hrel Hmode Hsp Hnr Hname.
  destruct (sv_pool sv) as [|r0 pool] eqn:Ep; [done|].
  pose proof (create_run sv r0 pool Ep f omp b Hb Hg Ht) as Hc. rewrite Hrel, Hmode in Hc.
  destruct Hc as (r & sv' & Hh & Hpush & _ & Hask).
  apply set_dentry_inv in Hb2 as Hnames. destruct Hnames as ([_ Hl1] & _ & _).
  pose proof (takes_by_path sv t a ne root f omp r front name Hask (g_room _ _ Hg) Hs En Hrel Hsp Hnr
    Hl1 Hname) as Hbp.
  pose proof (takes_create_asked sv t f omp r Hask (sn_tree _ _ _ _ Hs) Hino Hmode) as Hca.
  pose proof (takes_abs r (sv_task sv) t (sn_tree _ _ _ _ Hs)) as EA.
  pose proof Hask as [(_ & _ & Hi0 & _) ((Hop & _) & (Hm & _) & _)].
  destruct (create_by_path_run c (thread_takes r (sv_task sv) t) a ne root (fn_path f) front name
    Hst Hbp Hop Hca) as (rc & t' & Hrun & Hok & Hk & Hout).
  exists rc, t'. unfold do_update. rewrite Hh, Hpush. split; [done|]. split; [done|].
  destruct Hout as [(EA' & Hrc & _)|[(EA' & -> & _)|(-> & Hfree & e & p & d & He & Hp & HeA & HpA & Hdir & EA' & _ & _)]].
  { left. split; [congruence|]. destruct Hrc; auto. }
  { left. split; [congruence|]. auto. }
  right. split; [done|].
  pose proof (bp_tree _ _ _ _ _ _ _ Hbp) as HT. set (T := thread_takes r (sv_task sv) t) in *.
  destruct (roots_kept (th_server T) (th_server t') a ne root HT Hok Hk) as (ne' & Hne' & En' & Hroot').
  { by rewrite EA'. } { apply Hs. } { apply Hs. }
  set (n0 := new_node _ _ _ _) in EA'.
  assert (nodes (abs (th_server t')) !! e = Some (n_nlink 1 n0)) as Hn'
    by (rewrite EA'; by eapply create_spec_new).
  assert (an_inode (n_nlink 1 n0) = generated t) as Egen.
  { cbn. unfold next_inode. by rewrite Hi0. }
  rewrite <- Egen. apply (lookup_run c task sv2 t' a ne' root f b2 e (n_nlink 1 n0)); try done;
    [|congruence|by rewrite Hsp| |].
  - split; [done| |done|done]. eapply ns_key_ok; [exact Hk|apply Hbp].
  - exact (ca_plain _ Hca).
  - rewrite Egen. destruct Hino as [[? ?] _]. unfold is_int64. lia.
Qed.
End end_to_end.
