(* ===== verification/EndToEndDemo.v ===== *)
(** * The wire protocol and the server of [DentryDemo]

    The theorems of [ResponseSpec] and [EndToEnd] on [/], [/d], [/d/f], [/e]
    and [/g]. *)

From S2P Require Import Prelude NsSubscribe FsTree Flock ServerTypes InodeGenerator.
From S2P Require Import NsManager InodeIndex Dentry DentryView DentryTree DentryPath.
From S2P Require Import DentryDemo Thread FlockIndex DataThread DataThreadSpec.
From S2P Require Import DataThreadTree DataThreadDemo CText Proto Service ServiceSpec.
From S2P Require Import Requests RequestsSpec WireDemo Response ResponseSpec EndToEnd.

Section demo.
Import ListSkiplist.
Existing Instance list_skiplist.
Existing Instance small_config.
Existing Instance slash_split.
Existing Instance no_storage.
Existing Instance no_notify.

(** ** A listing in parts *)

(** A buffer with room for a header and 320 bytes. *)
Definition listing : Session :=
  mkSession five_dentries (mkListCache [2; 4; 5; 2; 4; 5]%positive 3 0 0) 41 346 10.

(** What the client is to see. *)
Definition seen (p : ptr) : ClientDentry :=
  match dentries five_dentries !! p with
  | Some d => mkClientDentry (mkDEntryInfo (d_inode d) (sent_stat (d_stat d) true)) (d_name d)
  | None => mkClientDentry (mkDEntryInfo 0 zero_stat) ""
  end.

(** One evaluation tells that a dentry can be listed. *)
Definition fits (bits : Z) (n : Z) : bool := (- 2 ^ (bits - 1) <=? n) && (n <? 2 ^ (bits - 1)).
Definition fits_unsigned (n : Z) : bool := (0 <=? n) && (n <? 2 ^ 32).
Definition can_be_listed (p : ptr) : bool :=
  match dentries five_dentries !! p with
  | Some d =>
    let st := sent_stat (d_stat d) true in
    negb (FDIR_IS_DENTRY_HARD_LINK (st_mode (d_stat d))) && fits 64 (d_inode d) &&
    forallb (fits 32) [st_mode st; st_btime st; st_atime st; st_ctime st; st_mtime st; st_nlink st] &&
    forallb fits_unsigned [st_uid st; st_gid st] &&
    forallb (fits 64) [st_size st; st_alloc st; st_space_end st] && (slen (d_name d) <=? NAME_MAX)
  | None => false
  end.

Lemma fits_range bits n : fits bits n = true → - 2 ^ (bits - 1) ≤ n < 2 ^ (bits - 1).
Proof. unfold fits. rewrite andb_true_iff, Z.leb_le, Z.ltb_lt. done. Qed.
Lemma fits_uint32 n : fits_unsigned n = true → is_uint32 n.
Proof. unfold fits_unsigned, is_uint32. rewrite andb_true_iff, Z.leb_le, Z.ltb_lt. done. Qed.

Lemma can_be_listed_spec p : can_be_listed p = true → listed five_dentries p (seen p).
Proof.
  unfold can_be_listed, listed, seen, load_real, real_dentry, load_dentry.
  destruct (dentries five_dentries !! p) as [d|] eqn:Hd; [|done]. cbn [forallb].
  rewrite !andb_true_iff, Z.leb_le. intros (((((Hl & Hi) & Hm & Hb & Ha & Hc & Hmt & Hn & _) &
    Hu & Hg & _) & Hs & Hal & Hse & _) & Hname). apply negb_true_iff in Hl.
  exists d, d. split; [|split; [done|split; [done|]]].
  - rewrite bind_bind. erewrite bind_run by (by rewrite Hd). rewrite Hl.
    erewrite bind_run by reflexivity. erewrite bind_run by reflexivity. by rewrite Hd.
  - split; [by apply (fits_range 64)| |done].
    split; first [by apply (fits_range 32)|by apply fits_uint32|by apply (fits_range 64)].
Qed.

Lemma list_dentry_complete_witness :
  ∃ s', list_dentry 6 listing = Some (inr (seen <$> [2; 4; 5; 2; 4; 5]%positive), s') ∧
    se_server s' = se_server listing.
Proof.
  apply (list_dentry_complete listing [2; 4; 5; 2; 4; 5]%positive
    (seen <$> [2; 4; 5; 2; 4; 5]%positive) 6); [|simpl; lia].
  split; [reflexivity| |vm_compute; discriminate|reflexivity].
  repeat (apply Forall2_cons; split); [..|apply Forall2_nil; exact I];
    (apply can_be_listed_spec; vm_compute; reflexivity).
Defined.

(** ** [touch /d/h] and a look at [/d/h] *)

Definition thread_here : DataThread := DataThreadDemo.creates "/d/h".
Definition d_h : FullName := mkFullName "fs" "/d/h".
Definition touch : ClientReq := CreateDentry d_h (mkOwnerModePair 33188 1000 1000).
Definition look : ClientReq := QueryByPath SERVICE_OP_LOOKUP_INODE_INT d_h.
Definition request_of (req : ClientReq) : ServiceTask := task_with (wire_body req) [used_record].

Lemma thread_serves : serves thread_here 1%positive fs_entry 1%positive.
Proof. split; [apply asks_ok|apply asks_ns_ok|vm_compute; reflexivity|reflexivity]. Qed.
Lemma thread_has_inodes : has_inodes thread_here.
Proof.
  assert (create_asked (th_server thread_here)) as [_ _ _ Hok Hfr].
  { apply nothing_asked; [vm_compute; reflexivity|reflexivity|reflexivity|reflexivity|].
    split; [vm_compute; discriminate|reflexivity]. }
  assert (next_inode (th_server thread_here) (record (th_server thread_here)) = generated thread_here)
    as E by (vm_compute; reflexivity).
  rewrite E in Hok, Hfr. split; [exact Hok|exact Hfr].
Qed.

Lemma create_then_lookup_witness :
  ∃ t', do_update 1%positive service_deal_create_dentry (request_of touch) thread_here = Some (0, t') ∧
    do_lookup 1%positive 1%positive service_deal_lookup_inode_by_path (request_of look) t' =
      Some (inr (generated thread_here)).
Proof.
  destruct (create_then_lookup 1%positive 1%positive (request_of touch) (request_of look) thread_here
    1%positive fs_entry 1%positive d_h (mkOwnerModePair 33188 1000 1000)
    (wire_body touch) (wire_body look) ["d"] "h") as (rc & t' & Hrun & _ & Hres);
    [reflexivity|exact thread_serves|reflexivity|exact thread_has_inodes|vm_compute; reflexivity|
     apply got_body|discriminate|vm_compute; reflexivity|apply got_body|discriminate|by split|
     reflexivity|reflexivity|reflexivity|discriminate|vm_compute; discriminate|].
  pose proof (f_equal (option_map fst) Hrun) as Hrc. vm_compute (option_map fst (do_update _ _ _ _)) in Hrc.
  injection Hrc as <-. exists t'. split; [exact Hrun|].
  destruct Hres as [(_ & [[=]|[[=]|[=]]])|(_ & Hl)]. exact Hl.
Defined.
End demo.
