(* ===== verification/BinlogPack.v ===== *)
(** * Binlog records: src/server/binlog/binlog_pack.c, binlog_pack.h

    The text format of a binlog record, its printer and its parser, and the
    scans that find a record's start or end in a buffer read from a binlog
    file. A record is

      0123<rec dv=7 id=42 op=2,cr ts=... [ ns=..] [ pt=..] [ nm=..] hc=.. .../rec>\n

    four digits of length, a start tag, fields [ name=integer] and
    [ name=length,bytes] (names of two characters), an end tag. Pointers into
    the buffer are offsets into a memory [mem]; [None] is a read outside it.
    The error texts are not modelled. *)

From Stdlib Require Import Ascii.
From S2P Require Import Prelude CText ServerTypes.

(** ** Constants (binlog_types.h, binlog_pack.h and the head of binlog_pack.c) *)

Definition BINLOG_RECORD_MIN_SIZE := 64.
Definition BINLOG_RECORD_MAX_SIZE := 9999.
Definition BINLOG_RECORD_SIZE_STRLEN := 4.

Definition START_TAG_CHAR : ascii := "<".
Definition START_TAG_STR : text := lit "<rec".
Definition START_TAG_LEN := 4.
Definition NEWLINE : ascii := "010".
Definition END_TAG_STR : text := lit "/rec>" ++ [NEWLINE].
Definition END_TAG_LEN := 6.
Definition FIELD_NAME_LENGTH := 2.
Definition BACKSLASH : ascii := "\".

(** ** The record *)

(** [FDIRStatModifyFlags]: one flag per optional field; [lo_ns] and [lo_subname] are
    the two bits of [path_info]. *)
Record LogOptions := mkLogOptions {
  lo_ns : bool;
  lo_subname : bool;
  lo_hash_code : bool;
  lo_link : bool;
  lo_mode : bool;
  lo_atime : bool;
  lo_btime : bool;
  lo_ctime : bool;
  lo_mtime : bool;
  lo_gid : bool;
  lo_uid : bool;
  lo_size : bool;
  lo_inc_alloc : bool;
  lo_space_end : bool;
  lo_src_inode : bool
}.

(** The part of [FDIRBinlogRecord] that is packed. [l_parent] and [l_name] are
    [me.pname], which is also [rename.dest.pname]; [l_link] is [link], which is
    also [xattr.key]: the unions of the struct make them one storage. [hdlink.src] and
    [rename.src] are a union as well; they are kept apart here, as [l_src_inode] and
    [l_src_parent] with [l_src_name]: a record has the one or the other, by its
    operation. *)
Record LogRecord := mkLogRecord {
  l_data_version : Z;
  l_inode : Z;
  l_ns : text;
  l_hash_code : Z;
  l_operation : Z;
  l_is_update : bool;
  l_dentry_type : ascii;
  l_timestamp : Z;
  l_flags : Z;
  l_options : LogOptions;
  l_parent : Z;
  l_name : text;
  l_src_parent : Z;
  l_src_name : text;
  l_src_inode : Z;
  l_stat : DEntryStat;
  l_link : text;
  l_xattr_value : text
}.

Definition with_lo_ns (v : bool) (x : LogOptions) : LogOptions := mkLogOptions v (lo_subname x)
  (lo_hash_code x) (lo_link x) (lo_mode x) (lo_atime x) (lo_btime x) (lo_ctime x) (lo_mtime x)
  (lo_gid x) (lo_uid x) (lo_size x) (lo_inc_alloc x) (lo_space_end x) (lo_src_inode x).
Definition with_lo_subname (v : bool) (x : LogOptions) : LogOptions := mkLogOptions (lo_ns x) v
  (lo_hash_code x) (lo_link x) (lo_mode x) (lo_atime x) (lo_btime x) (lo_ctime x) (lo_mtime x)
  (lo_gid x) (lo_uid x) (lo_size x) (lo_inc_alloc x) (lo_space_end x) (lo_src_inode x).
Definition with_lo_hash_code (v : bool) (x : LogOptions) : LogOptions := mkLogOptions (lo_ns x)
  (lo_subname x) v (lo_link x) (lo_mode x) (lo_atime x) (lo_btime x) (lo_ctime x) (lo_mtime x)
  (lo_gid x) (lo_uid x) (lo_size x) (lo_inc_alloc x) (lo_space_end x) (lo_src_inode x).
Definition with_lo_link (v : bool) (x : LogOptions) : LogOptions := mkLogOptions (lo_ns x)
  (lo_subname x) (lo_hash_code x) v (lo_mode x) (lo_atime x) (lo_btime x) (lo_ctime x) (lo_mtime
  x) (lo_gid x) (lo_uid x) (lo_size x) (lo_inc_alloc x) (lo_space_end x) (lo_src_inode x).
Definition with_lo_mode (v : bool) (x : LogOptions) : LogOptions := mkLogOptions (lo_ns x)
  (lo_subname x) (lo_hash_code x) (lo_link x) v (lo_atime x) (lo_btime x) (lo_ctime x) (lo_mtime
  x) (lo_gid x) (lo_uid x) (lo_size x) (lo_inc_alloc x) (lo_space_end x) (lo_src_inode x).
Definition with_lo_atime (v : bool) (x : LogOptions) : LogOptions := mkLogOptions (lo_ns x)
  (lo_subname x) (lo_hash_code x) (lo_link x) (lo_mode x) v (lo_btime x) (lo_ctime x) (lo_mtime
  x) (lo_gid x) (lo_uid x) (lo_size x) (lo_inc_alloc x) (lo_space_end x) (lo_src_inode x).
Definition with_lo_btime (v : bool) (x : LogOptions) : LogOptions := mkLogOptions (lo_ns x)
  (lo_subname x) (lo_hash_code x) (lo_link x) (lo_mode x) (lo_atime x) v (lo_ctime x) (lo_mtime
  x) (lo_gid x) (lo_uid x) (lo_size x) (lo_inc_alloc x) (lo_space_end x) (lo_src_inode x).
Definition with_lo_ctime (v : bool) (x : LogOptions) : LogOptions := mkLogOptions (lo_ns x)
  (lo_subname x) (lo_hash_code x) (lo_link x) (lo_mode x) (lo_atime x) (lo_btime x) v (lo_mtime
  x) (lo_gid x) (lo_uid x) (lo_size x) (lo_inc_alloc x) (lo_space_end x) (lo_src_inode x).
Definition with_lo_mtime (v : bool) (x : LogOptions) : LogOptions := mkLogOptions (lo_ns x)
  (lo_subname x) (lo_hash_code x) (lo_link x) (lo_mode x) (lo_atime x) (lo_btime x) (lo_ctime x)
  v (lo_gid x) (lo_uid x) (lo_size x) (lo_inc_alloc x) (lo_space_end x) (lo_src_inode x).
Definition with_lo_gid (v : bool) (x : LogOptions) : LogOptions := mkLogOptions (lo_ns x)
  (lo_subname x) (lo_hash_code x) (lo_link x) (lo_mode x) (lo_atime x) (lo_btime x) (lo_ctime x)
  (lo_mtime x) v (lo_uid x) (lo_size x) (lo_inc_alloc x) (lo_space_end x) (lo_src_inode x).
Definition with_lo_uid (v : bool) (x : LogOptions) : LogOptions := mkLogOptions (lo_ns x)
  (lo_subname x) (lo_hash_code x) (lo_link x) (lo_mode x) (lo_atime x) (lo_btime x) (lo_ctime x)
  (lo_mtime x) (lo_gid x) v (lo_size x) (lo_inc_alloc x) (lo_space_end x) (lo_src_inode x).
Definition with_lo_size (v : bool) (x : LogOptions) : LogOptions := mkLogOptions (lo_ns x)
  (lo_subname x) (lo_hash_code x) (lo_link x) (lo_mode x) (lo_atime x) (lo_btime x) (lo_ctime x)
  (lo_mtime x) (lo_gid x) (lo_uid x) v (lo_inc_alloc x) (lo_space_end x) (lo_src_inode x).
Definition with_lo_inc_alloc (v : bool) (x : LogOptions) : LogOptions := mkLogOptions (lo_ns x)
  (lo_subname x) (lo_hash_code x) (lo_link x) (lo_mode x) (lo_atime x) (lo_btime x) (lo_ctime x)
  (lo_mtime x) (lo_gid x) (lo_uid x) (lo_size x) v (lo_space_end x) (lo_src_inode x).
Definition with_lo_space_end (v : bool) (x : LogOptions) : LogOptions := mkLogOptions (lo_ns x)
  (lo_subname x) (lo_hash_code x) (lo_link x) (lo_mode x) (lo_atime x) (lo_btime x) (lo_ctime x)
  (lo_mtime x) (lo_gid x) (lo_uid x) (lo_size x) (lo_inc_alloc x) v (lo_src_inode x).
Definition with_lo_src_inode (v : bool) (x : LogOptions) : LogOptions := mkLogOptions (lo_ns x)
  (lo_subname x) (lo_hash_code x) (lo_link x) (lo_mode x) (lo_atime x) (lo_btime x) (lo_ctime x)
  (lo_mtime x) (lo_gid x) (lo_uid x) (lo_size x) (lo_inc_alloc x) (lo_space_end x) v.

Definition with_l_data_version (v : Z) (x : LogRecord) : LogRecord := mkLogRecord v (l_inode x)
  (l_ns x) (l_hash_code x) (l_operation x) (l_is_update x) (l_dentry_type x) (l_timestamp x)
  (l_flags x) (l_options x) (l_parent x) (l_name x) (l_src_parent x) (l_src_name x) (l_src_inode
  x) (l_stat x) (l_link x) (l_xattr_value x).
Definition with_l_inode (v : Z) (x : LogRecord) : LogRecord := mkLogRecord (l_data_version x) v
  (l_ns x) (l_hash_code x) (l_operation x) (l_is_update x) (l_dentry_type x) (l_timestamp x)
  (l_flags x) (l_options x) (l_parent x) (l_name x) (l_src_parent x) (l_src_name x) (l_src_inode
  x) (l_stat x) (l_link x) (l_xattr_value x).
Definition with_l_ns (v : text) (x : LogRecord) : LogRecord := mkLogRecord (l_data_version x)
  (l_inode x) v (l_hash_code x) (l_operation x) (l_is_update x) (l_dentry_type x) (l_timestamp
  x) (l_flags x) (l_options x) (l_parent x) (l_name x) (l_src_parent x) (l_src_name x)
  (l_src_inode x) (l_stat x) (l_link x) (l_xattr_value x).
Definition with_l_hash_code (v : Z) (x : LogRecord) : LogRecord := mkLogRecord (l_data_version
  x) (l_inode x) (l_ns x) v (l_operation x) (l_is_update x) (l_dentry_type x) (l_timestamp x)
  (l_flags x) (l_options x) (l_parent x) (l_name x) (l_src_parent x) (l_src_name x) (l_src_inode
  x) (l_stat x) (l_link x) (l_xattr_value x).
Definition with_l_operation (v : Z) (x : LogRecord) : LogRecord := mkLogRecord (l_data_version
  x) (l_inode x) (l_ns x) (l_hash_code x) v (l_is_update x) (l_dentry_type x) (l_timestamp x)
  (l_flags x) (l_options x) (l_parent x) (l_name x) (l_src_parent x) (l_src_name x) (l_src_inode
  x) (l_stat x) (l_link x) (l_xattr_value x).
Definition with_l_is_update (v : bool) (x : LogRecord) : LogRecord := mkLogRecord
  (l_data_version x) (l_inode x) (l_ns x) (l_hash_code x) (l_operation x) v (l_dentry_type x)
  (l_timestamp x) (l_flags x) (l_options x) (l_parent x) (l_name x) (l_src_parent x) (l_src_name
  x) (l_src_inode x) (l_stat x) (l_link x) (l_xattr_value x).
Definition with_l_dentry_type (v : ascii) (x : LogRecord) : LogRecord := mkLogRecord
  (l_data_version x) (l_inode x) (l_ns x) (l_hash_code x) (l_operation x) (l_is_update x) v
  (l_timestamp x) (l_flags x) (l_options x) (l_parent x) (l_name x) (l_src_parent x) (l_src_name
  x) (l_src_inode x) (l_stat x) (l_link x) (l_xattr_value x).
Definition with_l_timestamp (v : Z) (x : LogRecord) : LogRecord := mkLogRecord (l_data_version
  x) (l_inode x) (l_ns x) (l_hash_code x) (l_operation x) (l_is_update x) (l_dentry_type x) v
  (l_flags x) (l_options x) (l_parent x) (l_name x) (l_src_parent x) (l_src_name x) (l_src_inode
  x) (l_stat x) (l_link x) (l_xattr_value x).
Definition with_l_flags (v : Z) (x : LogRecord) : LogRecord := mkLogRecord (l_data_version x)
  (l_inode x) (l_ns x) (l_hash_code x) (l_operation x) (l_is_update x) (l_dentry_type x)
  (l_timestamp x) v (l_options x) (l_parent x) (l_name x) (l_src_parent x) (l_src_name x)
  (l_src_inode x) (l_stat x) (l_link x) (l_xattr_value x).
Definition with_l_options (v : LogOptions) (x : LogRecord) : LogRecord := mkLogRecord
  (l_data_version x) (l_inode x) (l_ns x) (l_hash_code x) (l_operation x) (l_is_update x)
  (l_dentry_type x) (l_timestamp x) (l_flags x) v (l_parent x) (l_name x) (l_src_parent x)
  (l_src_name x) (l_src_inode x) (l_stat x) (l_link x) (l_xattr_value x).
Definition with_l_parent (v : Z) (x : LogRecord) : LogRecord := mkLogRecord (l_data_version x)
  (l_inode x) (l_ns x) (l_hash_code x) (l_operation x) (l_is_update x) (l_dentry_type x)
  (l_timestamp x) (l_flags x) (l_options x) v (l_name x) (l_src_parent x) (l_src_name x)
  (l_src_inode x) (l_stat x) (l_link x) (l_xattr_value x).
Definition with_l_name (v : text) (x : LogRecord) : LogRecord := mkLogRecord (l_data_version x)
  (l_inode x) (l_ns x) (l_hash_code x) (l_operation x) (l_is_update x) (l_dentry_type x)
  (l_timestamp x) (l_flags x) (l_options x) (l_parent x) v (l_src_parent x) (l_src_name x)
  (l_src_inode x) (l_stat x) (l_link x) (l_xattr_value x).
Definition with_l_src_parent (v : Z) (x : LogRecord) : LogRecord := mkLogRecord (l_data_version
  x) (l_inode x) (l_ns x) (l_hash_code x) (l_operation x) (l_is_update x) (l_dentry_type x)
  (l_timestamp x) (l_flags x) (l_options x) (l_parent x) (l_name x) v (l_src_name x)
  (l_src_inode x) (l_stat x) (l_link x) (l_xattr_value x).
Definition with_l_src_name (v : text) (x : LogRecord) : LogRecord := mkLogRecord (l_data_version
  x) (l_inode x) (l_ns x) (l_hash_code x) (l_operation x) (l_is_update x) (l_dentry_type x)
  (l_timestamp x) (l_flags x) (l_options x) (l_parent x) (l_name x) (l_src_parent x) v
  (l_src_inode x) (l_stat x) (l_link x) (l_xattr_value x).
Definition with_l_src_inode (v : Z) (x : LogRecord) : LogRecord := mkLogRecord (l_data_version
  x) (l_inode x) (l_ns x) (l_hash_code x) (l_operation x) (l_is_update x) (l_dentry_type x)
  (l_timestamp x) (l_flags x) (l_options x) (l_parent x) (l_name x) (l_src_parent x) (l_src_name
  x) v (l_stat x) (l_link x) (l_xattr_value x).
Definition with_l_stat (v : DEntryStat) (x : LogRecord) : LogRecord := mkLogRecord
  (l_data_version x) (l_inode x) (l_ns x) (l_hash_code x) (l_operation x) (l_is_update x)
  (l_dentry_type x) (l_timestamp x) (l_flags x) (l_options x) (l_parent x) (l_name x)
  (l_src_parent x) (l_src_name x) (l_src_inode x) v (l_link x) (l_xattr_value x).
Definition with_l_link (v : text) (x : LogRecord) : LogRecord := mkLogRecord (l_data_version x)
  (l_inode x) (l_ns x) (l_hash_code x) (l_operation x) (l_is_update x) (l_dentry_type x)
  (l_timestamp x) (l_flags x) (l_options x) (l_parent x) (l_name x) (l_src_parent x) (l_src_name
  x) (l_src_inode x) (l_stat x) v (l_xattr_value x).
Definition with_l_xattr_value (v : text) (x : LogRecord) : LogRecord := mkLogRecord
  (l_data_version x) (l_inode x) (l_ns x) (l_hash_code x) (l_operation x) (l_is_update x)
  (l_dentry_type x) (l_timestamp x) (l_flags x) (l_options x) (l_parent x) (l_name x)
  (l_src_parent x) (l_src_name x) (l_src_inode x) (l_stat x) (l_link x) v.

Definition zero_options : LogOptions :=
  mkLogOptions false false false false false false false false false false false false false
    false false.
Definition zero_record : LogRecord :=
  mkLogRecord 0 0 [] 0 0 false Ascii.zero 0 0 zero_options 0 [] 0 [] 0 zero_stat [] [].

(** [options.path_info.flags != 0] *)
Definition path_info (r : LogRecord) : bool := lo_ns (l_options r) || lo_subname (l_options r).
Definition set_option (f : LogOptions → LogOptions) (r : LogRecord) : LogRecord :=
  with_l_options (f (l_options r)) r.
Definition set_stat (f : DEntryStat → DEntryStat) (r : LogRecord) : LogRecord :=
  with_l_stat (f (l_stat r)) r.

(** ** What is used of libfastcommon

    [FastBuffer]: the bytes in use and the allocated size. [fast_buffer_check] makes
    room for so many bytes behind those in use, [fast_buffer_check_capacity] makes
    the allocated size at least what it is given. [char_converter]
    replaces each character of a list of pairs by a backslash and its other
    character ([FAST_CHAR_OP_ADD_BACKSLASH]), as far as the output has room. *)

Record FastBuffer := mkFastBuffer { fb_data : text; fb_alloc : Z }.

Class FastCommon := {
  fast_buffer_check : FastBuffer → Z → Z * FastBuffer;
  fast_buffer_check_capacity : FastBuffer → Z → Z * FastBuffer;
  fast_buffer_append : FastBuffer → text → FastBuffer;
  fast_char_escape : list (ascii * ascii) → text → Z → text;
  fast_char_unescape : list (ascii * ascii) → text → text
}.

(** Pairs that can be undone: the backslash stands for itself and no two
    characters are replaced by the same one. *)
Definition pairs_ok (ps : list (ascii * ascii)) : Prop :=
  NoDup ps.*1 ∧ NoDup ps.*2 ∧ (BACKSLASH, BACKSLASH) ∈ ps.

Class FastCommonLaws (F : FastCommon) := {
  check_ok b n b' :
    fast_buffer_check b n = (0, b') →
    fb_data b' = fb_data b ∧ fb_alloc b ≤ fb_alloc b' ∧ zlen (fb_data b) + n ≤ fb_alloc b';
  check_capacity_ok b n b' :
    fast_buffer_check_capacity b n = (0, b') →
    fb_data b' = fb_data b ∧ fb_alloc b ≤ fb_alloc b' ∧ n ≤ fb_alloc b';
  append_ok b t :
    zlen (fb_data b) + zlen t < fb_alloc b →
    fast_buffer_append b t = mkFastBuffer (fb_data b ++ t) (fb_alloc b);
  escape_room ps s n :
    2 * zlen s ≤ n → fast_char_escape ps s n = fast_char_escape ps s (2 * zlen s);
  escape_length ps s :
    pairs_ok ps → zlen s ≤ zlen (fast_char_escape ps s (2 * zlen s)) ≤ 2 * zlen s;
  escape_free ps s c :
    pairs_ok ps → c ∈ ps.*1 → c ≠ BACKSLASH → c ∉ ps.*2 →
    c ∉ fast_char_escape ps s (2 * zlen s);
  escape_same ps s :
    pairs_ok ps → BACKSLASH ∉ fast_char_escape ps s (2 * zlen s) →
    fast_char_escape ps s (2 * zlen s) = s;
  unescape_escape ps s :
    pairs_ok ps → fast_char_unescape ps (fast_char_escape ps s (2 * zlen s)) = s
}.

(** [binlog_pack_init] *)
Definition escape_pairs : list (ascii * ascii) :=
  [("000"%char, "0"%char); (NEWLINE, "n"%char); ("011"%char, "v"%char); ("012"%char, "f"%char);
   ("013"%char, "r"%char); (BACKSLASH, BACKSLASH); ("<"%char, "l"%char); (">"%char, "g"%char)].

Definition get_operation_label (operation : Z) : text :=
  if operation =? BINLOG_OP_CREATE_DENTRY_INT then lit "cr"
  else if operation =? BINLOG_OP_REMOVE_DENTRY_INT then lit "rm"
  else if operation =? BINLOG_OP_RENAME_DENTRY_INT then lit "rn"
  else if operation =? BINLOG_OP_UPDATE_DENTRY_INT then lit "up"
  else if operation =? BINLOG_OP_SET_XATTR_INT then lit "sx"
  else if operation =? BINLOG_OP_REMOVE_XATTR_INT then lit "rx"
  else lit "".

Definition text_eqb (s t : text) : bool := bool_decide (s = t).

Definition get_operation_integer (operation : text) : Z :=
  if text_eqb operation (lit "up") then BINLOG_OP_UPDATE_DENTRY_INT
  else if text_eqb operation (lit "cr") then BINLOG_OP_CREATE_DENTRY_INT
  else if text_eqb operation (lit "rm") then BINLOG_OP_REMOVE_DENTRY_INT
  else if text_eqb operation (lit "rn") then BINLOG_OP_RENAME_DENTRY_INT
  else if text_eqb operation (lit "sx") then BINLOG_OP_SET_XATTR_INT
  else if text_eqb operation (lit "rx") then BINLOG_OP_REMOVE_XATTR_INT
  else BINLOG_OP_NONE_INT.

(** ** Packing *)

Section pack.
Context `{F : FastCommon}.

(** [fast_buffer_append(buffer, " %s=%d", name, n)] *)
Definition append_int (name : string) (n : Z) (b : FastBuffer) : FastBuffer :=
  fast_buffer_append b (lit " " ++ lit name ++ lit "=" ++ print_int n).

(** Bytes written behind the bytes in use, and [buffer->length += len]. *)
Definition push_bytes (t : text) (b : FastBuffer) : FastBuffer :=
  mkFastBuffer (fb_data b ++ t) (fb_alloc b).

(** The room behind the bytes in use. *)
Definition fb_room (b : FastBuffer) : Z := fb_alloc b - zlen (fb_data b).

Definition binlog_pack_stringl (name : string) (val : text) (need_escape : bool)
    (buffer : FastBuffer) : FastBuffer :=
  let len := zlen val in
  let b := fast_buffer_append buffer (lit " " ++ lit name ++ lit "=" ++ print_int len ++ lit ",") in
  if need_escape then
    let out := fast_char_escape escape_pairs val (fb_room b) in
    let escape_len := zlen out in
    if negb (escape_len =? len) then
      let len1 := zlen (print_int len) in
      let len_buff := print_int escape_len in
      let len2 := zlen len_buff in
      let at_len := zlen (fb_data b) - (len1 + 1) in
      if len2 =? len1 then
        (* replace the length only *)
        push_bytes out (mkFastBuffer (overwrite at_len len_buff (fb_data b)) (fb_alloc b))
      else
        let b1 := mkFastBuffer (take (Z.to_nat at_len) (fb_data b)) (fb_alloc b) in
        let b2 := fast_buffer_append b1 (print_int len2 ++ lit ",") in
        push_bytes (fast_char_escape escape_pairs val (fb_room b2)) b2
    else push_bytes out b
  else fast_buffer_append b val.

Definition when (c : bool) (f : FastBuffer → FastBuffer) (b : FastBuffer) : FastBuffer :=
  if c then f b else b.
Definition steps (fs : list (FastBuffer → FastBuffer)) (b : FastBuffer) : FastBuffer :=
  fold_left (λ b f, f b) fs b.

(** The fields before the namespace. *)
Definition pack_head (r : LogRecord) : list (FastBuffer → FastBuffer) :=
  [λ b, fast_buffer_append b START_TAG_STR;
   append_int "dv" (int64 (l_data_version r));
   append_int "id" (l_inode r);
   binlog_pack_stringl "op" (get_operation_label (l_operation r)) false;
   append_int "ts" (l_timestamp r)].

(** The namespace, the parent inode and the name. *)
Definition pack_path (r : LogRecord) : list (FastBuffer → FastBuffer) :=
  [binlog_pack_stringl "ns" (l_ns r) true;
   append_int "pt" (l_parent r);
   binlog_pack_stringl "nm" (l_name r) true].

(** The optional fields. *)
Definition pack_options (r : LogRecord) : list (FastBuffer → FastBuffer) :=
  let o := l_options r in let st := l_stat r in
  [append_int "hc" (l_hash_code r);
   when (lo_link o) (binlog_pack_stringl "ln" (l_link r) true);
   when (lo_mode o) (append_int "md" (st_mode st));
   when (lo_btime o) (append_int "bt" (st_atime st));
   when (lo_atime o) (append_int "at" (st_atime st));
   when (lo_ctime o) (append_int "ct" (st_ctime st));
   when (lo_mtime o) (append_int "mt" (st_mtime st));
   when (lo_uid o) (append_int "ui" (int32 (st_uid st)));
   when (lo_gid o) (append_int "gi" (int32 (st_gid st)));
   when (lo_size o) (append_int "sz" (st_size st));
   when (lo_space_end o) (append_int "se" (st_space_end st));
   when (lo_inc_alloc o) (append_int "ia" (st_alloc st));
   when (lo_src_inode o) (append_int "si" (l_src_inode r))].

(** The fields of one operation only. *)
Definition pack_operation (r : LogRecord) : list (FastBuffer → FastBuffer) :=
  if l_operation r =? BINLOG_OP_RENAME_DENTRY_INT then
    [append_int "sp" (l_src_parent r);
     binlog_pack_stringl "sn" (l_src_name r) true;
     append_int "fl" (l_flags r)]
  else if l_operation r =? BINLOG_OP_SET_XATTR_INT then
    [binlog_pack_stringl "xn" (l_link r) true;
     binlog_pack_stringl "xv" (l_xattr_value r) true]
  else if l_operation r =? BINLOG_OP_REMOVE_XATTR_INT then
    [binlog_pack_stringl "xn" (l_link r) true]
  else [].

(** The capacity asked for before anything is written. *)
Definition expect_len (r : LogRecord) : Z :=
  (512 + (if path_info r then zlen (l_ns r) + zlen (l_name r) else 0)
    + (if lo_link (l_options r) then zlen (l_link r) else 0)) * 2.

(** The length of the record, written in the four bytes reserved for it. The
    NUL of [sprintf] falls on the start tag's first character. *)
Definition put_record_len (old_len record_len : Z) (b : FastBuffer) : FastBuffer :=
  mkFastBuffer
    (overwrite (old_len + BINLOG_RECORD_SIZE_STRLEN) [START_TAG_CHAR]
      (overwrite old_len (print_04 record_len ++ [Ascii.zero]) (fb_data b)))
    (fb_alloc b).

Definition binlog_pack_record (r : LogRecord) (buffer : FastBuffer) : Z * FastBuffer :=
  let '(result, buffer) := fast_buffer_check_capacity buffer (expect_len r) in
  if negb (result =? 0) then (result, buffer)
  else
    let old_len := zlen (fb_data buffer) in
    (* reserve record size spaces: whatever the four bytes hold *)
    let b := push_bytes (replicate 4 Ascii.zero) buffer in
    let b := steps (pack_head r) b in
    if path_info r && ((l_parent r =? 0) && (0 <? zlen (l_name r))) then (EINVAL, b)
    else
      let b := if path_info r then steps (pack_path r) b else b in
      let b := steps (pack_options r) b in
      let b := steps (pack_operation r) b in
      let b := fast_buffer_append b END_TAG_STR in
      let record_len := zlen (fb_data b) - old_len - BINLOG_RECORD_SIZE_STRLEN in
      if BINLOG_RECORD_MAX_SIZE <? record_len then (EOVERFLOW, b)
      else (0, put_record_len old_len record_len b).

End pack.

(** ** Parsing *)

Inductive FieldValue :=
  | FvInteger (n : Z)
  | FvString (s : text).

(** [FieldParserContext.mpool]: the pool that copies of escaped strings are
    allocated from, with the allocations that succeed; NULL (the string is
    unescaped in place); or never set. *)
Inductive Mpool :=
  | MpoolNull
  | MpoolAlloc (ok : text → bool)
  | MpoolUnset.

Section unpack.
Context `{F : FastCommon}.
Variable mem : text.

(** [None]: a read outside the memory; [inl]: an error code; [inr]: the
    field's name, its value and the new [p]. *)
Definition binlog_get_next_field_value (mpool : Mpool) (p rec_end : Z)
    : option (Z + (text * FieldValue * Z)) :=
  let remain := int32 (rec_end - p) in
  c ← byte_at mem p;
  if Ascii.eqb c "/" then
    Some (inl (if remain =? END_TAG_LEN then ENOENT else EINVAL))
  else if negb (Ascii.eqb c " ") then Some (inl EINVAL)
  else
    let p := p + 1 in
    (* compared as unsigned long: the end tag's length is a size_t *)
    if uint64 (remain - 1) <? END_TAG_LEN + 4 then Some (inl EINVAL)
    else
      equal_ch ← byte_at mem (p + FIELD_NAME_LENGTH);
      if negb (Ascii.eqb equal_ch "=") then Some (inl EINVAL)
      else
        name ← bytes_at mem p FIELD_NAME_LENGTH;
        '(n, endptr) ← strtoll_at mem (p + FIELD_NAME_LENGTH + 1);
        e ← byte_at mem endptr;
        if Ascii.eqb e "," then
          let str := endptr + 1 in
          let p := str + n in
          if uint64 (rec_end - p) <? END_TAG_LEN then Some (inl EINVAL)
          else
            s ← bytes_at mem str (int32 n);
            match find_char BACKSLASH s with
            | None => Some (inr (name, FvString s, p))
            | Some _ =>
                let value := FvString (fast_char_unescape escape_pairs s) in
                match mpool with
                | MpoolUnset => None
                | MpoolNull => Some (inr (name, value, p))
                | MpoolAlloc ok =>
                    if ok s then Some (inr (name, value, p)) else Some (inl ENOMEM)
                end
            end
        else if Ascii.eqb e " " || (Ascii.eqb e "/" && (rec_end - endptr =? END_TAG_LEN)) then
          Some (inr (name, FvInteger n, endptr))
        else Some (inl EINVAL).

(** The switch value of a field name. *)
Definition field_index (name : text) : Z :=
  match name with
  | a :: b :: _ => schar a * 256 + schar b
  | _ => 0
  end.
Definition INDEX (name : string) : Z := field_index (lit name).

Definition binlog_set_field_value (name : text) (fv : FieldValue) (r : LogRecord)
    : Z * LogRecord :=
  let index := field_index name in
  let int (f : Z → LogRecord) :=
    match fv with FvInteger n => (0, f n) | FvString _ => (EINVAL, r) end in
  let str (f : text → LogRecord) :=
    match fv with FvString s => (0, f s) | FvInteger _ => (EINVAL, r) end in
  if index =? INDEX "id" then int (λ n, with_l_inode n r)
  else if index =? INDEX "pt" then int (λ n, with_l_parent n r)
  else if index =? INDEX "sp" then int (λ n, with_l_src_parent n r)
  else if index =? INDEX "sn" then str (λ s, with_l_src_name s r)
  else if index =? INDEX "fl" then int (λ n, with_l_flags (int32 n) r)
  else if index =? INDEX "dv" then int (λ n, with_l_data_version (uint64 n) r)
  else if index =? INDEX "op" then str (λ s, with_l_operation (get_operation_integer s) r)
  else if index =? INDEX "ts" then int (λ n, with_l_timestamp (int32 n) r)
  else if index =? INDEX "ns" then
    str (λ s, set_option (with_lo_ns true) (with_l_ns s r))
  else if index =? INDEX "nm" then
    str (λ s, set_option (with_lo_subname true) (with_l_name s r))
  else if index =? INDEX "ln" then
    str (λ s, set_option (with_lo_link true) (with_l_link s r))
  else if index =? INDEX "md" then
    int (λ n, set_option (with_lo_mode true) (set_stat (with_st_mode (int32 n)) r))
  else if index =? INDEX "bt" then
    int (λ n, set_option (with_lo_btime true) (set_stat (with_st_btime (int32 n)) r))
  else if index =? INDEX "at" then
    int (λ n, set_option (with_lo_atime true) (set_stat (with_st_atime (int32 n)) r))
  else if index =? INDEX "ct" then
    int (λ n, set_option (with_lo_ctime true) (set_stat (with_st_ctime (int32 n)) r))
  else if index =? INDEX "mt" then
    int (λ n, set_option (with_lo_mtime true) (set_stat (with_st_mtime (int32 n)) r))
  else if index =? INDEX "ui" then
    int (λ n, set_option (with_lo_uid true) (set_stat (with_st_uid (uint32 n)) r))
  else if index =? INDEX "gi" then
    int (λ n, set_option (with_lo_gid true) (set_stat (with_st_gid (uint32 n)) r))
  else if index =? INDEX "sz" then
    int (λ n, set_option (with_lo_size true) (set_stat (with_st_size n) r))
  else if index =? INDEX "se" then
    int (λ n, set_option (with_lo_space_end true) (set_stat (with_st_space_end n) r))
  else if index =? INDEX "ia" then
    int (λ n, set_option (with_lo_inc_alloc true) (set_stat (with_st_alloc n) r))
  else if index =? INDEX "hc" then
    int (λ n, set_option (with_lo_hash_code true) (with_l_hash_code (uint32 n) r))
  else if index =? INDEX "si" then
    int (λ n, set_option (with_lo_src_inode true) (with_l_src_inode n r))
  else if index =? INDEX "xn" then str (λ s, with_l_link s r)
  else if index =? INDEX "xv" then str (λ s, with_l_xattr_value s r)
  else (ENOENT, r).

Definition binlog_check_required_fields (r : LogRecord) : Z :=
  if l_inode r <=? 0 then ENOENT
  else if l_data_version r <=? 0 then ENOENT
  else if negb (lo_hash_code (l_options r)) then ENOENT
  else if l_operation r =? BINLOG_OP_NONE_INT then ENOENT
  else if l_timestamp r <=? 0 then ENOENT
  else if (path_info r || negb (l_parent r =? 0)) &&
          (negb (lo_ns (l_options r)) || negb (lo_subname (l_options r)) ||
           ((l_parent r =? 0) && (0 <? zlen (l_name r)))) then ENOENT
  else if (l_operation r =? BINLOG_OP_RENAME_DENTRY_INT) &&
          ((l_parent r =? 0) || (zlen (l_name r) =? 0) ||
           (l_src_parent r =? 0) || (zlen (l_src_name r) =? 0)) then ENOENT
  else 0.

(** [inl]: an error code; [inr]: the record and the new [p]. *)
Definition binlog_parse_first_field (mpool : Mpool) (p rec_end : Z) (r : LogRecord)
    : option (Z * LogRecord * Z) :=
  x ← binlog_get_next_field_value mpool p rec_end;
  match x with
  | inl rc => Some (rc, r, p)
  | inr (name, fv, p') =>
      if negb (text_eqb name (lit "dv")) then Some (EINVAL, r, p')
      else let '(rc, r') := binlog_set_field_value name fv r in Some (rc, r', p')
  end.

(** One turn of the loop of [binlog_parse_fields]. *)
Definition parse_step (mpool : Mpool) (rec_end : Z) (st : Z * LogRecord)
    : option (Z * LogRecord + Z * LogRecord) :=
  let '(p, r) := st in
  x ← binlog_get_next_field_value mpool p rec_end;
  match x with
  | inl rc => Some (inr (rc, r))
  | inr (name, fv, p') =>
      let '(rc, r') := binlog_set_field_value name fv r in
      if negb (rc =? 0) && negb (rc =? ENOENT) then Some (inr (rc, r'))
      else Some (inl (p', r'))
  end.

Definition binlog_parse_fields (mpool : Mpool) (p rec_end : Z) (r : LogRecord)
    : option (Z * LogRecord) :=
  '(rc, r, p) ← binlog_parse_first_field mpool p rec_end r;
  if negb (rc =? 0) then Some (rc, r)
  else
    '(rc, r) ← run_loop (parse_step mpool rec_end) (length mem + 2) (p, r);
    if negb (rc =? ENOENT) then Some (rc, r)
    else Some (binlog_check_required_fields r, r).

Definition binlog_check_rec_length (len : Z) : Z :=
  if len <? BINLOG_RECORD_MIN_SIZE then EAGAIN else 0.

(** [inl]: an error code; [inr]: [p] and [rec_end]. *)
Definition binlog_check_record (str len : Z) : option (Z + Z * Z) :=
  if negb (binlog_check_rec_length len =? 0) then Some (inl (binlog_check_rec_length len))
  else
    '(n, rec_start) ← strtoll_at mem str;
    let record_len := int32 n in
    c ← byte_at mem rec_start;
    if negb (Ascii.eqb c START_TAG_CHAR) then Some (inl EINVAL)
    else
      tag ← bytes_at mem rec_start START_TAG_LEN;
      if negb (text_eqb tag START_TAG_STR) then Some (inl EINVAL)
      else if record_len <? BINLOG_RECORD_MIN_SIZE - BINLOG_RECORD_SIZE_STRLEN then
        Some (inl EINVAL)
      else if len - BINLOG_RECORD_SIZE_STRLEN <? record_len then Some (inl EOVERFLOW)
      else
        let rec_end := str + BINLOG_RECORD_SIZE_STRLEN + record_len in
        end_tag ← bytes_at mem (rec_end - END_TAG_LEN) END_TAG_LEN;
        if negb (text_eqb end_tag END_TAG_STR) then Some (inl EINVAL)
        else Some (inr (rec_start + START_TAG_LEN, rec_end)).

(** The result, the record and [*record_end] ([None] is NULL). *)
Definition binlog_unpack_record_ex (str len : Z) (mpool : Mpool)
    : option (Z * LogRecord * option Z) :=
  x ← binlog_check_record str len;
  match x with
  | inl rc => Some (rc, zero_record, None)
  | inr (p, rec_end) =>
      '(rc, r) ← binlog_parse_fields mpool p rec_end
        (with_l_is_update true (with_l_dentry_type "i" zero_record));
      Some (rc, r, Some rec_end)
  end.

(** The record of the detect functions is a local variable that nothing
    initialises, and so is [pcontext.mpool]; only the data version is read,
    after the first field has set it. [inr]: [*rec_end] and [*data_version]. *)
Definition binlog_detect_record (str len : Z) : option (Z + Z * Z) :=
  x ← binlog_check_record str len;
  match x with
  | inl rc => Some (inl rc)
  | inr (p, rec_end) =>
      '(rc, r, _) ← binlog_parse_first_field MpoolUnset p rec_end zero_record;
      if negb (rc =? 0) then Some (inl rc)
      else Some (inr (rec_end, l_data_version r))
  end.

(** [Some (p, rec_end)] is true. *)
Definition binlog_is_record_start (str len : Z) : option (option (Z * Z)) :=
  if len <? BINLOG_RECORD_MIN_SIZE then Some None
  else
    '(n, rec_start) ← strtoll_at mem str;
    let record_len := int32 n in
    c ← byte_at mem rec_start;
    if negb (Ascii.eqb c START_TAG_CHAR) then Some None
    else if negb (rec_start - str =? BINLOG_RECORD_SIZE_STRLEN) then Some None
    else if len - BINLOG_RECORD_SIZE_STRLEN <? record_len then Some None
    else
      tag ← bytes_at mem rec_start START_TAG_LEN;
      if negb (text_eqb tag START_TAG_STR) then Some None
      else
        let rec_end := str + BINLOG_RECORD_SIZE_STRLEN + record_len in
        end_tag ← bytes_at mem (rec_end - END_TAG_LEN) END_TAG_LEN;
        if text_eqb end_tag END_TAG_STR then Some (Some (rec_start + START_TAG_LEN, rec_end))
        else Some None.

(** One turn of the forward scan from [p]; the result is the start of the
    record with its [p] and [rec_end]. *)
Definition forward_step (str end_ p : Z) : option (Z + option (Z * (Z * Z))) :=
  if end_ - p <? BINLOG_RECORD_MIN_SIZE then Some (inr None)
  else
    x ← memchr mem p (end_ - p) START_TAG_CHAR;
    match x with
    | None => Some (inr None)
    | Some rec_start =>
        let start := rec_start - BINLOG_RECORD_SIZE_STRLEN in
        if str <=? start then
          y ← binlog_is_record_start start (end_ - start);
          match y with
          | Some ctx => Some (inr (Some (start, ctx)))
          | None => Some (inl (rec_start + 1))
          end
        else Some (inl (rec_start + 1))
    end.

(** The result, [*rstart_offset], and [*rend_offset] with [*data_version] when
    they are set. *)
Definition binlog_detect_record_forward (str len : Z) : option (Z * Z * option (Z * Z)) :=
  x ← run_loop (forward_step str (str + len)) (length mem + 2) str;
  match x with
  | None => Some (ENOENT, -1, None)
  | Some (start, (p, rec_end)) =>
      '(rc, r, _) ← binlog_parse_first_field MpoolUnset p rec_end zero_record;
      if negb (rc =? 0) then Some (rc, start - str, None)
      else Some (0, start - str, Some (rec_end - str, l_data_version r))
  end.

(** One turn of the reverse scan, over the first [l] bytes. *)
Definition reverse_step (str len l : Z) : option (Z + option (Z * (Z * Z))) :=
  if l <=? 0 then Some (inr None)
  else
    x ← memrchr mem str l START_TAG_CHAR;
    match x with
    | None => Some (inr None)
    | Some rec_start =>
        let start := rec_start - BINLOG_RECORD_SIZE_STRLEN in
        if str <=? start then
          y ← binlog_is_record_start start (len - (start - str));
          match y with
          | Some ctx => Some (inr (Some (start, ctx)))
          | None => Some (inl ((rec_start - 1) - str))
          end
        else Some (inl ((rec_start - 1) - str))
    end.

(** The result, [*rec_end] and [*data_version] when they are set. *)
Definition binlog_detect_record_reverse (str len : Z) : option (Z * option Z * option Z) :=
  if negb (binlog_check_rec_length len =? 0) then
    Some (binlog_check_rec_length len, None, None)
  else
    x ← run_loop (reverse_step str len) (length mem + 2) len;
    match x with
    | None => Some (ENOENT, None, None)
    | Some (start, (p, rec_end)) =>
        '(rc, r, _) ← binlog_parse_first_field MpoolUnset p rec_end zero_record;
        if negb (rc =? 0) then Some (rc, Some rec_end, None)
        else Some (0, Some rec_end, Some (l_data_version r))
    end.

(** One turn of the loop of [binlog_detect_last_record_end]; the result is
    the return value with [*rec_end] ([None]: NULL, or not set when [len] is
    not positive). *)
Definition last_end_step (str l : Z) : option (Z + Z * option Z) :=
  if l <=? 0 then Some (inr (ENOENT, None))
  else
    x ← memrchr mem str l NEWLINE;
    match x with
    | None => Some (inr (ENOENT, None))
    | Some nl =>
        let rec_end := nl + 1 in
        let l := rec_end - str in
        if END_TAG_LEN <=? l then
          tag ← bytes_at mem (rec_end - END_TAG_LEN) END_TAG_LEN;
          if text_eqb tag END_TAG_STR then Some (inr (0, Some rec_end)) else Some (inl l)
        else Some (inl l)
    end.

Definition binlog_detect_last_record_end (fuel : nat) (str len : Z)
    : option (Z + Z * option Z) :=
  iterate (last_end_step str) fuel len.

End unpack.
