(* ===== verification/BinlogRecord.v ===== *)
(** * Binlog records: what the printer writes and the parser reads

    The bytes [binlog_pack_record] appends are those of a list of fields
    ([items]); the parser reads such a list field by field. From the two
    follow the round trip of a record, and what the detect functions find in
    a buffer that holds packed records. *)

From Stdlib Require Import Ascii.
From S2P Require Import Prelude CText ServerTypes BinlogPack.

(** A field as it is written: [raw] is the escaped [val]. *)
Inductive item :=
  | ItInt (name : string) (n : Z)
  | ItStr (name : string) (val raw : text).

Definition item_text (it : item) : text :=
  match it with
  | ItInt name n => lit " " ++ lit name ++ lit "=" ++ print_int n
  | ItStr name val raw =>
      lit " " ++ lit name ++ lit "=" ++ print_int (zlen raw) ++ lit "," ++ raw
  end.
Definition items_text (its : list item) : text := its ≫= item_text.

Definition item_name (it : item) : text :=
  match it with ItInt name _ | ItStr name _ _ => lit name end.
Definition item_value (it : item) : FieldValue :=
  match it with ItInt _ n => FvInteger n | ItStr _ val _ => FvString val end.

Lemma escape_pairs_ok : pairs_ok escape_pairs.
Proof. unfold pairs_ok. split_and!; apply (bool_decide_unpack _); vm_compute; exact I. Qed.

Section record.
Context `{F : FastCommon, !FastCommonLaws F}.

Definition esc (s : text) : text := fast_char_escape escape_pairs s (2 * zlen s).

(** The escaped text's length is printed with as many digits as the text's. *)
Definition same_digits (s : text) : Prop :=
  zlen (print_int (zlen (esc s))) = zlen (print_int (zlen s)).

Definition str_item (name : string) (s : text) : item := ItStr name s (esc s).

Definition head_items (r : LogRecord) : list item :=
  [ItInt "id" (l_inode r);
   ItStr "op" (get_operation_label (l_operation r)) (get_operation_label (l_operation r));
   ItInt "ts" (l_timestamp r)].
Definition path_items (r : LogRecord) : list item :=
  [str_item "ns" (l_ns r); ItInt "pt" (l_parent r); str_item "nm" (l_name r)].
Definition opt (c : bool) (it : item) : list item := if c then [it] else [].
Definition option_items (r : LogRecord) : list item :=
  let o := l_options r in let st := l_stat r in
  concat
  [[ItInt "hc" (l_hash_code r)];
   opt (lo_link o) (str_item "ln" (l_link r));
   opt (lo_mode o) (ItInt "md" (st_mode st));
   opt (lo_btime o) (ItInt "bt" (st_atime st));
   opt (lo_atime o) (ItInt "at" (st_atime st));
   opt (lo_ctime o) (ItInt "ct" (st_ctime st));
   opt (lo_mtime o) (ItInt "mt" (st_mtime st));
   opt (lo_uid o) (ItInt "ui" (int32 (st_uid st)));
   opt (lo_gid o) (ItInt "gi" (int32 (st_gid st)));
   opt (lo_size o) (ItInt "sz" (st_size st));
   opt (lo_space_end o) (ItInt "se" (st_space_end st));
   opt (lo_inc_alloc o) (ItInt "ia" (st_alloc st));
   opt (lo_src_inode o) (ItInt "si" (l_src_inode r))].
Definition operation_items (r : LogRecord) : list item :=
  if l_operation r =? BINLOG_OP_RENAME_DENTRY_INT then
    [ItInt "sp" (l_src_parent r); str_item "sn" (l_src_name r); ItInt "fl" (l_flags r)]
  else if l_operation r =? BINLOG_OP_SET_XATTR_INT then
    [str_item "xn" (l_link r); str_item "xv" (l_xattr_value r)]
  else if l_operation r =? BINLOG_OP_REMOVE_XATTR_INT then [str_item "xn" (l_link r)]
  else [].

(** All fields but the first, the data version. *)
Definition items (r : LogRecord) : list item :=
  head_items r ++ (if path_info r then path_items r else []) ++
  option_items r ++ operation_items r.
Definition dv_item (r : LogRecord) : item := ItInt "dv" (int64 (l_data_version r)).

Definition body (r : LogRecord) : text :=
  START_TAG_STR ++ items_text (dv_item r :: items r) ++ END_TAG_STR.
Definition record_text (r : LogRecord) : text := print_04 (zlen (body r)) ++ body r.

(** The strings of a record that are escaped. *)
Definition strings (r : LogRecord) : list text :=
  [l_ns r; l_name r; l_link r; l_src_name r; l_xattr_value r].

(** Room the fields of one operation need, beyond what is asked for. *)
Definition operation_room (r : LogRecord) : Z :=
  if l_operation r =? BINLOG_OP_RENAME_DENTRY_INT then 2 * zlen (l_src_name r)
  else if l_operation r =? BINLOG_OP_SET_XATTR_INT then
    2 * (zlen (l_link r) + zlen (l_xattr_value r))
  else if l_operation r =? BINLOG_OP_REMOVE_XATTR_INT then 2 * zlen (l_link r)
  else 0.

(** The buffer has room for the record: what [expect_len] asks for is enough for a
    buffer that is empty and an operation without strings of its own; else the room
    behind the bytes in use must be there already. *)
Definition pack_room (r : LogRecord) (b : FastBuffer) : Prop :=
  (fb_data b = [] ∧ operation_room r = 0) ∨
  zlen (fb_data b) + expect_len r + operation_room r ≤ fb_alloc b.

(** ** The printer *)

(** With room for [n] bytes, [f] appends [t]. *)
Definition step_ok (f : FastBuffer → FastBuffer) (n : Z) (t : text) : Prop :=
  zlen t ≤ n ∧
  ∀ b, zlen (fb_data b) + n < fb_alloc b → f b = mkFastBuffer (fb_data b ++ t) (fb_alloc b).

Lemma append_step t : step_ok (λ b, fast_buffer_append b t) (zlen t) t.
Proof using All. split; [lia|]. intros b Hb. by apply append_ok. Qed.

Lemma append_int_step name n :
  step_ok (append_int name n) (23 + zlen (lit name)) (item_text (ItInt name n)).
Proof using All.
  pose proof (print_int_length n). split; [|intros b Hb; apply append_ok];
    unfold item_text; autorewrite with zlen; change (zlen (lit " ")) with 1;
    change (zlen (lit "=")) with 1; lia.
Qed.

Lemma plain_stringl_step name val :
  step_ok (binlog_pack_stringl name val false) (25 + zlen (lit name) + zlen val)
    (item_text (ItStr name val val)).
Proof using All.
  pose proof (print_int_length (zlen val)).
  pose proof (zlen_nonneg val).
  assert (Hl : zlen (lit " " ++ lit name ++ lit "=" ++ print_int (zlen val) ++ lit ",")
    ≤ 24 + zlen (lit name)).
  { autorewrite with zlen. change (zlen (lit " ")) with 1. change (zlen (lit "=")) with 1.
    change (zlen (lit ",")) with 1. lia. }
  assert (He : item_text (ItStr name val val) =
    (lit " " ++ lit name ++ lit "=" ++ print_int (zlen val) ++ lit ",") ++ val).
  { unfold item_text. by rewrite <- !app_assoc. }
  rewrite He. split; [rewrite zlen_app; lia|]. intros b Hb. unfold binlog_pack_stringl.
  rewrite (append_ok b) by lia.
  rewrite append_ok by (cbn [fb_data fb_alloc]; rewrite zlen_app; lia).
  cbn [fb_data fb_alloc]. by rewrite <- app_assoc.
Qed.

Lemma stringl_step name val :
  same_digits val →
  step_ok (binlog_pack_stringl name val true) (25 + zlen (lit name) + 2 * zlen val)
    (item_text (str_item name val)).
Proof using All.
  intros Hsame. unfold same_digits in Hsame.
  pose proof (print_int_length (zlen val)) as Hpl.
  pose proof (escape_length escape_pairs val escape_pairs_ok) as He. fold (esc val) in He.
  set (pre := lit " " ++ lit name ++ lit "=") in *.
  assert (Hpre : zlen pre = 2 + zlen (lit name)).
  { unfold pre. rewrite !zlen_app. change (zlen (lit " ")) with 1.
    change (zlen (lit "=")) with 1. lia. }
  assert (Ht : item_text (str_item name val) =
    pre ++ print_int (zlen (esc val)) ++ lit "," ++ esc val).
  { unfold item_text, str_item, pre. by rewrite <- !app_assoc. }
  assert (Hcomma : zlen (lit ",") = 1) by done.
  rewrite Ht. split; [rewrite !zlen_app; lia|]. intros b Hb. unfold binlog_pack_stringl.
  replace (lit " " ++ lit name ++ lit "=" ++ print_int (zlen val) ++ lit ",")
    with (pre ++ print_int (zlen val) ++ lit ",") by (unfold pre; by rewrite <- !app_assoc).
  rewrite append_ok by (rewrite !zlen_app; lia). unfold fb_room. cbn [fb_data fb_alloc].
  rewrite escape_room by (rewrite !zlen_app; lia). fold (esc val).
  destruct (Z.eqb_spec (zlen (esc val)) (zlen val)) as [Heq|Hne]; cbn [negb].
  - unfold push_bytes. cbn [fb_data fb_alloc]. rewrite Heq. by rewrite <- !app_assoc.
  - rewrite Hsame, Z.eqb_refl. unfold push_bytes. cbn [fb_data fb_alloc]. f_equal.
    replace (fb_data b ++ pre ++ print_int (zlen val) ++ lit ",")
      with ((fb_data b ++ pre) ++ print_int (zlen val) ++ lit ",") by (by rewrite <- !app_assoc).
    rewrite overwrite_app; [by rewrite <- !app_assoc| |unfold zlen in *; lia].
    rewrite !zlen_app. lia.
Qed.

Lemma when_step c f n it :
  0 ≤ n → step_ok f n (item_text it) → step_ok (when c f) n (items_text (opt c it)).
Proof.
  intros Hn [Hl Hf]. destruct c; unfold when, opt, items_text; cbn [mbind list_bind].
  - rewrite app_nil_r. by split.
  - split; [done|]. intros b Hb. rewrite app_nil_r. by destruct b.
Qed.

Lemma step_weaken f n m t : step_ok f n t → n ≤ m → step_ok f m t.
Proof. intros [Ht Hf] Hm. split; [lia|]. intros b Hb. apply Hf. lia. Qed.

(** A sequence of steps, each with the fields it writes. *)
Inductive steps_ok : list (FastBuffer → FastBuffer) → Z → text → Prop :=
  | steps_nil : steps_ok [] 0 []
  | steps_cons f fs n m t u :
      step_ok f n t → steps_ok fs m u → steps_ok (f :: fs) (n + m) (t ++ u).

Lemma steps_run fs n t : steps_ok fs n t → step_ok (steps fs) n t.
Proof.
  induction 1 as [|f fs n m t u [Ht Hf] _ [Hu IH]].
  - split; [done|]. intros b _. rewrite app_nil_r. by destruct b.
  - split; [rewrite zlen_app; lia|]. intros b Hb. cbn [steps fold_left].
    change (fold_left (λ b f, f b) fs (f b)) with (steps fs (f b)).
    pose proof (zlen_nonneg u). rewrite Hf by lia.
    rewrite IH by (cbn [fb_data fb_alloc]; rewrite zlen_app; lia).
    cbn [fb_data fb_alloc]. by rewrite <- app_assoc.
Qed.

Lemma steps_eq fs n t u : steps_ok fs n t → t = u → steps_ok fs n u.
Proof. by intros ? <-. Qed.

Lemma when_step_cond c f n it :
  step_ok f n (item_text it) →
  step_ok (when c f) (if c then n else 0) (items_text (opt c it)).
Proof using All.
  intros Hf. destruct c.
  - apply (when_step true); [|done]. destruct Hf. pose proof (zlen_nonneg (item_text it)). lia.
  - split; [done|]. intros b Hb. cbn. rewrite app_nil_r. by destruct b.
Qed.

Lemma items_text_app its its' : items_text (its ++ its') = items_text its ++ items_text its'.
Proof. apply bind_app. Qed.
Lemma items_text_cons it its : items_text (it :: its) = item_text it ++ items_text its.
Proof. done. Qed.

Ltac steps_tac :=
  repeat match goal with
  | |- steps_ok [] _ _ => apply steps_nil
  | |- steps_ok (_ :: _) _ _ => eapply steps_cons
  | |- step_ok (when (lo_link _) _) _ _ => eapply when_step_cond
  | |- step_ok (when _ _) _ _ => eapply when_step; [|apply append_int_step]; by vm_compute
  | |- step_ok (append_int _ _) _ _ => apply append_int_step
  | |- step_ok (binlog_pack_stringl _ _ false) _ _ => apply plain_stringl_step
  | |- step_ok (binlog_pack_stringl _ _ true) _ _ => apply stringl_step; by eauto
  | |- step_ok (λ b, fast_buffer_append b _) _ _ => apply append_step
  end.

Lemma head_steps r :
  step_ok (steps (pack_head r)) 120 (START_TAG_STR ++ items_text (dv_item r :: head_items r)).
Proof using All.
  assert (Hop : zlen (get_operation_label (l_operation r)) ≤ 2).
  { unfold get_operation_label. repeat case_match; done. }
  eapply (step_weaken _ (4 + (25 + (25 + (27 + zlen (get_operation_label (l_operation r)) +
    (25 + 0)))))); [|lia].
  apply steps_run. eapply steps_eq; [unfold pack_head; steps_tac|].
  unfold head_items. by rewrite !items_text_cons.
Qed.

Section strings_ok.
Variable r : LogRecord.
Hypothesis Hs : Forall same_digits (strings r).

Lemma path_steps :
  step_ok (steps (pack_path r)) (79 + 2 * zlen (l_ns r) + 2 * zlen (l_name r))
    (items_text (path_items r)).
Proof using All.
  unfold strings in Hs. rewrite !Forall_cons in Hs. destruct Hs as (? & ? & ? & ? & ? & _).
  eapply step_weaken; [apply steps_run; eapply steps_eq; [unfold pack_path; steps_tac|]|].
  - unfold path_items. by rewrite !items_text_cons.
  - change (zlen (lit "ns")) with 2. change (zlen (lit "pt")) with 2.
    change (zlen (lit "nm")) with 2. lia.
Qed.

Lemma option_steps :
  step_ok (steps (pack_options r))
    (327 + (if lo_link (l_options r) then 2 * zlen (l_link r) else 0))
    (items_text (option_items r)).
Proof using All.
  unfold strings in Hs. rewrite !Forall_cons in Hs. destruct Hs as (? & ? & ? & ? & ? & _).
  eapply step_weaken; [apply steps_run; eapply steps_eq; [unfold pack_options; steps_tac|]|].
  - unfold option_items. cbn [concat]. rewrite !items_text_app.
    by rewrite items_text_cons, <- app_assoc.
  - repeat match goal with |- context [zlen (lit ?s)] => change (zlen (lit s)) with 2 end.
    destruct (lo_link (l_options r)); lia.
Qed.

Lemma operation_steps :
  step_ok (steps (pack_operation r)) (77 + operation_room r) (items_text (operation_items r)).
Proof using All.
  unfold strings in Hs. rewrite !Forall_cons in Hs. destruct Hs as (? & ? & ? & ? & ? & _).
  unfold operation_room, pack_operation, operation_items.
  destruct (l_operation r =? BINLOG_OP_RENAME_DENTRY_INT);
    [|destruct (l_operation r =? BINLOG_OP_SET_XATTR_INT);
      [|destruct (l_operation r =? BINLOG_OP_REMOVE_XATTR_INT)]];
    (eapply step_weaken; [apply steps_run; eapply steps_eq; [steps_tac|done]|]);
    repeat match goal with |- context [zlen (lit ?s)] => change (zlen (lit s)) with 2 end; lia.
Qed.
End strings_ok.

Lemma seq_step f g n m t u :
  step_ok f n t → step_ok g m u → step_ok (λ b, g (f b)) (n + m) (t ++ u).
Proof.
  intros [Ht Hf] [Hu Hg]. split; [rewrite zlen_app; lia|]. intros b Hb.
  pose proof (zlen_nonneg u). rewrite Hf by lia.
  rewrite Hg by (cbn [fb_data fb_alloc]; rewrite zlen_app; lia).
  cbn [fb_data fb_alloc]. by rewrite <- app_assoc.
Qed.

Lemma cond_step (c : bool) f n t :
  step_ok f n t →
  step_ok (λ b, if c then f b else b) (if c then n else 0) (if c then t else []).
Proof.
  intros [Ht Hf]. destruct c; [by split|]. split; [done|]. intros b _.
  rewrite app_nil_r. by destruct b.
Qed.

Definition fields_text (r : LogRecord) : text :=
  (if path_info r then items_text (path_items r) else []) ++
  items_text (option_items r) ++ items_text (operation_items r) ++ END_TAG_STR.

Lemma body_fields r :
  body r = (START_TAG_STR ++ items_text (dv_item r :: head_items r)) ++ fields_text r.
Proof.
  unfold body, items, fields_text.
  rewrite !items_text_cons, !items_text_app, <- !app_assoc. by destruct (path_info r).
Qed.

Lemma operation_room_nonneg r : 0 ≤ operation_room r.
Proof.
  pose proof (zlen_nonneg (l_src_name r)). pose proof (zlen_nonneg (l_xattr_value r)).
  pose proof (zlen_nonneg (l_link r)). unfold operation_room. repeat case_match; lia.
Qed.

(** The room the fields need is what [expect_len] asks for, and
    [operation_room]. *)
Lemma fields_steps r :
  Forall same_digits (strings r) →
  step_ok (λ b, fast_buffer_append
      (steps (pack_operation r)
        (steps (pack_options r) (if path_info r then steps (pack_path r) b else b))) END_TAG_STR)
    (expect_len r + operation_room r - 500) (fields_text r).
Proof using All.
  intros Hs. unfold fields_text.
  eapply step_weaken.
  - rewrite !app_assoc.
    apply (seq_step (λ b, steps (pack_operation r) (steps (pack_options r)
      (if path_info r then steps (pack_path r) b else b))) (λ b, fast_buffer_append b END_TAG_STR));
      [|apply append_step].
    apply (seq_step (λ b, steps (pack_options r)
      (if path_info r then steps (pack_path r) b else b)) (steps (pack_operation r)));
      [|by apply operation_steps].
    apply (seq_step (λ b, if path_info r then steps (pack_path r) b else b)
      (steps (pack_options r))); [|by apply option_steps].
    by apply cond_step, path_steps.
  - unfold expect_len. change (zlen END_TAG_STR) with 6.
    destruct (path_info r), (lo_link (l_options r)); lia.
Qed.

Lemma put_record_len_text d t a :
  zlen (START_TAG_CHAR :: t) ≤ BINLOG_RECORD_MAX_SIZE →
  put_record_len (zlen d) (zlen (START_TAG_CHAR :: t))
    (mkFastBuffer (d ++ replicate 4 Ascii.zero ++ START_TAG_CHAR :: t) a) =
  mkFastBuffer (d ++ print_04 (zlen (START_TAG_CHAR :: t)) ++ START_TAG_CHAR :: t) a.
Proof.
  set (n := zlen (START_TAG_CHAR :: t)). unfold BINLOG_RECORD_MAX_SIZE. intros Hn.
  pose proof (print_04_length n ltac:(pose proof (zlen_nonneg (START_TAG_CHAR :: t)); lia)) as H4.
  unfold put_record_len. cbn [fb_data fb_alloc]. f_equal.
  change (START_TAG_CHAR :: t) with ([START_TAG_CHAR] ++ t).
  rewrite (app_assoc (replicate _ _)), overwrite_app; [|done|by rewrite length_app, H4].
  rewrite <- app_assoc, (app_assoc d), overwrite_app.
  - by rewrite <- app_assoc.
  - rewrite zlen_app. unfold zlen at 3. rewrite H4. done.
  - done.
Qed.

(** The whole record: what [binlog_pack_record] returns and appends. *)
Lemma pack_record_text r b b1 :
  fast_buffer_check_capacity b (expect_len r) = (0, b1) →
  pack_room r b →
  Forall same_digits (strings r) →
  (path_info r = true → l_parent r = 0 → l_name r = []) →
  binlog_pack_record r b =
  if BINLOG_RECORD_MAX_SIZE <? zlen (body r) then
    (EOVERFLOW, mkFastBuffer (fb_data b ++ replicate 4 Ascii.zero ++ body r) (fb_alloc b1))
  else (0, mkFastBuffer (fb_data b ++ record_text r) (fb_alloc b1)).
Proof using All.
  intros Hcap Hroom Hs Hpath. unfold binlog_pack_record. rewrite Hcap. cbn [negb Z.eqb].
  destruct (check_capacity_ok _ _ _ Hcap) as (Hd & Ha & Hn). rewrite Hd.
  pose proof (operation_room_nonneg r).
  assert (Hr : zlen (fb_data b) + expect_len r + operation_room r ≤ fb_alloc b1)
    by (destruct Hroom as [[-> ->]|]; rewrite ?zlen_nil in *; lia).
  set (H4 := replicate 4 Ascii.zero). assert (Hz : zlen H4 = 4) by done.
  destruct (head_steps r) as [Hhl Hh]. destruct (fields_steps r Hs) as [Hfl Hf].
  assert (He : 1024 ≤ expect_len r).
  { pose proof (zlen_nonneg (l_ns r)). pose proof (zlen_nonneg (l_name r)).
    pose proof (zlen_nonneg (l_link r)). unfold expect_len.
    destruct (path_info r), (lo_link _); lia. }
  replace (push_bytes H4 b1) with (mkFastBuffer (fb_data b ++ H4) (fb_alloc b1))
    by (unfold push_bytes; by rewrite Hd).
  rewrite Hh by (cbn [fb_data fb_alloc]; rewrite zlen_app; lia). cbn [fb_data fb_alloc].
  set (b2 := mkFastBuffer _ _). specialize (Hf b2). cbv beta in Hf.
  assert (Hno : path_info r && ((l_parent r =? 0) && (0 <? zlen (l_name r))) = false).
  { destruct (path_info r) eqn:Hpi; [|done]. cbn [andb].
    destruct (Z.eqb_spec (l_parent r) 0) as [E|]; [|done]. by rewrite (Hpath eq_refl E). }
  rewrite Hno. rewrite Hf by (unfold b2; cbn [fb_data fb_alloc]; rewrite (zlen_app _ (_ ++ _)), zlen_app; lia).
  unfold b2. cbn [fb_data fb_alloc]. rewrite <- !app_assoc, (app_assoc START_TAG_STR), <- body_fields.
  replace (zlen (fb_data b ++ H4 ++ body r) - zlen (fb_data b) - BINLOG_RECORD_SIZE_STRLEN)
    with (zlen (body r)) by (rewrite !zlen_app; unfold BINLOG_RECORD_SIZE_STRLEN; lia).
  destruct (Z.ltb_spec BINLOG_RECORD_MAX_SIZE (zlen (body r))) as [|Hmax]; [done|]. f_equal.
  exact (put_record_len_text (fb_data b) (tail (body r)) (fb_alloc b1) Hmax).
Qed.

(** ** The parser, one field *)

(** The character after a field: a space, or the end tag at the record's end. *)
Definition stops (c : ascii) (at_ rec_end : Z) : Prop :=
  c = " "%char ∨ (c = "/"%char ∧ rec_end - at_ = END_TAG_LEN).

(** What is read of a field before its value. *)
Lemma next_head mem pre name v rec_end :
  mem = pre ++ lit " " ++ lit name ++ lit "=" ++ v →
  zlen (lit name) = 2 → 11 ≤ rec_end - zlen pre < 2 ^ 31 →
  byte_at mem (zlen pre) = Some " "%char ∧
  (uint64 (int32 (rec_end - zlen pre) - 1) <? END_TAG_LEN + 4) = false ∧
  byte_at mem (zlen pre + 1 + FIELD_NAME_LENGTH) = Some "="%char ∧
  bytes_at mem (zlen pre + 1) FIELD_NAME_LENGTH = Some (lit name) ∧
  mem = (pre ++ lit " " ++ lit name ++ lit "=") ++ v.
Proof.
  intros -> Hname Hr. split_and!.
  - by apply byte_at_app.
  - rewrite int32_small by (unfold is_int32; lia). rewrite uint64_small by lia.
    apply Z.ltb_ge. unfold END_TAG_LEN. lia.
  - replace (pre ++ lit " " ++ lit name ++ lit "=" ++ v)
      with ((pre ++ lit " " ++ lit name) ++ "="%char :: v) by (by rewrite <- !app_assoc).
    apply byte_at_app. rewrite !zlen_app, Hname. unfold FIELD_NAME_LENGTH.
    change (zlen (lit " ")) with 1. lia.
  - rewrite app_assoc. apply bytes_at_app; [by rewrite zlen_app|done].
  - by rewrite <- !app_assoc.
Qed.

Lemma int_text_length name n :
  zlen (lit name) = 2 → zlen (item_text (ItInt name n)) = 4 + zlen (print_int n).
Proof.
  intros Hn. unfold item_text. rewrite !zlen_app, Hn.
  change (zlen (lit " ")) with 1. change (zlen (lit "=")) with 1. lia.
Qed.

Lemma next_int mem mpool pre name n c rest rec_end p' :
  mem = pre ++ item_text (ItInt name n) ++ c :: rest →
  zlen (lit name) = 2 → is_int64 n → p' = zlen pre + zlen (item_text (ItInt name n)) →
  stops c p' rec_end → p' + 6 ≤ rec_end → rec_end - zlen pre < 2 ^ 31 →
  binlog_get_next_field_value mem mpool (zlen pre) rec_end =
  Some (inr (lit name, FvInteger n, p')).
Proof.
  intros Hmem Hname Hn Hp' Hc Hlo Hhi. rewrite (int_text_length _ _ Hname) in Hp'.
  pose proof (print_int_nonempty n).
  destruct (next_head mem pre name (print_int n ++ c :: rest) rec_end)
    as (H1 & H2 & H3 & H4 & Hm); [|done|lia|].
  { rewrite Hmem. unfold item_text. by rewrite <- !app_assoc. }
  unfold binlog_get_next_field_value. rewrite H1. cbn [mbind option_bind].
  change (Ascii.eqb " " "/") with false. cbn [Ascii.eqb Bool.eqb negb]. rewrite H2, H3.
  cbn [mbind option_bind Ascii.eqb Bool.eqb negb]. rewrite H4. cbn [mbind option_bind].
  assert (Hd : is_digit c = false) by (by destruct Hc as [->|[-> _]]).
  rewrite Hm, strtoll_at_print; [|rewrite !zlen_app, Hname; unfold FIELD_NAME_LENGTH;
    change (zlen (lit " ")) with 1; change (zlen (lit "=")) with 1; lia|done|done].
  cbn [mbind option_bind]. rewrite app_assoc, byte_at_app; cycle 1.
  { rewrite !zlen_app, Hname. change (zlen (lit " ")) with 1. change (zlen (lit "=")) with 1.
    unfold FIELD_NAME_LENGTH. lia. }
  cbn [mbind option_bind]. replace (zlen pre + 1 + FIELD_NAME_LENGTH + 1 + zlen (print_int n))
    with p' by (unfold FIELD_NAME_LENGTH; lia).
  destruct Hc as [->|[-> ->]]; done.
Qed.

Lemma str_text_length name val raw :
  zlen (lit name) = 2 →
  zlen (item_text (ItStr name val raw)) = 5 + zlen (print_int (zlen raw)) + zlen raw.
Proof.
  intros Hn. unfold item_text. rewrite !zlen_app, Hn.
  change (zlen (lit " ")) with 1. change (zlen (lit "=")) with 1.
  change (zlen (lit ",")) with 1. lia.
Qed.

(** A string field. Its bytes may run past the record's end: see
    [string_overrun_accepted]. *)
Lemma next_str mem mpool pre name val raw rest rec_end p' :
  mem = pre ++ item_text (ItStr name val raw) ++ rest →
  zlen (lit name) = 2 → zlen raw < 2 ^ 31 →
  p' = zlen pre + zlen (item_text (ItStr name val raw)) →
  (uint64 (rec_end - p') <? END_TAG_LEN) = false → 11 ≤ rec_end - zlen pre < 2 ^ 31 →
  binlog_get_next_field_value mem mpool (zlen pre) rec_end =
  match find_char BACKSLASH raw with
  | None => Some (inr (lit name, FvString raw, p'))
  | Some _ =>
      let value := FvString (fast_char_unescape escape_pairs raw) in
      match mpool with
      | MpoolUnset => None
      | MpoolNull => Some (inr (lit name, value, p'))
      | MpoolAlloc ok => if ok raw then Some (inr (lit name, value, p')) else Some (inl ENOMEM)
      end
  end.
Proof.
  intros Hmem Hname Hraw Hp' Hend Hr. rewrite (str_text_length _ _ _ Hname) in Hp'.
  pose proof (print_int_nonempty (zlen raw)). pose proof (zlen_nonneg raw).
  destruct (next_head mem pre name (print_int (zlen raw) ++ ","%char :: raw ++ rest) rec_end)
    as (H1 & H2 & H3 & H4 & Hm); [|done|lia|].
  { rewrite Hmem. unfold item_text. by rewrite <- !app_assoc. }
  set (pre' := pre ++ lit " " ++ lit name ++ lit "=") in *.
  assert (Hpre' : zlen pre' = zlen pre + 4).
  { unfold pre'. rewrite !zlen_app, Hname. change (zlen (lit " ")) with 1.
    change (zlen (lit "=")) with 1. lia. }
  unfold binlog_get_next_field_value. rewrite H1. cbn [mbind option_bind].
  change (Ascii.eqb " " "/") with false. cbn [Ascii.eqb Bool.eqb negb]. rewrite H2, H3.
  cbn [mbind option_bind Ascii.eqb Bool.eqb negb]. rewrite H4. cbn [mbind option_bind].
  rewrite Hm, strtoll_at_print; [|unfold FIELD_NAME_LENGTH; lia|unfold is_int64; lia|done].
  cbn [mbind option_bind].
  rewrite app_assoc, byte_at_app by (rewrite zlen_app; unfold FIELD_NAME_LENGTH; lia).
  cbn [mbind option_bind]. change (Ascii.eqb "," ",") with true. cbn iota.
  replace (zlen pre + 1 + FIELD_NAME_LENGTH + 1 + zlen (print_int (zlen raw)) + 1 + zlen raw)
    with p' by (unfold FIELD_NAME_LENGTH; lia).
  rewrite Hend, int32_small by (unfold is_int32; lia).
  change (","%char :: raw ++ rest) with ([","%char] ++ raw ++ rest).
  rewrite app_assoc, bytes_at_app; [done| |done].
  rewrite !zlen_app. change (zlen [","%char]) with 1. unfold FIELD_NAME_LENGTH. lia.
Qed.

(** The pool gives the copies of the escaped strings. *)
Definition pool_ok (mpool : Mpool) : Prop :=
  match mpool with
  | MpoolNull => True
  | MpoolAlloc ok => ∀ s, ok s = true
  | MpoolUnset => False
  end.

(** An escaped string is read back. *)
Lemma next_escaped mem mpool pre name val rest rec_end p' :
  mem = pre ++ item_text (str_item name val) ++ rest →
  pool_ok mpool → zlen (lit name) = 2 → zlen mem < 2 ^ 31 →
  p' = zlen pre + zlen (item_text (str_item name val)) →
  p' + 6 ≤ rec_end ≤ zlen mem →
  binlog_get_next_field_value mem mpool (zlen pre) rec_end =
  Some (inr (lit name, FvString val, p')).
Proof using All.
  intros Hmem Hpool Hname Hlen Hp' Hr.
  pose proof (str_text_length name val (esc val) Hname) as Hl.
  pose proof (print_int_nonempty (zlen (esc val))). pose proof (zlen_nonneg (esc val)).
  pose proof (zlen_nonneg pre). pose proof (zlen_nonneg rest).
  unfold str_item in *. assert (zlen mem = p' + zlen rest) by (rewrite Hmem, !zlen_app; lia).
  rewrite (next_str _ mpool pre name val (esc val) rest rec_end p' Hmem);
    [|done|lia|done| |lia].
  2:{ rewrite uint64_small by lia. apply Z.ltb_ge. unfold END_TAG_LEN. lia. }
  unfold esc. destruct (find_char BACKSLASH _) eqn:E.
  - rewrite unescape_escape by apply escape_pairs_ok. cbn zeta.
    destruct mpool as [|ok|]; [done| |done]. by rewrite (Hpool _).
  - apply find_char_None in E. by rewrite escape_same by (done || apply escape_pairs_ok).
Qed.

(** ** The parser, a list of fields *)

Definition item_readable (it : item) : Prop :=
  zlen (item_name it) = 2 ∧
  match it with
  | ItInt _ n => is_int64 n
  | ItStr _ val raw => raw = esc val ∨ (raw = val ∧ BACKSLASH ∉ val)
  end.

Lemma next_item mem mpool pre it c rest rec_end p' :
  mem = pre ++ item_text it ++ c :: rest →
  item_readable it → pool_ok mpool → zlen mem < 2 ^ 31 →
  p' = zlen pre + zlen (item_text it) → stops c p' rec_end → p' + 6 ≤ rec_end ≤ zlen mem →
  binlog_get_next_field_value mem mpool (zlen pre) rec_end =
  Some (inr (item_name it, item_value it, p')).
Proof using All.
  intros Hmem [Hname Hit] Hpool Hlen Hp' Hc Hr. pose proof (zlen_nonneg pre).
  destruct it as [name n|name val raw]; cbn [item_name item_value] in *.
  - eapply next_int; eauto; lia.
  - destruct Hit as [->|[-> Hb]]; [by eapply next_escaped|].
    pose proof (str_text_length name val val Hname) as Hl. pose proof (zlen_nonneg rest).
    pose proof (print_int_nonempty (zlen val)). pose proof (zlen_nonneg val).
    assert (zlen mem = p' + 1 + zlen rest) by (rewrite Hmem, !zlen_app, zlen_cons; lia).
    rewrite (next_str _ mpool pre name val val (c :: rest) rec_end p' Hmem); [|done|lia|done| |lia].
    + apply find_char_None in Hb. by rewrite Hb.
    + rewrite uint64_small by lia. apply Z.ltb_ge. unfold END_TAG_LEN. lia.
Qed.

Definition set_item (r : LogRecord) (it : item) : LogRecord :=
  (binlog_set_field_value (item_name it) (item_value it) r).2.
Definition settable (it : item) : Prop :=
  ∀ r, (binlog_set_field_value (item_name it) (item_value it) r).1 = 0.

(** What follows a field of the record. *)
Lemma items_stop its rest p rec_end :
  rec_end = p + zlen (items_text its) + 6 →
  ∃ c rest', items_text its ++ END_TAG_STR ++ rest = c :: rest' ∧ stops c p rec_end.
Proof.
  intros ->. destruct its as [|it its].
  - exists "/"%char, (drop 1 END_TAG_STR ++ rest). split; [done|]. right. split; [done|].
    unfold items_text, END_TAG_LEN. simpl. rewrite zlen_nil. lia.
  - exists " "%char. rewrite items_text_cons, <- app_assoc.
    destruct it; (eexists; split; [reflexivity|by left]).
Qed.

Lemma parse_items mpool rest its pre r rec_end mem fuel :
  mem = pre ++ items_text its ++ END_TAG_STR ++ rest →
  rec_end = zlen pre + zlen (items_text its) + 6 →
  pool_ok mpool → zlen mem < 2 ^ 31 →
  Forall item_readable its → Forall settable its → (length its < fuel)%nat →
  run_loop (parse_step mem mpool rec_end) fuel (zlen pre, r) =
  Some (ENOENT, fold_left set_item its r).
Proof using All.
  intros Hmem Hend Hpool Hlen Hread Hset. revert pre r fuel Hmem Hend.
  induction its as [|it its IH]; intros pre r fuel Hmem Hend Hfuel;
    (destruct fuel as [|fuel]; [simpl in Hfuel; lia|]).
  - apply run_loop_done. unfold parse_step, binlog_get_next_field_value.
    rewrite Hmem. change (items_text [] ++ END_TAG_STR ++ rest) with
      ("/"%char :: drop 1 END_TAG_STR ++ rest).
    rewrite (byte_at_app pre _ _ _ eq_refl).
    cbn [mbind option_bind]. rewrite Ascii.eqb_refl.
    change (zlen (items_text [])) with 0 in Hend.
    replace (rec_end - zlen pre) with END_TAG_LEN by (unfold END_TAG_LEN; lia). done.
  - apply Forall_cons in Hread as [Hri Hread]. apply Forall_cons in Hset as [Hsi Hset].
    rewrite items_text_cons, <- app_assoc in Hmem. rewrite items_text_cons, zlen_app in Hend.
    destruct (items_stop its rest (zlen (pre ++ item_text it)) rec_end)
      as (c & rest' & Hc & Hstop); [rewrite zlen_app; lia|].
    assert (Hl : rec_end ≤ zlen mem).
    { rewrite Hmem, !zlen_app. change (zlen END_TAG_STR) with 6.
      pose proof (zlen_nonneg rest). lia. }
    pose proof (zlen_nonneg (items_text its)).
    erewrite run_loop_step.
    + cbn [fold_left]. apply (IH Hread Hset (pre ++ item_text it)).
      * by rewrite <- app_assoc.
      * rewrite zlen_app. lia.
      * simpl in Hfuel. lia.
    + unfold parse_step. rewrite Hc in Hmem.
      rewrite (next_item mem mpool pre it c rest' rec_end (zlen (pre ++ item_text it)));
        try done; [|by rewrite zlen_app|rewrite zlen_app; lia].
      cbn [mbind option_bind].
      assert (Hs0 := Hsi r). unfold set_item.
      destruct (binlog_set_field_value _ _ r) as [rc r'] eqn:E. cbn [fst snd] in *.
      by rewrite Hs0.
Qed.

(** ** The record the fields give *)

(** A conditional update of a record is one of its fields. *)
Lemma if_record (c : bool) a0 a1 a2 a3 a4 a5 a6 a7 a8 a9 a10 a11 a12 a13 a14 a15 a16 a17 b0
  b1 b2 b3 b4 b5 b6 b7 b8 b9 b10 b11 b12 b13 b14 b15 b16 b17 : (if c then mkLogRecord a0 a1
  a2 a3 a4 a5 a6 a7 a8 a9 a10 a11 a12 a13 a14 a15 a16 a17 else mkLogRecord b0 b1 b2 b3 b4 b5
  b6 b7 b8 b9 b10 b11 b12 b13 b14 b15 b16 b17) = mkLogRecord (if c then a0 else b0) (if c
  then a1 else b1) (if c then a2 else b2) (if c then a3 else b3) (if c then a4 else b4) (if
  c then a5 else b5) (if c then a6 else b6) (if c then a7 else b7) (if c then a8 else b8)
  (if c then a9 else b9) (if c then a10 else b10) (if c then a11 else b11) (if c then a12
  else b12) (if c then a13 else b13) (if c then a14 else b14) (if c then a15 else b15) (if c
  then a16 else b16) (if c then a17 else b17).
Proof. by destruct c. Qed.
Lemma if_options (c : bool) a0 a1 a2 a3 a4 a5 a6 a7 a8 a9 a10 a11 a12 a13 a14 b0 b1 b2 b3 b4
  b5 b6 b7 b8 b9 b10 b11 b12 b13 b14 : (if c then mkLogOptions a0 a1 a2 a3 a4 a5 a6 a7 a8 a9
  a10 a11 a12 a13 a14 else mkLogOptions b0 b1 b2 b3 b4 b5 b6 b7 b8 b9 b10 b11 b12 b13 b14) =
  mkLogOptions (if c then a0 else b0) (if c then a1 else b1) (if c then a2 else b2) (if c
  then a3 else b3) (if c then a4 else b4) (if c then a5 else b5) (if c then a6 else b6) (if
  c then a7 else b7) (if c then a8 else b8) (if c then a9 else b9) (if c then a10 else b10)
  (if c then a11 else b11) (if c then a12 else b12) (if c then a13 else b13) (if c then a14
  else b14).
Proof. by destruct c. Qed.
Lemma if_stat (c : bool) a0 a1 a2 a3 a4 a5 a6 a7 a8 a9 a10 b0 b1 b2 b3 b4 b5 b6 b7 b8 b9 b10
  : (if c then mkDEntryStat a0 a1 a2 a3 a4 a5 a6 a7 a8 a9 a10 else mkDEntryStat b0 b1 b2 b3
  b4 b5 b6 b7 b8 b9 b10) = mkDEntryStat (if c then a0 else b0) (if c then a1 else b1) (if c
  then a2 else b2) (if c then a3 else b3) (if c then a4 else b4) (if c then a5 else b5) (if
  c then a6 else b6) (if c then a7 else b7) (if c then a8 else b8) (if c then a9 else b9)
  (if c then a10 else b10).
Proof. by destruct c. Qed.
Lemma if_same {A} (c : bool) (x : A) : (if c then x else x) = x.
Proof. by destruct c. Qed.
Lemma if_true_false (c : bool) : (if c then true else false) = c.
Proof. by destruct c. Qed.

Lemma set_dv r n : set_item r (ItInt "dv" n) =
  with_l_data_version (uint64 n) r.
Proof. reflexivity. Qed.
Lemma set_id r n : set_item r (ItInt "id" n) =
  with_l_inode n r.
Proof. reflexivity. Qed.
Lemma set_pt r n : set_item r (ItInt "pt" n) =
  with_l_parent n r.
Proof. reflexivity. Qed.
Lemma set_sp r n : set_item r (ItInt "sp" n) =
  with_l_src_parent n r.
Proof. reflexivity. Qed.
Lemma set_fl r n : set_item r (ItInt "fl" n) =
  with_l_flags (int32 n) r.
Proof. reflexivity. Qed.
Lemma set_ts r n : set_item r (ItInt "ts" n) =
  with_l_timestamp (int32 n) r.
Proof. reflexivity. Qed.
Lemma set_md r n : set_item r (ItInt "md" n) =
  set_option (with_lo_mode true) (set_stat (with_st_mode (int32 n)) r).
Proof. reflexivity. Qed.
Lemma set_bt r n : set_item r (ItInt "bt" n) =
  set_option (with_lo_btime true) (set_stat (with_st_btime (int32 n)) r).
Proof. reflexivity. Qed.
Lemma set_at r n : set_item r (ItInt "at" n) =
  set_option (with_lo_atime true) (set_stat (with_st_atime (int32 n)) r).
Proof. reflexivity. Qed.
Lemma set_ct r n : set_item r (ItInt "ct" n) =
  set_option (with_lo_ctime true) (set_stat (with_st_ctime (int32 n)) r).
Proof. reflexivity. Qed.
Lemma set_mt r n : set_item r (ItInt "mt" n) =
  set_option (with_lo_mtime true) (set_stat (with_st_mtime (int32 n)) r).
Proof. reflexivity. Qed.
Lemma set_ui r n : set_item r (ItInt "ui" n) =
  set_option (with_lo_uid true) (set_stat (with_st_uid (uint32 n)) r).
Proof. reflexivity. Qed.
Lemma set_gi r n : set_item r (ItInt "gi" n) =
  set_option (with_lo_gid true) (set_stat (with_st_gid (uint32 n)) r).
Proof. reflexivity. Qed.
Lemma set_sz r n : set_item r (ItInt "sz" n) =
  set_option (with_lo_size true) (set_stat (with_st_size n) r).
Proof. reflexivity. Qed.
Lemma set_se r n : set_item r (ItInt "se" n) =
  set_option (with_lo_space_end true) (set_stat (with_st_space_end n) r).
Proof. reflexivity. Qed.
Lemma set_ia r n : set_item r (ItInt "ia" n) =
  set_option (with_lo_inc_alloc true) (set_stat (with_st_alloc n) r).
Proof. reflexivity. Qed.
Lemma set_hc r n : set_item r (ItInt "hc" n) =
  set_option (with_lo_hash_code true) (with_l_hash_code (uint32 n) r).
Proof. reflexivity. Qed.
Lemma set_si r n : set_item r (ItInt "si" n) =
  set_option (with_lo_src_inode true) (with_l_src_inode n r).
Proof. reflexivity. Qed.
Lemma set_sn r v raw : set_item r (ItStr "sn" v raw) =
  with_l_src_name v r.
Proof. reflexivity. Qed.
Lemma set_op r v raw : set_item r (ItStr "op" v raw) =
  with_l_operation (get_operation_integer v) r.
Proof. reflexivity. Qed.
Lemma set_ns r v raw : set_item r (ItStr "ns" v raw) =
  set_option (with_lo_ns true) (with_l_ns v r).
Proof. reflexivity. Qed.
Lemma set_nm r v raw : set_item r (ItStr "nm" v raw) =
  set_option (with_lo_subname true) (with_l_name v r).
Proof. reflexivity. Qed.
Lemma set_ln r v raw : set_item r (ItStr "ln" v raw) =
  set_option (with_lo_link true) (with_l_link v r).
Proof. reflexivity. Qed.
Lemma set_xn r v raw : set_item r (ItStr "xn" v raw) =
  with_l_link v r.
Proof. reflexivity. Qed.
Lemma set_xv r v raw : set_item r (ItStr "xv" v raw) =
  with_l_xattr_value v r.
Proof. reflexivity. Qed.
#[local] Hint Rewrite set_dv set_id set_pt set_sp set_fl set_ts set_md set_bt set_at set_ct set_mt set_ui set_gi set_sz set_se set_ia set_hc set_si set_sn set_op set_ns set_nm set_ln set_xn set_xv : set_field.

Lemma settable_int name n : (binlog_set_field_value (lit name) (FvInteger 0) zero_record).1 = 0 →
  settable (ItInt name n).
Proof.
  intros H r. revert H. unfold settable, binlog_set_field_value. cbn [item_name item_value].
  repeat match goal with |- context [if ?c then _ else _] => destruct c; [done|] end. done.
Qed.
Lemma settable_str name v raw :
  (binlog_set_field_value (lit name) (FvString []) zero_record).1 = 0 →
  settable (ItStr name v raw).
Proof.
  intros H r. revert H. unfold settable, binlog_set_field_value. cbn [item_name item_value].
  repeat match goal with |- context [if ?c then _ else _] => destruct c; [done|] end. done.
Qed.

(** A record the printer can write and the parser accepts: the fields in the
    range of their C types, those that the parser requires, and the rename
    with its path. *)
Record packable (r : LogRecord) : Prop := {
  pk_version : 0 < l_data_version r < 2 ^ 64;
  pk_inode : 0 < l_inode r < 2 ^ 63;
  pk_operation : 1 ≤ l_operation r ≤ 6;
  pk_timestamp : 0 < l_timestamp r < 2 ^ 31;
  pk_hash : 0 ≤ l_hash_code r < 2 ^ 32;
  pk_int32 : Forall is_int32 [l_flags r; st_mode (l_stat r); st_atime (l_stat r);
    st_ctime (l_stat r); st_mtime (l_stat r)];
  pk_int64 : Forall is_int64 [l_parent r; l_src_parent r; l_src_inode r;
    st_size (l_stat r); st_space_end (l_stat r); st_alloc (l_stat r)];
  pk_owner : Forall (λ n, 0 ≤ n < 2 ^ 32) [st_uid (l_stat r); st_gid (l_stat r)];
  pk_path : path_info r = true → l_parent r = 0 → l_name r = [];
  pk_rename : l_operation r = BINLOG_OP_RENAME_DENTRY_INT →
    path_info r = true ∧ l_parent r ≠ 0 ∧ l_name r ≠ [] ∧ l_src_parent r ≠ 0 ∧ l_src_name r ≠ [];
  pk_strings : Forall same_digits (strings r)
}.

(** What the parser gives back: the fields of the record whose flags are set,
    or that its operation has, and 0 for the others. The birth time is the
    access time. *)
Definition unpacked (r : LogRecord) : LogRecord :=
  let o := l_options r in
  let st := l_stat r in
  let path {A} (x y : A) := if path_info r then x else y in
  let rename {A} (x y : A) := if l_operation r =? BINLOG_OP_RENAME_DENTRY_INT then x else y in
  let set_xattr := l_operation r =? BINLOG_OP_SET_XATTR_INT in
  let remove_xattr := l_operation r =? BINLOG_OP_REMOVE_XATTR_INT in
  mkLogRecord (l_data_version r) (l_inode r) (path (l_ns r) []) (l_hash_code r)
    (l_operation r) true "i" (l_timestamp r) (rename (l_flags r) 0)
    (mkLogOptions (path_info r) (path_info r) true (lo_link o) (lo_mode o) (lo_atime o)
      (lo_btime o) (lo_ctime o) (lo_mtime o) (lo_gid o) (lo_uid o) (lo_size o)
      (lo_inc_alloc o) (lo_space_end o) (lo_src_inode o))
    (path (l_parent r) 0) (path (l_name r) [])
    (rename (l_src_parent r) 0) (rename (l_src_name r) [])
    (if lo_src_inode o then l_src_inode r else 0)
    (mkDEntryStat (if lo_mode o then st_mode st else 0) (if lo_uid o then st_uid st else 0)
      (if lo_gid o then st_gid st else 0) (if lo_btime o then st_atime st else 0)
      (if lo_atime o then st_atime st else 0) (if lo_ctime o then st_ctime st else 0)
      (if lo_mtime o then st_mtime st else 0) 0 (if lo_size o then st_size st else 0)
      (if lo_inc_alloc o then st_alloc st else 0)
      (if lo_space_end o then st_space_end st else 0))
    (if lo_link o || set_xattr || remove_xattr then l_link r else [])
    (if set_xattr then l_xattr_value r else []).

Lemma label_no_backslash op : BACKSLASH ∉ get_operation_label op.
Proof.
  unfold get_operation_label. repeat case_match; apply (bool_decide_unpack _); exact I.
Qed.

Ltac forall_cons :=
  repeat match goal with H : Forall _ (_ :: _) |- _ => apply Forall_cons in H as [? H] end.

Lemma items_readable r : packable r → Forall item_readable (dv_item r :: items r).
Proof using All.
  intros [Hv Hi Hop Hts Hh Hi32 Hi64 How Hpath Hren Hs].
  assert (H32 : ∀ n, is_int32 n → is_int64 n) by (unfold is_int32, is_int64; lia).
  assert (Hw32 : ∀ n, is_int64 (int32 n)) by (intros n; apply H32, int32_range).
  assert (Hw64 : ∀ n, is_int64 (int64 n)) by apply int64_range.
  forall_cons.
  unfold dv_item, items, head_items, path_items, option_items, operation_items, str_item.
  repeat first
    [ apply Forall_nil_2 | apply Forall_cons_2 | apply Forall_app_2
    | split; [reflexivity|]; (by left) || (by eauto) || (unfold is_int64; lia)
    | split; [reflexivity|right; split; [done|apply label_no_backslash]]
    | progress cbn [concat]
    | match goal with |- Forall _ (opt ?c _) => destruct c; unfold opt end
    | case_match ].
Qed.

Lemma items_settable r : Forall settable (items r).
Proof.
  unfold items, head_items, path_items, option_items, operation_items, str_item.
  repeat first
    [ apply Forall_nil_2 | apply Forall_cons_2 | apply Forall_app_2
    | apply settable_int; reflexivity | apply settable_str; reflexivity
    | progress cbn [concat]
    | match goal with |- Forall _ (opt ?c _) => destruct c; unfold opt end
    | case_match ].
Qed.

Lemma label_integer op : 1 ≤ op ≤ 6 → get_operation_integer (get_operation_label op) = op.
Proof.
  intros Hop. assert (op = 1 ∨ op = 2 ∨ op = 3 ∨ op = 4 ∨ op = 5 ∨ op = 6) as Hc by lia.
  by destruct Hc as [->|[->|[->|[->|[->| ->]]]]].
Qed.

Lemma fold_opt c it its r :
  fold_left set_item (opt c it ++ its) r =
  fold_left set_item its (if c then set_item r it else r).
Proof. by destruct c. Qed.


(** One optional field set in a record written field by field. *)
Ltac set_fields :=
  unfold set_option, set_stat, with_l_options, with_l_stat, with_l_link, with_l_src_inode,
    with_l_hash_code, with_lo_hash_code,
    with_lo_link, with_lo_mode, with_lo_btime, with_lo_atime, with_lo_ctime, with_lo_mtime,
    with_lo_uid, with_lo_gid, with_lo_size, with_lo_space_end, with_lo_inc_alloc,
    with_lo_src_inode, with_st_mode, with_st_uid, with_st_gid, with_st_btime, with_st_atime,
    with_st_ctime, with_st_mtime, with_st_size, with_st_alloc, with_st_space_end;
  cbn [l_data_version l_inode l_ns l_hash_code l_operation l_is_update l_dentry_type l_timestamp
    l_flags l_options l_parent l_name l_src_parent l_src_name l_src_inode l_stat l_link
    l_xattr_value lo_ns lo_subname lo_hash_code lo_link lo_mode lo_atime lo_btime lo_ctime
    lo_mtime lo_gid lo_uid lo_size lo_inc_alloc lo_space_end lo_src_inode st_mode st_uid st_gid
    st_btime st_atime st_ctime st_mtime st_nlink st_size st_alloc st_space_end].
Ltac push_step :=
  rewrite fold_opt; autorewrite with set_field; set_fields;
  rewrite if_record, ?if_same, ?if_options, ?if_stat, ?if_same, ?if_true_false.

Lemma option_items_set r dv ino ns hc op up ty ts fl p1 p2 pt nm sp sn xv :
  packable r →
  fold_left set_item (option_items r)
    (mkLogRecord dv ino ns hc op up ty ts fl
      (with_lo_ns p1 (with_lo_subname p2 zero_options)) pt nm sp sn 0 zero_stat [] xv) =
  let u := unpacked r in
  mkLogRecord dv ino ns (l_hash_code r) op up ty ts fl
    (with_lo_ns p1 (with_lo_subname p2 (l_options u))) pt nm sp sn (l_src_inode u) (l_stat u)
    (if lo_link (l_options r) then l_link r else []) xv.
Proof.
  intros [Hv Hi Hop Hts Hh Hi32 Hi64 How _ _ _]. forall_cons.
  unfold option_items, zero_stat, zero_options, with_lo_ns, with_lo_subname, str_item.
  cbn [concat]. rewrite fold_left_app. cbn [fold_left]. rewrite set_hc. set_fields.
  do 12 push_step. cbn [fold_left].
  rewrite uint32_small, !uint32_int32, !int32_small by done. reflexivity.
Qed.

(** The parser's record after the first fields and the path. *)
Definition pathed (r : LogRecord) : LogRecord :=
  let p := path_info r in
  mkLogRecord (l_data_version r) (l_inode r) (if p then l_ns r else []) 0 (l_operation r)
    true "i" (l_timestamp r) 0 (with_lo_ns p (with_lo_subname p zero_options))
    (if p then l_parent r else 0) (if p then l_name r else []) 0 [] 0 zero_stat [] [].

Lemma path_items_set r :
  packable r →
  fold_left set_item
    (dv_item r :: head_items r ++ (if path_info r then path_items r else []))
    (with_l_is_update true (with_l_dentry_type "i" zero_record)) = pathed r.
Proof.
  intros [Hv Hi Hop Hts Hh _ _ _ _ _ _].
  rewrite app_comm_cons, fold_left_app. unfold dv_item, head_items.
  cbn [fold_left]. autorewrite with set_field.
  rewrite uint64_int64, label_integer, int32_small by (lia || (unfold is_int32; lia)).
  unfold pathed. by destruct (path_info r).
Qed.

Lemma items_set r :
  packable r →
  fold_left set_item (dv_item r :: items r)
    (with_l_is_update true (with_l_dentry_type "i" zero_record)) = unpacked r.
Proof.
  intros Hr. unfold items. rewrite (app_assoc (head_items r)), app_comm_cons, !fold_left_app.
  rewrite (path_items_set r Hr). unfold pathed. rewrite (option_items_set r) by done.
  destruct Hr as [_ _ _ _ _ Hi32 _ _ _ _ _]. forall_cons.
  unfold operation_items, unpacked, str_item.
  destruct (Z.eqb_spec (l_operation r) BINLOG_OP_RENAME_DENTRY_INT) as [->|];
    [|destruct (Z.eqb_spec (l_operation r) BINLOG_OP_SET_XATTR_INT) as [->|];
      [|destruct (Z.eqb_spec (l_operation r) BINLOG_OP_REMOVE_XATTR_INT) as [->|]]];
    cbn [fold_left]; autorewrite with set_field; rewrite ?int32_small by done;
    rewrite ?orb_true_r, ?orb_false_r; reflexivity.
Qed.

(** ** A packed record in memory *)

Definition fields (r : LogRecord) : text := items_text (dv_item r :: items r).

Lemma record_text_length r :
  zlen (body r) ≤ 9999 → zlen (record_text r) = 4 + zlen (body r).
Proof.
  intros Hl. pose proof (zlen_nonneg (body r)). unfold record_text. rewrite zlen_app. unfold zlen at 1.
  rewrite print_04_length by lia. lia.
Qed.

Lemma body_length r : zlen (body r) = 10 + zlen (fields r).
Proof.
  unfold body, fields. rewrite !zlen_app. change (zlen START_TAG_STR) with 4.
  change (zlen END_TAG_STR) with 6. lia.
Qed.

Section in_memory.
Variables (pre post mem : text) (r : LogRecord).
Hypothesis Hmem : mem = pre ++ record_text r ++ post.
Hypothesis Hsize : 60 ≤ zlen (body r) ≤ 9999.

Let rec_end := zlen pre + zlen (record_text r).

(** The memory, split at the fields. *)
Lemma mem_fields :
  mem = (pre ++ print_04 (zlen (body r)) ++ START_TAG_STR) ++ (fields r) ++ END_TAG_STR ++ post.
Proof using All.
  rewrite Hmem. unfold record_text. unfold body at 2. unfold fields. by rewrite <- !app_assoc.
Qed.

Lemma fields_start :
  zlen (pre ++ print_04 (zlen (body r)) ++ START_TAG_STR) = zlen pre + 4 + START_TAG_LEN.
Proof using All.
  rewrite !zlen_app. unfold zlen at 2. rewrite print_04_length by lia.
  change (zlen START_TAG_STR) with 4. unfold START_TAG_LEN. lia.
Qed.

Lemma read_record_len : strtoll_at mem (zlen pre) = Some (zlen (body r), zlen pre + 4).
Proof using All.
  rewrite Hmem. unfold record_text. rewrite <- app_assoc.
  rewrite (strtoll_at_app _ _ _ eq_refl).
  change (body r ++ post) with (START_TAG_CHAR :: drop 1 (body r) ++ post).
  rewrite strtoll_print_04 by (done || lia). f_equal. f_equal.
  rewrite zlen_app. unfold zlen at 2. rewrite print_04_length by lia. lia.
Qed.

Lemma read_start_tag :
  byte_at mem (zlen pre + 4) = Some START_TAG_CHAR ∧
  bytes_at mem (zlen pre + 4) START_TAG_LEN = Some START_TAG_STR.
Proof using All.
  assert (Hl : zlen pre + 4 = zlen (pre ++ print_04 (zlen (body r)))).
  { rewrite zlen_app. unfold zlen at 3. rewrite print_04_length by lia. lia. }
  rewrite mem_fields, <- !app_assoc, (app_assoc pre). split.
  - exact (byte_at_app _ START_TAG_CHAR _ _ Hl).
  - exact (bytes_at_app _ START_TAG_STR _ _ START_TAG_LEN Hl eq_refl).
Qed.

Lemma read_end_tag : bytes_at mem (rec_end - END_TAG_LEN) END_TAG_LEN = Some END_TAG_STR.
Proof using All.
  rewrite mem_fields, app_assoc. apply bytes_at_app; [|done].
  rewrite zlen_app, fields_start. unfold rec_end. rewrite record_text_length, body_length by lia.
  unfold START_TAG_LEN, END_TAG_LEN. lia.
Qed.

Lemma check_record_text len :
  zlen (record_text r) ≤ len →
  binlog_check_record mem (zlen pre) len = Some (inr (zlen pre + 4 + START_TAG_LEN, rec_end)).
Proof using All.
  rewrite record_text_length by lia. intros Hlen. unfold binlog_check_record, binlog_check_rec_length.
  unfold BINLOG_RECORD_MIN_SIZE, BINLOG_RECORD_SIZE_STRLEN.
  destruct (Z.ltb_spec len 64); [lia|]. cbn [Z.eqb negb].
  rewrite read_record_len. cbn [mbind option_bind].
  destruct read_start_tag as [-> ->]. cbn [mbind option_bind]. rewrite Ascii.eqb_refl.
  cbn [negb]. unfold text_eqb. rewrite bool_decide_true by done. cbn [negb].
  rewrite int32_small by (unfold is_int32; lia).
  destruct (Z.ltb_spec (zlen (body r)) (64 - 4)); [lia|].
  destruct (Z.ltb_spec (len - 4) (zlen (body r))); [lia|].
  replace (zlen pre + 4 + zlen (body r)) with rec_end
    by (unfold rec_end; rewrite record_text_length by lia; lia).
  rewrite read_end_tag. cbn [mbind option_bind]. by rewrite bool_decide_true.
Qed.

Lemma is_record_start_text len :
  zlen (record_text r) ≤ len →
  binlog_is_record_start mem (zlen pre) len = Some (Some (zlen pre + 4 + START_TAG_LEN, rec_end)).
Proof using All.
  rewrite record_text_length by lia. intros Hlen. unfold binlog_is_record_start.
  unfold BINLOG_RECORD_MIN_SIZE, BINLOG_RECORD_SIZE_STRLEN.
  destruct (Z.ltb_spec len 64); [lia|].
  rewrite read_record_len. cbn [mbind option_bind].
  destruct read_start_tag as [-> ->]. cbn [mbind option_bind]. rewrite Ascii.eqb_refl.
  cbn [negb]. replace (zlen pre + 4 - zlen pre) with 4 by lia. cbn [Z.eqb Pos.eqb negb].
  unfold text_eqb. rewrite bool_decide_true by done. cbn [negb].
  rewrite int32_small by (unfold is_int32; lia).
  destruct (Z.ltb_spec (len - 4) (zlen (body r))); [lia|].
  replace (zlen pre + 4 + zlen (body r)) with rec_end
    by (unfold rec_end; rewrite record_text_length by lia; lia).
  rewrite read_end_tag. cbn [mbind option_bind]. by rewrite bool_decide_true.
Qed.

Lemma parse_dv mpool q :
  zlen mem < 2 ^ 31 →
  binlog_parse_first_field mem mpool (zlen pre + 4 + START_TAG_LEN) rec_end q =
  Some (0, set_item q (dv_item r), zlen pre + 4 + START_TAG_LEN + zlen (item_text (dv_item r))).
Proof using All.
  intros Hlen. pose proof mem_fields as Hm. unfold fields in Hm.
  rewrite items_text_cons, <- (app_assoc (item_text _)) in Hm.
  pose proof (body_length r) as Hb. unfold fields in Hb. rewrite items_text_cons, zlen_app in Hb.
  assert (Hre : rec_end = zlen pre + 4 + START_TAG_LEN + zlen (item_text (dv_item r)) +
    zlen (items_text (items r)) + 6).
  { unfold rec_end. rewrite record_text_length, Hb by lia. unfold START_TAG_LEN. lia. }
  destruct (items_stop (items r) post (zlen pre + 4 + START_TAG_LEN +
    zlen (item_text (dv_item r))) rec_end Hre) as (c & rest & Hc & Hstop).
  rewrite Hc in Hm. rewrite <- fields_start in *.
  assert (rec_end ≤ zlen mem).
  { rewrite Hmem, !zlen_app. pose proof (zlen_nonneg post). unfold rec_end. lia. }
  pose proof (zlen_nonneg (items_text (items r))).
  unfold binlog_parse_first_field.
  erewrite (next_int mem mpool _ "dv" (int64 (l_data_version r)) c rest rec_end); cycle 1;
    [exact Hm|done|apply int64_range|done|exact Hstop|unfold dv_item in *; lia| |].
  { rewrite fields_start. pose proof (zlen_nonneg pre). unfold START_TAG_LEN. lia. }
  done.
Qed.
End in_memory.

Lemma items_length its : zlen its ≤ zlen (items_text its).
Proof.
  induction its as [|it its IH]; [done|]. rewrite items_text_cons, zlen_app, zlen_cons.
  enough (1 ≤ zlen (item_text it)) by lia.
  destruct it; unfold item_text; rewrite !zlen_app; change (zlen (lit " ")) with 1;
    repeat match goal with |- context [zlen ?x] =>
      lazymatch goal with H : 0 ≤ zlen x |- _ => fail | _ => pose proof (zlen_nonneg x) end end;
    lia.
Qed.

Lemma unpacked_required r : packable r → binlog_check_required_fields (unpacked r) = 0.
Proof.
  intros [Hv Hi Hop Hts _ _ _ _ Hpath Hren _]. unfold binlog_check_required_fields, unpacked.
  set (ren := l_operation r =? BINLOG_OP_RENAME_DENTRY_INT).
  cbn [l_inode l_data_version l_options lo_hash_code l_operation l_timestamp l_parent l_name
    l_src_parent l_src_name lo_ns lo_subname negb]. unfold path_info at 1.
  cbn [l_options lo_ns lo_subname].
  destruct (Z.leb_spec (l_inode r) 0); [lia|]. destruct (Z.leb_spec (l_data_version r) 0); [lia|].
  destruct (Z.eqb_spec (l_operation r) BINLOG_OP_NONE_INT); [unfold BINLOG_OP_NONE_INT in *; lia|].
  destruct (Z.leb_spec (l_timestamp r) 0); [lia|].
  assert (Hz : ∀ s : text, s ≠ [] → (zlen s =? 0) = false).
  { intros [|c s']; [done|]. intros _. rewrite zlen_cons. pose proof (zlen_nonneg s').
    by apply Z.eqb_neq; lia. }
  fold ren. destruct ren eqn:E.
  - apply Z.eqb_eq in E. destruct (Hren E) as (Hp & Hn1 & Hn2 & Hn3 & Hn4). rewrite Hp. cbn.
    rewrite !Hz by done. apply Z.eqb_neq in Hn1, Hn3. by rewrite Hn1, Hn3.
  - cbn [andb]. destruct (path_info r) eqn:Hp; [|done]. cbn [orb negb andb].
    destruct (Z.eqb_spec (l_parent r) 0) as [E0|]; [|done]. by rewrite (Hpath eq_refl E0).
Qed.

(** The parser on a packed record. *)
Lemma unpack_text pre post mem r len mpool :
  mem = pre ++ record_text r ++ post → 60 ≤ zlen (body r) ≤ 9999 →
  zlen mem < 2 ^ 31 → zlen (record_text r) ≤ len → packable r → pool_ok mpool →
  binlog_unpack_record_ex mem (zlen pre) len mpool =
  Some (0, unpacked r, Some (zlen pre + zlen (record_text r))).
Proof using All.
  intros Hmem Hsize Hlen Hl Hr Hpool. unfold binlog_unpack_record_ex.
  rewrite (check_record_text pre post mem r) by done. cbn [mbind option_bind].
  unfold binlog_parse_fields. rewrite (parse_dv pre post mem r) by done.
  cbn [mbind option_bind Z.eqb negb].
  rewrite <- (fields_start pre post mem r Hmem Hsize), <- (zlen_app _ (item_text _)).
  pose proof (items_length (items r)) as Hil. unfold zlen in Hil at 1.
  rewrite (parse_items mpool post (items r)); try done.
  - cbn [mbind option_bind]. change (ENOENT =? ENOENT) with true. cbn [negb].
    rewrite <- (items_set r Hr). cbn [fold_left].
    change (fold_left set_item (items r) (set_item ?q (dv_item r)))
      with (fold_left set_item (dv_item r :: items r) q).
    by rewrite (items_set r Hr), unpacked_required.
  - rewrite (mem_fields pre post mem r) by done. unfold fields.
    by rewrite items_text_cons, <- !app_assoc.
  - rewrite zlen_app, (fields_start pre post mem r Hmem Hsize), record_text_length, body_length by lia.
    unfold fields. rewrite items_text_cons, zlen_app. unfold START_TAG_LEN. lia.
  - pose proof (items_readable r Hr) as Hi. by apply Forall_cons in Hi as [_ Hi].
  - apply items_settable.
  - assert (zlen (items_text (items r)) ≤ zlen mem); [|unfold zlen in *; lia].
    rewrite (mem_fields pre post mem r) by done. unfold fields.
    rewrite items_text_cons, !zlen_app.
    pose proof (zlen_nonneg (item_text (dv_item r))). pose proof (zlen_nonneg post).
    change (zlen END_TAG_STR) with 6. change (zlen START_TAG_STR) with 4.
    pose proof (zlen_nonneg pre). pose proof (zlen_nonneg (print_04 (zlen (body r)))). lia.
Qed.

(** ** The start character is nowhere else in a record *)

Definition item_plain (it : item) : Prop := START_TAG_CHAR ∉ item_text it.

Lemma plain_int name n : START_TAG_CHAR ∉ lit name → item_plain (ItInt name n).
Proof.
  intros Hn. unfold item_plain, item_text. rewrite !not_elem_of_app. split_and!; try done.
  - apply (bool_decide_unpack _); exact I.
  - apply (bool_decide_unpack _); exact I.
  - by apply print_int_plain.
Qed.

Lemma plain_str name val raw :
  START_TAG_CHAR ∉ lit name → START_TAG_CHAR ∉ raw → item_plain (ItStr name val raw).
Proof.
  intros Hn Hr. unfold item_plain, item_text. rewrite !not_elem_of_app. split_and!; try done.
  - apply (bool_decide_unpack _); exact I.
  - apply (bool_decide_unpack _); exact I.
  - by apply print_int_plain.
  - apply (bool_decide_unpack _); exact I.
Qed.

Lemma esc_plain s : START_TAG_CHAR ∉ esc s.
Proof using All.
  apply escape_free; [apply escape_pairs_ok|apply (bool_decide_unpack _); exact I..].
Qed.

Lemma label_plain op : START_TAG_CHAR ∉ get_operation_label op.
Proof.
  unfold get_operation_label. repeat case_match; apply (bool_decide_unpack _); exact I.
Qed.

Lemma items_plain r : Forall item_plain (dv_item r :: items r).
Proof using All.
  unfold dv_item, items, head_items, path_items, option_items, operation_items, str_item.
  repeat first
    [ apply Forall_nil_2 | apply Forall_cons_2 | apply Forall_app_2
    | apply plain_int; apply (bool_decide_unpack _); exact I
    | apply plain_str; [apply (bool_decide_unpack _); exact I|];
      (apply esc_plain || apply label_plain)
    | progress cbn [concat]
    | match goal with |- Forall _ (opt ?c _) => destruct c; unfold opt end
    | case_match ].
Qed.

Lemma body_plain r : ∃ rest, body r = START_TAG_CHAR :: rest ∧ START_TAG_CHAR ∉ rest.
Proof using All.
  exists (drop 1 (body r)). split; [done|].
  change (drop 1 (body r)) with
    (drop 1 START_TAG_STR ++ items_text (dv_item r :: items r) ++ END_TAG_STR).
  rewrite !not_elem_of_app. split_and!; try (apply (bool_decide_unpack _); exact I).
  pose proof (items_plain r) as Hp. induction Hp as [|it its Hit _ IH].
  - by apply not_elem_of_nil.
  - rewrite items_text_cons, not_elem_of_app. by split.
Qed.
End record.
