(* ===== verification/BinlogScan.v ===== *)
(** * Binlog records: round trip and record boundaries

    The round trip of a packed record, and what the detect functions of
    binlog_pack.c find in a buffer of a binlog file: the last whole record of
    a buffer that ends inside a record, the first record of one that starts
    inside a record, the end of the last record; the loops end, but for the
    one of [binlog_detect_last_record_end]. *)

From Stdlib Require Import Ascii.
From S2P Require Import Prelude CText ServerTypes BinlogPack BinlogRecord.

Section scan.
Context `{F : FastCommon, !FastCommonLaws F}.

(** [C30] A record that can be packed is read back from the buffer it was
    appended to, whatever stands before and behind it: the parser returns 0,
    the fields of the record and the record's end. The conditions: the fields are in the
    range of their types and the operation's fields are there ([packable]); escaping
    changes the number of digits of no string's length ([same_digits], in [packable];
    without it the record cannot be parsed, [BinlogDemo.packed_length_wrong]); the text
    has 60 to 9999 bytes; the buffer has room ([pack_room]: it is empty and the
    operation has no strings of its own, or the room is there behind what it holds).
    One field does not survive: the birth time comes back with the value of the access
    time ([unpacked]), because that is what is packed for it. *)
Theorem pack_unpack_roundtrip r b b1 post mpool :
  fast_buffer_check_capacity b (expect_len r) = (0, b1) →
  pack_room r b →
  packable r → 60 ≤ zlen (body r) ≤ BINLOG_RECORD_MAX_SIZE → pool_ok mpool →
  ∃ b', binlog_pack_record r b = (0, b') ∧
  (zlen (fb_data b' ++ post) < 2 ^ 31 →
   binlog_unpack_record_ex (fb_data b' ++ post) (zlen (fb_data b))
     (zlen (fb_data b') - zlen (fb_data b)) mpool =
   Some (0, unpacked r, Some (zlen (fb_data b')))).
Proof using All.
  intros Hcap Hroom Hr Hsize Hpool. unfold BINLOG_RECORD_MAX_SIZE in Hsize.
  eexists. split.
  - rewrite (pack_record_text r b b1 Hcap Hroom (pk_strings r Hr) (pk_path r Hr)).
    destruct (Z.ltb_spec BINLOG_RECORD_MAX_SIZE (zlen (body r)));
      [unfold BINLOG_RECORD_MAX_SIZE in *; lia|reflexivity].
  - cbn [fb_data]. intros Hlen. rewrite zlen_app.
    apply (unpack_text _ post); try done; [by rewrite <- app_assoc|lia].
Qed.

(** A record is refused, with the buffer left as far as it was written, when
    it has a name but no parent inode (EINVAL) or when its text is longer than
    9999 bytes (EOVERFLOW). *)
Theorem pack_record_errors r b b1 :
  fast_buffer_check_capacity b (expect_len r) = (0, b1) →
  (path_info r = true → l_parent r = 0 → l_name r ≠ [] → (binlog_pack_record r b).1 = EINVAL) ∧
  (pack_room r b →
   Forall same_digits (strings r) → (path_info r = true → l_parent r = 0 → l_name r = []) →
   BINLOG_RECORD_MAX_SIZE < zlen (body r) → (binlog_pack_record r b).1 = EOVERFLOW).
Proof using All.
  intros Hcap. split.
  - intros Hp H0 Hn. unfold binlog_pack_record. rewrite Hcap, Hp, H0. cbn [negb Z.eqb].
    destruct (l_name r) as [|c s]; [done|]. rewrite zlen_cons.
    pose proof (zlen_nonneg s). by destruct (Z.ltb_spec 0 (1 + zlen s)); [|lia].
  - intros Hroom Hs Hpath Hmax. rewrite (pack_record_text r b b1) by done.
    by apply Z.ltb_lt in Hmax; rewrite Hmax.
Qed.

(** ** The scans *)

Ltac list_assoc := repeat first [rewrite <- app_assoc | rewrite <- app_comm_cons].

Lemma record_split r :
  60 ≤ zlen (body r) ≤ 9999 →
  ∃ d s, record_text r = d ++ START_TAG_CHAR :: s ∧ zlen d = 4 ∧ START_TAG_CHAR ∉ d ∧
    START_TAG_CHAR ∉ s.
Proof using All.
  intros Hs. destruct (body_plain r) as (s & Hb & Hs').
  exists (print_04 (zlen (body r))), s. unfold record_text. rewrite Hb at 2.
  split_and!; try done.
  - unfold zlen at 1. by rewrite print_04_length by lia.
  - apply print_04_plain; [lia|done].
Qed.

(** The reverse scan has its last start character in a record. *)
Lemma reverse_found pre post mem r s len l X :
  mem = pre ++ record_text r ++ post → 60 ≤ zlen (body r) ≤ 9999 →
  zlen pre + zlen (record_text r) ≤ len →
  mem = (pre ++ print_04 (zlen (body r)) ++ START_TAG_CHAR :: s) ++ X → START_TAG_CHAR ∉ s →
  l = zlen (pre ++ print_04 (zlen (body r)) ++ START_TAG_CHAR :: s) →
  reverse_step mem 0 len l =
  Some (inr (Some (zlen pre,
    (zlen pre + 4 + START_TAG_LEN, zlen pre + zlen (record_text r))))).
Proof using All.
  intros Hmem Hsize Hlen Hm Hs ->. unfold reverse_step.
  pose proof (zlen_nonneg pre). pose proof (zlen_nonneg s).
  assert (Hd : zlen (print_04 (zlen (body r))) = 4).
  { unfold zlen at 1. by rewrite print_04_length by lia. }
  destruct (Z.leb_spec (zlen (pre ++ print_04 (zlen (body r)) ++ START_TAG_CHAR :: s)) 0)
    as [Hle|_]; [rewrite !zlen_app, zlen_cons in Hle; lia|].
  rewrite Hm at 1. rewrite (app_assoc pre), (memrchr_head _ _ s X) by (done || by rewrite <- app_assoc).
  cbn [mbind option_bind]. rewrite zlen_app, Hd. unfold BINLOG_RECORD_SIZE_STRLEN.
  replace (zlen pre + 4 - 4) with (zlen pre) by lia.
  destruct (Z.leb_spec 0 (zlen pre)); [|lia].
  rewrite (is_record_start_text pre post mem r) by (done || lia). done.
Qed.

(** A record cut short behind its start character. *)
Lemma cut_record r k d s :
  record_text r = d ++ START_TAG_CHAR :: s → zlen d = 4 → (5 ≤ k)%nat →
  take k (record_text r) = d ++ START_TAG_CHAR :: take (k - 5) s.
Proof.
  intros Hr Hd Hk. rewrite Hr, take_app. unfold zlen in Hd. rewrite take_ge by lia.
  by replace (k - length d)%nat with (S (k - 5)) by lia.
Qed.

Lemma record_digits r d s :
  60 ≤ zlen (body r) ≤ 9999 → record_text r = d ++ START_TAG_CHAR :: s → zlen d = 4 →
  d = print_04 (zlen (body r)).
Proof.
  intros Hsize Hr Hd. apply (f_equal (take 4)) in Hr. unfold record_text in Hr.
  assert (length d = 4%nat) as H4 by (unfold zlen in Hd; lia).
  rewrite <- H4 in Hr at 2. rewrite take_app_length in Hr.
  rewrite <- (print_04_length (zlen (body r))) in Hr at 1 by lia.
  by rewrite take_app_length in Hr.
Qed.

(** It is not taken for a record. *)
Lemma cut_record_no_start pre t post mem r k :
  mem = pre ++ t ++ post → 60 ≤ zlen (body r) ≤ 9999 →
  t = take k (record_text r) → (5 ≤ k < length (record_text r))%nat →
  binlog_is_record_start mem (zlen pre) (zlen t) = Some None.
Proof using All.
  intros Hmem Hsize Ht Hk. destruct (record_split r Hsize) as (d & s & Hr & Hd & _ & _).
  assert (Hkl : zlen t = Z.of_nat k) by (rewrite Ht; unfold zlen; rewrite length_take; lia).
  unfold binlog_is_record_start, BINLOG_RECORD_MIN_SIZE, BINLOG_RECORD_SIZE_STRLEN.
  destruct (Z.ltb_spec (zlen t) 64); [done|].
  pose proof (record_digits r d s Hsize Hr Hd) as Hp.
  pose proof (cut_record r k d s Hr Hd ltac:(lia)) as Htk. rewrite <- Ht in Htk.
  rewrite Hmem, (strtoll_at_app _ _ _ eq_refl), Htk, <- app_assoc, Hp.
  cbn [app]. rewrite strtoll_print_04 by (done || lia). rewrite <- Hp. cbn [mbind option_bind].
  replace (zlen pre + zlen (d ++ START_TAG_CHAR :: take (k - 5) s ++ post) -
    zlen (START_TAG_CHAR :: take (k - 5) s ++ post)) with (zlen (pre ++ d))
    by (rewrite !zlen_app; lia).
  rewrite app_assoc, byte_at_app by done. cbn [mbind option_bind]. rewrite Ascii.eqb_refl.
  cbn [negb]. rewrite zlen_app, Hd. replace (zlen pre + 4 - zlen pre =? 4) with true
    by (symmetry; apply Z.eqb_eq; lia). cbn [negb].
  rewrite int32_small by (unfold is_int32; lia).
  destruct (Z.ltb_spec (zlen (d ++ START_TAG_CHAR :: take (k - 5) s) - 4) (zlen (body r))) as [|Hge];
    [done|].
  rewrite <- Htk, Hkl in Hge. pose proof (record_text_length r (proj2 Hsize)) as Hl.
  unfold zlen in Hl at 1. lia.
Qed.

(** The reverse scan passes over a record cut short. *)
Lemma reverse_skip pre t post mem r k :
  mem = pre ++ t ++ post → 60 ≤ zlen (body r) ≤ 9999 →
  t = take k (record_text r) → (5 ≤ k < length (record_text r))%nat →
  reverse_step mem 0 (zlen (pre ++ t)) (zlen (pre ++ t)) = Some (inl (zlen pre + 3)).
Proof using All.
  intros Hmem Hsize Ht Hk. destruct (record_split r Hsize) as (d & s & Hr & Hd & _ & Hs).
  pose proof (cut_record r k d s Hr Hd ltac:(lia)) as Htk. rewrite <- Ht in Htk.
  pose proof (zlen_nonneg pre). unfold reverse_step, BINLOG_RECORD_SIZE_STRLEN.
  destruct (Z.leb_spec (zlen (pre ++ t)) 0) as [Hle|_].
  { rewrite Htk, !zlen_app, zlen_cons in Hle. pose proof (zlen_nonneg (take (k - 5) s)). lia. }
  rewrite Hmem at 1. rewrite Htk at 1 2. rewrite !app_assoc.
  rewrite (memrchr_head (pre ++ d)) by (done || by apply take_not_elem).
  cbn [mbind option_bind]. rewrite zlen_app, Hd.
  replace (zlen pre + 4 - 4) with (zlen pre) by lia. destruct (Z.leb_spec 0 (zlen pre)); [|lia].
  replace (zlen (pre ++ t) - (zlen pre - 0)) with (zlen t) by (rewrite zlen_app; lia).
  rewrite (cut_record_no_start pre t post mem r k) by done. cbn [mbind option_bind].
  do 2 f_equal. lia.
Qed.

(** [C35] In a buffer that holds a record and then at most a part of the next one,
    the reverse scan finds that record, the last whole one: its end and its
    data version. *)
Theorem detect_record_reverse_spec pre r r2 k post mem len :
  mem = pre ++ record_text r ++ take k (record_text r2) ++ post →
  len = zlen (pre ++ record_text r ++ take k (record_text r2)) →
  (k < length (record_text r2))%nat → zlen mem < 2 ^ 31 →
  60 ≤ zlen (body r) ≤ BINLOG_RECORD_MAX_SIZE → 60 ≤ zlen (body r2) ≤ BINLOG_RECORD_MAX_SIZE →
  0 ≤ l_data_version r < 2 ^ 64 →
  binlog_detect_record_reverse mem 0 len =
  Some (0, Some (zlen (pre ++ record_text r)), Some (l_data_version r)).
Proof using All.
  unfold BINLOG_RECORD_MAX_SIZE. intros Hmem Hlen Hk Hm31 Hs1 Hs2 Hv.
  set (t := take k (record_text r2)) in *.
  pose proof (record_text_length r (proj2 Hs1)) as Hrl.
  assert (Hlen' : zlen pre + zlen (record_text r) + zlen t = len)
    by (rewrite Hlen, !zlen_app; lia).
  pose proof (zlen_nonneg pre). pose proof (zlen_nonneg t).
  unfold binlog_detect_record_reverse, binlog_check_rec_length, BINLOG_RECORD_MIN_SIZE.
  destruct (Z.ltb_spec len 64); [lia|]. cbn [Z.eqb negb].
  enough (run_loop (reverse_step mem 0 len) (length mem + 2) len =
    Some (Some (zlen pre, (zlen pre + 4 + START_TAG_LEN, zlen pre + zlen (record_text r))))) as ->.
  { cbn [mbind option_bind]. rewrite (parse_dv pre (t ++ post) mem r Hmem) by done.
    cbn [mbind option_bind Z.eqb negb]. rewrite zlen_app. unfold dv_item.
    rewrite set_dv. cbn [l_data_version with_l_data_version]. by rewrite uint64_int64. }
  destruct (body_plain r) as (s & Hb & Hs).
  destruct (record_split r2 Hs2) as (d2 & s2 & Hr2 & Hd2 & Hd2n & Hs2n).
  assert (Hrt : record_text r = print_04 (zlen (body r)) ++ START_TAG_CHAR :: s)
    by (unfold record_text; by rewrite Hb at 2).
  replace (length mem + 2)%nat with (S (S (length mem))) by lia.
  destruct (Nat.le_gt_cases k 4) as [Hk4|Hk5].
  - assert (Ht : START_TAG_CHAR ∉ t).
    { unfold t. rewrite Hr2, take_app_le by (unfold zlen in Hd2; lia).
      by apply take_not_elem. }
    apply run_loop_done. apply (reverse_found pre (t ++ post) mem r (s ++ t) len len post);
      try done; try lia.
    + rewrite Hmem, Hrt. by list_assoc.
    + by rewrite not_elem_of_app.
    + rewrite Hlen, Hrt. by list_assoc.
  - rewrite (run_loop_step _ _ _ (zlen (pre ++ record_text r) + 3)).
    + apply run_loop_done.
      assert (Ht3 : take 3 d2 = take 3 (t ++ post)).
      { unfold t. rewrite (cut_record r2 k d2 s2 Hr2 Hd2) by lia. list_assoc.
        rewrite (take_app_le d2) by (unfold zlen in Hd2; lia). done. }
      apply (reverse_found pre (t ++ post) mem r (s ++ take 3 d2) len _
        (drop 3 (t ++ post))); try done; try lia.
      * rewrite Hmem, Hrt, Ht3. list_assoc. by rewrite take_drop.
      * rewrite not_elem_of_app. split; [done|]. by apply take_not_elem.
      * rewrite Hrt. list_assoc. rewrite !zlen_app, !zlen_cons, zlen_app.
        enough (zlen (take 3 d2) = 3) by lia.
        unfold zlen in *. rewrite length_take. lia.
    + rewrite Hlen, !app_assoc. rewrite (reverse_skip (pre ++ record_text r) t post mem r2 k);
        [done|by rewrite <- app_assoc|done|done|lia].
Qed.

(** The forward scan at a place with a record as its next start character. *)
Lemma forward_found q junk r mid post mem end_ :
  mem = q ++ junk ++ record_text r ++ mid ++ post →
  end_ = zlen (q ++ junk ++ record_text r ++ mid) →
  60 ≤ zlen (body r) ≤ 9999 → START_TAG_CHAR ∉ junk →
  forward_step mem 0 end_ (zlen q) =
  Some (inr (Some (zlen (q ++ junk),
    (zlen (q ++ junk) + 4 + START_TAG_LEN, zlen (q ++ junk) + zlen (record_text r))))).
Proof using All.
  intros Hmem -> Hsize Hj. destruct (record_split r Hsize) as (d & s & Hr & Hd & Hdn & _).
  pose proof (record_text_length r (proj2 Hsize)) as Hrl.
  unfold forward_step, BINLOG_RECORD_MIN_SIZE, BINLOG_RECORD_SIZE_STRLEN.
  pose proof (zlen_nonneg mid). pose proof (zlen_nonneg q). pose proof (zlen_nonneg junk).
  destruct (Z.ltb_spec (zlen (q ++ junk ++ record_text r ++ mid) - zlen q) 64) as [Hlt|_];
    [rewrite !zlen_app in Hlt; lia|].
  assert (Hm : mem = q ++ ((junk ++ d) ++ START_TAG_CHAR :: s ++ mid) ++ post).
  { rewrite Hmem, Hr. by list_assoc. }
  rewrite Hm at 1. rewrite (memchr_app q (junk ++ d) _ (s ++ mid) post); cycle 1.
  { by rewrite not_elem_of_app. } { done. }
  { rewrite Hr. list_assoc. rewrite (zlen_app q). lia. }
  cbn [mbind option_bind]. replace (zlen q + zlen (junk ++ d) - 4) with (zlen (q ++ junk))
    by (rewrite !zlen_app; lia).
  destruct (Z.leb_spec 0 (zlen (q ++ junk))) as [_|Hlt]; [|rewrite zlen_app in Hlt; lia].
  rewrite (is_record_start_text (q ++ junk) (mid ++ post) mem r);
    [done|by rewrite Hmem, <- app_assoc|done|].
  rewrite !zlen_app. lia.
Qed.

(** In a buffer that starts inside a record, the forward scan finds the record
    that follows: its start, its end and its data version. *)
Theorem detect_record_forward_spec r0 j r mid post mem len :
  (0 < j)%nat →
  mem = drop j (record_text r0) ++ record_text r ++ mid ++ post →
  len = zlen (drop j (record_text r0) ++ record_text r ++ mid) →
  zlen mem < 2 ^ 31 →
  60 ≤ zlen (body r0) ≤ BINLOG_RECORD_MAX_SIZE → 60 ≤ zlen (body r) ≤ BINLOG_RECORD_MAX_SIZE →
  0 ≤ l_data_version r < 2 ^ 64 →
  binlog_detect_record_forward mem 0 len =
  Some (0, zlen (drop j (record_text r0)),
        Some (zlen (drop j (record_text r0) ++ record_text r), l_data_version r)).
Proof using All.
  unfold BINLOG_RECORD_MAX_SIZE. intros Hj Hmem Hlen Hm31 Hs0 Hs1 Hv.
  set (junk := drop j (record_text r0)) in *.
  enough (run_loop (forward_step mem 0 (0 + len)) (length mem + 2) 0 =
    Some (Some (zlen junk, (zlen junk + 4 + START_TAG_LEN, zlen junk + zlen (record_text r)))))
    as Hrun.
  { unfold binlog_detect_record_forward. rewrite Hrun. cbn [mbind option_bind].
    rewrite (parse_dv junk (mid ++ post) mem r Hmem) by done.
    cbn [mbind option_bind Z.eqb negb]. rewrite zlen_app, !Z.sub_0_r. unfold dv_item.
    rewrite set_dv. cbn [l_data_version with_l_data_version]. by rewrite uint64_int64. }
  rewrite Z.add_0_l.
  destruct (record_split r0 Hs0) as (d0 & s0 & Hr0 & Hd0 & _ & Hs0n).
  replace (length mem + 2)%nat with (S (S (length mem))) by lia.
  destruct (Nat.le_gt_cases j 4) as [Hj4|Hj5].
  - assert (Hq : junk = (drop j d0 ++ [START_TAG_CHAR]) ++ s0).
    { unfold junk. rewrite Hr0, drop_app_le by (unfold zlen in Hd0; lia). by rewrite <- app_assoc. }
    assert (Hql : zlen (drop j d0) = 4 - Z.of_nat j).
    { unfold zlen in *. rewrite length_drop. lia. }
    rewrite (run_loop_step _ _ _ (zlen (drop j d0 ++ [START_TAG_CHAR]))).
    + apply run_loop_done. rewrite Hq, <- (app_assoc _ s0) in Hmem, Hlen.
      by rewrite (forward_found _ s0 r mid post mem len Hmem Hlen Hs1 Hs0n), <- Hq.
    + unfold forward_step, BINLOG_RECORD_MIN_SIZE, BINLOG_RECORD_SIZE_STRLEN.
      pose proof (record_text_length r (proj2 Hs1)) as Hrl. pose proof (zlen_nonneg mid).
      pose proof (zlen_nonneg junk).
      destruct (Z.ltb_spec (len - 0) 64) as [Hlt|_]; [rewrite Hlen, !zlen_app in Hlt; lia|].
      assert (Hm : mem = (drop j d0 ++ START_TAG_CHAR :: s0 ++ record_text r ++ mid) ++ post).
      { rewrite Hmem, Hq. by list_assoc. }
      rewrite Hm, memchr_head; [cbn [mbind option_bind]| |].
      * destruct (Z.leb_spec 0 (zlen (drop j d0) - 4)); [lia|]. by rewrite zlen_app.
      * apply drop_not_elem. rewrite (record_digits r0 d0 s0 Hs0 Hr0 Hd0).
        apply print_04_plain; [lia|done].
      * rewrite Z.sub_0_r, Hlen, Hq. by list_assoc.
  - apply run_loop_done.
    apply (forward_found [] junk r mid post mem len Hmem Hlen Hs1).
    unfold junk. rewrite Hr0. unfold zlen in Hd0. rewrite drop_app_ge by lia.
    replace (j - length d0)%nat with (S (j - 5)) by lia. cbn [drop]. by apply drop_not_elem.
Qed.

End scan.

(** ** The end of the last record *)

Lemma last_end_turn buf post k :
  find_last NEWLINE buf = Some k →
  ∀ l, l = zlen buf ∨ l = Z.of_nat k + 1 →
  last_end_step (buf ++ post) 0 l =
  if bool_decide (END_TAG_STR `suffix_of` take (S k) buf)
  then Some (inr (0, Some (Z.of_nat k + 1))) else Some (inl (Z.of_nat k + 1)).
Proof.
  intros Hk l Hl. pose proof (find_last_lt _ _ _ Hk) as Hlt.
  destruct (find_last_Some _ _ _ Hk) as [Hb Hn].
  assert (Hkl : zlen (take k buf) = Z.of_nat k) by (unfold zlen; rewrite length_take; lia).
  assert (Hm : memrchr (buf ++ post) 0 l NEWLINE = Some (Some (Z.of_nat k))).
  { rewrite <- Hkl. destruct Hl as [-> | ->].
    - rewrite Hb at 1. apply memrchr_head; [done|]. by rewrite <- Hb.
    - rewrite Hb at 1. change (NEWLINE :: drop (S k) buf) with ([NEWLINE] ++ drop (S k) buf).
      rewrite (app_assoc _ [NEWLINE]), <- (app_assoc _ (drop _ _)).
      apply memrchr_head; [by apply not_elem_of_nil|]. rewrite zlen_app, Hkl. done. }
  unfold last_end_step. destruct (Z.leb_spec l 0); [unfold zlen in Hl; lia|].
  rewrite Hm. cbn [mbind option_bind]. rewrite Z.sub_0_r. unfold END_TAG_LEN.
  assert (Hlen : length (take (S k) buf) = S k) by (rewrite length_take; lia).
  destruct (Z.leb_spec 6 (Z.of_nat k + 1)).
  - assert (bytes_at (buf ++ post) (Z.of_nat k + 1 - 6) 6 =
      Some (drop (S k - 6) (take (S k) buf))) as ->.
    { rewrite <- (take_drop (S k) buf) at 1. rewrite <- app_assoc.
      rewrite <- (take_drop (S k - 6) (take (S k) buf)) at 1. rewrite <- app_assoc.
      apply bytes_at_app; unfold zlen; rewrite ?length_take, ?length_drop, ?Hlen; lia. }
    cbn [mbind option_bind]. unfold text_eqb.
    rewrite (bool_decide_ext _ (END_TAG_STR `suffix_of` take (S k) buf)); [done|].
    rewrite suffix_drop, Hlen. change (length END_TAG_STR) with 6%nat. split; [|by intros []].
    intros Hd. split; [lia|done].
  - rewrite bool_decide_false; [done|]. rewrite suffix_drop, Hlen.
    change (length END_TAG_STR) with 6%nat. lia.
Qed.

(** The end of the last record of a buffer: without a newline there is none
    (ENOENT); when the last newline ends an end tag, it is the place behind
    it; otherwise the loop is, after every number of turns, still at the place
    behind this newline: it does not end. *)
Theorem detect_last_record_end_spec buf post fuel :
  (0 < fuel)%nat →
  binlog_detect_last_record_end (buf ++ post) fuel 0 (zlen buf) =
  match find_last NEWLINE buf with
  | None => Some (inr (ENOENT, None))
  | Some k =>
      if bool_decide (END_TAG_STR `suffix_of` take (S k) buf)
      then Some (inr (0, Some (Z.of_nat k + 1))) else Some (inl (Z.of_nat k + 1))
  end.
Proof.
  intros Hf. unfold binlog_detect_last_record_end. destruct fuel as [|fuel]; [lia|].
  cbn [iterate]. destruct (find_last NEWLINE buf) as [k|] eqn:Hk.
  - rewrite (last_end_turn buf post k Hk) by by left.
    destruct (bool_decide (END_TAG_STR `suffix_of` take (S k) buf)) eqn:E; [done|].
    clear Hf. induction fuel as [|fuel IH]; [done|]. cbn [iterate].
    rewrite (last_end_turn buf post k Hk) by by right. by rewrite E.
  - unfold last_end_step. destruct (Z.leb_spec (zlen buf) 0); [done|].
    unfold memrchr. rewrite (bytes_at_head _ _ _ eq_refl), Hk. done.
Qed.

(** ** Termination *)

Section ends.
Context `{F : FastCommon}.
Variable mem : text.
Hypothesis Hmem : zlen mem < 2 ^ 31.

(** A field read moves [p] on, or (a length below -2^31) out of the memory. *)
Lemma next_progress mpool p rec_end name fv p' :
  binlog_get_next_field_value mem mpool p rec_end = Some (inr (name, fv, p')) →
  0 ≤ p < zlen mem ∧ (p < p' ∨ p' < 0).
Proof using All.
  unfold binlog_get_next_field_value. intros H.
  destruct (byte_at mem p) as [c|] eqn:Hp; [|done]. apply byte_at_Some in Hp.
  split; [done|]. cbn [mbind option_bind] in H.
  destruct (Ascii.eqb c "/"); [done|]. destruct (negb _); [done|].
  destruct (uint64 _ <? _); [done|].
  destruct (byte_at mem _) as [e|]; [|done]. cbn [mbind option_bind] in H.
  destruct (negb _); [done|].
  destruct (bytes_at mem (p + 1) _) as [nm|]; [|done]. cbn [mbind option_bind] in H.
  destruct (strtoll_at mem _) as [[n endptr]|] eqn:Hn; [|done]. cbn [mbind option_bind] in H.
  apply strtoll_at_Some in Hn. unfold FIELD_NAME_LENGTH in Hn.
  destruct (byte_at mem endptr) as [d|] eqn:He; [|done]. apply byte_at_Some in He.
  cbn [mbind option_bind] in H. destruct (Ascii.eqb d ",").
  - destruct (uint64 _ <? _); [done|].
    destruct (bytes_at mem (endptr + 1) _) as [s|] eqn:Hs; [|done].
    cbn [mbind option_bind] in H. apply bytes_at_Some in Hs.
    assert (p' = endptr + 1 + n) as ->.
    { destruct (find_char BACKSLASH s); [destruct mpool as [|ok|]; [|destruct (ok s)|]|];
        simplify_eq; done. }
    destruct (decide (0 ≤ n)); [lia|].
    destruct (decide (- 2 ^ 31 ≤ n)); [|lia].
    rewrite int32_small in Hs by (unfold is_int32; lia). lia.
  - destruct (_ || _); [|done]. simplify_eq. lia.
Qed.

(** [C36] The parser's loop and the two scans end: none of them still runs after
    as many turns as the memory has bytes, and one more. *)
Theorem binlog_loops_end mpool rec_end p r str len s1 s2 s3 :
  0 ≤ p → 0 ≤ str → 0 ≤ len → str + len ≤ zlen mem →
  iterate (parse_step mem mpool rec_end) (length mem + 2) (p, r) ≠ Some (inl s1) ∧
  iterate (forward_step mem str (str + len)) (length mem + 2) str ≠ Some (inl s2) ∧
  iterate (reverse_step mem str len) (length mem + 2) len ≠ Some (inl s3).
Proof using All.
  intros Hp Hs Hl Hsl. unfold zlen in *. split_and!.
  - apply (iterate_ends _ (λ st, if decide (st.1 < 0) then 0%nat
      else S (Z.to_nat (Z.of_nat (length mem) - st.1))) (λ _, True)); [|done|].
    + intros [q r1] [q' r2] _ Hst. split; [done|]. cbn [fst].
      unfold parse_step in Hst.
      destruct (binlog_get_next_field_value mem mpool q rec_end) as [[rc|[[nm fv] p1]]|] eqn:E;
        [done| |done].
      cbn [mbind option_bind] in Hst. destruct (binlog_set_field_value nm fv r1) as [rc r'].
      destruct (negb _ && negb _); [done|]. simplify_eq.
      apply next_progress in E. unfold zlen in E. repeat case_decide; lia.
    + cbn [fst]. case_decide; lia.
  - apply (iterate_ends _ (λ q, Z.to_nat (str + len - q)) (λ _, True)); [|done|lia].
    intros q q' _ Hst. split; [done|]. unfold forward_step, BINLOG_RECORD_MIN_SIZE in Hst.
    destruct (Z.ltb_spec (str + len - q) 64); [done|].
    destruct (memchr mem q _ _) as [[x|]|] eqn:E; [|done|done]. apply memchr_Some in E.
    cbn [mbind option_bind] in Hst.
    assert (q' = x + 1); [|lia].
    destruct (str <=? _); [|by simplify_eq].
    destruct (binlog_is_record_start mem _ _) as [[ctx|]|]; cbn in Hst; by simplify_eq.
  - apply (iterate_ends _ Z.to_nat (λ _, True)); [|done|lia].
    intros l l' _ Hst. split; [done|]. unfold reverse_step in Hst.
    destruct (Z.leb_spec l 0); [done|].
    destruct (memrchr mem str _ _) as [[x|]|] eqn:E; [|done|done]. apply memrchr_Some in E.
    cbn [mbind option_bind] in Hst.
    assert (l' = x - 1 - str); [|lia]. destruct (str <=? _); [|by simplify_eq].
    destruct (binlog_is_record_start mem _ _) as [[ctx|]|]; cbn in Hst; by simplify_eq.
Qed.

(** A string whose stated length runs past the end of its record by any
    amount is not refused: the length check compares an unsigned number, and
    the value read holds the bytes behind the record. *)
Theorem string_overrun_accepted pre name s rest rec_end p' mpool :
  mem = pre ++ item_text (ItStr name s s) ++ rest →
  zlen (lit name) = 2 → BACKSLASH ∉ s →
  p' = zlen pre + zlen (item_text (ItStr name s s)) →
  zlen pre + 11 ≤ rec_end < p' →
  binlog_get_next_field_value mem mpool (zlen pre) rec_end =
  Some (inr (lit name, FvString s, p')).
Proof using All.
  intros Hm Hname Hb Hp' Hend.
  pose proof (zlen_nonneg pre). pose proof (zlen_nonneg rest).
  pose proof (str_text_length name s s Hname) as Hl.
  pose proof (print_int_nonempty (zlen s)). pose proof (zlen_nonneg s).
  assert (Hlm : zlen mem = p' + zlen rest) by (rewrite Hm, !zlen_app; lia).
  rewrite (next_str mem mpool pre name s s rest rec_end p'); try done; try lia.
  - apply find_char_None in Hb. by rewrite Hb.
  - apply Z.ltb_ge. unfold uint64, END_TAG_LEN.
    rewrite <- (Z_mod_plus_full _ 1), Z.mod_small; lia.
Qed.
End ends.
