(* ===== verification/BinlogDemo.v ===== *)
(** * Binlog records: a concrete character converter and concrete records

    An implementation of what the record format uses of libfastcommon, with
    its laws, and the theorems of BinlogScan.v at concrete records, the
    finding on the printed length among them. *)

From Stdlib Require Import Ascii.
From S2P Require Import Prelude CText ServerTypes BinlogPack BinlogRecord BinlogScan.

(** ** A converter *)

Fixpoint partner (ps : list (ascii * ascii)) (c : ascii) : option ascii :=
  match ps with
  | [] => None
  | (a, b) :: ps' => if Ascii.eqb a c then Some b else partner ps' c
  end.
Fixpoint origin (ps : list (ascii * ascii)) (d : ascii) : option ascii :=
  match ps with
  | [] => None
  | (a, b) :: ps' => if Ascii.eqb b d then Some a else origin ps' d
  end.

Definition escape_char (ps : list (ascii * ascii)) (c : ascii) : text :=
  match partner ps c with Some d => [BACKSLASH; d] | None => [c] end.
Definition escape_all (ps : list (ascii * ascii)) (s : text) : text := s ≫= escape_char ps.

Fixpoint unescape (ps : list (ascii * ascii)) (s : text) : text :=
  match s with
  | [] => []
  | c :: s' =>
      if Ascii.eqb c BACKSLASH then
        match s' with
        | [] => [c]
        | d :: s2 => match origin ps d with
                     | Some a => a :: unescape ps s2
                     | None => c :: d :: unescape ps s2
                     end
        end
      else c :: unescape ps s'
  end.

#[export] Instance simple_common : FastCommon := {
  fast_buffer_check b n :=
    (0, mkFastBuffer (fb_data b) (Z.max (fb_alloc b) (zlen (fb_data b) + n)));
  fast_buffer_check_capacity b n := (0, mkFastBuffer (fb_data b) (Z.max (fb_alloc b) n));
  fast_buffer_append b t := mkFastBuffer (fb_data b ++ t) (fb_alloc b);
  fast_char_escape ps s n := take (Z.to_nat n) (escape_all ps s);
  fast_char_unescape := unescape
}.

Lemma partner_None ps c : partner ps c = None ↔ c ∉ ps.*1.
Proof.
  induction ps as [|[a b] ps IH]; cbn [partner fmap list_fmap fst].
  - split; [intros _; by apply not_elem_of_nil|done].
  - rewrite not_elem_of_cons. destruct (Ascii.eqb_spec a c) as [->|].
    + split; [done|]. by intros [? _].
    + rewrite IH. split; [intros; split; [congruence|done]|by intros [_ ?]].
Qed.

Lemma partner_in ps c d : partner ps c = Some d → (c, d) ∈ ps.
Proof.
  induction ps as [|[a b] ps IH]; cbn [partner]; [done|].
  destruct (Ascii.eqb_spec a c) as [->|]; [intros [= ->]; by left|].
  intros. right. by apply IH.
Qed.

Lemma origin_of ps c d : NoDup ps.*2 → (c, d) ∈ ps → origin ps d = Some c.
Proof.
  induction ps as [|[a b] ps IH]; cbn [origin fmap list_fmap snd];
    [intros _ H; by apply not_elem_of_nil in H|].
  intros [Hb Hnd]%NoDup_cons [[= <- <-]|Hin]%elem_of_cons.
  - by rewrite Ascii.eqb_refl.
  - destruct (Ascii.eqb_spec b d) as [->|]; [|by apply IH].
    destruct Hb. apply list_elem_of_fmap. by exists (c, d).
Qed.

Lemma escape_cons ps c s : escape_all ps (c :: s) = escape_char ps c ++ escape_all ps s.
Proof. done. Qed.

Lemma escape_all_length ps s : zlen s ≤ zlen (escape_all ps s) ≤ 2 * zlen s.
Proof.
  induction s as [|c s IH]; [done|]. rewrite escape_cons, zlen_app, zlen_cons.
  unfold escape_char. destruct (partner ps c); rewrite ?zlen_cons; change (zlen []) with 0; lia.
Qed.

Lemma escape_take ps s n : 2 * zlen s ≤ n → take (Z.to_nat n) (escape_all ps s) = escape_all ps s.
Proof. intros Hn. pose proof (escape_all_length ps s). apply take_ge. unfold zlen in *. lia. Qed.

#[export] Instance simple_laws : FastCommonLaws simple_common.
Proof.
  constructor; cbn [fast_buffer_check fast_buffer_check_capacity fast_buffer_append fast_char_escape
    fast_char_unescape simple_common].
  - intros b n b' [= <-]. cbn [fb_data fb_alloc]. split_and!; [done|lia..].
  - intros b n b' [= <-]. cbn [fb_data fb_alloc]. split_and!; [done|lia..].
  - done.
  - intros ps s n Hn. by rewrite !escape_take.
  - intros ps s _. rewrite escape_take by done. apply escape_all_length.
  - intros ps s c _ H1 Hb H2. rewrite escape_take by done.
    induction s as [|x s IH]; [by apply not_elem_of_nil|].
    rewrite escape_cons, not_elem_of_app. split; [|done]. unfold escape_char.
    destruct (partner ps x) as [d|] eqn:E.
    + rewrite !not_elem_of_cons. split_and!; [done| |by apply not_elem_of_nil].
      intros ->. apply H2, list_elem_of_fmap. exists (x, d). by split; [|apply partner_in].
    + apply partner_None in E. rewrite not_elem_of_cons. split; [by intros ->|].
      by apply not_elem_of_nil.
  - intros ps s _. rewrite escape_take by done. intros Hb.
    induction s as [|x s IH]; [done|]. rewrite escape_cons, not_elem_of_app in Hb.
    destruct Hb as [Hx Hs]. rewrite escape_cons, IH by done. unfold escape_char in *.
    destruct (partner ps x); [|done]. rewrite not_elem_of_cons in Hx. by destruct Hx.
  - intros ps s (_ & Hnd & Hbs). rewrite escape_take by done.
    induction s as [|x s IH]; [done|]. rewrite escape_cons. unfold escape_char.
    destruct (partner ps x) as [d|] eqn:E.
    + cbn [app unescape]. rewrite Ascii.eqb_refl.
      rewrite (origin_of ps x d Hnd (partner_in _ _ _ E)). by rewrite IH.
    + cbn [app unescape]. destruct (Ascii.eqb_spec x BACKSLASH) as [->|]; [|by rewrite IH].
      apply partner_None in E. destruct E. apply list_elem_of_fmap.
      by exists (BACKSLASH, BACKSLASH).
Qed.

(** ** Concrete records *)

Definition created : LogRecord :=
  mkLogRecord 7 42 (lit "fs") 12345 BINLOG_OP_CREATE_DENTRY_INT true "p" 1700000000 0
    (mkLogOptions true true true false true true true false false true true true false false false)
    1 (lit "a<b") 0 [] 0
    (mkDEntryStat 33188 0 4294967295 1700000001 1700000000 0 0 0 4096 0 0) [] [].
Definition renamed : LogRecord :=
  mkLogRecord 8 42 (lit "fs") 12345 BINLOG_OP_RENAME_DENTRY_INT true "p" 1700000009 1
    (mkLogOptions true true true false false false false false false false false false false false
      false)
    1 (lit "new") 9 (lit "old") 0 zero_stat [] [].
(** [a<bcdefgh] is 9 bytes long, escaped 10. *)
Definition nine : LogRecord := with_l_name (lit "a<bcdefgh") created.

Definition empty_buffer : FastBuffer := mkFastBuffer (lit "xyz") 4096.

(** Evaluates a closed inequality, range, or list of them. *)
Ltac evaluate :=
  unfold is_int32, is_int64;
  repeat match goal with
  | |- Forall _ [] => apply Forall_nil_2
  | |- Forall _ (_ :: _) => apply Forall_cons_2
  | |- _ ∧ _ => split
  end;
  vm_compute; first [reflexivity | discriminate | intros ?; discriminate].

Lemma created_packable : packable created.
Proof.
  split; [evaluate..| | |].
  - discriminate.
  - discriminate.
  - unfold strings. evaluate.
Qed.

Lemma renamed_packable : packable renamed.
Proof.
  split; [evaluate..| | |].
  - discriminate.
  - intros _. evaluate.
  - unfold strings. evaluate.
Qed.

(** When escaping changes the number of digits of a string's length, what is
    printed is not the escaped length but its number of digits; the record
    that was just packed cannot be parsed. *)
Example packed_length_wrong :
  let b := binlog_pack_record nine (mkFastBuffer [] 4096) in
  b.1 = 0 ∧
  match binlog_unpack_record_ex (fb_data b.2) 0 (zlen (fb_data b.2)) MpoolNull with
  | Some (rc, r, _) => rc = EINVAL ∧ l_name r = lit "a" ++ [BACKSLASH]
  | None => False
  end.
Proof. vm_compute. done. Qed.

(** ** The theorems at these records *)

Definition packed (r : LogRecord) : text := fb_data (binlog_pack_record r (mkFastBuffer [] 4096)).2.

Lemma pack_unpack_roundtrip_witness :
  ∃ b', binlog_pack_record created empty_buffer = (0, b') ∧
  (zlen (fb_data b' ++ lit "tail") < 2 ^ 31 →
   binlog_unpack_record_ex (fb_data b' ++ lit "tail") 3 (zlen (fb_data b') - 3) MpoolNull =
   Some (0, unpacked created, Some (zlen (fb_data b')))).
Proof.
  apply (pack_unpack_roundtrip created empty_buffer (mkFastBuffer (lit "xyz") 4096)
    (lit "tail") MpoolNull).
  - by vm_compute.
  - right. vm_compute. discriminate.
  - apply created_packable.
  - evaluate.
  - exact I.
Defined.

(** A record without a path, and a record whose name has no parent. *)
Lemma pack_record_errors_witness :
  (binlog_pack_record (with_l_parent 0 created) empty_buffer).1 = EINVAL ∧
  (binlog_pack_record (with_l_name (replicate 9999 "a"%char) created)
     (mkFastBuffer [] 65536)).1 = EOVERFLOW.
Proof.
  split.
  - apply (pack_record_errors (with_l_parent 0 created) empty_buffer
      (mkFastBuffer (lit "xyz") 4096)); [by vm_compute|done|done|discriminate].
  - apply (pack_record_errors (with_l_name (replicate 9999 "a"%char) created)
      (mkFastBuffer [] 65536) (mkFastBuffer [] 65536)).
    + by vm_compute.
    + left. by vm_compute.
    + unfold strings. evaluate.
    + discriminate.
    + by vm_compute.
Defined.

Lemma detect_record_reverse_spec_witness :
  let mem := lit "rec>" ++ record_text created ++ take 30 (record_text renamed) ++ [] in
  binlog_detect_record_reverse mem 0 (zlen (lit "rec>" ++ record_text created ++
    take 30 (record_text renamed))) =
  Some (0, Some (zlen (lit "rec>" ++ record_text created)), Some 7).
Proof.
  intros mem. refine (detect_record_reverse_spec (lit "rec>") created renamed 30 [] mem _
    eq_refl eq_refl _ _ _ _ _).
  - apply Nat.ltb_lt. by vm_compute.
  - by vm_compute.
  - evaluate.
  - evaluate.
  - evaluate.
Defined.

Lemma detect_record_forward_spec_witness :
  let junk := drop 20 (record_text renamed) in
  let mem := junk ++ record_text created ++ lit "0104<rec" ++ [] in
  binlog_detect_record_forward mem 0 (zlen (junk ++ record_text created ++ lit "0104<rec")) =
  Some (0, zlen junk, Some (zlen (junk ++ record_text created), 7)).
Proof.
  intros junk mem. refine (detect_record_forward_spec renamed 20 created (lit "0104<rec") [] mem _
    _ eq_refl eq_refl _ _ _ _).
  - lia.
  - by vm_compute.
  - evaluate.
  - evaluate.
  - evaluate.
Defined.

(** A newline inside the buffer that no end tag stands before. *)
Lemma detect_last_record_end_spec_witness :
  let buf := lit "abc" ++ [NEWLINE] ++ lit "def" in
  binlog_detect_last_record_end (buf ++ []) 1000 0 (zlen buf) = Some (inl 4).
Proof.
  intros buf. exact (detect_last_record_end_spec buf [] 1000 (Nat.lt_0_succ 999)).
Defined.

Lemma binlog_loops_end_witness :
  let mem := record_text created in
  iterate (parse_step mem MpoolNull 20) (length mem + 2) (8, zero_record) ≠ Some (inl (8, created)) ∧
  iterate (forward_step mem 0 (0 + 20)) (length mem + 2) 0 ≠ Some (inl 5) ∧
  iterate (reverse_step mem 0 20) (length mem + 2) 20 ≠ Some (inl 5).
Proof.
  intros mem. apply (binlog_loops_end mem); try lia; by vm_compute.
Defined.

Lemma string_overrun_accepted_witness :
  let mem := lit "<rec" ++ item_text (ItStr "nm" (lit "abcdefgh") (lit "abcdefgh")) ++ lit "x" in
  binlog_get_next_field_value mem MpoolNull (zlen (lit "<rec")) 16 =
  Some (inr (lit "nm", FvString (lit "abcdefgh"), 18)).
Proof.
  intros mem. refine (string_overrun_accepted mem _ (lit "<rec") "nm" (lit "abcdefgh") (lit "x")
    16 18 MpoolNull eq_refl eq_refl _ eq_refl _).
  - by vm_compute.
  - apply (bool_decide_unpack _). exact I.
  - evaluate.
Defined.
