(* ===== verification/BinlogProducer.v ===== *)
(** * The binlog producer: [server/binlog/binlog_producer.c]

    The data threads give out data versions one by one, but the records of these
    versions reach the producer in any order. The producer puts them in order
    again: a record that is not the next one waits in a ring of [ring_size] slots,
    indexed by its first version, and one that is too far ahead goes back to the
    queue it came from. What the producer passes on ([pushed]) goes to the slaves.

    One function per C function over [ProducerContext]; pointers into the ring are
    indices. The theorems: what is passed on is an unbroken run of versions and no
    record is lost, for any interleaving of arrivals and rounds of the thread, as
    long as no record of several versions runs over the end of the ring's array;
    and what happens when one does. *)

From Stdlib Require Import Ascii.
From S2P Require Import Prelude CText.

(** ** Data *)

(** [ServerBinlogRecordBuffer]: the object, the versions it covers
    ([data_version.first], [data_version.last]), the text and the task that waits for
    it ([args]). *)
Record RBuffer := mkRBuffer {
  rb_id : ptr;
  rb_first : Z;
  rb_last : Z;
  rb_data : text;
  rb_args : ptr
}.

(** [proceduer_ctx] and [next_data_version]. A slot that is not in [p_entries] is
    NULL. [pushed] are the records given to [binlog_local_consumer_push_to_queues],
    in that order; [dropped] those that [deal_record] forgets. *)
Record ProducerContext := mkProducerContext {
  p_entries : gmap Z RBuffer;
  p_start : Z;
  p_end : Z;
  p_count : Z;
  p_size : Z;
  p_queue : list RBuffer;
  next_data_version : Z;
  pushed : list RBuffer;
  dropped : list RBuffer
}.

Definition with_entries (m : gmap Z RBuffer) (c : Z) (s : ProducerContext) :=
  mkProducerContext m (p_start s) (p_end s) c (p_size s) (p_queue s)
    (next_data_version s) (pushed s) (dropped s).
Definition with_start (i : Z) (s : ProducerContext) :=
  mkProducerContext (p_entries s) i (p_end s) (p_count s) (p_size s) (p_queue s)
    (next_data_version s) (pushed s) (dropped s).
Definition with_end (i : Z) (s : ProducerContext) :=
  mkProducerContext (p_entries s) (p_start s) i (p_count s) (p_size s) (p_queue s)
    (next_data_version s) (pushed s) (dropped s).
Definition with_queue (q : list RBuffer) (s : ProducerContext) :=
  mkProducerContext (p_entries s) (p_start s) (p_end s) (p_count s) (p_size s) q
    (next_data_version s) (pushed s) (dropped s).
Definition with_pushed (v : Z) (l : list RBuffer) (s : ProducerContext) :=
  mkProducerContext (p_entries s) (p_start s) (p_end s) (p_count s) (p_size s)
    (p_queue s) v l (dropped s).
Definition with_dropped (l : list RBuffer) (s : ProducerContext) :=
  mkProducerContext (p_entries s) (p_start s) (p_end s) (p_count s) (p_size s)
    (p_queue s) (next_data_version s) (pushed s) l.

(** ** Operations *)

Definition RING_SIZE := 4096.

(** [binlog_producer_init_ring]: an empty ring. *)
Definition binlog_producer_init_ring : ProducerContext :=
  mkProducerContext ∅ 0 0 0 RING_SIZE [] 0 [] [].

(** The start of [producer_thread_func]: the next version and where it goes. *)
Definition producer_thread_start (data_current_version : Z) (s : ProducerContext) :
    ProducerContext :=
  let v := uint64 (data_current_version + 1) in
  let i := v `mod` p_size s in
  with_end i (with_start i (with_pushed v (pushed s) s)).

Definition binlog_push_to_producer_queue (rb : RBuffer) (s : ProducerContext) :
    ProducerContext :=
  with_queue (p_queue s ++ [rb]) s.

(** The walk of [repush_to_queue] after its second node: [rb] goes before the
    first node that does not end below it. *)
Fixpoint repush_seek (rb : RBuffer) (l : list RBuffer) : list RBuffer :=
  match l with
  | [] => [rb]
  | c :: l' =>
    if rb_last c <? rb_first rb then c :: repush_seek rb l' else rb :: l
  end.

Definition repush_to_queue (rb : RBuffer) (s : ProducerContext) : ProducerContext :=
  match p_queue s, last (p_queue s) with
  | h :: l, Some t =>
    if rb_first rb <=? rb_first h then with_queue (rb :: h :: l) s
    else if rb_last t <? rb_first rb then with_queue ((h :: l) ++ [rb]) s
    else with_queue (h :: repush_seek rb l) s
  | _, _ => with_queue [rb] s
  end.

(** [GET_RBUFFER_VERSION_COUNT], stored in an [int]. *)
Definition version_count (rb : RBuffer) : Z := int32 (rb_last rb - rb_first rb + 1).

(** [PUSH_TO_CONSUMER_QUEQUES]. *)
Definition push_to_consumer_queues (rb : RBuffer) (s : ProducerContext) :
    ProducerContext :=
  with_pushed (uint64 (next_data_version s + version_count rb)) (pushed s ++ [rb]) s.

(** The slot of the next version. *)
Definition next_slot (s : ProducerContext) : Z := next_data_version s `mod` p_size s.

(** The loop that passes on the records that waited for the one just passed on;
    each round empties a slot, so there are at most as many as slots in use. *)
Fixpoint drain (fuel : nat) (s : ProducerContext) : ProducerContext :=
  match fuel with
  | O => s
  | S fuel' =>
    if p_start s =? p_end s then s
    else
      match p_entries s !! p_start s with
      | None => s
      | Some rb =>
        let s1 := push_to_consumer_queues rb s in
        let s2 := with_entries (delete (p_start s) (p_entries s1)) (p_count s1 - 1) s1 in
        drain fuel' (with_start (next_slot s2) s2)
      end
  end.

(** Does [ring.end] move when [rb] is put into slot [current]? *)
Definition expands (current last : Z) (s : ProducerContext) : bool :=
  if p_start s =? p_end s then true
  else if p_start s <? p_end s then
    negb ((p_start s <? current) && (last <? p_end s))
  else (p_end s <=? current) && (current <? p_start s).

Definition deal_record (rb : RBuffer) (s : ProducerContext) : ProducerContext :=
  let distance := int64 (rb_first rb - next_data_version s) in
  if p_size s - 1 <=? distance then repush_to_queue rb s
  else if distance <? 0 then with_dropped (dropped s ++ [rb]) s
  else
    let current := rb_first rb `mod` p_size s in
    if current =? p_start s then
      let s1 := push_to_consumer_queues rb s in
      if p_start s1 =? p_end s1 then
        with_end (next_slot s1) (with_start (next_slot s1) s1)
      else drain (size (p_entries s1)) (with_start (next_slot s1) s1)
    else
      let distance := int64 (rb_last rb - next_data_version s) in
      if p_size s - 1 <=? distance then repush_to_queue rb s
      else
        let s1 := with_entries (<[current := rb]> (p_entries s)) (p_count s + 1) s in
        if expands current (rb_last rb `mod` p_size s) s1 then
          with_end ((rb_last rb + 1) `mod` p_size s) s1
        else s1.

(** The loop of [deal_queue] over the records it took off the queue. *)
Definition deal_records (l : list RBuffer) (s : ProducerContext) : ProducerContext :=
  foldl (λ s rb, deal_record rb s) s l.

(** One round of the thread; on an empty queue it waits and comes back with
    nothing. *)
Definition deal_queue (s : ProducerContext) : ProducerContext :=
  deal_records (p_queue s) (with_queue [] s).

(** What happens to the producer: a data thread hands over a record, or the
    producer's thread makes a round. *)
Inductive ProducerEvent :=
| EvPush (rb : RBuffer)
| EvRound.

Definition producer_step (s : ProducerContext) (e : ProducerEvent) : ProducerContext :=
  match e with
  | EvPush rb => binlog_push_to_producer_queue rb s
  | EvRound => deal_queue s
  end.

Definition producer_run (es : list ProducerEvent) (s : ProducerContext) :
    ProducerContext := foldl producer_step s es.

(** The records handed over during a run. *)
Definition handed (es : list ProducerEvent) : list RBuffer :=
  es ≫= λ e, match e with EvPush rb => [rb] | EvRound => [] end.

(** ** What waits, and what has been passed on *)

(** The versions of some records, in their order. *)
Definition vers (l : list RBuffer) : list Z :=
  l ≫= λ r, seqZ (rb_first r) (rb_last r - rb_first r + 1).

(** A record with versions in range that does not run over the end of the ring's
    array. *)
Definition rb_ok (size : Z) (r : RBuffer) : Prop :=
  0 < rb_first r ≤ rb_last r ∧ rb_last r < 2 ^ 63 - 1 ∧
  rb_last r - rb_first r < 2 ^ 31 - 1 ∧
  rb_first r `mod` size ≤ rb_last r `mod` size.

(** Records whose versions are still to come, each version once. *)
Record ahead (size n : Z) (l : list RBuffer) : Prop := {
  ahead_ok : Forall (rb_ok size) l;
  ahead_from : Forall (λ r, n ≤ rb_first r) l;
  ahead_once : NoDup (vers l)
}.

Definition ring_records (s : ProducerContext) : list RBuffer :=
  (map_to_list (p_entries s)).*2.

(** The records that the producer holds, with those of the round it is in. *)
Definition waiting (s : ProducerContext) (rest : list RBuffer) : list RBuffer :=
  ring_records s ++ p_queue s ++ rest.

(** The slots: every record is in its slot, below the version [E] that [p_end]
    stands for; [n] is the next version and [lo] bounds the records. *)
Record slots_ok (s : ProducerContext) (lo E : Z) : Prop := {
  slots_next : 0 < next_data_version s < 2 ^ 63;
  slots_size : 1 < p_size s < 2 ^ 31;
  slots_start : p_start s = next_slot s;
  slots_end : p_end s = E `mod` p_size s;
  slots_span : next_data_version s ≤ E < next_data_version s + p_size s;
  slots_count : p_count s = Z.of_nat (size (p_entries s));
  slots_in : ∀ i r, p_entries s !! i = Some r →
    i = rb_first r `mod` p_size s ∧ lo ≤ rb_first r ≤ rb_last r ∧ rb_last r < E;
  slots_last : E = next_data_version s ∨
    ∃ i r, p_entries s !! i = Some r ∧ rb_last r + 1 = E
}.

(** The invariant between two records: nothing in the ring is due. *)
Definition producer_ok (s : ProducerContext) (rest : list RBuffer) : Prop :=
  (∃ E, slots_ok s (next_data_version s + 1) E) ∧
  ahead (p_size s) (next_data_version s) (waiting s rest).

(** [s'] is [s] after passing on a run of versions; nothing is lost. *)
Definition advanced (s s' : ProducerContext) (l l' : list RBuffer) : Prop :=
  dropped s' = dropped s ∧ p_size s' = p_size s ∧
  next_data_version s ≤ next_data_version s' ∧
  ∃ out, pushed s' = pushed s ++ out ∧
    vers out = seqZ (next_data_version s)
                 (next_data_version s' - next_data_version s) ∧
    waiting s l ≡ₚ out ++ waiting s' l'.

(** ** Versions *)

Lemma vers_app l k : vers (l ++ k) = vers l ++ vers k.
Proof. apply bind_app. Qed.

#[export] Instance vers_Proper : Proper ((≡ₚ) ==> (≡ₚ)) vers.
Proof. intros l k H. unfold vers. by rewrite H. Qed.

Lemma elem_of_vers v l :
  v ∈ vers l ↔ ∃ r, r ∈ l ∧ rb_first r ≤ v ≤ rb_last r.
Proof.
  unfold vers. rewrite list_elem_of_bind. setoid_rewrite elem_of_seqZ.
  split; intros (r & ? & ?); exists r; (split; [done || lia|done || lia]).
Qed.

#[export] Instance ahead_Proper size n : Proper ((≡ₚ) ==> iff) (ahead size n).
Proof.
  intros l k H. split; intros [H1 H2 H3].
  - split; by rewrite <- H.
  - split; by rewrite H.
Qed.

Lemma ahead_apart size n r l k :
  ahead size n (r :: l) → k ∈ l → rb_last r < rb_first k ∨ rb_last k < rb_first r.
Proof.
  intros [Hok _ Hnd] Hk. rewrite Forall_cons in Hok. destruct Hok as [Hr Hok].
  rewrite Forall_forall in Hok. specialize (Hok k Hk).
  unfold rb_ok in *. destruct (decide (rb_last r < rb_first k)); [by left|].
  destruct (decide (rb_last k < rb_first r)); [by right|exfalso].
  change (r :: l) with ([r] ++ l) in Hnd. rewrite vers_app in Hnd.
  apply NoDup_app in Hnd as (_ & Hd & _).
  apply (Hd (Z.max (rb_first r) (rb_first k))).
  - apply elem_of_vers. exists r. split; [set_solver|lia].
  - apply elem_of_vers. exists k. split; [done|lia].
Qed.

(** Once the next record is passed on, the others are behind it. *)
Lemma ahead_next size r l :
  ahead size (rb_first r) (r :: l) → ahead size (rb_last r + 1) l.
Proof.
  intros Ha. pose proof (λ k, ahead_apart _ _ _ _ k Ha) as Hap.
  destruct Ha as [Hok Hf Hnd]. split.
  - by apply Forall_cons in Hok as [_ ?].
  - apply Forall_forall. intros k Hk.
    destruct (Hap k Hk) as [?|Hlt]; [lia|].
    rewrite Forall_forall in Hok, Hf.
    pose proof (Hf k ltac:(set_solver)). pose proof (Hok k ltac:(set_solver)) as (?&_).
    simpl in *. lia.
  - change (r :: l) with ([r] ++ l) in Hnd. rewrite vers_app in Hnd.
    by apply NoDup_app in Hnd as (_ & _ & ?).
Qed.

Lemma advanced_refl s l : advanced s s l l.
Proof.
  repeat split; [lia|]. exists []. rewrite app_nil_r, Z.sub_diag. by repeat split.
Qed.

Lemma advanced_trans s1 s2 s3 l1 l2 l3 :
  advanced s1 s2 l1 l2 → advanced s2 s3 l2 l3 → advanced s1 s3 l1 l3.
Proof.
  intros (D1 & S1 & N1 & o1 & P1 & V1 & W1) (D2 & S2 & N2 & o2 & P2 & V2 & W2).
  repeat split; [congruence|congruence|lia|]. exists (o1 ++ o2). split_and!.
  - by rewrite P2, P1, app_assoc.
  - rewrite vers_app, V1, V2.
    replace (next_data_version s3 - next_data_version s1) with
      ((next_data_version s2 - next_data_version s1)
       + (next_data_version s3 - next_data_version s2)) by lia.
    rewrite seqZ_app by lia. f_equal. f_equal. lia.
  - by rewrite W1, W2, app_assoc.
Qed.

(** ** Slots *)

(** The slot of a version at distance [d] from the next one. *)
Lemma slot_at size n d :
  0 < size → 0 ≤ d < size →
  (n + d) `mod` size
  = if decide (n `mod` size + d < size) then n `mod` size + d
    else n `mod` size + d - size.
Proof.
  intros Hs Hd. pose proof (Z.mod_pos_bound n size Hs).
  rewrite <- Z.add_mod_idemp_l by lia.
  destruct (decide _); [by apply Z.mod_small; lia|].
  symmetry. apply (Z.mod_unique_pos _ _ 1); lia.
Qed.

Lemma slot_same size n x y :
  0 < size → n ≤ x < n + size → n ≤ y < n + size →
  x `mod` size = y `mod` size → x = y.
Proof.
  intros Hs Hx Hy. pose proof (Z.mod_pos_bound n size Hs).
  replace x with (n + (x - n)) by lia. replace y with (n + (y - n)) by lia.
  rewrite !slot_at by lia. repeat destruct (decide _); lia.
Qed.

Lemma ring_records_insert m i r s :
  m !! i = None →
  ring_records (with_entries (<[i := r]> m) (p_count s + 1) s)
  ≡ₚ r :: ring_records (with_entries m (p_count s) s).
Proof. intros H. unfold ring_records. simpl. by rewrite map_to_list_insert. Qed.

Lemma ring_records_elem s r :
  r ∈ ring_records s ↔ ∃ i, p_entries s !! i = Some r.
Proof.
  unfold ring_records. rewrite list_elem_of_fmap. split.
  - intros ([i x] & -> & Hx%elem_of_map_to_list). by exists i.
  - intros [i Hi]. exists (i, r). split; [done|by apply elem_of_map_to_list].
Qed.

(** ** Steps *)

Lemma push_next s r :
  rb_ok (p_size s) r → next_data_version s = rb_first r →
  push_to_consumer_queues r s = with_pushed (rb_last r + 1) (pushed s ++ [r]) s.
Proof.
  intros (H1 & H2 & H3 & _) Hn. unfold push_to_consumer_queues. f_equal.
  unfold version_count. rewrite int32_small by (unfold is_int32; lia).
  rewrite uint64_small by lia. lia.
Qed.

(** Passing on the next record. *)
Lemma pass_on s s' r l l' W :
  waiting s l ≡ₚ r :: W → waiting s' l' ≡ₚ W →
  next_data_version s = rb_first r → next_data_version s' = rb_last r + 1 →
  pushed s' = pushed s ++ [r] → dropped s' = dropped s → p_size s' = p_size s →
  ahead (p_size s) (next_data_version s) (waiting s l) →
  ahead (p_size s') (next_data_version s') (waiting s' l') ∧ advanced s s' l l'.
Proof.
  intros Hw Hw' Hn Hn' Hp Hd Hs Ha. rewrite Hw, Hn in Ha.
  assert (rb_ok (p_size s) r) as (Hr & _).
  { destruct Ha as [Hok _ _]. by apply Forall_cons in Hok as [? _]. }
  split.
  - rewrite Hw', Hn', Hs. by apply ahead_next.
  - repeat split; [done|done|lia|]. exists [r]. split_and!; [done| |].
    + unfold vers. simpl. rewrite app_nil_r. f_equal; lia.
    + by rewrite Hw, Hw'.
Qed.

Lemma waiting_delete s i r rest c :
  p_entries s !! i = Some r →
  waiting s rest
  ≡ₚ r :: waiting (with_entries (delete i (p_entries s)) c s) rest.
Proof.
  intros Hi. unfold waiting, ring_records. simpl.
  rewrite <- (insert_delete_id _ _ _ Hi) at 1.
  rewrite map_to_list_insert by apply lookup_delete_eq. done.
Qed.

Lemma slots_empty s E :
  slots_ok s (next_data_version s) E → p_start s = p_end s →
  E = next_data_version s ∧ p_entries s = ∅.
Proof.
  intros [] Hse.
  assert (E = next_data_version s) as ->.
  { apply (slot_same (p_size s) (next_data_version s)); [lia|lia|lia|].
    unfold next_slot in *. congruence. }
  split; [done|]. apply map_empty. intros i.
  destruct (p_entries s !! i) as [r|] eqn:Hi; [|done].
  destruct (slots_in0 _ _ Hi). lia.
Qed.

Lemma slots_head s E r :
  slots_ok s (next_data_version s) E → p_entries s !! p_start s = Some r →
  rb_first r = next_data_version s.
Proof.
  intros [] Hi. destruct (slots_in0 _ _ Hi) as (Hs & ? & ?).
  apply (slot_same (p_size s) (next_data_version s)); [lia|lia|lia|].
  unfold next_slot in *. congruence.
Qed.

Lemma slots_wait s E :
  slots_ok s (next_data_version s) E → p_entries s !! p_start s = None →
  slots_ok s (next_data_version s + 1) E.
Proof.
  intros [] Hi. split; try done. intros j k Hj.
  destruct (slots_in0 _ _ Hj) as (Hs & ? & ?). split_and!; [done| |lia|lia].
  destruct (decide (rb_first k = next_data_version s)); [|lia].
  unfold next_slot in *. congruence.
Qed.

(** The state after one round of the loop in [drain]. *)
Definition drain_step (r : RBuffer) (s : ProducerContext) : ProducerContext :=
  let s1 := push_to_consumer_queues r s in
  let s2 := with_entries (delete (p_start s) (p_entries s1)) (p_count s1 - 1) s1 in
  with_start (next_slot s2) s2.

Lemma drain_step_ok s E r rest :
  slots_ok s (next_data_version s) E → p_entries s !! p_start s = Some r →
  ahead (p_size s) (next_data_version s) (waiting s rest) →
  let s' := drain_step r s in
  slots_ok s' (next_data_version s') E ∧ size (p_entries s) = S (size (p_entries s')) ∧
  ahead (p_size s') (next_data_version s') (waiting s' rest) ∧ advanced s s' rest rest.
Proof.
  intros Hsl Hi Ha. pose proof (slots_head _ _ _ Hsl Hi) as Hf.
  pose proof (waiting_delete s _ r rest (p_count s - 1) Hi) as Hw.
  pose proof Ha as Ha'. rewrite Hw in Ha'.
  assert (rb_ok (p_size s) r) as Hok.
  { destruct Ha' as [Hok _ _]. by apply Forall_cons in Hok as [? _]. }
  pose proof (λ k, ahead_apart _ _ _ _ k Ha') as Hap.
  assert (drain_step r s = with_start ((rb_last r + 1) `mod` p_size s)
    (with_pushed (rb_last r + 1) (pushed s ++ [r])
      (with_entries (delete (p_start s) (p_entries s)) (p_count s - 1) s))) as Hds.
  { unfold drain_step. by rewrite push_next by (done || congruence). }
  intros s'. 
  assert (size (p_entries s) = S (size (delete (p_start s) (p_entries s)))) as Hsz.
  { rewrite <- (insert_delete_id _ _ _ Hi) at 1. apply map_size_insert_None.
    apply lookup_delete_eq. }
  split; [|split; [by unfold s'; rewrite Hds|]]; cycle 1.
  { eapply (pass_on s s' r _ _ _ Hw); unfold s'; by rewrite ?Hds. }
  unfold s'. rewrite Hds. clear s' Hds.
  - destruct Hsl. destruct Hok as (? & ? & ? & _).
    pose proof (slots_in0 _ _ Hi) as (_ & _ & HrE).
    split; simpl; try done; [lia|lia|lia| |].
    + intros j k [Hne Hj]%lookup_delete_Some.
      destruct (slots_in0 _ _ Hj) as (? & ? & ?). split_and!; [done| |lia|done].
      destruct (Hap k) as [?|?]; [|lia|lia].
      apply elem_of_app. left. apply ring_records_elem. exists j. simpl.
      by rewrite lookup_delete_ne.
    + destruct slots_last0 as [?|(j & k & Hj & Hk)]; [left; lia|].
      destruct (decide (j = p_start s)) as [->|Hne].
      * left. simplify_eq. lia.
      * right. exists j, k. by rewrite lookup_delete_ne.
Qed.

Lemma drain_ok fuel s E rest :
  slots_ok s (next_data_version s) E → (size (p_entries s) ≤ fuel)%nat →
  ahead (p_size s) (next_data_version s) (waiting s rest) →
  producer_ok (drain fuel s) rest ∧ advanced s (drain fuel s) rest rest.
Proof.
  revert s. induction fuel as [|fuel IH]; intros s Hsl Hfuel Ha.
  - assert (p_entries s = ∅) as He by (apply map_size_empty_inv; lia).
    simpl. split; [|apply advanced_refl]. split; [|done]. exists E.
    apply slots_wait; [done|by rewrite He].
  - simpl. destruct (Z.eqb_spec (p_start s) (p_end s)) as [Hse|Hse].
    { destruct (slots_empty _ _ Hsl Hse) as [_ He].
      split; [|apply advanced_refl]. split; [|done]. exists E.
      apply slots_wait; [done|by rewrite He]. }
    destruct (p_entries s !! p_start s) as [r|] eqn:Hi.
    + destruct (drain_step_ok s E r rest Hsl Hi Ha) as (Hsl' & Hsz & Ha' & Had).
      fold (drain_step r s).
      destruct (IH (drain_step r s)) as [Hok Hadv]; [done|lia|done|].
      split; [done|]. by eapply advanced_trans.
    + split; [|apply advanced_refl]. split; [|done]. exists E.
      by apply slots_wait.
Qed.

Lemma repush_seek_perm r l : repush_seek r l ≡ₚ r :: l.
Proof.
  induction l as [|c l IH]; simpl; [done|]. destruct (_ <? _); [|done].
  rewrite IH. apply Permutation_swap.
Qed.

Lemma repush_perm r s :
  ∃ q, repush_to_queue r s = with_queue q s ∧ q ≡ₚ r :: p_queue s.
Proof.
  unfold repush_to_queue. destruct (p_queue s) as [|h l]; [by exists [r]|].
  destruct (last (h :: l)) eqn:Hl; [|by rewrite last_None in Hl].
  destruct (_ <=? _); [by eexists|]. destruct (_ <? _); eexists; (split; [done|]).
  - by rewrite Permutation_app_comm.
  - rewrite repush_seek_perm. apply Permutation_swap.
Qed.

Lemma waiting_cons s r rest : waiting s (r :: rest) ≡ₚ r :: waiting s rest.
Proof. unfold waiting. by rewrite !app_assoc, <- Permutation_middle. Qed.

Lemma repush_ok r s rest :
  producer_ok s (r :: rest) →
  producer_ok (repush_to_queue r s) rest ∧
  advanced s (repush_to_queue r s) (r :: rest) rest.
Proof.
  intros [[E []] Ha]. destruct (repush_perm r s) as (q & -> & Hq).
  assert (waiting s (r :: rest) ≡ₚ waiting (with_queue q s) rest) as Hw.
  { rewrite waiting_cons. unfold waiting.
    change (ring_records (with_queue q s)) with (ring_records s). simpl. rewrite Hq.
    simpl. by rewrite <- Permutation_middle. }
  split.
  - split; [by exists E|]. simpl. by rewrite <- Hw.
  - repeat split; simpl; [lia|]. exists []. by rewrite app_nil_r, Z.sub_diag.
Qed.

(** When does the end of the ring move? Exactly when the record is above it. *)
Lemma expands_spec s E r m c :
  slots_ok s (next_data_version s + 1) E → rb_ok (p_size s) r →
  next_data_version s < rb_first r →
  rb_last r < next_data_version s + p_size s - 1 →
  (rb_first r < E → rb_last r < E) →
  expands (rb_first r `mod` p_size s) (rb_last r `mod` p_size s) (with_entries m c s)
  = bool_decide (E ≤ rb_first r).
Proof.
  intros [Hn Hsz Hst Hen Hsp _ _ _] (Hf & _ & _ & Hfit) Hlo Hhi Hsep.
  unfold expands. simpl. rewrite Hst, Hen. unfold next_slot.
  set (n := next_data_version s) in *. set (k := p_size s) in *.
  pose proof (Z.mod_pos_bound n k ltac:(lia)) as Hb.
  pose proof (slot_at k n (E - n) ltac:(lia) ltac:(lia)) as H1.
  pose proof (slot_at k n (rb_first r - n) ltac:(lia) ltac:(lia)) as H2.
  pose proof (slot_at k n (rb_last r - n) ltac:(lia) ltac:(lia)) as H3.
  rewrite Zplus_minus in H1, H2, H3.
  repeat case_match; rewrite ?Z.eqb_eq, ?Z.ltb_lt, ?Z.eqb_neq, ?Z.ltb_ge in *;
    case_bool_decide; repeat destruct (decide _);
    rewrite ?andb_true_iff, ?negb_true_iff, ?andb_false_iff, ?negb_false_iff,
      ?andb_true_iff, ?Z.ltb_lt, ?Z.ltb_ge, ?Z.leb_le, ?Z.leb_gt; lia.
Qed.

(** A record that waits in the ring. *)
Lemma insert_ok s r rest :
  producer_ok s (r :: rest) → next_data_version s < rb_first r →
  rb_last r < next_data_version s + p_size s - 1 →
  let i := rb_first r `mod` p_size s in
  let s1 := with_entries (<[i := r]> (p_entries s)) (p_count s + 1) s in
  let s' := if expands i (rb_last r `mod` p_size s) s1
            then with_end ((rb_last r + 1) `mod` p_size s) s1 else s1 in
  producer_ok s' rest ∧ advanced s s' (r :: rest) rest.
Proof.
  intros [[E Hsl] Ha] Hlo Hhi i s1 s'. rewrite waiting_cons in Ha.
  pose proof (λ k, ahead_apart _ _ _ _ k Ha) as Hap.
  assert (rb_ok (p_size s) r) as Hok.
  { destruct Ha as [Hok _ _]. by apply Forall_cons in Hok as [? _]. }
  assert (∀ j k, p_entries s !! j = Some k →
    rb_last r < rb_first k ∨ rb_last k < rb_first r) as Hring.
  { intros j k Hj. apply Hap, elem_of_app. left. apply ring_records_elem. by exists j. }
  pose proof Hok as ((_ & Hle) & _).
  assert (rb_first r < E → rb_last r < E) as Hsep.
  { intros Hlt. destruct Hsl. destruct slots_last0 as [?|(j & k & Hj & Hk)]; [lia|].
    destruct (slots_in0 _ _ Hj) as (_ & ? & _). destruct (Hring j k Hj); lia. }
  assert (p_entries s !! i = None) as Hi.
  { destruct (p_entries s !! i) as [k|] eqn:Hi; [exfalso|done].
    destruct Hsl. destruct (slots_in0 _ _ Hi) as (Hik & ? & ?).
    assert (rb_first r = rb_first k).
    { apply (slot_same (p_size s) (next_data_version s)); [lia|lia|lia|done]. }
    destruct (Hring i k Hi); lia. }
  assert (waiting s (r :: rest) ≡ₚ waiting s1 rest) as Hw.
  { rewrite waiting_cons. unfold s1, waiting.
    rewrite ring_records_insert by done. done. }
  assert (waiting s' rest = waiting s1 rest) as Hw'.
  { unfold s'. by destruct (expands _ _ _). }
  split; [split|].
  - exists (if expands i (rb_last r `mod` p_size s) s1 then rb_last r + 1 else E).
    unfold s', s1, i. rewrite (expands_spec s E) by done.
    destruct Hsl. case_bool_decide as HE; split; simpl; try done; try lia;
      try (rewrite map_size_insert_None by done; lia).
    + intros j k [[<- <-]|[Hne Hj]]%lookup_insert_Some; [split_and!; [done|lia..]|].
      destruct (slots_in0 _ _ Hj) as (? & ? & ?). split_and!; [done|lia..].
    + right. exists i, r. by rewrite lookup_insert_eq.
    + intros j k [[<- <-]|[Hne Hj]]%lookup_insert_Some; [split_and!; [done|lia..]|].
      destruct (slots_in0 _ _ Hj) as (? & ? & ?). split_and!; [done|lia..].
    + destruct slots_last0 as [?|(j & k & Hj & Hk)]; [lia|]. right. exists j, k.
      rewrite lookup_insert_ne by (unfold i in Hi; congruence). done.
  - rewrite Hw', <- Hw, waiting_cons. unfold s'. by destruct (expands _ _ _).
  - assert (dropped s' = dropped s ∧ p_size s' = p_size s ∧ pushed s' = pushed s ∧
      next_data_version s' = next_data_version s) as (E1 & E2 & E3 & E4).
    { unfold s'. by destruct (expands _ _ _). }
    split_and!; [done|done|lia|]. exists [].
    by rewrite E3, E4, app_nil_r, Z.sub_diag, Hw', Hw.
Qed.

(** The next record: it is passed on, with those that waited for it. *)
Lemma head_ok s r rest :
  producer_ok s (r :: rest) → rb_first r = next_data_version s →
  let s' := deal_record r s in
  producer_ok s' rest ∧ advanced s s' (r :: rest) rest ∧
  next_data_version s < next_data_version s'.
Proof.
  intros [[E Hsl] Ha] Hf s'. pose proof Ha as Ha'. rewrite waiting_cons in Ha'.
  pose proof (λ k, ahead_apart _ _ _ _ k Ha') as Hap.
  assert (rb_ok (p_size s) r) as Hok.
  { destruct Ha' as [Hok _ _]. by apply Forall_cons in Hok as [? _]. }
  pose proof Hok as ((_ & Hle) & Hmax & _).
  set (s1 := with_start ((rb_last r + 1) `mod` p_size s)
               (with_pushed (rb_last r + 1) (pushed s ++ [r]) s)).
  assert (s' = if p_start s =? p_end s
               then with_end ((rb_last r + 1) `mod` p_size s) s1
               else drain (size (p_entries s1)) s1) as Es.
  { unfold s', deal_record. destruct Hsl. rewrite Hf, Z.sub_diag.
    change (int64 0) with 0. rewrite (proj2 (Z.leb_gt _ 0)) by lia. simpl.
    rewrite slots_start0. unfold next_slot. rewrite Z.eqb_refl.
    rewrite push_next by (done || congruence). simpl. by destruct (_ =? _). }
  destruct (pass_on s s1 r (r :: rest) rest (waiting s rest)) as [Ha1 Had1]; try done.
  { by rewrite waiting_cons. }
  pose proof Hsl as [].
  destruct (Z.eqb_spec (p_start s) (p_end s)) as [Hse|Hse].
  - assert (p_entries s = ∅ ∧ E = next_data_version s) as [He HE].
    { split; [|apply (slot_same (p_size s) (next_data_version s)); [lia|lia|lia|];
               unfold next_slot in *; congruence].
      apply map_empty. intros i. destruct (p_entries s !! i) as [k|] eqn:Hi; [|done].
      destruct (slots_in0 _ _ Hi) as (_ & ? & ?).
      assert (E = next_data_version s); [|lia].
      apply (slot_same (p_size s) (next_data_version s)); [lia|lia|lia|].
      unfold next_slot in *. congruence. }
    rewrite Es. split; [split|split; [exact Had1|simpl; lia]]; [|exact Ha1].
    exists (rb_last r + 1). split; simpl; try done; [lia|lia| |by left].
    rewrite He. intros i k Hi. by rewrite lookup_empty in Hi.
  - assert (rb_last r + 1 ≤ E) as HE.
    { destruct slots_last0 as [HE|(i & k & Hi & <-)].
      - destruct Hse. unfold next_slot in *. congruence.
      - destruct (slots_in0 _ _ Hi) as (_ & ? & _). destruct (Hap k); [|lia|lia].
        apply elem_of_app. left. apply ring_records_elem. by exists i. }
    destruct (drain_ok (size (p_entries s1)) s1 E rest) as [Hd Hadv]; [|done|done|].
    { split; simpl; try done; [lia|lia| |].
      - intros i k Hi. destruct (slots_in0 _ _ Hi) as (? & ? & ?).
        split_and!; [done| |lia|done]. destruct (Hap k); [|lia|lia].
        apply elem_of_app. left. apply ring_records_elem. by exists i.
      - destruct slots_last0; [lia|by right]. }
    rewrite Es. split; [done|]. split; [by eapply advanced_trans|].
    destruct Hadv as (_ & _ & Hn & _). change (next_data_version s1) with (rb_last r + 1) in Hn.
    lia.
Qed.

Lemma deal_record_ok s r rest :
  producer_ok s (r :: rest) →
  let s' := deal_record r s in
  producer_ok s' rest ∧ advanced s s' (r :: rest) rest ∧
  (rb_first r = next_data_version s → next_data_version s < next_data_version s').
Proof.
  intros Hp s'. destruct (decide (rb_first r = next_data_version s)) as [Hf|Hf].
  { destruct (head_ok s r rest Hp Hf) as (? & ? & ?). done. }
  cut (producer_ok s' rest ∧ advanced s s' (r :: rest) rest).
  { intros [? ?]. split_and!; done. }
  pose proof Hp as [[E []] Ha]. rewrite waiting_cons in Ha.
  destruct Ha as [Hok Hfr _]. apply Forall_cons in Hok as [Hok _].
  apply Forall_cons in Hfr as [Hfr _]. destruct Hok as (Hr & Hmax & _).
  unfold s', deal_record.
  rewrite (int64_small (rb_first r - _)) by (unfold is_int64; lia).
  destruct (Z.leb_spec (p_size s - 1) (rb_first r - next_data_version s)).
  { by apply repush_ok. }
  rewrite (proj2 (Z.ltb_ge _ 0)) by lia.
  destruct (Z.eqb_spec (rb_first r `mod` p_size s) (p_start s)) as [Hst|Hst].
  { destruct Hf. apply (slot_same (p_size s) (next_data_version s)); [lia|lia|lia|].
    unfold next_slot in *. congruence. }
  rewrite (int64_small (rb_last r - _)) by (unfold is_int64; lia).
  destruct (Z.leb_spec (p_size s - 1) (rb_last r - next_data_version s)).
  { by apply repush_ok. }
  apply insert_ok; [done|lia|lia].
Qed.

(** ** Rounds and runs *)

Lemma deal_records_ok l rest s :
  producer_ok s (l ++ rest) →
  producer_ok (deal_records l s) rest ∧ advanced s (deal_records l s) (l ++ rest) rest ∧
  (Exists (λ r, rb_first r = next_data_version s) l →
   next_data_version s < next_data_version (deal_records l s)).
Proof.
  revert s. induction l as [|r l IH]; intros s Hp; simpl.
  { split_and!; [done|apply advanced_refl|by intros ?%Exists_nil]. }
  destruct (deal_record_ok s r (l ++ rest) Hp) as (Hp1 & Ha1 & Hn1).
  destruct (IH _ Hp1) as (Hp2 & Ha2 & Hn2). split_and!; [done| |].
  - by eapply advanced_trans.
  - pose proof Ha1 as (_ & _ & Hle1 & _). pose proof Ha2 as (_ & _ & Hle2 & _).
    intros [He|He]%Exists_cons; [specialize (Hn1 He); lia|].
    destruct (decide (next_data_version (deal_record r s) = next_data_version s))
      as [E|?]; [|lia].
    rewrite E in Hn2. by apply Hn2.
Qed.

Lemma waiting_round s rest :
  waiting (with_queue [] s) (p_queue s ++ rest) = waiting s rest.
Proof. done. Qed.

Lemma deal_queue_ok s rest :
  producer_ok s rest →
  producer_ok (deal_queue s) rest ∧ advanced s (deal_queue s) rest rest ∧
  (Exists (λ r, rb_first r = next_data_version s) (p_queue s) →
   next_data_version s < next_data_version (deal_queue s)).
Proof.
  intros [[E Hsl] Ha].
  destruct (deal_records_ok (p_queue s) rest (with_queue [] s)) as (Hp & Hadv & Hn).
  { split; [exists E; destruct Hsl; by split|exact Ha]. }
  split_and!; [done| |done].
  destruct Hadv as (D & S & N & out & P & V & W). split_and!; try done. by exists out.
Qed.

Lemma producer_step_ok s e rest :
  producer_ok s (handed [e] ++ rest) →
  producer_ok (producer_step s e) rest ∧
  advanced s (producer_step s e) (handed [e] ++ rest) rest.
Proof.
  destruct e as [r|]; simpl; intros Hp.
  - destruct Hp as [[E Hsl] Ha].
    assert (waiting (binlog_push_to_producer_queue r s) rest
            = waiting s (r :: rest)) as Hw.
    { unfold waiting. simpl. by rewrite <- app_assoc. }
    split; [split; [exists E; destruct Hsl; by split|by rewrite Hw]|].
    repeat split; simpl; [lia|]. exists [].
    rewrite app_nil_r, Z.sub_diag, Hw. by repeat split.
  - by destruct (deal_queue_ok s rest Hp) as (? & ? & _).
Qed.

Lemma handed_cons e es : handed (e :: es) = handed [e] ++ handed es.
Proof. unfold handed. simpl. by rewrite app_nil_r. Qed.

Lemma producer_run_ok es rest s :
  producer_ok s (handed es ++ rest) →
  producer_ok (producer_run es s) rest ∧
  advanced s (producer_run es s) (handed es ++ rest) rest.
Proof.
  revert s. induction es as [|e es IH]; intros s Hp.
  { split; [done|apply advanced_refl]. }
  rewrite handed_cons, <- app_assoc in *.
  destruct (producer_step_ok s e (handed es ++ rest) Hp) as [Hp1 Ha1].
  destruct (IH _ Hp1) as [Hp2 Ha2]. split; [done|]. by eapply advanced_trans.
Qed.

(** The producer as a new master starts it. *)
Definition producer_init (data_current_version : Z) : ProducerContext :=
  producer_thread_start data_current_version binlog_producer_init_ring.

Lemma producer_init_next v :
  0 ≤ v < 2 ^ 63 - 1 → next_data_version (producer_init v) = v + 1.
Proof. intros. unfold producer_init. simpl. by apply uint64_small; lia. Qed.

Lemma producer_init_ok v l :
  0 ≤ v < 2 ^ 63 - 1 → ahead RING_SIZE (v + 1) l → producer_ok (producer_init v) l.
Proof.
  intros Hv Ha. pose proof (producer_init_next v Hv) as Hn.
  split; [|by rewrite Hn]. exists (v + 1).
  assert (p_start (producer_init v) = (v + 1) `mod` RING_SIZE ∧
    p_end (producer_init v) = (v + 1) `mod` RING_SIZE) as [Es Ee].
  { unfold producer_init, producer_thread_start. simpl. by rewrite uint64_small by lia. }
  split; unfold next_slot; rewrite ?Hn, ?Es, ?Ee; simpl; try done; try (by left).
  - lia.
  - unfold RING_SIZE. lia.
Qed.

(** With every version handed over, a round passes something on. *)
Lemma round_progress s k :
  producer_ok s [] → vers (waiting s []) ≡ₚ seqZ (next_data_version s) k → 0 < k →
  next_data_version s < next_data_version (deal_queue s).
Proof.
  intros Hp Hv Hk. destruct (deal_queue_ok s [] Hp) as (_ & _ & Hn). apply Hn.
  destruct Hp as [[E Hsl] [_ Hf _]].
  assert (next_data_version s ∈ vers (waiting s [])) as (r & Hr & ?)%elem_of_vers.
  { rewrite Hv. apply elem_of_seqZ. lia. }
  rewrite Forall_forall in Hf. pose proof (Hf r Hr). simpl in *.
  unfold waiting in Hr. rewrite app_nil_r in Hr. apply elem_of_app in Hr as [Hr|Hr].
  - apply ring_records_elem in Hr as [i Hi]. destruct Hsl.
    destruct (slots_in0 _ _ Hi). lia.
  - apply Exists_exists. exists r. split; [done|lia].
Qed.

Lemma seqZ_cut n n' k l :
  n ≤ n' → seqZ n (n' - n) ++ l ≡ₚ seqZ n k → l ≡ₚ seqZ n' (k - (n' - n)) ∧ n' - n ≤ Z.max k 0.
Proof.
  intros Hn Hl. assert (n' - n ≤ Z.max k 0) as Hle.
  { apply Permutation_length in Hl. rewrite length_app, !length_seqZ in Hl. lia. }
  split; [|done]. destruct (decide (0 ≤ k)).
  - replace k with ((n' - n) + (k - (n' - n))) in Hl at 1 by lia.
    rewrite seqZ_app in Hl by lia. replace (n + (n' - n)) with n' in Hl by lia.
    by eapply Permutation_app_inv_l.
  - rewrite (seqZ_nil n k) in Hl by lia. apply Permutation_nil_r, app_nil in Hl as [_ ->].
    by rewrite seqZ_nil by lia.
Qed.

Lemma rounds_deliver m s k :
  producer_ok s [] → vers (waiting s []) ≡ₚ seqZ (next_data_version s) k →
  (length (waiting s []) ≤ m)%nat →
  waiting (producer_run (replicate m EvRound) s) [] = [].
Proof.
  revert s k. induction m as [|m IH]; intros s k Hp Hv Hm; simpl.
  { apply nil_length_inv. lia. }
  destruct (deal_queue_ok s [] Hp) as (Hp' & (_ & _ & Hle & out & Hpu & Hvo & Hw) & _).
  destruct (seqZ_cut (next_data_version s) (next_data_version (deal_queue s)) k
    (vers (waiting (deal_queue s) []))) as [Hv' _]; [done| |].
  { by rewrite <- Hvo, <- vers_app, <- Hw. }
  eapply IH; [done|exact Hv'|].
  apply Permutation_length in Hw. rewrite length_app in Hw.
  destruct (decide (0 < k)) as [Hk|Hk].
  - pose proof (round_progress s k Hp Hv Hk). destruct out; simpl in *; [|lia].
    apply (f_equal length) in Hvo. rewrite length_seqZ in Hvo. simpl in Hvo. lia.
  - destruct (waiting s []) as [|r l] eqn:E; simpl in *; [lia|].
    rewrite (seqZ_nil _ k) in Hv by lia.
    destruct Hp as [_ [Hok _ _]]. rewrite E in Hok. apply Forall_cons in Hok as [(? & _) _].
    assert (rb_first r ∈ vers (r :: l)) as Hin.
    { apply elem_of_vers. exists r. split; [set_solver|lia]. }
    change (vers (r :: l) ≡ₚ []) in Hv. rewrite Hv in Hin. exfalso. revert Hin. apply not_elem_of_nil.
Qed.

Lemma handed_rounds es m : handed (es ++ replicate m EvRound) = handed es.
Proof.
  unfold handed. rewrite bind_app. induction m as [|m IH]; simpl; [|done].
  by rewrite app_nil_r.
Qed.

Lemma waiting_nil s : waiting s [] = [] → p_entries s = ∅ ∧ p_queue s = [].
Proof.
  unfold waiting, ring_records. rewrite app_nil_r. intros [Hr Hq]%app_nil.
  apply fmap_nil_inv in Hr. by rewrite map_to_list_empty_iff in Hr.
Qed.

(** What a run from the start of a master has passed on. *)
Lemma producer_init_run v es :
  0 ≤ v < 2 ^ 63 - 1 → ahead RING_SIZE (v + 1) (handed es) →
  let s := producer_run es (producer_init v) in
  producer_ok s [] ∧ dropped s = [] ∧ v + 1 ≤ next_data_version s ∧
  vers (pushed s) = seqZ (v + 1) (next_data_version s - (v + 1)) ∧
  handed es ≡ₚ pushed s ++ waiting s [].
Proof.
  intros Hv Ha s. destruct (producer_run_ok es [] (producer_init v))
    as [Hok (Hd & _ & Hle & out & Hp & Ho & Hw)].
  { rewrite app_nil_r. by apply producer_init_ok. }
  fold s in Hok, Hd, Hp, Ho, Hw, Hle. rewrite producer_init_next in Ho, Hle by done.
  rewrite app_nil_r in Hw. simpl in Hp. rewrite Hp. by split_and!.
Qed.

(** ** Properties *)

(** [C14] The producer puts records back into the order of their versions: for any
    interleaving of records handed over in any order and rounds of the thread,
    what has been passed on is the unbroken run of versions from the one after the
    version the master started with, each record once, and every record not passed
    on yet is still held in the ring or the queue; none is dropped. *)
Theorem producer_in_order (v : Z) (es : list ProducerEvent) :
  0 ≤ v < 2 ^ 63 - 1 → ahead RING_SIZE (v + 1) (handed es) →
  let s := producer_run es (producer_init v) in
  vers (pushed s) = seqZ (v + 1) (next_data_version s - (v + 1)) ∧
  handed es ≡ₚ pushed s ++ waiting s [] ∧ dropped s = [].
Proof.
  intros Hv Ha s. by destruct (producer_init_run v es Hv Ha) as (_ & ? & _ & ? & ?).
Qed.

(** [C15] When no record crosses the end of the ring, nothing waits for ever: once the
    records handed over cover every version up to some point, as many further rounds as
    there are records pass all of them on and leave ring and queue empty. The condition
    is [ahead]: every record handed over begins above the version the master started
    with, no version comes twice, and each record has [rb_ok], which says that the slot
    of its last version is not before that of its first. The code does not ensure the
    latter: a record that runs over the end of the ring's array stops the producer
    (the theorem below). *)
Theorem producer_delivers (v k : Z) (es : list ProducerEvent) :
  0 ≤ v < 2 ^ 63 - 1 → ahead RING_SIZE (v + 1) (handed es) →
  vers (handed es) ≡ₚ seqZ (v + 1) k →
  let s := producer_run (es ++ replicate (length (handed es)) EvRound) (producer_init v) in
  vers (pushed s) = seqZ (v + 1) k ∧ pushed s ≡ₚ handed es ∧
  p_entries s = ∅ ∧ p_queue s = [].
Proof.
  intros Hv Ha Hc s. destruct (producer_init_run v es Hv Ha) as (Hok & _ & Hle & Ho & Hw).
  set (s1 := producer_run es (producer_init v)) in *.
  destruct (seqZ_cut (v + 1) (next_data_version s1) k (vers (waiting s1 []))) as [Hc1 _];
    [done|by rewrite <- Ho, <- vers_app, <- Hw|].
  assert (waiting s [] = []) as Hend.
  { unfold s, producer_run. rewrite foldl_app. eapply rounds_deliver; [done|exact Hc1|].
    apply Permutation_length in Hw. rewrite length_app in Hw.
    unfold s1, producer_run in Hw. lia. }
  destruct (producer_init_run v (es ++ replicate (length (handed es)) EvRound) Hv)
    as (_ & _ & Hle2 & Ho2 & Hw2); rewrite handed_rounds in *; [done|].
  fold s in Hle2, Ho2, Hw2. rewrite Hend, app_nil_r in Hw2.
  split_and!; [|done|by apply waiting_nil..].
  rewrite Hw2, Ho2 in Hc. rewrite Ho2.
  apply Permutation_length in Hc. rewrite !length_seqZ in Hc.
  destruct (decide (0 ≤ k)); [f_equal; lia|]. by rewrite !seqZ_nil by lia.
Qed.

(** ** A record over the end of the array *)

(** A record that is not the next one is not passed on, and nothing else is. *)
Lemma not_next_stuck s r :
  1 < p_size s < 2 ^ 31 → 0 < next_data_version s < 2 ^ 63 → p_start s = next_slot s →
  0 < rb_first r < 2 ^ 63 → rb_first r ≠ next_data_version s →
  let s' := deal_record r s in
  pushed s' = pushed s ∧ next_data_version s' = next_data_version s ∧
  p_start s' = p_start s ∧ p_size s' = p_size s ∧
  p_queue s' ⊆ r :: p_queue s.
Proof.
  intros Hsz Hn Hst Hr Hne s'.
  assert (∀ s0, s0 = repush_to_queue r s → pushed s0 = pushed s ∧
    next_data_version s0 = next_data_version s ∧ p_start s0 = p_start s ∧
    p_size s0 = p_size s ∧ p_queue s0 ⊆ r :: p_queue s) as Hre.
  { intros s0 ->. destruct (repush_perm r s) as (q & -> & Hq). simpl.
    split_and!; try done. by rewrite Hq. }
  unfold s', deal_record.
  rewrite (int64_small (rb_first r - _)) by (unfold is_int64; lia).
  destruct (Z.leb_spec (p_size s - 1) (rb_first r - next_data_version s)); [by apply Hre|].
  destruct (Z.ltb_spec (rb_first r - next_data_version s) 0).
  { simpl. split_and!; try done. set_solver. }
  destruct (Z.eqb_spec (rb_first r `mod` p_size s) (p_start s)) as [He|He].
  { destruct Hne. apply (slot_same (p_size s) (next_data_version s)); [lia|lia|lia|].
    unfold next_slot in *. congruence. }
  destruct (_ <=? _); [by apply Hre|].
  destruct (expands _ _ _); simpl; (split_and!; [done..|set_solver]).
Qed.

(** The records that may still come: not the next one. *)
Definition never_next (n : Z) (r : RBuffer) : Prop :=
  0 < rb_first r < 2 ^ 63 ∧ rb_first r ≠ n.

(** The producer waits for a record that will not come. *)
Record stalled (s : ProducerContext) : Prop := {
  stalled_size : 1 < p_size s < 2 ^ 31;
  stalled_next : 0 < next_data_version s < 2 ^ 63;
  stalled_start : p_start s = next_slot s;
  stalled_queue : Forall (never_next (next_data_version s)) (p_queue s)
}.

Lemma stalled_records l s :
  stalled s → Forall (never_next (next_data_version s)) l →
  let s' := deal_records l s in
  stalled s' ∧ pushed s' = pushed s ∧ next_data_version s' = next_data_version s.
Proof.
  revert s. induction l as [|r l IH]; intros s Hs Hl; simpl; [done|].
  apply Forall_cons in Hl as [[Hr Hne] Hl]. pose proof Hs as [Hsz Hn Hst Hq].
  destruct (not_next_stuck s r) as (Ep & En & Es & Ez & Eq); try done.
  rewrite <- Ep, <- En. apply IH; [|by rewrite En]. split.
  - by rewrite Ez.
  - by rewrite En.
  - unfold next_slot. by rewrite Es, Ez, En.
  - rewrite En. apply Forall_forall. intros x Hx%Eq.
    apply elem_of_cons in Hx as [->|Hx]; [done|]. rewrite Forall_forall in Hq. by apply Hq.
Qed.

Lemma stalled_run es s :
  stalled s → Forall (never_next (next_data_version s)) (handed es) →
  pushed (producer_run es s) = pushed s.
Proof.
  revert s. induction es as [|e es IH]; intros s Hs Hes; [done|].
  rewrite handed_cons, Forall_app in Hes. destruct Hes as [He Hes].
  pose proof Hs as [Hsz Hn Hst Hq].
  cut (stalled (producer_step s e) ∧ pushed (producer_step s e) = pushed s ∧
       next_data_version (producer_step s e) = next_data_version s).
  { intros (H1 & H2 & H3). simpl. rewrite <- H2. apply IH; [done|by rewrite H3]. }
  destruct e as [r|]; simpl.
  - split_and!; [|done..]. split; try done. simpl. apply Forall_app. split; [done|].
    constructor; [|done]. by apply Forall_cons in He as [? _].
  - apply (stalled_records (p_queue s) (with_queue [] s)); [|done]. by split.
Qed.

(** A buffer with the versions from [first] to [last]. *)
Definition some_rb (first last : Z) : RBuffer :=
  mkRBuffer (Z.to_pos first) first last [] (Z.to_pos first).

(** Records 4091, 4093 to 4098 and 4090, 4092, in this order of arrival; the array
    ends after slot 4095. *)
Definition crossing_arrivals : list ProducerEvent :=
  [EvPush (some_rb 4091 4091); EvPush (some_rb 4093 4098);
   EvPush (some_rb 4090 4090); EvPush (some_rb 4092 4092); EvRound].

(** [C16] A record of several versions whose slots run over the end of the ring's array
    can stop the producer for good: [ring.end] is not moved past it, so the loop
    that drains the ring stops in front of it, and it is the next record but not in
    the queue. Nothing that arrives later is passed on to the slaves; and as a record
    is written to the binlog and its request answered when the slaves have it, no
    update is either. *)
Theorem producer_crossing_record_stalls :
  let s := producer_run crossing_arrivals (producer_init 4089) in
  vers (pushed s) = [4090; 4091; 4092] ∧ next_data_version s = 4093 ∧
  p_entries s !! 4093 = Some (some_rb 4093 4098) ∧
  ∀ es, Forall (never_next 4093) (handed es) → pushed (producer_run es s) = pushed s.
Proof.
  intros s. split_and!; [vm_compute; reflexivity..|]. intros es Hes.
  assert (p_size s = 4096) as E1 by (vm_compute; reflexivity).
  assert (next_data_version s = 4093) as E2 by (vm_compute; reflexivity).
  assert (p_start s = 4093) as E3 by (vm_compute; reflexivity).
  assert (p_queue s = []) as E4 by (vm_compute; reflexivity).
  apply stalled_run; [|by rewrite E2].
  split; unfold next_slot; rewrite ?E1, ?E2, ?E3, ?E4; [lia|lia|reflexivity|by constructor].
Qed.

(** A version that is given out but never handed over, as when its record cannot be
    packed, stops the producer as well. *)
Lemma producer_missing_version_stalls v es :
  0 ≤ v < 2 ^ 63 - 1 → Forall (never_next (v + 1)) (handed es) →
  pushed (producer_run es (producer_init v)) = [].
Proof.
  intros Hv Hes. pose proof (producer_init_next v Hv) as Hn.
  rewrite stalled_run; [done| |by rewrite Hn].
  destruct (producer_init_ok v [] Hv) as [[E []] _]; [by split; constructor|].
  split; [lia|lia|done|by constructor].
Qed.

(** ** Instances *)

(** Records out of order, one of them with two versions. *)
Definition some_arrivals : list ProducerEvent :=
  [EvPush (some_rb 12 13); EvPush (some_rb 11 11); EvRound;
   EvPush (some_rb 14 14); EvRound; EvPush (some_rb 10 10)].

Lemma some_arrivals_ahead : ahead RING_SIZE (9 + 1) (handed some_arrivals).
Proof.
  split.
  - repeat (apply Forall_cons_2 || apply Forall_nil_2); unfold rb_ok; cbn [rb_first rb_last some_rb];
      (split_and!; [lia..|apply Z.leb_le; by vm_compute]).
  - repeat (apply Forall_cons_2 || apply Forall_nil_2); cbn [rb_first rb_last some_rb]; lia.
  - apply (bool_decide_eq_true_1 _). vm_compute. reflexivity.
Qed.

Lemma producer_in_order_witness :
  let s := producer_run some_arrivals (producer_init 9) in
  vers (pushed s) = seqZ (9 + 1) (next_data_version s - (9 + 1)) ∧
  handed some_arrivals ≡ₚ pushed s ++ waiting s [] ∧ dropped s = [].
Proof. apply (producer_in_order 9 some_arrivals); [lia|apply some_arrivals_ahead]. Defined.

Lemma producer_delivers_witness :
  let s := producer_run (some_arrivals ++ replicate (length (handed some_arrivals)) EvRound)
             (producer_init 9) in
  vers (pushed s) = seqZ (9 + 1) 5 ∧ pushed s ≡ₚ handed some_arrivals ∧
  p_entries s = ∅ ∧ p_queue s = [].
Proof.
  apply (producer_delivers 9 5 some_arrivals); [lia|apply some_arrivals_ahead|].
  apply (bool_decide_eq_true_1 _). vm_compute. reflexivity.
Defined.
