(* ===== verification/BinlogReplay.v ===== *)
(** * Replaying the binlog: [server/binlog/binlog_replay.c]

    A slave that receives records, and a server that starts, apply a buffer of
    binlog text: each record is parsed; one whose version is not above all versions
    before it was applied already and is skipped; the others are handed to the data
    threads in batches, and the next batch is parsed when the threads have finished
    with the last one.

    [binlog_replay_deal_buffer] is the function as written, over the parser of
    [BinlogPack] and the interface [DataThreads]. The theorems: what a buffer of
    packed records does is what a list of records does ([replay_records]); each new
    record is applied once and in order, every record is acknowledged once; a second
    replay applies nothing. *)

From Stdlib Require Import Ascii.
From S2P Require Import Prelude CText ServerTypes BinlogPack BinlogRecord.

(** The data threads, in state [W]: [push_and_wait l] pushes the records of a batch to
    their queues ([push_to_data_thread_queue]) and waits; it gives the calls of
    [record->notify.func] in the order in which the threads make them: the record,
    the result and [is_error]. *)
Class DataThreads (W : Type) := {
  push_and_wait : list LogRecord → W → list (LogRecord * Z * bool) * W
}.

(** A thread calls [notify.func] once for each record it takes from its queue. *)
Class DataThreadsLaws (W : Type) `{!DataThreads W} := {
  notify_once : ∀ l w, (push_and_wait l w).1.*1.*1 ≡ₚ l
}.

Section replay.
Context `{F : FastCommon} {W : Type} `{!DataThreads W}.

(** [BinlogReplayContext]. [rp_notices] are the calls of [notify.func] of the context
    ([rp_notify] says whether it has one), [rp_applied] the records pushed to the data
    threads. *)
Record BinlogReplayContext := mkReplayContext {
  rp_array_size : Z;
  rp_current_version : Z;
  rp_waiting_count : Z;
  rp_last_errno : Z;
  rp_record_count : Z;
  rp_skip_count : Z;
  rp_warning_count : Z;
  rp_fail_count : Z;
  rp_notify : bool;
  rp_notices : list (Z * LogRecord);
  rp_applied : list LogRecord;
  rp_world : W
}.

Definition with_rp_version (v : Z) (c : BinlogReplayContext) : BinlogReplayContext :=
  mkReplayContext (rp_array_size c) v (rp_waiting_count c) (rp_last_errno c)
    (rp_record_count c) (rp_skip_count c) (rp_warning_count c) (rp_fail_count c)
    (rp_notify c) (rp_notices c) (rp_applied c) (rp_world c).
Definition with_rp_waiting (n : Z) (c : BinlogReplayContext) : BinlogReplayContext :=
  mkReplayContext (rp_array_size c) (rp_current_version c) n (rp_last_errno c)
    (rp_record_count c) (rp_skip_count c) (rp_warning_count c) (rp_fail_count c)
    (rp_notify c) (rp_notices c) (rp_applied c) (rp_world c).
Definition with_rp_counts (records skips : Z) (c : BinlogReplayContext) :
    BinlogReplayContext :=
  mkReplayContext (rp_array_size c) (rp_current_version c) (rp_waiting_count c)
    (rp_last_errno c) records skips (rp_warning_count c) (rp_fail_count c)
    (rp_notify c) (rp_notices c) (rp_applied c) (rp_world c).
Definition with_rp_errors (last_errno warnings fails : Z) (c : BinlogReplayContext) :
    BinlogReplayContext :=
  mkReplayContext (rp_array_size c) (rp_current_version c) (rp_waiting_count c)
    last_errno (rp_record_count c) (rp_skip_count c) warnings fails
    (rp_notify c) (rp_notices c) (rp_applied c) (rp_world c).
Definition with_rp_notices (l : list (Z * LogRecord)) (c : BinlogReplayContext) :
    BinlogReplayContext :=
  mkReplayContext (rp_array_size c) (rp_current_version c) (rp_waiting_count c)
    (rp_last_errno c) (rp_record_count c) (rp_skip_count c) (rp_warning_count c)
    (rp_fail_count c) (rp_notify c) l (rp_applied c) (rp_world c).
Definition with_rp_applied (l : list LogRecord) (w : W) (c : BinlogReplayContext) :
    BinlogReplayContext :=
  mkReplayContext (rp_array_size c) (rp_current_version c) (rp_waiting_count c)
    (rp_last_errno c) (rp_record_count c) (rp_skip_count c) (rp_warning_count c)
    (rp_fail_count c) (rp_notify c) (rp_notices c) l w.

(** [binlog_replay_init_ex], the allocations aside. *)
Definition binlog_replay_init_ex (data_current_version data_thread_count batch_size : Z)
    (notify : bool) (w : W) : BinlogReplayContext :=
  mkReplayContext (batch_size * data_thread_count) data_current_version 0 0 0 0 0 0
    notify [] [] w.

(** [replay_ctx->notify.func(result, record, args)]. *)
Definition rp_notify_func (result : Z) (r : LogRecord) (c : BinlogReplayContext) :
    BinlogReplayContext :=
  if rp_notify c then with_rp_notices (rp_notices c ++ [(result, r)]) c else c.

Definition data_thread_deal_done_callback (c : BinlogReplayContext)
    (call : LogRecord * Z * bool) : BinlogReplayContext :=
  let '(r, result, is_error) := call in
  let c :=
    if negb (result =? 0) then
      if (is_error : bool)
      then with_rp_errors result (rp_warning_count c) (rp_fail_count c + 1) c
      else with_rp_errors (rp_last_errno c) (rp_warning_count c + 1) (rp_fail_count c) c
    else c in
  let c := rp_notify_func (if is_error then result else 0) r c in
  with_rp_waiting (rp_waiting_count c - 1) c.

(** A parsed record: counted, skipped or put into the array; says whether the array
    is full. The versions are compared as unsigned numbers. *)
Definition take_record (r : LogRecord) (c : BinlogReplayContext)
    (array : list LogRecord) : BinlogReplayContext * list LogRecord * bool :=
  let c := with_rp_counts (rp_record_count c + 1) (rp_skip_count c) c in
  if uint64 (l_data_version r) <=? uint64 (rp_current_version c) then
    (rp_notify_func 0 r (with_rp_counts (rp_record_count c) (rp_skip_count c + 1) c),
     array, false)
  else
    let array := array ++ [r] in
    (with_rp_version (int64 (l_data_version r)) c, array,
     zlen array =? rp_array_size c).

(** The threads work on the batch; every record in it must be finished. *)
Definition deal_batch (array : list LogRecord) (c : BinlogReplayContext) :
    option BinlogReplayContext :=
  let c := with_rp_waiting (zlen array) c in
  let '(calls, w) := push_and_wait array (rp_world c) in
  let c := with_rp_applied (rp_applied c ++ array) w c in
  let c := foldl data_thread_deal_done_callback c calls in
  if rp_waiting_count c =? 0 then Some c else None.

Section deal_buffer.
Variables (buff : text) (len : Z) (mpool : Mpool).

(** One turn of the inner loop, which fills the array: the end is the result of the
    parser, with [p], the context and the array. *)
Definition parse_turn (st : Z * BinlogReplayContext * list LogRecord) :
    option ((Z * BinlogReplayContext * list LogRecord)
            + Z * Z * BinlogReplayContext * list LogRecord) :=
  let '(p, c, array) := st in
  if negb (p <? len) then Some (inr (0, p, c, array))
  else
    '(result, r, rend) ← binlog_unpack_record_ex buff p (len - p) mpool;
    if negb (result =? 0) then Some (inr (result, p, c, array))
    else
      p ← rend;
      let '(c, array, full) := take_record r c array in
      if (full : bool) then Some (inr (0, p, c, array)) else Some (inl (p, c, array)).

(** One turn of the outer loop: a batch. *)
Definition batch_turn (st : Z * BinlogReplayContext) :
    option ((Z * BinlogReplayContext) + Z * BinlogReplayContext) :=
  let '(p, c) := st in
  if negb (p <? len) then
    Some (inr (if 0 <? rp_fail_count c then rp_last_errno c else 0, c))
  else
    '(result, p, c, array) ← run_loop parse_turn (S (Z.to_nat len)) (p, c, []);
    if negb (result =? 0) then Some (inr (result, c))
    else
      c ← deal_batch array c;
      if 0 <? rp_fail_count c then Some (inr (rp_last_errno c, c))
      else Some (inl (p, c)).

Definition binlog_replay_deal_buffer (c : BinlogReplayContext) :
    option (Z * BinlogReplayContext) :=
  run_loop batch_turn (S (Z.to_nat len)) (0, c).
End deal_buffer.

(** ** Replaying records *)

(** What one batch does to a list of records: the context, the array, and the records
    that are left. *)
Fixpoint fill_batch (c : BinlogReplayContext) (array rs : list LogRecord) :
    BinlogReplayContext * list LogRecord * list LogRecord :=
  match rs with
  | [] => (c, array, [])
  | r :: rs =>
    let '(c, array, full) := take_record r c array in
    if (full : bool) then (c, array, rs) else fill_batch c array rs
  end.

(** The specification: the same on a list of records. *)
Fixpoint replay_records (fuel : nat) (rs : list LogRecord) (c : BinlogReplayContext) :
    option (Z * BinlogReplayContext) :=
  match rs, fuel with
  | [], _ => Some (if 0 <? rp_fail_count c then rp_last_errno c else 0, c)
  | _, O => None
  | _, S fuel' =>
    let '(c, array, rest) := fill_batch c [] rs in
    c ← deal_batch array c;
    if 0 <? rp_fail_count c then Some (rp_last_errno c, c)
    else replay_records fuel' rest c
  end.

(** The records that are applied after version [v]. *)
Fixpoint fresh (v : Z) (rs : list LogRecord) : list LogRecord :=
  match rs with
  | [] => []
  | r :: rs =>
    if l_data_version r <=? v then fresh v rs else r :: fresh (l_data_version r) rs
  end.

(** The version after them. *)
Fixpoint top_version (v : Z) (rs : list LogRecord) : Z :=
  match rs with
  | [] => v
  | r :: rs => top_version (Z.max v (l_data_version r)) rs
  end.

(** ** The text of records *)

Definition texts (rs : list LogRecord) : text := rs ≫= record_text.

(** A record whose text can be in a binlog. *)
Definition loggable (r : LogRecord) : Prop :=
  packable r ∧ l_data_version r < 2 ^ 63 ∧ 60 ≤ zlen (body r) ≤ 9999.

Lemma texts_app rs rs' : texts (rs ++ rs') = texts rs ++ texts rs'.
Proof. apply bind_app. Qed.

Lemma text_positive r : loggable r → 60 < zlen (record_text r).
Proof. intros (_ & _ & Hl). rewrite record_text_length; lia. Qed.

Lemma texts_length rs : Forall loggable rs → Z.of_nat (length rs) ≤ zlen (texts rs).
Proof.
  induction 1 as [|r rs Hr _ IH]; [done|].
  change (texts (r :: rs)) with (record_text r ++ texts rs). rewrite zlen_app. cbn [length]. pose proof (text_positive r Hr). lia.
Qed.

Lemma unpacked_version r : l_data_version (unpacked r) = l_data_version r.
Proof. done. Qed.

Context `{!FastCommonLaws F}.

(** The inner loop on packed records fills a batch. *)
Lemma parse_run buff len mpool post rs :
  Forall loggable rs → zlen buff < 2 ^ 31 → pool_ok mpool →
  ∀ pre c array fuel, buff = pre ++ texts rs ++ post → len = zlen (pre ++ texts rs) →
  (length rs < fuel)%nat →
  ∃ done rest c' array', rs = done ++ rest ∧
    run_loop (parse_turn buff len mpool) fuel (zlen pre, c, array)
      = Some (0, zlen (pre ++ texts done), c', array') ∧
    fill_batch c array (unpacked <$> rs) = (c', array', unpacked <$> rest) ∧
    (length rest <= pred (length rs))%nat.
Proof.
  intros Hrs Hmax Hpool. induction Hrs as [|r rs Hr Hrs IH];
    intros pre c array fuel Hb Hlen Hf; (destruct fuel as [|fuel]; [simpl in Hf; lia|]).
  - exists [], [], c, array. split_and!; try done. apply run_loop_done. unfold parse_turn.
    rewrite Hlen. change (texts []) with (@nil ascii). by rewrite app_nil_r, Z.ltb_irrefl.
  - pose proof Hr as (Hpk & _ & Hsz). pose proof (text_positive r Hr) as Hpos.
    assert (texts (r :: rs) = record_text r ++ texts rs) as Et by done.
    pose proof (zlen_nonneg (texts rs)) as Hnn.
    assert (parse_turn buff len mpool (zlen pre, c, array)
      = let '(c, array, full) := take_record (unpacked r) c array in
        if (full : bool)
        then Some (inr (0, zlen (pre ++ record_text r), c, array))
        else Some (inl (zlen (pre ++ record_text r), c, array))) as Hturn.
    { unfold parse_turn. rewrite Hlen, Et, !zlen_app.
      rewrite (proj2 (Z.ltb_lt _ _)) by lia. cbn [negb].
      rewrite (unpack_text pre (texts rs ++ post) buff r); try done.
      - by rewrite Hb, Et, <- app_assoc.
      - lia. }
    cbn [fmap list_fmap fill_batch].
    destruct (take_record (unpacked r) c array) as [[c1 a1] full] eqn:Ht.
    destruct full.
    + exists [r], rs, c1, a1. split; [done|]. split; [|split; [done|cbn [length]; lia]].
      unfold texts. simpl. rewrite app_nil_r. by apply run_loop_done.
    + destruct (IH (pre ++ record_text r) c1 a1 fuel) as (dn & rest & c' & a' & -> & Hrun & Hfill & Hle).
      * by rewrite Hb, Et, <- !app_assoc.
      * by rewrite Hlen, Et, <- app_assoc.
      * simpl in Hf. lia.
      * exists (r :: dn), rest, c', a'. split; [done|]. split; [|split; [done|cbn [length] in *; lia]].
        rewrite (run_loop_step _ _ _ _ Hturn), Hrun.
        by rewrite <- app_assoc.
Qed.

Lemma batches_run buff len mpool post :
  zlen buff < 2 ^ 31 → pool_ok mpool →
  ∀ n rs pre c fuel, (length rs <= n)%nat → Forall loggable rs →
  buff = pre ++ texts rs ++ post → len = zlen (pre ++ texts rs) → (length rs < fuel)%nat →
  run_loop (batch_turn buff len mpool) fuel (zlen pre, c)
  = replay_records n (unpacked <$> rs) c.
Proof.
  intros Hmax Hpool. induction n as [|n IH]; intros rs pre c fuel Hn Hrs Hb Hlen Hf;
    (destruct fuel as [|fuel]; [lia|]); destruct rs as [|r rs]; try (simpl in Hn; lia).
  1, 2: unfold texts in Hlen; simpl in Hlen; rewrite app_nil_r in Hlen;
        assert (∀ x, run_loop (batch_turn buff len mpool) (S fuel) (zlen pre, c) = x ↔
          Some (if 0 <? rp_fail_count c then rp_last_errno c else 0, c) = x) as E
        by (intros x; erewrite run_loop_done; [done|]; unfold batch_turn;
            by rewrite Hlen, Z.ltb_irrefl); by apply E.
  pose proof (Forall_inv Hrs) as Hr. pose proof (text_positive r Hr) as Hpos.
  pose proof (texts_length _ Hrs) as Hl. pose proof (zlen_nonneg pre).
  destruct (parse_run buff len mpool post (r :: rs) Hrs Hmax Hpool pre c [] (S (Z.to_nat len)))
    as (dn & rest & c' & a' & Edr & Hrun & Hfill & Hle); [done|done| |].
  { rewrite zlen_app in Hlen. lia. }
  assert (pre ++ texts (r :: rs) = (pre ++ texts dn) ++ texts rest) as Esplit.
  { by rewrite Edr, texts_app, app_assoc. }
  assert (batch_turn buff len mpool (zlen pre, c) = (
    c ← deal_batch a' c';
    if 0 <? rp_fail_count c then Some (inr (rp_last_errno c, c))
    else Some (inl (zlen (pre ++ texts dn), c)))) as Hturn.
  { unfold batch_turn. rewrite (proj2 (Z.ltb_lt _ _)).
    2: { rewrite Hlen, zlen_app. cbn [length] in Hl. lia. }
    cbn [negb]. by rewrite Hrun. }
  cbn [replay_records fmap list_fmap]. change (unpacked r :: (unpacked <$> rs)) with (unpacked <$> r :: rs).
  rewrite Hfill. destruct (deal_batch a' c') as [c2|] eqn:Hd; cbn [mbind option_bind] in *.
  - destruct (0 <? rp_fail_count c2) eqn:Hfail.
    + by apply run_loop_done.
    + rewrite (run_loop_step _ _ _ _ Hturn). apply IH.
      * cbn [length] in *. lia.
      * rewrite Edr in Hrs. by apply Forall_app in Hrs as [_ ?].
      * by rewrite Hb, app_assoc, Esplit, <- !app_assoc.
      * by rewrite Hlen, Esplit.
      * cbn [length] in *. lia.
  - unfold run_loop. cbn [iterate]. by rewrite Hturn.
Qed.

(** ** What a batch does *)

(** The versions of records and context are positive numbers of 63 bits. *)
Definition in_range (v : Z) : Prop := 0 ≤ v < 2 ^ 63.
Definition versions_ok (rs : list LogRecord) : Prop :=
  Forall (λ r, in_range (l_data_version r)) rs.

Lemma fresh_app v rs rs' :
  fresh v (rs ++ rs') = fresh v rs ++ fresh (top_version v rs) rs'.
Proof.
  revert v. induction rs as [|r rs IH]; intros v; simpl; [done|].
  destruct (Z.leb_spec (l_data_version r) v).
  - rewrite Z.max_l by lia. apply IH.
  - rewrite Z.max_r by lia. simpl. by rewrite IH.
Qed.

Lemma top_version_app v rs rs' :
  top_version v (rs ++ rs') = top_version (top_version v rs) rs'.
Proof. revert v. induction rs; intros v; simpl; auto. Qed.

Lemma top_version_ge v rs : v ≤ top_version v rs.
Proof.
  revert v. induction rs as [|r rs IH]; intros v; simpl; [lia|].
  pose proof (IH (Z.max v (l_data_version r))). lia.
Qed.

Lemma top_version_max v rs : Forall (λ r, l_data_version r ≤ top_version v rs) rs.
Proof.
  revert v. induction rs as [|r rs IH]; intros v; simpl; constructor; [|apply IH].
  pose proof (top_version_ge (Z.max v (l_data_version r)) rs). lia.
Qed.

Lemma top_version_range v rs : versions_ok rs → in_range v → in_range (top_version v rs).
Proof.
  intros Hrs. revert v. induction Hrs as [|r rs Hr _ IH]; intros v Hv; simpl; [done|].
  apply IH. unfold in_range in *. lia.
Qed.

Lemma fresh_none v rs : Forall (λ r, l_data_version r ≤ v) rs → fresh v rs = [].
Proof.
  induction 1 as [|r rs Hr _ IH]; simpl; [done|]. by rewrite (proj2 (Z.leb_le _ _) Hr).
Qed.

Lemma fresh_sorted v rs :
  StronglySorted Z.lt (l_data_version <$> fresh v rs) ∧
  Forall (λ r, v < l_data_version r) (fresh v rs).
Proof.
  revert v. induction rs as [|r rs IH]; intros v; simpl; [by repeat constructor|].
  destruct (Z.leb_spec (l_data_version r) v); [apply IH|].
  destruct (IH (l_data_version r)) as [Hs Hf]. split.
  - simpl. constructor; [done|]. by apply Forall_fmap.
  - constructor; [done|]. eapply Forall_impl; [exact Hf|]. simpl. lia.
Qed.

Definition acked (c : BinlogReplayContext) : list LogRecord := (rp_notices c).*2.

(** What parsing leaves alone. *)
Definition same_threads (c c' : BinlogReplayContext) : Prop :=
  rp_array_size c' = rp_array_size c ∧ rp_last_errno c' = rp_last_errno c ∧
  rp_warning_count c' = rp_warning_count c ∧ rp_fail_count c' = rp_fail_count c ∧
  rp_notify c' = rp_notify c ∧ rp_applied c' = rp_applied c ∧ rp_world c' = rp_world c.

(** More acknowledgements, all of them positive unless a failure was counted. *)
Definition acks_grow (c c' : BinlogReplayContext) : Prop :=
  ∃ new, rp_notices c' = rp_notices c ++ new ∧ rp_fail_count c ≤ rp_fail_count c' ∧
    (rp_fail_count c' = rp_fail_count c → Forall (λ x, x.1 = 0) new).

Lemma acks_grow_refl c c' :
  rp_notices c' = rp_notices c → rp_fail_count c' = rp_fail_count c → acks_grow c c'.
Proof. intros E1 E2. exists []. rewrite app_nil_r. split_and!; [done|lia|by constructor]. Qed.

Lemma acks_grow_trans c1 c2 c3 : acks_grow c1 c2 → acks_grow c2 c3 → acks_grow c1 c3.
Proof.
  intros (n1 & E1 & L1 & F1) (n2 & E2 & L2 & F2). exists (n1 ++ n2).
  split_and!; [by rewrite E2, E1, app_assoc|lia|]. intros E.
  apply Forall_app. split; [apply F1|apply F2]; lia.
Qed.

(** [c'] has taken the records [rs] into its array or skipped them. *)
Record took (c c' : BinlogReplayContext) (rs : list LogRecord) : Prop := {
  tk_version : rp_current_version c' = top_version (rp_current_version c) rs;
  tk_records : rp_record_count c' = rp_record_count c + zlen rs;
  tk_skips : rp_skip_count c'
             = rp_skip_count c + zlen rs - zlen (fresh (rp_current_version c) rs);
  tk_acks : rp_notify c = true →
    acked c' ++ fresh (rp_current_version c) rs ≡ₚ acked c ++ rs;
  tk_rest : same_threads c c';
  tk_grow : acks_grow c c'
}.

Lemma took_nil c : took c c [].
Proof. split; simpl; unfold zlen; simpl; try lia; try done. by apply acks_grow_refl. Qed.

Lemma took_app c1 c2 c3 rs rs' : took c1 c2 rs → took c2 c3 rs' → took c1 c3 (rs ++ rs').
Proof.
  intros [V1 R1 S1 A1 T1 G1] [V2 R2 S2 A2 T2 G2]. split.
  - by rewrite V2, V1, top_version_app.
  - rewrite zlen_app. lia.
  - rewrite fresh_app, !zlen_app, <- V1. lia.
  - intros Hn. destruct T1 as (_ & _ & _ & _ & N & _).
    rewrite fresh_app, <- V1. rewrite (app_assoc (acked c1)), <- (A1 Hn), <- !app_assoc.
    rewrite (Permutation_app_comm (fresh _ rs)), app_assoc.
    rewrite (A2 (eq_trans N Hn)), <- app_assoc. apply Permutation_app_head.
    apply Permutation_app_comm.
  - unfold same_threads in *. naive_solver congruence.
  - by eapply acks_grow_trans.
Qed.

Lemma take_record_spec r c array :
  in_range (l_data_version r) → in_range (rp_current_version c) →
  ∃ c', take_record r c array
    = (c', array ++ fresh (rp_current_version c) [r],
       match fresh (rp_current_version c) [r] with
       | [] => false
       | _ => zlen (array ++ [r]) =? rp_array_size c
       end) ∧ took c c' [r].
Proof.
  unfold in_range. intros Hr Hc. unfold take_record. simpl.
  rewrite !uint64_small by lia. destruct (Z.leb_spec (l_data_version r) (rp_current_version c)).
  - rewrite app_nil_r. eexists. split; [done|]. unfold rp_notify_func. simpl.
    apply Z.leb_le in H as E.
    destruct (rp_notify c) eqn:Hn; split; simpl; rewrite ?E; unfold zlen, acked; simpl;
      try lia; try done.
    + intros _. by rewrite fmap_app, app_nil_r.
    + exists [(0, r)]. split_and!; [done|simpl; lia|by repeat constructor].
    + intros E2. congruence.
    + by apply acks_grow_refl.
  - eexists. split; [done|]. apply Z.leb_gt in H as E.
    rewrite int64_small by (unfold is_int64; lia).
    split; simpl; rewrite ?E; unfold zlen; simpl; try lia; try done.
    by apply acks_grow_refl.
Qed.

Lemma fill_batch_spec rs : ∀ c array,
  versions_ok rs → in_range (rp_current_version c) →
  ∃ dn rest c', rs = dn ++ rest ∧ took c c' dn ∧ (rs ≠ [] → dn ≠ []) ∧
    fill_batch c array rs = (c', array ++ fresh (rp_current_version c) dn, rest).
Proof.
  induction rs as [|r rs IH]; intros c array Hrs Hc.
  { exists [], [], c. simpl. rewrite app_nil_r. split_and!; try done. apply took_nil. }
  apply Forall_cons in Hrs as [Hr Hrs].
  destruct (take_record_spec r c array Hr Hc) as (c1 & Ht & Htk).
  cbn [fill_batch]. rewrite Ht.
  assert (∀ dn, fresh (rp_current_version c) (r :: dn)
    = fresh (rp_current_version c) [r] ++ fresh (rp_current_version c1) dn) as Hf.
  { intros dn. rewrite (tk_version _ _ _ Htk). apply (fresh_app _ [r]). }
  assert (in_range (rp_current_version c1)) as Hc1.
  { rewrite (tk_version _ _ _ Htk). unfold in_range in *. simpl. lia. }
  destruct (match fresh _ _ with [] => _ | _ => _ end).
  - exists [r], rs, c1. split_and!; done.
  - destruct (IH c1 (array ++ fresh (rp_current_version c) [r]) Hrs Hc1)
      as (dn & rest & c' & -> & Htk' & _ & Hfill).
    exists (r :: dn), rest, c'. split_and!; [done| |done|].
    + by eapply (took_app c c1 c' [r]).
    + by rewrite Hfill, (Hf dn), <- app_assoc.
Qed.

(** ** What the threads do *)

Context `{!DataThreadsLaws W}.

(** Failures are counted, and the error number is that of one of them. *)
Definition errors_ok (c : BinlogReplayContext) : Prop :=
  0 ≤ rp_fail_count c ∧ (0 < rp_fail_count c → rp_last_errno c ≠ 0).

Lemma callbacks_spec calls : ∀ c, errors_ok c →
  let c' := foldl data_thread_deal_done_callback c calls in
  errors_ok c' ∧ rp_waiting_count c' = rp_waiting_count c - zlen calls ∧
  rp_current_version c' = rp_current_version c ∧ rp_array_size c' = rp_array_size c ∧
  rp_record_count c' = rp_record_count c ∧ rp_skip_count c' = rp_skip_count c ∧
  rp_notify c' = rp_notify c ∧ rp_applied c' = rp_applied c ∧
  (rp_notify c = true → acked c' = acked c ++ calls.*1.*1) ∧ acks_grow c c'.
Proof.
  induction calls as [|[[r rc] e] calls IH]; intros c He c'.
  { unfold c'. simpl. rewrite app_nil_r, zlen_nil. split_and!; try done; [lia|].
    by apply acks_grow_refl. }
  set (c1 := data_thread_deal_done_callback c (r, rc, e)) in *.
  assert (errors_ok c1 ∧ rp_waiting_count c1 = rp_waiting_count c - 1 ∧
    rp_current_version c1 = rp_current_version c ∧ rp_array_size c1 = rp_array_size c ∧
    rp_record_count c1 = rp_record_count c ∧ rp_skip_count c1 = rp_skip_count c ∧
    rp_notify c1 = rp_notify c ∧ rp_applied c1 = rp_applied c ∧
    (rp_notify c = true → acked c1 = acked c ++ [r]) ∧ acks_grow c c1)
    as (E1 & E2 & E3 & E4 & E5 & E6 & E7 & E8 & E9 & E10).
  { unfold c1, data_thread_deal_done_callback, rp_notify_func, errors_ok, acked in *.
    destruct (Z.eqb_spec rc 0) as [->|Hrc], e, (rp_notify c) eqn:Hn; simpl;
      rewrite ?Hn; simpl; split_and!; try done; try lia;
      try (intros _; by rewrite fmap_app); try (by apply acks_grow_refl);
      eexists; simpl; rewrite ?Hn; simpl; (split_and!; [done || by rewrite app_nil_r|lia|]);
      (intros ?; first [lia|by repeat constructor]). }
  destruct (IH c1 E1) as (F1 & F2 & F3 & F4 & F5 & F6 & F7 & F8 & F9 & F10).
  change c' with (foldl data_thread_deal_done_callback c1 calls).
  rewrite zlen_cons. split_and!; try congruence; [lia| |by eapply acks_grow_trans].
  intros Hn. rewrite F9 by congruence. rewrite E9 by done. by rewrite <- app_assoc.
Qed.

Lemma deal_batch_spec array c :
  errors_ok c → ∃ c', deal_batch array c = Some c' ∧ errors_ok c' ∧
  rp_current_version c' = rp_current_version c ∧ rp_array_size c' = rp_array_size c ∧
  rp_record_count c' = rp_record_count c ∧ rp_skip_count c' = rp_skip_count c ∧
  rp_notify c' = rp_notify c ∧ rp_applied c' = rp_applied c ++ array ∧
  (rp_notify c = true → acked c' ≡ₚ acked c ++ array) ∧ acks_grow c c'.
Proof.
  intros He. unfold deal_batch. pose proof (notify_once array (rp_world c)) as Hp.
  cbn [rp_world with_rp_waiting].
  destruct (push_and_wait array (rp_world c)) as [calls w]. simpl in Hp.
  set (c1 := with_rp_applied _ w _).
  destruct (callbacks_spec calls c1) as (F1 & F2 & F3 & F4 & F5 & F6 & F7 & F8 & F9 & F10); [done|].
  assert (zlen calls = zlen array) as El.
  { apply Permutation_length in Hp. rewrite !length_fmap in Hp. unfold zlen. lia. }
  rewrite F2, El. simpl. rewrite Z.sub_diag. eexists. split; [done|]. split_and!; try done.
  intros Hn. rewrite F9 by done. by rewrite Hp.
Qed.

(** What replaying some records has done. *)
Record replayed (c c' : BinlogReplayContext) (rs : list LogRecord) : Prop := {
  rd_version : rp_current_version c' = top_version (rp_current_version c) rs;
  rd_applied : rp_applied c' = rp_applied c ++ fresh (rp_current_version c) rs;
  rd_records : rp_record_count c' = rp_record_count c + zlen rs;
  rd_skips : rp_skip_count c'
             = rp_skip_count c + zlen rs - zlen (fresh (rp_current_version c) rs);
  rd_acks : rp_notify c = true → acked c' ≡ₚ acked c ++ rs;
  rd_grow : acks_grow c c';
  rd_notify : rp_notify c' = rp_notify c
}.

Lemma replayed_nil c : replayed c c [].
Proof.
  split; simpl; unfold zlen; simpl; try lia; try done; try (intros _); rewrite ?app_nil_r; try done.
  by apply acks_grow_refl.
Qed.

Lemma replayed_app c1 c2 c3 rs rs' :
  replayed c1 c2 rs → replayed c2 c3 rs' → replayed c1 c3 (rs ++ rs').
Proof.
  intros [D1 D2 D3 D4 D5 D6 D7] [G1 G2 G3 G4 G5 G6 G7]. split.
  - by rewrite G1, D1, top_version_app.
  - by rewrite G2, D2, fresh_app, D1, app_assoc.
  - rewrite zlen_app. lia.
  - rewrite fresh_app, !zlen_app, <- D1. lia.
  - intros Hnt. rewrite G5 by congruence. by rewrite D5, app_assoc.
  - by eapply acks_grow_trans.
  - congruence.
Qed.

(** One batch: what it is filled with, what the threads leave. *)
Lemma batch_spec rs c :
  versions_ok rs → in_range (rp_current_version c) → rp_fail_count c = 0 →
  ∃ dn rest c1 c2, rs = dn ++ rest ∧ (rs ≠ [] → dn ≠ []) ∧
    fill_batch c [] rs = (c1, fresh (rp_current_version c) dn, rest) ∧
    deal_batch (fresh (rp_current_version c) dn) c1 = Some c2 ∧ replayed c c2 dn ∧
    errors_ok c2 ∧ rp_array_size c2 = rp_array_size c ∧ in_range (rp_current_version c2).
Proof.
  intros Hrs Hc Hf.
  destruct (fill_batch_spec rs c [] Hrs Hc) as (dn & rest & c1 & E & Htk & Hne & Hfill).
  destruct Htk as [V R S A (Z1 & Z2 & Z3 & Z4 & Z5 & Z6 & Z7) G].
  destruct (deal_batch_spec (fresh (rp_current_version c) dn) c1)
    as (c2 & Hdeal & Ee & B1 & B2 & B3 & B4 & B5 & B6 & B7 & B8).
  { unfold errors_ok. rewrite Z4, Hf. lia. }
  exists dn, rest, c1, c2. split_and!; try done; [|congruence|].
  - split; [congruence..| |by eapply acks_grow_trans|congruence].
    intros Hnt. rewrite B7 by congruence. by apply A.
  - rewrite B1, V. apply top_version_range; [|done]. rewrite E in Hrs. by apply Forall_app in Hrs as [? _].
Qed.

Lemma replay_records_spec n rs : ∀ c,
  (length rs <= n)%nat → versions_ok rs → in_range (rp_current_version c) →
  rp_fail_count c = 0 →
  ∃ rc c' dn rest, replay_records n rs c = Some (rc, c') ∧ rs = dn ++ rest ∧
    replayed c c' dn ∧ (rc = 0 ↔ rp_fail_count c' = 0) ∧ (rc = 0 → rest = []).
Proof.
  revert rs. induction n as [|n IH]; intros rs c Hn Hrs Hc Hf.
  - destruct rs; [|simpl in Hn; lia]. exists 0, c, [], []. simpl. rewrite Hf.
    split_and!; try done. apply replayed_nil.
  - destruct rs as [|r rs].
    { exists 0, c, [], []. simpl. rewrite Hf. split_and!; try done. apply replayed_nil. }
    destruct (batch_spec (r :: rs) c Hrs Hc Hf)
      as (dn & rest & c1 & c2 & E & Hne & Hfill & Hdeal & Hd & [Ee1 Ee2] & _ & Hc2).
    cbn [replay_records]. rewrite Hfill, Hdeal. cbn [mbind option_bind].
    destruct (Z.ltb_spec 0 (rp_fail_count c2)) as [Hpos|Hz].
    + exists (rp_last_errno c2), c2, dn, rest. specialize (Ee2 Hpos).
      split_and!; try done. split; lia.
    + rewrite E in Hrs. apply Forall_app in Hrs as [_ Hrest].
      destruct (IH rest c2) as (rc & c' & dn' & rest' & Hrun & -> & Hd' & Hrc & Hend); [|done|done|lia|].
      * apply (f_equal length) in E. rewrite length_app in E. simpl in *.
        destruct dn; [by destruct Hne|]. simpl in *. lia.
      * exists rc, c', (dn ++ dn'), rest'. split_and!; [done|by rewrite E, app_assoc| |done|done].
        by eapply replayed_app.
Qed.

(** Parsing keeps the size of the array and does not fill it beyond. *)
Lemma take_record_size r c array c' array' full :
  take_record r c array = (c', array', full) → rp_array_size c' = rp_array_size c ∧
  zlen array' ≤ zlen array + 1 ∧ (full = false → array' = array ∨ zlen array' ≠ rp_array_size c).
Proof.
  unfold take_record. case_match.
  - intros [= <- <- <-]. unfold rp_notify_func. cbn [rp_notify with_rp_counts].
    split_and!; [by case_match|lia|by left].
  - intros [= <- <- <-]. split_and!; [done|rewrite zlen_app; unfold zlen; simpl; lia|].
    cbn. intros Hn%Z.eqb_neq. by right.
Qed.

(** A batch that leaves records behind is the same whatever comes behind it. *)
Lemma fill_batch_prefix rs : ∀ c array c' array' rest,
  fill_batch c array rs = (c', array', rest) → rest ≠ [] →
  ∃ dn, rs = dn ++ rest ∧ ∀ tl, fill_batch c array (dn ++ tl) = (c', array', tl).
Proof.
  induction rs as [|r rs IH]; intros c array c' array' rest; cbn [fill_batch].
  { by intros [= <- <- <-]. }
  destruct (take_record r c array) as [[c1 a1] full] eqn:Ht. destruct full.
  - intros [= <- <- <-] _. exists [r]. split; [done|]. intros tl. cbn. by rewrite Ht.
  - intros Hfill Hne. destruct (IH _ _ _ _ _ Hfill Hne) as (dn & -> & Htl).
    exists (r :: dn). split; [done|]. intros tl. cbn [app fill_batch]. by rewrite Ht.
Qed.

Lemma fill_batch_size rs : ∀ c array c' array' rest,
  fill_batch c array rs = (c', array', rest) → zlen array < rp_array_size c →
  rp_array_size c' = rp_array_size c ∧ zlen array' ≤ rp_array_size c.
Proof.
  induction rs as [|r rs IH]; intros c array c' array' rest; cbn [fill_batch].
  { intros [= <- <- <-]. lia. }
  destruct (take_record r c array) as [[c1 a1] full] eqn:Ht.
  destruct (take_record_size _ _ _ _ _ _ Ht) as (Es & Hle & Hfull). intros Hfill Hlt. destruct full.
  - injection Hfill as <- <- <-. lia.
  - destruct (IH _ _ _ _ _ Hfill) as [E ?]; [|rewrite E, Es; split; [done|lia]].
    destruct (Hfull eq_refl) as [->|]; lia.
Qed.

(** A replay that ends with an error ends with the batch that the error was in. *)
Lemma replay_records_stops n rs : ∀ c rc c',
  (length rs <= n)%nat → versions_ok rs → in_range (rp_current_version c) →
  rp_fail_count c = 0 → replay_records n rs c = Some (rc, c') → rc ≠ 0 →
  ∃ before batch rest c1, rs = before ++ batch ++ rest ∧
    (∀ m, (length before <= m)%nat → replay_records m before c = Some (0, c1)) ∧
    replayed c c' (before ++ batch) ∧ replayed c1 c' batch ∧
    (0 < rp_array_size c → zlen (fresh (rp_current_version c1) batch) ≤ rp_array_size c).
Proof.
  revert rs. induction n as [|n IH]; intros rs c rc c' Hn Hrs Hc Hf Hrun Hrc;
    (destruct rs as [|r rs]; [simpl in Hrun; rewrite Hf in Hrun; by injection Hrun as <- _|]);
    [simpl in Hn; lia|].
  destruct (batch_spec (r :: rs) c Hrs Hc Hf)
    as (dn & rest & c1 & c2 & E & Hne & Hfill & Hdeal & Hd & [Hge _] & Hsize & Hc2).
  cbn [replay_records] in Hrun. rewrite Hfill, Hdeal in Hrun. cbn [mbind option_bind] in Hrun.
  assert (0 < rp_array_size c → zlen (fresh (rp_current_version c) dn) ≤ rp_array_size c) as Hb.
  { intros Hpos. by apply (fill_batch_size _ _ _ _ _ _ Hfill). }
  destruct (Z.ltb_spec 0 (rp_fail_count c2)) as [Hpos|Hz].
  { injection Hrun as <- <-. exists [], dn, rest, c. split_and!; try done.
    intros m _. destruct m; cbn; by rewrite Hf. }
  assert (rest ≠ []) as Hrest.
  { intros ->. destruct n; cbn in Hrun; rewrite (proj2 (Z.ltb_ge _ _) Hz) in Hrun; congruence. }
  destruct (fill_batch_prefix _ _ _ _ _ _ Hfill Hrest) as (dn' & E' & Htl).
  rewrite E in E'. apply app_inv_tail in E' as <-. specialize (Hne ltac:(done)).
  apply (f_equal length) in E as El. rewrite length_app in El. cbn [length] in El, Hn.
  assert (0 < length dn)%nat as Hdn by (destruct dn; [done|cbn; lia]).
  rewrite E in Hrs. apply Forall_app in Hrs as [_ Hrs].
  destruct (IH rest c2 rc c') as (before & batch & rest' & c3 & -> & Hbefore & Hall & Hlast & Hle);
    [lia|done|done|lia|done|done|].
  exists (dn ++ before), batch, rest', c3. rewrite Hsize in Hle.
  split_and!; [by rewrite E, <- app_assoc| | |done|done].
  - intros m Hm. rewrite length_app in Hm. destruct m as [|m]; [lia|]. destruct dn as [|d dn]; [done|].
    change ((d :: dn) ++ before) with (d :: (dn ++ before)). cbn [replay_records].
    change (d :: (dn ++ before)) with ((d :: dn) ++ before). rewrite Htl, Hdeal.
    cbn [mbind option_bind]. rewrite (proj2 (Z.ltb_ge _ _) Hz). apply Hbefore. cbn in Hm. lia.
  - rewrite <- app_assoc. by eapply replayed_app.
Qed.

Lemma deal_nothing c : ∃ w, deal_batch [] c = Some (with_rp_waiting 0 (with_rp_applied (rp_applied c) w c)).
Proof.
  unfold deal_batch. cbn [rp_world with_rp_waiting]. pose proof (notify_once [] (rp_world c)) as Hp.
  destruct (push_and_wait [] (rp_world c)) as [calls w]. cbn [fst] in Hp.
  apply Permutation_nil_r, fmap_nil_inv, fmap_nil_inv in Hp as ->.
  exists w. cbn [foldl]. by rewrite app_nil_r.
Qed.

(** Records that are all old: no error, nothing applied. *)
Lemma replay_old n rs : ∀ c,
  (length rs <= n)%nat → versions_ok rs → in_range (rp_current_version c) →
  rp_fail_count c = 0 → Forall (λ r, l_data_version r ≤ rp_current_version c) rs →
  ∃ c', replay_records n rs c = Some (0, c') ∧ rp_fail_count c' = 0.
Proof.
  revert rs. induction n as [|n IH]; intros rs c Hn Hrs Hc Hf Hold;
    (destruct rs as [|r rs]; [exists c; simpl; by rewrite Hf|]); [simpl in Hn; lia|].
  destruct (fill_batch_spec (r :: rs) c [] Hrs Hc) as (dn & rest & c1 & E & Htk & Hne & Hfill).
  cbn [replay_records]. rewrite Hfill. cbn [app].
  rewrite E in Hold, Hrs. apply Forall_app in Hold as [Ho1 Ho2]. apply Forall_app in Hrs as [Hr1 Hr2].
  rewrite fresh_none by done. destruct (deal_nothing c1) as [w ->]. cbn [mbind option_bind].
  pose proof (tk_version _ _ _ Htk) as V.
  assert (rp_current_version c1 = rp_current_version c) as V'.
  { rewrite V. clear -Ho1. induction Ho1 as [|x l Hx _ IH]; simpl; [done|].
    by rewrite Z.max_l by done. }
  destruct Htk as [_ _ _ _ (_ & _ & _ & Z4 & _) _].
  cbn [rp_fail_count with_rp_waiting with_rp_applied]. rewrite Z4, Hf. cbn [Z.ltb Z.compare].
  apply IH; try done; cbn [rp_current_version rp_fail_count with_rp_waiting with_rp_applied];
    rewrite ?V'; try done; [|lia].
  apply (f_equal length) in E. rewrite length_app in E. simpl in *.
  destruct dn; [by destruct Hne|]. simpl in *. lia.
Qed.

(** ** Properties *)

Lemma loggable_versions rs : Forall loggable rs → versions_ok (unpacked <$> rs).
Proof.
  intros H. apply Forall_fmap. eapply Forall_impl; [exact H|].
  intros r ([? _ _ _ _ _ _ _ _ _ _] & ? & _). unfold in_range. simpl. lia.
Qed.

Lemma deal_buffer_records rs post mpool c :
  Forall loggable rs → zlen (texts rs ++ post) < 2 ^ 31 → pool_ok mpool →
  binlog_replay_deal_buffer (texts rs ++ post) (zlen (texts rs)) mpool c
  = replay_records (length rs) (unpacked <$> rs) c.
Proof.
  intros Hrs Hmax Hpool. unfold binlog_replay_deal_buffer.
  apply (batches_run _ _ mpool post Hmax Hpool (length rs) rs [] c); try done.
  pose proof (texts_length rs Hrs). lia.
Qed.

(** [C17] Replaying a buffer of packed records parses them in order and hands to the data
    threads, in order and each once, those whose version is above that of every record
    before; the others are counted as skipped; every record that was parsed is
    acknowledged exactly once. Without an error all of the buffer is replayed. When a
    data thread reports an error, the error is returned and the replay stops with the
    batch that it was in: the records before that batch, replayed alone, give no error,
    and the batch has no more new records than the array has places; the records behind
    it are not parsed. *)
Theorem replay_exactly_once (rs : list LogRecord) (post : text) (mpool : Mpool)
    (c : BinlogReplayContext) :
  Forall loggable rs → zlen (texts rs ++ post) < 2 ^ 31 → pool_ok mpool →
  in_range (rp_current_version c) → rp_fail_count c = 0 →
  ∃ rc c' dn rest,
    binlog_replay_deal_buffer (texts rs ++ post) (zlen (texts rs)) mpool c = Some (rc, c') ∧
    rs = dn ++ rest ∧ replayed c c' (unpacked <$> dn) ∧
    (rc = 0 ↔ rp_fail_count c' = 0) ∧ (rc = 0 → rest = []) ∧
    (rc ≠ 0 → ∃ before batch c1, dn = before ++ batch ∧
      binlog_replay_deal_buffer (texts before ++ post) (zlen (texts before)) mpool c
        = Some (0, c1) ∧
      replayed c1 c' (unpacked <$> batch) ∧
      (0 < rp_array_size c →
       zlen (fresh (rp_current_version c1) (unpacked <$> batch)) ≤ rp_array_size c)).
Proof.
  intros Hrs Hmax Hpool Hc Hf. rewrite deal_buffer_records by done.
  pose proof (loggable_versions rs Hrs) as Hv.
  destruct (replay_records_spec (length rs) (unpacked <$> rs) c)
    as (rc & c' & dn & rest & Hrun & E & Hd & Hrc & Hend); [by rewrite length_fmap|done..|].
  destruct (decide (rc = 0)) as [H0|H0].
  - apply fmap_app_inv in E as (dn' & rest' & E1 & E2 & E3). subst.
    exists 0, c', dn', rest'. split_and!; try done. intros _. by eapply fmap_nil_inv, Hend.
  - destruct (replay_records_stops (length rs) (unpacked <$> rs) c rc c')
      as (before & batch & rest' & c1 & E' & Hbefore & Hall & Hlast & Hsize);
      [by rewrite length_fmap|done..|].
    apply fmap_app_inv in E' as (before' & tl & E1 & E2 & E3).
    symmetry in E2. apply fmap_app_inv in E2 as (batch' & rest2 & E4 & E5 & E6). subst.
    exists rc, c', (before' ++ batch'), rest2.
    split_and!; try done; [by rewrite <- app_assoc|by rewrite fmap_app|]. intros _.
    exists before', batch', c1. split_and!; try done.
    apply Forall_app in Hrs as [Hrs _].
    rewrite deal_buffer_records; [|done| |done].
    + apply Hbefore. by rewrite length_fmap.
    + revert Hmax. rewrite texts_app, !zlen_app. pose proof (zlen_nonneg (texts (batch' ++ rest2))). lia.
Qed.

(** Replay is idempotent: a buffer that was replayed without an error and comes
    again, as after a reconnect, is skipped as a whole; nothing is applied twice,
    the version stays, and every record is acknowledged again. *)
Theorem replay_twice (rs : list LogRecord) (post : text) (mpool : Mpool)
    (c c1 : BinlogReplayContext) :
  Forall loggable rs → zlen (texts rs ++ post) < 2 ^ 31 → pool_ok mpool →
  in_range (rp_current_version c) → rp_fail_count c = 0 →
  binlog_replay_deal_buffer (texts rs ++ post) (zlen (texts rs)) mpool c = Some (0, c1) →
  ∃ c2, binlog_replay_deal_buffer (texts rs ++ post) (zlen (texts rs)) mpool c1 = Some (0, c2) ∧
    rp_applied c2 = rp_applied c1 ∧ rp_current_version c2 = rp_current_version c1 ∧
    rp_skip_count c2 = rp_skip_count c1 + zlen rs ∧
    (rp_notify c1 = true → acked c2 ≡ₚ acked c1 ++ (unpacked <$> rs)).
Proof.
  intros Hrs Hmax Hpool Hc Hf. rewrite !deal_buffer_records by done. intros Hrun.
  pose proof (loggable_versions rs Hrs) as Hv. set (us := unpacked <$> rs) in *.
  assert (length us = length rs) as El by apply length_fmap. rewrite <- El in *.
  destruct (replay_records_spec (length us) us c) as (rc & c' & dn & rest & Hrun' & E & Hd & Hrc & Hend);
    [done..|].
  rewrite Hrun in Hrun'. injection Hrun' as <- <-.
  rewrite (Hend eq_refl), app_nil_r in E. subst dn. pose proof (proj1 Hrc eq_refl) as Hf1.
  pose proof (rd_version _ _ _ Hd) as V.
  assert (in_range (rp_current_version c1)) as Hc1 by (rewrite V; by apply top_version_range).
  assert (Forall (λ r, l_data_version r ≤ rp_current_version c1) us) as Hold
    by (rewrite V; apply top_version_max).
  destruct (replay_old (length us) us c1) as (c2 & Hrun2 & Hf2); [done..|].
  exists c2. split; [done|].
  destruct (replay_records_spec (length us) us c1) as (rc & c' & dn & rest2 & Hrun' & E & Hd2 & Hrc2 & Hend2);
    [done..|].
  rewrite Hrun2 in Hrun'. injection Hrun' as <- <-.
  rewrite (Hend2 eq_refl), app_nil_r in E. subst dn.
  destruct Hd2 as [D1 D2 D3 D4 D5 _ _]. rewrite fresh_none in D2, D4 by done.
  split_and!; [by rewrite D2, app_nil_r| | |done].
  - rewrite D1. clear -Hold. induction Hold as [|x l Hx _ IH]; simpl; [done|].
    by rewrite Z.max_l by done.
  - rewrite D4, zlen_nil. unfold zlen. rewrite El. lia.
Qed.
End replay.
