(* ===== verification/ReplicaConsumer.v ===== *)
(** * The slave's side of replication: [server/binlog/replica_consumer_thread.c]

    A slave receives binlog text from the master, collects it in buffers, replays the
    buffers one after the other in a thread of its own, writes them to its binlog
    and sends the master a result per record. Buffers go round between three
    queues: free ones, ones with input, and the one that is being received.

    [ReplicaConsumer] is the state of [ReplicaConsumerThreadContext]; one definition
    per function, with [cluster_deal_push_binlog_req] of [cluster_handler.c]. The
    theorems: every record that is pushed is replayed in the order of arrival, over
    any interleaving of requests, the thread and the sending of results; each is
    acknowledged once; a request never waits for ever. *)

From Stdlib Require Import Ascii.
From S2P Require Import Prelude CText ServerTypes Proto Service BinlogPack.
From S2P Require Import BinlogRecord BinlogReplay.

(** [fast_buffer_set_capacity] of libfastcommon, called on an empty buffer. *)
Class BufferCapacity := {
  fast_buffer_set_capacity : FastBuffer → Z → Z * FastBuffer;
  set_capacity_empty : ∀ b n,
    fb_data b = [] → fb_data (fast_buffer_set_capacity b n).2 = [];
  set_capacity_result : ∀ b n,
    (fast_buffer_set_capacity b n).1 = 0 ∨ (fast_buffer_set_capacity b n).1 = ENOMEM
}.

(** The [ServerBinlogRecordBuffer] of a slave. *)
Record SlaveBuffer := mkSlaveBuffer {
  sb_first : Z;
  sb_last : Z;
  sb_buffer : FastBuffer
}.
Definition sb_data (b : SlaveBuffer) : text := fb_data (sb_buffer b).

(** [RecordProcessResult]. *)
Record ProcessResult := mkProcessResult { pr_err_no : Z; pr_data_version : Z }.

Definition BINLOG_BUFFER_INIT_SIZE : Z := 4096.
Definition REPLICA_CONSUMER_THREAD_INPUT_BUFFER_COUNT : Z := 64.
Definition BINLOG_REPLAY_BATCH_SIZE : Z := 32.
Definition sizeof_PushBinlogReqBodyHeader : Z := 20.
Definition sizeof_PushBinlogRespBodyHeader : Z := 4.
Definition sizeof_PushBinlogRespBodyPart : Z := 10.

Section consumer.
Context `{F : FastCommon} {W : Type} `{!DataThreads W} `{!ByteOrder} `{!ServerFrame}.
Context `{!BufferCapacity}.
(** [sizeof(FDIRProtoHeader)], and the pool the parser copies strings to. *)
Context (sizeof_ProtoHeader : Z) (mpool : Mpool).

(** [co_written] are the buffers given to the binlog writer, [co_sent] the bodies of
    the responses; [co_busy] says that the task still sends ([task->length]). *)
Record ReplicaConsumer := mkReplicaConsumer {
  co_continue : bool;
  co_free : list SlaveBuffer;
  co_input : list SlaveBuffer;
  co_results : list ProcessResult;
  co_recv : SlaveBuffer;
  co_replay : @BinlogReplayContext W;
  co_written : list SlaveBuffer;
  co_size : Z;
  co_busy : bool;
  co_sent : list text
}.

Definition with_co_continue (v : bool) (s : ReplicaConsumer) : ReplicaConsumer :=
  mkReplicaConsumer v (co_free s) (co_input s) (co_results s) (co_recv s) (co_replay s)
    (co_written s) (co_size s) (co_busy s) (co_sent s).
Definition with_co_queues (free input : list SlaveBuffer) (recv : SlaveBuffer)
    (s : ReplicaConsumer) : ReplicaConsumer :=
  mkReplicaConsumer (co_continue s) free input (co_results s) recv (co_replay s)
    (co_written s) (co_size s) (co_busy s) (co_sent s).
Definition with_co_results (l : list ProcessResult) (s : ReplicaConsumer) :
    ReplicaConsumer :=
  mkReplicaConsumer (co_continue s) (co_free s) (co_input s) l (co_recv s) (co_replay s)
    (co_written s) (co_size s) (co_busy s) (co_sent s).
Definition with_co_replay (c : @BinlogReplayContext W) (s : ReplicaConsumer) :
    ReplicaConsumer :=
  mkReplicaConsumer (co_continue s) (co_free s) (co_input s) (co_results s) (co_recv s) c
    (co_written s) (co_size s) (co_busy s) (co_sent s).
Definition with_co_written (l : list SlaveBuffer) (s : ReplicaConsumer) :
    ReplicaConsumer :=
  mkReplicaConsumer (co_continue s) (co_free s) (co_input s) (co_results s) (co_recv s)
    (co_replay s) l (co_size s) (co_busy s) (co_sent s).
Definition with_co_sent (busy : bool) (l : list text) (s : ReplicaConsumer) :
    ReplicaConsumer :=
  mkReplicaConsumer (co_continue s) (co_free s) (co_input s) (co_results s) (co_recv s)
    (co_replay s) (co_written s) (co_size s) busy l.

Definition set_sb_data (t : text) (b : SlaveBuffer) : SlaveBuffer :=
  mkSlaveBuffer (sb_first b) (sb_last b) (mkFastBuffer t (fb_alloc (sb_buffer b))).

(** [replica_consumer_thread_init] once everything is allocated: of the buffers [bufs]
    the first receives. *)
Definition replica_consumer_thread_init (task_size data_current_version threads : Z)
    (recv : SlaveBuffer) (bufs : list SlaveBuffer) (w : W) : ReplicaConsumer :=
  mkReplicaConsumer true bufs [] [] recv
    (binlog_replay_init_ex data_current_version threads BINLOG_REPLAY_BATCH_SIZE true w)
    [] task_size false [].

(** [replay_done_callback]: the error number is stored in a short. *)
Definition replay_done_callback (call : Z * LogRecord) : ProcessResult :=
  mkProcessResult (wrap_signed 16 call.1) (int64 (l_data_version call.2)).

(** ** The thread *)

(** Replays one buffer; the results are those of the calls made meanwhile. *)
Definition replay_buffer (rb : SlaveBuffer) (s : ReplicaConsumer) :
    option (Z * ReplicaConsumer) :=
  let c := co_replay s in
  '(result, c') ← binlog_replay_deal_buffer (sb_data rb) (zlen (sb_data rb)) mpool c;
  Some (result, with_co_results
    (co_results s ++ (replay_done_callback <$> drop (length (rp_notices c)) (rp_notices c')))
    (with_co_replay c' s)).

(** The inner loop of [deal_binlog_thread_func]; [write_ok] says whether the writer
    takes the buffer. The process ends on an error. *)
Fixpoint deal_input (write_ok : bool) (l : list SlaveBuffer) (s : ReplicaConsumer) :
    option ReplicaConsumer :=
  match l with
  | [] => Some s
  | rb :: l =>
    '(result, s) ← replay_buffer rb s;
    if negb (result =? 0) || negb write_ok then Some (with_co_continue false s)
    else
      let s := with_co_written (co_written s ++ [rb]) s in
      deal_input write_ok l (with_co_queues (co_free s ++ [rb]) (co_input s) (co_recv s) s)
  end.

(** One round of the thread, when it is still running. *)
Definition deal_binlog_round (write_ok : bool) (s : ReplicaConsumer) :
    option ReplicaConsumer :=
  if negb (co_continue s) then Some s
  else deal_input write_ok (co_input s) (with_co_queues (co_free s) [] (co_recv s) s).

(** ** Requests *)

Definition push_and_set_next_recv_buffer (push_ok : bool) (rb : SlaveBuffer)
    (s : ReplicaConsumer) : Z * ReplicaConsumer :=
  let binlog_length := zlen (sb_data (co_recv s)) in
  if negb push_ok then
    (ENOMEM, with_co_queues (co_free s ++ [rb]) (co_input s) (co_recv s) s)
  else
    let s := with_co_queues (co_free s) (co_input s ++ [co_recv s]) (co_recv s) s in
    let rb := set_sb_data [] rb in
    let alloc := fb_alloc (sb_buffer rb) in
    let '(result, b) :=
      if (2 * BINLOG_BUFFER_INIT_SIZE <? alloc) && (binlog_length * 10 <? alloc)
      then fast_buffer_set_capacity (sb_buffer rb)
             (if BINLOG_BUFFER_INIT_SIZE <? binlog_length
              then binlog_length else BINLOG_BUFFER_INIT_SIZE)
      else (0, sb_buffer rb) in
    if negb (result =? 0) then (result, s)
    else (0, with_co_queues (co_free s) (co_input s)
               (mkSlaveBuffer (sb_first rb) (sb_last rb) b) s).

(** Waiting for a free buffer, while the thread makes its rounds. *)
Fixpoint wait_free (write_ok : bool) (fuel : nat) (s : ReplicaConsumer) :
    option (option SlaveBuffer * ReplicaConsumer) :=
  if negb (co_continue s) then Some (None, s)
  else
    match co_free s, fuel with
    | rb :: free, _ => Some (Some rb, with_co_queues free (co_input s) (co_recv s) s)
    | [], O => None
    | [], S fuel' => s ← deal_binlog_round write_ok s; wait_free write_ok fuel' s
    end.

Definition deal_replica_push_request (push_ok write_ok : bool) (fuel : nat)
    (binlog_buff : text) (first last : Z) (s : ReplicaConsumer) :
    option (Z * ReplicaConsumer) :=
  let '(result, b) := fast_buffer_check (sb_buffer (co_recv s)) (zlen binlog_buff) in
  let s := with_co_queues (co_free s) (co_input s) (mkSlaveBuffer first last b) s in
  if negb (result =? 0) then Some (result, s)
  else
    let s := with_co_queues (co_free s) (co_input s)
      (set_sb_data (sb_data (co_recv s) ++ binlog_buff) (co_recv s)) s in
    match co_free s with
    | rb :: free =>
      Some (push_and_set_next_recv_buffer push_ok rb
              (with_co_queues free (co_input s) (co_recv s) s))
    | [] =>
      if zlen (sb_data (co_recv s)) <? co_size s then Some (0, s)
      else
        '(rb, s) ← wait_free write_ok fuel s;
        match rb with
        | None => Some (EAGAIN, s)
        | Some rb => Some (push_and_set_next_recv_buffer push_ok rb s)
        end
    end.

Definition check_retry_push_request (push_ok : bool) (s : ReplicaConsumer) :
    Z * ReplicaConsumer :=
  if 0 <? zlen (sb_data (co_recv s)) then
    match co_free s with
    | rb :: free =>
      push_and_set_next_recv_buffer push_ok rb
        (with_co_queues free (co_input s) (co_recv s) s)
    | [] => (0, s)
    end
  else (0, s).

(** [cluster_deal_push_binlog_req]: the body of the request is parsed. *)
Definition cluster_deal_push_binlog_req (push_ok write_ok : bool) (fuel : nat)
    (body : text) (s : ReplicaConsumer) : option (Z * ReplicaConsumer) :=
  let result := server_check_min_body_length (zlen body)
                  (sizeof_PushBinlogReqBodyHeader + BINLOG_RECORD_MIN_SIZE) in
  if negb (result =? 0) then Some (result, s)
  else
    let binlog_length := buff2int (take 4 body) in
    let first := buff2long (take 8 (drop 4 body)) in
    let last := buff2long (take 8 (drop 12 body)) in
    if negb (uint64 (sizeof_PushBinlogReqBodyHeader + binlog_length) =? zlen body)
    then Some (EINVAL, s)
    else deal_replica_push_request push_ok write_ok fuel (drop 20 body) first last s.

(** ** Results *)

Definition result_part (r : ProcessResult) : text :=
  long2buff (pr_data_version r) ++ short2buff (pr_err_no r).

(** The results that fit behind position [p], and those that do not. *)
Fixpoint fit_results (size p : Z) (l : list ProcessResult) :
    list ProcessResult * list ProcessResult :=
  match l with
  | [] => ([], [])
  | r :: l' =>
    if size <? p + sizeof_PushBinlogRespBodyPart then ([], l)
    else let '(fit, rest) := fit_results size (p + sizeof_PushBinlogRespBodyPart) l' in
         (r :: fit, rest)
  end.

(** The body of the response. *)
Definition push_binlog_resp (l : list ProcessResult) : text :=
  int2buff (zlen l) ++ (l ≫= result_part).

(** Stuck when not even one result fits. *)
Definition deal_replica_push_result (s : ReplicaConsumer) : option (Z * ReplicaConsumer) :=
  if co_busy s then Some (0, s)
  else
    match co_results s with
    | [] => Some (EAGAIN, s)
    | results =>
      let '(fit, rest) := fit_results (co_size s)
        (sizeof_ProtoHeader + sizeof_PushBinlogRespBodyHeader) results in
      match fit with
      | [] => None
      | _ => Some (0, with_co_results rest
                        (with_co_sent true (co_sent s ++ [push_binlog_resp fit]) s))
      end
    end.

Definition deal_replica_push_task (push_ok : bool) (s : ReplicaConsumer) :
    option (Z * ReplicaConsumer) :=
  let '(result, s) := check_retry_push_request push_ok s in
  if negb (result =? 0) then Some (result, s) else deal_replica_push_result s.

(** ** Runs *)

(** What happens to a slave: a request arrives, the thread that serves the task comes
    round, the replaying thread comes round, a response has been sent. *)
Inductive SlaveEvent :=
| SePush (body : text)
| SeTask
| SeRound
| SeSent.

(** Memory does not run out; a request that fails closes the connection, which ends
    the run. *)
Definition slave_step (s : ReplicaConsumer) (e : SlaveEvent) : option ReplicaConsumer :=
  match e with
  | SePush body =>
    '(result, s) ← cluster_deal_push_binlog_req true true 2 body s;
    if result =? 0 then Some s else None
  | SeTask =>
    '(result, s) ← deal_replica_push_task true s;
    if (result =? 0) || (result =? EAGAIN) then Some s else None
  | SeRound => deal_binlog_round true s
  | SeSent => Some (with_co_sent false (co_sent s) s)
  end.

Fixpoint slave_run (es : list SlaveEvent) (s : ReplicaConsumer) : option ReplicaConsumer :=
  match es with
  | [] => Some s
  | e :: es => s ← slave_step s e; slave_run es s
  end.

(** ** What a slave has done *)

Context `{!FastCommonLaws F} `{!DataThreadsLaws W} (Hpool : pool_ok mpool).
(** The size of a task's buffer. *)
Context (task_size : Z).

(** The results in a response, and those that were sent. *)
Definition answered (s : ReplicaConsumer) (sent : list (list ProcessResult)) : Prop :=
  co_sent s = push_binlog_resp <$> sent ∧
  concat sent ++ co_results s = replay_done_callback <$> rp_notices (co_replay s).

(** The records [dn] are replayed, those of [ins] and [cur] are in the buffers. [c0] is
    the context at the start. *)
Record slave_ok (c0 : @BinlogReplayContext W) (dn : list LogRecord)
    (ins : list (list LogRecord)) (cur : list LogRecord) (s : ReplicaConsumer) : Prop := {
  so_size : co_size s = task_size ∧ 0 < task_size < 2 ^ 30;
  so_input : sb_data <$> co_input s = texts <$> ins;
  so_recv : sb_data (co_recv s) = texts cur;
  so_log : Forall loggable (concat ins ++ cur);
  so_short : Forall (λ l, zlen (texts l) < 2 ^ 31) ins;
  so_cur : zlen (texts cur) < 2 ^ 31;
  so_range : in_range (rp_current_version (co_replay s));
  so_fail : rp_fail_count (co_replay s) = 0;
  so_replay : replayed c0 (co_replay s) (unpacked <$> dn);
  so_answers : ∃ sent, answered s sent
}.

(** A record is text of 64 bytes at least; the text of records determines where they
    are, so the same bytes are the same records. *)
Lemma replay_buffer_spec c0 dn l s rb :
  sb_data rb = texts l → Forall loggable l → zlen (texts l) < 2 ^ 31 →
  in_range (rp_current_version (co_replay s)) → rp_fail_count (co_replay s) = 0 →
  replayed c0 (co_replay s) (unpacked <$> dn) → (∃ sent, answered s sent) →
  ∃ rc c', replay_buffer rb s = Some (rc, with_co_results
      (co_results s ++ (replay_done_callback <$> drop (length (rp_notices (co_replay s))) (rp_notices c')))
      (with_co_replay c' s)) ∧
    (rc = 0 → rp_fail_count c' = 0 ∧ in_range (rp_current_version c') ∧
      replayed c0 c' (unpacked <$> dn ++ l) ∧
      ∃ sent, answered (with_co_results
        (co_results s ++ (replay_done_callback <$> drop (length (rp_notices (co_replay s))) (rp_notices c')))
        (with_co_replay c' s)) sent).
Proof.
  intros Hd Hl Hs Hv Hf Hr (sent & Hsent & Hans). unfold replay_buffer. rewrite Hd.
  pose proof (deal_buffer_records l [] mpool (co_replay s)) as Hb.
  rewrite app_nil_r in Hb. rewrite Hb by done.
  destruct (replay_records_spec (length l) (unpacked <$> l) (co_replay s))
    as (rc & c' & dn' & rest & Hrun & E & Hd' & Hrc & Hend);
    [by rewrite length_fmap|by apply loggable_versions|done|done|].
  rewrite Hrun. cbn [mbind option_bind]. exists rc, c'. split; [done|]. intros ->.
  rewrite (Hend eq_refl), app_nil_r in E. subst dn'. split_and!.
  - by apply Hrc.
  - rewrite (rd_version _ _ _ Hd'). apply top_version_range; [by apply loggable_versions|done].
  - rewrite fmap_app. by eapply replayed_app.
  - exists sent. split; [done|]. cbn. destruct (rd_grow _ _ _ Hd') as (new & En & _).
    by rewrite app_assoc, Hans, En, drop_app_length, fmap_app.
Qed.

Lemma deal_input_size write_ok l s s' :
  deal_input write_ok l s = Some s' → co_size s' = co_size s.
Proof.
  revert s. induction l as [|rb l IH]; intros s; cbn [deal_input]; [by intros [= ->]|].
  unfold replay_buffer. destruct (binlog_replay_deal_buffer _ _ _ _) as [[rc c']|]; [|done].
  cbn [mbind option_bind]. destruct (_ || _); [by intros [= <-]|].
  intros Hd. by rewrite (IH _ Hd).
Qed.

Lemma round_size write_ok s s' :
  deal_binlog_round write_ok s = Some s' → co_size s' = co_size s.
Proof.
  unfold deal_binlog_round. destruct (negb _); [by intros [= ->]|].
  intros E. by rewrite (deal_input_size _ _ _ _ E).
Qed.

(** The thread replays what is in its input. *)
Lemma deal_input_spec write_ok c0 cur l : ∀ ins dn s,
  sb_data <$> l = texts <$> ins → co_input s = [] →
  Forall (λ l, zlen (texts l) < 2 ^ 31) ins → Forall loggable (concat ins) →
  slave_ok c0 dn [] cur s →
  ∃ s', deal_input write_ok l s = Some s' ∧
    (co_continue s' = true → slave_ok c0 (dn ++ concat ins) [] cur s') ∧
    (co_continue s' = true ∧ length (co_free s') = (length (co_free s) + length l)%nat
     ∨ co_continue s' = false).
Proof.
  induction l as [|rb l IH]; intros ins dn s Hl Hin Hsh Hlog Hok.
  - destruct ins; [|done]. exists s. simpl. rewrite app_nil_r. split_and!; try done.
    destruct (co_continue s); [left; split; [done|lia]|by right].
  - destruct ins as [|i ins]; [done|]. injection Hl as Hrb Hl.
    apply Forall_cons in Hsh as [Hi Hsh]. cbn [concat] in Hlog.
    apply Forall_app in Hlog as [Hli Hlog]. destruct Hok as [O1 O2 O3 O4 O5 O6 O7 O8 O9 O10].
    destruct (replay_buffer_spec c0 dn i s rb Hrb Hli Hi O7 O8 O9 O10) as (rc & c' & Hrun & Hrc).
    cbn [deal_input]. rewrite Hrun. cbn [mbind option_bind].
    destruct (negb (rc =? 0) || negb write_ok) eqn:Ee.
    { eexists. split; [done|]. split; [done|by right]. }
    apply orb_false_iff in Ee as [Erc _]. apply negb_false_iff, Z.eqb_eq in Erc as ->.
    destruct (Hrc eq_refl) as (F1 & F2 & F3 & sent & F4 & F5).
    match goal with |- context [deal_input write_ok l ?x] => set (s1 := x) end.
    destruct (IH ins (dn ++ i) s1) as (s' & Hs' & Hok' & Hc'); try done.
    + split; try done. by exists sent.
    + exists s'. split; [exact Hs'|]. rewrite <- app_assoc in Hok'. split; [exact Hok'|].
      destruct Hc' as [[? E]|?]; [left; split; [done|]|by right].
      rewrite E. cbn. rewrite length_app. simpl. lia.
Qed.

Lemma round_spec write_ok c0 dn ins cur s :
  slave_ok c0 dn ins cur s →
  ∃ s', deal_binlog_round write_ok s = Some s' ∧
    (co_continue s' = true → co_continue s = true ∧ slave_ok c0 (dn ++ concat ins) [] cur s' ∧
      length (co_free s') = (length (co_free s) + length (co_input s))%nat).
Proof.
  intros [O1 O2 O3 O4 O5 O6 O7 O8 O9 O10]. unfold deal_binlog_round.
  destruct (co_continue s) eqn:Hc; [|exists s; split; [done|congruence]]. cbn [negb].
  apply Forall_app in O4 as [O4 O4'].
  destruct (deal_input_spec write_ok c0 cur (co_input s) ins dn
    (with_co_queues (co_free s) [] (co_recv s) s)) as (s' & Hs' & Hok & Hl); try done.
  exists s'. split; [done|]. intros Hc'. split_and!; [done|by apply Hok|].
  destruct Hl as [[_ Hl]|?]; [exact Hl|congruence].
Qed.

(** A full buffer goes to the thread, an empty one receives. *)
Lemma next_buffer_spec c0 dn ins cur rb s :
  co_size s = task_size ∧ 0 < task_size < 2 ^ 30 → sb_data <$> co_input s = texts <$> ins → sb_data (co_recv s) = texts cur →
  Forall loggable (concat ins ++ cur) → Forall (λ l, zlen (texts l) < 2 ^ 31) ins →
  zlen (texts cur) < 2 ^ 31 → in_range (rp_current_version (co_replay s)) →
  rp_fail_count (co_replay s) = 0 → replayed c0 (co_replay s) (unpacked <$> dn) →
  (∃ sent, answered s sent) →
  let '(rc, s') := push_and_set_next_recv_buffer true rb s in
  co_continue s' = co_continue s ∧ (rc = 0 → slave_ok c0 dn (ins ++ [cur]) [] s').
Proof.
  intros O1 O2 O3 O4 O5 O6 O7 O8 O9 O10. unfold push_and_set_next_recv_buffer. cbn [negb].
  set (rc_b := if _ && _ then _ else _).
  assert (fb_data rc_b.2 = []) as Hb.
  { unfold rc_b. destruct (_ && _); [by apply set_capacity_empty|done]. }
  destruct rc_b as [rc b]. cbn [snd] in Hb. destruct (rc =? 0) eqn:E; cbn [negb].
  2: { split; [done|]. intros ->. by rewrite Z.eqb_refl in E. }
  split; [done|]. intros _. split; cbn; try done.
  - rewrite !fmap_app, O2. cbn. by rewrite O3.
  - by rewrite concat_app, app_nil_r, concat_cons, app_nil_r.
  - apply Forall_app. split; [done|by constructor].
Qed.

(** Waiting for a buffer ends: after one round all are free, or the thread ended. *)
Lemma wait_free_spec write_ok c0 dn ins cur s n :
  slave_ok c0 dn ins cur s → (0 < length (co_free s) + length (co_input s))%nat →
  ∃ rb s', wait_free write_ok (S (S n)) s = Some (rb, s') ∧
    (∀ b, rb = Some b → co_continue s' = true → co_continue s = true ∧
      ∃ dn' ins', dn ++ concat ins = dn' ++ concat ins' ∧ slave_ok c0 dn' ins' cur s') ∧
    (rb = None → co_continue s' = false).
Proof.
  intros Hok Hlen. cbn [wait_free].
  destruct (co_continue s) eqn:Hc; cbn [negb]; [|by exists None, s].
  destruct (co_free s) as [|rb free] eqn:Hf.
  2: { eexists (Some rb), _. split; [done|]. split; [|done]. intros b _ _. split; [done|].
       exists dn, ins. split; [done|]. destruct Hok. by split. }
  destruct (round_spec write_ok c0 dn ins cur s Hok) as (s1 & -> & Hr1). cbn [mbind option_bind].
  destruct (co_continue s1) eqn:Hc1; cbn [negb]; [|by exists None, s1].
  destruct (Hr1 eq_refl) as (_ & Hok1 & Hl). rewrite Hf in Hl. simpl in Hl, Hlen.
  destruct (co_free s1) as [|rb free]; [simpl in Hl; lia|].
  eexists (Some rb), _. split; [done|]. split; [|done]. intros b _ _. split; [done|].
  exists (dn ++ concat ins), []. split; [by rewrite app_nil_r|]. destruct Hok1. by split.
Qed.

(** ** Events *)

(** A request with the text of some records, as the master sends it. *)
Definition push_req_body (first last : Z) (binlog : text) : text :=
  int2buff (zlen binlog) ++ long2buff first ++ long2buff last ++ binlog.

Lemma push_req_parse push_ok write_ok fuel first last binlog s :
  BINLOG_RECORD_MIN_SIZE ≤ zlen binlog < 2 ^ 31 → is_int64 first → is_int64 last →
  cluster_deal_push_binlog_req push_ok write_ok fuel (push_req_body first last binlog) s
  = deal_replica_push_request push_ok write_ok fuel binlog first last s.
Proof.
  intros Hl Hfi Hla. unfold cluster_deal_push_binlog_req, push_req_body.
  assert (zlen (int2buff (zlen binlog) ++ long2buff first ++ long2buff last ++ binlog)
    = 20 + zlen binlog) as El.
  { rewrite !zlen_app. unfold zlen. rewrite int2buff_len, !long2buff_len. lia. }
  unfold BINLOG_RECORD_MIN_SIZE in Hl.
  rewrite El, (proj2 (check_min_body_length_law _ _)).
  2: { unfold sizeof_PushBinlogReqBodyHeader, BINLOG_RECORD_MIN_SIZE. lia. }
  change (negb (0 =? 0)) with false. cbv iota zeta.
  set (i := int2buff _). set (l1 := long2buff first). set (l2 := long2buff last).
  assert (length i = 4%nat ∧ length l1 = 8%nat ∧ length l2 = 8%nat) as (Li & L1 & L2).
  { unfold i, l1, l2. by rewrite int2buff_len, !long2buff_len. }
  assert (take 4 (i ++ l1 ++ l2 ++ binlog) = i ∧
    drop 4 (i ++ l1 ++ l2 ++ binlog) = l1 ++ l2 ++ binlog ∧
    drop 12 (i ++ l1 ++ l2 ++ binlog) = l2 ++ binlog ∧
    drop 20 (i ++ l1 ++ l2 ++ binlog) = binlog) as (-> & -> & -> & ->).
  { split_and!; [by apply take_app_length'|by apply drop_app_length'|..].
    - rewrite app_assoc. apply drop_app_length'. rewrite length_app. lia.
    - rewrite 2!app_assoc. apply drop_app_length'. rewrite !length_app. lia. }
  rewrite !take_app_length' by done. unfold i, l1, l2.
  rewrite buff2int_law, !buff2long_law by (done || (unfold is_int32; lia)).
  unfold sizeof_PushBinlogReqBodyHeader. rewrite uint64_small by lia.
  by rewrite Z.eqb_refl.
Qed.

Definition free_some (s : ReplicaConsumer) : Prop :=
  (0 < length (co_free s) + length (co_input s))%nat.

(** The invariant between events. *)
Definition slave_inv (c0 : @BinlogReplayContext W) (dn : list LogRecord)
    (ins : list (list LogRecord)) (cur : list LogRecord) (s : ReplicaConsumer) : Prop :=
  slave_ok c0 dn ins cur s ∧ zlen (texts cur) < co_size s ∧
  (0 < length (co_free s) + length (co_input s))%nat.

Lemma next_buffer_continue push_ok rb s :
  co_continue (push_and_set_next_recv_buffer push_ok rb s).2 = co_continue s.
Proof.
  unfold push_and_set_next_recv_buffer. destruct push_ok; cbn [negb]; [|done].
  set (x := if _ && _ then _ else _). destruct x as [rc b]. by destruct (negb (rc =? 0)).
Qed.

Lemma next_buffer_result rb s :
  (push_and_set_next_recv_buffer true rb s).1 = 0 ∨
  (push_and_set_next_recv_buffer true rb s).1 = ENOMEM.
Proof.
  unfold push_and_set_next_recv_buffer. cbn [negb].
  set (x := if _ && _ then _ else _). assert (x.1 = 0 ∨ x.1 = ENOMEM) as Hx.
  { unfold x. destruct (_ && _); [apply set_capacity_result|by left]. }
  destruct x as [rc b]. cbn [fst] in Hx. destruct Hx as [-> | ->]; [by left|by right].
Qed.

(** The request hands over its buffer, once it got the next one. *)
Lemma hand_over_spec c0 dn ins cur rb s :
  slave_ok c0 dn ins cur s →
  ∃ rc s', push_and_set_next_recv_buffer true rb s = (rc, s') ∧
    co_continue s' = co_continue s ∧ (rc = 0 → slave_inv c0 dn (ins ++ [cur]) [] s').
Proof.
  intros [O1 O2 O3 O4 O5 O6 O7 O8 O9 O10].
  pose proof (next_buffer_spec c0 dn ins cur rb s O1 O2 O3 O4 O5 O6 O7 O8 O9 O10) as Hn.
  assert (length (co_input (push_and_set_next_recv_buffer true rb s).2)
    = S (length (co_input s))) as Hl.
  { unfold push_and_set_next_recv_buffer. cbn [negb].
    set (x := if _ && _ then _ else _). destruct x as [rc b].
    destruct (negb (rc =? 0)); cbn; rewrite length_app; simpl; lia. }
  destruct (push_and_set_next_recv_buffer true rb s) as [rc s'] eqn:E.
  exists rc, s'. destruct Hn as [Hc Hn]. split; [done|]. split; [done|]. intros ->.
  specialize (Hn eq_refl). split; [done|]. split; [|cbn in Hl; lia].
  destruct Hn as [P1 _ _ _ _ _ _ _ _ _]. change (texts []) with (@nil ascii). rewrite zlen_nil. lia.
Qed.

Lemma push_request_spec c0 dn ins cur s rs write_ok first last :
  slave_inv c0 dn ins cur s → Forall loggable rs → zlen (texts rs) < 2 ^ 30 →
  ∃ rc s', deal_replica_push_request true write_ok 2 (texts rs) first last s = Some (rc, s') ∧
    (rc = 0 → co_continue s' = true → co_continue s = true ∧
      ∃ dn' ins' cur', dn ++ concat ins ++ cur ++ rs = dn' ++ concat ins' ++ cur' ∧
        slave_inv c0 dn' ins' cur' s').
Proof.
  intros (Hok & Hsm & Hfree) Hrs Hlen. unfold deal_replica_push_request.
  destruct (fast_buffer_check (sb_buffer (co_recv s)) (zlen (texts rs))) as [rc b] eqn:Hcap.
  destruct (Z.eqb_spec rc 0) as [->|Hrc]; cbn [negb].
  2: { eexists _, _. split; [done|]. by intros ->. }
  destruct (check_ok _ _ _ Hcap) as (Hb & _). fold (sb_data (co_recv s)) in Hb.
  set (s1 := with_co_queues _ _ (set_sb_data _ _) _).
  assert (sb_data (co_recv s1) = texts (cur ++ rs)) as Hrecv.
  { change (fb_data b ++ texts rs = texts (cur ++ rs)).
    by rewrite Hb, (so_recv _ _ _ _ _ Hok), texts_app. }
  assert (slave_ok c0 dn ins (cur ++ rs) s1) as Hok1.
  { destruct Hok as [O1 O2 O3 O4 O5 O6 O7 O8 O9 O10]. split; try done.
    - rewrite app_assoc. by apply Forall_app.
    - rewrite texts_app, zlen_app. lia. }
  assert (0 < length (co_free s1) + length (co_input s1))%nat as Hfree1 by exact Hfree.
  destruct (co_free s1) as [|rb free] eqn:Hf.
  - destruct (Z.ltb_spec (zlen (sb_data (co_recv s1))) (co_size s1)) as [Hlt|Hge].
    + eexists 0, s1. split; [done|]. intros _ Hc. split; [exact Hc|].
      exists dn, ins, (cur ++ rs). rewrite Hrecv in Hlt.
      split; [done|]. split; [done|]. split; [done|]. by rewrite Hf.
    + destruct (wait_free_spec write_ok c0 dn ins (cur ++ rs) s1 0 Hok1) as (rb & s2 & -> & Hw & Hno).
      { by rewrite Hf. }
      cbn [mbind option_bind]. destruct rb as [rb|].
      2: { eexists EAGAIN, s2. split; [done|]. done. }
      assert (∃ dn' ins', (co_continue s2 = true → co_continue s1 = true ∧
        dn ++ concat ins = dn' ++ concat ins' ∧ slave_ok c0 dn' ins' (cur ++ rs) s2)) as (dn' & ins' & Hw').
      { destruct (co_continue s2); [|by exists dn, ins].
        destruct (Hw rb eq_refl eq_refl) as (? & dn' & ins' & ? & ?). by exists dn', ins'. }
      destruct (push_and_set_next_recv_buffer true rb s2) as [rc s3] eqn:E.
      exists rc, s3. split; [done|]. intros -> Hc.
      assert (co_continue s2 = true) as Hc2.
      { rewrite <- Hc, <- (next_buffer_continue true rb s2). by rewrite E. }
      destruct (Hw' Hc2) as (Hc1 & Ed & Hok2). split; [exact Hc1|].
      destruct (hand_over_spec c0 dn' ins' (cur ++ rs) rb s2 Hok2) as (rc' & s' & E' & _ & Hinv).
      rewrite E in E'. injection E' as <- <-.
      exists dn', (ins' ++ [cur ++ rs]), []. split; [|by apply Hinv].
      rewrite concat_app, concat_cons, !app_nil_r. by rewrite !app_assoc, Ed, <- !app_assoc.
  - set (s2 := with_co_queues free (co_input s1) (co_recv s1) s1).
    assert (slave_ok c0 dn ins (cur ++ rs) s2) as Hok2 by (destruct Hok1; by split).
    destruct (hand_over_spec c0 dn ins (cur ++ rs) rb s2 Hok2) as (rc & s' & -> & Hc & Hinv).
    exists rc, s'. split; [done|]. intros -> Hc'. split; [by rewrite Hc in Hc'|].
    exists dn, (ins ++ [cur ++ rs]), []. split; [|by apply Hinv].
    by rewrite concat_app, concat_cons, !app_nil_r.
Qed.

Lemma fit_results_app size p l :
  (fit_results size p l).1 ++ (fit_results size p l).2 = l.
Proof.
  revert p. induction l as [|r l IH]; intros p; simpl; [done|]. destruct (_ <? _); [done|].
  specialize (IH (p + sizeof_PushBinlogRespBodyPart)).
  destruct (fit_results size _ l) as [fit rest]. simpl in *. by rewrite IH.
Qed.

(** Serving the task: a buffer that waited is handed over, results are sent. *)
Lemma push_task_spec c0 dn ins cur s rc s' :
  slave_inv c0 dn ins cur s → deal_replica_push_task true s = Some (rc, s') →
  rc = 0 ∨ rc = EAGAIN →
  co_continue s' = co_continue s ∧
  ∃ ins' cur', concat ins ++ cur = concat ins' ++ cur' ∧ slave_inv c0 dn ins' cur' s'.
Proof.
  intros Hinv Hrun Hrc. unfold deal_replica_push_task in Hrun.
  destruct (check_retry_push_request true s) as [rc1 s1] eqn:Hre.
  assert (co_continue s1 = co_continue s ∧ (rc1 = 0 ∨ rc1 = ENOMEM) ∧ (rc1 = 0 →
    ∃ ins' cur', concat ins ++ cur = concat ins' ++ cur' ∧ slave_inv c0 dn ins' cur' s1))
    as (Hc1 & Hr1 & Hinv1).
  { unfold check_retry_push_request in Hre. pose proof Hinv as (Hok & _).
    destruct (0 <? zlen _); [|injection Hre as <- <-; split_and!; [done|by left|by exists ins, cur]].
    destruct (co_free s) as [|rb free] eqn:Hf; [injection Hre as <- <-; split_and!; [done|by left|by exists ins, cur]|].
    destruct (hand_over_spec c0 dn ins cur rb (with_co_queues free (co_input s) (co_recv s) s))
      as (rc2 & s2 & E & Hc & Hi); [by destruct Hok|].
    pose proof (next_buffer_result rb (with_co_queues free (co_input s) (co_recv s) s)) as Hnr.
    rewrite Hre in E, Hnr. injection E as <- <-. split; [done|]. split; [exact Hnr|]. intros ->.
    exists (ins ++ [cur]), []. split; [by rewrite concat_app, concat_cons, !app_nil_r|by apply Hi]. }
  destruct (Z.eqb_spec rc1 0) as [->|Hne]; cbn [negb] in Hrun.
  2: { injection Hrun as <- <-. destruct Hr1 as [?| ->]; [done|]. by destruct Hrc. }
  destruct (Hinv1 eq_refl) as (ins' & cur' & Ec & Hi). 
  cut (co_continue s' = co_continue s1 ∧ slave_inv c0 dn ins' cur' s').
  { intros [E ?]. split; [congruence|]. by exists ins', cur'. }
  unfold deal_replica_push_result in Hrun.
  destruct (co_busy s1); [injection Hrun as _ <-; done|].
  destruct (co_results s1) as [|r l] eqn:Hres; [injection Hrun as _ <-; done|].
  rewrite <- Hres in Hrun. set (p := sizeof_ProtoHeader + _) in Hrun.
  pose proof (fit_results_app (co_size s1) p (co_results s1)) as Happ.
  destruct (fit_results (co_size s1) p (co_results s1)) as [fit rest]. simpl in Happ.
  destruct fit as [|r' fit]; [done|]. injection Hrun as _ <-. split; [done|].
  destruct Hi as ([O1 O2 O3 O4 O5 O6 O7 O8 O9 (sent & Hsent & Hans)] & Hsm & Hfree).
  split; [|done]. split; try done. exists (sent ++ [r' :: fit]). split; cbn.
  - by rewrite Hsent, fmap_app.
  - by rewrite concat_app, concat_cons, app_nil_r, <- app_assoc, Happ.
Qed.

(** What arrives: the text of some records, or one of the other events. *)
Inductive SlaveInput :=
| InPush (first last : Z) (rs : list LogRecord)
| InTask
| InRound
| InSent.

Definition to_event (i : SlaveInput) : SlaveEvent :=
  match i with
  | InPush first last rs => SePush (push_req_body first last (texts rs))
  | InTask => SeTask
  | InRound => SeRound
  | InSent => SeSent
  end.

Definition pushed_records (l : list SlaveInput) : list LogRecord :=
  l ≫= λ i, match i with InPush _ _ rs => rs | _ => [] end.

Definition input_ok (i : SlaveInput) : Prop :=
  match i with
  | InPush first last rs =>
    is_int64 first ∧ is_int64 last ∧ Forall loggable rs ∧
    BINLOG_RECORD_MIN_SIZE ≤ zlen (texts rs) < 2 ^ 30
  | _ => True
  end.

Lemma pushed_cons i l : pushed_records (i :: l) = pushed_records [i] ++ pushed_records l.
Proof. unfold pushed_records. simpl. by rewrite app_nil_r. Qed.

Lemma slave_step_spec c0 dn ins cur s i s' :
  slave_inv c0 dn ins cur s → input_ok i → slave_step s (to_event i) = Some s' →
  co_continue s' = true → co_continue s = true ∧
  ∃ dn' ins' cur', dn ++ concat ins ++ cur ++ pushed_records [i] = dn' ++ concat ins' ++ cur' ∧
    slave_inv c0 dn' ins' cur' s'.
Proof.
  intros Hinv Hi Hrun Hc. destruct i as [first last rs| | |]; cbn [to_event slave_step] in Hrun;
    unfold pushed_records; cbn [mbind list_bind app]; rewrite ?app_nil_r.
  - destruct Hi as (Hf & Hla & Hrs & Hlen). unfold pushed_records. rewrite push_req_parse in Hrun by (done || lia).
    destruct (push_request_spec c0 dn ins cur s rs true first last Hinv Hrs) as (rc & s1 & Hp & Hres); [lia|].
    rewrite Hp in Hrun. cbn [mbind option_bind] in Hrun.
    destruct (Z.eqb_spec rc 0) as [->|]; [|done]. injection Hrun as ->. by apply Hres.
  - destruct (deal_replica_push_task true s) as [[rc s1]|] eqn:E; [|done].
    cbn [mbind option_bind] in Hrun. destruct ((rc =? 0) || (rc =? EAGAIN)) eqn:Erc; [|done].
    injection Hrun as ->. apply orb_true_iff in Erc as [Erc|Erc]; apply Z.eqb_eq in Erc;
      (destruct (push_task_spec c0 dn ins cur s rc s' Hinv E) as (E1 & ins' & cur' & Ec & Hi');
        [auto|]; split; [congruence|]; exists dn, ins', cur'; by rewrite Ec).
  - destruct Hinv as (Hok & Hsm & Hfree).
    destruct (round_spec true c0 dn ins cur s Hok) as (s1 & Hr & Hres).
    rewrite Hr in Hrun. injection Hrun as ->. destruct (Hres Hc) as (Hc' & Hok' & Hl).
    split; [done|]. exists (dn ++ concat ins), [], cur. split; [by rewrite <- app_assoc|].
    split; [done|]. split; [|lia].
    by rewrite (round_size _ _ _ Hr).
  - injection Hrun as <-. split; [done|]. exists dn, ins, cur. split; [done|].
    destruct Hinv as ([O1 O2 O3 O4 O5 O6 O7 O8 O9 O10] & Hsm & Hfree). split; [by split|done].
Qed.

(** A thread that stopped does not start again. *)
Lemma push_task_continue push_ok s rc s' :
  deal_replica_push_task push_ok s = Some (rc, s') → co_continue s' = co_continue s.
Proof.
  unfold deal_replica_push_task. intros Hrun.
  destruct (check_retry_push_request push_ok s) as [rc1 s1] eqn:Hre.
  assert (co_continue s1 = co_continue s) as <-.
  { unfold check_retry_push_request in Hre.
    destruct (0 <? zlen _); [|by injection Hre as <- <-].
    destruct (co_free s) as [|rb free]; [by injection Hre as <- <-|].
    pose proof (next_buffer_continue push_ok rb
      (with_co_queues free (co_input s) (co_recv s) s)) as E. by rewrite Hre in E. }
  destruct (negb (rc1 =? 0)); [by injection Hrun as _ <-|].
  unfold deal_replica_push_result in Hrun.
  destruct (co_busy s1); [by injection Hrun as _ <-|].
  destruct (co_results s1); [by injection Hrun as _ <-|].
  destruct (fit_results _ _ _) as [[|r' fit] rest]; [done|]. by injection Hrun as _ <-.
Qed.

Lemma push_request_continue push_ok write_ok fuel t first last s rc s' :
  deal_replica_push_request push_ok write_ok fuel t first last s = Some (rc, s') →
  co_continue s = false → co_continue s' = false.
Proof.
  intros Hrun Hc. unfold deal_replica_push_request in Hrun.
  destruct (fast_buffer_check _ _) as [rc1 b].
  destruct (negb (rc1 =? 0)); [by injection Hrun as _ <-|].
  set (s1 := with_co_queues _ _ (set_sb_data _ _) _) in Hrun.
  change (co_continue s) with (co_continue s1) in Hc.
  destruct (co_free s1) as [|rb free].
  - destruct (_ <? _); [by injection Hrun as _ <-|].
    destruct fuel; cbn [wait_free] in Hrun; rewrite Hc in Hrun; by injection Hrun as _ <-.
  - match type of Hrun with Some (push_and_set_next_recv_buffer _ _ ?x) = _ =>
      pose proof (next_buffer_continue push_ok rb x) as E;
      destruct (push_and_set_next_recv_buffer push_ok rb x) as [rc2 s2] end.
    injection Hrun as _ <-. exact (eq_trans E Hc).
Qed.

Lemma slave_step_stopped s e s' :
  slave_step s e = Some s' → co_continue s = false → co_continue s' = false.
Proof.
  intros Hrun Hc. destruct e as [body| | |]; cbn [slave_step] in Hrun.
  - unfold cluster_deal_push_binlog_req in Hrun.
    destruct (negb (_ =? 0)) eqn:E1.
    { cbn [mbind option_bind] in Hrun. apply negb_true_iff in E1. by rewrite E1 in Hrun. }
    destruct (negb (uint64 _ =? _)); [done|].
    destruct (deal_replica_push_request _ _ _ _ _ _ s) as [[rc s1]|] eqn:E; [|done].
    cbn [mbind option_bind] in Hrun. destruct (rc =? 0); [|done]. injection Hrun as <-.
    by eapply push_request_continue.
  - destruct (deal_replica_push_task true s) as [[rc s1]|] eqn:E; [|done].
    cbn [mbind option_bind] in Hrun. destruct (_ || _); [|done]. injection Hrun as <-.
    rewrite <- Hc. by eapply push_task_continue.
  - unfold deal_binlog_round in Hrun. rewrite Hc in Hrun. by injection Hrun as <-.
  - by injection Hrun as <-.
Qed.

Lemma slave_run_stopped es : ∀ s s',
  slave_run es s = Some s' → co_continue s = false → co_continue s' = false.
Proof.
  induction es as [|e es IH]; intros s s' Hrun Hc; [by injection Hrun as <-|].
  cbn [slave_run] in Hrun. destruct (slave_step s e) as [s1|] eqn:E; [|done].
  eapply IH; [exact Hrun|]. by eapply slave_step_stopped.
Qed.

Lemma slave_run_spec c0 l : ∀ dn ins cur s s',
  slave_inv c0 dn ins cur s → Forall input_ok l → slave_run (to_event <$> l) s = Some s' →
  co_continue s' = true → co_continue s = true ∧
  ∃ dn' ins' cur', dn ++ concat ins ++ cur ++ pushed_records l = dn' ++ concat ins' ++ cur' ∧
    slave_inv c0 dn' ins' cur' s'.
Proof.
  induction l as [|i l IH]; intros dn ins cur s s' Hinv Hl Hrun Hc.
  { cbn in Hrun. injection Hrun as <-. split; [done|]. exists dn, ins, cur.
    unfold pushed_records. cbn. by rewrite app_nil_r. }
  apply Forall_cons in Hl as [Hi Hl]. cbn [fmap list_fmap slave_run] in Hrun.
  destruct (slave_step s (to_event i)) as [s1|] eqn:Hs; [|done]. cbn [mbind option_bind] in Hrun.
  rewrite pushed_cons.
  assert (co_continue s1 = true) as Hc1.
  { destruct (co_continue s1) eqn:Hc1; [done|exfalso].
    by rewrite (slave_run_stopped _ _ _ Hrun Hc1) in Hc. }
  destruct (slave_step_spec c0 dn ins cur s i s1 Hinv Hi Hs Hc1) as (Hc0 & dn1 & ins1 & cur1 & E1 & Hinv1).
  destruct (IH dn1 ins1 cur1 s1 s' Hinv1 Hl Hrun Hc) as (_ & dn2 & ins2 & cur2 & E2 & Hinv2).
  split; [done|]. exists dn2, ins2, cur2. split; [|done].
  rewrite <- E2. rewrite !app_assoc in *. by rewrite E1.
Qed.

(** ** Properties *)

Section from_start.
Context (v threads : Z) (recv : SlaveBuffer) (bufs : list SlaveBuffer) (w : W).
Context (Hsize : 0 < task_size < 2 ^ 30) (Hv : in_range v) (Hrecv : sb_data recv = [])
  (Hbufs : bufs ≠ []).
Let s0 : ReplicaConsumer := replica_consumer_thread_init task_size v threads recv bufs w.

Lemma slave_start : slave_inv (co_replay s0) [] [] [] s0.
Proof.
  split; [|split; [change (0 < task_size); lia|]].
  2: { change (0 < length bufs + 0)%nat. destruct bufs; [done|simpl; lia]. }
  split; try done.
  - apply replayed_nil.
  - by exists [].
Qed.

(** Where a run has come to. *)
Lemma slave_reached l s :
  Forall input_ok l → slave_run (to_event <$> l) s0 = Some s → co_continue s = true →
  ∃ dn ins cur, pushed_records l = dn ++ concat ins ++ cur ∧
    slave_inv (co_replay s0) dn ins cur s.
Proof.
  intros Hl Hrun Hc.
  by destruct (slave_run_spec _ l [] [] [] s0 s slave_start Hl Hrun Hc) as (_ & ?).
Qed.

Lemma texts_nil_inv rs : Forall loggable rs → texts rs = [] → rs = [].
Proof.
  intros Hl E. pose proof (texts_length rs Hl) as Hle. rewrite E in Hle.
  destruct rs; [done|]. unfold zlen in Hle. simpl in Hle. lia.
Qed.

(** Serving the task leaves nothing in the receiving buffer, if there is a free one. *)
Lemma push_task_empties s rc s' c0 dn ins cur :
  slave_ok c0 dn ins cur s → co_free s ≠ [] → deal_replica_push_task true s = Some (rc, s') →
  rc = 0 ∨ rc = EAGAIN → sb_data (co_recv s') = [].
Proof.
  intros Hok Hf Hrun Hrc. unfold deal_replica_push_task in Hrun.
  destruct (check_retry_push_request true s) as [rc1 s1] eqn:Hre.
  assert ((rc1 = 0 ∨ rc1 = ENOMEM) ∧ (rc1 = 0 → sb_data (co_recv s1) = [])) as [Hr1 Hs1].
  { unfold check_retry_push_request in Hre. destruct (Z.ltb_spec 0 (zlen (sb_data (co_recv s)))).
    - destruct (co_free s) as [|rb free]; [done|].
      set (s2 := with_co_queues free (co_input s) (co_recv s) s) in *.
      destruct (hand_over_spec c0 dn ins cur rb s2) as (rc2 & s3 & E & _ & Hi); [by destruct Hok|].
      pose proof (next_buffer_result rb s2) as Hnr. rewrite Hre in E, Hnr. injection E as <- <-.
      split; [exact Hnr|]. intros E0. by destruct (Hi E0) as ([_ _ -> _ _ _ _ _ _ _] & _).
    - injection Hre as <- <-. split; [by left|]. intros _. unfold zlen in *. destruct (sb_data (co_recv s)); [done|simpl in *; lia]. }
  destruct (Z.eqb_spec rc1 0) as [->|Hne]; cbn [negb] in Hrun.
  2: { injection Hrun as <- <-. destruct Hr1 as [?| ->]; [done|]. by destruct Hrc. }
  specialize (Hs1 eq_refl). unfold deal_replica_push_result in Hrun.
  destruct (co_busy s1); [by injection Hrun as _ <-|].
  destruct (co_results s1); [by injection Hrun as _ <-|].
  destruct (fit_results _ _ _) as [[|r' fit] rest]; [done|]. by injection Hrun as _ <-.
Qed.

(** The fuel of a request suffices. *)
Lemma push_request_ends c0 dn ins cur s rs write_ok first last :
  slave_inv c0 dn ins cur s → Forall loggable rs → zlen (texts rs) < 2 ^ 30 →
  is_Some (deal_replica_push_request true write_ok 2 (texts rs) first last s).
Proof.
  intros Hinv Hrs Hlen.
  by destruct (push_request_spec c0 dn ins cur s rs write_ok first last Hinv Hrs Hlen)
    as (rc & s' & -> & _).
Qed.

Lemma push_task_ends push_ok s :
  sizeof_ProtoHeader + 14 ≤ co_size s → is_Some (deal_replica_push_task push_ok s).
Proof.
  intros Hs. unfold deal_replica_push_task.
  destruct (check_retry_push_request push_ok s) as [rc s1] eqn:E.
  assert (co_size s1 = co_size s) as Es.
  { unfold check_retry_push_request in E. destruct (0 <? _); [|by injection E as _ <-].
    destruct (co_free s) as [|rb free]; [by injection E as _ <-|].
    unfold push_and_set_next_recv_buffer in E. destruct push_ok; cbn [negb] in E;
      [|by injection E as _ <-].
    revert E. set (x := if _ && _ then _ else _). destruct x as [rc2 b].
    destruct (negb (rc2 =? 0)); by intros [= _ <-]. }
  destruct (negb (rc =? 0)); [done|]. unfold deal_replica_push_result.
  destruct (co_busy s1); [done|]. destruct (co_results s1) as [|r l]; [done|].
  cbn [fit_results]. rewrite (proj2 (Z.ltb_ge _ _)).
  2: { rewrite Es. unfold sizeof_PushBinlogRespBodyHeader, sizeof_PushBinlogRespBodyPart. lia. }
  by destruct (fit_results _ _ l) as [fit rest].
Qed.

(** [C9] A slave applies what the master sends in the order in which it arrives: over
    any interleaving of requests, rounds of the replaying thread and the sending of
    results, the records that were pushed are those replayed, followed by those whose
    text is still in the buffers; the data threads got exactly those of the replayed
    ones that are newer than every one before. A result is sent or is waiting for each
    replayed record, one for each, and says that it was applied. *)
Theorem slave_applies_in_order (l : list SlaveInput) (s : ReplicaConsumer) :
  Forall input_ok l → slave_run (to_event <$> l) s0 = Some s → co_continue s = true →
  ∃ dn rest sent,
    pushed_records l = dn ++ rest ∧
    texts rest = concat (sb_data <$> co_input s) ++ sb_data (co_recv s) ∧
    rp_applied (co_replay s) = fresh v (unpacked <$> dn) ∧
    rp_current_version (co_replay s) = top_version v (unpacked <$> dn) ∧
    co_sent s = push_binlog_resp <$> sent ∧
    pr_data_version <$> (concat sent ++ co_results s) ≡ₚ l_data_version <$> dn ∧
    Forall (λ r, pr_err_no r = 0) (concat sent ++ co_results s).
Proof using Hsize Hv Hrecv Hbufs Hpool DataThreadsLaws0 FastCommonLaws0.
  intros Hl Hrun Hc. destruct (slave_reached l s Hl Hrun Hc) as (dn & ins & cur & E & Hok & _).
  destruct Hok as [_ O2 O3 O4 _ _ O7 O8 O9 (sent & Hsent & Hans)].
  exists dn, (concat ins ++ cur), sent.
  assert (versions_ok (unpacked <$> dn)) as Hdn.
  { apply loggable_versions.
    assert (Forall loggable (pushed_records l)) as Hp.
    { clear -Hl. unfold pushed_records. induction Hl as [|i l Hi _ IH]; [by constructor|].
      cbn [mbind list_bind]. apply Forall_app. split; [|exact IH].
      destruct i; try by constructor. by destruct Hi as (_ & _ & ? & _). }
    rewrite E in Hp. by apply Forall_app in Hp as [? _]. }
  destruct O9 as [D1 D2 _ _ D5 (new & En & _ & Hacks) _]. cbn in D1, D2, D5, En, Hacks.
  split_and!; [by rewrite E| |exact D2|exact D1|exact Hsent|..].
  - rewrite texts_app, O2, O3. f_equal. clear. induction ins as [|i ins IH]; [done|].
    cbn [concat fmap list_fmap]. by rewrite texts_app, IH.
  - rewrite Hans. specialize (D5 eq_refl).
    transitivity (l_data_version <$> (unpacked <$> dn)).
    + rewrite <- D5. unfold acked. rewrite <- !list_fmap_compose.
      apply eq_subrelation; [apply _|]. apply list_fmap_ext. intros i [rc r] Hi. cbn. unfold compose. cbn.
      assert (r ∈ unpacked <$> dn) as Hr.
      { rewrite <- D5. unfold acked. apply list_elem_of_fmap. exists (rc, r).
        split; [done|]. by eapply list_elem_of_lookup_2. }
      unfold versions_ok in Hdn. rewrite Forall_forall in Hdn. specialize (Hdn r Hr).
      apply int64_small. unfold is_int64, in_range in *. lia.
    + by rewrite <- list_fmap_compose.
  - rewrite Hans. rewrite O8 in Hacks. rewrite En. apply Forall_fmap.
    eapply Forall_impl; [by apply Hacks|]. intros [rc r] E0. cbn in *. by subst rc.
Qed.

(** [C10] A slave that serves its task never waits for ever: in every state a run
    reaches, the next request, whatever it says, the serving of the task and the
    round of the thread come to an end (a result fits into a response). And it
    catches up: when the thread comes round, the task is served and the thread comes
    round again, every record that was pushed is applied and the buffers are empty. *)
Theorem slave_catches_up (l : list SlaveInput) (s : ReplicaConsumer) :
  sizeof_ProtoHeader + 14 ≤ task_size →
  Forall input_ok l → slave_run (to_event <$> l) s0 = Some s → co_continue s = true →
  (∀ rs first last, Forall loggable rs → zlen (texts rs) < 2 ^ 30 →
    is_Some (deal_replica_push_request true true 2 (texts rs) first last s)) ∧
  is_Some (deal_replica_push_task true s) ∧
  is_Some (deal_binlog_round true s) ∧
  ∀ s', slave_run (to_event <$> [InRound; InTask; InRound]) s = Some s' →
    co_continue s' = true →
    rp_applied (co_replay s') = fresh v (unpacked <$> pushed_records l) ∧
    co_input s' = [] ∧ sb_data (co_recv s') = [].
Proof using Hsize Hv Hrecv Hbufs Hpool DataThreadsLaws0 FastCommonLaws0.
  intros Hfit Hl Hrun Hc. destruct (slave_reached l s Hl Hrun Hc) as (dn & ins & cur & E & Hinv).
  pose proof Hinv as (Hok & _ & Hfree). split_and!.
  - intros. by eapply push_request_ends.
  - apply push_task_ends. destruct (so_size _ _ _ _ _ Hok). lia.
  - by destruct (round_spec true _ dn ins cur s Hok) as (s' & -> & _).
  - intros s' Hrun' Hc'. cbn [fmap list_fmap to_event slave_run] in Hrun'.
    destruct (slave_step s SeRound) as [s1|] eqn:R1; [|done]. cbn [mbind option_bind] in Hrun'.
    destruct (slave_step s1 SeTask) as [s2|] eqn:R2; [|done]. cbn [mbind option_bind] in Hrun'.
    destruct (slave_step s2 SeRound) as [s3|] eqn:R3; [|done]. cbn [mbind option_bind] in Hrun'.
    injection Hrun' as ->. cbn [slave_step] in R1, R2, R3.
    destruct (co_continue s1) eqn:Hc1.
    2: { assert (co_continue s2 = false) as Hc2 by (by eapply (slave_step_stopped s1 SeTask)).
         rewrite (slave_step_stopped s2 SeRound s' R3 Hc2) in Hc'. done. }
    destruct (co_continue s2) eqn:Hc2.
    2: { by rewrite (slave_step_stopped s2 SeRound s' R3 Hc2) in Hc'. }
    destruct (round_spec true _ dn ins cur s Hok) as (s1' & R1' & Q1).
    rewrite R1 in R1'. injection R1' as <-. destruct (Q1 Hc1) as (_ & Hok1 & Hl1).
    destruct (slave_step_spec _ _ _ _ _ InRound s1 Hinv I R1 Hc1) as (_ & dn1 & ins1 & cur1 & E1 & Hinv1).
    destruct (slave_step_spec _ _ _ _ _ InTask s2 Hinv1 I R2 Hc2) as (_ & dn2 & ins2 & cur2 & E2 & Hinv2).
    assert (cur2 = []) as ->.
    { destruct (deal_replica_push_task true s1) as [[rc s2']|] eqn:R2'; [|done].
      cbn [mbind option_bind] in R2. destruct ((rc =? 0) || (rc =? EAGAIN)) eqn:Erc; [|done].
      injection R2 as ->. destruct Hinv2 as ([_ _ Er Hlog _ _ _ _ _ _] & _).
      apply Forall_app in Hlog as [_ Hlog]. apply (texts_nil_inv _ Hlog). rewrite <- Er.
      eapply (push_task_empties s1 rc s2); [exact Hok1| |exact R2'|].
      - intros Ef. rewrite Ef in Hl1. simpl in Hl1. lia.
      - apply orb_true_iff in Erc as [Erc|Erc]; apply Z.eqb_eq in Erc; auto. }
    destruct Hinv2 as (Hok2 & _). destruct (round_spec true _ _ _ _ _ Hok2) as (s3 & R3' & Q3).
    rewrite R3 in R3'. injection R3' as <-. destruct (Q3 Hc') as (_ & Hok3 & _).
    assert (pushed_records l = dn2 ++ concat ins2) as ->.
    { change (pushed_records [InRound]) with (@nil LogRecord) in E1.
      change (pushed_records [InTask]) with (@nil LogRecord) in E2.
      rewrite !app_nil_r in E1, E2.
      by rewrite E, E1, E2, app_nil_r. }
    destruct Hok3 as [_ O2 O3 _ _ _ _ _ O9 _].
    split_and!; [exact (rd_applied _ _ _ O9)| |exact O3].
    by destruct (co_input s').
Qed.
End from_start.
End consumer.
