(* ===== verification/ReplicaDemo.v ===== *)
(** * Concrete slaves

    Instances of the parameters of [BinlogReplay] and [ReplicaConsumer], and their
    theorems at concrete records and runs. *)

From Stdlib Require Import Ascii.
From S2P Require Import Prelude CText ServerTypes Proto Service BinlogPack.
From S2P Require Import BinlogRecord BinlogReplay ReplicaConsumer WireDemo BinlogDemo.

(** Threads that keep the records they are given, and report success. *)
#[export] Instance recording_threads : DataThreads (list LogRecord) := {
  push_and_wait l w := ((λ r, (r, 0, false)) <$> l, w ++ l)
}.
#[export] Instance recording_laws : DataThreadsLaws (list LogRecord).
Proof.
  split. intros l w. simpl. rewrite <- !list_fmap_compose.
  change (fst ∘ fst ∘ (λ r, (r, 0, false))) with (@id LogRecord).
  by rewrite list_fmap_id.
Qed.

(** A buffer whose capacity can always be set. *)
#[export, refine] Instance roomy : BufferCapacity := {
  fast_buffer_set_capacity b n := (0, mkFastBuffer (fb_data b) n)
}.
Proof. all: try done. by left. Defined.

Lemma created_loggable : loggable created.
Proof. split; [apply created_packable|]. split; vm_compute; split; discriminate || done. Qed.

Lemma renamed_loggable : loggable renamed.
Proof. split; [apply renamed_packable|]. split; vm_compute; split; discriminate || done. Qed.

Definition two_records : list LogRecord := [created; renamed].

Lemma two_loggable : Forall loggable two_records.
Proof. repeat apply Forall_cons_2; [apply created_loggable|apply renamed_loggable|apply Forall_nil_2]. Qed.

(** A context at version 7, after [created]: only [renamed] is new. *)
Definition at_seven : @BinlogReplayContext (list LogRecord) :=
  binlog_replay_init_ex 7 4 BINLOG_REPLAY_BATCH_SIZE true [].

(** Threads that refuse every record with [EIO], for a context whose array has one
    place: the replay stops behind [created]. *)
#[local] Instance failing_threads : DataThreads nat := {
  push_and_wait l w := ((λ r, (r, 5, true)) <$> l, (w + length l)%nat)
}.
#[local] Instance failing_laws : DataThreadsLaws nat.
Proof.
  split. intros l w. simpl. rewrite <- !list_fmap_compose.
  change (fst ∘ fst ∘ (λ r, (r, 5, true))) with (@id LogRecord).
  by rewrite list_fmap_id.
Qed.
Definition at_six : @BinlogReplayContext nat := binlog_replay_init_ex 6 1 1 true 0%nat.

Example replay_stops :
  match binlog_replay_deal_buffer (texts two_records ++ lit "next") (zlen (texts two_records))
          MpoolNull at_six with
  | Some (rc, c') => rc = 5 ∧ rp_record_count c' = 1 ∧ rp_fail_count c' = 1
  | None => False
  end.
Proof. vm_compute. done. Qed.

Lemma replay_exactly_once_witness :
  ∃ rc c' dn rest,
    binlog_replay_deal_buffer (texts two_records ++ lit "next") (zlen (texts two_records))
      MpoolNull at_six = Some (rc, c') ∧
    two_records = dn ++ rest ∧ replayed at_six c' (unpacked <$> dn) ∧
    (rc = 0 ↔ rp_fail_count c' = 0) ∧ (rc = 0 → rest = []) ∧
    (rc ≠ 0 → ∃ before batch c1, dn = before ++ batch ∧
      binlog_replay_deal_buffer (texts before ++ lit "next") (zlen (texts before)) MpoolNull
        at_six = Some (0, c1) ∧
      replayed c1 c' (unpacked <$> batch) ∧
      (0 < rp_array_size at_six →
       zlen (fresh (rp_current_version c1) (unpacked <$> batch)) ≤ rp_array_size at_six)).
Proof.
  apply (replay_exactly_once two_records (lit "next") MpoolNull at_six).
  - apply two_loggable.
  - vm_compute. reflexivity.
  - vm_compute. discriminate || done.
  - vm_compute. split; [discriminate|reflexivity].
  - reflexivity.
Defined.

Definition seven_replayed : @BinlogReplayContext (list LogRecord) :=
  match binlog_replay_deal_buffer (texts two_records ++ []) (zlen (texts two_records))
          MpoolNull at_seven with
  | Some (_, c) => c
  | None => at_seven
  end.

Example seven_applied : rp_applied seven_replayed = [unpacked renamed] ∧
  rp_skip_count seven_replayed = 1 ∧ length (rp_notices seven_replayed) = 2%nat.
Proof. vm_compute. done. Qed.

Lemma replay_twice_witness :
  ∃ c2, binlog_replay_deal_buffer (texts two_records ++ []) (zlen (texts two_records))
          MpoolNull seven_replayed = Some (0, c2) ∧
    rp_applied c2 = rp_applied seven_replayed ∧
    rp_current_version c2 = rp_current_version seven_replayed ∧
    rp_skip_count c2 = rp_skip_count seven_replayed + zlen two_records ∧
    (rp_notify seven_replayed = true →
     acked c2 ≡ₚ acked seven_replayed ++ (unpacked <$> two_records)).
Proof.
  apply (replay_twice two_records [] MpoolNull at_seven seven_replayed).
  - apply two_loggable.
  - vm_compute. reflexivity.
  - vm_compute. discriminate || done.
  - vm_compute. split; [discriminate|reflexivity].
  - reflexivity.
  - vm_compute. reflexivity.
Defined.

(** A slave with two buffers gets three requests, the last one a second time, between
    rounds of its thread. *)
Definition empty_slave_buffer : SlaveBuffer := mkSlaveBuffer 0 0 (mkFastBuffer [] 4096).
Definition some_inputs : list SlaveInput :=
  [InPush 7 7 [created]; InRound; InTask; InPush 8 8 [renamed]; InSent; InRound;
   InPush 7 8 two_records].
Definition slave_at_start : @ReplicaConsumer (list LogRecord) :=
  replica_consumer_thread_init 4096 6 4 empty_slave_buffer [empty_slave_buffer] [].
Definition slave_after : ReplicaConsumer :=
  default slave_at_start (slave_run 16 MpoolNull (to_event <$> some_inputs) slave_at_start).

Lemma some_inputs_ok : Forall input_ok some_inputs.
Proof.
  pose proof created_loggable. pose proof renamed_loggable.
  repeat apply Forall_cons_2; try exact I; try apply Forall_nil_2;
    (split; [by vm_compute|split; [by vm_compute|split; [repeat apply Forall_cons_2; done || apply Forall_nil_2|]]];
     vm_compute; split; [discriminate|reflexivity]).
Qed.

Example slave_after_applied :
  rp_applied (co_replay slave_after) = [unpacked created; unpacked renamed] ∧
  length (co_sent slave_after) = 1%nat ∧ length (co_results slave_after) = 1%nat.
Proof. vm_compute. done. Qed.

Lemma slave_applies_in_order_witness :
  ∃ dn rest sent,
    pushed_records some_inputs = dn ++ rest ∧
    texts rest = concat (sb_data <$> co_input slave_after) ++ sb_data (co_recv slave_after) ∧
    rp_applied (co_replay slave_after) = fresh 6 (unpacked <$> dn) ∧
    rp_current_version (co_replay slave_after) = top_version 6 (unpacked <$> dn) ∧
    co_sent slave_after = push_binlog_resp <$> sent ∧
    pr_data_version <$> (concat sent ++ co_results slave_after) ≡ₚ l_data_version <$> dn ∧
    Forall (λ r, pr_err_no r = 0) (concat sent ++ co_results slave_after).
Proof.
  apply (slave_applies_in_order 16 MpoolNull) with (task_size := 4096) (threads := 4)
    (recv := empty_slave_buffer) (bufs := [empty_slave_buffer]) (w := []).
  - vm_compute. discriminate || done.
  - split; reflexivity.
  - split; [discriminate|reflexivity].
  - reflexivity.
  - discriminate.
  - apply some_inputs_ok.
  - vm_compute. reflexivity.
  - vm_compute. reflexivity.
Defined.

Lemma slave_catches_up_witness :
  (∀ rs first last, Forall loggable rs → zlen (texts rs) < 2 ^ 30 →
    is_Some (deal_replica_push_request MpoolNull true true 2 (texts rs) first last slave_after)) ∧
  is_Some (deal_replica_push_task 16 true slave_after) ∧
  is_Some (deal_binlog_round MpoolNull true slave_after) ∧
  ∀ s', slave_run 16 MpoolNull (to_event <$> [InRound; InTask; InRound]) slave_after = Some s' →
    co_continue s' = true →
    rp_applied (co_replay s') = fresh 6 (unpacked <$> pushed_records some_inputs) ∧
    co_input s' = [] ∧ sb_data (co_recv s') = [].
Proof.
  apply (slave_catches_up 16 MpoolNull) with (task_size := 4096) (threads := 4)
    (recv := empty_slave_buffer) (bufs := [empty_slave_buffer]) (w := []).
  - vm_compute. discriminate || done.
  - split; reflexivity.
  - split; [discriminate|reflexivity].
  - reflexivity.
  - discriminate.
  - discriminate.
  - apply some_inputs_ok.
  - vm_compute. reflexivity.
  - vm_compute. reflexivity.
Defined.
