(* ===== verification/Replication.v ===== *)
(** * The master's side of replication: [server/binlog/binlog_replication.c] and
      [server/binlog/binlog_local_consumer.c]

    The master keeps, for every other server, a queue of the records to send, the
    ring of what was sent and not yet acknowledged ([PushResultRing]), and the stage
    of the connection: connecting, waiting for the answer to the join request,
    sending what the slave misses from the binlog files, sending from the queue.

    [Replication] is the state of [FDIRSlaveReplication]; [Master] is all of them with
    the arrays of the network threads and the counters of the tasks that wait.
    Everything that is not decided by the code (the time, the results of the system
    calls, what the reader thread has read) is an argument. *)

From Stdlib Require Import Ascii.
From S2P Require Import Prelude CText Proto Service PushResultRing BinlogProducer.

(** ** Data *)

Definition ETIMEDOUT : Z := 110.

Definition FDIR_SERVER_STATUS_INIT : Z := 0.
Definition FDIR_SERVER_STATUS_BUILDING : Z := 10.
Definition FDIR_SERVER_STATUS_OFFLINE : Z := 21.
Definition FDIR_SERVER_STATUS_SYNCING : Z := 22.
Definition FDIR_SERVER_STATUS_ACTIVE : Z := 23.

(** [FDIR_REPLICATION_STAGE_*]. *)
Inductive Stage :=
| STAGE_NONE
| STAGE_CONNECTING
| STAGE_WAITING_JOIN_RESP
| STAGE_SYNC_FROM_DISK
| STAGE_SYNC_FROM_QUEUE.

#[export] Instance Stage_dec : EqDecision Stage.
Proof. solve_decision. Defined.

(** [connection_info], with the index into the addresses of the server. *)
Record ConnInfo := mkConnInfo {
  ci_start_time : Z;
  ci_next_connect_time : Z;
  ci_last_errno : Z;
  ci_fail_count : Z;
  ci_sock : Z;
  ci_addr_index : Z
}.

(** The fields of [FDIRClusterServerInfo] that replication uses. *)
Record SlaveServer := mkSlaveServer {
  ss_status : Z;
  ss_last_data_version : Z;
  ss_hint_index : Z;
  ss_hint_offset : Z
}.

(** [context.last_data_versions]. *)
Record LastVersions := mkLastVersions {
  lv_by_queue : Z;
  lv_previous : Z;
  lv_current : Z;
  lv_by_resp : Z
}.

(** What a master sends to a slave: [cluster_id], [server_id], [buffer_size] and [key]
    of [FDIRProtoJoinSlaveReq]; the range of versions and the text of a push. *)
Inductive Request :=
| JoinReq (cluster_id server_id buffer_size : Z) (key : text)
| PushReq (first last : Z) (binlog : text).

(** [rl_queue] is the list from [queue.head] along [nexts[index]]; [rl_reading] says
    that a reader thread runs for it, [rl_busy] that the task still sends; [rl_sent] are
    the requests, [rl_released] the buffers on which [release_func]
    was called, [rl_changes] counts the changes of [change_version]. The counters of
    [rl_push] are those of [Master]. *)
Record Replication := mkReplication {
  rl_stage : Stage;
  rl_conn : ConnInfo;
  rl_slave : SlaveServer;
  rl_queue : list RBuffer;
  rl_push : PushContext;
  rl_versions : LastVersions;
  rl_record_count : Z;
  rl_binlog_size : Z;
  rl_reading : bool;
  rl_busy : bool;
  rl_sent : list Request;
  rl_released : list ptr;
  rl_changes : Z
}.

Definition with_rl_stage (g : Stage) (r : Replication) : Replication :=
  mkReplication g (rl_conn r) (rl_slave r) (rl_queue r) (rl_push r) (rl_versions r)
    (rl_record_count r) (rl_binlog_size r) (rl_reading r) (rl_busy r) (rl_sent r)
    (rl_released r) (rl_changes r).
Definition with_rl_conn (c : ConnInfo) (r : Replication) : Replication :=
  mkReplication (rl_stage r) c (rl_slave r) (rl_queue r) (rl_push r) (rl_versions r)
    (rl_record_count r) (rl_binlog_size r) (rl_reading r) (rl_busy r) (rl_sent r)
    (rl_released r) (rl_changes r).
Definition with_rl_slave (s : SlaveServer) (changes : Z) (r : Replication) : Replication :=
  mkReplication (rl_stage r) (rl_conn r) s (rl_queue r) (rl_push r) (rl_versions r)
    (rl_record_count r) (rl_binlog_size r) (rl_reading r) (rl_busy r) (rl_sent r)
    (rl_released r) changes.
Definition with_rl_queue (q : list RBuffer) (r : Replication) : Replication :=
  mkReplication (rl_stage r) (rl_conn r) (rl_slave r) q (rl_push r) (rl_versions r)
    (rl_record_count r) (rl_binlog_size r) (rl_reading r) (rl_busy r) (rl_sent r)
    (rl_released r) (rl_changes r).
Definition with_rl_push (p : PushContext) (r : Replication) : Replication :=
  mkReplication (rl_stage r) (rl_conn r) (rl_slave r) (rl_queue r) p (rl_versions r)
    (rl_record_count r) (rl_binlog_size r) (rl_reading r) (rl_busy r) (rl_sent r)
    (rl_released r) (rl_changes r).
Definition with_rl_versions (v : LastVersions) (r : Replication) : Replication :=
  mkReplication (rl_stage r) (rl_conn r) (rl_slave r) (rl_queue r) (rl_push r) v
    (rl_record_count r) (rl_binlog_size r) (rl_reading r) (rl_busy r) (rl_sent r)
    (rl_released r) (rl_changes r).
Definition with_rl_stat (records bytes : Z) (reading : bool) (r : Replication) :
    Replication :=
  mkReplication (rl_stage r) (rl_conn r) (rl_slave r) (rl_queue r) (rl_push r)
    (rl_versions r) records bytes reading (rl_busy r) (rl_sent r) (rl_released r)
    (rl_changes r).
Definition with_rl_sent (busy : bool) (l : list Request) (r : Replication) : Replication :=
  mkReplication (rl_stage r) (rl_conn r) (rl_slave r) (rl_queue r) (rl_push r)
    (rl_versions r) (rl_record_count r) (rl_binlog_size r) (rl_reading r) busy l
    (rl_released r) (rl_changes r).
Definition with_rl_released (l : list ptr) (r : Replication) : Replication :=
  mkReplication (rl_stage r) (rl_conn r) (rl_slave r) (rl_queue r) (rl_push r)
    (rl_versions r) (rl_record_count r) (rl_binlog_size r) (rl_reading r) (rl_busy r)
    (rl_sent r) l (rl_changes r).

Definition set_by_queue (v : Z) (l : LastVersions) : LastVersions :=
  mkLastVersions v (lv_previous l) (lv_current l) (lv_by_resp l).
Definition set_by_disk (previous current : Z) (l : LastVersions) : LastVersions :=
  mkLastVersions (lv_by_queue l) previous current (lv_by_resp l).
Definition set_by_resp (v : Z) (l : LastVersions) : LastVersions :=
  mkLastVersions (lv_by_queue l) (lv_previous l) (lv_current l) v.

(** An operation of the ring of the slave. *)
Definition on_push {A} (m : M PushContext A) : M Replication A := λ r,
  match m (rl_push r) with
  | Some (a, p) => Some (a, with_rl_push p r)
  | None => None
  end.

(** ** Stages *)

(** [cluster_info_set_status]: a change of the status changes [change_version]. *)
Definition cluster_info_set_status (new_status : Z) (r : Replication) : Replication :=
  let s := rl_slave r in
  if ss_status s =? new_status then r
  else with_rl_slave (mkSlaveServer new_status (ss_last_data_version s) (ss_hint_index s)
                        (ss_hint_offset s)) (rl_changes r + 1) r.

Definition set_replication_stage (stage : Stage) (r : Replication) : Replication :=
  let status := ss_status (rl_slave r) in
  with_rl_stage stage
    (match stage with
     | STAGE_NONE =>
       if (status =? FDIR_SERVER_STATUS_SYNCING) || (status =? FDIR_SERVER_STATUS_ACTIVE)
       then cluster_info_set_status FDIR_SERVER_STATUS_OFFLINE r
       else r
     | STAGE_SYNC_FROM_DISK =>
       if status =? FDIR_SERVER_STATUS_INIT
       then cluster_info_set_status FDIR_SERVER_STATUS_BUILDING r
       else if negb (status =? FDIR_SERVER_STATUS_BUILDING)
       then cluster_info_set_status FDIR_SERVER_STATUS_SYNCING r
       else r
     | STAGE_SYNC_FROM_QUEUE => cluster_info_set_status FDIR_SERVER_STATUS_ACTIVE r
     | _ => r
     end).

Definition calc_next_connect_time (now : Z) (c : ConnInfo) : ConnInfo :=
  let interval :=
    match ci_fail_count c with
    | 0 => 1 | 1 => 2 | 2 => 4 | 3 => 8 | 4 => 16 | _ => 32
    end in
  mkConnInfo (ci_start_time c) (now + interval) (ci_last_errno c) (ci_fail_count c)
    (ci_sock c) (ci_addr_index c).

(** ** Connecting *)

(** What the system calls give: [conn_pool_async_connect_server] (with the socket),
    [poll] and [getsockopt], and sending the join request. *)
Inductive PollResult :=
| PollTimeout
| PollFail (errno : Z)
| PollReady (so_error : Z).
Record NetResult := mkNetResult {
  net_connect : Z * Z;
  net_poll : PollResult;
  net_send : Z
}.

Section operations.
(** [g_current_time], [SF_G_NETWORK_TIMEOUT], [SF_G_CONNECT_TIMEOUT]; the sizes of a
    task's buffer, at first and after [free_queue_realloc_max_buffer]. *)
Context (g_current_time SF_G_NETWORK_TIMEOUT SF_G_CONNECT_TIMEOUT : Z).
Context (init_size task_size sizeof_ProtoHeader : Z).
(** [CLUSTER_ID], [CLUSTER_MY_SERVER_ID]. *)
Context (CLUSTER_ID CLUSTER_MY_SERVER_ID : Z).

Definition set_sock (sock : Z) (c : ConnInfo) : ConnInfo :=
  mkConnInfo (ci_start_time c) (ci_next_connect_time c) (ci_last_errno c)
    (ci_fail_count c) sock (ci_addr_index c).

(** The second half: the socket is polled. *)
Definition poll_connection (net : NetResult) (c : ConnInfo) : Z * ConnInfo :=
  let result :=
    match net_poll net with
    | PollTimeout =>
      if SF_G_CONNECT_TIMEOUT <? g_current_time - ci_start_time c then ETIMEDOUT
      else EINPROGRESS
    | PollFail errno => if negb (errno =? 0) then errno else EIO
    | PollReady so_error => so_error
    end in
  (result,
   if negb ((result =? 0) || (result =? EINPROGRESS)) then set_sock (-1) c else c).

(** [addr_count] is the number of addresses of the server. *)
Definition check_and_make_replica_connection (addr_count : Z) (net : NetResult)
    (c : ConnInfo) : Z * ConnInfo :=
  if ci_sock c <? 0 then
    if g_current_time <? ci_next_connect_time c then (EAGAIN, c)
    else
      let index := ci_addr_index c + 1 in
      let index := if addr_count <=? index then 0 else index in
      let '(result, sock) := net_connect net in
      let c := calc_next_connect_time g_current_time
                 (mkConnInfo g_current_time (ci_next_connect_time c) (ci_last_errno c)
                    (ci_fail_count c) sock index) in
      if result =? 0 then (0, c)
      else if negb (result =? EINPROGRESS) then (result, c)
      else poll_connection net c
  else poll_connection net c.

Definition send_join_slave_package (key : text) (net : NetResult) : M Replication Z :=
  if negb (net_send net =? 0) then
    modify (λ r, with_rl_conn (set_sock (-1) (rl_conn r)) r);;
    mret (net_send net)
  else
    modify (λ r, with_rl_sent (rl_busy r)
      (rl_sent r ++ [JoinReq CLUSTER_ID CLUSTER_MY_SERVER_ID init_size key]) r);;
    mret 0.

(** ** The queue *)

Definition decrease_task_waiting_rpc_count (rb : RBuffer) : M Replication () :=
  on_push (desc_task_waiting_rpc_count (mkPushResultEntry 0 0 (Some (rb_args rb)) None)).

Definition release_func (rb : RBuffer) : M Replication () :=
  modify (λ r, with_rl_released (rl_released r ++ [rb_id rb]) r).

Definition sent_by_queue (rb : RBuffer) : M Replication () :=
  modify (λ r, with_rl_versions (set_by_queue (rb_last rb) (rl_versions r)) r).

Fixpoint discard_queue (l : list RBuffer) : M Replication () :=
  match l with
  | [] => mret ()
  | rb :: l =>
    sent_by_queue rb;;
    decrease_task_waiting_rpc_count rb;;
    release_func rb;;
    discard_queue l
  end.

Definition replication_queue_discard_all : M Replication () :=
  r ← get_st;
  modify (with_rl_queue []);;
  discard_queue (rl_queue r).

(** The first buffers that start at or below [v], and the rest. *)
Fixpoint split_synced (v : Z) (l : list RBuffer) : list RBuffer * list RBuffer :=
  match l with
  | [] => ([], [])
  | rb :: l' =>
    if rb_first rb <=? v
    then let '(synced, rest) := split_synced v l' in (rb :: synced, rest)
    else ([], l)
  end.

Definition replication_queue_discard_synced : M Replication () :=
  r ← get_st;
  let '(synced, rest) := split_synced (lv_current (rl_versions r)) (rl_queue r) in
  modify (with_rl_queue rest);;
  discard_queue synced.

Definition push_to_slave_replica_queues (rb : RBuffer) : M Replication () :=
  modify (λ r, with_rl_queue (rl_queue r ++ [rb]) r).

Definition repush_to_replication_queue (l : list RBuffer) : M Replication () :=
  modify (λ r, with_rl_queue (l ++ rl_queue r) r).

Definition deal_connecting_replication (addr_count : Z) (key : text) (net : NetResult) :
    M Replication Z :=
  replication_queue_discard_all;;
  r ← get_st;
  let '(result, c) := check_and_make_replica_connection addr_count net (rl_conn r) in
  modify (with_rl_conn c);;
  if result =? 0 then send_join_slave_package key net else mret result.

(** ** Sending *)

Definition sizeof_push_header : Z := sizeof_ProtoHeader + 20.

(** The loop of [sync_binlog_from_queue]: the result, the buffers that are left, the
    last version and the text. *)
Fixpoint fill_request (l : list RBuffer) (length last : Z) (binlog : text) :
    M Replication (Z * list RBuffer * Z * text) :=
  match l with
  | [] => mret (0, [], last, binlog)
  | rb :: l' =>
    if task_size <? length + zlen (rb_data rb) then mret (0, l, last, binlog)
    else
      sent_by_queue rb;;
      result ← on_push (push_result_ring_add g_current_time SF_G_NETWORK_TIMEOUT
                          (rb_first rb) (rb_last rb) (Some (rb_args rb)));
      if negb (result =? 0) then mret (result, l, last, binlog)
      else
        release_func rb;;
        fill_request l' (length + zlen (rb_data rb)) (rb_last rb) (binlog ++ rb_data rb)
  end.

Definition send_push (first last : Z) (binlog : text) : M Replication () :=
  modify (λ r, with_rl_sent true (rl_sent r ++ [PushReq first last binlog]) r).

Definition sync_binlog_from_queue : M Replication Z :=
  r ← get_st;
  match rl_queue r with
  | [] => mret 0
  | head :: _ =>
    modify (with_rl_queue []);;
    '(result, rest, last, binlog) ←
      fill_request (rl_queue r) sizeof_push_header (rb_last head) [];
    if negb (result =? 0) then mret result
    else
      send_push (rb_first head) last binlog;;
      repush_to_replication_queue rest;;
      mret 0
  end.

(** [BinlogReadThreadResult]. *)
Record ReadResult := mkReadResult {
  rr_err_no : Z;
  rr_first : Z;
  rr_last : Z;
  rr_buffer : text
}.

(** [r] is what [binlog_read_thread_fetch_result_ex] gives. *)
Definition sync_binlog_from_disk (r : option ReadResult) : M Replication Z :=
  match r with
  | None => mret 0
  | Some r =>
    (if rr_err_no r =? 0 then
       modify (λ s,
         let v := rl_versions s in
         with_rl_versions (if lv_current v <? rr_last r
                           then set_by_disk (lv_current v) (rr_last r) v else v) s);;
       modify (λ s, with_rl_stat (rl_record_count s) (rl_binlog_size s + zlen (rr_buffer r))
                      (rl_reading s) s);;
       send_push (rr_first r) (rr_last r) (rr_buffer r)
     else mret ());;
    s ← get_st;
    let v := rl_versions s in
    if (rr_err_no r =? ENOENT) && (lv_by_queue v <=? lv_current v)
       && (lv_current v <=? lv_by_resp v)
    then
      modify (λ s, with_rl_stat (rl_record_count s) (rl_binlog_size s) false s);;
      (if 0 <? lv_current v then replication_queue_discard_synced else mret ());;
      modify (set_replication_stage STAGE_SYNC_FROM_QUEUE);;
      mret 0
    else mret 0
  end.

(** [start] is the result of [start_binlog_read_thread]. *)
Definition deal_connected_replication (start : Z) (fetch : option ReadResult) :
    M Replication Z :=
  r ← get_st;
  (if decide (rl_stage r = STAGE_SYNC_FROM_QUEUE) then mret ()
   else replication_queue_discard_all);;
  if decide (rl_stage r = STAGE_WAITING_JOIN_RESP) then
    let s := rl_slave r in
    if (ss_last_data_version s <? 0) || (ss_hint_index s <? 0) || (ss_hint_offset s <? 0)
    then mret 0
    else if start =? 0 then
      modify (λ r, with_rl_stat (rl_record_count r) (rl_binlog_size r) true r);;
      modify (set_replication_stage STAGE_SYNC_FROM_DISK);;
      mret 0
    else mret start
  else if rl_busy r then mret 0
  else
    match rl_stage r with
    | STAGE_SYNC_FROM_DISK =>
      if lv_previous (rl_versions r) <=? lv_by_resp (rl_versions r)
      then sync_binlog_from_disk fetch else mret 0
    | STAGE_SYNC_FROM_QUEUE =>
      on_push (push_result_ring_clear_timeouts g_current_time);;
      sync_binlog_from_queue
    | _ => mret 0
    end.

Definition binlog_replications_check_response_data_version (data_version : Z) :
    M Replication Z :=
  modify (λ r, with_rl_versions
    (if lv_by_resp (rl_versions r) <? data_version
     then set_by_resp data_version (rl_versions r) else rl_versions r) r);;
  r ← get_st;
  match rl_stage r with
  | STAGE_SYNC_FROM_QUEUE => on_push (push_result_ring_remove data_version)
  | STAGE_SYNC_FROM_DISK =>
    modify (λ r, with_rl_stat (rl_record_count r + 1) (rl_binlog_size r) (rl_reading r) r);;
    mret 0
  | _ => mret 0
  end.

(** [cluster_deal_push_binlog_resp], once the task is known to be a slave's: the loop
    over the results. *)
Fixpoint deal_results (result : Z) (l : list (Z * Z)) : M Replication Z :=
  match l with
  | [] => mret result
  | (data_version, err_no) :: l =>
    if negb (err_no =? 0) then mret err_no
    else
      result ← binlog_replications_check_response_data_version data_version;
      if negb (result =? 0) then mret result else deal_results result l
  end.

Section response.
Context `{!ByteOrder} `{!ServerFrame}.

(** [count] parts of [sizeof(FDIRProtoPushBinlogRespBodyPart)] bytes. *)
Fixpoint parse_results (n : nat) (t : text) : list (Z * Z) :=
  match n with
  | O => []
  | S n' => (buff2long (take 8 t), buff2short (take 2 (drop 8 t))) :: parse_results n' (drop 10 t)
  end.

(** [expect_body_len] is computed as an unsigned long and stored in an int. *)
Definition cluster_deal_push_binlog_resp (body : text) : M Replication Z :=
  let result := server_check_min_body_length (zlen body) (4 + 10) in
  if negb (result =? 0) then mret result
  else
    let count := buff2int (take 4 body) in
    if negb (zlen body =? int32 (4 + 10 * count)) then mret EINVAL
    else deal_results 0 (parse_results (Z.to_nat count) (drop 4 body)).
End response.
End operations.

(** ** All slaves *)

(** The arrays of [FDIRServerContext]; a server has [server_count] slots in each. *)
Record ReplicaThread := mkReplicaThread {
  connectings : list nat;
  connected : list nat
}.

(** [ms_deleted] are the tasks given to [ioevent_add_to_deleted_list]. *)
Record Master := mkMaster {
  ms_reps : list Replication;
  ms_threads : gmap Z ReplicaThread;
  ms_rpc : gmap ptr Z;
  ms_notified : list ptr;
  ms_deleted : list nat
}.

Definition with_ms_threads (m : gmap Z ReplicaThread) (s : Master) : Master :=
  mkMaster (ms_reps s) m (ms_rpc s) (ms_notified s) (ms_deleted s).
Definition with_ms_deleted (l : list nat) (s : Master) : Master :=
  mkMaster (ms_reps s) (ms_threads s) (ms_rpc s) (ms_notified s) l.
Definition with_ms_rpc (m : gmap ptr Z) (s : Master) : Master :=
  mkMaster (ms_reps s) (ms_threads s) m (ms_notified s) (ms_deleted s).

(** An operation of one replication, on the counters of the tasks. *)
Definition on_replication {A} (i : nat) (m : M Replication A) : M Master A := λ s,
  match ms_reps s !! i with
  | None => None
  | Some r =>
    match m (with_rl_push (set_rpc (ms_rpc s) (ms_notified s) (rl_push r)) r) with
    | None => None
    | Some (a, r') =>
      Some (a, mkMaster (<[i := r']> (ms_reps s)) (ms_threads s)
                 (waiting_rpc_count (rl_push r')) (notified (rl_push r')) (ms_deleted s))
    end
  end.

Section master.
Context (g_current_time SF_G_NETWORK_TIMEOUT SF_G_CONNECT_TIMEOUT : Z).
Context (init_size task_size sizeof_ProtoHeader : Z).
Context (CLUSTER_ID CLUSTER_MY_SERVER_ID : Z).
(** [CLUSTER_SERVER_ARRAY.count], [CLUSTER_SF_CTX.work_threads]. *)
Context (server_count work_threads : Z).

Definition thread_of (i : nat) : Z := Z.of_nat i `mod` work_threads.
Definition thread_arrays (t : Z) (s : Master) : ReplicaThread :=
  default (mkReplicaThread [] []) (ms_threads s !! t).

(** Stuck when the array is full: the C code writes behind it. *)
Definition add_to_replication_ptr_array (l : list nat) (i : nat) : option (list nat) :=
  if zlen l <? server_count then Some (l ++ [i]) else None.

Fixpoint remove_from_replication_ptr_array (l : list nat) (i : nat) :
    option (list nat) :=
  match l with
  | [] => None
  | j :: l => if decide (j = i) then Some l
              else (j ::.) <$> remove_from_replication_ptr_array l i
  end.

Definition set_connectings (t : Z) (l : list nat) (s : Master) : Master :=
  with_ms_threads (<[t := mkReplicaThread l (connected (thread_arrays t s))]>
                     (ms_threads s)) s.
Definition set_connected (t : Z) (l : list nat) (s : Master) : Master :=
  with_ms_threads (<[t := mkReplicaThread (connectings (thread_arrays t s)) l]>
                     (ms_threads s)) s.

Definition add_connecting (t : Z) (i : nat) : M Master () := λ s,
  match add_to_replication_ptr_array (connectings (thread_arrays t s)) i with
  | Some l => Some ((), set_connectings t l s)
  | None => None
  end.
Definition add_connected (t : Z) (i : nat) : M Master () := λ s,
  match add_to_replication_ptr_array (connected (thread_arrays t s)) i with
  | Some l => Some ((), set_connected t l s)
  | None => None
  end.

(** What [binlog_replication_bind_thread] resets, once the ring exists. *)
Definition reset_replication (r : Replication) : Replication :=
  let r := set_replication_stage STAGE_NONE r in
  with_rl_sent false (rl_sent r)
    (with_rl_stat 0 0 (rl_reading r)
      (with_rl_versions (mkLastVersions 0 0 0 0)
        (with_rl_conn (set_sock (-1) (rl_conn r)) r))).

(** [task_ok] and [malloc_ok] say whether there is memory. *)
Definition binlog_replication_bind_thread (task_ok malloc_ok : bool) (i : nat) :
    M Master Z :=
  if negb task_ok then mret ENOMEM
  else
    result ← on_replication i (on_push (push_result_ring_check_init
               (Z.quot (int32 (4 * init_size)) 64) malloc_ok));
    if negb (result =? 0) then mret result
    else
      on_replication i (modify reset_replication);;
      add_connecting (thread_of i) i;;
      mret 0.

(** [is_master] is [CLUSTER_MYSELF_PTR == CLUSTER_MASTER_ATOM_PTR]. *)
Definition binlog_replication_rebind_thread (is_master task_ok malloc_ok : bool)
    (i : nat) : M Master Z :=
  s ← get_st;
  let t := thread_of i in
  match remove_from_replication_ptr_array (connected (thread_arrays t s)) i with
  | None => mret ENOENT
  | Some l =>
    modify (set_connected t l);;
    on_replication i (replication_queue_discard_all;; on_push push_result_ring_clear_all);;
    if (is_master : bool) then binlog_replication_bind_thread task_ok malloc_ok i
    else mret 0
  end.

(** [binlog_local_consumer_replication_start] binds [i] and those behind it. *)
Fixpoint replication_start (i n : nat) : M Master Z :=
  match n with
  | O => mret 0
  | S n =>
    result ← binlog_replication_bind_thread true true i;
    if negb (result =? 0) then mret result else replication_start (S i) n
  end.
Definition binlog_local_consumer_replication_start : M Master Z :=
  s ← get_st; replication_start 0 (length (ms_reps s)).

Fixpoint push_to_all (i n : nat) (rb : RBuffer) : M Master () :=
  match n with
  | O => mret ()
  | S n => on_replication i (push_to_slave_replica_queues rb);; push_to_all (S i) n rb
  end.
Definition binlog_local_consumer_push_to_queues (rb : RBuffer) : M Master () :=
  s ← get_st;
  let n := length (ms_reps s) in
  modify (λ s, with_ms_rpc
    (<[rb_args rb := default 0 (ms_rpc s !! rb_args rb) + Z.of_nat n]> (ms_rpc s)) s);;
  push_to_all 0 n rb.

(** One turn of the first loop of [deal_replication_connectings]. *)
Definition count_failure (result : Z) (r : Replication) : Replication :=
  let c := rl_conn r in
  let last := if negb (result =? ci_last_errno c) || (Z.rem (ci_fail_count c) 100 =? 0)
              then result else ci_last_errno c in
  with_rl_conn (mkConnInfo (ci_start_time c) (ci_next_connect_time c) last
    (ci_fail_count c + 1) (ci_sock c) (ci_addr_index c)) r.

Section connecting.
(** The number of addresses of a slave, its key, and what the network does. *)
Context (addr_count : nat → Z) (key : nat → text) (net : nat → NetResult).

Definition connecting_turn (i : nat) (success : list nat) : M Master (list nat) :=
  result ← on_replication i (deal_connecting_replication g_current_time SF_G_CONNECT_TIMEOUT
             init_size CLUSTER_ID CLUSTER_MY_SERVER_ID (addr_count i) (key i) (net i));
  if result =? 0 then
    on_replication i (modify (set_replication_stage STAGE_WAITING_JOIN_RESP));;
    mret (if zlen success <? 8 then success ++ [i] else success)
  else if result =? EINPROGRESS then
    on_replication i (modify (set_replication_stage STAGE_CONNECTING));;
    mret success
  else if negb (result =? EAGAIN) then
    on_replication i (modify (count_failure result));; mret success
  else mret success.

Fixpoint connecting_loop (l success : list nat) : M Master (list nat) :=
  match l with
  | [] => mret success
  | i :: l => success ← connecting_turn i success; connecting_loop l success
  end.

Definition forget_join (r : Replication) : Replication :=
  with_rl_slave (mkSlaveServer (ss_status (rl_slave r)) (-1) (-1) (-1)) (rl_changes r) r.
Definition reset_failures (r : Replication) : Replication :=
  let c := rl_conn r in
  with_rl_conn (mkConnInfo (ci_start_time c) (ci_next_connect_time c) (ci_last_errno c)
    0 (ci_sock c) (ci_addr_index c)) r.

Fixpoint connected_loop (t : Z) (l : list nat) : M Master () :=
  match l with
  | [] => mret ()
  | i :: l =>
    s ← get_st;
    match remove_from_replication_ptr_array (connectings (thread_arrays t s)) i with
    | Some l =>
      modify (set_connectings t l);;
      on_replication i (modify forget_join);;
      add_connected t i
    | None => mret ()
    end;;
    on_replication i (modify reset_failures);;
    connected_loop t l
  end.

Definition deal_replication_connectings (t : Z) : M Master () :=
  s ← get_st;
  success ← connecting_loop (connectings (thread_arrays t s)) [];
  connected_loop t success.
End connecting.

Section turns.
Context (start : nat → Z) (fetch : nat → option ReadResult).

Fixpoint turn_loop (l : list nat) : M Master () :=
  match l with
  | [] => mret ()
  | i :: l =>
    result ← on_replication i (deal_connected_replication g_current_time
      SF_G_NETWORK_TIMEOUT task_size sizeof_ProtoHeader (start i) (fetch i));
    (if negb (result =? 0) then modify (λ s, with_ms_deleted (ms_deleted s ++ [i]) s)
     else mret ());;
    turn_loop l
  end.

Definition deal_replication_connected (t : Z) : M Master () :=
  s ← get_st; turn_loop (connected (thread_arrays t s)).
End turns.

Definition binlog_replication_process (addr_count : nat → Z) (key : nat → text)
    (net : nat → NetResult) (start : nat → Z) (fetch : nat → option ReadResult) (t : Z) :
    M Master () :=
  deal_replication_connectings addr_count key net t;;
  deal_replication_connected start fetch t.

Definition clean_connected_replications (t : Z) : M Master () :=
  modify (λ s, with_ms_deleted (ms_deleted s ++ connected (thread_arrays t s)) s).
End master.
