(* ===== verification/ReplicationSafe.v ===== *)
(** * Replication loses nothing: from the binlog files to the queue

    While a slave catches up from the binlog files the master throws away what is
    pushed to the slave's queue; once the slave has everything that was in the
    files, the queue takes over. [sys_step] are the steps of one connection with a
    slave, from the moment the replication is bound; the theorem says that when the
    queue has taken over, what was sent and what is queued is every version after the
    one the slave started with: none is missing, over any interleaving of pushes,
    turns of the network thread, chunks the reader gives and acknowledgements. *)

From Stdlib Require Import Ascii.
From S2P Require Import Prelude CText PushResultRing BinlogProducer Replication.

(** The versions above [v] up to [u]. *)
Definition span (v u : Z) : list Z := seqZ (v + 1) (u - v).

Lemma span_nil v : span v v = [].
Proof. unfold span. by rewrite seqZ_nil by lia. Qed.

Lemma span_app v u w : v ≤ u ≤ w → span v u ++ span u w = span v w.
Proof.
  intros H. unfold span. replace (w - v) with ((u - v) + (w - u)) by lia.
  rewrite seqZ_app by lia. by replace (v + 1 + (u - v)) with (u + 1) by lia.
Qed.

Lemma elem_of_span v u x : x ∈ span v u ↔ v < x ≤ u.
Proof. unfold span. rewrite elem_of_seqZ. lia. Qed.

Section handover.
(** The text of each version's record. *)
Context (T : Z → text).

Definition vtext (l : list Z) : text := l ≫= T.

(** Buffers that follow each other from version [v]. *)
Fixpoint contig (v : Z) (l : list RBuffer) : Prop :=
  match l with
  | [] => True
  | rb :: l => rb_first rb = v + 1 ∧ v < rb_last rb ∧
               rb_data rb = vtext (span v (rb_last rb)) ∧ contig (rb_last rb) l
  end.
Fixpoint end_of (v : Z) (l : list RBuffer) : Z :=
  match l with [] => v | rb :: l => end_of (rb_last rb) l end.

Lemma contig_app v l k : contig v (l ++ k) ↔ contig v l ∧ contig (end_of v l) k.
Proof. revert v. induction l as [|rb l IH]; intros v; simpl; [naive_solver|]. rewrite IH. naive_solver. Qed.

Lemma end_of_app v l k : end_of v (l ++ k) = end_of (end_of v l) k.
Proof. revert v. induction l as [|rb l IH]; intros v; simpl; auto. Qed.

Lemma end_of_ge v l : contig v l → v ≤ end_of v l.
Proof.
  revert v. induction l as [|rb l IH]; intros v; simpl; [lia|]. intros (_ & ? & _ & Hl).
  specialize (IH _ Hl). lia.
Qed.

Lemma contig_text v l : contig v l → concat (rb_data <$> l) = vtext (span v (end_of v l)).
Proof.
  revert v. induction l as [|rb l IH]; intros v; [simpl; by rewrite span_nil|].
  cbn [contig end_of fmap list_fmap concat]. intros (_ & Hv & -> & Hl). rewrite (IH _ Hl). unfold vtext. rewrite <- bind_app.
  rewrite span_app; [done|]. pose proof (end_of_ge _ _ Hl). lia.
Qed.

(** The buffers that start at or below [c], when no buffer covers [c] in part. *)
Lemma split_synced_spec c l : ∀ v,
  contig v l → v ≤ c → c ≤ end_of v l →
  Forall (λ rb, ¬ (rb_first rb ≤ c < rb_last rb)) l →
  ∃ a b, split_synced c l = (a, b) ∧ l = a ++ b ∧ end_of v a = c.
Proof.
  induction l as [|rb l IH]; intros v Hl Hv Hc Hin; simpl in *.
  { exists [], []. split_and!; [done|done|simpl; lia]. }
  destruct Hl as (Hf & Hlt & _ & Hl). apply Forall_cons in Hin as [Hrb Hin].
  destruct (Z.leb_spec (rb_first rb) c) as [Hle|Hgt].
  - destruct (IH (rb_last rb) Hl) as (a & b & -> & -> & E); [lia|done|done|].
    exists (rb :: a), b. by split_and!.
  - exists [], (rb :: l). split_and!; [done|done|simpl; lia].
Qed.

(** ** The steps *)

(** The replication, the buffers that were pushed since it was bound, and the version
    up to which the reader has read. *)
Record Sys := mkSys { sy_rep : Replication; sy_pushes : list RBuffer; sy_read : Z }.

(** What the reader gives: nothing yet, the end of the files, an error, or the text of
    the versions up to [v]. *)
Inductive Chunk := NoChunk | EndChunk | BadChunk (errno : Z) | TextChunk (v : Z).

Definition chunk_result (c : Z) (k : Chunk) : option ReadResult :=
  match k with
  | NoChunk => None
  | EndChunk => Some (mkReadResult ENOENT 0 0 [])
  | BadChunk errno => Some (mkReadResult errno 0 0 [])
  | TextChunk v => Some (mkReadResult 0 (c + 1) v (vtext (span c v)))
  end.

(** An assumption on the reader of the binlog files and on their writer, which are not
    modelled (binlog_read_thread.c, the writer of libserverframe). The reader reads what
    was pushed, in order. It reports the end when it has read all that was pushed before
    the replication was bound ([V0]), and not inside a buffer: a buffer is written at
    once. The code does not ensure the first: the writer may still hold records when the
    reader reports the end; [ReplicationDemo.rebind_loses_record] is what happens then. *)
Definition chunk_ok (V0 V : Z) (pushes : list RBuffer) (c : Z) (k : Chunk) : Prop :=
  match k with
  | NoChunk => True
  | EndChunk => V0 ≤ c ∧ Forall (λ rb, ¬ (rb_first rb ≤ c < rb_last rb)) pushes
  | BadChunk errno => errno ≠ 0 ∧ errno ≠ ENOENT
  | TextChunk v => c < v ≤ V
  end.

(** Whether a turn takes a chunk. *)
Definition fetches (r : Replication) : bool :=
  bool_decide (rl_stage r = STAGE_SYNC_FROM_DISK) && negb (rl_busy r) &&
  (lv_previous (rl_versions r) <=? lv_by_resp (rl_versions r)).

Definition read_after (r : Replication) (c : Z) (k : Chunk) : Z :=
  match k with
  | TextChunk v => if fetches r then v else c
  | _ => c
  end.

Definition set_join (v index offset : Z) (r : Replication) : Replication :=
  with_rl_slave (mkSlaveServer (ss_status (rl_slave r)) v index offset) (rl_changes r) r.

Section steps.
Context (V0 : Z).
Context (SF_G_NETWORK_TIMEOUT SF_G_CONNECT_TIMEOUT init_size task_size sizeof_ProtoHeader : Z).
Context (CLUSTER_ID CLUSTER_MY_SERVER_ID : Z).

Definition version (s : Sys) : Z := end_of V0 (sy_pushes s).

Inductive sys_step : Sys → Sys → Prop :=
| sys_push s rb r' :
    contig (version s) [rb] →
    push_to_slave_replica_queues rb (sy_rep s) = Some ((), r') →
    sys_step s (mkSys r' (sy_pushes s ++ [rb]) (sy_read s))
| sys_connect s now addr_count key net rc r' :
    rl_stage (sy_rep s) = STAGE_NONE ∨ rl_stage (sy_rep s) = STAGE_CONNECTING →
    deal_connecting_replication now SF_G_CONNECT_TIMEOUT init_size CLUSTER_ID
      CLUSTER_MY_SERVER_ID addr_count key net (sy_rep s) = Some (rc, r') →
    sys_step s (mkSys
      (if rc =? 0 then forget_join (set_replication_stage STAGE_WAITING_JOIN_RESP r')
       else if rc =? EINPROGRESS then set_replication_stage STAGE_CONNECTING r'
       else count_failure rc r') (sy_pushes s) (sy_read s))
| sys_joined s v index offset :
    rl_stage (sy_rep s) = STAGE_WAITING_JOIN_RESP → 0 ≤ v ≤ version s →
    sys_step s (mkSys (set_join v index offset (sy_rep s)) (sy_pushes s) v)
| sys_turn s now start k r' :
    rl_stage (sy_rep s) ≠ STAGE_NONE → rl_stage (sy_rep s) ≠ STAGE_CONNECTING →
    chunk_ok V0 (version s) (sy_pushes s) (sy_read s) k →
    deal_connected_replication now SF_G_NETWORK_TIMEOUT task_size sizeof_ProtoHeader start
      (chunk_result (sy_read s) k) (sy_rep s) = Some (0, r') →
    sys_step s (mkSys r' (sy_pushes s) (read_after (sy_rep s) (sy_read s) k))
| sys_resp s v r' :
    binlog_replications_check_response_data_version v (sy_rep s) = Some (0, r') →
    sys_step s (mkSys r' (sy_pushes s) (sy_read s))
| sys_sent s :
    sys_step s (mkSys (with_rl_sent false (rl_sent (sy_rep s)) (sy_rep s))
                  (sy_pushes s) (sy_read s)).

(** ** The invariant *)

(** The texts of the push requests. *)
Definition push_texts (r : Replication) : list text :=
  omap (λ q, match q with PushReq _ _ t => Some t | JoinReq _ _ _ _ => None end) (rl_sent r).

(** What was thrown away is the beginning of what was pushed. *)
Definition thrown (s : Sys) : Prop :=
  ∃ disc, sy_pushes s = disc ++ rl_queue (sy_rep s) ∧
    lv_by_queue (rl_versions (sy_rep s)) = match disc with [] => 0 | _ => end_of V0 disc end.

Definition sys_ok (s : Sys) : Prop :=
  let r := sy_rep s in
  let v := rl_versions r in
  let L := ss_last_data_version (rl_slave r) in
  contig V0 (sy_pushes s) ∧
  match rl_stage r with
  | STAGE_NONE | STAGE_CONNECTING =>
    thrown s ∧ push_texts r = [] ∧ lv_current v = 0
  | STAGE_WAITING_JOIN_RESP =>
    thrown s ∧ push_texts r = [] ∧ lv_current v = 0 ∧
    (0 ≤ L → sy_read s = L ∧ L ≤ version s)
  | STAGE_SYNC_FROM_DISK =>
    thrown s ∧ 0 ≤ L ≤ sy_read s ∧ sy_read s ≤ version s ∧
    lv_current v = (if sy_read s =? L then 0 else sy_read s) ∧
    ∃ segs, push_texts r = vtext <$> segs ∧ concat segs = span L (sy_read s)
  | STAGE_SYNC_FROM_QUEUE =>
    ∃ S u segs, 0 ≤ S ≤ L ∧ S ≤ u ∧ push_texts r = vtext <$> segs ∧ concat segs = span S u ∧
      contig u (rl_queue r) ∧ end_of u (rl_queue r) = version s
  end.

(** ** What the operations leave alone *)

Lemma keeps_on_push {A B} (f : Replication → B) (m : M PushContext A) :
  (∀ p r, f (with_rl_push p r) = f r) → keeps f (on_push m).
Proof.
  intros Hf r a r'. unfold on_push. destruct (m (rl_push r)) as [[x p]|]; [|done].
  intros [= <- <-]. apply Hf.
Qed.

(** All but the queue's version, the counters and the released buffers. *)
Definition steady (r : Replication) :=
  (rl_stage r, rl_slave r, rl_queue r, rl_sent r, rl_busy r,
   lv_previous (rl_versions r), lv_current (rl_versions r), lv_by_resp (rl_versions r)).

Lemma discard_steady l : keeps steady (discard_queue l).
Proof.
  induction l as [|rb l IH]; simpl; [apply keeps_ret|].
  repeat (apply keeps_bind; [|intros _]); [..|done]; first [by apply keeps_on_push|by apply keeps_modify].
Qed.

Lemma discard_by_queue l : ∀ r a r' v,
  contig v l → discard_queue l r = Some (a, r') →
  lv_by_queue (rl_versions r')
  = match l with [] => lv_by_queue (rl_versions r) | _ => end_of v l end.
Proof.
  induction l as [|rb l IH]; intros r a r' v Hl; simpl; [by intros [= _ <-]|].
  intros (? & r1 & H1 & (? & r2 & H2 & (? & r3 & H3 & Hr)%bind_Some_inv)%bind_Some_inv)%bind_Some_inv.
  destruct Hl as (_ & _ & _ & Hl). rewrite (IH _ _ _ _ Hl Hr).
  destruct l; [|done].
  injection H1 as _ <-. injection H3 as _ <-. simpl.
  assert (keeps (λ r, lv_by_queue (rl_versions r)) (decrease_task_waiting_rpc_count rb)) as Hk
    by by apply keeps_on_push.
  pose proof (Hk _ _ _ H2) as E. simpl in E. by rewrite E.
Qed.

Lemma discard_all_spec r a r' :
  replication_queue_discard_all r = Some (a, r') →
  steady r' = steady (with_rl_queue [] r) ∧
  discard_queue (rl_queue r) (with_rl_queue [] r) = Some (a, r').
Proof.
  unfold replication_queue_discard_all.
  intros (? & r1 & [= <- <-] & (? & r2 & [= <- <-] & Hr)%bind_Some_inv)%bind_Some_inv.
  split; [by apply (discard_steady _ _ _ _ Hr)|done].
Qed.

Lemma discard_all_thrown s r' a :
  contig V0 (sy_pushes s) → thrown s → replication_queue_discard_all (sy_rep s) = Some (a, r') →
  ∀ c, thrown (mkSys r' (sy_pushes s) c).
Proof.
  intros Hc (disc & Hp & Hq) Hrun c. destruct (discard_all_spec _ _ _ Hrun) as [Hs Hd].
  injection Hs as Hs1 Hs2 Hs3 Hs4 Hs5 Hs6 Hs7 Hs8. simpl in Hs3.
  exists (sy_pushes s). simpl. split; [by rewrite Hs3, app_nil_r|].
  rewrite Hp in Hc |- *. apply contig_app in Hc as [_ Hc].
  rewrite (discard_by_queue _ _ _ _ _ Hc Hd). simpl.
  destruct (rl_queue (sy_rep s)) as [|rb q]; [by rewrite app_nil_r|].
  rewrite end_of_app. by destruct disc.
Qed.

(** What the stage does not touch. *)
Lemma set_stage_payload g r :
  let r' := set_replication_stage g r in
  rl_queue r' = rl_queue r ∧ rl_sent r' = rl_sent r ∧ rl_versions r' = rl_versions r ∧
  ss_last_data_version (rl_slave r') = ss_last_data_version (rl_slave r) ∧ rl_stage r' = g.
Proof.
  unfold set_replication_stage, cluster_info_set_status.
  destruct g; cbn; try done;
    repeat match goal with |- context [if ?b then _ else _] => destruct b end; done.
Qed.

Lemma push_texts_app r req busy :
  push_texts (with_rl_sent busy (rl_sent r ++ [req]) r)
  = push_texts r ++ match req with PushReq _ _ t => [t] | JoinReq _ _ _ _ => [] end.
Proof. unfold push_texts. simpl. rewrite omap_app. by destruct req. Qed.

(** A request takes buffers from the front of the queue. *)
Lemma fill_request_spec now l : ∀ r length last binlog rest last' binlog' r' u,
  contig u l →
  fill_request now SF_G_NETWORK_TIMEOUT task_size l length last binlog r
    = Some ((0, rest, last', binlog'), r') →
  ∃ taken, l = taken ++ rest ∧ binlog' = binlog ++ vtext (span u (end_of u taken)) ∧
    contig u taken ∧ steady r' = steady r.
Proof.
  induction l as [|rb l IH]; intros r length last binlog rest last' binlog' r' u Hl; simpl.
  { intros [= <- _ <- <-]. exists []. simpl. by rewrite span_nil, app_nil_r. }
  destruct (task_size <? length + zlen (rb_data rb)).
  { intros [= <- _ <- <-]. exists []. simpl. by rewrite span_nil, app_nil_r. }
  intros (? & r1 & H1 & (rc & r2 & H2 & Hr)%bind_Some_inv)%bind_Some_inv.
  assert (steady r2 = steady r) as E.
  { injection H1 as _ <-.
    assert (keeps steady (on_push (push_result_ring_add now SF_G_NETWORK_TIMEOUT (rb_first rb)
      (rb_last rb) (Some (rb_args rb))))) as Hk by by apply keeps_on_push.
    by rewrite (Hk _ _ _ H2). }
  destruct (Z.eqb_spec rc 0) as [->|Hne]; cbn [negb] in Hr.
  2: { injection Hr as ? _ _ _ _. congruence. }
  apply bind_Some_inv in Hr as (? & r3 & [= _ <-] & Hr).
  destruct Hl as (Hf & Hlt & Hd & Hl).
  destruct (IH _ _ _ _ _ _ _ _ _ Hl Hr) as (taken & -> & -> & Ht & Es).
  exists (rb :: taken). split; [done|]. split_and!; [|done..|].
  - rewrite Hd, <- app_assoc. f_equal. unfold vtext. rewrite <- bind_app. cbn [end_of].
    rewrite span_app; [done|]. pose proof (end_of_ge _ _ Ht). lia.
  - rewrite Es. exact E.
Qed.

Lemma sync_queue_spec now r r' u :
  contig u (rl_queue r) →
  sync_binlog_from_queue now SF_G_NETWORK_TIMEOUT task_size sizeof_ProtoHeader r = Some (0, r') →
  rl_stage r' = rl_stage r ∧ rl_slave r' = rl_slave r ∧
  ∃ w new, u ≤ w ∧ concat new = span u w ∧ push_texts r' = push_texts r ++ (vtext <$> new) ∧
    contig w (rl_queue r') ∧ end_of w (rl_queue r') = end_of u (rl_queue r).
Proof.
  intros Hc. unfold sync_binlog_from_queue.
  intros (? & ? & [= <- <-] & Hr)%bind_Some_inv. destruct (rl_queue r) as [|rb q] eqn:Eq.
  { injection Hr as <-. split_and!; [done|done|]. exists u, [].
    rewrite Eq, span_nil, app_nil_r. split_and!; [lia|done..]. }
  apply bind_Some_inv in Hr as (? & ? & [= _ <-] & Hr).
  apply bind_Some_inv in Hr as ([[[rc rest] last] binlog] & r1 & H1 & Hr).
  destruct (Z.eqb_spec rc 0) as [->|Hne]; cbn [negb] in Hr; [|injection Hr as ? _; congruence].
  destruct (fill_request_spec _ _ _ _ _ _ _ _ _ _ _ Hc H1) as (taken & Et & Eb & Ht & Es).
  apply bind_Some_inv in Hr as (? & ? & [= _ <-] & Hr).
  apply bind_Some_inv in Hr as (? & ? & [= _ <-] & Hr). injection Hr as <-.
  injection Es as E1 E2 E3 E4 E5 E6 E7 E8. cbn in E1, E2, E3, E4.
  pose proof Hc as Hw. rewrite Et in Hw. apply contig_app in Hw as [_ Hw].
  split_and!; [exact E1|exact E2|]. exists (end_of u taken), [span u (end_of u taken)].
  split_and!; [by apply end_of_ge|simpl; by rewrite app_nil_r| | |].
  - change (push_texts (with_rl_queue (rest ++ rl_queue r1)
      (with_rl_sent true (rl_sent r1 ++ [PushReq (rb_first rb) last binlog]) r1)))
      with (push_texts (with_rl_sent true (rl_sent r1 ++ [PushReq (rb_first rb) last binlog]) r1)).
    rewrite push_texts_app. unfold push_texts. rewrite E4. simpl. by rewrite Eb.
  - simpl. by rewrite E3, app_nil_r.
  - cbn [rl_queue with_rl_queue with_rl_sent]. rewrite E3, app_nil_r. by rewrite Et, end_of_app.
Qed.

(** ** The steps keep the invariant *)

Context (HV0 : 0 ≤ V0).

Definition read_chunk (c : Z) (k : Chunk) : Z :=
  match k with TextChunk v => v | _ => c end.

(** The state of a slave that reads from the files. *)
Definition disk_ok (s : Sys) : Prop :=
  let r := sy_rep s in
  let L := ss_last_data_version (rl_slave r) in
  thrown s ∧ 0 ≤ L ≤ sy_read s ∧ sy_read s ≤ version s ∧
  lv_current (rl_versions r) = (if sy_read s =? L then 0 else sy_read s) ∧
  ∃ segs, push_texts r = vtext <$> segs ∧ concat segs = span L (sy_read s).

Definition queue_ok (s : Sys) : Prop :=
  let r := sy_rep s in
  ∃ S u segs, 0 ≤ S ≤ ss_last_data_version (rl_slave r) ∧ S ≤ u ∧
    push_texts r = vtext <$> segs ∧ concat segs = span S u ∧
    contig u (rl_queue r) ∧ end_of u (rl_queue r) = version s.

Lemma handover_ok s r' r2 a :
  contig V0 (sy_pushes s) → disk_ok s → V0 ≤ sy_read s →
  Forall (λ rb, ¬ (rb_first rb ≤ sy_read s < rb_last rb)) (sy_pushes s) →
  lv_by_queue (rl_versions (sy_rep s)) ≤ lv_current (rl_versions (sy_rep s)) →
  steady r2 = steady (sy_rep s) →
  (if 0 <? lv_current (rl_versions (sy_rep s))
   then replication_queue_discard_synced else mret ()) r2 = Some (a, r') →
  queue_ok (mkSys r' (sy_pushes s) (sy_read s)).
Proof.
  intros Hc (( disc & Hp & Hq) & HL & HV & Hcur & segs & Htx & Hsegs) H0 Hin Hby Es Hrun.
  injection Es as E1 E2 E3 E4 E5 E6 E7 E8. unfold queue_ok.
  destruct (Z.eqb_spec (sy_read s) (ss_last_data_version (rl_slave (sy_rep s)))) as [Ec|Ec].
  - rewrite Hcur in Hrun. injection Hrun as _ <-.
    assert (disc = []) as ->.
    { destruct disc as [|rb disc]; [done|exfalso]. rewrite Hcur, Hq in Hby.
      rewrite Hp in Hc. simpl in Hc, Hby. destruct Hc as (_ & Hlt & _ & Hc).
      apply contig_app in Hc as [Hc _]. pose proof (end_of_ge _ _ Hc). lia. }
    simpl in Hp. exists V0, V0, segs. cbn [sy_rep]. rewrite E2, E3, <- Hp.
    unfold push_texts in *. rewrite E4. split_and!; try done; try lia.
    by rewrite Hsegs, Ec, !span_nil.
  - rewrite Hcur in Hrun, Hby. rewrite (proj2 (Z.ltb_lt _ _)) in Hrun by lia.
    rewrite Hp in Hc, Hin. apply contig_app in Hc as [Hc1 Hc2]. apply Forall_app in Hin as [_ Hin].
    unfold version in *. cbn [sy_pushes sy_rep sy_read] in *. rewrite Hp, end_of_app in HV.
    destruct (split_synced_spec (sy_read s) _ _ Hc2) as (x & y & Hsp & Exy & Ex); [|exact HV|exact Hin|].
    { destruct disc; [exact H0|]. rewrite Hq in Hby. exact Hby. }
    unfold replication_queue_discard_synced in Hrun.
    apply bind_Some_inv in Hrun as (? & ? & [= <- <-] & Hrun).
    rewrite E7, Hcur, E3, Hsp in Hrun.
    apply bind_Some_inv in Hrun as (? & ? & [= _ <-] & Hrun).
    apply discard_steady in Hrun. injection Hrun as F1 F2 F3 F4 F5 F6 F7 F8.
    simpl in F2, F3, F4. exists (ss_last_data_version (rl_slave (sy_rep s))), (sy_read s), segs.
    unfold push_texts in *. rewrite F2, F3, F4, E2, E4.
    rewrite Hp, Exy, !end_of_app, Ex. rewrite Exy in Hc2. apply contig_app in Hc2 as [_ Hc2].
    rewrite Ex in Hc2. split_and!; try done; lia.
Qed.

Lemma sync_disk_spec s k r' :
  contig V0 (sy_pushes s) → rl_stage (sy_rep s) = STAGE_SYNC_FROM_DISK → disk_ok s →
  chunk_ok V0 (version s) (sy_pushes s) (sy_read s) k →
  sync_binlog_from_disk (chunk_result (sy_read s) k) (sy_rep s) = Some (0, r') →
  sys_ok (mkSys r' (sy_pushes s) (read_chunk (sy_read s) k)).
Proof.
  intros Hc Hst Hd Hk Hrun. destruct s as [r pushes c]. cbn [sy_rep sy_pushes sy_read] in *.
  destruct k as [| |errno|v]; cbn [chunk_result sync_binlog_from_disk] in Hrun.
  - injection Hrun as <-. split; [done|]. cbn [sy_rep]. by rewrite Hst.
  - apply bind_Some_inv in Hrun as (? & ? & [= _ <-] & Hrun).
    apply bind_Some_inv in Hrun as (? & ? & [= <- <-] & Hrun).
    cbn [rr_err_no] in Hrun. change (ENOENT =? ENOENT) with true in Hrun. cbn [andb] in Hrun.
    destruct (Z.leb_spec (lv_by_queue (rl_versions r)) (lv_current (rl_versions r))) as [Hle|Hgt].
    2: { injection Hrun as <-. split; [done|]. cbn [sy_rep]. by rewrite Hst. }
    destruct (lv_current (rl_versions r) <=? lv_by_resp (rl_versions r)).
    2: { injection Hrun as <-. split; [done|]. cbn [sy_rep]. by rewrite Hst. }
    cbn [andb] in Hrun. apply bind_Some_inv in Hrun as (? & ? & [= _ <-] & Hrun).
    apply bind_Some_inv in Hrun as (? & r3 & Hdis & Hrun).
    apply bind_Some_inv in Hrun as (? & ? & [= _ <-] & Hrun). injection Hrun as <-.
    destruct Hk as [H0 Hin]. cbn [read_chunk].
    destruct (set_stage_payload STAGE_SYNC_FROM_QUEUE r3) as (P1 & P2 & P3 & P4 & Est).
    split; [done|]. cbn [sy_rep]. rewrite Est, P1, P4. unfold push_texts. rewrite P2.
    apply (handover_ok (mkSys r pushes c) r3 _ _ Hc Hd H0 Hin Hle) with (2 := Hdis). done.
  - destruct Hk as [Hk1 Hk2].
    cbn [rr_err_no] in Hrun. rewrite (proj2 (Z.eqb_neq _ _) Hk1), (proj2 (Z.eqb_neq _ _) Hk2) in Hrun.
    injection Hrun as <-. split; [done|]. cbn [sy_rep]. by rewrite Hst.
  - cbn [rr_err_no rr_first rr_last rr_buffer] in Hrun. change (0 =? 0) with true in Hrun.
    cbv iota in Hrun. apply bind_Some_inv in Hrun as (? & r3 & Hs & Hrun).
    apply bind_Some_inv in Hs as (? & ? & [= _ <-] & Hs).
    apply bind_Some_inv in Hs as (? & ? & [= _ <-] & Hs). injection Hs as _ <-.
    injection Hrun as <-.
    destruct Hd as ((disc & Hp & Hq) & HL & HV & Hcur & segs & Htx & Hsegs).
    cbn [sy_rep sy_pushes sy_read] in *. cbn in Hk. unfold version in *. cbn [sy_pushes] in *.
    assert (lv_current (rl_versions r) < v) as Hlt.
    { rewrite Hcur. destruct (_ =? _); lia. }
    rewrite (proj2 (Z.ltb_lt _ _) Hlt). split; [done|].
    cbn [sy_rep sy_pushes sy_read rl_stage with_rl_sent with_rl_stat with_rl_versions rl_slave
      rl_versions lv_current set_by_disk read_chunk]. rewrite Hst.
    split_and!; [by exists disc|lia|lia|unfold version; cbn [sy_pushes]; lia|..].
    + rewrite (proj2 (Z.eqb_neq v _)) by lia. done.
    + exists (segs ++ [span c v]). rewrite fmap_app, concat_app, Hsegs. split.
      * unfold push_texts in *. cbn [rl_sent with_rl_sent]. rewrite omap_app. simpl.
        by rewrite <- Htx.
      * simpl. rewrite app_nil_r. apply span_app. lia.
Qed.

Lemma turn_ok s now start k r' :
  sys_ok s → rl_stage (sy_rep s) ≠ STAGE_NONE → rl_stage (sy_rep s) ≠ STAGE_CONNECTING →
  chunk_ok V0 (version s) (sy_pushes s) (sy_read s) k →
  deal_connected_replication now SF_G_NETWORK_TIMEOUT task_size sizeof_ProtoHeader start
    (chunk_result (sy_read s) k) (sy_rep s) = Some (0, r') →
  sys_ok (mkSys r' (sy_pushes s) (read_after (sy_rep s) (sy_read s) k)).
Proof.
  intros [Hc Hok] Hn1 Hn2 Hk Hrun. unfold deal_connected_replication in Hrun.
  apply bind_Some_inv in Hrun as (r0 & ? & [= <- <-] & Hrun).
  apply bind_Some_inv in Hrun as (? & r1 & Hdis & Hrun).
  destruct (rl_stage (sy_rep s)) eqn:Hst; try done; cbn [decide decide_rel] in *.
  - (* waiting for the answer *)
    destruct Hok as (Ht & Htx & Hcur & HL).
    pose proof (discard_all_thrown s r1 _ Hc Ht Hdis) as Ht1.
    destruct (discard_all_spec _ _ _ Hdis) as [Hs _].
    injection Hs as E1 E2 E3 E4 E5 E6 E7 E8. cbn in E1, E2, E3, E4, E7.
    assert (read_after (sy_rep s) (sy_read s) k = sy_read s) as ->.
    { unfold read_after, fetches. rewrite Hst. by destruct k. }
    assert (sys_ok (mkSys r1 (sy_pushes s) (sy_read s))) as Hstay.
    { split; [done|]. cbn [sy_rep]. rewrite E1, Hst. unfold push_texts in *.
      rewrite E4, E7, E2. by split_and!. }
    destruct (_ || _) eqn:Hj in Hrun; [by injection Hrun as <-|].
    destruct (start =? 0) eqn:Hsz; [|injection Hrun as -> _; done].
    apply bind_Some_inv in Hrun as (? & ? & [= _ <-] & Hrun).
    apply bind_Some_inv in Hrun as (? & ? & [= _ <-] & Hrun). injection Hrun as <-.
    set (r2 := with_rl_stat _ _ _ r1).
    destruct (set_stage_payload STAGE_SYNC_FROM_DISK r2) as (P1 & P2 & P3 & P4 & P5).
    split; [done|]. cbn [sy_rep sy_pushes sy_read]. rewrite P5, P3, P4.
    change (rl_versions r2) with (rl_versions r1). change (rl_slave r2) with (rl_slave r1).
    rewrite E2. apply orb_false_iff in Hj as [Hj _]. apply orb_false_iff in Hj as [Hj _].
    apply Z.ltb_ge in Hj. destruct (HL Hj) as [EL HV].
    split_and!; [|lia|lia|unfold version in *; cbn [sy_pushes]; lia| |].
    + destruct (Ht1 (sy_read s)) as (disc & Hp & Hq). exists disc. cbn [sy_rep sy_pushes] in *.
      by rewrite P1, P3.
    + by rewrite EL, Z.eqb_refl, E7.
    + exists []. rewrite EL, span_nil. unfold push_texts in *. rewrite P2. cbn. by rewrite E4.
  - (* from the files *)
    destruct Hok as (Ht & HL & HV & Hcur & segs & Htx & Hsegs).
    pose proof (discard_all_thrown s r1 _ Hc Ht Hdis (sy_read s)) as Ht1.
    destruct (discard_all_spec _ _ _ Hdis) as [Hs _].
    injection Hs as E1 E2 E3 E4 E5 E6 E7 E8. cbn in E1, E2, E3, E4, E5, E6, E7, E8.
    set (s1 := mkSys r1 (sy_pushes s) (sy_read s)) in *.
    assert (disk_ok s1) as Hd.
    { unfold disk_ok. cbn [sy_rep sy_read s1]. unfold push_texts in *. rewrite E2, E4, E7.
      split_and!; [done|lia|lia|exact HV|exact Hcur|by exists segs]. }
    assert (sys_ok s1) as Hstay by (split; [done|cbn [sy_rep s1]; rewrite E1, Hst; exact Hd]).
    unfold read_after, fetches. rewrite Hst. cbn [bool_decide decide decide_rel].
    rewrite (bool_decide_eq_true_2 (STAGE_SYNC_FROM_DISK = STAGE_SYNC_FROM_DISK) eq_refl).
    destruct (rl_busy (sy_rep s)); cbn [negb andb] in *.
    { injection Hrun as <-. by destruct k. }
    destruct (lv_previous (rl_versions (sy_rep s)) <=? lv_by_resp (rl_versions (sy_rep s))).
    2: { injection Hrun as <-. by destruct k. }
    apply (sync_disk_spec s1 k r' Hc); [by cbn [sy_rep s1]; rewrite E1|exact Hd|exact Hk|exact Hrun].
  - (* from the queue *)
    injection Hdis as _ <-.
    assert (read_after (sy_rep s) (sy_read s) k = sy_read s) as ->.
    { unfold read_after, fetches. rewrite Hst. by destruct k. }
    destruct (rl_busy (sy_rep s)).
    { injection Hrun as <-. split; [done|]. cbn [sy_rep]. by rewrite Hst. }
    apply bind_Some_inv in Hrun as (? & r1 & H1 & Hrun).
    assert (steady r1 = steady (sy_rep s)) as Es.
    { assert (keeps steady (on_push (push_result_ring_clear_timeouts now))) as Hkp
        by by apply keeps_on_push.
      by apply (Hkp _ _ _ H1). }
    injection Es as E1 E2 E3 E4 E5 E6 E7 E8.
    destruct Hok as (S & u & segs & HS & Hu & Htx & Hsegs & Hq & Hend).
    rewrite <- E3 in Hq, Hend.
    destruct (sync_queue_spec now r1 r' u Hq Hrun) as (F1 & F2 & w & new & Hw & Hnew & Ftx & Fq & Fend).
    split; [done|]. cbn [sy_rep]. rewrite F1, E1, Hst, F2, E2. exists S, w, (segs ++ new).
    rewrite Ftx, fmap_app, concat_app, Hsegs, Hnew, Fend. unfold push_texts in *.
    rewrite E4, Htx. split_and!; try done; try lia. apply span_app. lia.
Qed.

Lemma step_ok s s' : sys_ok s → sys_step s s' → sys_ok s'.
Proof.
  intros Hok Hstep. destruct Hstep as
    [s rb r' Hrb Hrun|s now addr_count key net rc r' Hst Hrun|s v index offset Hst Hv
    |s now start k r' Hn1 Hn2 Hk Hrun|s v r' Hrun|s].
  - injection Hrun as <-. destruct Hok as [Hc Hok]. split.
    { cbn [sy_pushes]. apply contig_app. by split. }
    assert (thrown s → ∀ c, thrown (mkSys (with_rl_queue (rl_queue (sy_rep s) ++ [rb]) (sy_rep s))
      (sy_pushes s ++ [rb]) c)) as Ht.
    { intros (disc & Hp & Hq) c. exists disc. cbn. by rewrite Hp, <- app_assoc. }
    assert (∀ x, version (mkSys x (sy_pushes s ++ [rb]) (sy_read s)) = rb_last rb) as Ev.
    { intros x. unfold version. cbn [sy_pushes]. by rewrite end_of_app. }
    assert (version s < rb_last rb) as Hlt by apply Hrb.
    cbn [sy_rep rl_stage with_rl_queue].
    destruct (rl_stage (sy_rep s)); cbn [sy_rep rl_versions rl_slave with_rl_queue]; rewrite ?Ev.
    + destruct Hok as (H1 & H2 & H3). split_and!; auto.
    + destruct Hok as (H1 & H2 & H3). split_and!; auto.
    + destruct Hok as (H1 & H2 & H3 & H4). split_and!; auto. intros HL.
      destruct (H4 HL). split; [done|lia].
    + destruct Hok as (H1 & (H2 & H2b) & H3 & H4 & H5). cbn [sy_read]. split_and!; auto; lia.
    + destruct Hok as (S & u & segs & H1 & H2 & H3 & H4 & H5 & H6).
      exists S, u, segs. cbn [rl_queue with_rl_queue]. rewrite contig_app, end_of_app, H6.
      split_and!; first [done|apply H1].
  - destruct Hok as [Hc Hok].
    assert (thrown s ∧ push_texts (sy_rep s) = [] ∧ lv_current (rl_versions (sy_rep s)) = 0)
      as (Ht & Htx & Hcur) by (by destruct Hst as [Hst|Hst]; rewrite Hst in Hok).
    unfold deal_connecting_replication in Hrun.
    apply bind_Some_inv in Hrun as (? & r1 & Hdis & Hrun).
    apply bind_Some_inv in Hrun as (? & ? & [= <- <-] & Hrun).
    pose proof (discard_all_thrown s r1 _ Hc Ht Hdis (sy_read s)) as (disc & Hp & Hq).
    destruct (discard_all_spec _ _ _ Hdis) as [Hs _].
    injection Hs as E1 E2 E3 E4 E5 E6 E7 E8. cbn in E1, E2, E3, E4, E7.
    destruct (check_and_make_replica_connection _ _ _ _ _) as [rc0 c].
    apply bind_Some_inv in Hrun as (? & ? & [= _ <-] & Hrun).
    assert (rl_queue r' = rl_queue r1 ∧ rl_versions r' = rl_versions r1 ∧
      push_texts r' = push_texts r1 ∧ rl_stage r' = rl_stage r1) as (F1 & F2 & F3 & F4).
    { destruct (rc0 =? 0); [|by injection Hrun as _ <-]. unfold send_join_slave_package in Hrun.
      destruct (negb (net_send net =? 0)).
      - apply bind_Some_inv in Hrun as (? & ? & [= _ <-] & Hrun). by injection Hrun as _ <-.
      - apply bind_Some_inv in Hrun as (? & ? & [= _ <-] & Hrun). injection Hrun as _ <-.
        split_and!; try done. unfold push_texts. cbn. rewrite omap_app. cbn. by rewrite app_nil_r. }
    assert (push_texts r1 = []) as Htx1 by (unfold push_texts in *; by rewrite E4).
    split; [done|]. cbn [sy_rep]. destruct (rc =? 0); [|destruct (rc =? EINPROGRESS)].
    + unfold thrown. cbn. rewrite F2, F1. split_and!; [by exists disc| |by rewrite E7|lia].
      transitivity (push_texts r'); [done|congruence].
    + unfold thrown. cbn. rewrite F2, F1. split_and!; [by exists disc| |by rewrite E7].
      transitivity (push_texts r'); [done|congruence].
    + unfold thrown. cbn. rewrite F4, E1, F2, F1.
      destruct Hst as [-> | ->]; (split_and!; [by exists disc| |by rewrite E7];
        transitivity (push_texts r'); [done|congruence]).
  - destruct Hok as [Hc Hok]. split; [done|]. cbn [sy_rep rl_stage set_join with_rl_slave].
    rewrite Hst in *. destruct Hok as (H1 & H2 & H3 & _).
    split_and!; [exact H1|exact H2|exact H3|]. intros _. cbn. split; [done|exact (proj2 Hv)].
  - by apply (turn_ok s now start k r').
  - unfold binlog_replications_check_response_data_version in Hrun.
    apply bind_Some_inv in Hrun as (? & r1 & [= _ <-] & Hrun).
    apply bind_Some_inv in Hrun as (? & ? & [= <- <-] & Hrun).
    set (r1 := with_rl_versions _ (sy_rep s)) in Hrun.
    assert (lv_by_queue (rl_versions r1) = lv_by_queue (rl_versions (sy_rep s)) ∧
      lv_current (rl_versions r1) = lv_current (rl_versions (sy_rep s))) as [V1 V2].
    { unfold r1. cbn. by destruct (_ <? v). }
    assert (rl_queue r' = rl_queue r1 ∧ rl_versions r' = rl_versions r1 ∧ rl_sent r' = rl_sent r1 ∧
      rl_slave r' = rl_slave r1 ∧ rl_stage r' = rl_stage r1) as (F1 & F2 & F3 & F4 & F5).
    { destruct (rl_stage r1) eqn:E; try (by injection Hrun as <-; rewrite E).
      - apply bind_Some_inv in Hrun as (? & ? & [= _ <-] & Hrun). by injection Hrun as <-.
      - unfold on_push in Hrun. destruct (push_result_ring_remove v (rl_push r1)) as [[? p]|]; [|done].
        by injection Hrun as _ <-. }
    destruct Hok as [Hc Hok]. split; [done|].
    cbn [sy_rep]. unfold thrown, push_texts in *. cbn [sy_rep sy_pushes sy_read].
    rewrite F5, F4, F2, F3, F1, V1, V2. unfold r1. cbn. destruct (rl_stage (sy_rep s)); exact Hok.
  - exact Hok.
Qed.

(** A replication that was just bound: what is in its queue was pushed since then, or
    left by the binding. *)
Definition sys_start (s : Sys) : Prop :=
  rl_stage (sy_rep s) = STAGE_NONE ∧ rl_sent (sy_rep s) = [] ∧
  rl_versions (sy_rep s) = mkLastVersions 0 0 0 0 ∧
  rl_queue (sy_rep s) = sy_pushes s ∧ contig V0 (sy_pushes s).

Lemma start_ok s : sys_start s → sys_ok s.
Proof.
  intros (Hst & Hs & Hv & Hq & Hc). split; [done|]. rewrite Hst, Hv. unfold push_texts.
  rewrite Hs. split_and!; try done. exists []. by rewrite Hq, Hv.
Qed.

Lemma reach_ok s0 s : sys_start s0 → rtc sys_step s0 s → sys_ok s.
Proof.
  intros H0 Hr. apply start_ok in H0. induction Hr; [done|]. apply IHHr. by eapply step_ok.
Qed.

(** [C8] No version is lost when the queue takes over from the binlog files: in every
    state a connection reaches by pushes, turns of the network thread, chunks from the
    reader and acknowledgements, once the slave is fed from its queue, the requests
    that were sent carry the texts of consecutive versions from one that the slave has
    already ([S]), and the queue continues where they end, up to the last version that
    was pushed.

    This holds under the assumption [chunk_ok] on the reader of the files, which is part
    of [sys_step]: it reports the end of the files only when it has read everything that
    was pushed before the replication was bound to its thread (up to [V0]), and not in
    the middle of a buffer. The code does not ensure it: a record that is still to be
    written when the reader reports the end is lost
    ([ReplicationDemo.rebind_loses_record], binlog_replication.c, line 198). *)
Theorem handover_complete (s0 s : Sys) :
  sys_start s0 → rtc sys_step s0 s → rl_stage (sy_rep s) = STAGE_SYNC_FROM_QUEUE →
  ∃ S u segs, 0 ≤ S ≤ ss_last_data_version (rl_slave (sy_rep s)) ∧
    push_texts (sy_rep s) = vtext <$> segs ∧ concat segs = span S u ∧ S ≤ u ≤ version s ∧
    concat (rb_data <$> rl_queue (sy_rep s)) = vtext (span u (version s)).
Proof using HV0.
  intros H0 Hr Hst. destruct (reach_ok s0 s H0 Hr) as [_ Hok]. rewrite Hst in Hok.
  destruct Hok as (S & u & segs & HS & Hu & Htx & Hsegs & Hq & Hend).
  exists S, u, segs. pose proof (end_of_ge _ _ Hq). split_and!; try done; try lia.
  by rewrite (contig_text _ _ Hq), Hend.
Qed.
End steps.
End handover.
