(* ===== verification/ReplicationDemo.v ===== *)
(** * A master and one slave, concretely

    The theorem of [ReplicationSafe] at a run, and three runs that show what the code
    does beyond its hypotheses: a record that is lost when the connection breaks, an
    acknowledgement that comes late, and an array that overflows. *)

From Stdlib Require Import Ascii.
From S2P Require Import Prelude CText PushResultRing BinlogProducer Replication.
From S2P Require Import ReplicationSafe.

(** Version [v] is the letter with that number. *)
Definition letter (v : Z) : text := [ascii_of_nat (Z.to_nat (v + 96))].
Definition text_buffer (T : Z → text) (first last : Z) : RBuffer :=
  mkRBuffer (Z.to_pos first) first last (vtext T (span (first - 1) last)) 7%positive.
Definition buffer_of : Z → Z → RBuffer := text_buffer letter.

Definition ring8 : PushContext :=
  mkPushContext (replicate 8 zero_entry) 0 0 8 None None ∅ None 0 {[ 7%positive := 5 ]} [].
Definition fresh_slave : Replication :=
  mkReplication STAGE_NONE (mkConnInfo 0 0 0 0 (-1) 0)
    (mkSlaveServer FDIR_SERVER_STATUS_OFFLINE (-1) (-1) (-1)) [] ring8
    (mkLastVersions 0 0 0 0) 0 0 false false [] [] 0.
Definition good_net : NetResult := mkNetResult (0, 5) (PollReady 0) 0.

(** ** A run *)

Definition sys0 : Sys := mkSys fresh_slave [] 0.

(** Steps that are computed, with their conditions checked. *)
Inductive Event :=
| EvPush (first last : Z)
| EvConnect
| EvJoined (v : Z)
| EvTurn (k : Chunk)
| EvResp (v : Z)
| EvSent.

Section run.
(** The text of each version, the size of a task's buffer. *)
Context (T : Z → text) (task_size : Z).

#[local] Notation step := (sys_step T 2 30 30 256 task_size 10 1 1).

Definition push_ok (s : Sys) (rb : RBuffer) : Prop :=
  rb_first rb = version 2 s + 1 ∧ version 2 s < rb_last rb ∧
  rb_data rb = vtext T (span (version 2 s) (rb_last rb)).
#[local] Instance push_ok_dec s rb : Decision (push_ok s rb).
Proof. unfold push_ok. apply _. Defined.
#[local] Instance chunk_ok_dec V pushes c k : Decision (chunk_ok 2 V pushes c k).
Proof. destruct k; simpl; apply _. Defined.

Definition exec (s : Sys) (e : Event) : option Sys :=
  match e with
  | EvPush first last =>
    let rb := text_buffer T first last in
    if decide (push_ok s rb) then
      '(_, r) ← push_to_slave_replica_queues rb (sy_rep s);
      Some (mkSys r (sy_pushes s ++ [rb]) (sy_read s))
    else None
  | EvConnect =>
    if decide (rl_stage (sy_rep s) = STAGE_NONE) then
      '(rc, r) ← deal_connecting_replication 100 30 256 1 1 1 (lit "key") good_net (sy_rep s);
      Some (mkSys
        (if rc =? 0 then forget_join (set_replication_stage STAGE_WAITING_JOIN_RESP r)
         else if rc =? EINPROGRESS then set_replication_stage STAGE_CONNECTING r
         else count_failure rc r) (sy_pushes s) (sy_read s))
    else None
  | EvJoined v =>
    if decide (rl_stage (sy_rep s) = STAGE_WAITING_JOIN_RESP ∧ 0 ≤ v ≤ version 2 s) then
      Some (mkSys (set_join v 0 0 (sy_rep s)) (sy_pushes s) v)
    else None
  | EvTurn k =>
    if decide (rl_stage (sy_rep s) ≠ STAGE_NONE ∧ rl_stage (sy_rep s) ≠ STAGE_CONNECTING ∧
               chunk_ok 2 (version 2 s) (sy_pushes s) (sy_read s) k) then
      '(rc, r) ← deal_connected_replication 100 30 task_size 10 0
                   (chunk_result T (sy_read s) k) (sy_rep s);
      if rc =? 0 then Some (mkSys r (sy_pushes s) (read_after (sy_rep s) (sy_read s) k))
      else None
    else None
  | EvResp v =>
    '(rc, r) ← binlog_replications_check_response_data_version v (sy_rep s);
    if rc =? 0 then Some (mkSys r (sy_pushes s) (sy_read s)) else None
  | EvSent =>
    Some (mkSys (with_rl_sent false (rl_sent (sy_rep s)) (sy_rep s)) (sy_pushes s) (sy_read s))
  end.

Fixpoint execs (es : list Event) (s : Sys) : option Sys :=
  match es with [] => Some s | e :: es => s ← exec s e; execs es s end.

Lemma exec_step s e s' : exec s e = Some s' → step s s'.
Proof.
  destruct e as [first last| |v|k|v|]; cbn [exec].
  - destruct (decide _) as [(H1 & H2 & H3)|]; [|done]. intros [= <-].
    by apply sys_push; [split_and!|].
  - destruct (decide _) as [Hst|]; [|done].
    destruct (deal_connecting_replication _ _ _ _ _ _ _ _ _) as [[rc r]|] eqn:E; [|done].
    intros [= <-]. eapply sys_connect; [by left|exact E].
  - destruct (decide _) as [[Hst Hv]|]; [|done]. intros [= <-]. by apply sys_joined.
  - destruct (decide _) as [(H1 & H2 & H3)|]; [|done].
    destruct (deal_connected_replication _ _ _ _ _ _ _) as [[rc r]|] eqn:E; [|done].
    cbn [mbind option_bind]. destruct (Z.eqb_spec rc 0) as [->|]; [|done]. intros [= <-].
    by eapply sys_turn.
  - destruct (binlog_replications_check_response_data_version _ _) as [[rc r]|] eqn:E; [|done].
    cbn [mbind option_bind]. destruct (Z.eqb_spec rc 0) as [->|]; [|done]. intros [= <-].
    by eapply sys_resp.
  - intros [= <-]. apply sys_sent.
Qed.

Lemma execs_rtc es : ∀ s s', execs es s = Some s' → rtc step s s'.
Proof.
  induction es as [|e es IH]; intros s s'; cbn [execs]; [by intros [= ->]|].
  destruct (exec s e) as [s1|] eqn:E; [|done]. intros Hr.
  eapply rtc_l; [by apply (exec_step s e)|by apply IH].
Qed.
End run.

(** The slave joins with version 1, reads 2 from the files, and 3, which was pushed
    meanwhile; then the queue takes over. *)
Definition demo_events : list Event :=
  [EvConnect; EvJoined 1; EvTurn NoChunk; EvTurn (TextChunk 2); EvPush 3 3; EvSent;
   EvResp 2; EvTurn EndChunk; EvTurn (TextChunk 3); EvSent; EvResp 3; EvTurn EndChunk;
   EvPush 4 4; EvTurn NoChunk; EvPush 5 6].
Definition sys1 : Sys := default sys0 (execs letter 100 demo_events sys0).

Example demo_sent :
  rl_stage (sy_rep sys1) = STAGE_SYNC_FROM_QUEUE ∧
  push_texts (sy_rep sys1) = letter <$> [2; 3; 4] ∧
  rl_queue (sy_rep sys1) = [buffer_of 5 6] ∧
  ss_status (rl_slave (sy_rep sys1)) = FDIR_SERVER_STATUS_ACTIVE.
Proof. vm_compute. done. Qed.

Lemma handover_complete_witness :
  ∃ S u segs, 0 ≤ S ≤ ss_last_data_version (rl_slave (sy_rep sys1)) ∧
    push_texts (sy_rep sys1) = vtext letter <$> segs ∧ concat segs = span S u ∧
    S ≤ u ≤ version 2 sys1 ∧
    concat (rb_data <$> rl_queue (sy_rep sys1)) = vtext letter (span u (version 2 sys1)).
Proof.
  apply (handover_complete letter 2 30 30 256 100 10 1 1) with (s0 := sys0).
  - discriminate.
  - repeat split.
  - apply (execs_rtc letter 100 demo_events). vm_compute. reflexivity.
  - vm_compute. reflexivity.
Defined.

(** ** A record that is lost

    The connection breaks while version 8 is in the queue: the queue is thrown away,
    and binding the replication again forgets that 8 was in it. The slave, which has
    version 7, comes back before 8 is written to the binlog; the reader reports the
    end, the queue takes over, and the next record that is sent is 9. *)

Definition broken : Master :=
  mkMaster [with_rl_stage STAGE_SYNC_FROM_QUEUE (with_rl_queue [buffer_of 8 8]
              (with_rl_versions (mkLastVersions 7 7 7 7) fresh_slave))]
    {[ 0 := mkReplicaThread [] [0%nat] ]} {[ 7%positive := 1 ]} [] [].

Definition one_turn (k : option ReadResult) : M Master () :=
  deal_replication_connected 100 30 100 10 (λ _, 0) (λ _, k) 0.

Definition lossy : M Master () :=
  _ ← binlog_replication_rebind_thread 256 2 1 true true true 0;
  deal_replication_connectings 200 30 256 1 1 2 (λ _, 1) (λ _, lit "key") (λ _, good_net) 0;;
  on_replication 0 (modify (set_join 7 0 0));;
  one_turn None;;
  one_turn (chunk_result letter 7 EndChunk);;
  binlog_local_consumer_push_to_queues (buffer_of 9 9);;
  one_turn None.

(** Version 8 is never sent: after the join request, the only request carries 9. *)
Theorem rebind_loses_record :
  ∃ s r, lossy broken = Some ((), s) ∧ ms_reps s = [r] ∧
    rl_stage r = STAGE_SYNC_FROM_QUEUE ∧ rl_queue r = [] ∧
    rl_sent r = [JoinReq 1 1 256 (lit "key"); PushReq 9 9 (letter 9)] ∧
    ms_notified s = [7%positive].
Proof.
  destruct (lossy broken) as [[[] s]|] eqn:E; [|by vm_compute in E].
  vm_compute in E. injection E as <-. eexists _, _. split; [done|]. split; [done|].
  vm_compute. done.
Qed.

(** ** An acknowledgement that comes late

    Versions 2 and 3 are sent from the files; the slave's threads finish 3 first, and
    its acknowledgement is all that the master waits for. The acknowledgement of 2 is
    refused then, which closes the connection. *)

Definition late_events : list Event :=
  [EvConnect; EvJoined 1; EvTurn NoChunk; EvPush 3 3; EvTurn (TextChunk 3); EvSent;
   EvResp 3; EvTurn EndChunk].

Theorem late_ack_refused :
  ∃ s, execs letter 100 late_events sys0 = Some s ∧ rl_stage (sy_rep s) = STAGE_SYNC_FROM_QUEUE ∧
    push_texts (sy_rep s) = [letter 2 ++ letter 3] ∧
    fst <$> binlog_replications_check_response_data_version 2 (sy_rep s) = Some ENOENT.
Proof.
  destruct (execs letter 100 late_events sys0) as [s|] eqn:E; [|by vm_compute in E].
  exists s. split; [done|]. vm_compute in E. injection E as <-. vm_compute. done.
Qed.

(** ** An array that overflows

    A server that loses its mastership keeps the replications that are not connected
    in [connectings]; when it becomes master again all of them are added once more.
    With two servers there are two slots. *)

Definition one_slave : Master :=
  mkMaster [fresh_slave] ∅ ∅ [] [].
Definition become_master : M Master Z :=
  binlog_local_consumer_replication_start 256 2 1.

Theorem master_again_overruns :
  (∃ s, become_master one_slave = Some (0, s) ∧
     connectings (thread_arrays 0 s) = [0%nat]) ∧
  (∃ s, (_ ← become_master; become_master) one_slave = Some (0, s) ∧
     connectings (thread_arrays 0 s) = [0%nat; 0%nat]) ∧
  (_ ← become_master; _ ← become_master; become_master) one_slave = None.
Proof.
  split_and!.
  - destruct (become_master one_slave) as [[rc s]|] eqn:E; [|by vm_compute in E].
    vm_compute in E. injection E as <- <-. eexists. split; [done|]. vm_compute. done.
  - destruct ((_ ← become_master; become_master) one_slave) as [[rc s]|] eqn:E; [|by vm_compute in E].
    vm_compute in E. injection E as <- <-. eexists. split; [done|]. vm_compute. done.
  - vm_compute. done.
Qed.
