(* ===== verification/MasterSlave.v ===== *)
(** * The slave follows the master

    What [ReplicationSafe] says of the master's requests and [ReplicaConsumer] of the
    slave that gets them: a slave that joins with version [L] applies the records of
    the versions after [L], each once and in order, with none missing. *)

From Stdlib Require Import Ascii.
From S2P Require Import Prelude CText ServerTypes Proto Service BinlogPack.
From S2P Require Import BinlogRecord BinlogReplay ReplicaConsumer BinlogProducer.
From S2P Require Import Replication ReplicationSafe.

Section both.
Context `{F : FastCommon} {W : Type} `{!DataThreads W} `{!ByteOrder} `{!ServerFrame}.
Context `{!BufferCapacity} `{!FastCommonLaws F} `{!DataThreadsLaws W}.
(** The record of each version, up to [top]. *)
Context (R : Z → LogRecord) (top : Z).
Context (HR : ∀ v, 0 < v ≤ top → l_data_version (R v) = v).
Let T (v : Z) : text := record_text (R v).

Lemma vtext_texts l : vtext T l = texts (R <$> l).
Proof. induction l as [|v l IH]; [done|]. cbn. f_equal. exact IH. Qed.

(** The records of consecutive versions, from below [L]: those above [L] are new. *)
Lemma fresh_span n : ∀ v L, 0 ≤ v ≤ L → v + Z.of_nat n ≤ top →
  fresh L (unpacked <$> (R <$> seqZ (v + 1) (Z.of_nat n)))
  = unpacked <$> (R <$> span L (v + Z.of_nat n)).
Proof.
  induction n as [|n IH]; intros v L Hv Ht.
  - rewrite seqZ_nil by lia. unfold span. by rewrite seqZ_nil by lia.
  - rewrite seqZ_cons by lia. cbn [fmap list_fmap fresh]. rewrite unpacked_version.
    rewrite (HR (v + 1)) by lia.
    replace (Z.succ (v + 1)) with ((v + 1) + 1) by lia.
    replace (Z.pred (Z.of_nat (S n))) with (Z.of_nat n) by lia.
    replace (v + Z.of_nat (S n)) with ((v + 1) + Z.of_nat n) by lia.
    destruct (Z.leb_spec (v + 1) L).
    + apply IH; lia.
    + assert (v = L) as -> by lia. rewrite IH by lia.
      unfold span at 2. rewrite (seqZ_cons (L + 1)) by lia. cbn [fmap list_fmap]. f_equal.
      unfold span. do 3 f_equal; lia.
Qed.

Lemma top_span n : ∀ v L, 0 ≤ v ≤ L → v + Z.of_nat n ≤ top →
  top_version L (unpacked <$> (R <$> seqZ (v + 1) (Z.of_nat n))) = Z.max L (v + Z.of_nat n).
Proof.
  induction n as [|n IH]; intros v L Hv Ht.
  - rewrite seqZ_nil by lia. simpl. lia.
  - rewrite seqZ_cons by lia. cbn [fmap list_fmap top_version]. rewrite unpacked_version.
    rewrite (HR (v + 1)) by lia.
    replace (Z.succ (v + 1)) with ((v + 1) + 1) by lia.
    replace (Z.pred (Z.of_nat (S n))) with (Z.of_nat n) by lia.
    rewrite IH by lia. lia.
Qed.

Lemma prefix_seqZ {A} (f : Z → A) dn rest v n :
  f <$> seqZ v n = dn ++ rest →
  dn = f <$> seqZ v (Z.of_nat (length dn)) ∧ (length dn ≤ Z.to_nat n)%nat.
Proof.
  revert v n. induction dn as [|x dn IH]; intros v n E; [split; [done|simpl; lia]|].
  destruct (decide (0 < n)) as [Hn|Hn]; [|rewrite seqZ_nil in E by lia; done].
  rewrite (seqZ_cons v n) in E by lia. injection E as Ex E. apply IH in E as [E Hl].
  cbn [length]. rewrite (seqZ_cons v) by lia. cbn [fmap list_fmap].
  replace (Z.pred (Z.of_nat (S (length dn)))) with (Z.of_nat (length dn)) by lia.
  split; [by f_equal|lia].
Qed.

(** The records of the requests that arrived, request by request. *)
Definition pushed_batches (l : list SlaveInput) : list (list LogRecord) :=
  omap (λ i, match i with InPush _ _ rs => Some rs | _ => None end) l.

Lemma pushed_concat l : pushed_records l = concat (pushed_batches l).
Proof.
  unfold pushed_records, pushed_batches.
  induction l as [|i l IH]; [done|]. cbn [mbind list_bind]. rewrite IH. by destruct i.
Qed.

(** The records of some versions, request by request. *)
Definition batches (segs : list (list Z)) : list (list LogRecord) :=
  (λ l : list Z, R <$> l) <$> segs.

Section follow.
Context (V0 timeout connect init_size task_size header cluster_id my_id : Z).
Context (slave_header : Z) (mpool : Mpool) (slave_size threads : Z).
Context (recv : SlaveBuffer) (bufs : list SlaveBuffer) (w : W).

(** [C7] Replication as a whole: when the queue has taken over on the master, the
    requests it has sent ([segs]) are such that a slave that joined with version [L]
    and got a prefix of them, over any interleaving of their arrival with its own
    threads, has applied exactly the records of the versions after [L] up to some
    [k], each once, in the order of the versions, none left out; its version is then
    that of the last one. When all requests have arrived and the buffers on both sides
    are empty, [k] is the version of the master.

    The assumption: the steps of the master contain [chunk_ok], by which the reader of
    the binlog files reports their end only when it has read everything that was pushed
    before the replication was bound to its thread (up to [V0]), and not in the middle of
    a buffer. The code does not ensure that: without it a version can be left out
    ([ReplicationDemo.rebind_loses_record]). *)
Theorem slave_follows_master (s0 s : Sys) :
  0 ≤ V0 → version V0 s ≤ top → sys_start T V0 s0 →
  rtc (sys_step T V0 timeout connect init_size task_size header cluster_id my_id) s0 s →
  rl_stage (sy_rep s) = STAGE_SYNC_FROM_QUEUE →
  pool_ok mpool → 0 < slave_size < 2 ^ 30 → sb_data recv = [] → bufs ≠ [] →
  let L := ss_last_data_version (rl_slave (sy_rep s)) in
  in_range L →
  ∃ segs, push_texts (sy_rep s) = texts <$> batches segs ∧
  ∀ l sl, Forall input_ok l → pushed_batches l `prefix_of` batches segs →
    slave_run slave_header mpool (to_event <$> l)
      (replica_consumer_thread_init slave_size L threads recv bufs w) = Some sl →
    co_continue sl = true →
    ∃ k, k ≤ version V0 s ∧
      rp_applied (co_replay sl) = unpacked <$> (R <$> span L k) ∧
      rp_current_version (co_replay sl) = Z.max L k ∧
      (pushed_batches l = batches segs → co_input sl = [] → sb_data (co_recv sl) = [] →
       rl_queue (sy_rep s) = [] → k = version V0 s).
Proof using HR FastCommonLaws0 DataThreadsLaws0.
  intros HV0 Htop Hs0 Hr Hst Hpool Hsize Hrecv Hbufs L HL.
  destruct (reach_ok _ _ _ _ _ _ _ _ _ HV0 s0 s Hs0 Hr) as [_ Hok]. rewrite Hst in Hok.
  destruct Hok as (S & u & segs & HS & Hu & Htx & Hsegs & Hq & Hend).
  fold L in HS. exists segs. split.
  { unfold batches. rewrite Htx, <- list_fmap_compose. apply list_fmap_ext. intros i l _. apply vtext_texts. }
  intros l sl Hl [tail Htail] Hrun Hc.
  destruct (slave_reached slave_header mpool Hpool slave_size L threads recv bufs w Hsize HL
    Hrecv Hbufs l sl Hl Hrun Hc) as (dn & ins & cur & E & Hok & _).
  assert (R <$> span S u = dn ++ (concat ins ++ cur) ++ concat tail) as Hall.
  { transitivity (concat (batches segs)).
    - rewrite <- Hsegs. clear. induction segs as [|x segs IH]; [done|].
      cbn [concat batches fmap list_fmap]. rewrite fmap_app. by f_equal.
    - rewrite Htail, concat_app, <- pushed_concat, E. by rewrite !app_assoc. }
  unfold span in Hall. pose proof (prefix_seqZ _ _ _ _ _ Hall) as [Hdn Hle].
  pose proof (end_of_ge _ _ _ Hq) as Hge.
  exists (S + Z.of_nat (length dn)).
  destruct Hok as [_ O2 O3 O4 _ _ _ _ D _].
  split_and!.
  - lia.
  - rewrite (rd_applied _ _ _ D), Hdn at 1. cbn. rewrite fresh_span by lia.
    done.
  - rewrite (rd_version _ _ _ D), Hdn at 1. cbn. rewrite top_span by lia.
    done.
  - intros Hfull Hin Hcr Hqe. rewrite Hin in O2. destruct ins as [|? ?]; [|done].
    apply Forall_app in O4 as [_ O4]. rewrite Hcr in O3. symmetry in O3.
    apply texts_nil_inv in O3; [|exact O4]. subst cur.
    rewrite Hfull in Htail. assert (tail = []) as ->.
    { apply (f_equal length) in Htail. rewrite length_app in Htail. destruct tail; [done|simpl in *; lia]. }
    cbn in Hall. rewrite app_nil_r in Hall. apply (f_equal length) in Hall.
    rewrite length_fmap, length_seqZ in Hall. rewrite Hqe in Hend. cbn in Hend. lia.
Qed.
End follow.
End both.
