(* ===== verification/MasterSlaveDemo.v ===== *)
(** * A master and its slave, concretely

    The theorem of [MasterSlave] at the run of [ReplicationDemo], with records instead
    of letters, and a slave that gets its requests. *)

From Stdlib Require Import Ascii.
From S2P Require Import Prelude CText ServerTypes Proto Service BinlogPack.
From S2P Require Import BinlogRecord BinlogReplay ReplicaConsumer BinlogProducer.
From S2P Require Import Replication ReplicationSafe MasterSlave WireDemo BinlogDemo.
From S2P Require Import ReplicaDemo ReplicationDemo.

(** Every version creates a file. *)
Definition record_of (v : Z) : LogRecord := with_l_data_version v created.

Lemma record_loggable v : v = 2 ∨ v = 3 ∨ v = 4 → loggable (record_of v).
Proof.
  intros [-> | [-> | ->]].
  all: split; [|split; vm_compute; [reflexivity|split; discriminate]].
  all: split; [evaluate..| | |]; [discriminate|discriminate|unfold strings; evaluate].
Qed.

(** The master after the run: it has sent 2 and 3 from the files, 4 from the queue. *)
Definition master_end : Sys :=
  default sys0 (execs (λ v, record_text (record_of v)) 4096 demo_events sys0).
(** The slave's side, after two of the three requests. *)
Definition slave_inputs : list SlaveInput :=
  [InPush 2 2 [record_of 2]; InRound; InTask; InPush 3 3 [record_of 3]; InSent; InRound].
Definition slave_begin : @ReplicaConsumer (list LogRecord) :=
  replica_consumer_thread_init 4096 1 4 empty_slave_buffer [empty_slave_buffer] [].
Definition slave_end : ReplicaConsumer :=
  default slave_begin (slave_run 16 MpoolNull (to_event <$> slave_inputs) slave_begin).

Example slave_end_applied :
  rp_applied (co_replay slave_end) = unpacked <$> [record_of 2; record_of 3] ∧
  rp_current_version (co_replay slave_end) = 3.
Proof. vm_compute. done. Qed.

Lemma slave_inputs_ok : Forall input_ok slave_inputs.
Proof.
  repeat apply Forall_cons_2; try exact I; try apply Forall_nil_2;
    (split; [by vm_compute|split; [by vm_compute|split; [|vm_compute; split; [discriminate|reflexivity]]]];
     apply Forall_cons_2; [apply record_loggable; auto|apply Forall_nil_2]).
Qed.

Lemma slave_follows_master_witness :
  ∃ segs, push_texts (sy_rep master_end) = texts <$> batches record_of segs ∧
  ∀ l sl, Forall input_ok l → pushed_batches l `prefix_of` batches record_of segs →
    slave_run 16 MpoolNull (to_event <$> l)
      (replica_consumer_thread_init 4096 1 4 empty_slave_buffer [empty_slave_buffer] [])
    = Some sl →
    co_continue sl = true →
    ∃ k, k ≤ version 2 master_end ∧
      rp_applied (co_replay sl) = unpacked <$> (record_of <$> span 1 k) ∧
      rp_current_version (co_replay sl) = Z.max 1 k ∧
      (pushed_batches l = batches record_of segs → co_input sl = [] →
       sb_data (co_recv sl) = [] → rl_queue (sy_rep master_end) = [] →
       k = version 2 master_end).
Proof.
  apply (slave_follows_master record_of 6) with (s0 := sys0) (timeout := 30) (connect := 30)
    (init_size := 256) (task_size := 4096) (header := 10) (cluster_id := 1) (my_id := 1).
  - reflexivity.
  - discriminate.
  - vm_compute. discriminate.
  - repeat split.
  - apply (execs_rtc (λ v, record_text (record_of v)) 4096 demo_events). vm_compute. reflexivity.
  - vm_compute. reflexivity.
  - vm_compute. discriminate || done.
  - split; reflexivity.
  - reflexivity.
  - discriminate.
  - vm_compute. split; [discriminate|reflexivity].
Defined.
