(* ===== verification/Cluster.v ===== *)
(** * The servers of a cluster: [server/cluster_relationship.c],
      [server/cluster_handler.c] and [server/cluster_info.h]

    Every server keeps the array of all servers with their status, who the master is,
    and during an election who is to become it. The servers elect the one with the
    newest data: each asks the others for their status; the one that finds itself to
    be the best tells the others in two phases. A slave joins the master, pings it and
    gets the status of the servers; the master connects back to it for replication.

    [Node] is one server's state ([g_server_global_vars.cluster], [g_next_master] and
    what an election changes elsewhere); pointers into the array of servers are
    indices. One definition per function; what comes from other servers is an
    argument. [Election] puts the nodes together. *)

From Stdlib Require Import Ascii.
From S2P Require Import Prelude CText InodeGenerator Proto Service Replication.

Definition EFAULT : Z := 14.
Definition ECONNREFUSED : Z := 111.

(** ** Data *)

(** [FDIRClusterServerInfo]. *)
Record ClusterServer := mkClusterServer {
  cs_id : Z;
  cs_status : Z;
  cs_is_master : bool;
  cs_last_change_version : Z;
  cs_key : text
}.

(** [nd_strict] is [error_mode], [nd_order_by_version] what the binlog writer was told;
    [nd_producer] says that the binlog producer runs, [nd_starts] counts the calls of
    [binlog_local_consumer_replication_start], [nd_clean] is
    [clean_connected_replicas] of the network threads. *)
Record Node := mkNode {
  nd_servers : list ClusterServer;
  nd_change_version : Z;
  nd_myself : nat;
  nd_master : option nat;
  nd_next_master : option nat;
  nd_inode_sn : Z;
  nd_data_version : Z;
  nd_strict : bool;
  nd_order_by_version : bool;
  nd_producer : bool;
  nd_starts : Z;
  nd_clean : bool
}.

Definition with_servers (l : list ClusterServer) (changes : Z) (n : Node) : Node :=
  mkNode l (nd_change_version n + changes) (nd_myself n) (nd_master n) (nd_next_master n)
    (nd_inode_sn n) (nd_data_version n) (nd_strict n) (nd_order_by_version n)
    (nd_producer n) (nd_starts n) (nd_clean n).
Definition with_master (m : option nat) (n : Node) : Node :=
  mkNode (nd_servers n) (nd_change_version n) (nd_myself n) m (nd_next_master n)
    (nd_inode_sn n) (nd_data_version n) (nd_strict n) (nd_order_by_version n)
    (nd_producer n) (nd_starts n) (nd_clean n).
Definition with_next_master (m : option nat) (n : Node) : Node :=
  mkNode (nd_servers n) (nd_change_version n) (nd_myself n) (nd_master n) m
    (nd_inode_sn n) (nd_data_version n) (nd_strict n) (nd_order_by_version n)
    (nd_producer n) (nd_starts n) (nd_clean n).
Definition with_inode_sn (v : Z) (n : Node) : Node :=
  mkNode (nd_servers n) (nd_change_version n) (nd_myself n) (nd_master n)
    (nd_next_master n) v (nd_data_version n) (nd_strict n) (nd_order_by_version n)
    (nd_producer n) (nd_starts n) (nd_clean n).
Definition with_modes (strict order producer : bool) (starts : Z) (clean : bool)
    (n : Node) : Node :=
  mkNode (nd_servers n) (nd_change_version n) (nd_myself n) (nd_master n)
    (nd_next_master n) (nd_inode_sn n) (nd_data_version n) strict order producer starts
    clean.

Definition set_cs_status (v : Z) (s : ClusterServer) : ClusterServer :=
  mkClusterServer (cs_id s) v (cs_is_master s) (cs_last_change_version s) (cs_key s).
Definition set_cs_is_master (v : bool) (s : ClusterServer) : ClusterServer :=
  mkClusterServer (cs_id s) (cs_status s) v (cs_last_change_version s) (cs_key s).
Definition set_cs_last_change (v : Z) (s : ClusterServer) : ClusterServer :=
  mkClusterServer (cs_id s) (cs_status s) (cs_is_master s) v (cs_key s).
Definition set_cs_key (k : text) (s : ClusterServer) : ClusterServer :=
  mkClusterServer (cs_id s) (cs_status s) (cs_is_master s) (cs_last_change_version s) k.

Definition alter_server (f : ClusterServer → ClusterServer) (i : nat) (n : Node) : Node :=
  with_servers (alter f i (nd_servers n)) 0 n.
Definition bump_change_version (n : Node) : Node := with_servers (nd_servers n) 1 n.

(** [cluster_info_set_status] of [cluster_info.h]. *)
Definition node_set_status (i : nat) (new_status : Z) (n : Node) : Node :=
  match nd_servers n !! i with
  | Some s => if cs_status s =? new_status then n
              else bump_change_version (alter_server (set_cs_status new_status) i n)
  | None => n
  end.

(** [fc_server_get_by_id] of libfastcommon: the server with that id. *)
Class FcServers := {
  fc_server_get_by_id : Z → list Z → option nat;
  get_by_id_law : ∀ id ids i, NoDup ids →
    fc_server_get_by_id id ids = Some i ↔ ids !! i = Some id
}.

Definition fdir_get_server_by_id `{!FcServers} (id : Z) (n : Node) : option nat :=
  fc_server_get_by_id id (cs_id <$> nd_servers n).

(** A signed char, as [status] is stored on the wire. *)
Definition char_of (c : ascii) : Z := wrap_signed 8 (Z.of_N (N_of_ascii c)).

(** [load_servers_from_ini_ctx] of [cluster_info.c]: [item id] are the values of the
    server's section, with the defaults where there are none. *)
Definition load_servers_from_ini_ctx (item : Z → bool * Z) (n : Node) : Node :=
  with_servers
    ((λ s,
       let '(is_master, status) := item (cs_id s) in
       let status := wrap_signed 8 status in
       set_cs_is_master is_master
         (set_cs_status
            (if (status =? FDIR_SERVER_STATUS_SYNCING) || (status =? FDIR_SERVER_STATUS_ACTIVE)
             then FDIR_SERVER_STATUS_OFFLINE else status) s)) <$> nd_servers n) 0 n.

(** The values that [cluster_info_write_to_file] writes for server [i]. *)
Definition info_item (n : Node) (i : nat) (s : ClusterServer) : bool * Z :=
  (bool_decide (nd_master n = Some i), cs_status s).

(** ** Choosing the master *)

(** [FDIRClusterServerStatus]; [es_cs] is the index of the server. *)
Record ServerStatus := mkServerStatus {
  es_cs : nat;
  es_is_master : bool;
  es_status : Z;
  es_server_id : Z;
  es_data_version : Z
}.

Definition cluster_cmp_server_status (a b : ServerStatus) : Z :=
  if es_data_version a <? es_data_version b then -1
  else if es_data_version b <? es_data_version a then 1
  else
    let sub := Z.b2z (es_is_master a) - Z.b2z (es_is_master b) in
    if negb (sub =? 0) then sub
    else
      let sub := es_status a - es_status b in
      if negb (sub =? 0) then sub
      else int32 (es_server_id a - es_server_id b).

(** The answer of another server to the request for its status: an error number, or
    [is_master], [status], [server_id] and [data_version]. *)
Definition Reply : Type := Z + bool * Z * Z * Z.

Definition my_server_id (n : Node) : Z := from_option cs_id 0 (nd_servers n !! nd_myself n).

Definition cluster_get_server_status (reply : nat → Reply) (i : nat) (n : Node) :
    Z + ServerStatus :=
  if decide (i = nd_myself n) then
    match nd_servers n !! i with
    | Some s => inr (mkServerStatus i (cs_is_master s) (cs_status s) (cs_id s)
                       (nd_data_version n))
    | None => inl ENOENT
    end
  else
    match reply i with
    | inl rc => inl rc
    | inr (is_master, status, id, version) =>
      inr (mkServerStatus i is_master status id version)
    end.

(** The loop of [cluster_get_master]: those that answered, and the last error. *)
Fixpoint collect_status (reply : nat → Reply) (l : list nat) (n : Node)
    (active : list ServerStatus) (result : Z) : list ServerStatus * Z :=
  match l with
  | [] => (active, result)
  | i :: l =>
    match cluster_get_server_status reply i n with
    | inr s => collect_status reply l n (active ++ [s]) result
    | inl rc => collect_status reply l n active
                  (if negb (rc =? ENOENT) then rc else result)
    end
  end.

(** The order [qsort] sorts by. *)
Definition status_le (a b : ServerStatus) : Prop := cluster_cmp_server_status a b ≤ 0.
#[export] Instance status_le_dec : RelDecision status_le.
Proof. intros a b. unfold status_le. apply _. Defined.

Definition server_indices (n : Node) : list nat := seq 0 (length (nd_servers n)).

(** The result, the best server and how many are active; memory does not run out. *)
Definition cluster_get_master (reply : nat → Reply) (n : Node) :
    Z * option ServerStatus * Z :=
  let '(active, result) := collect_status reply (server_indices n) n [] 0 in
  match last (merge_sort status_le active) with
  | None => (if result =? 0 then ENOENT else result, None, 0)
  | Some best => (0, Some best, zlen active)
  end.

(** ** Becoming the master *)

Section relationship.
Context `{!FcServers}.

Definition cluster_relationship_pre_set_master (master : nat) : M Node Z :=
  n ← get_st;
  match nd_next_master n with
  | None => modify (with_next_master (Some master));; mret 0
  | Some next =>
    if decide (next = master) then mret 0
    else modify (with_next_master None);; mret EEXIST
  end.

Definition cluster_unset_master : M Node () :=
  n ← get_st;
  match nd_master n with
  | None => mret ()
  | Some old => modify (λ n, alter_server (set_cs_is_master false) old (with_master None n))
  end.

(** The loop of [update_field_is_master] over all servers. *)
Definition update_field_is_master (new_master : nat) : M Node () :=
  modify (λ n, with_servers
    (imap (λ i s, set_cs_is_master (bool_decide (i = new_master)) s) (nd_servers n)) 0 n).

(** [init] and [start] are the results of [binlog_producer_init] and
    [binlog_producer_start]; a failure ends the process. *)
Definition cluster_relationship_set_master (init start : Z) (new_master : nat) :
    M Node Z :=
  n ← get_st;
  if decide (nd_master n = Some new_master) then mret 0
  else
    let mine := bool_decide (nd_myself n = new_master) in
    (if mine then modify (λ n, with_inode_sn (nd_inode_sn n + INODE_SN_MAX_QPS) n)
     else mret ());;
    if mine && negb (init =? 0) then mret init
    else
      (if mine then
         modify (λ n, with_modes true true (nd_producer n) (nd_starts n) (nd_clean n) n);;
         modify (alter_server (set_cs_status FDIR_SERVER_STATUS_ACTIVE) new_master)
       else mret ());;
      modify (with_master (Some new_master));;
      update_field_is_master new_master;;
      if mine && negb (start =? 0) then mret start
      else
        (if mine then
           modify (λ n, with_modes (nd_strict n) (nd_order_by_version n) true
                          (nd_starts n + 1) (nd_clean n) n)
         else mret ());;
        modify bump_change_version;;
        mret 0.

Definition cluster_relationship_commit_master (init start : Z) (master : nat) :
    M Node Z :=
  n ← get_st;
  match nd_next_master n with
  | None => mret EBUSY
  | Some next =>
    if decide (next = master) then
      result ← cluster_relationship_set_master init start master;
      modify (with_next_master None);;
      mret result
    else modify (with_next_master None);; mret EBUSY
  end.

Definition cluster_relationship_trigger_reselect_master : M Node () :=
  modify (λ n, with_modes false false (nd_producer n) (nd_starts n) (nd_clean n) n);;
  cluster_unset_master;;
  modify bump_change_version;;
  modify (λ n, with_modes (nd_strict n) (nd_order_by_version n) false (nd_starts n) true n).

(** ** Handlers *)

(** [FDIR_CLUSTER_PROTO_PRE_SET_NEXT_MASTER] or [..._COMMIT_NEXT_MASTER]. *)
Inductive NextMasterCmd := PRE_SET_NEXT_MASTER | COMMIT_NEXT_MASTER.

Section wire.
Context `{!ByteOrder} `{!ServerFrame}.

Definition cluster_deal_next_master (init start : Z) (cmd : NextMasterCmd) (body : text) :
    M Node Z :=
  let result := server_expect_body_length (zlen body) 4 in
  if negb (result =? 0) then mret result
  else
    n ← get_st;
    if decide (nd_master n = Some (nd_myself n)) then
      cluster_relationship_trigger_reselect_master;; mret EEXIST
    else
      match fdir_get_server_by_id (buff2int (take 4 body)) n with
      | None => mret ENOENT
      | Some master =>
        match cmd with
        | PRE_SET_NEXT_MASTER => cluster_relationship_pre_set_master master
        | COMMIT_NEXT_MASTER => cluster_relationship_commit_master init start master
        end
      end.

(** [CLUSTER_CONFIG_SIGN_BUF], [CLUSTER_ID]. *)
Context (config_sign : text) (CLUSTER_ID : Z).
Definition SIGN_LEN : nat := 16.

Definition cluster_check_config_sign (sign : text) : Z :=
  if decide (sign = config_sign) then 0 else EFAULT.

(** The body of the answer to [FDIR_CLUSTER_PROTO_GET_SERVER_STATUS_REQ]. *)
Definition cluster_deal_get_server_status (body : text) (n : Node) : Z * text :=
  let result := server_expect_body_length (zlen body) (4 + Z.of_nat SIGN_LEN) in
  if negb (result =? 0) then (result, [])
  else
    let result := cluster_check_config_sign (take SIGN_LEN (drop 4 body)) in
    if negb (result =? 0) then (result, [])
    else
      match nd_servers n !! nd_myself n with
      | None => (ENOENT, [])
      | Some s =>
        (0, [chr (Z.b2z (cs_is_master s)); chr (cs_status s)] ++
            int2buff (my_server_id n) ++ long2buff (nd_data_version n))
      end.

(** The request and the parsing of the answer in [proto_get_server_status]. *)
Definition get_server_status_body (n : Node) : text :=
  int2buff (my_server_id n) ++ config_sign.
Definition proto_get_server_status (body : text) : Reply :=
  if negb (zlen body =? 14) then inl EINVAL
  else
    match body with
    | m :: s :: rest =>
      inr (negb (char_of m =? 0), char_of s, buff2int (take 4 rest),
           buff2long (take 8 (drop 4 rest)))
    | _ => inl EINVAL
    end.

(** [CLUSTER_PEER] of the task, and whether the task is of the relationship kind. *)
Definition join_master_body (key : text) (n : Node) : text :=
  int2buff CLUSTER_ID ++ int2buff (my_server_id n) ++ config_sign ++ key.

Definition cluster_deal_join_master (body : text) (peer : option nat) :
    M Node (Z * option nat) :=
  let result := server_expect_body_length (zlen body) (4 + 4 + Z.of_nat SIGN_LEN + 8) in
  if negb (result =? 0) then mret (result, peer)
  else if negb (buff2int (take 4 body) =? CLUSTER_ID) then mret (EINVAL, peer)
  else
    n ← get_st;
    match fdir_get_server_by_id (buff2int (take 4 (drop 4 body))) n with
    | None => mret (ENOENT, peer)
    | Some p =>
      let result := cluster_check_config_sign (take SIGN_LEN (drop 8 body)) in
      if negb (result =? 0) then mret (result, peer)
      else if decide (nd_master n = Some (nd_myself n)) then
        match peer with
        | Some _ => mret (EEXIST, peer)
        | None =>
          modify (alter_server (λ s, set_cs_key (take 8 (drop (8 + SIGN_LEN) body))
                                       (set_cs_last_change (-1) s)) p);;
          mret (0, Some p)
        end
      else mret (EINVAL, peer)
    end.

Definition ping_part (s : ClusterServer) : text :=
  int2buff (cs_id s) ++ [chr (cs_status s)].

(** The result and the body of the answer. *)
Definition cluster_deal_ping_master (body : text) (peer : option nat) :
    M Node (Z * text) :=
  let result := server_expect_body_length (zlen body) 0 in
  if negb (result =? 0) then mret (result, [])
  else
    match peer with
    | None => mret (EINVAL, [])
    | Some p =>
      n ← get_st;
      if decide (nd_master n = Some (nd_myself n)) then
        match nd_servers n !! p with
        | None => stuck
        | Some s =>
          if negb (cs_last_change_version s =? nd_change_version n) then
            modify (alter_server (set_cs_last_change (nd_change_version n)) p);;
            mret (0, long2buff (nd_inode_sn n) ++ int2buff (zlen (nd_servers n)) ++
                     (nd_servers n ≫= ping_part))
          else mret (0, long2buff (nd_inode_sn n) ++ int2buff 0)
        end
      else mret (EINVAL, [])
    end.

(** The slave takes the parts of the answer one by one. *)
Fixpoint take_parts (count : nat) (t : text) : M Node () :=
  match count with
  | O => mret ()
  | S count =>
    n ← get_st;
    c ← non_null (t !! 4%nat);
    match fdir_get_server_by_id (buff2int (take 4 t)) n with
    | Some i => modify (node_set_status i (char_of c))
    | None => mret ()
    end;;
    take_parts count (drop 5 t)
  end.

(** [proto_ping_master], once the header of the answer was received; a body that is too
    short for its header is read where nothing was written. *)
Definition proto_ping_master (body : text) : M Node Z :=
  if 8 * 1024 <? zlen body then mret EOVERFLOW
  else if zlen body <? 12 then stuck
  else
    let server_count := buff2int (take 4 (drop 8 body)) in
    if negb (int32 (12 + server_count * 5) =? zlen body) then mret EINVAL
    else
      let inode_sn := buff2long (take 8 body) in
      modify (λ n, if nd_inode_sn n <? inode_sn then with_inode_sn inode_sn n else n);;
      take_parts (Z.to_nat server_count) (drop 12 body);;
      mret 0.
End wire.
End relationship.

(** ** The election *)

Section election.
(** [CLUSTER_SERVER_ARRAY.count], [FORCE_MASTER_ELECTION], [ELECTION_MAX_WAIT_TIME]. *)
Context (force : bool) (max_wait : Z).

Inductive RoundResult :=
| RoundFailed (rc : Z)
| RoundChosen (best : ServerStatus)
| RoundAgain (sleep_secs : Z).

(** One round of the loop of [cluster_select_master], at time [now]. *)
Definition election_round (reply : nat → Reply) (now start_time max_sleep_secs : Z)
    (n : Node) : RoundResult :=
  match cluster_get_master reply n with
  | (result, None, _) => RoundFailed result
  | (_, Some best, active_count) =>
    if (active_count =? zlen (nd_servers n)) || ((2 <=? active_count) && es_is_master best)
    then RoundChosen best
    else
      let waited := now - start_time in
      let remain := max_wait - waited in
      if (es_status best <? FDIR_SERVER_STATUS_OFFLINE) && negb force then
        RoundAgain (if 0 <? remain then Z.min remain max_sleep_secs else max_sleep_secs)
      else if max_wait <? waited then RoundChosen best
      else RoundAgain (if 0 <? remain then Z.min remain max_sleep_secs else 0)
  end.

(** What a round meets: the answers, the time, and the node as other threads have left
    it. *)
Record Round := mkRound {
  rd_reply : nat → Reply;
  rd_now : Z;
  rd_node : Node
}.

Inductive Selection :=
| SelectFailed (rc : Z)
| SelectAbort (master : nat)
| SelectBest (best : ServerStatus).

(** The loop; it goes on as long as there are rounds. *)
Fixpoint select_loop (start_time max_sleep_secs : Z) (rounds : list Round) :
    option Selection :=
  match rounds with
  | [] => None
  | r :: rounds =>
    match nd_master (rd_node r) with
    | Some m => Some (SelectAbort m)
    | None =>
      match election_round (rd_reply r) (rd_now r) start_time max_sleep_secs (rd_node r) with
      | RoundFailed rc => Some (SelectFailed rc)
      | RoundChosen best => Some (SelectBest best)
      | RoundAgain _ =>
        select_loop start_time
          (if max_sleep_secs <? 32 then max_sleep_secs * 2 else max_sleep_secs) rounds
      end
    end
  end.
End election.

(** ** Telling the others *)

(** All the servers; each has its own array, in the same order. *)
Notation World := (list Node).

Section notify.
Context `{!FcServers} `{!ByteOrder} `{!ServerFrame}.
(** Which servers can be reached, and the results of starting the producer. *)
Context (reachable : nat → bool) (init start : Z).

Definition on_node {A} (i : nat) (m : M Node A) : M World A := λ w,
  match w !! i with
  | None => None
  | Some n =>
    match m n with
    | Some (a, n') => Some (a, <[i := n']> w)
    | None => None
    end
  end.

(** The result and [*bConnectFail]: server [i] handles the request. *)
Definition do_notify_master_changed (i : nat) (id : Z) (cmd : NextMasterCmd) :
    M World (Z * bool) :=
  if negb (reachable i) then mret (ECONNREFUSED, true)
  else
    result ← on_node i (cluster_deal_next_master init start cmd (int2buff id));
    mret (result, false).

(** [me] is the server that runs this, [master] the one it has chosen. [None] is a
    [bConnectFail] that was not written: it keeps its value. *)
Definition notify_server (me master i : nat) (cmd : NextMasterCmd) :
    M World (Z * option bool) :=
  if decide (i = me) then
    result ← on_node me
      match cmd with
      | PRE_SET_NEXT_MASTER => cluster_relationship_pre_set_master master
      | COMMIT_NEXT_MASTER => cluster_relationship_commit_master init start master
      end;
    mret (result, None)
  else
    w ← get_st;
    n ← non_null (w !! me);
    '(result, fail) ←
      do_notify_master_changed i (from_option cs_id 0 (nd_servers n !! master)) cmd;
    mret (result, Some fail).

(** One of the two loops of [cluster_notify_master_changed]: [inl] is a return from
    inside the loop. Reading [bConnectFail] before it was written is stuck. *)
Fixpoint notify_all (me master : nat) (cmd : NextMasterCmd) (l : list nat)
    (fail : option bool) (result success : Z) : M World (Z + Z * Z * option bool) :=
  match l with
  | [] => mret (inr (result, success, fail))
  | i :: l =>
    '(result, written) ← notify_server me master i cmd;
    let fail := match written with Some b => Some b | None => fail end in
    if negb (result =? 0) then
      b ← non_null fail;
      if negb b then mret (inl result)
      else notify_all me master cmd l fail result success
    else notify_all me master cmd l fail result (success + 1)
  end.

Definition cluster_notify_master_changed (me master : nat) : M World Z :=
  w ← get_st;
  n ← non_null (w !! me);
  let l := server_indices n in
  first ← notify_all me master PRE_SET_NEXT_MASTER l None ENOENT 0;
  match first with
  | inl result => mret result
  | inr (result, success, fail) =>
    if success =? 0 then mret result
    else
      second ← notify_all me master COMMIT_NEXT_MASTER l fail ENOENT 0;
      match second with
      | inl result => mret result
      | inr (result, success, _) => if success =? 0 then mret result else mret 0
      end
  end.

(** The end of [cluster_select_master]: what happens with the server that was chosen. *)
Definition cluster_select_master_end (me : nat) (best : ServerStatus) : M World Z :=
  w ← get_st;
  n ← non_null (w !! me);
  if decide (nd_master n ≠ None) then mret 0
  else if decide (nd_myself n = es_cs best) then cluster_notify_master_changed me (es_cs best)
  else if es_is_master best then
    _ ← on_node me (cluster_relationship_set_master init start (es_cs best));
    mret 0
  else mret ENOENT.
End notify.

(** ** Following the master *)

(** The socket of the connection to the master, with what the network gives:
    [fc_server_make_connection], [proto_join_master] and [proto_ping_master]. *)
Definition cluster_ping_master (connect join : Z) (ping : M Node Z) :
    M (Node * bool) Z := λ '(n, connected),
  match nd_master n with
  | None => Some (ENOENT, (n, connected))
  | Some m =>
    if decide (m = nd_myself n) then Some (0, (n, connected))
    else
      if negb connected && negb (connect =? 0) then Some (connect, (n, false))
      else if negb connected && negb (join =? 0) then Some (join, (n, false))
      else
        match ping n with
        | None => None
        | Some (result, n') => Some (result, (n', result =? 0))
        end
  end.

(** The variables of [cluster_thread_entrance]. *)
Record Watch := mkWatch {
  wt_connected : bool;
  wt_fail_count : Z;
  wt_ping_start : Z
}.

(** One turn of the loop when there is a master: [lost_timeout] is
    [ELECTION_MASTER_LOST_TIMEOUT], [result] what pinging gave. *)
Definition watch_turn (now lost_timeout : Z) (ping : M (Node * bool) Z) :
    M (Node * Watch) () := λ '(n, v),
  match ping (n, wt_connected v) with
  | None => None
  | Some (result, (n, connected)) =>
    if result =? 0 then Some ((), (n, mkWatch connected 0 now))
    else
      let fail_count := wt_fail_count v + 1 in
      if lost_timeout <? now - wt_ping_start v then
        if 1 <? fail_count then
          match cluster_unset_master n with
          | None => None
          | Some (_, n) => Some ((), (n, mkWatch connected 0 (wt_ping_start v)))
          end
        else Some ((), (n, mkWatch connected fail_count (wt_ping_start v)))
      else Some ((), (n, mkWatch connected fail_count (wt_ping_start v)))
  end.

(** ** The connection back from the master *)

Section replica.
Context `{!FcServers} `{!ByteOrder} `{!ServerFrame}.
(** [CLUSTER_ID], [SF_CLUSTER_ERROR_MASTER_INCONSISTENT] of libserverframe, the size of
    a task's buffer, [sizeof(FDIRProtoHeader)]. *)
Context (CLUSTER_ID SF_CLUSTER_ERROR_MASTER_INCONSISTENT task_size : Z).
Context (sizeof_ProtoHeader : Z).

(** [SLAVE_BINLOG_CHECK_LAST_ROWS]; [sf_binlog_writer_get_last_lines] of libserverframe:
    of the size of the buffer and the number of lines wanted, the result, the number of
    lines and the lines; what the variable [binlog_count] holds before it is written;
    the results of [replica_consumer_thread_init] and
    [binlog_get_current_write_position]. *)
Record JoinEnv := mkJoinEnv {
  je_check_rows : Z;
  je_get_last_lines : Z → Z → Z * Z * text;
  je_garbage : Z;
  je_consumer : Z;
  je_position : Z * Z
}.

(** The result, [binlog_count] and the lines. *)
Definition fill_binlog_last_lines (env : JoinEnv) : Z * Z * text :=
  if je_check_rows env <=? 0 then (0, je_garbage env, [])
  else je_get_last_lines env (task_size - (sizeof_ProtoHeader + 28)) (je_check_rows env).

(** The slave's side. [joined] says that the task, or another task of its thread, has a
    consumer already; the result comes with the body and the new [joined]. *)
Definition cluster_deal_join_slave_req (env : JoinEnv) (body : text) (joined : bool)
    (n : Node) : Z * text * bool :=
  let result := server_expect_body_length (zlen body) (4 + 4 + 4 + 8) in
  if negb (result =? 0) then (result, [], joined)
  else if negb (buff2int (take 4 body) =? CLUSTER_ID) then (EINVAL, [], joined)
  else if negb (buff2int (take 4 (drop 8 body)) =? task_size) then (EINVAL, [], joined)
  else
    match fdir_get_server_by_id (buff2int (take 4 (drop 4 body))) n with
    | None => (ENOENT, [], joined)
    | Some peer =>
      match nd_next_master n with
      | Some next =>
        (if decide (next = peer) then EBUSY else SF_CLUSTER_ERROR_MASTER_INCONSISTENT,
         [], joined)
      | None =>
        if negb (bool_decide (nd_master n = Some peer)) then
          (match nd_master n with
           | Some _ => SF_CLUSTER_ERROR_MASTER_INCONSISTENT | None => EFAULT
           end, [], joined)
        else if negb (bool_decide (take 8 (drop 12 body)
                        = from_option cs_key [] (nd_servers n !! nd_myself n)))
        then (EPERM, [], joined)
        else if joined then (EEXIST, [], joined)
        else
          let '(result, count, lines) := fill_binlog_last_lines env in
          if negb (result =? 0) then (result, [], false)
          else if negb (je_consumer env =? 0) then (je_consumer env, [], false)
          else
            (0, int2buff count ++ int2buff (zlen lines) ++ int2buff (je_position env).1 ++
                long2buff (je_position env).2 ++ long2buff (nd_data_version n) ++ lines,
             true)
      end
    end.

(** What [send_join_slave_package] of [binlog_replication.c] sends. *)
Definition join_slave_body (req : Request) : text :=
  match req with
  | JoinReq cluster_id server_id buffer_size key =>
    int2buff cluster_id ++ int2buff server_id ++ int2buff buffer_size ++ key
  | _ => []
  end.

(** The master's side: [check] is the result of [binlog_check_consistency] on the
    lines, with the position it corrects. It sets what [deal_connected_replication]
    waits for. *)
Definition cluster_deal_join_slave_resp (check : Z → text → Z * Z → Z * (Z * Z))
    (body : text) : M Replication Z :=
  let result := server_check_min_body_length (zlen body) 28 in
  if negb (result =? 0) then mret result
  else
    let length := buff2int (take 4 (drop 4 body)) in
    if negb (zlen body =? uint64 (28 + length)) then mret EINVAL
    else
      let '(result, (index, offset)) :=
        check (buff2int (take 4 body)) (drop 28 body)
          (buff2int (take 4 (drop 8 body)), buff2long (take 8 (drop 12 body))) in
      if negb (result =? 0) then mret result
      else
        modify (λ r, with_rl_slave
          (mkSlaveServer (ss_status (rl_slave r)) (buff2long (take 8 (drop 20 body)))
             index offset) (rl_changes r) r);;
        mret 0.
End replica.
