(* ===== verification/Election.v ===== *)
(** * Electing a master

    The theorems of [Cluster]: the server that is chosen has the newest data of all
    that answered; the two phases make all servers that are reached agree, and when
    one refuses nobody gets a new master; the flags of the servers follow the master;
    what a slave reads of an answer is what the master has. *)

From Stdlib Require Import Ascii.
From S2P Require Import Prelude CText Proto Service Replication Cluster.

(** ** The newest data *)

(** What decides before the id: data version, mastership, status. *)
Definition rank_le (a b : ServerStatus) : Prop :=
  es_data_version a < es_data_version b ∨
  es_data_version a = es_data_version b ∧
  (Z.b2z (es_is_master a) < Z.b2z (es_is_master b) ∨
   Z.b2z (es_is_master a) = Z.b2z (es_is_master b) ∧ es_status a ≤ es_status b).

#[export] Instance rank_le_trans : Transitive rank_le.
Proof. intros a b c. unfold rank_le. lia. Qed.

Lemma b2z_range b : 0 ≤ Z.b2z b ≤ 1.
Proof. by destruct b. Qed.

Lemma status_le_rank a b : status_le a b → rank_le a b.
Proof.
  unfold status_le, cluster_cmp_server_status, rank_le.
  destruct (Z.ltb_spec (es_data_version a) (es_data_version b)); [lia|].
  destruct (Z.ltb_spec (es_data_version b) (es_data_version a)); [lia|].
  destruct (Z.eqb_spec (Z.b2z (es_is_master a) - Z.b2z (es_is_master b)) 0); cbn [negb]; [|lia].
  destruct (Z.eqb_spec (es_status a - es_status b) 0); cbn [negb]; lia.
Qed.

#[export] Instance status_le_total : Total status_le.
Proof.
  intros a b. unfold status_le, cluster_cmp_server_status.
  destruct (Z.ltb_spec (es_data_version a) (es_data_version b)); [left; lia|].
  destruct (Z.ltb_spec (es_data_version b) (es_data_version a)); [right; lia|].
  destruct (Z.eqb_spec (Z.b2z (es_is_master a) - Z.b2z (es_is_master b)) 0) as [E1|E1]; cbn [negb].
  2: { destruct (Z.eqb_spec (Z.b2z (es_is_master b) - Z.b2z (es_is_master a)) 0); cbn [negb]; lia. }
  destruct (Z.eqb_spec (Z.b2z (es_is_master b) - Z.b2z (es_is_master a)) 0); cbn [negb]; [|lia].
  destruct (Z.eqb_spec (es_status a - es_status b) 0) as [E2|E2]; cbn [negb].
  2: { destruct (Z.eqb_spec (es_status b - es_status a) 0); cbn [negb]; lia. }
  destruct (Z.eqb_spec (es_status b - es_status a) 0); cbn [negb]; [|lia].
  unfold int32, wrap_signed. simpl. divlia.
Qed.

(** The last of a sorted list is the greatest. *)
#[export] Instance rank_le_refl : Reflexive rank_le.
Proof. intros a. unfold rank_le. lia. Qed.

Lemma sorted_last (l : list ServerStatus) best :
  StronglySorted rank_le l → last l = Some best → Forall (λ s, rank_le s best) l.
Proof.
  induction 1 as [|a l Hl IH Ha]; [done|]. intros Hlast.
  destruct l as [|b l]; [injection Hlast as ->; by repeat constructor|].
  rewrite last_cons_cons in Hlast. constructor; [|by apply IH].
  rewrite Forall_forall in Ha. apply Ha.
  rewrite last_lookup in Hlast. by eapply list_elem_of_lookup_2.
Qed.

Lemma Sorted_rank l : Sorted status_le l → StronglySorted rank_le l.
Proof.
  intros Hs. apply Sorted_StronglySorted; [exact rank_le_trans|].
  induction Hs as [|a l _ IH Hd]; constructor; [done|].
  destruct Hd; constructor. by apply status_le_rank.
Qed.

Lemma merge_sort_last l best :
  last (merge_sort status_le l) = Some best →
  best ∈ l ∧ Forall (λ s, rank_le s best) l.
Proof.
  intros Hlast. pose proof (merge_sort_Permutation status_le l) as Hp. split.
  - rewrite <- Hp. rewrite last_lookup in Hlast. by eapply list_elem_of_lookup_2.
  - rewrite <- Hp. apply sorted_last; [|done].
    apply Sorted_rank, Sorted_merge_sort. apply _.
Qed.

Lemma collect_spec reply n l : ∀ active result,
  (collect_status reply l n active result).1
  = active ++ omap (λ i, match cluster_get_server_status reply i n with
                         | inr s => Some s | inl _ => None end) l.
Proof.
  induction l as [|i l IH]; intros active result; simpl; [by rewrite app_nil_r|].
  destruct (cluster_get_server_status reply i n) as [rc|s]; [apply IH|].
  rewrite IH. by rewrite <- app_assoc.
Qed.

(** Who answered, oneself included. *)
Definition active_servers (reply : nat → Reply) (n : Node) : list ServerStatus :=
  omap (λ i, match cluster_get_server_status reply i n with
             | inr s => Some s | inl _ => None end) (server_indices n).

Lemma get_master_spec reply n rc best count :
  cluster_get_master reply n = (rc, Some best, count) →
  rc = 0 ∧ count = zlen (active_servers reply n) ∧ best ∈ active_servers reply n ∧
  Forall (λ s, rank_le s best) (active_servers reply n).
Proof.
  unfold cluster_get_master. pose proof (collect_spec reply n (server_indices n) [] 0) as Hc.
  destruct (collect_status reply (server_indices n) n [] 0) as [active result]. simpl in Hc.
  change (active = active_servers reply n) in Hc. subst active.
  destruct (last _) as [b|] eqn:Hlast; [|done]. intros [= <- <- <-].
  by destruct (merge_sort_last _ _ Hlast).
Qed.

(** Why a round may end with [best]. *)
Definition may_choose (force : bool) (max_wait start : Z) (r : Round) (best : ServerStatus) :
    Prop :=
  let active := active_servers (rd_reply r) (rd_node r) in
  zlen active = zlen (nd_servers (rd_node r)) ∨
  2 ≤ zlen active ∧ es_is_master best = true ∨
  max_wait < rd_now r - start ∧
  (force = true ∨ FDIR_SERVER_STATUS_OFFLINE ≤ es_status best).

Lemma round_chosen force max_wait start sleep r best :
  election_round force max_wait (rd_reply r) (rd_now r) start sleep (rd_node r)
    = RoundChosen best →
  cluster_get_master (rd_reply r) (rd_node r)
    = (0, Some best, zlen (active_servers (rd_reply r) (rd_node r))) ∧
  may_choose force max_wait start r best.
Proof.
  unfold election_round, may_choose.
  destruct (cluster_get_master _ _) as [[rc [b|]] count] eqn:Hg; [|done].
  destruct (get_master_spec _ _ _ _ _ Hg) as (-> & -> & _).
  destruct (Z.eqb_spec (zlen (active_servers (rd_reply r) (rd_node r)))
              (zlen (nd_servers (rd_node r)))) as [He|_]; cbn [orb].
  { intros [= ->]. by auto. }
  destruct (Z.leb_spec 2 (zlen (active_servers (rd_reply r) (rd_node r)))); cbn [andb].
  - destruct (es_is_master b) eqn:Hm; [intros [= ->]; by auto|].
    destruct (Z.ltb_spec (es_status b) FDIR_SERVER_STATUS_OFFLINE), force; cbn [andb negb]; try done;
      (destruct (Z.ltb_spec max_wait (rd_now r - start)); [|done]); intros [= ->]; auto 10.
  - destruct (Z.ltb_spec (es_status b) FDIR_SERVER_STATUS_OFFLINE), force; cbn [andb negb]; try done;
      (destruct (Z.ltb_spec max_wait (rd_now r - start)); [|done]); intros [= ->]; auto 10.
Qed.

(** [C11] The server that an election ends with was, in some round in which there was no
    master, among those that answered, and had the newest data of all of them: none had
    a greater data version, and of those with the same version none claimed to be the
    master where it did not, or had a better status. That round had the answers of all
    servers, or of two at least with the chosen one claiming to be the master, or the
    time to wait was over and the server had been in service before or the election was
    forced. *)
Theorem elected_is_newest force max_wait start rounds best : ∀ sleep,
  select_loop force max_wait start sleep rounds = Some (SelectBest best) →
  ∃ r, r ∈ rounds ∧ nd_master (rd_node r) = None ∧
    best ∈ active_servers (rd_reply r) (rd_node r) ∧
    Forall (λ s, rank_le s best) (active_servers (rd_reply r) (rd_node r)) ∧
    may_choose force max_wait start r best.
Proof.
  induction rounds as [|r rounds IH]; intros sleep; simpl; [done|].
  destruct (nd_master (rd_node r)) eqn:Hm; [done|].
  destruct (election_round _ _ _ _ _ _ _) as [rc|b|secs] eqn:Hr; [done| |].
  - intros [= ->]. destruct (round_chosen _ _ _ _ _ _ Hr) as [Hg Hc].
    destruct (get_master_spec _ _ _ _ _ Hg) as (_ & _ & Hin & Hall).
    exists r. split; [by left|done].
  - intros Hrest. destruct (IH _ Hrest) as (r' & Hin & Hr'). exists r'. split; [by right|done].
Qed.

(** ** Servers that see each other *)

(** The world: server [i] is at place [i] of its own array, and all arrays have the same
    ids, in the same order. *)
Record wf_world (ids : list Z) (w : World) : Prop := mkWfWorld {
  ww_length : length w = length ids;
  ww_nodup : NoDup ids;
  ww_ids : Forall is_int32 ids;
  ww_node : ∀ i n, w !! i = Some n →
    nd_myself n = i ∧ cs_id <$> nd_servers n = ids ∧ is_int64 (nd_data_version n) ∧
    Forall (λ s, -128 ≤ cs_status s < 128) (nd_servers n)
}.

Lemma char_of_chr n : -128 ≤ n < 128 → char_of (chr n) = n.
Proof.
  intros Hn. unfold char_of, chr. rewrite N_ascii_embedding by (pose proof (Z.mod_pos_bound n 256); lia).
  rewrite Z2N.id by (pose proof (Z.mod_pos_bound n 256); lia).
  unfold wrap_signed. simpl. divlia.
Qed.

Lemma ids_server ids n i id :
  cs_id <$> nd_servers n = ids → ids !! i = Some id →
  ∃ s, nd_servers n !! i = Some s ∧ cs_id s = id.
Proof. intros <- Hi. rewrite list_lookup_fmap, fmap_Some in Hi. naive_solver. Qed.

Lemma server_id ids n i s :
  cs_id <$> nd_servers n = ids → nd_servers n !! i = Some s → ids !! i = Some (cs_id s).
Proof. intros <- Hi. by rewrite list_lookup_fmap, Hi. Qed.

Lemma ww_server ids w i n : wf_world ids w → w !! i = Some n →
  ∃ s, nd_servers n !! i = Some s ∧ nd_servers n !! nd_myself n = Some s ∧
    my_server_id n = cs_id s ∧ is_int32 (cs_id s) ∧ -128 ≤ cs_status s < 128 ∧
    is_int64 (nd_data_version n).
Proof.
  intros Hw Hi. destruct (ww_node _ _ Hw _ _ Hi) as (Hme & Hids & Hdv & Hst).
  assert (is_Some (ids !! i)) as [id Hid].
  { apply lookup_lt_is_Some. rewrite <- (ww_length _ _ Hw). by eapply lookup_lt_Some. }
  destruct (ids_server _ _ _ _ Hids Hid) as (s & Hs & <-). exists s.
  unfold my_server_id. rewrite Hme, Hs. do 3 (split; [done|]).
  split; [|split; [by apply (Forall_lookup_1 _ _ _ _ Hst Hs)|done]].
  apply (Forall_lookup_1 _ _ _ _ (ww_ids _ _ Hw) Hid).
Qed.

Section status.
Context `{!ByteOrder} `{!ServerFrame} (config_sign : text).

(** What server [j] answers to the request that server [n] sends. *)
Definition reply_of (w : World) (n : Node) (j : nat) : Reply :=
  match w !! j with
  | None => inl ECONNREFUSED
  | Some m =>
    let '(result, body) :=
      cluster_deal_get_server_status config_sign (get_server_status_body config_sign n) m in
    if result =? 0 then proto_get_server_status body else inl result
  end.

(** What server [m], at place [i], knows of itself. *)
Definition own_status (i : nat) (m : Node) : option ServerStatus :=
  s ← nd_servers m !! nd_myself m;
  Some (mkServerStatus i (cs_is_master s) (cs_status s) (cs_id s) (nd_data_version m)).

Lemma answer_parsed m s v st id :
  m = chr (Z.b2z s) → -128 ≤ st < 128 → is_int32 id → is_int64 v →
  proto_get_server_status ([m; chr st] ++ int2buff id ++ long2buff v) = inr (s, st, id, v).
Proof.
  intros -> Hst Hid Hv. unfold proto_get_server_status.
  rewrite zlen_app, zlen_app. unfold zlen at 1 2 3.
  rewrite int2buff_len, long2buff_len. cbn [length negb Z.eqb Z.of_nat Z.add app Pos.of_succ_nat Pos.succ Pos.add Pos.eqb].
  simpl. rewrite take_app_length', drop_app_length', take_ge by (rewrite ?int2buff_len, ?long2buff_len; lia).
  rewrite buff2int_law, buff2long_law, !char_of_chr by (done || destruct s; simpl; lia).
  by destruct s.
Qed.

Lemma reply_of_spec ids w n j m (Hsign : length config_sign = SIGN_LEN) :
  wf_world ids w → w !! j = Some m →
  ∃ s, nd_servers m !! nd_myself m = Some s ∧
    reply_of w n j = inr (cs_is_master s, cs_status s, cs_id s, nd_data_version m).
Proof.
  intros Hw Hj. destruct (ww_server _ _ _ _ Hw Hj) as (s & _ & Hs & Hid & Hi & Hst & Hdv).
  exists s. split; [done|]. unfold reply_of. rewrite Hj.
  unfold cluster_deal_get_server_status, get_server_status_body.
  rewrite (proj2 (expect_body_length_law _ _)).
  2: { unfold zlen. rewrite length_app, int2buff_len, Hsign. done. }
  cbn [negb Z.eqb]. rewrite drop_app_length' by (by rewrite int2buff_len).
  rewrite take_ge by lia. unfold cluster_check_config_sign. rewrite decide_True by done.
  cbn [negb Z.eqb]. rewrite Hs, Hid. cbn [Z.eqb]. by apply answer_parsed.
Qed.

Lemma get_status_spec ids w i n j m (Hsign : length config_sign = SIGN_LEN) :
  wf_world ids w → w !! i = Some n → w !! j = Some m →
  ∃ s, own_status j m = Some s ∧
    cluster_get_server_status (reply_of w n) j n = inr s ∧
    es_cs s = j ∧ es_data_version s = nd_data_version m.
Proof.
  intros Hw Hi Hj. destruct (reply_of_spec _ _ n _ _ Hsign Hw Hj) as (s & Hs & Hr).
  exists (mkServerStatus j (cs_is_master s) (cs_status s) (cs_id s) (nd_data_version m)).
  unfold own_status, cluster_get_server_status. rewrite Hs, Hr. split; [done|].
  split; [|done]. destruct (decide (j = nd_myself n)) as [->|]; [|done].
  destruct (ww_node _ _ Hw _ _ Hi) as (Hme & _). rewrite Hme, Hi in Hj. injection Hj as <-.
  by rewrite Hs, Hme.
Qed.

Definition status_at (w : World) (j : nat) : option ServerStatus :=
  match w !! j with Some m => own_status j m | None => None end.

(** Collecting the status of all, what each knows of itself is what everyone gets. *)
Lemma collect_world ids w i n (Hsign : length config_sign = SIGN_LEN) l :
  wf_world ids w → w !! i = Some n → Forall (λ j, (j < length w)%nat) l →
  ∀ active result, collect_status (reply_of w n) l n active result
    = (active ++ omap (status_at w) l, result).
Proof.
  intros Hw Hi Hl. induction Hl as [|j l Hj _ IH]; intros active result; simpl.
  { by rewrite app_nil_r. }
  destruct (lookup_lt_is_Some_2 _ _ Hj) as [m Hm].
  destruct (get_status_spec _ _ _ _ _ _ Hsign Hw Hi Hm) as (s & Hs & Hget & _).
  assert (Hat : status_at w j = Some s) by (unfold status_at; by rewrite Hm).
  rewrite Hget, IH, Hat. by rewrite <- app_assoc.
Qed.

Definition world_status (w : World) : list ServerStatus :=
  omap (status_at w) (seq 0 (length w)).

Lemma ww_indices ids w i n : wf_world ids w → w !! i = Some n →
  server_indices n = seq 0 (length w).
Proof.
  intros Hw Hi. destruct (ww_node _ _ Hw _ _ Hi) as (_ & Hids & _).
  unfold server_indices. by rewrite (ww_length _ _ Hw), <- Hids, length_fmap.
Qed.

Lemma seq_in_range k : Forall (λ j, (j < k)%nat) (seq 0 k).
Proof. apply Forall_forall. intros j [_ Hj]%elem_of_seq. lia. Qed.

Lemma world_get_master ids w i n (Hsign : length config_sign = SIGN_LEN) :
  wf_world ids w → w !! i = Some n →
  cluster_get_master (reply_of w n) n
  = match last (merge_sort status_le (world_status w)) with
    | None => (ENOENT, None, 0)
    | Some best => (0, Some best, zlen (world_status w))
    end.
Proof.
  intros Hw Hi. unfold cluster_get_master. rewrite (ww_indices _ _ _ _ Hw Hi).
  rewrite (collect_world _ _ _ _ Hsign _ Hw Hi) by apply seq_in_range.
  simpl. done.
Qed.

Lemma world_status_in ids w i n (Hsign : length config_sign = SIGN_LEN) :
  wf_world ids w → w !! i = Some n →
  ∃ s, s ∈ world_status w ∧ es_cs s = i ∧ es_data_version s = nd_data_version n.
Proof.
  intros Hw Hi. destruct (get_status_spec _ _ _ _ _ _ Hsign Hw Hi Hi) as (s & Hs & _ & Hcs & Hdv).
  exists s. split; [|done]. apply list_elem_of_omap. exists i. unfold status_at. rewrite Hi, Hs.
  split; [|done]. apply elem_of_seq. apply lookup_lt_Some in Hi. lia.
Qed.

Lemma world_status_inv w s : s ∈ world_status w →
  ∃ m, w !! es_cs s = Some m ∧ own_status (es_cs s) m = Some s.
Proof.
  intros (j & _ & Hj)%list_elem_of_omap. unfold status_at in Hj.
  destruct (w !! j) as [m|] eqn:Hm; [|done]. exists m. revert Hj. unfold own_status.
  destruct (nd_servers m !! nd_myself m); [|done]. intros [= <-]. done.
Qed.

Lemma world_status_len ids w (Hsign : length config_sign = SIGN_LEN) :
  wf_world ids w → zlen (world_status w) = zlen w.
Proof.
  intros Hw. unfold zlen, world_status. f_equal.
  rewrite <- (length_seq (length w) 0) at 2.
  assert (Hall : Forall (λ j, (j < length w)%nat) (seq 0 (length w))) by apply seq_in_range.
  induction Hall as [|j l Hj _ IH]; simpl; [done|].
  destruct (lookup_lt_is_Some_2 _ _ Hj) as [m Hm].
  destruct (get_status_spec _ _ _ _ _ _ Hsign Hw Hm Hm) as (s & Hs & _).
  assert (Hat : status_at w j = Some s) by (unfold status_at; by rewrite Hm).
  rewrite Hat. simpl. by f_equal.
Qed.

(** [C26] Servers that all see each other find one and the same candidate, and it has a
    data version no server exceeds: what each puts into its answer is what it knows of
    itself, the others read just that, and as all answered nobody waits. *)
Theorem candidate_agrees ids w (Hsign : length config_sign = SIGN_LEN) :
  wf_world ids w → w ≠ [] →
  ∃ best m, w !! es_cs best = Some m ∧ own_status (es_cs best) m = Some best ∧
    (∀ i n, w !! i = Some n →
      nd_data_version n ≤ nd_data_version m ∧
      ∀ force max_wait now start sleep,
        election_round force max_wait (reply_of w n) now start sleep n = RoundChosen best).
Proof.
  intros Hw Hne. destruct (last (merge_sort status_le (world_status w))) as [best|] eqn:Hlast.
  - destruct (merge_sort_last _ _ Hlast) as [Hin Hall].
    destruct (world_status_inv _ _ Hin) as (m & Hm & Hown). exists best, m.
    split; [done|]. split; [done|]. intros i n Hi. split.
    + destruct (world_status_in _ _ _ _ Hsign Hw Hi) as (s & Hs & _ & <-).
      destruct (get_status_spec _ _ _ _ _ _ Hsign Hw Hm Hm) as (b & Hb & _ & _ & Hdv).
      rewrite Hown in Hb. injection Hb as <-. rewrite <- Hdv.
      rewrite Forall_forall in Hall. specialize (Hall _ Hs). unfold rank_le in Hall. lia.
    + intros. unfold election_round. rewrite (world_get_master _ _ _ _ Hsign Hw Hi), Hlast.
      rewrite (world_status_len _ _ Hsign Hw). destruct (ww_node _ _ Hw _ _ Hi) as (_ & Hids & _).
      replace (zlen (nd_servers n)) with (zlen w).
      { by rewrite Z.eqb_refl. }
      unfold zlen. by rewrite (ww_length _ _ Hw), <- Hids, length_fmap.
  - exfalso. destruct w as [|n w']; [done|].
    destruct (world_status_in _ _ 0%nat n Hsign Hw eq_refl) as (s & Hs & _).
    rewrite <- (merge_sort_Permutation status_le) in Hs.
    rewrite last_None in Hlast. rewrite Hlast in Hs. by apply elem_of_nil in Hs.
Qed.
End status.

(** ** The flags and who is master *)

(** What holds of a server that has been running: who is the master, who is to become
    it and which one this server is are places of the array, and the flag
    [is_master] of a server says whether it is the master. *)
Record node_ok (ids : list Z) (n : Node) : Prop := mkNodeOk {
  no_ids : cs_id <$> nd_servers n = ids;
  no_myself : (nd_myself n < length ids)%nat;
  no_master : from_option (λ m, (m < length ids)%nat) True (nd_master n);
  no_next : from_option (λ m, (m < length ids)%nat) True (nd_next_master n);
  no_flags : ∀ i s, nd_servers n !! i = Some s →
    cs_is_master s = bool_decide (nd_master n = Some i)
}.

Lemma servers_alter_Some (f : ClusterServer → ClusterServer) i j (l : list ClusterServer) s :
  alter f i l !! j = Some s ↔
  (i = j ∧ ∃ s0, l !! j = Some s0 ∧ s = f s0) ∨ (i ≠ j ∧ l !! j = Some s).
Proof.
  rewrite list_lookup_alter. case_decide as Hij; [|naive_solver].
  rewrite fmap_Some. naive_solver.
Qed.

(** A change of the servers that leaves the ids and the flags alone. *)
Definition same_flags (l l' : list ClusterServer) : Prop :=
  Forall2 (λ s s', cs_id s' = cs_id s ∧ cs_is_master s' = cs_is_master s) l l'.

Lemma same_flags_refl l : same_flags l l.
Proof. unfold same_flags. induction l; by constructor. Qed.

Lemma same_flags_alter f i l :
  (∀ s, cs_id (f s) = cs_id s ∧ cs_is_master (f s) = cs_is_master s) →
  same_flags l (alter f i l).
Proof.
  intros Hf. apply Forall2_same_length_lookup. rewrite length_alter. split; [done|].
  intros j s s' Hs. rewrite servers_alter_Some. intros [(<- & s0 & Hs0 & ->)|[_ Hs']].
  - rewrite Hs in Hs0. injection Hs0 as <-. apply Hf.
  - rewrite Hs in Hs'. by injection Hs' as <-.
Qed.

Lemma same_flags_ids l l' : same_flags l l' → cs_id <$> l' = cs_id <$> l.
Proof. induction 1 as [|s s' l l' [Hid _] _ IH]; [done|]. rewrite !fmap_cons. by f_equal. Qed.

Lemma node_ok_same ids n n' :
  node_ok ids n → same_flags (nd_servers n) (nd_servers n') →
  nd_myself n' = nd_myself n → nd_master n' = nd_master n →
  from_option (λ m, (m < length ids)%nat) True (nd_next_master n') →
  node_ok ids n'.
Proof.
  intros [Hids Hme Hm Hn Hfl] Hs Hme' Hm' Hn'. constructor; [|by rewrite Hme'|by rewrite Hm'|done|].
  - by rewrite (same_flags_ids _ _ Hs).
  - intros i s' Hi. destruct (Forall2_lookup_r _ _ _ _ _ Hs Hi) as (s & Hi0 & _ & ->).
    rewrite Hm'. by apply Hfl.
Qed.

Lemma alter_ids f i (l : list ClusterServer) :
  (∀ s, cs_id (f s) = cs_id s) → cs_id <$> alter f i l = cs_id <$> l.
Proof.
  intros Hf. apply list_eq. intros j. rewrite !list_lookup_fmap, list_lookup_alter.
  case_decide as Hij; [subst j|done]. destruct (l !! i) as [s|]; simpl; [|done]. by rewrite Hf.
Qed.

(** Unfolds the state monad. *)
Ltac mexec :=
  unfold mbind, M_bind, mret, M_ret, get_st, modify, non_null, stuck; cbn beta iota.

Lemma node_ok_unset ids n u n' : node_ok ids n → cluster_unset_master n = Some (u, n') →
  node_ok ids n' ∧ nd_master n' = None ∧ nd_next_master n' = nd_next_master n.
Proof.
  intros [Hids Hme Hm Hn Hfl]. unfold cluster_unset_master. mexec.
  destruct (nd_master n) as [old|] eqn:Hmaster.
  2: { intros [= <- <-]. split; [|done]. constructor; rewrite ?Hmaster; try done. }
  intros [= <- <-]. split; [|done]. constructor; try done.
  - rewrite <- Hids. by apply alter_ids.
  - intros i s. cbn. rewrite servers_alter_Some. intros [(-> & s0 & Hs0 & ->)|[Hi Hs]]; [done|].
    rewrite (Hfl _ _ Hs). by rewrite !bool_decide_eq_false_2 by congruence.
Qed.

(** What a server becomes when [k] becomes its master. *)
Lemma imap_is_master_ids k l :
  cs_id <$> imap (λ i s, set_cs_is_master (bool_decide (i = k)) s) l = cs_id <$> l.
Proof. apply list_eq. intros i. rewrite !list_lookup_fmap, list_lookup_imap. by destruct (l !! i). Qed.

Section set_master.
Context `{!FcServers} (ids : list Z) (init start : Z).

Lemma set_master_ids k n rc n' :
  cluster_relationship_set_master init start k n = Some (rc, n') →
  cs_id <$> nd_servers n' = cs_id <$> nd_servers n ∧ nd_myself n' = nd_myself n ∧
  nd_next_master n' = nd_next_master n ∧
  (nd_master n' = nd_master n ∧ same_flags (nd_servers n) (nd_servers n') ∨
   nd_master n' = Some k ∧ ∀ i s, nd_servers n' !! i = Some s →
     cs_is_master s = bool_decide (i = k)).
Proof.
  unfold cluster_relationship_set_master, update_field_is_master. mexec.
  assert (Hfl : ∀ l i s, imap (λ i s, set_cs_is_master (bool_decide (i = k)) s) l !! i = Some s →
    cs_is_master s = bool_decide (i = k)).
  { intros l i s. rewrite list_lookup_imap, fmap_Some. by intros (s0 & _ & ->). }
  assert (Hset : same_flags (nd_servers n) (alter (set_cs_status FDIR_SERVER_STATUS_ACTIVE) k (nd_servers n))).
  { by apply same_flags_alter. }
  case_decide as Hold.
  { intros [= <- <-]. repeat split. left. split; [done|apply same_flags_refl]. }
  case_bool_decide as Hmine; cbn [andb].
  - destruct (init =? 0); cbn [negb].
    2: { intros [= <- <-]. repeat split. left. split; [done|apply same_flags_refl]. }
    destruct (start =? 0); cbn [negb]; intros [= <- <-]; repeat split; cbn;
      try (rewrite imap_is_master_ids; apply (same_flags_ids _ _ Hset)); right; (split; [done|apply Hfl]).
  - intros [= <- <-]. repeat split; cbn; [apply imap_is_master_ids|]. right. split; [done|apply Hfl].
Qed.

Lemma node_ok_set_master k n rc n' : node_ok ids n → (k < length ids)%nat →
  cluster_relationship_set_master init start k n = Some (rc, n') → node_ok ids n'.
Proof.
  intros Hn Hk (Hids & Hme & Hnext & Hcase)%set_master_ids. destruct Hcase as [[Hm Hs]|[Hm Hfl]].
  - apply (node_ok_same ids n); try done. rewrite Hnext. apply (no_next _ _ Hn).
  - constructor; [by rewrite Hids; apply (no_ids _ _ Hn)|rewrite Hme; apply (no_myself _ _ Hn)
      |by rewrite Hm|rewrite Hnext; apply (no_next _ _ Hn)|].
    intros i s Hi. rewrite (Hfl _ _ Hi), Hm. apply bool_decide_ext. naive_solver.
Qed.

Lemma node_ok_next k n : node_ok ids n → from_option (λ m, (m < length ids)%nat) True k →
  node_ok ids (with_next_master k n).
Proof. intros Hn Hk. apply (node_ok_same ids n); try done. apply same_flags_refl. Qed.

Lemma node_ok_pre_set k n rc n' : node_ok ids n → (k < length ids)%nat →
  cluster_relationship_pre_set_master k n = Some (rc, n') → node_ok ids n'.
Proof.
  intros Hn Hk. unfold cluster_relationship_pre_set_master. mexec.
  destruct (nd_next_master n) as [next|].
  - case_decide; intros [= <- <-]; [done|]. by apply node_ok_next.
  - intros [= <- <-]. by apply node_ok_next.
Qed.

Lemma node_ok_commit k n rc n' : node_ok ids n → (k < length ids)%nat →
  cluster_relationship_commit_master init start k n = Some (rc, n') → node_ok ids n'.
Proof.
  intros Hn Hk. unfold cluster_relationship_commit_master. mexec.
  destruct (nd_next_master n) as [next|]; [|by intros [= <- <-]].
  case_decide; [|intros [= <- <-]; by apply node_ok_next].
  destruct (cluster_relationship_set_master _ _ _ _) as [[r n1]|] eqn:Hset; [|done].
  intros [= <- <-]. apply node_ok_next; [|done]. by eapply node_ok_set_master.
Qed.

Lemma node_ok_trigger n u n' : node_ok ids n →
  cluster_relationship_trigger_reselect_master n = Some (u, n') →
  node_ok ids n' ∧ nd_master n' = None ∧ nd_next_master n' = nd_next_master n.
Proof.
  intros Hn. unfold cluster_relationship_trigger_reselect_master. mexec.
  set (n1 := with_modes _ _ _ _ _ n).
  destruct (cluster_unset_master n1) as [[u1 n2]|] eqn:Hun; [|done].
  assert (Hn1 : node_ok ids n1).
  { apply (node_ok_same ids n); try done; [apply same_flags_refl|apply (no_next _ _ Hn)]. }
  destruct (node_ok_unset _ _ _ _ Hn1 Hun) as (Hn2 & Hm & Hnext).
  intros [= <- <-]. split; [|done].
  apply (node_ok_same ids n2); try done; [apply same_flags_refl|apply (no_next _ _ Hn2)].
Qed.

Lemma get_by_id_range n id i : NoDup ids → node_ok ids n →
  fdir_get_server_by_id id n = Some i → ids !! i = Some id.
Proof.
  intros Hd Hn. unfold fdir_get_server_by_id. rewrite (no_ids _ _ Hn).
  by apply get_by_id_law.
Qed.

Context `{!ByteOrder} `{!ServerFrame}.

Lemma node_ok_next_master cmd body n rc n' : NoDup ids → node_ok ids n →
  cluster_deal_next_master init start cmd body n = Some (rc, n') → node_ok ids n'.
Proof.
  intros Hd Hn. unfold cluster_deal_next_master. mexec.
  destruct (server_expect_body_length (zlen body) 4 =? 0); cbn [negb]; [|by intros [= <- <-]].
  case_decide.
  - destruct (cluster_relationship_trigger_reselect_master n) as [[u n1]|] eqn:Ht; [|done].
    intros [= <- <-]. by apply (node_ok_trigger _ _ _ Hn Ht).
  - destruct (fdir_get_server_by_id _ n) as [k|] eqn:Hk; [|by intros [= <- <-]].
    apply (get_by_id_range _ _ _ Hd Hn) in Hk. apply lookup_lt_Some in Hk.
    destruct cmd; [by apply node_ok_pre_set|by apply node_ok_commit].
Qed.
End set_master.

(** What the other handlers leave alone. *)
Definition node_view (n : Node) :=
  ((λ s, (cs_id s, cs_is_master s)) <$> nd_servers n, nd_myself n, nd_master n,
   nd_next_master n).

Lemma node_ok_view ids n n' : node_view n' = node_view n → node_ok ids n → node_ok ids n'.
Proof.
  intros [= Hs Hme Hm Hnext] Hn.
  apply (node_ok_same ids n); try done; [|rewrite Hnext; apply (no_next _ _ Hn)].
  revert Hs. generalize (nd_servers n'). unfold same_flags.
  induction (nd_servers n) as [|s l IH]; intros [|s' l']; try done.
  intros [= Hid Hfl Hl]. constructor; [done|by apply IH].
Qed.

Lemma alter_view f i n :
  (∀ s, cs_id (f s) = cs_id s ∧ cs_is_master (f s) = cs_is_master s) →
  node_view (alter_server f i n) = node_view n.
Proof.
  intros Hf. unfold node_view. cbn. do 3 f_equal. apply list_eq. intros j.
  rewrite !list_lookup_fmap, list_lookup_alter. case_decide as Hij; [subst j|done].
  destruct (nd_servers n !! i) as [s|]; simpl; [|done]. by destruct (Hf s) as [-> ->].
Qed.

Lemma set_status_view i v n : node_view (node_set_status i v n) = node_view n.
Proof.
  unfold node_set_status. destruct (nd_servers n !! i); [|done].
  destruct (_ =? _); [done|]. by apply (alter_view (set_cs_status v) i n).
Qed.

Section views.
Context `{!FcServers} `{!ByteOrder} `{!ServerFrame} (config_sign : text) (CLUSTER_ID : Z).

Lemma keeps_join body peer :
  keeps node_view (cluster_deal_join_master config_sign CLUSTER_ID body peer).
Proof.
  unfold cluster_deal_join_master. keeps_tac. apply keeps_modify. intros ?. by apply alter_view.
Qed.

Lemma keeps_deal_ping body peer : keeps node_view (cluster_deal_ping_master body peer).
Proof.
  unfold cluster_deal_ping_master. keeps_tac. apply keeps_modify. intros ?. by apply alter_view.
Qed.

Lemma keeps_take_parts count : ∀ t, keeps node_view (take_parts count t).
Proof.
  induction count as [|count IH]; intros t; cbn [take_parts]; keeps_tac; try apply IH.
  apply keeps_modify. intros ?. apply set_status_view.
Qed.

Lemma keeps_ping body : keeps node_view (proto_ping_master body).
Proof.
  unfold proto_ping_master. keeps_tac; try apply keeps_take_parts.
  apply keeps_modify. intros ?. by destruct (_ <? _).
Qed.
End views.

(** ** What can happen to a server *)

Section steps.
Context `{!FcServers} `{!ByteOrder} `{!ServerFrame} (config_sign : text) (CLUSTER_ID : Z).

(** The requests it serves, the phases of an election it runs itself, following another
    server, what its replications do to the statuses, and the reselection that
    [cluster_deal_slave_ack] triggers when a slave reports a second master. A step is a
    whole function; each compare-and-swap of the code is one atomic access in it, and no
    other thread comes between the accesses of one function. *)
Inductive node_step (n n' : Node) : Prop :=
| step_next_master init start cmd body rc :
    cluster_deal_next_master init start cmd body n = Some (rc, n') → node_step n n'
| step_pre_set k rc : (k < length (nd_servers n))%nat →
    cluster_relationship_pre_set_master k n = Some (rc, n') → node_step n n'
| step_commit init start k rc : (k < length (nd_servers n))%nat →
    cluster_relationship_commit_master init start k n = Some (rc, n') → node_step n n'
| step_accept init start k rc : (k < length (nd_servers n))%nat →
    cluster_relationship_set_master init start k n = Some (rc, n') → node_step n n'
| step_join body peer r :
    cluster_deal_join_master config_sign CLUSTER_ID body peer n = Some (r, n') →
    node_step n n'
| step_deal_ping body peer r :
    cluster_deal_ping_master body peer n = Some (r, n') → node_step n n'
| step_status i v : n' = node_set_status i v n → node_step n n'
| step_reselect u :
    cluster_relationship_trigger_reselect_master n = Some (u, n') → node_step n n'
| step_watch now lost connect join answer v v' :
    watch_turn now lost (cluster_ping_master connect join (proto_ping_master answer)) (n, v)
      = Some ((), (n', v')) → node_step n n'.

Lemma ping_master_view connect join answer n c rc n' c' :
  cluster_ping_master connect join (proto_ping_master answer) (n, c) = Some (rc, (n', c')) →
  node_view n' = node_view n.
Proof.
  unfold cluster_ping_master. destruct (nd_master n) as [m|]; [|by intros [= <- <- <-]].
  case_decide; [by intros [= <- <- <-]|].
  destruct (negb c && _); [by intros [= <- <- <-]|].
  destruct (negb c && _); [by intros [= <- <- <-]|].
  destruct (proto_ping_master answer n) as [[r n1]|] eqn:Hp; [|done].
  intros [= <- <- <-]. by apply (keeps_ping answer) in Hp.
Qed.

Lemma node_ok_watch ids now lost connect join answer n v n' v' : node_ok ids n →
  watch_turn now lost (cluster_ping_master connect join (proto_ping_master answer)) (n, v)
    = Some ((), (n', v')) → node_ok ids n'.
Proof.
  intros Hn. unfold watch_turn.
  destruct (cluster_ping_master _ _ _ _) as [[rc [n1 c]]|] eqn:Hp; [|done].
  apply ping_master_view in Hp. apply (node_ok_view ids) in Hp; [|done].
  destruct (rc =? 0); [by intros [= <- <-]|].
  destruct (lost <? _); [|by intros [= <- <-]].
  destruct (1 <? _); [|by intros [= <- <-]].
  destruct (cluster_unset_master n1) as [[[] n2]|] eqn:Hu; [|done].
  intros [= <- <-]. by apply (node_ok_unset _ _ _ _ Hp Hu).
Qed.

Lemma node_ok_step ids n n' : NoDup ids → node_ok ids n → node_step n n' → node_ok ids n'.
Proof.
  intros Hd Hn Hstep.
  assert (Hlen : length (nd_servers n) = length ids) by (by rewrite <- (no_ids _ _ Hn), length_fmap).
  destruct Hstep.
  - by eapply node_ok_next_master.
  - eapply node_ok_pre_set; [done| |done]. by rewrite <- Hlen.
  - eapply node_ok_commit; [done| |done]. by rewrite <- Hlen.
  - eapply node_ok_set_master; [done| |done]. by rewrite <- Hlen.
  - eapply node_ok_view; [|done]. by eapply (keeps_join config_sign CLUSTER_ID).
  - eapply node_ok_view; [|done]. by eapply keeps_deal_ping.
  - subst n'. eapply node_ok_view; [|done]. apply set_status_view.
  - by eapply node_ok_trigger.
  - by eapply node_ok_watch.
Qed.

(** [C23] Whatever requests a server serves, however elections go and whatever becomes of
    its master: who is the master and who is to become it remain places of the array of
    servers, the array keeps its servers, and the flag [is_master] is set for the
    master and for no other server. What a server tells another in an election about
    being the master is thus what it holds itself. *)
Theorem node_stays_ok ids n n' : NoDup ids → node_ok ids n →
  rtc node_step n n' →
  node_ok ids n' ∧
  ∀ s, nd_servers n' !! nd_myself n' = Some s →
    cs_is_master s = true ↔ nd_master n' = Some (nd_myself n').
Proof.
  intros Hd Hn Hrun. assert (Hn' : node_ok ids n').
  { induction Hrun as [|n1 n2 n3 Hs _ IH]; [done|]. apply IH. by eapply node_ok_step. }
  split; [done|]. intros s Hs. rewrite (no_flags _ _ Hn' _ _ Hs). by rewrite bool_decide_eq_true.
Qed.

(** A server that starts: the flags are those of the file [cluster.info]. *)
Definition started (item : Z → bool * Z) (n : Node) : Node :=
  with_master None (with_next_master None (load_servers_from_ini_ctx item n)).

(** [C29] A server that had a master when it last wrote [cluster.info] is not in such a
    state after it starts: it has no master, yet the flag of the old one is set, its own
    if it was the master. It will answer in the next election that it is the master. *)
Theorem restart_keeps_claim ids n item m sm : NoDup ids → node_ok ids n →
  nd_master n = Some m → nd_servers n !! m = Some sm →
  item (cs_id sm) = info_item n m sm →
  let n' := started item n in
  nd_master n' = None ∧ ¬ node_ok ids n' ∧
  (nd_myself n = m → length config_sign = SIGN_LEN → is_int32 (cs_id sm) →
    is_int64 (nd_data_version n) →
    ∃ status body,
      cluster_deal_get_server_status config_sign (get_server_status_body config_sign n) n'
        = (0, body) ∧
      proto_get_server_status body = inr (true, status, cs_id sm, nd_data_version n)).
Proof.
  intros Hd Hn Hm Hsm Hitem n'.
  assert (Hs' : ∃ st, -128 ≤ st < 128 ∧ nd_servers n' !! m
    = Some (mkClusterServer (cs_id sm) st true (cs_last_change_version sm) (cs_key sm))).
  { unfold n', started. cbn. rewrite list_lookup_fmap, Hsm. cbn. rewrite Hitem. unfold info_item.
    rewrite Hm, bool_decide_eq_true_2 by done. eexists. split; [|done].
    case_match; [done|]. unfold wrap_signed. simpl. divlia. }
  destruct Hs' as (st & Hst & Hs'). split; [done|]. split.
  - intros Hok. by pose proof (no_flags _ _ Hok _ _ Hs').
  - intros Hme Hsign Hid Hdv. unfold cluster_deal_get_server_status, get_server_status_body.
    rewrite (proj2 (expect_body_length_law _ _)).
    2: { unfold zlen. by rewrite length_app, int2buff_len, Hsign. }
    cbn [negb Z.eqb]. rewrite drop_app_length' by (by rewrite int2buff_len).
    rewrite take_ge by lia. unfold cluster_check_config_sign. rewrite decide_True by done.
    cbn [negb Z.eqb]. unfold my_server_id. replace (nd_myself n') with m by done. rewrite Hs'.
    eexists _, _. split; [done|]. by apply (answer_parsed _ true _ st).
Qed.
End steps.
