(* ===== verification/ElectionAgree.v ===== *)
(** * The two phases of an election

    [cluster_notify_master_changed] of [Cluster] over all servers: when no server that
    is reached objects, all of them have the new master afterwards; when one objects,
    none gets a new master. *)

From Stdlib Require Import Ascii.
From S2P Require Import Prelude CText Proto Service Replication Cluster.
From S2P Require Import InodeGenerator Election.

Section agree.
Context `{!FcServers} `{!ByteOrder} `{!ServerFrame}.
Context (reachable : nat → bool) (ids : list Z) (me : nat).
Context (Hnodup : NoDup ids) (Hids : Forall is_int32 ids).

(** Who takes part: the server itself and those it can connect to. *)
Definition reached (i : nat) : Prop := i = me ∨ reachable i = true.
#[local] Instance reached_dec i : Decision (reached i).
Proof. unfold reached. apply _. Defined.

(** What server [i] does with the request to have [me] as its next master or master. *)
Definition handle (cmd : NextMasterCmd) (i : nat) (id : Z) : M Node Z :=
  if decide (i = me) then
    match cmd with
    | PRE_SET_NEXT_MASTER => cluster_relationship_pre_set_master me
    | COMMIT_NEXT_MASTER => cluster_relationship_commit_master 0 0 me
    end
  else cluster_deal_next_master 0 0 cmd (int2buff id).

(** Each server is at its own place, and all have the same ids. *)
Definition same_world (w : World) : Prop :=
  length w = length ids ∧
  ∀ i n, w !! i = Some n → nd_myself n = i ∧ cs_id <$> nd_servers n = ids.

Lemma same_world_insert w i n : same_world w →
  nd_myself n = i → cs_id <$> nd_servers n = ids → same_world (<[i := n]> w).
Proof.
  intros [Hlen Hw] Hme Hn. split; [by rewrite length_insert|]. intros j m.
  rewrite list_lookup_insert_Some. intros [(<- & <- & _)|[_ Hj]]; [done|by apply Hw].
Qed.

Lemma my_id_in w id : same_world w → ids !! me = Some id →
  ∃ n, w !! me = Some n ∧ from_option cs_id 0 (nd_servers n !! me) = id.
Proof.
  intros [Hlen Hw] Hid. assert (is_Some (w !! me)) as [n Hn].
  { apply lookup_lt_is_Some. rewrite Hlen. by eapply lookup_lt_Some. }
  exists n. split; [done|]. destruct (Hw _ _ Hn) as [_ Hn'].
  destruct (ids_server _ _ _ _ Hn' Hid) as (s & -> & <-). done.
Qed.

Lemma notify_reached w id cmd i n r n' : same_world w → ids !! me = Some id →
  reached i → w !! i = Some n → handle cmd i id n = Some (r, n') →
  notify_server reachable 0 0 me me i cmd w
  = Some ((r, if decide (i = me) then None else Some false), <[i := n']> w).
Proof.
  intros Hw Hid Hr Hi. unfold notify_server, handle. case_decide as Him.
  - subst i. intros Hh. mexec. unfold on_node. rewrite Hi.
    destruct cmd; by rewrite Hh.
  - intros Hh. destruct (my_id_in _ _ Hw Hid) as (nm & Hme & Hmid). mexec. rewrite Hme, Hmid.
    unfold do_notify_master_changed. destruct Hr as [?|Hr]; [done|]. rewrite Hr. cbn [negb].
    mexec. unfold on_node. by rewrite Hi, Hh.
Qed.

Lemma notify_unreached w id cmd i : same_world w → ids !! me = Some id → ¬ reached i →
  notify_server reachable 0 0 me me i cmd w = Some ((ECONNREFUSED, Some true), w).
Proof.
  intros Hw Hid Hr. unfold notify_server. rewrite decide_False by (intros ->; apply Hr; by left).
  destruct (my_id_in _ _ Hw Hid) as (nm & Hme & _). mexec. rewrite Hme.
  unfold do_notify_master_changed. destruct (reachable i) eqn:Hri; [|done].
  exfalso. apply Hr. by right.
Qed.

(** ** When nobody objects *)

(** [F i n] is what server [i] becomes. *)
Lemma notify_all_ok cmd id (F : Node → Node) l : ∀ w fail res succ,
  ids !! me = Some id → NoDup l → same_world w → Forall (λ i, is_Some (w !! i)) l →
  (∀ i n, i ∈ l → reached i → w !! i = Some n →
    handle cmd i id n = Some (0, F n) ∧
    nd_myself (F n) = nd_myself n ∧ cs_id <$> nd_servers (F n) = cs_id <$> nd_servers n) →
  ∃ res' succ' fail' w',
    notify_all reachable 0 0 me me cmd l fail res succ w
      = Some (inr (res', succ', fail'), w') ∧ same_world w' ∧
    succ ≤ succ' ∧ (∀ i, i ∈ l → reached i → succ < succ') ∧
    ∀ i, w' !! i = (if decide (i ∈ l ∧ reached i) then F <$> w !! i else w !! i).
Proof.
  induction l as [|j l IH]; intros w fail res succ Hid Hnd Hw Hl HF.
  { exists res, succ, fail, w. split; [done|]. split; [done|]. split; [lia|].
    split; [by intros i Hi%elem_of_nil|]. intros i. rewrite decide_False; [done|].
    by intros [Hi%elem_of_nil _]. }
  apply NoDup_cons in Hnd as [Hj Hnd]. apply Forall_cons in Hl as [[n Hn] Hl].
  cbn [notify_all]. destruct (decide (reached j)) as [Hr|Hr].
  - destruct (HF j n) as (Hh & Hmy & Hsame); [by left|done|done|].
    assert (Hw1 : same_world (<[j := F n]> w)).
    { destruct Hw as [Hlen Hw]. destruct (Hw _ _ Hn) as [Hm1 Hm2].
      apply same_world_insert; [done|by rewrite Hmy|by rewrite Hsame]. }
    edestruct (IH (<[j := F n]> w)) as (res' & succ' & fail' & w' & Hrun & Hw' & Hle & Hlt & Hat);
      [done|done|done| | |].
    { eapply Forall_impl; [exact Hl|]. intros i Hi. cbn. apply lookup_lt_is_Some.
      rewrite length_insert. by apply lookup_lt_is_Some. }
    { intros i m Hi Hri. rewrite list_lookup_insert_ne by (intros ->; done). apply HF; [by right|done]. }
    exists res', succ', fail', w'. rewrite (bind_run _ _ _ _ _ (notify_reached _ _ _ _ _ _ _ Hw Hid Hr Hn Hh)).
    split; [exact Hrun|]. split; [done|]. split; [lia|]. split; [intros; lia|].
    intros i. rewrite Hat. destruct (decide (i = j)) as [->|Hij].
    + rewrite list_lookup_insert_eq by (by eapply lookup_lt_Some). rewrite Hn.
      rewrite decide_False by tauto. rewrite decide_True; [done|]. split; [by left|done].
    + rewrite list_lookup_insert_ne by done.
      apply decide_ext. rewrite elem_of_cons. tauto.
  - edestruct (IH w) as (res' & succ' & fail' & w' & Hrun & Hw' & Hle & Hlt & Hat);
      [done|done|done|done| |].
    { intros i m Hi. apply HF. by right. }
    exists res', succ', fail', w'. rewrite (bind_run _ _ _ _ _ (notify_unreached _ _ _ _ Hw Hid Hr)).
    split; [exact Hrun|]. split; [done|]. split; [lia|].
    split.
    { intros i Hi Hri. apply (Hlt i); [|done]. apply elem_of_cons in Hi as [->|Hi]; done. }
    intros i. rewrite Hat.
    apply decide_ext. rewrite elem_of_cons. split; [tauto|]. intros [[->|?] ?]; [done|tauto].
Qed.

(** Accepting the candidate in the first phase, following it after the second. *)
Definition accepted (n : Node) : Node := with_next_master (Some me) n.
Definition committed (n : Node) : Node :=
  match cluster_relationship_commit_master 0 0 me n with Some (_, n') => n' | None => n end.

(** Does not object: is not itself a master, and waits for no other server. *)
Definition willing (i : nat) (n : Node) : Prop :=
  nd_master n ≠ Some i ∧ (nd_next_master n = None ∨ nd_next_master n = Some me).

Lemma with_next_same m n : nd_next_master n = m → with_next_master m n = n.
Proof. intros <-. by destruct n. Qed.

Lemma pre_set_willing i n : willing i n →
  cluster_relationship_pre_set_master me n = Some (0, accepted n).
Proof.
  intros [_ [Hn|Hn]]; unfold cluster_relationship_pre_set_master, accepted; mexec; rewrite Hn.
  - done.
  - rewrite decide_True by done. by rewrite (with_next_same _ n).
Qed.

Lemma set_master_zero n : ∃ n', cluster_relationship_set_master 0 0 me n = Some (0, n').
Proof.
  unfold cluster_relationship_set_master, update_field_is_master. mexec.
  case_decide; [by eexists|]. case_bool_decide; cbn [andb negb Z.eqb]; by eexists.
Qed.

Lemma commit_accepted n : nd_next_master n = Some me →
  cluster_relationship_commit_master 0 0 me n = Some (0, committed n) ∧
  nd_myself (committed n) = nd_myself n ∧
  cs_id <$> nd_servers (committed n) = cs_id <$> nd_servers n ∧
  nd_next_master (committed n) = None.
Proof.
  intros Hn. unfold committed. destruct (set_master_zero n) as (n' & Hset).
  destruct (set_master_ids _ _ _ _ _ _ Hset) as (Hi & Hmy & _).
  assert (Hc : cluster_relationship_commit_master 0 0 me n = Some (0, with_next_master None n')).
  { unfold cluster_relationship_commit_master. mexec. rewrite Hn, decide_True by done.
    by rewrite Hset. }
  rewrite Hc. done.
Qed.

Lemma commit_master n : nd_next_master n = Some me →
  nd_master (committed n) = Some me ∧
  (nd_myself n = me → nd_master n ≠ Some me →
    nd_producer (committed n) = true ∧ nd_strict (committed n) = true ∧
    nd_inode_sn (committed n) = nd_inode_sn n + INODE_SN_MAX_QPS ∧
    nd_starts (committed n) = nd_starts n + 1).
Proof.
  intros Hn. unfold committed, cluster_relationship_commit_master. mexec.
  rewrite Hn, decide_True by done.
  unfold cluster_relationship_set_master, update_field_is_master. mexec.
  case_decide as Hold; [cbn; done|].
  case_bool_decide as Hmine; cbn [andb negb Z.eqb]; cbn; [done|].
  split; [done|]. intros Hme. congruence.
Qed.

Lemma handle_next cmd id i n : i ≠ me → ids !! me = Some id →
  nd_myself n = i → cs_id <$> nd_servers n = ids → nd_master n ≠ Some i →
  handle cmd i id n
  = match cmd with
    | PRE_SET_NEXT_MASTER => cluster_relationship_pre_set_master me
    | COMMIT_NEXT_MASTER => cluster_relationship_commit_master 0 0 me
    end n.
Proof.
  intros Him Hid Hmy Hn Hm. unfold handle. rewrite decide_False by done.
  unfold cluster_deal_next_master. mexec.
  rewrite (proj2 (expect_body_length_law _ _)) by (unfold zlen; by rewrite int2buff_len).
  cbn [negb Z.eqb]. rewrite Hmy, decide_False by done.
  rewrite take_ge by (rewrite int2buff_len; lia).
  rewrite buff2int_law by (by apply (Forall_lookup_1 _ _ _ _ Hids Hid)).
  unfold fdir_get_server_by_id. rewrite Hn.
  rewrite (proj2 (get_by_id_law id ids me Hnodup) Hid). by destruct cmd.
Qed.

(** What holds before the election. *)
Definition election_ready (w : World) : Prop :=
  (me < length ids)%nat ∧ length w = length ids ∧
  (∀ i n, w !! i = Some n → nd_myself n = i ∧ node_ok ids n).

Lemma ready_same w : election_ready w → same_world w.
Proof.
  intros (Hme & Hlen & Hok). split; [done|]. intros i n Hi.
  destruct (Hok _ _ Hi) as [Hmy Hn]. split; [done|apply (no_ids _ _ Hn)].
Qed.

Lemma same_all u : same_world u → Forall (λ i, is_Some (u !! i)) (seq 0 (length ids)).
Proof.
  intros [Hu _]. apply Forall_forall. intros i [_ Hi]%elem_of_seq.
  apply lookup_lt_is_Some. lia.
Qed.

Lemma first_phase id w fail res : election_ready w → ids !! me = Some id →
  (∀ i n, w !! i = Some n → reached i → willing i n) →
  ∃ res' succ' fail' w', 0 < succ' ∧ same_world w' ∧
    notify_all reachable 0 0 me me PRE_SET_NEXT_MASTER (seq 0 (length ids)) fail res 0 w
      = Some (inr (res', succ', fail'), w') ∧
    ∀ i, w' !! i = (if decide (reached i) then accepted <$> w !! i else w !! i).
Proof.
  intros Hready Hid Hwill. pose proof (ready_same _ Hready) as Hsw.
  destruct Hready as (Hme & Hlen & Hok).
  destruct (notify_all_ok PRE_SET_NEXT_MASTER id accepted (seq 0 (length ids)) w fail res 0)
    as (res1 & s1 & f1 & w1 & Hrun & Hw1 & _ & Hs & Hat);
    [done|apply NoDup_seq|done|by apply same_all| |].
  { intros i n _ Hr Hi. destruct (Hok _ _ Hi) as [Hmy Hn]. split; [|done].
    pose proof (Hwill _ _ Hi Hr) as Hwi. destruct (decide (i = me)) as [Him|Him].
    - unfold handle. rewrite decide_True by done. by apply (pre_set_willing i).
    - rewrite (handle_next _ _ _ _ Him Hid Hmy (no_ids _ _ Hn) (proj1 Hwi)).
      by apply (pre_set_willing i). }
  exists res1, s1, f1, w1. split.
  { apply (Hs me); [apply elem_of_seq; lia|by left]. }
  split; [done|]. split; [done|]. intros i. rewrite Hat.
  destruct (decide (i ∈ seq 0 (length ids) ∧ reached i)) as [[_ Hi]|Hi].
  { by rewrite decide_True. }
  case_decide; [|done]. rewrite lookup_ge_None_2; [done|]. destruct (decide (i < length ids)%nat); [|lia].
  exfalso. apply Hi. split; [apply elem_of_seq; lia|done].
Qed.

Lemma second_phase id w w1 fail res : election_ready w → ids !! me = Some id →
  (∀ i n, w !! i = Some n → reached i → willing i n) → same_world w1 →
  (∀ i, w1 !! i = (if decide (reached i) then accepted <$> w !! i else w !! i)) →
  ∃ res' succ' fail' w', 0 < succ' ∧
    notify_all reachable 0 0 me me COMMIT_NEXT_MASTER (seq 0 (length ids)) fail res 0 w1
      = Some (inr (res', succ', fail'), w') ∧
    (∀ i n, w !! i = Some n → reached i → w' !! i = Some (committed (accepted n))) ∧
    (∀ i, ¬ reached i → w' !! i = w !! i).
Proof.
  intros (Hme & Hlen & Hok) Hid Hwill Hw1 Hat1.
  destruct (notify_all_ok COMMIT_NEXT_MASTER id committed (seq 0 (length ids)) w1 fail res 0)
    as (res2 & s2 & f2 & w2 & Hrun & Hw2 & _ & Hs & Hat);
    [done|apply NoDup_seq|done|by apply same_all| |].
  { intros i n Hi Hr Hi1. rewrite Hat1, decide_True in Hi1 by done.
    destruct (w !! i) as [n0|] eqn:Hi0; [|done]. injection Hi1 as <-.
    destruct (Hok _ _ Hi0) as [Hmy Hn].
    pose proof (Hwill _ _ Hi0 Hr) as [Hwi _].
    destruct (commit_accepted (accepted n0) eq_refl) as (Hc & Hc1 & Hc2 & _).
    split; [|done]. destruct (decide (i = me)) as [Him|Him].
    - unfold handle. by rewrite decide_True by done.
    - rewrite (handle_next _ _ _ _ Him Hid); [done|done| |done].
      apply (no_ids _ _ Hn). }
  exists res2, s2, f2, w2. split.
  { apply (Hs me); [apply elem_of_seq; lia|by left]. }
  split; [done|]. split.
  - intros i n Hi Hr. rewrite Hat, decide_True, Hat1, decide_True, Hi; [done|done|].
    split; [|done]. apply lookup_lt_Some in Hi. apply elem_of_seq. lia.
  - intros i Hr. rewrite Hat, decide_False by (by intros [_ ?]). by rewrite Hat1, decide_False.
Qed.

(** [C12] When no server that the candidate reaches objects (none thinks it is the master
    itself or waits for another candidate) the two phases succeed: all of them have the
    candidate as their master, wait for none, and their flags say so; the candidate has
    started to produce the binlog, is strict about errors and has moved its inode
    numbers on. Servers that it does not reach are as before. *)
Theorem election_agrees w nm : election_ready w →
  (∀ i n, w !! i = Some n → reached i → willing i n) →
  w !! me = Some nm →
  ∃ w', cluster_notify_master_changed reachable 0 0 me me w = Some (0, w') ∧
    (∀ i n, w !! i = Some n → reached i → ∃ n', w' !! i = Some n' ∧
      nd_master n' = Some me ∧ nd_next_master n' = None ∧ node_ok ids n') ∧
    (∀ i, ¬ reached i → w' !! i = w !! i) ∧
    ∃ nm', w' !! me = Some nm' ∧ nd_producer nm' = true ∧ nd_strict nm' = true ∧
      nd_inode_sn nm' = nd_inode_sn nm + INODE_SN_MAX_QPS.
Proof.
  intros Hready Hwill Hnm. pose proof Hready as (Hme & Hlen & Hok).
  destruct (lookup_lt_is_Some_2 _ _ Hme) as [id Hid].
  destruct (first_phase id w None ENOENT Hready Hid Hwill)
    as (r1 & s1 & f1 & w1 & Hs1 & Hw1 & Hrun1 & Hat1).
  destruct (second_phase id w w1 f1 ENOENT Hready Hid Hwill Hw1 Hat1)
    as (r2 & s2 & f2 & w2 & Hs2 & Hrun2 & Hlast & Hrest).
  destruct (Hok _ _ Hnm) as [Hmy Hn]. exists w2. split; [|split; [|split; [done|]]].
  - unfold cluster_notify_master_changed, server_indices. mexec. rewrite Hnm.
    replace (length (nd_servers nm)) with (length ids) by (by rewrite <- (no_ids _ _ Hn), length_fmap).
    rewrite Hrun1. destruct (Z.eqb_spec s1 0); [lia|].
    rewrite Hrun2. by destruct (Z.eqb_spec s2 0); [lia|].
  - intros i n Hi Hr. exists (committed (accepted n)). split; [by apply Hlast|].
    destruct (commit_accepted (accepted n) eq_refl) as (Hc & _ & _ & Hnx).
    destruct (commit_master (accepted n) eq_refl) as [Hm _]. split; [done|]. split; [done|].
    eapply (node_ok_commit ids 0 0 me (accepted n)); [|done|done].
    destruct (Hok _ _ Hi) as [_ Hn']. by apply node_ok_next.
  - exists (committed (accepted nm)). split; [apply Hlast; [done|by left]|].
    destruct (commit_master (accepted nm) eq_refl) as [_ Hm].
    destruct (Hwill _ _ Hnm (or_introl eq_refl)) as [Hnot _].
    destruct (Hm Hmy Hnot) as (? & ? & ? & _). done.
Qed.

(** ** When somebody objects *)

Definition objects (i : nat) (n : Node) : Prop :=
  nd_master n = Some i ∨ ∃ o, nd_next_master n = Some o ∧ o ≠ me.

Definition waits_for_none (n : Node) : Prop :=
  nd_next_master n = None ∨ nd_next_master n = Some me.

(** Server [i] keeps its master, or was the master itself and steps down. *)
Definition no_new_master (i : nat) (n n' : Node) : Prop :=
  nd_master n' = nd_master n ∨ nd_master n = Some i ∧ nd_master n' = None.

Lemma no_new_master_trans i n1 n2 n3 :
  no_new_master i n1 n2 → no_new_master i n2 n3 → no_new_master i n1 n3.
Proof. unfold no_new_master. intros [H12|[H12 H12']] [H23|[H23 H23']]; intuition congruence. Qed.

Lemma pre_set_run n : ∃ r n',
  cluster_relationship_pre_set_master me n = Some (r, n') ∧
  nd_myself n' = nd_myself n ∧ nd_master n' = nd_master n ∧
  (waits_for_none n → r = 0 ∧ waits_for_none n') ∧
  ((∃ o, nd_next_master n = Some o ∧ o ≠ me) → r ≠ 0).
Proof.
  unfold cluster_relationship_pre_set_master, waits_for_none. mexec.
  destruct (nd_next_master n) as [next|] eqn:Hn; [case_decide|]; eexists _, _; split; try done;
    cbn; rewrite ?Hn; naive_solver.
Qed.

Lemma trigger_total n : ∃ n', cluster_relationship_trigger_reselect_master n = Some ((), n').
Proof.
  unfold cluster_relationship_trigger_reselect_master, cluster_unset_master. mexec.
  cbn [nd_master with_modes]. destruct (nd_master n); by eexists.
Qed.

Lemma handle_pre i id n : ids !! me = Some id → nd_myself n = i → node_ok ids n →
  ∃ r n', handle PRE_SET_NEXT_MASTER i id n = Some (r, n') ∧ nd_myself n' = i ∧
    node_ok ids n' ∧ no_new_master i n n' ∧
    (i = me → waits_for_none n → r = 0 ∧ waits_for_none n') ∧
    (i ≠ me → objects i n → r ≠ 0).
Proof.
  intros Hid Hmy Hn. destruct (pre_set_run n) as (r & n' & Hrun & Hmy' & Hm & Hw & Ho).
  assert (Hmel : (me < length ids)%nat) by by eapply lookup_lt_Some.
  pose proof (node_ok_pre_set _ _ _ _ _ Hn Hmel Hrun) as Hn'.
  destruct (decide (i = me)) as [Him|Him].
  { exists r, n'. unfold handle. rewrite decide_True by done. split; [done|].
    split; [congruence|]. split; [done|]. split; [by left|]. split; [by auto|done]. }
  destruct (decide (nd_master n = Some i)) as [Hself|Hself].
  - unfold handle. rewrite decide_False by done. unfold cluster_deal_next_master. mexec.
    rewrite (proj2 (expect_body_length_law _ _)) by (unfold zlen; by rewrite int2buff_len).
    cbn [negb Z.eqb]. rewrite Hmy, decide_True by done.
    destruct (cluster_relationship_trigger_reselect_master n) as [[u n1]|] eqn:Ht.
    2: { by destruct (trigger_total n) as (? & ?); congruence. }
    destruct (node_ok_trigger _ _ _ _ Hn Ht) as (Hn1 & Hm1 & _).
    exists EEXIST, n1. split; [done|]. split; [|split; [done|split; [by right|done]]].
    rewrite <- Hmy. assert (Hk : keeps nd_myself cluster_relationship_trigger_reselect_master).
    { unfold cluster_relationship_trigger_reselect_master, cluster_unset_master. keeps_tac. }
    by apply Hk in Ht.
  - rewrite (handle_next _ _ _ _ Him Hid Hmy (no_ids _ _ Hn) Hself).
    exists r, n'. split; [done|]. split; [congruence|]. split; [done|]. split; [by left|].
    split; [done|]. intros _ [?|?]; [done|by apply Ho].
Qed.

Definition all_ok (w : World) : Prop :=
  length w = length ids ∧ ∀ i n, w !! i = Some n → nd_myself n = i ∧ node_ok ids n.

Lemma all_ok_same w : all_ok w → same_world w.
Proof.
  intros [Hlen Hok]. split; [done|]. intros i n Hi.
  destruct (Hok _ _ Hi) as [Hmy Hn]. split; [done|apply (no_ids _ _ Hn)].
Qed.

Lemma all_ok_insert w i n : all_ok w → nd_myself n = i → node_ok ids n → all_ok (<[i := n]> w).
Proof.
  intros [Hlen Hok] Hmy Hn. split; [by rewrite length_insert|]. intros j m.
  rewrite list_lookup_insert_Some. intros [(<- & <- & _)|[_ Hj]]; [done|by apply Hok].
Qed.

(** Nobody gets a new master between two worlds. *)
Definition none_new (w w' : World) : Prop :=
  ∀ j m, w !! j = Some m → ∃ m', w' !! j = Some m' ∧ no_new_master j m m'.

Lemma none_new_insert w w' j n n' : w !! j = Some n → no_new_master j n n' →
  none_new (<[j := n']> w) w' → none_new w w'.
Proof.
  intros Hj Hn Hw k m Hk. destruct (decide (k = j)) as [->|Hkj].
  - rewrite Hj in Hk. injection Hk as <-.
    destruct (Hw j n') as (m' & Hm' & Hnew); [apply list_lookup_insert_eq; by eapply lookup_lt_Some|].
    exists m'. split; [done|]. by eapply no_new_master_trans.
  - apply Hw. by rewrite list_lookup_insert_ne by done.
Qed.

Lemma none_new_refl w : none_new w w.
Proof. intros j m Hj. exists m. split; [done|by left]. Qed.

Lemma notify_all_objection id i l : ids !! me = Some id → reached i → i ≠ me →
  ∀ w fail res succ n nm, NoDup l → i ∈ l → all_ok w → Forall (λ j, is_Some (w !! j)) l →
  w !! i = Some n → objects i n → w !! me = Some nm → waits_for_none nm →
  ∃ rc w', rc ≠ 0 ∧ none_new w w' ∧
    notify_all reachable 0 0 me me PRE_SET_NEXT_MASTER l fail res succ w = Some (inl rc, w').
Proof.
  intros Hid Hri Him. induction l as [|j l IH]; intros w fail res succ n nm Hnd Hin Hok Hl Hi Ho Hme Hfree.
  { by apply elem_of_nil in Hin. }
  apply NoDup_cons in Hnd as [Hj Hnd]. apply Forall_cons in Hl as [[mj Hmj] Hl].
  pose proof (all_ok_same _ Hok) as Hsw. cbn [notify_all].
  destruct (decide (reached j)) as [Hrj|Hrj].
  2: { rewrite (bind_run _ _ _ _ _ (notify_unreached _ _ _ _ Hsw Hid Hrj)).
       apply (IH _ _ _ _ n nm); try done. apply elem_of_cons in Hin as [->|?]; done. }
  destruct (proj2 Hok _ _ Hmj) as [Hmy Hnj].
  destruct (handle_pre j id mj Hid Hmy Hnj) as (r & mj' & Hh & Hmy' & Hnj' & Hnew & Hjme & Hobj).
  rewrite (bind_run _ _ _ _ _ (notify_reached _ _ _ _ _ _ _ Hsw Hid Hrj Hmj Hh)).
  assert (Hok' : all_ok (<[j := mj']> w)) by by apply all_ok_insert.
  destruct (Z.eqb_spec r 0) as [->|Hr]; cbn [negb].
  - assert (Hji : j ≠ i).
    { intros ->. rewrite Hmj in Hi. injection Hi as <-. by apply Hobj. }
    assert (∃ nm', <[j := mj']> w !! me = Some nm' ∧ waits_for_none nm') as (nm' & Hme' & Hfree').
    { destruct (decide (j = me)) as [->|Hjm].
      - exists mj'. rewrite Hme in Hmj. injection Hmj as <-. split; [|by apply Hjme].
        apply list_lookup_insert_eq. by eapply lookup_lt_Some.
      - exists nm. by rewrite list_lookup_insert_ne. }
    edestruct (IH (<[j := mj']> w)) as (rc & w' & Hrc & Hnn & Hrun);
      [done|by apply elem_of_cons in Hin as [?|?]|done| |by rewrite list_lookup_insert_ne|done|done|done|].
    { eapply Forall_impl; [exact Hl|]. intros k Hk. cbn. apply lookup_lt_is_Some.
      rewrite length_insert. by apply lookup_lt_is_Some. }
    exists rc, w'. split; [done|]. split; [exact (none_new_insert _ _ _ _ _ Hmj Hnew Hnn)|exact Hrun].
  - case_decide as Hjm.
    { exfalso. rewrite Hjm, Hme in Hmj. injection Hmj as <-. by apply Hr, Hjme. }
    exists r, (<[j := mj']> w). split; [done|]. split; [|done].
    exact (none_new_insert _ _ _ _ _ Hmj Hnew (none_new_refl _)).
Qed.

(** [C13] One objection is enough: when another server that the candidate reaches thinks
    it is the master itself, or waits for a different candidate, the election fails and
    no server at all gets a new master; the only thing that may happen to a server's
    master is that one which thought it was the master itself steps down. *)
Theorem election_objection w i n nm : all_ok w → reached i → i ≠ me →
  w !! i = Some n → objects i n →
  w !! me = Some nm → nd_next_master nm = None ∨ nd_next_master nm = Some me →
  ∃ rc w', rc ≠ 0 ∧
    cluster_notify_master_changed reachable 0 0 me me w = Some (rc, w') ∧
    ∀ j m, w !! j = Some m → ∃ m', w' !! j = Some m' ∧
      (nd_master m' = nd_master m ∨ nd_master m = Some j ∧ nd_master m' = None).
Proof.
  intros Hok Hri Him Hi Ho Hme Hfree.
  assert (Hmel : (me < length ids)%nat) by (rewrite <- (proj1 Hok); by eapply lookup_lt_Some).
  destruct (lookup_lt_is_Some_2 _ _ Hmel) as [id Hid].
  destruct (notify_all_objection id i (seq 0 (length ids)) Hid Hri Him w None ENOENT 0 n nm)
    as (rc & w' & Hrc & Hnn & Hrun); try done.
  { apply NoDup_seq. }
  { apply elem_of_seq. rewrite <- (proj1 Hok). apply lookup_lt_Some in Hi. lia. }
  { by apply same_all, all_ok_same. }
  exists rc, w'. split; [done|]. split; [|done].
  unfold cluster_notify_master_changed, server_indices. mexec. rewrite Hme.
  destruct (proj2 Hok _ _ Hme) as [_ Hn].
  replace (length (nd_servers nm)) with (length ids) by (by rewrite <- (no_ids _ _ Hn), length_fmap).
  by rewrite Hrun.
Qed.
End agree.
