(* ===== verification/ClusterPeers.v ===== *)
(** * A slave and its master

    The theorems of [Cluster] about two servers: a ping brings the statuses of all
    servers and the inode number to the slave, once; joining the master and being
    connected back gives the master the slave's position; whom a slave lets replicate
    to it. *)

From Stdlib Require Import Ascii.
From S2P Require Import Prelude CText Proto Service Replication Cluster.
From S2P Require Import Election.

(** ** Pinging *)

Lemma set_status_statuses i v n : (i < length (nd_servers n))%nat →
  cs_status <$> nd_servers (node_set_status i v n) = <[i := v]> (cs_status <$> nd_servers n).
Proof.
  intros [s Hs]%lookup_lt_is_Some. unfold node_set_status. rewrite Hs.
  destruct (Z.eqb_spec (cs_status s) v) as [<-|Hv].
  - symmetry. apply list_insert_id. by rewrite list_lookup_fmap, Hs.
  - cbn. apply list_eq. intros j. rewrite list_lookup_fmap, list_lookup_alter.
    case_decide as Hij; [subst j|].
    + rewrite Hs, list_lookup_insert_eq; [done|]. rewrite length_fmap. by eapply lookup_lt_Some.
    + by rewrite list_lookup_insert_ne, list_lookup_fmap by done.
Qed.

Lemma view_ids n n' : node_view n' = node_view n →
  cs_id <$> nd_servers n' = cs_id <$> nd_servers n.
Proof.
  intros [= Hs _ _ _]. apply (f_equal (fmap fst)) in Hs. by rewrite <- !list_fmap_compose in Hs.
Qed.

Lemma set_status_sn i v n : nd_inode_sn (node_set_status i v n) = nd_inode_sn n.
Proof. unfold node_set_status. destruct (nd_servers n !! i); [|done]. by case_match. Qed.

Section peers.
Context `{!FcServers} `{!ByteOrder} `{!ServerFrame}.
Context (ids : list Z) (Hnodup : NoDup ids) (Hids : Forall is_int32 ids).

Lemma get_by_index n i id : cs_id <$> nd_servers n = ids → ids !! i = Some id →
  fdir_get_server_by_id id n = Some i.
Proof. intros Hn Hi. unfold fdir_get_server_by_id. rewrite Hn. by apply get_by_id_law. Qed.

Lemma ping_part_fields c rest (t : text) : t = ping_part c ++ rest →
  take 4 t = int2buff (cs_id c) ∧ t !! 4%nat = Some (chr (cs_status c)) ∧ drop 5 t = rest.
Proof.
  intros ->. unfold ping_part. rewrite <- app_assoc. split; [|split].
  - by rewrite take_app_length' by (by rewrite int2buff_len).
  - etrans; [apply (lookup_app_r (int2buff (cs_id c))); by rewrite int2buff_len|].
    by rewrite int2buff_len.
  - rewrite app_assoc, drop_app_length'; [done|]. by rewrite length_app, int2buff_len.
Qed.

(** The parts from place [k] on give the statuses from there on. *)
Lemma take_parts_spec l : ∀ k s, cs_id <$> nd_servers s = ids → cs_id <$> l = drop k ids →
  Forall (λ c, -128 ≤ cs_status c < 128) l →
  ∃ s', take_parts (length l) (l ≫= ping_part) s = Some ((), s') ∧
    nd_inode_sn s' = nd_inode_sn s ∧
    (k ≤ length ids → cs_status <$> nd_servers s' = take k (cs_status <$> nd_servers s) ++ (cs_status <$> l))%nat.
Proof.
  induction l as [|c l IH]; intros k s Hs Hl Hst.
  { exists s. split; [done|]. split; [done|]. intros Hk. rewrite take_ge; [by rewrite app_nil_r|].
    rewrite length_fmap. apply (f_equal length) in Hl. rewrite length_drop in Hl.
    apply (f_equal length) in Hs. rewrite length_fmap in Hs. simpl in Hl. lia. }
  apply Forall_cons in Hst as [Hc Hst]. rewrite fmap_cons in Hl.
  assert (Hk : ids !! k = Some (cs_id c)).
  { by rewrite <- (Nat.add_0_r k), <- lookup_drop, <- Hl. }
  assert (Hlen : (k < length (nd_servers s))%nat).
  { rewrite <- (length_fmap cs_id), Hs. by eapply lookup_lt_Some. }
  assert (Hl' : cs_id <$> l = drop (S k) ids).
  { rewrite <- Nat.add_1_r, <- drop_drop, <- Hl. done. }
  set (s1 := node_set_status k (cs_status c) s).
  assert (Hs1 : cs_id <$> nd_servers s1 = ids).
  { unfold s1. by rewrite (view_ids _ _ (set_status_view _ _ _)). }
  destruct (IH (S k) s1 Hs1 Hl' Hst) as (s' & Hrun & Hsn & Hres).
  exists s'. split; [|split].
  - rewrite bind_cons. cbn [length take_parts].
    destruct (ping_part_fields c (l ≫= ping_part) _ eq_refl) as (-> & -> & ->).
    mexec. rewrite buff2int_law by (by apply (Forall_lookup_1 _ _ _ _ Hids Hk)).
    by rewrite (get_by_index _ _ _ Hs Hk), char_of_chr by done.
  - rewrite Hsn. apply set_status_sn.
  - intros _. rewrite Hres by (rewrite <- Hs, length_fmap; lia). unfold s1.
    rewrite set_status_statuses by done. rewrite fmap_cons.
    rewrite (take_S_r _ k (cs_status c)).
    + by rewrite take_insert_ge, <- app_assoc by lia.
    + apply list_lookup_insert_eq. by rewrite length_fmap.
Qed.

Lemma ping_parts_len l : length (l ≫= ping_part) = (5 * length l)%nat.
Proof.
  induction l as [|c l IH]; [done|]. rewrite bind_cons, length_app, IH. unfold ping_part.
  rewrite length_app, int2buff_len. simpl. lia.
Qed.

(** What the header of an answer does. *)
Definition take_sn (sn : Z) (s : Node) : Node :=
  if nd_inode_sn s <? sn then with_inode_sn sn s else s.

Lemma ping_header sn l s : is_int64 sn → (length l ≤ 1636)%nat →
  proto_ping_master (long2buff sn ++ int2buff (zlen l) ++ (l ≫= ping_part)) s
  = (take_parts (length l) (l ≫= ping_part);; mret 0) (take_sn sn s).
Proof.
  intros Hsn Hlen. unfold proto_ping_master.
  set (body := long2buff sn ++ _ ++ _).
  assert (Hb : zlen body = 12 + zlen l * 5).
  { unfold body, zlen. rewrite !length_app, long2buff_len, int2buff_len, ping_parts_len. lia. }
  assert (Hcount : 0 ≤ zlen l ≤ 1636) by (unfold zlen; lia).
  rewrite Hb. destruct (Z.ltb_spec (8 * 1024) (12 + zlen l * 5)); [lia|].
  destruct (Z.ltb_spec (12 + zlen l * 5) 12); [lia|].
  assert (Hd8 : drop 8 body = int2buff (zlen l) ++ (l ≫= ping_part)).
  { unfold body. by rewrite drop_app_length' by (by rewrite long2buff_len). }
  assert (Hd12 : drop 12 body = l ≫= ping_part).
  { change 12%nat with (8 + 4)%nat. rewrite <- drop_drop, Hd8.
    by rewrite drop_app_length' by (by rewrite int2buff_len). }
  assert (Ht8 : take 8 body = long2buff sn).
  { unfold body. by rewrite take_app_length' by (by rewrite long2buff_len). }
  rewrite Ht8, Hd8, Hd12, take_app_length' by (by rewrite int2buff_len).
  rewrite buff2int_law by (unfold is_int32; lia). rewrite buff2long_law by done.
  replace (int32 (12 + zlen l * 5)) with (12 + zlen l * 5) by (unfold int32, wrap_signed; simpl; divlia).
  rewrite Z.eqb_refl. cbn [negb]. unfold zlen at 1. by rewrite Nat2Z.id.
Qed.

Lemma take_sn_spec sn s : nd_servers (take_sn sn s) = nd_servers s ∧
  nd_inode_sn (take_sn sn s) = Z.max (nd_inode_sn s) sn.
Proof. unfold take_sn. destruct (Z.ltb_spec (nd_inode_sn s) sn); cbn; split; (done || lia). Qed.

Lemma ping_answer_run sn l s : is_int64 sn → (length l ≤ 1636)%nat →
  cs_id <$> nd_servers s = ids → cs_id <$> l = ids →
  Forall (λ c, -128 ≤ cs_status c < 128) l →
  ∃ s', proto_ping_master (long2buff sn ++ int2buff (zlen l) ++ (l ≫= ping_part)) s = Some (0, s') ∧
    nd_inode_sn s' = Z.max (nd_inode_sn s) sn ∧
    cs_status <$> nd_servers s' = cs_status <$> l.
Proof.
  intros Hsn Hlen Hs Hl Hst. rewrite ping_header by done.
  destruct (take_sn_spec sn s) as [Hserv Hmax].
  destruct (take_parts_spec l 0 (take_sn sn s)) as (s' & Hrun & Hsn' & Hres);
    [by rewrite Hserv|by rewrite drop_0|done|].
  rewrite (bind_run _ _ _ _ _ Hrun). exists s'. split; [done|]. split; [by rewrite Hsn'|].
  rewrite Hres by lia. done.
Qed.

Lemma ping_answer_short sn s : is_int64 sn → sn ≤ nd_inode_sn s →
  proto_ping_master (long2buff sn ++ int2buff 0) s = Some (0, s).
Proof.
  intros Hsn Hle.
  assert (Hrun : proto_ping_master (long2buff sn ++ int2buff 0) s
                 = Some (0, take_sn sn s)).
  { etrans; [|exact (ping_header sn [] s Hsn ltac:(simpl; lia))]. cbn [mbind list_bind].
    by rewrite app_nil_r. }
  rewrite Hrun. unfold take_sn. by destruct (Z.ltb_spec (nd_inode_sn s) sn); [lia|].
Qed.

(** [C27] When a slave that has joined pings its master and something has changed since
    it was last told, the answer makes the statuses of all servers at the slave those at
    the master, its inode number at least the master's, and changes neither its master
    nor the flags; a second ping that nothing happened before is answered
    without the statuses and changes nothing. *)
Theorem ping_brings_statuses m s p sp :
  cs_id <$> nd_servers m = ids → cs_id <$> nd_servers s = ids → (length ids ≤ 1636)%nat →
  Forall (λ c, -128 ≤ cs_status c < 128) (nd_servers m) → is_int64 (nd_inode_sn m) →
  nd_master m = Some (nd_myself m) →
  nd_servers m !! p = Some sp → cs_last_change_version sp ≠ nd_change_version m →
  ∃ body m' s' body', cluster_deal_ping_master [] (Some p) m = Some ((0, body), m') ∧
    proto_ping_master body s = Some (0, s') ∧
    cs_status <$> nd_servers s' = cs_status <$> nd_servers m ∧
    nd_inode_sn s' = Z.max (nd_inode_sn s) (nd_inode_sn m) ∧
    node_view s' = node_view s ∧
    cluster_deal_ping_master [] (Some p) m' = Some ((0, body'), m') ∧ zlen body' = 12 ∧
    proto_ping_master body' s' = Some (0, s').
Proof.
  intros Hm Hs Hlen Hst Hsn Hmaster Hp Hchange.
  assert (Hl : (length (nd_servers m) ≤ 1636)%nat) by (by rewrite <- (length_fmap cs_id), Hm).
  destruct (ping_answer_run (nd_inode_sn m) (nd_servers m) s Hsn Hl Hs Hm Hst)
    as (s' & Hrun & Hsn' & Hres).
  set (m' := alter_server (set_cs_last_change (nd_change_version m)) p m).
  exists (long2buff (nd_inode_sn m) ++ int2buff (zlen (nd_servers m)) ++ (nd_servers m ≫= ping_part)), m', s',
    (long2buff (nd_inode_sn m) ++ int2buff 0).
  assert (Hzero : server_expect_body_length 0 0 = 0) by (by apply expect_body_length_law).
  unfold cluster_deal_ping_master. change (zlen []) with 0. rewrite Hzero. cbn [negb Z.eqb]. mexec.
  split; [|split; [done|split; [done|split; [done|split; [by apply keeps_ping in Hrun|split; [|split]]]]]].
  - rewrite decide_True, Hp by done. by rewrite (proj2 (Z.eqb_neq _ _) Hchange).
  - rewrite decide_True by done. unfold m' at 1. cbn [nd_servers alter_server with_servers].
    rewrite list_lookup_alter, decide_True, Hp by done. cbn [fmap option_fmap option_map].
    assert (Hv : nd_change_version m' = nd_change_version m) by (cbn; lia).
    rewrite Hv. cbn [cs_last_change_version set_cs_last_change]. by rewrite Z.eqb_refl.
  - unfold zlen. by rewrite length_app, long2buff_len, int2buff_len.
  - apply ping_answer_short; [done|lia].
Qed.

(** ** Joining *)

Context (config_sign : text) (CLUSTER_ID INCONSISTENT task_size sizeof_ProtoHeader : Z).
Context (Hsign : length config_sign = SIGN_LEN) (Hcluster : is_int32 CLUSTER_ID).

(** A field behind others. *)
Lemma drop_fields (a b : text) k : length a = k → drop k (a ++ b) = b.
Proof. intros <-. apply drop_app_length. Qed.
Lemma take_field (a b : text) k : length a = k → take k (a ++ b) = a.
Proof. intros <-. apply take_app_length. Qed.

Lemma join_request_fields id key : is_int32 id → length key = 8%nat →
  let body := int2buff CLUSTER_ID ++ int2buff id ++ config_sign ++ key in
  zlen body = 4 + 4 + Z.of_nat SIGN_LEN + 8 ∧ buff2int (take 4 body) = CLUSTER_ID ∧
  buff2int (take 4 (drop 4 body)) = id ∧ take SIGN_LEN (drop 8 body) = config_sign ∧
  take 8 (drop (8 + SIGN_LEN) body) = key.
Proof.
  intros Hid Hkey body.
  assert (H4 : drop 4 body = int2buff id ++ config_sign ++ key).
  { apply drop_fields, int2buff_len. }
  assert (H8 : drop 8 body = config_sign ++ key).
  { change 8%nat with (4 + 4)%nat. rewrite <- drop_drop, H4. apply drop_fields, int2buff_len. }
  split; [|split; [|split; [|split]]].
  - unfold body, zlen. rewrite !length_app, !int2buff_len, Hsign, Hkey. unfold SIGN_LEN. lia.
  - unfold body. rewrite take_field by apply int2buff_len. by apply buff2int_law.
  - rewrite H4, take_field by apply int2buff_len. by apply buff2int_law.
  - rewrite H8. by apply take_field.
  - rewrite <- drop_drop, H8, drop_fields by done. apply take_ge. lia.
Qed.

Lemma join_slave_fields id size key : is_int32 id → is_int32 size → length key = 8%nat →
  let body := join_slave_body (JoinReq CLUSTER_ID id size key) in
  zlen body = 4 + 4 + 4 + 8 ∧ buff2int (take 4 body) = CLUSTER_ID ∧
  buff2int (take 4 (drop 4 body)) = id ∧ buff2int (take 4 (drop 8 body)) = size ∧
  take 8 (drop 12 body) = key.
Proof.
  intros Hid Hsize Hkey body.
  assert (H4 : drop 4 body = int2buff id ++ int2buff size ++ key).
  { apply drop_fields, int2buff_len. }
  assert (H8 : drop 8 body = int2buff size ++ key).
  { change 8%nat with (4 + 4)%nat. rewrite <- drop_drop, H4. apply drop_fields, int2buff_len. }
  split; [|split; [|split; [|split]]].
  - unfold body, zlen, join_slave_body. rewrite !length_app, !int2buff_len, Hkey. lia.
  - unfold body, join_slave_body. rewrite take_field by apply int2buff_len. by apply buff2int_law.
  - rewrite H4, take_field by apply int2buff_len. by apply buff2int_law.
  - rewrite H8, take_field by apply int2buff_len. by apply buff2int_law.
  - change 12%nat with (8 + 4)%nat. rewrite <- drop_drop, H8, drop_fields by apply int2buff_len.
    apply take_ge. lia.
Qed.

Lemma join_master_run m s p sp key : cs_id <$> nd_servers m = ids →
  cs_id <$> nd_servers s = ids → nd_myself s = p → nd_servers m !! p = Some sp →
  nd_master m = Some (nd_myself m) → length key = 8%nat →
  cluster_deal_join_master config_sign CLUSTER_ID (join_master_body config_sign CLUSTER_ID key s) None m
  = Some ((0, Some p), alter_server (λ c, set_cs_key key (set_cs_last_change (-1) c)) p m).
Proof.
  intros Hm Hs Hp Hsp Hmaster Hkey.
  assert (Hid : ids !! p = Some (cs_id sp)) by exact (server_id _ _ _ _ Hm Hsp).
  assert (Hmy : my_server_id s = cs_id sp).
  { unfold my_server_id. rewrite Hp. by destruct (ids_server _ _ _ _ Hs Hid) as (c & -> & <-). }
  destruct (join_request_fields (my_server_id s) key) as (F1 & F2 & F3 & F4 & F5);
    [rewrite Hmy; by apply (Forall_lookup_1 _ _ _ _ Hids Hid)|done|].
  unfold cluster_deal_join_master, join_master_body.
  rewrite F2, F3, F4, F5, (proj2 (expect_body_length_law _ _) F1), (Z.eqb_refl CLUSTER_ID).
  cbn [negb Z.eqb]. mexec. rewrite Hmy, (get_by_index _ _ _ Hm Hid).
  unfold cluster_check_config_sign. rewrite decide_True by done. cbn [negb Z.eqb].
  by rewrite decide_True by done.
Qed.

#[local] Notation fill_lines := (fill_binlog_last_lines task_size sizeof_ProtoHeader).

Definition env_good (env : JoinEnv) : Prop := (fill_lines env).1.1 = 0 ∧ je_consumer env = 0.

(** What the answer to the request to join a slave consists of. *)
Definition join_answer (env : JoinEnv) (n : Node) : text :=
  let '(_, count, lines) := fill_lines env in
  int2buff count ++ int2buff (zlen lines) ++ int2buff (je_position env).1 ++
  long2buff (je_position env).2 ++ long2buff (nd_data_version n) ++ lines.

(** Whom a slave lets replicate to it, when nothing fails on its side: just the
    server that it takes for the master, of its own cluster, with buffers of its size,
    that shows the key the slave gave its master when it joined; and not while an
    election has a candidate, nor a second time. *)
Lemma join_slave_accepts env n id size key joined : env_good env →
  cs_id <$> nd_servers n = ids → length key = 8%nat → is_int32 id → is_int32 size →
  let '(result, body, joined') :=
    cluster_deal_join_slave_req CLUSTER_ID INCONSISTENT task_size sizeof_ProtoHeader env
      (join_slave_body (JoinReq CLUSTER_ID id size key)) joined n in
  INCONSISTENT ≠ 0 →
  (result = 0 ↔ size = task_size ∧ joined = false ∧ nd_next_master n = None ∧
     key = from_option cs_key [] (nd_servers n !! nd_myself n) ∧
     ∃ m, nd_master n = Some m ∧ ids !! m = Some id) ∧
  (result = 0 → body = join_answer env n ∧ joined' = true) ∧
  (result ≠ 0 → body = [] ∧ joined' = joined).
Proof.
  intros [Hlines Hcons] Hn Hkey Hid Hsize.
  destruct (join_slave_fields id size key Hid Hsize Hkey) as (F1 & F2 & F3 & F4 & F5).
  unfold cluster_deal_join_slave_req.
  rewrite F2, F3, F4, F5, (proj2 (expect_body_length_law _ _) F1), (Z.eqb_refl CLUSTER_ID). cbn [negb Z.eqb].
  destruct (Z.eqb_spec size task_size) as [->|Hne]; cbn [negb]; [|naive_solver].
  assert (Hget : ∀ i, fdir_get_server_by_id id n = Some i ↔ ids !! i = Some id).
  { intros i. unfold fdir_get_server_by_id. rewrite Hn. by apply get_by_id_law. }
  destruct (fdir_get_server_by_id id n) as [peer|] eqn:Hpeer.
  2: { intros HI. split; [|naive_solver]. split; [done|]. intros (_ & _ & _ & _ & m & _ & Hm%Hget). done. }
  destruct (nd_next_master n) as [next|]; [case_decide; naive_solver|].
  case_bool_decide as Hmaster; cbn [negb].
  2: { intros HI. assert (¬ ∃ m, nd_master n = Some m ∧ ids !! m = Some id).
       { intros (m & Hm & Hmid%Hget). congruence. }
       destruct (nd_master n); naive_solver. }
  case_bool_decide as Hk; cbn [negb]; [|naive_solver].
  destruct joined; [naive_solver|].
  unfold join_answer. destruct (fill_lines env) as [[rc count] lines]. cbn in Hlines. subst rc.
  cbn [negb Z.eqb]. rewrite Hcons. cbn [negb Z.eqb]. intros _. split; [|done]. split; [|done].
  intros _. repeat split; try done. exists peer. split; [done|]. by apply Hget.
Qed.

Lemma join_answer_fields env n :
  let '(_, count, lines) := fill_lines env in
  is_int32 count → is_int32 (28 + zlen lines) → is_int32 (je_position env).1 →
  is_int64 (je_position env).2 → is_int64 (nd_data_version n) →
  let body := join_answer env n in
  zlen body = 28 + zlen lines ∧ buff2int (take 4 body) = count ∧
  buff2int (take 4 (drop 4 body)) = zlen lines ∧
  buff2int (take 4 (drop 8 body)) = (je_position env).1 ∧
  buff2long (take 8 (drop 12 body)) = (je_position env).2 ∧
  buff2long (take 8 (drop 20 body)) = nd_data_version n ∧ drop 28 body = lines.
Proof.
  unfold join_answer. destruct (fill_lines env) as [[rc count] lines].
  destruct (je_position env) as [index offset]. cbn beta iota delta [fst snd].
  intros Hc Hl Hi Ho Hv. set (body := int2buff count ++ _).
  set (b20 := long2buff (nd_data_version n) ++ lines).
  set (b12 := long2buff offset ++ b20). set (b8 := int2buff index ++ b12).
  assert (H4 : drop 4 body = int2buff (zlen lines) ++ b8) by (apply drop_fields, int2buff_len).
  assert (H8 : drop 8 body = b8).
  { change 8%nat with (4 + 4)%nat. rewrite <- drop_drop, H4. apply drop_fields, int2buff_len. }
  assert (H12 : drop 12 body = b12).
  { change 12%nat with (8 + 4)%nat. rewrite <- drop_drop, H8. apply drop_fields, int2buff_len. }
  assert (H20 : drop 20 body = b20).
  { change 20%nat with (12 + 8)%nat. rewrite <- drop_drop, H12. apply drop_fields, long2buff_len. }
  split.
  { unfold body, zlen. rewrite !length_app, !int2buff_len, !long2buff_len. lia. }
  assert (H28 : drop 28 body = lines).
  { change 28%nat with (20 + 8)%nat. rewrite <- drop_drop, H20. apply drop_fields, long2buff_len. }
  rewrite H4, H8, H12, H20, H28.
  unfold body, b8, b12, b20.
  rewrite !take_field by (apply int2buff_len || apply long2buff_len).
  unfold is_int32 in Hl. assert (0 ≤ zlen lines) by (unfold zlen; lia).
  rewrite !buff2int_law, !buff2long_law by (done || unfold is_int32; lia).
  repeat split; done.
Qed.

Lemma join_resp_run check env n r :
  let '(_, count, lines) := fill_lines env in
  is_int32 count → is_int32 (28 + zlen lines) → is_int32 (je_position env).1 →
  is_int64 (je_position env).2 → is_int64 (nd_data_version n) →
  ∀ index offset, check count lines (je_position env) = (0, (index, offset)) →
  ∃ r', cluster_deal_join_slave_resp check (join_answer env n) r = Some (0, r') ∧
    rl_slave r' = mkSlaveServer (ss_status (rl_slave r)) (nd_data_version n) index offset.
Proof.
  pose proof (join_answer_fields env n) as Hf. revert Hf.
  destruct (fill_lines env) as [[rc count] lines]. intros Hf Hc Hl Hi Ho Hv index offset Hcheck.
  destruct (Hf Hc Hl Hi Ho Hv) as (F0 & F1 & F2 & F3 & F4 & F5 & F6).
  unfold cluster_deal_join_slave_resp. rewrite F0, F1, F2, F3, F4, F5, F6.
  assert (0 ≤ zlen lines) by (unfold zlen; lia). unfold is_int32 in Hl.
  rewrite (proj2 (check_min_body_length_law _ _)) by lia. cbn [negb Z.eqb].
  replace (uint64 (28 + zlen lines)) with (28 + zlen lines) by (unfold uint64; symmetry; apply Z.mod_small; lia).
  rewrite (Z.eqb_refl (28 + zlen lines)). cbn [negb].
  destruct (je_position env) as [i o]. cbn [fst snd]. rewrite Hcheck. cbn [negb Z.eqb]. mexec.
  eexists. split; [done|]. by destruct r.
Qed.

(** [C28] A slave joins and the master connects back: the master takes the slave's key and
    marks it to be told the statuses; shown that key, the slave, which has accepted the
    master and waits for no other, takes the replication, and from its answer the master
    has the slave's data version and the position that the comparison of the last
    records gave. With any other key the slave refuses. *)
Theorem join_handshake m s sp ss key env check index offset r :
  cs_id <$> nd_servers m = ids → cs_id <$> nd_servers s = ids →
  nd_master m = Some (nd_myself m) → (nd_myself m < length ids)%nat →
  nd_servers m !! nd_myself s = Some sp →
  nd_master s = Some (nd_myself m) → nd_next_master s = None →
  nd_servers s !! nd_myself s = Some ss → cs_key ss = key → length key = 8%nat →
  env_good env → is_int32 task_size → INCONSISTENT ≠ 0 →
  is_int32 (fill_lines env).1.2 → is_int32 (28 + zlen (fill_lines env).2) →
  is_int32 (je_position env).1 → is_int64 (je_position env).2 → is_int64 (nd_data_version s) →
  check (fill_lines env).1.2 (fill_lines env).2 (je_position env) = (0, (index, offset)) →
  let req m key := join_slave_body (JoinReq CLUSTER_ID (my_server_id m) task_size key) in
  let slave body := cluster_deal_join_slave_req CLUSTER_ID INCONSISTENT task_size sizeof_ProtoHeader env body false s in
  ∃ m' sp' answer r',
    cluster_deal_join_master config_sign CLUSTER_ID
      (join_master_body config_sign CLUSTER_ID key s) None m = Some ((0, Some (nd_myself s)), m') ∧
    nd_servers m' !! nd_myself s = Some sp' ∧ cs_last_change_version sp' = -1 ∧
    slave (req m' (cs_key sp')) = (0, answer, true) ∧
    cluster_deal_join_slave_resp check answer r = Some (0, r') ∧
    rl_slave r' = mkSlaveServer (ss_status (rl_slave r)) (nd_data_version s) index offset ∧
    ∀ key', length key' = 8%nat → key' ≠ key → (slave (req m' key')).1.1 ≠ 0.
Proof.
  intros Hm Hs Hmaster Hmyl Hsp Hsm Hsn Hss Hkey Hlen Henv Hsize HI Hc Hl Hi Ho Hv Hcheck req slave.
  pose proof (join_master_run m s _ sp key Hm Hs eq_refl Hsp Hmaster Hlen) as Hjoin.
  set (m' := alter_server _ _ m) in Hjoin.
  destruct (lookup_lt_is_Some_2 _ _ Hmyl) as [id Hid].
  assert (Hm' : cs_id <$> nd_servers m' = ids) by (rewrite <- Hm; by apply alter_ids).
  assert (Hmy : my_server_id m' = id).
  { unfold my_server_id. change (nd_myself m') with (nd_myself m).
    by destruct (ids_server _ _ _ _ Hm' Hid) as (c & -> & <-). }
  assert (Hid32 : is_int32 id) by exact (Forall_lookup_1 _ _ _ _ Hids Hid).
  assert (Hacc : ∀ k, length k = 8%nat →
    ((slave (req m' k)).1.1 = 0 ↔ k = key) ∧
    ((slave (req m' k)).1.1 = 0 → slave (req m' k) = (0, join_answer env s, true))).
  { intros k Hk. pose proof (join_slave_accepts env s id task_size k false Henv Hs Hk Hid32 Hsize) as H3.
    unfold slave, req. rewrite Hmy.
    destruct (cluster_deal_join_slave_req _ _ _ _ _ _ _ _) as [[rc body] j]. cbn [fst snd].
    destruct (H3 HI) as (Hiff & Hbody & _). split.
    - rewrite Hiff, Hss. cbn. rewrite Hkey. naive_solver.
    - intros ->. by destruct Hbody as [-> ->]. }
  pose proof (join_resp_run check env s r) as Hresp. revert Hresp Hc Hl Hcheck.
  destruct (fill_lines env) as [[rc count] lines] eqn:Hlines. cbn [fst snd].
  intros Hresp Hc Hl Hcheck.
  destruct (Hresp Hc Hl Hi Ho Hv _ _ Hcheck) as (r' & Hr' & Hslave).
  exists m', (set_cs_key key (set_cs_last_change (-1) sp)), (join_answer env s), r'.
  split; [done|]. split; [cbn; by rewrite list_lookup_alter, decide_True, Hsp by done|].
  split; [done|]. cbn [cs_key set_cs_key]. split; [by apply Hacc; [|apply Hacc]|].
  split; [done|]. split; [done|]. intros key' Hk' Hne H0'. by apply Hne, Hacc.
Qed.
End peers.
