(* ===== verification/ClusterDemo.v ===== *)
(** * Three servers

    The theorems about elections and about a slave and its master at three concrete
    servers with the ids 1, 2 and 3, and an election that a flag left over from before a
    restart decides too early. *)

From Stdlib Require Import Ascii.
From S2P Require Import Prelude CText Proto Service Replication Cluster.
From S2P Require Import Election ElectionAgree ClusterPeers PushResultRing WireDemo.

(** Servers looked up one after the other. *)
Definition find_id (id : Z) (ids : list Z) : option nat :=
  match list_find (λ x, x = id) ids with Some (i, _) => Some i | None => None end.

Lemma find_id_law id ids i : NoDup ids → find_id id ids = Some i ↔ ids !! i = Some id.
Proof.
  intros Hd. unfold find_id. split.
  - destruct (list_find _ ids) as [[j x]|] eqn:Hf; [|done]. intros [= <-].
    apply list_find_Some in Hf as (Hj & <- & _). done.
  - intros Hi. destruct (list_find_elem_of (λ x, x = id) ids id) as [[j x] Hf];
      [by eapply list_elem_of_lookup_2|done|].
    rewrite Hf. apply list_find_Some in Hf as (Hj & <- & _).
    by rewrite (NoDup_lookup ids i j x Hd Hi Hj).
Qed.

#[export, refine] Instance servers_in_a_row : FcServers := {| fc_server_get_by_id := find_id |}.
Proof. intros id ids i. apply find_id_law. Defined.

Definition sign : text := repeat "s"%char 16.
Definition cluster_ids : list Z := [1; 2; 3].

Lemma cluster_ids_nodup : NoDup cluster_ids.
Proof. by apply (bool_decide_unpack (NoDup cluster_ids)). Qed.
Lemma cluster_ids_int : Forall is_int32 cluster_ids.
Proof. by repeat constructor. Qed.

Definition key_of (id : Z) : text := int2buff id ++ int2buff 7.
Definition server (id : Z) : ClusterServer :=
  mkClusterServer id FDIR_SERVER_STATUS_OFFLINE false 0 (key_of id).

(** Server [i], with data up to [version]; nobody is master. *)
Definition node (i : nat) (version : Z) : Node :=
  mkNode (server <$> cluster_ids) 1 i None None 100 version false false false 0 false.
Definition world : list Node := [node 0 5; node 1 9; node 2 7].

(** The conditions of the theorems are computed. *)
Lemma node_ok_computed ids n :
  cs_id <$> nd_servers n = ids → (nd_myself n < length ids)%nat →
  from_option (λ m, (m < length ids)%nat) True (nd_master n) →
  from_option (λ m, (m < length ids)%nat) True (nd_next_master n) →
  cs_is_master <$> nd_servers n
  = imap (λ i _, bool_decide (nd_master n = Some i)) (nd_servers n) →
  node_ok ids n.
Proof.
  intros Hids Hme Hm Hn Hfl. constructor; try done. intros i s Hi.
  apply (f_equal (.!! i)) in Hfl. rewrite list_lookup_fmap, list_lookup_imap, Hi in Hfl.
  by injection Hfl.
Qed.
Ltac node_ok_tac := apply node_ok_computed; vm_compute; (done || lia).

Lemma node_fine i v : (i < 3)%nat → node_ok cluster_ids (node i v).
Proof. intros Hi. by apply node_ok_computed. Qed.

Lemma world_ok : all_ok cluster_ids world.
Proof.
  split; [done|]. intros [|[|[|i]]] n; try done; intros [= <-]; (split; [done|]); by apply node_fine; lia.
Qed.

Lemma world_wf : wf_world cluster_ids world.
Proof.
  constructor; [done|apply cluster_ids_nodup|apply cluster_ids_int|].
  intros [|[|[|i]]] n; try done; intros [= <-]; (split; [done|split; [done|split; [done|]]]);
    by repeat constructor.
Qed.

(** ** Choosing *)

(** Server 2 is not reached: the two others, the first of which is asked here. *)
Definition two_answer (i : nat) : Reply :=
  match i with
  | 1%nat => inr (false, FDIR_SERVER_STATUS_OFFLINE, 2, 5)
  | _ => inl ECONNREFUSED
  end.
Definition rounds : list Round :=
  [mkRound two_answer 0 (node 0 5); mkRound two_answer 40 (node 0 5)].
Definition second_best : ServerStatus :=
  mkServerStatus 1 false FDIR_SERVER_STATUS_OFFLINE 2 5.

Lemma elected_is_newest_witness : ∃ r, r ∈ rounds ∧ nd_master (rd_node r) = None ∧
  second_best ∈ active_servers (rd_reply r) (rd_node r) ∧
  Forall (λ s, rank_le s second_best) (active_servers (rd_reply r) (rd_node r)) ∧
  may_choose false 30 0 r second_best.
Proof. apply (elected_is_newest false 30 0 rounds second_best 1). vm_compute. reflexivity. Defined.

Lemma candidate_agrees_witness :
  ∃ best m, world !! es_cs best = Some m ∧ own_status (es_cs best) m = Some best ∧
    (∀ i n, world !! i = Some n →
      nd_data_version n ≤ nd_data_version m ∧
      ∀ force max_wait now start sleep,
        election_round force max_wait (reply_of sign world n) now start sleep n
        = RoundChosen best).
Proof. by apply (candidate_agrees sign cluster_ids world eq_refl world_wf). Defined.

(** Server 1 wrote [cluster.info] as the master and starts again. *)
Definition was_master : Node :=
  mkNode [set_cs_status FDIR_SERVER_STATUS_ACTIVE (set_cs_is_master true (server 1)); server 2; server 3]
    1 0 (Some 0%nat) None 100 5 true true true 1 false.
Definition item (id : Z) : bool * Z :=
  if id =? 1 then (true, FDIR_SERVER_STATUS_ACTIVE) else (false, FDIR_SERVER_STATUS_OFFLINE).

Lemma was_master_ok : node_ok cluster_ids was_master.
Proof. node_ok_tac. Qed.

Lemma restart_keeps_claim_witness :
  nd_master (started item was_master) = None ∧ ¬ node_ok cluster_ids (started item was_master).
Proof.
  destruct (restart_keeps_claim sign cluster_ids was_master item 0
    (set_cs_status FDIR_SERVER_STATUS_ACTIVE (set_cs_is_master true (server 1)))
    cluster_ids_nodup was_master_ok eq_refl eq_refl eq_refl) as (Hm & Hnot & _).
  split; [exact Hm|exact Hnot].
Defined.

(** With two of three servers up the election would wait for the third; with the flag
    that server 1 has kept it is over at once, and the third, which may have newer data,
    is not waited for. *)
Example restart_ends_wait :
  election_round false 30 two_answer 0 0 1 (node 0 5) = RoundAgain 1 ∧
  election_round false 30 two_answer 0 0 1 (started item was_master)
    = RoundChosen (mkServerStatus 0 true FDIR_SERVER_STATUS_OFFLINE 1 5).
Proof. split; vm_compute; reflexivity. Qed.

(** ** Running *)

(** Server 0 is told about a candidate that then becomes the master, is pinged, and the
    master is lost. *)
Definition served (m : M Node Z) (n : Node) : Node :=
  match m n with Some (_, n') => n' | None => n end.
Definition told : Node :=
  served (cluster_deal_next_master 0 0 PRE_SET_NEXT_MASTER (int2buff 2)) (node 0 5).
Definition follows : Node :=
  served (cluster_deal_next_master 0 0 COMMIT_NEXT_MASTER (int2buff 2)) told.

Lemma told_and_follows : rtc (node_step sign 7) (node 0 5) follows.
Proof.
  eapply rtc_l; [|eapply rtc_once].
  - apply (step_next_master sign 7 _ told 0 0 PRE_SET_NEXT_MASTER (int2buff 2) 0).
    vm_compute. reflexivity.
  - apply (step_next_master sign 7 _ _ 0 0 COMMIT_NEXT_MASTER (int2buff 2) 0).
    vm_compute. reflexivity.
Qed.

Lemma node_stays_ok_witness : node_ok cluster_ids follows ∧
  (∀ s, nd_servers follows !! nd_myself follows = Some s →
    cs_is_master s = true ↔ nd_master follows = Some (nd_myself follows)) ∧
  nd_master follows = Some 1%nat.
Proof.
  destruct (node_stays_ok sign 7 cluster_ids (node 0 5) follows cluster_ids_nodup
    (node_fine 0 5 (Nat.lt_0_succ 2)) told_and_follows) as [Hok Hfl].
  split; [exact Hok|]. split; [exact Hfl|reflexivity].
Defined.

(** ** Electing server 1, with server 2 out of reach *)

Definition reach (i : nat) : bool := negb (bool_decide (i = 2%nat)).

Lemma world_ready : election_ready cluster_ids 1 world.
Proof. split; [simpl; lia|]. split; [done|]. apply world_ok. Qed.

Lemma world_willing i n : world !! i = Some n → reached reach 1 i → willing 1 i n.
Proof.
  intros Hi _. destruct i as [|[|[|i]]]; try done; injection Hi as <-; (split; [done|by left]).
Qed.

Lemma election_agrees_witness :
  ∃ w', cluster_notify_master_changed reach 0 0 1 1 world = Some (0, w') ∧
    (∃ n', w' !! 0%nat = Some n' ∧ nd_master n' = Some 1%nat) ∧ w' !! 2%nat = Some (node 2 7).
Proof.
  destruct (election_agrees reach cluster_ids 1 cluster_ids_nodup cluster_ids_int world (node 1 9)
    world_ready world_willing eq_refl) as (w' & Hrun & Hall & Hrest & _).
  exists w'. split; [exact Hrun|]. split.
  - destruct (Hall 0%nat (node 0 5) eq_refl (or_intror eq_refl)) as (n' & Hn' & Hm & _).
    exists n'. split; [exact Hn'|exact Hm].
  - rewrite Hrest; [reflexivity|]. intros [Hr|Hr]; discriminate Hr.
Defined.

(** Server 0 waits for server 2. *)
Definition split_world : list Node :=
  [with_next_master (Some 2%nat) (node 0 5); node 1 9; node 2 7].

Lemma split_world_ok : all_ok cluster_ids split_world.
Proof.
  split; [done|]. intros [|[|[|i]]] n; try done; intros [= <-]; (split; [done|]); node_ok_tac.
Qed.

Lemma election_objection_witness :
  ∃ rc w', rc ≠ 0 ∧ cluster_notify_master_changed reach 0 0 1 1 split_world = Some (rc, w') ∧
    ∀ j m, split_world !! j = Some m → ∃ m', w' !! j = Some m' ∧
      (nd_master m' = nd_master m ∨ nd_master m = Some j ∧ nd_master m' = None).
Proof.
  apply (election_objection reach cluster_ids 1 cluster_ids_nodup cluster_ids_int split_world 0
    (with_next_master (Some 2%nat) (node 0 5)) (node 1 9) split_world_ok);
    [right; reflexivity|discriminate|reflexivity| |reflexivity|left; reflexivity].
  right. exists 2%nat. split; [reflexivity|discriminate].
Defined.

(** ** Server 0 follows server 1 *)

Definition the_master : Node :=
  mkNode [set_cs_last_change (-1) (server 1);
          set_cs_status FDIR_SERVER_STATUS_ACTIVE (set_cs_is_master true (server 2));
          set_cs_status FDIR_SERVER_STATUS_SYNCING (server 3)]
    4 1 (Some 1%nat) None 200 9 true true true 1 false.

Lemma ping_brings_statuses_witness :
  ∃ body m' s' body', cluster_deal_ping_master [] (Some 0%nat) the_master = Some ((0, body), m') ∧
    proto_ping_master body follows = Some (0, s') ∧
    cs_status <$> nd_servers s' = cs_status <$> nd_servers the_master ∧
    nd_inode_sn s' = Z.max (nd_inode_sn follows) (nd_inode_sn the_master) ∧
    node_view s' = node_view follows ∧
    cluster_deal_ping_master [] (Some 0%nat) m' = Some ((0, body'), m') ∧ zlen body' = 12 ∧
    proto_ping_master body' s' = Some (0, s').
Proof.
  apply (ping_brings_statuses cluster_ids cluster_ids_nodup cluster_ids_int the_master follows 0
    (set_cs_last_change (-1) (server 1))).
  - reflexivity.
  - reflexivity.
  - simpl. lia.
  - repeat constructor; discriminate.
  - split; [discriminate|reflexivity].
  - reflexivity.
  - reflexivity.
  - discriminate.
Defined.

Lemma seven_int : is_int32 7.
Proof. unfold is_int32. lia. Qed.

Definition join_env : JoinEnv := mkJoinEnv 1 (λ size count, (0, count, repeat "r"%char 5)) 0 0 (3, 400).
Definition fine (count : Z) (lines : text) (pos : Z * Z) : Z * (Z * Z) := (0, pos).
Definition no_ring : PushContext :=
  mkPushContext (replicate 8 zero_entry) 0 0 8 None None ∅ None 0 ∅ [].
Definition to_slave : Replication :=
  mkReplication STAGE_NONE (mkConnInfo 0 0 0 0 (-1) 0)
    (mkSlaveServer FDIR_SERVER_STATUS_OFFLINE (-1) (-1) (-1)) [] no_ring
    (mkLastVersions 0 0 0 0) 0 0 false false [] [] 0.

Lemma join_handshake_witness :
  let req m key := join_slave_body (JoinReq 7 (my_server_id m) 256 key) in
  let slave body := cluster_deal_join_slave_req 7 9999 256 10 join_env body false follows in
  ∃ m' sp' answer r',
    cluster_deal_join_master sign 7 (join_master_body sign 7 (key_of 1) follows) None the_master
    = Some ((0, Some 0%nat), m') ∧
    nd_servers m' !! 0%nat = Some sp' ∧ cs_last_change_version sp' = -1 ∧
    slave (req m' (cs_key sp')) = (0, answer, true) ∧
    cluster_deal_join_slave_resp fine answer to_slave = Some (0, r') ∧
    rl_slave r' = mkSlaveServer FDIR_SERVER_STATUS_OFFLINE 5 3 400 ∧
    ∀ key', length key' = 8%nat → key' ≠ key_of 1 → (slave (req m' key')).1.1 ≠ 0.
Proof.
  apply (join_handshake cluster_ids cluster_ids_nodup cluster_ids_int sign 7 9999 256 10 eq_refl
    seven_int the_master follows
    (set_cs_last_change (-1) (server 1)) (server 1) (key_of 1) join_env fine 3 400 to_slave);
    try reflexivity; try discriminate; try (split; [discriminate|reflexivity]).
  - simpl. lia.
  - split; reflexivity.
Defined.
