(* ===== verification/Takeover.v ===== *)
(** * Inode numbers over a change of the master

    A master hands out inodes; with each ping it tells its slaves how far it has come.
    When a slave becomes the master it goes on behind what it knows and
    [INODE_SN_MAX_QPS] numbers more. The theorem puts the functions of [Cluster] (the
    ping, both sides; [cluster_relationship_set_master]) and of [InodeGenerator]
    together: as long as no more inodes than that are handed out between two pings, no
    inode is handed out twice. *)

From Stdlib Require Import Ascii.
From S2P Require Import Prelude NsSubscribe ServerTypes InodeGenerator CText Proto.
From S2P Require Import Service Cluster Election ClusterPeers.

Section takeover.
Context `{!FcServers} `{!ByteOrder} `{!ServerFrame} `{UniqSkiplist} `{ServerConfig}.

(** [CURRENT_INODE_SN] is one global: a field of [Node] here, of [Server] for the
    generator. *)
Definition on_generator {A} (srv : Server) (m : M Server A) : M Node A := λ n,
  match m (ServerTypes.with_inode_sn (nd_inode_sn n) srv) with
  | Some (a, s) => Some (a, Cluster.with_inode_sn (inode_sn s) n)
  | None => None
  end.

(** The master creates a dentry; a slave pings it. *)
Inductive MasterEvent := HandOut | Pinged.

(** What happens at the master [m] and at its slave [s], place [p] of the master's array
    of servers: the inodes that are handed out, and the two afterwards. *)
Fixpoint run_events (srv : Server) (p : nat) (es : list MasterEvent) (m s : Node) :
    option (list Z * Node * Node) :=
  match es with
  | [] => Some ([], m, s)
  | HandOut :: es =>
    '(i, m) ← on_generator srv inode_generator_next m;
    '(l, m, s) ← run_events srv p es m s;
    Some (i :: l, m, s)
  | Pinged :: es =>
    '(rc, body, m) ← cluster_deal_ping_master [] (Some p) m;
    '(rc', s) ← (if rc =? 0 then proto_ping_master body s else Some (rc, s));
    run_events srv p es m s
  end.

(** How many inodes were handed out. *)
Fixpoint handed_out (es : list MasterEvent) : Z :=
  match es with
  | [] => 0
  | HandOut :: es => 1 + handed_out es
  | Pinged :: es => handed_out es
  end.
(** How many since the last ping, with [n] before. *)
Fixpoint since_ping (n : Z) (es : list MasterEvent) : Z :=
  match es with
  | [] => n
  | HandOut :: es => since_ping (n + 1) es
  | Pinged :: es => since_ping 0 es
  end.

Lemma handed_out_nonneg es : 0 ≤ handed_out es.
Proof. induction es as [|[] es IH]; cbn; lia. Qed.

Context (ids : list Z) (Hnodup : NoDup ids) (Hids : Forall is_int32 ids).
Context (Hlen : (length ids ≤ 1636)%nat).
Context (Hcluster : 0 ≤ CLUSTER_ID ≤ FDIR_CLUSTER_ID_MAX).

(** The master knows its servers, the slave is one of them. *)
Record leads (p : nat) (m : Node) : Prop := {
  im_ids : cs_id <$> nd_servers m = ids;
  im_status : Forall (λ c, -128 ≤ cs_status c < 128) (nd_servers m);
  im_master : nd_master m = Some (nd_myself m);
  im_slave : is_Some (nd_servers m !! p)
}.

Lemma leads_sn p m sn : leads p m → leads p (Cluster.with_inode_sn sn m).
Proof. by intros []. Qed.

Lemma leads_told p m v : leads p m →
  leads p (alter_server (set_cs_last_change v) p m).
Proof.
  intros [Hi Hs Hm [sp Hp]]. split; cbn; [|by apply Forall_alter|done|].
  - rewrite <- Hi. apply list_eq. intros j. rewrite !list_lookup_fmap, list_lookup_alter.
    case_decide; [subst|done]. by rewrite Hp.
  - exists (set_cs_last_change v sp). by rewrite list_lookup_alter, decide_True, Hp by done.
Qed.

(** A ping, whether anything has changed at the master or not. *)
Lemma pinged p m s : leads p m → cs_id <$> nd_servers s = ids → is_int64 (nd_inode_sn m) →
  ∃ body m' s', cluster_deal_ping_master [] (Some p) m = Some ((0, body), m') ∧
    proto_ping_master body s = Some (0, s') ∧ leads p m' ∧
    nd_inode_sn m' = nd_inode_sn m ∧
    nd_inode_sn s' = Z.max (nd_inode_sn s) (nd_inode_sn m) ∧ node_view s' = node_view s.
Proof.
  intros Hm Hs Hsn. pose proof Hm as [Hi Hst Hme [sp Hp]].
  assert (Hl : (length (nd_servers m) ≤ 1636)%nat) by (by rewrite <- (length_fmap cs_id), Hi).
  assert (Hzero : server_expect_body_length 0 0 = 0) by (by apply expect_body_length_law).
  unfold cluster_deal_ping_master. change (zlen []) with 0. rewrite Hzero. cbn [negb Z.eqb].
  mexec. rewrite decide_True, Hp by done. destruct (negb _).
  - destruct (ping_answer_run ids Hnodup Hids (nd_inode_sn m) (nd_servers m) s Hsn Hl Hs Hi Hst)
      as (s' & Hrun & Hmax & _).
    eexists _, _, s'. split; [reflexivity|]. split; [exact Hrun|].
    split; [by apply leads_told|]. split; [done|]. split; [done|]. by apply keeps_ping in Hrun.
  - pose proof (ping_header (nd_inode_sn m) [] s Hsn ltac:(simpl; lia)) as Hrun.
    cbn [mbind list_bind take_parts length] in Hrun. rewrite app_nil_r in Hrun.
    eexists _, _, (take_sn (nd_inode_sn m) s). split; [reflexivity|]. split; [exact Hrun|].
    split; [done|]. split; [done|]. split; [apply take_sn_spec|].
    by apply keeps_ping in Hrun.
Qed.

Definition numbered (from n : Z) : list Z :=
  (λ k, CLUSTER_ID * sn_limit + k) <$> seqZ (from + 1) n.

Lemma handed srv k n : 0 ≤ nd_inode_sn n → nd_inode_sn n + Z.of_nat k < sn_limit →
  on_generator srv (next_inodes k) n
  = Some (numbered (nd_inode_sn n) (Z.of_nat k),
          Cluster.with_inode_sn (nd_inode_sn n + Z.of_nat k) n).
Proof.
  intros Hn Hk. unfold on_generator. by rewrite next_inodes_run.
Qed.

Lemma one_handed srv n : 0 ≤ nd_inode_sn n → nd_inode_sn n + 1 < sn_limit →
  on_generator srv inode_generator_next n
  = Some (CLUSTER_ID * sn_limit + (nd_inode_sn n + 1),
          Cluster.with_inode_sn (nd_inode_sn n + 1) n).
Proof.
  intros Hn Hk. unfold on_generator, inode_generator_next. cbn [inode_sn ServerTypes.with_inode_sn].
  assert (sn_limit = 2 ^ 53) as El by reflexivity.
  rewrite (int64_small (nd_inode_sn n + 1)) by (unfold is_int64; lia).
  by rewrite inode_of_eq by lia.
Qed.

Lemma numbered_cons from n : 0 ≤ n →
  numbered from (1 + n) = CLUSTER_ID * sn_limit + (from + 1) :: numbered (from + 1) n.
Proof.
  intros Hn. unfold numbered. rewrite (seqZ_cons (from + 1)) by lia. cbn [fmap list_fmap].
  do 2 f_equal; f_equal; lia.
Qed.

Lemma events_run srv p es : ∀ m s n, leads p m → cs_id <$> nd_servers s = ids →
  0 ≤ nd_inode_sn m → 0 ≤ nd_inode_sn s → nd_inode_sn m ≤ nd_inode_sn s + n →
  nd_inode_sn m + handed_out es < sn_limit →
  ∃ m' s', run_events srv p es m s = Some (numbered (nd_inode_sn m) (handed_out es), m', s') ∧
    nd_inode_sn m' = nd_inode_sn m + handed_out es ∧
    nd_inode_sn m' ≤ nd_inode_sn s' + since_ping n es ∧
    nd_inode_sn s ≤ nd_inode_sn s' ≤ Z.max (nd_inode_sn s) (nd_inode_sn m') ∧
    node_view s' = node_view s.
Proof.
  assert (sn_limit = 2 ^ 53) as El by reflexivity.
  induction es as [|[] es IH]; intros m s n Hm Hs Hm0 Hs0 Hle Hlim; cbn [handed_out since_ping] in *;
    try pose proof (handed_out_nonneg es).
  - exists m, s. split; [done|]. split_and!; try done; lia.
  - destruct (IH (Cluster.with_inode_sn (nd_inode_sn m + 1) m) s (n + 1))
      as (m' & s' & Hrun & Hm' & Hs' & Hmax & Hv); cbn [nd_inode_sn Cluster.with_inode_sn] in *;
      [by apply leads_sn|done|lia..|].
    exists m', s'. cbn [run_events]. rewrite one_handed by lia. cbn [mbind option_bind].
    rewrite Hrun. cbn [mbind option_bind]. rewrite numbered_cons by lia.
    split; [done|]. split_and!; try done; lia.
  - destruct (pinged p m s Hm Hs) as (body & m1 & s1 & Hp1 & Hp2 & Hm1 & Esn & Emax & Hv1);
      [unfold is_int64; lia|].
    destruct (IH m1 s1 0) as (m' & s' & Hrun & Hm' & Hs' & Hmax & Hv);
      [done|by rewrite (view_ids _ _ Hv1)|lia..|].
    exists m', s'. cbn [run_events]. rewrite Hp1. cbn [mbind option_bind Z.eqb].
    rewrite Hp2. cbn [mbind option_bind]. rewrite Hrun, Esn.
    split; [done|]. split_and!; try lia. by rewrite Hv.
Qed.

Lemma set_master_mine n : nd_master n ≠ Some (nd_myself n) →
  ∃ n', cluster_relationship_set_master 0 0 (nd_myself n) n = Some (0, n') ∧
    nd_inode_sn n' = nd_inode_sn n + INODE_SN_MAX_QPS ∧ nd_master n' = Some (nd_myself n').
Proof.
  intros Hn. unfold cluster_relationship_set_master, update_field_is_master. mexec.
  rewrite decide_False, bool_decide_true by done. cbn [andb negb Z.eqb].
  eexists. split; [reflexivity|]. done.
Qed.

(** [C40] No inode is handed out twice over a change of the master. A slave has pinged its
    master; inodes are handed out and more pings answered in any order; then the slave
    becomes the master ([cluster_relationship_set_master], which skips) and hands out
    inodes in turn. All inodes, before and after, are different, and those after differ
    from every one of a sequence number that the old master had used when the slave
    pinged first. The condition is on the rate: since the last ping that was answered at
    most [INODE_SN_MAX_QPS] inodes were handed out (a slave pings once a second); the
    code does not enforce it. *)
Theorem takeover_fresh srv p es m s k :
  leads p m → cs_id <$> nd_servers s = ids → nd_master s ≠ Some (nd_myself s) →
  0 ≤ nd_inode_sn m → 0 ≤ nd_inode_sn s →
  since_ping 0 es ≤ INODE_SN_MAX_QPS →
  Z.max (nd_inode_sn s) (nd_inode_sn m + handed_out es) + INODE_SN_MAX_QPS + Z.of_nat k
    < sn_limit →
  ∃ before m' s' s1 after s2,
    run_events srv p (Pinged :: es) m s = Some (before, m', s') ∧
    cluster_relationship_set_master 0 0 (nd_myself s') s' = Some (0, s1) ∧
    on_generator srv (next_inodes k) s1 = Some (after, s2) ∧
    zlen before = handed_out es ∧ length after = k ∧ NoDup (before ++ after) ∧
    ∀ sn, 0 ≤ sn ≤ nd_inode_sn m → inode_of CLUSTER_ID sn ∉ after.
Proof.
  intros Hm Hs Hnot Hm0 Hs0 Hrate Hlim.
  assert (INODE_SN_MAX_QPS = 1000000) as Eq by reflexivity.
  pose proof (handed_out_nonneg es) as Hge.
  destruct (events_run srv p (Pinged :: es) m s (nd_inode_sn m) Hm Hs Hm0 Hs0)
    as (m' & s' & Hrun & Hm' & Hs' & Hmax & Hv); [lia|cbn [handed_out]; lia|].
  cbn [handed_out since_ping] in *. injection Hv as Hserv Hmy Hmas Hnext.
  destruct (set_master_mine s') as (s1 & Hset & Hsn & _); [by rewrite Hmas, Hmy|].
  eexists _, m', s', s1, _, _. split; [exact Hrun|]. split; [exact Hset|].
  split; [apply handed; lia|]. unfold numbered. split_and!.
  - unfold zlen. rewrite length_fmap, length_seqZ. lia.
  - rewrite length_fmap, length_seqZ. lia.
  - rewrite <- fmap_app. apply NoDup_fmap_2; [intros x y; lia|].
    apply NoDup_app. split_and!; [apply NoDup_seqZ| |apply NoDup_seqZ].
    intros x Hx Hy. apply elem_of_seqZ in Hx, Hy. lia.
  - intros sn Hle. rewrite inode_of_eq by lia. rewrite list_elem_of_fmap.
    intros (x & Ex & Hx%elem_of_seqZ). lia.
Qed.
End takeover.
