(* ===== verification/TakeoverDemo.v ===== *)
(** * A slave that becomes the master

    The theorem of [Takeover] at the servers of [ClusterDemo]: server 0 pings server 1,
    which hands out inodes between the pings and after them; then server 0 is the
    master. *)

From Stdlib Require Import Ascii.
From S2P Require Import Prelude NsSubscribe ServerTypes InodeGenerator CText Proto.
From S2P Require Import Service Cluster Election ClusterPeers WireDemo ClusterDemo Takeover.

Section demo.
Import ListSkiplist.
Existing Instance list_skiplist.
Existing Instance small_config.

Definition busy_hours : list MasterEvent :=
  [HandOut; HandOut; Pinged; HandOut; Pinged; Pinged; HandOut; HandOut].

Lemma the_master_leads : leads cluster_ids 0 the_master.
Proof.
  split; [reflexivity|repeat constructor; discriminate|reflexivity|by eexists].
Qed.

Lemma small_cluster : 0 ≤ CLUSTER_ID ≤ FDIR_CLUSTER_ID_MAX.
Proof. split; discriminate. Qed.
Lemma three_ids : (length cluster_ids ≤ 1636)%nat.
Proof. unfold cluster_ids. cbn [length]. lia. Qed.

Lemma takeover_fresh_witness :
  ∃ before m' s' s1 after s2,
    run_events empty_server 0 (Pinged :: busy_hours) the_master follows = Some (before, m', s') ∧
    cluster_relationship_set_master 0 0 (nd_myself s') s' = Some (0, s1) ∧
    on_generator empty_server (next_inodes 3) s1 = Some (after, s2) ∧
    zlen before = handed_out busy_hours ∧ length after = 3%nat ∧ NoDup (before ++ after) ∧
    ∀ sn, 0 ≤ sn ≤ nd_inode_sn the_master → inode_of CLUSTER_ID sn ∉ after.
Proof.
  apply (takeover_fresh cluster_ids cluster_ids_nodup cluster_ids_int three_ids small_cluster
    empty_server 0 busy_hours the_master follows 3).
  - apply the_master_leads.
  - reflexivity.
  - discriminate.
  - discriminate.
  - vm_compute. discriminate.
  - vm_compute. discriminate.
  - vm_compute. reflexivity.
Defined.
End demo.
