(* ===== verification/ClusterTaskSafe.v ===== *)
(** * Tasks keep their type

    The theorems of [ClusterTask]: over all that can happen on the connections of a
    server the type of a task and what its union holds agree, and no pointer to a
    consumer dangles; what a request does is defined whenever the components' handlers
    are, but for a ping of a master over a connection for replication. *)

From Stdlib Require Import Ascii.
From S2P Require Import Prelude CText ServerTypes Proto Service BinlogPack.
From S2P Require Import BinlogRecord BinlogReplay ReplicaConsumer PushResultRing Replication Cluster.
From S2P Require Import Election ClusterTask.

(** The number of replications never changes. *)
Definition rep_count (m : Master) : nat := length (ms_reps m).

Lemma keeps_on_replication {A} i (m : M Replication A) : keeps rep_count (on_replication i m).
Proof.
  intros s a s'. unfold on_replication. destruct (ms_reps s !! i); [|done].
  destruct (m _) as [[x r']|]; [|done]. intros [= <- <-]. unfold rep_count. cbn.
  apply length_insert.
Qed.
#[export] Hint Resolve keeps_on_replication : keeps_db.

Section master.
Context (init_size server_count work_threads : Z).

Lemma keeps_add_connecting t i : keeps rep_count (add_connecting server_count t i).
Proof. intros s [] s'. unfold add_connecting. destruct (add_to_replication_ptr_array _ _ _); [|done]. by intros [= <-]. Qed.

Lemma keeps_bind_thread task_ok malloc_ok i :
  keeps rep_count (binlog_replication_bind_thread init_size server_count work_threads task_ok malloc_ok i).
Proof. unfold binlog_replication_bind_thread. keeps_tac. apply keeps_add_connecting. Qed.

Lemma keeps_rebind master task_ok malloc_ok i :
  keeps rep_count (binlog_replication_rebind_thread init_size server_count work_threads master task_ok malloc_ok i).
Proof.
  unfold binlog_replication_rebind_thread. keeps_tac. apply keeps_bind_thread.
Qed.
End master.

Section safe.
Context `{F : FastCommon} {W : Type} `{!DataThreads W} `{!ByteOrder} `{!ServerFrame}.
Context `{!BufferCapacity} `{!FcServers}.
Context (mpool : Mpool) (init_size server_count work_threads : Z).
Context (config_sign : text) (CLUSTER_ID task_size sizeof_ProtoHeader : Z).
Context (INCONSISTENT BINLOG_INCONSISTENT : Z).
Context (ids : list Z) (Hnodup : NoDup ids) (Herr : INCONSISTENT ≠ 0).

#[local] Notation Side := (@Side W).
#[local] Notation bind_replication := (bind_replication init_size server_count work_threads).
#[local] Notation bind_all := (bind_all init_size server_count work_threads).
#[local] Notation rebind_replication := (rebind_replication init_size server_count work_threads).
#[local] Notation on_sd_node := (on_sd_node init_size server_count work_threads).
#[local] Notation deal_task := (cluster_deal_task mpool init_size server_count work_threads
  config_sign CLUSTER_ID task_size sizeof_ProtoHeader INCONSISTENT BINLOG_INCONSISTENT).

(** Type and union agree: the pointer is one of that kind, to something that exists. *)
Definition task_typed (s : Side) (t : ClusterTask) : Prop :=
  match ct_type t with
  | SF_SERVER_TASK_TYPE_NONE => ct_shared t = SharedNull
  | FDIR_SERVER_TASK_TYPE_RELATIONSHIP =>
    ∃ p, ct_shared t = SharedPeer p ∧ (p < length ids)%nat
  | FDIR_SERVER_TASK_TYPE_REPLICA_MASTER =>
    ∃ i, ct_shared t = SharedReplica i ∧ (i < rep_count (sd_master s))%nat
  | FDIR_SERVER_TASK_TYPE_REPLICA_SLAVE =>
    ∃ c, ct_shared t = SharedConsumer c ∧ is_Some (sd_consumers s !! c) ∧
         sd_threads s !! ct_thread t = Some c
  end.

(** Tasks are typed, the threads' pointers are to consumers that exist, and no two tasks
    and no two threads share one. *)
Record side_ok (s : Side) : Prop := mkSideOk {
  so_node : node_ok ids (sd_node s);
  so_tasks : ∀ k t, sd_tasks s !! k = Some t → task_typed s t;
  so_threads : ∀ th c, sd_threads s !! th = Some c → is_Some (sd_consumers s !! c);
  so_task_inj : ∀ k k' t t' c, sd_tasks s !! k = Some t → sd_tasks s !! k' = Some t' →
    ct_shared t = SharedConsumer c → ct_shared t' = SharedConsumer c → k = k';
  so_thread_inj : ∀ th th' c, sd_threads s !! th = Some c → sd_threads s !! th' = Some c →
    th = th'
}.

(** No consumer goes; only tasks for replications are added. *)
Record grows (s s' : Side) : Prop := mkGrows {
  gr_consumers : ∀ c, is_Some (sd_consumers s !! c) → is_Some (sd_consumers s' !! c);
  gr_threads : sd_threads s' = sd_threads s;
  gr_reps : rep_count (sd_master s') = rep_count (sd_master s);
  gr_kept : ∀ k t, sd_tasks s !! k = Some t → sd_tasks s' !! k = Some t;
  gr_new : ∀ k t, sd_tasks s' !! k = Some t → sd_tasks s !! k = Some t ∨
    ct_type t = FDIR_SERVER_TASK_TYPE_REPLICA_MASTER ∧
    ∃ i, ct_shared t = SharedReplica i ∧ (i < rep_count (sd_master s))%nat
}.

Lemma grows_refl s : grows s s.
Proof. constructor; auto. Qed.

Lemma grows_trans s1 s2 s3 : grows s1 s2 → grows s2 s3 → grows s1 s3.
Proof.
  intros [C1 T1 R1 K1 N1] [C2 T2 R2 K2 N2]. constructor; try congruence; [by auto|by auto|].
  intros k t Hk. destruct (N2 k t Hk) as [Hk'|Hnew]; [by apply N1|]. right. by rewrite <- R1.
Qed.

Lemma grows_same s s' : (∀ c, is_Some (sd_consumers s !! c) → is_Some (sd_consumers s' !! c)) →
  sd_threads s' = sd_threads s →
  rep_count (sd_master s') = rep_count (sd_master s) → sd_tasks s' = sd_tasks s → grows s s'.
Proof. intros HC HT HR HK. constructor; try done; rewrite HK; auto. Qed.

Lemma grows_ok s s' : side_ok s → grows s s' → node_ok ids (sd_node s') → side_ok s'.
Proof.
  intros [Hn Ht Hth Hti Hthi] [HC HT HR HK HN] Hn'. constructor.
  - done.
  - intros k t Hk. destruct (HN k t Hk) as [Hk'|[Htype (i & Hi & Hlt)]].
    + specialize (Ht k t Hk'). revert Ht. unfold task_typed. rewrite HT, HR.
      destruct (ct_type t); naive_solver.
    + unfold task_typed. rewrite Htype, HR. by exists i.
  - intros th c. rewrite HT. intros Hc. by eapply HC, Hth.
  - intros k k' t t' c Hk Hk' Hc Hc'.
    destruct (HN k t Hk) as [Hk0|[_ (i & Hi & _)]]; [|congruence].
    destruct (HN k' t' Hk') as [Hk0'|[_ (i & Hi & _)]]; [|congruence]. by eapply Hti.
  - by rewrite HT.
Qed.

Lemma new_task_grows i s : (i < rep_count (sd_master s))%nat → ∀ u s',
  new_replica_task work_threads i s = Some (u, s') → grows s s' ∧ sd_node s' = sd_node s.
Proof.
  intros Hi u s' [= <- <-]. split; [|done]. constructor; try done; cbn.
  - intros k t Hk. rewrite lookup_insert_ne; [done|]. intros <-.
    by rewrite fresh_ptr_fresh in Hk.
  - intros k t. rewrite lookup_insert_Some. intros [[<- <-]|[_ Hk]]; [right|by left].
    split; [done|]. by exists i.
Qed.

Lemma on_master_grows {A} (m : M Master A) s a s' : keeps rep_count m →
  on_sd_master m s = Some (a, s') → grows s s' ∧ sd_node s' = sd_node s.
Proof.
  intros Hm. unfold on_sd_master. destruct (m (sd_master s)) as [[x m']|] eqn:Hrun; [|done].
  intros [= <- <-]. split; [|done]. apply grows_same; try done. by apply Hm in Hrun.
Qed.

Lemma bind_grows i s r s' : (i < rep_count (sd_master s))%nat →
  bind_replication i s = Some (r, s') → grows s s' ∧ sd_node s' = sd_node s.
Proof.
  intros Hi. unfold ClusterTask.bind_replication.
  intros (x & s1 & H1' & H2')%bind_Some_inv.
  apply on_master_grows in H1' as [Hg Hn]; [|apply keeps_bind_thread].
  apply bind_Some_inv in H2' as (u & s2 & H2' & [= <- <-]).
  destruct (x =? 0); [|by injection H2' as <- <-].
  apply new_task_grows in H2' as [Hg2 Hn2]; [|by rewrite (gr_reps _ _ Hg)].
  split; [by eapply grows_trans|congruence].
Qed.

Lemma bind_all_grows n : ∀ i s r s', (i + n ≤ rep_count (sd_master s))%nat →
  bind_all i n s = Some (r, s') → grows s s' ∧ sd_node s' = sd_node s.
Proof.
  induction n as [|n IH]; intros i s r s' Hi; cbn [ClusterTask.bind_all].
  { intros [= <- <-]. split; [apply grows_refl|done]. }
  intros (x & s1 & H1' & H2')%bind_Some_inv. apply bind_grows in H1' as [Hg Hn]; [|lia].
  destruct (negb _); [by injection H2' as <- <-|].
  apply IH in H2' as [Hg2 Hn2]; [|rewrite (gr_reps _ _ Hg); lia].
  split; [by eapply grows_trans|congruence].
Qed.

Lemma rebind_grows i s r s' : (i < rep_count (sd_master s))%nat →
  rebind_replication i s = Some (r, s') → grows s s' ∧ sd_node s' = sd_node s.
Proof.
  intros Hi. unfold ClusterTask.rebind_replication.
  intros (b & s0 & [= <- <-] & H1')%bind_Some_inv.
  apply bind_Some_inv in H1' as (x & s1 & H1' & H2').
  apply on_master_grows in H1' as [Hg Hn]; [|apply keeps_rebind].
  apply bind_Some_inv in H2' as (u & s2 & H2' & [= <- <-]).
  destruct (_ && _); [|by injection H2' as <- <-].
  apply new_task_grows in H2' as [Hg2 Hn2]; [|by rewrite (gr_reps _ _ Hg)].
  split; [by eapply grows_trans|congruence].
Qed.

(** What a function of [Cluster] may do to a server. *)
Definition node_fn {A} (m : M Node A) : Prop :=
  ∀ n a n', node_ok ids n → m n = Some (a, n') → node_ok ids n'.

Lemma on_node_grows {A} (m : M Node A) s a s' : node_fn m → node_ok ids (sd_node s) →
  on_sd_node m s = Some (a, s') → grows s s' ∧ node_ok ids (sd_node s').
Proof.
  intros Hm Hn. unfold ClusterTask.on_sd_node. set (n0 := with_modes _ _ _ _ _ _).
  destruct (m n0) as [[x n']|] eqn:Hrun; [|done].
  assert (Hn' : node_ok ids n').
  { eapply Hm; [|exact Hrun]. by apply (node_ok_view ids (sd_node s)). }
  set (s1 := if nd_clean n' then _ else _).
  assert (Hs1 : grows s s1 ∧ sd_node s1 = n').
  { unfold s1. destruct (nd_clean n'); (split; [by apply grows_same|done]). }
  destruct Hs1 as [Hg1 Hn1]. destruct (_ =? _).
  { intros [= <- <-]. by rewrite Hn1. }
  destruct (bind_all 0 (length (ms_reps (sd_master s1))) s1) as [[r s2]|] eqn:Hb; [|done].
  intros [= <- <-]. apply bind_all_grows in Hb as [Hg2 Hn2]; [|done].
  split; [by eapply grows_trans|]. by rewrite Hn2, Hn1.
Qed.

Lemma on_consumer_grows {A} c (f : @ReplicaConsumer W → option (A * @ReplicaConsumer W)) s a s' :
  on_sd_consumer c f s = Some (a, s') → grows s s' ∧ sd_node s' = sd_node s.
Proof.
  unfold on_sd_consumer. destruct (sd_consumers s !! c) as [x|] eqn:Hc; [|done].
  destruct (f x) as [[y x']|]; [|done]. intros [= <- <-]. split; [|done].
  apply grows_same; try done. intros c' Hc'. cbn. rewrite lookup_insert_is_Some'. by right.
Qed.

(** A task that gets a pointer other than to a consumer. *)
Lemma set_task_ok k type shared s u s' : side_ok s →
  (∀ c, shared ≠ SharedConsumer c) →
  (∀ th, task_typed s (mkClusterTask type shared th)) →
  set_task k type shared s = Some (u, s') → side_ok s'.
Proof.
  intros [Hn Ht Hth Hti Hthi] Hsh Hty [= <- <-]. constructor; try done; cbn.
  - intros k' t. rewrite lookup_alter_Some. intros [(<- & t0 & Ht0 & ->)|[_ Hk]]; [apply Hty|by apply (Ht k')].
  - intros k1 k2 t1 t2 c. rewrite !lookup_alter_Some.
    intros [(_ & t0 & _ & ->)|[_ Hk1]]; [intros _ Hc; by destruct (Hsh c)|].
    intros [(_ & t0 & _ & ->)|[_ Hk2]]; [intros _ Hc; by destruct (Hsh c)|]. by eapply Hti.
Qed.

Lemma get_task_inv k (s : Side) t (s' : Side) : get_task k s = Some (t, s') → s' = s ∧ sd_tasks s !! k = Some t.
Proof.
  intros (s0 & s1 & [= <- <-] & H1')%bind_Some_inv. unfold non_null in H1'.
  destruct (sd_tasks s !! k); [|done]. by injection H1' as <- <-.
Qed.

Lemma node_fn_view {A} (m : M Node A) : keeps node_view m → node_fn m.
Proof. intros Hm n a n' Hn Hrun. eapply node_ok_view; [|exact Hn]. by apply Hm in Hrun. Qed.

Lemma join_master_ok k body s r s' : side_ok s →
  task_join_master init_size server_count work_threads config_sign CLUSTER_ID k body s = Some (r, s') →
  side_ok s'.
Proof.
  intros Hs. unfold task_join_master.
  intros (t & s0 & [-> Ht]%get_task_inv & H1')%bind_Some_inv.
  apply bind_Some_inv in H1' as ([rc p] & s1 & H1' & H2').
  apply on_node_grows in H1' as [Hg Hn1]; [|apply node_fn_view, keeps_join|apply (so_node _ Hs)].
  pose proof (grows_ok _ _ Hs Hg Hn1) as Hs1.
  apply bind_Some_inv in H2' as (s2 & s3 & [= <- <-] & H2').
  destruct (fdir_get_server_by_id _ (sd_node s1)) as [q|] eqn:Hq; [|by injection H2' as <- <-].
  destruct (rc =? 0); [|by injection H2' as <- <-].
  apply bind_Some_inv in H2' as (u & s4 & Hset & [= <- <-]).
  refine (set_task_ok _ _ _ _ _ _ Hs1 _ _ Hset); [by intros ? [=]|].
  intros th. exists q. split; [done|].
  eapply lookup_lt_Some, get_by_id_range; [done|apply (so_node _ Hs1)|exact Hq].
Qed.

Lemma ping_master_ok k body s r s' : side_ok s →
  task_ping_master init_size server_count work_threads k body s = Some (r, s') → side_ok s'.
Proof.
  intros Hs. unfold task_ping_master.
  intros (t & s0 & [-> Ht]%get_task_inv & H1')%bind_Some_inv.
  apply bind_Some_inv in H1' as (b & s1 & [= <- <-] & H1').
  assert (Hping : ∀ peer, on_sd_node (cluster_deal_ping_master body peer) s = Some (r, s') → side_ok s').
  { intros peer Hp. apply on_node_grows in Hp as [Hg Hn]; [|apply node_fn_view, keeps_deal_ping|apply (so_node _ Hs)].
    by eapply grows_ok. }
  destruct (ct_shared t); [by eapply Hping|by eapply Hping| |];
    (destruct (negb _); [by injection H1' as <- <-|]; destruct (bool_decide _); [done|]; by injection H1' as <- <-).
Qed.

Lemma join_slave_once env body joined n answer j :
  cluster_deal_join_slave_req CLUSTER_ID INCONSISTENT task_size sizeof_ProtoHeader env body joined n
    = (0, answer, j) → joined = false.
Proof.
  unfold cluster_deal_join_slave_req.
  destruct (Z.eqb_spec (server_expect_body_length (zlen body) (4 + 4 + 4 + 8)) 0); cbn [negb];
    [|by intros [= ?]].
  destruct (negb _); [done|]. destruct (negb _); [done|].
  destruct (fdir_get_server_by_id _ _); [|done].
  destruct (nd_next_master n); [case_decide; [done|by intros [= ?]]|].
  destruct (negb _); [destruct (nd_master n); [by intros [= ?]|done]|].
  destruct (negb _); [done|]. by destruct joined.
Qed.

(** A new consumer, of a task that had no pointer on a thread that had none. *)
Lemma new_consumer_ok k t consumer s : side_ok s → sd_tasks s !! k = Some t →
  ct_shared t = SharedNull → sd_threads s !! ct_thread t = None →
  let c := fresh_ptr (sd_consumers s) in
  side_ok (mkSide (sd_node s) (sd_master s)
    (alter (λ t, mkClusterTask FDIR_SERVER_TASK_TYPE_REPLICA_SLAVE (SharedConsumer c) (ct_thread t)) k (sd_tasks s))
    (<[c := consumer]> (sd_consumers s)) (<[ct_thread t := c]> (sd_threads s)) (sd_clean s) (sd_quit s)).
Proof.
  intros [Hn Ht Hth Hti Hthi] Hk Hnull Hthread c.
  assert (Hc : sd_consumers s !! c = None) by apply fresh_ptr_fresh.
  assert (Hnone : ∀ k' t', sd_tasks s !! k' = Some t' → ct_shared t' ≠ SharedConsumer c).
  { intros k' t' Hk' Hsh. specialize (Ht _ _ Hk'). unfold task_typed in Ht. rewrite Hsh in Ht.
    destruct (ct_type t'); [done|naive_solver|naive_solver|].
    destruct Ht as (c' & [= <-] & Hc' & _). rewrite Hc in Hc'. by destruct Hc'. }
  constructor; cbn; [done| | | |].
  - intros k' t'. rewrite lookup_alter_Some. intros [(<- & t0 & Ht0 & ->)|[Hne Hk']].
    + rewrite Hk in Ht0. injection Ht0 as <-. exists c. cbn. rewrite !lookup_insert_eq. by eauto.
    + specialize (Ht _ _ Hk'). revert Ht. unfold task_typed. cbn. destruct (ct_type t'); try done.
      intros (c' & Hsh & Hc' & Hth'). exists c'. split; [done|].
      rewrite lookup_insert_is_Some'. split; [by right|].
      rewrite lookup_insert_ne; [done|]. intros E. rewrite E, Hth' in Hthread. done.
  - intros th c'. rewrite lookup_insert_is_Some', lookup_insert_Some.
    intros [[_ <-]|[_ Hth']]; [by left|right; by eapply Hth].
  - intros k1 k2 t1 t2 c'. rewrite !lookup_alter_Some.
    intros [(<- & t0 & _ & ->)|[_ Hk1]] [(<- & t0' & _ & ->)|[_ Hk2]]; cbn; try done.
    + intros [= <-] Hsh. by destruct (Hnone _ _ Hk2).
    + intros Hsh [= <-]. by destruct (Hnone _ _ Hk1).
    + by eapply Hti.
  - intros th th' c'. rewrite !lookup_insert_Some.
    intros [[<- <-]|[_ H1']] [[<- E]|[_ H2']]; try done.
    + destruct (Hth _ _ H2') as [? Hx]. by rewrite Hc in Hx.
    + subst c'. destruct (Hth _ _ H1') as [? Hx]. by rewrite Hc in Hx.
    + by eapply Hthi.
Qed.

Lemma join_slave_ok k env consumer body s r s' : side_ok s →
  task_join_slave_req CLUSTER_ID task_size sizeof_ProtoHeader INCONSISTENT k env consumer body s
    = Some (r, s') → side_ok s'.
Proof.
  intros Hs. unfold task_join_slave_req.
  intros (t & s0 & [-> Ht]%get_task_inv & H1')%bind_Some_inv.
  apply bind_Some_inv in H1' as (s1 & s2 & [= <- <-] & H1').
  destruct (cluster_deal_join_slave_req _ _ _ _ _ _ _ _) as [[rc answer] j] eqn:Hj.
  destruct (Z.eqb_spec rc 0) as [->|Hrc]; [|by injection H1' as <- <-].
  apply join_slave_once, orb_false_iff in Hj as [Hnull Hthread].
  apply negb_false_iff, bool_decide_eq_true in Hnull. apply bool_decide_eq_false in Hthread.
  injection H1' as <- <-.
  exact (new_consumer_ok k t consumer s Hs Ht Hnull (proj2 (eq_None_not_Some _) Hthread)).
Qed.

(** ** What the handlers leave *)

Lemma join_resp_ok k check body s r s' : side_ok s →
  task_join_slave_resp BINLOG_INCONSISTENT k check body s = Some (r, s') → side_ok s'.
Proof.
  intros Hs. unfold task_join_slave_resp.
  intros (t & s0 & [-> Ht]%get_task_inv & H1')%bind_Some_inv.
  destruct (negb _); [by injection H1' as <- <-|]. unfold shared_replica in H1'.
  destruct (ct_shared t); try done. cbn [mbind M_bind] in H1'.
  apply bind_Some_inv in H1' as (i0 & s1 & [= <- <-] & H1').
  apply bind_Some_inv in H1' as (s2 & s3 & [= <- <-] & H1').
  apply bind_Some_inv in H1' as (rc & s4 & H1' & H2').
  apply on_master_grows in H1' as [Hg Hn]; [|apply keeps_on_replication].
  destruct (check _ _ _) as [[[? ?] ?] ?]. injection H2' as <- <-.
  eapply grows_ok; [done|done|]. rewrite Hn. apply (so_node _ Hs).
Qed.

Lemma grows_node_ok s s' : side_ok s → grows s s' → sd_node s' = sd_node s → side_ok s'.
Proof. intros Hs Hg Hn. eapply grows_ok; [done|done|]. rewrite Hn. apply (so_node _ Hs). Qed.

Lemma push_req_ok k push_ok write_ok fuel body s r s' : side_ok s →
  task_push_binlog_req mpool k push_ok write_ok fuel body s = Some (r, s') → side_ok s'.
Proof.
  intros Hs. unfold task_push_binlog_req. destruct (negb _); [by intros [= <- <-]|].
  intros (t & s0 & [-> Ht]%get_task_inv & H1')%bind_Some_inv.
  destruct (negb _); [by injection H1' as <- <-|]. unfold shared_consumer in H1'.
  destruct (ct_shared t); try done.
  apply bind_Some_inv in H1' as (? & s1 & [= <- <-] & H1').
  apply on_consumer_grows in H1' as [Hg Hn]. by eapply grows_node_ok.
Qed.

Lemma push_resp_ok k body s r s' : side_ok s →
  task_push_binlog_resp k body s = Some (r, s') → side_ok s'.
Proof.
  intros Hs. unfold task_push_binlog_resp.
  intros (t & s0 & [-> Ht]%get_task_inv & H1')%bind_Some_inv.
  destruct (negb _); [by injection H1' as <- <-|]. unfold shared_replica in H1'.
  destruct (ct_shared t); try done.
  apply bind_Some_inv in H1' as (? & s1 & [= <- <-] & H1').
  apply on_master_grows in H1' as [Hg Hn]; [|apply keeps_on_replication]. by eapply grows_node_ok.
Qed.

Lemma flags_ok c q s : side_ok s → side_ok (with_sd_flags c q s).
Proof. intros Hs. apply (grows_node_ok s); [done|by apply grows_same|done]. Qed.

Lemma quit_ok k body s r s' : side_ok s →
  cluster_deal_notify_slave_quit k body s = Some (r, s') → side_ok s'.
Proof.
  intros Hs. unfold cluster_deal_notify_slave_quit. destruct (negb _); [by intros [= <- <-]|].
  intros (t & s0 & [-> Ht]%get_task_inv & H1')%bind_Some_inv.
  destruct (negb _); [by injection H1' as <- <-|]. injection H1' as <- <-. by apply flags_ok.
Qed.

Lemma trigger_fn : node_fn cluster_relationship_trigger_reselect_master.
Proof. intros n a n' Hn Hrun. by apply (node_ok_trigger _ _ _ _ Hn) in Hrun as [? _]. Qed.

Lemma ack_ok k ack s r s' : side_ok s →
  cluster_deal_slave_ack init_size server_count work_threads INCONSISTENT k ack s = Some (r, s') →
  side_ok s'.
Proof.
  intros Hs. unfold cluster_deal_slave_ack.
  intros (t & s0 & [-> Ht]%get_task_inv & H1')%bind_Some_inv.
  destruct (negb _) in H1'; [by injection H1' as <- <-|].
  destruct (_ && _); [|by injection H1' as <- <-].
  apply bind_Some_inv in H1' as (u & s1 & H1' & [= <- <-]).
  apply on_node_grows in H1' as [Hg Hn]; [|apply trigger_fn|apply (so_node _ Hs)].
  by eapply grows_ok.
Qed.

Lemma deal_ok k cmd body env s a s' : side_ok s →
  deal_task k cmd body env s = Some (a, s') → side_ok s'.
Proof.
  intros Hs. destruct cmd; unfold cluster_deal_task; try (by intros [= <- <-]);
    intros (x & s1 & H1' & H2')%bind_Some_inv.
  - injection H1' as <- <-. destruct (cluster_deal_get_server_status _ _ _). by injection H2' as <- <-.
  - injection H2' as <- <-.
    apply on_node_grows in H1' as [Hg Hn]; [by eapply grows_ok| |apply (so_node _ Hs)].
    intros n r n' Hn Hrun. by eapply node_ok_next_master.
  - injection H2' as <- <-. by eapply join_master_ok.
  - destruct x. injection H2' as <- <-. by eapply ping_master_ok.
  - destruct x. injection H2' as <- <-. by eapply join_slave_ok.
  - destruct x. injection H2' as <- <-. by eapply join_resp_ok.
  - injection H2' as <- <-. by eapply push_req_ok.
  - injection H2' as <- <-. by eapply push_resp_ok.
  - injection H2' as <- <-. by eapply quit_ok.
  - injection H2' as <- <-. by eapply ack_ok.
Qed.

(** ** The end of a connection *)

(** The consumer goes, with the pointers of the task and of its thread. *)
Lemma end_consumer_ok k t c s : side_ok s → sd_tasks s !! k = Some t →
  ct_type t = FDIR_SERVER_TASK_TYPE_REPLICA_SLAVE → ct_shared t = SharedConsumer c →
  side_ok (mkSide (sd_node s) (sd_master s)
    (alter (λ t, mkClusterTask SF_SERVER_TASK_TYPE_NONE SharedNull (ct_thread t)) k (sd_tasks s))
    (delete c (sd_consumers s)) (delete (ct_thread t) (sd_threads s)) (sd_clean s) (sd_quit s)).
Proof.
  intros [Hn Ht Hth Hti Hthi] Hk Htype Hsh.
  assert (Hthread : sd_threads s !! ct_thread t = Some c).
  { specialize (Ht _ _ Hk). unfold task_typed in Ht. rewrite Htype in Ht. destruct Ht as (c0 & E0 & _ & Hth0). congruence. }
  constructor; cbn; [done| | | |].
  - intros k' t'. rewrite lookup_alter_Some. intros [(<- & t0 & Ht0 & ->)|[Hne Hk']]; [done|].
    specialize (Ht _ _ Hk'). revert Ht. unfold task_typed. cbn. destruct (ct_type t'); try done.
    intros (c' & Hsh' & Hc' & Hth'). exists c'. split; [done|].
    assert (Hcc : c ≠ c').
    { intros <-. by apply Hne, (Hti k k' t t' c). }
    split; [by rewrite lookup_delete_ne|]. rewrite lookup_delete_ne; [done|].
    intros E. rewrite E in Hthread. congruence.
  - intros th c'. rewrite lookup_delete_Some. intros [Hne Hth'].
    rewrite lookup_delete_ne; [by eapply Hth|]. intros <-. by apply Hne, (Hthi _ _ c).
  - intros k1 k2 t1 t2 c'. rewrite !lookup_alter_Some.
    intros [(<- & t0 & _ & ->)|[_ Hk1]] [(<- & t0' & _ & ->)|[_ Hk2]]; cbn; try done. by eapply Hti.
  - intros th th' c'. rewrite !lookup_delete_Some. intros [_ H1'] [_ H2']. by eapply Hthi.
Qed.

Lemma set_none_ok k s u s' : side_ok s →
  set_task k SF_SERVER_TASK_TYPE_NONE SharedNull s = Some (u, s') → side_ok s'.
Proof. intros Hs Hset. refine (set_task_ok _ _ _ _ _ _ Hs _ _ Hset); [by intros ? [=]|done]. Qed.

Lemma cleanup_ok k s u s' : side_ok s →
  cluster_task_finish_cleanup init_size server_count work_threads k s = Some (u, s') → side_ok s'.
Proof.
  intros Hs. unfold cluster_task_finish_cleanup.
  intros (t & s0 & [-> Ht]%get_task_inv & H1')%bind_Some_inv.
  pose proof (so_tasks _ Hs _ _ Ht) as Hty. unfold task_typed in Hty.
  destruct (ct_type t) eqn:Htype.
  - by injection H1' as <- <-.
  - by eapply set_none_ok.
  - destruct Hty as (i & Hsh & Hi). unfold is_null, shared_replica in H1'. rewrite Hsh in H1'.
    cbn [bool_decide] in H1'. rewrite bool_decide_eq_false_2 in H1' by done.
    apply bind_Some_inv in H1' as (? & s1 & [= <- <-] & H1').
    apply bind_Some_inv in H1' as (r & s2 & H1' & H2').
    apply rebind_grows in H1' as [Hg Hn]; [|done].
    eapply set_none_ok; [|exact H2']. by eapply grows_node_ok.
  - destruct Hty as (c & Hsh & _). unfold is_null, shared_consumer in H1'. rewrite Hsh in H1'.
    rewrite bool_decide_eq_false_2 in H1' by done.
    apply bind_Some_inv in H1' as (? & s1 & [= <- <-] & H1').
    injection H1' as <- <-. exact (end_consumer_ok k t c s Hs Ht Htype Hsh).
Qed.
End safe.

(** ** The loop of a thread *)

Section process.
Context (g_current_time SF_G_NETWORK_TIMEOUT SF_G_CONNECT_TIMEOUT : Z).
Context (init_size task_size sizeof_ProtoHeader CLUSTER_ID CLUSTER_MY_SERVER_ID server_count : Z).

Lemma keeps_connecting_loop addr_count key net l : ∀ success,
  keeps rep_count (connecting_loop g_current_time SF_G_CONNECT_TIMEOUT init_size CLUSTER_ID
    CLUSTER_MY_SERVER_ID addr_count key net l success).
Proof.
  induction l as [|i l IH]; intros success; cbn [connecting_loop]; [apply keeps_ret|].
  unfold connecting_turn. keeps_tac; apply IH.
Qed.

Lemma keeps_add_connected t i : keeps rep_count (add_connected server_count t i).
Proof. intros s [] s'. unfold add_connected. destruct (add_to_replication_ptr_array _ _ _); [|done]. by intros [= <-]. Qed.

Lemma keeps_connected_loop t l : keeps rep_count (connected_loop server_count t l).
Proof.
  induction l as [|i l IH]; cbn [connected_loop]; keeps_tac; try apply IH. apply keeps_add_connected.
Qed.

Lemma keeps_turn_loop start fetch l : keeps rep_count
  (turn_loop g_current_time SF_G_NETWORK_TIMEOUT task_size sizeof_ProtoHeader start fetch l).
Proof. induction l as [|i l IH]; cbn [turn_loop]; keeps_tac; apply IH. Qed.

Lemma keeps_process addr_count key net start fetch t : keeps rep_count
  (binlog_replication_process g_current_time SF_G_NETWORK_TIMEOUT SF_G_CONNECT_TIMEOUT
    init_size task_size sizeof_ProtoHeader CLUSTER_ID CLUSTER_MY_SERVER_ID server_count
    addr_count key net start fetch t).
Proof.
  unfold binlog_replication_process, deal_replication_connectings, deal_replication_connected.
  keeps_tac; [apply keeps_connecting_loop|apply keeps_connected_loop|apply keeps_turn_loop].
Qed.
End process.

(** ** All that can happen *)

Section steps.
Context `{F : FastCommon} {W : Type} `{!DataThreads W} `{!ByteOrder} `{!ServerFrame}.
Context `{!BufferCapacity} `{!FcServers}.
Context (mpool : Mpool) (init_size server_count work_threads : Z).
Context (config_sign : text) (CLUSTER_ID task_size sizeof_ProtoHeader : Z).
Context (INCONSISTENT BINLOG_INCONSISTENT : Z).
Context (ids : list Z) (Hnodup : NoDup ids) (Herr : INCONSISTENT ≠ 0).

#[local] Notation Side := (@Side W).
#[local] Notation deal_task := (cluster_deal_task mpool init_size server_count work_threads
  config_sign CLUSTER_ID task_size sizeof_ProtoHeader INCONSISTENT BINLOG_INCONSISTENT).
#[local] Notation side_ok := (@side_ok W ids).

(** A request; a connection that is accepted; one that ends, and its task that is given
    back; a round of a network thread; a round of a consumer's thread; an election or
    a ping that the server runs itself. *)
Inductive side_step (s s' : Side) : Prop :=
| side_deal k cmd body env answer :
    deal_task k cmd body env s = Some (answer, s') → side_step s s'
| side_accept k th : sd_tasks s !! k = None →
    s' = with_sd_tasks (<[k := mkClusterTask SF_SERVER_TASK_TYPE_NONE SharedNull th]>
                          (sd_tasks s)) s → side_step s s'
| side_cleanup k :
    cluster_task_finish_cleanup init_size server_count work_threads k s = Some ((), s') →
    side_step s s'
| side_free k t : sd_tasks s !! k = Some t → ct_type t = SF_SERVER_TASK_TYPE_NONE →
    s' = with_sd_tasks (delete k (sd_tasks s)) s → side_step s s'
| side_loop now network connect addr_count key net start fetch th r :
    cluster_thread_loop_callback sizeof_ProtoHeader
      (binlog_replication_process now network connect init_size task_size sizeof_ProtoHeader
         CLUSTER_ID (my_server_id (sd_node s)) server_count addr_count key net start fetch th)
      th s = Some (r, s') → side_step s s'
| side_round c write_ok :
    on_sd_consumer c (λ x, x' ← deal_binlog_round mpool write_ok x; Some ((), x')) s
      = Some ((), s') → side_step s s'
| side_election A (m : M Node A) a :
    (∀ n x n', m n = Some (x, n') → length (nd_servers n) = length ids →
       node_step config_sign CLUSTER_ID n n') →
    on_sd_node init_size server_count work_threads m s = Some (a, s') → side_step s s'.

Lemma loop_ok process th s r s' : keeps rep_count process → side_ok s →
  cluster_thread_loop_callback sizeof_ProtoHeader process th s = Some (r, s') → side_ok s'.
Proof.
  intros Hp Hs. unfold cluster_thread_loop_callback.
  intros (b & s1 & [= <- <-] & H1')%bind_Some_inv. destruct (bool_decide _).
  - apply bind_Some_inv in H1' as (u & s2 & H1' & [= <- <-]).
    apply on_master_grows in H1' as [Hg Hn]; [by eapply grows_node_ok|done].
  - apply bind_Some_inv in H1' as (s2 & s3 & [= <- <-] & H1').
    destruct (sd_threads s !! th) as [c|].
    + apply bind_Some_inv in H1' as (x & s4 & H1' & [= <- <-]).
      apply on_consumer_grows in H1' as [Hg Hn]. by eapply grows_node_ok.
    + case_decide; [|by injection H1' as <- <-].
      apply bind_Some_inv in H1' as (u & s4 & [= <- <-] & H1').
      apply bind_Some_inv in H1' as (u' & s5 & H1' & [= <- <-]).
      apply on_master_grows in H1' as [Hg Hn].
      * eapply grows_node_ok; [|exact Hg|exact Hn]. by apply flags_ok.
      * apply keeps_modify. done.
Qed.

Lemma accept_ok k th s : side_ok s → sd_tasks s !! k = None →
  side_ok (with_sd_tasks (<[k := mkClusterTask SF_SERVER_TASK_TYPE_NONE SharedNull th]>
                            (sd_tasks s)) s).
Proof.
  intros [Hn Ht Hth Hti Hthi] Hk. constructor; try done; cbn.
  - intros k' t. rewrite lookup_insert_Some. intros [[<- <-]|[_ Hk']]; [done|by apply (Ht k')].
  - intros k1 k2 t1 t2 c. rewrite !lookup_insert_Some.
    intros [[<- <-]|[_ Hk1]] [[<- <-]|[_ Hk2]]; try done. by eapply Hti.
Qed.

Lemma free_ok k s : side_ok s → side_ok (with_sd_tasks (delete k (sd_tasks s)) s).
Proof.
  intros [Hn Ht Hth Hti Hthi]. constructor; try done; cbn.
  - intros k' t. rewrite lookup_delete_Some. intros [_ Hk']. by apply (Ht k').
  - intros k1 k2 t1 t2 c. rewrite !lookup_delete_Some. intros [_ Hk1] [_ Hk2]. by eapply Hti.
Qed.

Lemma side_step_ok s s' : side_ok s → side_step s s' → side_ok s'.
Proof.
  intros Hs [k cmd body env a Hrun|k th Hk ->|k Hrun|k t _ _ ->|now network connect addr_count key
    net start fetch th r Hrun|c write_ok Hrun|A m a Hm Hrun].
  - eapply deal_ok; [exact Hnodup|exact Herr|exact Hs|exact Hrun].
  - by apply accept_ok.
  - by eapply cleanup_ok.
  - by apply free_ok.
  - eapply loop_ok; [|exact Hs|exact Hrun]. apply keeps_process.
  - apply on_consumer_grows in Hrun as [Hg Hn]. by eapply grows_node_ok.
  - apply (on_node_grows _ _ _ ids) in Hrun as [Hg Hn]; [by eapply grows_ok| |apply (so_node _ _ Hs)].
    intros n x n' Hn Hx. eapply node_ok_step; [done|exact Hn|].
    apply (Hm _ _ _ Hx). by rewrite <- (no_ids _ _ Hn), length_fmap.
Qed.

(** [C24] Whatever happens on the connections of a server, in any order: the type of every
    task says what its union holds, a server, a replication or a consumer that exists,
    and the consumer of a task is that of its thread; so when a connection ends just
    the right one is freed, and nothing points to it afterwards. *)
Theorem tasks_stay_typed s s' : side_ok s → rtc side_step s s' →
  side_ok s' ∧
  ∀ k t, sd_tasks s' !! k = Some t →
    match ct_shared t with
    | SharedNull => ct_type t = SF_SERVER_TASK_TYPE_NONE
    | SharedPeer p => ct_type t = FDIR_SERVER_TASK_TYPE_RELATIONSHIP ∧ (p < length ids)%nat
    | SharedReplica i => ct_type t = FDIR_SERVER_TASK_TYPE_REPLICA_MASTER ∧
        is_Some (ms_reps (sd_master s') !! i)
    | SharedConsumer c => ct_type t = FDIR_SERVER_TASK_TYPE_REPLICA_SLAVE ∧
        is_Some (sd_consumers s' !! c) ∧ sd_threads s' !! ct_thread t = Some c ∧
        ∀ k' t', sd_tasks s' !! k' = Some t' → ct_shared t' = SharedConsumer c → k' = k
    end.
Proof.
  intros Hs Hrun. assert (Hs' : side_ok s').
  { induction Hrun as [|s1 s2 s3 Hstep _ IH]; [done|]. apply IH. by eapply side_step_ok. }
  split; [done|]. intros k t Hk. pose proof (so_tasks _ _ Hs' _ _ Hk) as Ht.
  unfold task_typed in Ht. destruct (ct_type t).
  - by rewrite Ht.
  - destruct Ht as (p & -> & Hp). done.
  - destruct Ht as (i & -> & Hi). split; [done|]. by apply lookup_lt_is_Some.
  - destruct Ht as (c & Hsh & Hc & Hth). rewrite Hsh. split; [done|]. split; [done|]. split; [done|].
    intros k' t' Hk' Hsh'. by eapply (so_task_inj _ _ Hs').
Qed.

(** ** What has no defined behaviour *)

#[local] Notation on_sd_node := (on_sd_node init_size server_count work_threads).

(** When a request on task [t] has none. *)
Definition undefined (t : ClusterTask) (cmd : ClusterCmd) (body : text) (env : @DealEnv W)
    (s : Side) : Prop :=
  match cmd with
  | FDIR_CLUSTER_PROTO_PING_MASTER_REQ =>
    body = [] ∧ nd_master (sd_node s) = Some (nd_myself (sd_node s)) ∧
    (ct_type t = FDIR_SERVER_TASK_TYPE_REPLICA_MASTER ∨
     ct_type t = FDIR_SERVER_TASK_TYPE_REPLICA_SLAVE)
  | FDIR_CLUSTER_PROTO_NEXT_MASTER cmd =>
    on_sd_node (cluster_deal_next_master (de_init env) (de_start env) cmd body) s = None
  | FDIR_REPLICA_PROTO_PUSH_BINLOG_REQ =>
    ∃ c x, ct_shared t = SharedConsumer c ∧ sd_consumers s !! c = Some x ∧
      cluster_deal_push_binlog_req mpool (de_push_ok env) (de_write_ok env) (de_fuel env) body x
        = None
  | FDIR_REPLICA_PROTO_PUSH_BINLOG_RESP =>
    ∃ i, ct_shared t = SharedReplica i ∧
      on_replication i (cluster_deal_push_binlog_resp body) (sd_master s) = None
  | _ => False
  end.

Lemma bind_None {A B} (m : M Side A) (f : A → M Side B) s :
  (m ≫= f) s = None ↔ m s = None ∨ ∃ a s1, m s = Some (a, s1) ∧ f a s1 = None.
Proof.
  unfold mbind, M_bind. destruct (m s) as [[a s1]|]; split; try naive_solver.
Qed.

(** A function that starts no replication is defined when it is. *)
Lemma on_node_defined {A} (m : M Node A) (s : Side) : keeps nd_starts m →
  (∀ n, node_view n = node_view (sd_node s) → is_Some (m n)) → is_Some (on_sd_node m s).
Proof.
  intros Hk Hm. unfold ClusterTask.on_sd_node. set (n0 := with_modes _ _ _ _ _ _).
  destruct (Hm n0 eq_refl) as [[a n'] Hrun]. rewrite Hrun.
  assert (Hst : nd_starts n' = nd_starts (sd_node s)) by by apply Hk in Hrun.
  rewrite Hst, Z.eqb_refl. by eexists.
Qed.

Lemma get_task_run k (s : Side) t {B} (f : ClusterTask → M Side B) : sd_tasks s !! k = Some t →
  (get_task k ≫= f) s = f t s.
Proof. intros Ht. unfold get_task. unfold mbind, M_bind, get_st, non_null. by rewrite Ht. Qed.

Lemma join_defined peer body (s : Side) :
  is_Some (on_sd_node (cluster_deal_join_master config_sign CLUSTER_ID body peer) s).
Proof.
  apply on_node_defined; [unfold cluster_deal_join_master; keeps_tac|].
  intros n _. unfold cluster_deal_join_master. mexec.
  repeat (case_match; try by eexists).
Qed.

Lemma ping_defined peer body s : side_ok s →
  from_option (λ p, (p < length ids)%nat) True peer →
  is_Some (on_sd_node (cluster_deal_ping_master body peer) s).
Proof.
  intros Hs Hp. apply on_node_defined; [unfold cluster_deal_ping_master; keeps_tac|].
  intros n Hn. unfold cluster_deal_ping_master. mexec.
  destruct (negb _); [by eexists|]. destruct peer as [p|]; [|by eexists].
  case_decide; [|by eexists].
  assert (Hok : node_ok ids n) by (eapply node_ok_view; [exact Hn|apply (so_node _ _ Hs)]).
  assert (is_Some (nd_servers n !! p)) as [sp ->].
  { apply lookup_lt_is_Some. rewrite <- (length_fmap cs_id), (no_ids _ _ Hok). done. }
  destruct (negb _); by eexists.
Qed.

Lemma trigger_defined (s : Side) : is_Some (on_sd_node cluster_relationship_trigger_reselect_master s).
Proof.
  apply on_node_defined.
  - unfold cluster_relationship_trigger_reselect_master, cluster_unset_master. keeps_tac.
  - intros n _. unfold cluster_relationship_trigger_reselect_master, cluster_unset_master. mexec.
    cbn [nd_master with_modes]. destruct (nd_master n); by eexists.
Qed.

Lemma bind_ret_None {A B} (m : M Side A) (f : A → B) (s : Side) :
  (x ← m; mret (f x)) s = None ↔ m s = None.
Proof. rewrite bind_None. split; [|by left]. intros [?|(a & s1 & _ & [=])]. done. Qed.

Lemma not_None {A} (o : option A) : is_Some o → o = None ↔ False.
Proof. by intros [x ->]. Qed.

Lemma join_master_defined k t body (s : Side) : sd_tasks s !! k = Some t →
  is_Some (task_join_master init_size server_count work_threads config_sign CLUSTER_ID k body s).
Proof.
  intros Ht. unfold task_join_master. rewrite (get_task_run _ _ _ _ Ht).
  destruct (join_defined (if is_null t then None else Some 0%nat) body s) as [[[rc p] s1] Hrun].
  rewrite (bind_run _ _ _ _ _ Hrun). cbn. mexec.
  destruct (fdir_get_server_by_id _ _); [destruct (rc =? 0)|]; by eexists.
Qed.

Lemma ping_undefined k t body (s : Side) : side_ok s → sd_tasks s !! k = Some t →
  task_ping_master init_size server_count work_threads k body s = None ↔
  body = [] ∧ nd_master (sd_node s) = Some (nd_myself (sd_node s)) ∧
  (ct_type t = FDIR_SERVER_TASK_TYPE_REPLICA_MASTER ∨
   ct_type t = FDIR_SERVER_TASK_TYPE_REPLICA_SLAVE).
Proof.
  intros Hs Ht. pose proof (so_tasks _ _ Hs _ _ Ht) as Hty. unfold task_typed in Hty.
  unfold task_ping_master. rewrite (get_task_run _ _ _ _ Ht).
  unfold is_master. unfold mbind at 1 2, M_bind at 1 2, get_st, mret at 1, M_ret at 1. cbn beta iota.
  assert (Hbad : ∀ sh, ct_shared t = sh → (∃ i, sh = SharedReplica i) ∨ (∃ c, sh = SharedConsumer c) →
    (let result := server_expect_body_length (zlen body) 0 in
     if negb (result =? 0) then mret (result, [] : text)
     else if bool_decide (nd_master (sd_node s) = Some (nd_myself (sd_node s))) then stuck
     else mret (EINVAL, [])) s = None ↔
    body = [] ∧ nd_master (sd_node s) = Some (nd_myself (sd_node s))).
  { intros sh _ _. pose proof (expect_body_length_law (zlen body) 0) as Hlen.
    assert (Hnil : zlen body = 0 ↔ body = []) by (unfold zlen; destruct body; simpl; split; (done || lia)).
    rewrite Hnil in Hlen. cbv zeta.
    destruct (Z.eqb_spec (server_expect_body_length (zlen body) 0) 0) as [E|E]; cbn [negb].
    - case_bool_decide; [|naive_solver]. unfold stuck. tauto.
    - split; [done|]. tauto. }
  destruct (ct_type t).
  - rewrite Hty, not_None; [naive_solver|by apply ping_defined].
  - destruct Hty as (p & -> & Hp). rewrite not_None; [naive_solver|by apply ping_defined].
  - destruct Hty as (i & Hsh & _). rewrite Hsh. rewrite (Hbad _ Hsh); [tauto|left; by exists i].
  - destruct Hty as (c & Hsh & _). rewrite Hsh. rewrite (Hbad _ Hsh); [tauto|right; by exists c].
Qed.

Lemma join_slave_defined k t env consumer body (s : Side) : sd_tasks s !! k = Some t →
  is_Some (task_join_slave_req CLUSTER_ID task_size sizeof_ProtoHeader INCONSISTENT k env consumer body s).
Proof.
  intros Ht. unfold task_join_slave_req. rewrite (get_task_run _ _ _ _ Ht).
  unfold mbind at 1, M_bind at 1, get_st.
  destruct (cluster_deal_join_slave_req _ _ _ _ _ _ _ _) as [[rc answer] j].
  destruct (rc =? 0); by eexists.
Qed.

Lemma join_resp_defined k t check body (s : Side) : side_ok s → sd_tasks s !! k = Some t →
  is_Some (task_join_slave_resp BINLOG_INCONSISTENT k check body s).
Proof.
  intros Hs Ht. pose proof (so_tasks _ _ Hs _ _ Ht) as Hty. unfold task_typed in Hty.
  unfold task_join_slave_resp. rewrite (get_task_run _ _ _ _ Ht).
  unfold check_replication_master_task, is_null, shared_replica.
  case_decide as Htype; [|by eexists]. rewrite Htype in Hty. destruct Hty as (i & -> & Hi).
  rewrite bool_decide_eq_false_2 by done. cbn [negb Z.eqb].
  unfold mbind, M_bind, get_st, mret, M_ret. cbn beta iota.
  apply lookup_lt_is_Some in Hi as [r Hr].
  unfold on_sd_master, on_replication. rewrite Hr.
  set (r0 := with_rl_push _ r). set (cons := λ count lines pos, _).
  assert (is_Some (cluster_deal_join_slave_resp cons body r0)) as [[rc r'] ->].
  { unfold cluster_deal_join_slave_resp. mexec. destruct (negb _); [by eexists|].
    destruct (negb _); [by eexists|]. destruct (cons _ _ _) as [rc [a b]].
    destruct (negb _); by eexists. }
  destruct (check _ _ _) as [[[? ?] ?] ?]. by eexists.
Qed.

Lemma push_req_undefined k t push_ok write_ok fuel body (s : Side) : side_ok s → sd_tasks s !! k = Some t →
  task_push_binlog_req mpool k push_ok write_ok fuel body s = None ↔
  ∃ c x, ct_shared t = SharedConsumer c ∧ sd_consumers s !! c = Some x ∧
    cluster_deal_push_binlog_req mpool push_ok write_ok fuel body x = None.
Proof.
  intros Hs Ht. pose proof (so_tasks _ _ Hs _ _ Ht) as Hty. unfold task_typed in Hty.
  unfold task_push_binlog_req.
  destruct (negb _) eqn:Hmin.
  { split; [done|]. intros (c & x & _ & _ & Hnone). unfold cluster_deal_push_binlog_req in Hnone.
    by rewrite Hmin in Hnone. }
  rewrite (get_task_run _ _ _ _ Ht).
  unfold check_replication_slave_task, is_null, shared_consumer. case_decide as Htype.
  - rewrite Htype in Hty. destruct Hty as (c & Hsh & [x Hx] & _). rewrite Hsh.
    rewrite bool_decide_eq_false_2 by done. cbn [negb Z.eqb].
    unfold mbind, M_bind, mret, M_ret, on_sd_consumer. rewrite Hx.
    destruct (cluster_deal_push_binlog_req mpool push_ok write_ok fuel body x) as [[a x']|] eqn:Hrun;
      split; try done; [|naive_solver].
    intros (c' & x'' & [= <-] & Hx'' & Hnone). congruence.
  - split; [done|]. intros (c & x & Hsh & _). rewrite Hsh in Hty. exfalso.
    destruct (ct_type t); naive_solver.
Qed.

Lemma push_resp_undefined k t body (s : Side) : side_ok s → sd_tasks s !! k = Some t →
  task_push_binlog_resp k body s = None ↔
  ∃ i, ct_shared t = SharedReplica i ∧
    on_replication i (cluster_deal_push_binlog_resp body) (sd_master s) = None.
Proof.
  intros Hs Ht. pose proof (so_tasks _ _ Hs _ _ Ht) as Hty. unfold task_typed in Hty.
  unfold task_push_binlog_resp. rewrite (get_task_run _ _ _ _ Ht).
  unfold check_replication_master_task, is_null, shared_replica. case_decide as Htype.
  - rewrite Htype in Hty. destruct Hty as (i & Hsh & _). rewrite Hsh.
    rewrite bool_decide_eq_false_2 by done. cbn [negb Z.eqb].
    unfold mbind, M_bind, mret, M_ret, on_sd_master.
    destruct (on_replication i _ _) as [[a m']|] eqn:Hrun; split; try done; [|naive_solver].
    intros (i' & [= <-] & Hnone). congruence.
  - split; [done|]. intros (i & Hsh & _). rewrite Hsh in Hty. exfalso.
    destruct (ct_type t); naive_solver.
Qed.

Lemma quit_defined k t body (s : Side) : sd_tasks s !! k = Some t →
  is_Some (cluster_deal_notify_slave_quit k body s).
Proof.
  intros Ht. unfold cluster_deal_notify_slave_quit. destruct (negb _); [by eexists|].
  rewrite (get_task_run _ _ _ _ Ht). destruct (negb _); by eexists.
Qed.

Lemma ack_defined k t ack (s : Side) : sd_tasks s !! k = Some t →
  is_Some (cluster_deal_slave_ack init_size server_count work_threads INCONSISTENT k ack s).
Proof.
  intros Ht. unfold cluster_deal_slave_ack. rewrite (get_task_run _ _ _ _ Ht).
  destruct (negb (check_replication_master_task t =? 0)); [by eexists|].
  destruct (_ && _); [|by eexists].
  destruct (trigger_defined s) as [[u s1] Hrun]. rewrite (bind_run _ _ _ _ _ Hrun). by eexists.
Qed.

(** [C25] When a request on a connection has no defined behaviour: exactly when the handler
    of the slave's consumer or of the replication that the task belongs to has none,
    when becoming the master starts replications that have none, or when a master gets
    a ping over a connection for replication, which reads another pointer of the union
    as the server that joined. *)
Theorem request_undefined k t cmd body env (s : Side) : side_ok s → sd_tasks s !! k = Some t →
  deal_task k cmd body env s = None ↔ undefined t cmd body env s.
Proof.
  intros Hs Ht. destruct cmd; unfold cluster_deal_task, undefined; try done.
  - unfold mbind, M_bind, get_st. destruct (cluster_deal_get_server_status _ _ _). done.
  - apply (bind_ret_None _ (λ r, (r, true, []))).
  - etrans; [apply (bind_ret_None _ (λ r, (r, true, [])))|]. apply not_None. by eapply join_master_defined.
  - rewrite <- (ping_undefined k t body s Hs Ht), bind_None. split; [|by left].
    by intros [?|([? ?] & s1 & _ & [=])].
  - split; [|done]. rewrite bind_None. intros [Hnone|([? ?] & s1 & _ & [=])].
    eapply (not_None _); [|exact Hnone]. by eapply join_slave_defined.
  - split; [|done]. rewrite bind_None. intros [Hnone|([? ?] & s1 & _ & [=])].
    eapply (not_None _); [|exact Hnone]. by eapply join_resp_defined.
  - rewrite <- (push_req_undefined k t _ _ _ body s Hs Ht). apply (bind_ret_None _ (λ r, (force_close r, false, []))).
  - rewrite <- (push_resp_undefined k t body s Hs Ht). apply (bind_ret_None _ (λ r, (force_close r, false, []))).
  - etrans; [apply (bind_ret_None _ (λ r, (r, false, [])))|]. apply not_None. by eapply quit_defined.
  - etrans; [apply (bind_ret_None _ (λ r, (r, false, [])))|]. apply not_None. by eapply ack_defined.
Qed.
End steps.
