(* ===== verification/ClusterTaskDemo.v ===== *)
(** * Connections, concretely

    The theorems of [ClusterTaskSafe] at a slave whose master connects to it and goes
    away, and at a master that is pinged over a connection for replication. *)

From Stdlib Require Import Ascii.
From S2P Require Import Prelude CText ServerTypes Proto Service BinlogPack BinlogRecord.
From S2P Require Import BinlogReplay ReplicaConsumer Replication Cluster Election ClusterTask.
From S2P Require Import ClusterTaskSafe WireDemo BinlogDemo ReplicaDemo ClusterDemo.

#[local] Notation W := (list LogRecord).
#[local] Notation deal_task :=
  (cluster_deal_task MpoolNull 256 3 2 sign 7 256 10 9999 9998).

Definition no_check : Consistency := λ count lines pos, (0, count, 0, pos).
Definition the_env : @DealEnv W :=
  mkDealEnv 0 0 join_env slave_at_start no_check true true 2 0 0.

(** A slave of server 1 without connections. *)
Definition idle : @Side W := mkSide follows (mkMaster [] ∅ ∅ [] []) ∅ ∅ ∅ ∅ false.

Lemma idle_ok : side_ok cluster_ids idle.
Proof.
  constructor; unfold idle; cbn [sd_node sd_tasks sd_threads].
  - node_ok_tac.
  - intros ? ? E. by rewrite lookup_empty in E.
  - intros ? ? E. by rewrite lookup_empty in E.
  - intros ? ? ? ? ? E. by rewrite lookup_empty in E.
  - intros ? ? ? E. by rewrite lookup_empty in E.
Qed.

Definition accepted_one : @Side W :=
  with_sd_tasks (<[1%positive := mkClusterTask SF_SERVER_TASK_TYPE_NONE SharedNull 0]>
                   (sd_tasks idle)) idle.
Definition join_body : text := join_slave_body (JoinReq 7 2 256 (key_of 1)).
Definition state_of {A} (o : option (A * @Side W)) (s : @Side W) : @Side W :=
  match o with Some (_, s') => s' | None => s end.
Definition connected_one : @Side W :=
  state_of (deal_task 1%positive FDIR_REPLICA_PROTO_JOIN_SLAVE_REQ join_body the_env accepted_one)
    accepted_one.
Definition ended : @Side W :=
  state_of (cluster_task_finish_cleanup 256 3 2 1%positive connected_one) connected_one.

Example connected_typed : ct_type <$> sd_tasks connected_one !! 1%positive
    = Some FDIR_SERVER_TASK_TYPE_REPLICA_SLAVE ∧
  sd_threads connected_one !! 0 = Some 1%positive ∧ sd_threads ended !! 0 = None ∧
  sd_consumers ended !! 1%positive = None.
Proof. split; [|split; [|split]]; vm_compute; reflexivity. Qed.

Lemma run_of_idle :
  rtc (side_step MpoolNull 256 3 2 sign 7 256 10 9999 9998 cluster_ids) idle ended.
Proof.
  eapply rtc_l; [|eapply rtc_l; [|eapply rtc_once]].
  - apply (side_accept _ _ _ _ _ _ _ _ _ _ _ idle accepted_one 1%positive 0); reflexivity.
  - apply (side_deal _ _ _ _ _ _ _ _ _ _ _ accepted_one connected_one 1%positive
             FDIR_REPLICA_PROTO_JOIN_SLAVE_REQ join_body the_env
             (match deal_task 1%positive FDIR_REPLICA_PROTO_JOIN_SLAVE_REQ join_body the_env
                      accepted_one with Some (a, _) => a | None => (0, false, []) end)).
    vm_compute. reflexivity.
  - apply (side_cleanup _ _ _ _ _ _ _ _ _ _ _ connected_one ended 1%positive).
    vm_compute. reflexivity.
Qed.

Lemma tasks_stay_typed_witness : side_ok cluster_ids ended ∧
  ∀ k t, sd_tasks ended !! k = Some t → ct_shared t = SharedNull →
    ct_type t = SF_SERVER_TASK_TYPE_NONE.
Proof.
  destruct (tasks_stay_typed MpoolNull 256 3 2 sign 7 256 10 9999 9998 cluster_ids
    cluster_ids_nodup ltac:(discriminate) idle ended idle_ok run_of_idle) as [Hok Hty].
  split; [exact Hok|]. intros k t Hk Hsh. specialize (Hty k t Hk). rewrite Hsh in Hty. exact Hty.
Defined.

(** Server 1 is the master; task 5 is its connection to server 0 for replication. *)
Definition replicating : @Side W :=
  mkSide the_master (mkMaster [to_slave] ∅ ∅ [] [])
    {[ 5%positive := mkClusterTask FDIR_SERVER_TASK_TYPE_REPLICA_MASTER (SharedReplica 0) 0 ]}
    ∅ ∅ ∅ false.

Lemma replicating_ok : side_ok cluster_ids replicating.
Proof.
  constructor; unfold replicating; cbn [sd_node sd_tasks sd_threads].
  - node_ok_tac.
  - intros k t. rewrite lookup_singleton_Some. intros [_ <-]. exists 0%nat. split; [done|].
    unfold rep_count. simpl. lia.
  - intros ? ? E. by rewrite lookup_empty in E.
  - intros k k' t t' c. rewrite !lookup_singleton_Some. intros [<- _] [<- _]. done.
  - intros ? ? ? E. by rewrite lookup_empty in E.
Qed.

Lemma request_undefined_witness :
  deal_task 5%positive FDIR_CLUSTER_PROTO_PING_MASTER_REQ [] the_env replicating = None.
Proof.
  apply (request_undefined MpoolNull 256 3 2 sign 7 256 10 9999 9998 cluster_ids
    ltac:(discriminate) 5%positive
    (mkClusterTask FDIR_SERVER_TASK_TYPE_REPLICA_MASTER (SharedReplica 0) 0)
    FDIR_CLUSTER_PROTO_PING_MASTER_REQ [] the_env replicating replicating_ok).
  - reflexivity.
  - split; [reflexivity|]. split; [reflexivity|left; reflexivity].
Defined.
